(* ===== verification/_CoqProject ===== *)
-Q . S2P
Prelude.v
PyData.v
Codecs.v
DecimalCtx.v
Errors.v
Effects.v
Store.v
Pricing.v
Settings.v
Billing.v
BillingFacts.v
BillingProps.v
SettlementVerification.v
SettlementProps.v
BrokerSettlement.v
PaymentDaemon.v
PaymentDaemonClients.v
Registry.v
Wholesale.v
WholesaleFacts.v
WholesaleProps.v
Payments.v
Webhooks.v
RateLimiter.v
Telemetry.v
TelemetryProps.v
WebhookProps.v
PaymentsProps.v
SessionCore.v
SessionSettle.v
SessionPrepare.v
SessionFlows.v
Jobs.v
JobReconcile.v
Endpoints.v
AdminResolve.v
Mail.v
Credentials.v
Accounts.v
Access.v
Usage.v
Signing.v
Catalog.v
CatalogProps.v
Operators.v
AdminReports.v
Portal.v
Notifications.v
ServerEvents.v
TelemetryEndpoints.v
Scheduler.v
SessionFacts.v
EngagementSpec.v
EngagementKeeps.v
SessionTx.v
SessionClaims.v
JobTx.v
IdentitySpec.v
ServiceTx.v
Engagements.v
Demo.v
OauthEndpoints.v
NoticeProps.v
IdentityProps.v
OwnerProps.v
CredentialProps.v
EndpointProps.v
SessionProps.v
JobProps.v
EngagementProps.v
UsageProps.v
SdkBase.v
SdkTelemetry.v
SdkClient.v
SdkRunner.v
SdkFacts.v
SdkProps.v
SdkRunnerProps.v
SdkAgreement.v
Ingress.v
