(* ===== verification/Prelude.v ===== *)
(** * Livepeer Open Clearinghouse: a verification library

    A model of the clearinghouse service of
    src/src/livepeer_open_clearinghouse (Python, FastAPI, SQLAlchemy) and of
    the Python SDK its customers use, and the theorems that the service's money
    is accounted for and its accounts are guarded, and that the SDK sends what
    it committed to.  Paths below are relative to that directory, those of the
    SDK to src/sdks/python/src/livepeer_open_clearinghouse_sdk.

    ** The program

    Customers sign up, obtain API keys and open paid sessions and paid jobs.
    For each the service selects a route (providers/registry_daemon), holds the
    customer's credit (domains/billing), has the payment daemon sign an
    authorization for that route (providers/payment_daemon, domains/payments),
    keeps the operator's account at the broker funded (domains/wholesale), and
    later bills the hold by the broker's signed settlement
    (providers/settlement_verification).  The sessions and jobs services
    (domains/sessions, domains/jobs) tie these together over one table of
    engagements; the scheduler (main.py) runs the same services in the
    background.  Around them: accounts and keys (domains/accounts,
    domains/api_keys), operators (domains/admin), notifications and webhooks
    (domains/notifications), telemetry (domains/telemetry), the catalog
    (domains/discovery) and rate limits (providers/ratelimit).

    ** Layers and files

    Foundations.
    - Prelude: tactics, the hint databases [loc] and [loc_simpl], lemmas on
      lists, sums and options.
    - PyData: JSON values and dicts, timestamps, byte and hexadecimal strings,
      Python's integer parsing.  Codecs: base64 and UUIDs.
    - DecimalCtx: the decimal context of the money columns; whole numbers
      rounded half-even to 28 digits ([dadd], [dsub]; [in_prec] is exactness).
    - Errors: errors.py, results and the exceptions the code distinguishes.
    - Effects: the transactional monad [M DB W] of providers/db/engine.py, with
      sessions of their own ([db_independent]), and the frameworks [Keeps] (a
      predicate every outcome preserves), [Behaved] (a predicate other
      transactions preserve) and [Tx] (a predicate restored by a normal return,
      and of the committed database whatever happens).
    - Store: the tables (domains/*/repo.py) as one record [DB], the identity
      tables and the notice tables grouped in records of their own.

    Paying.
    - Pricing, Billing, BillingFacts, BillingProps: domains/billing.
    - Settings: settings.py.
    - SettlementVerification, SettlementProps:
      providers/settlement_verification.py.
    - BrokerSettlement: providers/broker_settlement.py, and the
      interfaces ([BrokerAccountClient], [BrokerSettlementClient]) its callers
      are proved against.
    - PaymentDaemon, PaymentDaemonClients: providers/payment_daemon/client.py:
      the requests and validators, the interface [PaymentDaemonClient], the
      mock and the gRPC client.
    - Registry: providers/registry_daemon/client.py, the selection half.
    - Wholesale, WholesaleFacts, WholesaleProps: domains/wholesale.
    - Payments, PaymentsProps: domains/payments.
    - SessionCore, SessionSettle, SessionPrepare, SessionFlows, SessionProps:
      domains/sessions: rows, grants and claims; settlement and the janitor
      passes; preparation tokens; opening and refilling.
    - Jobs, JobReconcile, JobProps: domains/jobs.
    - Endpoints, EndpointProps: the create endpoints of domains/*/runtime.py
      with their idempotency claims.
    - AdminResolve: the operator's resolution of stuck work, domains/admin.
    - Usage, UsageProps: domains/usage.  AdminReports: the reads of
      domains/admin, the SDK manifest and its key.  Signing: providers/signing.

    Accounts.
    - Credentials, Mail: providers/auth, providers/email.
    - Accounts, Access: domains/accounts, domains/api_keys, dependencies.py.
    - Operators: the identity half of domains/admin.
    - Portal: the endpoints of accounts, keys, operators and billing.
    - OauthEndpoints: signing in by OAuth, providers/oauth included.
    - CredentialProps, OwnerProps, IdentityProps: their theorems.

    Notices.
    - Notifications, Webhooks, WebhookProps: domains/notifications.
    - Telemetry, ServerEvents, TelemetryEndpoints, TelemetryProps:
      domains/telemetry.
    - NoticeProps: theorems on notifications and server events.

    Edges.
    - Catalog, CatalogProps: the registry's gRPC client, its listing and the
      listing's cache, and domains/discovery.
    - RateLimiter: providers/ratelimit, in IEEE doubles.
    - Scheduler: the interval tasks of main.py, and which are registered.
    - Ingress: the decompression of requests (providers/http), readiness, the
      start-up of main.py and the guard of the metrics.

    The whole service.
    - SessionFacts: what a live and a closed engagement's rows, grants and
      ledger entries satisfy ([engagements_ok]).
    - EngagementSpec: the abstract account of an engagement ([account],
      [spec_step]) and the simulation [sound].
    - EngagementKeeps, SessionTx, SessionClaims, JobTx, ServiceTx: every
      operation keeps or restores [sound].
    - IdentitySpec: how the identity tables may evolve, and the services that
      leave them alone; IdentityProps has the ones that write them.
    - Engagements: every entry point, with its credentials as the request
      carries them, as one inductive type ([operation]), and the loop that
      serves them ([run_service]).  [Models] collects the interfaces the paying
      services need, [Edges] those of the limiter, process memory, transports
      and catalog.
    - Demo: a service to evaluate the properties on.
    - EngagementProps, IdentityProps, OwnerProps: the theorems about whole runs.

    The SDK.
    - SdkBase: errors.py, JSON values with floats, exceptions, the monad
      [Act S A] of a method over an object's state, and the third-party code:
      text codecs ([SdkText]) and transports ([SdkWorld]).
    - SdkTelemetry: telemetry.py, the emitter and its background task.
    - SdkClient: client.py, jobs and sessions.
    - SdkRunner: session_runner.py, one session with its broker.
    - SdkFacts: what every method sends and does to the emitter, over a world
      that logs ([Logged]), and a scripted world to evaluate on.
    - SdkProps, SdkRunnerProps: the theorems on client and runner;
      SdkAgreement: those on the SDK together with the service.

    ** What the theorems show

    - Whole runs (EngagementProps): any sequence of requests and tasks, failing
      or not, conserves every customer's money, implements the account
      automaton (one claim, raises, one final settlement within the hold) and
      keeps the tables well formed.
    - Engagements (SessionProps, JobProps): the effect of a close and that
      repeating it changes nothing; that a job's hold is released without
      settlement only on a verified proof observed after expiry; that receiver
      reports only advance a grant; that a claim's recursion ends; and that the
      session janitor discards its own reconciliation (a defect).
    - Requests (EndpointProps, PaymentsProps): a create request is answered
      once; at most one worker owns it; an unknown outcome is never retried; an
      authorization states exactly the selected route.
    - Usage (UsageProps): every breakdown of a summary adds up to its totals,
      and the totals agree with the customer's ledger.
    - Identity (IdentityProps, OwnerProps, CredentialProps): what was revoked
      stays revoked over any run; the organisation keeps an owner unless two
      requests race; what a password reset leaves behind; an OAuth sign-in is
      vouched for by its provider; keys round-trip.
    - Billing: balances equal their ledgers, spend windows stay under their
      caps, replays are idempotent, the sweep tops up whom it should.
    - Wholesale: the exposure budget always covers the funded accounts under
      any interleaving of funding workers, and claims respect every limit.
    - Settlements: acceptance of job, session and non-admission envelopes is
      characterised exactly, keys must be delegated and current, sequence
      numbers increase, cumulative bills telescope.
    - Notices (NoticeProps, WebhookProps, TelemetryProps): emitting an event
      neither fails nor touches anything but logs; preferences are what was
      set; an inbound webhook is accepted exactly when its signature is; a
      batch of events is accounted for one by one; following the cursors of a
      query lists each matching event once; globs mean what they say.
    - Edges: the catalog lists every eligible offering once and no older than
      its bounds, also under invalidation; the limiter's burst is its capacity;
      codecs and signed manifests round-trip; unsafe production settings are
      refused; a batch the SDK flushes arrives behind the middleware as it was.

    - The SDK (SdkProps, SdkRunnerProps, SdkAgreement): the broker is sent
      exactly the body whose digest was authorized, once, and its own claim is
      settled; a runner stays with its session, raises its cap only as approved
      and carries a granted refill through; telemetry loses no event uncounted,
      and closing flushes; the service's errors come out as their classes; and
      leaving a used session open is refused by the service (a defect).

    ** Conventions

    - A computation [M DB W A] maps a state (committed database, the session's
      working copy, pending flag, world) to a result and a state.  An exception
      keeps the working copy; [session_scope] commits or rolls back.
    - Row locks are not represented: a computation runs as if alone between its
      write barriers.  What other transactions commit meanwhile is scripted in
      [st_races]: at [db_race] a uniqueness constraint is lost to one, at
      [db_interleave] one commits between two statements.  Theorems quantify
      over the script.
    - Code outside the repository enters as a parameter: the clock, UUIDs,
      hashes, random bytes and text codecs ([Runtime]), password hashing and
      signed cookies ([Credentials]), canonical JSON, Keccak, signature
      recovery and protobuf parsing ([SettlementLib]), the remote services as
      classes over an abstract world [W].  Theorems hold for every instance;
      documented behaviour of such code is stated as a class of laws where it
      is needed ([Sha256Laws], [IsoLaws]).
    - Identifiers are [N], times are microseconds with an awareness flag, money
      is a whole number of wei, tables with a key are maps and the others lists
      in insertion order.
    - The service's JSON documents have no floats ([json]); those the SDK reads
      do ([value]).  The clocks of the notification throttles
      and of the catalog cache count exactly; the rate limiter's is a double.
    - In the SDK, concurrency is what its awaits allow: at every wait of the
      data plane ([pause]) the background task gets as many turns, with or
      without its deadline passed, as the world says ([sw_turns]); a runner's
      listener handles one frame at a time ([socket_event]).  Theorems quantify
      over the world, the callbacks and the program that makes the calls.
    - Fuel: the only unbounded recursion of the code, a lost claim calling
      itself, is unrolled twice; [SessionProps.claim_recursion_ends] shows that
      is enough.  The loop of the portal download takes the number of pages as
      fuel; [TelemetryProps.cursor_pages_complete] shows that one more than the
      number of rows is enough.  Other loops are structural over the rows
      selected.

    ** Not modelled

    Metrics and logging; HTTP routing, response rendering and the attachment of
    rate limits to routes; the telemetry emitted inside the session and job
    flows (the emitters are modelled, and cannot affect the flows but for
    logs); the failure of a flush inside a swallowed emission; transports (HTTP,
    sockets, the set-up of gRPC channels): third-party code.
    Migrations and scripts (SQL for one database), generated code (the protobuf
    stubs, the SDK's wire models), the SDKs in other languages, the conformance
    harness, the examples and the portal's JavaScript. *)

From stdpp Require Export base gmap strings list sorting.
From Stdlib Require Export ZArith Lia.

Declare Scope loc_scope.
Delimit Scope loc_scope with loc.
#[export] Set Default Goal Selector "!".

Create HintDb loc discriminated.
Create Rewrite HintDb loc_simpl.

(** ** Tactics *)

(** Split on the scrutinee of the first match in the goal or in a hypothesis,
    keeping its equation. *)
Ltac split_match :=
  match goal with
  | H : context [ match ?x with _ => _ end ] |- _ =>
      lazymatch x with context [ match _ with _ => _ end ] => fail | _ => idtac end;
      destruct x eqn:?
  | |- context [ match ?x with _ => _ end ] =>
      lazymatch x with context [ match _ with _ => _ end ] => fail | _ => idtac end;
      destruct x eqn:?
  end.

(** Turn boolean tests over [Z], strings and decidable equality into
    propositions. *)
Ltac bool_props :=
  repeat match goal with
  | H : (_ && _)%bool = true |- _ => apply andb_true_iff in H; destruct H
  | H : (_ || _)%bool = false |- _ => apply orb_false_iff in H; destruct H
  | H : negb _ = true |- _ => apply negb_true_iff in H
  | H : negb _ = false |- _ => apply negb_false_iff in H
  | H : Z.eqb _ _ = true |- _ => apply Z.eqb_eq in H
  | H : Z.eqb _ _ = false |- _ => apply Z.eqb_neq in H
  | H : Z.ltb _ _ = true |- _ => apply Z.ltb_lt in H
  | H : Z.ltb _ _ = false |- _ => apply Z.ltb_ge in H
  | H : Z.leb _ _ = true |- _ => apply Z.leb_le in H
  | H : Z.leb _ _ = false |- _ => apply Z.leb_gt in H
  | H : bool_decide _ = true |- _ => apply bool_decide_eq_true in H
  | H : bool_decide _ = false |- _ => apply bool_decide_eq_false in H
  end.

Ltac crush_match := repeat (split_match; simplify_eq/=); bool_props.

(** ** Sums of integers over lists *)

Definition Zsum (l : list Z) : Z := foldr Z.add 0%Z l.

Definition sum_by {A} (f : A -> Z) (l : list A) : Z := Zsum (map f l).

Lemma Zsum_app (l k : list Z) : Zsum (l ++ k) = (Zsum l + Zsum k)%Z.
Proof. unfold Zsum. induction l as [|x l IH]; cbn in *; lia. Qed.

Lemma sum_by_app {A} (f : A -> Z) (l k : list A) :
  sum_by f (l ++ k) = (sum_by f l + sum_by f k)%Z.
Proof. unfold sum_by. by rewrite map_app, Zsum_app. Qed.

Lemma sum_by_cons {A} (f : A -> Z) (x : A) (l : list A) :
  sum_by f (x :: l) = (f x + sum_by f l)%Z.
Proof. done. Qed.

Lemma sum_by_snoc {A} (f : A -> Z) (l : list A) (x : A) :
  sum_by f (l ++ [x]) = (sum_by f l + f x)%Z.
Proof. rewrite sum_by_app, sum_by_cons. unfold sum_by at 2. cbn. lia. Qed.

Lemma sum_by_nonneg {A} (f : A -> Z) (l : list A) :
  Forall (fun x => 0 <= f x)%Z l -> (0 <= sum_by f l)%Z.
Proof. unfold sum_by, Zsum. induction 1; cbn in *; lia. Qed.

Lemma sum_by_member {A} (f : A -> Z) (l : list A) (x : A) :
  x ∈ l -> Forall (fun y => 0 <= f y)%Z l -> (f x <= sum_by f l)%Z.
Proof.
  intros Hin Hl. induction Hl as [|y l Hy Hl IH]; [by apply elem_of_nil in Hin|].
  rewrite sum_by_cons. apply elem_of_cons in Hin as [->|Hin].
  - pose proof (sum_by_nonneg f l Hl). lia.
  - specialize (IH Hin). lia.
Qed.

Lemma sum_by_filter_cons {A} (f : A -> Z) (P : A -> Prop) `{!forall x, Decision (P x)}
    (x : A) (l : list A) :
  sum_by f (filter P (l ++ [x]))
  = (sum_by f (filter P l) + (if decide (P x) then f x else 0))%Z.
Proof.
  rewrite filter_app, sum_by_app. f_equal. rewrite filter_cons, filter_nil.
  case_decide; unfold sum_by; cbn; lia.
Qed.

Lemma filter_ext_in {A} (P Q : A -> Prop) `{!forall x, Decision (P x)}
    `{!forall x, Decision (Q x)} (l : list A) :
  (forall x, x ∈ l -> P x <-> Q x) -> filter P l = filter Q l.
Proof.
  induction l as [|x l IH]; intros Hl; [done|]. rewrite !filter_cons.
  rewrite IH by (intros; apply Hl; by right).
  destruct (decide (P x)) as [HP|HP], (decide (Q x)) as [HQ|HQ]; try done;
    exfalso; destruct (Hl x ltac:(by left)); auto.
Qed.

Lemma sum_by_perm {A} (f : A -> Z) (l k : list A) : l ≡ₚ k -> sum_by f l = sum_by f k.
Proof.
  induction 1 as [|x l k _ IH|x y l|l k m _ IH1 _ IH2]; rewrite ?sum_by_cons; lia.
Qed.

Lemma sum_by_map {A B} (f : B -> Z) (g : A -> B) (l : list A) :
  sum_by f (map g l) = sum_by (fun a => f (g a)) l.
Proof. unfold sum_by. by rewrite map_map. Qed.

Lemma sum_by_nonneg_in {A} (f : A -> Z) (l : list A) :
  (forall a, a ∈ l -> 0 <= f a)%Z -> (0 <= sum_by f l)%Z.
Proof. intros H. apply sum_by_nonneg, Forall_forall, H. Qed.

Lemma sum_by_le {A} (f g : A -> Z) (l : list A) :
  (forall a, a ∈ l -> f a <= g a)%Z -> (sum_by f l <= sum_by g l)%Z.
Proof.
  induction l as [|x l IH]; intros H; [done|]. rewrite !sum_by_cons.
  specialize (H x ltac:(by left)) as Hx.
  assert (sum_by f l <= sum_by g l)%Z by (apply IH; intros; apply H; by right). lia.
Qed.

Lemma sum_by_plus {A} (f g : A -> Z) (l : list A) :
  (sum_by (fun a => f a + g a) l = sum_by f l + sum_by g l)%Z.
Proof. induction l as [|x l IH]; [done|]. rewrite !sum_by_cons. lia. Qed.

Lemma sum_by_opp {A} (f : A -> Z) (l : list A) : (sum_by (fun a => - f a) l = - sum_by f l)%Z.
Proof. induction l as [|x l IH]; [done|]. rewrite !sum_by_cons. lia. Qed.

#[export] Hint Rewrite @Zsum_app @sum_by_app : loc_simpl.

(** ** Ceiling division *)

(** Python's [(n + d - 1) // d]. *)
Definition cdiv (n d : Z) : Z := ((n + d - 1) / d)%Z.

Lemma cdiv_spec (n d : Z) :
  (0 < d)%Z -> (d * (cdiv n d - 1) < n <= d * cdiv n d)%Z.
Proof.
  intros Hd. unfold cdiv.
  pose proof (Z.div_mod (n + d - 1) d ltac:(lia)).
  pose proof (Z.mod_pos_bound (n + d - 1) d Hd). nia.
Qed.

Lemma cdiv_unique (n d q : Z) :
  (0 < d)%Z -> (d * (q - 1) < n <= d * q)%Z -> cdiv n d = q.
Proof. intros Hd Hq. pose proof (cdiv_spec n d Hd). nia. Qed.

Lemma cdiv_nonneg (n d : Z) : (0 < d)%Z -> (0 <= n)%Z -> (0 <= cdiv n d)%Z.
Proof. intros Hd Hn. pose proof (cdiv_spec n d Hd). nia. Qed.

Lemma cdiv_mono (n m d : Z) : (0 < d)%Z -> (n <= m)%Z -> (cdiv n d <= cdiv m d)%Z.
Proof. intros Hd Hn. unfold cdiv. apply Z.div_le_mono; lia. Qed.

Lemma cdiv_0 (d : Z) : (0 < d)%Z -> cdiv 0 d = 0%Z.
Proof. intros. apply cdiv_unique; nia. Qed.

(** Billing a prefix and then the whole never charges more than one rounding
    step beyond billing the remainder alone. *)
Lemma cdiv_sub (n m d : Z) :
  (0 < d)%Z ->
  (cdiv n d - 1 <= cdiv (n + m) d - cdiv m d <= cdiv n d)%Z.
Proof.
  intros Hd.
  pose proof (cdiv_spec n d Hd). pose proof (cdiv_spec m d Hd).
  pose proof (cdiv_spec (n + m) d Hd). nia.
Qed.

#[export] Hint Resolve cdiv_nonneg cdiv_mono : loc.

(** Sums over filtered and updated lists. *)
Lemma sum_by_filter_if {A} (f : A -> Z) (q : A -> bool) (l : list A) :
  sum_by f (List.filter q l) = sum_by (fun x => if q x then f x else 0%Z) l.
Proof.
  unfold sum_by, Zsum. induction l as [|x l IH]; cbn; [done|].
  destruct (q x); cbn; rewrite <- IH; lia.
Qed.

Lemma sum_by_ext {A} (f g : A -> Z) (l : list A) :
  (forall x, x ∈ l -> f x = g x) -> sum_by f l = sum_by g l.
Proof.
  unfold sum_by, Zsum. induction l as [|x l IH]; intros Hfg; cbn; [done|].
  rewrite Hfg by (by left). rewrite IH; [done|]. intros. apply Hfg. by right.
Qed.

Lemma existsb_filter {A} (p q : A -> bool) (l : list A) :
  existsb p (List.filter q l) = existsb (fun x => q x && p x) l.
Proof. induction l as [|x l IH]; cbn; [done|]. destruct (q x); cbn; by rewrite IH. Qed.

(** ** Stable insertion sort *)

Fixpoint insert_by {A} (before : A -> A -> bool) (x : A) (l : list A) : list A :=
  match l with
  | [] => [x]
  | y :: l' => if before y x then y :: insert_by before x l' else x :: l
  end.

Definition sort_by {A} (before : A -> A -> bool) (l : list A) : list A :=
  foldr (insert_by before) [] l.

Lemma insert_by_perm {A} (before : A -> A -> bool) (x : A) (l : list A) :
  insert_by before x l ≡ₚ x :: l.
Proof.
  induction l as [|y l IH]; cbn; [done|]. destruct (before y x); [|done].
  rewrite IH. constructor.
Qed.

Lemma sort_by_perm {A} (before : A -> A -> bool) (l : list A) : sort_by before l ≡ₚ l.
Proof. induction l as [|x l IH]; cbn; [done|]. by rewrite insert_by_perm, IH. Qed.

(** ** Options *)

Definition is_some {A} (o : option A) : bool := match o with Some _ => true | None => false end.

(** Python truthiness fall-back [x or d] on an optional value. *)
Definition or_else {A} (o : option A) (d : A) : A :=
  match o with Some x => x | None => d end.

(** ** Updating the first matching element of a list *)

Fixpoint update_first {A} (p : A -> bool) (f : A -> A) (l : list A) : list A :=
  match l with
  | [] => []
  | x :: l' => if p x then f x :: l' else x :: update_first p f l'
  end.

Lemma length_update_first {A} (p : A -> bool) (f : A -> A) (l : list A) :
  length (update_first p f l) = length l.
Proof. induction l as [|x l IH]; cbn; [done|]. destruct (p x); cbn; lia. Qed.

Lemma update_first_none {A} (p : A -> bool) (f : A -> A) (l : list A) :
  List.find p l = None -> update_first p f l = l.
Proof.
  induction l as [|x l IH]; cbn; [done|]. destruct (p x); [done|].
  intros H. by rewrite IH.
Qed.

Lemma update_first_map {A B} (p : A -> bool) (f : A -> A) (g : A -> B) (l : list A) :
  (forall x, g (f x) = g x) -> map g (update_first p f l) = map g l.
Proof.
  intros Hg. induction l as [|x l IH]; cbn; [done|].
  destruct (p x); cbn; [by rewrite Hg | by rewrite IH].
Qed.

Lemma find_update_first {A} (p : A -> bool) (f : A -> A) (l : list A) :
  (forall x, p (f x) = p x) ->
  List.find p (update_first p f l) = f <$> List.find p l.
Proof.
  intros Hp. induction l as [|x l IH]; cbn; [done|].
  destruct (p x) eqn:E; cbn; [by rewrite Hp, E | by rewrite E, IH].
Qed.

(** Looking up by something the update leaves alone. *)
Lemma find_update_first_key {A B} (p q : A -> bool) (f : A -> A) (key : A -> B) (l : list A) :
  (forall x, q (f x) = q x) -> (forall x, key (f x) = key x) ->
  key <$> List.find q (update_first p f l) = key <$> List.find q l.
Proof.
  intros Hq Hk. induction l as [|x l IH]; cbn; [done|].
  destruct (p x); cbn; [rewrite Hq|]; destruct (q x); cbn; by rewrite ?Hk.
Qed.

Lemma find_update_first_ne {A} (p q : A -> bool) (f : A -> A) (l : list A) :
  (forall x, q (f x) = q x) -> (forall x, q x = true -> p x = false) ->
  List.find q (update_first p f l) = List.find q l.
Proof.
  intros Hq Hpq. induction l as [|x l IH]; cbn; [done|].
  destruct (p x) eqn:E; cbn.
  - rewrite Hq. destruct (q x) eqn:Q; [|done]. by rewrite (Hpq x Q) in E.
  - destruct (q x); [done|]. exact IH.
Qed.

Lemma find_app {A} (p : A -> bool) (l k : list A) :
  List.find p (l ++ k) =
  match List.find p l with Some x => Some x | None => List.find p k end.
Proof. induction l as [|x l IH]; cbn; [done|]. by destruct (p x). Qed.

Lemma find_none_Forall {A} (p : A -> bool) (l : list A) :
  List.find p l = None <-> Forall (fun x => p x = false) l.
Proof.
  induction l as [|x l IH]; cbn; [by split|].
  rewrite Forall_cons. destruct (p x); [|by rewrite IH; intuition auto].
  split; [done|]. by intros [? _].
Qed.

Lemma sum_by_update_first {A} (f : A -> Z) (p : A -> bool) (g : A -> A) (l : list A) (a : A) :
  List.find p l = Some a ->
  sum_by f (update_first p g l) = (sum_by f l - f a + f (g a))%Z.
Proof.
  unfold sum_by, Zsum. induction l as [|x l IH]; cbn; [done|].
  destruct (p x) eqn:E.
  - intros [= ->]. cbn. lia.
  - intros Hf. cbn. rewrite IH by done. lia.
Qed.

Lemma existsb_update_first {A} (h p : A -> bool) (g : A -> A) (l : list A) :
  (forall x, h (g x) = h x) -> existsb h (update_first p g l) = existsb h l.
Proof.
  intros Hh. induction l as [|x l IH]; cbn; [done|].
  destruct (p x); cbn; [by rewrite Hh|by rewrite IH].
Qed.

Lemma Forall_update_first {A} (P : A -> Prop) (p : A -> bool) (g : A -> A) (l : list A) :
  (forall x, P x -> P (g x)) -> Forall P l -> Forall P (update_first p g l).
Proof.
  intros Hg. induction 1 as [|x l Hx Hl IH]; cbn; [by constructor|].
  destruct (p x); constructor; auto.
Qed.

Lemma Forall_update_first_at {A} (P : A -> Prop) (p : A -> bool) (g : A -> A) (l : list A) (a : A) :
  List.find p l = Some a -> P (g a) -> Forall P l -> Forall P (update_first p g l).
Proof.
  intros Hf Hg Hl. induction Hl as [|x l Hx Hl IH]; cbn in *; [done|].
  destruct (p x); [|by constructor; auto]. simplify_eq. by constructor.
Qed.

Lemma find_by_key {A} (key : A -> N) (l : list A) (a : A) :
  NoDup (map key l) -> a ∈ l -> List.find (fun x => N.eqb (key x) (key a)) l = Some a.
Proof.
  induction l as [|x l IH]; cbn; [by intros _ ?%elem_of_nil|].
  rewrite NoDup_cons. intros [Hx Hnd] [->|Hin]%elem_of_cons.
  - by rewrite N.eqb_refl.
  - destruct (N.eqb (key x) (key a)) eqn:E; [|auto].
    apply N.eqb_eq in E. exfalso. apply Hx. rewrite E. by apply list_elem_of_fmap_2.
Qed.

Lemma find_some_in {A} (p : A -> bool) (l : list A) (a : A) :
  List.find p l = Some a -> a ∈ l /\ p a = true.
Proof.
  intros Hf. apply List.find_some in Hf. by rewrite list_elem_of_In.
Qed.

Lemma update_first_member {A} (p : A -> bool) (g : A -> A) (l : list A) (a : A) :
  List.find p l = Some a -> g a ∈ update_first p g l.
Proof.
  induction l as [|x l IH]; cbn; [done|]. destruct (p x).
  - intros [= ->]. by left.
  - intros Hf. right. auto.
Qed.

#[export] Hint Rewrite @length_update_first : loc_simpl.
