(* ===== verification/PyData.v ===== *)
(** * Python values used by the service

    Bytes and their hex and big-endian integer codecs, the string operations
    the service applies to identifiers, timestamps as microsecond instants with
    or without a timezone, and JSON documents with Python's order-insensitive
    dictionary equality. *)

From S2P Require Import Prelude.
From Stdlib Require Import Strings.Byte DecimalString DecimalZ.
From Stdlib Require Import Strings.Ascii.

Open Scope Z_scope.

(** ** Bytes *)

#[export] Instance byte_eq_dec : EqDecision byte := Byte.byte_eq_dec.

Abbreviation bytes := (list byte).

Definition byte_val (b : byte) : Z := Z.of_N (Byte.to_N b).

Definition byte_of_Z (z : Z) : byte :=
  match Byte.of_N (Z.to_N (z mod 256)) with Some b => b | None => x00 end.

(** [int.from_bytes(b, "big")]. *)
Definition from_bytes_big (b : bytes) : Z :=
  fold_left (fun acc x => acc * 256 + byte_val x) b 0.

(** [n.to_bytes(len, "big")] for [0 <= n < 256 ^ len]. *)
Fixpoint to_bytes_big (len : nat) (n : Z) : bytes :=
  match len with
  | O => []
  | S len' => to_bytes_big len' (n / 256) ++ [byte_of_Z n]
  end.

(** [n.bit_length()]. *)
Definition bit_length (n : Z) : Z := if Z.abs n =? 0 then 0 else Z.log2 (Z.abs n) + 1.

(** ** Hexadecimal text *)

Definition hex_digit (n : Z) : ascii :=
  ascii_of_N (Z.to_N (if n <? 10 then 48 + n else 87 + n)).

Definition hex_value (a : ascii) : option Z :=
  let c := Z.of_N (N_of_ascii a) in
  if (48 <=? c) && (c <=? 57) then Some (c - 48)
  else if (97 <=? c) && (c <=? 102) then Some (c - 87)
  else if (65 <=? c) && (c <=? 70) then Some (c - 55)
  else None.

(** [b.hex()]. *)
Fixpoint bytes_hex (b : bytes) : string :=
  match b with
  | [] => EmptyString
  | x :: b' =>
      String (hex_digit (byte_val x / 16))
        (String (hex_digit (byte_val x mod 16)) (bytes_hex b'))
  end.

Definition is_space (a : ascii) : bool :=
  let c := Z.of_N (N_of_ascii a) in ((9 <=? c) && (c <=? 13)) || (c =? 32).

(** [bytes.fromhex(s)]: pairs of hex digits, ASCII whitespace skipped between
    pairs; [None] is Python's [ValueError]. *)
Fixpoint bytes_fromhex (s : string) : option bytes :=
  match s with
  | EmptyString => Some []
  | String a s' =>
      if is_space a then bytes_fromhex s'
      else match s' with
           | EmptyString => None
           | String b s'' =>
               h ← hex_value a; l ← hex_value b; rest ← bytes_fromhex s'';
               Some (byte_of_Z (16 * h + l) :: rest)
           end
  end.

(** ** Strings *)

Definition lower_char (a : ascii) : ascii :=
  let c := N_of_ascii a in
  if (65 <=? c)%N && (c <=? 90)%N then ascii_of_N (c + 32) else a.

(** [s.lower()] on ASCII identifiers. *)
Fixpoint str_lower (s : string) : string :=
  match s with
  | EmptyString => EmptyString
  | String a s' => String (lower_char a) (str_lower s')
  end.

Definition str_startswith (p s : string) : bool := String.prefix p s.

Fixpoint str_drop (n : nat) (s : string) : string :=
  match n, s with
  | O, _ => s
  | S _, EmptyString => EmptyString
  | S n', String _ s' => str_drop n' s'
  end.

(** [s.removeprefix(p)]. *)
Definition str_removeprefix (p s : string) : string :=
  if str_startswith p s then str_drop (String.length p) s else s.

(** [sub in s] and [s.endswith(suffix)]. *)
Definition str_contains (sub s : string) : bool :=
  match String.index 0 sub s with Some _ => true | None => false end.

Definition str_endswith (suffix s : string) : bool :=
  Nat.leb (String.length suffix) (String.length s)
  && String.eqb (str_drop (String.length s - String.length suffix) s) suffix.

(** Python truthiness of a string. *)
Definition str_truthy (s : string) : bool :=
  match s with EmptyString => false | _ => true end.

(** [value.replace("Z", "+00:00")]. *)
Fixpoint str_replace_Z (s : string) : string :=
  match s with
  | EmptyString => EmptyString
  | String a s' =>
      if Ascii.eqb a "Z"%char then ("+00:00" ++ str_replace_Z s')%string
      else String a (str_replace_Z s')
  end.

Fixpoint str_forallb (p : ascii -> bool) (s : string) : bool :=
  match s with
  | EmptyString => true
  | String a s' => p a && str_forallb p s'
  end.

Definition is_lower_alpha (a : ascii) : bool :=
  let c := N_of_ascii a in (97 <=? c)%N && (c <=? 122)%N.
Definition is_upper_alpha (a : ascii) : bool :=
  let c := N_of_ascii a in (65 <=? c)%N && (c <=? 90)%N.
Definition is_digit (a : ascii) : bool :=
  let c := N_of_ascii a in (48 <=? c)%N && (c <=? 57)%N.
Definition is_lower_hex (a : ascii) : bool :=
  let c := N_of_ascii a in is_digit a || ((97 <=? c)%N && (c <=? 102)%N).

(** [str(n)] for an integer. *)
Definition str_Z (z : Z) : string := NilZero.string_of_int (Z.to_int z).

(** [c.isspace()] on a string: the separators U+001C to U+001F count too. *)
Definition is_str_space (a : ascii) : bool :=
  let c := Z.of_N (N_of_ascii a) in is_space a || ((28 <=? c) && (c <=? 31)).

Fixpoint str_lstrip (s : string) : string :=
  match s with
  | String a s' => if is_str_space a then str_lstrip s' else s
  | EmptyString => EmptyString
  end.

Fixpoint str_rstrip (s : string) : string :=
  match s with
  | EmptyString => EmptyString
  | String a s' =>
      match str_rstrip s' with
      | EmptyString => if is_str_space a then EmptyString else String a EmptyString
      | t => String a t
      end
  end.

(** [s.strip()]. *)
Definition str_strip (s : string) : string := str_rstrip (str_lstrip s).

(** [s.partition(c)]: the part before the first [c] and, when there is one, the
    part after it. *)
Fixpoint str_partition (c : ascii) (s : string) : string * option string :=
  match s with
  | EmptyString => (EmptyString, None)
  | String a s' =>
      if Ascii.eqb a c then (EmptyString, Some s')
      else let '(h, t) := str_partition c s' in (String a h, t)
  end.

(** [s.split(c)]. *)
Fixpoint str_split (c : ascii) (s : string) : list string :=
  match s with
  | EmptyString => [EmptyString]
  | String a s' =>
      if Ascii.eqb a c then EmptyString :: str_split c s'
      else match str_split c s' with
           | h :: t => String a h :: t
           | [] => [String a EmptyString]
           end
  end.

(** [s.split()]: the runs of characters that are not white space. *)
Fixpoint str_words (s : string) : list string :=
  match s with
  | EmptyString => []
  | String a s' =>
      let ws := str_words s' in
      let joins := match s' with String b _ => negb (is_str_space b) | EmptyString => false end in
      if is_str_space a then ws
      else if joins then
        match ws with w :: ws' => String a w :: ws' | [] => [String a EmptyString] end
      else String a EmptyString :: ws
  end.

(** A literal's digits without the underscores Python allows between two
    digits. *)
Fixpoint drop_underscores (after_digit : bool) (s : string) : option string :=
  match s with
  | EmptyString => Some EmptyString
  | String a s' =>
      if Ascii.eqb a "_"%char then
        match s' with
        | String b _ => if after_digit && is_digit b then drop_underscores false s' else None
        | EmptyString => None
        end
      else String a <$> drop_underscores (is_digit a) s'
  end.

(** [int(s)] for a decimal string: surrounding whitespace, an optional sign
    and digits, grouped or not; [None] is Python's [ValueError]. *)
Definition int_of_str (s : string) : option Z :=
  t ← drop_underscores false (str_rstrip (str_lstrip s));
  match t with
  | String "+"%char u =>
      match u with
      | String a _ => if is_digit a then Z.of_int <$> NilZero.int_of_string u else None
      | EmptyString => None
      end
  | _ => Z.of_int <$> NilZero.int_of_string t
  end.

Example int_of_str_demo :
  int_of_str " 1_000 " = Some 1000 /\ int_of_str "-7" = Some (-7) /\ int_of_str "+5" = Some 5 /\
  int_of_str "1__0" = None /\ int_of_str "_1" = None /\ int_of_str "5_" = None.
Proof. vm_compute. done. Qed.

Fixpoint str_rev_onto (acc s : string) : string :=
  match s with EmptyString => acc | String a s' => str_rev_onto (String a acc) s' end.
Definition str_rev (s : string) : string := str_rev_onto EmptyString s.

Fixpoint str_lstrip_char (c : ascii) (s : string) : string :=
  match s with
  | String a s' => if Ascii.eqb a c then str_lstrip_char c s' else s
  | EmptyString => EmptyString
  end.

(** [s.rstrip("/")]. *)
Definition str_rstrip_slash (s : string) : string :=
  str_rev (str_lstrip_char "/"%char (str_rev s)).

Definition is_unreserved (a : ascii) : bool :=
  is_lower_alpha a || is_upper_alpha a || is_digit a
  || Ascii.eqb a "_"%char || Ascii.eqb a "."%char || Ascii.eqb a "-"%char
  || Ascii.eqb a "~"%char.

Definition upper_hex_digit (n : Z) : ascii :=
  ascii_of_N (Z.to_N (if n <? 10 then 48 + n else 55 + n)).

(** [urllib.parse.quote(s, safe="")] on the UTF-8 bytes of [s]. *)
Fixpoint url_quote (s : string) : string :=
  match s with
  | EmptyString => EmptyString
  | String a s' =>
      if is_unreserved a then String a (url_quote s')
      else
        let c := Z.of_N (N_of_ascii a) in
        String "%"%char (String (upper_hex_digit (c / 16))
          (String (upper_hex_digit (c mod 16)) (url_quote s')))
  end.

(** Base64. *)
Definition b64_char (n : Z) : ascii :=
  ascii_of_N (Z.to_N (if n <? 26 then 65 + n else if n <? 52 then 71 + n
                      else if n <? 62 then n - 4 else if n =? 62 then 43 else 47)).

Definition b64_value (a : ascii) : option Z :=
  let c := Z.of_N (N_of_ascii a) in
  if (65 <=? c) && (c <=? 90) then Some (c - 65)
  else if (97 <=? c) && (c <=? 122) then Some (c - 71)
  else if (48 <=? c) && (c <=? 57) then Some (c + 4)
  else if c =? 43 then Some 62
  else if c =? 47 then Some 63
  else None.

(** [base64.b64encode(b).decode("ascii")]. *)
Fixpoint b64encode (b : bytes) : string :=
  match b with
  | [] => EmptyString
  | [x] =>
      let n := byte_val x * 16 in
      String (b64_char (n / 64)) (String (b64_char (n mod 64))
        (String "="%char (String "="%char EmptyString)))
  | [x; y] =>
      let n := (byte_val x * 256 + byte_val y) * 4 in
      String (b64_char (n / 4096)) (String (b64_char (n / 64 mod 64))
        (String (b64_char (n mod 64)) (String "="%char EmptyString)))
  | x :: y :: z :: b' =>
      let n := byte_val x * 65536 + byte_val y * 256 + byte_val z in
      String (b64_char (n / 262144)) (String (b64_char (n / 4096 mod 64))
        (String (b64_char (n / 64 mod 64)) (String (b64_char (n mod 64)) (b64encode b'))))
  end.

(** [base64.b64decode(s, validate=True)]; [None] is [binascii.Error]. *)
Fixpoint b64decode (s : string) : option bytes :=
  match s with
  | EmptyString => Some []
  | String a (String b (String c (String d s'))) =>
      va ← b64_value a; vb ← b64_value b;
      match b64_value c, b64_value d with
      | Some vc, Some vd =>
          let n := va * 262144 + vb * 4096 + vc * 64 + vd in
          rest ← b64decode s';
          Some (byte_of_Z (n / 65536) :: byte_of_Z (n / 256) :: byte_of_Z n :: rest)
      | Some vc, None =>
          if Ascii.eqb d "="%char && match s' with EmptyString => true | _ => false end
          then let n := va * 4096 + vb * 64 + vc in
               Some [byte_of_Z (n / 1024); byte_of_Z (n / 4)]
          else None
      | None, _ =>
          if Ascii.eqb c "="%char && Ascii.eqb d "="%char
             && match s' with EmptyString => true | _ => false end
          then Some [byte_of_Z ((va * 64 + vb) / 16)]
          else None
      end
  | _ => None
  end.

(** [int(s, 16)]: surrounding whitespace, a sign, an optional [0x], and hex
    digits with single underscores between them. *)
Fixpoint hex_digits (acc : Z) (s : string) : option Z :=
  match s with
  | EmptyString => Some acc
  | String a s' =>
      match hex_value a with
      | Some v => hex_digits (16 * acc + v) s'
      | None =>
          if Ascii.eqb a "_"%char then
            match s' with
            | String b s'' => v ← hex_value b; hex_digits (16 * acc + v) s''
            | EmptyString => None
            end
          else None
      end
  end.

Definition int_of_hex_body (s : string) : option Z :=
  match s with
  | String a s' => v ← hex_value a; hex_digits v s'
  | EmptyString => None
  end.

Definition int_of_hex (s : string) : option Z :=
  let t := str_rstrip (str_lstrip s) in
  let '(neg, u) := match t with
    | String "-"%char u => (true, u)
    | String "+"%char u => (false, u)
    | _ => (false, t)
    end in
  let body := match u with
    | String "0"%char (String "x"%char v) | String "0"%char (String "X"%char v) =>
        match v with String "_"%char w => w | _ => v end
    | _ => u
    end in
  n ← int_of_hex_body body; Some (if neg : bool then - n else n).

(** [str(uuid)]: 32 hex digits grouped 8-4-4-4-12. *)
Definition uuid := N.

Definition str_uuid (u : uuid) : string :=
  let h := bytes_hex (to_bytes_big 16 (Z.of_N u)) in
  (String.substring 0 8 h ++ "-" ++ String.substring 8 4 h ++ "-" ++ String.substring 12 4 h ++ "-"
   ++ String.substring 16 4 h ++ "-" ++ String.substring 20 12 h)%string.

(** ** Timestamps *)

(** [dt_us] counts microseconds: the UTC instant of an aware timestamp, the
    wall-clock reading of a naive one. *)
Record datetime := DT { dt_us : Z; dt_aware : bool }.

#[export] Instance datetime_eq_dec : EqDecision datetime.
Proof. solve_decision. Defined.

Definition dt_add_seconds (d : datetime) (s : Z) : datetime :=
  DT (dt_us d + 1000000 * s) (dt_aware d).
Definition dt_add_us (d : datetime) (u : Z) : datetime := DT (dt_us d + u) (dt_aware d).
(** [d.replace(tzinfo=UTC)] on a naive timestamp. *)
Definition dt_assume_utc (d : datetime) : datetime := DT (dt_us d) true.
(** [int(d.timestamp())]: the epoch second, truncated toward zero. *)
Definition dt_epoch (d : datetime) : Z := Z.quot (dt_us d) 1000000.

(** Proleptic Gregorian calendar: the civil date of a day number. *)
Definition civil_of_days (days : Z) : Z * Z * Z :=
  let z := days + 719468 in
  let era := z / 146097 in
  let doe := z - era * 146097 in
  let yoe := (doe - doe / 1460 + doe / 36524 - doe / 146096) / 365 in
  let doy := doe - (365 * yoe + yoe / 4 - yoe / 100) in
  let mp := (5 * doy + 2) / 153 in
  let d := doy - (153 * mp + 2) / 5 + 1 in
  let m := if mp <? 10 then mp + 3 else mp - 9 in
  (yoe + era * 400 + (if m <=? 2 then 1 else 0), m, d).

Fixpoint str_zeros (n : nat) : string :=
  match n with O => EmptyString | S n' => String "0"%char (str_zeros n') end.

(** [f"{n:0{width}d}"] for [n >= 0]. *)
Definition str_pad (width : nat) (n : Z) : string :=
  let s := str_Z n in (str_zeros (width - String.length s) ++ s)%string.

(** [d.astimezone(UTC).strftime("%Y-%m-%dT%H:%M:%S")]. *)
Definition dt_strftime (d : datetime) : string :=
  let secs := dt_us d / 1000000 in
  let '(y, m, day) := civil_of_days (secs / 86400) in
  let t := secs mod 86400 in
  (str_pad 4 y ++ "-" ++ str_pad 2 m ++ "-" ++ str_pad 2 day ++ "T"
   ++ str_pad 2 (t / 3600) ++ ":" ++ str_pad 2 (t / 60 mod 60) ++ ":"
   ++ str_pad 2 (t mod 60))%string.

Example dt_strftime_demo :
  dt_strftime (DT 1772323199000000 true) = "2026-02-28T23:59:59"%string /\
  dt_strftime (DT 951782400000000 true) = "2000-02-29T00:00:00"%string.
Proof. vm_compute. done. Qed.

(** ** JSON documents *)

Inductive json :=
  | JNull
  | JBool (b : bool)
  | JInt (z : Z)
  | JStr (s : string)
  | JArr (l : list json)
  | JObj (d : list (string * json)).

Abbreviation dict := (list (string * json)).

(** [d.get(k)] and [d[k]]. *)
Fixpoint dget (k : string) (d : dict) : option json :=
  match d with
  | [] => None
  | (k', v) :: d' => if String.eqb k k' then Some v else dget k d'
  end.

(** [d[k] = v], keeping the position of an existing key; [{**d, k: v}]. *)
Fixpoint dset (k : string) (v : json) (d : dict) : dict :=
  match d with
  | [] => [(k, v)]
  | (k', v') :: d' => if String.eqb k k' then (k, v) :: d' else (k', v') :: dset k v d'
  end.

(** [d.pop(k, None)]. *)
Definition dpop (k : string) (d : dict) : dict :=
  List.filter (fun kv => negb (String.eqb k (fst kv))) d.

(** [{**d, **e}]. *)
Definition dmerge (d e : dict) : dict := fold_left (fun acc kv => dset (fst kv) (snd kv) acc) e d.

(** Python's [==] on JSON values: [True == 1], and dictionaries compare
    without regard to key order. *)
Fixpoint json_eqb (a b : json) {struct a} : bool :=
  match a, b with
  | JNull, JNull => true
  | JBool x, JBool y => Bool.eqb x y
  | JBool x, JInt z | JInt z, JBool x => Z.eqb (if x then 1 else 0) z
  | JInt x, JInt y => Z.eqb x y
  | JStr x, JStr y => String.eqb x y
  | JArr l, JArr k =>
      (fix arr (l k : list json) : bool :=
         match l, k with
         | [], [] => true
         | x :: l', y :: k' => json_eqb x y && arr l' k'
         | _, _ => false
         end) l k
  | JObj d, JObj e =>
      Nat.eqb (length d) (length e) &&
      (fix obj (d : dict) : bool :=
         match d with
         | [] => true
         | (k, x) :: d' =>
             match dget k e with Some y => json_eqb x y | None => false end && obj d'
         end) d
  | _, _ => false
  end.

Definition dict_eqb (d e : dict) : bool := json_eqb (JObj d) (JObj e).

Definition opt_dict_eqb (d e : option dict) : bool :=
  match d, e with
  | Some d, Some e => dict_eqb d e
  | None, None => true
  | _, _ => false
  end.

(** Documents whose objects have distinct keys, as every Python dict has. *)
Fixpoint json_wf (j : json) : Prop :=
  match j with
  | JArr l => (fix all (l : list json) : Prop :=
                 match l with [] => True | x :: l' => json_wf x /\ all l' end) l
  | JObj d => NoDup (map fst d) /\
              (fix all (d : dict) : Prop :=
                 match d with [] => True | (_, x) :: d' => json_wf x /\ all d' end) d
  | _ => True
  end.

Definition dict_wf (d : dict) : Prop := json_wf (JObj d).

Definition as_str (j : option json) : option string :=
  match j with Some (JStr s) => Some s | _ => None end.
Definition as_obj (j : option json) : option dict :=
  match j with Some (JObj d) => Some d | _ => None end.

(** ** Lemmas: bytes *)

Lemma byte_val_range (b : byte) : 0 <= byte_val b < 256.
Proof. unfold byte_val. pose proof (Byte.to_N_bounded b). lia. Qed.

Lemma byte_of_val (b : byte) : byte_of_Z (byte_val b) = b.
Proof.
  unfold byte_of_Z. rewrite Z.mod_small by apply byte_val_range.
  unfold byte_val. by rewrite N2Z.id, Byte.of_to_N.
Qed.

Lemma byte_val_of (z : Z) : byte_val (byte_of_Z z) = z mod 256.
Proof.
  unfold byte_of_Z, byte_val. pose proof (Z.mod_pos_bound z 256 ltac:(lia)).
  destruct (Byte.of_N (Z.to_N (z mod 256))) as [b|] eqn:E.
  - apply Byte.to_of_N in E. rewrite E. lia.
  - apply Byte.of_N_None_iff in E. lia.
Qed.

Lemma byte_of_Z_mod (z w : Z) : z mod 256 = w mod 256 -> byte_of_Z z = byte_of_Z w.
Proof. unfold byte_of_Z. by intros ->. Qed.

Lemma from_bytes_big_snoc (b : bytes) (x : byte) :
  from_bytes_big (b ++ [x]) = from_bytes_big b * 256 + byte_val x.
Proof. unfold from_bytes_big. by rewrite fold_left_app. Qed.

Lemma from_bytes_big_nonneg (b : bytes) : 0 <= from_bytes_big b.
Proof.
  induction b as [|x b IH] using rev_ind; [done|].
  rewrite from_bytes_big_snoc. pose proof (byte_val_range x). lia.
Qed.

Lemma length_to_bytes_big (len : nat) (n : Z) : length (to_bytes_big len n) = len.
Proof.
  revert n. induction len as [|len IH]; intros n; cbn; [done|].
  rewrite length_app, IH. cbn. lia.
Qed.

Lemma from_to_bytes_big (len : nat) (n : Z) :
  0 <= n -> from_bytes_big (to_bytes_big len n) = n mod 256 ^ Z.of_nat len.
Proof.
  revert n. induction len as [|len IH]; intros n Hn; cbn [to_bytes_big].
  - by rewrite Z.mod_1_r.
  - rewrite from_bytes_big_snoc, IH, byte_val_of by (apply Z.div_pos; lia).
    rewrite Nat2Z.inj_succ, Z.pow_succ_r by lia.
    rewrite Z.rem_mul_r by lia. lia.
Qed.

Lemma to_from_bytes_big (b : bytes) : to_bytes_big (length b) (from_bytes_big b) = b.
Proof.
  induction b as [|x b IH] using rev_ind; [done|].
  rewrite length_app. cbn [length]. rewrite Nat.add_1_r. cbn [to_bytes_big].
  rewrite from_bytes_big_snoc. pose proof (byte_val_range x).
  f_equal.
  - rewrite Z.div_add_l, Z.div_small, Z.add_0_r by lia. exact IH.
  - f_equal. rewrite (byte_of_Z_mod _ (byte_val x)); [apply byte_of_val|].
    rewrite Z.add_comm. by apply Z.mod_add.
Qed.

(** A property of the sixteen nibbles, checked one by one. *)
Lemma nibbles_check (P : Z -> bool) :
  forallb P (map Z.of_nat (seq 0 16)) = true -> forall n, 0 <= n < 16 -> P n = true.
Proof.
  intros HP n Hn. rewrite forallb_forall in HP. apply HP. apply in_map_iff.
  exists (Z.to_nat n). split; [lia|]. apply in_seq. lia.
Qed.

Lemma hex_value_digit (n : Z) : 0 <= n < 16 -> hex_value (hex_digit n) = Some n.
Proof.
  intros Hn. pose proof (nibbles_check (fun n => bool_decide (hex_value (hex_digit n) = Some n))
    eq_refl n Hn) as Hb. by apply bool_decide_eq_true in Hb.
Qed.

Lemma hex_digit_not_space (n : Z) : 0 <= n < 16 -> is_space (hex_digit n) = false.
Proof.
  intros Hn. apply negb_true_iff.
  by apply (nibbles_check (fun n => negb (is_space (hex_digit n)))).
Qed.

Lemma fromhex_hex (b : bytes) : bytes_fromhex (bytes_hex b) = Some b.
Proof.
  induction b as [|x b IH]; cbn; [done|].
  pose proof (byte_val_range x) as Hx.
  assert (0 <= byte_val x / 16 < 16)
    by (split; [apply Z.div_pos|apply Z.div_lt_upper_bound]; lia).
  pose proof (Z.mod_pos_bound (byte_val x) 16 ltac:(lia)).
  rewrite hex_digit_not_space, !hex_value_digit by lia. cbn. rewrite IH. cbn.
  rewrite <- Z.div_mod by lia. by rewrite byte_of_val.
Qed.

(** ** Lemmas: JSON *)

Lemma dget_dset_eq (k : string) (v : json) (d : dict) : dget k (dset k v d) = Some v.
Proof.
  induction d as [|[k' v'] d IH]; cbn; [by rewrite String.eqb_refl|].
  destruct (String.eqb k k') eqn:E; cbn; [by rewrite String.eqb_refl|]. by rewrite E.
Qed.

Lemma dget_dset_ne (k k' : string) (v : json) (d : dict) :
  k <> k' -> dget k (dset k' v d) = dget k d.
Proof.
  intros Hk. induction d as [|[k1 v1] d IH]; cbn.
  - by rewrite (proj2 (String.eqb_neq _ _) Hk).
  - destruct (String.eqb k' k1) eqn:E; cbn.
    + apply String.eqb_eq in E. subst. by rewrite (proj2 (String.eqb_neq _ _) Hk).
    + by rewrite IH.
Qed.

#[export] Hint Rewrite dget_dset_eq : loc_simpl.

Lemma dget_in (k : string) (v : json) (d : dict) :
  NoDup (map fst d) -> In (k, v) d -> dget k d = Some v.
Proof.
  induction d as [|[k1 v1] d IH]; cbn; [done|].
  rewrite NoDup_cons. intros [Hn Hd] [Heq|Hin].
  - simplify_eq. by rewrite String.eqb_refl.
  - destruct (String.eqb k k1) eqn:E; [|by apply IH].
    apply String.eqb_eq in E. subst. exfalso. apply Hn.
    apply list_elem_of_In. by apply (in_map fst) in Hin.
Qed.

(** Induction over documents, through arrays and objects. *)
Lemma json_ind' (P : json -> Prop) :
  P JNull -> (forall b, P (JBool b)) -> (forall z, P (JInt z)) -> (forall s, P (JStr s)) ->
  (forall l, Forall P l -> P (JArr l)) ->
  (forall d, Forall (fun kv => P (snd kv)) d -> P (JObj d)) ->
  forall j, P j.
Proof.
  intros Hn Hb Hi Hs Ha Ho. fix IH 1. intros [|b|z|s|l|d]; [exact Hn|apply Hb|apply Hi|apply Hs| |].
  - apply Ha. induction l; constructor; auto.
  - apply Ho. induction d as [|[k x] d IHd]; constructor; [cbn; auto|exact IHd].
Qed.

Lemma json_eqb_refl (j : json) : json_wf j -> json_eqb j j = true.
Proof.
  induction j as [|b|z|s|l IH|d IH] using json_ind'; intros Hwf; cbn.
  - done.
  - apply Bool.eqb_reflx.
  - apply Z.eqb_refl.
  - apply String.eqb_refl.
  - induction IH as [|x l Hx Hl IHl]; [done|]. destruct Hwf as [Hwx Hwl].
    rewrite Hx by done. cbn. by apply IHl.
  - rewrite Nat.eqb_refl. cbn. destruct Hwf as [Hnd Hwf].
    assert (Hsub : forall kv, In kv d -> In kv d) by done.
    revert Hsub Hwf. generalize d at 1 3 5 as e.
    induction e as [|[k x] e IHe]; intros Hsub Hwf; [done|].
    destruct Hwf as [Hwx Hwe].
    rewrite (dget_in k x d Hnd) by (apply Hsub; by left).
    rewrite Forall_forall in IH.
    assert (Hin : (k, x) ∈ d) by (apply list_elem_of_In, Hsub; by left).
    specialize (IH _ Hin). cbn in IH. rewrite IH by done. cbn.
    apply IHe; [|done]. intros kv Hkv. apply Hsub. by right.
Qed.

Lemma dict_eqb_refl (d : dict) : dict_wf d -> dict_eqb d d = true.
Proof. apply json_eqb_refl. Qed.

#[export] Hint Resolve json_eqb_refl dict_eqb_refl : loc.
