(* ===== verification/Codecs.v ===== *)
(** * Base64 and UUIDs

    The standard library's [base64] and [binascii]: encoding, the lenient
    decoder and the URL-safe alphabet, with the round trips its callers rely
    on; and [uuid.UUID(s)], which reads back what [str(uuid)] writes. *)

From S2P Require Import Prelude PyData.
From Stdlib Require Import Strings.Byte Strings.Ascii.

Open Scope string_scope.
Open Scope Z_scope.
Open Scope loc_scope.

Definition str_rstrip_char (c : ascii) (s : string) : string :=
  str_rev (str_lstrip_char c (str_rev s)).

Fixpoint str_map (f : ascii -> ascii) (s : string) : string :=
  match s with EmptyString => EmptyString | String a s' => String (f a) (str_map f s') end.

Fixpoint str_repeat (c : ascii) (n : nat) : string :=
  match n with O => EmptyString | S n' => String c (str_repeat c n') end.

Definition is_ascii (a : ascii) : bool := (N_of_ascii a <? 128)%N.

(** [binascii.a2b_base64(s)]: characters outside the alphabet are skipped,
    padding that completes a quad ends the input, and a quad left open is an
    error.  [quad] counts the digits of the current quad, [left] holds the bits
    not yet written. *)
Fixpoint a2b_base64_from (quad pads left : Z) (s : string) : option bytes :=
  match s with
  | EmptyString => if quad =? 0 then Some [] else None
  | String a s' =>
      if Ascii.eqb a "="%char then
        if 2 <=? quad then
          if 4 <=? quad + (pads + 1) then Some [] else a2b_base64_from quad (pads + 1) left s'
        else a2b_base64_from quad pads left s'
      else match b64_value a with
           | None => a2b_base64_from quad pads left s'
           | Some v =>
               if quad =? 0 then a2b_base64_from 1 0 v s'
               else if quad =? 1 then
                 cons (byte_of_Z (left * 4 + v / 16)) <$> a2b_base64_from 2 0 (v mod 16) s'
               else if quad =? 2 then
                 cons (byte_of_Z (left * 16 + v / 4)) <$> a2b_base64_from 3 0 (v mod 4) s'
               else cons (byte_of_Z (left * 64 + v)) <$> a2b_base64_from 0 0 0 s'
           end
  end.

(** [base64.b64decode(s)] of a string; [None] is [ValueError], for text that is
    not ASCII, or its subclass [binascii.Error]. *)
Definition b64decode_lenient (s : string) : option bytes :=
  if str_forallb is_ascii s then a2b_base64_from 0 0 0 s else None.

(** The alphabet of [base64.urlsafe_b64encode] and its translation back. *)
Definition url_char (a : ascii) : ascii :=
  if Ascii.eqb a "+"%char then "-"%char else if Ascii.eqb a "/"%char then "_"%char else a.
Definition unurl_char (a : ascii) : ascii :=
  if Ascii.eqb a "-"%char then "+"%char else if Ascii.eqb a "_"%char then "/"%char else a.

(** [base64.urlsafe_b64encode(b)] and [base64.urlsafe_b64decode(s)]. *)
Definition urlsafe_b64encode (b : bytes) : string := str_map url_char (b64encode b).
Definition urlsafe_b64decode (s : string) : option bytes :=
  b64decode_lenient (str_map unurl_char s).

(** ["=" * (-len(s) % 4)]. *)
Definition b64_padding (s : string) : string :=
  str_repeat "="%char (Z.to_nat ((- Z.of_nat (String.length s)) mod 4)).

Example b64decode_lenient_demo :
  b64decode_lenient "QUJD" = Some [x41; x42; x43]%byte /\
  b64decode_lenient "QUI=" = Some [x41; x42]%byte /\
  b64decode_lenient "QU I-=" = Some [x41; x42]%byte /\
  b64decode_lenient "QUI" = None /\ b64decode_lenient "QQ==zz" = Some [x41]%byte.
Proof. vm_compute. done. Qed.

(** ** Strings *)

Lemma str_app_cons a (s t : string) : (String a s ++ t = String a (s ++ t))%string.
Proof. done. Qed.

Lemma str_app_assoc (s t u : string) : ((s ++ t) ++ u = s ++ (t ++ u))%string.
Proof. induction s as [|a s IH]; [done|]. exact (f_equal (String a) IH). Qed.

Lemma str_app_nil (s : string) : (s ++ "")%string = s.
Proof. induction s as [|a s IH]; [done|]. exact (f_equal (String a) IH). Qed.

Lemma str_forallb_app p (s t : string) :
  str_forallb p (s ++ t) = str_forallb p s && str_forallb p t.
Proof.
  induction s as [|a s IH]; [done|]. rewrite str_app_cons. cbn. by rewrite IH, andb_assoc.
Qed.

Lemma str_forallb_impl (p q : ascii -> bool) (s : string) :
  (forall a, p a = true -> q a = true) -> str_forallb p s = true -> str_forallb q s = true.
Proof.
  intros Hpq. induction s as [|a s IH]; cbn; [done|]. intros [Ha Hs]%andb_true_iff.
  by rewrite Hpq, IH.
Qed.

Lemma str_rev_onto_app acc (s : string) : str_rev_onto acc s = (str_rev s ++ acc)%string.
Proof.
  unfold str_rev. revert acc. induction s as [|a s IH]; intros acc; cbn; [done|].
  rewrite IH, (IH (String a EmptyString)), str_app_assoc. done.
Qed.

Lemma str_rev_cons a (s : string) : str_rev (String a s) = (str_rev s ++ String a EmptyString)%string.
Proof. exact (str_rev_onto_app (String a EmptyString) s). Qed.

Lemma str_rev_app (s t : string) : str_rev (s ++ t) = (str_rev t ++ str_rev s)%string.
Proof.
  induction s as [|a s IH]; [by rewrite str_app_nil|].
  rewrite str_app_cons, !str_rev_cons, IH. apply str_app_assoc.
Qed.

Lemma str_rev_involutive (s : string) : str_rev (str_rev s) = s.
Proof.
  induction s as [|a s IH]; [done|]. rewrite str_rev_cons, str_rev_app, IH. done.
Qed.

Lemma str_forallb_rev p (s : string) : str_forallb p (str_rev s) = str_forallb p s.
Proof.
  induction s as [|a s IH]; [done|]. rewrite str_rev_cons, str_forallb_app, IH. cbn.
  by rewrite andb_true_r, andb_comm.
Qed.

Lemma str_rev_repeat c n : str_rev (str_repeat c n) = str_repeat c n.
Proof.
  assert (Hc : forall n, (str_repeat c n ++ String c EmptyString)%string = str_repeat c (S n)).
  { induction n0 as [|k IH]; [done|]. exact (f_equal (String c) IH). }
  induction n as [|n IH]; [done|]. cbn [str_repeat]. by rewrite str_rev_cons, IH, Hc.
Qed.

(** What was appended is what is stripped. *)
Lemma str_rstrip_repeat c (s : string) n :
  str_forallb (fun a => negb (Ascii.eqb a c)) s = true ->
  str_rstrip_char c (s ++ str_repeat c n) = s.
Proof.
  intros Hs. unfold str_rstrip_char. rewrite str_rev_app, str_rev_repeat.
  assert (Hl : forall t, str_forallb (fun a => negb (Ascii.eqb a c)) t = true ->
                 str_lstrip_char c (str_repeat c n ++ t) = t).
  { intros t Ht. induction n as [|k IH]; cbn [str_repeat];
      [|rewrite str_app_cons; cbn; by rewrite Ascii.eqb_refl].
    destruct t as [|a t]; [done|]. cbn in Ht. apply andb_true_iff in Ht as [Ha _].
    change (str_lstrip_char c (String a t) = String a t). cbn.
    by rewrite (proj1 (negb_true_iff _) Ha). }
  rewrite Hl by (by rewrite str_forallb_rev). apply str_rev_involutive.
Qed.

Lemma str_map_app f (s t : string) : str_map f (s ++ t) = (str_map f s ++ str_map f t)%string.
Proof. induction s as [|a s IH]; [done|]. exact (f_equal (String (f a)) IH). Qed.

Lemma str_map_length f (s : string) : String.length (str_map f s) = String.length s.
Proof. induction s as [|a s IH]; cbn; [done|]. by rewrite IH. Qed.

Lemma str_length_app (s t : string) :
  String.length (s ++ t) = (String.length s + String.length t)%nat.
Proof. induction s as [|a s IH]; [done|]. exact (f_equal S IH). Qed.

Lemma str_length_repeat c n : String.length (str_repeat c n) = n.
Proof. induction n as [|n IH]; cbn; [done|]. by rewrite IH. Qed.

(** ** The round trip *)

(** The encoding without its padding. *)
Fixpoint b64_text (b : bytes) : string :=
  match b with
  | [] => EmptyString
  | [x] =>
      let n := byte_val x * 16 in String (b64_char (n / 64)) (String (b64_char (n mod 64)) "")
  | [x; y] =>
      let n := (byte_val x * 256 + byte_val y) * 4 in
      String (b64_char (n / 4096)) (String (b64_char (n / 64 mod 64))
        (String (b64_char (n mod 64)) ""))
  | x :: y :: z :: b' =>
      let n := byte_val x * 65536 + byte_val y * 256 + byte_val z in
      String (b64_char (n / 262144)) (String (b64_char (n / 4096 mod 64))
        (String (b64_char (n / 64 mod 64)) (String (b64_char (n mod 64)) (b64_text b'))))
  end.

(** The equal signs that complete the last quad. *)
Fixpoint b64_pads (b : bytes) : nat :=
  match b with [] => 0 | [_] => 2 | [_; _] => 1 | _ :: _ :: _ :: b' => b64_pads b' end.

Lemma bytes_ind3 (P : bytes -> Prop) :
  P [] -> (forall x, P [x]) -> (forall x y, P [x; y]) ->
  (forall x y z b, P b -> P (x :: y :: z :: b)) -> forall b, P b.
Proof.
  intros H0 H1 H2 H3. fix IH 1. intros [|x [|y [|z b]]]; [exact H0|apply H1|apply H2|apply H3, IH].
Qed.

Lemma b64encode_text b : b64encode b = (b64_text b ++ str_repeat "="%char (b64_pads b))%string.
Proof.
  induction b as [|x|x y|x y z b IH] using bytes_ind3; [done|done|done|].
  cbn [b64encode b64_text b64_pads]. cbn zeta. by rewrite IH.
Qed.

(** The digits of the alphabet, by enumeration. *)
Lemma b64_digit (p : Z -> bool) :
  forallb (fun k => p (Z.of_nat k)) (seq 0 64) = true -> forall n, 0 <= n < 64 -> p n = true.
Proof.
  intros Hp n Hn. rewrite forallb_forall in Hp. rewrite <- (Z2Nat.id n) by lia.
  apply Hp, in_seq. lia.
Qed.

Lemma b64_value_char n : 0 <= n < 64 -> b64_value (b64_char n) = Some n.
Proof.
  intros Hn. apply (bool_decide_eq_true _). revert n Hn.
  apply (b64_digit (fun n => bool_decide (b64_value (b64_char n) = Some n))).
  vm_compute. done.
Qed.

Definition plain_digit (a : ascii) : bool :=
  is_ascii a && negb (Ascii.eqb a "="%char) && Ascii.eqb (unurl_char (url_char a)) a
  && negb (Ascii.eqb (url_char a) "|"%char) && negb (is_str_space a).

Lemma b64_char_plain n : 0 <= n < 64 -> plain_digit (b64_char n) = true.
Proof. apply (b64_digit (fun n => plain_digit (b64_char n))). vm_compute. done. Qed.

Ltac byte_ranges :=
  repeat match goal with
  | x : byte |- _ =>
      lazymatch goal with
      | _ : 0 <= byte_val x < 256 |- _ => fail
      | _ => pose proof (byte_val_range x)
      end
  end.

Lemma b64_text_plain b : str_forallb plain_digit (b64_text b) = true.
Proof.
  induction b as [|x|x y|x y z b IH] using bytes_ind3; cbn; byte_ranges;
    rewrite ?b64_char_plain; try done; try (Z.div_mod_to_equations; lia).
Qed.

Lemma byte_of_eq x n : n = byte_val x -> byte_of_Z n = x.
Proof. intros ->. apply byte_of_val. Qed.

(** A digit read by the decoder. *)
Lemma a2b_digit quad pads left v (s : string) :
  0 <= v < 64 ->
  a2b_base64_from quad pads left (String (b64_char v) s) =
  if quad =? 0 then a2b_base64_from 1 0 v s
  else if quad =? 1 then cons (byte_of_Z (left * 4 + v / 16)) <$> a2b_base64_from 2 0 (v mod 16) s
  else if quad =? 2 then cons (byte_of_Z (left * 16 + v / 4)) <$> a2b_base64_from 3 0 (v mod 4) s
  else cons (byte_of_Z (left * 64 + v)) <$> a2b_base64_from 0 0 0 s.
Proof.
  intros Hv. cbn [a2b_base64_from]. pose proof (b64_char_plain v Hv) as Hp.
  unfold plain_digit in Hp. bool_props. rewrite b64_value_char by done.
  destruct (Ascii.eqb (b64_char v) "="%char); done.
Qed.

Ltac read_digits :=
  repeat (rewrite a2b_digit by (byte_ranges; Z.div_mod_to_equations; lia); cbn [Z.eqb Pos.eqb]).

Lemma a2b_encode b : a2b_base64_from 0 0 0 (b64encode b) = Some b.
Proof.
  induction b as [|x|x y|x y z b IH] using bytes_ind3; cbn [b64encode]; cbn zeta; [done| | |];
    read_digits; rewrite ?IH; unfold fmap, option_fmap, option_map; cbn - [byte_of_Z Z.mul Z.add Z.div Z.modulo];
    repeat f_equal; apply byte_of_eq; byte_ranges; Z.div_mod_to_equations; lia.
Qed.

(** A quad left open is an error. *)
Lemma a2b_text_open b : b64_pads b <> 0%nat -> a2b_base64_from 0 0 0 (b64_text b) = None.
Proof.
  induction b as [|x|x y|x y z b IH] using bytes_ind3; cbn [b64_text b64_pads]; cbn zeta; [done| | |];
    intros Hb; read_digits; rewrite ?IH by done; done.
Qed.

Lemma b64_pads_length b :
  Z.of_nat (b64_pads b) = (- Z.of_nat (String.length (b64_text b))) mod 4 /\
  Z.of_nat (b64_pads b) = (- Z.of_nat (length b)) mod 3.
Proof.
  induction b as [|x|x y|x y z b IH] using bytes_ind3; [done|done|done|].
  cbn [b64_text b64_pads String.length length]. cbn zeta.
  split; [rewrite (proj1 IH)|rewrite (proj2 IH)]; Z.div_mod_to_equations; lia.
Qed.

Lemma b64_text_ascii b : str_forallb is_ascii (b64_text b) = true.
Proof.
  eapply str_forallb_impl, b64_text_plain. intros a Ha. unfold plain_digit in Ha. by bool_props.
Qed.

Lemma str_forallb_repeat p c n : p c = true -> str_forallb p (str_repeat c n) = true.
Proof. intros Hc. induction n as [|n IH]; cbn; [done|]. by rewrite Hc, IH. Qed.

Lemma b64encode_ascii b : str_forallb is_ascii (b64encode b) = true.
Proof.
  rewrite b64encode_text, str_forallb_app, b64_text_ascii. by apply str_forallb_repeat.
Qed.

Theorem b64decode_encode b : b64decode_lenient (b64encode b) = Some b.
Proof. unfold b64decode_lenient. by rewrite b64encode_ascii, a2b_encode. Qed.

(** Stripping the padding and putting it back. *)
Lemma b64encode_stripped b : str_rstrip_char "="%char (b64encode b) = b64_text b.
Proof.
  rewrite b64encode_text. apply str_rstrip_repeat. eapply str_forallb_impl, b64_text_plain.
  intros a [[[[_ Ha]%andb_true_iff _]%andb_true_iff _]%andb_true_iff _]%andb_true_iff. exact Ha.
Qed.

Lemma b64_text_padded b : (b64_text b ++ b64_padding (b64_text b))%string = b64encode b.
Proof.
  rewrite b64encode_text. unfold b64_padding. by rewrite <- (proj1 (b64_pads_length b)), Nat2Z.id.
Qed.

(** The same in the URL-safe alphabet. *)
Lemma unurl_url (s : string) :
  str_forallb plain_digit s = true -> str_map unurl_char (str_map url_char s) = s.
Proof.
  induction s as [|a s IH]; cbn; [done|]. intros [Ha Hs]%andb_true_iff. rewrite IH by done.
  unfold plain_digit in Ha. bool_props. by match goal with H : Ascii.eqb _ a = true |- _ =>
    apply Ascii.eqb_eq in H; rewrite H end.
Qed.

Lemma str_map_repeat f c n : f c = c -> str_map f (str_repeat c n) = str_repeat c n.
Proof. intros Hc. induction n as [|n IH]; cbn; [done|]. by rewrite Hc, IH. Qed.

Lemma urlsafe_stripped b :
  str_rstrip_char "="%char (urlsafe_b64encode b) = str_map url_char (b64_text b).
Proof.
  unfold urlsafe_b64encode. rewrite b64encode_text, str_map_app, str_map_repeat by done.
  apply str_rstrip_repeat. pose proof (b64_text_plain b) as Hp. revert Hp. generalize (b64_text b).
  intros s. induction s as [|a s IH]; cbn; [done|]. intros [Ha Hs]%andb_true_iff.
  rewrite IH by done. rewrite andb_true_r. revert Ha. clear. 
  destruct a as [[] [] [] [] [] [] [] []]; vm_compute; congruence.
Qed.

Lemma urlsafe_roundtrip b :
  let s := str_rstrip_char "="%char (urlsafe_b64encode b) in
  urlsafe_b64decode (s ++ b64_padding s) = Some b.
Proof.
  cbn zeta. rewrite urlsafe_stripped. unfold urlsafe_b64decode, b64_padding.
  rewrite str_map_app, unurl_url by apply b64_text_plain. rewrite str_map_repeat by done.
  rewrite str_map_length. fold (b64_padding (b64_text b)). rewrite b64_text_padded.
  apply b64decode_encode.
Qed.

(** [s.replace(p, "")] for a pattern that is not empty. *)
Fixpoint str_remove_from (p : string) (skip : nat) (s : string) : string :=
  match s with
  | EmptyString => EmptyString
  | String a s' =>
      match skip with
      | S n => str_remove_from p n s'
      | O => if str_startswith p s then str_remove_from p (String.length p - 1) s'
             else String a (str_remove_from p 0 s')
      end
  end.
Definition str_remove (p s : string) : string := str_remove_from p 0 s.

Fixpoint str_drop_while (f : ascii -> bool) (s : string) : string :=
  match s with
  | EmptyString => EmptyString
  | String a s' => if f a then str_drop_while f s' else s
  end.

(** [s.strip("{}")]. *)
Definition is_brace (a : ascii) : bool := Ascii.eqb a "{"%char || Ascii.eqb a "}"%char.
Definition str_strip_braces (s : string) : string :=
  str_rev (str_drop_while is_brace (str_rev (str_drop_while is_brace s))).

(** [uuid.UUID(s)]; [None] is [ValueError]. *)
Definition uuid_of_str (s : string) : option uuid :=
  let hex := str_remove "-" (str_strip_braces (str_remove "uuid:" (str_remove "urn:" s))) in
  if (String.length hex =? 32)%nat then
    n ← int_of_hex hex;
    if (0 <=? n) && (n <? 2 ^ 128) then Some (Z.to_N n) else None
  else None.

Example uuid_of_str_demo :
  uuid_of_str "urn:uuid:{00000000-0000-0000-0000-000000000015}" = Some 21%N /\
  uuid_of_str "00000000000000000000000000000015" = Some 21%N /\ uuid_of_str "15" = None.
Proof. vm_compute. done. Qed.

(** ** The round trip *)

Definition is_hex (a : ascii) : bool := is_lower_hex a.

Lemma hex_digit_is_hex n : 0 <= n < 16 -> is_hex (hex_digit n) = true.
Proof. by apply (nibbles_check (fun n => is_hex (hex_digit n))). Qed.

Lemma bytes_hex_is_hex b : str_forallb is_hex (bytes_hex b) = true.
Proof.
  induction b as [|x b IH]; cbn; [done|]. pose proof (byte_val_range x).
  rewrite !hex_digit_is_hex, IH by (Z.div_mod_to_equations; lia). done.
Qed.

Lemma bytes_hex_length b : String.length (bytes_hex b) = (2 * length b)%nat.
Proof. induction b as [|x b IH]; cbn; [done|]. rewrite IH. lia. Qed.

(** Removing what is not there, and removing single characters. *)
Lemma startswith_char c p (s : string) :
  str_startswith p s = true -> str_forallb (fun a => negb (Ascii.eqb a c)) s = true ->
  str_forallb (fun a => negb (Ascii.eqb a c)) p = true.
Proof.
  revert s. induction p as [|a p IH]; [done|]. intros [|b s]; [done|]. unfold str_startswith in *.
  cbn. destruct (ascii_dec a b) as [->|]; [|done]. intros Hp [Hb Hs]%andb_true_iff.
  rewrite Hb. by eapply IH.
Qed.

Lemma str_remove_absent c p (s : string) :
  str_forallb (fun a => negb (Ascii.eqb a c)) p = false ->
  str_forallb (fun a => negb (Ascii.eqb a c)) s = true -> str_remove p s = s.
Proof.
  intros Hp. unfold str_remove. induction s as [|a s IH]; [done|]. intros Hs.
  cbn [str_remove_from]. destruct (str_startswith p (String a s)) eqn:E.
  - rewrite (startswith_char c p _ E Hs) in Hp. done.
  - apply andb_true_iff in Hs as [_ Hs]. by rewrite IH.
Qed.

Lemma str_remove_dash (s t : string) :
  str_forallb is_hex s = true -> str_remove "-" (s ++ t) = (s ++ str_remove "-" t)%string.
Proof.
  intros Hs. induction s as [|a s IH]; [done|]. apply andb_true_iff in Hs as [Ha Hs].
  rewrite !str_app_cons, <- IH by done. unfold str_remove. cbn [str_remove_from].
  assert (str_startswith "-" (String a (s ++ t)) = false) as ->; [|done].
  revert Ha. destruct a as [[] [] [] [] [] [] [] []]; vm_compute; congruence.
Qed.

Lemma str_remove_one_dash (t : string) : str_remove "-" ("-" ++ t) = str_remove "-" t.
Proof. by destruct t. Qed.

Lemma substring_forallb p n m (s : string) :
  str_forallb p s = true -> str_forallb p (String.substring n m s) = true.
Proof.
  revert n m. induction s as [|a s IH]; intros [|n] [|m]; cbn; try done.
  - intros [Ha Hs]%andb_true_iff. rewrite Ha. by apply IH.
  - intros [_ Hs]%andb_true_iff. by apply IH.
  - intros [_ Hs]%andb_true_iff. by apply IH.
Qed.

Lemma substring_groups (h : string) :
  String.length h = 32%nat ->
  (String.substring 0 8 h ++ String.substring 8 4 h ++ String.substring 12 4 h
   ++ String.substring 16 4 h ++ String.substring 20 12 h)%string = h.
Proof. do 32 (destruct h as [|? h]; [discriminate|]). by destruct h. Qed.

Lemma int_of_hex_plain (s : string) :
  str_forallb is_hex s = true -> int_of_hex s = int_of_hex_body s.
Proof.
  intros Hs. unfold int_of_hex. assert (str_rstrip (str_lstrip s) = s) as ->.
  { assert (Hp : forall a, is_hex a = true -> is_str_space a = false)
      by (intros [[] [] [] [] [] [] [] []]; vm_compute; congruence).
    assert (Hr : forall t, str_forallb is_hex t = true -> str_rstrip t = t).
    { induction t as [|a t IH]; cbn; [done|]. intros [Ha Ht]%andb_true_iff. rewrite IH by done.
      destruct t; [|done]. by rewrite Hp. }
    destruct s as [|a s]; [done|]. pose proof Hs as [Ha _]%andb_true_iff.
    cbn [str_lstrip]. rewrite Hp by done. by apply Hr. }
  destruct s as [|a s]; [done|]. apply andb_true_iff in Hs as [Ha Hs]. clear -Ha Hs.
  assert (Hx : forall v, s <> String "x"%char v /\ s <> String "X"%char v)
    by (intros v; split; intros E; rewrite E in Hs; vm_compute in Hs; discriminate Hs).
  assert (Hy : forall o : option Z, (n ← o; Some n) = o) by (by intros []).
  destruct a as [[] [] [] [] [] [] [] []]; try discriminate Ha; try apply Hy.
  destruct s as [|b s]; [apply Hy|]. clear Ha.
  destruct b as [[] [] [] [] [] [] [] []]; try apply Hy.
  - by destruct (proj2 (Hx s)).
  - by destruct (proj1 (Hx s)).
Qed.

Lemma hex_digits_hex b acc :
  hex_digits acc (bytes_hex b) = Some (fold_left (fun a x => a * 256 + byte_val x) b acc).
Proof.
  revert acc. induction b as [|x b IH]; intros acc; [done|]. cbn [bytes_hex hex_digits fold_left].
  pose proof (byte_val_range x). rewrite !hex_value_digit by (Z.div_mod_to_equations; lia).
  rewrite IH. do 2 f_equal. Z.div_mod_to_equations. lia.
Qed.

Lemma int_of_hex_bytes b : b <> [] -> int_of_hex (bytes_hex b) = Some (from_bytes_big b).
Proof.
  intros Hb. rewrite int_of_hex_plain by apply bytes_hex_is_hex.
  destruct b as [|x b]; [done|]. unfold int_of_hex_body, from_bytes_big.
  rewrite <- (hex_digits_hex (x :: b) 0). cbn [bytes_hex hex_digits].
  pose proof (byte_val_range x). rewrite !hex_value_digit by (Z.div_mod_to_equations; lia).
  reflexivity.
Qed.

Theorem uuid_of_str_uuid (u : uuid) : (u < 2 ^ 128)%N -> uuid_of_str (str_uuid u) = Some u.
Proof.
  intros Hu. unfold uuid_of_str, str_uuid. set (b := to_bytes_big 16 (Z.of_N u)).
  set (h := bytes_hex b). cbv zeta. pose proof (bytes_hex_is_hex b) as Hh. fold h in Hh.
  assert (Hl : String.length h = 32%nat) by (unfold h, b; by rewrite bytes_hex_length, length_to_bytes_big).
  pose proof (fun n m => substring_forallb is_hex n m h Hh) as Hs.
  set (t := (String.substring 0 8 h ++ "-" ++ String.substring 8 4 h ++ "-"
    ++ String.substring 12 4 h ++ "-" ++ String.substring 16 4 h ++ "-" ++ String.substring 20 12 h)%string).
  assert (Hc : str_forallb (fun a => is_hex a || Ascii.eqb a "-"%char) t = true).
  { assert (Hs' : forall n m, str_forallb (fun a => is_hex a || Ascii.eqb a "-"%char)
                     (String.substring n m h) = true).
    { intros n m. eapply str_forallb_impl, Hs. by intros a ->. }
    unfold t. by rewrite !str_forallb_app, !Hs'. }
  assert (Hcolon : str_forallb (fun a => negb (Ascii.eqb a ":"%char)) t = true).
  { eapply str_forallb_impl, Hc. intros a. destruct a as [[] [] [] [] [] [] [] []]; vm_compute; congruence. }
  rewrite (str_remove_absent ":"%char "urn:"), (str_remove_absent ":"%char "uuid:") by done.
  assert (Hn : forall s, str_forallb (fun a => is_hex a || Ascii.eqb a "-"%char) s = true ->
             str_drop_while is_brace s = s).
  { intros [|a s]; [done|]. intros [Ha _]%andb_true_iff. cbn.
    assert (is_brace a = false) as ->; [|done].
    revert Ha. destruct a as [[] [] [] [] [] [] [] []]; vm_compute; congruence. }
  assert (str_strip_braces t = t) as ->.
  { unfold str_strip_braces. rewrite (Hn t), Hn, str_rev_involutive by (by rewrite ?str_forallb_rev).
    done. }
  assert (str_remove "-" t = h) as ->.
  { unfold t. repeat rewrite ?str_remove_dash, ?str_remove_one_dash by apply Hs.
    rewrite <- (str_app_nil (String.substring 20 12 h)), str_remove_dash by apply Hs.
    rewrite str_app_nil. by apply substring_groups. }
  rewrite Hl. cbn [Nat.eqb]. unfold h. rewrite int_of_hex_bytes; [|by destruct b].
  cbn [mbind option_bind]. unfold b. rewrite from_to_bytes_big by lia.
  change (256 ^ Z.of_nat 16) with (2 ^ 128). rewrite Z.mod_small by lia.
  rewrite (proj2 (Z.leb_le _ _)), (proj2 (Z.ltb_lt _ _)) by lia. cbn [andb].
  by rewrite N2Z.id.
Qed.
