(* ===== verification/DecimalCtx.v ===== *)
(** * Whole-wei [decimal.Decimal] arithmetic

    Wei amounts are [Decimal] values in NUMERIC(78, 0) columns, so they are
    integers; the arithmetic on them runs in Python's default decimal context,
    which rounds every result half-even to 28 significant digits.  An amount
    is its integer value here, and each operator applies that rounding.
    [in_prec] is the range in which an operation is exact. *)

From S2P Require Import Prelude.

Open Scope Z_scope.

Definition PREC : Z := 28.
Definition DLIMIT : Z := 10 ^ 28.

Definition in_prec (z : Z) : Prop := Z.abs z < DLIMIT.

#[export] Instance in_prec_dec (z : Z) : Decision (in_prec z).
Proof. unfold in_prec. apply _. Defined.

Fixpoint digits_fuel (fuel : nat) (n : Z) : Z :=
  match fuel with
  | O => 1
  | S fuel' => if n <? 10 then 1 else 1 + digits_fuel fuel' (n / 10)
  end.

(** The number of decimal digits of [n > 0]. *)
Definition num_digits (n : Z) : Z := digits_fuel (Z.to_nat (Z.log2 n)) n.

(** [num / den] rounded to an integer, ties to even. *)
Definition round_half_even (num den : Z) : Z :=
  let q := num / den in
  let r := num mod den in
  if 2 * r <? den then q
  else if den <? 2 * r then q + 1
  else if Z.even q then q else q + 1.

Definition ctx_round (z : Z) : Z :=
  if Z.abs z <? DLIMIT then z
  else
    let p := 10 ^ (num_digits (Z.abs z) - PREC) in
    Z.sgn z * (round_half_even (Z.abs z) p * p).

Definition dadd (x y : Z) : Z := ctx_round (x + y).
Definition dsub (x y : Z) : Z := ctx_round (x - y).
Definition dmul (x y : Z) : Z := ctx_round (x * y).
Definition dneg (x : Z) : Z := ctx_round (- x).

(** The exponent [e] of the 28-digit quotient: [10^27 <= n / (d * 10^e) < 10^28]. *)
Definition quot_exp (n d : Z) : Z :=
  let dn := num_digits n in
  let dd := num_digits d in
  if n * 10 ^ dd <? d * 10 ^ dn then dn - dd - PREC else dn - dd - PREC + 1.

(** [(n / Decimal(d)).to_integral_value(rounding=ROUND_CEILING)] for [n >= 0],
    [d > 0]: the quotient rounded to 28 digits, then rounded up. *)
Definition ddiv_ceil (n d : Z) : Z :=
  if n =? 0 then 0
  else
    let e := quot_exp n d in
    if 0 <=? e
    then round_half_even n (d * 10 ^ e) * 10 ^ e
    else cdiv (round_half_even (n * 10 ^ (- e)) d) (10 ^ (- e)).

(** [n / d] for [d <> 0] as a fraction: the quotient of the absolute values
    rounded half-even to 28 digits, with the sign. *)
Definition ddiv (n d : Z) : Z * Z :=
  if n =? 0 then (0, 1)
  else
    let s := Z.sgn n * Z.sgn d in
    let a := Z.abs n in
    let b := Z.abs d in
    let e := quot_exp a b in
    if 0 <=? e then (s * (round_half_even a (b * 10 ^ e) * 10 ^ e), 1)
    else (s * round_half_even (a * 10 ^ (- e)) b, 10 ^ (- e)).

(** [sum(xs, Decimal(0))]. *)
Definition dsum (l : list Z) : Z := fold_left dadd l 0.

(** Decimals including the special values, where the code can meet them. *)
Inductive xdec := Fin (z : Z) | PInf | NInf | QNaN.

Definition xdec_is_finite (x : xdec) : bool := match x with Fin _ => true | _ => false end.

(** ** Exactness *)

Lemma ctx_round_exact (z : Z) : in_prec z -> ctx_round z = z.
Proof. unfold in_prec, ctx_round. intros H. by rewrite (proj2 (Z.ltb_lt _ _) H). Qed.

Lemma dadd_exact (x y : Z) : in_prec (x + y) -> dadd x y = x + y.
Proof. apply ctx_round_exact. Qed.
Lemma dsub_exact (x y : Z) : in_prec (x - y) -> dsub x y = x - y.
Proof. apply ctx_round_exact. Qed.
Lemma dmul_exact (x y : Z) : in_prec (x * y) -> dmul x y = x * y.
Proof. apply ctx_round_exact. Qed.
Lemma dneg_exact (x : Z) : in_prec x -> dneg x = - x.
Proof. intros H. apply ctx_round_exact. unfold in_prec in *. lia. Qed.

Lemma in_prec_le (x y : Z) : Z.abs x <= Z.abs y -> in_prec y -> in_prec x.
Proof. unfold in_prec. lia. Qed.

Lemma in_prec_0 : in_prec 0.
Proof. unfold in_prec, DLIMIT. lia. Qed.

Lemma round_half_even_nonneg (num den : Z) :
  0 <= num -> 0 < den -> 0 <= round_half_even num den.
Proof.
  intros Hn Hd. unfold round_half_even.
  pose proof (Z.div_pos num den Hn Hd).
  repeat case_match; lia.
Qed.

(** Rounding moves the quotient by at most half a unit. *)
Lemma round_half_even_bound (num den : Z) :
  0 < den ->
  2 * num - den <= 2 * den * round_half_even num den <= 2 * num + den.
Proof.
  intros Hd. unfold round_half_even.
  pose proof (Z.div_mod num den ltac:(lia)).
  pose proof (Z.mod_pos_bound num den Hd).
  destruct (2 * (num mod den) <? den) eqn:E1; [bool_props; nia|].
  destruct (den <? 2 * (num mod den)) eqn:E2; [bool_props; nia|].
  destruct (Z.even (num / den)); bool_props; nia.
Qed.

Lemma digits_fuel_spec (fuel : nat) (n : Z) :
  0 < n < 10 ^ Z.of_nat (S fuel) ->
  1 <= digits_fuel fuel n /\ 10 ^ (digits_fuel fuel n - 1) <= n < 10 ^ digits_fuel fuel n.
Proof.
  revert n. induction fuel as [|fuel IH]; intros n Hn; cbn [digits_fuel].
  - cbn in Hn. cbn. lia.
  - destruct (n <? 10) eqn:E; bool_props; [cbn; lia|].
    assert (Hq : 0 < n / 10 < 10 ^ Z.of_nat (S fuel)).
    { rewrite (Nat2Z.inj_succ (S fuel)), Z.pow_succ_r in Hn by lia.
      pose proof (Z.div_mod n 10 ltac:(lia)). pose proof (Z.mod_pos_bound n 10 ltac:(lia)).
      lia. }
    destruct (IH _ Hq) as [H1 [H2 H3]]. split; [lia|].
    set (k := digits_fuel fuel (n / 10)) in *.
    replace (1 + k - 1) with (Z.succ (k - 1)) by lia.
    replace (1 + k) with (Z.succ k) by lia.
    rewrite !Z.pow_succ_r by lia.
    pose proof (Z.div_mod n 10 ltac:(lia)). pose proof (Z.mod_pos_bound n 10 ltac:(lia)). lia.
Qed.

Lemma num_digits_spec (n : Z) :
  0 < n -> 1 <= num_digits n /\ 10 ^ (num_digits n - 1) <= n < 10 ^ num_digits n.
Proof.
  intros Hn. apply digits_fuel_spec. split; [done|].
  pose proof (Z.log2_nonneg n) as Hl. destruct (Z.log2_spec n Hn) as [_ H].
  rewrite Nat2Z.inj_succ, Z2Nat.id by lia.
  eapply Z.lt_le_trans; [exact H|]. apply Z.pow_le_mono_l. lia.
Qed.

(** Rounding keeps the sign, so a guard on the rounded sum is a guard on the
    sum. *)
Lemma ctx_round_nonneg (z : Z) : 0 <= ctx_round z <-> 0 <= z.
Proof.
  unfold ctx_round. destruct (Z.abs z <? DLIMIT) eqn:E; [done|].
  bool_props. assert (Hz : 0 < Z.abs z) by (unfold DLIMIT in E; lia).
  pose proof (num_digits_spec _ Hz) as [H1 [H2 H3]].
  assert (Hk : PREC < num_digits (Z.abs z)).
  { destruct (Z.lt_ge_cases PREC (num_digits (Z.abs z))) as [|Hle]; [done|].
    exfalso. assert (10 ^ num_digits (Z.abs z) <= DLIMIT)
      by (apply (Z.pow_le_mono_r 10); unfold PREC in Hle; lia). lia. }
  set (p := 10 ^ (num_digits (Z.abs z) - PREC)).
  assert (Hp : 0 < p) by (apply Z.pow_pos_nonneg; lia).
  assert (Hr : 0 < round_half_even (Z.abs z) p).
  { pose proof (round_half_even_bound (Z.abs z) p Hp).
    assert (p <= Z.abs z).
    { etransitivity; [|exact H2]. apply Z.pow_le_mono_r; unfold PREC; lia. }
    nia. }
  destruct (Z.sgn_spec z) as [[? ->]|[[? ->]|[? ->]]]; nia.
Qed.

Lemma dadd_nonneg (x y : Z) : 0 <= x -> 0 <= y -> 0 <= dadd x y.
Proof. intros. apply ctx_round_nonneg. lia. Qed.

(** Within 27 digits the two-step rounding of a quotient is the exact ceiling. *)
Lemma ddiv_ceil_exact (n d : Z) :
  0 <= n < 10 ^ 27 -> 0 < d -> ddiv_ceil n d = cdiv n d.
Proof.
  intros Hn Hd. unfold ddiv_ceil.
  destruct (n =? 0) eqn:E0; bool_props; [subst; by rewrite cdiv_0|].
  destruct (num_digits_spec n ltac:(lia)) as [Hn1 [Hn2 Hn3]].
  destruct (num_digits_spec d ltac:(lia)) as [Hd1 [Hd2 Hd3]].
  assert (Hdn : num_digits n <= 27).
  { destruct (Z.le_gt_cases (num_digits n) 27) as [|Hgt]; [done|]. exfalso.
    assert (10 ^ 27 <= 10 ^ (num_digits n - 1)) by (apply Z.pow_le_mono_r; lia). lia. }
  assert (Hexp : quot_exp n d < 0 /\ 10 ^ 27 * d <= n * 10 ^ (- quot_exp n d)).
  { unfold quot_exp, PREC. set (a := num_digits n) in *. set (b := num_digits d) in *.
    destruct (n * 10 ^ b <? d * 10 ^ a) eqn:E; bool_props; (split; [lia|]).
    - replace (- (a - b - 28)) with ((27 - (a - 1)) + b) by lia.
      rewrite Z.pow_add_r by lia.
      assert (10 ^ (a - 1) * 10 ^ (27 - (a - 1)) = 10 ^ 27)
        by (rewrite <- Z.pow_add_r by lia; f_equal; lia).
      pose proof (Z.pow_pos_nonneg 10 (27 - (a - 1)) ltac:(lia) ltac:(lia)). nia.
    - replace (- (a - b - 28 + 1)) with ((27 - a) + b) by lia.
      rewrite Z.pow_add_r by lia.
      assert (10 ^ a * 10 ^ (27 - a) = 10 ^ 27)
        by (rewrite <- Z.pow_add_r by lia; f_equal; lia).
      pose proof (Z.pow_pos_nonneg 10 (27 - a) ltac:(lia) ltac:(lia)). nia. }
  destruct Hexp as [He Hlow].
  destruct (0 <=? quot_exp n d) eqn:E1; bool_props; [lia|].
  set (P := 10 ^ (- quot_exp n d)) in *.
  assert (HP : 0 < P) by (apply Z.pow_pos_nonneg; lia).
  pose proof (round_half_even_bound (n * P) d Hd) as Hb.
  pose proof (cdiv_spec n d Hd) as Hc. set (N := cdiv n d) in *.
  apply cdiv_unique; [done|].
  set (c := round_half_even (n * P) d) in *.
  assert (HPd : d < 2 * P) by nia.
  split.
  - assert (d * (N - 1) * P + P <= n * P) by nia. nia.
  - assert (n * P <= d * N * P) by nia. nia.
Qed.

(** A running sum that stays in range is exact. *)
Lemma dsum_exact_from (l : list Z) (a : Z) :
  0 <= a -> Forall (fun z => 0 <= z) l -> a + Zsum l < DLIMIT ->
  fold_left dadd l a = a + Zsum l.
Proof.
  revert a. induction l as [|z l IH]; intros a Ha Hl Hs; cbn in *; [lia|].
  apply Forall_cons in Hl as [Hz Hl].
  assert (0 <= Zsum l) by (pose proof (sum_by_nonneg (fun z => z) l) as Hp;
    unfold sum_by in Hp; rewrite map_id in Hp; by apply Hp).
  unfold Zsum in *. rewrite dadd_exact by (unfold in_prec; lia). rewrite IH by (try done; lia).
  lia.
Qed.

Lemma dsum_exact (l : list Z) :
  Forall (fun z => 0 <= z) l -> Zsum l < DLIMIT -> dsum l = Zsum l.
Proof. intros. unfold dsum. rewrite dsum_exact_from by (try done; lia). lia. Qed.

#[export] Hint Resolve in_prec_0 dadd_nonneg : loc.
