(* ===== verification/Errors.v ===== *)
(** * Exceptions

    The exceptions the modelled services raise or catch: Python's own, the
    provider errors, the session state-machine errors, and the structured
    [OpenClearinghouseError] family of [errors.py] with the status, code and
    details its handler renders.  [is_value_error] and its companions are the
    class hierarchy the [except] clauses test. *)

From S2P Require Import Prelude PyData.

Open Scope string_scope.
Open Scope Z_scope.

(** [errors.py] and the subclasses declared by the sessions and jobs services. *)
Inductive oc_error :=
  | InsufficientCredit (available_wei required_wei : Z)
  | SpendCapExceeded (cap_wei would_be_spent_wei : Z)
  | AccountNotApproved
  | NoRouteAvailable (capability offering : string)
  | NoSettlementDelegation (capability offering : string)
  | DaemonUnavailable (daemon reason : string)
  | AuthorizationRefused (reason : string)
  | WholesaleFundingUnverified (reason : string)
  | EngagementClosed
  | DuplicateRequest
  | IdempotencyKeyReuse
  | IdempotencyInProgress
  | IdempotencyOutcomeUnknown
  | ProtocolNotSupportedForSession (protocol : string)
  | InvalidSessionRequest (message : string)
  | RouteBindingMismatch (binding : dict)
  | SessionSettlementVerificationFailed (reason : string)
  | RefillNotSupported
  | SessionNotOpen (current_state : string)
  | SessionCapReached (which : string) (remaining_wei : Z) (advice : string)
  | SuccessorAuthorizationUnresolved (session_id authorization_id : string)
  | ProtocolNotSupportedForJob (protocol : string)
  | TransportNotSupportedForJob (transport : string) (declared : list string)
  | JobNotFound
  | JobAlreadySettled (current_state : string)
  | WorkUnitMismatch (expected received : string)
  | JobSettlementVerificationFailed (reason : string)
  (* admin/service.py *)
  | JobNotResolvable (reason : string) (current_state : option string)
  (* the base class, rebuilt from a stored response *)
  | StoredError (status_code : Z) (code message : string) (details : dict).

Definition oc_status (e : oc_error) : Z :=
  match e with
  | InsufficientCredit _ _ | SpendCapExceeded _ _ | SessionCapReached _ _ _ => 402
  | AccountNotApproved => 403
  | NoRouteAvailable _ _ | JobNotFound => 404
  | NoSettlementDelegation _ _ | ProtocolNotSupportedForSession _
  | InvalidSessionRequest _ | SessionSettlementVerificationFailed _ | RefillNotSupported
  | ProtocolNotSupportedForJob _ | TransportNotSupportedForJob _ _ => 400
  | DaemonUnavailable _ _ | WholesaleFundingUnverified _
  | SuccessorAuthorizationUnresolved _ _ => 503
  | AuthorizationRefused _ => 422
  | EngagementClosed | DuplicateRequest | IdempotencyKeyReuse | IdempotencyInProgress
  | IdempotencyOutcomeUnknown | RouteBindingMismatch _ | SessionNotOpen _
  | JobAlreadySettled _ | WorkUnitMismatch _ _ | JobSettlementVerificationFailed _
  | JobNotResolvable _ _ => 409
  | StoredError status _ _ _ => status
  end.

Definition oc_code (e : oc_error) : string :=
  match e with
  | InsufficientCredit _ _ => "INSUFFICIENT_CREDIT"
  | SpendCapExceeded _ _ => "SPEND_CAP_EXCEEDED"
  | AccountNotApproved => "ACCOUNT_NOT_APPROVED"
  | NoRouteAvailable _ _ => "NO_ROUTE_AVAILABLE"
  | NoSettlementDelegation _ _ => "no_settlement_delegation"
  | DaemonUnavailable _ _ => "DAEMON_UNAVAILABLE"
  | AuthorizationRefused _ => "AUTHORIZATION_REFUSED"
  | WholesaleFundingUnverified _ => "WHOLESALE_FUNDING_UNVERIFIED"
  | EngagementClosed => "ENGAGEMENT_CLOSED"
  | DuplicateRequest => "DUPLICATE_REQUEST"
  | IdempotencyKeyReuse => "IDEMPOTENCY_KEY_REUSE"
  | IdempotencyInProgress => "IDEMPOTENCY_IN_PROGRESS"
  | IdempotencyOutcomeUnknown => "IDEMPOTENCY_OUTCOME_UNKNOWN"
  | ProtocolNotSupportedForSession _ => "protocol_not_supported_for_session"
  | InvalidSessionRequest _ => "invalid_session_request"
  | RouteBindingMismatch _ => "route_binding_mismatch"
  | SessionSettlementVerificationFailed _ | JobSettlementVerificationFailed _ =>
      "settlement_verification_failed"
  | RefillNotSupported => "refill_not_supported"
  | SessionNotOpen _ => "session_not_open"
  | SessionCapReached _ _ _ => "cap_reached"
  | SuccessorAuthorizationUnresolved _ _ => "successor_authorization_unresolved"
  | ProtocolNotSupportedForJob _ => "protocol_not_supported_for_job"
  | TransportNotSupportedForJob _ _ => "protocol_transport_unsupported"
  | JobNotFound => "job_not_found"
  | JobAlreadySettled _ => "job_already_settled"
  | WorkUnitMismatch _ _ => "work_unit_mismatch"
  | JobNotResolvable _ _ => "job_not_resolvable"
  | StoredError _ code _ _ => code
  end.

Definition oc_details (e : oc_error) : dict :=
  match e with
  | InsufficientCredit a r =>
      [("available_wei", JStr (str_Z a)); ("required_wei", JStr (str_Z r))]
  | SpendCapExceeded c w =>
      [("cap_wei", JStr (str_Z c)); ("would_be_spent_wei", JStr (str_Z w))]
  | NoRouteAvailable c o | NoSettlementDelegation c o =>
      [("capability", JStr c); ("offering", JStr o)]
  | DaemonUnavailable d r => [("daemon", JStr d); ("reason", JStr r)]
  | AuthorizationRefused r | WholesaleFundingUnverified r
  | SessionSettlementVerificationFailed r | JobSettlementVerificationFailed r =>
      [("reason", JStr r)]
  | RouteBindingMismatch b => [("route_binding", JObj b)]
  | SessionCapReached w r a =>
      [("which", JStr w); ("remaining_wei", JStr (str_Z r)); ("advice", JStr a)]
  | SuccessorAuthorizationUnresolved s a =>
      [("session_id", JStr s); ("authorization_id", JStr a)]
  | TransportNotSupportedForJob t d =>
      [("transport", JStr t); ("declared_transports", JArr (map JStr d))]
  | WorkUnitMismatch e r => [("expected", JStr e); ("received", JStr r)]
  | JobNotResolvable r s =>
      [("reason", JStr r); ("state", match s with Some x => JStr x | None => JNull end)]
  | StoredError _ _ _ details => details
  | _ => []
  end.

(** Everything a modelled function can raise. *)
Inductive exn :=
  | KeyError
  | TypeError
  | ValueError (msg : string)
  | AttributeError
  | AssertionError
  | RuntimeErr (msg : string)
  | StopIteration
  | ZeroDivision
  | DecimalInvalidOperation
  | IntegrityErr
  (* settlement_verification.py *)
  | SettlementVerificationErr (code : string)
  (* wholesale/service.py *)
  | WholesaleFundingPolicyErr (msg : string)
  (* payment_daemon/client.py *)
  | PaymentDaemonErr (msg : string)
  | MintOutcomeUnknown (msg : string)
  | SpendAuthorizationRefused (msg : string)
  | DaemonDepositInsufficient (msg : string)
  | AioRpcErr (code : string) (details : option string)
  (* broker_settlement.py *)
  | BrokerSettlementQueryErr (msg : string)
  | BrokerWholesaleAccountErr (msg : string)
  (* sessions/service.py *)
  | InvalidSessionState
  | InvalidSessionTransition
  | SessionNotFound
  (* accounts, api_keys, admin and notifications: [code] of the error class *)
  | ServiceError (code : string)
  | AdminServiceError (code : string)
  | ApiKeyServiceError (code : string)
  | OAuthServiceError (code : string)
  | NotificationServiceError (code : string)
  | TelemetryServiceError (code : string)
  | WebhookSignatureErr (msg : string)
  | EmailSendErr (msg : string)
  (* an exception of a library the code catches without looking at it *)
  | LibraryErr (msg : string)
  (* argon2: a verification failure other than a mismatch *)
  | Argon2VerificationErr
  (* the runtime layers *)
  | HTTPException (status_code : Z) (detail : string)
  | OC (e : oc_error).

(** [except ValueError]: [ValueError] and its subclasses here. *)
Definition is_value_error (e : exn) : bool :=
  match e with
  | ValueError _ | SettlementVerificationErr _ | WholesaleFundingPolicyErr _ => true
  | _ => false
  end.

(** [except (KeyError, TypeError, ValueError)]. *)
Definition is_shape_error (e : exn) : bool :=
  match e with KeyError | TypeError => true | _ => is_value_error e end.

(** [except PaymentDaemonError]. *)
Definition is_daemon_error (e : exn) : bool :=
  match e with
  | PaymentDaemonErr _ | MintOutcomeUnknown _ | SpendAuthorizationRefused _
  | DaemonDepositInsufficient _ => true
  | _ => false
  end.

(** The text of [str(exc)] where the code forwards it. *)
Definition exn_str (e : exn) : string :=
  match e with
  | ValueError m | WholesaleFundingPolicyErr m | PaymentDaemonErr m
  | SpendAuthorizationRefused m | MintOutcomeUnknown m | DaemonDepositInsufficient m
  | BrokerSettlementQueryErr m
  | BrokerWholesaleAccountErr m | RuntimeErr m => m
  | _ => ""
  end.

(** ** Results *)

Inductive res (A : Type) := Ok (a : A) | Err (e : exn).
Arguments Ok {A} a.
Arguments Err {A} e.

Definition res_bind {A B} (r : res A) (f : A -> res B) : res B :=
  match r with Ok a => f a | Err e => Err e end.

Notation "'let?' x ':=' r 'in' k" := (res_bind r (fun x => k))
  (at level 200, x pattern, r at level 100, k at level 200,
   format "'let?'  x  ':='  r  'in' '//' k") : loc_scope.

Definition require (b : bool) (e : exn) : res unit := if b then Ok tt else Err e.

Definition of_option {A} (o : option A) (e : exn) : res A :=
  match o with Some a => Ok a | None => Err e end.

(** [try: r  except exceptions in P as e: raise h e]. *)
Definition remap {A} (P : exn -> bool) (h : exn -> exn) (r : res A) : res A :=
  match r with Ok a => Ok a | Err e => Err (if P e then h e else e) end.

(** A loop that stops at the first exception. *)
Fixpoint res_map {A B} (f : A -> res B) (l : list A) : res (list B) :=
  match l with
  | [] => Ok []
  | x :: l' => res_bind (f x) (fun y => res_bind (res_map f l') (fun ys => Ok (y :: ys)))
  end.

Definition is_ok {A} (r : res A) : bool := match r with Ok _ => true | Err _ => false end.

(** ** Lemmas *)

Lemma res_bind_ok {A B} (r : res A) (f : A -> res B) (b : B) :
  res_bind r f = Ok b <-> exists a, r = Ok a /\ f a = Ok b.
Proof.
  destruct r as [a|e]; cbn; split.
  - intros H. by exists a.
  - by intros [a' [[= <-] H]].
  - done.
  - by intros [a [? _]].
Qed.

Lemma require_ok (b : bool) (e : exn) : require b e = Ok tt <-> b = true.
Proof. unfold require. destruct b; by split. Qed.

Lemma of_option_ok {A} (o : option A) (e : exn) (a : A) : of_option o e = Ok a -> o = Some a.
Proof. destruct o; by intros [=->]. Qed.

Lemma require_ok_any (b : bool) (e : exn) (u : unit) : require b e = Ok u -> b = true.
Proof. unfold require. by destruct b. Qed.

Lemma remap_ok {A} (P : exn -> bool) (h : exn -> exn) (r : res A) (a : A) :
  remap P h r = Ok a <-> r = Ok a.
Proof. by destruct r; cbn; split. Qed.

(** [a <= b]: Python refuses to order an aware and a naive timestamp. *)
Definition dt_leb (a b : datetime) : res bool :=
  (let? _ := require (Bool.eqb (dt_aware a) (dt_aware b)) TypeError in
   Ok (dt_us a <=? dt_us b))%loc.

Lemma dt_leb_ok a b v :
  dt_leb a b = Ok v <-> dt_aware a = dt_aware b /\ v = (dt_us a <=? dt_us b).
Proof.
  unfold dt_leb, require. destruct (Bool.eqb (dt_aware a) (dt_aware b)) eqn:E; cbn.
  - apply Bool.eqb_prop in E. split; [by intros [= <-]|by intros [_ ->]].
  - split; [done|]. intros [H _]. by rewrite H, Bool.eqb_reflx in E.
Qed.

(** Every error the code raises itself renders as a client or server error. *)
Lemma oc_status_range (e : oc_error) :
  match e with StoredError _ _ _ _ => True | _ => 400 <= oc_status e < 600 end.
Proof. destruct e; cbn; auto; lia. Qed.

(** Invert a chain of guards and bindings that returned a value. *)
Ltac res_inv :=
  repeat match goal with
  | H : res_bind _ _ = Ok _ |- _ => apply res_bind_ok in H; destruct H as [? [? H]]
  | H : match ?x with (_, _) => _ end = Ok _ |- _ => destruct x
  | H : require _ _ = Ok _ |- _ => apply require_ok_any in H
  | H : remap _ _ _ = Ok _ |- _ => apply remap_ok in H
  | H : Ok _ = Ok _ |- _ => injection H as H; try subst
  | H : Err _ = Ok _ |- _ => discriminate H
  end.

Lemma res_map_ok {A B} (f : A -> res B) l k :
  res_map f l = Ok k <-> Forall2 (fun a b => f a = Ok b) l k.
Proof.
  split.
  - revert k. induction l as [|a l IH]; intros k H; cbn in H; res_inv; constructor; auto.
  - induction 1 as [|a b l k Ha _ IH]; cbn; [done|]. by rewrite Ha, IH.
Qed.

(** ... and through [of_option]. *)
Ltac opt_inv :=
  repeat match goal with H : of_option _ _ = Ok _ |- _ => apply of_option_ok in H end.
