(* ===== verification/Effects.v ===== *)
(** * The transactional service monad

    A service function runs against one [AsyncSession]: the committed database,
    the session's working copy, whether unflushed changes are pending, and the
    outside world (clock, identifier source, remote services).  An exception
    keeps the working copy, as SQLAlchemy does; [db_rollback] discards it, and
    [session_scope] is the request wrapper of [providers/db/engine.py].

    Row locks ([with_for_update]) serialise writers and are not represented.
    Losing a uniqueness race is: [st_races] scripts, write barrier by write
    barrier, whether a concurrent transaction committed a conflicting row
    first. *)

From S2P Require Import Prelude PyData Errors.

Open Scope Z_scope.

(** The parts of the Python runtime the services consult without the theorems
    depending on their text or values: the clock and UUID source (indexed by
    call); the standard library's timestamp codec, [repr], SHA-256, HMAC-SHA-256
    and [json.loads]; and pydantic's JSON form of a timestamp. *)
Class Runtime := {
  rt_now : nat -> datetime;
  rt_uuid : nat -> uuid;
  rt_fromisoformat : string -> option datetime;
  rt_isoformat : datetime -> string;
  rt_model_time : datetime -> string;
  rt_repr : json -> string;
  rt_sha256 : bytes -> bytes;
  rt_parse_time : string -> option datetime;
  rt_hmac : bytes -> bytes -> bytes;
  rt_json_loads : bytes -> option json;
}.

Record St (DB W : Type) := MkSt {
  st_committed : DB;
  st_working : DB;
  st_pending : bool;
  st_races : list (option (DB -> DB));
  st_ticks : nat;
  st_world : W;
}.
Arguments MkSt {DB W}.
Arguments st_committed {DB W}.
Arguments st_working {DB W}.
Arguments st_pending {DB W}.
Arguments st_races {DB W}.
Arguments st_ticks {DB W}.
Arguments st_world {DB W}.

Definition M (DB W A : Type) : Type := St DB W -> res A * St DB W.

Section ops.
Context {DB W : Type}.
Local Abbreviation M := (M DB W).
Local Abbreviation St := (St DB W).

Definition ret {A} (a : A) : M A := fun s => (Ok a, s).

Definition bind {A B} (m : M A) (f : A -> M B) : M B := fun s =>
  match m s with
  | (Ok a, s') => f a s'
  | (Err e, s') => (Err e, s')
  end.

Definition raise {A} (e : exn) : M A := fun s => (Err e, s).

Definition lift {A} (r : res A) : M A := fun s => (r, s).

(** [try: m  except exceptions h handles: ...]; [h e = None] re-raises. *)
Definition try_except {A} (m : M A) (h : exn -> option (M A)) : M A := fun s =>
  match m s with
  | (Ok a, s') => (Ok a, s')
  | (Err e, s') => match h e with Some k => k s' | None => (Err e, s') end
  end.

Definition guard (b : bool) (e : exn) : M unit := lift (require b e).

(** A SELECT: autoflush sends pending changes first. *)
Definition db_read : M DB := fun s =>
  (Ok (st_working s),
   MkSt (st_committed s) (st_working s) false (st_races s) (st_ticks s) (st_world s)).

(** Reading attributes of loaded rows. *)
Definition db_peek : M DB := fun s => (Ok (st_working s), s).

(** Changing loaded rows or adding new ones. *)
Definition db_modify (f : DB -> DB) : M unit := fun s =>
  (Ok tt,
   MkSt (st_committed s) (f (st_working s)) true (st_races s) (st_ticks s) (st_world s)).

Definition db_flush : M unit := fun s =>
  (Ok tt,
   MkSt (st_committed s) (st_working s) false (st_races s) (st_ticks s) (st_world s)).

Definition db_rollback : M unit := fun s =>
  (Ok tt,
   MkSt (st_committed s) (st_committed s) false (st_races s) (st_ticks s) (st_world s)).

(** A write barrier at which a uniqueness constraint may be lost to a
    concurrent transaction; that transaction's effect is then committed. *)
Definition db_race : M unit := fun s =>
  match st_races s with
  | [] => (Ok tt, s)
  | None :: r =>
      (Ok tt, MkSt (st_committed s) (st_working s) (st_pending s) r (st_ticks s) (st_world s))
  | Some f :: r =>
      (Err IntegrityErr,
       MkSt (f (st_committed s)) (st_working s) (st_pending s) r (st_ticks s) (st_world s))
  end.

(** Another transaction committing between two statements of this session: the
    next statement sees its effect. *)
Definition db_interleave : M unit := fun s =>
  match st_races s with
  | [] => (Ok tt, s)
  | None :: r =>
      (Ok tt, MkSt (st_committed s) (st_working s) (st_pending s) r (st_ticks s) (st_world s))
  | Some f :: r =>
      (Ok tt,
       MkSt (f (st_committed s)) (f (st_working s)) (st_pending s) r (st_ticks s) (st_world s))
  end.

Definition db_commit : M unit := bind db_race (fun _ => fun s =>
  (Ok tt,
   MkSt (st_working s) (st_working s) false (st_races s) (st_ticks s) (st_world s))).

(** A write through a database session of its own: committed at once, whatever
    becomes of this session, and seen by its next statement. *)
Definition db_independent (f : DB -> DB) : M unit := bind db_race (fun _ => fun s =>
  (Ok tt,
   MkSt (f (st_committed s)) (f (st_working s)) (st_pending s) (st_races s) (st_ticks s)
     (st_world s))).

(** [db.new or db.dirty or db.deleted]. *)
Definition db_is_dirty : M bool := fun s => (Ok (st_pending s), s).

Definition tick {A} (f : nat -> A) : M A := fun s =>
  (Ok (f (st_ticks s)),
   MkSt (st_committed s) (st_working s) (st_pending s) (st_races s) (S (st_ticks s))
     (st_world s)).

Definition clock_now {R : Runtime} : M datetime := tick rt_now.
Definition new_uuid {R : Runtime} : M uuid := tick rt_uuid.

(** Calling a remote service. *)
Definition remote {A} (call : W -> res A * W) : M A := fun s =>
  let '(r, w) := call (st_world s) in
  (r, MkSt (st_committed s) (st_working s) (st_pending s) (st_races s) (st_ticks s) w).

Fixpoint mfold {A B} (f : B -> A -> M B) (b : B) (l : list A) : M B :=
  match l with
  | [] => ret b
  | x :: l' => bind (f b x) (fun b' => mfold f b' l')
  end.

(** [session_scope]: commit when the body returns, roll back when it raises. *)
Definition session_scope {A} (m : M A) : M A :=
  try_except (bind m (fun a => bind db_commit (fun _ => ret a)))
    (fun e => Some (bind db_rollback (fun _ => raise e))).

End ops.

Arguments bind : simpl never.
Arguments session_scope : simpl never.

Notation "x <- m ;; k" := (bind m (fun x => k))
  (at level 100, m at next level, right associativity) : loc_scope.
Notation "' pat <- m ;; k" := (bind m (fun x => match x with pat => k end))
  (at level 100, pat pattern, m at next level, right associativity) : loc_scope.
Notation "m ;;; k" := (bind m (fun _ => k))
  (at level 100, right associativity) : loc_scope.

(** ** Equational laws *)

Section laws.
Context {DB W : Type}.

Lemma bind_ret {A B} (a : A) (f : A -> M DB W B) s : bind (ret a) f s = f a s.
Proof. done. Qed.

Lemma bind_raise {A B} e (f : A -> M DB W B) s : bind (raise e) f s = (Err e, s).
Proof. done. Qed.

Lemma bind_lift {A B} (r : res A) (f : A -> M DB W B) s :
  bind (lift r) f s = match r with Ok a => f a s | Err e => (Err e, s) end.
Proof. by destruct r. Qed.

Lemma bind_guard {B} (b : bool) e (f : unit -> M DB W B) s :
  bind (guard b e) f s = if b then f tt s else (Err e, s).
Proof. by destruct b. Qed.

Lemma bind_if {A B} (b : bool) (m1 m2 : M DB W A) (f : A -> M DB W B) s :
  bind (if b then m1 else m2) f s = if b then bind m1 f s else bind m2 f s.
Proof. by destruct b. Qed.

Lemma bind_tick {A B} (g : nat -> A) (f : A -> M DB W B) s :
  bind (tick g) f s =
  f (g (st_ticks s)) (MkSt (st_committed s) (st_working s) (st_pending s) (st_races s)
                        (S (st_ticks s)) (st_world s)).
Proof. done. Qed.

Lemma bind_db_read {B} (f : DB -> M DB W B) s :
  bind db_read f s =
  f (st_working s) (MkSt (st_committed s) (st_working s) false (st_races s) (st_ticks s)
                      (st_world s)).
Proof. done. Qed.

Lemma bind_db_peek {B} (f : DB -> M DB W B) s : bind db_peek f s = f (st_working s) s.
Proof. done. Qed.

Lemma bind_db_modify {B} g (f : unit -> M DB W B) s :
  bind (db_modify g) f s =
  f tt (MkSt (st_committed s) (g (st_working s)) true (st_races s) (st_ticks s)
          (st_world s)).
Proof. done. Qed.

Lemma bind_db_flush {B} (f : unit -> M DB W B) s :
  bind db_flush f s =
  f tt (MkSt (st_committed s) (st_working s) false (st_races s) (st_ticks s)
          (st_world s)).
Proof. done. Qed.

Lemma bind_db_rollback {B} (f : unit -> M DB W B) s :
  bind db_rollback f s =
  f tt (MkSt (st_committed s) (st_committed s) false (st_races s) (st_ticks s)
          (st_world s)).
Proof. done. Qed.

Lemma bind_assoc {A B C} (m : M DB W A) (f : A -> M DB W B) (g : B -> M DB W C) s :
  bind (bind m f) g s = bind m (fun x => bind (f x) g) s.
Proof. unfold bind. by destruct (m s) as [[a|e] s']. Qed.

Lemma bind_ok {A B} (m : M DB W A) (f : A -> M DB W B) s b s' :
  bind m f s = (Ok b, s') <-> exists a s1, m s = (Ok a, s1) /\ f a s1 = (Ok b, s').
Proof.
  unfold bind. destruct (m s) as [[a|e] s1]; split.
  - intros H. by exists a, s1.
  - by intros (a' & s2 & [= <- <-] & H).
  - done.
  - by intros (a' & s2 & ? & _).
Qed.

Lemma bind_err {A B} (m : M DB W A) (f : A -> M DB W B) s e s' :
  m s = (Err e, s') -> bind m f s = (Err e, s').
Proof. unfold bind. by intros ->. Qed.

Lemma bind_step {A B} (m : M DB W A) (f : A -> M DB W B) s a s1 :
  m s = (Ok a, s1) -> bind m f s = f a s1.
Proof. unfold bind. by intros ->. Qed.

Lemma guard_ok (b : bool) (e : exn) (s : St DB W) u s' :
  guard b e s = (Ok u, s') -> b = true /\ s' = s.
Proof. unfold guard, lift, require. destruct b; by intros [=]. Qed.

Lemma lift_ok {A} (r : res A) (s : St DB W) a s' :
  lift r s = (Ok a, s') -> r = Ok a /\ s' = s.
Proof. unfold lift. by intros [= -> ->]. Qed.

Lemma ret_ok {A} (a b : A) (s s' : St DB W) :
  ret a s = (Ok b, s') -> a = b /\ s = s'.
Proof. unfold ret. by intros [=]. Qed.

Lemma raise_ok {A} (e : exn) (b : A) (s s' : St DB W) :
  raise e s = (Ok b, s') -> False.
Proof. done. Qed.

(** A request whose body raises leaves the committed database as the last
    explicit commit left it. *)
Lemma session_scope_err {A} (m : M DB W A) s e s' :
  m s = (Err e, s') ->
  fst (session_scope m s) = Err e /\
  st_committed (snd (session_scope m s)) = st_committed s' /\
  st_working (snd (session_scope m s)) = st_committed s'.
Proof. intros H. unfold session_scope, try_except, bind. by rewrite H. Qed.

(** A database session ends in step with what it committed. *)
Lemma scope_synced {A} (m : M DB W A) s :
  let s' := snd (session_scope m s) in st_working s' = st_committed s'.
Proof.
  unfold session_scope, try_except, bind. destruct (m s) as [[a|e] s1]; [|done].
  unfold db_commit, bind. by destruct (db_race s1) as [[[]|e] s2].
Qed.

Lemma mfold_app {A B} (f : B -> A -> M DB W B) b l k s :
  mfold f b (l ++ k) s = bind (mfold f b l) (fun b' => mfold f b' k) s.
Proof.
  revert b s. induction l as [|x l IH]; intros b s; cbn; [done|].
  rewrite bind_assoc. unfold bind at 1 2.
  destruct (f b x s) as [[b'|e] s1]; [apply IH|done].
Qed.

(** A loop preserves what each iteration preserves, whether or not it raises. *)
Lemma mfold_preserves {A B} (P : St DB W -> Prop) (f : B -> A -> M DB W B) l :
  (forall b x s, P s -> P (snd (f b x s))) ->
  forall b s, P s -> P (snd (mfold f b l s)).
Proof.
  intros Hf. induction l as [|x l IH]; intros b s Hs; cbn; [done|].
  unfold bind. specialize (Hf b x s Hs).
  destruct (f b x s) as [[b'|e] s1]; cbn in *; [by apply IH|done].
Qed.

Lemma remote_ok {A} (call : W -> res A * W) s (a : A) s1 :
  remote (DB := DB) call s = (Ok a, s1) -> call (st_world s) = (Ok a, st_world s1).
Proof. unfold remote. destruct (call (st_world s)). by intros [= -> <-]. Qed.

(** A handler that raises lets only values through. *)
Lemma try_raise_ok {A} (m : M DB W A) (h : exn -> exn) s a s1 :
  try_except m (fun e => Some (raise (h e))) s = (Ok a, s1) -> m s = (Ok a, s1).
Proof. unfold try_except. by destruct (m s) as [[x|e] s2]. Qed.

End laws.

(** Run the next primitive of the computation in the goal. *)
Ltac m_step :=
  first
    [ rewrite bind_ret | rewrite bind_raise | rewrite bind_lift | rewrite bind_guard
    | rewrite bind_assoc | rewrite bind_if
    | rewrite bind_db_read | rewrite bind_db_peek | rewrite bind_db_modify
    | rewrite bind_db_flush | rewrite bind_db_rollback
    | rewrite bind_tick ].

(** ** What a computation keeps

    [Keeps P m]: running [m] from a state with [P] ends, by value or exception,
    in a state with [P].  The instances follow the structure of the code;
    [keeps] applies them and leaves the primitive writes to the caller. *)

Class Keeps {DB W A} (P : St DB W -> Prop) (m : M DB W A) : Prop :=
  keeps_run : forall s, P s -> P (snd (m s)).

#[global] Hint Mode Keeps + + + + + : typeclass_instances.

Section keeps.
Context {DB W : Type} (P : St DB W -> Prop).

#[export] Instance keeps_ret {A} (a : A) : Keeps P (ret a).
Proof. by intros s. Qed.

#[export] Instance keeps_raise {A} e : Keeps P (raise (A := A) e).
Proof. by intros s. Qed.

#[export] Instance keeps_lift {A} (r : res A) : Keeps P (lift r).
Proof. by intros s. Qed.

#[export] Instance keeps_guard b e : Keeps P (guard b e).
Proof. by intros s. Qed.

#[export] Instance keeps_peek : Keeps P db_peek.
Proof. by intros s. Qed.

#[export] Instance keeps_is_dirty : Keeps P db_is_dirty.
Proof. by intros s. Qed.

Lemma keeps_bind {A B} (m : M DB W A) (f : A -> M DB W B) :
  Keeps P m -> (forall a, Keeps P (f a)) -> Keeps P (bind m f).
Proof.
  intros Hm Hf s Hs. specialize (Hm s Hs). unfold bind.
  destruct (m s) as [[a|e] s1]; [by apply Hf|done].
Qed.

Lemma keeps_try {A} (m : M DB W A) h :
  Keeps P m -> (forall e k, h e = Some k -> Keeps P k) -> Keeps P (try_except m h).
Proof.
  intros Hm Hh s Hs. specialize (Hm s Hs). unfold try_except.
  destruct (m s) as [[a|e] s1]; [done|]. destruct (h e) as [k|] eqn:E; [|done].
  by apply (Hh e k E).
Qed.

Lemma keeps_mfold {A B} (f : B -> A -> M DB W B) l :
  (forall b x, Keeps P (f b x)) -> forall b, Keeps P (mfold f b l).
Proof. intros Hf b s Hs. apply mfold_preserves; [|done]. intros. by apply Hf. Qed.

End keeps.

(** Predicates that only look at the two databases survive every primitive
    that moves neither. *)
Definition on_dbs {DB W} (P : DB -> DB -> Prop) (s : St DB W) : Prop :=
  P (st_committed s) (st_working s).

(** A predicate of a single database, holding of both. *)
Definition both {DB W} (P : DB -> Prop) (s : St DB W) : Prop :=
  P (st_committed s) /\ P (st_working s).

(** Concurrent transactions keep the predicate too. *)
Definition races_keep {DB W} (P : DB -> Prop) (s : St DB W) : Prop :=
  forall f, Some f ∈ st_races s -> forall d, P d -> P (f d).

(** The shape of an invariant of the shared database. *)
Definition db_inv {DB W} (P : DB -> Prop) (s : St DB W) : Prop :=
  both P s /\ races_keep P s.

Section db_keeps.
Context {DB W : Type} (P : DB -> Prop).

#[export] Instance keeps_read : Keeps (W := W) (db_inv P) db_read.
Proof. by intros s. Qed.

#[export] Instance keeps_flush : Keeps (W := W) (db_inv P) db_flush.
Proof. by intros s. Qed.

#[export] Instance keeps_tick {A} (f : nat -> A) : Keeps (W := W) (db_inv P) (tick f).
Proof. by intros s. Qed.

#[export] Instance keeps_rollback : Keeps (W := W) (db_inv P) db_rollback.
Proof. intros s [[Hc Hw] Hr]. split; [by split|exact Hr]. Qed.

#[export] Instance keeps_race : Keeps (W := W) (db_inv P) db_race.
Proof.
  intros s [[Hc Hw] Hr]. unfold db_race, races_keep in *.
  destruct (st_races s) as [|[f|] r] eqn:E; cbn.
  - split; [by split|]. unfold races_keep. by rewrite E.
  - split; [split; [|exact Hw]|].
    + apply Hr; [set_solver|exact Hc].
    + intros g Hg. apply Hr. set_solver.
  - split; [by split|]. intros g Hg. apply Hr. set_solver.
Qed.

#[export] Instance keeps_interleave : Keeps (W := W) (db_inv P) db_interleave.
Proof.
  intros s [[Hc Hw] Hr]. unfold db_interleave, races_keep in *.
  destruct (st_races s) as [|[f|] r] eqn:E; cbn.
  - split; [by split|]. unfold races_keep. by rewrite E.
  - split; [split; apply Hr; [set_solver|exact Hc|set_solver|exact Hw]|].
    intros g Hg. apply Hr. set_solver.
  - split; [by split|]. intros g Hg. apply Hr. set_solver.
Qed.

#[export] Instance keeps_commit : Keeps (W := W) (db_inv P) db_commit.
Proof.
  apply keeps_bind; [apply _|]. intros [] s [[Hc Hw] Hr]. split; [by split|exact Hr].
Qed.

#[export] Instance keeps_remote {A} (call : W -> res A * W) :
  Keeps (db_inv P) (remote (DB := DB) call).
Proof. intros s Hs. unfold remote. by destruct (call (st_world s)) as [r w]. Qed.

Lemma keeps_modify (g : DB -> DB) :
  (forall d, P d -> P (g d)) -> Keeps (W := W) (db_inv P) (db_modify g).
Proof. intros Hg s [[Hc Hw] Hr]. split; [split; [exact Hc|by apply Hg]|exact Hr]. Qed.

Lemma keeps_independent (g : DB -> DB) :
  (forall d, P d -> P (g d)) -> Keeps (W := W) (db_inv P) (db_independent g).
Proof.
  intros Hg. apply keeps_bind; [apply _|]. intros [] s [[Hc Hw] Hr].
  split; [split; by apply Hg|exact Hr].
Qed.

End db_keeps.

(** What holds of the committed database survives everything but a commit. *)
Definition committed_inv {DB W} (P : DB -> Prop) (s : St DB W) : Prop :=
  P (st_committed s) /\ races_keep P s.

(** [RaisesKeep P m]: when [m] raises, it leaves [P].  A function whose only
    commit comes last satisfies it for [committed_inv]. *)
Class RaisesKeep {DB W A} (P : St DB W -> Prop) (m : M DB W A) : Prop :=
  raises_keep_run : forall s, P s -> match m s with (Err _, s1) => P s1 | _ => True end.

Section committed.
Context {DB W : Type} (P : DB -> Prop).
Local Abbreviation CI := (committed_inv (W := W) P).

#[export] Instance committed_read : Keeps CI db_read.
Proof. by intros s. Qed.
#[export] Instance committed_flush : Keeps CI db_flush.
Proof. by intros s. Qed.
#[export] Instance committed_modify g : Keeps CI (db_modify g).
Proof. by intros s. Qed.
#[export] Instance committed_rollback : Keeps CI db_rollback.
Proof. by intros s. Qed.
#[export] Instance committed_tick {A} (f : nat -> A) : Keeps CI (tick f).
Proof. by intros s. Qed.

#[export] Instance committed_remote {A} (call : W -> res A * W) :
  Keeps CI (remote (DB := DB) call).
Proof. intros s Hs. unfold remote. by destruct (call (st_world s)) as [r w]. Qed.

#[export] Instance committed_race : Keeps CI db_race.
Proof.
  intros s [Hc Hr]. unfold db_race, races_keep, committed_inv in *.
  destruct (st_races s) as [|[f|] r] eqn:E; cbn.
  - split; [done|]. unfold races_keep. by rewrite E.
  - split; [apply Hr; [set_solver|exact Hc]|]. intros g Hg. apply Hr. set_solver.
  - split; [done|]. intros g Hg. apply Hr. set_solver.
Qed.

#[export] Instance committed_interleave : Keeps CI db_interleave.
Proof.
  intros s [Hc Hr]. unfold db_interleave, races_keep, committed_inv in *.
  destruct (st_races s) as [|[f|] r] eqn:E; cbn.
  - split; [done|]. unfold races_keep. by rewrite E.
  - split; [apply Hr; [set_solver|exact Hc]|]. intros g Hg. apply Hr. set_solver.
  - split; [done|]. intros g Hg. apply Hr. set_solver.
Qed.

Lemma raises_keeps (Q : St DB W -> Prop) {A} (m : M DB W A) : Keeps Q m -> RaisesKeep Q m.
Proof. intros Hm s Hs. specialize (Hm s Hs). by destruct (m s) as [[a|e] s1]. Qed.

Lemma raises_bind (Q : St DB W -> Prop) {A B} (m : M DB W A) (f : A -> M DB W B) :
  Keeps Q m -> (forall a, RaisesKeep Q (f a)) -> RaisesKeep Q (bind m f).
Proof.
  intros Hm Hf s Hs. specialize (Hm s Hs). unfold bind.
  destruct (m s) as [[a|e] s1]; [by apply Hf|done].
Qed.

#[export] Instance raises_commit : RaisesKeep CI db_commit.
Proof. apply raises_bind; [apply _|]. intros [] s _. done. Qed.

#[export] Instance raises_commit_ret {A} (a : A) : RaisesKeep CI (bind db_commit (fun _ => ret a)).
Proof.
  intros s Hs. pose proof (raises_commit s Hs) as Hk. unfold bind.
  by destruct (db_commit s) as [[[]|e] s1].
Qed.

End committed.

(** A commit that returns published the working copy. *)
Lemma db_commit_ok {DB W} (s : St DB W) u s1 :
  db_commit s = (Ok u, s1) ->
  st_committed s1 = st_working s /\ st_working s1 = st_working s /\ st_pending s1 = false.
Proof.
  unfold db_commit, bind, db_race.
  destruct (st_races s) as [|[f|] r]; intros [= _ <-]; done.
Qed.

(** Follow the code: sequencing, tests, handlers and loops. *)
Ltac keeps_step :=
  lazymatch goal with
  | |- Keeps _ (bind _ _) => apply keeps_bind; [|intros ?]
  | |- Keeps _ (try_except _ _) => apply keeps_try; [|intros ? ? ?]
  | |- Keeps _ (mfold _ _ _) => apply keeps_mfold; intros ? ?
  | |- Keeps _ (match ?x with _ => _ end) => destruct x eqn:?
  | |- Keeps _ (let _ := _ in _) => cbv zeta
  end.
Ltac keeps := repeat first [ solve [apply _] | solve [auto with loc nocore] | keeps_step ].

Ltac raises_step :=
  lazymatch goal with
  | |- RaisesKeep _ (bind _ _) => apply raises_bind; [|intros ?]
  | |- RaisesKeep _ (match ?x with _ => _ end) => destruct x eqn:?
  | |- RaisesKeep _ (let _ := _ in _) => cbv zeta
  | |- Keeps _ _ => solve [keeps]
  end.
Ltac raises_keep :=
  repeat first [ solve [apply _] | solve [apply raises_keeps; keeps] | raises_step ].

(** ** Transactions

    [Tx P E m]: from a state whose two databases satisfy [P], a normal return
    restores [P] of both; an exception leaves [P] of the committed one, and of
    both when [E] says a caller may swallow it.  Inside, the working copy may
    violate [P]: [tx_post] carries what is known meanwhile. *)

Definition tx_post {DB W A} (P : DB -> Prop) (E : exn -> bool) (Q : A -> St DB W -> Prop)
    (o : res A * St DB W) : Prop :=
  match o with
  | (Ok a, s1) => Q a s1
  | (Err e, s1) => committed_inv P s1 /\ (E e = true -> db_inv P s1)
  end.

Class Tx {DB W A} (P : DB -> Prop) (E : exn -> bool) (m : M DB W A) : Prop :=
  tx_run : forall s, db_inv P s -> tx_post P E (fun _ => db_inv P) (m s).

#[global] Hint Mode Tx + + + + + + : typeclass_instances.

Definition no_exn (e : exn) : bool := false.

Section tx.
Context {DB W : Type} (P : DB -> Prop).
Implicit Types (s : St DB W).

Lemma db_inv_committed s : db_inv P s -> committed_inv P s.
Proof. by intros [[Hc _] Hr]. Qed.

Lemma db_inv_intro s : committed_inv P s -> P (st_working s) -> db_inv P s.
Proof. intros [Hc Hr] Hw. by split. Qed.

Lemma tx_post_weaken {A} E (Q Q' : A -> St DB W -> Prop) o :
  (forall a s, Q a s -> Q' a s) -> tx_post P E Q o -> tx_post P E Q' o.
Proof. intros HQ. destruct o as [[a|e] s]; cbn; [apply HQ|done]. Qed.

Lemma tx_post_bind {A B} E (Q : A -> St DB W -> Prop) (Q' : B -> St DB W -> Prop)
    (m : M DB W A) (f : A -> M DB W B) s :
  tx_post P E Q (m s) -> (forall a s1, Q a s1 -> tx_post P E Q' (f a s1)) ->
  tx_post P E Q' (bind m f s).
Proof. unfold bind. destruct (m s) as [[a|e] s1]; cbn; [|done]. intros H Hf. by apply Hf. Qed.

Lemma tx_keeps {A} E (m : M DB W A) : Keeps (db_inv P) m -> Tx P E m.
Proof.
  intros Hm s Hs. specialize (Hm s Hs). destruct (m s) as [[a|e] s1]; cbn in *; [done|].
  split; [by apply db_inv_committed|done].
Qed.

Lemma tx_keeps_scope {A} (m : M DB W A) : Tx P no_exn m -> Keeps (db_inv P) (session_scope m).
Proof.
  intros Hm s Hs. specialize (Hm s Hs). unfold session_scope, try_except, bind.
  destruct (m s) as [[a|e] s1]; cbn in Hm.
  - pose proof (keeps_commit P s1 Hm) as Hk. unfold bind in Hk.
    destruct (db_commit s1) as [[[]|e] s2]; cbn in *; [done|]. by apply keeps_rollback.
  - cbn. destruct Hm as [[Hc Hr] _]. by split.
Qed.

Lemma tx_bind {A B} E (m : M DB W A) (f : A -> M DB W B) :
  Tx P E m -> (forall a, Tx P E (f a)) -> Tx P E (bind m f).
Proof.
  intros Hm Hf s Hs. eapply tx_post_bind; [by apply Hm|]. cbn. intros a s1 H1. by apply Hf.
Qed.

Lemma tx_mono {A} (E E' : exn -> bool) (m : M DB W A) :
  (forall e, E' e = true -> E e = true) -> Tx P E m -> Tx P E' m.
Proof.
  intros He Hm s Hs. specialize (Hm s Hs). destruct (m s) as [[a|e] s1]; cbn in *; [done|].
  destruct Hm as [Hc Hd]. split; [done|]. auto.
Qed.

Lemma tx_no_exn {A} E (m : M DB W A) : Tx P E m -> Tx P no_exn m.
Proof. by apply tx_mono. Qed.

(** A handler that swallows only what the body allows. *)
Lemma tx_try {A} (E E' : exn -> bool) (m : M DB W A) h :
  Tx P E' m ->
  (forall e k, h e = Some k -> E' e = true /\ Tx P E k) ->
  (forall e, h e = None -> E e = true -> E' e = true) ->
  Tx P E (try_except m h).
Proof.
  intros Hm Hh Hn s Hs. specialize (Hm s Hs). unfold try_except.
  destruct (m s) as [[a|e] s1]; cbn in *; [done|]. destruct Hm as [Hc Hd].
  destruct (h e) as [k|] eqn:Ek; cbn.
  - destruct (Hh e k Ek) as [He Hk]. by apply Hk, Hd.
  - split; [done|]. intros He. apply Hd. by apply Hn.
Qed.

Lemma tx_mfold {A B} E (f : B -> A -> M DB W B) l :
  (forall b x, Tx P E (f b x)) -> forall b, Tx P E (mfold f b l).
Proof.
  intros Hf. induction l as [|x l IH]; intros b; cbn.
  - apply tx_keeps. apply _.
  - apply tx_bind; [apply Hf|done].
Qed.

End tx.

(** Follow the code as [keeps] does, falling back to it. *)
Ltac tx_step :=
  lazymatch goal with
  | |- Tx _ _ (bind _ _) => apply tx_bind; [|intros ?]
  | |- Tx _ _ (mfold _ _ _) => apply tx_mfold; intros ? ?
  | |- Tx _ _ (match ?x with _ => _ end) => destruct x eqn:?
  | |- Tx _ _ (let _ := _ in _) => cbv zeta
  end.
Ltac tx :=
  repeat first [ solve [auto with loc nocore] | solve [apply tx_keeps; keeps] | tx_step ].

(** Step through a monadic computation that returned a value. *)
Ltac m_inv :=
  repeat match goal with
  | H : bind _ _ _ = (Ok _, _) |- _ =>
      apply bind_ok in H; destruct H as (? & ? & ? & H)
  | H : guard _ _ _ = (Ok _, _) |- _ =>
      apply guard_ok in H; destruct H as [? H]; try subst
  | H : lift _ _ = (Ok _, _) |- _ =>
      apply lift_ok in H; destruct H as [? H]; try subst
  | H : ret _ _ = (Ok _, _) |- _ =>
      apply ret_ok in H; destruct H as [? H]; try subst
  | H : raise _ _ = (Ok _, _) |- _ => destruct (raise_ok _ _ _ _ H)
  | H : (Err _, _) = (Ok _, _) |- _ => discriminate H
  end.

(** ... and through the primitives, to the state each returned in. *)
Ltac prim_inv :=
  repeat (m_inv; match goal with
  | H : db_read _ = (Ok _, _) |- _ => injection H as ? <-; subst
  | H : db_flush _ = (Ok _, _) |- _ => injection H as ? <-; subst
  | H : db_modify _ _ = (Ok _, _) |- _ => injection H as ? <-; subst
  | H : clock_now _ = (Ok _, _) |- _ => injection H as ? <-; subst
  end); m_inv; opt_inv; subst; cbn [st_working] in *.

(** A runtime to evaluate examples with: a clock that advances a second per
    reading, consecutive identifiers, and no timestamp text. *)
Definition demo_runtime : Runtime := {|
  rt_now n := DT (1700000000000000 + 1000000 * Z.of_nat n) true;
  rt_uuid n := N.of_nat (1000 + n);
  rt_fromisoformat _ := None;
  rt_isoformat _ := EmptyString;
  rt_model_time _ := EmptyString;
  rt_repr _ := EmptyString;
  rt_sha256 b := b;
  rt_parse_time _ := None;
  rt_hmac _ b := b;
  rt_json_loads _ := None;
|}.
