(* ===== verification/Store.v ===== *)
(** * Database rows

    One record per ORM model of the [repo.py] modules, with the columns the
    services read or write, and the database as one record of tables.
    Tables looked up by primary key are finite maps; append-only or scanned
    tables are lists in insertion order, which is their [created_at] order.
    The [set_*] functions are attribute assignments on a loaded row. *)

From S2P Require Import Prelude PyData.

Open Scope Z_scope.

(** [billing/repo.py:CreditBalance], keyed by [user_id]. *)
Record CreditBalance := MkCreditBalance {
  cb_amount_wei : Z;
  cb_version : Z;
}.

(** [billing/repo.py:CreditLedger]. *)
Record CreditLedger := MkCreditLedger {
  cl_user_id : uuid;
  cl_delta_wei : Z;
  cl_reason : string;
  cl_related_payment_id : option uuid;
  cl_related_engagement_id : option uuid;
  cl_related_topup_id : option uuid;
  cl_created_by_operator_id : option uuid;
}.

(** [billing/repo.py:CreditTopup]. *)
Record CreditTopup := MkCreditTopup {
  ct_id : uuid;
  ct_user_id : uuid;
  ct_amount_wei : Z;
  ct_topup_kind : string;
  ct_operator_id : option uuid;
}.

(** [billing/repo.py:SpendWindow], keyed by [(user_id, window_start)]. *)
Record SpendWindow := MkSpendWindow {
  sw_window_end : datetime;
  sw_spent_wei : Z;
  sw_cap_wei : Z;
}.

(** [billing/repo.py:UserBillingConfig], keyed by [user_id]. *)
Record UserBillingConfig := MkUserBillingConfig {
  ub_spend_period_seconds : option Z;
  ub_spend_period_cap_wei : option Z;
  ub_auto_replenish_increment_wei : option Z;
  ub_auto_replenish_threshold_wei : option Z;
  ub_tier : option string;
  ub_updated_by_operator_id : option uuid;
}.

(** [sessions/repo.py:PaymentSession]. *)
Record PaymentSession := MkPaymentSession {
  ps_id : uuid;
  ps_user_id : uuid;
  ps_api_key_id : uuid;
  ps_work_id : string;
  ps_capability : string;
  ps_offering : string;
  ps_protocol : string;
  ps_accounting_mode : string;
  ps_customer_pricing : option dict;
  ps_customer_max_debit_wei : option Z;
  ps_authorization_id : option string;
  ps_route_snapshot : option dict;
  ps_broker_request_id : option string;
  ps_state : string;
  ps_estimated_units : Z;
  ps_max_total_units : Z;
  ps_funded_value_wei : Z;
  ps_billed_value_wei : option Z;
  ps_actual_units : option Z;
  ps_outcome : option string;
  ps_breakdown : option dict;
  ps_sdk_identity : option string;
  ps_opened_at : datetime;
  ps_closed_at : option datetime;
  ps_refill_seq : Z;
  ps_rotation_generation : Z;
  ps_predecessor_work_id : option string;
  ps_broker_session_id : option string;
  ps_last_settlement_seq : Z;
  ps_last_polled_at : option datetime;
}.

(** [sessions/repo.py:PaymentSettlement]. *)
Record PaymentSettlement := MkPaymentSettlement {
  pt_session_id : uuid;
  pt_recorded_at : datetime;
  pt_event_type : string;
  pt_actual_units : option Z;
  pt_billed_value_wei : option Z;
  pt_outcome : option string;
  pt_raw_record : option dict;
}.

(** [sessions/repo.py:SpendAuthorizationGrant]. *)
Record SpendAuthorizationGrant := MkSpendAuthorizationGrant {
  sg_session_id : uuid;
  sg_authorization_id : string;
  sg_revision : Z;
  sg_predecessor_authorization_id : option string;
  sg_request_id : string;
  sg_request_digest : string;
  sg_caller_public_key : string;
  sg_authorization_bytes : bytes;
  sg_protocol : string;
  sg_route_snapshot : dict;
  sg_payer_eth_address : string;
  sg_chain_id : Z;
  sg_wholesale_account_id : string;
  sg_settlement_domain_id : string;
  sg_denomination : string;
  sg_max_debit_wei : Z;
  sg_max_total_units : Z;
  sg_not_before : datetime;
  sg_expires_at : datetime;
  sg_state : string;
  sg_retired_at : option datetime;
}.

(** [wholesale/repo.py:WholesaleAccount]. *)
Record WholesaleAccount := MkWholesaleAccount {
  wa_id : uuid;
  wa_chain_id : Z;
  wa_payer_eth_address : string;
  wa_payee_eth_address : string;
  wa_wholesale_account_id : string;
  wa_settlement_domain_id : string;
  wa_denomination : string;
  wa_protocol_version : string;
  wa_broker_url : string;
  wa_credited_value_wei : Z;
  wa_reserved_value_wei : Z;
  wa_debited_value_wei : Z;
  wa_available_value_wei : Z;
  wa_remote_version : Z;
  wa_observed_at : datetime;
}.

(** [wholesale/repo.py:WholesaleFunding]. *)
Record WholesaleFunding := MkWholesaleFunding {
  wf_account_id : uuid;
  wf_mint_request_id : string;
  wf_correlation_id : option string;
  wf_target_available_wei : Z;
  wf_observed_available_wei : Z;
  wf_requested_shortfall_wei : Z;
  wf_route_snapshot : dict;
  wf_payment_bytes : option bytes;
  wf_minted_expected_value_wei : Z;
  wf_credited_value_wei : option Z;
  wf_work_id : option string;
  wf_account_version : option Z;
  wf_status : string;
  wf_acknowledged_at : option datetime;
}.

(** [payments/repo.py:Payment]. *)
Record Payment := MkPayment {
  py_id : uuid;
  py_user_id : uuid;
  py_session_id : option uuid;
  py_work_id : string;
  py_work_units_requested : Z;
  py_expected_value_wei : Z;
  py_creation_round : option Z;
  py_expires_after_round : option Z;
  py_ticket_validity_period : option Z;
  py_ticket_validity_period_observed_at : option datetime;
  py_status : string;
}.

(** [payments/repo.py:PaymentIdempotencyKey], keyed by [(user_id, operation, idempotency_key)]. *)
Record PaymentIdempotencyKey := MkPaymentIdempotencyKey {
  ik_api_key_id : uuid;
  ik_request_fingerprint : string;
  ik_broker_request_id : string;
  ik_status : string;
  ik_http_status : option Z;
  ik_response_payload : option dict;
  ik_payment_id : option uuid;
  ik_expires_at : datetime;
}.

(** [payments/repo.py:PaymentDaemonDepositSnapshot]. *)
Record PaymentDaemonDepositSnapshot := MkPaymentDaemonDepositSnapshot {
  ds_taken_at : datetime;
  ds_deposit_wei : Z;
  ds_reserve_wei : Z;
  ds_withdraw_round : Z;
  ds_current_round : option Z;
  ds_ticket_validity_period : option Z;
  ds_ticket_validity_period_observed_at : option datetime;
}.

(** ** People and credentials *)

(** [accounts/repo.py:User]. *)
Record User := MkUser {
  us_id : uuid;
  us_email : string;
  us_email_verified_at : option datetime;
  us_password_hash : option string;
}.

(** [accounts/repo.py:UserEmailVerification] and [UserPasswordReset]: single-use
    tokens, stored hashed. *)
Record UserToken := MkUserToken {
  ut_user_id : uuid;
  ut_token_hash : string;
  ut_expires_at : datetime;
  ut_consumed_at : option datetime;
}.

(** [accounts/repo.py:UserOAuthIdentity]. *)
Record UserOAuthIdentity := MkUserOAuthIdentity {
  oi_user_id : uuid;
  oi_provider : string;
  oi_provider_user_id : string;
  oi_email_at_link : string;
}.

(** [accounts/repo.py:UserSession]. *)
Record UserSession := MkUserSession {
  uw_user_id : uuid;
  uw_token_hash : string;
  uw_expires_at : datetime;
  uw_revoked_at : option datetime;
}.

(** [accounts/repo.py:OperatorApproval]. *)
Record OperatorApproval := MkOperatorApproval {
  oa_user_id : uuid;
  oa_operator_id : uuid;
  oa_approved_at : datetime;
  oa_revoked_at : option datetime;
}.

(** [api_keys/repo.py:ApiKey]. *)
Record ApiKey := MkApiKey {
  ak_id : uuid;
  ak_user_id : uuid;
  ak_prefix : string;
  ak_hash : string;
  ak_label : string;
  ak_last_used_at : option datetime;
  ak_revoked_at : option datetime;
}.

(** [admin/repo.py:Operator]. *)
Record Operator := MkOperator {
  opr_id : uuid;
  opr_email : string;
  opr_name : string;
  opr_token_hash : string;
  opr_role : string;
  opr_revoked_at : option datetime;
}.

(** [admin/repo.py:OperatorAudit]. *)
Record OperatorAudit := MkOperatorAudit {
  au_operator_id : uuid;
  au_action : string;
  au_target_user_id : option uuid;
  au_params : option dict;
}.

(** [admin/repo.py:SdkApproval]. *)
Record SdkApproval := MkSdkApproval {
  sdk_id : uuid;
  sdk_lang : string;
  sdk_version : string;
  sdk_git_sha7 : string;
  sdk_status : string;
  sdk_notes : option string;
  sdk_added_by_operator_id : option uuid;
}.

(** [notifications/repo.py:EmailSend]. *)
Record EmailSend := MkEmailSend {
  es_id : uuid;
  es_user_id : option uuid;
  es_to_address : string;
  es_subject : string;
  es_provider_message_id : option string;
  es_status : string;
  es_sent_at : datetime;
}.

(** [notifications/repo.py:EmailEvent]. *)
Record EmailEvent := MkEmailEvent {
  ev_id : uuid;
  ev_provider_event_id : string;
  ev_email_send_id : option uuid;
  ev_provider_message_id : option string;
  ev_event_type : string;
  ev_to_address : option string;
  ev_payload : dict;
  ev_received_at : datetime;
}.

(** The tables of the identity, administration and notification domains. *)
Record Identity := MkIdentity {
  i_user : list User;
  i_verification : list UserToken;
  i_reset : list UserToken;
  i_web_session : list UserSession;
  i_approval : list OperatorApproval;
  i_api_key : list ApiKey;
  i_operator : list Operator;
  i_audit : list OperatorAudit;
  i_sdk_approval : list SdkApproval;
  i_oauth : list UserOAuthIdentity;
  i_email_send : list EmailSend;
  i_email_event : list EmailEvent;
}.

Definition identity_empty : Identity := MkIdentity [] [] [] [] [] [] [] [] [] [] [] [].

(** [notifications/repo.py:PortalNotification]. *)
Record PortalNotification := MkPortalNotification {
  pn_id : uuid;
  pn_user_id : uuid;
  pn_trigger : string;
  pn_body : dict;
  pn_fired_at : datetime;
  pn_dismissed_at : option datetime;
}.

(** [notifications/repo.py:NotificationWebhookConfig]. *)
Record NotificationWebhookConfig := MkWebhookConfig {
  wc_url : string;
  wc_last_test_at : option datetime;
}.

(** [telemetry/repo.py:TelemetryEvent]. *)
Record TelemetryEvent := MkTelemetryEvent {
  te_id : uuid;
  te_api_key_id : option uuid;
  te_user_id : option uuid;
  te_event_type : string;
  te_event_schema_version : Z;
  te_correlation_id : option uuid;
  te_client_ts : option datetime;
  te_received_ts : datetime;
  te_source : string;
  te_payload : dict;
  te_geo_region : option string;
  te_account_tier : option string;
  te_broker_operator_id : option string;
  te_ingest_node_id : option string;
}.

(** What the service tells its users and its operator: the overrides of
    [NotificationConfig] by user, trigger and channel, the portal's banners, the
    users' webhooks and the telemetry log. *)
Record Notices := MkNotices {
  n_config : gmap (uuid * string * string) bool;
  n_portal : list PortalNotification;
  n_webhook : gmap uuid NotificationWebhookConfig;
  n_telemetry : list TelemetryEvent;
}.

Definition notices_empty : Notices := MkNotices ∅ [] ∅ [].

(** The global budget row of [WholesaleExposureBudget] is its projected amount,
    [None] when the row is absent. *)
Record DB := MkDB {
  t_balance : gmap uuid CreditBalance;
  t_ledger : list CreditLedger;
  t_topup : list CreditTopup;
  t_window : gmap (uuid * Z) SpendWindow;
  t_billing : gmap uuid UserBillingConfig;
  t_session : gmap uuid PaymentSession;
  t_settlement : list PaymentSettlement;
  t_grant : list SpendAuthorizationGrant;
  t_account : list WholesaleAccount;
  t_budget : option Z;
  t_funding : list WholesaleFunding;
  t_payment : list Payment;
  t_idem : gmap (uuid * string * string) PaymentIdempotencyKey;
  t_deposit : list PaymentDaemonDepositSnapshot;
  t_identity : Identity;
  t_notices : Notices;
}.

Definition db_empty : DB :=
  MkDB ∅ [] [] ∅ ∅ ∅ [] [] [] None [] [] ∅ [] identity_empty notices_empty.

(** ** Attribute assignment *)

Definition set_cb_amount_wei (v : Z) (r : CreditBalance) : CreditBalance :=
  MkCreditBalance
    v (cb_version r).

Definition set_cb_version (v : Z) (r : CreditBalance) : CreditBalance :=
  MkCreditBalance
    (cb_amount_wei r) v.

Definition set_sw_spent_wei (v : Z) (r : SpendWindow) : SpendWindow :=
  MkSpendWindow
    (sw_window_end r) v (sw_cap_wei r).

Definition set_ps_work_id (v : string) (r : PaymentSession) : PaymentSession :=
  MkPaymentSession
    (ps_id r) (ps_user_id r) (ps_api_key_id r) v (ps_capability r) (ps_offering r)
    (ps_protocol r) (ps_accounting_mode r) (ps_customer_pricing r)
    (ps_customer_max_debit_wei r) (ps_authorization_id r) (ps_route_snapshot r)
    (ps_broker_request_id r) (ps_state r) (ps_estimated_units r) (ps_max_total_units r)
    (ps_funded_value_wei r) (ps_billed_value_wei r) (ps_actual_units r) (ps_outcome r)
    (ps_breakdown r) (ps_sdk_identity r) (ps_opened_at r) (ps_closed_at r)
    (ps_refill_seq r) (ps_rotation_generation r) (ps_predecessor_work_id r)
    (ps_broker_session_id r) (ps_last_settlement_seq r) (ps_last_polled_at r).

Definition set_ps_customer_max_debit_wei (v : option Z) (r : PaymentSession) : PaymentSession :=
  MkPaymentSession
    (ps_id r) (ps_user_id r) (ps_api_key_id r) (ps_work_id r) (ps_capability r)
    (ps_offering r) (ps_protocol r) (ps_accounting_mode r) (ps_customer_pricing r) v
    (ps_authorization_id r) (ps_route_snapshot r) (ps_broker_request_id r) (ps_state r)
    (ps_estimated_units r) (ps_max_total_units r) (ps_funded_value_wei r)
    (ps_billed_value_wei r) (ps_actual_units r) (ps_outcome r) (ps_breakdown r)
    (ps_sdk_identity r) (ps_opened_at r) (ps_closed_at r) (ps_refill_seq r)
    (ps_rotation_generation r) (ps_predecessor_work_id r) (ps_broker_session_id r)
    (ps_last_settlement_seq r) (ps_last_polled_at r).

Definition set_ps_authorization_id (v : option string) (r : PaymentSession) : PaymentSession :=
  MkPaymentSession
    (ps_id r) (ps_user_id r) (ps_api_key_id r) (ps_work_id r) (ps_capability r)
    (ps_offering r) (ps_protocol r) (ps_accounting_mode r) (ps_customer_pricing r)
    (ps_customer_max_debit_wei r) v (ps_route_snapshot r) (ps_broker_request_id r)
    (ps_state r) (ps_estimated_units r) (ps_max_total_units r) (ps_funded_value_wei r)
    (ps_billed_value_wei r) (ps_actual_units r) (ps_outcome r) (ps_breakdown r)
    (ps_sdk_identity r) (ps_opened_at r) (ps_closed_at r) (ps_refill_seq r)
    (ps_rotation_generation r) (ps_predecessor_work_id r) (ps_broker_session_id r)
    (ps_last_settlement_seq r) (ps_last_polled_at r).

Definition set_ps_state (v : string) (r : PaymentSession) : PaymentSession :=
  MkPaymentSession
    (ps_id r) (ps_user_id r) (ps_api_key_id r) (ps_work_id r) (ps_capability r)
    (ps_offering r) (ps_protocol r) (ps_accounting_mode r) (ps_customer_pricing r)
    (ps_customer_max_debit_wei r) (ps_authorization_id r) (ps_route_snapshot r)
    (ps_broker_request_id r) v (ps_estimated_units r) (ps_max_total_units r)
    (ps_funded_value_wei r) (ps_billed_value_wei r) (ps_actual_units r) (ps_outcome r)
    (ps_breakdown r) (ps_sdk_identity r) (ps_opened_at r) (ps_closed_at r)
    (ps_refill_seq r) (ps_rotation_generation r) (ps_predecessor_work_id r)
    (ps_broker_session_id r) (ps_last_settlement_seq r) (ps_last_polled_at r).

Definition set_ps_max_total_units (v : Z) (r : PaymentSession) : PaymentSession :=
  MkPaymentSession
    (ps_id r) (ps_user_id r) (ps_api_key_id r) (ps_work_id r) (ps_capability r)
    (ps_offering r) (ps_protocol r) (ps_accounting_mode r) (ps_customer_pricing r)
    (ps_customer_max_debit_wei r) (ps_authorization_id r) (ps_route_snapshot r)
    (ps_broker_request_id r) (ps_state r) (ps_estimated_units r) v
    (ps_funded_value_wei r) (ps_billed_value_wei r) (ps_actual_units r) (ps_outcome r)
    (ps_breakdown r) (ps_sdk_identity r) (ps_opened_at r) (ps_closed_at r)
    (ps_refill_seq r) (ps_rotation_generation r) (ps_predecessor_work_id r)
    (ps_broker_session_id r) (ps_last_settlement_seq r) (ps_last_polled_at r).

Definition set_ps_funded_value_wei (v : Z) (r : PaymentSession) : PaymentSession :=
  MkPaymentSession
    (ps_id r) (ps_user_id r) (ps_api_key_id r) (ps_work_id r) (ps_capability r)
    (ps_offering r) (ps_protocol r) (ps_accounting_mode r) (ps_customer_pricing r)
    (ps_customer_max_debit_wei r) (ps_authorization_id r) (ps_route_snapshot r)
    (ps_broker_request_id r) (ps_state r) (ps_estimated_units r) (ps_max_total_units r)
    v (ps_billed_value_wei r) (ps_actual_units r) (ps_outcome r) (ps_breakdown r)
    (ps_sdk_identity r) (ps_opened_at r) (ps_closed_at r) (ps_refill_seq r)
    (ps_rotation_generation r) (ps_predecessor_work_id r) (ps_broker_session_id r)
    (ps_last_settlement_seq r) (ps_last_polled_at r).

Definition set_ps_billed_value_wei (v : option Z) (r : PaymentSession) : PaymentSession :=
  MkPaymentSession
    (ps_id r) (ps_user_id r) (ps_api_key_id r) (ps_work_id r) (ps_capability r)
    (ps_offering r) (ps_protocol r) (ps_accounting_mode r) (ps_customer_pricing r)
    (ps_customer_max_debit_wei r) (ps_authorization_id r) (ps_route_snapshot r)
    (ps_broker_request_id r) (ps_state r) (ps_estimated_units r) (ps_max_total_units r)
    (ps_funded_value_wei r) v (ps_actual_units r) (ps_outcome r) (ps_breakdown r)
    (ps_sdk_identity r) (ps_opened_at r) (ps_closed_at r) (ps_refill_seq r)
    (ps_rotation_generation r) (ps_predecessor_work_id r) (ps_broker_session_id r)
    (ps_last_settlement_seq r) (ps_last_polled_at r).

Definition set_ps_actual_units (v : option Z) (r : PaymentSession) : PaymentSession :=
  MkPaymentSession
    (ps_id r) (ps_user_id r) (ps_api_key_id r) (ps_work_id r) (ps_capability r)
    (ps_offering r) (ps_protocol r) (ps_accounting_mode r) (ps_customer_pricing r)
    (ps_customer_max_debit_wei r) (ps_authorization_id r) (ps_route_snapshot r)
    (ps_broker_request_id r) (ps_state r) (ps_estimated_units r) (ps_max_total_units r)
    (ps_funded_value_wei r) (ps_billed_value_wei r) v (ps_outcome r) (ps_breakdown r)
    (ps_sdk_identity r) (ps_opened_at r) (ps_closed_at r) (ps_refill_seq r)
    (ps_rotation_generation r) (ps_predecessor_work_id r) (ps_broker_session_id r)
    (ps_last_settlement_seq r) (ps_last_polled_at r).

Definition set_ps_outcome (v : option string) (r : PaymentSession) : PaymentSession :=
  MkPaymentSession
    (ps_id r) (ps_user_id r) (ps_api_key_id r) (ps_work_id r) (ps_capability r)
    (ps_offering r) (ps_protocol r) (ps_accounting_mode r) (ps_customer_pricing r)
    (ps_customer_max_debit_wei r) (ps_authorization_id r) (ps_route_snapshot r)
    (ps_broker_request_id r) (ps_state r) (ps_estimated_units r) (ps_max_total_units r)
    (ps_funded_value_wei r) (ps_billed_value_wei r) (ps_actual_units r) v
    (ps_breakdown r) (ps_sdk_identity r) (ps_opened_at r) (ps_closed_at r)
    (ps_refill_seq r) (ps_rotation_generation r) (ps_predecessor_work_id r)
    (ps_broker_session_id r) (ps_last_settlement_seq r) (ps_last_polled_at r).

Definition set_ps_breakdown (v : option dict) (r : PaymentSession) : PaymentSession :=
  MkPaymentSession
    (ps_id r) (ps_user_id r) (ps_api_key_id r) (ps_work_id r) (ps_capability r)
    (ps_offering r) (ps_protocol r) (ps_accounting_mode r) (ps_customer_pricing r)
    (ps_customer_max_debit_wei r) (ps_authorization_id r) (ps_route_snapshot r)
    (ps_broker_request_id r) (ps_state r) (ps_estimated_units r) (ps_max_total_units r)
    (ps_funded_value_wei r) (ps_billed_value_wei r) (ps_actual_units r) (ps_outcome r) v
    (ps_sdk_identity r) (ps_opened_at r) (ps_closed_at r) (ps_refill_seq r)
    (ps_rotation_generation r) (ps_predecessor_work_id r) (ps_broker_session_id r)
    (ps_last_settlement_seq r) (ps_last_polled_at r).

Definition set_ps_closed_at (v : option datetime) (r : PaymentSession) : PaymentSession :=
  MkPaymentSession
    (ps_id r) (ps_user_id r) (ps_api_key_id r) (ps_work_id r) (ps_capability r)
    (ps_offering r) (ps_protocol r) (ps_accounting_mode r) (ps_customer_pricing r)
    (ps_customer_max_debit_wei r) (ps_authorization_id r) (ps_route_snapshot r)
    (ps_broker_request_id r) (ps_state r) (ps_estimated_units r) (ps_max_total_units r)
    (ps_funded_value_wei r) (ps_billed_value_wei r) (ps_actual_units r) (ps_outcome r)
    (ps_breakdown r) (ps_sdk_identity r) (ps_opened_at r) v (ps_refill_seq r)
    (ps_rotation_generation r) (ps_predecessor_work_id r) (ps_broker_session_id r)
    (ps_last_settlement_seq r) (ps_last_polled_at r).

Definition set_ps_refill_seq (v : Z) (r : PaymentSession) : PaymentSession :=
  MkPaymentSession
    (ps_id r) (ps_user_id r) (ps_api_key_id r) (ps_work_id r) (ps_capability r)
    (ps_offering r) (ps_protocol r) (ps_accounting_mode r) (ps_customer_pricing r)
    (ps_customer_max_debit_wei r) (ps_authorization_id r) (ps_route_snapshot r)
    (ps_broker_request_id r) (ps_state r) (ps_estimated_units r) (ps_max_total_units r)
    (ps_funded_value_wei r) (ps_billed_value_wei r) (ps_actual_units r) (ps_outcome r)
    (ps_breakdown r) (ps_sdk_identity r) (ps_opened_at r) (ps_closed_at r) v
    (ps_rotation_generation r) (ps_predecessor_work_id r) (ps_broker_session_id r)
    (ps_last_settlement_seq r) (ps_last_polled_at r).

Definition set_ps_broker_session_id (v : option string) (r : PaymentSession) : PaymentSession :=
  MkPaymentSession
    (ps_id r) (ps_user_id r) (ps_api_key_id r) (ps_work_id r) (ps_capability r)
    (ps_offering r) (ps_protocol r) (ps_accounting_mode r) (ps_customer_pricing r)
    (ps_customer_max_debit_wei r) (ps_authorization_id r) (ps_route_snapshot r)
    (ps_broker_request_id r) (ps_state r) (ps_estimated_units r) (ps_max_total_units r)
    (ps_funded_value_wei r) (ps_billed_value_wei r) (ps_actual_units r) (ps_outcome r)
    (ps_breakdown r) (ps_sdk_identity r) (ps_opened_at r) (ps_closed_at r)
    (ps_refill_seq r) (ps_rotation_generation r) (ps_predecessor_work_id r) v
    (ps_last_settlement_seq r) (ps_last_polled_at r).

Definition set_ps_last_settlement_seq (v : Z) (r : PaymentSession) : PaymentSession :=
  MkPaymentSession
    (ps_id r) (ps_user_id r) (ps_api_key_id r) (ps_work_id r) (ps_capability r)
    (ps_offering r) (ps_protocol r) (ps_accounting_mode r) (ps_customer_pricing r)
    (ps_customer_max_debit_wei r) (ps_authorization_id r) (ps_route_snapshot r)
    (ps_broker_request_id r) (ps_state r) (ps_estimated_units r) (ps_max_total_units r)
    (ps_funded_value_wei r) (ps_billed_value_wei r) (ps_actual_units r) (ps_outcome r)
    (ps_breakdown r) (ps_sdk_identity r) (ps_opened_at r) (ps_closed_at r)
    (ps_refill_seq r) (ps_rotation_generation r) (ps_predecessor_work_id r)
    (ps_broker_session_id r) v (ps_last_polled_at r).

Definition set_ps_last_polled_at (v : option datetime) (r : PaymentSession) : PaymentSession :=
  MkPaymentSession
    (ps_id r) (ps_user_id r) (ps_api_key_id r) (ps_work_id r) (ps_capability r)
    (ps_offering r) (ps_protocol r) (ps_accounting_mode r) (ps_customer_pricing r)
    (ps_customer_max_debit_wei r) (ps_authorization_id r) (ps_route_snapshot r)
    (ps_broker_request_id r) (ps_state r) (ps_estimated_units r) (ps_max_total_units r)
    (ps_funded_value_wei r) (ps_billed_value_wei r) (ps_actual_units r) (ps_outcome r)
    (ps_breakdown r) (ps_sdk_identity r) (ps_opened_at r) (ps_closed_at r)
    (ps_refill_seq r) (ps_rotation_generation r) (ps_predecessor_work_id r)
    (ps_broker_session_id r) (ps_last_settlement_seq r) v.

Definition set_sg_state (v : string) (r : SpendAuthorizationGrant) : SpendAuthorizationGrant :=
  MkSpendAuthorizationGrant
    (sg_session_id r) (sg_authorization_id r) (sg_revision r)
    (sg_predecessor_authorization_id r) (sg_request_id r) (sg_request_digest r)
    (sg_caller_public_key r) (sg_authorization_bytes r) (sg_protocol r)
    (sg_route_snapshot r) (sg_payer_eth_address r) (sg_chain_id r)
    (sg_wholesale_account_id r) (sg_settlement_domain_id r) (sg_denomination r)
    (sg_max_debit_wei r) (sg_max_total_units r) (sg_not_before r) (sg_expires_at r) v
    (sg_retired_at r).

Definition set_sg_retired_at (v : option datetime) (r : SpendAuthorizationGrant) : SpendAuthorizationGrant :=
  MkSpendAuthorizationGrant
    (sg_session_id r) (sg_authorization_id r) (sg_revision r)
    (sg_predecessor_authorization_id r) (sg_request_id r) (sg_request_digest r)
    (sg_caller_public_key r) (sg_authorization_bytes r) (sg_protocol r)
    (sg_route_snapshot r) (sg_payer_eth_address r) (sg_chain_id r)
    (sg_wholesale_account_id r) (sg_settlement_domain_id r) (sg_denomination r)
    (sg_max_debit_wei r) (sg_max_total_units r) (sg_not_before r) (sg_expires_at r)
    (sg_state r) v.

Definition set_ik_outcome (status : string) (http_status : option Z) (payload : option dict)
    (payment_id : option uuid) (expires_at : datetime) (r : PaymentIdempotencyKey)
  : PaymentIdempotencyKey :=
  MkPaymentIdempotencyKey
    (ik_api_key_id r) (ik_request_fingerprint r) (ik_broker_request_id r) status
    http_status payload payment_id expires_at.

Definition set_ik_status (v : string) (r : PaymentIdempotencyKey) : PaymentIdempotencyKey :=
  MkPaymentIdempotencyKey
    (ik_api_key_id r) (ik_request_fingerprint r) (ik_broker_request_id r) v
    (ik_http_status r) (ik_response_payload r) (ik_payment_id r) (ik_expires_at r).

Definition set_ik_expires_at (v : datetime) (r : PaymentIdempotencyKey) : PaymentIdempotencyKey :=
  MkPaymentIdempotencyKey
    (ik_api_key_id r) (ik_request_fingerprint r) (ik_broker_request_id r) (ik_status r)
    (ik_http_status r) (ik_response_payload r) (ik_payment_id r) v.

Definition on_balance (f : gmap uuid CreditBalance -> gmap uuid CreditBalance) (d : DB) : DB :=
  MkDB
    (f (t_balance d)) (t_ledger d) (t_topup d) (t_window d) (t_billing d) (t_session d)
    (t_settlement d) (t_grant d) (t_account d) (t_budget d) (t_funding d) (t_payment d)
    (t_idem d) (t_deposit d)
    (t_identity d) (t_notices d).

Definition on_ledger (f : list CreditLedger -> list CreditLedger) (d : DB) : DB :=
  MkDB
    (t_balance d) (f (t_ledger d)) (t_topup d) (t_window d) (t_billing d) (t_session d)
    (t_settlement d) (t_grant d) (t_account d) (t_budget d) (t_funding d) (t_payment d)
    (t_idem d) (t_deposit d)
    (t_identity d) (t_notices d).

Definition on_topup (f : list CreditTopup -> list CreditTopup) (d : DB) : DB :=
  MkDB
    (t_balance d) (t_ledger d) (f (t_topup d)) (t_window d) (t_billing d) (t_session d)
    (t_settlement d) (t_grant d) (t_account d) (t_budget d) (t_funding d) (t_payment d)
    (t_idem d) (t_deposit d)
    (t_identity d) (t_notices d).

Definition on_window (f : gmap (uuid * Z) SpendWindow -> gmap (uuid * Z) SpendWindow) (d : DB) : DB :=
  MkDB
    (t_balance d) (t_ledger d) (t_topup d) (f (t_window d)) (t_billing d) (t_session d)
    (t_settlement d) (t_grant d) (t_account d) (t_budget d) (t_funding d) (t_payment d)
    (t_idem d) (t_deposit d)
    (t_identity d) (t_notices d).

Definition on_billing (f : gmap uuid UserBillingConfig -> gmap uuid UserBillingConfig) (d : DB) : DB :=
  MkDB
    (t_balance d) (t_ledger d) (t_topup d) (t_window d) (f (t_billing d)) (t_session d)
    (t_settlement d) (t_grant d) (t_account d) (t_budget d) (t_funding d) (t_payment d)
    (t_idem d) (t_deposit d)
    (t_identity d) (t_notices d).

Definition on_session (f : gmap uuid PaymentSession -> gmap uuid PaymentSession) (d : DB) : DB :=
  MkDB
    (t_balance d) (t_ledger d) (t_topup d) (t_window d) (t_billing d) (f (t_session d))
    (t_settlement d) (t_grant d) (t_account d) (t_budget d) (t_funding d) (t_payment d)
    (t_idem d) (t_deposit d)
    (t_identity d) (t_notices d).

Definition on_settlement (f : list PaymentSettlement -> list PaymentSettlement) (d : DB) : DB :=
  MkDB
    (t_balance d) (t_ledger d) (t_topup d) (t_window d) (t_billing d) (t_session d) (f
    (t_settlement d)) (t_grant d) (t_account d) (t_budget d) (t_funding d) (t_payment d)
    (t_idem d) (t_deposit d)
    (t_identity d) (t_notices d).

Definition on_grant (f : list SpendAuthorizationGrant -> list SpendAuthorizationGrant) (d : DB) : DB :=
  MkDB
    (t_balance d) (t_ledger d) (t_topup d) (t_window d) (t_billing d) (t_session d)
    (t_settlement d) (f (t_grant d)) (t_account d) (t_budget d) (t_funding d)
    (t_payment d) (t_idem d) (t_deposit d)
    (t_identity d) (t_notices d).

Definition on_account (f : list WholesaleAccount -> list WholesaleAccount) (d : DB) : DB :=
  MkDB
    (t_balance d) (t_ledger d) (t_topup d) (t_window d) (t_billing d) (t_session d)
    (t_settlement d) (t_grant d) (f (t_account d)) (t_budget d) (t_funding d)
    (t_payment d) (t_idem d) (t_deposit d)
    (t_identity d) (t_notices d).

Definition on_budget (f : option Z -> option Z) (d : DB) : DB :=
  MkDB
    (t_balance d) (t_ledger d) (t_topup d) (t_window d) (t_billing d) (t_session d)
    (t_settlement d) (t_grant d) (t_account d) (f (t_budget d)) (t_funding d)
    (t_payment d) (t_idem d) (t_deposit d)
    (t_identity d) (t_notices d).

Definition on_funding (f : list WholesaleFunding -> list WholesaleFunding) (d : DB) : DB :=
  MkDB
    (t_balance d) (t_ledger d) (t_topup d) (t_window d) (t_billing d) (t_session d)
    (t_settlement d) (t_grant d) (t_account d) (t_budget d) (f (t_funding d))
    (t_payment d) (t_idem d) (t_deposit d)
    (t_identity d) (t_notices d).

Definition on_payment (f : list Payment -> list Payment) (d : DB) : DB :=
  MkDB
    (t_balance d) (t_ledger d) (t_topup d) (t_window d) (t_billing d) (t_session d)
    (t_settlement d) (t_grant d) (t_account d) (t_budget d) (t_funding d) (f
    (t_payment d)) (t_idem d) (t_deposit d)
    (t_identity d) (t_notices d).

Definition on_idem (f : gmap (uuid * string * string) PaymentIdempotencyKey -> gmap (uuid * string * string) PaymentIdempotencyKey) (d : DB) : DB :=
  MkDB
    (t_balance d) (t_ledger d) (t_topup d) (t_window d) (t_billing d) (t_session d)
    (t_settlement d) (t_grant d) (t_account d) (t_budget d) (t_funding d) (t_payment d)
    (f (t_idem d)) (t_deposit d)
    (t_identity d) (t_notices d).

Definition on_deposit (f : list PaymentDaemonDepositSnapshot -> list PaymentDaemonDepositSnapshot) (d : DB) : DB :=
  MkDB
    (t_balance d) (t_ledger d) (t_topup d) (t_window d) (t_billing d) (t_session d)
    (t_settlement d) (t_grant d) (t_account d) (t_budget d) (t_funding d) (t_payment d)
    (t_idem d) (f (t_deposit d))
    (t_identity d) (t_notices d).

Definition on_identity (f : Identity -> Identity) (d : DB) : DB :=
  MkDB
    (t_balance d) (t_ledger d) (t_topup d) (t_window d) (t_billing d) (t_session d)
    (t_settlement d) (t_grant d) (t_account d) (t_budget d) (t_funding d) (t_payment d)
    (t_idem d) (t_deposit d) (f (t_identity d)) (t_notices d).

(** The same for each identity table. *)
Definition on_user (f : list User -> list User) : DB -> DB :=
  on_identity (fun i => MkIdentity
    (f (i_user i)) (i_verification i) (i_reset i) (i_web_session i)
    (i_approval i) (i_api_key i) (i_operator i) (i_audit i)
    (i_sdk_approval i) (i_oauth i) (i_email_send i) (i_email_event i)).

Definition on_verification (f : list UserToken -> list UserToken) : DB -> DB :=
  on_identity (fun i => MkIdentity
    (i_user i) (f (i_verification i)) (i_reset i) (i_web_session i)
    (i_approval i) (i_api_key i) (i_operator i) (i_audit i)
    (i_sdk_approval i) (i_oauth i) (i_email_send i) (i_email_event i)).

Definition on_reset (f : list UserToken -> list UserToken) : DB -> DB :=
  on_identity (fun i => MkIdentity
    (i_user i) (i_verification i) (f (i_reset i)) (i_web_session i)
    (i_approval i) (i_api_key i) (i_operator i) (i_audit i)
    (i_sdk_approval i) (i_oauth i) (i_email_send i) (i_email_event i)).

Definition on_web_session (f : list UserSession -> list UserSession) : DB -> DB :=
  on_identity (fun i => MkIdentity
    (i_user i) (i_verification i) (i_reset i) (f (i_web_session i))
    (i_approval i) (i_api_key i) (i_operator i) (i_audit i)
    (i_sdk_approval i) (i_oauth i) (i_email_send i) (i_email_event i)).

Definition on_approval (f : list OperatorApproval -> list OperatorApproval) : DB -> DB :=
  on_identity (fun i => MkIdentity
    (i_user i) (i_verification i) (i_reset i) (i_web_session i)
    (f (i_approval i)) (i_api_key i) (i_operator i) (i_audit i)
    (i_sdk_approval i) (i_oauth i) (i_email_send i) (i_email_event i)).

Definition on_api_key (f : list ApiKey -> list ApiKey) : DB -> DB :=
  on_identity (fun i => MkIdentity
    (i_user i) (i_verification i) (i_reset i) (i_web_session i)
    (i_approval i) (f (i_api_key i)) (i_operator i) (i_audit i)
    (i_sdk_approval i) (i_oauth i) (i_email_send i) (i_email_event i)).

Definition on_operator (f : list Operator -> list Operator) : DB -> DB :=
  on_identity (fun i => MkIdentity
    (i_user i) (i_verification i) (i_reset i) (i_web_session i)
    (i_approval i) (i_api_key i) (f (i_operator i)) (i_audit i)
    (i_sdk_approval i) (i_oauth i) (i_email_send i) (i_email_event i)).

Definition on_audit (f : list OperatorAudit -> list OperatorAudit) : DB -> DB :=
  on_identity (fun i => MkIdentity
    (i_user i) (i_verification i) (i_reset i) (i_web_session i)
    (i_approval i) (i_api_key i) (i_operator i) (f (i_audit i))
    (i_sdk_approval i) (i_oauth i) (i_email_send i) (i_email_event i)).

Definition on_sdk_approval (f : list SdkApproval -> list SdkApproval) : DB -> DB :=
  on_identity (fun i => MkIdentity
    (i_user i) (i_verification i) (i_reset i) (i_web_session i)
    (i_approval i) (i_api_key i) (i_operator i) (i_audit i)
    (f (i_sdk_approval i)) (i_oauth i) (i_email_send i) (i_email_event i)).

Definition on_oauth (f : list UserOAuthIdentity -> list UserOAuthIdentity) : DB -> DB :=
  on_identity (fun i => MkIdentity
    (i_user i) (i_verification i) (i_reset i) (i_web_session i)
    (i_approval i) (i_api_key i) (i_operator i) (i_audit i)
    (i_sdk_approval i) (f (i_oauth i)) (i_email_send i) (i_email_event i)).

Definition on_email_send (f : list EmailSend -> list EmailSend) : DB -> DB :=
  on_identity (fun i => MkIdentity
    (i_user i) (i_verification i) (i_reset i) (i_web_session i)
    (i_approval i) (i_api_key i) (i_operator i) (i_audit i)
    (i_sdk_approval i) (i_oauth i) (f (i_email_send i)) (i_email_event i)).

Definition on_email_event (f : list EmailEvent -> list EmailEvent) : DB -> DB :=
  on_identity (fun i => MkIdentity
    (i_user i) (i_verification i) (i_reset i) (i_web_session i)
    (i_approval i) (i_api_key i) (i_operator i) (i_audit i)
    (i_sdk_approval i) (i_oauth i) (i_email_send i) (f (i_email_event i))).

Definition on_notices (f : Notices -> Notices) (d : DB) : DB :=
  MkDB
    (t_balance d) (t_ledger d) (t_topup d) (t_window d) (t_billing d) (t_session d)
    (t_settlement d) (t_grant d) (t_account d) (t_budget d) (t_funding d) (t_payment d)
    (t_idem d) (t_deposit d) (t_identity d) (f (t_notices d)).

(** The same for each table of the notices. *)
Definition on_config
    (f : gmap (uuid * string * string) bool -> gmap (uuid * string * string) bool) : DB -> DB :=
  on_notices (fun n => MkNotices (f (n_config n)) (n_portal n) (n_webhook n) (n_telemetry n)).
Definition on_portal (f : list PortalNotification -> list PortalNotification) : DB -> DB :=
  on_notices (fun n => MkNotices (n_config n) (f (n_portal n)) (n_webhook n) (n_telemetry n)).
Definition on_webhook
    (f : gmap uuid NotificationWebhookConfig -> gmap uuid NotificationWebhookConfig) : DB -> DB :=
  on_notices (fun n => MkNotices (n_config n) (n_portal n) (f (n_webhook n)) (n_telemetry n)).
Definition on_telemetry (f : list TelemetryEvent -> list TelemetryEvent) : DB -> DB :=
  on_notices (fun n => MkNotices (n_config n) (n_portal n) (n_webhook n) (f (n_telemetry n))).
