(* ===== verification/Pricing.v ===== *)
(** * Customer pricing snapshots

    [CustomerPricingSnapshot] of [billing/types.py] with its policy validator,
    its JSON column form, and [calculate_customer_charge] of
    [billing/service.py]. *)

From S2P Require Import Prelude PyData DecimalCtx Errors.
From Stdlib Require Import DecimalString DecimalPos DecimalZ.
From Stdlib Require Import Strings.Ascii.

Open Scope string_scope.
Open Scope Z_scope.
Open Scope loc_scope.

Inductive pricing_kind := WholesalePassThrough | CostPlus | UnitPrice.

#[export] Instance pricing_kind_eq_dec : EqDecision pricing_kind.
Proof. solve_decision. Defined.

Record CustomerPricingSnapshot := MkPricing {
  cp_plan_id : string;
  cp_kind : pricing_kind;
  cp_work_unit : string;
  cp_price_per_unit_wei : option Z;
  cp_units_per_price : option Z;
  cp_fee_basis_points : option Z;
}.

Definition kind_str (k : pricing_kind) : string :=
  match k with
  | WholesalePassThrough => "wholesale_pass_through"
  | CostPlus => "cost_plus"
  | UnitPrice => "unit_price"
  end.

Definition kind_of_str (s : string) : option pricing_kind :=
  if String.eqb s "wholesale_pass_through" then Some WholesalePassThrough
  else if String.eqb s "cost_plus" then Some CostPlus
  else if String.eqb s "unit_price" then Some UnitPrice
  else None.

Definition opt_all (p : Z -> bool) (o : option Z) : bool :=
  match o with Some z => p z | None => true end.

Definition is_some {A} (o : option A) : bool :=
  match o with Some _ => true | None => false end.

(** The field constraints: non-empty names, [ge]/[gt] bounds. *)
Definition pricing_fields_ok (p : CustomerPricingSnapshot) : bool :=
  str_truthy (cp_plan_id p) && str_truthy (cp_work_unit p)
  && opt_all (fun z => 0 <=? z) (cp_price_per_unit_wei p)
  && opt_all (fun z => 0 <? z) (cp_units_per_price p)
  && opt_all (fun z => 0 <=? z) (cp_fee_basis_points p).

(** The model validator; whole-wei prices are integers by construction. *)
Definition fields_match_policy (p : CustomerPricingSnapshot) : res CustomerPricingSnapshot :=
  let has_unit_price := is_some (cp_price_per_unit_wei p) || is_some (cp_units_per_price p) in
  if bool_decide (cp_kind p = UnitPrice)
     && (negb (is_some (cp_price_per_unit_wei p)) || negb (is_some (cp_units_per_price p)))
  then Err (ValueError "unit_price policy requires price and units")
  else if negb (bool_decide (cp_kind p = UnitPrice)) && has_unit_price
  then Err (ValueError "only unit_price policy carries retail unit pricing")
  else if bool_decide (cp_kind p = CostPlus) && negb (is_some (cp_fee_basis_points p))
  then Err (ValueError "cost_plus policy requires fee_basis_points")
  else if negb (bool_decide (cp_kind p = CostPlus)) && is_some (cp_fee_basis_points p)
  then Err (ValueError "only cost_plus policy carries fee_basis_points")
  else Ok p.

Definition make_pricing (p : CustomerPricingSnapshot) : res CustomerPricingSnapshot :=
  if pricing_fields_ok p then fields_match_policy p
  else Err (ValueError "field constraint").

(** [model_dump(mode="json")]: decimals as strings, integers as numbers. *)
Definition pricing_dump (p : CustomerPricingSnapshot) : dict :=
  [("schema_version", JStr "customer-pricing/v1");
   ("plan_id", JStr (cp_plan_id p));
   ("kind", JStr (kind_str (cp_kind p)));
   ("denomination", JStr "wei");
   ("work_unit", JStr (cp_work_unit p));
   ("price_per_unit_wei",
     match cp_price_per_unit_wei p with Some z => JStr (str_Z z) | None => JNull end);
   ("units_per_price",
     match cp_units_per_price p with Some z => JInt z | None => JNull end);
   ("fee_basis_points",
     match cp_fee_basis_points p with Some z => JInt z | None => JNull end)].

Definition pricing_keys : list string :=
  ["schema_version"; "plan_id"; "kind"; "denomination"; "work_unit";
   "price_per_unit_wei"; "units_per_price"; "fee_basis_points"].

(** An optional integer field: an integer, or its decimal string. *)
Definition opt_int_field (j : option json) : res (option Z) :=
  match j with
  | None | Some JNull => Ok None
  | Some (JInt z) => Ok (Some z)
  | Some (JStr s) =>
      match int_of_str s with Some z => Ok (Some z) | None => Err (ValueError "int") end
  | _ => Err (ValueError "int")
  end.

Definition literal_field (j : option json) (lit : string) : res unit :=
  match j with
  | None => Ok tt
  | Some (JStr s) => require (String.eqb s lit) (ValueError "literal")
  | _ => Err (ValueError "literal")
  end.

(** [CustomerPricingSnapshot.model_validate]: unknown keys are forbidden. *)
Definition pricing_validate (d : dict) : res CustomerPricingSnapshot :=
  let? _ := require (forallb (fun kv => existsb (String.eqb (fst kv)) pricing_keys) d)
              (ValueError "extra field") in
  let? _ := literal_field (dget "schema_version" d) "customer-pricing/v1" in
  let? _ := literal_field (dget "denomination" d) "wei" in
  let? plan := of_option (as_str (dget "plan_id" d)) (ValueError "plan_id") in
  let? unit := of_option (as_str (dget "work_unit" d)) (ValueError "work_unit") in
  let? kind := of_option (as_str (dget "kind" d) ≫= kind_of_str) (ValueError "kind") in
  let? price := opt_int_field (dget "price_per_unit_wei" d) in
  let? units := opt_int_field (dget "units_per_price" d) in
  let? fee := opt_int_field (dget "fee_basis_points" d) in
  make_pricing (MkPricing plan kind unit price units fee).

(** [calculate_customer_charge]. *)
Definition calculate_customer_charge (policy : CustomerPricingSnapshot)
    (actual_units wholesale_debit_wei : Z) : res Z :=
  if (actual_units <? 0) || (wholesale_debit_wei <? 0)
  then Err (ValueError "usage and wholesale debit must be non-negative")
  else match cp_kind policy with
  | WholesalePassThrough => Ok wholesale_debit_wei
  | CostPlus =>
      let? fee := of_option (cp_fee_basis_points policy) AssertionError in
      Ok (ddiv_ceil (dmul wholesale_debit_wei (10000 + fee)) 10000)
  | UnitPrice =>
      let? price := of_option (cp_price_per_unit_wei policy) AssertionError in
      let? units := of_option (cp_units_per_price policy) AssertionError in
      Ok (ddiv_ceil (dmul actual_units price) units)
  end.

(** The charge the policy describes, in exact arithmetic. *)
Definition retail_price (p : CustomerPricingSnapshot) (units debit : Z) : Z :=
  match cp_kind p with
  | WholesalePassThrough => debit
  | CostPlus => cdiv (debit * (10000 + or_else (cp_fee_basis_points p) 0)) 10000
  | UnitPrice =>
      cdiv (units * or_else (cp_price_per_unit_wei p) 0) (or_else (cp_units_per_price p) 1)
  end.

(** The amounts for which the service's decimal arithmetic is exact. *)
Definition charge_in_range (p : CustomerPricingSnapshot) (units debit : Z) : Prop :=
  match cp_kind p with
  | WholesalePassThrough => True
  | CostPlus => debit * (10000 + or_else (cp_fee_basis_points p) 0) < 10 ^ 27
  | UnitPrice => units * or_else (cp_price_per_unit_wei p) 0 < 10 ^ 27
  end.

(** ** Decimal strings round trip *)

Definition plain_char (a : ascii) : bool := is_digit a || Ascii.eqb a "-"%char.

Lemma plain_not_space (a : ascii) : plain_char a = true -> is_str_space a = false.
Proof. destruct a as [[] [] [] [] [] [] [] []]; vm_compute; congruence. Qed.

Lemma string_of_uint_plain (u : Decimal.uint) :
  str_forallb plain_char (NilEmpty.string_of_uint u) = true.
Proof. induction u; cbn; try rewrite IHu; done. Qed.

Lemma str_Z_plain (z : Z) : str_forallb plain_char (str_Z z) = true.
Proof.
  unfold str_Z, NilZero.string_of_int, NilZero.string_of_uint.
  destruct (Z.to_int z) as [u|u]; destruct u; cbn; rewrite ?string_of_uint_plain; done.
Qed.

Lemma strip_plain (s : string) :
  str_forallb plain_char s = true -> str_rstrip (str_lstrip s) = s.
Proof.
  intros H. assert (Hr : forall t, str_forallb plain_char t = true -> str_rstrip t = t).
  { induction t as [|a t IH]; cbn; [done|]. intros [Ha Ht]%andb_true_iff.
    rewrite IH by done. destruct t; [|done]. by rewrite plain_not_space. }
  destruct s as [|a s]; [done|]. cbn in H. apply andb_true_iff in H as [Ha Hs].
  cbn. rewrite plain_not_space by done. apply Hr. cbn. by rewrite Ha, Hs.
Qed.

Lemma drop_underscores_plain (s : string) b :
  str_forallb plain_char s = true -> drop_underscores b s = Some s.
Proof.
  revert b. induction s as [|a s IH]; cbn; [done|]. intros b [Ha Hs]%andb_true_iff.
  destruct (Ascii.eqb a "_"%char) eqn:E; [by apply Ascii.eqb_eq in E; subst|]. by rewrite IH.
Qed.

Lemma int_of_str_Z (z : Z) : int_of_str (str_Z z) = Some z.
Proof.
  unfold int_of_str. rewrite strip_plain by apply str_Z_plain.
  rewrite drop_underscores_plain by apply str_Z_plain. cbn [mbind option_bind].
  assert (Hi : Z.of_int <$> NilZero.int_of_string (str_Z z) = Some z).
  { unfold str_Z. rewrite NilZero.isi.
    - cbn. by rewrite DecimalZ.of_to.
    - destruct z; cbn; [done| |]; pose proof (DecimalPos.Unsigned.to_uint_nonnil p); congruence.
    - destruct z; cbn; [done| |]; pose proof (DecimalPos.Unsigned.to_uint_nonnil p); congruence. }
  pose proof (str_Z_plain z) as Hp.
  destruct (str_Z z) as [|a s]; [done|]. cbn in Hp.
  destruct (Ascii.eqb a "+"%char) eqn:E; [by apply Ascii.eqb_eq in E; subst|].
  destruct a as [[] [] [] [] [] [] [] []]; exact Hi || done.
Qed.

Lemma make_pricing_ok (p q : CustomerPricingSnapshot) :
  make_pricing p = Ok q ->
  q = p /\ pricing_fields_ok p = true /\ fields_match_policy p = Ok p.
Proof.
  unfold make_pricing. destruct (pricing_fields_ok p); [|done].
  intros H. unfold fields_match_policy in *. by crush_match.
Qed.

(** What a constructed snapshot guarantees to the charge computation. *)
Lemma make_pricing_bounds (p : CustomerPricingSnapshot) :
  make_pricing p = Ok p ->
  match cp_kind p with
  | WholesalePassThrough => True
  | CostPlus => exists f, cp_fee_basis_points p = Some f /\ 0 <= f
  | UnitPrice => exists w u, cp_price_per_unit_wei p = Some w /\
                             cp_units_per_price p = Some u /\ 0 <= w /\ 0 < u
  end.
Proof.
  intros (_ & Hf & Hm)%make_pricing_ok.
  unfold pricing_fields_ok, fields_match_policy, opt_all in *. bool_props.
  destruct (cp_kind p), (cp_price_per_unit_wei p), (cp_units_per_price p),
    (cp_fee_basis_points p); cbn in *; try discriminate Hm; bool_props; eauto 8.
Qed.

(** A stored snapshot reads back as the policy it was written from. *)
Lemma pricing_validate_dump (p : CustomerPricingSnapshot) :
  make_pricing p = Ok p -> pricing_validate (pricing_dump p) = Ok p.
Proof.
  intros H. unfold pricing_validate.
  destruct p as [plan kind unit price units fee].
  transitivity (make_pricing (MkPricing plan kind unit price units fee)); [|exact H].
  destruct kind; destruct price, units, fee; cbn; rewrite ?int_of_str_Z; reflexivity.
Qed.

(** Within 27-digit products the charge is the policy's exact price. *)
Lemma calculate_customer_charge_exact (p : CustomerPricingSnapshot) (units debit : Z) :
  make_pricing p = Ok p -> 0 <= units -> 0 <= debit -> charge_in_range p units debit ->
  calculate_customer_charge p units debit = Ok (retail_price p units debit).
Proof.
  intros Hp%make_pricing_bounds Hu Hd Hr.
  unfold calculate_customer_charge, retail_price, charge_in_range in *.
  rewrite (proj2 (Z.ltb_ge units 0)), (proj2 (Z.ltb_ge debit 0)) by lia. cbn.
  destruct (cp_kind p).
  - done.
  - destruct Hp as (f & Hf & H0). rewrite Hf in Hr |- *. cbn in *.
    rewrite dmul_exact, ddiv_ceil_exact by (unfold in_prec, DLIMIT; nia || lia). done.
  - destruct Hp as (w & u & Hw & Hun & Hw0 & Hu0). rewrite Hw, Hun in *. cbn in *.
    rewrite dmul_exact, ddiv_ceil_exact by (unfold in_prec, DLIMIT; nia || lia). done.
Qed.

Lemma retail_price_nonneg (p : CustomerPricingSnapshot) (units debit : Z) :
  make_pricing p = Ok p -> 0 <= units -> 0 <= debit -> 0 <= retail_price p units debit.
Proof.
  intros Hp%make_pricing_bounds Hu Hd. unfold retail_price.
  destruct (cp_kind p); [done| |].
  - destruct Hp as (f & -> & Hf). cbn. apply cdiv_nonneg; nia.
  - destruct Hp as (w & u & -> & -> & Hw & Hu0). cbn. apply cdiv_nonneg; nia.
Qed.

(** More usage and a larger wholesale debit never cost the customer less. *)
Lemma retail_price_mono (p : CustomerPricingSnapshot) (u1 u2 d1 d2 : Z) :
  make_pricing p = Ok p -> u1 <= u2 -> d1 <= d2 ->
  retail_price p u1 d1 <= retail_price p u2 d2.
Proof.
  intros Hp%make_pricing_bounds Hu Hd. unfold retail_price.
  destruct (cp_kind p); [done| |].
  - destruct Hp as (f & -> & Hf). cbn. apply cdiv_mono; nia.
  - destruct Hp as (w & u & -> & -> & Hw & Hu0). cbn. apply cdiv_mono; nia.
Qed.

(** The snapshot every wholesale engagement is created with. *)
Lemma pass_through_charge (p : CustomerPricingSnapshot) (units debit : Z) :
  cp_kind p = WholesalePassThrough -> 0 <= units -> 0 <= debit ->
  calculate_customer_charge p units debit = Ok debit.
Proof.
  intros Hk Hu Hd. unfold calculate_customer_charge. rewrite Hk.
  by rewrite (proj2 (Z.ltb_ge units 0)), (proj2 (Z.ltb_ge debit 0)) by lia.
Qed.

Lemma calculate_customer_charge_nonneg (p : CustomerPricingSnapshot) (units debit c : Z) :
  calculate_customer_charge p units debit = Ok c -> 0 <= units /\ 0 <= debit.
Proof. unfold calculate_customer_charge. intros H. crush_match; lia. Qed.

#[export] Hint Resolve retail_price_nonneg retail_price_mono : loc.

(** ** Properties *)

(** The retail charge of a validated pricing snapshot is the policy's exact
    price, rounded up to a whole wei, as long as the intermediate product stays
    below 10^27 wei: the 28-digit decimal context introduces no error. *)
Theorem customer_charge_exact (p : CustomerPricingSnapshot) (units debit : Z) :
  make_pricing p = Ok p -> 0 <= units -> 0 <= debit -> charge_in_range p units debit ->
  calculate_customer_charge p units debit = Ok (retail_price p units debit) /\
  0 <= retail_price p units debit.
Proof.
  intros. split; [by apply calculate_customer_charge_exact|by apply retail_price_nonneg].
Qed.

Lemma customer_charge_exact_witness :
  calculate_customer_charge (MkPricing "p" CostPlus "tokens" None None (Some 250)) 10 999
    = Ok 1024 /\ 0 <= 1024.
Proof.
  apply (customer_charge_exact (MkPricing "p" CostPlus "tokens" None None (Some 250)) 10 999);
    [reflexivity|lia|lia|vm_compute; reflexivity].
Defined.

(** A pricing snapshot written to its JSON column reads back as the same
    policy; what cannot be constructed cannot be stored. *)
Theorem pricing_snapshot_roundtrip (p : CustomerPricingSnapshot) :
  make_pricing p = Ok p -> pricing_validate (pricing_dump p) = Ok p.
Proof. apply pricing_validate_dump. Qed.

Lemma pricing_snapshot_roundtrip_witness :
  let p := MkPricing "retail" UnitPrice "seconds" (Some 123456789012345678901234567890) (Some 60)
             None in
  pricing_validate (pricing_dump p) = Ok p.
Proof.
  intros p. apply (pricing_snapshot_roundtrip p). reflexivity.
Defined.

(** Over a product of 10^28 wei the decimal context does round: the charge
    is no longer the exact price. *)
Lemma customer_charge_rounds_beyond_context :
  let p := MkPricing "retail" UnitPrice "seconds" (Some (10 ^ 28 + 1)) (Some 1) None in
  make_pricing p = Ok p /\ calculate_customer_charge p 1 0 = Ok (10 ^ 28) /\
  retail_price p 1 0 = 10 ^ 28 + 1.
Proof. vm_compute. done. Qed.
