(* ===== verification/Settings.v ===== *)
(** * Settings

    The configuration the modelled services read ([settings.py]), and the
    start-up validator that refuses unsafe production deployments. *)

From S2P Require Import Prelude PyData Errors.

Open Scope string_scope.
Open Scope Z_scope.
Open Scope loc_scope.

Record Settings := MkSettings {
  cfg_app_env : string;
  cfg_public_base_url_scheme : string;
  cfg_database_url : string;
  cfg_api_key_hash_pepper : string;
  cfg_session_secret : string;
  cfg_metrics_token : string;
  cfg_admin_bootstrap_token : option string;
  cfg_email_provider : string;
  cfg_resend_api_key : option string;
  cfg_email_from_address : string;
  cfg_payment_daemon_mode : string;
  cfg_registry_daemon_mode : string;
  cfg_sdk_manifest_signing_key : option string;
  cfg_default_spend_period_seconds : Z;
  cfg_default_spend_period_cap_wei : Z;
  cfg_auto_replenish_increment_wei : Z;
  cfg_job_conservative_charge_after_seconds : Z;
  cfg_session_authorization_ttl_seconds : Z;
  cfg_wholesale_account_id : string;
  cfg_wholesale_chain_id : Z;
  cfg_wholesale_target_available_wei : Z;
  cfg_wholesale_replenish_below_wei : Z;
  cfg_wholesale_max_available_per_payee_wei : Z;
  cfg_wholesale_max_aggregate_available_wei : Z;
  cfg_wholesale_max_single_funding_wei : Z;
  cfg_wholesale_replenish_check_interval_seconds : Z;
  cfg_idempotency_inflight_timeout_seconds : Z;
  cfg_idempotency_retention_seconds : Z;
  cfg_job_reconciliation_interval_seconds : Z;
  cfg_session_reconciliation_interval_seconds : Z;
  cfg_public_base_url : string;
  cfg_default_initial_credit_wei : Z;
  cfg_resend_webhook_secret : option string;
  cfg_webhook_signing_seed : option string;
  cfg_webhook_send_max_retries : Z;
  cfg_telemetry_raw_retention_days : Z;
  cfg_telemetry_ingest_rate_per_key : Z;
  cfg_telemetry_query_rate_per_key_per_minute : Z;
  cfg_telemetry_query_max_page_size : Z;
  cfg_ingest_node_id : option string;
  cfg_google_oauth_client_id : option string;
  cfg_google_oauth_client_secret : option string;
  cfg_github_oauth_client_id : option string;
  cfg_github_oauth_client_secret : option string;
  cfg_auto_replenish_check_interval_seconds : Z;
  cfg_telemetry_retention_janitor_interval_seconds : Z;
}.

(** The field defaults. *)
Definition default_settings : Settings := {|
  cfg_app_env := "dev";
  cfg_public_base_url_scheme := "http";
  cfg_database_url :=
    "postgresql+asyncpg://livepeer_open_clearinghouse:" ++
    "livepeer_open_clearinghouse-dev-password@localhost:5432/" ++
    "livepeer_open_clearinghouse";
  cfg_api_key_hash_pepper := "dev-pepper-CHANGE-FOR-PROD";
  cfg_session_secret := "dev-session-secret-CHANGE-FOR-PROD";
  cfg_metrics_token := "dev-metrics-token-CHANGE-FOR-PROD";
  cfg_admin_bootstrap_token := None;
  cfg_email_provider := "auto";
  cfg_resend_api_key := None;
  cfg_email_from_address := "no-reply@livepeer-open-clearinghouse.local";
  cfg_payment_daemon_mode := "mock";
  cfg_registry_daemon_mode := "mock";
  cfg_sdk_manifest_signing_key := None;
  cfg_default_spend_period_seconds := 86400;
  cfg_default_spend_period_cap_wei := 0;
  cfg_auto_replenish_increment_wei := 0;
  cfg_job_conservative_charge_after_seconds := 0;
  cfg_session_authorization_ttl_seconds := 86400;
  cfg_wholesale_account_id := "";
  cfg_wholesale_chain_id := 0;
  cfg_wholesale_target_available_wei := 0;
  cfg_wholesale_replenish_below_wei := 0;
  cfg_wholesale_max_available_per_payee_wei := 0;
  cfg_wholesale_max_aggregate_available_wei := 0;
  cfg_wholesale_max_single_funding_wei := 0;
  cfg_wholesale_replenish_check_interval_seconds := 5;
  cfg_idempotency_inflight_timeout_seconds := 60;
  cfg_idempotency_retention_seconds := 86400;
  cfg_job_reconciliation_interval_seconds := 60;
  cfg_session_reconciliation_interval_seconds := 60;
  cfg_public_base_url := "http://localhost:8000/";
  cfg_default_initial_credit_wei := 0;
  cfg_resend_webhook_secret := None;
  cfg_webhook_signing_seed := None;
  cfg_webhook_send_max_retries := 3;
  cfg_telemetry_raw_retention_days := 30;
  cfg_telemetry_ingest_rate_per_key := 10000;
  cfg_telemetry_query_rate_per_key_per_minute := 100;
  cfg_telemetry_query_max_page_size := 500;
  cfg_ingest_node_id := None;
  cfg_google_oauth_client_id := None;
  cfg_google_oauth_client_secret := None;
  cfg_github_oauth_client_id := None;
  cfg_github_oauth_client_secret := None;
  cfg_auto_replenish_check_interval_seconds := 300;
  cfg_telemetry_retention_janitor_interval_seconds := 3600;
|}.

Definition MIN_PRODUCTION_SECRET_LENGTH : nat := 32.

Definition weak_secret (s : string) : bool :=
  Nat.ltb (String.length s) MIN_PRODUCTION_SECRET_LENGTH || str_contains "CHANGE-FOR-PROD" s.

Definition wholesale_values (c : Settings) : list Z :=
  [cfg_wholesale_chain_id c; cfg_wholesale_target_available_wei c;
   cfg_wholesale_replenish_below_wei c; cfg_wholesale_max_available_per_payee_wei c;
   cfg_wholesale_max_aggregate_available_wei c; cfg_wholesale_max_single_funding_wei c;
   cfg_wholesale_replenish_check_interval_seconds c].

(** The failed production checks, in the order they are reported. *)
Definition production_errors (c : Settings) : list string :=
  map snd (List.filter fst
    [(negb (String.eqb (cfg_public_base_url_scheme c) "https"), "PUBLIC_BASE_URL must use https");
     (negb (String.eqb (cfg_payment_daemon_mode c) "grpc"), "PAYMENT_DAEMON_MODE must be grpc");
     (negb (String.eqb (cfg_registry_daemon_mode c) "grpc"), "REGISTRY_DAEMON_MODE must be grpc");
     (negb (str_startswith "postgresql+asyncpg://" (cfg_database_url c)),
      "DATABASE_URL must use postgresql+asyncpg");
     (str_contains "livepeer_open_clearinghouse-dev-password" (cfg_database_url c),
      "DATABASE_URL must not use the development password");
     (negb (String.eqb (cfg_email_provider c) "resend")
      || bool_decide (cfg_resend_api_key c = None),
      "EMAIL_PROVIDER must be resend with RESEND_API_KEY");
     (str_endswith ".local" (cfg_email_from_address c),
      "EMAIL_FROM_ADDRESS must not use a local development domain");
     (bool_decide (cfg_sdk_manifest_signing_key c = None),
      "SDK_MANIFEST_SIGNING_KEY is required");
     (weak_secret (cfg_api_key_hash_pepper c),
      "API_KEY_HASH_PEPPER must be a non-development secret of at least 32 characters");
     (weak_secret (cfg_session_secret c),
      "SESSION_SECRET must be a non-development secret of at least 32 characters");
     (weak_secret (cfg_metrics_token c),
      "METRICS_TOKEN must be a non-development secret of at least 32 characters");
     (match cfg_admin_bootstrap_token c with Some t => weak_secret t | None => false end,
      "ADMIN_BOOTSTRAP_TOKEN must be at least 32 non-development characters")]).

(** [Settings.reject_unsafe_production_defaults]. *)
Definition reject_unsafe_production_defaults (c : Settings) : res Settings :=
  let? _ := require (negb (String.eqb (cfg_payment_daemon_mode c) "grpc"
                           && negb (str_truthy (cfg_wholesale_account_id c))))
              (ValueError "WHOLESALE_ACCOUNT_ID is required for a real payer daemon") in
  if negb (String.eqb (cfg_app_env c) "prod") then Ok c
  else
    let? _ := require (negb (existsb (fun v => v <=? 0) (wholesale_values c)))
      (ValueError "wholesale account rollout requires positive chain and exposure limits") in
    let? _ := require (negb (cfg_wholesale_target_available_wei c
                             <? cfg_wholesale_replenish_below_wei c))
      (ValueError "wholesale replenish threshold exceeds target") in
    let? _ := require
      (negb ((cfg_wholesale_max_available_per_payee_wei c
              <? cfg_wholesale_target_available_wei c)
             || (cfg_wholesale_max_aggregate_available_wei c
                 <? cfg_wholesale_target_available_wei c)))
      (ValueError "wholesale target exceeds an operator exposure limit") in
    match production_errors c with
    | [] => Ok c
    | errors =>
        Err (ValueError ("unsafe production configuration: "
                         ++ String.concat "; " errors)%string)
    end.

Lemma filter_nil_all {A} (p : A -> bool) (l : list A) :
  List.filter p l = [] -> Forall (fun x => p x = false) l.
Proof.
  induction l as [|x l IH]; cbn; [by constructor|].
  destruct (p x) eqn:E; [done|]. intros H. constructor; auto.
Qed.

(** A production configuration that starts has usable wholesale limits, a real
    payer daemon bound to an account, and no development session secret. *)
Lemma accepted_production_settings (c : Settings) :
  reject_unsafe_production_defaults c = Ok c -> cfg_app_env c = "prod" ->
  0 < cfg_wholesale_replenish_below_wei c <= cfg_wholesale_target_available_wei c /\
  cfg_wholesale_target_available_wei c <= cfg_wholesale_max_available_per_payee_wei c /\
  cfg_wholesale_target_available_wei c <= cfg_wholesale_max_aggregate_available_wei c /\
  0 < cfg_wholesale_max_single_funding_wei c /\
  cfg_payment_daemon_mode c = "grpc" /\ str_truthy (cfg_wholesale_account_id c) = true /\
  weak_secret (cfg_session_secret c) = false.
Proof.
  intros H Henv. unfold reject_unsafe_production_defaults in H. rewrite Henv in H.
  change (negb (String.eqb "prod" "prod")) with false in H. cbv iota in H.
  res_inv. unfold wholesale_values in *. cbn [existsb] in *. bool_props.
  destruct (production_errors c) as [|e es] eqn:E; [|discriminate].
  apply map_eq_nil, filter_nil_all in E.
  repeat (apply Forall_cons in E as [? E]; cbn [fst] in * ). bool_props.
  match goal with Hm : String.eqb (cfg_payment_daemon_mode c) "grpc" = true |- _ =>
    rewrite Hm in *; apply String.eqb_eq in Hm end.
  cbn [andb] in *. bool_props. repeat split; try lia; done.
Qed.

(** ** Properties *)

(** The start-up validator returns the configuration unchanged or refuses
    it; a real payer daemon needs an account identity, and a production
    configuration that starts has ordered, positive wholesale limits, the real
    daemons, no development secret and an https origin. *)
Theorem production_settings_safe (c : Settings) :
  match reject_unsafe_production_defaults c with
  | Ok c' => c' = c /\
      (cfg_payment_daemon_mode c = "grpc" -> cfg_wholesale_account_id c <> "") /\
      (cfg_app_env c = "prod" ->
        0 < cfg_wholesale_replenish_below_wei c <= cfg_wholesale_target_available_wei c /\
        cfg_wholesale_target_available_wei c <= cfg_wholesale_max_available_per_payee_wei c /\
        cfg_wholesale_target_available_wei c <= cfg_wholesale_max_aggregate_available_wei c /\
        0 < cfg_wholesale_max_single_funding_wei c /\
        production_errors c = [])
  | Err e => exists msg, e = ValueError msg
  end.
Proof.
  unfold reject_unsafe_production_defaults, require.
  destruct (String.eqb (cfg_payment_daemon_mode c) "grpc"
            && negb (str_truthy (cfg_wholesale_account_id c))) eqn:E1; cbn [negb res_bind]; [by eexists|].
  assert (Hd : cfg_payment_daemon_mode c = "grpc" -> cfg_wholesale_account_id c <> "").
  { intros Hm Ha. rewrite Hm, Ha in E1. done. }
  destruct (String.eqb (cfg_app_env c) "prod") eqn:E2; cbn [negb].
  2:{ split; [done|]. split; [done|]. intros Hp. by rewrite Hp in E2. }
  destruct (existsb (fun v => v <=? 0) (wholesale_values c)) eqn:E3; cbn [negb res_bind]; [by eexists|].
  destruct (cfg_wholesale_target_available_wei c <? cfg_wholesale_replenish_below_wei c)
    eqn:E4; cbn [negb res_bind]; [by eexists|].
  match goal with |- context [negb (?a || ?b)] => destruct (a || b) eqn:E5 end;
    cbn [negb res_bind]; [by eexists|].
  destruct (production_errors c) as [|e es]; [|by eexists].
  split; [done|]. split; [done|]. intros _.
  unfold wholesale_values in E3. cbn [existsb] in E3. bool_props. split_and!; lia || done.
Qed.
