(* ===== verification/Billing.v ===== *)
(** * Billing: balances, ledger and spend windows

    [billing/service.py] over the [credit_balance], [credit_ledger],
    [credit_topup], [spend_window] and [user_billing_config] tables.  Every
    balance change goes through [apply_delta], which moves the balance and
    appends the ledger row together; the ledger is the source of truth. *)

From S2P Require Import Prelude PyData DecimalCtx Errors Effects Store Settings.

Open Scope string_scope.
Open Scope Z_scope.
Open Scope loc_scope.

(** [ResolvedBillingConfig]. *)
Record ResolvedBillingConfig := MkRBC {
  rbc_spend_period_seconds : Z;
  rbc_spend_period_cap_wei : Z;
  rbc_auto_replenish_increment_wei : Z;
  rbc_auto_replenish_threshold_wei : Z;
}.

(** [window_bounds_for]: the aligned [[start, end)] window holding [now]. *)
Definition window_bounds_for (now : datetime) (period_seconds : Z)
  : res (datetime * datetime) :=
  let? _ := require (dt_aware now) (ValueError "clock.now() must be tz-aware") in
  let? _ := require (negb (period_seconds =? 0)) ZeroDivision in
  let epoch := dt_epoch now in
  let bucket := (epoch / period_seconds) * period_seconds in
  let start := DT (1000000 * bucket) true in
  Ok (start, dt_add_seconds start period_seconds).

Section billing.
Context {W : Type} {R : Runtime}.
Local Abbreviation M := (M DB W).

(** [_ensure_balance_row]. *)
Definition ensure_balance_row (user_id : uuid) : M CreditBalance :=
  d <- db_read ;;
  match t_balance d !! user_id with
  | Some row => ret row
  | None =>
      db_modify (on_balance (<[user_id := MkCreditBalance 0 0]>)) ;;;
      db_flush ;;;
      d' <- db_read ;;
      match t_balance d' !! user_id with
      | Some row => ret row
      | None => raise AssertionError
      end
  end.

(** [_apply_delta]. *)
Definition apply_delta (user_id : uuid) (delta_wei : Z) (reason : string)
    (payment_id engagement_id topup_id operator_id : option uuid) : M CreditBalance :=
  balance <- ensure_balance_row user_id ;;
  let new_amount := dadd (cb_amount_wei balance) delta_wei in
  if new_amount <? 0
  then raise (OC (InsufficientCredit (cb_amount_wei balance) (dneg delta_wei)))
  else
    let row := MkCreditBalance new_amount (cb_version balance + 1) in
    db_modify (fun d =>
      on_ledger (fun l => (l ++ [MkCreditLedger user_id delta_wei reason payment_id
                                  engagement_id topup_id operator_id])%list)
        (on_balance (<[user_id := row]>) d)) ;;;
    ret row.

(** [grant_initial_credit]. *)
Definition grant_initial_credit (user_id : uuid) (amount_wei : Z) (operator_id : uuid)
  : M (option CreditTopup) :=
  if amount_wei <=? 0 then ret None
  else
    id <- new_uuid ;;
    let row := MkCreditTopup id user_id amount_wei "initial" (Some operator_id) in
    db_modify (on_topup (fun l => (l ++ [row])%list)) ;;;
    db_flush ;;;
    apply_delta user_id amount_wei "topup" None None (Some id) (Some operator_id) ;;;
    ret (Some row).

(** [topup]. *)
Definition topup (user_id : uuid) (amount_wei : Z) (kind : string)
    (operator_id : option uuid) : M (CreditTopup * CreditBalance) :=
  id <- new_uuid ;;
  let row := MkCreditTopup id user_id amount_wei kind operator_id in
  db_modify (on_topup (fun l => (l ++ [row])%list)) ;;;
  db_flush ;;;
  balance <- apply_delta user_id amount_wei
    (if negb (String.eqb kind "auto_replenish") then "topup" else "auto_replenish")
    None None (Some id) operator_id ;;
  ret (row, balance).

(** [_get_or_create_spend_window]. *)
Definition get_or_create_spend_window (user_id : uuid) (window_start window_end : datetime)
    (cap_wei : Z) : M SpendWindow :=
  d <- db_read ;;
  match t_window d !! (user_id, dt_us window_start) with
  | Some row => ret row
  | None =>
      let row := MkSpendWindow window_end 0 cap_wei in
      db_modify (on_window (<[(user_id, dt_us window_start) := row]>)) ;;;
      db_flush ;;;
      ret row
  end.

(** [enforce_and_record_spend]. *)
Definition enforce_and_record_spend (user_id : uuid) (amount_wei period_seconds cap_wei : Z)
  : M unit :=
  if cap_wei <=? 0 then ret tt
  else
    now <- clock_now ;;
    '(start, fin) <- lift (window_bounds_for now period_seconds) ;;
    window <- get_or_create_spend_window user_id start fin cap_wei ;;
    let after := dadd (sw_spent_wei window) amount_wei in
    if sw_cap_wei window <? after
    then raise (OC (SpendCapExceeded (sw_cap_wei window) after))
    else db_modify (on_window (<[(user_id, dt_us start) := set_sw_spent_wei after window]>)).

(** [remaining_window_room]. *)
Definition remaining_window_room (user_id : uuid) (period_seconds cap_wei : Z) : M xdec :=
  if cap_wei <=? 0 then ret PInf
  else
    now <- clock_now ;;
    '(start, _) <- lift (window_bounds_for now period_seconds) ;;
    d <- db_read ;;
    let spent := match t_window d !! (user_id, dt_us start) with
                 | None => 0 | Some row => sw_spent_wei row end in
    ret (Fin (dsub cap_wei spent)).

(** [charge_payment]. *)
Definition charge_payment (user_id : uuid) (amount_wei : Z) (payment_id : uuid)
    (period_seconds cap_wei : Z) : M CreditBalance :=
  enforce_and_record_spend user_id amount_wei period_seconds cap_wei ;;;
  apply_delta user_id (dneg amount_wei) "payment_charge" (Some payment_id) None None None.

(** [refund_payment]. *)
Definition refund_payment (user_id : uuid) (amount_wei : Z) (payment_id : uuid)
  : M CreditBalance :=
  apply_delta user_id amount_wei "payment_refund" (Some payment_id) None None None.

(** [encumber_for_session]. *)
Definition encumber_for_session (user_id payment_id : uuid)
    (amount_wei period_seconds cap_wei : Z) : M CreditBalance :=
  enforce_and_record_spend user_id amount_wei period_seconds cap_wei ;;;
  apply_delta user_id (dneg amount_wei) "session_encumbrance" (Some payment_id) None None None.

(** [release_session_encumbrance]. *)
Definition release_session_encumbrance (user_id payment_id : uuid) (amount_wei : Z)
  : M CreditBalance :=
  apply_delta user_id amount_wei "session_release" (Some payment_id) None None None.

Definition ledger_match (engagement_id : uuid) (reason : string) (r : CreditLedger) : bool :=
  bool_decide (cl_related_engagement_id r = Some engagement_id)
  && String.eqb (cl_reason r) reason.

(** The ledger row of one engagement and reason, if any. *)
Definition find_engagement_entry (engagement_id : uuid) (reason : string) (d : DB)
  : option CreditLedger :=
  List.find (ledger_match engagement_id reason) (t_ledger d).

(** [encumber_customer_engagement]. *)
Definition encumber_customer_engagement (user_id engagement_id : uuid)
    (amount_wei period_seconds cap_wei : Z) : M CreditBalance :=
  balance <- ensure_balance_row user_id ;;
  d <- db_read ;;
  match find_engagement_entry engagement_id "engagement_encumbrance" d with
  | Some existing =>
      if negb (cl_delta_wei existing =? dneg amount_wei)
      then raise (ValueError "engagement encumbrance replay changed amount")
      else ret balance
  | None =>
      enforce_and_record_spend user_id amount_wei period_seconds cap_wei ;;;
      apply_delta user_id (dneg amount_wei) "engagement_encumbrance" None
        (Some engagement_id) None None
  end.

Definition cap_revision_reason (revision : Z) : string :=
  "engagement_cap_revision:" ++ str_Z revision.

(** [increase_customer_engagement_cap]. *)
Definition increase_customer_engagement_cap (user_id engagement_id : uuid)
    (revision amount_wei period_seconds cap_wei : Z) : M CreditBalance :=
  if (revision <=? 0) || (amount_wei <=? 0)
  then raise (ValueError "engagement cap revision and amount must be positive")
  else
    let reason := cap_revision_reason revision in
    balance <- ensure_balance_row user_id ;;
    d <- db_read ;;
    match find_engagement_entry engagement_id reason d with
    | Some existing =>
        if negb (cl_delta_wei existing =? dneg amount_wei)
        then raise (ValueError "engagement cap revision replay changed amount")
        else ret balance
    | None =>
        enforce_and_record_spend user_id amount_wei period_seconds cap_wei ;;;
        apply_delta user_id (dneg amount_wei) reason None (Some engagement_id) None None
    end.

(** [release_customer_engagement]. *)
Definition release_customer_engagement (user_id engagement_id : uuid) (amount_wei : Z)
  : M CreditBalance :=
  balance <- ensure_balance_row user_id ;;
  d <- db_read ;;
  match find_engagement_entry engagement_id "engagement_release" d with
  | Some existing =>
      if negb (cl_delta_wei existing =? amount_wei)
      then raise (ValueError "engagement release replay changed amount")
      else ret balance
  | None =>
      apply_delta user_id amount_wei "engagement_release" None (Some engagement_id) None None
  end.

(** [get_balance]. *)
Definition get_balance (user_id : uuid) : M CreditBalance :=
  d <- db_read ;;
  match t_balance d !! user_id with
  | Some row => ret row
  | None =>
      let row := MkCreditBalance 0 0 in
      db_modify (on_balance (<[user_id := row]>)) ;;;
      db_flush ;;;
      ret row
  end.

(** [list_ledger]: newest first; rows are stored in insertion order. *)
Definition list_ledger (user_id : uuid) (limit : nat) : M (list CreditLedger) :=
  d <- db_read ;;
  ret (take limit (reverse (filter (fun r => cl_user_id r = user_id) (t_ledger d)))).

(** [get_billing_config]. *)
Definition get_billing_config (user_id : uuid) : M (option UserBillingConfig) :=
  d <- db_read ;; ret (t_billing d !! user_id).

(** [resolve_billing_config]. *)
Definition resolve_billing_config (user_id : uuid) (settings : Settings)
  : M ResolvedBillingConfig :=
  row <- get_billing_config user_id ;;
  match row with
  | None =>
      ret (MkRBC (cfg_default_spend_period_seconds settings)
             (cfg_default_spend_period_cap_wei settings)
             (cfg_auto_replenish_increment_wei settings) 0)
  | Some row =>
      ret (MkRBC
        (or_else (ub_spend_period_seconds row) (cfg_default_spend_period_seconds settings))
        (or_else (ub_spend_period_cap_wei row) (cfg_default_spend_period_cap_wei settings))
        (or_else (ub_auto_replenish_increment_wei row)
           (cfg_auto_replenish_increment_wei settings))
        (or_else (ub_auto_replenish_threshold_wei row) 0))
  end.

(** [upsert_billing_config]; the [tier] column is left as it was. *)
Definition upsert_billing_config (user_id operator_id : uuid)
    (spend_period_seconds spend_period_cap_wei auto_replenish_increment_wei
     auto_replenish_threshold_wei : option Z) : M UserBillingConfig :=
  existing <- get_billing_config user_id ;;
  let tier := match existing with Some r => ub_tier r | None => None end in
  let row := MkUserBillingConfig spend_period_seconds spend_period_cap_wei
    auto_replenish_increment_wei auto_replenish_threshold_wei tier (Some operator_id) in
  db_modify (on_billing (<[user_id := row]>)) ;;;
  db_flush ;;;
  ret row.

(** One user of [run_auto_replenish]. *)
Definition auto_replenish_user (settings : Settings) (count : Z) (user_id : uuid) : M Z :=
  resolved <- resolve_billing_config user_id settings ;;
  if rbc_auto_replenish_increment_wei resolved <=? 0 then ret count
  else if rbc_auto_replenish_threshold_wei resolved <=? 0 then ret count
  else
    balance <- ensure_balance_row user_id ;;
    if rbc_auto_replenish_threshold_wei resolved <=? cb_amount_wei balance then ret count
    else
      topup user_id (rbc_auto_replenish_increment_wei resolved) "auto_replenish" None ;;;
      ret (count + 1).

(** [run_auto_replenish]. *)
Definition run_auto_replenish (settings : Settings) : M Z :=
  d <- db_read ;;
  mfold (auto_replenish_user settings) 0 (map fst (map_to_list (t_balance d))).

End billing.
