(* ===== verification/BillingFacts.v ===== *)
(** * Billing: what the operations do

    Each operation of [Billing] computed as a function of the state it starts
    from, the book-keeping invariant ([books_ok]: every balance is the running
    sum of its ledger entries and is never negative), its preservation by every
    operation whether it returns or raises, and the uniqueness of engagement
    entries.  The last part states the properties of the component. *)

From S2P Require Import Prelude PyData DecimalCtx Errors Effects Store Settings Billing.

Open Scope string_scope.
Open Scope Z_scope.
Open Scope loc_scope.

(** ** Pure counterparts *)

(** The state with another working database. *)
Definition at_working {W} (s : St DB W) (d : DB) (pending : bool) : St DB W :=
  MkSt (st_committed s) d pending (st_races s) (st_ticks s) (st_world s).

(** ... after the clock was read. *)
Definition at_tick {W} (s : St DB W) (d : DB) (pending : bool) : St DB W :=
  MkSt (st_committed s) d pending (st_races s) (S (st_ticks s)) (st_world s).

Definition balance_row (d : DB) (u : uuid) : CreditBalance :=
  or_else (t_balance d !! u) (MkCreditBalance 0 0).

Definition balance_of (d : DB) (u : uuid) : Z := cb_amount_wei (balance_row d u).

Definition with_row (d : DB) (u : uuid) : DB :=
  match t_balance d !! u with
  | Some _ => d
  | None => on_balance (<[u := MkCreditBalance 0 0]>) d
  end.

(** A balance moved together with its ledger entry. *)
Definition credit (d : DB) (e : CreditLedger) : DB :=
  let u := cl_user_id e in
  let row := MkCreditBalance (dadd (balance_of d u) (cl_delta_wei e))
               (cb_version (balance_row d u) + 1) in
  on_ledger (fun l => (l ++ [e])%list) (on_balance (<[u := row]>) d).

Definition user_entries (d : DB) (u : uuid) : list CreditLedger :=
  filter (fun r => cl_user_id r = u) (t_ledger d).

(** The running sum of one user's ledger, in the decimal context. *)
Definition ledger_balance (d : DB) (u : uuid) : Z :=
  dsum (map cl_delta_wei (user_entries d u)).

(** The ledger is the source of truth, and no balance is negative. *)
Definition books_ok (d : DB) : Prop :=
  forall u, balance_of d u = ledger_balance d u /\ 0 <= balance_of d u.

(** At most one entry per engagement and reason
    ([uq_credit_ledger_engagement_reason]). *)
Definition entry_key (r : CreditLedger) : option (uuid * string) :=
  e ← cl_related_engagement_id r; Some (e, cl_reason r).

Definition entries_unique (d : DB) : Prop :=
  NoDup (omap entry_key (t_ledger d)).

(** ** Every operation as one type, for the invariants *)

Inductive billing_op :=
  | OpGrantInitial (u : uuid) (amount : Z) (operator : uuid)
  | OpTopup (u : uuid) (amount : Z) (kind : string) (operator : option uuid)
  | OpEnforceSpend (u : uuid) (amount period cap : Z)
  | OpCharge (u : uuid) (amount : Z) (payment : uuid) (period cap : Z)
  | OpRefund (u : uuid) (amount : Z) (payment : uuid)
  | OpEncumberSession (u payment : uuid) (amount period cap : Z)
  | OpReleaseSession (u payment : uuid) (amount : Z)
  | OpEncumberEngagement (u engagement : uuid) (amount period cap : Z)
  | OpIncreaseCap (u engagement : uuid) (revision amount period cap : Z)
  | OpReleaseEngagement (u engagement : uuid) (amount : Z)
  | OpGetBalance (u : uuid)
  | OpUpsertConfig (u operator : uuid) (period cap increment threshold : option Z)
  | OpAutoReplenish (settings : Settings).

Definition run_billing_op {W} {R : Runtime} (op : billing_op) : M DB W unit :=
  match op with
  | OpGrantInitial u a o => grant_initial_credit u a o ;;; ret tt
  | OpTopup u a k o => topup u a k o ;;; ret tt
  | OpEnforceSpend u a p c => enforce_and_record_spend u a p c
  | OpCharge u a pay p c => charge_payment u a pay p c ;;; ret tt
  | OpRefund u a pay => refund_payment u a pay ;;; ret tt
  | OpEncumberSession u pay a p c => encumber_for_session u pay a p c ;;; ret tt
  | OpReleaseSession u pay a => release_session_encumbrance u pay a ;;; ret tt
  | OpEncumberEngagement u e a p c => encumber_customer_engagement u e a p c ;;; ret tt
  | OpIncreaseCap u e r a p c => increase_customer_engagement_cap u e r a p c ;;; ret tt
  | OpReleaseEngagement u e a => release_customer_engagement u e a ;;; ret tt
  | OpGetBalance u => get_balance u ;;; ret tt
  | OpUpsertConfig u o p c i t => upsert_billing_config u o p c i t ;;; ret tt
  | OpAutoReplenish s => run_auto_replenish s ;;; ret tt
  end.

(** ** Computation lemmas *)

Section compute.
Context {W : Type} {R : Runtime}.
Implicit Types (s : St DB W) (d : DB) (u : uuid).

Lemma at_working_working s d p : st_working (at_working s d p) = d.
Proof. done. Qed.

Lemma ensure_balance_row_run u s :
  ensure_balance_row u s =
  (Ok (balance_row (st_working s) u), at_working s (with_row (st_working s) u) false).
Proof.
  unfold ensure_balance_row, balance_row, with_row, bind, db_read, at_working. cbn.
  destruct (t_balance (st_working s) !! u) as [row|] eqn:E; [done|].
  unfold db_modify, db_flush. cbn. by rewrite lookup_insert_eq.
Qed.

Lemma balance_row_with_row d u v : balance_row (with_row d u) v = balance_row d v.
Proof.
  unfold balance_row, with_row. destruct (t_balance d !! u) eqn:E; [done|]. cbn.
  destruct (decide (u = v)) as [->|Hne].
  - by rewrite lookup_insert_eq, E.
  - by rewrite lookup_insert_ne.
Qed.

Lemma credit_with_row d e : credit (with_row d (cl_user_id e)) e = credit d e.
Proof.
  unfold credit, balance_of. rewrite !balance_row_with_row. unfold with_row.
  destruct (t_balance d !! cl_user_id e) eqn:E; [done|].
  unfold on_ledger, on_balance. cbn. by rewrite insert_insert_eq.
Qed.

(** Both outcomes of [_apply_delta]. *)
Lemma apply_delta_run u delta reason pay eng top opr s :
  apply_delta u delta reason pay eng top opr s =
  if dadd (balance_of (st_working s) u) delta <? 0
  then (Err (OC (InsufficientCredit (balance_of (st_working s) u) (dneg delta))),
        at_working s (with_row (st_working s) u) false)
  else (Ok (MkCreditBalance (dadd (balance_of (st_working s) u) delta)
              (cb_version (balance_row (st_working s) u) + 1)),
        at_working s
          (credit (st_working s) (MkCreditLedger u delta reason pay eng top opr)) true).
Proof.
  unfold apply_delta. unfold bind at 1. rewrite ensure_balance_row_run.
  fold (balance_of (st_working s) u).
  destruct (dadd (balance_of (st_working s) u) delta <? 0); [done|].
  rewrite <- (credit_with_row (st_working s)).
  unfold bind, db_modify, ret, credit, balance_of, at_working. cbn.
  by rewrite !balance_row_with_row.
Qed.

Lemma apply_delta_ok u delta reason pay eng top opr s b s' :
  apply_delta u delta reason pay eng top opr s = (Ok b, s') ->
  0 <= dadd (balance_of (st_working s) u) delta /\
  cb_amount_wei b = dadd (balance_of (st_working s) u) delta /\
  s' = at_working s
         (credit (st_working s) (MkCreditLedger u delta reason pay eng top opr)) true.
Proof. rewrite apply_delta_run. case_match; intros [= <- <-]; bool_props; auto. Qed.

(** ** The spend window *)

(** The window a spend at [now] counts against, [None] when the clock or the
    period is unusable. *)
Definition window_key (now : datetime) (period : Z) : option (datetime * datetime) :=
  match window_bounds_for now period with Ok p => Some p | Err _ => None end.

Definition window_row d u (start fin : datetime) cap : SpendWindow :=
  or_else (t_window d !! (u, dt_us start)) (MkSpendWindow fin 0 cap).

Definition with_window d u (start fin : datetime) cap : DB :=
  match t_window d !! (u, dt_us start) with
  | Some _ => d
  | None => on_window (<[(u, dt_us start) := MkSpendWindow fin 0 cap]>) d
  end.

(** [d'] differs from [d] at most in its spend windows. *)
Definition windows_only (d d' : DB) : Prop := exists w, d' = on_window (fun _ => w) d.

(** [s'] differs from [s] at most in the working spend windows, the clock and
    the pending flag. *)
Definition spend_frame s s' : Prop :=
  windows_only (st_working s) (st_working s') /\
  st_committed s' = st_committed s /\ st_races s' = st_races s /\ st_world s' = st_world s.

(** [enforce_and_record_spend], computed. *)
Lemma enforce_spend_run u amount period cap s :
  enforce_and_record_spend u amount period cap s =
  if cap <=? 0 then (Ok tt, s) else
  match window_bounds_for (rt_now (st_ticks s)) period with
  | Err e => (Err e, at_tick s (st_working s) (st_pending s))
  | Ok (start, fin) =>
      let row := window_row (st_working s) u start fin cap in
      let after := dadd (sw_spent_wei row) amount in
      if sw_cap_wei row <? after
      then (Err (OC (SpendCapExceeded (sw_cap_wei row) after)),
            at_tick s (with_window (st_working s) u start fin cap) false)
      else (Ok tt,
            at_tick s (on_window (<[(u, dt_us start) := set_sw_spent_wei after row]>)
                         (st_working s)) true)
  end.
Proof.
  unfold enforce_and_record_spend, clock_now.
  destruct (cap <=? 0); [done|]. rewrite bind_tick, bind_lift.
  destruct (window_bounds_for _ _) as [[start fin]|e]; [|done].
  unfold get_or_create_spend_window. rewrite bind_assoc, bind_db_read. cbn.
  unfold window_row, with_window, at_tick.
  destruct (t_window (st_working s) !! (u, dt_us start)) as [row|] eqn:E; cbn.
  - rewrite bind_ret. by case_match.
  - rewrite bind_assoc, bind_db_modify, bind_assoc, bind_db_flush, bind_ret. cbn.
    case_match; [done|]. unfold db_modify, on_window. cbn. by rewrite insert_insert_eq.
Qed.

Lemma windows_only_refl d : windows_only d d.
Proof. exists (t_window d). by destruct d. Qed.

Lemma enforce_spend_frame u amount period cap s :
  spend_frame s (snd (enforce_and_record_spend u amount period cap s)).
Proof.
  assert (Hrefl := windows_only_refl (st_working s)).
  rewrite enforce_spend_run.
  destruct (cap <=? 0); [by split|].
  destruct (window_bounds_for _ _) as [[start fin]|e]; [|by split]. cbn zeta.
  case_match; (split; [|done]); cbn; unfold with_window.
  - case_match; [done|by eexists].
  - by eexists.
Qed.

End compute.

(** ** The book-keeping invariant *)

Definition ledger_ok (d : DB) : Prop := books_ok d /\ entries_unique d.

(** Tables other than balances and ledger are irrelevant to it. *)
Lemma ledger_ok_ext d d' :
  t_balance d' = t_balance d -> t_ledger d' = t_ledger d -> ledger_ok d -> ledger_ok d'.
Proof.
  unfold ledger_ok, books_ok, entries_unique, balance_of, balance_row, ledger_balance,
    user_entries. by intros -> ->.
Qed.

Lemma ledger_ok_empty : ledger_ok db_empty.
Proof.
  split; [|constructor]. intros u. unfold balance_of, balance_row. cbn.
  by rewrite lookup_empty.
Qed.

Lemma balance_of_with_row d u v : balance_of (with_row d u) v = balance_of d v.
Proof. unfold balance_of. by rewrite balance_row_with_row. Qed.

Lemma ledger_ok_with_row d u : ledger_ok d -> ledger_ok (with_row d u).
Proof.
  intros [Hb Hu].
  assert (Hl : t_ledger (with_row d u) = t_ledger d) by (unfold with_row; by case_match).
  split.
  - intros v. unfold ledger_balance, user_entries.
    rewrite balance_of_with_row, Hl. apply Hb.
  - unfold entries_unique. by rewrite Hl.
Qed.

Lemma balance_of_credit d e v :
  balance_of (credit d e) v =
  if decide (v = cl_user_id e) then dadd (balance_of d v) (cl_delta_wei e)
  else balance_of d v.
Proof.
  unfold credit, balance_of at 1, balance_row. cbn. case_decide as Hv.
  - subst v. by rewrite lookup_insert_eq.
  - by rewrite lookup_insert_ne.
Qed.

Lemma ledger_balance_credit d e v :
  ledger_balance (credit d e) v =
  if decide (v = cl_user_id e) then dadd (ledger_balance d v) (cl_delta_wei e)
  else ledger_balance d v.
Proof.
  unfold credit, ledger_balance, user_entries, dsum. cbn.
  rewrite filter_app, map_app, fold_left_app, filter_cons, filter_nil.
  repeat case_decide; subst; try done.
Qed.

Lemma books_ok_credit d e :
  0 <= dadd (balance_of d (cl_user_id e)) (cl_delta_wei e) ->
  books_ok d -> books_ok (credit d e).
Proof.
  intros Hn Hb v. rewrite balance_of_credit, ledger_balance_credit.
  destruct (Hb v) as [He Hp]. case_decide; [|done]. subst v. by rewrite <- He.
Qed.

(** An entry is fresh when its engagement (if any) has none with its reason. *)
Definition fresh_entry (d : DB) (e : CreditLedger) : Prop :=
  forall g, cl_related_engagement_id e = Some g ->
    find_engagement_entry g (cl_reason e) d = None.

Lemma entries_unique_credit d e :
  fresh_entry d e -> entries_unique d -> entries_unique (credit d e).
Proof.
  intros Hf Hu. unfold entries_unique, credit in *. cbn. rewrite omap_app. cbn.
  unfold fresh_entry, find_engagement_entry in Hf. unfold entry_key at 2.
  destruct (cl_related_engagement_id e) as [g|] eqn:Eg; cbn; [|by rewrite app_nil_r].
  specialize (Hf g eq_refl). apply find_none_Forall in Hf.
  apply NoDup_app. split; [done|]. split; [|apply NoDup_singleton].
  intros k Hk Hin. apply list_elem_of_singleton in Hin as ->.
  apply list_elem_of_omap in Hk as (r & Hr & Hkey).
  rewrite Forall_forall in Hf. specialize (Hf r Hr).
  unfold entry_key in Hkey. destruct (cl_related_engagement_id r) eqn:Er; simplify_eq/=.
  unfold ledger_match in Hf. rewrite Er, bool_decide_true in Hf by done.
  cbn in Hf. apply String.eqb_neq in Hf. congruence.
Qed.

Section invariant.
Context {W : Type} {R : Runtime}.
Implicit Types (s : St DB W).

Lemma at_working_inv (P : DB -> Prop) s d p :
  db_inv P s -> P d -> db_inv P (at_working s d p).
Proof. intros [[Hc _] Hr] Hd. by split. Qed.

Lemma keeps_ensure_row u : Keeps (db_inv (W := W) ledger_ok) (ensure_balance_row u).
Proof.
  intros s Hs. rewrite ensure_balance_row_run. apply at_working_inv; [done|].
  apply ledger_ok_with_row, Hs.
Qed.

(** [_apply_delta] of an entry without engagement. *)
Lemma keeps_apply_delta u delta reason pay top opr :
  Keeps (db_inv (W := W) ledger_ok) (apply_delta u delta reason pay None top opr).
Proof.
  intros s Hs. rewrite apply_delta_run. destruct (_ <? 0) eqn:E.
  - apply at_working_inv; [done|]. apply ledger_ok_with_row, Hs.
  - apply at_working_inv; [done|]. bool_props. destruct Hs as [[_ [Hb Hu]] _].
    split; [by apply books_ok_credit|]. by apply entries_unique_credit.
Qed.

(** ... and of an engagement's first entry for its reason. *)
Lemma apply_delta_engagement_inv u delta reason g s :
  find_engagement_entry g reason (st_working s) = None ->
  db_inv ledger_ok s ->
  db_inv ledger_ok (snd (apply_delta u delta reason None (Some g) None None s)).
Proof.
  intros Hf Hs. rewrite apply_delta_run. destruct (_ <? 0) eqn:E.
  - apply at_working_inv; [done|]. apply ledger_ok_with_row, Hs.
  - apply at_working_inv; [done|]. bool_props. destruct Hs as [[_ [Hb Hu]] _].
    split; [by apply books_ok_credit|]. apply entries_unique_credit; [|done].
    by intros ? [= <-].
Qed.

Lemma ledger_ok_windows d d' : windows_only d d' -> ledger_ok d -> ledger_ok d'.
Proof. intros [w ->]. by apply ledger_ok_ext. Qed.

Lemma keeps_enforce_spend u amount period cap :
  Keeps (db_inv (W := W) ledger_ok) (enforce_and_record_spend u amount period cap).
Proof.
  intros s [[Hc Hw] Hr]. destruct (enforce_spend_frame u amount period cap s)
    as (Hwin & Hcom & Hrac & _).
  split; [split|].
  - by rewrite Hcom.
  - by eapply ledger_ok_windows.
  - unfold races_keep. by rewrite Hrac.
Qed.

Lemma keeps_modify_other g :
  (forall d, t_balance (g d) = t_balance d) -> (forall d, t_ledger (g d) = t_ledger d) ->
  Keeps (db_inv (W := W) ledger_ok) (db_modify g).
Proof. intros H1 H2. apply keeps_modify. intros d. by apply ledger_ok_ext. Qed.

(** The body of the three engagement operations once no entry was found. *)
Lemma spend_then_entry_inv u amount delta reason period cap g s :
  find_engagement_entry g reason (st_working s) = None ->
  db_inv ledger_ok s ->
  db_inv ledger_ok
    (snd ((enforce_and_record_spend u amount period cap ;;;
           apply_delta u delta reason None (Some g) None None) s)).
Proof.
  intros Hf Hs. pose proof (keeps_enforce_spend u amount period cap s Hs) as Hk.
  pose proof (enforce_spend_frame u amount period cap s) as ((w & Hw) & _).
  unfold bind. destruct (enforce_and_record_spend _ _ _ _ _) as [[[]|e] s1]; cbn in *;
    [|done].
  apply apply_delta_engagement_inv; [|done]. by rewrite Hw.
Qed.

Lemma find_entry_with_row g reason d u :
  find_engagement_entry g reason (with_row d u) = find_engagement_entry g reason d.
Proof. unfold find_engagement_entry, with_row. by case_match. Qed.

Lemma keeps_encumber_engagement u g amount period cap :
  Keeps (db_inv (W := W) ledger_ok) (encumber_customer_engagement u g amount period cap).
Proof.
  intros s Hs. pose proof (keeps_ensure_row u s Hs) as H1. unfold encumber_customer_engagement.
  rewrite (bind_step _ _ _ _ _ (ensure_balance_row_run u s)).
  rewrite ensure_balance_row_run in H1. rewrite bind_db_read. cbn in *.
  destruct (find_engagement_entry _ _ _) eqn:E; [by case_match|].
  by apply spend_then_entry_inv.
Qed.

Lemma keeps_increase_cap u g r amount period cap :
  Keeps (db_inv (W := W) ledger_ok)
    (increase_customer_engagement_cap u g r amount period cap).
Proof.
  unfold increase_customer_engagement_cap. case_match; [apply _|].
  intros s Hs. pose proof (keeps_ensure_row u s Hs) as H1.
  rewrite (bind_step _ _ _ _ _ (ensure_balance_row_run u s)).
  rewrite ensure_balance_row_run in H1. rewrite bind_db_read. cbn in *.
  destruct (find_engagement_entry _ _ _) eqn:E; [by case_match|].
  by apply spend_then_entry_inv.
Qed.

Lemma keeps_release_engagement u g amount :
  Keeps (db_inv (W := W) ledger_ok) (release_customer_engagement u g amount).
Proof.
  intros s Hs. pose proof (keeps_ensure_row u s Hs) as H1. unfold release_customer_engagement.
  rewrite (bind_step _ _ _ _ _ (ensure_balance_row_run u s)).
  rewrite ensure_balance_row_run in H1. rewrite bind_db_read. cbn in *.
  destruct (find_engagement_entry _ _ _) eqn:E; [by case_match|].
  by apply apply_delta_engagement_inv.
Qed.

#[local] Hint Resolve keeps_ensure_row keeps_apply_delta keeps_enforce_spend
  keeps_encumber_engagement keeps_increase_cap keeps_release_engagement : loc.

Lemma keeps_topup u amount kind opr :
  Keeps (db_inv (W := W) ledger_ok) (topup u amount kind opr).
Proof. unfold topup, new_uuid. keeps. by apply keeps_modify_other. Qed.

Lemma keeps_get_balance u : Keeps (db_inv (W := W) ledger_ok) (get_balance u).
Proof.
  intros s Hs. unfold get_balance. rewrite bind_db_read.
  destruct (t_balance (st_working s) !! u) eqn:E; [done|].
  rewrite bind_db_modify, bind_db_flush. cbn. destruct Hs as [[Hc Hw] Hr].
  split; [split; [done|]|done].
  pose proof (ledger_ok_with_row _ u Hw) as H1. unfold with_row in H1. by rewrite E in H1.
Qed.

Lemma keeps_resolve u cfg : Keeps (db_inv (W := W) ledger_ok) (resolve_billing_config u cfg).
Proof. unfold resolve_billing_config, get_billing_config. keeps. Qed.

#[local] Hint Resolve keeps_topup keeps_get_balance keeps_resolve : loc.

(** Every billing operation, returning or raising. *)
Lemma keeps_billing_op op : Keeps (db_inv (W := W) ledger_ok) (run_billing_op op).
Proof.
  destruct op; cbn [run_billing_op];
    unfold grant_initial_credit, charge_payment, refund_payment, encumber_for_session,
      release_session_encumbrance, upsert_billing_config, get_billing_config,
      run_auto_replenish, auto_replenish_user, new_uuid; keeps;
    by apply keeps_modify_other.
Qed.

End invariant.

#[export] Hint Resolve keeps_ensure_row keeps_apply_delta keeps_enforce_spend
  keeps_encumber_engagement keeps_increase_cap keeps_release_engagement keeps_topup
  keeps_get_balance keeps_resolve keeps_billing_op : loc.

(** ** Spend windows *)

(** No window has recorded more than the cap it was opened with. *)
Definition windows_ok (d : DB) : Prop :=
  forall k row, t_window d !! k = Some row -> sw_spent_wei row <= sw_cap_wei row.

Section windows.
Context {W : Type} {R : Runtime}.
Implicit Types (s : St DB W).

Lemma windows_ok_ext d d' : t_window d' = t_window d -> windows_ok d -> windows_ok d'.
Proof. unfold windows_ok. by intros ->. Qed.

Lemma windows_ok_insert d k row :
  sw_spent_wei row <= sw_cap_wei row -> windows_ok d ->
  windows_ok (on_window (<[k := row]>) d).
Proof.
  intros Hr Hd k' row'. cbn. rewrite lookup_insert_Some. intros [[_ <-]|[_ Hl]]; [done|].
  by eapply Hd.
Qed.

Lemma windows_keep_modify g :
  (forall d, t_window (g d) = t_window d) ->
  Keeps (db_inv (W := W) windows_ok) (db_modify g).
Proof. intros Hg. apply keeps_modify. intros d. by apply windows_ok_ext. Qed.

Lemma windows_keep_enforce u amount period cap :
  Keeps (db_inv (W := W) windows_ok) (enforce_and_record_spend u amount period cap).
Proof.
  intros s [[Hc Hw] Hr]. rewrite enforce_spend_run.
  destruct (cap <=? 0) eqn:Ec; [by split|].
  destruct (window_bounds_for _ _) as [[start fin]|e]; [|by split]. cbn zeta.
  destruct (_ <? _) eqn:E; bool_props; (split; [split; [done|]|done]); cbn.
  - unfold with_window. case_match; [done|]. apply windows_ok_insert; [cbn; lia|done].
  - apply windows_ok_insert; [cbn; lia|done].
Qed.

Lemma windows_keep_row u : Keeps (db_inv (W := W) windows_ok) (ensure_balance_row u).
Proof. unfold ensure_balance_row. keeps. by apply windows_keep_modify. Qed.

#[local] Hint Resolve windows_keep_enforce windows_keep_row : loc.

Lemma windows_keep_delta u delta reason pay eng top opr :
  Keeps (db_inv (W := W) windows_ok) (apply_delta u delta reason pay eng top opr).
Proof. unfold apply_delta. keeps. by apply windows_keep_modify. Qed.

#[local] Hint Resolve windows_keep_delta : loc.

Lemma windows_keep_billing_op op : Keeps (db_inv (W := W) windows_ok) (run_billing_op op).
Proof.
  destruct op; cbn [run_billing_op];
    unfold run_auto_replenish, auto_replenish_user, grant_initial_credit, charge_payment,
      refund_payment, encumber_for_session, release_session_encumbrance,
      encumber_customer_engagement, increase_customer_engagement_cap,
      release_customer_engagement, get_balance, topup, resolve_billing_config,
      upsert_billing_config, get_billing_config, new_uuid; keeps;
    by apply windows_keep_modify.
Qed.

End windows.

(** ** Requests *)

(** Billing requests served one after the other, each in its own session. *)
Definition run_requests {W} {R : Runtime} (ops : list billing_op) (s : St DB W) : St DB W :=
  fold_left (fun s op => snd (session_scope (run_billing_op op) s)) ops s.

Lemma keeps_session_scope {W A} (P : DB -> Prop) (m : M DB W A) :
  Keeps (db_inv P) m -> Keeps (db_inv P) (session_scope m).
Proof.
  intros Hm. unfold session_scope. apply keeps_try.
  - keeps.
  - intros e k [= <-]. keeps.
Qed.

Lemma run_requests_inv {W} {R : Runtime} (P : DB -> Prop) ops (s : St DB W) :
  (forall op, Keeps (W := W) (db_inv P) (run_billing_op op)) ->
  db_inv P s -> db_inv P (run_requests ops s).
Proof.
  intros Hop. revert s. induction ops as [|op ops IH]; intros s Hs; cbn; [done|].
  apply IH. by apply keeps_session_scope.
Qed.
