(* ===== verification/BillingProps.v ===== *)
(** * Billing: the properties of the component

    Balances and windows stay consistent across requests, engagement entries
    are idempotent, spends stay under their cap, and the auto-replenish sweep
    always completes with an exact per-user effect. *)

From S2P Require Import Prelude PyData DecimalCtx Errors Effects Store Settings Billing.
From S2P Require Import BillingFacts.

Open Scope string_scope.
Open Scope Z_scope.
Open Scope loc_scope.

(** ** What each operation does *)

Section effects.
Context {W : Type} {R : Runtime}.
Implicit Types (s : St DB W) (d : DB) (u : uuid).

Definition same_books d d' : Prop :=
  (forall v, balance_of d' v = balance_of d v) /\ t_ledger d' = t_ledger d.

Lemma same_books_windows d d' : windows_only d d' -> same_books d d'.
Proof. intros [w ->]. by split. Qed.

Lemma same_books_with_row d d' u : same_books d d' -> same_books d (with_row d' u).
Proof.
  intros [H1 H2]. split; [intros v; by rewrite balance_of_with_row|].
  unfold with_row. by case_match.
Qed.

(** One user's balance moved by [delta], with one ledger entry. *)
Definition moved d d' (e : CreditLedger) : Prop :=
  (forall v, balance_of d' v =
     if decide (v = cl_user_id e) then dadd (balance_of d v) (cl_delta_wei e)
     else balance_of d v) /\
  t_ledger d' = (t_ledger d ++ [e])%list.

Lemma moved_credit d0 d e :
  same_books d0 d -> moved d0 (credit d e) e.
Proof.
  intros [H1 H2]. split.
  - intros v. rewrite balance_of_credit. by rewrite H1.
  - unfold credit. cbn. by rewrite H2.
Qed.

(** The spend check and the balance move, in one statement. *)
Lemma spend_then_delta_effect u amount delta reason pay g period cap s :
  let e := MkCreditLedger u delta reason pay g None None in
  match (enforce_and_record_spend u amount period cap ;;;
         apply_delta u delta reason pay g None None) s with
  | (Ok b, s') =>
      moved (st_working s) (st_working s') e /\
      cb_amount_wei b = balance_of (st_working s') u /\
      0 <= balance_of (st_working s') u /\
      b = balance_row (st_working s') u
  | (Err x, s') => same_books (st_working s) (st_working s')
  end.
Proof.
  intros e. pose proof (enforce_spend_frame u amount period cap s) as (Hw & _).
  unfold bind. destruct (enforce_and_record_spend _ _ _ _ _) as [[[]|x] s1]; cbn in Hw;
    [|by apply same_books_windows].
  pose proof (same_books_windows _ _ Hw) as Hs. rewrite apply_delta_run.
  destruct (dadd _ _ <? 0) eqn:E; bool_props; cbn.
  - by apply same_books_with_row.
  - pose proof (balance_of_credit (st_working s1) e u) as Hb. cbn in Hb.
    rewrite decide_True in Hb by done.
    split; [by apply moved_credit|]. subst e. rewrite Hb. split; [done|]. split; [done|].
    unfold balance_row, credit. cbn. by rewrite lookup_insert_eq.
Qed.

Lemma find_entry_credit d e g :
  cl_related_engagement_id e = Some g ->
  find_engagement_entry g (cl_reason e) d = None ->
  find_engagement_entry g (cl_reason e) (credit d e) = Some e.
Proof.
  intros Hg Hn. unfold find_engagement_entry, credit in *. cbn.
  rewrite find_app, Hn. cbn. unfold ledger_match.
  by rewrite Hg, bool_decide_true, String.eqb_refl.
Qed.

(** The common shape of the engagement operations. *)
Definition entry_guarded u g reason delta msg (k : M DB W CreditBalance)
  : M DB W CreditBalance :=
  balance <- ensure_balance_row u ;;
  d <- db_read ;;
  match find_engagement_entry g reason d with
  | Some existing =>
      if negb (cl_delta_wei existing =? delta) then raise (ValueError msg) else ret balance
  | None => k
  end.

Lemma entry_guarded_found u g reason delta msg k s e :
  find_engagement_entry g reason (st_working s) = Some e ->
  entry_guarded u g reason delta msg k s =
  ((if cl_delta_wei e =? delta then Ok (balance_row (st_working s) u)
    else Err (ValueError msg)),
   at_working s (with_row (st_working s) u) false).
Proof.
  intros He. unfold entry_guarded.
  rewrite (bind_step _ _ _ _ _ (ensure_balance_row_run u s)), bind_db_read. cbn.
  rewrite find_entry_with_row, He. by destruct (_ =? _).
Qed.

(** The state an engagement operation leaves when it returns [b]. *)
Definition recorded u g reason delta (b : CreditBalance) s : Prop :=
  exists e, find_engagement_entry g reason (st_working s) = Some e /\
    cl_delta_wei e = delta /\ t_balance (st_working s) !! u = Some b.

Lemma entry_guarded_recorded u g reason delta msg k s b s1 :
  (forall s b s1, find_engagement_entry g reason (st_working s) = None ->
     k s = (Ok b, s1) -> recorded u g reason delta b s1) ->
  entry_guarded u g reason delta msg k s = (Ok b, s1) ->
  recorded u g reason delta b s1.
Proof.
  intros Hk. unfold entry_guarded.
  rewrite (bind_step _ _ _ _ _ (ensure_balance_row_run u s)), bind_db_read. cbn.
  destruct (find_engagement_entry _ _ _) as [e|] eqn:E; [|by apply Hk].
  destruct (cl_delta_wei e =? delta) eqn:Ed; cbn; intros [= <- <-]. bool_props.
  exists e. split; [done|]. split; [done|]. cbn. unfold balance_row, with_row.
  destruct (t_balance (st_working s) !! u) eqn:Eb; [done|]. cbn. by rewrite lookup_insert_eq.
Qed.

Lemma apply_delta_recorded u delta reason g s b s1 :
  find_engagement_entry g reason (st_working s) = None ->
  apply_delta u delta reason None (Some g) None None s = (Ok b, s1) ->
  recorded u g reason delta b s1.
Proof.
  intros Hn. rewrite apply_delta_run. case_match; intros [= <- <-].
  eexists. split; [by apply (find_entry_credit _ (MkCreditLedger u delta reason None (Some g) None None))|]. split; [done|].
  unfold credit. cbn. by rewrite lookup_insert_eq.
Qed.

Lemma spend_delta_recorded u amount delta reason g period cap s b s1 :
  find_engagement_entry g reason (st_working s) = None ->
  (enforce_and_record_spend u amount period cap ;;;
   apply_delta u delta reason None (Some g) None None) s = (Ok b, s1) ->
  recorded u g reason delta b s1.
Proof.
  intros Hn. pose proof (enforce_spend_frame u amount period cap s) as ((w & Hw) & _).
  unfold bind. destruct (enforce_and_record_spend _ _ _ _ _) as [[[]|x] s2]; [|done].
  cbn in Hw. apply apply_delta_recorded. by rewrite Hw.
Qed.

(** Repeating the operation on the state it left. *)
Definition replays (op : Z -> M DB W CreditBalance) (valid : Z -> bool) (delta_of : Z -> Z)
    msg a : Prop :=
  forall s, match op a s with
  | (Ok b, s1) =>
      op a s1 = (Ok b, at_working s1 (st_working s1) false) /\
      forall a', valid a' = true -> delta_of a' <> delta_of a ->
        op a' s1 = (Err (ValueError msg), at_working s1 (st_working s1) false)
  | (Err _, _) => True
  end.

Lemma entry_guarded_replays u g reason msg (valid : Z -> bool) (delta_of : Z -> Z)
    (k : Z -> M DB W CreditBalance) (op : Z -> M DB W CreditBalance) a :
  (forall a s, valid a = true ->
     op a s = entry_guarded u g reason (delta_of a) msg (k a) s) ->
  (forall a s, valid a = false -> exists e, op a s = (Err e, s)) ->
  (forall s b s1, find_engagement_entry g reason (st_working s) = None ->
     k a s = (Ok b, s1) -> recorded u g reason (delta_of a) b s1) ->
  replays op valid delta_of msg a.
Proof.
  intros Hop Hbad Hk s. destruct (op a s) as [[b|x] s1] eqn:E; [|done].
  destruct (valid a) eqn:Ev; [|by destruct (Hbad a s Ev) as [e He]; rewrite He in E].
  rewrite Hop in E by done. apply entry_guarded_recorded in E as (e & He & Hd & Hb); [|done].
  assert (Hw : with_row (st_working s1) u = st_working s1) by (unfold with_row; by rewrite Hb).
  assert (Hr : balance_row (st_working s1) u = b) by (unfold balance_row; by rewrite Hb).
  split; [|intros a' Hva Hne]; rewrite Hop by done; rewrite (entry_guarded_found _ _ _ _ _ _ _ _ He), Hw, Hr.
  - by rewrite Hd, Z.eqb_refl.
  - rewrite Hd. by rewrite (proj2 (Z.eqb_neq _ _)) by congruence.
Qed.

End effects.

(** ** The auto-replenish sweep *)

Section replenish.
Context {W : Type} {R : Runtime}.
Implicit Types (s : St DB W) (d : DB) (u : uuid).

(** The configuration [resolve_billing_config] returns. *)
Definition resolved_config (d : DB) (cfg : Settings) (u : uuid) : ResolvedBillingConfig :=
  match t_billing d !! u with
  | None => MkRBC (cfg_default_spend_period_seconds cfg) (cfg_default_spend_period_cap_wei cfg)
              (cfg_auto_replenish_increment_wei cfg) 0
  | Some row => MkRBC
      (or_else (ub_spend_period_seconds row) (cfg_default_spend_period_seconds cfg))
      (or_else (ub_spend_period_cap_wei row) (cfg_default_spend_period_cap_wei cfg))
      (or_else (ub_auto_replenish_increment_wei row) (cfg_auto_replenish_increment_wei cfg))
      (or_else (ub_auto_replenish_threshold_wei row) 0)
  end.

Lemma resolve_billing_config_run u cfg s :
  resolve_billing_config u cfg s =
  (Ok (resolved_config (st_working s) cfg u), at_working s (st_working s) false).
Proof.
  unfold resolve_billing_config, get_billing_config, resolved_config.
  rewrite bind_assoc, bind_db_read, bind_ret. by case_match.
Qed.

(** Whether the sweep tops a user up. *)
Definition below_threshold (d : DB) (cfg : Settings) (u : uuid) : bool :=
  (0 <? rbc_auto_replenish_increment_wei (resolved_config d cfg u))
  && (0 <? rbc_auto_replenish_threshold_wei (resolved_config d cfg u))
  && (balance_of d u <? rbc_auto_replenish_threshold_wei (resolved_config d cfg u)).

Definition replenished (d : DB) (cfg : Settings) (u : uuid) : Z :=
  if below_threshold d cfg u
  then dadd (balance_of d u) (rbc_auto_replenish_increment_wei (resolved_config d cfg u))
  else balance_of d u.

(** One step of the sweep: it returns, it touches that user only, and the
    configuration is left alone. *)
Lemma auto_replenish_user_run cfg n u s :
  0 <= balance_of (st_working s) u ->
  exists s1,
    auto_replenish_user cfg n u s =
      (Ok (n + (if below_threshold (st_working s) cfg u then 1 else 0)), s1) /\
    t_billing (st_working s1) = t_billing (st_working s) /\
    forall v, balance_of (st_working s1) v =
      if decide (v = u) then replenished (st_working s) cfg u
      else balance_of (st_working s) v.
Proof.
  intros Hb. unfold auto_replenish_user.
  rewrite (bind_step _ _ _ _ _ (resolve_billing_config_run u cfg s)).
  unfold replenished, below_threshold.
  set (c := resolved_config (st_working s) cfg u). cbn.
  destruct (rbc_auto_replenish_increment_wei c <=? 0) eqn:Ei.
  { rewrite (proj2 (Z.ltb_ge _ _)) by (bool_props; lia). cbn. eexists. rewrite Z.add_0_r.
    split; [done|]. split; [done|]. intros v. cbn. case_decide; by subst. }
  destruct (rbc_auto_replenish_threshold_wei c <=? 0) eqn:Et.
  { rewrite (proj2 (Z.ltb_ge 0 (rbc_auto_replenish_threshold_wei c))) by (bool_props; lia).
    rewrite andb_false_r. cbn. eexists. rewrite Z.add_0_r.
    split; [done|]. split; [done|]. intros v. cbn. case_decide; by subst. }
  rewrite (bind_step _ _ _ _ _ (ensure_balance_row_run u _)). cbn.
  rewrite (proj2 (Z.ltb_lt 0 (rbc_auto_replenish_increment_wei c))) by (bool_props; lia).
  rewrite (proj2 (Z.ltb_lt 0 (rbc_auto_replenish_threshold_wei c))) by (bool_props; lia). cbn.
  fold (balance_of (st_working s) u). rewrite Z.ltb_antisym.
  destruct (rbc_auto_replenish_threshold_wei c <=? balance_of (st_working s) u) eqn:Eb; cbn.
  { rewrite Z.add_0_r. eexists. split; [done|]. split; [by unfold with_row; case_match|].
    intros v. cbn. rewrite balance_of_with_row. case_decide; by subst. }
  unfold topup, new_uuid. rewrite bind_assoc, bind_tick, bind_assoc, bind_db_modify,
    bind_assoc, bind_db_flush, bind_assoc. cbn.
  match goal with |- context [bind (apply_delta ?u ?dl ?r ?p ?e ?t ?o) _ ?s1] =>
    pose proof (apply_delta_run u dl r p e t o s1) as Hr; cbn in Hr end.
  set (d1 := on_topup _ (with_row (st_working s) u)) in *.
  assert (Hd1 : forall v, balance_of d1 v = balance_of (st_working s) v).
  { intros v. rewrite <- (balance_of_with_row (st_working s) u v). done. }
  rewrite Hd1 in Hr. rewrite (proj2 (Z.ltb_ge _ 0)) in Hr
    by (apply dadd_nonneg; [done|bool_props; lia]).
  rewrite (bind_step _ _ _ _ _ Hr), bind_ret. eexists. split; [done|]. cbn. split.
  { unfold with_row. by case_match. }
  intros v. rewrite balance_of_credit. cbn. rewrite Hd1. by case_decide; subst.
Qed.

Lemma resolved_config_ext d d' cfg u :
  t_billing d' = t_billing d -> resolved_config d' cfg u = resolved_config d cfg u.
Proof. unfold resolved_config. by intros ->. Qed.

Lemma below_threshold_ext d d' cfg u :
  t_billing d' = t_billing d -> balance_of d' u = balance_of d u ->
  below_threshold d' cfg u = below_threshold d cfg u /\
  replenished d' cfg u = replenished d cfg u.
Proof.
  intros H1 H2. unfold replenished, below_threshold.
  by rewrite (resolved_config_ext d d') , H2 by done.
Qed.

Lemma auto_replenish_fold cfg us n s :
  NoDup us -> (forall v, 0 <= balance_of (st_working s) v) ->
  exists s1,
    mfold (auto_replenish_user cfg) n us s =
      (Ok (n + Z.of_nat (length (filter (fun u => below_threshold (st_working s) cfg u = true) us))),
       s1) /\
    forall v, balance_of (st_working s1) v =
      if decide (v ∈ us) then replenished (st_working s) cfg v
      else balance_of (st_working s) v.
Proof.
  intros Hnd. revert n s. induction Hnd as [|u us Hu Hnd IH]; intros n s Hb.
  { exists s. cbn. rewrite Z.add_0_r. split; [done|]. intros v. by rewrite decide_False by set_solver. }
  destruct (auto_replenish_user_run cfg n u s (Hb u)) as (s1 & Hr & Hbill & Hbal).
  cbn [mfold]. rewrite (bind_step _ _ _ _ _ Hr).
  destruct (IH (n + (if below_threshold (st_working s) cfg u then 1 else 0)) s1)
    as (s2 & Hr2 & Hbal2).
  { intros v. rewrite Hbal. case_decide; [subst v|done]. unfold replenished.
    destruct (below_threshold _ _ _) eqn:E; [|done]. unfold below_threshold in E.
    bool_props. apply dadd_nonneg; [done|lia]. }
  assert (Hext : forall v, v ∈ us ->
    below_threshold (st_working s1) cfg v = below_threshold (st_working s) cfg v /\
    replenished (st_working s1) cfg v = replenished (st_working s) cfg v).
  { intros v Hv. apply below_threshold_ext; [done|]. rewrite Hbal, decide_False; [done|].
    by intros ->. }
  exists s2. split.
  - rewrite Hr2. f_equal. f_equal. rewrite filter_cons.
    rewrite (filter_ext_in _ (fun u => below_threshold (st_working s) cfg u = true) us).
    + destruct (below_threshold (st_working s) cfg u) eqn:E.
      * rewrite decide_True by done. cbn. lia.
      * rewrite decide_False by done. lia.
    + intros v Hv. by rewrite (proj1 (Hext v Hv)).
  - intros v. rewrite Hbal2. destruct (decide (v ∈ us)) as [Hv|Hv].
    + rewrite (proj2 (Hext v Hv)). by rewrite decide_True by set_solver.
    + rewrite Hbal. destruct (decide (v = u)) as [->|Hne].
      * by rewrite decide_True by set_solver.
      * by rewrite decide_False by set_solver.
Qed.

End replenish.

(** ** Properties *)

(** C6: The ledger is the source of truth: whatever billing requests are
    served, in whatever order and with whatever outcome, every committed
    balance equals the running sum of that user's ledger entries, no balance is
    negative, and no engagement has two entries with the same reason. *)
Theorem billing_books_balance {W} {R : Runtime} (ops : list billing_op) (s : St DB W) :
  db_inv ledger_ok s -> db_inv ledger_ok (run_requests ops s).
Proof. apply run_requests_inv. intros op. apply keeps_billing_op. Qed.

Definition demo_state : St DB unit := MkSt db_empty db_empty false [] 0%nat tt.

Lemma billing_books_balance_witness :
  db_inv ledger_ok
    (run_requests (R := demo_runtime)
       [OpTopup 7%N 100 "manual" None; OpEncumberEngagement 7%N 9%N 60 3600 80;
        OpEncumberEngagement 7%N 10%N 60 3600 80; OpReleaseEngagement 7%N 9%N 25] demo_state).
Proof.
  apply (billing_books_balance (R := demo_runtime)). split.
  - split; apply ledger_ok_empty.
  - intros f Hf. inversion Hf.
Defined.

(** The same requests evaluated: the second encumbrance is over the window cap. *)
Example billing_books_demo :
  balance_of (st_committed (run_requests (R := demo_runtime)
    [OpTopup 7%N 100 "manual" None; OpEncumberEngagement 7%N 9%N 60 3600 80;
     OpEncumberEngagement 7%N 10%N 60 3600 80; OpReleaseEngagement 7%N 9%N 25] demo_state)) 7%N = 65.
Proof. vm_compute. reflexivity. Qed.



(** Encumbering an engagement, raising its cap at a revision and releasing
    it are idempotent: repeating the call returns the balance the first one
    left and changes nothing; repeating it with another amount is refused and
    changes nothing. *)
Theorem engagement_operations_replay {W} {R : Runtime} (u g : uuid) (r period cap a : Z) :
  replays (W := W) (fun a => encumber_customer_engagement u g a period cap)
    (fun _ => true) dneg "engagement encumbrance replay changed amount" a /\
  replays (W := W) (fun a => increase_customer_engagement_cap u g r a period cap)
    (fun a => (0 <? r) && (0 <? a)) dneg
    "engagement cap revision replay changed amount" a /\
  replays (W := W) (fun a => release_customer_engagement u g a)
    (fun _ => true) (fun a => a) "engagement release replay changed amount" a.
Proof.
  split; [|split].
  - eapply (entry_guarded_replays u g "engagement_encumbrance"); [done|done|].
    intros s b s1. apply spend_delta_recorded.
  - eapply (entry_guarded_replays u g (cap_revision_reason r)).
    + intros a' s Hv. unfold increase_customer_engagement_cap.
      rewrite !Z.leb_antisym. bool_props.
      rewrite (proj2 (Z.ltb_lt 0 r)), (proj2 (Z.ltb_lt 0 a')) by done. done.
    + intros a' s Hv. unfold increase_customer_engagement_cap. rewrite !Z.leb_antisym.
      apply andb_false_iff in Hv as [-> | ->]; cbn; rewrite ?orb_true_r; by eexists.
    + intros s b s1. apply spend_delta_recorded.
  - eapply (entry_guarded_replays u g "engagement_release"); [done|done|].
    intros s b s1. apply apply_delta_recorded.
Qed.

(** Charging a payment either moves the user's balance by the negated
    amount with exactly one [payment_charge] ledger entry and returns the
    resulting non-negative balance, or raises and leaves every balance and the
    ledger as they were. *)
Theorem charge_payment_effect {W} {R : Runtime} (u pay : uuid) (amount period cap : Z)
    (s : St DB W) :
  match charge_payment u amount pay period cap s with
  | (Ok b, s') =>
      moved (st_working s) (st_working s')
        (MkCreditLedger u (dneg amount) "payment_charge" (Some pay) None None None) /\
      cb_amount_wei b = balance_of (st_working s') u /\ 0 <= cb_amount_wei b
  | (Err _, s') => same_books (st_working s) (st_working s')
  end.
Proof.
  pose proof (spend_then_delta_effect u amount (dneg amount) "payment_charge" (Some pay) None
    period cap s) as H. cbn zeta in H. unfold charge_payment.
  destruct (bind _ _ s) as [[b|e] s']; [|done]. destruct H as (H1 & H2 & H3 & _).
  rewrite H2. done.
Qed.

(** [enforce_and_record_spend] with a positive cap: it succeeds exactly
    when the clock gives a window and the recorded spend plus the amount fits
    the cap the window was opened with, and then the window holds the sum; a
    refusal reports that cap and the would-be total. *)
Theorem enforce_spend_correct {W} {R : Runtime} (u : uuid) (amount period cap : Z)
    (s : St DB W) :
  match enforce_and_record_spend u amount period cap s with
  | (Ok _, s') => cap <= 0 \/
      exists start fin,
        let row := window_row (st_working s) u start fin cap in
        window_bounds_for (rt_now (st_ticks s)) period = Ok (start, fin) /\
        dadd (sw_spent_wei row) amount <= sw_cap_wei row /\
        t_window (st_working s') !! (u, dt_us start) =
          Some (set_sw_spent_wei (dadd (sw_spent_wei row) amount) row)
  | (Err e, _) => 0 < cap /\
      (window_bounds_for (rt_now (st_ticks s)) period = Err e \/
       exists start fin,
         let row := window_row (st_working s) u start fin cap in
         window_bounds_for (rt_now (st_ticks s)) period = Ok (start, fin) /\
         sw_cap_wei row < dadd (sw_spent_wei row) amount /\
         e = OC (SpendCapExceeded (sw_cap_wei row) (dadd (sw_spent_wei row) amount)))
  end.
Proof.
  rewrite enforce_spend_run. destruct (cap <=? 0) eqn:Ec; bool_props; [by left|].
  destruct (window_bounds_for _ _) as [[start fin]|e] eqn:Ew; [|split; [lia|by left]].
  cbn zeta. destruct (_ <? _) eqn:E; bool_props.
  - split; [lia|]. right. by exists start, fin.
  - right. exists start, fin. split; [done|]. split; [done|]. cbn. by rewrite lookup_insert_eq.
Qed.

(** The spend window of an instant is aligned to the period, contains the
    instant (from the epoch on), and is one period long; a naive clock and a zero period are
    refused. *)
Theorem window_bounds_sound (now : datetime) (period : Z) :
  match window_bounds_for now period with
  | Ok (start, fin) =>
      dt_aware now = true /\ period <> 0 /\ dt_us start mod (1000000 * period) = 0 /\
      dt_us fin = dt_us start + 1000000 * period /\
      (0 < period -> 0 <= dt_us now -> dt_us start <= dt_us now < dt_us fin)
  | Err e =>
      (e = ValueError "clock.now() must be tz-aware" /\ dt_aware now = false) \/
      (e = ZeroDivision /\ period = 0)
  end.
Proof.
  unfold window_bounds_for, require. destruct now as [us aw]. destruct aw; cbn; [|by left].
  destruct (period =? 0) eqn:Ep; cbn; bool_props; [by right|].
  unfold dt_epoch. cbn. set (t := us ÷ 1000000).
  split; [done|]. split; [done|]. split; [|split; [done|]].
  { replace (1000000 * (t / period * period)) with ((t / period) * (1000000 * period)) by ring.
    apply Z_mod_mult. }
  intros Hp Hus. unfold t. rewrite Z.quot_div_nonneg by lia. clear t.
  set (t := us / 1000000). pose proof (Z.div_mod us 1000000 ltac:(lia)). pose proof (Z.mod_pos_bound us 1000000 ltac:(lia)).
  pose proof (Z.div_mod t period ltac:(lia)). pose proof (Z.mod_pos_bound t period ltac:(lia)).
  subst t. nia.
Qed.

(** C28: The auto-replenish sweep completes on consistent books: it reports the
    number of account holders below their threshold, adds the configured
    increment to exactly those balances, and leaves every other balance alone. *)
Theorem run_auto_replenish_correct {W} {R : Runtime} (cfg : Settings) (s : St DB W) :
  books_ok (st_working s) ->
  let d := st_working s in
  let us := map fst (map_to_list (t_balance d)) in
  exists s1,
    run_auto_replenish cfg s =
      (Ok (Z.of_nat (length (filter (fun u => below_threshold d cfg u = true) us))), s1) /\
    forall u, balance_of (st_working s1) u =
      if decide (is_Some (t_balance d !! u) /\ below_threshold d cfg u = true)
      then dadd (balance_of d u) (rbc_auto_replenish_increment_wei (resolved_config d cfg u))
      else balance_of d u.
Proof.
  intros Hb d us. unfold run_auto_replenish. rewrite bind_db_read.
  match goal with |- context [mfold _ _ _ ?s0] =>
    destruct (auto_replenish_fold cfg us 0 s0) as (s1 & Hr & Hbal) end.
  { apply NoDup_fst_map_to_list. }
  { intros v. apply Hb. }
  cbn [st_working] in *. exists s1. split; [exact Hr|]. intros u. rewrite Hbal. fold d.
  assert (Hin : u ∈ us <-> is_Some (t_balance d !! u)).
  { unfold us. rewrite list_elem_of_fmap. split.
    - intros ([k b] & -> & Hk). apply elem_of_map_to_list in Hk. by exists b.
    - intros [b Hk]. exists (u, b). split; [done|]. by apply elem_of_map_to_list. }
  unfold replenished. fold d.
  destruct (decide (u ∈ us)) as [Hi|Hi]; rewrite Hin in Hi;
    destruct (below_threshold d cfg u) eqn:E; case_decide; try done; naive_solver.
Qed.

Definition demo_replenish_state : St DB unit :=
  let d := on_billing (fun _ => {[ 7%N := MkUserBillingConfig None None (Some 50) (Some 30)
                                           None None ]})
             (credit db_empty (MkCreditLedger 7%N 20 "topup" None None None None)) in
  MkSt d d false [] 0%nat tt.

Lemma run_auto_replenish_correct_witness (cfg := default_settings) :
  let d := st_working demo_replenish_state in
  exists s1,
    run_auto_replenish (R := demo_runtime) cfg demo_replenish_state =
      (Ok (Z.of_nat (length (filter (fun u => below_threshold d cfg u = true)
                               (map fst (map_to_list (t_balance d)))))), s1) /\
    forall u, balance_of (st_working s1) u =
      if decide (is_Some (t_balance d !! u) /\ below_threshold d cfg u = true)
      then dadd (balance_of d u) (rbc_auto_replenish_increment_wei (resolved_config d cfg u))
      else balance_of d u.
Proof.
  apply (run_auto_replenish_correct (R := demo_runtime) cfg demo_replenish_state).
  intros v. cbn [demo_replenish_state st_working].
  pose proof (books_ok_credit db_empty (MkCreditLedger 7%N 20 "topup" None None None None)) as H.
  destruct (H ltac:(vm_compute; discriminate) (proj1 ledger_ok_empty) v) as [H1 H2].
  split; [exact H1|exact H2].
Defined.
