(* ===== verification/SettlementVerification.v ===== *)
(** * Verification of broker-signed settlements

    [providers/settlement_verification.py]: the signed envelope, the delegated
    keys, and the job, non-admission and session checks.  Canonicalisation,
    hashing, key recovery and protobuf parsing are third-party code and enter
    as the [SettlementLib] interface. *)

From S2P Require Import Prelude PyData Errors Effects.
From Stdlib Require Import Strings.Byte Strings.Ascii.

Open Scope string_scope.
Open Scope Z_scope.
Open Scope loc_scope.

(** ** Messages *)

(** [QuoteRef]. *)
Record QuoteRef := MkQuoteRef {
  qr_quote_id : string;
  qr_quote_version : Z;
  qr_constraint_fingerprint : bytes;
  qr_route_fingerprint : bytes;
}.

(** The fields of [SettlementRecord] the verification reads; a [BigUInt] is its
    big-endian bytes, the enum its number, the breakdown its entries. *)
Record SettlementRecord := MkSettlementRecord {
  sr_wholesale_account_id : string;
  sr_accepted_quote_ref : QuoteRef;
  sr_work_unit_name : string;
  sr_actual_units : Z;
  sr_billed_units : Z;
  sr_funded_value_wei : bytes;
  sr_billed_value_wei : bytes;
  sr_outcome : Z;
  sr_breakdown : list (string * string);
  sr_session_id : string;
  sr_work_id : string;
  sr_predecessor_work_id : string;
  sr_rotation_generation : Z;
  sr_claimed_units : Z;
  sr_debited_units : Z;
  sr_generation_debited_units : Z;
  sr_generation_billed_value_wei : bytes;
  sr_amount_wei : bytes;
  sr_per_units : Z;
  sr_settlement_seq : Z;
  sr_state : string;
  sr_job_id : string;
  sr_payment_cumulative_units : Z;
  sr_gateway_session_id : string;
  sr_request_id : string;
  sr_authorization_id : string;
  sr_authorized_value_wei : bytes;
  sr_reserved_value_wei : bytes;
  sr_released_value_wei : bytes;
  sr_settlement_domain_id : string;
}.

(** [NonAdmissionRecord]. *)
Record NonAdmissionRecord := MkNonAdmissionRecord {
  na_wholesale_account_id : string;
  na_protocol : string;
  na_request_id : string;
  na_work_id : string;
  na_sender : bytes;
  na_recipient : bytes;
  na_accepted_quote_ref : QuoteRef;
  na_broker_eth_address : string;
  na_observed_at : string;
  na_coverage_started_at : string;
  na_outcome : Z;
  na_settlement_domain_id : string;
}.

(** [SettlementRecord.SettlementOutcome]. *)
Definition DEBIT_FAILED : Z := 6.
Definition NOT_ADMITTED : Z := 1.

(** [SettlementOutcome.Name]: unknown numbers have no name. *)
Definition outcome_name (n : Z) : res string :=
  match n with
  | 0 => Ok "SETTLEMENT_OUTCOME_UNSPECIFIED"
  | 1 => Ok "EXACT"
  | 2 => Ok "UNDERFUNDED"
  | 3 => Ok "OVERFUNDED"
  | 4 => Ok "STOPPED_AT_BUDGET"
  | 5 => Ok "TOPPED_UP"
  | 6 => Ok "DEBIT_FAILED"
  | _ => Err (ValueError "Enum SettlementOutcome has no name defined for value")
  end.

(** [rfc8785.dumps], [keccak], [Signature.recover_public_key_from_msg_hash] on
    a 65-byte signature, and [json_format.ParseDict]; [None] is the exception
    each raises. *)
Class SettlementLib := {
  sl_canonicalize : dict -> option bytes;
  sl_keccak : bytes -> bytes;
  sl_recover : bytes -> bytes -> option bytes;
  sl_parse_record : dict -> option SettlementRecord;
  sl_parse_non_admission : dict -> option NonAdmissionRecord;
}.

(** ** Expectations and results *)

Record JobSettlementExpectation := MkJobExpectation {
  je_wholesale_account_id : string;
  je_settlement_domain_id : string;
  je_request_id : string;
  je_job_id : string;
  je_work_id : string;
  je_work_unit : string;
  je_actual_units : Z;
  je_max_total_units : Z;
  je_funded_value_wei : Z;
  je_amount_wei : Z;
  je_per_units : Z;
  je_quote_id : string;
  je_quote_version : Z;
  je_constraint_fingerprint : bytes;
  je_route_fingerprint : bytes;
  je_authorization_id : option string;
  je_authorized_value_wei : option Z;
}.

Record VerifiedJobSettlement := MkVerifiedJob {
  vj_actual_units : Z;
  vj_billed_value_wei : Z;
  vj_outcome : string;
  vj_issued_at : datetime;
  vj_signing_public_key : string;
}.

Record NonAdmissionExpectation := MkNonAdmissionExpectation {
  ne_wholesale_account_id : string;
  ne_settlement_domain_id : string;
  ne_protocol : string;
  ne_request_id : string;
  ne_work_id : string;
  ne_sender : bytes;
  ne_recipient : bytes;
  ne_quote_id : string;
  ne_quote_version : Z;
  ne_constraint_fingerprint : bytes;
  ne_route_fingerprint : bytes;
  ne_broker_eth_address : string;
  ne_job_issued_at : datetime;
}.

Record VerifiedNonAdmission := MkVerifiedNonAdmission {
  vn_observed_at : datetime;
  vn_coverage_started_at : datetime;
  vn_signing_public_key : string;
}.

Record SessionSettlementExpectation := MkSessionExpectation {
  se_wholesale_account_id : string;
  se_settlement_domain_id : string;
  se_gateway_session_id : string;
  se_broker_session_id : option string;
  se_work_id : string;
  se_predecessor_work_id : string;
  se_rotation_generation : Z;
  se_work_unit : string;
  se_amount_wei : Z;
  se_per_units : Z;
  se_quote_id : string;
  se_quote_version : Z;
  se_constraint_fingerprint : bytes;
  se_route_fingerprint : bytes;
  se_funded_value_wei : Z;
  se_last_settlement_seq : Z;
  se_authorization_id : option string;
  se_authorized_value_wei : option Z;
  se_require_terminal : bool;
}.

Record VerifiedSessionSettlement := MkVerifiedSession {
  vs_broker_session_id : string;
  vs_work_id : string;
  vs_predecessor_work_id : string;
  vs_rotation_generation : Z;
  vs_settlement_seq : Z;
  vs_state : string;
  vs_claimed_units : Z;
  vs_debited_units : Z;
  vs_billed_value_wei : Z;
  vs_outcome : string;
  vs_issued_at : datetime;
  vs_signing_public_key : string;
  vs_termination_reason : option string;
  vs_output_state : option string;
  vs_output_state_since : option datetime;
  vs_last_failure_code : option string;
}.

(** ** Helpers *)

(** [if failed: raise SettlementVerificationError(code, ...)]. *)
Definition refuse (failed : bool) (code : string) : res unit :=
  require (negb failed) (SettlementVerificationErr code).

Definition str_neqb (a b : string) : bool := negb (String.eqb a b).
Definition json_is_str (j : option json) (s : string) : bool :=
  match j with Some (JStr t) => String.eqb t s | _ => false end.
Definition bytes_neqb (a b : bytes) : bool := negb (bool_decide (a = b)).

(** [_SAFE_CODE.fullmatch]. *)
Definition safe_code (s : string) : bool :=
  match s with
  | EmptyString => false
  | String a s' =>
      is_lower_alpha a && Nat.leb (String.length s') 63
      && str_forallb (fun c => is_lower_alpha c || is_digit c || Ascii.eqb c "_"%char) s'
  end.

(** [_bill]. *)
Definition bill (units amount_wei per_units : Z) : res Z :=
  let? _ := refuse ((units <? 0) || (amount_wei <? 0) || (per_units <=? 0))
              "invalid_pricing" in
  Ok ((units * amount_wei + per_units - 1) / per_units).

(** [_reject_failed_debit]. *)
Definition reject_failed_debit (r : SettlementRecord) : res unit :=
  refuse (sr_outcome r =? DEBIT_FAILED) "debit_failed".

(** [_verify_settlement_domain]. *)
Definition verify_settlement_domain (signed expected : string) : res unit :=
  refuse (negb (str_truthy expected) || str_neqb signed expected) "settlement_domain_mismatch".

Definition verify_wholesale_account (signed expected : string) : res unit :=
  refuse (negb (str_truthy expected) || str_neqb signed expected) "wholesale_account_mismatch".

Definition verify_quote (q : QuoteRef) (quote_id : string) (quote_version : Z)
    (constraint_fingerprint route_fingerprint : bytes) : res unit :=
  refuse (str_neqb (qr_quote_id q) quote_id
          || negb (qr_quote_version q =? quote_version)
          || bytes_neqb (qr_constraint_fingerprint q) constraint_fingerprint
          || bytes_neqb (qr_route_fingerprint q) route_fingerprint) "quote_mismatch".

(** [_verify_authorization_accounting]. *)
Definition verify_authorization_accounting (r : SettlementRecord)
    (authorization_id : option string) (authorized_value_wei : option Z)
    (billed_value_wei : Z) : res unit :=
  match authorization_id with
  | None => refuse (str_truthy (sr_authorization_id r)) "unexpected_authorization"
  | Some a =>
      let? _ := refuse (str_neqb (sr_authorization_id r) a || str_neqb (sr_work_id r) a)
                  "authorization_id_mismatch" in
      let? authorized := of_option authorized_value_wei
                  (SettlementVerificationErr "missing_authorization_ceiling") in
      let signed_authorized := from_bytes_big (sr_authorized_value_wei r) in
      let reserved := from_bytes_big (sr_reserved_value_wei r) in
      let released := from_bytes_big (sr_released_value_wei r) in
      let? _ := refuse (negb (signed_authorized =? authorized))
                  "authorization_ceiling_mismatch" in
      refuse ((signed_authorized <? billed_value_wei) || (signed_authorized <? reserved)
              || (signed_authorized <? released)
              || (signed_authorized <? billed_value_wei + released))
        "authorization_accounting_invalid"
  end.

Section verification.
Context {R : Runtime} {L : SettlementLib}.

(** ** The envelope *)

(** [_canonicalize]. *)
Definition canonicalize (payload : dict) : res bytes :=
  of_option (sl_canonicalize payload) (SettlementVerificationErr "invalid_canonical_payload").

Definition message_prefix (len : nat) : bytes :=
  String.list_byte_of_string
    (String (ascii_of_nat 25) "Ethereum Signed Message:"
     ++ String (ascii_of_nat 10) (str_Z (Z.of_nat len)))%string.

(** [_recover_public_key]. *)
Definition recover_public_key (canonical : bytes) (value : option json) : res string :=
  let? v := of_option (as_str value) (SettlementVerificationErr "malformed_signature") in
  let? _ := refuse (negb (str_startswith "0x" v)) "malformed_signature" in
  let? raw := of_option (bytes_fromhex (str_drop 2 v))
                (SettlementVerificationErr "malformed_signature") in
  let? _ := refuse (negb (Nat.eqb (length raw) 65)
                    || negb (existsb (Z.eqb (byte_val (nth 64 raw x00))) [27; 28]))
              "malformed_signature" in
  let raw' := (take 64 raw ++ [byte_of_Z (byte_val (nth 64 raw x00) - 27)])%list in
  let? recovered := of_option
      (sl_recover raw' (sl_keccak (message_prefix (length canonical) ++ canonical)%list))
      (SettlementVerificationErr "invalid_signature") in
  Ok ("0x04" ++ bytes_hex recovered)%string.

(** [_parse_timestamp]. *)
Definition parse_timestamp (value : option json) (field : string) : res datetime :=
  let? v := of_option (as_str value) (SettlementVerificationErr ("missing_" ++ field)) in
  let? _ := refuse (negb (str_truthy v)) ("missing_" ++ field) in
  let? parsed := of_option (rt_fromisoformat (str_replace_Z v))
                   (SettlementVerificationErr ("invalid_" ++ field)) in
  let? _ := refuse (negb (dt_aware parsed)) ("invalid_" ++ field) in
  Ok parsed.

(** [str(value)] of a JSON value. *)
Definition json_to_str (j : json) : string :=
  match j with
  | JStr s => s
  | JInt z => str_Z z
  | JBool true => "True"
  | JBool false => "False"
  | JNull => "None"
  | _ => rt_repr j
  end.

(** One timestamp of a pinned delegation. *)
Definition delegation_time (d : dict) (key : string) : res datetime :=
  remap (fun e => match e with KeyError => true | _ => is_value_error e end)
    (fun _ => SettlementVerificationErr "invalid_delegation")
    (let? v := of_option (dget key d) KeyError in
     of_option (rt_fromisoformat (str_replace_Z (json_to_str v))) (ValueError "isoformat")).

(** [_authorize_key]. *)
Fixpoint authorize_key (public_key : string) (issued_at : datetime) (keys : list dict)
  : res unit :=
  match keys with
  | [] => Err (SettlementVerificationErr "unauthorized_signing_key")
  | delegation :: keys' =>
      if negb (json_is_str (dget "public_key" delegation) public_key)
      then authorize_key public_key issued_at keys'
      else
        let? not_before := delegation_time delegation "not_before" in
        let? expires_at := delegation_time delegation "expires_at" in
        let? started := dt_leb not_before issued_at in
        if negb started then authorize_key public_key issued_at keys'
        else
          let? live := dt_leb issued_at expires_at in
          if live then Ok tt else authorize_key public_key issued_at keys'
  end.

(** The part of the envelope checks both record kinds share: the payload and
    the key that signed it. *)
Definition open_envelope (envelope : dict) : res (dict * string) :=
  let? payload := of_option (as_obj (dget "payload" envelope))
                    (SettlementVerificationErr "malformed_envelope") in
  let? signature := of_option (as_obj (dget "signature" envelope))
                      (SettlementVerificationErr "malformed_envelope") in
  let? _ := refuse (negb (json_is_str (dget "algorithm" signature) "secp256k1")
                    || negb (json_is_str (dget "canonicalization" signature) "jcs"))
              "unsupported_signature" in
  let? canonical := canonicalize payload in
  let? public_key := recover_public_key canonical (dget "value" signature) in
  Ok (payload, public_key).

(** [_parse_record] and [_parse_non_admission_record]. *)
Definition parse_record (payload : dict) : res SettlementRecord :=
  of_option (sl_parse_record payload) (SettlementVerificationErr "malformed_payload").
Definition parse_non_admission_record (payload : dict) : res NonAdmissionRecord :=
  of_option (sl_parse_non_admission payload) (SettlementVerificationErr "malformed_payload").

(** [_verify_envelope]. *)
Definition verify_envelope (envelope : dict) (settlement_keys : list dict)
  : res (SettlementRecord * datetime * string) :=
  let? (payload, public_key) := open_envelope envelope in
  let? issued_at := parse_timestamp (dget "issued_at" payload) "issued_at" in
  let? _ := authorize_key public_key issued_at settlement_keys in
  let? record := parse_record payload in
  Ok (record, issued_at, public_key).

(** ** Jobs *)

(** [_job_normative_bill]. *)
Definition job_normative_bill (r : SettlementRecord) (e : JobSettlementExpectation) : res Z :=
  let cumulative_units := sr_payment_cumulative_units r in
  match je_authorization_id e with
  | Some _ =>
      let? _ := refuse (negb (cumulative_units =? 0)) "payment_curve_invalid" in
      bill (sr_debited_units r) (je_amount_wei e) (je_per_units e)
  | None =>
      let? _ := refuse (cumulative_units <? sr_debited_units r) "payment_curve_invalid" in
      let? upto := bill cumulative_units (je_amount_wei e) (je_per_units e) in
      let? before := bill (cumulative_units - sr_debited_units r) (je_amount_wei e)
                       (je_per_units e) in
      Ok (upto - before)
  end.

(** [verify_job_settlement]. *)
Definition verify_job_settlement (envelope : dict) (settlement_keys : list dict)
    (e : JobSettlementExpectation) : res VerifiedJobSettlement :=
  let? (r, issued_at, public_key) := verify_envelope envelope settlement_keys in
  let? _ := reject_failed_debit r in
  let? _ := verify_wholesale_account (sr_wholesale_account_id r) (je_wholesale_account_id e) in
  let? _ := verify_settlement_domain (sr_settlement_domain_id r) (je_settlement_domain_id e) in
  let? _ := refuse (str_neqb (sr_request_id r) (je_request_id e)) "request_id_mismatch" in
  let? _ := refuse (str_neqb (sr_job_id r) (je_job_id e)) "job_id_mismatch" in
  let? _ := refuse (str_neqb (sr_work_id r) (je_work_id e)) "work_id_mismatch" in
  let? _ := refuse (str_neqb (sr_work_unit_name r) (je_work_unit e)) "work_unit_mismatch" in
  let? _ := refuse (negb (sr_actual_units r =? je_actual_units e)
                    || negb (sr_billed_units r =? je_actual_units e)
                    || negb (sr_debited_units r =? je_actual_units e)) "work_units_mismatch" in
  let? _ := refuse (je_max_total_units e <? sr_actual_units r) "usage_ceiling_exceeded" in
  let? _ := verify_quote (sr_accepted_quote_ref r) (je_quote_id e) (je_quote_version e)
              (je_constraint_fingerprint e) (je_route_fingerprint e) in
  let billed_value := from_bytes_big (sr_billed_value_wei r) in
  let? normative_bill := job_normative_bill r e in
  let? _ := refuse (negb (billed_value =? normative_bill)) "billed_value_mismatch" in
  let? _ := refuse (bool_decide (je_authorization_id e = None)
                    && (je_funded_value_wei e <? billed_value)) "funding_ceiling_exceeded" in
  let? _ := verify_authorization_accounting r (je_authorization_id e)
              (je_authorized_value_wei e) billed_value in
  let? outcome := outcome_name (sr_outcome r) in
  Ok (MkVerifiedJob (sr_actual_units r) billed_value outcome issued_at public_key).

(** ** Non-admission *)

(** [verify_non_admission]. *)
Definition verify_non_admission (envelope : dict) (settlement_keys : list dict)
    (e : NonAdmissionExpectation) : res VerifiedNonAdmission :=
  let? (payload, public_key) := open_envelope envelope in
  let? r := parse_non_admission_record payload in
  let? observed_at := parse_timestamp (Some (JStr (na_observed_at r))) "observed_at" in
  let? coverage_started_at :=
    parse_timestamp (Some (JStr (na_coverage_started_at r))) "coverage_started_at" in
  let? _ := authorize_key public_key observed_at settlement_keys in
  let? _ := verify_settlement_domain (na_settlement_domain_id r) (ne_settlement_domain_id e) in
  let? _ := verify_wholesale_account (na_wholesale_account_id r) (ne_wholesale_account_id e) in
  let? _ := refuse (negb (na_outcome r =? NOT_ADMITTED)) "non_admission_outcome_mismatch" in
  let? _ := refuse (str_neqb (na_protocol r) (ne_protocol e)) "protocol_mismatch" in
  let? _ := refuse (str_neqb (na_request_id r) (ne_request_id e)) "request_id_mismatch" in
  let? _ := refuse (str_neqb (na_work_id r) (ne_work_id e)) "work_id_mismatch" in
  let? _ := refuse (bytes_neqb (na_sender r) (ne_sender e)) "sender_mismatch" in
  let? _ := refuse (bytes_neqb (na_recipient r) (ne_recipient e)) "recipient_mismatch" in
  let? _ := verify_quote (na_accepted_quote_ref r) (ne_quote_id e) (ne_quote_version e)
              (ne_constraint_fingerprint e) (ne_route_fingerprint e) in
  let? _ := refuse (str_neqb (str_lower (na_broker_eth_address r))
                      (str_lower (ne_broker_eth_address e))) "broker_identity_mismatch" in
  let issued_at := ne_job_issued_at e in
  let? _ := refuse (negb (dt_aware issued_at)) "invalid_job_issued_at" in
  let? _ := refuse (dt_us issued_at <? dt_us coverage_started_at) "coverage_gap" in
  let? _ := refuse (dt_us observed_at <? dt_us issued_at) "observation_precedes_job" in
  let? _ := refuse (dt_us observed_at <? dt_us coverage_started_at) "invalid_coverage" in
  Ok (MkVerifiedNonAdmission observed_at coverage_started_at public_key).

(** ** Sessions *)

Fixpoint breakdown_get (k : string) (b : list (string * string)) : option string :=
  match b with
  | [] => None
  | (k', v) :: b' => if String.eqb k k' then Some v else breakdown_get k b'
  end.

(** [breakdown.get(k) or None]. *)
Definition breakdown_nonempty (k : string) (b : list (string * string)) : option string :=
  match breakdown_get k b with Some v => if str_truthy v then Some v else None | None => None end.

Definition unsafe_code (o : option string) : bool :=
  match o with Some s => negb (safe_code s) | None => false end.

(** [_verify_session_diagnostics]. *)
Definition verify_session_diagnostics (r : SettlementRecord)
  : res (option string * option string * option datetime * option string) :=
  let breakdown := sr_breakdown r in
  let termination_reason := breakdown_nonempty "termination_reason" breakdown in
  let output_state := breakdown_nonempty "output_state" breakdown in
  let output_state_since_raw := breakdown_nonempty "output_state_since" breakdown in
  let last_failure_code := breakdown_nonempty "last_failure_code" breakdown in
  let? _ := refuse (unsafe_code termination_reason) "termination_reason_invalid" in
  let? _ := refuse (match output_state with
                    | Some s => negb (existsb (String.eqb s)
                                  ["unknown"; "waiting"; "producing"; "stalled"])
                    | None => false end) "output_state_invalid" in
  let? output_state_since :=
    match output_state_since_raw with
    | Some raw => let? t := parse_timestamp (Some (JStr raw)) "output_state_since" in Ok (Some t)
    | None => Ok None
    end in
  let? _ := refuse (unsafe_code last_failure_code) "last_failure_code_invalid" in
  Ok (termination_reason, output_state, output_state_since, last_failure_code).

(** [_verify_session_identity]. *)
Definition verify_session_identity (r : SettlementRecord) (e : SessionSettlementExpectation)
  : res unit :=
  let? _ := refuse (str_neqb (sr_gateway_session_id r) (se_gateway_session_id e))
              "gateway_session_id_mismatch" in
  let? _ := refuse (negb (str_truthy (sr_session_id r))) "missing_session_id" in
  let? _ := refuse (match se_broker_session_id e with
                    | Some b => str_neqb (sr_session_id r) b | None => false end)
              "session_id_mismatch" in
  let? _ := refuse (str_truthy (sr_job_id r)) "job_id_present" in
  let? _ := refuse (str_neqb (sr_work_id r) (se_work_id e)) "work_id_mismatch" in
  let? _ := refuse (str_neqb (sr_predecessor_work_id r) (se_predecessor_work_id e))
              "predecessor_mismatch" in
  let? _ := refuse (negb (sr_rotation_generation r =? se_rotation_generation e))
              "rotation_generation_mismatch" in
  let? _ := refuse (str_neqb (sr_work_unit_name r) (se_work_unit e)) "work_unit_mismatch" in
  verify_quote (sr_accepted_quote_ref r) (se_quote_id e) (se_quote_version e)
    (se_constraint_fingerprint e) (se_route_fingerprint e).

(** The one shape in which claimed units may exceed debited units. *)
Definition authorization_exhausted (r : SettlementRecord) (e : SessionSettlementExpectation)
  : bool :=
  bool_decide (is_Some (se_authorization_id e))
  && String.eqb (sr_state r) "closed"
  && bool_decide (breakdown_get "termination_reason" (sr_breakdown r)
                  = Some "authorization_exhausted")
  && (sr_debited_units r <? sr_claimed_units r).

(** [_verify_session_accounting]. *)
Definition verify_session_accounting (r : SettlementRecord) (e : SessionSettlementExpectation)
  : res Z :=
  let amount_wei := from_bytes_big (sr_amount_wei r) in
  let? _ := refuse (negb (amount_wei =? se_amount_wei e)
                    || negb (sr_per_units r =? se_per_units e)) "pricing_mismatch" in
  let? _ := refuse (sr_settlement_seq r <=? se_last_settlement_seq e) "settlement_replay" in
  let? _ := refuse (se_require_terminal e && str_neqb (sr_state r) "closed")
              "session_not_terminal" in
  let exhausted := authorization_exhausted r e in
  let? _ := refuse (negb (sr_claimed_units r =? sr_debited_units r) && negb exhausted)
              "claim_debit_gap" in
  let? _ := refuse (negb (sr_actual_units r =? sr_debited_units r)
                    || negb (sr_billed_units r =? sr_debited_units r)) "work_units_mismatch" in
  let? _ := refuse (sr_debited_units r <? sr_generation_debited_units r)
              "generation_units_invalid" in
  let billed_value := from_bytes_big (sr_billed_value_wei r) in
  let? _ :=
    if exhausted then
      let? normative := bill (sr_debited_units r) (se_amount_wei e) (se_per_units e) in
      refuse (negb (billed_value =? normative)
              || negb (from_bytes_big (sr_reserved_value_wei r) =? 0))
        "authorization_accounting_invalid"
    else Ok tt in
  let signed_funded := from_bytes_big (sr_funded_value_wei r) in
  let generation_billed := from_bytes_big (sr_generation_billed_value_wei r) in
  let? _ := refuse ((se_funded_value_wei e <? billed_value)
                    || (se_funded_value_wei e <? signed_funded)) "session_cap_exceeded" in
  let? _ := refuse (billed_value <? generation_billed) "generation_value_invalid" in
  let? _ := verify_authorization_accounting r (se_authorization_id e)
              (se_authorized_value_wei e) billed_value in
  Ok billed_value.

(** [verify_session_settlement]. *)
Definition verify_session_settlement (envelope : dict) (settlement_keys : list dict)
    (e : SessionSettlementExpectation) : res VerifiedSessionSettlement :=
  let? (r, issued_at, public_key) := verify_envelope envelope settlement_keys in
  let? _ := reject_failed_debit r in
  let? _ := verify_wholesale_account (sr_wholesale_account_id r) (se_wholesale_account_id e) in
  let? _ := verify_settlement_domain (sr_settlement_domain_id r) (se_settlement_domain_id e) in
  let? _ := verify_session_identity r e in
  let? billed_value := verify_session_accounting r e in
  let? (termination_reason, output_state, output_state_since, last_failure_code) :=
    verify_session_diagnostics r in
  let? outcome := outcome_name (sr_outcome r) in
  Ok (MkVerifiedSession (sr_session_id r) (sr_work_id r) (sr_predecessor_work_id r)
        (sr_rotation_generation r) (sr_settlement_seq r) (sr_state r) (sr_claimed_units r)
        (sr_debited_units r) billed_value outcome issued_at public_key termination_reason
        output_state output_state_since last_failure_code).

End verification.

Arguments parse_timestamp : simpl never.
