(* ===== verification/SettlementProps.v ===== *)
(** * Settlement verification: what a verified settlement means

    Each verifier returns a value exactly when the envelope is signed by a key
    delegated at the signed time and the record satisfies the terms of the
    exchange; the terms are stated here as propositions. *)

From S2P Require Import Prelude PyData Errors Effects SettlementVerification.
From Stdlib Require Import Strings.Byte.

Open Scope string_scope.
Open Scope Z_scope.
Open Scope loc_scope.

(** ** Reading the checks as propositions *)

Create Rewrite HintDb sv.

Lemma refuse_then {A} b code (k : res A) v :
  (let? _ := refuse b code in k) = Ok v <-> b = false /\ k = Ok v.
Proof. unfold refuse, require. destruct b; cbn; split; [done|by intros [? _]|auto|by intros []]. Qed.

Lemma refuse_last b code u : refuse b code = Ok u <-> b = false.
Proof. unfold refuse, require. destruct b, u; by split. Qed.

Lemma of_option_then {A B} (o : option A) e (k : A -> res B) v :
  (let? x := of_option o e in k x) = Ok v <-> exists a, o = Some a /\ k a = Ok v.
Proof.
  destruct o as [a|]; cbn; split; [eauto| |done|by intros (? & ? & _)].
  by intros (? & [= <-] & ?).
Qed.

Lemma str_neqb_false a b : str_neqb a b = false <-> a = b.
Proof. unfold str_neqb. by rewrite negb_false_iff, String.eqb_eq. Qed.

Lemma bytes_neqb_false a b : bytes_neqb a b = false <-> a = b.
Proof. unfold bytes_neqb. by rewrite negb_false_iff, bool_decide_eq_true. Qed.

Lemma Zneqb_false a b : negb (a =? b) = false <-> a = b.
Proof. by rewrite negb_false_iff, Z.eqb_eq. Qed.

Lemma str_truthy_iff s : str_truthy s = true <-> s <> "".
Proof. destruct s; cbn; by split. Qed.

Lemma str_falsy_iff s : str_truthy s = false <-> s = "".
Proof. destruct s; cbn; by split. Qed.

Lemma str_untruthy_iff s : negb (str_truthy s) = false <-> s <> "".
Proof. by rewrite negb_false_iff, str_truthy_iff. Qed.

#[export] Hint Rewrite @refuse_then @refuse_last @of_option_then str_neqb_false
  bytes_neqb_false Zneqb_false str_untruthy_iff str_falsy_iff orb_false_iff Z.ltb_ge Z.leb_gt
  Z.eqb_neq : sv.

Lemma bill_ok units amount per v :
  bill units amount per = Ok v <->
  0 <= units /\ 0 <= amount /\ 0 < per /\ v = cdiv (units * amount) per.
Proof.
  unfold bill. autorewrite with sv. unfold cdiv. intuition congruence.
Qed.

Lemma verify_quote_ok q i n c r u :
  verify_quote q i n c r = Ok u <-> q = MkQuoteRef i n c r.
Proof.
  unfold verify_quote. autorewrite with sv. destruct q; cbn. intuition congruence.
Qed.

Lemma authorization_accounting_ok r a c b u :
  verify_authorization_accounting r a c b = Ok u <->
  match a with
  | None => sr_authorization_id r = ""
  | Some a =>
      sr_authorization_id r = a /\ sr_work_id r = a /\
      c = Some (from_bytes_big (sr_authorized_value_wei r)) /\
      let ceiling := from_bytes_big (sr_authorized_value_wei r) in
      from_bytes_big (sr_reserved_value_wei r) <= ceiling /\
      b + from_bytes_big (sr_released_value_wei r) <= ceiling /\
      b <= ceiling /\ from_bytes_big (sr_released_value_wei r) <= ceiling
  end.
Proof.
  unfold verify_authorization_accounting. destruct a as [a|]; autorewrite with sv; [|done].
  split.
  - intros ((H1 & H2) & ceil & -> & H3). autorewrite with sv in H3. cbn zeta. rewrite H1, H2.
    destruct H3 as (<- & ?). intuition.
  - cbn zeta. intros (H1 & H2 & -> & H3 & H4 & H5 & H6). split; [done|]. eexists. split; [done|].
    cbn zeta. autorewrite with sv. lia.
Qed.

Lemma outcome_not_failed r : reject_failed_debit r = Ok tt <-> sr_outcome r <> DEBIT_FAILED.
Proof. unfold reject_failed_debit. by autorewrite with sv. Qed.

(** ** Jobs *)

(** What the signed record must say about the job. *)
Record job_terms (r : SettlementRecord) (e : JobSettlementExpectation) (billed : Z) : Prop := {
  jt_not_failed : sr_outcome r <> DEBIT_FAILED;
  jt_account : je_wholesale_account_id e <> "" /\
               sr_wholesale_account_id r = je_wholesale_account_id e;
  jt_domain : je_settlement_domain_id e <> "" /\
              sr_settlement_domain_id r = je_settlement_domain_id e;
  jt_identity : sr_request_id r = je_request_id e /\ sr_job_id r = je_job_id e /\
                sr_work_id r = je_work_id e /\ sr_work_unit_name r = je_work_unit e;
  jt_units : sr_actual_units r = je_actual_units e /\ sr_billed_units r = je_actual_units e /\
             sr_debited_units r = je_actual_units e /\
             je_actual_units e <= je_max_total_units e;
  jt_quote : sr_accepted_quote_ref r =
             MkQuoteRef (je_quote_id e) (je_quote_version e) (je_constraint_fingerprint e)
               (je_route_fingerprint e);
  jt_billed : billed = from_bytes_big (sr_billed_value_wei r);
  jt_price : 0 <= je_amount_wei e /\ 0 < je_per_units e;
  jt_bill :
    let total n := cdiv (n * je_amount_wei e) (je_per_units e) in
    let cumulative := sr_payment_cumulative_units r in
    match je_authorization_id e with
    | Some _ => cumulative = 0 /\ 0 <= je_actual_units e /\ billed = total (je_actual_units e)
    | None => 0 <= cumulative /\ je_actual_units e <= cumulative /\
              billed = total cumulative - total (cumulative - je_actual_units e) /\
              billed <= je_funded_value_wei e
    end;
  jt_ceiling :
    match je_authorization_id e with
    | None => sr_authorization_id r = ""
    | Some a =>
        sr_authorization_id r = a /\ sr_work_id r = a /\
        je_authorized_value_wei e = Some (from_bytes_big (sr_authorized_value_wei r)) /\
        let ceiling := from_bytes_big (sr_authorized_value_wei r) in
        from_bytes_big (sr_reserved_value_wei r) <= ceiling /\
        billed + from_bytes_big (sr_released_value_wei r) <= ceiling /\
        billed <= ceiling /\ from_bytes_big (sr_released_value_wei r) <= ceiling
    end;
}.

Section jobs.
Context {R : Runtime} {L : SettlementLib}.

Lemma job_normative_bill_ok r e b :
  sr_debited_units r = je_actual_units e ->
  job_normative_bill r e = Ok b <->
  (0 <= je_amount_wei e /\ 0 < je_per_units e) /\
  let total n := cdiv (n * je_amount_wei e) (je_per_units e) in
  let cumulative := sr_payment_cumulative_units r in
  match je_authorization_id e with
  | Some _ => cumulative = 0 /\ 0 <= je_actual_units e /\ b = total (je_actual_units e)
  | None => 0 <= cumulative /\ je_actual_units e <= cumulative /\
            b = total cumulative - total (cumulative - je_actual_units e)
  end.
Proof.
  intros Hd. unfold job_normative_bill. cbn zeta. rewrite Hd.
  destruct (je_authorization_id e); autorewrite with sv.
  - rewrite bill_ok. tauto.
  - rewrite res_bind_ok. setoid_rewrite bill_ok. split.
    + intros (Hc & u & (? & ? & ? & ->) & Hk). rewrite res_bind_ok in Hk.
      destruct Hk as (w & Hw & [= <-]). rewrite bill_ok in Hw.
      destruct Hw as (? & ? & ? & ->). auto.
    + intros ((? & ?) & ? & ? & ->). split; [done|]. eexists. split; [done|].
      rewrite res_bind_ok. eexists. split; [|reflexivity]. apply bill_ok.
      repeat split; [lia|done|done].
Qed.

Lemma account_ok a b u : verify_wholesale_account a b = Ok u <-> b <> "" /\ a = b.
Proof. unfold verify_wholesale_account. by autorewrite with sv. Qed.

Lemma domain_ok a b u : verify_settlement_domain a b = Ok u <-> b <> "" /\ a = b.
Proof. unfold verify_settlement_domain. by autorewrite with sv. Qed.

Lemma unit_then {A} (m : res unit) (P : Prop) (k : res A) v :
  (forall u, m = Ok u <-> P) -> (let? _ := m in k) = Ok v <-> P /\ k = Ok v.
Proof.
  intros Hm. destruct m as [[]|x]; cbn.
  - pose proof (proj1 (Hm tt) eq_refl). tauto.
  - split; [done|]. intros [HP _]. by pose proof (proj2 (Hm tt) HP).
Qed.

Lemma job_settlement_iff env keys e v :
  verify_job_settlement env keys e = Ok v <->
  exists r issued_at public_key,
    verify_envelope env keys = Ok (r, issued_at, public_key) /\
    job_terms r e (vj_billed_value_wei v) /\
    outcome_name (sr_outcome r) = Ok (vj_outcome v) /\
    vj_actual_units v = je_actual_units e /\ vj_issued_at v = issued_at /\
    vj_signing_public_key v = public_key.
Proof.
  unfold verify_job_settlement, reject_failed_debit. rewrite res_bind_ok. split.
  - intros ([[r at_] pk] & Henv & H). exists r, at_, pk. split; [done|].
    rewrite refuse_then, (unit_then _ _ _ _ (account_ok _ _)),
      (unit_then _ _ _ _ (domain_ok _ _)) in H.
    autorewrite with sv in H.
    rewrite (unit_then _ _ _ _ (verify_quote_ok _ _ _ _ _)) in H.
    destruct H as (? & ? & ? & ? & ? & ? & ? & ((Ha & Hb) & Hd) & ? & ? & H). cbn zeta in H.
    rewrite res_bind_ok in H. destruct H as (b & Hbill & H).
    rewrite job_normative_bill_ok in Hbill by done.
    autorewrite with sv in H.
    rewrite (unit_then _ _ _ _ (authorization_accounting_ok _ _ _ _)), res_bind_ok in H.
    destruct H as (Hbilled & Hfund & Hauth & name & Hname & [= <-]). cbn.
    split; [|split_and!; done].
    destruct Hbill as [Hprice Hbill]. split; try done.
    + split_and!; lia.
    + destruct (je_authorization_id e) eqn:Ea; rewrite Hbilled; [done|].
      rewrite bool_decide_true in Hfund by done. cbn in Hfund. bool_props.
      rewrite Hbilled in Hfund. destruct Hbill as (? & ? & ?). auto.
  - intros (r & at_ & pk & Henv & Ht & Hname & Hu & <- & <-).
    eexists. split; [exact Henv|]. destruct Ht, v as [vu vb vo va vk]. cbn in *.
    rewrite refuse_then, (unit_then _ _ _ _ (account_ok _ _)),
      (unit_then _ _ _ _ (domain_ok _ _)).
    autorewrite with sv.
    rewrite (unit_then _ _ _ _ (verify_quote_ok _ _ _ _ _)).
    destruct jt_identity0 as (? & ? & ? & ?), jt_units0 as (Ha & Hb & Hd & Hm).
    rewrite Ha. do 7 (split; [done|]). split; [done|]. split; [done|]. split; [done|].
    rewrite res_bind_ok. exists vb. split.
    { rewrite job_normative_bill_ok by done. split; [done|]. cbn zeta in *.
      destruct (je_authorization_id e); [done|]. naive_solver. }
    autorewrite with sv. subst vb. split; [done|]. split.
    { destruct (je_authorization_id e) eqn:Ea; [done|]. rewrite bool_decide_true by done. cbn.
      apply Z.ltb_ge. naive_solver. }
    rewrite (unit_then _ _ _ _ (authorization_accounting_ok _ _ _ _)). split; [done|].
    rewrite Hname. cbn. congruence.
Qed.

End jobs.

(** ** The envelope *)

Section envelope.
Context {R : Runtime} {L : SettlementLib}.

(** A delegation of [public_key] live at the instant [at_]. *)
Definition delegated (public_key : string) (at_ : datetime) (d : dict) : Prop :=
  dget "public_key" d = Some (JStr public_key) /\
  exists not_before expires_at,
    delegation_time d "not_before" = Ok not_before /\
    delegation_time d "expires_at" = Ok expires_at /\
    dt_aware not_before = dt_aware at_ /\ dt_aware expires_at = dt_aware at_ /\
    dt_us not_before <= dt_us at_ <= dt_us expires_at.

Lemma json_is_str_true j s : json_is_str j s = true <-> j = Some (JStr s).
Proof.
  unfold json_is_str. destruct j as [[| | |t| |]|]; cbn; try by split.
  rewrite String.eqb_eq. split; [by intros ->|by intros [= ->]].
Qed.

Lemma authorize_key_delegated pk at_ keys u :
  authorize_key pk at_ keys = Ok u -> Exists (delegated pk at_) keys.
Proof.
  induction keys as [|d keys IH]; cbn; [done|].
  destruct (json_is_str (dget "public_key" d) pk) eqn:Ek; cbn; [|auto].
  intros H. res_inv. apply json_is_str_true in Ek.
  match goal with Hs : dt_leb _ at_ = Ok ?b |- _ => destruct b; cbn in *; [|auto] end.
  res_inv. match goal with Hs : dt_leb at_ _ = Ok ?b |- _ => destruct b; cbn in *; [|auto] end.
  repeat match goal with Hs : dt_leb _ _ = Ok _ |- _ =>
    apply dt_leb_ok in Hs; destruct Hs as [? Hs]; symmetry in Hs; apply Z.leb_le in Hs end.
  left. split; [done|]. eexists _, _. split; [eassumption|]. split; [eassumption|].
  split_and!; congruence || lia.
Qed.

(** The signature of a payload: 65 bytes in hex whose recovery over the
    prefixed hash of the canonical payload gives the key. *)
Definition signs (signature payload : dict) (public_key : string) : Prop :=
  dget "algorithm" signature = Some (JStr "secp256k1") /\
  dget "canonicalization" signature = Some (JStr "jcs") /\
  exists canonical hex raw v key,
    sl_canonicalize payload = Some canonical /\
    dget "value" signature = Some (JStr hex) /\
    bytes_fromhex (str_drop 2 hex) = Some (raw ++ [v])%list /\ length raw = 64%nat /\
    (byte_val v = 27 \/ byte_val v = 28) /\
    sl_recover (raw ++ [byte_of_Z (byte_val v - 27)])%list
      (sl_keccak (message_prefix (length canonical) ++ canonical)%list) = Some key /\
    public_key = ("0x04" ++ bytes_hex key)%string.

Lemma as_str_some j s : as_str j = Some s <-> j = Some (JStr s).
Proof.
  destruct j as [[| | |t| |]|]; cbn; try by split. split; [by intros [= ->]|by intros [= ->]].
Qed.

Lemma as_obj_some j d : as_obj j = Some d <-> j = Some (JObj d).
Proof.
  destruct j as [[| | | | |t]|]; cbn; try by split. split; [by intros [= ->]|by intros [= ->]].
Qed.

Lemma snoc_65 (raw : bytes) :
  length raw = 65%nat -> raw = (take 64 raw ++ [nth 64 raw x00])%list.
Proof.
  intros Hl. rewrite <- (take_drop 64 raw) at 1. f_equal.
  assert (Hd : length (drop 64 raw) = 1%nat) by (rewrite length_drop; lia).
  destruct (drop 64 raw) as [|x [|y t]] eqn:E; try done.
  f_equal. rewrite <- (take_drop 64 raw), E.
  rewrite app_nth2; rewrite length_take; [|lia].
  replace (64 - 64 `min` length raw)%nat with 0%nat by lia. done.
Qed.

Lemma recover_signs canonical value pk :
  recover_public_key canonical value = Ok pk ->
  exists hex raw v key, value = Some (JStr hex) /\
    bytes_fromhex (str_drop 2 hex) = Some (raw ++ [v])%list /\ length raw = 64%nat /\
    (byte_val v = 27 \/ byte_val v = 28) /\
    sl_recover (raw ++ [byte_of_Z (byte_val v - 27)])%list
      (sl_keccak (message_prefix (length canonical) ++ canonical)%list) = Some key /\
    pk = ("0x04" ++ bytes_hex key)%string.
Proof.
  unfold recover_public_key. rewrite of_option_then. intros (hex & Hhex & H).
  apply as_str_some in Hhex. autorewrite with sv in H.
  destruct H as (_ & raw & Hraw & H). autorewrite with sv in H.
  destruct H as ((Hlen & Hv) & key & Hkey & [= <-]).
  apply negb_false_iff, Nat.eqb_eq in Hlen. apply negb_false_iff, existsb_exists in Hv.
  destruct Hv as (n & Hn & Heq). apply Z.eqb_eq in Heq.
  exists hex, (take 64 raw), (nth 64 raw x00), key. split; [done|].
  rewrite <- snoc_65 by done. split; [done|]. split; [rewrite length_take; lia|].
  split; [|done]. cbn [In] in Hn. lia.
Qed.

Lemma open_envelope_signed env payload pk :
  open_envelope env = Ok (payload, pk) ->
  exists signature, dget "payload" env = Some (JObj payload) /\
    dget "signature" env = Some (JObj signature) /\ signs signature payload pk.
Proof.
  unfold open_envelope. rewrite of_option_then. intros (p & Hp & H).
  rewrite of_option_then in H. destruct H as (sg & Hsg & H).
  autorewrite with sv in H. destruct H as ((Ha & Hc) & H).
  apply negb_false_iff, json_is_str_true in Ha, Hc.
  unfold canonicalize in H. rewrite of_option_then in H. destruct H as (c & Hcan & H).
  res_inv. simplify_eq. apply as_obj_some in Hp, Hsg. exists sg.
  split; [done|]. split; [done|]. split; [done|]. split; [done|].
  exists c. match goal with Hr : recover_public_key _ _ = Ok _ |- _ =>
    apply recover_signs in Hr as (hex & raw & v & key & ?) end.
  exists hex, raw, v, key. tauto.
Qed.

Lemma parse_timestamp_aware v f t : parse_timestamp v f = Ok t -> dt_aware t = true.
Proof.
  unfold parse_timestamp. rewrite of_option_then. intros (s & _ & H).
  autorewrite with sv in H. destruct H as (_ & t' & _ & H). autorewrite with sv in H.
  destruct H as (Ha & [= <-]). by apply negb_false_iff in Ha.
Qed.

Lemma verify_envelope_signed env keys r at_ pk :
  verify_envelope env keys = Ok (r, at_, pk) ->
  exists payload signature,
    dget "payload" env = Some (JObj payload) /\ dget "signature" env = Some (JObj signature) /\
    signs signature payload pk /\
    sl_parse_record payload = Some r /\
    parse_timestamp (dget "issued_at" payload) "issued_at" = Ok at_ /\
    Exists (delegated pk at_) keys.
Proof.
  unfold verify_envelope, parse_record. intros H. res_inv. simplify_eq.
  match goal with Ho : open_envelope _ = Ok _ |- _ =>
    apply open_envelope_signed in Ho as (sg & ? & ? & ?) end.
  match goal with Ha : authorize_key _ _ _ = Ok _ |- _ => apply authorize_key_delegated in Ha end.
  match goal with Ho : of_option (sl_parse_record ?p) _ = Ok _ |- _ =>
    destruct (sl_parse_record p) eqn:Ep; simplify_eq/= end.
  eexists _, sg. split_and!; done.
Qed.

End envelope.

(** ** Sessions *)

(** What the signed record must say about the session. *)
Record session_terms (r : SettlementRecord) (e : SessionSettlementExpectation)
    (billed : Z) : Prop := {
  st_not_failed : sr_outcome r <> DEBIT_FAILED;
  st_account : se_wholesale_account_id e <> "" /\
               sr_wholesale_account_id r = se_wholesale_account_id e;
  st_domain : se_settlement_domain_id e <> "" /\
              sr_settlement_domain_id r = se_settlement_domain_id e;
  st_session : sr_gateway_session_id r = se_gateway_session_id e /\ sr_session_id r <> "" /\
               (forall b, se_broker_session_id e = Some b -> sr_session_id r = b);
  st_work : sr_job_id r = "" /\ sr_work_id r = se_work_id e /\
            sr_predecessor_work_id r = se_predecessor_work_id e /\
            sr_rotation_generation r = se_rotation_generation e /\
            sr_work_unit_name r = se_work_unit e;
  st_quote : sr_accepted_quote_ref r =
             MkQuoteRef (se_quote_id e) (se_quote_version e) (se_constraint_fingerprint e)
               (se_route_fingerprint e);
  st_price : from_bytes_big (sr_amount_wei r) = se_amount_wei e /\
             sr_per_units r = se_per_units e;
  st_newer : se_last_settlement_seq e < sr_settlement_seq r;
  st_terminal : se_require_terminal e = true -> sr_state r = "closed";
  st_units : sr_actual_units r = sr_debited_units r /\ sr_billed_units r = sr_debited_units r /\
             sr_generation_debited_units r <= sr_debited_units r;
  st_claimed : sr_claimed_units r = sr_debited_units r \/ authorization_exhausted r e = true;
  st_billed : billed = from_bytes_big (sr_billed_value_wei r);
  st_exhausted : authorization_exhausted r e = true ->
    (0 <= sr_debited_units r /\ 0 <= se_amount_wei e /\ 0 < se_per_units e) /\
    billed = cdiv (sr_debited_units r * se_amount_wei e) (se_per_units e) /\
    from_bytes_big (sr_reserved_value_wei r) = 0;
  st_cap : billed <= se_funded_value_wei e /\
           from_bytes_big (sr_funded_value_wei r) <= se_funded_value_wei e /\
           from_bytes_big (sr_generation_billed_value_wei r) <= billed;
  st_ceiling :
    match se_authorization_id e with
    | None => sr_authorization_id r = ""
    | Some a =>
        sr_authorization_id r = a /\ sr_work_id r = a /\
        se_authorized_value_wei e = Some (from_bytes_big (sr_authorized_value_wei r)) /\
        let ceiling := from_bytes_big (sr_authorized_value_wei r) in
        from_bytes_big (sr_reserved_value_wei r) <= ceiling /\
        billed + from_bytes_big (sr_released_value_wei r) <= ceiling /\
        billed <= ceiling /\ from_bytes_big (sr_released_value_wei r) <= ceiling
    end;
}.

Section sessions.
Context {R : Runtime} {L : SettlementLib}.

Lemma session_identity_ok r e u :
  verify_session_identity r e = Ok u <->
  (sr_gateway_session_id r = se_gateway_session_id e /\ sr_session_id r <> "" /\
   (forall b, se_broker_session_id e = Some b -> sr_session_id r = b)) /\
  (sr_job_id r = "" /\ sr_work_id r = se_work_id e /\
   sr_predecessor_work_id r = se_predecessor_work_id e /\
   sr_rotation_generation r = se_rotation_generation e /\
   sr_work_unit_name r = se_work_unit e) /\
  sr_accepted_quote_ref r =
    MkQuoteRef (se_quote_id e) (se_quote_version e) (se_constraint_fingerprint e)
      (se_route_fingerprint e).
Proof.
  unfold verify_session_identity. autorewrite with sv. rewrite verify_quote_ok.
  assert (Hb : match se_broker_session_id e with
               | Some b => str_neqb (sr_session_id r) b | None => false end = false <->
               forall b, se_broker_session_id e = Some b -> sr_session_id r = b).
  { destruct (se_broker_session_id e) as [b|].
    - rewrite str_neqb_false. naive_solver.
    - naive_solver. }
  rewrite Hb. tauto.
Qed.

Lemma session_accounting_ok r e b :
  verify_session_accounting r e = Ok b <->
  (from_bytes_big (sr_amount_wei r) = se_amount_wei e /\ sr_per_units r = se_per_units e) /\
  se_last_settlement_seq e < sr_settlement_seq r /\
  (se_require_terminal e = true -> sr_state r = "closed") /\
  (sr_claimed_units r = sr_debited_units r \/ authorization_exhausted r e = true) /\
  (sr_actual_units r = sr_debited_units r /\ sr_billed_units r = sr_debited_units r /\
   sr_generation_debited_units r <= sr_debited_units r) /\
  (authorization_exhausted r e = true ->
    (0 <= sr_debited_units r /\ 0 <= se_amount_wei e /\ 0 < se_per_units e) /\
    b = cdiv (sr_debited_units r * se_amount_wei e) (se_per_units e) /\
    from_bytes_big (sr_reserved_value_wei r) = 0) /\
  (b <= se_funded_value_wei e /\
   from_bytes_big (sr_funded_value_wei r) <= se_funded_value_wei e /\
   from_bytes_big (sr_generation_billed_value_wei r) <= b) /\
  verify_authorization_accounting r (se_authorization_id e) (se_authorized_value_wei e) b = Ok tt /\
  b = from_bytes_big (sr_billed_value_wei r).
Proof.
  unfold verify_session_accounting. cbn zeta. autorewrite with sv.
  set (billed := from_bytes_big (sr_billed_value_wei r)).
  assert (Ht : se_require_terminal e && str_neqb (sr_state r) "closed" = false <->
               (se_require_terminal e = true -> sr_state r = "closed")).
  { destruct (se_require_terminal e); cbn; [rewrite str_neqb_false|]; naive_solver. }
  assert (Hc : negb (sr_claimed_units r =? sr_debited_units r)
               && negb (authorization_exhausted r e) = false <->
               sr_claimed_units r = sr_debited_units r \/ authorization_exhausted r e = true).
  { rewrite andb_false_iff, Zneqb_false, negb_false_iff. done. }
  rewrite Ht, Hc.
  rewrite (unit_then _ (authorization_exhausted r e = true ->
    (0 <= sr_debited_units r /\ 0 <= se_amount_wei e /\ 0 < se_per_units e) /\
    billed = cdiv (sr_debited_units r * se_amount_wei e) (se_per_units e) /\
    from_bytes_big (sr_reserved_value_wei r) = 0)).
  2:{ intros []. destruct (authorization_exhausted r e); [|naive_solver].
      rewrite res_bind_ok. setoid_rewrite bill_ok. split.
      - intros (n & (? & ? & ? & ->) & Hn). autorewrite with sv in Hn. tauto.
      - intros Hx. destruct (Hx eq_refl) as ((? & ? & ?) & Hb & Hr).
        eexists. split; [done|]. autorewrite with sv. done. }
  autorewrite with sv.
  assert (Hu : forall k : res Z, (let? _ := verify_authorization_accounting r
      (se_authorization_id e) (se_authorized_value_wei e) billed in k) = Ok b <->
      verify_authorization_accounting r (se_authorization_id e) (se_authorized_value_wei e)
        billed = Ok tt /\ k = Ok b).
  { intros k. destruct (verify_authorization_accounting _ _ _ _) as [[]|]; cbn; naive_solver. }
  rewrite Hu. fold billed. split.
  - intros (? & ? & ? & ? & ? & ? & ? & ? & ? & ? & [= <-]). tauto.
  - intros (? & ? & ? & ? & ? & ? & ? & ? & ->). tauto.
Qed.

Lemma session_settlement_iff env keys e v :
  verify_session_settlement env keys e = Ok v <->
  exists r issued_at public_key diagnostics,
    verify_envelope env keys = Ok (r, issued_at, public_key) /\
    session_terms r e (vs_billed_value_wei v) /\
    verify_session_diagnostics r = Ok diagnostics /\
    outcome_name (sr_outcome r) = Ok (vs_outcome v) /\
    v = MkVerifiedSession (sr_session_id r) (sr_work_id r) (sr_predecessor_work_id r)
          (sr_rotation_generation r) (sr_settlement_seq r) (sr_state r) (sr_claimed_units r)
          (sr_debited_units r) (vs_billed_value_wei v) (vs_outcome v) issued_at public_key
          (fst (fst (fst diagnostics))) (snd (fst (fst diagnostics))) (snd (fst diagnostics))
          (snd diagnostics).
Proof.
  unfold verify_session_settlement, reject_failed_debit. rewrite res_bind_ok. split.
  - intros ([[r at_] pk] & Henv & H). exists r, at_, pk.
    rewrite refuse_then, (unit_then _ _ _ _ (account_ok _ _)),
      (unit_then _ _ _ _ (domain_ok _ _)), (unit_then _ _ _ _ (session_identity_ok _ _)) in H.
    destruct H as (Hf & Ha & Hd & (Hs & Hw & Hq) & H).
    rewrite res_bind_ok in H. destruct H as (b & Hb & H).
    rewrite session_accounting_ok in Hb.
    destruct Hb as (? & ? & ? & ? & ? & ? & ? & Hauth & Hbill).
    rewrite authorization_accounting_ok in Hauth.
    rewrite res_bind_ok in H. destruct H as ([[[tr os] ot] fc] & Hdiag & H).
    rewrite res_bind_ok in H. destruct H as (name & Hname & [= <-]).
    eexists. split; [done|]. split; [|split; [exact Hdiag|by split]]. cbn.
    apply Z.eqb_neq in Hf. by split.
  - intros (r & at_ & pk & [[[tr os] ot] fc] & Henv & Ht & Hdiag & Hname & Hv).
    eexists. split; [exact Henv|]. destruct Ht.
    rewrite refuse_then, (unit_then _ _ _ _ (account_ok _ _)),
      (unit_then _ _ _ _ (domain_ok _ _)), (unit_then _ _ _ _ (session_identity_ok _ _)).
    split; [by apply Z.eqb_neq|]. split; [done|]. split; [done|]. split; [done|].
    rewrite res_bind_ok. exists (vs_billed_value_wei v). split.
    { rewrite session_accounting_ok, authorization_accounting_ok. auto 10. }
    rewrite Hdiag. cbn. rewrite Hname. cbn. by rewrite Hv at 3.
Qed.

(** A record is accepted at most once: after its sequence number is recorded it
    is refused, and so is every older record. *)
Lemma session_seq_strict env keys e v :
  verify_session_settlement env keys e = Ok v ->
  se_last_settlement_seq e < vs_settlement_seq v.
Proof.
  rewrite session_settlement_iff. intros (r & at_ & pk & dg & _ & Ht & _ & _ & ->). cbn.
  apply Ht.
Qed.

End sessions.

(** ** Non-admission *)

Section non_admission.
Context {R : Runtime} {L : SettlementLib}.

(** What the signed record must say about an exchange that never happened: the
    broker's coverage spans the instant the authorization was issued. *)
Record non_admission_terms (r : NonAdmissionRecord) (e : NonAdmissionExpectation)
    (observed_at coverage_started_at : datetime) : Prop := {
  nt_outcome : na_outcome r = NOT_ADMITTED;
  nt_account : ne_wholesale_account_id e <> "" /\
               na_wholesale_account_id r = ne_wholesale_account_id e;
  nt_domain : ne_settlement_domain_id e <> "" /\
              na_settlement_domain_id r = ne_settlement_domain_id e;
  nt_identity : na_protocol r = ne_protocol e /\ na_request_id r = ne_request_id e /\
                na_work_id r = ne_work_id e /\ na_sender r = ne_sender e /\
                na_recipient r = ne_recipient e;
  nt_quote : na_accepted_quote_ref r =
             MkQuoteRef (ne_quote_id e) (ne_quote_version e) (ne_constraint_fingerprint e)
               (ne_route_fingerprint e);
  nt_broker : str_lower (na_broker_eth_address r) = str_lower (ne_broker_eth_address e);
  nt_stamps :
    parse_timestamp (Some (JStr (na_observed_at r))) "observed_at" = Ok observed_at /\
    parse_timestamp (Some (JStr (na_coverage_started_at r))) "coverage_started_at"
      = Ok coverage_started_at;
  nt_coverage : dt_aware (ne_job_issued_at e) = true /\
    dt_us coverage_started_at <= dt_us (ne_job_issued_at e) <= dt_us observed_at;
}.

Lemma non_admission_iff env keys e v :
  verify_non_admission env keys e = Ok v <->
  exists payload r,
    open_envelope env = Ok (payload, vn_signing_public_key v) /\
    sl_parse_non_admission payload = Some r /\
    non_admission_terms r e (vn_observed_at v) (vn_coverage_started_at v) /\
    authorize_key (vn_signing_public_key v) (vn_observed_at v) keys = Ok tt.
Proof.
  unfold verify_non_admission, parse_non_admission_record. rewrite res_bind_ok. split.
  - intros ([payload pk] & Henv & H). rewrite of_option_then in H.
    destruct H as (r & Hr & H). rewrite res_bind_ok in H. destruct H as (ob & Hob & H).
    rewrite res_bind_ok in H. destruct H as (cov & Hcov & H).
    rewrite res_bind_ok in H. destruct H as ([] & Hkey & H).
    rewrite (unit_then _ _ _ _ (domain_ok _ _)), (unit_then _ _ _ _ (account_ok _ _)) in H.
    autorewrite with sv in H.
    rewrite (unit_then _ _ _ _ (verify_quote_ok _ _ _ _ _)) in H. cbn zeta in H.
    autorewrite with sv in H.
    destruct H as (? & ? & ? & ? & ? & ? & ? & ? & ? & ? & Haw & ? & ? & ? & [= <-]).
    apply negb_false_iff in Haw. exists payload, r. cbn.
    split; [done|]. split; [done|]. split; [|done]. split; try done; split_and!; done.
  - intros (payload & r & Henv & Hr & Ht & Hkey). destruct v as [ob cov pk]. cbn in *.
    destruct Ht. eexists. split; [exact Henv|]. cbn [res_bind]. rewrite Hr.
    cbn [res_bind of_option]. destruct nt_stamps0 as [-> ->].
    cbn [res_bind of_option]. rewrite Hkey. cbn [res_bind].
    rewrite (unit_then _ _ _ _ (domain_ok _ _)), (unit_then _ _ _ _ (account_ok _ _)).
    autorewrite with sv. rewrite (unit_then _ _ _ _ (verify_quote_ok _ _ _ _ _)).
    autorewrite with sv. destruct nt_coverage0 as [Haw ?], nt_identity0 as (? & ? & ? & ? & ?).
    rewrite Haw. cbn [negb]. split_and!; tauto || lia || done.
Qed.

End non_admission.

(** ** The ticket-session curve *)

(** Successive jobs on one curve: each record's cumulative position is the
    previous one plus its own debit. *)
Fixpoint on_curve (start : Z) (rs : list SettlementRecord) : Prop :=
  match rs with
  | [] => True
  | r :: rs' => 0 <= sr_debited_units r /\
      sr_payment_cumulative_units r = start + sr_debited_units r /\
      on_curve (start + sr_debited_units r) rs'
  end.

Definition curve_units (rs : list SettlementRecord) : Z := sum_by sr_debited_units rs.

Lemma curve_bills_sum e start rs :
  je_authorization_id e = None -> 0 <= je_amount_wei e -> 0 < je_per_units e ->
  0 <= start -> on_curve start rs ->
  exists bills, mapM (fun r => match job_normative_bill r e with
                               | Ok b => Some b | Err _ => None end) rs = Some bills /\
    Zsum bills = cdiv ((start + curve_units rs) * je_amount_wei e) (je_per_units e)
                 - cdiv (start * je_amount_wei e) (je_per_units e).
Proof.
  intros He Ha Hp. revert start. induction rs as [|r rs IH]; intros start Hs Hc.
  - exists []. split; [done|]. unfold curve_units, sum_by. cbn. rewrite Z.add_0_r. lia.
  - destruct Hc as (Hr & Hcum & Hc).
    destruct (IH (start + sr_debited_units r) ltac:(lia) Hc) as (bills & Hm & Hsum).
    assert (Hb : job_normative_bill r e =
      Ok (cdiv ((start + sr_debited_units r) * je_amount_wei e) (je_per_units e)
          - cdiv (start * je_amount_wei e) (je_per_units e))).
    { unfold job_normative_bill. rewrite He, Hcum.
      replace (start + sr_debited_units r - sr_debited_units r) with start by lia.
      unfold refuse. rewrite (proj2 (Z.ltb_ge _ _)) by lia. cbn.
      assert (Hbill : forall n, 0 <= n -> bill n (je_amount_wei e) (je_per_units e) =
        Ok (cdiv (n * je_amount_wei e) (je_per_units e)))
        by (intros; apply bill_ok; auto).
      rewrite !Hbill by lia. done. }
    eexists. cbn [mapM]. rewrite Hb. cbn [mbind option_bind]. rewrite Hm. cbn.
    split; [reflexivity|]. unfold Zsum in *. cbn. rewrite Hsum.
    unfold curve_units, sum_by, Zsum. cbn.
    replace (start + (sr_debited_units r + foldr Z.add 0 (map sr_debited_units rs)))
      with (start + sr_debited_units r + foldr Z.add 0 (map sr_debited_units rs)) by lia.
    lia.
Qed.

(** ** A session's accepted settlements *)

Definition with_last_seq (n : Z) (e : SessionSettlementExpectation)
  : SessionSettlementExpectation :=
  MkSessionExpectation (se_wholesale_account_id e) (se_settlement_domain_id e)
    (se_gateway_session_id e) (se_broker_session_id e) (se_work_id e)
    (se_predecessor_work_id e) (se_rotation_generation e) (se_work_unit e) (se_amount_wei e)
    (se_per_units e) (se_quote_id e) (se_quote_version e) (se_constraint_fingerprint e)
    (se_route_fingerprint e) (se_funded_value_wei e) n (se_authorization_id e)
    (se_authorized_value_wei e) (se_require_terminal e).

(** The settlements accepted when envelopes arrive in any order and each
    accepted sequence number is recorded. *)
Fixpoint accepted {R : Runtime} {L : SettlementLib} (keys : list dict)
    (e : SessionSettlementExpectation) (envs : list dict) : list VerifiedSessionSettlement :=
  match envs with
  | [] => []
  | env :: envs' =>
      match verify_session_settlement env keys e with
      | Ok v => v :: accepted keys (with_last_seq (vs_settlement_seq v) e) envs'
      | Err _ => accepted keys e envs'
      end
  end.

Lemma accepted_sorted {R : Runtime} {L : SettlementLib} keys e envs :
  Forall (fun v => se_last_settlement_seq e < vs_settlement_seq v) (accepted keys e envs) /\
  StronglySorted Z.lt (map vs_settlement_seq (accepted keys e envs)).
Proof.
  revert e. induction envs as [|env envs IH]; intros e; cbn; [split; constructor|].
  destruct (verify_session_settlement env keys e) as [v|] eqn:E; [|apply IH].
  apply session_seq_strict in E.
  destruct (IH (with_last_seq (vs_settlement_seq v) e)) as [Hf Hs]. cbn in Hf. split.
  - constructor; [done|]. eapply Forall_impl; [exact Hf|]. cbn. intros. lia.
  - cbn. constructor; [done|]. by apply Forall_map.
Qed.

(** ** A concrete signed exchange *)

(** Libraries that recognise one payload and one signature. *)
Definition demo_lib (r : SettlementRecord) (na : NonAdmissionRecord) : SettlementLib := {|
  sl_canonicalize _ := Some [];
  sl_keccak b := b;
  sl_recover _ _ := Some [x01];
  sl_parse_record _ := Some r;
  sl_parse_non_admission _ := Some na;
|}.

(** A runtime that reads every timestamp as the same instant. *)
Definition demo_clock : Runtime := {|
  rt_now n := DT (1000000 * Z.of_nat n) true;
  rt_uuid n := N.of_nat n;
  rt_fromisoformat _ := Some (DT 5000000 true);
  rt_isoformat _ := "t";
  rt_model_time _ := "t";
  rt_repr _ := "";
  rt_sha256 b := b;
  rt_parse_time _ := Some (DT 5000000 true);
  rt_hmac _ b := b;
  rt_json_loads _ := None;
|}.

Definition demo_signature : string := "0x" ++ bytes_hex (repeat x01 64 ++ [x1b])%list.

Definition demo_envelope : dict :=
  [("payload", JObj [("issued_at", JStr "t")]);
   ("signature", JObj [("algorithm", JStr "secp256k1"); ("canonicalization", JStr "jcs");
                       ("value", JStr demo_signature)])].

Definition demo_keys : list dict :=
  [[("public_key", JStr "0x0401"); ("not_before", JStr "t"); ("expires_at", JStr "t")]].

Definition demo_quote : QuoteRef := MkQuoteRef "q" 1 [x0a] [x0b].

(** A closed session of [units] units billed [billed] wei at 7 wei for 2 units
    under authorization [a], ceiling 100. *)
Definition demo_session_record (units : Z) (billed : bytes) : SettlementRecord :=
  MkSettlementRecord "acct" demo_quote "tokens" units units [x64] billed 1 [] "bs" "a" "" 0
    units units 0 [] [x07] 2 3 "closed" "" 0 "gw" "" "a" [x64] [] [] "dom".

Definition demo_session_expectation : SessionSettlementExpectation :=
  MkSessionExpectation "acct" "dom" "gw" None "a" "" 0 "tokens" 7 2 "q" 1 [x0a] [x0b] 100 2
    (Some "a") (Some 100) true.

Definition demo_job_record (units : Z) (billed : bytes) : SettlementRecord :=
  MkSettlementRecord "acct" demo_quote "tokens" units units [x64] billed 1 [] "" "a" "" 0
    units units 0 [] [x07] 2 0 "closed" "job" 0 "" "req" "a" [x64] [] [] "dom".

Definition demo_job_expectation : JobSettlementExpectation :=
  MkJobExpectation "acct" "dom" "req" "job" "a" "tokens" 5 10 100 7 2 "q" 1 [x0a] [x0b]
    (Some "a") (Some 100).

Definition demo_non_admission : NonAdmissionRecord :=
  MkNonAdmissionRecord "acct" "paid-job/v1" "req" "a" [x01] [x02] demo_quote "0xAb" "t" "t" 1
    "dom".

(** Five units at 7 wei per 2 bill 18 wei; 17 is refused. *)
Example demo_job_accepted :
  let L := demo_lib (demo_job_record 5 [x12]) demo_non_admission in
  verify_job_settlement (R := demo_clock) (L := L) demo_envelope demo_keys demo_job_expectation
  = Ok (MkVerifiedJob 5 18 "EXACT" (DT 5000000 true) "0x0401").
Proof. vm_compute. reflexivity. Qed.

Example demo_job_underbilled :
  let L := demo_lib (demo_job_record 5 [x11]) demo_non_admission in
  verify_job_settlement (R := demo_clock) (L := L) demo_envelope demo_keys demo_job_expectation
  = Err (SettlementVerificationErr "billed_value_mismatch").
Proof. vm_compute. reflexivity. Qed.

(** A terminal session record with equal claims and debits is accepted at any
    bill up to the cap: the signed price is compared, [bill(units)] is not. *)
Example demo_session_overbilled :
  let L := demo_lib (demo_session_record 5 [x60]) demo_non_admission in
  bill 5 7 2 = Ok 18 /\
  vs_billed_value_wei <$>
    (match verify_session_settlement (R := demo_clock) (L := L) demo_envelope demo_keys
             demo_session_expectation with Ok v => Some v | Err _ => None end) = Some 96.
Proof. vm_compute. by split. Qed.

(** ** Properties *)

(** C25: A job settlement is accepted exactly when its envelope verifies and the
    signed record states this job's account, domain, request, job, work and
    quote identity, the reported units within the ceiling, and a bill equal to
    the pinned price of those units, rounded up once, within the authorized
    (or funded) value. *)
Theorem verify_job_settlement_iff {R : Runtime} {L : SettlementLib} (env : dict)
    (keys : list dict) (e : JobSettlementExpectation) (v : VerifiedJobSettlement) :
  verify_job_settlement env keys e = Ok v <->
  exists r issued_at public_key,
    verify_envelope env keys = Ok (r, issued_at, public_key) /\
    job_terms r e (vj_billed_value_wei v) /\
    outcome_name (sr_outcome r) = Ok (vj_outcome v) /\
    vj_actual_units v = je_actual_units e /\ vj_issued_at v = issued_at /\
    vj_signing_public_key v = public_key.
Proof. apply job_settlement_iff. Qed.

(** C26: A session settlement is accepted exactly when its envelope verifies and
    the signed record states this session's identity, quote and price, a
    sequence number newer than the last one, a terminal state where required,
    agreeing unit totals, and a bill within the session's funding and
    authorization; claimed units beyond the debited ones only on an exhausted
    authorization whose bill is the normative one. *)
Theorem verify_session_settlement_iff {R : Runtime} {L : SettlementLib} (env : dict)
    (keys : list dict) (e : SessionSettlementExpectation) (v : VerifiedSessionSettlement) :
  verify_session_settlement env keys e = Ok v <->
  exists r issued_at public_key diagnostics,
    verify_envelope env keys = Ok (r, issued_at, public_key) /\
    session_terms r e (vs_billed_value_wei v) /\
    verify_session_diagnostics r = Ok diagnostics /\
    outcome_name (sr_outcome r) = Ok (vs_outcome v) /\
    v = MkVerifiedSession (sr_session_id r) (sr_work_id r) (sr_predecessor_work_id r)
          (sr_rotation_generation r) (sr_settlement_seq r) (sr_state r) (sr_claimed_units r)
          (sr_debited_units r) (vs_billed_value_wei v) (vs_outcome v) issued_at public_key
          (fst (fst (fst diagnostics))) (snd (fst (fst diagnostics))) (snd (fst diagnostics))
          (snd diagnostics).
Proof. apply session_settlement_iff. Qed.

(** A non-admission statement is accepted exactly when it is signed by a key
    delegated at the observation, says NOT_ADMITTED in this exchange's full
    scope, and its coverage spans the instant the authorization was issued. *)
Theorem verify_non_admission_iff {R : Runtime} {L : SettlementLib} (env : dict)
    (keys : list dict) (e : NonAdmissionExpectation) (v : VerifiedNonAdmission) :
  verify_non_admission env keys e = Ok v <->
  exists payload r,
    open_envelope env = Ok (payload, vn_signing_public_key v) /\
    sl_parse_non_admission payload = Some r /\
    non_admission_terms r e (vn_observed_at v) (vn_coverage_started_at v) /\
    authorize_key (vn_signing_public_key v) (vn_observed_at v) keys = Ok tt.
Proof. apply non_admission_iff. Qed.

(** C27: An envelope that verifies carries a 65-byte signature whose recovery
    over the canonical payload gives the returned key, the key is delegated
    by a pinned entry whose validity contains the signed issue time, and the
    returned record is the parsed payload. *)
Theorem verify_envelope_authentic {R : Runtime} {L : SettlementLib} (env : dict)
    (keys : list dict) :
  match verify_envelope env keys with
  | Ok (r, issued_at, public_key) =>
      exists payload signature,
        dget "payload" env = Some (JObj payload) /\
        dget "signature" env = Some (JObj signature) /\
        signs signature payload public_key /\
        sl_parse_record payload = Some r /\
        parse_timestamp (dget "issued_at" payload) "issued_at" = Ok issued_at /\
        Exists (delegated public_key issued_at) keys
  | Err _ => True
  end.
Proof.
  destruct (verify_envelope env keys) as [[[r at_] pk]|] eqn:E; [|done].
  by apply verify_envelope_signed.
Qed.

(** Whatever envelopes arrive, in whatever order or repetition, the
    sequence numbers of a session's accepted settlements strictly increase,
    so no signed record is accepted twice. *)
Theorem session_sequences_increase {R : Runtime} {L : SettlementLib} (keys : list dict)
    (e : SessionSettlementExpectation) (envs : list dict) :
  StronglySorted Z.lt
    (se_last_settlement_seq e :: map vs_settlement_seq (accepted keys e envs)).
Proof.
  destruct (accepted_sorted keys e envs) as [Hf Hs]. constructor; [done|].
  by apply Forall_map.
Qed.

(** The normative bills of successive jobs on one ticket-session curve add
    up to one ceiling over the cumulative units, never a sum of per-job
    ceilings. *)
Theorem curve_bills_telescope (e : JobSettlementExpectation) (start : Z)
    (rs : list SettlementRecord) :
  je_authorization_id e = None -> 0 <= je_amount_wei e -> 0 < je_per_units e ->
  0 <= start -> on_curve start rs ->
  exists bills, mapM (fun r => match job_normative_bill r e with
                               | Ok b => Some b | Err _ => None end) rs = Some bills /\
    Zsum bills = cdiv ((start + curve_units rs) * je_amount_wei e) (je_per_units e)
                 - cdiv (start * je_amount_wei e) (je_per_units e).
Proof. apply curve_bills_sum. Qed.

Definition demo_curve_record (cumulative units : Z) : SettlementRecord :=
  MkSettlementRecord "acct" demo_quote "tokens" units units [] [] 1 [] "" "w" "" 0
    units units 0 [] [x07] 2 0 "closed" "job" cumulative "" "req" "" [] [] [] "dom".

Definition demo_curve_expectation : JobSettlementExpectation :=
  MkJobExpectation "acct" "dom" "req" "job" "w" "tokens" 5 10 100 7 2 "q" 1 [x0a] [x0b]
    None None.

(** Three single units at 7 wei per 2: 4 + 3 + 4, not 4 + 4 + 4. *)
Lemma curve_bills_telescope_witness :
  let rs := [demo_curve_record 1 1; demo_curve_record 2 1; demo_curve_record 3 1] in
  on_curve 0 rs /\
  exists bills, mapM (fun r => match job_normative_bill r demo_curve_expectation with
                               | Ok b => Some b | Err _ => None end) rs = Some bills /\
    Zsum bills = cdiv ((0 + curve_units rs) * 7) 2 - cdiv (0 * 7) 2.
Proof.
  intros rs. assert (H : on_curve 0 rs) by (cbn; lia). split; [exact H|].
  apply (curve_bills_telescope demo_curve_expectation 0 rs); [reflexivity|cbn; lia..|exact H].
Defined.
