(* ===== verification/BrokerSettlement.v ===== *)
(** * The broker client

    [providers/broker_settlement.py]: account, authorization, funding,
    settlement and exchange queries to a Modules broker.  The HTTP transport
    and pydantic's type decoding are third-party code ([BrokerHttp],
    [BrokerCodec]); field constraints, identity checks and the outcome/status
    discipline are the client's own.  The protocols
    [BrokerWholesaleAccountClient] and [BrokerSettlementClient] are interfaces
    over a world, with what they promise; the HTTP client implements them. *)

From S2P Require Import Prelude PyData Errors Effects.
From Stdlib Require Import Strings.Ascii.

Open Scope string_scope.
Open Scope Z_scope.
Open Scope loc_scope.

(** ** Messages *)

Record WholesaleAccountObservation := MkAccountObservation {
  ao_payer : string;
  ao_payee : string;
  ao_wholesale_account_id : string;
  ao_isolation_version : Z;
  ao_settlement_domain_id : string;
  ao_chain_id : Z;
  ao_denomination : string;
  ao_credited_value_wei : Z;
  ao_reserved_value_wei : Z;
  ao_debited_value_wei : Z;
  ao_available_value_wei : Z;
  ao_version : Z;
  ao_observed_at : datetime;
}.

Record WholesaleFundingResult := MkFundingResult {
  fr_payer : string;
  fr_payee : string;
  fr_wholesale_account_id : string;
  fr_isolation_version : Z;
  fr_settlement_domain_id : string;
  fr_credited_value_wei : Z;
  fr_available_value_wei : Z;
  fr_account_version : Z;
  fr_replayed : bool;
  fr_funding_id : string;
}.

(** [SpendAuthorizationState]. *)
Inductive SpendAuthorizationState :=
  SA_ISSUED | SA_ADMITTED | SA_SETTLED | SA_EXPIRED_UNUSED | SA_CANCELED_UNUSED
  | SA_OUTCOME_UNKNOWN | SA_SUPERSEDED.

#[export] Instance sa_state_eq_dec : EqDecision SpendAuthorizationState.
Proof. solve_decision. Defined.

Definition sa_state_str (s : SpendAuthorizationState) : string :=
  match s with
  | SA_ISSUED => "issued" | SA_ADMITTED => "admitted" | SA_SETTLED => "settled"
  | SA_EXPIRED_UNUSED => "expired_unused" | SA_CANCELED_UNUSED => "canceled_unused"
  | SA_OUTCOME_UNKNOWN => "outcome_unknown" | SA_SUPERSEDED => "superseded"
  end.

Record SpendAuthorizationObservation := MkAuthorizationObservation {
  so_payee : string;
  so_settlement_domain_id : string;
  so_payer : string;
  so_wholesale_account_id : string;
  so_isolation_version : Z;
  so_authorization_id : string;
  so_state : SpendAuthorizationState;
  so_reserved_value_wei : Z;
  so_billed_value_wei : Z;
  so_released_value_wei : Z;
  so_actual_units : Z;
  so_settlement_seq : Z;
  so_observed_at : datetime;
}.

(** [BrokerExchangeOutcome]. *)
Inductive BrokerExchangeOutcome :=
  BX_SETTLED | BX_ACCOUNTING_PENDING | BX_IN_FLIGHT | BX_ADMITTED_OUTCOME_UNKNOWN
  | BX_ADMITTED_EVIDENCE_EXPIRED | BX_ADMISSION_REJECTED | BX_NOT_ADMITTED | BX_NO_RECORD.

#[export] Instance bx_outcome_eq_dec : EqDecision BrokerExchangeOutcome.
Proof. solve_decision. Defined.

Definition bx_outcome_str (o : BrokerExchangeOutcome) : string :=
  match o with
  | BX_SETTLED => "SETTLED" | BX_ACCOUNTING_PENDING => "ACCOUNTING_PENDING"
  | BX_IN_FLIGHT => "IN_FLIGHT" | BX_ADMITTED_OUTCOME_UNKNOWN => "ADMITTED_OUTCOME_UNKNOWN"
  | BX_ADMITTED_EVIDENCE_EXPIRED => "ADMITTED_EVIDENCE_EXPIRED"
  | BX_ADMISSION_REJECTED => "ADMISSION_REJECTED" | BX_NOT_ADMITTED => "NOT_ADMITTED"
  | BX_NO_RECORD => "NO_RECORD"
  end.

(** [_ExchangeResponse]: [settlement] and [non_admission] still encoded. *)
Record ExchangeResponse := MkExchangeResponse {
  xr_request_id : string;
  xr_outcome : BrokerExchangeOutcome;
  xr_job_id : option string;
  xr_state : option string;
  xr_status : option Z;
  xr_work_units : option Z;
  xr_unit : option string;
  xr_debit_attempts : option Z;
  xr_deadline : option string;
  xr_ended_at : option string;
  xr_detail : option string;
  xr_settlement : option string;
  xr_non_admission : option string;
  xr_observed_at : option string;
  xr_coverage_started_at : option string;
  xr_replayed : option bool;
}.

(** [BrokerExchangeResult]. *)
Record BrokerExchangeResult := MkExchangeResult {
  xb_body : ExchangeResponse;
  xb_settlement : option dict;
  xb_non_admission : option dict;
}.

Definition xb_outcome (x : BrokerExchangeResult) : BrokerExchangeOutcome :=
  xr_outcome (xb_body x).
Definition xb_job_id (x : BrokerExchangeResult) : option string := xr_job_id (xb_body x).
Definition xb_work_units (x : BrokerExchangeResult) : option Z := xr_work_units (xb_body x).
Definition xb_unit (x : BrokerExchangeResult) : option string := xr_unit (xb_body x).

Record NonAdmissionQuery := MkNonAdmissionQuery {
  nq_protocol : string;
  nq_work_id : string;
  nq_sender : string;
  nq_recipient : string;
  nq_quote_id : string;
  nq_quote_version : Z;
  nq_constraint_fingerprint : string;
  nq_route_fingerprint : string;
  nq_wholesale_account_id : string;
  nq_job_issued_at : string;
}.

(** ** Field constraints *)

(** [^0x[0-9a-f]{n}$] and [^[0-9a-f]{n}$]. *)
Definition hex_text (n : nat) (s : string) : bool :=
  Nat.eqb (String.length s) n && str_forallb is_lower_hex s.
Definition hex_field (n : nat) (s : string) : bool :=
  str_startswith "0x" s && hex_text n (str_drop 2 s).

(** [^[A-Za-z0-9._:-]{1,128}$]. *)
Definition account_id_field (s : string) : bool :=
  Nat.leb 1 (String.length s) && Nat.leb (String.length s) 128
  && str_forallb (fun a => is_lower_alpha a || is_upper_alpha a || is_digit a
       || Ascii.eqb a "."%char || Ascii.eqb a "_"%char || Ascii.eqb a ":"%char
       || Ascii.eqb a "-"%char) s.

Definition account_fields_ok (a : WholesaleAccountObservation) : bool :=
  hex_field 40 (ao_payer a) && hex_field 40 (ao_payee a)
  && account_id_field (ao_wholesale_account_id a) && (ao_isolation_version a =? 1)
  && hex_field 64 (ao_settlement_domain_id a) && (0 <? ao_chain_id a)
  && (0 <=? ao_credited_value_wei a) && (0 <=? ao_reserved_value_wei a)
  && (0 <=? ao_debited_value_wei a) && (0 <=? ao_available_value_wei a)
  && (0 <=? ao_version a) && dt_aware (ao_observed_at a).

Definition funding_fields_ok (f : WholesaleFundingResult) : bool :=
  hex_field 40 (fr_payer f) && hex_field 40 (fr_payee f)
  && account_id_field (fr_wholesale_account_id f) && (fr_isolation_version f =? 1)
  && hex_field 64 (fr_settlement_domain_id f) && (0 <=? fr_credited_value_wei f)
  && (0 <=? fr_available_value_wei f) && (0 <=? fr_account_version f)
  && hex_text 64 (fr_funding_id f).

Definition authorization_fields_ok (a : SpendAuthorizationObservation) : bool :=
  hex_field 40 (so_payee a) && hex_field 64 (so_settlement_domain_id a)
  && hex_field 40 (so_payer a) && account_id_field (so_wholesale_account_id a)
  && (so_isolation_version a =? 1) && str_truthy (so_authorization_id a)
  && (0 <=? so_reserved_value_wei a) && (0 <=? so_billed_value_wei a)
  && (0 <=? so_released_value_wei a) && (0 <=? so_actual_units a)
  && (0 <=? so_settlement_seq a) && dt_aware (so_observed_at a).

Definition opt_nonneg (o : option Z) : bool := match o with Some n => 0 <=? n | None => true end.

Definition exchange_fields_ok (x : ExchangeResponse) : bool :=
  str_truthy (xr_request_id x) && opt_nonneg (xr_work_units x)
  && opt_nonneg (xr_debit_attempts x).

(** Constructing a [NonAdmissionQuery]. *)
Definition non_admission_query_ok (q : NonAdmissionQuery) : bool :=
  str_truthy (nq_protocol q) && str_truthy (nq_work_id q)
  && hex_field 40 (nq_sender q) && hex_field 40 (nq_recipient q)
  && str_truthy (nq_quote_id q) && (0 <=? nq_quote_version q)
  && hex_text 64 (nq_constraint_fingerprint q) && hex_text 64 (nq_route_fingerprint q)
  && account_id_field (nq_wholesale_account_id q) && str_truthy (nq_job_issued_at q).

Definition make_non_admission_query (q : NonAdmissionQuery) : res NonAdmissionQuery :=
  let? _ := require (non_admission_query_ok q) (ValueError "NonAdmissionQuery") in Ok q.

Definition non_admission_query_dump (q : NonAdmissionQuery) : dict :=
  [("protocol", JStr (nq_protocol q)); ("work_id", JStr (nq_work_id q));
   ("sender", JStr (nq_sender q)); ("recipient", JStr (nq_recipient q));
   ("quote_id", JStr (nq_quote_id q)); ("quote_version", JInt (nq_quote_version q));
   ("constraint_fingerprint", JStr (nq_constraint_fingerprint q));
   ("route_fingerprint", JStr (nq_route_fingerprint q));
   ("wholesale_account_id", JStr (nq_wholesale_account_id q));
   ("job_issued_at", JStr (nq_job_issued_at q))].

(** [_SettlementEnvelope.model_validate] then [model_dump(mode="json")]. *)
Definition nonempty_str (k : string) (d : dict) : option string :=
  match dget k d with Some (JStr s) => if str_truthy s then Some s else None | _ => None end.

Definition only_keys (ks : list string) (d : dict) : bool :=
  forallb (fun kv => existsb (String.eqb (fst kv)) ks) d.

Definition settlement_envelope (j : json) : option dict :=
  match j with
  | JObj d =>
      payload ← as_obj (dget "payload" d);
      signature ← as_obj (dget "signature" d);
      algorithm ← nonempty_str "algorithm" signature;
      canonicalization ← nonempty_str "canonicalization" signature;
      value ← nonempty_str "value" signature;
      if only_keys ["payload"; "signature"] d
         && only_keys ["algorithm"; "canonicalization"; "value"] signature
      then Some [("payload", JObj payload);
                 ("signature", JObj [("algorithm", JStr algorithm);
                                     ("canonicalization", JStr canonicalization);
                                     ("value", JStr value)])]
      else None
  | _ => None
  end.

(** ** Transport *)

Record HttpRequest := MkHttpRequest {
  hq_method : string;
  hq_url : string;
  hq_headers : list (string * string);
  hq_json : option dict;
}.

(** [hr_json] is [response.json()], [None] when the body is not JSON. *)
Record HttpResponse := MkHttpResponse {
  hr_status : Z;
  hr_json : option json;
  hr_settlement_header : option string;
  hr_non_admission_header : option string;
}.

(** Sending a request; [None] is an [httpx.HTTPError]. *)
Class BrokerHttp (W : Type) := { bh_send : HttpRequest -> W -> option HttpResponse * W }.

(** Pydantic's decoding of a JSON value into the declared field types, extra
    keys forbidden, and its JSON parser. *)
Class BrokerCodec := {
  bc_account : json -> option WholesaleAccountObservation;
  bc_funding : json -> option WholesaleFundingResult;
  bc_authorization : json -> option SpendAuthorizationObservation;
  bc_exchange : json -> option ExchangeResponse;
  bc_parse_json : bytes -> option json;
}.

Definition checked {A} (ok : A -> bool) (o : option A) : option A :=
  match o with Some a => if ok a then Some a else None | None => None end.

(** ** The client *)

Section client.
Context {DB W : Type} {R : Runtime} {H : BrokerHttp W} {C : BrokerCodec}.
Local Abbreviation M := (M DB W).

(** [try: self._client.send(...) except httpx.HTTPError: raise err]. *)
Definition http (q : HttpRequest) (err : exn) : M HttpResponse :=
  remote (fun w => let '(r, w') := bh_send q w in (of_option r err, w')).

Definition account_err (msg : string) : exn := BrokerWholesaleAccountErr msg.
Definition query_err (msg : string) : exn := BrokerSettlementQueryErr msg.

(** [response.json()] validated as a model with constraints [ok]. *)
Definition decode_body {A} (decode : json -> option A) (ok : A -> bool) (r : HttpResponse)
    (err : exn) : res A :=
  of_option (checked ok (j ← hr_json r; decode j)) err.

(** [get_wholesale_account]. *)
Definition get_wholesale_account (broker_url payer_eth_address payee_eth_address : string)
    (chain_id : Z) (settlement_domain_id wholesale_account_id : string)
  : M WholesaleAccountObservation :=
  let url := str_rstrip_slash broker_url ++ "/v1/payment/account" in
  response <- http (MkHttpRequest "POST" url []
      (Some [("payer_eth_address", JStr payer_eth_address);
             ("wholesale_account_id", JStr wholesale_account_id)]))
    (account_err "broker account query failed") ;;
  guard (hr_status response =? 200)
    (account_err ("broker account query returned HTTP " ++ str_Z (hr_status response))) ;;;
  account <- lift (decode_body bc_account account_fields_ok response
    (account_err "broker returned a malformed wholesale account")) ;;
  guard (String.eqb (ao_payer account) (str_lower payer_eth_address))
    (account_err "broker returned a different payer") ;;;
  guard (String.eqb (ao_payee account) (str_lower payee_eth_address))
    (account_err "broker returned a different payee") ;;;
  guard (ao_chain_id account =? chain_id)
    (account_err "broker returned a different chain_id") ;;;
  guard (String.eqb (ao_denomination account) "wei")
    (account_err "broker returned a non-wei account") ;;;
  guard (String.eqb (ao_settlement_domain_id account) settlement_domain_id)
    (account_err "broker returned a different settlement domain") ;;;
  guard (String.eqb (ao_wholesale_account_id account) wholesale_account_id)
    (account_err "broker returned a different wholesale account") ;;;
  ret account.

(** [get_spend_authorization]. *)
Definition get_spend_authorization (broker_url payer_eth_address authorization_id
    wholesale_account_id payee_eth_address settlement_domain_id : string)
  : M SpendAuthorizationObservation :=
  let url := str_rstrip_slash broker_url ++ "/v1/payment/account" in
  response <- http (MkHttpRequest "POST" url []
      (Some [("payer_eth_address", JStr payer_eth_address);
             ("authorization_id", JStr authorization_id);
             ("wholesale_account_id", JStr wholesale_account_id)]))
    (account_err "broker authorization query failed") ;;
  guard (hr_status response =? 200)
    (account_err ("broker authorization query returned HTTP " ++ str_Z (hr_status response))) ;;;
  observation <- lift (decode_body bc_authorization authorization_fields_ok response
    (account_err "broker returned a malformed spend authorization")) ;;
  guard (String.eqb (so_payer observation) (str_lower payer_eth_address))
    (account_err "broker returned a different authorization payer") ;;;
  guard (String.eqb (so_authorization_id observation) authorization_id)
    (account_err "broker returned a different authorization") ;;;
  guard (String.eqb (so_wholesale_account_id observation) wholesale_account_id)
    (account_err "broker returned a different wholesale account") ;;;
  guard (String.eqb (so_payee observation) (str_lower payee_eth_address))
    (account_err "broker returned a different authorization payee") ;;;
  guard (String.eqb (so_settlement_domain_id observation) settlement_domain_id)
    (account_err "broker returned a different authorization domain") ;;;
  ret observation.

(** [fund_wholesale_account]. *)
Definition fund_wholesale_account (broker_url capability offering : string)
    (payment_bytes : bytes) (payer_eth_address payee_eth_address settlement_domain_id
     wholesale_account_id : string) : M WholesaleFundingResult :=
  guard (negb (bool_decide (payment_bytes = [])))
    (account_err "cannot fund an account with an empty payment") ;;;
  let url := str_rstrip_slash broker_url ++ "/v1/payment/account/fund" in
  response <- http (MkHttpRequest "POST" url
      [("Livepeer-Payment", b64encode payment_bytes); ("Livepeer-Capability", capability);
       ("Livepeer-Offering", offering);
       ("Livepeer-Wholesale-Account-Id", wholesale_account_id)] None)
    (account_err "broker account funding failed") ;;
  guard (hr_status response =? 200)
    (account_err ("broker account funding returned HTTP " ++ str_Z (hr_status response))) ;;;
  result <- lift (decode_body bc_funding funding_fields_ok response
    (account_err "broker returned a malformed account funding acknowledgement")) ;;
  guard (String.eqb (fr_payer result) (str_lower payer_eth_address))
    (account_err "broker funded a different payer") ;;;
  guard (String.eqb (fr_payee result) (str_lower payee_eth_address))
    (account_err "broker funded a different payee") ;;;
  guard (String.eqb (fr_settlement_domain_id result) settlement_domain_id)
    (account_err "broker funded a different settlement domain") ;;;
  guard (String.eqb (fr_wholesale_account_id result) wholesale_account_id)
    (account_err "broker funded a different wholesale account") ;;;
  guard (String.eqb (fr_funding_id result) (bytes_hex (rt_sha256 payment_bytes)))
    (account_err "broker returned a different funding receipt") ;;;
  ret result.

(** Base64, JSON and the envelope schema together. *)
Definition decode_envelope (encoded : string) : option dict :=
  raw ← b64decode encoded; j ← bc_parse_json raw; settlement_envelope j.

(** [get_settlement]. *)
Definition get_settlement (broker_url : string) (gateway_session_id : uuid)
  : M (option dict) :=
  let identifier := url_quote (str_uuid gateway_session_id) in
  let url := str_rstrip_slash broker_url ++ "/v1/settlement/" ++ identifier in
  response <- http (MkHttpRequest "GET" url [] None)
    (query_err "broker settlement query failed") ;;
  if hr_status response =? 404 then ret None
  else
    guard (hr_status response =? 200)
      (query_err ("broker settlement query returned HTTP " ++ str_Z (hr_status response))) ;;;
    encoded <- lift (of_option (hr_settlement_header response)
      (query_err "broker response omitted Livepeer-Settlement")) ;;
    envelope <- lift (of_option (decode_envelope encoded)
      (query_err "broker returned a malformed settlement")) ;;
    ret (Some envelope).

(** [_decode_exchange_envelope]. *)
Definition decode_exchange_envelope (encoded : option string) (label : string)
  : res (option dict) :=
  match encoded with
  | None => Ok None
  | Some e =>
      let? envelope := of_option (decode_envelope e)
        (query_err ("broker returned malformed " ++ label ++ " evidence")) in
      Ok (Some envelope)
  end.

(** [_validate_exchange_status]. *)
Definition expected_status (o : BrokerExchangeOutcome) (allow_conflict : bool) : Z :=
  match o with
  | BX_ACCOUNTING_PENDING | BX_IN_FLIGHT => 202
  | BX_NO_RECORD => 404
  | BX_ADMITTED_EVIDENCE_EXPIRED => if allow_conflict then 409 else 200
  | _ => 200
  end.

Definition validate_exchange_status (status_code : Z) (o : BrokerExchangeOutcome)
    (allow_conflict : bool) : res unit :=
  require (status_code =? expected_status o allow_conflict)
    (query_err ("outcome " ++ bx_outcome_str o ++ " is invalid for HTTP "
                ++ str_Z status_code)).

Definition header_agrees (header body : option string) : bool :=
  match header with
  | None => true
  | Some h => match body with Some b => String.eqb h b | None => false end
  end.

(** [_parse_exchange_response]. *)
Definition parse_exchange_response (response : HttpResponse) (request_id : string)
    (allow_no_record : bool) : res BrokerExchangeResult :=
  let? body := decode_body bc_exchange exchange_fields_ok response
    (query_err "broker returned a malformed exchange outcome") in
  let? _ := require (String.eqb (xr_request_id body) request_id)
    (query_err "broker returned a different request_id") in
  let? _ := require (negb (negb allow_no_record
                           && bool_decide (xr_outcome body = BX_NO_RECORD)))
    (query_err "non-admission endpoint returned NO_RECORD") in
  let? _ := validate_exchange_status (hr_status response) (xr_outcome body)
              (negb allow_no_record) in
  let? _ := require
    (bool_decide (xr_outcome body = BX_NOT_ADMITTED)
     || bool_decide (xr_outcome body = BX_NO_RECORD)
     || match xr_job_id body with Some j => str_truthy j | None => false end)
    (query_err "admitted outcome omitted its broker job_id") in
  let? settlement := decode_exchange_envelope (xr_settlement body) "settlement" in
  let? non_admission := decode_exchange_envelope (xr_non_admission body) "non-admission" in
  let? _ :=
    if bool_decide (xr_outcome body = BX_SETTLED) then
      let? _ := require (bool_decide (is_Some settlement))
        (query_err "SETTLED omitted its signed settlement") in
      require (header_agrees (hr_settlement_header response) (xr_settlement body))
        (query_err "settlement header and body disagree")
    else require (bool_decide (settlement = None))
           (query_err "non-SETTLED outcome carried a settlement") in
  let? _ :=
    if bool_decide (xr_outcome body = BX_NOT_ADMITTED) then
      let? _ := require (bool_decide (is_Some non_admission))
        (query_err "NOT_ADMITTED omitted its signed record") in
      require (header_agrees (hr_non_admission_header response) (xr_non_admission body))
        (query_err "non-admission header and body disagree")
    else require (bool_decide (non_admission = None))
           (query_err "non-admission evidence has the wrong outcome") in
  Ok (MkExchangeResult body settlement non_admission).

(** [get_job_exchange]. *)
Definition get_job_exchange (broker_url request_id : string) : M BrokerExchangeResult :=
  let url := str_rstrip_slash broker_url ++ "/v1/exchange/" ++ url_quote request_id in
  response <- http (MkHttpRequest "GET" url [] None)
    (query_err "broker exchange query failed") ;;
  guard (existsb (Z.eqb (hr_status response)) [200; 202; 404])
    (query_err ("broker exchange query returned HTTP " ++ str_Z (hr_status response))) ;;;
  lift (parse_exchange_response response request_id true).

(** [request_non_admission]. *)
Definition request_non_admission (broker_url request_id : string) (query : NonAdmissionQuery)
  : M BrokerExchangeResult :=
  let url := str_rstrip_slash broker_url ++ "/v1/non-admission/" ++ url_quote request_id in
  response <- http (MkHttpRequest "POST" url [] (Some (non_admission_query_dump query)))
    (query_err "broker non-admission query failed") ;;
  guard (existsb (Z.eqb (hr_status response)) [200; 202; 409])
    (query_err ("broker non-admission query returned HTTP " ++ str_Z (hr_status response))) ;;;
  lift (parse_exchange_response response request_id false).

End client.

(** ** What the checks give *)

Section facts.
Context {DB W : Type} {R : Runtime} {H : BrokerHttp W} {C : BrokerCodec}.

Lemma checked_some {A} ok (o : option A) a : checked ok o = Some a -> ok a = true.
Proof. unfold checked. destruct o as [x|]; [|done]. destruct (ok x) eqn:E; by intros [= <-]. Qed.

Lemma decode_body_ok {A} (decode : json -> option A) ok r e a :
  decode_body decode ok r e = Ok a -> ok a = true.
Proof.
  unfold decode_body, of_option. destruct (checked _ _) as [x|] eqn:E; [|done].
  intros [= <-]. by apply checked_some in E.
Qed.

(** An account observation that reaches the caller is the requested account's,
    with non-negative amounts. *)
Lemma get_wholesale_account_ok url payer payee chain dom acct (s : St DB W) a s' :
  get_wholesale_account url payer payee chain dom acct s = (Ok a, s') ->
  ao_payer a = str_lower payer /\ ao_payee a = str_lower payee /\ ao_chain_id a = chain /\
  ao_denomination a = "wei" /\ ao_settlement_domain_id a = dom /\
  ao_wholesale_account_id a = acct /\ account_fields_ok a = true.
Proof.
  unfold get_wholesale_account. intros Hr. m_inv. subst.
  repeat match goal with Hs : String.eqb _ _ = true |- _ => apply String.eqb_eq in Hs end.
  bool_props.
  match goal with Hd : decode_body _ _ _ _ = Ok _ |- _ => apply decode_body_ok in Hd end.
  auto 10.
Qed.

(** A parsed exchange carries signed evidence exactly when its outcome calls for
    it, under the HTTP status that outcome has. *)
Lemma parse_exchange_response_ok response rid allow x :
  parse_exchange_response response rid allow = Ok x ->
  xr_request_id (xb_body x) = rid /\
  hr_status response = expected_status (xb_outcome x) (negb allow) /\
  (xb_outcome x = BX_NO_RECORD -> allow = true) /\
  (is_Some (xb_settlement x) <-> xb_outcome x = BX_SETTLED) /\
  (is_Some (xb_non_admission x) <-> xb_outcome x = BX_NOT_ADMITTED) /\
  (xb_outcome x <> BX_NOT_ADMITTED -> xb_outcome x <> BX_NO_RECORD ->
     exists j, xb_job_id x = Some j /\ j <> "").
Proof.
  unfold parse_exchange_response, validate_exchange_status. intros Hx. res_inv.
  unfold xb_outcome, xb_job_id. cbn [xb_body xb_settlement xb_non_admission].
  repeat match goal with Hs : String.eqb _ _ = true |- _ => apply String.eqb_eq in Hs end.
  bool_props. split; [done|]. split; [done|]. split.
  { intros HN. rewrite HN in *. destruct allow; [done|].
    match goal with Ha : negb false && _ = false |- _ => by rewrite bool_decide_true in Ha end. }
  assert (Hev : forall (b : bool) (o : option dict) r e1 e2 e3 u,
    (if b then (let? _ := require (bool_decide (is_Some o)) e1 in require r e2)
     else require (bool_decide (o = None)) e3) = Ok u -> is_Some o <-> b = true).
  { intros b o r e1 e2 e3 u Hb. destruct b; res_inv; bool_props; [by split|]. subst.
    split; [by intros []|done]. }
  split; [|split].
  - match goal with Ha : context [BX_SETTLED] |- _ => apply Hev in Ha; rewrite Ha end.
    apply bool_decide_eq_true.
  - match goal with Ha : context [hr_non_admission_header] |- _ =>
      apply Hev in Ha; rewrite Ha end.
    apply bool_decide_eq_true.
  - intros Hn1 Hn2. rewrite !bool_decide_false in * by done. cbn in *.
    destruct (xr_job_id _) as [k|]; [|done]. exists k. split; [done|]. by intros ->.
Qed.

End facts.

(** Arguments in the order of the methods' keyword lists. *)
Class BrokerAccountClient (W : Type) := {
  ba_get_wholesale_account :
    forall (broker_url payer payee : string) (chain_id : Z) (domain account : string),
      W -> res WholesaleAccountObservation * W;
  ba_fund_wholesale_account :
    forall (broker_url capability offering : string) (payment_bytes : bytes)
      (payer payee domain account : string), W -> res WholesaleFundingResult * W;
  ba_get_spend_authorization :
    forall (broker_url payer authorization_id account payee domain : string),
      W -> res SpendAuthorizationObservation * W;
}.

Class BrokerSettlementClient (W : Type) := {
  bs_get_settlement : forall (broker_url : string) (session : uuid), W -> res (option dict) * W;
  bs_get_job_exchange :
    forall (broker_url request_id : string), W -> res BrokerExchangeResult * W;
  bs_request_non_admission :
    forall (broker_url request_id : string) (query : NonAdmissionQuery),
      W -> res BrokerExchangeResult * W;
}.

(** What the account client promises: an observation it returns is of the
    requested account, in wei, with the constraints of its model. *)
Class BrokerAccountSpec {W : Type} (B : BrokerAccountClient W) := {
  ba_account_identity : forall url payer payee chain dom acct w a w',
    ba_get_wholesale_account url payer payee chain dom acct w = (Ok a, w') ->
    ao_payer a = str_lower payer /\ ao_payee a = str_lower payee /\ ao_chain_id a = chain /\
    ao_denomination a = "wei" /\ ao_settlement_domain_id a = dom /\
    ao_wholesale_account_id a = acct /\ account_fields_ok a = true;
}.

(** ** The HTTP implementation *)

(** A computation that touches no database, run on the world alone. *)
Definition on_world {W A} (m : M unit W A) (w : W) : res A * W :=
  let '(r, s) := m (MkSt tt tt false [] 0%nat w) in (r, st_world s).

Section http.
Context {W : Type} {R : Runtime} {H : BrokerHttp W} {C : BrokerCodec}.

#[export] Instance HttpAccountClient : BrokerAccountClient W := {
  ba_get_wholesale_account url payer payee chain dom acct :=
    on_world (get_wholesale_account url payer payee chain dom acct);
  ba_fund_wholesale_account url cap off pay payer payee dom acct :=
    on_world (fund_wholesale_account url cap off pay payer payee dom acct);
  ba_get_spend_authorization url payer auth acct payee dom :=
    on_world (get_spend_authorization url payer auth acct payee dom);
}.

#[export] Instance HttpSettlementClient : BrokerSettlementClient W := {
  bs_get_settlement url session := on_world (get_settlement url session);
  bs_get_job_exchange url rid := on_world (get_job_exchange url rid);
  bs_request_non_admission url rid query := on_world (request_non_admission url rid query);
}.

Lemma on_world_ok {A} (m : M unit W A) w a w' :
  on_world m w = (Ok a, w') -> exists s', m (MkSt tt tt false [] 0%nat w) = (Ok a, s').
Proof. unfold on_world. destruct (m _) as [r s']. intros [= -> _]. eauto. Qed.

#[export] Instance HttpAccountSpec : BrokerAccountSpec HttpAccountClient.
Proof.
  split. cbn. intros url payer payee chain dom acct w a w' Hr.
  apply on_world_ok in Hr as [s' Hr]. by eapply get_wholesale_account_ok.
Qed.

End http.
