(* ===== verification/PaymentDaemon.v ===== *)
(** * The payer daemon boundary

    [providers/payment_daemon/client.py]: the typed funding and authorization
    requests, their protobuf form, the checks on what the daemon returns, and
    the two implementations of the client protocol, the deterministic mock and
    the gRPC client.  [PaymentDaemonClient] is the interface the services call;
    [PaymentDaemonSpec] is what it promises them: a returned authorization has
    exactly the requested scope. *)

From S2P Require Import Prelude PyData DecimalCtx Errors Effects SettlementVerification.
From Stdlib Require Import Strings.Byte Strings.Ascii.

Open Scope string_scope.
Open Scope Z_scope.
Open Scope loc_scope.

#[export] Instance QuoteRef_eq_dec : EqDecision QuoteRef.
Proof. solve_decision. Defined.

(** ** Requests and responses *)

Record AcceptedPrice := MkAcceptedPrice {
  ap_capability : string;
  ap_offering : string;
  ap_price_per_unit_wei : Z;
  ap_units_per_price : Z;
  ap_work_unit_name : string;
  ap_quote_ref : QuoteRef;
}.

Record FundingIntent := MkFundingIntent {
  fi_funded_value_wei : Z;
  fi_estimated_units : Z;
  fi_max_total_units : Z;
}.

Record AccountFundingIntent := MkAccountFundingIntent {
  af_target_available_wei : Z;
  af_observed_available_wei : Z;
  af_settlement_domain_id : string;
  af_wholesale_account_id : string;
}.

Record CreatePaymentRequest := MkCreatePaymentRequest {
  cr_mint_request_id : string;
  cr_recipient : bytes;
  cr_ticket_params_base_url : string;
  cr_accepted_price : AcceptedPrice;
  cr_funding : FundingIntent;
  cr_account_funding : AccountFundingIntent;
}.

Record DepositInfo := MkDepositInfo {
  di_deposit_wei : Z;
  di_reserve_wei : Z;
  di_withdraw_round : Z;
  di_current_round : Z;
  di_ticket_validity_period : Z;
  di_ticket_validity_period_observed_at : datetime;
}.

Record CreatePaymentResponse := MkCreatePaymentResponse {
  cp_payment_bytes : bytes;
  cp_sender : bytes;
  cp_tickets_created : Z;
  cp_expected_value : Z;
  cp_funded_value_wei : Z;
  cp_accepted_quote_ref : QuoteRef;
  cp_work_id : string;
  cp_creation_round : Z;
  cp_expires_after_round : Z;
  cp_ticket_validity_period : Z;
  cp_ticket_validity_period_observed_at : option datetime;
  cp_predecessor_work_id : string;
  cp_account_shortfall_wei : option Z;
}.

Record CreateSpendAuthorizationRequest := MkSpendAuthorizationRequest {
  sq_payee : bytes;
  sq_authorization_id : string;
  sq_request_id : string;
  sq_session_id : string;
  sq_protocol : string;
  sq_accepted_price : AcceptedPrice;
  sq_max_debit_wei : Z;
  sq_max_total_units : Z;
  sq_not_before : datetime;
  sq_expires_at : datetime;
  sq_request_digest : bytes;
  sq_caller_public_key : bytes;
  sq_revision : Z;
  sq_predecessor_authorization_id : string;
  sq_broker_uri : string;
  sq_chain_id : Z;
  sq_settlement_domain_id : string;
  sq_wholesale_account_id : string;
  sq_denomination : string;
}.

Record CreateSpendAuthorizationResponse := MkSpendAuthorizationResponse {
  sp_authorization_bytes : bytes;
  sp_authorization_id : string;
  sp_payer : bytes;
}.

#[export] Instance AcceptedPrice_eq_dec : EqDecision AcceptedPrice.
Proof. solve_decision. Defined.
#[export] Instance FundingIntent_eq_dec : EqDecision FundingIntent.
Proof. solve_decision. Defined.
#[export] Instance AccountFundingIntent_eq_dec : EqDecision AccountFundingIntent.
Proof. solve_decision. Defined.
#[export] Instance CreatePaymentRequest_eq_dec : EqDecision CreatePaymentRequest.
Proof. solve_decision. Defined.
#[export] Instance SpendAuthorizationRequest_eq_dec : EqDecision CreateSpendAuthorizationRequest.
Proof. solve_decision. Defined.

(** [payment_bytes_b64] and [authorization_b64]. *)
Definition payment_bytes_b64 (r : CreatePaymentResponse) : string := b64encode (cp_payment_bytes r).
Definition authorization_b64 (r : CreateSpendAuthorizationResponse) : string :=
  b64encode (sp_authorization_bytes r).

(** ** Validators and codecs *)

Definition account_label_char (a : ascii) : bool :=
  is_lower_alpha a || is_upper_alpha a || is_digit a || Ascii.eqb a "."%char
  || Ascii.eqb a "_"%char || Ascii.eqb a ":"%char || Ascii.eqb a "-"%char.

(** [_validate_wholesale_account_id]. *)
Definition validate_wholesale_account_id (value : string) : res unit :=
  require (Nat.leb 1 (String.length value) && Nat.leb (String.length value) 128
           && str_forallb account_label_char value)
    (ValueError "wholesale_account_id must be 1..128 ASCII account-label characters").

Definition domain_error : exn :=
  ValueError "settlement_domain_id must be a nonzero lowercase 0x-prefixed uint256".

(** [_validate_settlement_domain_id]. *)
Definition validate_settlement_domain_id (value : string) : res unit :=
  let? _ := require (Nat.eqb (String.length value) 66 && str_startswith "0x" value
                     && String.eqb (str_drop 2 value) (str_lower (str_drop 2 value)))
              domain_error in
  let? parsed := of_option (int_of_hex (str_drop 2 value)) domain_error in
  require (negb (parsed =? 0)) domain_error.

(** [int_to_biguint_bytes]. *)
Definition int_to_biguint_bytes (n : Z) : res bytes :=
  if n <? 0 then Err (ValueError ("BigUInt is unsigned; got " ++ str_Z n))
  else if n =? 0 then Ok []
  else Ok (to_bytes_big (Z.to_nat ((bit_length n + 7) / 8)) n).

(** [biguint_bytes_to_decimal]. *)
Definition biguint_bytes_to_decimal (raw : bytes) : Z := from_bytes_big raw.

(** [_parse_observed_at]. *)
Definition parse_observed_at {R : Runtime} (value : string) : res datetime :=
  let? parsed := of_option (rt_fromisoformat (str_replace_Z value))
    (PaymentDaemonErr "daemon returned malformed validity observation time") in
  let? _ := require (dt_aware parsed)
    (PaymentDaemonErr "daemon returned timezone-naive validity observation time") in
  Ok parsed.

Definition str_rstrip_zeros (s : string) : string :=
  str_rev (str_lstrip_char "0"%char (str_rev s)).

(** [_format_rfc3339]. *)
Definition format_rfc3339 (value : datetime) : res string :=
  let? _ := require (dt_aware value)
    (ValueError "authorization timestamps must include timezone data") in
  let micros := dt_us value mod 1000000 in
  let result := dt_strftime value in
  Ok ((if micros =? 0 then result
       else result ++ str_rstrip_zeros ("." ++ str_pad 6 micros)) ++ "Z").

(** ** Protobuf messages *)

Record PriceProto := MkPriceProto {
  pp_price_per_unit_wei : bytes;
  pp_units_per_price : Z;
  pp_work_unit_name : string;
  pp_capability : string;
  pp_offering : string;
  pp_quote_ref : QuoteRef;
}.

(** [CreateSpendAuthorizationRequest] on the wire. *)
Record SpendAuthorizationProto := MkSpendAuthorizationProto {
  ax_payee : bytes;
  ax_authorization_id : string;
  ax_request_id : string;
  ax_session_id : string;
  ax_protocol : string;
  ax_accepted_price : PriceProto;
  ax_max_debit_wei : bytes;
  ax_max_total_units : Z;
  ax_not_before : string;
  ax_expires_at : string;
  ax_request_digest : bytes;
  ax_caller_public_key : bytes;
  ax_revision : Z;
  ax_predecessor_authorization_id : string;
  ax_broker_uri : string;
  ax_chain_id : Z;
  ax_denomination : string;
  ax_settlement_domain_id : string;
  ax_wholesale_account_id : string;
}.

(** [SpendAuthorizationPayload]: the domain, the payer, and the request's
    fields, with the price's capability and offering repeated. *)
Record SpendAuthorizationPayload := MkSpendAuthorizationPayload {
  ay_domain : string;
  ay_payer : bytes;
  ay_capability : string;
  ay_offering : string;
  ay_scope : SpendAuthorizationProto;
}.

#[export] Instance PriceProto_eq_dec : EqDecision PriceProto.
Proof. solve_decision. Defined.
#[export] Instance SpendAuthorizationProto_eq_dec : EqDecision SpendAuthorizationProto.
Proof. solve_decision. Defined.
#[export] Instance SpendAuthorizationPayload_eq_dec : EqDecision SpendAuthorizationPayload.
Proof. solve_decision. Defined.

(** [CreatePaymentRequest] on the wire; [top_up_allowed] is always false. *)
Record CreatePaymentProto := MkCreatePaymentProto {
  cx_mint_request_id : string;
  cx_recipient : bytes;
  cx_ticket_params_base_url : string;
  cx_accepted_price : PriceProto;
  cx_estimated_units : Z;
  cx_funded_value_wei : bytes;
  cx_max_total_units : Z;
  cx_target_available_wei : bytes;
  cx_observed_available_wei : bytes;
  cx_settlement_domain_id : string;
  cx_wholesale_account_id : string;
}.

(** [CreatePaymentResponse] on the wire. *)
Record PaymentResponseProto := MkPaymentResponseProto {
  rx_payment_bytes : bytes;
  rx_tickets_created : Z;
  rx_expected_value : bytes;
  rx_funded_value_wei : bytes;
  rx_accepted_quote_ref : QuoteRef;
  rx_work_id : string;
  rx_predecessor_work_id : string;
  rx_creation_round : Z;
  rx_expires_after_round : Z;
  rx_ticket_validity_period : Z;
  rx_ticket_validity_period_observed_at : string;
  rx_account_shortfall_wei : bytes;
}.

(** Protobuf's wire format: the signed authorization and the sender of a
    payment; [None] is a [DecodeError]. *)
Class ProtoCodec := {
  px_encode_authorization : SpendAuthorizationPayload -> bytes -> bytes;
  px_decode_authorization : bytes -> option (SpendAuthorizationPayload * bytes);
  px_payment_sender : bytes -> option bytes;
}.

(** What is serialised parses back. *)
Class ProtoCodecLaws {P : ProtoCodec} := {
  px_roundtrip : forall payload sig,
    px_decode_authorization (px_encode_authorization payload sig) = Some (payload, sig);
}.

(** ** Mapping requests *)

Definition price_to_proto (p : AcceptedPrice) : res PriceProto :=
  let? price := int_to_biguint_bytes (ap_price_per_unit_wei p) in
  Ok (MkPriceProto price (ap_units_per_price p) (ap_work_unit_name p) (ap_capability p)
        (ap_offering p) (ap_quote_ref p)).

Definition bytes_truthy (b : bytes) : bool := negb (bool_decide (b = [])).

(** [spend_authorization_request_to_proto]. *)
Definition spend_authorization_request_to_proto (q : CreateSpendAuthorizationRequest)
  : res SpendAuthorizationProto :=
  let? _ := require (Nat.eqb (length (sq_payee q)) 20)
    (ValueError "authorization payee must be exactly 20 bytes") in
  let? _ := require (str_truthy (sq_authorization_id q) && str_truthy (sq_request_id q))
    (ValueError "authorization_id and request_id are required") in
  let? backwards := dt_leb (sq_expires_at q) (sq_not_before q) in
  let? _ := require (negb backwards)
    (ValueError "authorization expires_at must be after not_before") in
  let? _ := require (existsb (String.eqb (sq_protocol q)) ["paid-job/v1"; "paid-session/v1"])
    (ValueError "authorization protocol is not supported") in
  let? _ := require (negb (String.eqb (sq_protocol q) "paid-job/v1"
                           && (str_truthy (sq_session_id q) || negb (sq_revision q =? 0)
                               || str_truthy (sq_predecessor_authorization_id q))))
    (ValueError "job authorization cannot carry session revision fields") in
  let? _ := require (negb (String.eqb (sq_protocol q) "paid-session/v1"
                           && negb (str_truthy (sq_session_id q))))
    (ValueError "session authorization requires session_id") in
  let? _ := require (Bool.eqb (negb (sq_revision q =? 0))
                       (str_truthy (sq_predecessor_authorization_id q)))
    (ValueError "authorization revision and predecessor must appear together") in
  let? _ := require (negb ((sq_max_debit_wei q <=? 0) || (sq_max_total_units q <=? 0)))
    (ValueError "authorization maximums must be positive") in
  let? _ := require (Nat.eqb (length (sq_request_digest q)) 32)
    (ValueError "authorization request_digest must be exactly 32 bytes") in
  let? _ := require (negb (bytes_truthy (sq_caller_public_key q)
                           && negb (Nat.eqb (length (sq_caller_public_key q)) 33
                                    || Nat.eqb (length (sq_caller_public_key q)) 65)))
    (ValueError "authorization caller_public_key must be 33 or 65 bytes") in
  let broker_uri := str_rstrip (str_lstrip (sq_broker_uri q)) in
  let? _ := require (str_truthy broker_uri)
    (ValueError "authorization broker_uri is required") in
  let? _ := require (negb ((sq_chain_id q <=? 0) || negb (String.eqb (sq_denomination q) "wei")))
    (ValueError "authorization requires a positive chain_id and wei denomination") in
  let? _ := validate_wholesale_account_id (sq_wholesale_account_id q) in
  let? _ := validate_settlement_domain_id (sq_settlement_domain_id q) in
  let? price := price_to_proto (sq_accepted_price q) in
  let? max_debit := int_to_biguint_bytes (sq_max_debit_wei q) in
  let? not_before := format_rfc3339 (sq_not_before q) in
  let? expires_at := format_rfc3339 (sq_expires_at q) in
  Ok (MkSpendAuthorizationProto (sq_payee q) (sq_authorization_id q) (sq_request_id q)
        (sq_session_id q) (sq_protocol q) price max_debit (sq_max_total_units q) not_before
        expires_at (sq_request_digest q) (sq_caller_public_key q) (sq_revision q)
        (sq_predecessor_authorization_id q) (str_rstrip_slash broker_uri) (sq_chain_id q)
        (sq_denomination q) (sq_settlement_domain_id q) (sq_wholesale_account_id q)).

(** [_expected_authorization_payload]. *)
Definition expected_authorization_payload (proto : SpendAuthorizationProto) (payer : bytes)
  : SpendAuthorizationPayload :=
  MkSpendAuthorizationPayload "livepeer-spend-authorization/v3" payer
    (pp_capability (ax_accepted_price proto)) (pp_offering (ax_accepted_price proto)) proto.

(** [dataclass_request_to_proto]. *)
Definition dataclass_request_to_proto (q : CreatePaymentRequest) : res CreatePaymentProto :=
  let? price := price_to_proto (cr_accepted_price q) in
  let? funded := int_to_biguint_bytes (fi_funded_value_wei (cr_funding q)) in
  let account := cr_account_funding q in
  let? _ := validate_wholesale_account_id (af_wholesale_account_id account) in
  let? _ := validate_settlement_domain_id (af_settlement_domain_id account) in
  let? target := int_to_biguint_bytes (af_target_available_wei account) in
  let? observed := int_to_biguint_bytes (af_observed_available_wei account) in
  Ok (MkCreatePaymentProto (cr_mint_request_id q) (cr_recipient q)
        (cr_ticket_params_base_url q) price (fi_estimated_units (cr_funding q)) funded
        (fi_max_total_units (cr_funding q)) target observed
        (af_settlement_domain_id account) (af_wholesale_account_id account)).

(** ** Checking responses *)

Definition account_shortfall (q : CreatePaymentRequest) : Z :=
  Z.max 0 (dsub (af_target_available_wei (cr_account_funding q))
                (af_observed_available_wei (cr_account_funding q))).

(** [validate_funding_response]. *)
Definition validate_funding_response (q : CreatePaymentRequest) (r : CreatePaymentResponse)
  : res CreatePaymentResponse :=
  let requested := account_shortfall q in
  let? _ := require (bool_decide (cp_account_shortfall_wei r = Some requested))
    (PaymentDaemonErr "daemon account_shortfall_wei does not match the bounded shortfall") in
  let? _ := require (cp_expected_value r =? requested)
    (PaymentDaemonErr "daemon expected_value does not equal the bounded account shortfall") in
  let? _ := require (cp_funded_value_wei r =? requested)
    (PaymentDaemonErr "daemon funded_value_wei does not echo the requested funding intent") in
  if requested =? 0 then
    let? _ := require (negb (bytes_truthy (cp_payment_bytes r)
                             || negb (cp_tickets_created r =? 0)
                             || negb (cp_expected_value r =? 0)))
      (PaymentDaemonErr "daemon minted a payment for a zero account shortfall") in
    Ok r
  else
    let? _ := require (Nat.eqb (length (cp_sender r)) 20)
      (PaymentDaemonErr "daemon payment sender must be exactly 20 bytes") in
    let? _ := require (negb (str_truthy (cp_predecessor_work_id r)
                             && String.eqb (cp_predecessor_work_id r) (cp_work_id r)))
      (PaymentDaemonErr "daemon returned a self-referential predecessor_work_id") in
    Ok r.

Section responses.
Context {R : Runtime} {P : ProtoCodec}.

(** [spend_authorization_response_to_dataclass]. *)
Definition spend_authorization_response_to_dataclass (r : CreateSpendAuthorizationResponse)
  : res CreateSpendAuthorizationResponse :=
  let? _ := require (bytes_truthy (sp_authorization_bytes r))
    (PaymentDaemonErr "daemon returned an empty spend authorization") in
  let? _ := require (str_truthy (sp_authorization_id r))
    (PaymentDaemonErr "daemon returned an empty authorization_id") in
  let? _ := require (Nat.eqb (length (sp_payer r)) 20)
    (PaymentDaemonErr "daemon authorization payer must be exactly 20 bytes") in
  Ok r.

(** [validate_spend_authorization_response]; the list of changed fields in the
    message is left out. *)
Definition validate_spend_authorization_response (q : CreateSpendAuthorizationRequest)
    (r : CreateSpendAuthorizationResponse) : res CreateSpendAuthorizationResponse :=
  let? proto_request := spend_authorization_request_to_proto q in
  let? (payload, signature) := of_option (px_decode_authorization (sp_authorization_bytes r))
    (PaymentDaemonErr "daemon returned malformed authorization_bytes") in
  let? _ := require (Nat.eqb (length signature) 65)
    (PaymentDaemonErr "daemon returned a malformed authorization signature") in
  let expected := expected_authorization_payload proto_request (sp_payer r) in
  let? _ := require (bool_decide (payload = expected))
    (PaymentDaemonErr "daemon changed the requested authorization scope") in
  Ok r.

Definition ticket_telemetry_inconsistent (r : CreatePaymentResponse) : bool :=
  (cp_creation_round r <=? 0) || (cp_ticket_validity_period r <=? 0)
  || bool_decide (cp_ticket_validity_period_observed_at r = None)
  || negb (cp_expires_after_round r
           =? cp_creation_round r + cp_ticket_validity_period r - 1).

Definition funding_telemetry_present (r : CreatePaymentResponse) : bool :=
  existsb (fun n => negb (n =? 0))
    [cp_tickets_created r; cp_expected_value r; cp_funded_value_wei r; cp_creation_round r;
     cp_expires_after_round r; cp_ticket_validity_period r].

(** [proto_response_to_dataclass]. *)
Definition proto_response_to_dataclass (proto : PaymentResponseProto)
  : res CreatePaymentResponse :=
  let payment_bytes := rx_payment_bytes proto in
  let? sender :=
    if bytes_truthy payment_bytes then
      let? s := of_option (px_payment_sender payment_bytes)
        (PaymentDaemonErr "daemon returned malformed payment_bytes") in
      let? _ := require (Nat.eqb (length s) 20)
        (PaymentDaemonErr "daemon payment_bytes omitted its 20-byte sender") in
      Ok s
    else Ok [] in
  let? observed_at :=
    if str_truthy (rx_ticket_validity_period_observed_at proto) then
      let? t := parse_observed_at (rx_ticket_validity_period_observed_at proto) in Ok (Some t)
    else Ok None in
  let response := MkCreatePaymentResponse payment_bytes sender (rx_tickets_created proto)
    (biguint_bytes_to_decimal (rx_expected_value proto))
    (biguint_bytes_to_decimal (rx_funded_value_wei proto))
    (rx_accepted_quote_ref proto) (rx_work_id proto) (rx_creation_round proto)
    (rx_expires_after_round proto) (rx_ticket_validity_period proto) observed_at
    (rx_predecessor_work_id proto)
    (Some (biguint_bytes_to_decimal (rx_account_shortfall_wei proto))) in
  let? _ := require (negb (bytes_truthy payment_bytes && ticket_telemetry_inconsistent response))
    (PaymentDaemonErr "daemon returned inconsistent ticket-validity telemetry") in
  let? _ := require (negb (negb (bytes_truthy payment_bytes) && funding_telemetry_present response))
    (PaymentDaemonErr "daemon returned funding telemetry without payment_bytes") in
  Ok response.

End responses.

(** ** The client interface *)

(** [PaymentDaemonClient], over a world [W]. *)
Class PaymentDaemonClient (W : Type) := {
  pd_create_payment : CreatePaymentRequest -> W -> res CreatePaymentResponse * W;
  pd_create_spend_authorization :
    CreateSpendAuthorizationRequest -> W -> res CreateSpendAuthorizationResponse * W;
  pd_get_deposit_info : W -> res DepositInfo * W;
}.

(** What a client promises, in the worlds it can be in: an authorization it
    returns is the one requested, with exactly the requested scope. *)
Class PaymentDaemonSpec {W : Type} {P : ProtoCodec} (D : PaymentDaemonClient W) := {
  pd_ok : W -> Prop;
  pd_payment_ok : forall q w, pd_ok w -> pd_ok (snd (pd_create_payment q w));
  pd_authorization_ok : forall q w,
    pd_ok w -> pd_ok (snd (pd_create_spend_authorization q w));
  pd_authorization_scope : forall q w r w',
    pd_ok w -> pd_create_spend_authorization q w = (Ok r, w') ->
    validate_spend_authorization_response q r = Ok r /\
    sp_authorization_id r = sq_authorization_id q;
}.
