(* ===== verification/PaymentDaemonClients.v ===== *)
(** * The two payer daemon clients

    [MockPaymentDaemonClient], a deterministic replay-safe stand-in, and
    [GrpcPaymentDaemonClient], the mapping of the daemon's RPCs and statuses.
    Both discharge [PaymentDaemonSpec]. *)

From S2P Require Import Prelude PyData DecimalCtx Errors Effects SettlementVerification.
From S2P Require Import PaymentDaemon.
From Stdlib Require Import Strings.Byte Strings.Ascii.

Open Scope string_scope.
Open Scope Z_scope.
Open Scope loc_scope.

(** ** The mock *)

(** [_mint_replays], [_session_work_ids] and [_authorization_replays]. *)
Record MockDaemon := MkMockDaemon {
  mk_mints : gmap string (CreatePaymentRequest * CreatePaymentResponse);
  mk_session_work_ids : list ((bytes * string * string * string) * string);
  mk_authorizations :
    gmap string (CreateSpendAuthorizationRequest * CreateSpendAuthorizationResponse);
}.

Definition mock_empty : MockDaemon := MkMockDaemon ∅ [] ∅.

Definition str_bytes (s : string) : bytes := String.list_byte_of_string s.

Fixpoint assoc_get {K V} `{!EqDecision K} (k : K) (l : list (K * V)) : option V :=
  match l with
  | [] => None
  | (k', v) :: l' => if decide (k = k') then Some v else assoc_get k l'
  end.

(** 2026-01-01T00:00:00Z. *)
Definition mock_observed_at : datetime := DT 1767225600000000 true.

Definition mock_payer : bytes := repeat xaa 20.

(** The response to a zero shortfall. *)
Definition zero_payment (q : CreatePaymentRequest) : CreatePaymentResponse :=
  MkCreatePaymentResponse [] [] 0 0 0 (ap_quote_ref (cr_accepted_price q)) "" 0 0 0 None ""
    (Some 0).

Section mock.
Context {R : Runtime} {P : ProtoCodec}.

Definition mock_digest (q : CreatePaymentRequest) : bytes :=
  rt_sha256 (cr_recipient q ++ str_bytes (qr_quote_id (ap_quote_ref (cr_accepted_price q)))
             ++ str_bytes (cr_mint_request_id q))%list.

Definition mock_payment (q : CreatePaymentRequest) (funded expected : Z) (work_id : string)
  : CreatePaymentResponse :=
  MkCreatePaymentResponse
    (str_bytes "OPEN-CLEARINGHOUSE-MOCK-PAYMENT-V1" ++ mock_digest q ++ str_bytes (str_Z funded)
     ++ str_bytes "|" ++ str_bytes (ap_capability (cr_accepted_price q)))%list
    mock_payer 1 expected funded (ap_quote_ref (cr_accepted_price q)) work_id 100 101 2
    (Some mock_observed_at) "" (Some funded).

(** [(funded * Decimal("1.0")).quantize(Decimal(1))]: the default EV ratio keeps
    the amount; the result must fit the context. *)
Definition mock_expected_value (funded : Z) : res Z :=
  if Z.abs funded <? DLIMIT then Ok funded else Err DecimalInvalidOperation.

(** [MockPaymentDaemonClient.create_payment]. *)
Definition mock_create_payment (q : CreatePaymentRequest) (w : MockDaemon)
  : res CreatePaymentResponse * MockDaemon :=
  if negb (str_truthy (cr_mint_request_id q))
  then (Err (PaymentDaemonErr "mint_request_id is required"), w)
  else match mk_mints w !! cr_mint_request_id q with
  | Some (original_request, original_response) =>
      if decide (q = original_request) then (Ok original_response, w)
      else (Err (PaymentDaemonErr "mint_request_id was used for different request content"), w)
  | None =>
      let funded := account_shortfall q in
      match mock_expected_value funded with
      | Err e => (Err e, w)
      | Ok expected =>
          if funded =? 0 then
            let response := zero_payment q in
            (Ok response,
             MkMockDaemon (<[cr_mint_request_id q := (q, response)]> (mk_mints w))
               (mk_session_work_ids w) (mk_authorizations w))
          else
            let key := (cr_recipient q, ap_capability (cr_accepted_price q),
                        ap_offering (cr_accepted_price q), cr_ticket_params_base_url q) in
            let '(work_id, work_ids) :=
              match assoc_get key (mk_session_work_ids w) with
              | Some id => (id, mk_session_work_ids w)
              | None =>
                  let id := bytes_hex (mock_digest q) in
                  (id, (mk_session_work_ids w ++ [(key, id)])%list)
              end in
            let response := mock_payment q funded expected work_id in
            (Ok response,
             MkMockDaemon (<[cr_mint_request_id q := (q, response)]> (mk_mints w)) work_ids
               (mk_authorizations w))
      end
  end.

Definition mock_authorization (q : CreateSpendAuthorizationRequest)
    (proto : SpendAuthorizationProto) : CreateSpendAuthorizationResponse :=
  MkSpendAuthorizationResponse
    (px_encode_authorization (expected_authorization_payload proto mock_payer) (repeat x00 65))
    (sq_authorization_id q) mock_payer.

(** [MockPaymentDaemonClient.create_spend_authorization]. *)
Definition mock_create_spend_authorization (q : CreateSpendAuthorizationRequest) (w : MockDaemon)
  : res CreateSpendAuthorizationResponse * MockDaemon :=
  match mk_authorizations w !! sq_authorization_id q with
  | Some (original_request, original_response) =>
      if decide (q = original_request) then (Ok original_response, w)
      else (Err (PaymentDaemonErr "authorization_id was used for different request content"), w)
  | None =>
      match (let? proto := spend_authorization_request_to_proto q in
             validate_spend_authorization_response q (mock_authorization q proto)) with
      | Err e => (Err e, w)
      | Ok response =>
          (Ok response,
           MkMockDaemon (mk_mints w) (mk_session_work_ids w)
             (<[sq_authorization_id q := (q, response)]> (mk_authorizations w)))
      end
  end.

(** [MockPaymentDaemonClient.get_deposit_info]. *)
Definition mock_get_deposit_info (w : MockDaemon) : res DepositInfo * MockDaemon :=
  (Ok (MkDepositInfo (10 ^ 18) 0 0 100 2 mock_observed_at), w).

#[export] Instance MockClient : PaymentDaemonClient MockDaemon := {
  pd_create_payment := mock_create_payment;
  pd_create_spend_authorization := mock_create_spend_authorization;
  pd_get_deposit_info := mock_get_deposit_info;
}.

End mock.

(** ** The gRPC client *)

(** An [AioRpcError]: its status name and details. *)
Record RpcError := MkRpcError { re_code : string; re_details : option string }.

(** The deposit reply on the wire. *)
Record DepositProto := MkDepositProto {
  dx_deposit : bytes;
  dx_reserve : bytes;
  dx_withdraw_round : Z;
  dx_current_round : Z;
  dx_ticket_validity_period : Z;
  dx_ticket_validity_period_observed_at : string;
}.

(** The daemon's RPCs. *)
Class PayerStub (W : Type) := {
  ps_rpc_create_payment : CreatePaymentProto -> W -> (PaymentResponseProto + RpcError) * W;
  ps_rpc_create_spend_authorization :
    SpendAuthorizationProto -> W -> (CreateSpendAuthorizationResponse + RpcError) * W;
  ps_rpc_get_deposit_info : W -> (DepositProto + RpcError) * W;
}.

(** [_DEFINITIVE_AUTHORIZATION_REFUSALS]. *)
Definition DEFINITIVE_AUTHORIZATION_REFUSALS : list string :=
  ["FAILED_PRECONDITION"; "INVALID_ARGUMENT"; "PERMISSION_DENIED"; "OUT_OF_RANGE"].

Definition contains (sub s : string) : bool :=
  match String.index 0 sub s with Some _ => true | None => false end.

(** [exc.details() or d]. *)
Definition details_or (d : string) (e : RpcError) : string :=
  match re_details e with Some s => if str_truthy s then s else d | None => d end.

(** The [except grpc.aio.AioRpcError] clause of [create_payment]. *)
Definition map_mint_error (e : RpcError) : exn :=
  let details := str_lower (details_or "" e) in
  if String.eqb (re_code e) "FAILED_PRECONDITION"
     && (contains "reserved but never completed" details
         || contains "replay record has expired" details)
  then MintOutcomeUnknown (details_or "mint outcome unknown" e)
  else if contains "deposit" details || contains "reserve" details
          || contains "withdrawround" details || contains "withdraw_round" details
  then DaemonDepositInsufficient (details_or "deposit insufficient" e)
  else PaymentDaemonErr (re_code e ++ ": " ++ details_or "" e).

(** ... and of [create_spend_authorization]. *)
Definition map_authorization_error (e : RpcError) : exn :=
  let message := "CreateSpendAuthorization " ++ re_code e ++ ": " ++ details_or "" e in
  if existsb (String.eqb (re_code e)) DEFINITIVE_AUTHORIZATION_REFUSALS
  then SpendAuthorizationRefused message else PaymentDaemonErr message.

Section grpc.
Context {W : Type} {R : Runtime} {P : ProtoCodec} {S : PayerStub W}.

(** [GrpcPaymentDaemonClient.create_payment]. *)
Definition grpc_create_payment (q : CreatePaymentRequest) (w : W)
  : res CreatePaymentResponse * W :=
  match dataclass_request_to_proto q with
  | Err e => (Err e, w)
  | Ok proto_req =>
      match ps_rpc_create_payment proto_req w with
      | (inr e, w') => (Err (map_mint_error e), w')
      | (inl proto_resp, w') => (proto_response_to_dataclass proto_resp, w')
      end
  end.

(** [GrpcPaymentDaemonClient.create_spend_authorization]. *)
Definition grpc_create_spend_authorization (q : CreateSpendAuthorizationRequest) (w : W)
  : res CreateSpendAuthorizationResponse * W :=
  match spend_authorization_request_to_proto q with
  | Err e => (Err e, w)
  | Ok proto_req =>
      match ps_rpc_create_spend_authorization proto_req w with
      | (inr e, w') => (Err (map_authorization_error e), w')
      | (inl response, w') =>
          (let? mapped := spend_authorization_response_to_dataclass response in
           let? _ := require (String.eqb (sp_authorization_id mapped) (sq_authorization_id q))
             (PaymentDaemonErr "daemon returned a different authorization_id") in
           validate_spend_authorization_response q mapped, w')
      end
  end.

(** [GrpcPaymentDaemonClient.get_deposit_info]. *)
Definition grpc_get_deposit_info (w : W) : res DepositInfo * W :=
  match ps_rpc_get_deposit_info w with
  | (inr e, w') => (Err (AioRpcErr (re_code e) (re_details e)), w')
  | (inl resp, w') =>
      (let? observed_at := parse_observed_at (dx_ticket_validity_period_observed_at resp) in
       let info := MkDepositInfo (biguint_bytes_to_decimal (dx_deposit resp))
         (biguint_bytes_to_decimal (dx_reserve resp)) (dx_withdraw_round resp)
         (dx_current_round resp) (dx_ticket_validity_period resp) observed_at in
       let? _ := require (negb ((di_current_round info <=? 0)
                                || (di_ticket_validity_period info <=? 0)))
         (PaymentDaemonErr "daemon returned invalid current validity telemetry") in
       Ok info, w')
  end.

#[export] Instance GrpcClient : PaymentDaemonClient W := {
  pd_create_payment := grpc_create_payment;
  pd_create_spend_authorization := grpc_create_spend_authorization;
  pd_get_deposit_info := grpc_get_deposit_info;
}.

End grpc.

(** ** Facts *)

Section facts.
Context {R : Runtime} {P : ProtoCodec}.

Lemma validate_authorization_same q r r' :
  validate_spend_authorization_response q r = Ok r' -> r' = r.
Proof. unfold validate_spend_authorization_response. intros H. by res_inv. Qed.

(** Every recorded answer passes the response check for its own request. *)
Definition mock_ok (w : MockDaemon) : Prop :=
  forall id q r, mk_authorizations w !! id = Some (q, r) ->
    sq_authorization_id q = id /\ validate_spend_authorization_response q r = Ok r /\
    sp_authorization_id r = id.

Lemma mock_empty_ok : mock_ok mock_empty.
Proof. intros id q r. cbn. by rewrite lookup_empty. Qed.

Lemma mock_payment_keeps q w : mock_ok w -> mock_ok (snd (mock_create_payment q w)).
Proof.
  intros Hw. unfold mock_create_payment, mock_ok in *.
  destruct (negb _); [done|]. destruct (mk_mints w !! _) as [[q0 r0]|].
  - by case_decide.
  - destruct (mock_expected_value _); [|done]. destruct (_ =? 0); [done|].
    by destruct (assoc_get _ _).
Qed.

Lemma mock_authorization_spec q w :
  mock_ok w ->
  mock_ok (snd (mock_create_spend_authorization q w)) /\
  match mock_create_spend_authorization q w with
  | (Ok r, _) => validate_spend_authorization_response q r = Ok r /\
                 sp_authorization_id r = sq_authorization_id q
  | (Err _, w') => w' = w
  end.
Proof.
  intros Hw. unfold mock_create_spend_authorization.
  destruct (mk_authorizations w !! sq_authorization_id q) as [[q0 r0]|] eqn:E.
  { case_decide as Hq; cbn; [|done]. subst q0.
    destruct (Hw _ _ _ E) as (? & ? & ?). auto. }
  destruct (res_bind _ _) as [r|e] eqn:Er; cbn; [|done].
  res_inv. match goal with Hv : validate_spend_authorization_response _ _ = Ok _ |- _ =>
    pose proof (validate_authorization_same _ _ _ Hv) as ->; rename Hv into Hval end.
  split; [|done]. intros id q0 r0. cbn. rewrite lookup_insert_Some.
  intros [[<- [= <- <-]]|[_ Hl]]; [done|by eapply Hw].
Qed.

#[export] Program Instance MockSpec : PaymentDaemonSpec MockClient := {
  pd_ok := mock_ok
}.
Next Obligation. intros. by apply mock_payment_keeps. Qed.
Next Obligation. intros. by apply mock_authorization_spec. Qed.
Next Obligation.
  cbn. intros q w r w' Hw H. destruct (mock_authorization_spec q w Hw) as [_ Hs].
  by rewrite H in Hs.
Qed.

#[export] Program Instance GrpcSpec {W} {S : PayerStub W} :
  PaymentDaemonSpec (GrpcClient (W := W)) := { pd_ok _ := True }.
Next Obligation. done. Qed.
Next Obligation. done. Qed.
Next Obligation.
  cbn. unfold grpc_create_spend_authorization. intros W S q w r w' _ H.
  destruct (spend_authorization_request_to_proto q); [|done].
  destruct (ps_rpc_create_spend_authorization _ w) as [[resp|e] w1]; [|done].
  injection H as H _. res_inv.
  match goal with Hv : validate_spend_authorization_response _ ?x = Ok _ |- _ =>
    pose proof (validate_authorization_same _ _ _ Hv) as ->; split; [exact Hv|] end.
  by apply String.eqb_eq.
Qed.

End facts.

(** The byte length chosen for a positive integer is the shortest that holds it. *)
Lemma biguint_length n :
  0 < n -> let len := (bit_length n + 7) / 8 in
  0 < len /\ 256 ^ (len - 1) <= n < 256 ^ len.
Proof.
  intros Hn len. assert (Hb : bit_length n = Z.log2 n + 1).
  { unfold bit_length. rewrite Z.abs_eq by lia. by rewrite (proj2 (Z.eqb_neq n 0)) by lia. }
  unfold len. clear len. rewrite Hb.
  destruct (Z.log2_spec n Hn) as [H1 H2]. pose proof (Z.log2_nonneg n).
  set (k := Z.log2 n) in *.
  pose proof (Z.div_mod (k + 1 + 7) 8 ltac:(lia)).
  pose proof (Z.mod_pos_bound (k + 1 + 7) 8 ltac:(lia)).
  set (len := (k + 1 + 7) / 8) in *.
  split; [lia|]. change 256 with (2 ^ 8). rewrite <- !Z.pow_mul_r by lia. split.
  - etransitivity; [|exact H1]. apply Z.pow_le_mono_r; lia.
  - eapply Z.lt_le_trans; [exact H2|]. apply Z.pow_le_mono_r; lia.
Qed.

Lemma biguint_encode n :
  0 <= n -> exists b, int_to_biguint_bytes n = Ok b /\ biguint_bytes_to_decimal b = n /\
    (forall m, 0 <= m -> n < 256 ^ m -> Z.of_nat (length b) <= m).
Proof.
  intros Hn. unfold int_to_biguint_bytes, biguint_bytes_to_decimal.
  rewrite (proj2 (Z.ltb_ge n 0) Hn). destruct (n =? 0) eqn:E; bool_props.
  { exists []. subst. split; [done|]. split; [done|]. intros. cbn. lia. }
  destruct (biguint_length n ltac:(lia)) as [Hl [H1 H2]].
  set (len := (bit_length n + 7) / 8) in *.
  eexists. split; [done|]. split.
  - rewrite from_to_bytes_big, Z2Nat.id by lia. apply Z.mod_small. lia.
  - intros m Hm Hnm. rewrite length_to_bytes_big, Z2Nat.id by lia.
    destruct (Z.le_gt_cases len m) as [|Hgt]; [done|]. exfalso.
    assert (256 ^ m <= 256 ^ (len - 1)) by (apply Z.pow_le_mono_r; lia). lia.
Qed.

(** ** Properties *)

(** Wei amounts cross the daemon boundary losslessly: every non-negative
    integer encodes to the shortest big-endian byte string, which decodes to the
    same integer; negative amounts are refused. *)
Theorem biguint_roundtrip (n : Z) :
  match int_to_biguint_bytes n with
  | Ok b => 0 <= n /\ biguint_bytes_to_decimal b = n /\
            (forall m, 0 <= m -> n < 256 ^ m -> Z.of_nat (length b) <= m)
  | Err e => n < 0 /\ e = ValueError ("BigUInt is unsigned; got " ++ str_Z n)
  end.
Proof.
  destruct (Z.lt_ge_cases n 0) as [Hn|Hn].
  - unfold int_to_biguint_bytes. by rewrite (proj2 (Z.ltb_lt n 0) Hn).
  - destruct (biguint_encode n Hn) as (b & -> & Hb & Hs). auto.
Qed.

(** A minted envelope is accepted exactly when it funds the bounded
    shortfall: shortfall, expected value and funded value all equal
    [max(0, target - observed)]; nothing is minted for a zero shortfall, and a
    non-zero one has a 20-byte sender and no self-referential predecessor. *)
Theorem validate_funding_response_iff (q : CreatePaymentRequest) (r r' : CreatePaymentResponse) :
  validate_funding_response q r = Ok r' <->
  r' = r /\
  let requested := account_shortfall q in
  cp_account_shortfall_wei r = Some requested /\ cp_expected_value r = requested /\
  cp_funded_value_wei r = requested /\
  (requested = 0 -> cp_payment_bytes r = [] /\ cp_tickets_created r = 0) /\
  (requested <> 0 -> length (cp_sender r) = 20%nat /\
     (cp_predecessor_work_id r = "" \/ cp_predecessor_work_id r <> cp_work_id r)).
Proof.
  unfold validate_funding_response. cbn zeta. set (n := account_shortfall q).
  assert (Hb : bytes_truthy (cp_payment_bytes r) = false <-> cp_payment_bytes r = []).
  { unfold bytes_truthy. by rewrite negb_false_iff, bool_decide_eq_true. }
  split.
  - intros H. res_inv. bool_props. destruct (n =? 0) eqn:E; bool_props; res_inv; bool_props.
    + do 4 (split; [done|]). split; [|done]. intros _. split; [by apply Hb|done].
    + do 4 (split; [done|]). split; [done|]. intros _.
      match goal with Ha : Nat.eqb _ _ = true |- _ => apply Nat.eqb_eq in Ha end.
      split; [done|].
      match goal with Ha : _ && _ = false |- _ => apply andb_false_iff in Ha as [Ha|Ha] end.
      * left. by destruct (cp_predecessor_work_id _).
      * right. by apply String.eqb_neq.
  - intros (-> & Hs & He & Hf & Hz & Hn). unfold require.
    rewrite bool_decide_true by done. rewrite He, Hf, !Z.eqb_refl. cbn [res_bind].
    destruct (n =? 0) eqn:E; bool_props.
    + destruct (Hz E) as [Hp Ht]. rewrite (proj2 Hb Hp), Ht. cbn. done.
    + destruct (Hn E) as [Hl Hw]. rewrite Hl. cbn.
      destruct Hw as [->|Hw]; [done|]. rewrite (proj2 (String.eqb_neq _ _) Hw), andb_false_r.
      done.
Qed.

(** An authorization the gRPC client returns was signed over exactly the
    requested scope by the stated 20-byte payer, for a request with positive
    maximums, a supported protocol and consistent session revision fields. *)
Theorem grpc_authorization_scope {W} {R : Runtime} {P : ProtoCodec} {S : PayerStub W}
    (q : CreateSpendAuthorizationRequest) (w : W) :
  match grpc_create_spend_authorization q w with
  | (Ok r, _) => exists proto sig,
      spend_authorization_request_to_proto q = Ok proto /\
      px_decode_authorization (sp_authorization_bytes r) =
        Some (expected_authorization_payload proto (sp_payer r), sig) /\
      length sig = 65%nat /\ length (sp_payer r) = 20%nat /\
      sp_authorization_id r = sq_authorization_id q /\
      0 < sq_max_debit_wei q /\ 0 < sq_max_total_units q /\ 0 < sq_chain_id q /\
      (sq_protocol q = "paid-job/v1" -> sq_session_id q = "" /\ sq_revision q = 0) /\
      (sq_protocol q = "paid-session/v1" -> sq_session_id q <> "")
  | (Err _, _) => True
  end.
Proof.
  unfold grpc_create_spend_authorization.
  destruct (spend_authorization_request_to_proto q) as [proto|] eqn:Ep; [|done].
  destruct (ps_rpc_create_spend_authorization proto w) as [[resp|e] w1]; [|done].
  destruct (res_bind (spend_authorization_response_to_dataclass resp) _) as [r|] eqn:Er; [|done].
  unfold validate_spend_authorization_response, spend_authorization_response_to_dataclass in Er.
  rewrite Ep in Er. res_inv. bool_props.
  match goal with Hd : of_option ?o _ = Ok _ |- _ => destruct o eqn:Eo; simplify_eq/= end.
  repeat match goal with Hn : Nat.eqb _ _ = true |- _ => apply Nat.eqb_eq in Hn end.
  repeat match goal with Hn : String.eqb _ _ = true |- _ => apply String.eqb_eq in Hn end.
  eexists _, _. split; [done|]. split; [done|]. split; [done|].
  split; [done|]. split; [done|].
  clear - Ep. unfold spend_authorization_request_to_proto in Ep. res_inv. bool_props.
  split; [lia|]. split; [lia|]. split; [lia|]. split.
  - intros Hp. rewrite Hp in *. cbn in *. bool_props.
    split; [by destruct (sq_session_id q)|done].
  - intros Hp Hs. rewrite Hp, Hs in *. done.
Qed.

(** A mint failure is reported as unknown, insufficient or failed by status
    and details, and an authorization failure is definitive exactly for the
    statuses that prove nothing was signed; in every case the exception is a
    payment-daemon error, which callers catch. *)
Theorem daemon_errors_classified (e : RpcError) :
  is_daemon_error (map_mint_error e) = true /\
  is_daemon_error (map_authorization_error e) = true /\
  ((exists m, map_authorization_error e = SpendAuthorizationRefused m) <->
   re_code e ∈ DEFINITIVE_AUTHORIZATION_REFUSALS) /\
  ((exists m, map_mint_error e = MintOutcomeUnknown m) <->
   re_code e = "FAILED_PRECONDITION" /\
   (contains "reserved but never completed" (str_lower (details_or "" e)) = true \/
    contains "replay record has expired" (str_lower (details_or "" e)) = true)).
Proof.
  unfold map_mint_error, map_authorization_error.
  split; [by repeat case_match|]. split; [by case_match|]. split.
  - destruct (existsb _ _) eqn:E; split.
    + intros _. apply existsb_exists in E as (c & Hc & Heq). apply String.eqb_eq in Heq.
      subst. by apply list_elem_of_In.
    + by eexists.
    + by intros [? ?].
    + intros Hin. exfalso. apply list_elem_of_In in Hin.
      assert (existsb (String.eqb (re_code e)) DEFINITIVE_AUTHORIZATION_REFUSALS = true)
        by (apply existsb_exists; exists (re_code e); split; [done|apply String.eqb_refl]).
      congruence.
  - destruct (String.eqb (re_code e) "FAILED_PRECONDITION") eqn:Ec; cbn [andb].
    + apply String.eqb_eq in Ec. destruct (_ || _) eqn:Eo at 1.
      * apply orb_true_iff in Eo. split; [auto|by eexists].
      * apply orb_false_iff in Eo as [E1 E2]. rewrite E1, E2. split.
        { intros [m Hm]. by case_match. }
        { by intros [_ [?|?]]. }
    + apply String.eqb_neq in Ec. split; [|by intros [? _]].
      intros [m Hm]. by case_match.
Qed.

(** The mock daemon is replay-safe: a mint that returned returns the same
    envelope again and leaves its records alone, the same mint id with another
    request is refused, and every envelope it mints passes the funding check of
    its request. *)
Theorem mock_mint_replays {R : Runtime} (q : CreatePaymentRequest) (w : MockDaemon) :
  (forall id q0 r0, mk_mints w !! id = Some (q0, r0) -> validate_funding_response q0 r0 = Ok r0) ->
  match mock_create_payment q w with
  | (Ok r, w') =>
      validate_funding_response q r = Ok r /\
      mock_create_payment q w' = (Ok r, w') /\
      (forall q', q' <> q -> cr_mint_request_id q' = cr_mint_request_id q ->
        mock_create_payment q' w' =
          (Err (PaymentDaemonErr "mint_request_id was used for different request content"), w'))
  | (Err _, w') => w' = w
  end.
Proof.
  intros Hrec.
  assert (Hreplay : forall w' r, str_truthy (cr_mint_request_id q) = true ->
    mk_mints w' !! cr_mint_request_id q = Some (q, r) ->
    mock_create_payment q w' = (Ok r, w') /\
    forall q', q' <> q -> cr_mint_request_id q' = cr_mint_request_id q ->
      mock_create_payment q' w' =
        (Err (PaymentDaemonErr "mint_request_id was used for different request content"), w')).
  { intros w' r Ht Hw. unfold mock_create_payment. rewrite Ht, Hw. cbn.
    split; [by rewrite decide_True|]. intros q' Hne Hid. rewrite Hid, Ht, Hw. cbn.
    by rewrite decide_False. }
  unfold mock_create_payment at 1.
  destruct (str_truthy (cr_mint_request_id q)) eqn:Ht; cbn [negb]; [|done].
  destruct (mk_mints w !! cr_mint_request_id q) as [[q0 r0]|] eqn:E.
  { case_decide as Hq; [|done]. subst q0. split; [by eapply Hrec|]. by apply Hreplay. }
  unfold mock_expected_value. destruct (Z.abs _ <? DLIMIT); [|done].
  destruct (account_shortfall q =? 0) eqn:Ez; bool_props.
  - split; [|apply Hreplay; [done|cbn; by rewrite lookup_insert_eq]].
    unfold validate_funding_response. rewrite Ez. done.
  - destruct (assoc_get _ _) as [id|]; cbn zeta.
    all: split; [|apply Hreplay; [done|cbn; by rewrite lookup_insert_eq]].
    all: unfold validate_funding_response, mock_payment; cbn [cp_account_shortfall_wei
      cp_expected_value cp_funded_value_wei cp_sender cp_predecessor_work_id].
    all: unfold require; rewrite bool_decide_true by done; rewrite Z.eqb_refl.
    all: rewrite (proj2 (Z.eqb_neq _ _) Ez); done.
Qed.

Definition demo_mint : CreatePaymentRequest :=
  MkCreatePaymentRequest "m" (repeat x01 20) "http://b"
    (MkAcceptedPrice "cap" "off" 7 2 "tokens" (MkQuoteRef "q" 1 [] []))
    (MkFundingIntent 60 1 1) (MkAccountFundingIntent 100 40 "d" "a").

Lemma mock_mint_replays_witness :
  match mock_create_payment (R := demo_runtime) demo_mint mock_empty with
  | (Ok r, w') => validate_funding_response demo_mint r = Ok r /\
      mock_create_payment (R := demo_runtime) demo_mint w' = (Ok r, w') /\
      (forall q', q' <> demo_mint -> cr_mint_request_id q' = cr_mint_request_id demo_mint ->
        mock_create_payment (R := demo_runtime) q' w' =
          (Err (PaymentDaemonErr "mint_request_id was used for different request content"), w'))
  | (Err _, w') => w' = mock_empty
  end.
Proof.
  apply (mock_mint_replays (R := demo_runtime) demo_mint mock_empty).
  intros id q0 r0. cbn. rewrite lookup_empty. discriminate.
Defined.

(** Every lower-case 64-digit non-zero hex domain is accepted, but so is a value
    whose digits carry a second [0x]: the check parses with [int(_, 16)]. *)
Example settlement_domain_double_prefix :
  validate_settlement_domain_id ("0x0x" ++ str_zeros 61 ++ "1") = Ok tt.
Proof. vm_compute. reflexivity. Qed.
