(* ===== verification/Registry.v ===== *)
(** * Routes and the registry client

    The selection side of [providers/registry_daemon/client.py]: the signed
    route with its protocol axes, its compact binding and immutable snapshot,
    binding-exact selection, the mock client, and the TTL cache in front of any
    client.  The catalog listing is in [Catalog]. *)

From S2P Require Import Prelude PyData Errors Effects.
From Stdlib Require Import Strings.Byte Strings.Ascii.

Open Scope string_scope.
Open Scope Z_scope.
Open Scope loc_scope.

(** ** Declared axes *)

Record JobAxes := MkJobAxes {
  ja_transports : list string;
  ja_extra : dict;
}.

Record SessionAxes := MkSessionAxes {
  sx_descriptor_schema : string;
  sx_attachment : string;
  sx_metering : string;
  sx_refill : string;
  sx_extra : dict;
}.

Definition UINT64_MAX : Z := 2 ^ 64 - 1.

Definition hex_chars (n : nat) (s : string) : bool :=
  Nat.eqb (String.length s) n && str_forallb is_lower_hex s.
Definition hex_pattern (n : nat) (s : string) : bool :=
  str_startswith "0x" s && hex_chars n (str_drop 2 s).

(** [^[a-z][a-z0-9-]*/v[0-9]+$]. *)
Definition all_digits (s : string) : bool := str_truthy s && str_forallb is_digit s.

Fixpoint schema_tail (s : string) : bool :=
  match s with
  | EmptyString => false
  | String a s' =>
      if Ascii.eqb a "/"%char then
        match s' with String "v"%char t => all_digits t | _ => false end
      else (is_lower_alpha a || is_digit a || Ascii.eqb a "-"%char) && schema_tail s'
  end.

Definition descriptor_schema_ok (s : string) : bool :=
  match s with String a s' => is_lower_alpha a && schema_tail s' | EmptyString => false end.

Definition str_elem (s : string) (l : list string) : bool := existsb (String.eqb s) l.

(** A JSON array of strings. *)
Fixpoint as_str_list (l : list json) : option (list string) :=
  match l with
  | [] => Some []
  | JStr s :: l' => r ← as_str_list l'; Some (s :: r)
  | _ => None
  end.

Fixpoint str_dedup (l : list string) : list string :=
  match l with
  | [] => []
  | s :: l' => if str_elem s l' then str_dedup l' else s :: str_dedup l'
  end.

(** [JobAxes.model_validate]. *)
Definition job_axes_validate (j : json) : res JobAxes :=
  match j with
  | JObj d =>
      match dget "transports" d with
      | Some (JArr l) =>
          let? ts := of_option (as_str_list l) (ValueError "transports") in
          let? _ := require (forallb (fun t => str_elem t ["unary"; "stream"; "multipart"]) ts
                             && negb (bool_decide (ts = [])))
                      (ValueError "transports") in
          Ok (MkJobAxes (str_dedup ts) (dpop "transports" d))
      | _ => Err (ValueError "transports")
      end
  | _ => Err (ValueError "job axes")
  end.

Definition literal_or (k : string) (d : dict) (allowed : list string) (default : option string)
  : res string :=
  match dget k d, default with
  | None, Some v => Ok v
  | Some (JStr s), _ => let? _ := require (str_elem s allowed) (ValueError k) in Ok s
  | _, _ => Err (ValueError k)
  end.

(** [SessionAxes.model_validate]. *)
Definition session_axes_validate (j : json) : res SessionAxes :=
  match j with
  | JObj d =>
      let? schema := of_option (as_str (dget "descriptor_schema" d))
                       (ValueError "descriptor_schema") in
      let? _ := require (descriptor_schema_ok schema) (ValueError "descriptor_schema") in
      let? attachment := literal_or "attachment" d ["external"] (Some "external") in
      let? metering := literal_or "metering" d ["runner-reported"] None in
      let? refill := literal_or "refill" d ["extensible"; "bounded"] (Some "extensible") in
      Ok (MkSessionAxes schema attachment metering refill
            (dpop "descriptor_schema" (dpop "attachment" (dpop "metering" (dpop "refill" d)))))
  | _ => Err (ValueError "session axes")
  end.

(** ** Settlement keys and estimators *)

Record SettlementKey := MkSettlementKey {
  sk_public_key : string;
  sk_not_before : datetime;
  sk_expires_at : datetime;
  sk_introduced_in_publication_seq : Z;
}.

(** Field constraints and [validity_window_is_ordered]. *)
Definition settlement_key_ok (k : SettlementKey) : bool :=
  hex_pattern 130 (sk_public_key k) && dt_aware (sk_not_before k) && dt_aware (sk_expires_at k)
  && (0 <=? sk_introduced_in_publication_seq k)
  && (sk_introduced_in_publication_seq k <=? UINT64_MAX)
  && (dt_us (sk_not_before k) <? dt_us (sk_expires_at k)).

Record WorkUnitEstimator := MkWorkUnitEstimator {
  we_id : string;
  we_rounding : string;
  we_exactness : string;
  we_package : option string;
  we_fixtures : string;
}.

(** ** Routes *)

Record SelectedRoute := MkSelectedRoute {
  ro_worker_url : string;
  ro_eth_address : string;
  ro_capability : string;
  ro_offering : string;
  ro_price_per_work_unit_wei : Z;
  ro_work_unit : string;
  ro_units_per_price : Z;
  ro_quote_id : string;
  ro_quote_version : Z;
  ro_constraint_fingerprint : bytes;
  ro_route_fingerprint : bytes;
  ro_settlement_domain_id : string;
  ro_protocol : string;
  ro_settlement_keys : list SettlementKey;
  ro_work_unit_estimator : option WorkUnitEstimator;
  ro_extra : dict;
}.

Record RouteBinding := MkRouteBinding {
  rb_quote_id : string;
  rb_quote_version : Z;
  rb_constraint_fingerprint : string;
  rb_route_fingerprint : string;
  rb_settlement_domain_id : string;
}.

#[export] Instance RouteBinding_eq_dec : EqDecision RouteBinding.
Proof. solve_decision. Defined.

(** A domain of the right shape that is not zero. *)
Definition domain_nonzero (s : string) : bool :=
  match int_of_hex (str_drop 2 s) with Some n => negb (n =? 0) | None => false end.

Definition uint64_from_one (n : Z) : bool := (1 <=? n) && (n <=? UINT64_MAX).

(** Constructing a [RouteBinding]. *)
Definition route_binding_ok (b : RouteBinding) : bool :=
  str_truthy (rb_quote_id b) && uint64_from_one (rb_quote_version b)
  && hex_chars 64 (rb_constraint_fingerprint b) && hex_chars 64 (rb_route_fingerprint b)
  && hex_pattern 64 (rb_settlement_domain_id b) && domain_nonzero (rb_settlement_domain_id b).

Definition make_route_binding (b : RouteBinding) : res RouteBinding :=
  let? _ := require (route_binding_ok b) (ValueError "RouteBinding") in Ok b.

(** [RouteBinding.model_dump(mode="json")]: 64-bit integers as strings. *)
Definition route_binding_dump (b : RouteBinding) : dict :=
  [("quote_id", JStr (rb_quote_id b)); ("quote_version", JStr (str_Z (rb_quote_version b)));
   ("constraint_fingerprint", JStr (rb_constraint_fingerprint b));
   ("route_fingerprint", JStr (rb_route_fingerprint b));
   ("settlement_domain_id", JStr (rb_settlement_domain_id b))].

Definition has_key (k : string) (d : dict) : bool :=
  match dget k d with Some _ => true | None => false end.

(** [SelectedRoute.validate_protocol_axes], with the field constraints. *)
Definition selected_route_validate (r : SelectedRoute) : res SelectedRoute :=
  let? _ := require (str_truthy (ro_worker_url r) && str_truthy (ro_eth_address r)
                     && str_truthy (ro_capability r) && str_truthy (ro_offering r)
                     && (0 <=? ro_price_per_work_unit_wei r) && str_truthy (ro_work_unit r)
                     && uint64_from_one (ro_units_per_price r)
                     && uint64_from_one (ro_quote_version r)
                     && hex_pattern 64 (ro_settlement_domain_id r)
                     && str_elem (ro_protocol r) ["paid-job/v1"; "paid-session/v1"]
                     && forallb settlement_key_ok (ro_settlement_keys r))
              (ValueError "SelectedRoute") in
  let? _ := require (domain_nonzero (ro_settlement_domain_id r))
              (ValueError "settlement_domain_id must be nonzero") in
  let is_job := String.eqb (ro_protocol r) "paid-job/v1" in
  let expected := if is_job then "job" else "session" in
  let forbidden := if is_job then "session" else "job" in
  let? axes := of_option (dget expected (ro_extra r)) (ValueError "route is missing its axes") in
  let? _ := require (negb (has_key forbidden (ro_extra r)))
              (ValueError "route must not declare the other axes") in
  let? _ := if is_job then (let? _ := job_axes_validate axes in Ok tt)
            else (let? _ := session_axes_validate axes in Ok tt) in
  Ok r.

(** [SelectedRoute.job] and [SelectedRoute.session]. *)
Definition route_job (r : SelectedRoute) : res (option JobAxes) :=
  if negb (String.eqb (ro_protocol r) "paid-job/v1") then Ok None
  else
    let? j := of_option (dget "job" (ro_extra r)) KeyError in
    let? a := job_axes_validate j in Ok (Some a).

Definition route_session (r : SelectedRoute) : res (option SessionAxes) :=
  if negb (String.eqb (ro_protocol r) "paid-session/v1") then Ok None
  else
    let? j := of_option (dget "session" (ro_extra r)) KeyError in
    let? a := session_axes_validate j in Ok (Some a).

(** [SelectedRoute.binding]. *)
Definition route_binding_fields (r : SelectedRoute) : RouteBinding :=
  MkRouteBinding (ro_quote_id r) (ro_quote_version r) (bytes_hex (ro_constraint_fingerprint r))
    (bytes_hex (ro_route_fingerprint r)) (ro_settlement_domain_id r).

Definition route_binding (r : SelectedRoute) : res RouteBinding :=
  make_route_binding (route_binding_fields r).

(** ** Snapshots *)

Section snapshot.
Context {R : Runtime}.

Definition settlement_key_dump (k : SettlementKey) : dict :=
  [("public_key", JStr (sk_public_key k));
   ("not_before", JStr (rt_model_time (sk_not_before k)));
   ("expires_at", JStr (rt_model_time (sk_expires_at k)));
   ("introduced_in_publication_seq", JStr (str_Z (sk_introduced_in_publication_seq k)))].

Definition opt_str (o : option string) : json :=
  match o with Some s => JStr s | None => JNull end.

Definition estimator_dump (e : WorkUnitEstimator) : dict :=
  [("id", JStr (we_id e)); ("rounding", JStr (we_rounding e));
   ("exactness", JStr (we_exactness e)); ("package", opt_str (we_package e));
   ("fixtures", JStr (we_fixtures e))].

(** [sorted(transports)]. *)
Definition sorted_transports (ts : list string) : list string :=
  List.filter (fun t => str_elem t ts) ["multipart"; "stream"; "unary"].

Definition job_axes_dump (a : JobAxes) : dict :=
  ("transports", JArr (map JStr (sorted_transports (ja_transports a)))) :: ja_extra a.

Definition session_axes_dump (a : SessionAxes) : dict :=
  [("descriptor_schema", JStr (sx_descriptor_schema a));
   ("attachment", JStr (sx_attachment a)); ("metering", JStr (sx_metering a));
   ("refill", JStr (sx_refill a))] ++ sx_extra a.

Definition opt_obj {A} (f : A -> dict) (o : option A) : json :=
  match o with Some a => JObj (f a) | None => JNull end.

(** The constraints of a [RouteSnapshot]. *)
Definition snapshot_fields_ok (r : SelectedRoute) : bool :=
  str_truthy (ro_worker_url r) && str_truthy (ro_eth_address r) && str_truthy (ro_capability r)
  && str_truthy (ro_offering r) && str_truthy (ro_work_unit r)
  && str_elem (ro_protocol r) ["paid-job/v1"; "paid-session/v1"]
  && (0 <=? ro_price_per_work_unit_wei r) && uint64_from_one (ro_units_per_price r)
  && str_truthy (ro_quote_id r) && uint64_from_one (ro_quote_version r)
  && hex_chars 64 (bytes_hex (ro_constraint_fingerprint r))
  && hex_chars 64 (bytes_hex (ro_route_fingerprint r))
  && hex_pattern 64 (ro_settlement_domain_id r) && domain_nonzero (ro_settlement_domain_id r).

(** [SelectedRoute.snapshot]: [snapshot_view().model_dump(mode="json")]. *)
Definition route_snapshot (r : SelectedRoute) : res dict :=
  let? job := route_job r in
  let? session := route_session r in
  let? _ := require (snapshot_fields_ok r) (ValueError "RouteSnapshot") in
  let? _ := require (negb (String.eqb (ro_protocol r) "paid-job/v1")
                     || (bool_decide (is_Some job) && bool_decide (session = None)))
              (ValueError "paid-job/v1 snapshot requires job axes only") in
  let? _ := require (negb (String.eqb (ro_protocol r) "paid-session/v1")
                     || (bool_decide (is_Some session) && bool_decide (job = None)))
              (ValueError "paid-session/v1 snapshot requires session axes only") in
  Ok [("schema_version", JStr "route-snapshot/v1"); ("broker_url", JStr (ro_worker_url r));
      ("eth_address", JStr (ro_eth_address r)); ("capability", JStr (ro_capability r));
      ("offering", JStr (ro_offering r)); ("protocol", JStr (ro_protocol r));
      ("work_unit", JStr (ro_work_unit r));
      ("price_per_work_unit_wei", JStr (str_Z (ro_price_per_work_unit_wei r)));
      ("units_per_price", JStr (str_Z (ro_units_per_price r)));
      ("quote_id", JStr (ro_quote_id r)); ("quote_version", JStr (str_Z (ro_quote_version r)));
      ("constraint_fingerprint", JStr (bytes_hex (ro_constraint_fingerprint r)));
      ("route_fingerprint", JStr (bytes_hex (ro_route_fingerprint r)));
      ("settlement_domain_id", JStr (ro_settlement_domain_id r));
      ("settlement_keys", JArr (map (fun k => JObj (settlement_key_dump k))
                                  (ro_settlement_keys r)));
      ("work_unit_estimator", opt_obj estimator_dump (ro_work_unit_estimator r));
      ("job", opt_obj job_axes_dump job); ("session", opt_obj session_axes_dump session);
      ("extra", JObj (ro_extra r))].

End snapshot.

(** ** Clients *)

(** [RegistryClient], the selection methods. *)
Class RegistryClient (W : Type) := {
  rc_select : string -> string -> W -> res (option SelectedRoute) * W;
  rc_select_many : string -> string -> W -> res (list SelectedRoute) * W;
}.

(** [next((route for route in routes if route.binding == binding), None)]. *)
Fixpoint find_bound (binding : RouteBinding) (routes : list SelectedRoute)
  : res (option SelectedRoute) :=
  match routes with
  | [] => Ok None
  | r :: routes' =>
      let? b := route_binding r in
      if decide (b = binding) then Ok (Some r) else find_bound binding routes'
  end.

(** [select_bound_route]. *)
Definition select_bound_route {DB W} {C : RegistryClient W} (capability offering : string)
    (binding : option RouteBinding) : M DB W (option SelectedRoute) :=
  match binding with
  | None => remote (rc_select capability offering)
  | Some b =>
      routes <- remote (rc_select_many capability offering) ;;
      lift (find_bound b routes)
  end.

Definition route_matches (capability offering : string) (r : SelectedRoute) : bool :=
  String.eqb (ro_capability r) capability && String.eqb (ro_offering r) offering.

(** [MockRegistryClient.select] and [select_many]; its state is the route list. *)
Definition mock_select (capability offering : string) (routes : list SelectedRoute)
  : res (option SelectedRoute) * list SelectedRoute :=
  (Ok (List.find (route_matches capability offering) routes), routes).
Definition mock_select_many (capability offering : string) (routes : list SelectedRoute)
  : res (list SelectedRoute) * list SelectedRoute :=
  (Ok (List.filter (route_matches capability offering) routes), routes).

#[export] Instance MockRegistryClient : RegistryClient (list SelectedRoute) := {
  rc_select := mock_select;
  rc_select_many := mock_select_many;
}.

(** ** The TTL cache *)

(** What a cached method stores: a route, or a list of routes. *)
Inductive cached_value := CachedRoute (r : SelectedRoute) | CachedRoutes (l : list SelectedRoute).

(** The cache key: method, capability, offering. *)
Abbreviation cache_key := (string * string * string)%type.

(** [CachingRegistryClient]'s selection state around an inner world; [ch_now]
    is the monotonic clock. *)
Record CachingState (W : Type) := MkCaching {
  ch_ttl : Z;
  ch_cache : gmap cache_key (Z * cached_value);
  ch_now : Z;
  ch_inner : W;
}.
Arguments MkCaching {W}.
Arguments ch_ttl {W}.
Arguments ch_cache {W}.
Arguments ch_now {W}.
Arguments ch_inner {W}.

Section caching.
Context {W : Type} {C : RegistryClient W}.
Local Abbreviation Cs := (CachingState W).

Definition set_ch_cache (c : gmap cache_key (Z * cached_value)) (s : Cs) : Cs :=
  MkCaching (ch_ttl s) c (ch_now s) (ch_inner s).
Definition set_ch_inner (w : W) (s : Cs) : Cs :=
  MkCaching (ch_ttl s) (ch_cache s) (ch_now s) w.

(** [_get]: an expired entry is dropped. *)
Definition cache_get (key : cache_key) (s : Cs) : option cached_value * Cs :=
  if ch_ttl s <=? 0 then (None, s)
  else match ch_cache s !! key with
  | None => (None, s)
  | Some (expires_at, value) =>
      if expires_at <=? ch_now s then (None, set_ch_cache (delete key (ch_cache s)) s)
      else (Some value, s)
  end.

(** [_set]. *)
Definition cache_set (key : cache_key) (value : cached_value) (s : Cs) : Cs :=
  if ch_ttl s <=? 0 then s
  else set_ch_cache (<[key := (ch_now s + ch_ttl s, value)]> (ch_cache s)) s.

(** [CachingRegistryClient.select]: [None] is not cached. *)
Definition caching_select (capability offering : string) (s : Cs)
  : res (option SelectedRoute) * Cs :=
  let key := ("select", capability, offering) in
  match cache_get key s with
  | (Some (CachedRoute r), s1) => (Ok (Some r), s1)
  | (_, s1) =>
      let '(result, w) := rc_select capability offering (ch_inner s1) in
      let s2 := set_ch_inner w s1 in
      match result with
      | Ok (Some r) => (result, cache_set key (CachedRoute r) s2)
      | _ => (result, s2)
      end
  end.

(** [CachingRegistryClient.select_many]: an empty list is not cached. *)
Definition caching_select_many (capability offering : string) (s : Cs)
  : res (list SelectedRoute) * Cs :=
  let key := ("select_many", capability, offering) in
  match cache_get key s with
  | (Some (CachedRoutes l), s1) => (Ok l, s1)
  | (_, s1) =>
      let '(result, w) := rc_select_many capability offering (ch_inner s1) in
      let s2 := set_ch_inner w s1 in
      match result with
      | Ok (r :: l) => (result, cache_set key (CachedRoutes (r :: l)) s2)
      | _ => (result, s2)
      end
  end.

(** [CachingRegistryClient.invalidate], the selection cache. *)
Definition caching_invalidate (s : Cs) : Cs := set_ch_cache ∅ s.

#[export] Instance CachingClient : RegistryClient (CachingState W) := {
  rc_select := caching_select;
  rc_select_many := caching_select_many;
}.

End caching.

(** ** Facts *)

Lemma make_route_binding_ok b b' : make_route_binding b = Ok b' -> b' = b.
Proof. unfold make_route_binding. intros H. by res_inv. Qed.

Lemma find_bound_ok b routes o :
  find_bound b routes = Ok o ->
  match o with
  | Some r => r ∈ routes /\ route_binding r = Ok b
  | None => Forall (fun r => exists b', route_binding r = Ok b' /\ b' <> b) routes
  end.
Proof.
  revert o. induction routes as [|r routes IH]; intros o; cbn; [by intros [= <-]|].
  intros H. res_inv. case_decide as Hb.
  - injection H as <-. subst. split; [by left|done].
  - apply IH in H. destruct o as [r'|].
    + destruct H. split; [by right|done].
    + constructor; [eauto|done].
Qed.

(** Sequences of cache uses. *)
Inductive cache_event :=
  | Tick (elapsed : Z)
  | Select (capability offering : string)
  | SelectMany (capability offering : string)
  | Invalidate.

Section cache_runs.
Context {W : Type} {C : RegistryClient W}.
Implicit Types (s : CachingState W).

Definition cache_step s (e : cache_event) : CachingState W :=
  match e with
  | Tick dt => MkCaching (ch_ttl s) (ch_cache s) (ch_now s + Z.max 0 dt) (ch_inner s)
  | Select c o => snd (caching_select c o s)
  | SelectMany c o => snd (caching_select_many c o s)
  | Invalidate => caching_invalidate s
  end.

Definition cache_run (events : list cache_event) s : CachingState W :=
  fold_left cache_step events s.

Definition cache_start (ttl now : Z) (w : W) : CachingState W := MkCaching ttl ∅ now w.

(** No entry outlives the TTL. *)
Definition cache_fresh s : Prop :=
  forall key exp v, ch_cache s !! key = Some (exp, v) -> exp <= ch_now s + ch_ttl s.

Lemma cache_get_fresh key s : cache_fresh s -> cache_fresh (snd (cache_get key s)).
Proof.
  intros Hs. unfold cache_get. destruct (_ <=? 0); [done|].
  destruct (ch_cache s !! key) as [[exp v]|]; [|done]. destruct (_ <=? _); [|done].
  intros k e v' Hk. cbn in *. rewrite lookup_delete_Some in Hk. destruct Hk as [_ Hk].
  by eapply Hs.
Qed.

Lemma cache_set_fresh key v s : cache_fresh s -> cache_fresh (cache_set key v s).
Proof.
  intros Hs. unfold cache_set. destruct (_ <=? 0); [done|]. intros k e v' Hk. cbn in *.
  rewrite lookup_insert_Some in Hk. destruct Hk as [[_ [= <- _]]|[_ Hk]]; [lia|].
  by eapply Hs.
Qed.

Lemma caching_select_fresh c o s : cache_fresh s -> cache_fresh (snd (caching_select c o s)).
Proof.
  intros Hs. unfold caching_select.
  pose proof (cache_get_fresh ("select", c, o) s Hs) as Hg.
  destruct (cache_get _ s) as [v s1]. cbn in Hg.
  assert (Hin : forall w, cache_fresh (set_ch_inner w s1)) by (intros w; exact Hg).
  destruct v as [[r|l]|]; [done| |];
    (destruct (rc_select c o (ch_inner s1)) as [[[r'|]|e] w]; cbn; auto using cache_set_fresh).
Qed.

Lemma caching_select_many_fresh c o s :
  cache_fresh s -> cache_fresh (snd (caching_select_many c o s)).
Proof.
  intros Hs. unfold caching_select_many.
  pose proof (cache_get_fresh ("select_many", c, o) s Hs) as Hg.
  destruct (cache_get _ s) as [v s1]. cbn in Hg.
  assert (Hin : forall w, cache_fresh (set_ch_inner w s1)) by (intros w; exact Hg).
  destruct v as [[r|l]|]; [|done|];
    (destruct (rc_select_many c o (ch_inner s1)) as [[[|r' l']|e] w]; cbn;
     auto using cache_set_fresh).
Qed.

Lemma cache_run_fresh events ttl now w : cache_fresh (cache_run events (cache_start ttl now w)).
Proof.
  assert (H0 : cache_fresh (cache_start ttl now w)).
  { intros k e v Hk. cbn in Hk. by rewrite lookup_empty in Hk. }
  revert H0. generalize (cache_start ttl now w).
  induction events as [|e events IH]; intros s Hs; cbn; [done|]. apply IH.
  destruct e; cbn.
  - intros k x v Hk. cbn in *. pose proof (Hs _ _ _ Hk). lia.
  - by apply caching_select_fresh.
  - by apply caching_select_many_fresh.
  - intros k x v Hk. cbn in Hk. by rewrite lookup_empty in Hk.
Qed.

Lemma caching_select_source c o s r s' :
  caching_select c o s = (Ok (Some r), s') ->
  fst (rc_select c o (ch_inner s)) = Ok (Some r) \/
  exists exp, ch_cache s !! ("select", c, o) = Some (exp, CachedRoute r) /\ ch_now s < exp.
Proof.
  unfold caching_select, cache_get.
  destruct (ch_ttl s <=? 0); cbn.
  { destruct (rc_select c o (ch_inner s)) as [[[r'|]|e] w]; cbn; try done.
    intros [= <- _]. by left. }
  destruct (ch_cache s !! ("select", c, o)) as [[exp v]|] eqn:Ek.
  - destruct (exp <=? ch_now s) eqn:Ex; bool_props; cbn.
    + destruct (rc_select c o (ch_inner s)) as [[[r'|]|e] w]; cbn; try done.
      intros [= <- _]. by left.
    + destruct v as [r0|l].
      * intros [= <- _]. right. eauto.
      * destruct (rc_select c o (ch_inner s)) as [[[r'|]|e] w]; cbn; try done.
        intros [= <- _]. by left.
  - cbn. destruct (rc_select c o (ch_inner s)) as [[[r'|]|e] w]; cbn; try done.
    intros [= <- _]. by left.
Qed.

End cache_runs.

(** ** Properties *)

(** Selection with a binding is exact: a returned route is one the registry
    offered and carries precisely that binding, and when none is returned every
    offered route has a different binding. *)
Theorem select_bound_route_exact {DB W} {C : RegistryClient W} (capability offering : string)
    (b : RouteBinding) (s : St DB W) :
  match select_bound_route capability offering (Some b) s with
  | (Ok o, _) => exists routes,
      fst (rc_select_many capability offering (st_world s)) = Ok routes /\
      match o with
      | Some r => r ∈ routes /\ route_binding r = Ok b
      | None => Forall (fun r => exists b', route_binding r = Ok b' /\ b' <> b) routes
      end
  | (Err _, _) => True
  end.
Proof.
  unfold select_bound_route, remote, bind, lift.
  destruct (rc_select_many capability offering (st_world s)) as [[routes|e] w]; [|done].
  destruct (find_bound b routes) as [o|e] eqn:E; [|done].
  exists routes. split; [done|]. by apply find_bound_ok.
Qed.

(** The snapshot persisted at issuance states the route's own binding:
    reading the five identity fields back from the stored document gives the
    dump of the route's binding, which is itself valid. *)
Theorem route_snapshot_binding {R : Runtime} (r : SelectedRoute) :
  match route_snapshot r with
  | Ok d =>
      route_binding r = Ok (route_binding_fields r) /\
      Forall (fun kv => dget (fst kv) d = Some (snd kv))
        (route_binding_dump (route_binding_fields r)) /\
      dget "broker_url" d = Some (JStr (ro_worker_url r)) /\
      dget "eth_address" d = Some (JStr (ro_eth_address r))
  | Err _ => True
  end.
Proof.
  destruct (route_snapshot r) as [d|] eqn:E; [|done]. unfold route_snapshot in E. res_inv.
  split; [|split; [|by split]].
  - unfold route_binding, make_route_binding, route_binding_ok, snapshot_fields_ok in *.
    bool_props. cbn. unfold require.
    repeat match goal with Ha : ?x = true |- context [?x] => rewrite Ha end. done.
  - unfold route_binding_dump. repeat constructor.
Qed.

(** The selection cache has bounded staleness: after any sequence of
    selections, clock advances and invalidations, a selected route is either the
    registry's current answer or was stored at most one TTL ago. *)
Theorem caching_select_bounded {W} {C : RegistryClient W} (events : list cache_event)
    (ttl now : Z) (w : W) (capability offering : string) :
  let s := cache_run events (cache_start ttl now w) in
  match caching_select capability offering s with
  | (Ok (Some r), _) =>
      fst (rc_select capability offering (ch_inner s)) = Ok (Some r) \/
      exists stored_at,
        ch_cache s !! ("select", capability, offering) =
          Some (stored_at + ch_ttl s, CachedRoute r) /\
        stored_at <= ch_now s < stored_at + ch_ttl s
  | _ => True
  end.
Proof.
  intros s. destruct (caching_select capability offering s) as [[[r|]|e] s'] eqn:E; try done.
  destruct (caching_select_source _ _ _ _ _ E) as [?|(exp & Hk & Hx)]; [by left|right].
  pose proof (cache_run_fresh events ttl now w _ _ _ Hk) as Hf. fold s in Hf.
  exists (exp - ch_ttl s). replace (exp - ch_ttl s + ch_ttl s) with exp by lia.
  split; [done|lia].
Qed.

(** A route to evaluate examples with. *)
Definition demo_route : SelectedRoute :=
  MkSelectedRoute "https://broker" "0x2222222222222222222222222222222222222222" "cap" "off" 3
    "tokens" 1 "quote" 1 (repeat x01 32) (repeat x02 32)
    "0x0000000000000000000000000000000000000000000000000000000000000007" "paid-job/v1" [] None
    [("job", JObj [("transports", JArr [JStr "unary"])])].
