(* ===== verification/Wholesale.v ===== *)
(** * Wholesale funding

    [domains/wholesale/service.py]: planning one account's shortfall under the
    operator's exposure limits, claiming it durably, minting and submitting the
    payment, and converging on the broker's acknowledgement. *)

From S2P Require Import Prelude PyData DecimalCtx Errors Effects Store SettlementVerification.
From S2P Require Import BrokerSettlement PaymentDaemon Registry.

Open Scope string_scope.
Open Scope Z_scope.
Open Scope loc_scope.

(** ** Policy types *)

Definition COMPAT_SETTLEMENT_DOMAIN_ID : string := "loc.compat.wholesale-account/1.1.0-draft".

Definition WHOLESALE_ACCOUNT_PROTOCOL_VERSION : string := "wholesale-account/3.0.0-draft".

(** [settlement_domain_id] of [wholesale/types.py]. *)
Definition settlement_domain_id (value : string) : res string :=
  let? _ := require (hex_pattern 64 value && domain_nonzero value)
    (ValueError "settlement_domain_id must be a nonzero lowercase 0x-prefixed uint256") in
  Ok value.

Record WholesaleFundingLimits := MkLimits {
  wl_target_available_wei : Z;
  wl_replenish_below_wei : Z;
  wl_max_available_per_payee_wei : Z;
  wl_max_aggregate_available_wei : Z;
  wl_max_single_funding_wei : Z;
}.

(** Field constraints and [target_fits_hard_limits]. *)
Definition make_limits (l : WholesaleFundingLimits) : res WholesaleFundingLimits :=
  let? _ := require ((0 <? wl_target_available_wei l) && (0 <? wl_replenish_below_wei l)
                     && (0 <? wl_max_available_per_payee_wei l)
                     && (0 <? wl_max_aggregate_available_wei l)
                     && (0 <? wl_max_single_funding_wei l)) (ValueError "gt") in
  let? _ := require (negb (wl_target_available_wei l <? wl_replenish_below_wei l))
              (ValueError "replenish_below_wei exceeds target_available_wei") in
  let? _ := require (negb (wl_max_available_per_payee_wei l <? wl_target_available_wei l))
              (ValueError "target_available_wei exceeds the per-payee limit") in
  let? _ := require (negb (wl_max_aggregate_available_wei l <? wl_target_available_wei l))
              (ValueError "target_available_wei exceeds the aggregate limit") in
  Ok l.

Record WholesaleFundingPlan := MkPlan {
  wp_target_available_wei : Z;
  wp_observed_available_wei : Z;
  wp_shortfall_wei : Z;
  wp_projected_payee_available_wei : Z;
  wp_projected_aggregate_available_wei : Z;
}.

#[export] Instance WholesaleFundingPlan_eq_dec : EqDecision WholesaleFundingPlan.
Proof. solve_decision. Defined.

Definition make_plan (p : WholesaleFundingPlan) : res WholesaleFundingPlan :=
  let? _ := require ((0 <? wp_target_available_wei p) && (0 <=? wp_observed_available_wei p)
                     && (0 <=? wp_shortfall_wei p) && (0 <=? wp_projected_payee_available_wei p)
                     && (0 <=? wp_projected_aggregate_available_wei p)) (ValueError "ge") in
  Ok p.

Definition policy_err (msg : string) : exn := WholesaleFundingPolicyErr msg.

(** [admission_funding_limits]; [model_copy] does not validate again. *)
Definition admission_funding_limits (limits : WholesaleFundingLimits)
    (required_reservation_wei : xdec) : res WholesaleFundingLimits :=
  match required_reservation_wei with
  | Fin required =>
      let? _ := require (0 <=? required) (policy_err "invalid required reservation") in
      let target := Z.max (wl_target_available_wei limits) required in
      let? _ := require (negb (wl_max_available_per_payee_wei limits <? target))
        (policy_err "admission reservation exceeds the per-payee funding limit") in
      let? _ := require (negb (wl_max_aggregate_available_wei limits <? target))
        (policy_err "admission reservation exceeds the aggregate funding limit") in
      Ok (MkLimits target (Z.max (wl_replenish_below_wei limits) required)
            (wl_max_available_per_payee_wei limits) (wl_max_aggregate_available_wei limits)
            (wl_max_single_funding_wei limits))
  | _ => Err (policy_err "invalid required reservation")
  end.

(** [plan_account_shortfall]. *)
Definition plan_account_shortfall (observation : WholesaleAccountObservation)
    (aggregate_available_wei : Z) (payee_available_wei : option Z)
    (limits : WholesaleFundingLimits) : res WholesaleFundingPlan :=
  let available := ao_available_value_wei observation in
  let? _ := require (negb (aggregate_available_wei <? available))
    (policy_err "aggregate available value cannot be below the observed account") in
  let payee_available := match payee_available_wei with Some p => p | None => available end in
  let? _ := require (negb (payee_available <? available))
    (policy_err "payee available value cannot be below the observed account") in
  let should_replenish := available <? wl_replenish_below_wei limits in
  let shortfall :=
    if should_replenish then Z.max 0 (dsub (wl_target_available_wei limits) available) else 0 in
  let projected_payee := dadd payee_available shortfall in
  let projected_aggregate := dadd aggregate_available_wei shortfall in
  let plan := MkPlan (wl_target_available_wei limits) available shortfall projected_payee
                projected_aggregate in
  if shortfall =? 0 then make_plan plan
  else
    let? _ := require (negb (wl_max_single_funding_wei limits <? shortfall))
      (policy_err "account shortfall exceeds the single-funding limit") in
    let? _ := require (negb (wl_max_available_per_payee_wei limits <? projected_payee))
      (policy_err "funding would exceed the per-payee limit") in
    let? _ := require (negb (wl_max_aggregate_available_wei limits <? projected_aggregate))
      (policy_err "funding would exceed the aggregate limit") in
    make_plan plan.

(** [create_account_funding_request]. *)
Definition create_account_funding_request (route : SelectedRoute)
    (observation : WholesaleAccountObservation) (plan : WholesaleFundingPlan)
    (mint_request_id : string) : res CreatePaymentRequest :=
  let? _ := require (String.eqb (ao_payee observation) (str_lower (ro_eth_address route)))
    (policy_err "account observation does not match the locked payee") in
  let? _ := require (String.eqb (ao_settlement_domain_id observation)
                       (ro_settlement_domain_id route))
    (policy_err "account observation does not match the locked settlement domain") in
  let? _ := require (str_truthy mint_request_id) (policy_err "mint_request_id is required") in
  let? recipient := of_option (bytes_fromhex (str_removeprefix "0x" (ro_eth_address route)))
    (policy_err "selected payee is not a hex address") in
  let? _ := require (Nat.eqb (length recipient) 20)
    (policy_err "selected payee must be a 20-byte address") in
  let price := MkAcceptedPrice (ro_capability route) (ro_offering route)
    (ro_price_per_work_unit_wei route) (ro_units_per_price route) (ro_work_unit route)
    (MkQuoteRef (ro_quote_id route) (ro_quote_version route) (ro_constraint_fingerprint route)
       (ro_route_fingerprint route)) in
  Ok (MkCreatePaymentRequest mint_request_id recipient (ro_worker_url route) price
        (MkFundingIntent (wp_target_available_wei plan) 0 0)
        (MkAccountFundingIntent (wp_target_available_wei plan) (wp_observed_available_wei plan)
           (ro_settlement_domain_id route) (ao_wholesale_account_id observation))).

(** ** Accounts in the database *)

(** [_require_settlement_domain_id] and [_require_observation_domain]. *)
Definition require_settlement_domain_id (value : string) : res unit :=
  require (str_truthy value) (policy_err "settlement_domain_id is required").
Definition require_observation_domain (observation : WholesaleAccountObservation)
    (value : string) : res unit :=
  require (String.eqb (ao_settlement_domain_id observation) value)
    (policy_err "broker observation changed settlement domain").

Definition is_active (a : WholesaleAccount) : bool :=
  negb (String.eqb (wa_settlement_domain_id a) COMPAT_SETTLEMENT_DOMAIN_ID).

(** [_load_active_accounts]. *)
Definition load_active_accounts (d : DB) : list WholesaleAccount :=
  List.filter is_active (t_account d).

Definition payee_matches (observation : WholesaleAccountObservation) (a : WholesaleAccount)
  : bool :=
  (wa_chain_id a =? ao_chain_id observation)
  && String.eqb (wa_payer_eth_address a) (ao_payer observation)
  && String.eqb (wa_payee_eth_address a) (ao_payee observation)
  && String.eqb (wa_denomination a) (ao_denomination observation).

(** [_matching_payee_accounts]. *)
Definition matching_payee_accounts (accounts : list WholesaleAccount)
    (observation : WholesaleAccountObservation) : list WholesaleAccount :=
  List.filter (payee_matches observation) accounts.

(** [_account_matches]. *)
Definition account_matches (a : WholesaleAccount) (observation : WholesaleAccountObservation)
    (domain : string) : bool :=
  payee_matches observation a
  && String.eqb (ao_settlement_domain_id observation) domain
  && String.eqb (wa_settlement_domain_id a) domain
  && String.eqb (wa_wholesale_account_id a) (ao_wholesale_account_id observation).

(** The account of one domain and label among a payee's accounts. *)
Definition same_account (observation : WholesaleAccountObservation) (domain : string)
    (a : WholesaleAccount) : bool :=
  String.eqb (wa_settlement_domain_id a) domain
  && String.eqb (wa_wholesale_account_id a) (ao_wholesale_account_id observation).

Definition is_pending (accounts : list WholesaleAccount) (f : WholesaleFunding) : bool :=
  existsb (fun a => N.eqb (wa_id a) (wf_account_id f)) accounts
  && negb (String.eqb (wf_status f) "acknowledged").

(** [_pending_account_funding]: the database sums exactly. *)
Definition pending_account_funding (d : DB) (accounts : list WholesaleAccount) : Z :=
  sum_by wf_requested_shortfall_wei (List.filter (is_pending accounts) (t_funding d)).

Definition available_total (accounts : list WholesaleAccount) : Z :=
  dsum (map wa_available_value_wei accounts).

Definition prior_available (account : option WholesaleAccount) : Z :=
  match account with Some a => wa_available_value_wei a | None => 0 end.

(** [_synchronized_exposure]: the aggregate and the payee's exposure. *)
Definition synchronized_exposure (d : DB) (active payee : list WholesaleAccount)
    (account : option WholesaleAccount) (observation : WholesaleAccountObservation) : Z * Z :=
  let prior_payee := dadd (available_total payee) (pending_account_funding d payee) in
  let prior_aggregate := dadd (available_total active) (pending_account_funding d active) in
  let replacement := dsub (ao_available_value_wei observation) (prior_available account) in
  (dadd prior_aggregate replacement, dadd prior_payee replacement).

(** The attribute assignments that copy an observation onto a row. *)
Definition observe_account (observation : WholesaleAccountObservation) (a : WholesaleAccount)
  : WholesaleAccount :=
  MkWholesaleAccount (wa_id a) (wa_chain_id a) (wa_payer_eth_address a)
    (wa_payee_eth_address a) (wa_wholesale_account_id a) (wa_settlement_domain_id a)
    (wa_denomination a) (wa_protocol_version a) (wa_broker_url a)
    (ao_credited_value_wei observation) (ao_reserved_value_wei observation)
    (ao_debited_value_wei observation) (ao_available_value_wei observation)
    (ao_version observation) (ao_observed_at observation).

Definition relocate_account (protocol_version broker_url : string) (a : WholesaleAccount)
  : WholesaleAccount :=
  MkWholesaleAccount (wa_id a) (wa_chain_id a) (wa_payer_eth_address a)
    (wa_payee_eth_address a) (wa_wholesale_account_id a) (wa_settlement_domain_id a)
    (wa_denomination a) protocol_version broker_url (wa_credited_value_wei a)
    (wa_reserved_value_wei a) (wa_debited_value_wei a) (wa_available_value_wei a)
    (wa_remote_version a) (wa_observed_at a).

Definition update_account (id : uuid) (f : WholesaleAccount -> WholesaleAccount) (d : DB) : DB :=
  on_account (update_first (fun a => N.eqb (wa_id a) id) f) d.

Definition find_account (id : uuid) (d : DB) : option WholesaleAccount :=
  List.find (fun a => N.eqb (wa_id a) id) (t_account d).

Definition find_funding (mint_request_id : string) (d : DB) : option WholesaleFunding :=
  List.find (fun f => String.eqb (wf_mint_request_id f) mint_request_id) (t_funding d).

Definition update_funding (mint_request_id : string) (f : WholesaleFunding -> WholesaleFunding)
    (d : DB) : DB :=
  on_funding (update_first (fun x => String.eqb (wf_mint_request_id x) mint_request_id) f) d.

Definition mint_recorded (response : CreatePaymentResponse) (f : WholesaleFunding)
  : WholesaleFunding :=
  MkWholesaleFunding (wf_account_id f) (wf_mint_request_id f) (wf_correlation_id f)
    (wf_target_available_wei f) (wf_observed_available_wei f) (wf_requested_shortfall_wei f)
    (wf_route_snapshot f) (Some (cp_payment_bytes response)) (cp_expected_value response)
    (wf_credited_value_wei f)
    (if str_truthy (cp_work_id response) then Some (cp_work_id response) else None)
    (wf_account_version f)
    (if negb (String.eqb (wf_status f) "acknowledged") then "minted" else wf_status f)
    (wf_acknowledged_at f).

Definition credit_acknowledged (credit version : Z) (at_ : datetime) (f : WholesaleFunding)
  : WholesaleFunding :=
  MkWholesaleFunding (wf_account_id f) (wf_mint_request_id f) (wf_correlation_id f)
    (wf_target_available_wei f) (wf_observed_available_wei f) (wf_requested_shortfall_wei f)
    (wf_route_snapshot f) (wf_payment_bytes f) (wf_minted_expected_value_wei f) (Some credit)
    (wf_work_id f) (Some version) "acknowledged" (Some at_).

(** ** The operations *)

Section wholesale.
Context {W : Type} {R : Runtime} {B : BrokerAccountClient W} {D : PaymentDaemonClient W}.
Local Abbreviation M := (M DB W).

(** [verify_admission_funding_readiness]. *)
Definition verify_admission_funding_readiness (route : SelectedRoute)
    (payer_eth_address : string) (chain_id : Z) (wholesale_account_id : string)
    (required_reservation_wei : Z) : M unit :=
  observed <- remote (ba_get_wholesale_account (ro_worker_url route) payer_eth_address
    (ro_eth_address route) chain_id (ro_settlement_domain_id route) wholesale_account_id) ;;
  guard (String.eqb (ao_wholesale_account_id observed) wholesale_account_id
         && String.eqb (ao_payer observed) payer_eth_address
         && String.eqb (ao_payee observed) (ro_eth_address route)
         && (ao_chain_id observed =? chain_id)
         && String.eqb (ao_denomination observed) "wei"
         && String.eqb (ao_settlement_domain_id observed) (ro_settlement_domain_id route))
    (policy_err "admission readiness changed account identity") ;;;
  guard (negb (ao_available_value_wei observed <? required_reservation_wei))
    (policy_err "receiver available credit is below the admission reservation after funding").

(** [plan_observed_account_shortfall]. *)
Definition plan_observed_account_shortfall (observation : WholesaleAccountObservation)
    (domain : string) (limits : WholesaleFundingLimits) : M WholesaleFundingPlan :=
  lift (require_settlement_domain_id domain) ;;;
  lift (require_observation_domain observation domain) ;;;
  d0 <- db_peek ;;
  guard (bool_decide (is_Some (t_budget d0)))
    (policy_err "wholesale exposure budget is not initialized") ;;;
  d <- db_read ;;
  let active := load_active_accounts d in
  let payee := matching_payee_accounts active observation in
  let account := List.find (same_account observation domain) payee in
  let prior_payee := dadd (available_total payee) (pending_account_funding d payee) in
  let prior_aggregate := dadd (available_total active) (pending_account_funding d active) in
  let replaced prior :=
    dadd (dsub prior (prior_available account)) (ao_available_value_wei observation) in
  lift (plan_account_shortfall observation (replaced prior_aggregate)
          (Some (replaced prior_payee)) limits).

(** The replay branch of [claim_account_funding]. *)
Definition replay_funding_claim (existing : WholesaleFunding) (route : SelectedRoute)
    (observation : WholesaleAccountObservation) (domain : string)
    (plan : WholesaleFundingPlan) (correlation_id : option string)
  : M (option WholesaleFunding) :=
  d <- db_peek ;;
  guard (match find_account (wf_account_id existing) d with
         | Some a => account_matches a observation domain
         | None => false end)
    (policy_err "mint_request_id replay changed account identity") ;;;
  snapshot <- lift (route_snapshot route) ;;
  guard ((wf_target_available_wei existing =? wp_target_available_wei plan)
         && dict_eqb (wf_route_snapshot existing) snapshot
         && bool_decide (wf_correlation_id existing = correlation_id))
    (policy_err "mint_request_id replay changed funding scope") ;;;
  guard (negb (String.eqb (wf_status existing) "claimed"
               && negb ((wf_observed_available_wei existing =? wp_observed_available_wei plan)
                        && (wf_requested_shortfall_wei existing =? wp_shortfall_wei plan))))
    (policy_err "unminted funding replay changed account state") ;;;
  db_commit ;;;
  ret (Some existing).

(** Recording the locked observation on its account row, creating it when new;
    returns the account's id. *)
Definition synchronize_account (account : option WholesaleAccount) (route : SelectedRoute)
    (observation : WholesaleAccountObservation) (domain protocol_version : string) : M uuid :=
  match account with
  | None =>
      id <- new_uuid ;;
      let row := MkWholesaleAccount id (ao_chain_id observation) (ao_payer observation)
        (ao_payee observation) (ao_wholesale_account_id observation) domain
        (ao_denomination observation) protocol_version (ro_worker_url route)
        (ao_credited_value_wei observation) (ao_reserved_value_wei observation)
        (ao_debited_value_wei observation) (ao_available_value_wei observation)
        (ao_version observation) (ao_observed_at observation) in
      db_modify (on_account (fun l => l ++ [row])%list) ;;;
      db_race ;;;
      db_flush ;;;
      ret id
  | Some a =>
      guard (negb (ao_version observation <? wa_remote_version a))
        (policy_err "broker account observation moved backwards") ;;;
      db_modify (update_account (wa_id a)
        (fun row => relocate_account protocol_version (ro_worker_url route)
                      (observe_account observation row))) ;;;
      ret (wa_id a)
  end.

(** [claim_account_funding]. *)
Definition claim_account_funding (route : SelectedRoute)
    (observation : WholesaleAccountObservation) (domain : string)
    (plan : WholesaleFundingPlan) (limits : WholesaleFundingLimits) (mint_request_id : string)
    (correlation_id : option string) (protocol_version : string)
  : M (option WholesaleFunding) :=
  lift (require_settlement_domain_id domain) ;;;
  lift (require_observation_domain observation domain) ;;;
  dirty <- db_is_dirty ;;
  guard (negb dirty) (policy_err "funding claim requires a clean database session") ;;;
  d <- db_read ;;
  match find_funding mint_request_id d with
  | Some existing =>
      replay_funding_claim existing route observation domain plan correlation_id
  | None =>
      guard (bool_decide (is_Some (t_budget d)))
        (policy_err "wholesale exposure budget is not initialized") ;;;
      let active := load_active_accounts d in
      let payee := matching_payee_accounts active observation in
      let account := List.find (same_account observation domain) payee in
      let '(aggregate, payee_exposure) :=
        synchronized_exposure d active payee account observation in
      locked_plan <- lift (plan_account_shortfall observation aggregate (Some payee_exposure)
                             limits) ;;
      guard (bool_decide (locked_plan = plan))
        (policy_err "funding plan changed while acquiring exposure lock") ;;;
      account_id <- synchronize_account account route observation domain protocol_version ;;
      db_modify (on_budget (fun _ => Some (wp_projected_aggregate_available_wei locked_plan))) ;;;
      if wp_shortfall_wei plan =? 0 then db_commit ;;; ret None
      else
        snapshot <- lift (route_snapshot route) ;;
        let funding := MkWholesaleFunding account_id mint_request_id correlation_id
          (wp_target_available_wei plan) (wp_observed_available_wei plan)
          (wp_shortfall_wei plan) snapshot None 0 None None None "claimed" None in
        db_modify (on_funding (fun l => l ++ [funding])%list) ;;;
        db_commit ;;;
        ret (Some funding)
  end.

(** [record_minted_funding]. *)
Definition record_minted_funding (mint_request_id : string) (response : CreatePaymentResponse)
  : M WholesaleFunding :=
  d <- db_read ;;
  match find_funding mint_request_id d with
  | None => raise (policy_err "mint result does not match its durable claim")
  | Some funding =>
      guard (cp_expected_value response =? wf_requested_shortfall_wei funding)
        (policy_err "mint result does not match its durable claim") ;;;
      guard (match wf_payment_bytes funding with
             | Some b => bool_decide (b = cp_payment_bytes response) | None => true end)
        (policy_err "mint replay changed payment bytes") ;;;
      db_modify (update_funding mint_request_id (mint_recorded response)) ;;;
      db_commit ;;;
      ret (mint_recorded response funding)
  end.

(** [_acknowledged_credit]. *)
Definition acknowledged_credit (result : WholesaleFundingResult)
    (observation : WholesaleAccountObservation) (funding : WholesaleFunding) : res Z :=
  let? _ := require (match wf_payment_bytes funding with
                     | Some b => String.eqb (fr_funding_id result) (bytes_hex (rt_sha256 b))
                     | None => false end)
    (policy_err "broker funding receipt identifies another payment") in
  let? _ := require (fr_credited_value_wei result =? wf_minted_expected_value_wei funding)
    (policy_err "broker funding credit differs from minted value") in
  let? _ := require (negb (fr_credited_value_wei result <? wf_requested_shortfall_wei funding))
    (policy_err "broker under-credited account funding") in
  let? _ := require (negb (ao_credited_value_wei observation <? fr_credited_value_wei result))
    (policy_err "broker funding credit exceeds durable account credit") in
  let? _ := require (negb (String.eqb (wf_status funding) "acknowledged"
       && negb (bool_decide (wf_credited_value_wei funding = Some (fr_credited_value_wei result))
                && bool_decide (wf_account_version funding = Some (fr_account_version result)))))
    (policy_err "broker changed an acknowledged funding receipt") in
  Ok (fr_credited_value_wei result).

(** [acknowledge_account_funding]. *)
Definition acknowledge_account_funding (mint_request_id : string)
    (result : WholesaleFundingResult) (observation : WholesaleAccountObservation)
    (domain : string) (acknowledged_at : datetime) : M WholesaleFunding :=
  d <- db_read ;;
  funding <- lift (of_option (find_funding mint_request_id d)
    (policy_err "broker acknowledgement has no minted funding claim")) ;;
  guard (bool_decide (is_Some (wf_payment_bytes funding)))
    (policy_err "broker acknowledgement has no minted funding claim") ;;;
  account <- lift (of_option (find_account (wf_account_id funding) d)
    (policy_err "funding account no longer exists")) ;;
  budget <- lift (of_option (t_budget d)
    (policy_err "wholesale exposure budget is not initialized")) ;;
  lift (require_settlement_domain_id domain) ;;;
  lift (require_observation_domain observation domain) ;;;
  guard (String.eqb (fr_payer result) (wa_payer_eth_address account)
         && String.eqb (fr_payee result) (wa_payee_eth_address account)
         && String.eqb (fr_settlement_domain_id result) domain
         && String.eqb (fr_wholesale_account_id result) (wa_wholesale_account_id account)
         && account_matches account observation domain)
    (policy_err "broker acknowledgement changed account identity") ;;;
  guard (negb (ao_version observation <? fr_account_version result))
    (policy_err "broker acknowledgement and observation disagree") ;;;
  guard (negb ((fr_account_version result =? ao_version observation)
               && negb (fr_available_value_wei result =? ao_available_value_wei observation)))
    (policy_err "broker acknowledgement and observation disagree") ;;;
  guard (negb (ao_version observation <? wa_remote_version account))
    (policy_err "broker account observation moved backwards") ;;;
  credit <- lift (acknowledged_credit result observation funding) ;;
  let projected_for_account :=
    if negb (String.eqb (wf_status funding) "acknowledged")
    then dadd (wa_available_value_wei account) (wf_requested_shortfall_wei funding)
    else wa_available_value_wei account in
  let projected :=
    dadd (dsub budget projected_for_account) (ao_available_value_wei observation) in
  db_modify (fun d =>
    update_funding mint_request_id
      (credit_acknowledged credit (fr_account_version result) acknowledged_at)
      (update_account (wa_id account) (observe_account observation)
        (on_budget (fun _ => Some projected) d))) ;;;
  db_commit ;;;
  ret (credit_acknowledged credit (fr_account_version result) acknowledged_at funding).

(** The mint step of [complete_account_funding]. *)
Definition mint_claimed_funding (funding : WholesaleFunding) (route : SelectedRoute)
    (observation : WholesaleAccountObservation) (plan : WholesaleFundingPlan)
    (payer_eth_address : string) : M WholesaleFunding :=
  mint_request <- lift (create_account_funding_request route observation plan
                          (wf_mint_request_id funding)) ;;
  minted <- remote (pd_create_payment mint_request) ;;
  mint_response <- lift (validate_funding_response mint_request minted) ;;
  guard (String.eqb ("0x" ++ bytes_hex (cp_sender mint_response)) payer_eth_address)
    (policy_err "funding payer differs from authorization payer") ;;;
  record_minted_funding (wf_mint_request_id funding) mint_response.

(** [complete_account_funding]. *)
Definition complete_account_funding (funding : option WholesaleFunding) (route : SelectedRoute)
    (observation : WholesaleAccountObservation) (domain : string)
    (plan : WholesaleFundingPlan) (payer_eth_address : string) (chain_id : Z)
    (acknowledged_at : datetime) : M unit :=
  match funding with
  | None => ret tt
  | Some f =>
      if String.eqb (wf_status f) "acknowledged" then ret tt
      else
        d <- db_peek ;;
        account <- lift (of_option (find_account (wf_account_id f) d)
          (policy_err "funding completion changed account identity")) ;;
        guard (account_matches account observation domain)
          (policy_err "funding completion changed account identity") ;;;
        f' <- (if String.eqb (wf_status f) "claimed"
               then mint_claimed_funding f route observation plan payer_eth_address
               else ret f) ;;
        payment_bytes <- lift (of_option (wf_payment_bytes f')
          (policy_err "minted funding has no replayable payment bytes")) ;;
        result <- remote (ba_fund_wholesale_account (ro_worker_url route)
          (ro_capability route) (ro_offering route) payment_bytes payer_eth_address
          (ro_eth_address route) domain (wa_wholesale_account_id account)) ;;
        after <- remote (ba_get_wholesale_account (ro_worker_url route) payer_eth_address
          (ro_eth_address route) chain_id domain (wa_wholesale_account_id account)) ;;
        acknowledge_account_funding (wf_mint_request_id f') result after domain
          acknowledged_at ;;;
        ret tt
  end.

End wholesale.
