(* ===== verification/WholesaleFacts.v ===== *)
(** * Wholesale funding: exposure

    The exposure of a set of accounts is what they have available plus the
    claimed deposits not yet acknowledged.  The budget row always holds the
    aggregate exposure, every claim with a shortfall keeps the aggregate and the
    payee's exposure within the operator's limits, and the planning functions
    are characterised exactly. *)

From S2P Require Import Prelude PyData DecimalCtx Errors Effects Store SettlementVerification.
From S2P Require Import BrokerSettlement PaymentDaemon Registry Wholesale.

Open Scope string_scope.
Open Scope Z_scope.
Open Scope loc_scope.

(** ** Exposure *)

Definition selected (sel : WholesaleAccount -> bool) (d : DB) : list WholesaleAccount :=
  List.filter sel (t_account d).

Definition exposure (sel : WholesaleAccount -> bool) (d : DB) : Z :=
  sum_by wa_available_value_wei (selected sel d) + pending_account_funding d (selected sel d).

Definition payee_sel (o : WholesaleAccountObservation) (a : WholesaleAccount) : bool :=
  is_active a && payee_matches o a.

Lemma matching_payee_selected o d :
  matching_payee_accounts (load_active_accounts d) o = selected (payee_sel o) d.
Proof.
  unfold matching_payee_accounts, load_active_accounts, selected, payee_sel.
  induction (t_account d) as [|a l IH]; cbn; [done|].
  destruct (is_active a); cbn; [|exact IH]. destruct (payee_matches o a); by rewrite IH.
Qed.

(** Rows as the schema constrains them: distinct ids, non-negative amounts, and
    every funding belonging to an account. *)
Record accounts_wf (d : DB) : Prop := {
  aw_ids : NoDup (map wa_id (t_account d));
  aw_available : Forall (fun a => 0 <= wa_available_value_wei a) (t_account d);
  aw_shortfall : Forall (fun f => 0 <= wf_requested_shortfall_wei f) (t_funding d);
  aw_owner : Forall (fun f => wf_account_id f ∈ map wa_id (t_account d)) (t_funding d);
}.

(** The budget row holds the aggregate exposure. *)
Definition budget_ok (d : DB) : Prop := t_budget d = Some (exposure is_active d).

Definition wholesale_inv (d : DB) : Prop := accounts_wf d /\ budget_ok d.

Lemma pending_as_sum d accounts :
  pending_account_funding d accounts =
  sum_by (fun f => if is_pending accounts f then wf_requested_shortfall_wei f else 0)
    (t_funding d).
Proof. apply sum_by_filter_if. Qed.

Lemma available_as_sum sel d :
  sum_by wa_available_value_wei (selected sel d) =
  sum_by (fun a => if sel a then wa_available_value_wei a else 0) (t_account d).
Proof. apply sum_by_filter_if. Qed.

Lemma exposure_parts sel d :
  accounts_wf d ->
  0 <= sum_by wa_available_value_wei (selected sel d) /\
  0 <= pending_account_funding d (selected sel d).
Proof.
  intros [_ Ha Hs _]. rewrite available_as_sum, pending_as_sum.
  split; apply sum_by_nonneg.
  - eapply Forall_impl; [exact Ha|]. cbn. intros a H. by destruct (sel a).
  - eapply Forall_impl; [exact Hs|]. cbn. intros f H. by destruct (is_pending _ f).
Qed.

(** A narrower selection has at most the exposure of a wider one. *)
Lemma exposure_mono sel1 sel2 d :
  accounts_wf d -> (forall a, sel1 a = true -> sel2 a = true) ->
  exposure sel1 d <= exposure sel2 d.
Proof.
  intros [_ Ha Hs _] Hsel. unfold exposure. rewrite !available_as_sum, !pending_as_sum.
  apply Z.add_le_mono.
  - unfold sum_by, Zsum. induction Ha as [|a l Hx Hl IH]; cbn in *; [lia|].
    specialize (Hsel a). destruct (sel1 a); [rewrite Hsel by done; lia|].
    destruct (sel2 a); lia.
  - assert (Hp : forall f, is_pending (selected sel1 d) f = true ->
      is_pending (selected sel2 d) f = true).
    { intros f. unfold is_pending, selected. rewrite !existsb_filter, !andb_true_iff.
      intros [He Hst]. split; [|done]. apply existsb_exists in He as (a & Hin & Hc).
      apply andb_true_iff in Hc as [Hs1 Hk]. apply existsb_exists. exists a.
      split; [done|]. apply andb_true_iff. auto. }
    unfold sum_by, Zsum. induction Hs as [|f l Hx Hl IH]; cbn in *; [lia|].
    specialize (Hp f). destruct (is_pending (selected sel1 d) f);
      [rewrite Hp by done; lia|]. destruct (is_pending (selected sel2 d) f); lia.
Qed.

(** Every selected account is covered by the exposure. *)
Lemma exposure_covers sel d a :
  accounts_wf d -> a ∈ t_account d -> sel a = true -> wa_available_value_wei a <= exposure sel d.
Proof.
  intros Hwf Hin Hsel. pose proof (exposure_parts sel d Hwf) as [_ Hp].
  unfold exposure. enough (wa_available_value_wei a
    <= sum_by wa_available_value_wei (selected sel d)) by lia.
  rewrite available_as_sum. destruct Hwf as [_ Ha _ _]. clear Hp. revert Hin.
  unfold sum_by, Zsum. induction Ha as [|x l Hx Hl IH]; [by intros ?%elem_of_nil|].
  intros [->|Hin]%elem_of_cons; cbn.
  - rewrite Hsel. assert (0 <= foldr Z.add 0 (map (fun a =>
      if sel a then wa_available_value_wei a else 0) l)); [|lia].
    apply (sum_by_nonneg (fun a => if sel a then wa_available_value_wei a else 0)).
    eapply Forall_impl; [exact Hl|]. cbn. intros y Hy. by destruct (sel y).
  - specialize (IH Hin). destruct (sel x); lia.
Qed.

(** The decimal context computes exposures exactly while they stay in range. *)
Lemma available_total_exact sel d :
  accounts_wf d -> exposure sel d < DLIMIT ->
  available_total (selected sel d) = sum_by wa_available_value_wei (selected sel d).
Proof.
  intros Hwf Hlt. pose proof (exposure_parts sel d Hwf) as [_ Hp].
  unfold available_total. apply dsum_exact.
  - destruct Hwf as [_ Ha _ _]. apply Forall_map. unfold selected.
    rewrite Forall_forall in *. intros a Hin. apply Ha.
    apply list_elem_of_In, filter_In in Hin as [Hin _]. by apply list_elem_of_In.
  - unfold exposure in Hlt. unfold sum_by in *. lia.
Qed.

(** ** How updates move the exposure *)

(** An attribute update that keeps the row's identity. *)
Definition keeps_identity (g : WholesaleAccount -> WholesaleAccount) : Prop :=
  forall a, wa_id (g a) = wa_id a /\ is_active (g a) = is_active a /\
            forall o, payee_matches o (g a) = payee_matches o a.

Lemma observe_keeps_identity o : keeps_identity (observe_account o).
Proof. by intros a. Qed.

Lemma relocate_observe_keeps_identity p u o :
  keeps_identity (fun a => relocate_account p u (observe_account o a)).
Proof. by intros a. Qed.

Definition sel_stable (sel : WholesaleAccount -> bool) : Prop :=
  forall g, keeps_identity g -> forall a, sel (g a) = sel a.

Lemma active_stable : sel_stable is_active.
Proof. intros g Hg a. by destruct (Hg a) as (_ & -> & _). Qed.

Lemma payee_stable o : sel_stable (payee_sel o).
Proof. intros g Hg a. unfold payee_sel. by destruct (Hg a) as (_ & -> & ->). Qed.

Lemma pending_update_account sel d id g f :
  sel_stable sel -> keeps_identity g ->
  is_pending (selected sel (update_account id g d)) f = is_pending (selected sel d) f.
Proof.
  intros Hs Hg. unfold is_pending, selected, update_account. cbn. f_equal.
  rewrite !existsb_filter. apply existsb_update_first. intros a.
  destruct (Hg a) as (-> & _). by rewrite Hs.
Qed.

Lemma exposure_update_account sel d a g :
  sel_stable sel -> keeps_identity g -> find_account (wa_id a) d = Some a -> sel a = true ->
  exposure sel (update_account (wa_id a) g d) =
  exposure sel d - wa_available_value_wei a + wa_available_value_wei (g a).
Proof.
  intros Hs Hg Hf Ha. unfold exposure.
  rewrite !pending_as_sum, (sum_by_ext _ (fun f => if is_pending (selected sel d) f
    then wf_requested_shortfall_wei f else 0) (t_funding (update_account (wa_id a) g d))).
  2:{ intros f _. by rewrite pending_update_account. }
  rewrite !available_as_sum. unfold update_account at 1. cbn [t_account on_account].
  erewrite sum_by_update_first by exact Hf.
  rewrite (Hs g Hg), Ha. change (t_funding (update_account (wa_id a) g d)) with (t_funding d).
  lia.
Qed.

Lemma exposure_add_account sel d row :
  sel row = true -> Forall (fun f => wf_account_id f <> wa_id row) (t_funding d) ->
  exposure sel (on_account (fun l => l ++ [row])%list d) =
  exposure sel d + wa_available_value_wei row.
Proof.
  intros Hs Hf. unfold exposure.
  rewrite !pending_as_sum, (sum_by_ext _ (fun f => if is_pending (selected sel d) f
    then wf_requested_shortfall_wei f else 0) (t_funding (on_account _ d))).
  2:{ intros f Hin. cbn in Hin. rewrite Forall_forall in Hf. specialize (Hf f Hin).
      unfold is_pending, selected. cbn. rewrite !existsb_filter, existsb_app. cbn.
      rewrite Hs. cbn. rewrite (proj2 (N.eqb_neq (wa_id row) (wf_account_id f))) by done.
      by rewrite !orb_false_r. }
  rewrite !available_as_sum. cbn [t_account t_funding on_account].
  rewrite sum_by_snoc, Hs. lia.
Qed.

Lemma exposure_add_funding sel d f :
  exposure sel (on_funding (fun l => l ++ [f])%list d) =
  exposure sel d + (if is_pending (selected sel d) f then wf_requested_shortfall_wei f else 0).
Proof.
  unfold exposure. rewrite !pending_as_sum. cbn [t_account t_funding on_funding].
  rewrite sum_by_snoc. unfold selected. cbn [t_account on_funding]. lia.
Qed.

Lemma exposure_on_budget sel d b : exposure sel (on_budget b d) = exposure sel d.
Proof. done. Qed.

Lemma exposure_update_funding sel d mint f g :
  find_funding mint d = Some f -> wf_account_id (g f) = wf_account_id f ->
  exposure sel (update_funding mint g d) =
  exposure sel d
  - (if is_pending (selected sel d) f then wf_requested_shortfall_wei f else 0)
  + (if is_pending (selected sel d) (g f) then wf_requested_shortfall_wei (g f) else 0).
Proof.
  intros Hf Hid. unfold exposure. rewrite !pending_as_sum. change (t_funding (update_funding mint g d))
    with (update_first (fun x => String.eqb (wf_mint_request_id x) mint) g (t_funding d)).
  erewrite sum_by_update_first by exact Hf.
  change (selected sel (update_funding mint g d)) with (selected sel d). lia.
Qed.

Lemma pending_of_account sel d a f :
  a ∈ t_account d -> sel a = true -> wf_account_id f = wa_id a ->
  is_pending (selected sel d) f = negb (String.eqb (wf_status f) "acknowledged").
Proof.
  intros Hin Hs Hid. unfold is_pending, selected. rewrite existsb_filter.
  replace (existsb _ (t_account d)) with true; [done|]. symmetry. apply existsb_exists.
  exists a. split; [by apply list_elem_of_In|]. by rewrite Hs, Hid, N.eqb_refl.
Qed.

(** ** Well-formedness is kept *)

Lemma accounts_wf_update d id g :
  keeps_identity g -> (forall a, 0 <= wa_available_value_wei (g a)) ->
  accounts_wf d -> accounts_wf (update_account id g d).
Proof.
  intros Hg Hn [Hi Ha Hs Ho].
  assert (Hm : map wa_id (t_account (update_account id g d)) = map wa_id (t_account d)).
  { apply update_first_map. intros a. by destruct (Hg a). }
  split; try rewrite Hm; try done. apply Forall_update_first; auto.
Qed.

Lemma accounts_wf_add_account d row :
  wa_id row ∉ map wa_id (t_account d) -> 0 <= wa_available_value_wei row ->
  accounts_wf d -> accounts_wf (on_account (fun l => l ++ [row])%list d).
Proof.
  intros Hid Hn [Hi Ha Hs Ho]. split; cbn; try done.
  - rewrite map_app. apply NoDup_app. split; [done|]. split; [|apply NoDup_singleton].
    intros x Hx Hr. apply list_elem_of_singleton in Hr. by subst.
  - apply Forall_app. auto.
  - eapply Forall_impl; [exact Ho|]. cbn. intros f Hf. rewrite map_app.
    apply elem_of_app. by left.
Qed.

Lemma accounts_wf_add_funding d f :
  wf_account_id f ∈ map wa_id (t_account d) -> 0 <= wf_requested_shortfall_wei f ->
  accounts_wf d -> accounts_wf (on_funding (fun l => l ++ [f])%list d).
Proof. intros Hid Hn [Hi Ha Hs Ho]. split; cbn; try done; apply Forall_app; auto. Qed.

Lemma accounts_wf_update_funding d mint g :
  (forall f, wf_account_id (g f) = wf_account_id f) ->
  (forall f, wf_requested_shortfall_wei (g f) = wf_requested_shortfall_wei f) ->
  accounts_wf d -> accounts_wf (update_funding mint g d).
Proof.
  intros Hid Hsh [Hi Ha Hs Ho]. split; cbn; try done; apply Forall_update_first; try done;
    cbn; intros f Hf; [by rewrite Hsh|by rewrite Hid].
Qed.

Lemma accounts_wf_ext d d' :
  t_account d' = t_account d -> t_funding d' = t_funding d -> accounts_wf d -> accounts_wf d'.
Proof. intros H1 H2 [? ? ? ?]. by split; rewrite ?H1, ?H2. Qed.

(** ** Exact arithmetic in range *)

Lemma exposure_covers_funding sel d a f :
  accounts_wf d -> a ∈ t_account d -> sel a = true -> f ∈ t_funding d ->
  wf_account_id f = wa_id a -> wf_status f <> "acknowledged" ->
  wa_available_value_wei a + wf_requested_shortfall_wei f <= exposure sel d.
Proof.
  intros Hwf Ha Hs Hf Hid Hst.
  assert (Hp : is_pending (selected sel d) f = true).
  { rewrite (pending_of_account sel d a f) by done. by rewrite (proj2 (String.eqb_neq _ _)). }
  unfold exposure. rewrite available_as_sum, pending_as_sum. destruct Hwf as [_ Hna Hnf _].
  apply Z.add_le_mono.
  - etrans; [|apply (sum_by_member _ _ a Ha)]; cbn.
    + by rewrite Hs.
    + eapply Forall_impl; [exact Hna|]. cbn. intros x Hx. by destruct (sel x).
  - etrans; [|apply (sum_by_member _ _ f Hf)]; cbn.
    + by rewrite Hp.
    + eapply Forall_impl; [exact Hnf|]. cbn. intros x Hx. by destruct (is_pending _ x).
Qed.

Lemma prior_exposure_exact sel d :
  accounts_wf d -> exposure sel d < DLIMIT ->
  dadd (available_total (selected sel d)) (pending_account_funding d (selected sel d)) =
  exposure sel d.
Proof.
  intros Hwf Hlt. pose proof (exposure_parts sel d Hwf) as [H1 H2].
  rewrite available_total_exact by done. apply dadd_exact.
  unfold in_prec, exposure in *. lia.
Qed.

(** The synchronized exposure replaces the account's recorded balance by the
    observed one, in the aggregate and for the payee. *)
Lemma synchronized_exposure_exact d o account :
  accounts_wf d -> 0 <= ao_available_value_wei o ->
  exposure is_active d + ao_available_value_wei o < DLIMIT ->
  (forall a, account = Some a -> a ∈ t_account d /\ payee_sel o a = true) ->
  synchronized_exposure d (load_active_accounts d)
    (matching_payee_accounts (load_active_accounts d) o) account o =
  (exposure is_active d - prior_available account + ao_available_value_wei o,
   exposure (payee_sel o) d - prior_available account + ao_available_value_wei o).
Proof.
  intros Hwf Ho Hlt Hacc.
  assert (Hle : exposure (payee_sel o) d <= exposure is_active d).
  { apply exposure_mono; [done|]. unfold payee_sel. intros a ?. by bool_props. }
  assert (Hpr : 0 <= prior_available account <= exposure (payee_sel o) d).
  { destruct account as [a|]; cbn.
    - destruct (Hacc a eq_refl) as [Hin Hs]. split; [|by apply exposure_covers].
      destruct Hwf as [_ Ha _ _]. rewrite Forall_forall in Ha. by apply Ha.
    - pose proof (exposure_parts (payee_sel o) d Hwf). unfold exposure. lia. }
  unfold synchronized_exposure. rewrite matching_payee_selected.
  change (load_active_accounts d) with (selected is_active d).
  rewrite !prior_exposure_exact by (try done; lia).
  rewrite (dsub_exact (ao_available_value_wei o)) by (unfold in_prec; lia).
  rewrite !dadd_exact by (unfold in_prec; lia). f_equal; lia.
Qed.
