(* ===== verification/WholesaleProps.v ===== *)
(** * Wholesale funding: the properties of the component

    The planner tops an account up to its target within the operator's caps;
    claims, mints and acknowledgements of any number of workers, in any order,
    keep the exposure budget equal to what is really exposed and take every
    funding through its life cycle. *)

From S2P Require Import Prelude PyData DecimalCtx Errors Effects Store SettlementVerification.
From S2P Require Import BrokerSettlement PaymentDaemon Registry Wholesale.
From S2P Require Import WholesaleFacts.

Open Scope string_scope.
Open Scope Z_scope.
Open Scope loc_scope.

(** ** Planning *)

(** The shortfall as the policy states it. *)
Definition policy_shortfall (l : WholesaleFundingLimits) (available : Z) : Z :=
  if available <? wl_replenish_below_wei l
  then Z.max 0 (wl_target_available_wei l - available) else 0.

Definition within_caps (l : WholesaleFundingLimits) (shortfall payee aggregate : Z) : Prop :=
  shortfall <= wl_max_single_funding_wei l /\
  payee + shortfall <= wl_max_available_per_payee_wei l /\
  aggregate + shortfall <= wl_max_aggregate_available_wei l.

Lemma plan_ok_iff o aggregate payee l p :
  0 < wl_target_available_wei l -> 0 <= ao_available_value_wei o ->
  aggregate + wl_target_available_wei l < DLIMIT ->
  payee + wl_target_available_wei l < DLIMIT ->
  plan_account_shortfall o aggregate (Some payee) l = Ok p <->
  ao_available_value_wei o <= aggregate /\ ao_available_value_wei o <= payee /\
  let sf := policy_shortfall l (ao_available_value_wei o) in
  (sf <> 0 -> within_caps l sf payee aggregate) /\
  p = MkPlan (wl_target_available_wei l) (ao_available_value_wei o) sf (payee + sf)
        (aggregate + sf).
Proof.
  intros Ht Ho Ha Hp. unfold plan_account_shortfall, policy_shortfall, within_caps, require.
  set (av := ao_available_value_wei o) in *.
  destruct (aggregate <? av) eqn:E1; bool_props; cbn [negb].
  { split; [done|]. intros (? & _). lia. }
  destruct (payee <? av) eqn:E2; bool_props; cbn [negb].
  { split; [done|]. intros (_ & ? & _). lia. }
  rewrite (dsub_exact _ av) by (unfold in_prec; lia).
  set (sf := if av <? _ then _ else 0).
  assert (Hsf : 0 <= sf <= wl_target_available_wei l) by (unfold sf; case_match; lia).
  rewrite !dadd_exact by (unfold in_prec; lia). unfold make_plan, require; cbn.
  rewrite !(proj2 (Z.leb_le _ _)), (proj2 (Z.ltb_lt _ _)) by lia. cbn.
  destruct (sf =? 0) eqn:E3; bool_props.
  { split; [intros [= <-]; auto with lia|]. intros (_ & _ & _ & ->). done. }
  destruct (_ <? sf) eqn:E4; bool_props; cbn.
  { split; [done|]. intros (_ & _ & H & _). specialize (H E3). lia. }
  destruct (_ <? payee + sf) eqn:E5; bool_props; cbn.
  { split; [done|]. intros (_ & _ & H & _). specialize (H E3). lia. }
  destruct (_ <? aggregate + sf) eqn:E6; bool_props; cbn.
  { split; [done|]. intros (_ & _ & H & _). specialize (H E3). lia. }
  split; [intros [= <-]; auto with lia|]. intros (_ & _ & _ & ->). done.
Qed.

Lemma make_limits_iff l l' :
  make_limits l = Ok l' <->
  l' = l /\ 0 < wl_replenish_below_wei l <= wl_target_available_wei l /\
  wl_target_available_wei l <= wl_max_available_per_payee_wei l /\
  wl_target_available_wei l <= wl_max_aggregate_available_wei l /\
  0 < wl_max_single_funding_wei l.
Proof.
  unfold make_limits, require.
  destruct (0 <? wl_target_available_wei l) eqn:?, (0 <? wl_replenish_below_wei l) eqn:?,
    (0 <? wl_max_available_per_payee_wei l) eqn:?, (0 <? wl_max_aggregate_available_wei l) eqn:?,
    (0 <? wl_max_single_funding_wei l) eqn:?, (wl_target_available_wei l <? wl_replenish_below_wei l) eqn:?,
    (wl_max_available_per_payee_wei l <? wl_target_available_wei l) eqn:?,
    (wl_max_aggregate_available_wei l <? wl_target_available_wei l) eqn:?;
    bool_props; cbn; split; intros Hl; simplify_eq; try (destruct Hl as (-> & Hl));
    first [done | (exfalso; lia) | (split; [done|lia])].
Qed.

Lemma admission_limits_ok l r l' :
  admission_funding_limits l (Fin r) = Ok l' ->
  0 <= r /\
  l' = MkLimits (Z.max (wl_target_available_wei l) r) (Z.max (wl_replenish_below_wei l) r)
         (wl_max_available_per_payee_wei l) (wl_max_aggregate_available_wei l)
         (wl_max_single_funding_wei l) /\
  Z.max (wl_target_available_wei l) r <= wl_max_available_per_payee_wei l /\
  Z.max (wl_target_available_wei l) r <= wl_max_aggregate_available_wei l.
Proof.
  unfold admission_funding_limits, require.
  destruct (0 <=? r) eqn:E1; [|done]. cbn.
  destruct (_ <? Z.max _ _) eqn:E2; [done|]. cbn.
  destruct (wl_max_aggregate_available_wei l <? Z.max _ _) eqn:E3; [done|]. cbn.
  intros [= <-]. by bool_props.
Qed.

(** [plan_account_shortfall] accepts an observation exactly when the
    exposures it is given cover the observed account and the policy's shortfall
    stays under the single-funding, per-payee and aggregate caps, and then plans
    to fund exactly what lifts the account to its target. *)
Theorem plan_account_shortfall_iff o aggregate payee l p :
  0 < wl_target_available_wei l -> 0 <= ao_available_value_wei o ->
  aggregate + wl_target_available_wei l < DLIMIT ->
  payee + wl_target_available_wei l < DLIMIT ->
  plan_account_shortfall o aggregate (Some payee) l = Ok p <->
  ao_available_value_wei o <= aggregate /\ ao_available_value_wei o <= payee /\
  let sf := policy_shortfall l (ao_available_value_wei o) in
  (sf <> 0 -> within_caps l sf payee aggregate) /\
  p = MkPlan (wl_target_available_wei l) (ao_available_value_wei o) sf (payee + sf)
        (aggregate + sf).
Proof. apply plan_ok_iff. Qed.

Definition demo_limits : WholesaleFundingLimits := MkLimits 100 40 500 1000 90.

Definition demo_observation (available version : Z) : WholesaleAccountObservation :=
  MkAccountObservation "0x1111111111111111111111111111111111111111"
    "0x2222222222222222222222222222222222222222" "acct" 1
    "0x0000000000000000000000000000000000000000000000000000000000000007" 42161 "wei"
    available 0 0 available version (DT 0 true).

Lemma plan_account_shortfall_iff_witness :
  plan_account_shortfall (demo_observation 15 1) 200 (Some 50) demo_limits =
    Ok (MkPlan 100 15 85 135 285) /\
  policy_shortfall demo_limits 15 = 85.
Proof.
  split; [|reflexivity].
  apply (plan_account_shortfall_iff (demo_observation 15 1) 200 50 demo_limits);
    [reflexivity|discriminate|reflexivity|reflexivity|].
  split; [discriminate|]. split; [discriminate|]. split; [|reflexivity].
  intros _. split; [discriminate|]. split; discriminate.
Defined.

(** raising the funding limits for one admission never raises a cap, keeps
    the limits valid, and makes the planner's top-up cover the reservation: if
    the plan for the raised limits is accepted, the account it leads to holds at
    least the required reservation. *)
Theorem admission_limits_cover_reservation l required o aggregate payee :
  match admission_funding_limits l (Fin required) with
  | Ok l' =>
      wl_max_available_per_payee_wei l' = wl_max_available_per_payee_wei l /\
      wl_max_aggregate_available_wei l' = wl_max_aggregate_available_wei l /\
      wl_max_single_funding_wei l' = wl_max_single_funding_wei l /\
      required <= wl_target_available_wei l' <= wl_max_available_per_payee_wei l /\
      (make_limits l = Ok l -> make_limits l' = Ok l') /\
      (0 < wl_target_available_wei l -> 0 <= ao_available_value_wei o ->
       aggregate + wl_target_available_wei l' < DLIMIT ->
       payee + wl_target_available_wei l' < DLIMIT ->
       forall p, plan_account_shortfall o aggregate (Some payee) l' = Ok p ->
       required <= ao_available_value_wei o + wp_shortfall_wei p)
  | Err e => (exists m, e = WholesaleFundingPolicyErr m) /\
      (required < 0 \/ wl_max_available_per_payee_wei l < Z.max (wl_target_available_wei l) required
       \/ wl_max_aggregate_available_wei l < Z.max (wl_target_available_wei l) required)
  end.
Proof.
  destruct (admission_funding_limits l (Fin required)) as [l'|e] eqn:E.
  - apply admission_limits_ok in E as (Hr & -> & Hp & Ha). cbn.
    split_and!; try done; try lia.
    + rewrite !make_limits_iff. cbn. intros (_ & ?). split; [done|]. lia.
    + intros Ht Ho H1 H2 p. rewrite plan_ok_iff by (cbn; lia).
      intros (_ & _ & _ & ->). cbn. unfold policy_shortfall. cbn. case_match; bool_props; lia.
  - revert E. unfold admission_funding_limits, require, policy_err.
    destruct (0 <=? required) eqn:E1; cbn;
      [|intros [= <-]; split; [eauto|]; bool_props; lia].
    destruct (_ <? Z.max _ _) eqn:E2; cbn; [intros [= <-]; split; [eauto|]; bool_props; lia|].
    destruct (wl_max_aggregate_available_wei l <? Z.max _ _) eqn:E3; cbn; [|done].
    intros [= <-]. split; [eauto|]. bool_props. lia.
Qed.

(** ** The funding life cycle *)

(** A funding row is in one of three stages, and later stages fix the columns
    of the earlier ones. *)
Inductive funding_stage (f : WholesaleFunding) : Prop :=
| stage_claimed :
    wf_status f = "claimed" -> wf_payment_bytes f = None -> wf_credited_value_wei f = None ->
    funding_stage f
| stage_minted b :
    wf_status f = "minted" -> wf_payment_bytes f = Some b ->
    wf_minted_expected_value_wei f = wf_requested_shortfall_wei f ->
    wf_credited_value_wei f = None -> funding_stage f
| stage_acknowledged b v at_ :
    wf_status f = "acknowledged" -> wf_payment_bytes f = Some b ->
    wf_minted_expected_value_wei f = wf_requested_shortfall_wei f ->
    wf_credited_value_wei f = Some (wf_requested_shortfall_wei f) ->
    wf_account_version f = Some v -> wf_acknowledged_at f = Some at_ -> funding_stage f.

Definition funding_ok (f : WholesaleFunding) : Prop :=
  0 < wf_requested_shortfall_wei f /\ funding_stage f.

(** What the wholesale tables satisfy between transactions. *)
Record wholesale_ok (d : DB) : Prop := {
  wo_inv : wholesale_inv d;
  wo_stage : Forall funding_ok (t_funding d);
  wo_mints : NoDup (map wf_mint_request_id (t_funding d));
}.

(** ** Claims *)

Section claims.
Context {W : Type} {R : Runtime} {B : BrokerAccountClient W} {D : PaymentDaemonClient W}.
Implicit Types (s : St DB W) (d : DB) (o : WholesaleAccountObservation).
Implicit Types (l : WholesaleFundingLimits).

Lemma fields_domain_active o :
  account_fields_ok o = true -> ao_settlement_domain_id o <> COMPAT_SETTLEMENT_DOMAIN_ID.
Proof.
  unfold account_fields_ok. intros Hok Heq. bool_props. rewrite Heq in *.
  match goal with Hh : hex_field 64 COMPAT_SETTLEMENT_DOMAIN_ID = true |- _ =>
    vm_compute in Hh; discriminate Hh end.
Qed.

Lemma fields_available o : account_fields_ok o = true -> 0 <= ao_available_value_wei o.
Proof. unfold account_fields_ok. intros ?. by bool_props. Qed.

Lemma payee_matches_refl id o dom pv url c r db av v at_ :
  payee_matches o (MkWholesaleAccount id (ao_chain_id o) (ao_payer o) (ao_payee o)
    (ao_wholesale_account_id o) dom (ao_denomination o) pv url c r db av v at_) = true.
Proof. unfold payee_matches. cbn. by rewrite Z.eqb_refl, !String.eqb_refl. Qed.

(** A selection that any account of the observed payee's domain belongs to. *)
Definition selects o (domain : string) (sel : WholesaleAccount -> bool) : Prop :=
  sel_stable sel /\
  forall a, payee_matches o a = true -> wa_settlement_domain_id a = domain -> sel a = true.

Lemma selects_active o domain :
  domain <> COMPAT_SETTLEMENT_DOMAIN_ID -> selects o domain is_active.
Proof.
  intros Hd. split; [apply active_stable|]. intros a _ <-. unfold is_active.
  by rewrite (proj2 (String.eqb_neq _ _)).
Qed.

Lemma selects_payee o domain :
  domain <> COMPAT_SETTLEMENT_DOMAIN_ID -> selects o domain (payee_sel o).
Proof.
  intros Hd. split; [apply payee_stable|]. intros a Hm <-. unfold payee_sel, is_active.
  by rewrite (proj2 (String.eqb_neq _ _)), Hm.
Qed.

(** What recording the observation does to the working copy. *)
Record synchronized o domain (account : option WholesaleAccount) (id : uuid) d d1 : Prop := {
  sy_wf : accounts_wf d1;
  sy_funding : t_funding d1 = t_funding d;
  sy_exposure : forall sel, selects o domain sel ->
    exposure sel d1 = exposure sel d - prior_available account + ao_available_value_wei o;
  sy_row : exists a, a ∈ t_account d1 /\ wa_id a = id /\ payee_matches o a = true /\
    wa_settlement_domain_id a = domain;
}.

Lemma find_same_account d o domain a :
  List.find (same_account o domain) (matching_payee_accounts (load_active_accounts d) o) = Some a ->
  a ∈ t_account d /\ payee_matches o a = true /\ wa_settlement_domain_id a = domain /\
  payee_sel o a = true.
Proof.
  intros Hf. apply find_some_in in Hf as [Hin Hs]. rewrite matching_payee_selected in Hin.
  unfold selected in Hin. apply list_elem_of_In, filter_In in Hin as [Hin Hp].
  apply list_elem_of_In in Hin. split; [done|]. unfold same_account in Hs.
  apply andb_true_iff in Hs as [Hd _]. apply String.eqb_eq in Hd.
  split_and!; [|done|done]. unfold payee_sel in Hp. by apply andb_true_iff in Hp as [_ Hp].
Qed.

Lemma synchronize_account_ok account route o domain pv s id s1 :
  accounts_wf (st_working s) -> 0 <= ao_available_value_wei o ->
  rt_uuid (st_ticks s) ∉ map wa_id (t_account (st_working s)) ->
  account = List.find (same_account o domain)
    (matching_payee_accounts (load_active_accounts (st_working s)) o) ->
  synchronize_account account route o domain pv s = (Ok id, s1) ->
  synchronized o domain account id (st_working s) (st_working s1).
Proof.
  intros Hwf Hav Hfresh Hacc. destruct account as [a|]; cbn.
  - symmetry in Hacc. apply find_same_account in Hacc as (Hin & Hm & Hdom & _).
    rewrite bind_guard. destruct (negb _); [|done]. rewrite bind_db_modify. intros [= <- <-].
    cbn [st_working]. set (g := fun row => relocate_account pv (ro_worker_url route) _).
    assert (Hfind : find_account (wa_id a) (st_working s) = Some a)
      by (apply find_by_key; [apply Hwf|done]).
    split.
    + apply accounts_wf_update; [apply relocate_observe_keeps_identity|done|done].
    + done.
    + intros sel [Hst Hsel]. rewrite exposure_update_account; auto.
      apply relocate_observe_keeps_identity.
    + exists (g a). split; [|by rewrite <- Hdom]. apply update_first_member. exact Hfind.
  - unfold new_uuid. rewrite bind_tick, bind_db_modify.
    set (row := MkWholesaleAccount _ _ _ _ _ _ _ _ _ _ _ _ _ _ _). intros Hr. m_inv.
    assert (Hw : st_working s1 = on_account (fun rows => rows ++ [row])%list (st_working s)).
    { unfold db_race, db_flush in *. cbn in *. repeat split_match; simplify_eq/=; done. }
    rewrite Hw. split.
    + by apply accounts_wf_add_account.
    + done.
    + intros sel [Hst Hsel]. cbn. rewrite exposure_add_account; [cbn; lia| |].
      * apply Hsel; [apply payee_matches_refl|done].
      * destruct Hwf as [_ _ _ Ho]. eapply Forall_impl; [exact Ho|]. cbn.
        intros f Hf Heq. rewrite Heq in Hf. done.
    + exists row. split_and!; [|done|apply payee_matches_refl|done].
      cbn. apply elem_of_app. right. by apply list_elem_of_singleton.
Qed.

(** The environment of one claim: a broker observation that passed its model's
    constraints, amounts in the decimal context's range, and a fresh row id. *)
Record claim_env (d : DB) o (l : WholesaleFundingLimits) (ticks : nat) : Prop := {
  ce_fields : account_fields_ok o = true;
  ce_range : exposure is_active d + ao_available_value_wei o + wl_target_available_wei l < DLIMIT;
  ce_fresh : rt_uuid ticks ∉ map wa_id (t_account d);
}.

(** The funding row a claim with a shortfall appends. *)
Definition claimed_row (account_id : uuid) (mint : string) (corr : option string)
    (plan : WholesaleFundingPlan) (snapshot : dict) : WholesaleFunding :=
  MkWholesaleFunding account_id mint corr (wp_target_available_wei plan)
    (wp_observed_available_wei plan) (wp_shortfall_wei plan) snapshot None 0 None None None
    "claimed" None.

(** The effect of a new claim on the committed database. *)
Record claimed o l (mint : string) (plan : WholesaleFundingPlan) d d1 (r : option WholesaleFunding)
  : Prop := {
  cd_inv : wholesale_inv d1;
  cd_aggregate : exposure is_active d1 = wp_projected_aggregate_available_wei plan;
  cd_payee : exposure (payee_sel o) d1 = wp_projected_payee_available_wei plan;
  cd_caps : wp_shortfall_wei plan <> 0 ->
    exposure is_active d1 <= wl_max_aggregate_available_wei l /\
    exposure (payee_sel o) d1 <= wl_max_available_per_payee_wei l /\
    0 < wp_shortfall_wei plan <= wl_max_single_funding_wei l;
  cd_row : match r with
           | None => wp_shortfall_wei plan = 0 /\ t_funding d1 = t_funding d
           | Some f => wp_shortfall_wei plan <> 0 /\ t_funding d1 = (t_funding d ++ [f])%list /\
               exists id corr snap, f = claimed_row id mint corr plan snap
           end;
}.

Lemma plan_facts o agg payee l p :
  plan_account_shortfall o agg (Some payee) l = Ok p ->
  0 < wl_target_available_wei l /\ 0 <= wp_shortfall_wei p /\
  ao_available_value_wei o <= agg /\ ao_available_value_wei o <= payee.
Proof.
  unfold plan_account_shortfall, make_plan, require. intros Hp. crush_match; lia.
Qed.

(** Adding the claim's shortfall to a synchronized database. *)
Lemma claim_books o domain account id mint corr snap plan d d1 :
  account_fields_ok o = true -> ao_settlement_domain_id o = domain ->
  synchronized o domain account id d d1 -> 0 < wp_shortfall_wei plan ->
  let d2 := on_funding (fun fs => fs ++ [claimed_row id mint corr plan snap])%list d1 in
  accounts_wf d2 /\
  forall sel, selects o domain sel ->
    exposure sel d2 = exposure sel d - prior_available account + ao_available_value_wei o
                      + wp_shortfall_wei plan.
Proof.
  intros Hf Hd [Hwf Hfu Hex (a & Hin & Hid & Hm & Hdom)] Hs d2. split.
  - apply accounts_wf_add_funding; cbn; [|lia|done]. rewrite <- Hid.
    by apply list_elem_of_fmap_2.
  - intros sel Hsel. unfold d2. rewrite exposure_add_funding, (Hex sel Hsel).
    rewrite (pending_of_account sel d1 a); [done|done|by apply Hsel|done].
Qed.

(** The plan made under the lock, in terms of exposures. *)
Lemma locked_plan_ok o domain l d account agg pay p :
  wholesale_inv d -> account_fields_ok o = true ->
  exposure is_active d + ao_available_value_wei o + wl_target_available_wei l < DLIMIT ->
  account = List.find (same_account o domain)
    (matching_payee_accounts (load_active_accounts d) o) ->
  synchronized_exposure d (load_active_accounts d)
    (matching_payee_accounts (load_active_accounts d) o) account o = (agg, pay) ->
  plan_account_shortfall o agg (Some pay) l = Ok p ->
  let shift := ao_available_value_wei o - prior_available account in
  0 <= wp_shortfall_wei p /\
  wp_projected_aggregate_available_wei p = exposure is_active d + shift + wp_shortfall_wei p /\
  wp_projected_payee_available_wei p = exposure (payee_sel o) d + shift + wp_shortfall_wei p /\
  (wp_shortfall_wei p <> 0 ->
   wp_shortfall_wei p <= wl_max_single_funding_wei l /\
   wp_projected_payee_available_wei p <= wl_max_available_per_payee_wei l /\
   wp_projected_aggregate_available_wei p <= wl_max_aggregate_available_wei l).
Proof.
  intros [Hwf _] Hf Hr Hacc Hse Hp.
  pose proof (fields_available o Hf) as Hav. pose proof (plan_facts _ _ _ _ _ Hp) as Hpf.
  assert (Hin : forall a, account = Some a -> a ∈ t_account d /\ payee_sel o a = true).
  { intros a ->. symmetry in Hacc. apply find_same_account in Hacc. tauto. }
  rewrite synchronized_exposure_exact in Hse by (try done; lia). injection Hse as <- <-.
  assert (Hle : exposure (payee_sel o) d <= exposure is_active d).
  { apply exposure_mono; [done|]. unfold payee_sel. intros a ?. by bool_props. }
  assert (0 <= prior_available account).
  { destruct account as [a|]; cbn; [|done]. destruct (Hin a eq_refl) as [Ha _].
    destruct Hwf as [_ Hn _ _]. rewrite Forall_forall in Hn. by apply Hn. }
  apply plan_ok_iff in Hp as (_ & _ & Hc & ->); [|lia..]. cbn in *. unfold within_caps in Hc.
  split_and!; try lia; intros Hne; specialize (Hc Hne); lia.
Qed.

(** The rest of a claim: the budget, the row and the commit. *)
Lemma claim_tail_ok o domain l account id mint corr route plan d s r s1 :
  account_fields_ok o = true -> ao_settlement_domain_id o = domain ->
  synchronized o domain account id d (st_working s) ->
  let shift := ao_available_value_wei o - prior_available account in
  0 <= wp_shortfall_wei plan /\
  wp_projected_aggregate_available_wei plan = exposure is_active d + shift + wp_shortfall_wei plan /\
  wp_projected_payee_available_wei plan = exposure (payee_sel o) d + shift + wp_shortfall_wei plan /\
  (wp_shortfall_wei plan <> 0 ->
   wp_shortfall_wei plan <= wl_max_single_funding_wei l /\
   wp_projected_payee_available_wei plan <= wl_max_available_per_payee_wei l /\
   wp_projected_aggregate_available_wei plan <= wl_max_aggregate_available_wei l) ->
  (db_modify (on_budget (fun _ => Some (wp_projected_aggregate_available_wei plan))) ;;;
   if wp_shortfall_wei plan =? 0 then db_commit ;;; ret None
   else
     snapshot <- lift (route_snapshot route) ;;
     db_modify (on_funding (fun fs => fs ++ [claimed_row id mint corr plan snapshot])%list) ;;;
     db_commit ;;;
     ret (Some (claimed_row id mint corr plan snapshot))) s = (Ok r, s1) ->
  claimed o l mint plan d (st_committed s1) r.
Proof.
  intros Hf Hd Hsy shift (Hsf & Hpa & Hpp & Hcaps). rewrite bind_db_modify.
  pose proof (fields_domain_active o Hf) as Hdom. rewrite Hd in Hdom.
  pose proof (selects_active o domain Hdom) as Ha. pose proof (selects_payee o domain Hdom) as Hp.
  destruct (wp_shortfall_wei plan =? 0) eqn:E; bool_props; intros Hrun; m_inv.
  - match goal with Hc : db_commit _ = _ |- _ => apply db_commit_ok in Hc as (Hcm & _) end.
    cbn in *. subst. pose proof (sy_exposure _ _ _ _ _ _ Hsy _ Ha).
    pose proof (sy_exposure _ _ _ _ _ _ Hsy _ Hp).
    split; rewrite ?Hcm, ?exposure_on_budget; try lia.
    + split; [apply (accounts_wf_ext (st_working s)); [done|done|apply Hsy]|].
      unfold budget_ok. rewrite exposure_on_budget. cbn. f_equal. lia.
    + split; [done|]. exact (sy_funding _ _ _ _ _ _ Hsy).
  - unfold db_modify in *. simplify_eq.
    match goal with Hc : db_commit _ = _ |- _ => apply db_commit_ok in Hc as (Hcm & _) end.
    cbn [st_working] in *. subst.
    match type of Hcm with _ = on_funding (fun fs => fs ++ [claimed_row _ _ _ _ ?sn])%list _ =>
      destruct (claim_books o (ao_settlement_domain_id o) account id mint corr sn plan d
        (st_working s) Hf eq_refl Hsy ltac:(lia)) as [Hwf Hex] end.
    pose proof (Hex _ Ha). pose proof (Hex _ Hp).
    change (on_funding ?f (on_budget ?g ?x)) with (on_budget g (on_funding f x)) in Hcm.
    split; rewrite ?Hcm, ?exposure_on_budget; try lia.
    + split; [eapply accounts_wf_ext; [| |exact Hwf]; done|].
      unfold budget_ok. rewrite exposure_on_budget. cbn. f_equal. lia.
    + split; [done|]. split; [|eauto]. cbn. by rewrite (sy_funding _ _ _ _ _ _ Hsy).
Qed.

Lemma claim_new_ok route o domain plan l mint corr pv s r s1 :
  wholesale_inv (st_working s) -> claim_env (st_working s) o l (st_ticks s) ->
  find_funding mint (st_working s) = None ->
  claim_account_funding route o domain plan l mint corr pv s = (Ok r, s1) ->
  claimed o l mint plan (st_working s) (st_committed s1) r.
Proof.
  intros Hinv [Hf Hr Hfresh] Hnone Hrun. unfold claim_account_funding in Hrun.
  rewrite bind_lift in Hrun. destruct (require_settlement_domain_id domain); [|done].
  rewrite bind_lift in Hrun. destruct (require_observation_domain o domain) eqn:Hd; [|done].
  apply require_ok_any, String.eqb_eq in Hd.
  apply bind_ok in Hrun as (dirty & s0 & [= <- <-] & Hrun). rewrite bind_guard in Hrun.
  destruct (negb (st_pending s)); [|done]. rewrite bind_db_read, Hnone, bind_guard in Hrun.
  destruct (bool_decide _); [|done]. cbv zeta in Hrun.
  destruct (synchronized_exposure _ _ _ _ _) as [agg pay] eqn:Hse.
  rewrite bind_lift in Hrun. destruct (plan_account_shortfall _ _ _ _) as [p|] eqn:Hp; [|done].
  rewrite bind_guard in Hrun. destruct (bool_decide (p = plan)) eqn:Epl; [|done].
  apply bool_decide_eq_true in Epl. subst p.
  apply bind_ok in Hrun as (id & s2 & Hsync & Hrun).
  apply synchronize_account_ok in Hsync; try done; [|apply Hinv|by apply fields_available].
  eapply claim_tail_ok; [exact Hf|exact Hd|exact Hsync| |exact Hrun].
  by eapply locked_plan_ok.
Qed.

(** ** Every transaction keeps the invariant *)

(** A request's session before its first statement. *)
Definition fresh_session (s : St DB W) : Prop :=
  st_working s = st_committed s /\ st_pending s = false.

Lemma find_funding_fresh mint d :
  find_funding mint d = None -> mint ∉ map wf_mint_request_id (t_funding d).
Proof.
  intros Hf Hin. apply find_none_Forall in Hf. rewrite Forall_forall in Hf.
  apply list_elem_of_fmap in Hin as (f & -> & Hin). specialize (Hf f Hin).
  by rewrite String.eqb_refl in Hf.
Qed.

Lemma claimed_ok o l mint plan d d1 r :
  wholesale_ok d -> find_funding mint d = None -> 0 <= wp_shortfall_wei plan ->
  claimed o l mint plan d d1 r -> wholesale_ok d1.
Proof.
  intros [_ Hst Hnd] Hnone Hsf [Hinv _ _ _ Hrow]. destruct r as [f|].
  - destruct Hrow as (Hne & Ht & id & corr & snap & ->). split; [done|..]; rewrite Ht.
    + apply Forall_app. split; [done|]. constructor; [|done]. split; [cbn; lia|].
      by apply stage_claimed.
    + rewrite map_app. apply NoDup_app. split; [done|]. split; [|apply NoDup_singleton].
      intros x Hx Hy. apply list_elem_of_singleton in Hy as ->. cbn in Hx.
      by apply (find_funding_fresh _ _ Hnone).
  - destruct Hrow as [_ Ht]. split; [done|..]; by rewrite Ht.
Qed.

Lemma replay_ok existing route o domain plan corr s r s1 :
  replay_funding_claim existing route o domain plan corr s = (Ok r, s1) ->
  st_committed s1 = st_working s /\ r = Some existing.
Proof.
  unfold replay_funding_claim. intros Hrun. m_inv. unfold db_peek in *. simplify_eq.
  by match goal with Hc : db_commit _ = _ |- _ => apply db_commit_ok in Hc as (Hcm & _) end.
Qed.

#[local] Instance claim_raises P route o domain plan l mint corr pv :
  RaisesKeep (committed_inv P)
    (claim_account_funding (W := W) route o domain plan l mint corr pv).
Proof. unfold claim_account_funding, replay_funding_claim, synchronize_account. raises_keep. Qed.

#[local] Instance mint_raises P mint response :
  RaisesKeep (committed_inv P) (record_minted_funding (W := W) mint response).
Proof. unfold record_minted_funding. raises_keep. Qed.

#[local] Instance acknowledge_raises P mint result o domain at_ :
  RaisesKeep (committed_inv P) (acknowledge_account_funding (W := W) mint result o domain at_).
Proof. unfold acknowledge_account_funding. raises_keep. Qed.

Lemma claim_found route o domain plan l mint corr pv s existing r s1 :
  find_funding mint (st_working s) = Some existing ->
  claim_account_funding route o domain plan l mint corr pv s = (Ok r, s1) ->
  st_committed s1 = st_working s /\ r = Some existing.
Proof.
  intros Hf Hrun. unfold claim_account_funding in Hrun. m_inv.
  unfold db_is_dirty, db_read in *. simplify_eq. cbn [st_working] in Hrun. rewrite Hf in Hrun.
  by apply replay_ok in Hrun.
Qed.

Lemma claim_keeps route o domain plan l mint corr pv s :
  fresh_session s -> committed_inv wholesale_ok s ->
  claim_env (st_committed s) o l (st_ticks s) ->
  wholesale_ok (st_committed
    (snd (claim_account_funding route o domain plan l mint corr pv s))).
Proof.
  intros [Hw _] Hok Henv.
  pose proof (claim_raises wholesale_ok route o domain plan l mint corr pv s Hok) as Herr.
  destruct (claim_account_funding _ _ _ _ _ _ _ _ s) as [[r|e] s1] eqn:E; cbn; [|apply Herr].
  destruct Hok as [Hok _]. rewrite <- Hw in Hok, Henv.
  destruct (find_funding mint (st_working s)) as [f|] eqn:Ef.
  - apply (claim_found _ _ _ _ _ _ _ _ _ _ _ _ Ef) in E as [-> _]. done.
  - pose proof (claim_new_ok _ _ _ _ _ _ _ _ _ _ _ (wo_inv _ Hok) Henv Ef E) as Hc.
    refine (claimed_ok _ _ _ _ _ _ _ Hok Ef _ Hc).
    destruct (Z.eq_dec (wp_shortfall_wei plan) 0) as [->|Hne]; [done|].
    pose proof (cd_caps _ _ _ _ _ _ _ Hc Hne). lia.
Qed.

Lemma mint_recorded_stage response f :
  funding_ok f -> cp_expected_value response = wf_requested_shortfall_wei f ->
  funding_ok (mint_recorded response f).
Proof.
  intros [Hpos Hst] Hv. split; [done|].
  destruct Hst as [Hs|b Hs|b v t Hs]; cbn.
  - eapply stage_minted; cbn; rewrite ?Hs; done.
  - eapply stage_minted; cbn; rewrite ?Hs; done.
  - eapply stage_acknowledged; cbn; rewrite ?Hs; done.
Qed.

Lemma mint_recorded_pending response accounts f :
  is_pending accounts (mint_recorded response f) = is_pending accounts f.
Proof.
  unfold is_pending. cbn. f_equal. f_equal.
  destruct (String.eqb (wf_status f) "acknowledged") eqn:E; cbn; [done|reflexivity].
Qed.

Lemma update_funding_ok mint g d f :
  find_funding mint d = Some f -> wholesale_ok d ->
  (forall x, wf_mint_request_id (g x) = wf_mint_request_id x) ->
  funding_ok (g f) ->
  Forall funding_ok (t_funding (update_funding mint g d)) /\
  NoDup (map wf_mint_request_id (t_funding (update_funding mint g d))).
Proof.
  intros Hf [_ Hst Hnd] Hg Hgf. split.
  - by eapply Forall_update_first_at.
  - unfold update_funding. cbn. by rewrite update_first_map.
Qed.

Lemma mint_ok mint response s f s1 :
  record_minted_funding mint response s = (Ok f, s1) ->
  exists f0, find_funding mint (st_working s) = Some f0 /\ f = mint_recorded response f0 /\
    cp_expected_value response = wf_requested_shortfall_wei f0 /\
    st_committed s1 = update_funding mint (mint_recorded response) (st_working s).
Proof.
  unfold record_minted_funding. intros Hrun. m_inv. unfold db_read in *. simplify_eq.
  cbn [st_working] in *. destruct (find_funding mint (st_working s)) as [f0|]; [|done]. m_inv.
  unfold db_modify in *. simplify_eq. bool_props.
  match goal with Hc : db_commit _ = _ |- _ => apply db_commit_ok in Hc as (Hcm & _) end.
  eauto.
Qed.

Lemma mint_keeps mint response s :
  fresh_session s -> committed_inv wholesale_ok s ->
  wholesale_ok (st_committed (snd (record_minted_funding mint response s))).
Proof.
  intros [Hw _] Hok.
  pose proof (mint_raises wholesale_ok mint response s Hok) as Herr.
  destruct (record_minted_funding mint response s) as [[f|e] s1] eqn:E; cbn; [|apply Herr].
  destruct Hok as [Hok _]. rewrite <- Hw in Hok.
  apply mint_ok in E as (f0 & Hf & -> & Hv & ->).
  assert (Hg : funding_ok (mint_recorded response f0)).
  { apply mint_recorded_stage; [|done]. destruct Hok as [_ Hst _].
    rewrite Forall_forall in Hst. apply Hst. by apply find_some_in in Hf as [Hin _]. }
  destruct (update_funding_ok mint (mint_recorded response) _ _ Hf Hok ltac:(done) Hg).
  destruct Hok as [[Hwf Hb] _ _]. split; [split|done|done].
  - by apply accounts_wf_update_funding.
  - unfold budget_ok. rewrite (exposure_update_funding _ _ _ _ _ Hf) by done.
    rewrite mint_recorded_pending. cbn. rewrite Hb. f_equal. lia.
Qed.

Lemma acknowledged_credit_ok result o f c :
  acknowledged_credit result o f = Ok c ->
  c = fr_credited_value_wei result /\ c = wf_minted_expected_value_wei f /\
  wf_requested_shortfall_wei f <= c /\ is_Some (wf_payment_bytes f).
Proof.
  unfold acknowledged_credit, require. intros Hc. crush_match; split_and!; try done; lia.
Qed.

(** What a returned acknowledgement has checked and done, [f0] and [a] being the
    funding and account rows it found. *)
Record acknowledged mint (result : WholesaleFundingResult) o at_ d d1 (f0 : WholesaleFunding)
    (a : WholesaleAccount) : Prop := {
  ak_find : find_funding mint d = Some f0;
  ak_acc : find_account (wf_account_id f0) d = Some a;
  ak_bytes : is_Some (wf_payment_bytes f0);
  ak_match : payee_matches o a = true;
  ak_domain : wa_settlement_domain_id a = ao_settlement_domain_id o;
  ak_fresh : wa_remote_version a <= ao_version o;
  ak_credit : fr_credited_value_wei result = wf_minted_expected_value_wei f0;
  ak_budget : exists b, t_budget d = Some b /\
    let prior := if negb (String.eqb (wf_status f0) "acknowledged")
      then dadd (wa_available_value_wei a) (wf_requested_shortfall_wei f0)
      else wa_available_value_wei a in
    d1 = update_funding mint (credit_acknowledged (fr_credited_value_wei result)
           (fr_account_version result) at_)
         (update_account (wa_id a) (observe_account o)
           (on_budget (fun _ => Some (dadd (dsub b prior) (ao_available_value_wei o))) d));
}.

Lemma acknowledge_ok mint result o domain at_ s f s1 :
  acknowledge_account_funding mint result o domain at_ s = (Ok f, s1) ->
  exists f0 a, acknowledged mint result o at_ (st_working s) (st_committed s1) f0 a /\
    f = credit_acknowledged (fr_credited_value_wei result) (fr_account_version result) at_ f0.
Proof.
  unfold acknowledge_account_funding. intros Hrun. m_inv. unfold db_read, db_modify in *.
  simplify_eq. cbn [st_working] in *.
  repeat match goal with
  | Ho : of_option _ _ = Ok _ |- _ => apply of_option_ok in Ho
  | Hc : db_commit _ = _ |- _ => apply db_commit_ok in Hc as (Hcm & _)
  | Hc : acknowledged_credit _ _ _ = Ok _ |- _ => apply acknowledged_credit_ok in Hc as (-> & ? & ? & ?)
  end.
  unfold account_matches in *. bool_props.
  repeat match goal with Hs : String.eqb _ _ = true |- _ => apply String.eqb_eq in Hs end.
  do 2 eexists. split; [|done]. split; try done; try congruence. eauto.
Qed.

Lemma acknowledged_exposure mint result o at_ d d1 f0 a :
  wholesale_inv d -> account_fields_ok o = true ->
  exposure is_active d + ao_available_value_wei o < DLIMIT ->
  acknowledged mint result o at_ d d1 f0 a -> wholesale_inv d1.
Proof.
  intros [Hwf Hb] Hf Hr [Hfind Hacc _ Hm Hdom _ _ (b & Hbd & ->)].
  pose proof (fields_available o Hf) as Hav.
  pose proof (find_some_in _ _ _ Hfind) as [Hfin _].
  pose proof (find_some_in _ _ _ Hacc) as [Hain Hid]. apply N.eqb_eq in Hid.
  assert (Hact : is_active a = true).
  { apply (selects_active o (ao_settlement_domain_id o)); [by apply fields_domain_active|done..]. }
  set (prior := if negb (String.eqb (wf_status f0) "acknowledged") then
    dadd (wa_available_value_wei a) (wf_requested_shortfall_wei f0)
    else wa_available_value_wei a). set (d' := update_account _ _ _).
  assert (Hwf' : accounts_wf d').
  { apply accounts_wf_update; [apply observe_keeps_identity|done|].
    by apply (accounts_wf_ext d). }
  assert (Hpend : is_pending (selected is_active d') f0
                  = negb (String.eqb (wf_status f0) "acknowledged")).
  { unfold d'. rewrite pending_update_account;
      [|apply active_stable|apply observe_keeps_identity].
    by apply (pending_of_account is_active _ a). }
  assert (Hprior : 0 <= prior <= exposure is_active d /\
    exposure is_active d' - (if is_pending (selected is_active d') f0
                             then wf_requested_shortfall_wei f0 else 0)
    = exposure is_active d - prior + ao_available_value_wei o).
  { assert (Hd' : exposure is_active d' = exposure is_active d - wa_available_value_wei a
        + ao_available_value_wei o).
    { unfold d'. rewrite exposure_update_account; [done|apply active_stable|
        apply observe_keeps_identity|rewrite Hid; exact Hacc|done]. }
    rewrite Hpend, Hd'.
    assert (0 <= wa_available_value_wei a /\ 0 <= wf_requested_shortfall_wei f0) as [? ?].
    { destruct Hwf as [_ Hx Hy _]. rewrite Forall_forall in Hx. rewrite Forall_forall in Hy. auto. }
    unfold prior. cbn [wa_available_value_wei observe_account].
    destruct (String.eqb (wf_status f0) "acknowledged") eqn:E; cbn [negb].
    - pose proof (exposure_covers is_active d a Hwf Hain Hact). lia.
    - apply String.eqb_neq in E.
      pose proof (exposure_covers_funding is_active d a f0 Hwf Hain Hact Hfin (eq_sym Hid) E).
      rewrite dadd_exact by (unfold in_prec; lia). lia. }
  destruct Hprior as [Hp Heq]. unfold budget_ok in Hb. assert (b = exposure is_active d) as -> by congruence.
  split; [by apply accounts_wf_update_funding|]. unfold budget_ok.
  rewrite (exposure_update_funding is_active d' mint f0) by done.
  assert (is_pending (selected is_active d') (credit_acknowledged
    (fr_credited_value_wei result) (fr_account_version result) at_ f0) = false) as ->
    by (unfold is_pending; cbn; apply andb_false_r).
  cbn [t_budget update_funding on_funding d' update_account on_account on_budget].
  rewrite dsub_exact, dadd_exact by (unfold in_prec; lia). f_equal. lia.
Qed.

Lemma acknowledge_stage result at_ f :
  funding_ok f -> is_Some (wf_payment_bytes f) ->
  fr_credited_value_wei result = wf_minted_expected_value_wei f ->
  funding_ok (credit_acknowledged (fr_credited_value_wei result) (fr_account_version result) at_ f).
Proof.
  intros [Hpos Hst] [b Hb] Hc. split; [done|].
  destruct Hst as [Hs Hn|b' Hs Hb' Hv|b' v t Hs Hb' Hv]; [congruence|..];
    by eapply stage_acknowledged; cbn; try done; rewrite Hc, Hv.
Qed.

Lemma acknowledge_keeps mint result o domain at_ s :
  fresh_session s -> committed_inv wholesale_ok s -> account_fields_ok o = true ->
  exposure is_active (st_committed s) + ao_available_value_wei o < DLIMIT ->
  wholesale_ok (st_committed (snd (acknowledge_account_funding mint result o domain at_ s))).
Proof.
  intros [Hw _] Hok Hf Hr.
  pose proof (acknowledge_raises wholesale_ok mint result o domain at_ s Hok) as Herr.
  destruct (acknowledge_account_funding mint result o domain at_ s) as [[f|e] s1] eqn:E; cbn;
    [|apply Herr].
  destruct Hok as [Hok _]. rewrite <- Hw in *.
  apply acknowledge_ok in E as (f0 & a & Hak & _).
  pose proof (acknowledged_exposure _ _ _ _ _ _ _ _ (wo_inv _ Hok) Hf Hr Hak) as Hinv.
  destruct Hak as [Hfind _ Hby _ _ _ Hc (b & _ & Hd)].
  assert (Hg : funding_ok (credit_acknowledged (fr_credited_value_wei result)
    (fr_account_version result) at_ f0)).
  { apply acknowledge_stage; try done. destruct Hok as [_ Hst _]. rewrite Forall_forall in Hst.
    apply Hst. by apply find_some_in in Hfind as [Hin _]. }
  destruct (update_funding_ok mint (credit_acknowledged (fr_credited_value_wei result)
    (fr_account_version result) at_) _ _ Hfind Hok ltac:(done) Hg) as [H1 H2].
  by split; [done|rewrite Hd..].
Qed.

(** One committed or rolled-back transaction of some worker. *)
Inductive funding_step : DB -> DB -> Prop :=
| step_claim s route o domain plan l mint corr pv :
    fresh_session s -> races_keep wholesale_ok s ->
    claim_env (st_committed s) o l (st_ticks s) ->
    funding_step (st_committed s)
      (st_committed (snd (claim_account_funding route o domain plan l mint corr pv s)))
| step_mint s mint response :
    fresh_session s -> races_keep wholesale_ok s ->
    funding_step (st_committed s)
      (st_committed (snd (record_minted_funding mint response s)))
| step_acknowledge s mint result o domain at_ :
    fresh_session s -> races_keep wholesale_ok s -> account_fields_ok o = true ->
    exposure is_active (st_committed s) + ao_available_value_wei o < DLIMIT ->
    funding_step (st_committed s)
      (st_committed (snd (acknowledge_account_funding mint result o domain at_ s))).

Lemma funding_step_keeps d d1 : funding_step d d1 -> wholesale_ok d -> wholesale_ok d1.
Proof.
  intros [s route o domain plan l mint corr pv Hf Hr He|s mint response Hf Hr
         |s mint result o domain at_ Hf Hr He Hx] Hok.
  - by apply claim_keeps.
  - by apply mint_keeps.
  - by apply acknowledge_keeps.
Qed.

Lemma funding_steps_keep d d1 : rtc funding_step d d1 -> wholesale_ok d -> wholesale_ok d1.
Proof. induction 1; eauto using funding_step_keeps. Qed.

(** ** Completing a claim *)

Lemma mint_claimed_ok f route o plan payer s f' s1 :
  mint_claimed_funding f route o plan payer s = (Ok f', s1) ->
  wf_mint_request_id f' = wf_mint_request_id f.
Proof.
  unfold mint_claimed_funding. intros Hrun. m_inv.
  match goal with Hm : record_minted_funding _ _ _ = _ |- _ =>
    apply mint_ok in Hm as (f0 & Hf & -> & _ & Hcm) end.
  apply find_some_in in Hf as [_ Hf]. by apply String.eqb_eq in Hf.
Qed.

Lemma acknowledge_found mint result o domain at_ s f s1 :
  acknowledge_account_funding mint result o domain at_ s = (Ok f, s1) ->
  find_funding mint (st_committed s1) = Some f /\ wf_status f = "acknowledged" /\
  wf_credited_value_wei f = Some (wf_minted_expected_value_wei f).
Proof.
  intros Hrun. apply acknowledge_ok in Hrun as (f0 & a & [Hf _ _ _ _ _ Hc (b & _ & ->)] & ->).
  split_and!; [|done|by rewrite Hc].
  unfold find_funding, update_funding. cbn. rewrite find_update_first by done.
  unfold find_funding in Hf. by rewrite Hf.
Qed.

Lemma complete_ok f route o domain plan payer chain at_ s s1 :
  complete_account_funding (Some f) route o domain plan payer chain at_ s = (Ok tt, s1) ->
  wf_status f = "acknowledged" /\ s1 = s \/
  exists f1, find_funding (wf_mint_request_id f) (st_committed s1) = Some f1 /\
    wf_status f1 = "acknowledged" /\
    wf_credited_value_wei f1 = Some (wf_minted_expected_value_wei f1).
Proof.
  unfold complete_account_funding. destruct (String.eqb (wf_status f) "acknowledged") eqn:E.
  { intros [= <-]. left. by apply String.eqb_eq in E. }
  intros Hrun. right. m_inv.
  match goal with Ha : acknowledge_account_funding _ _ _ _ _ _ = _ |- _ =>
    apply acknowledge_found in Ha as (Hf & Hs & Hc) end.
  eexists. split; [|by split]. rewrite <- Hf. f_equal. symmetry.
  match goal with Hm : (if _ then _ else _) _ = _ |- _ => destruct (String.eqb _ _) in Hm;
    [by apply mint_claimed_ok in Hm|by apply ret_ok in Hm as [-> _]] end.
Qed.

End claims.

(** ** The properties *)


Definition demo_wholesale_state : St DB unit :=
  let d := on_budget (fun _ => Some 0) db_empty in MkSt d d false [] 0%nat tt.

Lemma demo_wholesale_ok : wholesale_ok (st_committed demo_wholesale_state).
Proof.
  split; [split; [split; by constructor|reflexivity]|by constructor|by constructor].
Qed.

Lemma demo_claim_env :
  claim_env (R := demo_runtime) (st_committed demo_wholesale_state) (demo_observation 15 1)
    demo_limits 0.
Proof. split; [reflexivity|reflexivity|]. by intros ?%elem_of_nil. Qed.


(** C13: whatever workers claim, mint and acknowledge, in whatever interleaving
    of their transactions and with whatever outcomes, the exposure budget equals
    the available value of the active accounts plus the claimed shortfalls not
    yet acknowledged, no mint request is recorded twice, and every funding is
    claimed, minted for exactly its shortfall, or acknowledged with exactly its
    shortfall credited. *)
Theorem funding_workers_keep_budget {W} {R : Runtime} (d d1 : DB) :
  rtc (funding_step (W := W)) d d1 -> wholesale_ok d ->
  accounts_wf d1 /\ t_budget d1 = Some (exposure is_active d1) /\
  NoDup (map wf_mint_request_id (t_funding d1)) /\ Forall funding_ok (t_funding d1).
Proof.
  intros Hs Hok. destruct (funding_steps_keep d d1 Hs Hok) as [[? ?] ? ?]. by split_and!.
Qed.

(** The database after one claim of 85 wei. *)
Definition demo_claimed : DB :=
  st_committed (snd (claim_account_funding (R := demo_runtime) demo_route (demo_observation 15 1)
    (ao_settlement_domain_id (demo_observation 15 1)) (MkPlan 100 15 85 100 100) demo_limits "m1"
    None WHOLESALE_ACCOUNT_PROTOCOL_VERSION demo_wholesale_state)).

Lemma funding_workers_keep_budget_witness :
  t_budget demo_claimed = Some 100 /\ exposure is_active demo_claimed = 100 /\
  NoDup (map wf_mint_request_id (t_funding demo_claimed)).
Proof.
  split; [vm_compute; reflexivity|]. split; [vm_compute; reflexivity|].
  apply (funding_workers_keep_budget (W := unit) (R := demo_runtime)
    (st_committed demo_wholesale_state) demo_claimed).
  - apply rtc_once. apply step_claim; [by split|by intros f ?%elem_of_nil|exact demo_claim_env].
  - exact demo_wholesale_ok.
Defined.

(** a funding completion that returns for an unacknowledged claim has
    recorded the broker's acknowledgement: the committed row of that mint
    request is acknowledged and credits exactly the value its payment was minted
    for; completing an acknowledged claim does nothing. *)
Theorem complete_funding_acknowledges {W} {R : Runtime} {B : BrokerAccountClient W}
    {D : PaymentDaemonClient W} (f : WholesaleFunding) route o domain plan payer chain at_
    (s : St DB W) :
  match complete_account_funding (Some f) route o domain plan payer chain at_ s with
  | (Ok _, s1) =>
      wf_status f = "acknowledged" /\ s1 = s \/
      exists f1, find_funding (wf_mint_request_id f) (st_committed s1) = Some f1 /\
        wf_status f1 = "acknowledged" /\
        wf_credited_value_wei f1 = Some (wf_minted_expected_value_wei f1)
  | (Err _, _) => True
  end.
Proof.
  destruct (complete_account_funding _ _ _ _ _ _ _ _ s) as [[[]|e] s1] eqn:E; [|done].
  by eapply complete_ok.
Qed.
