(* ===== verification/Payments.v ===== *)
(** * Payments

    [domains/payments/service.py]: the durable claim that makes a create
    endpoint idempotent, route-locked spend authorizations, the maintenance
    sweep over claims, and the payer deposit snapshots.

    A claim's compare-and-swap UPDATE may see a database that other
    transactions changed after the claim read its row; [db_interleave] marks
    that point. *)

From S2P Require Import Prelude PyData Errors Effects Store SettlementVerification.
From S2P Require Import PaymentDaemon Registry.
From Stdlib Require Import Strings.Ascii.

Open Scope string_scope.
Open Scope Z_scope.
Open Scope loc_scope.

(** ** Deterministic JSON: [json.dumps(sort_keys=True, separators=(",", ":"))],
    with and without [ensure_ascii] *)

Definition quote_char : ascii := ascii_of_nat 34.

Definition json_escape_char (a : ascii) : string :=
  let n := Z.of_N (N_of_ascii a) in
  if n =? 34 then String "\"%char (String quote_char "")
  else if n =? 92 then "\\"
  else if n =? 10 then "\n" else if n =? 13 then "\r" else if n =? 9 then "\t"
  else if n =? 8 then "\b" else if n =? 12 then "\f"
  else if n <? 32 then "\u00" ++ String (hex_digit (n / 16)) (String (hex_digit (n mod 16)) "")
  else String a "".

Fixpoint json_escape (s : string) : string :=
  match s with
  | EmptyString => ""
  | String a s' => json_escape_char a ++ json_escape s'
  end.

Definition hex4 (n : Z) : string :=
  String (hex_digit (n / 4096)) (String (hex_digit (n / 256 mod 16))
    (String (hex_digit (n / 16 mod 16)) (String (hex_digit (n mod 16)) ""))).

(** The escape of one code point outside ASCII, as a surrogate pair beyond the
    basic plane. *)
Definition unicode_escape (n : Z) : string :=
  if n <? 65536 then "\u" ++ hex4 n
  else "\u" ++ hex4 (55296 + (n - 65536) / 1024) ++ "\u" ++ hex4 (56320 + (n - 65536) mod 1024).

Definition code (a : ascii) : Z := Z.of_N (N_of_ascii a).

(** The same over UTF-8 text with every non-ASCII code point escaped. *)
Fixpoint json_escape_ascii (s : string) : string :=
  match s with
  | EmptyString => ""
  | String a s1 =>
      if code a <? 128 then
        (if code a =? 127 then "\u007f" else json_escape_char a) ++ json_escape_ascii s1
      else match s1 with
      | EmptyString => ""
      | String b s2 =>
          if code a <? 224 then
            unicode_escape ((code a - 192) * 64 + (code b - 128)) ++ json_escape_ascii s2
          else match s2 with
          | EmptyString => ""
          | String c s3 =>
              if code a <? 240 then
                unicode_escape ((code a - 224) * 4096 + (code b - 128) * 64 + (code c - 128))
                ++ json_escape_ascii s3
              else match s3 with
              | EmptyString => ""
              | String e s4 =>
                  unicode_escape ((code a - 240) * 262144 + (code b - 128) * 4096
                                  + (code c - 128) * 64 + (code e - 128))
                  ++ json_escape_ascii s4
              end
          end
      end
  end.

Definition json_quote (escape : string -> string) (s : string) : string :=
  String quote_char (escape s ++ String quote_char "").

Fixpoint str_join (sep : string) (l : list string) : string :=
  match l with
  | [] => ""
  | [x] => x
  | x :: l' => x ++ sep ++ str_join sep l'
  end.

Fixpoint insert_key (kv : string * string) (l : list (string * string)) : list (string * string) :=
  match l with
  | [] => [kv]
  | kv' :: l' => if String.ltb (fst kv) (fst kv') then kv :: l else kv' :: insert_key kv l'
  end.

Definition sort_keys (l : list (string * string)) : list (string * string) :=
  foldr insert_key [] l.

Fixpoint json_dumps (escape : string -> string) (j : json) : string :=
  match j with
  | JNull => "null"
  | JBool true => "true"
  | JBool false => "false"
  | JInt z => str_Z z
  | JStr s => json_quote escape s
  | JArr l =>
      "[" ++ str_join "," ((fix each (l : list json) : list string :=
        match l with [] => [] | x :: l' => json_dumps escape x :: each l' end) l) ++ "]"
  | JObj d =>
      let rendered := (fix each (d : dict) : list (string * string) :=
        match d with [] => [] | (k, x) :: d' => (k, json_dumps escape x) :: each d' end) d in
      "{" ++ str_join "," (map (fun kv => json_quote escape (fst kv) ++ ":" ++ snd kv)
                             (sort_keys rendered)) ++ "}"
  end.

(** ** Claims *)

(** [CreateRequestClaim] and [is_replay]. *)
Record CreateRequestClaim := MkCreateRequestClaim {
  rc_broker_request_id : string;
  rc_replay_status : option Z;
  rc_replay_payload : option dict;
  rc_lease_expires_at : option datetime;
}.

Definition is_replay (c : CreateRequestClaim) : bool := bool_decide (is_Some (rc_replay_status c)).

(** [_claim_from_existing]. *)
Definition claim_from_existing (row : PaymentIdempotencyKey) (request_fingerprint : string)
  : res CreateRequestClaim :=
  if negb (String.eqb (ik_request_fingerprint row) request_fingerprint)
  then Err (OC IdempotencyKeyReuse)
  else if String.eqb (ik_status row) "in_flight" then Err (OC IdempotencyInProgress)
  else if String.eqb (ik_status row) "expired" then Err (OC IdempotencyOutcomeUnknown)
  else if negb (str_elem (ik_status row) ["completed"; "failed"; "outcome_unknown"])
  then Err (OC IdempotencyOutcomeUnknown)
  else match ik_http_status row with
       | None => Err (OC IdempotencyOutcomeUnknown)
       | Some status =>
           Ok (MkCreateRequestClaim (ik_broker_request_id row) (Some status)
                 (Some (or_else (ik_response_payload row) [])) None)
       end.

Abbreviation idem_key := (uuid * string * string)%type.

Definition get_create_request (k : idem_key) (d : DB) : option PaymentIdempotencyKey :=
  t_idem d !! k.

(** The claim's new expiry; [max] keeps its first argument on ties. *)
Definition claim_expiry (operation : string) (now : datetime) (timeout : Z)
    (row : PaymentIdempotencyKey) : datetime :=
  let claim_expires_at := dt_add_seconds now timeout in
  if String.eqb operation "sessions.prepare" then
    let next := dt_add_us (dt_assume_utc (ik_expires_at row)) 1 in
    if dt_us claim_expires_at <? dt_us next then next else claim_expires_at
  else claim_expires_at.

(** The WHERE clause of the reclaiming UPDATE, evaluated on the current row. *)
Definition reclaimable (operation : string) (seen_expiry now : datetime)
    (current : PaymentIdempotencyKey) : bool :=
  str_elem (ik_status current) ["in_flight"; "expired"]
  && (dt_us (ik_expires_at current) =? dt_us seen_expiry)
  && ((dt_us (ik_expires_at current) <=? dt_us now)
      || (String.eqb operation "sessions.prepare" && String.eqb (ik_status current) "expired")).

Definition reclaimed (expires_at : datetime) (r : PaymentIdempotencyKey) : PaymentIdempotencyKey :=
  set_ik_expires_at expires_at (set_ik_status "in_flight" r).

Section payments.
Context {W : Type} {R : Runtime}.
Local Abbreviation M := (M DB W).

(** [create_request_fingerprint]. *)
Definition create_request_fingerprint (operation : string) (payload : dict) : string :=
  bytes_hex (rt_sha256 (String.list_byte_of_string (json_dumps json_escape
    (JObj [("operation", JStr operation); ("payload", JObj payload)])))).

(** The UPDATE of [claim_create_request]; [true] when its row count is one. *)
Definition reclaim_update (k : idem_key) (seen_expiry now claim_expires_at : datetime) : M bool :=
  d <- db_peek ;;
  match get_create_request k d with
  | Some current =>
      if reclaimable (snd (fst k)) seen_expiry now current then
        db_modify (on_idem (fun m => <[k := reclaimed claim_expires_at current]> m)) ;;;
        db_flush ;;;
        ret true
      else ret false
  | None => ret false
  end.

(** After losing a race: roll back and answer from the winner's row. *)
Definition answer_from_winner (k : idem_key) (request_fingerprint : string) (missing : exn)
  : M CreateRequestClaim :=
  db_rollback ;;;
  d <- db_read ;;
  winner <- lift (of_option (get_create_request k d) missing) ;;
  lift (claim_from_existing winner request_fingerprint).

(** [claim_create_request]. *)
Definition claim_create_request (k : idem_key) (api_key_id : uuid) (request_fingerprint : string)
    (inflight_timeout_seconds : Z) : M CreateRequestClaim :=
  let operation := snd (fst k) in
  now <- clock_now ;;
  d <- db_read ;;
  match get_create_request k d with
  | Some row =>
      if negb (String.eqb (ik_request_fingerprint row) request_fingerprint)
      then lift (claim_from_existing row request_fingerprint)
      else if str_elem (ik_status row) ["in_flight"; "expired"] then
        let claim_expires_at := claim_expiry operation now inflight_timeout_seconds row in
        again <- clock_now ;;
        db_interleave ;;;
        won <- reclaim_update k (ik_expires_at row) again claim_expires_at ;;
        (if won : bool then
           db_commit ;;;
           ret (MkCreateRequestClaim (ik_broker_request_id row) None None
                  (Some claim_expires_at))
         else answer_from_winner k request_fingerprint
                (RuntimeErr "idempotency claim disappeared during recovery"))
      else lift (claim_from_existing row request_fingerprint)
  | None =>
      id <- new_uuid ;;
      let claim_expires_at := dt_add_seconds now inflight_timeout_seconds in
      let row := MkPaymentIdempotencyKey api_key_id request_fingerprint (str_uuid id) "in_flight"
                   None None None claim_expires_at in
      db_modify (on_idem (fun m => <[k := row]> m)) ;;;
      try_except
        (db_commit ;;;
         ret (MkCreateRequestClaim (str_uuid id) None None (Some claim_expires_at)))
        (fun e => match e with
                  | IntegrityErr =>
                      Some (answer_from_winner k request_fingerprint IntegrityErr)
                  | _ => None
                  end)
  end.

(** [_require_create_request]. *)
Definition require_create_request (k : idem_key) : M PaymentIdempotencyKey :=
  d <- db_read ;;
  lift (of_option (get_create_request k d) (RuntimeErr "idempotency claim disappeared")).

(** [complete_create_request]. *)
Definition complete_create_request (k : idem_key) (http_status : Z) (response_payload : dict)
    (retention_seconds : Z) (payment_id : option uuid) : M unit :=
  row <- require_create_request k ;;
  now <- clock_now ;;
  db_modify (on_idem (fun m => <[k := set_ik_outcome "completed" (Some http_status)
    (Some response_payload) payment_id (dt_add_seconds now retention_seconds) row]> m)) ;;;
  db_commit.

(** [fail_create_request]. *)
Definition fail_create_request (k : idem_key) (http_status : Z) (response_payload : dict)
    (retention_seconds : Z) (retain_tombstone : bool) : M unit :=
  row <- require_create_request k ;;
  now <- clock_now ;;
  db_modify (on_idem (fun m => <[k := set_ik_outcome
    (if retain_tombstone then "outcome_unknown" else "failed") (Some http_status)
    (Some response_payload) (ik_payment_id row) (dt_add_seconds now retention_seconds) row]> m)) ;;;
  db_commit.

(** [release_session_preparation_claim]. *)
Definition release_session_preparation_claim (user_id : uuid) (idempotency_key : string)
    (broker_request_id : string) (lease_expires_at : datetime) : M unit :=
  d <- db_read ;;
  let k := (user_id, "sessions.prepare", idempotency_key) in
  match get_create_request k d with
  | Some row =>
      if String.eqb (ik_broker_request_id row) broker_request_id
         && String.eqb (ik_status row) "in_flight"
         && (dt_us (ik_expires_at row) =? dt_us lease_expires_at)
         && bool_decide (ik_payment_id row = None)
      then
        db_modify (on_idem (fun m => <[k := set_ik_status "expired" row]> m)) ;;;
        db_flush
      else ret tt
  | None => ret tt
  end.

(** [release_failed_session_preparation]. *)
Definition release_failed_session_preparation (user_id : uuid) (idempotency_key : string)
    (claim : CreateRequestClaim) : M unit :=
  match rc_lease_expires_at claim with
  | None => ret tt
  | Some lease =>
      release_session_preparation_claim user_id idempotency_key (rc_broker_request_id claim)
        lease ;;;
      db_commit
  end.

(** [expire_stale_idempotency_keys]. *)
Definition stale_claim (now : datetime) (r : PaymentIdempotencyKey) : bool :=
  String.eqb (ik_status r) "in_flight" && (dt_us (ik_expires_at r) <? dt_us now).
Definition dead_claim (now : datetime) (r : PaymentIdempotencyKey) : bool :=
  str_elem (ik_status r) ["completed"; "failed"] && (dt_us (ik_expires_at r) <? dt_us now).

Definition count_rows (p : PaymentIdempotencyKey -> bool) (d : DB) : Z :=
  Z.of_nat (size (filter (fun kr => p (snd kr) = true) (t_idem d))).

Definition expire_stale_idempotency_keys : M Z :=
  now <- clock_now ;;
  d <- db_read ;;
  let stale := count_rows (stale_claim now) d in
  db_modify (on_idem (fmap (fun r =>
    if stale_claim now r then set_ik_status "expired" r else r))) ;;;
  d' <- db_read ;;
  let deleted := count_rows (dead_claim now) d' in
  db_modify (on_idem (filter (fun kr => dead_claim now (snd kr) = false))) ;;;
  db_flush ;;;
  ret (stale + deleted).

(** ** Reads *)

(** [list_payments_for_user] and [get_payment_by_work_id]; rows are in
    [created_at] order. *)
Definition list_payments_for_user (user_id : uuid) (limit : nat) : M (list Payment) :=
  d <- db_read ;;
  ret (take limit (rev (List.filter (fun p => N.eqb (py_user_id p) user_id) (t_payment d)))).

Definition get_payment_by_work_id (user_id : uuid) (work_id : string) : M (option Payment) :=
  d <- db_read ;;
  ret (List.find (fun p => N.eqb (py_user_id p) user_id && String.eqb (py_work_id p) work_id)
         (t_payment d)).

(** ** Daemon calls *)

Context {D : PaymentDaemonClient W}.

(** [_eth_address_to_bytes]. *)
Definition eth_address_to_bytes (address : string) : res bytes :=
  let raw := str_removeprefix "0x" address in
  let? _ := require (Nat.eqb (String.length raw) 40)
              (ValueError "selected payee must be a 20-byte hex address") in
  of_option (bytes_fromhex raw) (ValueError "selected payee must be a 20-byte hex address").

(** The request [issue_route_locked_authorization] builds from the route. *)
Definition route_locked_request (route : SelectedRoute)
    (payee : bytes) (authorization_id request_id session_id : string)
    (request_digest caller_public_key : bytes) (max_debit_wei max_total_units : Z)
    (not_before expires_at : datetime) (chain_id : Z) (wholesale_account_id : string)
    (revision : Z) (predecessor_authorization_id : string) : CreateSpendAuthorizationRequest :=
  let price := MkAcceptedPrice (ro_capability route) (ro_offering route)
    (ro_price_per_work_unit_wei route) (ro_units_per_price route) (ro_work_unit route)
    (MkQuoteRef (ro_quote_id route) (ro_quote_version route) (ro_constraint_fingerprint route)
       (ro_route_fingerprint route)) in
  MkSpendAuthorizationRequest payee authorization_id request_id session_id (ro_protocol route)
    price max_debit_wei max_total_units not_before expires_at request_digest caller_public_key
    revision predecessor_authorization_id (ro_worker_url route) chain_id
    (ro_settlement_domain_id route) wholesale_account_id "wei".

(** [issue_route_locked_authorization]. *)
Definition issue_route_locked_authorization (route : SelectedRoute)
    (authorization_id request_id session_id : string)
    (request_digest caller_public_key : bytes) (max_debit_wei max_total_units : Z)
    (not_before expires_at : datetime) (chain_id : Z) (wholesale_account_id : string)
    (revision : Z) (predecessor_authorization_id : string)
  : M (CreateSpendAuthorizationRequest * CreateSpendAuthorizationResponse) :=
  guard (bytes_truthy caller_public_key)
    (ValueError "wholesale authorization requires caller proof key") ;;;
  payee <- lift (eth_address_to_bytes (ro_eth_address route)) ;;
  let request := route_locked_request route payee authorization_id request_id session_id
    request_digest caller_public_key max_debit_wei max_total_units not_before expires_at chain_id
    wholesale_account_id revision predecessor_authorization_id in
  response <- remote (pd_create_spend_authorization request) ;;
  ret (request, response).

(** The row with the largest [taken_at]. *)
Fixpoint latest_snapshot (l : list PaymentDaemonDepositSnapshot)
  : option PaymentDaemonDepositSnapshot :=
  match l with
  | [] => None
  | r :: l' =>
      match latest_snapshot l' with
      | Some r' => if dt_us (ds_taken_at r) <=? dt_us (ds_taken_at r') then Some r' else Some r
      | None => Some r
      end
  end.

(** [snapshot_deposit]; the gauges it sets are telemetry. *)
Definition snapshot_deposit : M PaymentDaemonDepositSnapshot :=
  info <- remote pd_get_deposit_info ;;
  d <- db_read ;;
  guard (negb ((di_current_round info <=? 0) || (di_ticket_validity_period info <=? 0)))
    (ValueError "payment daemon returned invalid validity telemetry") ;;;
  match latest_snapshot (t_deposit d) with
  | Some previous =>
      guard (negb (match ds_current_round previous with
                   | Some r => di_current_round info <? r | None => false end))
        (ValueError "payment daemon current_round regressed") ;;;
      guard (negb (match ds_ticket_validity_period_observed_at previous with
                   | Some t => dt_us (di_ticket_validity_period_observed_at info)
                               <? dt_us (dt_assume_utc t)
                   | None => false end))
        (ValueError "payment daemon validity observation time regressed")
  | None => ret tt
  end ;;;
  now <- clock_now ;;
  let row := MkPaymentDaemonDepositSnapshot now (di_deposit_wei info) (di_reserve_wei info)
    (di_withdraw_round info) (Some (di_current_round info))
    (Some (di_ticket_validity_period info)) (Some (di_ticket_validity_period_observed_at info)) in
  db_modify (on_deposit (fun l => l ++ [row])%list) ;;;
  db_flush ;;;
  ret row.

End payments.
