(* ===== verification/Webhooks.v ===== *)
(** * Webhooks

    Standard Webhooks in both directions: verifying what the e-mail provider
    posts ([domains/notifications/service.py]) and signing and delivering what
    the service posts to its users ([domains/notifications/webhook.py]).  The
    HTTP transport is a parameter. *)

From S2P Require Import Prelude PyData Codecs Errors Effects Store Payments.
From Stdlib Require Import Strings.Ascii.

Open Scope string_scope.
Open Scope Z_scope.
Open Scope loc_scope.

(** [httpx.AsyncClient.post(url, content=body, headers=headers)]: the status
    code of the response, or an exception. *)
Class WebhookTransport (W : Type) := {
  wt_post : string -> list (string * string) -> bytes -> W -> res Z * W;
}.

Definition WEBHOOK_TIMESTAMP_TOLERANCE : Z := 300.

Section signatures.
Context {R : Runtime}.

(** What is signed: [f"{webhook_id}.{timestamp}.".encode() + body]. *)
Definition signed_content (webhook_id timestamp : string) (body : bytes) : bytes :=
  (String.list_byte_of_string (webhook_id ++ "." ++ timestamp ++ ".") ++ body)%list.

(** ** Inbound *)

(** The key [verify_signature] derives from its secret. *)
Definition inbound_key (secret : string) : bytes :=
  match b64decode_lenient (str_removeprefix "whsec_" secret) with
  | Some key => key
  | None => String.list_byte_of_string secret
  end.

(** [_extract_v1_signatures]: tokens without a comma, of another scheme or with
    an empty signature are skipped. *)
Definition v1_signature (token : string) : option string :=
  match str_partition ","%char token with
  | (scheme, Some sig) =>
      if String.eqb scheme "v1" && str_truthy sig then Some sig else None
  | (_, None) => None
  end.
Definition extract_v1_signatures (header : string) : list string :=
  omap v1_signature (str_words header).

(** [any(hmac.compare_digest(expected, p) for p in presented)]: comparing with
    text that is not ASCII raises, if no earlier signature matched. *)
Fixpoint any_digest (expected : string) (presented : list string) : res bool :=
  match presented with
  | [] => Ok false
  | p :: l =>
      if negb (str_forallb is_ascii p) then Err TypeError
      else if String.eqb expected p then Ok true else any_digest expected l
  end.

Definition truthy_header (h : option string) : bool :=
  match h with Some s => str_truthy s | None => false end.

(** [verify_signature], at the time [now]. *)
Definition verify_signature (secret : string)
    (webhook_id webhook_timestamp webhook_signature : option string) (body : bytes)
    (now : datetime) : res unit :=
  let? _ := require (str_truthy secret && truthy_header webhook_id
                     && truthy_header webhook_timestamp && truthy_header webhook_signature)
              (WebhookSignatureErr "missing signature headers") in
  let timestamp := or_else webhook_timestamp "" in
  let? ts := of_option (int_of_str timestamp)
    (WebhookSignatureErr "non-integer webhook-timestamp") in
  let? _ := require (negb (WEBHOOK_TIMESTAMP_TOLERANCE <? Z.abs (dt_epoch now - ts)))
              (WebhookSignatureErr "webhook-timestamp out of tolerance") in
  let expected := b64encode (rt_hmac (inbound_key secret)
    (signed_content (or_else webhook_id "") timestamp body)) in
  let? matched := any_digest expected (extract_v1_signatures (or_else webhook_signature "")) in
  require matched (WebhookSignatureErr "signature mismatch").

(** ** Outbound *)

(** [user_id.bytes]. *)
Definition uuid_bytes (u : uuid) : bytes := to_bytes_big 16 (Z.of_N u).

(** [derive_secret]. *)
Definition derive_secret (seed : string) (user_id : uuid) : string :=
  "whsec_" ++ str_rstrip_char "="%char
    (b64encode (rt_hmac (String.list_byte_of_string seed) (uuid_bytes user_id))).

(** The key [sign_body] derives from its secret. *)
Definition outbound_key (secret : string) : bytes :=
  let raw := str_removeprefix "whsec_" secret in
  match b64decode_lenient (raw ++ b64_padding raw) with
  | Some key => key
  | None => String.list_byte_of_string secret
  end.

(** [sign_body]. *)
Definition sign_body (secret webhook_id timestamp : string) (body : bytes) : string :=
  "v1," ++ b64encode (rt_hmac (outbound_key secret) (signed_content webhook_id timestamp body)).

Context {W : Type} {T : WebhookTransport W}.
Local Abbreviation M := (M DB W).

(** How an attempt ended. *)
Inductive attempt_outcome := Delivered | Retryable | ClientError.

Definition outcome_of (status : option Z) : attempt_outcome :=
  match status with
  | Some code =>
      if (200 <=? code) && (code <? 300) then Delivered
      else if (500 <=? code) || (code =? 429) then Retryable
      else ClientError
  | None => Retryable
  end.

(** The loop of [send_webhook]; the pauses between attempts are not modelled. *)
Fixpoint deliver (attempts : nat) (post : M Z) : M bool :=
  match attempts with
  | O => ret false
  | S n =>
      status <- try_except (code <- post ;; ret (Some code)) (fun _ => Some (ret None)) ;;
      match outcome_of status with
      | Delivered => ret true
      | Retryable => deliver n post
      | ClientError => ret false
      end
  end.

(** [send_webhook]: one identifier, timestamp and signature for all attempts. *)
Definition send_webhook (url secret : string) (payload : dict) (max_retries : Z) : M bool :=
  id <- new_uuid ;;
  now <- clock_now ;;
  let webhook_id := str_uuid id in
  let timestamp := str_Z (dt_epoch now) in
  let body := String.list_byte_of_string (json_dumps json_escape_ascii (JObj payload)) in
  let signature := sign_body secret webhook_id timestamp body in
  let headers := [("Content-Type", "application/json"); ("webhook-id", webhook_id);
                  ("webhook-timestamp", timestamp); ("webhook-signature", signature)] in
  deliver (Z.to_nat max_retries) (remote (wt_post url headers body)).

End signatures.
