(* ===== verification/RateLimiter.v ===== *)
(** * The rate limiter

    [providers/ratelimit/limiter.py], the in-process token buckets, and the
    dependency factory [rate_limit] of [dependencies.py].  Tokens and clock are
    Python floats: IEEE binary64 as the Standard Library specifies it. *)

From S2P Require Import Prelude PyData Errors Effects Store.
From Stdlib Require Import Floats.SpecFloat ZArith.Zpower.

Open Scope string_scope.
Open Scope Z_scope.
Open Scope loc_scope.

(** ** Doubles *)

Definition double_add : spec_float -> spec_float -> spec_float := SFadd 53 1024.
Definition double_sub : spec_float -> spec_float -> spec_float := SFsub 53 1024.
Definition double_mul : spec_float -> spec_float -> spec_float := SFmul 53 1024.
Definition double_div : spec_float -> spec_float -> spec_float := SFdiv 53 1024.

(** [float(z)], of an integer in range. *)
Definition double (z : Z) : spec_float := binary_normalize 53 1024 z 0 false.

(** [min(a, b)]. *)
Definition double_min (a b : spec_float) : spec_float := if SFltb b a then b else a.

(** [int(x)], of a finite [x]. *)
Definition double_trunc (x : spec_float) : Z :=
  match x with
  | S754_finite s m e =>
      let a := if 0 <=? e then Zpos m * 2 ^ e else Zpos m / 2 ^ (- e) in
      if s then - a else a
  | _ => 0
  end.

Definition finite (x : spec_float) : bool :=
  match x with S754_zero _ | S754_finite _ _ _ => true | _ => false end.

(** ** Buckets *)

(** [_Bucket]. *)
Record Bucket := MkBucket {
  bk_tokens : spec_float;
  bk_last_refill_ts : spec_float;
}.

Abbreviation Buckets := (gmap (string * string) Bucket).

Definition refill_rate (refill_per_minute : Z) : spec_float :=
  double_div (double refill_per_minute) (double 60).

(** The bucket as [acquire] finds it: full when new, else refilled. *)
Definition refilled (capacity refill_per_minute : Z) (now : spec_float) (bucket : option Bucket)
  : Bucket :=
  match bucket with
  | None => MkBucket (double capacity) now
  | Some b =>
      let elapsed := double_sub now (bk_last_refill_ts b) in
      MkBucket (double_min (double capacity)
                  (double_add (bk_tokens b) (double_mul elapsed (refill_rate refill_per_minute))))
        now
  end.

(** [retry_after_s], before [max(retry_after_s, 1)]. *)
Definition retry_after (refill_per_minute : Z) (tokens : spec_float) : Z :=
  double_trunc (double_div (double_sub (double 1) tokens) (refill_rate refill_per_minute)) + 1.

(** The critical section of [acquire]. *)
Definition take_token (route key : string) (capacity refill_per_minute : Z) (now : spec_float)
    (buckets : Buckets) : (bool * Z) * Buckets :=
  let bucket := refilled capacity refill_per_minute now (buckets !! (route, key)) in
  if SFleb (double 1) (bk_tokens bucket)
  then ((true, 0),
        <[(route, key) := MkBucket (double_sub (bk_tokens bucket) (double 1)) now]> buckets)
  else ((false, Z.max (retry_after refill_per_minute (bk_tokens bucket)) 1),
        <[(route, key) := bucket]> buckets).

Definition limiter_disabled (capacity refill_per_minute : Z) : bool :=
  (capacity <=? 0) || (refill_per_minute <=? 0).

(** The process's limiter, and [time.monotonic()], indexed by call. *)
Class LimiterState (W : Type) := {
  ls_monotonic : nat -> spec_float;
  ls_buckets : W -> Buckets;
  ls_set_buckets : Buckets -> W -> W;
}.

Section limiter.
Context {W : Type} {L : LimiterState W}.
Local Abbreviation M := (M DB W).

(** [RateLimiter.acquire]. *)
Definition acquire (route key : string) (capacity refill_per_minute : Z) : M (bool * Z) :=
  if limiter_disabled capacity refill_per_minute then ret (true, 0)
  else
    now <- tick ls_monotonic ;;
    remote (fun w =>
      let '(answer, buckets) := take_token route key capacity refill_per_minute now (ls_buckets w) in
      (Ok answer, ls_set_buckets buckets w)).

(** The dependency [rate_limit] builds, given the client's address. *)
Definition rate_limit (route : string) (capacity refill_per_minute : Z) (client : option string)
  : M unit :=
  '(allowed, _) <- acquire route (or_else client "0.0.0.0") capacity refill_per_minute ;;
  guard allowed (HTTPException 429 "rate_limited").

End limiter.

(** ** A burst *)

(** [n] requests in the same instant: how each was answered, and the buckets. *)
Fixpoint burst (n : nat) (route key : string) (capacity refill_per_minute : Z) (now : spec_float)
    (buckets : Buckets) : list bool * Buckets :=
  match n with
  | O => ([], buckets)
  | S n' =>
      let '((allowed, _), buckets) :=
        take_token route key capacity refill_per_minute now buckets in
      let '(answers, buckets) := burst n' route key capacity refill_per_minute now buckets in
      (allowed :: answers, buckets)
  end.

(** ** Integers as doubles

    Below two to the fifty-third, doubles count exactly: [double k] is [k] with
    its mantissa moved up to 53 bits, a step down is [double (k - 1)], and the
    order is that of the integers. *)

Lemma digits_log2 (p : positive) : Zpos (digits2_pos p) = Z.log2 (Zpos p) + 1.
Proof.
  assert (H : digits2_pos p = Pos.size p) by (induction p; cbn; congruence).
  rewrite H. destruct p; cbn; lia.
Qed.

Lemma iter_halve (n : positive) (q : Z) :
  0 < q -> iter_pos shr_1 n (Build_shr_record (q * 2 ^ Zpos n) false false)
           = Build_shr_record q false false.
Proof.
  assert (H1 : forall q, 0 < q -> shr_1 (Build_shr_record (2 * q) false false)
                                  = Build_shr_record q false false).
  { intros [|a|a] Ha; [lia|reflexivity|lia]. }
  revert q. induction n as [n IH|n IH|]; intros q Hq; cbn [iter_pos].
  - replace (q * 2 ^ Zpos n~1) with (2 * (q * 2 ^ Zpos n * 2 ^ Zpos n)).
    + rewrite H1 by lia. rewrite IH by lia. by apply IH.
    + replace (Zpos n~1) with (Z.succ (Zpos n + Zpos n)) by lia.
      rewrite Z.pow_succ_r, Z.pow_add_r by lia. lia.
  - replace (Zpos n~0) with (Zpos n + Zpos n) by lia. rewrite Z.pow_add_r, Z.mul_assoc by lia.
    rewrite IH by lia. by apply IH.
  - replace (q * 2 ^ 1) with (2 * q) by lia. by apply H1.
Qed.

Lemma shr_exact (q e n : Z) :
  0 < q -> 0 <= n ->
  shr (Build_shr_record (q * 2 ^ n) false false) e n = (Build_shr_record q false false, e + n).
Proof.
  intros Hq Hn. destruct n as [|n|n]; [|cbn [shr]; by rewrite iter_halve|lia].
  cbn. f_equal; [f_equal; lia|lia].
Qed.

(** The exponent of [double k], and its mantissa. *)
Definition exponent (k : Z) : Z := Z.log2 k - 52.
Definition mantissa (k : Z) : Z := k * 2 ^ (- exponent k).

Definition countable (k : Z) : Prop := 0 < k < 2 ^ 53.

Lemma exponent_bounds k : countable k -> -52 <= exponent k <= 0.
Proof.
  intros [Hk Hl]. unfold exponent. pose proof (Z.log2_nonneg k).
  assert (Z.log2 k < 53) by (apply Z.log2_lt_pow2; lia). lia.
Qed.

Lemma fexp_exact k m e :
  countable k -> e <= 0 -> Zpos m = k * 2 ^ (- e) ->
  fexp 53 1024 (Zpos (digits2_pos m) + e) = exponent k.
Proof.
  intros Hk He Hm. pose proof (exponent_bounds k Hk) as Hb. destruct Hk as [Hk _].
  rewrite digits_log2, Hm, Z.log2_mul_pow2 by lia. unfold fexp, emin, exponent in *. lia.
Qed.

Lemma round_aux_exact k m e :
  countable k -> e <= exponent k -> Zpos m = k * 2 ^ (- e) ->
  binary_round_aux 53 1024 false (Zpos m) e loc_Exact
  = S754_finite false (Z.to_pos (mantissa k)) (exponent k).
Proof.
  intros Hk He Hm. pose proof (exponent_bounds k Hk) as Hb.
  assert (Hp : 0 < mantissa k) by (unfold mantissa; destruct Hk; nia).
  assert (Hq : Zpos m = mantissa k * 2 ^ (exponent k - e)).
  { unfold mantissa. rewrite <- Z.mul_assoc, <- Z.pow_add_r by lia. rewrite Hm. do 2 f_equal. lia. }
  unfold binary_round_aux, shr_fexp. cbn [Zdigits2 shr_record_of_loc].
  rewrite (fexp_exact k) by (done || lia). rewrite Hq, shr_exact by lia.
  cbn [shr_m loc_of_shr_record round_nearest_even].
  replace (e + (exponent k - e)) with (exponent k) by lia.
  destruct (mantissa k) as [|a|a] eqn:Ea; [lia| |lia]. cbn [Zdigits2].
  rewrite (fexp_exact k a) by (done || lia || by rewrite <- Ea).
  rewrite Z.sub_diag. cbn [shr shr_m]. destruct (Z.leb_spec (exponent k) (1024 - 53)); [done|lia].
Qed.

Lemma normalize_exact k m e :
  countable k -> e <= 0 -> Zpos m = k * 2 ^ (- e) ->
  binary_normalize 53 1024 (Zpos m) e false
  = S754_finite false (Z.to_pos (mantissa k)) (exponent k).
Proof.
  intros Hk He Hm. pose proof (exponent_bounds k Hk) as Hb. cbn [binary_normalize].
  unfold binary_round. rewrite (fexp_exact k) by done. unfold shl_align.
  destruct (exponent k - e) as [|d|d] eqn:Ed; [apply round_aux_exact; (done || lia)..|].
  apply round_aux_exact; [done|lia|]. change (Pos.iter xO m d) with (shift_pos d m).
  rewrite shift_pos_correct, Z.pow_pos_fold, Hm.
  replace (- exponent k) with (Zpos d + - e) by lia. rewrite Z.pow_add_r by lia. lia.
Qed.

Lemma double_exact k :
  countable k -> double k = S754_finite false (Z.to_pos (mantissa k)) (exponent k).
Proof.
  intros Hk. unfold double. destruct k as [|p|p]; [destruct Hk; lia| |destruct Hk; lia].
  apply normalize_exact; [done|lia|lia].
Qed.

Lemma double_pred k :
  countable k -> double_sub (double k) (double 1) = double (k - 1).
Proof.
  intros Hk. pose proof (exponent_bounds k Hk) as Hb.
  rewrite (double_exact k Hk), (double_exact 1) by (unfold countable; lia).
  unfold double_sub, SFsub. change (exponent 1) with (-52). rewrite Z.min_r by lia.
  change (Z.to_pos (mantissa 1)) with (Z.to_pos (2 ^ 52)).
  assert (Hs : Zpos (fst (shl_align (Z.to_pos (mantissa k)) (exponent k) (-52))) = k * 2 ^ 52).
  { assert (0 < mantissa k) by (unfold mantissa; destruct Hk; nia).
    unfold shl_align. destruct (-52 - exponent k) as [|d|d] eqn:Ed; [|lia|]; cbn [fst].
    - rewrite Z2Pos.id by lia. unfold mantissa. do 2 f_equal. lia.
    - change (Pos.iter xO _ d) with (shift_pos d (Z.to_pos (mantissa k))).
      rewrite shift_pos_correct, Z.pow_pos_fold, Z2Pos.id by lia. unfold mantissa.
      replace 52 with (Zpos d + - exponent k) by lia. rewrite Z.pow_add_r by lia. lia. }
  cbn [cond_Zopp]. rewrite Hs. change (shl_align (Z.to_pos (2 ^ 52)) (-52) (-52))
    with (Z.to_pos (2 ^ 52), -52). cbn [fst]. rewrite Z2Pos.id by lia.
  replace (k * 2 ^ 52 - 2 ^ 52) with ((k - 1) * 2 ^ 52) by lia.
  destruct (Z.eq_dec k 1) as [->|H1]; [done|].
  assert (Hk' : countable (k - 1)) by (unfold countable in *; lia).
  rewrite double_exact by done. destruct Hk' as [Hp Hl].
  destruct ((k - 1) * 2 ^ 52) as [|p|p] eqn:E; [lia| |lia].
  apply normalize_exact; [done|lia|]. rewrite <- E. done.
Qed.

Lemma double_ltb j k : 0 <= j -> countable k -> j < k -> SFltb (double j) (double k) = true.
Proof.
  intros Hj Hk Hjk. rewrite (double_exact k Hk).
  destruct (Z.eq_dec j 0) as [->|H0]; [done|].
  rewrite double_exact by (unfold countable in *; lia). unfold SFltb, SFcompare.
  assert (Hl : Z.log2 j <= Z.log2 k) by (apply Z.log2_le_mono; lia).
  destruct (Z.compare_spec (exponent j) (exponent k)) as [He|He|He]; [|done|].
  2: { unfold exponent in He. lia. }
  assert (Hm : (Z.to_pos (mantissa j) < Z.to_pos (mantissa k))%positive).
  { unfold mantissa. rewrite <- He. pose proof (exponent_bounds k Hk).
    assert (0 < 2 ^ - exponent j) by (apply Z.pow_pos_nonneg; lia).
    assert (Zpos (Z.to_pos (j * 2 ^ - exponent j)) < Zpos (Z.to_pos (k * 2 ^ - exponent j)))
      by (rewrite !Z2Pos.id; nia). lia. }
  change (Pos.compare_cont Eq (Z.to_pos (mantissa j)) (Z.to_pos (mantissa k)))
    with (Z.to_pos (mantissa j) ?= Z.to_pos (mantissa k))%positive.
  by rewrite (proj2 (Pos.compare_lt_iff _ _) Hm).
Qed.

Lemma double_leb_one k : countable k -> SFleb (double 1) (double k) = true.
Proof.
  intros Hk. destruct (Z.eq_dec k 1) as [->|H1]; [done|].
  assert (Hl : SFltb (double 1) (double k) = true) by (apply double_ltb; unfold countable in *; lia).
  unfold SFltb in Hl. unfold SFleb. by destruct (SFcompare _ _) as [[]|].
Qed.

Lemma double_finite k : 0 <= k -> k < 2 ^ 53 -> finite (double k) = true.
Proof.
  intros Hk Hl. destruct (Z.eq_dec k 0) as [->|H0]; [done|].
  by rewrite double_exact by (unfold countable; lia).
Qed.

(** ** No time passes *)

Lemma double_sub_self x : finite x = true -> exists s, double_sub x x = S754_zero s.
Proof.
  destruct x as [s| | |s m e]; cbn; try done.
  - intros _. destruct s; by eexists.
  - intros _. rewrite Z.sub_diag. by eexists.
Qed.

Lemma double_mul_zero s x : finite x = true -> exists s', double_mul (S754_zero s) x = S754_zero s'.
Proof. destruct x; cbn; try done; by eexists. Qed.

(** [k] whole tokens. *)
Definition is_count (k : Z) (x : spec_float) : Prop :=
  x = double k \/ (k = 0 /\ exists s, x = S754_zero s).

Lemma is_count_refresh k x s :
  0 <= k -> k < 2 ^ 53 -> is_count k x -> is_count k (double_add x (S754_zero s)).
Proof.
  intros Hk Hl [->|[-> [s' ->]]].
  - destruct (Z.eq_dec k 0) as [->|H0].
    + right. split; [done|]. destruct s; by eexists.
    + left. by rewrite double_exact by (unfold countable; lia).
  - right. split; [done|]. destruct s', s; by eexists.
Qed.

Lemma is_count_min capacity k x :
  countable capacity -> 0 <= k <= capacity -> is_count k x ->
  is_count k (double_min (double capacity) x).
Proof.
  intros Hc Hk Hx. unfold double_min.
  destruct (Z.eq_dec k capacity) as [->|Hne].
  - destruct Hx as [->|[-> _]]; [by destruct (SFltb _ _); left|unfold countable in Hc; lia].
  - assert (SFltb x (double capacity) = true) as ->; [|done].
    destruct Hx as [->|[-> [s ->]]]; [by apply double_ltb; try lia|].
    by rewrite double_exact.
Qed.

Lemma refilled_now capacity refill now b k :
  countable capacity -> 0 <= k <= capacity -> finite now = true ->
  finite (refill_rate refill) = true -> bk_last_refill_ts b = now -> is_count k (bk_tokens b) ->
  is_count k (bk_tokens (refilled capacity refill now (Some b))).
Proof.
  intros Hc Hk Hn Hr <- Hb. cbn [refilled bk_tokens].
  destruct (double_sub_self _ Hn) as [s ->]. destruct (double_mul_zero s _ Hr) as [s' ->].
  apply is_count_min; [done|done|]. apply is_count_refresh; [lia|unfold countable in Hc; lia|done].
Qed.

Lemma is_count_leb k x :
  0 <= k -> k < 2 ^ 53 -> is_count k x -> SFleb (double 1) x = (0 <? k).
Proof.
  intros Hk Hl [->|[-> [s ->]]]; [|done]. destruct (Z.ltb_spec 0 k).
  - by apply double_leb_one.
  - by replace k with 0 by lia.
Qed.

Lemma is_count_pred k x : countable k -> is_count k x -> is_count (k - 1) (double_sub x (double 1)).
Proof.
  intros Hk [->|[-> _]]; [|unfold countable in Hk; lia]. left. by apply double_pred.
Qed.

Section instant.
Context (route key : string) (capacity refill : Z) (now : spec_float).
Hypothesis capacity_counts : countable capacity.
Hypothesis now_finite : finite now = true.
Hypothesis rate_finite : finite (refill_rate refill) = true.

(** The key's bucket holds [k] tokens as of now. *)
Definition holds (k : Z) (buckets : Buckets) : Prop :=
  is_count k (bk_tokens (refilled capacity refill now (buckets !! (route, key)))) /\ 0 <= k <= capacity.

Lemma holds_fresh buckets : buckets !! (route, key) = None -> holds capacity buckets.
Proof. intros Hb. unfold holds. rewrite Hb. split; [by left|]. unfold countable in *. lia. Qed.

Lemma take_token_now k buckets :
  holds k buckets ->
  fst (fst (take_token route key capacity refill now buckets)) = (0 <? k) /\
  holds (Z.max 0 (k - 1)) (snd (take_token route key capacity refill now buckets)).
Proof.
  intros [Ht Hk]. unfold take_token.
  assert (Hl : k < 2 ^ 53) by (unfold countable in *; lia).
  rewrite (is_count_leb k) by (done || lia). unfold holds.
  destruct (Z.ltb_spec 0 k) as [Hp|Hz]; cbn [fst snd]; rewrite lookup_insert_eq;
    (split; [done|]); (split; [|lia]); apply refilled_now; try done; try lia.
  - cbn [bk_tokens]. rewrite Z.max_r by lia.
    apply is_count_pred; [unfold countable in *; lia|done].
  - by destruct (buckets !! _).
  - rewrite Z.max_l by lia. by replace 0 with k by lia.
Qed.

Lemma burst_answers n k buckets :
  holds k buckets ->
  fst (burst n route key capacity refill now buckets)
  = map (fun i => Z.of_nat i <? k) (seq 0 n).
Proof.
  revert k buckets. induction n as [|n IH]; intros k buckets Hb; [done|].
  cbn [burst]. destruct (take_token_now k buckets Hb) as [Ha Hn].
  destruct (take_token _ _ _ _ _ _) as [[allowed retry] buckets']. cbn [fst snd] in Ha, Hn.
  specialize (IH _ _ Hn). destruct (burst n _ _ _ _ _ _) as [answers buckets'']. cbn in IH |- *.
  rewrite Ha, IH. f_equal. rewrite <- (seq_shift n 0), map_map. apply map_ext. intros i.
  destruct Hb as [_ Hk]. clear - Hk.
  destruct (Z.ltb_spec (Z.of_nat i) (Z.max 0 (k - 1))), (Z.ltb_spec (Z.of_nat (S i)) k); lia.
Qed.

End instant.


