(* ===== verification/Telemetry.v ===== *)
(** * Telemetry

    [domains/telemetry/service.py] and [enrichment.py]: ingest, server events,
    retention, and the cursor-paginated queries of customers.  Payload numbers
    are integers: the JSON documents of the model have no floats. *)

From S2P Require Import Prelude PyData Codecs Errors Effects Store Payments.
From Stdlib Require Import Strings.Byte Strings.Ascii.

Open Scope string_scope.
Open Scope Z_scope.
Open Scope loc_scope.

(** ** Data *)

Definition CURRENT_SCHEMA_VERSION : Z := 1.
Definition SOURCE_SDK : string := "sdk".
Definition SOURCE_SERVER : string := "server".
Definition MAX_BATCH_SIZE : nat := 1000.
Definition MAX_PAYLOAD_BYTES : nat := 16 * 1024.

(** [IngestEventIn]. *)
Record IngestEventIn := MkIngestEvent {
  ie_event_type : string;
  ie_event_schema_version : Z;
  ie_correlation_id : option uuid;
  ie_client_ts : option datetime;
  ie_payload : dict;
}.

(** [Enrichment]. *)
Record Enrichment := MkEnrichment {
  en_geo_region : option string;
  en_account_tier : option string;
  en_broker_operator_id : option string;
  en_ingest_node_id : option string;
}.
Definition no_enrichment : Enrichment := MkEnrichment None None None None.

(** [resolve_ingest_node_id], given [socket.gethostname()]. *)
Definition resolve_ingest_node_id (hostname configured : option string) : string :=
  match configured with
  | Some c => if str_truthy c then c else or_else hostname "unknown"
  | None => or_else hostname "unknown"
  end.

Definition BatchTooLarge : exn := TelemetryServiceError "batch_too_large".
Definition InvalidSource : exn := TelemetryServiceError "invalid_source".
Definition TelemetryWindowExpired : exn := TelemetryServiceError "telemetry_window_expired".
Definition InvalidCursor : exn := TelemetryServiceError "invalid_cursor".

(** [json.dumps(j)] with its default separators. *)
Fixpoint json_dumps_spaced (j : json) : string :=
  match j with
  | JNull => "null"
  | JBool true => "true"
  | JBool false => "false"
  | JInt z => str_Z z
  | JStr s => json_quote json_escape_ascii s
  | JArr l => "[" ++ str_join ", " (map json_dumps_spaced l) ++ "]"
  | JObj d =>
      "{" ++ str_join ", " (map (fun kv => json_quote json_escape_ascii (fst kv) ++ ": "
                                            ++ json_dumps_spaced (snd kv)) d) ++ "}"
  end.

(** [_validate_event]: what parses as JSON serializes. *)
Definition validate_event (ev : IngestEventIn) : option string :=
  if negb (str_truthy (ie_event_type ev)) then Some "event_type_empty"
  else if ie_event_schema_version ev <? 1 then Some "event_schema_version_invalid"
  else if (MAX_PAYLOAD_BYTES <? String.length (json_dumps_spaced (JObj (ie_payload ev))))%nat
  then Some "payload_too_large"
  else None.

(** The row of an accepted event. *)
Definition sdk_row (id : uuid) (api_key_id user_id : option uuid) (now : datetime)
    (e : Enrichment) (ev : IngestEventIn) : TelemetryEvent :=
  MkTelemetryEvent id api_key_id user_id (ie_event_type ev) (ie_event_schema_version ev)
    (ie_correlation_id ev) (ie_client_ts ev) now SOURCE_SDK (ie_payload ev) (en_geo_region e)
    (en_account_tier e) (en_broker_operator_id e) (en_ingest_node_id e).

(** ** Writing *)

Section service.
Context {W : Type} {R : Runtime}.
Local Abbreviation M := (M DB W).

(** The rows of the events that validate, each under its own enrichment. *)
Definition build_rows (api_key_id user_id : option uuid) (now : datetime) (base : Enrichment)
    (events : list (IngestEventIn * option Enrichment)) : M (list TelemetryEvent) :=
  mfold (fun rows '(ev, per_event) =>
    match validate_event ev with
    | Some _ => ret rows
    | None =>
        id <- new_uuid ;;
        ret (rows ++ [sdk_row id api_key_id user_id now (or_else per_event base) ev])%list
    end) [] events.

(** The enrichment of each event: its own, where the list has one. *)
Definition enrichment_at (event_enrichments : option (list (option Enrichment))) (idx : nat)
  : option Enrichment :=
  match event_enrichments with Some l => or_else (l !! idx) None | None => None end.

(** [ingest_batch]: how many events were accepted, and a reason per event. *)
Definition ingest_batch (api_key_id user_id : option uuid) (events : list IngestEventIn)
    (enrichment : option Enrichment) (event_enrichments : option (list (option Enrichment)))
  : M (Z * list string) :=
  guard (length events <=? MAX_BATCH_SIZE)%nat BatchTooLarge ;;;
  now <- clock_now ;;
  rows <- build_rows api_key_id user_id now (or_else enrichment no_enrichment)
    (imap (fun idx ev => (ev, enrichment_at event_enrichments idx)) events) ;;
  let reasons := map (fun ev => or_else (validate_event ev) "") events in
  match rows with
  | [] => ret tt
  | _ => db_modify (on_telemetry (fun l => l ++ rows)%list) ;;; db_flush
  end ;;;
  ret (Z.of_nat (length (List.filter (fun r => String.eqb r "") reasons)), reasons).

(** The row of a server event. *)
Definition server_row (id : uuid) (now : datetime) (event_type : string)
    (event_schema_version : Z) (payload : dict) (api_key_id user_id correlation_id : option uuid)
    (e : Enrichment) : TelemetryEvent :=
  MkTelemetryEvent id api_key_id user_id event_type event_schema_version correlation_id None now
    SOURCE_SERVER payload (en_geo_region e) (en_account_tier e) (en_broker_operator_id e)
    (en_ingest_node_id e).

(** [record_server_event] up to its INSERT, through [add]: the caller's session
    or one of its own. *)
Definition server_event (add : TelemetryEvent -> M unit) (event_type : string)
    (event_schema_version : Z) (payload : dict) (api_key_id user_id correlation_id : option uuid)
    (enrichment : option Enrichment) : M TelemetryEvent :=
  guard (str_startswith "server." event_type) InvalidSource ;;;
  now <- clock_now ;;
  id <- new_uuid ;;
  let row := server_row id now event_type event_schema_version payload api_key_id user_id
               correlation_id (or_else enrichment no_enrichment) in
  add row ;;;
  ret row.

(** [record_server_event]. *)
Definition record_server_event :=
  server_event (fun row => db_modify (on_telemetry (fun l => l ++ [row])%list) ;;; db_flush).

(** [delete(TelemetryEvent).where(...)]: the rows deleted. *)
Definition delete_events (p : TelemetryEvent -> bool) : M Z :=
  d <- db_read ;;
  db_modify (on_telemetry (List.filter (fun e => negb (p e)))) ;;;
  db_flush ;;;
  ret (Z.of_nat (length (List.filter p (n_telemetry (t_notices d))))).

(** [now - timedelta(days=n)]. *)
Definition days_before (n : Z) (now : datetime) : datetime := dt_add_seconds now (- (86400 * n)).

(** [purge_expired]. *)
Definition purge_expired (retention_days : Z) : M Z :=
  if retention_days <=? 0 then ret 0
  else
    now <- clock_now ;;
    let cutoff := days_before retention_days now in
    delete_events (fun e => dt_us (te_received_ts e) <? dt_us cutoff).

Definition of_user (user_id : uuid) (e : TelemetryEvent) : bool :=
  bool_decide (te_user_id e = Some user_id).
Definition of_api_key (api_key_id : uuid) (e : TelemetryEvent) : bool :=
  bool_decide (te_api_key_id e = Some api_key_id).

(** [purge_for_user]. *)
Definition purge_for_user (user_id : uuid) : M Z := delete_events (of_user user_id).

(** ** Globs *)

(** [s.replace(c, t)] for a single character. *)
Fixpoint str_replace_char (c : ascii) (t s : string) : string :=
  match s with
  | EmptyString => EmptyString
  | String a s' => (if Ascii.eqb a c then t else String a EmptyString) ++ str_replace_char c t s'
  end.

Definition backslash : ascii := ascii_of_N 92.

(** [_glob_to_like]. *)
Definition glob_to_like (pattern : string) : string :=
  let escape c := String backslash (String c EmptyString) in
  let escaped := str_replace_char "_"%char (escape "_"%char)
    (str_replace_char "%"%char (escape "%"%char)
       (str_replace_char backslash (escape backslash) pattern)) in
  str_replace_char "*"%char "%" escaped.

(** A pattern of LIKE, read once: literals, any character, any text. *)
Inductive like_item := Lit (a : ascii) | AnyChar | AnyText.

(** [LIKE ... ESCAPE '\']; [None] when the escape ends the pattern, which the
    database refuses. *)
Fixpoint like_items (pattern : string) : option (list like_item) :=
  match pattern with
  | EmptyString => Some []
  | String a p =>
      if Ascii.eqb a backslash then
        match p with
        | String b p' => cons (Lit b) <$> like_items p'
        | EmptyString => None
        end
      else cons (if Ascii.eqb a "%"%char then AnyText
                 else if Ascii.eqb a "_"%char then AnyChar else Lit a) <$> like_items p
  end.

(** [exists t, s = _ ++ t /\ k t]: some suffix of [s] passes. *)
Fixpoint some_suffix (k : string -> bool) (s : string) : bool :=
  k s || match s with EmptyString => false | String _ s' => some_suffix k s' end.

Fixpoint like_match (p : list like_item) (s : string) : bool :=
  match p with
  | [] => match s with EmptyString => true | _ => false end
  | AnyText :: p' => some_suffix (like_match p') s
  | AnyChar :: p' => match s with String _ s' => like_match p' s' | EmptyString => false end
  | Lit a :: p' =>
      match s with String b s' => Ascii.eqb a b && like_match p' s' | EmptyString => false end
  end.

Definition sql_like (s pattern : string) : bool :=
  match like_items pattern with Some p => like_match p s | None => false end.

(** ** Cursors *)

(** [_encode_cursor]. *)
Definition encode_cursor (received_ts : datetime) (event_id : uuid) : string :=
  str_rstrip_char "="%char (urlsafe_b64encode
    (String.list_byte_of_string (rt_isoformat received_ts ++ "|" ++ str_uuid event_id))).

(** [_decode_cursor]. *)
Definition decode_cursor (cursor : string) : res (datetime * uuid) :=
  of_option
    (raw ← urlsafe_b64decode (cursor ++ b64_padding cursor);
     let text := String.string_of_list_byte raw in
     if str_forallb is_ascii text then
       match str_partition "|"%char text with
       | (ts_str, Some id_str) =>
           ts ← rt_fromisoformat ts_str; id ← uuid_of_str id_str; Some (ts, id)
       | (_, None) => None
       end
     else None) InvalidCursor.

(** ** Queries *)

(** [_within_retention]: [None] compares a naive with an aware timestamp. *)
Definition within_retention (when : datetime) (retention_days : Z) (now : datetime) : res bool :=
  if retention_days <=? 0 then Ok true else dt_leb (days_before retention_days now) when.

(** ORDER BY received_ts DESC, id DESC. *)
Definition later_first (a b : TelemetryEvent) : Prop :=
  dt_us (te_received_ts b) < dt_us (te_received_ts a)
  \/ (dt_us (te_received_ts b) = dt_us (te_received_ts a) /\ (te_id b <= te_id a)%N).
#[export] Instance later_first_dec : RelDecision later_first.
Proof. intros a b. unfold later_first. apply _. Defined.

(** What the query asks of a row besides the cursor. *)
Definition in_window (mine : TelemetryEvent -> bool) (from_ts to_ts : datetime)
    (event_type_glob : option string) (e : TelemetryEvent) : bool :=
  mine e && (dt_us from_ts <=? dt_us (te_received_ts e))
  && (dt_us (te_received_ts e) <=? dt_us to_ts)
  && match event_type_glob with
     | Some glob => sql_like (te_event_type e) (glob_to_like glob)
     | None => true
     end.

(** Rows strictly older than the anchor. *)
Definition after_anchor (anchor : option (datetime * uuid)) (e : TelemetryEvent) : bool :=
  match anchor with
  | None => true
  | Some (ts, id) =>
      (dt_us (te_received_ts e) <? dt_us ts)
      || ((dt_us (te_received_ts e) =? dt_us ts) && (te_id e <? id)%N)
  end.

(** A page of a sorted result, and the cursor to the next. *)
Definition page_of (page_size : nat) (rows : list TelemetryEvent)
  : list TelemetryEvent * option string :=
  let fetched := firstn (S page_size) rows in
  if (page_size <? length fetched)%nat then
    let truncated := firstn page_size fetched in
    (truncated, (fun e => encode_cursor (te_received_ts e) (te_id e)) <$> last truncated)
  else (fetched, None).

(** The part [list_events_for_user] and [list_events_for_api_key] share.  The
    driver refuses a naive anchor for the column. *)
Definition list_events (mine : TelemetryEvent -> bool) (from_ts to_ts : datetime)
    (event_type_glob cursor : option string) (page_size : nat) (retention_days : Z)
  : M (list TelemetryEvent * option string) :=
  now <- clock_now ;;
  from_ok <- lift (within_retention from_ts retention_days now) ;;
  guard from_ok TelemetryWindowExpired ;;;
  to_ok <- lift (within_retention to_ts retention_days now) ;;
  guard to_ok TelemetryWindowExpired ;;;
  ordered <- lift (dt_leb from_ts to_ts) ;;
  if negb ordered then ret ([], None)
  else
    anchor <- lift (match cursor with
                    | Some c => let? a := decode_cursor c in Ok (Some a)
                    | None => Ok None
                    end) ;;
    guard (match anchor with Some (ts, _) => dt_aware ts | None => true end)
      (LibraryErr "DataError") ;;;
    d <- db_read ;;
    let rows := List.filter (fun e => in_window mine from_ts to_ts event_type_glob e
                                      && after_anchor anchor e) (n_telemetry (t_notices d)) in
    ret (page_of page_size (merge_sort later_first rows)).

(** [list_events_for_user]. *)
Definition list_events_for_user (user_id : uuid) := list_events (of_user user_id).
(** [list_events_for_api_key]. *)
Definition list_events_for_api_key (api_key_id : uuid) := list_events (of_api_key api_key_id).

(** The loop of [portal_download_endpoint]: page after page to the end; [None]
    when [fuel] pages were not enough. *)
Fixpoint fetch_all (fuel : nat)
    (fetch : option string -> M (list TelemetryEvent * option string)) (cursor : option string)
  : M (option (list TelemetryEvent)) :=
  match fuel with
  | O => ret None
  | S n =>
      '(rows, next_cursor) <- fetch cursor ;;
      match next_cursor with
      | None => ret (Some rows)
      | Some _ =>
          rest <- fetch_all n fetch next_cursor ;;
          ret (match rest with Some l => Some (rows ++ l)%list | None => None end)
      end
  end.

(** [portal_download_endpoint] after the user is known: the last 30 days, or the
    retention when that is shorter. *)
Definition download_events (user_id : uuid) (retention_days : Z) (page_size fuel : nat)
  : M (option (list TelemetryEvent)) :=
  now <- clock_now ;;
  let window_days := if 0 <? retention_days then Z.min retention_days 30 else 30 in
  let from_dt := dt_assume_utc (days_before window_days now) in
  let to_dt := dt_assume_utc now in
  clock_now ;;;
  fetch_all fuel (fun cursor =>
    list_events_for_user user_id from_dt to_dt None cursor page_size retention_days) None.

(** [admin_event_counts]: rows per event type. *)
Definition admin_event_counts (since : datetime) : M (gmap string Z) :=
  clock_now ;;;
  d <- db_read ;;
  ret (fold_left (fun acc e =>
         if dt_us since <=? dt_us (te_received_ts e)
         then <[te_event_type e := or_else (acc !! te_event_type e) 0 + 1]> acc else acc)
         (n_telemetry (t_notices d)) (∅ : gmap string Z)).

(** [admin_rate_limit_offenders]: the API keys with the most rows. *)
Definition more_events (a b : option uuid * Z) : Prop := snd b <= snd a.
#[local] Instance more_events_dec : RelDecision more_events.
Proof. intros a b. unfold more_events. apply _. Defined.

Definition admin_rate_limit_offenders (since : datetime) (limit : nat)
  : M (list (option uuid * Z)) :=
  d <- db_read ;;
  let counts := fold_left (fun acc e =>
         if dt_us since <=? dt_us (te_received_ts e)
         then <[te_api_key_id e := or_else (acc !! te_api_key_id e) 0 + 1]> acc else acc)
         (n_telemetry (t_notices d)) (∅ : gmap (option uuid) Z) in
  ret (firstn limit (merge_sort more_events (map_to_list counts))).

End service.
