(* ===== verification/TelemetryProps.v ===== *)
(** * Telemetry: queries, pages and cursors

    The customers' glob means what it says, cursors round-trip, and following
    them from the first page visits every matching event once, in order. *)

From S2P Require Import Prelude PyData Codecs Errors Effects Store Pricing Payments Telemetry.
From Stdlib Require Import Strings.Byte Strings.Ascii.

Open Scope string_scope.
Open Scope Z_scope.
Open Scope loc_scope.

(** ** Globs *)

(** What the interface promises: a star stands for any text, every other
    character for itself. *)
Fixpoint glob_match (pattern s : string) : bool :=
  match pattern with
  | EmptyString => match s with EmptyString => true | _ => false end
  | String a p =>
      if Ascii.eqb a "*"%char then some_suffix (glob_match p) s
      else match s with String b s' => Ascii.eqb a b && glob_match p s' | EmptyString => false end
  end.

(** How one character of the glob reads in LIKE. *)
Definition glob_item (a : ascii) : like_item := if Ascii.eqb a "*"%char then AnyText else Lit a.

Lemma str_replace_char_app c t (s1 s2 : string) :
  str_replace_char c t (s1 ++ s2) = (str_replace_char c t s1 ++ str_replace_char c t s2)%string.
Proof.
  induction s1 as [|a s1 IH]; [done|]. rewrite str_app_cons. cbn [str_replace_char].
  by rewrite IH, str_app_assoc.
Qed.

Lemma glob_to_like_cons a (p : string) :
  glob_to_like (String a p) = (glob_to_like (String a "") ++ glob_to_like p)%string.
Proof.
  unfold glob_to_like. change (String a p) with (String a "" ++ p)%string.
  by rewrite !str_replace_char_app.
Qed.

Lemma glob_to_like_char a (q : string) :
  like_items (glob_to_like (String a "") ++ q) = cons (glob_item a) <$> like_items q.
Proof. destruct a as [[] [] [] [] [] [] [] []]; reflexivity. Qed.

Lemma glob_to_like_items (p : string) :
  like_items (glob_to_like p) = Some (map glob_item (String.list_ascii_of_string p)).
Proof.
  induction p as [|a p IH]; [done|]. rewrite glob_to_like_cons, glob_to_like_char, IH. done.
Qed.

Lemma some_suffix_ext (k k' : string -> bool) (s : string) :
  (forall t, k t = k' t) -> some_suffix k s = some_suffix k' s.
Proof. intros Hk. induction s as [|a s IH]; cbn; rewrite Hk; [done|]. by rewrite IH. Qed.

(** The glob of a telemetry query. Translated to LIKE it matches an event type exactly when the
    type matches the glob with a star for any text: the wildcards and the escape of SQL in it stand
    for themselves. *)
Theorem glob_to_like_correct (pattern s : string) :
  sql_like s (glob_to_like pattern) = glob_match pattern s.
Proof.
  unfold sql_like. rewrite glob_to_like_items. revert s.
  induction pattern as [|a p IH]; intros s; cbn; [done|]. unfold glob_item at 1.
  destruct (Ascii.eqb a "*"%char) eqn:E; [by apply some_suffix_ext|].
  destruct s as [|b s]; [done|]. by rewrite IH.
Qed.

(** ** Cursors *)

(** The years a timestamp column holds. *)
Definition representable (d : datetime) : Prop := 0 <= dt_us d < 253402300800000000.

(** What the standard library documents of ISO timestamps: they are read back as
    they were written, and are plain text without a bar. *)
Class IsoLaws (R : Runtime) : Prop := {
  iso_roundtrip : forall d, representable d -> rt_fromisoformat (rt_isoformat d) = Some d;
  iso_ascii : forall d, str_forallb is_ascii (rt_isoformat d) = true;
  iso_no_bar : forall d, str_forallb (fun a => negb (Ascii.eqb a "|"%char)) (rt_isoformat d) = true;
}.

Lemma string_of_list_byte_of_string (s : string) :
  String.string_of_list_byte (String.list_byte_of_string s) = s.
Proof. apply String.string_of_list_byte_of_string. Qed.

Lemma str_partition_app c (s t : string) :
  str_forallb (fun a => negb (Ascii.eqb a c)) s = true ->
  str_partition c (s ++ String c t) = (s, Some t).
Proof.
  induction s as [|a s IH]; cbn [str_forallb].
  - intros _. change ("" ++ String c t)%string with (String c t). cbn. by rewrite Ascii.eqb_refl.
  - intros [Ha Hs]%andb_true_iff. rewrite str_app_cons. cbn.
    rewrite (proj1 (negb_true_iff _) Ha), IH; done.
Qed.

Lemma str_uuid_ascii id : str_forallb is_ascii (str_uuid id) = true.
Proof.
  assert (Hh : str_forallb is_ascii (bytes_hex (to_bytes_big 16 (Z.of_N id))) = true).
  { eapply str_forallb_impl, bytes_hex_is_hex.
    intros a. destruct a as [[] [] [] [] [] [] [] []]; vm_compute; congruence. }
  unfold str_uuid. revert Hh. generalize (bytes_hex (to_bytes_big 16 (Z.of_N id))) as s.
  intros s Hs. rewrite !str_forallb_app, !(substring_forallb is_ascii _ _ s Hs). reflexivity.
Qed.

Lemma decode_encode_cursor {R : Runtime} `{!IsoLaws R} ts id :
  representable ts -> (id < 2 ^ 128)%N -> decode_cursor (encode_cursor ts id) = Ok (ts, id).
Proof.
  intros Ht Hi. unfold decode_cursor, encode_cursor. rewrite urlsafe_roundtrip.
  pose proof (str_uuid_ascii id) as Hu. pose proof (uuid_of_str_uuid id Hi) as Hr.
  revert Hu Hr. generalize (str_uuid id) as u. intros u Hu Hr.
  cbn [mbind option_bind]. rewrite string_of_list_byte_of_string, !str_forallb_app, iso_ascii, Hu.
  cbn [andb str_forallb]. change ("|" ++ u)%string with (String "|"%char u).
  rewrite str_partition_app by apply iso_no_bar. rewrite iso_roundtrip by done.
  cbn [mbind option_bind]. by rewrite Hr.
Qed.

(** ** The order of the log *)

#[local] Instance later_total : Total later_first.
Proof. intros a b. unfold later_first. lia. Qed.
#[local] Instance later_transitive : Transitive later_first.
Proof. intros a b c. unfold later_first. lia. Qed.

Lemma later_antisym a b : later_first a b -> later_first b a -> te_id a = te_id b.
Proof. unfold later_first. lia. Qed.

Definition key_of (e : TelemetryEvent) : datetime * uuid := (te_received_ts e, te_id e).

Lemma after_anchor_spec a e :
  after_anchor (Some (key_of a)) e = true <-> ~ later_first e a.
Proof.
  unfold later_first. cbn. rewrite orb_true_iff, andb_true_iff, Z.ltb_lt, Z.eqb_eq, N.ltb_lt. lia.
Qed.

Lemma unique_ids (l : list TelemetryEvent) a b :
  NoDup (map te_id l) -> a ∈ l -> b ∈ l -> te_id a = te_id b -> a = b.
Proof.
  intros Hn. induction l as [|x l IH]; [by intros ?%elem_of_nil|].
  cbn in Hn. apply NoDup_cons in Hn as [Hx Hn].
  intros [->|Ha]%elem_of_cons [->|Hb]%elem_of_cons He; auto.
  - destruct Hx. rewrite He. by apply list_elem_of_fmap_2.
  - destruct Hx. rewrite <- He. by apply list_elem_of_fmap_2.
Qed.

(** What a predicate refuses, or accepts, throughout. *)
Lemma filter_none {A} (p : A -> bool) l : (forall x, x ∈ l -> p x = false) -> List.filter p l = [].
Proof.
  induction l as [|x l IH]; intros Hp; [done|]. cbn. rewrite (Hp x) by left.
  apply IH. intros y Hy. apply Hp. by right.
Qed.
Lemma filter_all {A} (p : A -> bool) l : (forall x, x ∈ l -> p x = true) -> List.filter p l = l.
Proof.
  induction l as [|x l IH]; intros Hp; [done|]. cbn. rewrite (Hp x) by left.
  f_equal. apply IH. intros y Hy. apply Hp. by right.
Qed.

Lemma sorted_ids_before (l : list TelemetryEvent) a x :
  StronglySorted later_first (a :: l) -> NoDup (map te_id (a :: l)) -> x ∈ l ->
  ~ later_first x a.
Proof.
  intros [Ha _]%StronglySorted_cons Hn Hx Hl. rewrite Forall_forall in Ha.
  cbn in Hn. apply NoDup_cons in Hn as [Hn _]. apply Hn.
  rewrite <- (later_antisym _ _ Hl (Ha x Hx)). by apply list_elem_of_fmap_2.
Qed.

(** The rest of a sorted result is what lies strictly after the anchor. *)
Lemma filter_after (before rest : list TelemetryEvent) a :
  StronglySorted later_first (before ++ a :: rest) ->
  NoDup (map te_id (before ++ a :: rest)) ->
  List.filter (after_anchor (Some (key_of a))) (before ++ a :: rest) = rest.
Proof.
  intros (Hb & _ & Hs)%StronglySorted_app Hn. rewrite List.filter_app. cbn [List.filter].
  rewrite map_app in Hn. apply NoDup_app in Hn as (_ & _ & Hn).
  assert (after_anchor (Some (key_of a)) a = false) as ->.
  { apply not_true_iff_false. rewrite after_anchor_spec. unfold later_first. lia. }
  rewrite filter_none, filter_all; [done| |].
  - intros e He. apply after_anchor_spec. by eapply sorted_ids_before.
  - intros e He. apply not_true_iff_false. rewrite after_anchor_spec. intros Hf. apply Hf.
    apply Hb; [done|left].
Qed.

(** ** Pages *)

Lemma filter_perm {A} (p : A -> bool) l k : l ≡ₚ k -> List.filter p l ≡ₚ List.filter p k.
Proof.
  induction 1 as [|x l k _ IH|x y l|l k m _ IH1 _ IH2]; cbn; [done| | |by rewrite IH1].
  - destruct (p x); [by rewrite IH|done].
  - destruct (p x), (p y); try done. apply perm_swap.
Qed.

Lemma filter_conj {A} (p q : A -> bool) l :
  List.filter (fun x => q x && p x) l = List.filter p (List.filter q l).
Proof. induction l as [|x l IH]; cbn; [done|]. destruct (q x); cbn; by rewrite IH. Qed.

Lemma sorted_filter {A} (R : relation A) (p : A -> bool) l :
  StronglySorted R l -> StronglySorted R (List.filter p l).
Proof.
  induction 1 as [|x l _ IH Hx]; cbn; [constructor|]. destruct (p x); [|done].
  constructor; [done|]. rewrite Forall_forall in Hx |- *.
  intros y [Hy _]%list_elem_of_In%List.filter_In. by apply Hx, list_elem_of_In.
Qed.

Lemma nodup_filter_ids (p : TelemetryEvent -> bool) l :
  NoDup (map te_id l) -> NoDup (map te_id (List.filter p l)).
Proof.
  induction l as [|x l IH]; cbn; [done|]. intros [Hx Hn]%NoDup_cons. destruct (p x); [|auto].
  cbn. apply NoDup_cons. split; [|auto]. intros (y & Hy & Hin)%list_elem_of_fmap. apply Hx.
  apply list_elem_of_fmap. exists y. split; [done|].
  by apply list_elem_of_In, List.filter_In, proj1, list_elem_of_In in Hin.
Qed.

(** Two rows that sort alike are one: sorting and filtering commute. *)
Lemma sort_filter (p : TelemetryEvent -> bool) l :
  NoDup (map te_id l) ->
  merge_sort later_first (List.filter p l) = List.filter p (merge_sort later_first l).
Proof.
  intros Hn. apply (StronglySorted_unique_strong later_first).
  - intros x y Hx Hy Hxy Hyx. rewrite merge_sort_Permutation in Hx.
    apply (unique_ids (List.filter p l)); [by apply nodup_filter_ids|done| |by apply later_antisym].
    by rewrite <- (filter_perm p _ _ (merge_sort_Permutation later_first l)).
  - apply (StronglySorted_merge_sort later_first).
  - apply sorted_filter, (StronglySorted_merge_sort later_first).
  - by rewrite (merge_sort_Permutation later_first), (filter_perm p _ _ (merge_sort_Permutation later_first l)).
Qed.

Definition cursor_of {R : Runtime} (e : TelemetryEvent) : string :=
  encode_cursor (te_received_ts e) (te_id e).

Lemma page_of_last {R : Runtime} n rows :
  (length rows <= n)%nat -> page_of n rows = (rows, None).
Proof.
  intros Hn. unfold page_of. rewrite firstn_all2 by lia.
  destruct (Nat.ltb_spec n (length rows)); [lia|done].
Qed.

Lemma page_of_more {R : Runtime} n rows :
  (n < length rows)%nat -> page_of n rows = (firstn n rows, cursor_of <$> last (firstn n rows)).
Proof.
  intros Hn. unfold page_of. rewrite firstn_length_le by lia.
  destruct (Nat.ltb_spec n (S n)); [|lia]. rewrite firstn_firstn. by rewrite Nat.min_l by lia.
Qed.

(** A stored row: what the columns of [telemetry_events] hold. *)
Definition stored (e : TelemetryEvent) : Prop :=
  representable (te_received_ts e) /\ dt_aware (te_received_ts e) = true /\ (te_id e < 2 ^ 128)%N.

Section pages.
Context {W : Type} {R : Runtime} `{!IsoLaws R}.
Context (mine : TelemetryEvent -> bool) (from_ts to_ts : datetime) (glob : option string).
Context (page_size : nat) (retention_days : Z) (table : list TelemetryEvent).
Hypothesis page_pos : (0 < page_size)%nat.
Hypothesis from_kept : forall n, within_retention from_ts retention_days (rt_now n) = Ok true.
Hypothesis to_kept : forall n, within_retention to_ts retention_days (rt_now n) = Ok true.
Hypothesis same_kind : dt_aware from_ts = dt_aware to_ts.
Hypothesis ids_unique : NoDup (map te_id table).
Hypothesis rows_stored : Forall stored table.

Definition matching : list TelemetryEvent :=
  merge_sort later_first (List.filter (in_window mine from_ts to_ts glob) table).

Lemma matching_sorted : StronglySorted later_first matching.
Proof. apply (StronglySorted_merge_sort later_first). Qed.

Lemma matching_ids : NoDup (map te_id matching).
Proof.
  unfold matching. rewrite (merge_sort_Permutation later_first). by apply nodup_filter_ids.
Qed.

Lemma matching_stored e : e ∈ matching -> stored e.
Proof.
  unfold matching. rewrite merge_sort_Permutation. intros He.
  apply list_elem_of_In, List.filter_In, proj1, list_elem_of_In in He.
  by eapply Forall_forall in rows_stored.
Qed.

Lemma matching_window e : e ∈ matching -> dt_us from_ts <= dt_us to_ts.
Proof.
  unfold matching. rewrite merge_sort_Permutation. intros He.
  apply list_elem_of_In, List.filter_In, proj2 in He. unfold in_window in He.
  rewrite !andb_true_iff, !Z.leb_le in He. lia.
Qed.

(** The cursor a client holds after having read [before]. *)
Definition cursor_at (before : list TelemetryEvent) : option string := cursor_of <$> last before.

Lemma anchored_rest before rest anchor :
  matching = (before ++ rest)%list -> anchor = key_of <$> last before ->
  merge_sort later_first (List.filter (fun e => in_window mine from_ts to_ts glob e
                                                && after_anchor anchor e) table) = rest.
Proof.
  intros Hm ->. rewrite filter_conj, sort_filter by by apply nodup_filter_ids.
  fold matching. rewrite Hm. pose proof matching_sorted as Hs. pose proof matching_ids as Hn.
  destruct before as [|b before _] using rev_ind; [by apply filter_all|].
  rewrite last_snoc. cbn [fmap option_fmap option_map].
  rewrite <- app_assoc in Hm |- *. rewrite Hm in Hs, Hn. by apply filter_after.
Qed.

Lemma decode_cursor_at before rest :
  matching = (before ++ rest)%list ->
  match cursor_at before with
  | Some c => let? a := decode_cursor c in Ok (Some a)
  | None => Ok None
  end = Ok (key_of <$> last before).
Proof.
  intros Hm. unfold cursor_at. destruct (last before) as [e|] eqn:He; [|done].
  cbn [fmap option_fmap option_map]. unfold cursor_of.
  destruct (matching_stored e) as (Ht & _ & Hi).
  { rewrite Hm. apply elem_of_app. left. by apply last_Some_elem_of. }
  by rewrite decode_encode_cursor.
Qed.

Lemma anchor_aware before rest :
  matching = (before ++ rest)%list ->
  match key_of <$> last before with Some (ts, _) => dt_aware ts | None => true end = true.
Proof.
  intros Hm. destruct (last before) as [e|] eqn:He; [|done]. cbn.
  apply (matching_stored e). rewrite Hm. apply elem_of_app. left. by apply last_Some_elem_of.
Qed.

Local Abbreviation page := (list_events (W := W) mine from_ts to_ts glob).

(** One page: the rows after what was read, and the cursor behind them. *)
Lemma list_events_page before rest s :
  n_telemetry (t_notices (st_working s)) = table -> matching = (before ++ rest)%list ->
  exists s', page (cursor_at before) page_size retention_days s = (Ok (page_of page_size rest), s')
             /\ st_working s' = st_working s.
Proof.
  intros Ht Hm. unfold list_events, clock_now. rewrite bind_tick, bind_lift, from_kept, bind_guard.
  rewrite bind_lift, to_kept, bind_guard, bind_lift.
  rewrite (proj2 (dt_leb_ok from_ts to_ts _) (conj same_kind eq_refl)).
  destruct (Z.leb_spec (dt_us from_ts) (dt_us to_ts)) as [Hle|Hgt]; cbn [negb].
  - rewrite bind_lift, (decode_cursor_at _ _ Hm), bind_guard, (anchor_aware _ _ Hm), bind_db_read.
    cbn [st_working]. rewrite Ht. rewrite (anchored_rest before rest _ Hm eq_refl).
    eexists. split; [reflexivity|done].
  - assert (matching = []) as Hn.
    { destruct matching as [|e l] eqn:E; [done|]. exfalso.
      assert (e ∈ matching) as He by (rewrite E; left). apply matching_window in He. lia. }
    rewrite Hn in Hm. symmetry in Hm. apply app_eq_nil in Hm as [-> ->].
    rewrite page_of_last by (cbn; lia). eexists. split; [reflexivity|done].
Qed.

(** From any page on, the rest is fetched. *)
Lemma fetch_all_rest fuel before rest s :
  n_telemetry (t_notices (st_working s)) = table -> matching = (before ++ rest)%list ->
  (length rest < fuel)%nat ->
  fst (fetch_all fuel (fun c => page c page_size retention_days) (cursor_at before) s)
  = Ok (Some rest).
Proof.
  revert before rest s. induction fuel as [|fuel IH]; intros before rest s Ht Hm Hf; [lia|].
  cbn [fetch_all]. destruct (list_events_page before rest s Ht Hm) as (s1 & Hp & Hw).
  rewrite (bind_step _ _ _ _ _ Hp). cbn beta iota.
  destruct (Nat.le_gt_cases (length rest) page_size) as [Hle|Hgt].
  { by rewrite page_of_last. }
  rewrite page_of_more by done.
  assert (Hl : length (firstn page_size rest) = page_size) by (apply firstn_length_le; lia).
  destruct (last (firstn page_size rest)) as [e|] eqn:He.
  2: { apply last_None in He. rewrite He in Hl. cbn in Hl. lia. }
  cbn [fmap option_fmap option_map].
  assert (Hc : Some (cursor_of e) = cursor_at (before ++ firstn page_size rest)).
  { unfold cursor_at. by rewrite last_app, He. }
  assert (Hm' : matching = ((before ++ firstn page_size rest) ++ skipn page_size rest)%list).
  { by rewrite <- app_assoc, firstn_skipn. }
  rewrite Hc. specialize (IH _ _ s1 (eq_trans (f_equal _ (f_equal _ Hw)) Ht) Hm').
  rewrite length_skipn in IH. specialize (IH ltac:(lia)).
  unfold bind at 1. destruct (fetch_all fuel _ _ s1) as [r s2]. cbn in IH. subst r.
  cbn. by rewrite firstn_skipn.
Qed.

End pages.

(** C35: Following the cursors.  A client that starts without a cursor and keeps asking with the
    cursor it was given comes to an end, and has then read every event of its window, each once,
    newest first, whatever the page size. *)
Theorem cursor_pages_complete {W : Type} {R : Runtime} `{!IsoLaws R}
    (mine : TelemetryEvent -> bool) (from_ts to_ts : datetime) (glob : option string)
    (page_size : nat) (retention_days : Z) (fuel : nat) (s : St DB W) :
  let table := n_telemetry (t_notices (st_working s)) in
  (0 < page_size)%nat ->
  (forall n, within_retention from_ts retention_days (rt_now n) = Ok true) ->
  (forall n, within_retention to_ts retention_days (rt_now n) = Ok true) ->
  dt_aware from_ts = dt_aware to_ts ->
  NoDup (map te_id table) -> Forall stored table -> (length table < fuel)%nat ->
  fst (fetch_all fuel (fun c => list_events mine from_ts to_ts glob c page_size retention_days) None s)
  = Ok (Some (merge_sort later_first (List.filter (in_window mine from_ts to_ts glob) table))).
Proof.
  intros table Hp Hf Ht Hk Hn Hs Hl.
  apply (fetch_all_rest mine from_ts to_ts glob page_size retention_days table Hp Hf Ht Hk Hn Hs
           fuel [] _ s eq_refl eq_refl).
  unfold matching. rewrite (merge_sort_Permutation later_first).
  pose proof (List.filter_length_le (in_window mine from_ts to_ts glob) table). lia.
Qed.

(** Timestamps as text to evaluate examples with: the microseconds. *)
Definition iso_demo : Runtime := {|
  rt_now n := DT (1700000000000000 + 1000000 * Z.of_nat n) true;
  rt_uuid n := N.of_nat (1000 + n);
  rt_fromisoformat s :=
    match s with
    | String a t => (fun us => DT us (Ascii.eqb a "Z"%char)) <$> int_of_str t
    | EmptyString => None
    end;
  rt_isoformat d := String (if dt_aware d then "Z"%char else "N"%char) (str_Z (dt_us d));
  rt_model_time _ := EmptyString;
  rt_repr _ := EmptyString;
  rt_sha256 b := b;
  rt_parse_time _ := None;
  rt_hmac _ b := b;
  rt_json_loads _ := None;
|}.

Lemma str_Z_forallb (q : ascii -> bool) (z : Z) :
  (forall a, plain_char a = true -> q a = true) -> str_forallb q (str_Z z) = true.
Proof. intros Hq. eapply str_forallb_impl, str_Z_plain. exact Hq. Qed.

#[local] Instance iso_demo_laws : IsoLaws iso_demo.
Proof.
  split.
  - intros [us []] _; cbn [rt_fromisoformat rt_isoformat iso_demo dt_aware dt_us];
      by rewrite int_of_str_Z.
  - intros [us []]; cbn [rt_isoformat iso_demo dt_aware dt_us str_forallb];
      (rewrite str_Z_forallb; [done|]);
      intros a; destruct a as [[] [] [] [] [] [] [] []]; vm_compute; congruence.
  - intros [us []]; cbn [rt_isoformat iso_demo dt_aware dt_us str_forallb];
      (rewrite str_Z_forallb; [done|]);
      intros a; destruct a as [[] [] [] [] [] [] [] []]; vm_compute; congruence.
Qed.

(** Three events of one user, the last two in the same microsecond. *)
Definition demo_event (id : uuid) (us : Z) (event_type : string) : TelemetryEvent :=
  server_row id (DT us true) event_type 1 [] None (Some 7%N) None no_enrichment.
Definition demo_log : St DB unit :=
  let d := on_telemetry (fun _ => [demo_event 1%N 1000 "server.job_opened";
                                   demo_event 2%N 2000 "server.job_opened";
                                   demo_event 3%N 2000 "server.job_closed"]) db_empty in
  MkSt d d false [] 0 tt.

Lemma cursor_pages_complete_witness :
  fst (fetch_all 4
         (fun c => list_events_for_user (R := iso_demo) 7%N (DT 0 true) (DT 3000 true)
                     (Some "server.job_*") c 1 0) None demo_log)
  = Ok (Some [demo_event 3%N 2000 "server.job_closed"; demo_event 2%N 2000 "server.job_opened";
              demo_event 1%N 1000 "server.job_opened"]).
Proof.
  refine (eq_trans (cursor_pages_complete (R := iso_demo) (of_user 7%N) (DT 0 true) (DT 3000 true)
            (Some "server.job_*") 1 0 4 demo_log _ _ _ _ _ _ _) _).
  - lia.
  - reflexivity.
  - reflexivity.
  - reflexivity.
  - apply (bool_decide_unpack _). vm_compute. exact I.
  - repeat constructor; vm_compute; congruence.
  - vm_compute. lia.
  - vm_compute. reflexivity.
Defined.

(** The portal's download, under a retention of at most thirty days as is the default: the
    window begins exactly where retention ended when the request read the clock, and each page
    asks again by a later clock. The customer gets no event at all, the stream fails with the
    error of an expired window. *)
Theorem download_always_expires {W : Type} {R : Runtime} (user_id : uuid) (retention_days : Z)
    (page_size fuel : nat) (s : St DB W) :
  0 < retention_days <= 30 -> (0 < fuel)%nat ->
  (forall n, dt_aware (rt_now n) = true) ->
  (forall n, dt_us (rt_now n) < dt_us (rt_now (S n))) ->
  fst (download_events user_id retention_days page_size fuel s) = Err TelemetryWindowExpired.
Proof.
  intros Hr Hf Ha Hc. unfold download_events, clock_now. rewrite !bind_tick.
  destruct fuel as [|fuel]; [lia|]. cbn [fetch_all]. unfold bind at 1.
  unfold list_events_for_user, list_events, clock_now. rewrite bind_tick, bind_lift.
  cbn [st_ticks st_committed st_working st_pending st_races st_world].
  set (n := st_ticks s). pose proof (Hc n) as H1. pose proof (Hc (S n)) as H2.
  rewrite (proj2 (Z.ltb_lt 0 _)) by lia. rewrite Z.min_l by lia. unfold within_retention.
  destruct (Z.leb_spec retention_days 0); [lia|].
  set (from := dt_assume_utc (days_before retention_days (rt_now n))).
  set (cut := days_before retention_days (rt_now (S (S n)))).
  assert (dt_leb cut from = Ok false) as ->; [|done].
  apply dt_leb_ok. split; [apply Ha|]. symmetry. apply Z.leb_gt. subst from cut. cbn. lia.
Qed.

Lemma download_always_expires_witness :
  fst (download_events (R := iso_demo) 7%N 30 1000 10 demo_log) = Err TelemetryWindowExpired.
Proof.
  apply (download_always_expires (R := iso_demo)); [lia|lia|done|].
  intros n. cbn. lia.
Defined.
