(* ===== verification/WebhookProps.v ===== *)
(** * Webhooks: what verification accepts

    Inbound webhooks are accepted exactly when one presented signature is the
    provider's over this identifier, time and body, within the time window;
    what the service signs with a well-formed secret is accepted; and delivery
    stops at the first answer that settles it. *)

From S2P Require Import Prelude PyData Codecs Errors Effects Store Pricing Payments Webhooks.
From Stdlib Require Import Strings.Ascii.

Open Scope string_scope.
Open Scope Z_scope.
Open Scope loc_scope.

(** ** Verification *)

Lemma any_digest_true expected l :
  str_forallb is_ascii expected = true ->
  any_digest expected l = Ok true <->
  exists before after, l = (before ++ expected :: after)%list /\
    Forall (fun p => str_forallb is_ascii p = true) before.
Proof.
  intros He. induction l as [|p l IH]; cbn.
  - split; [done|]. by intros ([|] & after & H & _).
  - destruct (str_forallb is_ascii p) eqn:Ep; cbn.
    + destruct (String.eqb expected p) eqn:Eq.
      * apply String.eqb_eq in Eq as <-. split; [|done]. intros _. by exists [], l.
      * apply String.eqb_neq in Eq. rewrite IH. split.
        -- intros (b & a & -> & Hb). exists (p :: b), a. split; [done|by constructor].
        -- intros ([|q b] & a & [= -> ->] & Hb); [done|]. exists b, a.
           split; [done|by inversion Hb].
    + split; [done|]. intros ([|q b] & a & [= -> ->] & Hb); [congruence|].
      inversion Hb; congruence.
Qed.

Section signatures.
Context {R : Runtime}.

(** The signature the sender computes. *)
Definition expected_signature (secret webhook_id timestamp : string) (body : bytes) : string :=
  b64encode (rt_hmac (inbound_key secret) (signed_content webhook_id timestamp body)).

Lemma verify_with_headers secret i t h body now stamp :
  str_truthy secret && str_truthy i && str_truthy t && str_truthy h = true ->
  int_of_str t = Some stamp -> Z.abs (dt_epoch now - stamp) <= 300 ->
  verify_signature secret (Some i) (Some t) (Some h) body now =
  let? matched := any_digest (expected_signature secret i t body) (extract_v1_signatures h) in
  require matched (WebhookSignatureErr "signature mismatch").
Proof.
  intros Hh Hs Hw. unfold verify_signature, truthy_header. rewrite Hh. cbn [or_else].
  rewrite Hs. cbn. unfold WEBHOOK_TIMESTAMP_TOLERANCE. by rewrite (proj2 (Z.ltb_ge _ _) Hw).
Qed.

End signatures.

(** C34: When an inbound webhook is accepted. The secret and the three headers are not empty, the
    timestamp is an integer within five minutes of the server's clock, and one of the header's v1
    signatures, none before it malformed, is the HMAC of the identifier, the timestamp and the body
    under the endpoint's key. *)
Theorem verify_signature_iff {R : Runtime} secret webhook_id webhook_timestamp webhook_signature
    body now :
  verify_signature secret webhook_id webhook_timestamp webhook_signature body now = Ok tt <->
  exists i t h stamp before after,
    webhook_id = Some i /\ webhook_timestamp = Some t /\ webhook_signature = Some h /\
    secret <> "" /\ i <> "" /\ t <> "" /\ h <> "" /\
    int_of_str t = Some stamp /\ Z.abs (dt_epoch now - stamp) <= 300 /\
    extract_v1_signatures h = (before ++ expected_signature secret i t body :: after)%list /\
    Forall (fun p => str_forallb is_ascii p = true) before.
Proof.
  assert (Ht : forall s, str_truthy s = true <-> s <> "") by (by intros []).
  split.
  - unfold verify_signature. destruct (str_truthy secret && _ && _ && _) eqn:Eh; [|done].
    cbn. destruct (int_of_str _) as [stamp|] eqn:Es; [|done]. cbn.
    destruct (WEBHOOK_TIMESTAMP_TOLERANCE <? _) eqn:Ew; [done|]. cbn. bool_props.
    destruct webhook_id as [i|], webhook_timestamp as [t|], webhook_signature as [h|];
      try discriminate. cbn in *.
    destruct (any_digest _ _) as [[|]|e] eqn:Ed; try discriminate. intros _.
    apply any_digest_true in Ed as (b & a & Hl & Hb); [|apply b64encode_ascii].
    exists i, t, h, stamp, b, a. repeat split; auto; by apply Ht.
  - intros (i & t & h & stamp & b & a & -> & -> & -> & H1 & H2 & H3 & H4 & Hs & Hw & Hl & Hb).
    apply Ht in H1, H2, H3, H4. rewrite (verify_with_headers _ _ _ _ _ _ stamp); auto;
      [|by rewrite H1, H2, H3, H4].
    assert (any_digest (expected_signature secret i t body) (extract_v1_signatures h) = Ok true)
      as ->; [|done]. apply any_digest_true; [apply b64encode_ascii|]. eauto.
Qed.

(** ** Signing *)

(** What HMAC-SHA-256 documents. *)
Class Sha256Laws (R : Runtime) : Prop := hmac_length : forall k m, length (rt_hmac k m) = 32%nat.

Lemma str_words_one (s : string) :
  str_truthy s = true -> str_forallb (fun a => negb (is_str_space a)) s = true -> str_words s = [s].
Proof.
  induction s as [|a s IH]; [done|]. intros _ [Ha Hs]%andb_true_iff.
  cbn [str_words]. rewrite (proj1 (negb_true_iff _) Ha).
  destruct s as [|b s]; [done|]. pose proof Hs as [Hb _]%andb_true_iff. rewrite Hb, IH; done.
Qed.

Lemma plain_digit_word a : plain_digit a = true -> negb (is_str_space a) = true.
Proof. by intros [_ Ha]%andb_true_iff. Qed.

Lemma b64encode_word b : str_forallb (fun a => negb (is_str_space a)) (b64encode b) = true.
Proof.
  rewrite b64encode_text, str_forallb_app, str_forallb_repeat by done. rewrite andb_true_r.
  eapply str_forallb_impl, b64_text_plain. apply plain_digit_word.
Qed.

Lemma b64encode_truthy b : b <> [] -> str_truthy (b64encode b) = true.
Proof. by destruct b as [|x [|y [|z b]]]. Qed.

Lemma extract_one (sig : string) :
  str_truthy sig = true -> str_forallb (fun a => negb (is_str_space a)) sig = true ->
  extract_v1_signatures ("v1," ++ sig) = [sig].
Proof.
  intros Ht Hs. unfold extract_v1_signatures.
  rewrite str_words_one; [|done|rewrite str_forallb_app, Hs; done].
  assert (v1_signature ("v1," ++ sig) = Some sig) as Hv; [|cbn [omap list_omap]; by rewrite Hv].
  change (v1_signature ("v1," ++ sig)) with (if str_truthy sig then Some sig else None). by rewrite Ht.
Qed.

Section signing.
Context {R : Runtime} `{!Sha256Laws R}.

Lemma hmac_nonempty k m : rt_hmac k m <> [].
Proof. intros H. pose proof (hmac_length k m) as Hl. by rewrite H in Hl. Qed.

(** What is presented is compared with what is expected. *)
Lemma verify_signed secret secret' i t body now stamp :
  str_truthy secret && str_truthy i && str_truthy t = true ->
  int_of_str t = Some stamp -> Z.abs (dt_epoch now - stamp) <= 300 ->
  verify_signature secret (Some i) (Some t) (Some (sign_body secret' i t body)) body now =
  if bool_decide (rt_hmac (inbound_key secret) (signed_content i t body)
                  = rt_hmac (outbound_key secret') (signed_content i t body))
  then Ok tt else Err (WebhookSignatureErr "signature mismatch").
Proof.
  intros Hh Hs Hw. rewrite (verify_with_headers _ _ _ _ _ _ stamp); auto; [|by rewrite Hh].
  unfold sign_body. rewrite extract_one;
    [|apply b64encode_truthy, hmac_nonempty|apply b64encode_word].
  cbn [any_digest]. rewrite b64encode_ascii. cbn [negb]. unfold expected_signature.
  case_bool_decide as E; [by rewrite E, String.eqb_refl|].
  destruct (String.eqb _ _) eqn:Eq; [|done]. apply String.eqb_eq in Eq. destruct E.
  pose proof (f_equal b64decode_lenient Eq) as Ed. rewrite !b64decode_encode in Ed. congruence.
Qed.

Lemma removeprefix_app p (s : string) : str_removeprefix p (p ++ s) = s.
Proof.
  unfold str_removeprefix. assert (str_startswith p (p ++ s) = true) as ->.
  { unfold str_startswith. induction p as [|a p IH]; [by destruct s|]. rewrite str_app_cons. cbn.
    destruct (ascii_dec a a); [exact IH|done]. }
  induction p as [|a p IH]; [by destruct s|]. exact IH.
Qed.

Lemma padding_complete b : b64_padding (b64encode b) = "".
Proof.
  unfold b64_padding. rewrite b64encode_text, str_length_app, str_length_repeat.
  pose proof (proj1 (b64_pads_length b)) as Hp.
  assert ((- Z.of_nat (String.length (b64_text b) + b64_pads b)) mod 4 = 0) as ->; [|done].
  rewrite Nat2Z.inj_add, Hp. Z.div_mod_to_equations. lia.
Qed.

Lemma well_formed_keys key :
  inbound_key ("whsec_" ++ b64encode key) = key /\ outbound_key ("whsec_" ++ b64encode key) = key.
Proof.
  unfold inbound_key, outbound_key. rewrite removeprefix_app, padding_complete, str_app_nil.
  by rewrite b64decode_encode.
Qed.

(** A derived secret loses its padding: the sender puts it back, the verifier
    does not and falls back to the text. *)
Lemma derived_keys seed user_id :
  outbound_key (derive_secret seed user_id)
    = rt_hmac (String.list_byte_of_string seed) (uuid_bytes user_id) /\
  inbound_key (derive_secret seed user_id)
    = String.list_byte_of_string (derive_secret seed user_id).
Proof.
  unfold inbound_key, outbound_key, derive_secret. rewrite removeprefix_app, b64encode_stripped.
  set (mac := rt_hmac _ _). assert (Hl : b64_pads mac <> 0%nat).
  { pose proof (proj2 (b64_pads_length mac)) as Hp. unfold mac in Hp.
    rewrite hmac_length in Hp. fold mac in Hp. change ((- Z.of_nat 32) mod 3) with 1 in Hp. lia. }
  rewrite b64_text_padded, b64decode_encode. split; [done|].
  unfold b64decode_lenient. by rewrite b64_text_ascii, a2b_text_open.
Qed.

End signing.

(** What is signed is accepted. A webhook signed under a well-formed secret passes the
    verification of its receiver, who has the same secret, within the time window; and signed under
    another key it passes only if the HMACs of the two keys agree on it. *)
Theorem signed_webhook_verifies {R : Runtime} `{!Sha256Laws R} key key' webhook_id timestamp stamp
    body now :
  webhook_id <> "" -> int_of_str timestamp = Some stamp -> Z.abs (dt_epoch now - stamp) <= 300 ->
  let secret k := "whsec_" ++ b64encode k in
  let signed := sign_body (secret key) webhook_id timestamp body in
  verify_signature (secret key) (Some webhook_id) (Some timestamp) (Some signed) body now = Ok tt /\
  (verify_signature (secret key') (Some webhook_id) (Some timestamp) (Some signed) body now = Ok tt <->
   rt_hmac key (signed_content webhook_id timestamp body)
   = rt_hmac key' (signed_content webhook_id timestamp body)).
Proof.
  intros Hi Hs Hw secret signed.
  assert (Hh : forall k, str_truthy (secret k) && str_truthy webhook_id && str_truthy timestamp = true)
    by (intros k; by destruct webhook_id, timestamp).
  unfold signed. rewrite !(verify_signed _ _ _ _ _ _ stamp) by auto. unfold secret.
  destruct (well_formed_keys key) as [Hk1 Hk2], (well_formed_keys key') as [Hk3 _].
  rewrite Hk1, Hk2, Hk3. split; [by rewrite bool_decide_true|].
  case_bool_decide as E; [by rewrite E|]. split; [done|]. intros He. by destruct E.
Qed.

(** The derived secrets need another verifier. The secret the service hands to a user does not
    pass the service's own verification routine: what it signs with that secret is refused as a
    mismatch, unless the HMAC under the secret's text happens to agree with the one under the key. *)
Theorem mirrored_verification_rejects {R : Runtime} `{!Sha256Laws R} seed user_id webhook_id
    timestamp stamp body now :
  webhook_id <> "" -> int_of_str timestamp = Some stamp -> Z.abs (dt_epoch now - stamp) <= 300 ->
  let secret := derive_secret seed user_id in
  let mac := rt_hmac (String.list_byte_of_string seed) (uuid_bytes user_id) in
  let content := signed_content webhook_id timestamp body in
  rt_hmac (String.list_byte_of_string secret) content <> rt_hmac mac content ->
  verify_signature secret (Some webhook_id) (Some timestamp)
    (Some (sign_body secret webhook_id timestamp body)) body now
  = Err (WebhookSignatureErr "signature mismatch").
Proof.
  intros Hi Hs Hw secret mac content Hn.
  rewrite (verify_signed _ _ _ _ _ _ stamp); auto; [|by destruct webhook_id, timestamp].
  destruct (derived_keys seed user_id) as [Ho Hk]. unfold secret. rewrite Ho, Hk.
  by rewrite bool_decide_false.
Qed.

(** ** Delivery *)

Section delivery.
Context {W : Type} (call : W -> res Z * W).

Definition reply (w : W) : attempt_outcome :=
  outcome_of (match fst (call w) with Ok code => Some code | Err _ => None end).

Fixpoint world_after (k : nat) (w : W) : W :=
  match k with O => w | S k' => world_after k' (snd (call w)) end.

(** The answers to [n] attempts in a row. *)
Fixpoint replies (n : nat) (w : W) : list attempt_outcome :=
  match n with O => [] | S n' => reply w :: replies n' (snd (call w)) end.

Definition with_world (s : St DB W) (w : W) : St DB W :=
  MkSt (st_committed s) (st_working s) (st_pending s) (st_races s) (st_ticks s) w.

Lemma deliver_step n s :
  deliver (S n) (remote call) s =
  let s' := with_world s (snd (call (st_world s))) in
  match reply (st_world s) with
  | Delivered => (Ok true, s')
  | Retryable => deliver n (remote call) s'
  | ClientError => (Ok false, s')
  end.
Proof.
  unfold reply. cbn [deliver]. unfold bind at 1, try_except, bind, remote.
  destruct (call (st_world s)) as [[code|e] w]; cbn [fst snd ret]; [|done].
  by destruct (outcome_of (Some code)).
Qed.

End delivery.

(** How a delivery ends. A webhook is posted at most [max_retries] times, and a further time
    only after a server error, a rate limit or a failed request; it counts as delivered exactly when
    the last attempt was answered with a 2xx; and nothing but the outside world changes. *)
Theorem delivery_settles {W} (call : W -> res Z * W) n (s : St DB W) :
  exists k b, deliver n (remote call) s = (Ok b, with_world s (world_after call k (st_world s))) /\
    (k <= n)%nat /\
    exists before, Forall (eq Retryable) before /\
      firstn k (replies call n (st_world s)) =
        (before ++ (if b then [Delivered]
                    else if decide (length before = n) then [] else [ClientError]))%list.
Proof.
  revert s. induction n as [|n IH]; intros s.
  - exists 0%nat, false. split; [by destruct s|]. split; [done|]. exists []. by split.
  - rewrite deliver_step. cbn zeta. cbn [replies]. destruct (reply call (st_world s)) eqn:Er.
    + exists 1%nat, true. split; [done|]. split; [lia|]. exists []. by split.
    + destruct (IH (with_world s (snd (call (st_world s))))) as (k & b & -> & Hk & pre & Hp & Hr).
      exists (S k), b. split; [done|]. split; [lia|]. exists (Retryable :: pre).
      split; [by constructor|]. cbn [st_world with_world] in Hr. cbn [firstn length app].
      rewrite Hr. destruct b; [done|]. destruct (decide (length pre = n)), (decide _); try done; lia.
    + exists 1%nat, false. split; [done|]. split; [lia|]. exists []. split; [constructor|].
      by destruct (decide _).
Qed.

(** ** Examples *)

(** A hash of the right length. *)
Definition demo_hmac (k m : bytes) : bytes := firstn 32 (k ++ m ++ repeat Byte.x00 32)%list.

Definition demo_signer : Runtime := {|
  rt_now := rt_now (Runtime := demo_runtime);
  rt_uuid := rt_uuid (Runtime := demo_runtime);
  rt_fromisoformat _ := None;
  rt_isoformat _ := "";
  rt_model_time _ := "";
  rt_repr _ := "";
  rt_sha256 b := b;
  rt_parse_time _ := None;
  rt_hmac := demo_hmac;
  rt_json_loads _ := None;
|}.

#[export] Instance demo_signer_laws : Sha256Laws demo_signer.
Proof.
  intros k m. change (length (firstn 32 (k ++ m ++ repeat Byte.x00 32)) = 32%nat).
  rewrite length_firstn, !length_app, repeat_length. lia.
Qed.

Definition demo_body : bytes := String.list_byte_of_string "{}".

Lemma signed_webhook_verifies_witness :
  verify_signature (R := demo_signer) ("whsec_" ++ b64encode [Byte.x01]) (Some "msg_1")
    (Some "1700000000")
    (Some (sign_body (R := demo_signer) ("whsec_" ++ b64encode [Byte.x01]) "msg_1" "1700000000" demo_body))
    demo_body (DT 1700000200000000 true) = Ok tt.
Proof.
  apply (signed_webhook_verifies (R := demo_signer) [Byte.x01] [Byte.x02] "msg_1" "1700000000"
    1700000000 demo_body (DT 1700000200000000 true)).
  - discriminate.
  - vm_compute. reflexivity.
  - apply Z.leb_le. vm_compute. reflexivity.
Defined.

Lemma mirrored_verification_rejects_witness :
  verify_signature (R := demo_signer) (derive_secret (R := demo_signer) "seed" 7%N) (Some "msg_1")
    (Some "1700000000")
    (Some (sign_body (R := demo_signer) (derive_secret (R := demo_signer) "seed" 7%N) "msg_1"
             "1700000000" demo_body))
    demo_body (DT 1700000200000000 true) = Err (WebhookSignatureErr "signature mismatch").
Proof.
  apply (mirrored_verification_rejects (R := demo_signer) "seed" 7%N "msg_1" "1700000000"
    1700000000 demo_body (DT 1700000200000000 true)).
  - discriminate.
  - vm_compute. reflexivity.
  - apply Z.leb_le. vm_compute. reflexivity.
  - vm_compute. discriminate.
Defined.
