(* ===== verification/PaymentsProps.v ===== *)
(** * Payments: the properties of the component

    Two workers never both hold the claim of one create request; an indeterminate
    outcome is permanent; and an authorization states only facts of the selected
    route. *)

From S2P Require Import Prelude PyData Errors Effects Store SettlementVerification.
From S2P Require Import PaymentDaemon PaymentDaemonClients Registry Payments.
From Stdlib Require Import Strings.Byte.

Open Scope string_scope.
Open Scope Z_scope.
Open Scope loc_scope.

(** ** Claims *)

Section claims.
Context {W : Type} {R : Runtime}.
Implicit Types (s : St DB W) (d : DB) (k : idem_key) (r : PaymentIdempotencyKey).

(** A live claim that a retry may not take over yet. *)
Definition live (r : PaymentIdempotencyKey) : Prop := ik_status r = "in_flight".

Lemma claim_from_live r fp :
  live r ->
  claim_from_existing r fp =
  Err (OC (if String.eqb (ik_request_fingerprint r) fp then IdempotencyInProgress
           else IdempotencyKeyReuse)).
Proof.
  intros Hl. unfold claim_from_existing. rewrite Hl.
  by destruct (String.eqb (ik_request_fingerprint r) fp).
Qed.

Lemma claim_expiry_after op now t r :
  op = "sessions.prepare" \/ dt_us (ik_expires_at r) < dt_us now + 1000000 * t ->
  dt_us (ik_expires_at r) < dt_us (claim_expiry op now t r).
Proof.
  unfold claim_expiry. destruct (String.eqb op "sessions.prepare") eqn:E; cbn.
  - intros _. destruct (_ <? _) eqn:El; bool_props; cbn in *; lia.
  - intros [->|Hlt]; [done|]. done.
Qed.

(** A request's session before its first statement. *)
Definition fresh_session s : Prop := st_working s = st_committed s.

(** The lease a claim obtains without interference: a new row, or the old one
    reclaimed. *)
Inductive lease_obtained k fp (t : Z) s : CreateRequestClaim -> DB -> Prop :=
| lease_new api :
    t_idem (st_committed s) !! k = None ->
    let lease := dt_add_seconds (rt_now (st_ticks s)) t in
    let id := str_uuid (rt_uuid (S (st_ticks s))) in
    lease_obtained k fp t s (MkCreateRequestClaim id None None (Some lease))
      (on_idem (fun m => <[k := MkPaymentIdempotencyKey api fp id "in_flight" None None None lease]> m)
         (st_committed s))
| lease_reclaimed r :
    t_idem (st_committed s) !! k = Some r -> ik_request_fingerprint r = fp ->
    reclaimable (snd (fst k)) (ik_expires_at r) (rt_now (S (st_ticks s))) r = true ->
    let lease := claim_expiry (snd (fst k)) (rt_now (st_ticks s)) t r in
    lease_obtained k fp t s (MkCreateRequestClaim (ik_broker_request_id r) None None (Some lease))
      (on_idem (fun m => <[k := reclaimed lease r]> m) (st_committed s)).

Lemma claim_from_existing_replay r fp c :
  claim_from_existing r fp = Ok c -> rc_replay_status c <> None.
Proof. unfold claim_from_existing. intros Hc. crush_match; done. Qed.

Lemma answer_from_winner_run k fp e s :
  answer_from_winner k fp e s =
  (match t_idem (st_committed s) !! k with
   | Some r => claim_from_existing r fp
   | None => Err e end,
   MkSt (st_committed s) (st_committed s) false (st_races s) (st_ticks s) (st_world s)).
Proof.
  unfold answer_from_winner, get_create_request. rewrite bind_db_rollback, bind_db_read, bind_lift.
  cbn. by destruct (t_idem (st_committed s) !! k).
Qed.

Lemma claim_lease k api fp t s c s1 :
  fresh_session s -> st_races s = [] ->
  claim_create_request k api fp t s = (Ok c, s1) -> rc_replay_status c = None ->
  lease_obtained k fp t s c (st_committed s1).
Proof.
  intros Hf Hr Hrun Hc. unfold claim_create_request, clock_now, new_uuid in Hrun.
  rewrite bind_tick, bind_db_read in Hrun. cbn [st_working st_ticks] in Hrun.
  rewrite Hf in Hrun. unfold get_create_request in Hrun at 1.
  destruct (t_idem (st_committed s) !! k) as [r|] eqn:Ek.
  - destruct (String.eqb (ik_request_fingerprint r) fp) eqn:Efp; cbn [negb] in Hrun.
    2:{ apply lift_ok in Hrun as [Hx _]. by apply claim_from_existing_replay in Hx. }
    apply String.eqb_eq in Efp. destruct (str_elem _ _) eqn:Est.
    2:{ apply lift_ok in Hrun as [Hx _]. by apply claim_from_existing_replay in Hx. }
    rewrite bind_tick in Hrun. unfold bind at 1, db_interleave in Hrun.
    cbn [st_races] in Hrun. rewrite Hr in Hrun. unfold reclaim_update in Hrun.
    rewrite !bind_assoc, bind_db_peek in Hrun. unfold get_create_request in Hrun.
    cbn [st_working] in Hrun. rewrite Ek in Hrun.
    destruct (reclaimable _ _ _ _) eqn:Erc.
    + rewrite !bind_assoc, bind_db_modify, !bind_assoc, bind_db_flush, bind_ret in Hrun.
      apply bind_ok in Hrun as (u & s2 & Hcm & [= <- <-]).
      apply db_commit_ok in Hcm as (-> & _). by apply lease_reclaimed.
    + rewrite bind_ret, answer_from_winner_run in Hrun. cbn [st_committed] in Hrun.
      rewrite Ek in Hrun. injection Hrun as Hx _. by apply claim_from_existing_replay in Hx.
  - rewrite bind_tick, bind_db_modify in Hrun. unfold try_except in Hrun.
    unfold bind at 1, db_commit, bind at 1, db_race in Hrun. cbn [st_races] in Hrun.
    rewrite Hr in Hrun. cbn in Hrun. injection Hrun as <- <-. by apply lease_new.
Qed.

(** The winner's row is live, carries its fingerprint, and its lease outlasts
    the one a competitor may have read. *)
Lemma lease_row k fp t s c d1 :
  lease_obtained k fp t s c d1 ->
  exists r, t_idem d1 !! k = Some r /\ live r /\ ik_request_fingerprint r = fp /\
    ik_broker_request_id r = rc_broker_request_id c /\
    rc_lease_expires_at c = Some (ik_expires_at r) /\
    (forall j, j <> k -> t_idem d1 !! j = t_idem (st_committed s) !! j).
Proof.
  intros [api Hk lease id|r Hk Hfp Hrc lease]; cbn; rewrite lookup_insert_eq;
    (eexists; split_and!; [done..|]); intros j Hj; by rewrite lookup_insert_ne.
Qed.

Lemma reclaim_update_lost k e now lease s :
  (forall r, t_idem (st_working s) !! k = Some r -> dt_us (ik_expires_at r) <> dt_us e) ->
  reclaim_update k e now lease s = (Ok false, s).
Proof.
  intros Hne. unfold reclaim_update, get_create_request. rewrite bind_db_peek.
  destruct (t_idem (st_working s) !! k) as [r|] eqn:E; [|done].
  unfold reclaimable. rewrite (proj2 (Z.eqb_neq _ _)) by (by apply Hne).
  by rewrite andb_false_r.
Qed.

(** A claim whose competitor committed [d1] meanwhile. *)
Lemma claim_loses k api fp t s d1 r1 rest :
  fresh_session s -> st_races s = Some (fun _ => d1) :: rest ->
  t_idem d1 !! k = Some r1 -> live r1 ->
  match t_idem (st_committed s) !! k with
  | None => True
  | Some r => ik_request_fingerprint r = ik_request_fingerprint r1 /\
      str_elem (ik_status r) ["in_flight"; "expired"] = true /\
      dt_us (ik_expires_at r) < dt_us (ik_expires_at r1)
  end ->
  fst (claim_create_request k api fp t s) =
  Err (OC (if String.eqb (ik_request_fingerprint r1) fp then IdempotencyInProgress
           else IdempotencyKeyReuse)).
Proof.
  intros Hf Hr Hk1 Hl Hk. unfold claim_create_request, clock_now, new_uuid.
  rewrite bind_tick, bind_db_read. cbn [st_working st_ticks]. rewrite Hf.
  unfold get_create_request at 1.
  destruct (t_idem (st_committed s) !! k) as [r|] eqn:Ek.
  - destruct Hk as (Hfp & Hst & Hlt). rewrite Hfp, Hst.
    destruct (String.eqb (ik_request_fingerprint r1) fp) eqn:Efp; cbn [negb].
    2:{ unfold lift, claim_from_existing. by rewrite Hfp, Efp. }
    rewrite bind_tick. unfold bind at 1, db_interleave. cbn [st_races]. rewrite Hr.
    cbn [st_working st_committed st_pending st_ticks st_world].
    erewrite bind_step; [|apply reclaim_update_lost; cbn; intros x Hx; simplify_eq; lia].
    cbv beta iota. rewrite answer_from_winner_run. cbn. rewrite Hk1. cbn.
    rewrite claim_from_live by done. by rewrite Efp.
  - rewrite bind_tick, bind_db_modify. unfold try_except.
    unfold bind at 1, db_commit, bind at 1, db_race. cbn [st_races]. rewrite Hr.
    cbv iota beta. rewrite answer_from_winner_run. cbn. rewrite Hk1. cbn.
    by apply claim_from_live.
Qed.

Lemma claims_exclude k apiA apiB fpA fpB tA tB sA sB cB sB1 rest :
  fresh_session sA -> fresh_session sB -> st_committed sB = st_committed sA ->
  st_races sB = [] -> st_races sA = Some (fun _ => st_committed sB1) :: rest ->
  (forall r, t_idem (st_committed sA) !! k = Some r -> snd (fst k) = "sessions.prepare" \/
     dt_us (ik_expires_at r) < dt_us (rt_now (st_ticks sB)) + 1000000 * tB) ->
  claim_create_request k apiB fpB tB sB = (Ok cB, sB1) -> rc_replay_status cB = None ->
  fst (claim_create_request k apiA fpA tA sA) =
  Err (OC (if String.eqb fpB fpA then IdempotencyInProgress else IdempotencyKeyReuse)).
Proof.
  intros HfA HfB Hd HrB HrA Ht Hrun Hc.
  pose proof (claim_lease _ _ _ _ _ _ _ HfB HrB Hrun Hc) as Hl.
  destruct (lease_row _ _ _ _ _ _ Hl) as (r1 & Hk1 & Hl1 & <- & _ & _).
  apply (claim_loses k apiA fpA tA sA _ r1 rest HfA HrA Hk1 Hl1).
  destruct Hl as [api Hk lease id|r Hk Hfp Hrc lease]; rewrite Hd in *; rewrite Hk; [done|].
  cbn in Hk1. rewrite lookup_insert_eq in Hk1. injection Hk1 as <-. cbn.
  unfold reclaimable in Hrc. bool_props. split_and!; [done|done|].
  by apply claim_expiry_after, Ht.
Qed.

(** ** Final outcomes *)

(** One transaction of a worker claiming or releasing, or of the sweep; each
    without interference. *)
Inductive claim_step : DB -> DB -> Prop :=
| claim_step_claim s k api fp t :
    fresh_session s -> st_races s = [] ->
    claim_step (st_committed s) (st_committed (snd (claim_create_request k api fp t s)))
| claim_step_release s u key c :
    fresh_session s -> st_races s = [] ->
    claim_step (st_committed s) (st_committed (snd (release_failed_session_preparation u key c s)))
| claim_step_sweep s :
    fresh_session s -> st_races s = [] ->
    claim_step (st_committed s)
      (st_committed (snd (session_scope expire_stale_idempotency_keys s))).

Definition tombstoned k r d : Prop :=
  t_idem d !! k = Some r /\ ik_status r = "outcome_unknown".

(** A predicate of both databases without interference. *)
Definition quiet (P : DB -> Prop) s : Prop := both P s /\ st_races s = [].

Lemma quiet_inv P s : quiet P s -> db_inv P s.
Proof. intros [Hb Hr]. split; [done|]. unfold races_keep. rewrite Hr. by intros f ?%elem_of_nil. Qed.

Lemma tombstone_insert j r0 k r d :
  (forall x, t_idem d !! j = Some x -> ik_status x <> "outcome_unknown") ->
  tombstoned k r d -> tombstoned k r (on_idem (fun m => <[j := r0]> m) d).
Proof.
  intros Hj [Hk Hs]. split; [|done]. cbn. rewrite lookup_insert_ne; [done|].
  intros ->. by apply (Hj r).
Qed.

Lemma reclaim_keeps_tombstone j e now lease k r :
  Keeps (db_inv (tombstoned k r)) (reclaim_update (W := W) j e now lease).
Proof.
  intros s Hs. unfold reclaim_update, get_create_request. rewrite bind_db_peek.
  destruct (t_idem (st_working s) !! j) as [x|] eqn:E; [|done].
  destruct (reclaimable _ _ _ _) eqn:Er; [|done].
  rewrite bind_db_modify, bind_db_flush. destruct Hs as [[Hc Hw] Hr]. split; [|done].
  split; [done|]. cbn. apply tombstone_insert; [|done]. intros y Hy. simplify_eq.
  unfold reclaimable in Er. bool_props. intros Hst. rewrite Hst in *. discriminate.
Qed.

#[local] Hint Resolve reclaim_keeps_tombstone : loc.

Lemma insert_new_keeps_tombstone j r0 k r s :
  t_idem (st_working s) !! j = None -> db_inv (tombstoned k r) s ->
  db_inv (tombstoned k r) (snd (db_modify (on_idem (fun m => <[j := r0]> m)) s)).
Proof.
  intros Hn [[Hc Hw] Hr]. split; [|done]. split; [done|]. apply tombstone_insert; [|done].
  intros x Hx. cbn in *. congruence.
Qed.

Lemma claim_keeps_tombstone j api fp t k r :
  Keeps (db_inv (tombstoned k r)) (claim_create_request (W := W) j api fp t).
Proof.
  intros s Hs. unfold claim_create_request, clock_now, new_uuid.
  rewrite bind_tick, bind_db_read. cbn [st_working st_ticks].
  match goal with |- db_inv _ (snd (_ ?s0)) => assert (Hs0 : db_inv (tombstoned k r) s0) by apply Hs;
    destruct (get_create_request j (st_working s)) as [x|] eqn:E; [revert Hs0; generalize s0|] end.
  - match goal with |- forall s0, _ -> db_inv _ (snd (?m s0)) =>
      change (Keeps (db_inv (tombstoned k r)) m) end.
    unfold answer_from_winner. keeps.
  - rewrite bind_tick, bind_db_modify.
    match goal with |- db_inv _ (snd (?m ?s1)) =>
      enough (Hk : Keeps (db_inv (tombstoned k r)) m); [apply Hk|] end.
    + apply (insert_new_keeps_tombstone j _ k r
        (MkSt (st_committed s) (st_working s) false (st_races s) (S (S (st_ticks s))) (st_world s)));
        [exact E|exact Hs0].
    + unfold answer_from_winner. keeps. cbn in *. repeat case_match; simplify_eq. keeps.
Qed.

Lemma release_keeps_tombstone u key c k r :
  Keeps (db_inv (tombstoned k r)) (release_failed_session_preparation (W := W) u key c).
Proof.
  unfold release_failed_session_preparation. destruct (rc_lease_expires_at c) as [lease|]; [|keeps].
  apply keeps_bind; [|intros; keeps]. intros s Hs. unfold release_session_preparation_claim.
  rewrite bind_db_read. cbv zeta. unfold get_create_request. cbn [st_working].
  destruct (t_idem (st_working s) !! _) as [x|] eqn:E; [|apply Hs].
  destruct (_ && _) eqn:Eg; [|apply Hs].
  rewrite bind_db_modify. destruct Hs as [[Hc Hw] Hr]. split; [|done]. split; [done|].
  apply tombstone_insert; [|done]. intros y Hy. cbn in Hy. simplify_eq. bool_props.
  match goal with Hq : String.eqb (ik_status _) _ = true |- _ =>
    apply String.eqb_eq in Hq; by rewrite Hq end.
Qed.

Lemma sweep_keeps_tombstone k r :
  Keeps (db_inv (tombstoned k r)) (session_scope (expire_stale_idempotency_keys (W := W))).
Proof.
  unfold session_scope, expire_stale_idempotency_keys, clock_now. keeps.
  - apply keeps_modify. intros d [Hk Hst]. split; [|done]. cbn. rewrite lookup_fmap, Hk. cbn.
    unfold stale_claim. by rewrite Hst.
  - apply keeps_modify. intros d [Hk Hst]. split; [|done]. cbn.
    apply map_lookup_filter_Some_2; [done|]. unfold dead_claim. cbn. by rewrite Hst.
  - simplify_eq. keeps.
Qed.

Lemma claim_step_tombstone d d1 k r : claim_step d d1 -> tombstoned k r d -> tombstoned k r d1.
Proof.
  intros [s j api fp t Hf Hr|s u key c Hf Hr|s Hf Hr] Ht;
    (assert (Hi : db_inv (tombstoned k r) s);
      [apply quiet_inv; split; [split; [done|by rewrite Hf]|done]|]).
  - apply (claim_keeps_tombstone j api fp t k r s Hi).
  - apply (release_keeps_tombstone u key c k r s Hi).
  - apply (sweep_keeps_tombstone k r s Hi).
Qed.

Lemma tombstone_replays k r api fp t s status :
  fresh_session s -> tombstoned k r (st_committed s) -> ik_http_status r = Some status ->
  fst (claim_create_request k api fp t s) =
  if String.eqb (ik_request_fingerprint r) fp
  then Ok (MkCreateRequestClaim (ik_broker_request_id r) (Some status)
             (Some (or_else (ik_response_payload r) [])) None)
  else Err (OC IdempotencyKeyReuse).
Proof.
  intros Hf [Hk Hs] Hh. unfold claim_create_request, clock_now. rewrite bind_tick, bind_db_read.
  cbn [st_working]. unfold get_create_request at 1. rewrite Hf, Hk.
  unfold claim_from_existing. rewrite Hs, Hh. cbn.
  by destruct (String.eqb (ik_request_fingerprint r) fp).
Qed.

End claims.

(** ** The properties *)

(** C15: at most one of two workers racing for a create request obtains its
    claim.  If, between a worker's read of the claim row and its write, another
    worker's claim of the same key obtained the lease, then the first worker's
    claim raises [IdempotencyInProgress], or [IdempotencyKeyReuse] when the two
    requests differ, and never a second lease.  For operations other than
    preparations the lease taken must outlast the one it replaced. *)
Theorem concurrent_claims_exclude {W} {R : Runtime} (k : idem_key) (apiA apiB : uuid)
    (fpA fpB : string) (tA tB : Z) (sA sB : St DB W) (cB : CreateRequestClaim) (sB1 : St DB W)
    (rest : list (option (DB -> DB))) :
  fresh_session sA -> fresh_session sB -> st_committed sB = st_committed sA ->
  st_races sB = [] -> st_races sA = Some (fun _ => st_committed sB1) :: rest ->
  (forall r, t_idem (st_committed sA) !! k = Some r -> snd (fst k) = "sessions.prepare" \/
     dt_us (ik_expires_at r) < dt_us (rt_now (st_ticks sB)) + 1000000 * tB) ->
  claim_create_request k apiB fpB tB sB = (Ok cB, sB1) -> rc_replay_status cB = None ->
  fst (claim_create_request k apiA fpA tA sA) =
  Err (OC (if String.eqb fpB fpA then IdempotencyInProgress else IdempotencyKeyReuse)).
Proof. apply claims_exclude. Qed.

Definition demo_key : idem_key := (7%N, "jobs.create", "k1").

(** A database with an expired claim of [demo_key]. *)
Definition demo_idem : DB :=
  on_idem (fun m => <[demo_key := MkPaymentIdempotencyKey 1%N "fp" "broker-1" "expired" None None
    None (DT 5 true)]> m) db_empty.

Definition demo_idem_state (races : list (option (DB -> DB))) : St DB unit :=
  MkSt demo_idem demo_idem false races 0%nat tt.

Lemma concurrent_claims_exclude_witness :
  let runB := claim_create_request (R := demo_runtime) demo_key 1%N "fp" 60 (demo_idem_state []) in
  rc_broker_request_id <$> (match fst runB with Ok c => Some c | Err _ => None end) =
    Some "broker-1" /\
  fst (claim_create_request (R := demo_runtime) demo_key 1%N "fp" 60
    (demo_idem_state [Some (fun _ => st_committed (snd runB))])) =
  Err (OC IdempotencyInProgress).
Proof.
  split; [vm_compute; reflexivity|].
  apply (concurrent_claims_exclude (R := demo_runtime) demo_key 1%N 1%N "fp" "fp" 60 60
    (demo_idem_state [Some (fun _ => st_committed (snd (claim_create_request (R := demo_runtime)
       demo_key 1%N "fp" 60 (demo_idem_state []))))])
    (demo_idem_state [])
    (match fst (claim_create_request (R := demo_runtime) demo_key 1%N "fp" 60 (demo_idem_state []))
     with Ok c => c | Err _ => MkCreateRequestClaim "" None None None end)
    (snd (claim_create_request (R := demo_runtime) demo_key 1%N "fp" 60 (demo_idem_state []))) []).
  - reflexivity.
  - reflexivity.
  - reflexivity.
  - reflexivity.
  - reflexivity.
  - intros r Hr. right. vm_compute in Hr. injection Hr as <-. vm_compute. reflexivity.
  - vm_compute. reflexivity.
  - vm_compute. reflexivity.
Defined.

(** C16: an indeterminate payer outcome is permanent: whatever claims, releases
    and expiry sweeps follow, the tombstone stays as it was written, and every
    later claim of its key is answered from it - the stored response, or
    [IdempotencyKeyReuse] for a different request - so an old key never mints
    again. *)
Theorem unknown_outcome_is_permanent {W} {R : Runtime} (d d1 : DB) (k : idem_key)
    (r : PaymentIdempotencyKey) (status : Z) :
  rtc (claim_step (W := W)) d d1 -> t_idem d !! k = Some r ->
  ik_status r = "outcome_unknown" -> ik_http_status r = Some status ->
  t_idem d1 !! k = Some r /\
  forall api fp t (s : St DB W), fresh_session s -> st_committed s = d1 ->
    fst (claim_create_request k api fp t s) =
    if String.eqb (ik_request_fingerprint r) fp
    then Ok (MkCreateRequestClaim (ik_broker_request_id r) (Some status)
               (Some (or_else (ik_response_payload r) [])) None)
    else Err (OC IdempotencyKeyReuse).
Proof.
  intros Hs Hk Hst Hh. assert (Ht : tombstoned k r d1).
  { assert (tombstoned k r d) as Ht by done. clear Hk.
    induction Hs; eauto using claim_step_tombstone. }
  split; [apply Ht|]. intros api fp t s Hf <-. by apply tombstone_replays.
Qed.

Definition demo_tombstone : PaymentIdempotencyKey :=
  MkPaymentIdempotencyKey 1%N "fp" "broker-1" "outcome_unknown" (Some 503) None None (DT 5 true).

Lemma unknown_outcome_is_permanent_witness :
  let d := on_idem (fun m => <[demo_key := demo_tombstone]> m) db_empty in
  let s := MkSt d d false [] 0%nat tt in
  t_idem (st_committed (snd (session_scope (expire_stale_idempotency_keys (R := demo_runtime)) s)))
    !! demo_key = Some demo_tombstone.
Proof.
  intros d s.
  apply (unknown_outcome_is_permanent (W := unit) (R := demo_runtime) d _ demo_key demo_tombstone
    503); [|vm_compute; reflexivity|reflexivity|reflexivity].
  apply rtc_once. by apply (claim_step_sweep (R := demo_runtime) s).
Defined.

(** An authorization that is issued states only facts of the selected route:
    it was requested for a caller proof key, with the route's payee, price,
    quote, protocol, broker and settlement domain, and what the daemon returned
    carries exactly that scope; a failure issues nothing. *)
Theorem authorization_is_route_locked {W} {P : ProtoCodec}
    {D : PaymentDaemonClient W} {L : PaymentDaemonSpec D} (route : SelectedRoute)
    (auth req sess : string) (digest key : bytes) (debit units : Z) (nb ea : datetime)
    (chain : Z) (acct : string) (rev : Z) (pred : string) (s : St DB W) :
  pd_ok (st_world s) ->
  match issue_route_locked_authorization route auth req sess digest key debit units nb ea chain
          acct rev pred s with
  | (Ok (q, r), s1) =>
      key <> [] /\
      (exists payee, eth_address_to_bytes (ro_eth_address route) = Ok payee /\
        q = route_locked_request route payee auth req sess digest key debit units nb ea chain acct
              rev pred) /\
      validate_spend_authorization_response q r = Ok r /\ sp_authorization_id r = auth /\
      st_committed s1 = st_committed s
  | (Err e, s1) => st_committed s1 = st_committed s
  end.
Proof.
  intros Hok. unfold issue_route_locked_authorization. rewrite bind_guard.
  destruct (bytes_truthy key) eqn:Ek; [|done]. rewrite bind_lift.
  destruct (eth_address_to_bytes (ro_eth_address route)) as [payee|] eqn:Ep; [|done]. cbv zeta.
  unfold bind, remote. destruct (pd_create_spend_authorization _ _) as [[r|e] w] eqn:Er; [|done].
  cbn. apply pd_authorization_scope in Er as [Hv Hid]; [|done]. split_and!; try done; [|eauto].
  unfold bytes_truthy in Ek. by bool_props.
Qed.

(** An authorization request, and a codec that reads back its payload. *)
Definition demo_authorization : CreateSpendAuthorizationRequest :=
  route_locked_request demo_route (repeat "034"%byte 20) "auth" "req" "" (repeat x01 32)
    (repeat x02 33) 90 30 (DT 0 true) (DT 60000000 true) 42161 "acct" 0 "".

Definition demo_codec : ProtoCodec := {|
  px_encode_authorization _ _ := [];
  px_decode_authorization _ :=
    match spend_authorization_request_to_proto demo_authorization with
    | Ok proto => Some (expected_authorization_payload proto mock_payer, repeat x00 65)
    | Err _ => None
    end;
  px_payment_sender _ := None;
|}.

Lemma authorization_is_route_locked_witness :
  let issue := issue_route_locked_authorization (D := MockClient (R := demo_runtime) (P := demo_codec))
    demo_route "auth" "req" "" (repeat x01 32) (repeat x02 33) 90 30 (DT 0 true)
    (DT 60000000 true) 42161 "acct" 0 "" (MkSt db_empty db_empty false [] 0%nat mock_empty) in
  match issue with
  | (Ok (q, r), s1) => q = demo_authorization /\ sp_authorization_id r = "auth"
  | _ => False
  end.
Proof.
  intros issue.
  pose proof (authorization_is_route_locked (P := demo_codec)
    (D := MockClient (R := demo_runtime) (P := demo_codec))
    (L := MockSpec (R := demo_runtime) (P := demo_codec))
    demo_route "auth" "req" "" (repeat x01 32) (repeat x02 33) 90 30 (DT 0 true)
    (DT 60000000 true) 42161 "acct" 0 "" (MkSt db_empty db_empty false [] 0%nat mock_empty)
    mock_empty_ok) as Hi.
  fold issue in Hi. destruct issue as [[[q r]|e] s1] eqn:E.
  - destruct Hi as (_ & (payee & Hp & ->) & _ & Hid & _). split; [|exact Hid].
    vm_compute in Hp. injection Hp as <-. reflexivity.
  - vm_compute in E. discriminate E.
Defined.
