(* ===== verification/SessionCore.v ===== *)
(** * Engagements: rows, grants and the state machine

    The first part of [domains/sessions/service.py]: the life cycle of a
    [payment_session] row, which paid jobs share, the grants signed for it, the
    durable claim that holds the customer's credit, and the release of claims
    that never obtained an authorization. *)

From S2P Require Import Prelude PyData DecimalCtx Errors Effects Store Pricing Settings Billing.
From S2P Require Import SettlementVerification PaymentDaemon Registry Payments.

Open Scope string_scope.
Open Scope Z_scope.
Open Scope loc_scope.

(** ** The state machine *)

Definition SESSION_STATE_OPEN : string := "open".
Definition SESSION_STATE_DRAINING : string := "draining".
Definition SESSION_STATE_CLOSED : string := "closed".

Definition SESSION_STATES : list string :=
  [SESSION_STATE_OPEN; SESSION_STATE_DRAINING; SESSION_STATE_CLOSED].

(** [_ALLOWED_TRANSITIONS]. *)
Definition allowed_transitions (from_state : string) : list string :=
  if String.eqb from_state SESSION_STATE_OPEN
  then [SESSION_STATE_DRAINING; SESSION_STATE_CLOSED]
  else if String.eqb from_state SESSION_STATE_DRAINING then [SESSION_STATE_CLOSED]
  else [].

Definition PAID_SESSION_PROTOCOL : string := "paid-session/v1".

Definition invalid_request (message : string) : exn := OC (InvalidSessionRequest message).
Definition unverified (reason : string) : exn :=
  OC (SessionSettlementVerificationFailed reason).

(** [_bill_value_wei]. *)
Definition bill_value_wei (units amount_wei per_units : Z) : res Z :=
  let? _ := require (1 <=? per_units) (ValueError "per_units must be positive") in
  Ok ((units * amount_wei + per_units - 1) / per_units).

(** ** Rows *)

Definition update_session (id : uuid) (f : PaymentSession -> PaymentSession) (d : DB) : DB :=
  on_session (alter f id) d.

Definition sessions (d : DB) : list PaymentSession := map snd (map_to_list (t_session d)).

(** The wholesale engagement of one create request. *)
Definition is_engagement (user_id : uuid) (broker_request_id : string) (r : PaymentSession) : bool :=
  N.eqb (ps_user_id r) user_id
  && bool_decide (ps_broker_request_id r = Some broker_request_id)
  && String.eqb (ps_accounting_mode r) "wholesale_account".

Definition find_engagement (user_id : uuid) (broker_request_id : string) (d : DB)
  : option PaymentSession :=
  List.find (is_engagement user_id broker_request_id) (sessions d).

Definition grant_by_id (session_id : uuid) (authorization_id : string)
    (g : SpendAuthorizationGrant) : bool :=
  N.eqb (sg_session_id g) session_id && String.eqb (sg_authorization_id g) authorization_id.

Definition find_grant (session_id : uuid) (authorization_id : string) (d : DB)
  : option SpendAuthorizationGrant :=
  List.find (grant_by_id session_id authorization_id) (t_grant d).

Definition grant_by_revision (session_id : uuid) (revision : Z) (g : SpendAuthorizationGrant)
  : bool := N.eqb (sg_session_id g) session_id && (sg_revision g =? revision).

Definition find_revision (session_id : uuid) (revision : Z) (d : DB)
  : option SpendAuthorizationGrant :=
  List.find (grant_by_revision session_id revision) (t_grant d).

Definition update_grant (session_id : uuid) (authorization_id : string)
    (f : SpendAuthorizationGrant -> SpendAuthorizationGrant) (d : DB) : DB :=
  on_grant (update_first (grant_by_id session_id authorization_id) f) d.

(** [_normalized_utc]. *)
Definition normalized_utc (value : datetime) : datetime := dt_assume_utc value.

Definition opt_truthy (s : string) : option string := if str_truthy s then Some s else None.

(** [_require_authorizable]. *)
Definition require_authorizable (engagement : PaymentSession) (revision : Z) : res unit :=
  let? _ := require (String.eqb (ps_accounting_mode engagement) "wholesale_account")
    (invalid_request "legacy engagement cannot record an authorization") in
  require (negb ((revision =? 0) && negb (String.eqb (ps_state engagement) SESSION_STATE_OPEN)))
    (OC EngagementClosed).

(** The replay comparison of [record_spend_authorization_grant]. *)
Definition grant_matches (g : SpendAuthorizationGrant) (q : CreateSpendAuthorizationRequest)
    (r : CreateSpendAuthorizationResponse) (domain : string) : bool :=
  String.eqb (sg_authorization_id g) (sq_authorization_id q)
  && bool_decide (sg_predecessor_authorization_id g
                  = opt_truthy (sq_predecessor_authorization_id q))
  && String.eqb (sg_request_id g) (sq_request_id q)
  && String.eqb (sg_request_digest g) (bytes_hex (sq_request_digest q))
  && String.eqb (sg_caller_public_key g) (bytes_hex (sq_caller_public_key q))
  && bool_decide (sg_authorization_bytes g = sp_authorization_bytes r)
  && String.eqb (sg_protocol g) (sq_protocol q)
  && String.eqb (str_removeprefix "0x" (sg_payer_eth_address g)) (bytes_hex (sp_payer r))
  && (sg_chain_id g =? sq_chain_id q)
  && String.eqb (sg_settlement_domain_id g) domain
  && String.eqb (sg_wholesale_account_id g) (sq_wholesale_account_id q)
  && String.eqb (sg_denomination g) (sq_denomination q)
  && (sg_max_debit_wei g =? sq_max_debit_wei q)
  && (sg_max_total_units g =? sq_max_total_units q)
  && (dt_us (normalized_utc (sg_not_before g)) =? dt_us (sq_not_before q))
  && (dt_us (normalized_utc (sg_expires_at g)) =? dt_us (sq_expires_at q)).

(** The grant row of a signed authorization. *)
Definition issued_grant (engagement_id : uuid) (snapshot : dict) (domain : string)
    (q : CreateSpendAuthorizationRequest) (r : CreateSpendAuthorizationResponse)
  : SpendAuthorizationGrant :=
  MkSpendAuthorizationGrant engagement_id (sq_authorization_id q) (sq_revision q)
    (opt_truthy (sq_predecessor_authorization_id q)) (sq_request_id q)
    (bytes_hex (sq_request_digest q)) (bytes_hex (sq_caller_public_key q))
    (sp_authorization_bytes r) (sq_protocol q) snapshot ("0x" ++ bytes_hex (sp_payer r))
    (sq_chain_id q) (sq_wholesale_account_id q) domain (sq_denomination q) (sq_max_debit_wei q)
    (sq_max_total_units q) (sq_not_before q) (sq_expires_at q) "issued" None.

(** The pricing every new wholesale engagement pins. *)
Definition pass_through_pricing (work_unit : string) : CustomerPricingSnapshot :=
  MkPricing "wholesale-pass-through" WholesalePassThrough work_unit None None None.

(** A new row breaks a unique constraint of [payment_session]: its key, or
    [uq_payment_session_user_broker_request]. *)
Definition session_conflicts (row : PaymentSession) (d : DB) : bool :=
  bool_decide (is_Some (t_session d !! ps_id row))
  || bool_decide (is_Some (ps_broker_request_id row))
     && existsb (fun r => N.eqb (ps_user_id r) (ps_user_id row)
                          && bool_decide (ps_broker_request_id r = ps_broker_request_id row))
          (sessions d).

(** ... or of [spend_authorization_grant] and the [authorization_id] column. *)
Definition grant_conflicts (g : SpendAuthorizationGrant) (d : DB) : bool :=
  existsb (fun x => String.eqb (sg_authorization_id x) (sg_authorization_id g)
                    || grant_by_revision (sg_session_id g) (sg_revision g) x) (t_grant d)
  || existsb (fun r => negb (N.eqb (ps_id r) (sg_session_id g))
                       && bool_decide (ps_authorization_id r = Some (sg_authorization_id g)))
       (sessions d).

(** The columns a new engagement row starts from. *)
Definition new_session (id user_id api_key_id : uuid) (work_id capability offering protocol : string)
    (route_snapshot : option dict) (broker_request_id : option string)
    (estimated_units max_total_units funded_value_wei : Z) (now : datetime)
    (sdk_identity : option string) (accounting_mode : string) (customer_pricing : option dict)
    (customer_max_debit_wei : option Z) : PaymentSession :=
  MkPaymentSession id user_id api_key_id work_id capability offering protocol accounting_mode
    customer_pricing customer_max_debit_wei None route_snapshot broker_request_id
    SESSION_STATE_OPEN estimated_units max_total_units funded_value_wei None None None None
    sdk_identity now None 0 0 None None 0 None.

(** The replay comparison of [claim_wholesale_engagement]. *)
Definition same_engagement_scope (r : PaymentSession) (api_key_id : uuid) (route : SelectedRoute)
    (snapshot : dict) (estimated_units max_total_units max_debit_wei : Z) (pricing : dict)
  : bool :=
  N.eqb (ps_api_key_id r) api_key_id
  && String.eqb (ps_capability r) (ro_capability route)
  && String.eqb (ps_offering r) (ro_offering route)
  && String.eqb (ps_protocol r) (ro_protocol route)
  && opt_dict_eqb (ps_route_snapshot r) (Some snapshot)
  && (ps_estimated_units r =? estimated_units)
  && (ps_max_total_units r =? max_total_units)
  && bool_decide (ps_customer_max_debit_wei r = Some max_debit_wei)
  && opt_dict_eqb (ps_customer_pricing r) (Some pricing).

(** A claimed engagement that may still be released. *)
Definition releasable (r : PaymentSession) : bool :=
  String.eqb (ps_accounting_mode r) "wholesale_account"
  && String.eqb (ps_state r) SESSION_STATE_OPEN
  && bool_decide (ps_authorization_id r = None)
  && bool_decide (is_Some (ps_customer_max_debit_wei r)).

Definition released (now : datetime) (r : PaymentSession) : PaymentSession :=
  set_ps_outcome (Some "NOT_ADMITTED") (set_ps_billed_value_wei (Some 0)
    (set_ps_actual_units (Some 0) (set_ps_closed_at (Some now)
      (set_ps_state SESSION_STATE_CLOSED r)))).

Section core.
Context {W : Type} {R : Runtime}.
Local Abbreviation M := (M DB W).

(** [get_session] and [get_session_by_work_id]. *)
Definition get_session (id : uuid) : M (option PaymentSession) :=
  d <- db_read ;; ret (t_session d !! id).

Definition later_opened (a b : PaymentSession) : bool :=
  dt_us (ps_opened_at b) <? dt_us (ps_opened_at a).

Definition get_session_by_work_id (work_id : string) : M (option PaymentSession) :=
  d <- db_read ;;
  ret (head (sort_by later_opened
               (List.filter (fun r => String.eqb (ps_work_id r) work_id) (sessions d)))).

(** [transition_state]. *)
Definition transition_state (session_id : uuid) (from_state to_state : string)
  : M PaymentSession :=
  guard (str_elem from_state SESSION_STATES && str_elem to_state SESSION_STATES)
    InvalidSessionState ;;;
  guard (str_elem to_state (allowed_transitions from_state)) InvalidSessionTransition ;;;
  d <- db_read ;;
  row <- lift (of_option (t_session d !! session_id) SessionNotFound) ;;
  closed_at <- (if String.eqb to_state SESSION_STATE_CLOSED
                then now <- clock_now ;; ret (Some now) else ret (ps_closed_at row)) ;;
  guard (String.eqb (ps_state row) from_state) InvalidSessionTransition ;;;
  let moved r := set_ps_closed_at closed_at (set_ps_state to_state r) in
  db_modify (update_session session_id moved) ;;;
  db_flush ;;;
  ret (moved row).

(** [record_settlement]. *)
Definition record_settlement (session_id : uuid) (event_type : string)
    (actual_units billed_value_wei : option Z) (outcome : option string)
    (raw_record : option dict) : M PaymentSettlement :=
  now <- clock_now ;;
  let row := MkPaymentSettlement session_id now event_type actual_units billed_value_wei outcome
               raw_record in
  db_modify (on_settlement (fun l => l ++ [row])%list) ;;;
  db_flush ;;;
  ret row.

(** [mark_polled]. *)
Definition mark_polled (session_id : uuid) : M unit :=
  d <- db_read ;;
  match t_session d !! session_id with
  | None => ret tt
  | Some _ =>
      now <- clock_now ;;
      db_modify (update_session session_id (set_ps_last_polled_at (Some now))) ;;;
      db_flush
  end.

(** [record_spend_authorization_grant]. *)
Definition record_spend_authorization_grant (engagement_id user_id : uuid) (route : SelectedRoute)
    (domain : string) (q : CreateSpendAuthorizationRequest)
    (r : CreateSpendAuthorizationResponse) : M SpendAuthorizationGrant :=
  d <- db_read ;;
  engagement <- lift (of_option (t_session d !! engagement_id) SessionNotFound) ;;
  guard (N.eqb (ps_user_id engagement) user_id) SessionNotFound ;;;
  lift (require_authorizable engagement (sq_revision q)) ;;;
  guard (str_truthy domain) (invalid_request "authorization settlement domain is required") ;;;
  guard (String.eqb domain (ro_settlement_domain_id route)
         && String.eqb domain (sq_settlement_domain_id q))
    (invalid_request "authorization settlement domain changed") ;;;
  snapshot <- lift (route_snapshot route) ;;
  guard (opt_dict_eqb (ps_route_snapshot engagement) (Some snapshot))
    (invalid_request "authorization route differs from locked engagement") ;;;
  guard (String.eqb (sp_authorization_id r) (sq_authorization_id q))
    (invalid_request "authorization signer changed identity") ;;;
  guard (String.eqb (sq_session_id q)
           (if String.eqb (sq_protocol q) PAID_SESSION_PROTOCOL
            then str_uuid engagement_id else ""))
    (invalid_request "authorization session identity changed") ;;;
  guard (negb ((sq_revision q =? 0)
               && negb (bool_decide (ps_broker_request_id engagement = Some (sq_request_id q)))))
    (invalid_request "authorization request identity changed") ;;;
  match find_revision engagement_id (sq_revision q) d with
  | Some existing =>
      guard (grant_matches existing q r domain)
        (invalid_request "authorization revision replay changed scope") ;;;
      ret existing
  | None =>
      (if 0 <? sq_revision q then
         predecessor <- lift (of_option
             (find_grant engagement_id (sq_predecessor_authorization_id q) d)
             (invalid_request "authorization predecessor is not retained")) ;;
         guard (String.eqb (sg_wholesale_account_id predecessor) (sq_wholesale_account_id q))
           (invalid_request "authorization revision changed wholesale account")
       else ret tt) ;;;
      let grant := issued_grant engagement_id snapshot domain q r in
      guard (negb (grant_conflicts grant d)) IntegrityErr ;;;
      db_modify (fun d =>
        update_session engagement_id
          (fun row => set_ps_work_id (sq_authorization_id q)
             (set_ps_authorization_id (Some (sq_authorization_id q)) row))
          (on_grant (fun l => l ++ [grant])%list d)) ;;;
      db_flush ;;;
      ret grant
  end.

(** Retiring a grant, keeping an earlier retirement time. *)
Definition retire (state : string) (now : datetime) (g : SpendAuthorizationGrant)
  : SpendAuthorizationGrant :=
  set_sg_retired_at (Some (or_else (sg_retired_at g) now)) (set_sg_state state g).

(** [mark_spend_authorization_settled]. *)
Definition mark_spend_authorization_settled (engagement_id : uuid) (authorization_id : string)
  : M SpendAuthorizationGrant :=
  d <- db_read ;;
  grant <- lift (of_option (find_grant engagement_id authorization_id d)
    (unverified "missing_authorization")) ;;
  guard (str_elem (sg_state grant) ["issued"; "admitted"; "settled"])
    (unverified "authorization_state_conflict") ;;;
  now <- (match sg_retired_at grant with Some t => ret t | None => clock_now end) ;;
  db_modify (update_grant engagement_id authorization_id (retire "settled" now)) ;;;
  db_flush ;;;
  ret (retire "settled" now grant).

(** One grant of [mark_spend_authorization_operator_resolved]: the state and
    retirement time it gets. *)
Definition operator_resolve (g : SpendAuthorizationGrant) : M (string * datetime) :=
  if str_elem (sg_state g) ["settled"; "expired_unused"; "superseded"; "operator_resolved"] then
    now <- (match sg_retired_at g with Some t => ret t | None => clock_now end) ;;
    ret (sg_state g, now)
  else
    guard (bool_decide (sg_retired_at g = None)
           && str_elem (sg_state g) ["issued"; "admitted"; "outcome_unknown"])
      (unverified "authorization_state_conflict") ;;;
    now <- clock_now ;;
    ret ("operator_resolved", now).

Definition earlier_revision (a b : SpendAuthorizationGrant) : bool := sg_revision a <? sg_revision b.

(** [mark_spend_authorization_operator_resolved]. *)
Definition mark_spend_authorization_operator_resolved (engagement_id : uuid)
    (authorization_id : string) : M SpendAuthorizationGrant :=
  d <- db_read ;;
  let grants := sort_by earlier_revision
    (List.filter (fun g => N.eqb (sg_session_id g) engagement_id) (t_grant d)) in
  guard (existsb (fun g => String.eqb (sg_authorization_id g) authorization_id) grants)
    (unverified "missing_authorization") ;;;
  mfold (fun (_ : unit) g =>
    '(state, now) <- operator_resolve g ;;
    db_modify (update_grant engagement_id (sg_authorization_id g) (retire state now))) tt grants ;;;
  db_flush ;;;
  d' <- db_peek ;;
  lift (of_option (find_grant engagement_id authorization_id d')
    (unverified "missing_authorization")).

(** [create_session].  The INSERT is flushed here, so this is where a unique
    constraint fails, against a stored row or against a concurrent one. *)
Definition create_session (user_id api_key_id : uuid)
    (work_id capability offering protocol : string) (route_snapshot : option dict)
    (broker_request_id : option string) (estimated_units max_total_units funded_value_wei : Z)
    (sdk_identity : option string) (accounting_mode : string) (customer_pricing : option dict)
    (customer_max_debit_wei : option Z) (session_id : option uuid) : M PaymentSession :=
  now <- clock_now ;;
  id <- (match session_id with Some id => ret id | None => new_uuid end) ;;
  let row := new_session id user_id api_key_id work_id capability offering protocol
    route_snapshot broker_request_id estimated_units max_total_units funded_value_wei now
    sdk_identity accounting_mode customer_pricing customer_max_debit_wei in
  d <- db_peek ;;
  guard (negb (session_conflicts row d)) IntegrityErr ;;;
  db_modify (on_session (fun m => <[id := row]> m)) ;;;
  db_race ;;;
  db_flush ;;;
  ret row.

(** The body of [claim_wholesale_engagement]; [again] is its recursive call. *)
Definition claim_engagement_body (again : M PaymentSession) (user_id api_key_id : uuid)
    (route : SelectedRoute) (broker_request_id : string)
    (estimated_units max_total_units max_debit_wei : Z) (sdk_identity : option string)
    (spend_period_seconds spend_period_cap_wei : Z) (gateway_session_id : option uuid)
  : M PaymentSession :=
  d <- db_read ;;
  guard (match gateway_session_id with
         | Some id =>
             match t_session d !! id with
             | Some owner => N.eqb (ps_user_id owner) user_id
                 && bool_decide (ps_broker_request_id owner = Some broker_request_id)
             | None => true
             end
         | None => true
         end) (invalid_request "gateway_session_id is already in use") ;;;
  pricing <- lift (make_pricing (pass_through_pricing (ro_work_unit route))) ;;
  snapshot <- lift (route_snapshot route) ;;
  match find_engagement user_id broker_request_id d with
  | Some existing =>
      guard (same_engagement_scope existing api_key_id route snapshot estimated_units
               max_total_units max_debit_wei (pricing_dump pricing))
        (invalid_request "wholesale engagement replay changed scope") ;;;
      ret existing
  | None =>
      engagement <- create_session user_id api_key_id "" (ro_capability route)
        (ro_offering route) (ro_protocol route) (Some snapshot) (Some broker_request_id)
        estimated_units max_total_units max_debit_wei sdk_identity "wholesale_account"
        (Some (pricing_dump pricing)) (Some max_debit_wei) gateway_session_id ;;
      encumber_customer_engagement user_id (ps_id engagement) max_debit_wei
        spend_period_seconds spend_period_cap_wei ;;;
      try_except (db_commit ;;; ret engagement)
        (fun e => match e with
                  | IntegrityErr => Some (
                      db_rollback ;;;
                      d' <- db_read ;;
                      match find_engagement user_id broker_request_id d' with
                      | None => raise IntegrityErr
                      | Some _ => again
                      end)
                  | _ => None
                  end)
  end.

(** [claim_wholesale_engagement]: the recursive call finds the winner it was
    made for, so it does not recurse again. *)
Definition claim_wholesale_engagement (user_id api_key_id : uuid)
    (route : SelectedRoute) (broker_request_id : string)
    (estimated_units max_total_units max_debit_wei : Z) (sdk_identity : option string)
    (spend_period_seconds spend_period_cap_wei : Z) (gateway_session_id : option uuid)
  : M PaymentSession :=
  let body again := claim_engagement_body again user_id api_key_id route broker_request_id
    estimated_units max_total_units max_debit_wei sdk_identity spend_period_seconds
    spend_period_cap_wei gateway_session_id in
  body (body (raise (RuntimeErr "maximum recursion depth exceeded"))).

(** [release_unauthorized_engagement]. *)
Definition release_unauthorized_engagement (engagement_id : uuid) : M bool :=
  d <- db_read ;;
  match t_session d !! engagement_id with
  | Some engagement =>
      match releasable engagement, ps_customer_max_debit_wei engagement with
      | true, Some hold =>
          release_customer_engagement (ps_user_id engagement) (ps_id engagement) hold ;;;
          now <- clock_now ;;
          db_modify (update_session engagement_id (released now)) ;;;
          db_commit ;;;
          ret true
      | _, _ => db_rollback ;;; ret false
      end
  | None => db_rollback ;;; ret false
  end.

Definition earlier_opened (a b : PaymentSession) : bool :=
  dt_us (ps_opened_at a) <? dt_us (ps_opened_at b).

(** [release_stale_unauthorized_engagements]. *)
Definition release_stale_unauthorized_engagements (older_than_seconds : Z) (limit : nat) : M Z :=
  now <- clock_now ;;
  let cutoff := dt_add_seconds now (- older_than_seconds) in
  d <- db_read ;;
  let candidates := take limit (sort_by earlier_opened (List.filter (fun r =>
      String.eqb (ps_accounting_mode r) "wholesale_account"
      && String.eqb (ps_state r) SESSION_STATE_OPEN
      && bool_decide (ps_authorization_id r = None)
      && (dt_us (ps_opened_at r) <? dt_us cutoff)) (sessions d))) in
  db_rollback ;;;
  mfold (fun count id =>
    ok <- release_unauthorized_engagement id ;;
    ret (if ok : bool then count + 1 else count)) 0 (map ps_id candidates).

Context {D : PaymentDaemonClient W}.

(** [issue_initial_authorization_or_release], over the issuing call. *)
Definition issue_initial_authorization_or_release {A} (engagement : PaymentSession)
    (issue : M A) : M A :=
  guard (String.eqb (ps_state engagement) SESSION_STATE_OPEN) (OC EngagementClosed) ;;;
  try_except issue (fun e =>
    match e with
    | SpendAuthorizationRefused m => Some (
        release_unauthorized_engagement (ps_id engagement) ;;;
        raise (OC (AuthorizationRefused m)))
    | _ => None
    end).

(** [_issue_revision_authorization]. *)
Definition issue_revision_authorization {A} (issue : M A) : M A :=
  try_except issue (fun e =>
    match e with
    | SpendAuthorizationRefused m => Some (raise (OC (AuthorizationRefused m)))
    | _ => None
    end).

End core.
