(* ===== verification/SessionSettle.v ===== *)
(** * Engagements: settlement and reconciliation

    The last part of [domains/sessions/service.py]: closing a session on the
    broker's signed terminal settlement, replaying a close, and the two
    reconciliation passes.  The telemetry the code emits beside them is outside
    the modelled tables. *)

From S2P Require Import Prelude PyData DecimalCtx Errors Effects Store Pricing Billing.
From S2P Require Import SettlementVerification BrokerSettlement Registry SessionCore.

Open Scope string_scope.
Open Scope Z_scope.
Open Scope loc_scope.

(** [CloseSessionResponse]. *)
Record CloseSessionResponse := MkCloseSession {
  cs_session_id : uuid;
  cs_work_id : string;
  cs_actual_units : Z;
  cs_billed_value_wei : Z;
  cs_refund_wei : Z;
  cs_outcome : string;
  cs_closed_at : datetime;
}.

(** [_infer_close_outcome]. *)
Definition infer_close_outcome (funded billed : Z) : string :=
  if funded <? billed then "UNDERFUNDED" else if billed <? funded then "OVERFUNDED" else "EXACT".

(** [str(d[k])] and [int(d[k])] of a JSON column. *)
Definition dict_str {R : Runtime} (k : string) (d : dict) : res string :=
  match dget k d with
  | None => Err KeyError
  | Some (JStr s) => Ok s
  | Some j => Ok (rt_repr j)
  end.
Definition dict_int (k : string) (d : dict) : res Z :=
  match dget k d with
  | None => Err KeyError
  | Some (JInt z) => Ok z
  | Some (JBool b) => Ok (if b then 1 else 0)
  | Some (JStr s) => of_option (int_of_str s) (ValueError "int")
  | Some _ => Err TypeError
  end.

(** The settlement keys pinned in a snapshot; empty or absent ones are no
    delegation. *)
Fixpoint as_dicts (l : list json) : option (list dict) :=
  match l with
  | [] => Some []
  | JObj d :: l' => r ← as_dicts l'; Some (d :: r)
  | _ => None
  end.
Definition pinned_keys (snapshot : dict) : res (list json) :=
  match dget "settlement_keys" snapshot with
  | Some (JArr (k :: l)) => Ok (k :: l)
  | _ => Err (unverified "missing_delegation")
  end.

(** [settlement["payload"]["authorization_id"]] when it is a non-empty string. *)
Definition settled_authorization (settlement : dict) : option string :=
  match dget "payload" settlement with
  | Some (JObj payload) =>
      match dget "authorization_id" payload with
      | Some (JStr s) => opt_truthy s
      | _ => None
      end
  | _ => None
  end.

Section settle.
Context {W : Type} {R : Runtime} {L : SettlementLib}.
Local Abbreviation M := (M DB W).

(** The expectation [_verify_close_settlement] builds from the row, its pinned
    route and the grant. *)
Definition close_expectation (row : PaymentSession) (snapshot : dict) (amount_wei : Z)
    (predecessor_work_id : string) (grant : SpendAuthorizationGrant) (require_terminal : bool)
  : res SessionSettlementExpectation :=
  let? work_unit := dict_str "work_unit" snapshot in
  let? per_units := dict_int "units_per_price" snapshot in
  let? quote_id := dict_str "quote_id" snapshot in
  let? quote_version := dict_int "quote_version" snapshot in
  let? constraint := dict_str "constraint_fingerprint" snapshot in
  let? constraint_fingerprint := of_option (bytes_fromhex constraint) (ValueError "fromhex") in
  let? route := dict_str "route_fingerprint" snapshot in
  let? route_fingerprint := of_option (bytes_fromhex route) (ValueError "fromhex") in
  Ok (MkSessionExpectation (sg_wholesale_account_id grant) (sg_settlement_domain_id grant)
        (str_uuid (ps_id row)) (ps_broker_session_id row) (sg_authorization_id grant)
        predecessor_work_id (ps_rotation_generation row) work_unit amount_wei per_units quote_id
        quote_version constraint_fingerprint route_fingerprint (ps_funded_value_wei row)
        (ps_last_settlement_seq row) (Some (sg_authorization_id grant))
        (Some (sg_max_debit_wei grant)) require_terminal).

Definition close_failure (e : exn) : exn :=
  unverified (match e with SettlementVerificationErr code => code | _ => "invalid_snapshot" end).

(** [_verify_close_settlement]. *)
Definition verify_close_settlement (row : PaymentSession) (settlement : option dict)
    (require_terminal : bool) : M VerifiedSessionSettlement :=
  settlement <- lift (of_option settlement (unverified "missing_settlement")) ;;
  guard (match dget "signature" settlement with None | Some JNull => false | _ => true end)
    (unverified "missing_signature") ;;;
  let snapshot := or_else (ps_route_snapshot row) [] in
  delegated <- lift (pinned_keys snapshot) ;;
  predecessor <- lift (
    if 0 <? ps_rotation_generation row then
      match ps_predecessor_work_id row with
      | Some w => if str_truthy w then Ok w else Err (unverified "missing_rotation_predecessor")
      | None => Err (unverified "missing_rotation_predecessor")
      end
    else Ok "") ;;
  hint <- lift (of_option (settled_authorization settlement)
                  (unverified "missing_authorization")) ;;
  d <- db_read ;;
  grant <- lift (of_option (find_grant (ps_id row) hint d)
                   (unverified "missing_authorization")) ;;
  amount <- lift (dict_int "price_per_work_unit_wei" snapshot) ;;
  lift (remap is_shape_error close_failure
    (let? e := close_expectation row snapshot amount predecessor grant require_terminal in
     let? keys := of_option (as_dicts delegated) AttributeError in
     verify_session_settlement settlement keys e)).

Definition is_close_event (session_id : uuid) (t : PaymentSettlement) : bool :=
  N.eqb (pt_session_id t) session_id && String.eqb (pt_event_type t) "close".

(** [_replay_closed_session]. *)
Definition replay_closed_session (row : PaymentSession) (settlement : option dict)
    (actual_units : Z) (outcome : option string) : M CloseSessionResponse :=
  d <- db_read ;;
  let not_open := OC (SessionNotOpen (ps_state row)) in
  previous <- lift (of_option (List.find (is_close_event (ps_id row)) (t_settlement d)) not_open) ;;
  guard (bool_decide (is_Some settlement) && opt_dict_eqb (pt_raw_record previous) settlement
         && bool_decide (ps_actual_units row = Some actual_units)
         && (bool_decide (outcome = None) || bool_decide (outcome = ps_outcome row))) not_open ;;;
  closed_at <- lift (of_option (ps_closed_at row) AssertionError) ;;
  units <- lift (of_option (ps_actual_units row) AssertionError) ;;
  billed <- lift (of_option (ps_billed_value_wei row) AssertionError) ;;
  hold <- lift (of_option (ps_customer_max_debit_wei row) AssertionError) ;;
  final <- lift (of_option (ps_outcome row) AssertionError) ;;
  ret (MkCloseSession (ps_id row) (ps_work_id row) units billed (Z.max (dsub hold billed) 0) final
         closed_at).

(** [_require_retired_successors]. *)
Definition require_retired_successors (row : PaymentSession) (authorization_id : string)
  : M unit :=
  d <- db_read ;;
  let grants := List.filter (fun g => N.eqb (sg_session_id g) (ps_id row)) (t_grant d) in
  settled <- lift (of_option
    (List.find (fun g => String.eqb (sg_authorization_id g) authorization_id) grants)
    (RuntimeErr "coroutine raised StopIteration")) ;;
  match List.find (fun g =>
      negb (sg_revision g <=? sg_revision settled)
      && (negb (str_elem (sg_state g) ["canceled_unused"; "expired_unused"])
          || bool_decide (sg_retired_at g = None))) grants with
  | Some g => raise (OC (SuccessorAuthorizationUnresolved (str_uuid (ps_id row))
                           (sg_authorization_id g)))
  | None => ret tt
  end.

(** The diagnostics a close records. *)
Definition close_diagnostics (v : VerifiedSessionSettlement) : dict :=
  let entry k (o : option string) : dict :=
    match o with Some s => [(k, JStr s)] | None => [] end in
  entry "termination_reason" (vs_termination_reason v)
  ++ entry "output_state" (vs_output_state v)
  ++ entry "output_state_since" (rt_isoformat <$> vs_output_state_since v)
  ++ entry "last_failure_code" (vs_last_failure_code v).

Definition close_breakdown (v : VerifiedSessionSettlement) (prior : option dict) : option dict :=
  let cleared := dpop "settlement_block" (or_else prior []) in
  let final := match close_diagnostics v with
               | [] => cleared
               | diagnostics => dset "broker_diagnostics" (JObj diagnostics) cleared
               end in
  if bool_decide (final = []) then None else Some final.

(** The columns a close finalizes. *)
Definition close_columns (v : VerifiedSessionSettlement) (billed : Z) (outcome : string)
    (r : PaymentSession) : PaymentSession :=
  set_ps_breakdown (close_breakdown v (ps_breakdown r))
    (set_ps_last_settlement_seq (vs_settlement_seq v)
      (set_ps_broker_session_id (Some (vs_broker_session_id v))
        (set_ps_outcome (Some outcome)
          (set_ps_billed_value_wei (Some billed)
            (set_ps_actual_units (Some (vs_debited_units v)) r))))).

Definition bind_authorization (authorization_id : string) (r : PaymentSession) : PaymentSession :=
  set_ps_work_id authorization_id (set_ps_authorization_id (Some authorization_id) r).

(** The customer's final charge and refund under the pinned pricing. *)
Definition customer_bill (row : PaymentSession) (v : VerifiedSessionSettlement) : res (Z * Z) :=
  let? pricing := of_option (ps_customer_pricing row) (unverified "missing_customer_pricing") in
  let? hold := of_option (ps_customer_max_debit_wei row) (unverified "missing_customer_pricing") in
  let? policy := pricing_validate pricing in
  let? billed := calculate_customer_charge policy (vs_debited_units v) (vs_billed_value_wei v) in
  let? _ := require (negb (hold <? billed)) (unverified "customer_cap_exceeded") in
  Ok (billed, dsub hold billed).

(** The first half of [close_session]: everything checked before the row moves. *)
Definition close_checks (row : PaymentSession) (actual_units : Z) (outcome : option string)
    (settlement : option dict) : M (VerifiedSessionSettlement * Z * Z * string) :=
  v <- verify_close_settlement row settlement true ;;
  guard (actual_units =? vs_debited_units v) (unverified "work_units_mismatch") ;;;
  require_retired_successors row (vs_work_id v) ;;;
  '(billed, refund) <- lift (customer_bill row v) ;;
  let final := if String.eqb (vs_outcome v) "SETTLEMENT_OUTCOME_UNSPECIFIED"
               then infer_close_outcome (ps_funded_value_wei row) billed else vs_outcome v in
  guard (match outcome with Some o => String.eqb o final | None => true end)
    (unverified "outcome_mismatch") ;;;
  ret (v, billed, refund, final).

(** The second half: the row closes, the unused hold is released, the grant is
    settled and the event is appended. *)
Definition close_apply (session_id user_id : uuid) (row : PaymentSession)
    (settlement : dict) (v : VerifiedSessionSettlement) (billed refund : Z) (final : string)
  : M CloseSessionResponse :=
  moved <- transition_state session_id (ps_state row) SESSION_STATE_CLOSED ;;
  (if 0 <? refund then
     release_customer_engagement user_id (ps_id row) refund ;;; ret tt
   else ret tt) ;;;
  db_modify (update_session session_id (close_columns v billed final)) ;;;
  authorization_id <- lift (of_option (settled_authorization settlement)
                              (unverified "missing_authorization")) ;;
  db_modify (update_session session_id (bind_authorization authorization_id)) ;;;
  mark_spend_authorization_settled (ps_id row) authorization_id ;;;
  db_flush ;;;
  record_settlement session_id "close" (Some (vs_debited_units v)) (Some billed) (Some final)
    (Some settlement) ;;;
  closed_at <- lift (of_option (ps_closed_at moved) AssertionError) ;;
  ret (MkCloseSession (ps_id row) authorization_id (vs_debited_units v) billed (Z.max refund 0)
         final closed_at).

(** [close_session]. *)
Definition close_session (session_id user_id : uuid) (actual_units : Z) (outcome : option string)
    (settlement : option dict) : M CloseSessionResponse :=
  d <- db_read ;;
  row <- lift (of_option (t_session d !! session_id) SessionNotFound) ;;
  guard (N.eqb (ps_user_id row) user_id) SessionNotFound ;;;
  if String.eqb (ps_state row) SESSION_STATE_CLOSED
  then replay_closed_session row settlement actual_units outcome
  else
    guard (String.eqb (ps_accounting_mode row) "wholesale_account")
      (unverified "legacy_accounting_disabled") ;;;
    '(v, billed, refund, final) <- close_checks row actual_units outcome settlement ;;
    record <- lift (of_option settlement AssertionError) ;;
    close_apply session_id user_id row record v billed refund final.

(** ** Reconciling grants with the broker *)

Context {B : BrokerAccountClient W}.

Definition live_states : list string := ["issued"; "admitted"; "outcome_unknown"].

Definition sa_terminal (s : SpendAuthorizationState) : bool :=
  match s with
  | SA_SETTLED | SA_EXPIRED_UNUSED | SA_CANCELED_UNUSED | SA_SUPERSEDED => true
  | _ => false
  end.

(** The zero-use evidence a release of an unused grant needs, before the
    account is consulted. *)
Definition unused_evidence (g : SpendAuthorizationGrant) (o : SpendAuthorizationObservation)
  : bool :=
  (so_actual_units o =? 0) && (so_billed_value_wei o =? 0) && (so_reserved_value_wei o =? 0)
  && negb (String.eqb (sg_state g) "admitted")
  && negb (bool_decide (so_state o = SA_EXPIRED_UNUSED)
           && (dt_us (so_observed_at o) <? dt_us (normalized_utc (sg_expires_at g)))).

(** The pinned account answers for exactly the grant's coordinates. *)
Definition account_matches_grant (g : SpendAuthorizationGrant) (payee : string)
    (a : WholesaleAccountObservation) : bool :=
  String.eqb (ao_wholesale_account_id a) (sg_wholesale_account_id g)
  && String.eqb (ao_settlement_domain_id a) (sg_settlement_domain_id g)
  && String.eqb (ao_payer a) (str_lower (sg_payer_eth_address g))
  && String.eqb (ao_payee a) (str_lower payee)
  && (ao_chain_id a =? sg_chain_id g)
  && String.eqb (ao_denomination a) (sg_denomination g).

(** The monotonicity rule on receiver states. *)
Definition may_advance (state : string) (next : SpendAuthorizationState) : bool :=
  negb (String.eqb (sa_state_str next) state)
  && negb (String.eqb state "admitted"
           && (bool_decide (next = SA_ISSUED) || bool_decide (next = SA_EXPIRED_UNUSED)))
  && negb (String.eqb state "outcome_unknown" && negb (sa_terminal next)).

Definition is_account_error (e : exn) : bool :=
  match e with BrokerWholesaleAccountErr _ => true | _ => false end.

(** [try: ... except <errors>: continue], the loop's skip as [None]. *)
Definition or_skip {A} (caught : exn -> bool) (m : M A) : M (option A) :=
  try_except (a <- m ;; ret (Some a)) (fun e => if caught e then Some (ret None) else None).

(** What the receiver currently says of the grant, when it answers for it. *)
Definition observe_grant (g : SpendAuthorizationGrant) (broker_url : string)
  : M (option SpendAuthorizationObservation) :=
  payee <- lift (dict_str "eth_address" (sg_route_snapshot g)) ;;
  observed <- or_skip is_account_error (remote (ba_get_spend_authorization broker_url
    (sg_payer_eth_address g) (sg_authorization_id g) (sg_wholesale_account_id g) payee
    (sg_settlement_domain_id g))) ;;
  ret (match observed with
       | Some o =>
           if String.eqb (so_wholesale_account_id o) (sg_wholesale_account_id g)
              && String.eqb (so_payer o) (str_lower (sg_payer_eth_address g))
              && String.eqb (so_authorization_id o) (sg_authorization_id g)
           then Some o else None
       | None => None
       end).

(** Whether an unused release is supported by the pinned account. *)
Definition unused_confirmed (g : SpendAuthorizationGrant) (broker_url : string)
    (o : SpendAuthorizationObservation) : M bool :=
  if negb (unused_evidence g o) then ret false
  else
    account <- or_skip (fun e => is_account_error e || match e with KeyError => true | _ => false end)
      (payee <- lift (dict_str "eth_address" (sg_route_snapshot g)) ;;
       a <- remote (ba_get_wholesale_account broker_url (sg_payer_eth_address g) payee
              (sg_chain_id g) (sg_settlement_domain_id g) (sg_wholesale_account_id g)) ;;
       ret (a, payee)) ;;
    ret (match account with
         | Some (a, payee) => account_matches_grant g payee a
         | None => false
         end).

(** The tail of the loop body: the state moves and terminal states retire. *)
Definition advance_grant (g : SpendAuthorizationGrant) (o : SpendAuthorizationObservation)
    (changed : Z) : M Z :=
  if negb (may_advance (sg_state g) (so_state o)) then ret changed
  else
    (if sa_terminal (so_state o) then
       now <- (match sg_retired_at g with Some t => ret t | None => clock_now end) ;;
       db_modify (update_grant (sg_session_id g) (sg_authorization_id g)
         (retire (sa_state_str (so_state o)) now))
     else
       db_modify (update_grant (sg_session_id g) (sg_authorization_id g)
         (set_sg_state (sa_state_str (so_state o))))) ;;;
    ret (changed + 1).

(** One iteration of [reconcile_spend_authorization_states]. *)
Definition reconcile_grant (changed : Z) (stale : SpendAuthorizationGrant) : M Z :=
  d <- db_read ;;
  match find_grant (sg_session_id stale) (sg_authorization_id stale) d with
  | None => ret changed
  | Some g =>
      if negb (str_elem (sg_state g) live_states) then ret changed
      else match dget "broker_url" (sg_route_snapshot g) with
      | Some (JStr broker_url) =>
          if negb (str_truthy broker_url) then ret changed
          else
            observed <- observe_grant g broker_url ;;
            match observed with
            | None => ret changed
            | Some o =>
                confirmed <- (match so_state o with
                              | SA_CANCELED_UNUSED | SA_EXPIRED_UNUSED =>
                                  unused_confirmed g broker_url o
                              | _ => ret true
                              end) ;;
                if confirmed : bool then advance_grant g o changed else ret changed
            end
      | _ => ret changed
      end
  end.

Definition reconcilable (d : DB) (g : SpendAuthorizationGrant) : bool :=
  str_elem (sg_state g) live_states
  && match t_session d !! sg_session_id g with
     | Some r => String.eqb (ps_accounting_mode r) "wholesale_account"
     | None => false
     end.

(** [reconcile_spend_authorization_states]. *)
Definition reconcile_spend_authorization_states (batch_limit : nat) : M Z :=
  d <- db_read ;;
  changed <- mfold reconcile_grant 0
    (take batch_limit (List.filter (reconcilable d) (t_grant d))) ;;
  db_flush ;;;
  ret changed.

(** ** The session janitor *)

Context {S : BrokerSettlementClient W}.

Definition is_query_error (e : exn) : bool :=
  match e with BrokerSettlementQueryErr _ => true | _ => false end.

(** [signature.value] of an envelope, if any. *)
Definition signature_value (settlement : dict) : json :=
  match dget "signature" settlement with
  | Some (JObj s) => or_else (dget "value" s) JNull
  | _ => JNull
  end.

(** The same record already failed against this snapshot. *)
Definition already_blocked (row : PaymentSession) (signature : json) : bool :=
  match dget "settlement_block" (or_else (ps_breakdown row) []) with
  | Some (JObj block) =>
      json_eqb (or_else (dget "signature" block) JNull) signature
      && json_eqb (or_else (dget "policy" block) JNull) (JStr "authorization-exhaustion-v1")
  | _ => false
  end.

Definition settlement_block (reason : string) (signature : json) (first last : datetime)
    (breakdown : option dict) : option dict :=
  Some (dset "settlement_block" (JObj
    [("policy", JStr "authorization-exhaustion-v1"); ("reason", JStr reason);
     ("signature", signature); ("first_seen", JStr (rt_isoformat first));
     ("last_seen", JStr (rt_isoformat last)); ("attempts", JInt 1)]) (or_else breakdown [])).

(** [exc.details.get("reason", "unknown")] of a verification failure. *)
Definition verification_failure (e : exn) : option string :=
  match e with OC (SessionSettlementVerificationFailed reason) => Some reason | _ => None end.

Definition close_skips (e : exn) : bool :=
  match e with
  | OC x => str_elem (oc_code x) ["session_not_open"; "successor_authorization_unresolved"]
  | _ => false
  end.

(** Recording that a record failed verification. *)
Definition block_settlement (row : PaymentSession) (signature : json) (reason : string) : M unit :=
  first <- clock_now ;;
  last <- clock_now ;;
  db_modify (update_session (ps_id row)
    (fun r => set_ps_breakdown (settlement_block reason signature first last (ps_breakdown r)) r)) ;;;
  db_flush.

(** Verifying a fetched record and closing on a terminal one; returns whether
    the session was finalized. *)
Definition finalize_session (row : PaymentSession) (settlement : dict) : M bool :=
  let signature := signature_value settlement in
  if already_blocked row signature then ret false
  else
    outcome <- try_except (v <- verify_close_settlement row (Some settlement) false ;; ret (inl v))
      (fun e => match verification_failure e with
                | Some reason => Some (ret (inr reason))
                | None => None
                end) ;;
    match outcome with
    | inr reason =>
        (if String.eqb reason "settlement_replay" then ret tt
         else block_settlement row signature reason) ;;;
        ret false
    | inl v =>
        if negb (String.eqb (vs_state v) "closed") then ret false
        else
          closed <- or_skip close_skips (close_session (ps_id row) (ps_user_id row)
                      (vs_debited_units v) None (Some settlement)) ;;
          ret (match closed with Some _ => true | None => false end)
    end.

(** [snapshot.get("broker_url", snapshot.get("worker_url"))]. *)
Definition snapshot_broker_url (snapshot : dict) : option json :=
  match dget "broker_url" snapshot with
  | Some j => Some j
  | None => dget "worker_url" snapshot
  end.

(** One iteration of [reconcile_open_sessions]. *)
Definition reconcile_session (finalized : Z) (id : uuid) : M Z :=
  d <- db_peek ;;
  match t_session d !! id with
  | None => ret finalized
  | Some row =>
      match snapshot_broker_url (or_else (ps_route_snapshot row) []) with
      | Some (JStr broker_url) =>
          if negb (str_truthy broker_url) then ret finalized
          else
            fetched <- or_skip is_query_error (remote (bs_get_settlement broker_url id)) ;;
            match fetched with
            | None => ret finalized
            | Some settlement =>
                mark_polled id ;;;
                match settlement with
                | None => ret finalized
                | Some record =>
                    done <- finalize_session row record ;;
                    ret (if done : bool then finalized + 1 else finalized)
                end
            end
      | _ => ret finalized
      end
  end.

Definition polled_before (a b : PaymentSession) : bool :=
  match ps_last_polled_at a, ps_last_polled_at b with
  | None, Some _ => true
  | Some x, Some y => dt_us x <? dt_us y
  | _, None => false
  end.

Definition due_session (cutoff : datetime) (r : PaymentSession) : bool :=
  String.eqb (ps_protocol r) PAID_SESSION_PROTOCOL
  && String.eqb (ps_accounting_mode r) "wholesale_account"
  && str_elem (ps_state r) [SESSION_STATE_OPEN; SESSION_STATE_DRAINING]
  && match ps_last_polled_at r with None => true | Some t => dt_us t <? dt_us cutoff end.

(** [reconcile_open_sessions]. *)
Definition reconcile_open_sessions (interval_seconds : Z) (batch_limit : nat) : M Z :=
  now <- clock_now ;;
  let cutoff := dt_add_seconds now (- interval_seconds) in
  d <- db_read ;;
  mfold reconcile_session 0
    (map ps_id (take batch_limit
       (sort_by polled_before (List.filter (due_session cutoff) (sessions d))))).

End settle.
