(* ===== verification/SessionPrepare.v ===== *)
(** * Persisted routes and session preparation

    Reading a route snapshot back from its JSON column
    ([RouteSnapshot.model_validate], [_selected_route_from_snapshot]) and the
    signed preparation tokens of [domains/sessions/service.py] that bind a
    session's identity and route before it is opened. *)

From S2P Require Import Prelude PyData Codecs DecimalCtx Errors Effects Store Pricing Settings Billing.
From S2P Require Import SettlementVerification BrokerSettlement PaymentDaemon Registry.
From S2P Require Import Payments SessionCore SessionSettle.
From Stdlib Require Import Strings.Ascii.

Open Scope string_scope.
Open Scope Z_scope.
Open Scope loc_scope.

(** ** Reading a persisted route snapshot *)

(** [_parse_uint64_decimal] and the upper bound of [UInt64Decimal]. *)
Definition uint64_decimal (j : json) : res Z :=
  let bad := ValueError "uint64 decimal" in
  let? n := match j with
    | JInt z => Ok z
    | JStr s =>
        let? _ := require (all_digits s
          && negb (negb (String.eqb s "0") && str_startswith "0" s)) bad in
        of_option (int_of_str s) bad
    | _ => Err bad
    end in
  let? _ := require ((0 <=? n) && (n <=? UINT64_MAX)) bad in
  Ok n.

Definition req_str (k : string) (d : dict) : res string :=
  of_option (as_str (dget k d)) (ValueError k).
Definition req_uint64 (k : string) (d : dict) : res Z :=
  let? j := of_option (dget k d) (ValueError k) in uint64_decimal j.
Definition req_time {R : Runtime} (k : string) (d : dict) : res datetime :=
  let? s := req_str k d in of_option (rt_parse_time s) (ValueError k).

Definition settlement_key_validate {R : Runtime} (j : json) : res SettlementKey :=
  match j with
  | JObj d =>
      let? public_key := req_str "public_key" d in
      let? not_before := req_time "not_before" d in
      let? expires_at := req_time "expires_at" d in
      let? seq := req_uint64 "introduced_in_publication_seq" d in
      let key := MkSettlementKey public_key not_before expires_at seq in
      let? _ := require (settlement_key_ok key) (ValueError "SettlementKey") in
      Ok key
  | _ => Err (ValueError "SettlementKey")
  end.

Definition estimator_validate (j : json) : res WorkUnitEstimator :=
  match j with
  | JObj d =>
      let? id := req_str "id" d in
      let? rounding := req_str "rounding" d in
      let? exactness := req_str "exactness" d in
      let? package := match dget "package" d with
        | None | Some JNull => Ok None
        | Some (JStr s) => Ok (Some s)
        | _ => Err (ValueError "package")
        end in
      let? fixtures := req_str "fixtures" d in
      let? _ := require (str_truthy id && str_truthy rounding && str_truthy exactness
                         && str_truthy fixtures) (ValueError "WorkUnitEstimator") in
      Ok (MkWorkUnitEstimator id rounding exactness package fixtures)
  | _ => Err (ValueError "WorkUnitEstimator")
  end.

Definition opt_field {A} (k : string) (d : dict) (f : json -> res A) : res (option A) :=
  match dget k d with
  | None | Some JNull => Ok None
  | Some j => let? a := f j in Ok (Some a)
  end.

Definition snapshot_keys : list string :=
  ["schema_version"; "broker_url"; "eth_address"; "capability"; "offering"; "protocol";
   "work_unit"; "price_per_work_unit_wei"; "units_per_price"; "quote_id"; "quote_version";
   "constraint_fingerprint"; "route_fingerprint"; "settlement_domain_id"; "settlement_keys";
   "work_unit_estimator"; "job"; "session"; "extra"].

(** A validated [RouteSnapshot]: the fields it shares with a route, and the
    axes it states beside them. *)
Record RouteSnapshot := MkRouteSnapshot {
  sn_route : SelectedRoute;
  sn_job : option JobAxes;
  sn_session : option SessionAxes;
}.

(** [exactly_one_protocol_axis]; the field constraints are in
    [snapshot_fields_ok]. *)
Definition one_protocol_axis (s : RouteSnapshot) : bool :=
  if String.eqb (ro_protocol (sn_route s)) "paid-job/v1"
  then bool_decide (is_Some (sn_job s)) && bool_decide (sn_session s = None)
  else bool_decide (is_Some (sn_session s)) && bool_decide (sn_job s = None).

(** [RouteSnapshot.model_validate]. *)
Definition snapshot_validate {R : Runtime} (d : dict) : res RouteSnapshot :=
  let bad := ValueError "RouteSnapshot" in
  let? _ := require (forallb (fun kv => str_elem (fst kv) snapshot_keys) d) bad in
  let? _ := literal_or "schema_version" d ["route-snapshot/v1"] (Some "route-snapshot/v1") in
  let? broker_url := req_str "broker_url" d in
  let? eth_address := req_str "eth_address" d in
  let? capability := req_str "capability" d in
  let? offering := req_str "offering" d in
  let? protocol := req_str "protocol" d in
  let? work_unit := req_str "work_unit" d in
  let? price := match dget "price_per_work_unit_wei" d with
    | Some (JInt z) => Ok z
    | Some (JStr s) => of_option (int_of_str s) bad
    | _ => Err bad
    end in
  let? units := req_uint64 "units_per_price" d in
  let? quote_id := req_str "quote_id" d in
  let? quote_version := req_uint64 "quote_version" d in
  let? constraint := req_str "constraint_fingerprint" d in
  let? fingerprint := req_str "route_fingerprint" d in
  let? domain := req_str "settlement_domain_id" d in
  let? keys := match dget "settlement_keys" d with
    | Some (JArr l) => res_map settlement_key_validate l
    | _ => Err bad
    end in
  let? estimator := opt_field "work_unit_estimator" d estimator_validate in
  let? job := opt_field "job" d job_axes_validate in
  let? session := opt_field "session" d session_axes_validate in
  let? extra := match dget "extra" d with
    | None => Ok []
    | Some (JObj e) => Ok e
    | _ => Err bad
    end in
  let? _ := require (hex_chars 64 constraint && hex_chars 64 fingerprint) bad in
  let? constraint_fingerprint := of_option (bytes_fromhex constraint) bad in
  let? route_fingerprint := of_option (bytes_fromhex fingerprint) bad in
  let route := MkSelectedRoute broker_url eth_address capability offering price work_unit units
    quote_id quote_version constraint_fingerprint route_fingerprint domain protocol keys
    estimator extra in
  let snapshot := MkRouteSnapshot route job session in
  let? _ := require (snapshot_fields_ok route && one_protocol_axis snapshot) bad in
  Ok snapshot.

(** [_selected_route_from_snapshot]: the route validates its own axes. *)
Definition selected_route_from_snapshot (s : RouteSnapshot) : res SelectedRoute :=
  selected_route_validate (sn_route s).

(** [RouteSnapshot.__eq__]. *)
Definition settlement_key_eqb (a b : SettlementKey) : bool :=
  String.eqb (sk_public_key a) (sk_public_key b)
  && (dt_us (sk_not_before a) =? dt_us (sk_not_before b))
  && (dt_us (sk_expires_at a) =? dt_us (sk_expires_at b))
  && (sk_introduced_in_publication_seq a =? sk_introduced_in_publication_seq b).

Fixpoint list_eqb {A} (eqb : A -> A -> bool) (l k : list A) : bool :=
  match l, k with
  | [], [] => true
  | x :: l', y :: k' => eqb x y && list_eqb eqb l' k'
  | _, _ => false
  end.

Definition opt_eqb {A} (eqb : A -> A -> bool) (a b : option A) : bool :=
  match a, b with
  | None, None => true
  | Some x, Some y => eqb x y
  | _, _ => false
  end.

#[export] Instance WorkUnitEstimator_eq_dec : EqDecision WorkUnitEstimator.
Proof. solve_decision. Defined.

Definition job_axes_eqb (a b : JobAxes) : bool :=
  bool_decide (sorted_transports (ja_transports a) = sorted_transports (ja_transports b))
  && dict_eqb (ja_extra a) (ja_extra b).

Definition session_axes_eqb (a b : SessionAxes) : bool :=
  String.eqb (sx_descriptor_schema a) (sx_descriptor_schema b)
  && String.eqb (sx_attachment a) (sx_attachment b)
  && String.eqb (sx_metering a) (sx_metering b)
  && String.eqb (sx_refill a) (sx_refill b) && dict_eqb (sx_extra a) (sx_extra b).

Definition route_eqb (a b : SelectedRoute) : bool :=
  String.eqb (ro_worker_url a) (ro_worker_url b)
  && String.eqb (ro_eth_address a) (ro_eth_address b)
  && String.eqb (ro_capability a) (ro_capability b)
  && String.eqb (ro_offering a) (ro_offering b)
  && (ro_price_per_work_unit_wei a =? ro_price_per_work_unit_wei b)
  && String.eqb (ro_work_unit a) (ro_work_unit b)
  && (ro_units_per_price a =? ro_units_per_price b)
  && String.eqb (ro_quote_id a) (ro_quote_id b)
  && (ro_quote_version a =? ro_quote_version b)
  && bool_decide (ro_constraint_fingerprint a = ro_constraint_fingerprint b)
  && bool_decide (ro_route_fingerprint a = ro_route_fingerprint b)
  && String.eqb (ro_settlement_domain_id a) (ro_settlement_domain_id b)
  && String.eqb (ro_protocol a) (ro_protocol b)
  && list_eqb settlement_key_eqb (ro_settlement_keys a) (ro_settlement_keys b)
  && bool_decide (ro_work_unit_estimator a = ro_work_unit_estimator b)
  && dict_eqb (ro_extra a) (ro_extra b).

Definition snapshot_eqb (a b : RouteSnapshot) : bool :=
  route_eqb (sn_route a) (sn_route b) && opt_eqb job_axes_eqb (sn_job a) (sn_job b)
  && opt_eqb session_axes_eqb (sn_session a) (sn_session b).

(** [_route_from_persisted_snapshot]: a row without a snapshot does not
    validate. *)
Definition route_from_persisted_snapshot {R : Runtime} (row : PaymentSession)
  : res SelectedRoute :=
  let? d := of_option (ps_route_snapshot row) (ValueError "RouteSnapshot") in
  let? s := snapshot_validate d in
  selected_route_from_snapshot s.

(** ** Preparation tokens *)

Definition PREPARATION_DOMAIN : bytes :=
  (String.list_byte_of_string "loc-session-preparation/v1" ++ [Byte.x00])%list.
Definition PREPARATION_TTL_SECONDS : Z := 300.

(** [PrepareSessionResponse]. *)
Record PrepareSessionResponse := MkPrepareSession {
  pr_gateway_session_id : uuid;
  pr_route_binding : RouteBinding;
  pr_broker_url : string;
  pr_preparation_token : string;
  pr_expires_at : datetime;
}.

(** [token.split(".", 1)]; [None] when there is no dot. *)
Fixpoint split_dot (s : string) : option (string * string) :=
  match s with
  | EmptyString => None
  | String a s' =>
      if Ascii.eqb a "."%char then Some (EmptyString, s')
      else match split_dot s' with
           | Some (x, y) => Some (String a x, y)
           | None => None
           end
  end.

Section preparation.
Context {R : Runtime}.

Definition preparation_signature (raw : bytes) (settings : Settings) : bytes :=
  rt_hmac (String.list_byte_of_string (cfg_session_secret settings))
    (PREPARATION_DOMAIN ++ raw)%list.

(** [_encode_preparation]. *)
Definition encode_preparation (payload : dict) (settings : Settings) : string :=
  let raw := String.list_byte_of_string (json_dumps json_escape_ascii (JObj payload)) in
  str_rstrip_char "="%char (urlsafe_b64encode raw) ++ "."
  ++ bytes_hex (preparation_signature raw settings).

(** [_decode_preparation]. *)
Definition decode_preparation (token : string) (settings : Settings) : res dict :=
  let bad := invalid_request "invalid session preparation token" in
  let? (encoded, supplied) := of_option (split_dot token) bad in
  let? raw := of_option (urlsafe_b64decode (encoded ++ b64_padding encoded)) bad in
  let? signature := of_option (bytes_fromhex supplied) bad in
  let? _ := require (bool_decide (signature = preparation_signature raw settings)) bad in
  match rt_json_loads raw with
  | Some (JObj payload) => Ok payload
  | _ => Err bad
  end.

(** The scope a preparation binds. *)
Definition preparation_scope (gateway_session_id user_id api_key_id : uuid)
    (capability offering descriptor_schema : string) (binding : RouteBinding) : dict :=
  [("user_id", JStr (str_uuid user_id)); ("api_key_id", JStr (str_uuid api_key_id));
   ("gateway_session_id", JStr (str_uuid gateway_session_id));
   ("capability", JStr capability); ("offering", JStr offering);
   ("descriptor_schema", JStr descriptor_schema);
   ("route_binding", JObj (route_binding_dump binding))].

Definition in_scope (payload expected : dict) : bool :=
  forallb (fun kv => match dget (fst kv) payload with
                     | Some v => json_eqb v (snd kv) | None => false end) expected.

Context {W : Type}.
Local Abbreviation M := (M DB W).

(** [_verify_prepared_session]. *)
Definition verify_prepared_session (token : string) (gateway_session_id user_id api_key_id : uuid)
    (capability offering descriptor_schema : string) (route : SelectedRoute)
    (settings : Settings) : M unit :=
  payload <- lift (decode_preparation token settings) ;;
  binding <- lift (route_binding route) ;;
  guard (in_scope payload (preparation_scope gateway_session_id user_id api_key_id capability
                             offering descriptor_schema binding))
    (invalid_request "session preparation scope changed") ;;;
  let bad := invalid_request "invalid session preparation expiry" in
  text <- lift (remap (fun _ => true) (fun _ => bad) (dict_str "expires_at" payload)) ;;
  expires_at <- lift (of_option (rt_fromisoformat text) bad) ;;
  now <- clock_now ;;
  expired <- lift (dt_leb expires_at now) ;;
  guard (negb expired) (invalid_request "session preparation expired").

Context {C : RegistryClient W}.

(** [prepare_session]. *)
Definition prepare_session (user_id api_key_id : uuid)
    (capability offering descriptor_schema : string) (binding : option RouteBinding)
    (settings : Settings) : M PrepareSessionResponse :=
  selected <- select_bound_route capability offering binding ;;
  route <- lift (of_option selected (match binding with
                                     | Some b => OC (RouteBindingMismatch (route_binding_dump b))
                                     | None => OC (NoRouteAvailable capability offering) end)) ;;
  guard (String.eqb (ro_protocol route) PAID_SESSION_PROTOCOL)
    (OC (ProtocolNotSupportedForSession (ro_protocol route))) ;;;
  axes <- lift (route_session route) ;;
  guard (match axes with
         | Some a => String.eqb (sx_descriptor_schema a) descriptor_schema | None => false end)
    (invalid_request "prepared route descriptor schema changed") ;;;
  id <- new_uuid ;;
  now <- clock_now ;;
  let expires_at := dt_add_seconds now PREPARATION_TTL_SECONDS in
  b <- lift (route_binding route) ;;
  let payload := (preparation_scope id user_id api_key_id capability offering descriptor_schema b
                  ++ [("expires_at", JStr (rt_isoformat expires_at))])%list in
  ret (MkPrepareSession id b (ro_worker_url route) (encode_preparation payload settings)
         expires_at).

End preparation.
