(* ===== verification/SessionFlows.v ===== *)
(** * Engagements: opening and refilling sessions

    The middle part of [domains/sessions/service.py]: replenishing the shared
    wholesale account, opening a prepared session, revising its cap, and the
    cap status and session status reads.  The refusal events the code emits run
    in a transaction of their own, outside the modelled tables. *)

From S2P Require Import Prelude PyData DecimalCtx Errors Effects Store Pricing Settings Billing.
From S2P Require Import SettlementVerification BrokerSettlement PaymentDaemon Registry.
From S2P Require Import Wholesale Payments SessionCore SessionSettle SessionPrepare.
From Stdlib Require Import Floats.SpecFloat.
From Stdlib Require Import Strings.Ascii.

Open Scope string_scope.
Open Scope Z_scope.
Open Scope loc_scope.

(** ** Binary floats

    [float] values are IEEE binary64; the only ones here come from
    [float(Decimal)] and literals. *)

Definition float_of_Z (z : Z) : spec_float :=
  match z with
  | Z0 => S754_zero false
  | Zpos p => S754_finite false p 0
  | Zneg p => S754_finite true p 0
  end.

(** [n / d] correctly rounded, for [d > 0]. *)
Definition float_ratio (n d : Z) : spec_float :=
  SFdiv 53 1024 (float_of_Z n) (float_of_Z d).

Definition FLOAT_ONE : spec_float := float_ratio 1 1.
Definition CAP_IMMINENT_THRESHOLD : spec_float := float_ratio 95 100.

(** [min(max(x, 0.0), 1.0)]. *)
Definition clamp01 (x : spec_float) : spec_float :=
  let y := if SFltb x (S754_zero false) then S754_zero false else x in
  if SFltb FLOAT_ONE y then FLOAT_ONE else y.

(** [float(n / d)] of two [Decimal]s. *)
Definition dec_ratio (n d : Z) : res spec_float :=
  if d =? 0 then Err (if n =? 0 then DecimalInvalidOperation else ZeroDivision)
  else let '(a, b) := ddiv n d in Ok (float_ratio a b).

(** ** Responses *)

(** [CapStatus]; the two deferred percentages are always [None]. *)
Record CapStatus := MkCapStatus {
  ca_session_pct_used : spec_float;
  ca_spend_period_pct_used : option spec_float;
  ca_will_refuse_next_refill : bool;
  ca_winddown_reason : option string;
}.

Record CreateSessionResponse := MkCreateSession {
  cr_session_id : uuid;
  cr_request_id : string;
  cr_work_id : string;
  cr_broker_url : string;
  cr_protocol : string;
  cr_session : SessionAxes;
  cr_route_snapshot : dict;
  cr_spend_authorization : string;
  cr_expected_value_wei : Z;
  cr_funded_value_wei : Z;
  cr_refill_endpoint : string;
  cr_close_endpoint : string;
  cr_opened_at : datetime;
}.

Record RefillSessionResponse := MkRefillSession {
  rs_work_id : string;
  rs_request_id : string;
  rs_refill_seq : Z;
  rs_spend_authorization : string;
  rs_expected_value_wei : Z;
  rs_funded_value_wei : Z;
  rs_cap_status : CapStatus;
}.

Record SessionStatusResponse := MkSessionStatus {
  st_session : PaymentSession;
  st_billed_value_wei : Z;
  st_cap_status : option CapStatus;
}.

Definition refill_endpoint_for (id : uuid) : string :=
  "/v1/sessions/" ++ str_uuid id ++ "/refill".
Definition close_endpoint_for (id : uuid) : string :=
  "/v1/sessions/" ++ str_uuid id ++ "/close".

(** [ActiveWholesaleAccountRoute], with its field constraints. *)
Record ActiveWholesaleAccountRoute := MkActiveRoute {
  ac_route_snapshot : RouteSnapshot;
  ac_payer_eth_address : string;
  ac_chain_id : Z;
  ac_settlement_domain_id : string;
  ac_wholesale_account_id : string;
  ac_denomination : string;
}.

Definition make_active_route (a : ActiveWholesaleAccountRoute) : res ActiveWholesaleAccountRoute :=
  let? _ := require (hex_pattern 40 (ac_payer_eth_address a) && (0 <? ac_chain_id a)
                     && is_ok (validate_wholesale_account_id (ac_wholesale_account_id a))
                     && hex_pattern 64 (ac_settlement_domain_id a)
                     && String.eqb (ac_denomination a) "wei")
              (ValueError "ActiveWholesaleAccountRoute") in
  Ok a.

(** The coordinates active routes are grouped by. *)
Definition route_identity : Type := Z * string * string * string * string * string.

Definition active_identity (g : SpendAuthorizationGrant) (payee : string) : route_identity :=
  (sg_chain_id g, sg_payer_eth_address g, str_lower payee, sg_settlement_domain_id g,
   sg_wholesale_account_id g, sg_denomination g).

(** [dict.setdefault] on an insertion-ordered dict. *)
Fixpoint set_default {K V} `{EqDecision K} (k : K) (v : V) (l : list (K * V)) : list (K * V) :=
  match l with
  | [] => [(k, v)]
  | (k', v') :: l' =>
      if decide (k' = k) then (k', v') :: l' else (k', v') :: set_default k v l'
  end.

Definition operator_limits (settings : Settings) : WholesaleFundingLimits :=
  MkLimits (cfg_wholesale_target_available_wei settings)
    (cfg_wholesale_replenish_below_wei settings)
    (cfg_wholesale_max_available_per_payee_wei settings)
    (cfg_wholesale_max_aggregate_available_wei settings)
    (cfg_wholesale_max_single_funding_wei settings).

(** Value and units minted for a session, refused envelopes excluded. *)
Definition session_payments (session_id : uuid) (d : DB) : list Payment :=
  List.filter (fun p => bool_decide (py_session_id p = Some session_id)
                        && negb (String.eqb (py_status p) "refused")) (t_payment d).

Section flows.
Context {W : Type} {R : Runtime}.
Local Abbreviation M := (M DB W).

(** [_session_billed_so_far_wei] and [_session_funded_units]. *)
Definition session_billed_so_far_wei (session_id : uuid) : M Z :=
  d <- db_read ;; ret (dsum (map py_expected_value_wei (session_payments session_id d))).
Definition session_funded_units (session_id : uuid) : M Z :=
  d <- db_read ;; ret (sum_by py_work_units_requested (session_payments session_id d)).

(** [_project_next_refusal]. *)
Definition project_next_refusal (session_pct : spec_float)
    (session_remaining_wei next_mint_value_wei : Z) (spend_period_pct : option spec_float)
    (session_units_exhausted : bool) : bool * option string :=
  if session_units_exhausted then (true, Some "session_cap_imminent")
  else if SFleb CAP_IMMINENT_THRESHOLD session_pct
          && (session_remaining_wei <? next_mint_value_wei)
  then (true, Some "session_cap_imminent")
  else match spend_period_pct with
       | Some p => if SFleb CAP_IMMINENT_THRESHOLD p
                   then (true, Some "spend_period_cap_imminent") else (false, None)
       | None => (false, None)
       end.

(** The spend-period percentage of [_compute_cap_status]. *)
Definition spend_period_pct (user_id : uuid) (cfg : ResolvedBillingConfig)
  : M (option spec_float) :=
  let cap := rbc_spend_period_cap_wei cfg in
  if 0 <? cap then
    room <- remaining_window_room user_id (rbc_spend_period_seconds cfg) cap ;;
    match room with
    | Fin r => pct <- lift (dec_ratio (dsub cap r) cap) ;; ret (Some (clamp01 pct))
    | _ => raise DecimalInvalidOperation
    end
  else ret None.

(** [_compute_cap_status]. *)
Definition compute_cap_status (row : PaymentSession) (user_id : uuid)
    (next_mint_value_wei : Z) (session_units_exhausted : bool) (cfg : ResolvedBillingConfig)
  : M CapStatus :=
  billed <- (match ps_billed_value_wei row with
             | Some b => ret b
             | None => session_billed_so_far_wei (ps_id row)
             end) ;;
  pct <- lift (dec_ratio billed (ps_funded_value_wei row)) ;;
  let session_pct := clamp01 pct in
  period_pct <- spend_period_pct user_id cfg ;;
  let '(will_refuse, reason) := project_next_refusal session_pct
    (dsub (ps_funded_value_wei row) billed) next_mint_value_wei period_pct
    session_units_exhausted in
  ret (MkCapStatus session_pct period_pct will_refuse reason).

(** [get_session_status]. *)
Definition get_session_status (session_id user_id : uuid) (settings : Settings)
  : M SessionStatusResponse :=
  d <- db_read ;;
  row <- lift (of_option (t_session d !! session_id) SessionNotFound) ;;
  guard (N.eqb (ps_user_id row) user_id) SessionNotFound ;;;
  cap_status <- (if negb (String.eqb (ps_state row) SESSION_STATE_CLOSED) then
      cfg <- resolve_billing_config user_id settings ;;
      units <- session_funded_units session_id ;;
      status <- compute_cap_status row user_id 0 (ps_max_total_units row <=? units) cfg ;;
      ret (Some status)
    else ret None) ;;
  billed <- (match ps_billed_value_wei row with
             | Some b => ret b
             | None => session_billed_so_far_wei session_id
             end) ;;
  ret (MkSessionStatus row billed cap_status).

(** ** Active accounts *)

(** One row of the join in [list_active_wholesale_account_routes]. *)
Definition active_candidate (row : PaymentSession) (grant : SpendAuthorizationGrant)
  : res (route_identity * ActiveWholesaleAccountRoute) :=
  let? snapshot := snapshot_validate (sg_route_snapshot grant) in
  let? persisted := of_option (ps_route_snapshot row)
    (invalid_request "active wholesale route snapshot is unavailable") in
  let? session_snapshot := snapshot_validate persisted in
  let route := sn_route snapshot in
  let? _ := require (String.eqb (ro_protocol route) PAID_SESSION_PROTOCOL
                     && String.eqb (ro_settlement_domain_id route) (sg_settlement_domain_id grant)
                     && snapshot_eqb snapshot session_snapshot)
    (invalid_request "active wholesale route identity is inconsistent") in
  let? candidate := make_active_route (MkActiveRoute snapshot (sg_payer_eth_address grant)
    (sg_chain_id grant) (sg_settlement_domain_id grant) (sg_wholesale_account_id grant)
    (sg_denomination grant)) in
  Ok (active_identity grant (ro_eth_address route), candidate).

Definition smaller_id (a b : PaymentSession) : bool := N.ltb (ps_id a) (ps_id b).

(** The rows of the join, ordered by session id: a session's current grant. *)
Definition active_rows (d : DB) : list (PaymentSession * SpendAuthorizationGrant) :=
  flat_map (fun row =>
    match ps_authorization_id row with
    | Some auth => map (pair row) (List.filter (grant_by_id (ps_id row) auth) (t_grant d))
    | None => []
    end)
    (sort_by smaller_id (List.filter (fun r =>
       String.eqb (ps_protocol r) PAID_SESSION_PROTOCOL
       && String.eqb (ps_accounting_mode r) "wholesale_account"
       && str_elem (ps_state r) [SESSION_STATE_OPEN; SESSION_STATE_DRAINING]) (sessions d))).

(** [list_active_wholesale_account_routes]. *)
Definition list_active_wholesale_account_routes : M (list ActiveWholesaleAccountRoute) :=
  d <- db_read ;;
  candidates <- lift (res_map (fun '(row, grant) => active_candidate row grant) (active_rows d)) ;;
  ret (map snd (fold_left (fun acc '(k, v) => set_default k v acc) candidates [])).

(** ** Funding the shared account *)

Context {B : BrokerAccountClient W} {D : PaymentDaemonClient W}.

Definition nul : string := String (Ascii.ascii_of_nat 0) "".

(** The mint and correlation identities of an unprompted replenishment. *)
Definition auto_mint_identity (o : WholesaleAccountObservation) : string * string :=
  let identity := str_Z (ao_chain_id o) ++ nul ++ ao_payer o ++ nul ++ ao_payee o ++ nul
    ++ ao_settlement_domain_id o ++ nul ++ ao_wholesale_account_id o ++ nul
    ++ ao_denomination o in
  let digest := String.substring 0 32
    (bytes_hex (rt_sha256 (String.list_byte_of_string identity))) in
  ("loc-account:auto:" ++ digest ++ ":" ++ str_Z (ao_version o), "wholesale-account:" ++ digest).

(** [_replenish_wholesale_account]; [mint] is the caller's mint and correlation
    identity, if it has one. *)
Definition replenish_wholesale_account (route : SelectedRoute) (payer_eth_address : string)
    (mint : option (string * option string)) (settings : Settings)
    (required_reservation_wei : option Z) : M WholesaleFundingPlan :=
  observation <- remote (ba_get_wholesale_account (ro_worker_url route) payer_eth_address
    (ro_eth_address route) (cfg_wholesale_chain_id settings) (ro_settlement_domain_id route)
    (cfg_wholesale_account_id settings)) ;;
  let '(mint_request_id, correlation_id) := match mint with
    | Some m => m
    | None => let '(m, c) := auto_mint_identity observation in (m, Some c)
    end in
  base <- lift (make_limits (operator_limits settings)) ;;
  limits <- (match required_reservation_wei with
             | Some required => lift (admission_funding_limits base (Fin required))
             | None => ret base
             end) ;;
  domain <- lift (settlement_domain_id (ro_settlement_domain_id route)) ;;
  plan <- plan_observed_account_shortfall observation domain limits ;;
  funding <- claim_account_funding route observation domain plan limits mint_request_id
    correlation_id WHOLESALE_ACCOUNT_PROTOCOL_VERSION ;;
  now <- clock_now ;;
  complete_account_funding funding route observation domain plan payer_eth_address
    (cfg_wholesale_chain_id settings) now ;;;
  ret plan.

(** The predecessor grant pays from the same scope. *)
Definition same_grant_scope (a b : SpendAuthorizationGrant) : bool :=
  String.eqb (sg_wholesale_account_id a) (sg_wholesale_account_id b)
  && String.eqb (sg_settlement_domain_id a) (sg_settlement_domain_id b)
  && String.eqb (sg_payer_eth_address a) (sg_payer_eth_address b)
  && dict_eqb (sg_route_snapshot a) (sg_route_snapshot b).

(** The receiver's observation of the admitted predecessor. *)
Definition predecessor_admitted (grant predecessor : SpendAuthorizationGrant) (payee : string)
    (o : SpendAuthorizationObservation) (reusable : Z) : bool :=
  String.eqb (so_wholesale_account_id o) (sg_wholesale_account_id grant)
  && String.eqb (so_settlement_domain_id o) (sg_settlement_domain_id grant)
  && String.eqb (so_payee o) payee
  && String.eqb (so_payer o) (sg_payer_eth_address grant)
  && String.eqb (so_authorization_id o) (sg_authorization_id predecessor)
  && bool_decide (so_state o = SA_ADMITTED)
  && (reusable <=? sg_max_debit_wei predecessor)
  && (so_actual_units o <=? sg_max_total_units predecessor).

(** [_session_reservation_requirement]. *)
Definition session_reservation_requirement (grant : SpendAuthorizationGrant) : M Z :=
  match sg_predecessor_authorization_id grant with
  | None => ret (sg_max_debit_wei grant)
  | Some predecessor_id =>
      d <- db_read ;;
      predecessor <- lift (of_option (find_grant (sg_session_id grant) predecessor_id d)
        (policy_err "revision predecessor scope is unavailable")) ;;
      guard (same_grant_scope predecessor grant)
        (policy_err "revision predecessor scope is unavailable") ;;;
      broker_url <- lift (dict_str "broker_url" (sg_route_snapshot grant)) ;;
      payee <- lift (dict_str "eth_address" (sg_route_snapshot grant)) ;;
      observed <- remote (ba_get_spend_authorization broker_url (sg_payer_eth_address grant)
        (sg_authorization_id predecessor) (sg_wholesale_account_id grant) payee
        (sg_settlement_domain_id grant)) ;;
      let reusable := dadd (so_billed_value_wei observed) (so_reserved_value_wei observed) in
      guard (predecessor_admitted grant predecessor payee observed reusable)
        (policy_err "revision predecessor admission is unverified") ;;;
      ret (Z.max (dsub (sg_max_debit_wei grant) reusable) 0)
  end.

Definition funding_failure (e : exn) : option string :=
  match e with
  | WholesaleFundingPolicyErr m | BrokerWholesaleAccountErr m => Some m
  | _ => None
  end.

(** [_replenish_for_request]. *)
Definition replenish_for_request (grant : SpendAuthorizationGrant) (route : SelectedRoute)
    (payer_eth_address mint_request_id correlation_id : string) (settings : Settings)
  : M WholesaleFundingPlan :=
  try_except (
    guard (String.eqb (sg_wholesale_account_id grant) (cfg_wholesale_account_id settings))
      (policy_err "persisted grant account differs from configuration") ;;;
    required <- session_reservation_requirement grant ;;
    plan <- replenish_wholesale_account route payer_eth_address
      (Some (mint_request_id, Some correlation_id)) settings (Some required) ;;
    required' <- session_reservation_requirement grant ;;
    verify_admission_funding_readiness route (sg_payer_eth_address grant) (sg_chain_id grant)
      (sg_wholesale_account_id grant) required' ;;;
    ret plan)
    (fun e => match funding_failure e with
              | Some m => Some (raise (OC (WholesaleFundingUnverified m)))
              | None => None
              end).

(** [replenish_active_wholesale_account]. *)
Definition replenish_active_wholesale_account (candidate : ActiveWholesaleAccountRoute)
    (settings : Settings) : M WholesaleFundingPlan :=
  guard (String.eqb (ac_wholesale_account_id candidate) (cfg_wholesale_account_id settings))
    (invalid_request "active wholesale route changed wholesale account") ;;;
  guard (ac_chain_id candidate =? cfg_wholesale_chain_id settings)
    (invalid_request "active wholesale route changed chain") ;;;
  route <- lift (selected_route_from_snapshot (ac_route_snapshot candidate)) ;;
  guard (String.eqb (ro_settlement_domain_id route) (ac_settlement_domain_id candidate))
    (invalid_request "active wholesale route changed settlement domain") ;;;
  replenish_wholesale_account route (ac_payer_eth_address candidate) None settings None.

(** ** Opening *)

(** What a caller asks for when opening a session. *)
Record OpenSession := MkOpenSession {
  op_user_id : uuid;
  op_api_key_id : uuid;
  op_capability : string;
  op_offering : string;
  op_estimated_runway_units : Z;
  op_max_total_units : Z;
  op_sdk_identity : option string;
  op_descriptor_schema : string;
  op_route_binding : option RouteBinding;
  op_request_id : option string;
  op_workload_request_digest : bytes;
  op_caller_public_key : bytes;
  op_gateway_session_id : uuid;
  op_preparation_token : string;
}.

(** The claim and revision-0 authorization of [_open_wholesale_session], up to
    its commit. *)
Definition authorize_wholesale_session (q : OpenSession) (route : SelectedRoute)
    (max_debit_wei : Z) (request_id : string) (settings : Settings)
    (cfg : ResolvedBillingConfig)
  : M (PaymentSession * CreateSpendAuthorizationResponse * SpendAuthorizationGrant) :=
  row <- claim_wholesale_engagement (op_user_id q) (op_api_key_id q) route request_id
    (op_estimated_runway_units q) (op_max_total_units q) max_debit_wei (op_sdk_identity q)
    (rbc_spend_period_seconds cfg) (rbc_spend_period_cap_wei cfg)
    (Some (op_gateway_session_id q)) ;;
  now <- clock_now ;;
  '(auth_request, auth_response) <- issue_initial_authorization_or_release row
    (issue_route_locked_authorization route ("loc-auth:" ++ request_id) request_id
       (str_uuid (ps_id row)) (op_workload_request_digest q) (op_caller_public_key q)
       max_debit_wei (op_max_total_units q) now
       (dt_add_seconds now (cfg_session_authorization_ttl_seconds settings))
       (cfg_wholesale_chain_id settings) (cfg_wholesale_account_id settings) 0 "") ;;
  domain <- lift (settlement_domain_id (ro_settlement_domain_id route)) ;;
  grant <- record_spend_authorization_grant (ps_id row) (op_user_id q) route domain auth_request
    auth_response ;;
  db_commit ;;;
  ret (row, auth_response, grant).

(** [_open_wholesale_session]. *)
Definition open_wholesale_session (q : OpenSession) (route : SelectedRoute) (axes : SessionAxes)
    (max_debit_wei : Z) (request_id : string) (settings : Settings)
    (cfg : ResolvedBillingConfig) : M CreateSessionResponse :=
  '(row, auth_response, grant) <-
    authorize_wholesale_session q route max_debit_wei request_id settings cfg ;;
  plan <- replenish_for_request grant route ("0x" ++ bytes_hex (sp_payer auth_response))
    ("loc-account:" ++ request_id) (str_uuid (ps_id row)) settings ;;
  snapshot <- lift (route_snapshot route) ;;
  ret (MkCreateSession (ps_id row) request_id ("loc-auth:" ++ request_id) (ro_worker_url route)
         (ro_protocol route) axes snapshot (authorization_b64 auth_response)
         (wp_shortfall_wei plan) (wp_shortfall_wei plan) (refill_endpoint_for (ps_id row))
         (close_endpoint_for (ps_id row)) (ps_opened_at row)).

(** [request_id or str(uuid.uuid4())]. *)
Definition request_id_or_fresh (request_id : option string) : M string :=
  match request_id with
  | Some r => if str_truthy r then ret r else id <- new_uuid ;; ret (str_uuid id)
  | None => id <- new_uuid ;; ret (str_uuid id)
  end.

Context {C : RegistryClient W}.

(** The route checks of [open_session]. *)
Definition session_route_axes (q : OpenSession) (route : SelectedRoute) : res SessionAxes :=
  let? _ := require (String.eqb (ro_protocol route) PAID_SESSION_PROTOCOL)
    (OC (ProtocolNotSupportedForSession (ro_protocol route))) in
  let? _ := require (negb (bool_decide (ro_settlement_keys route = [])))
    (OC (NoSettlementDelegation (op_capability q) (op_offering q))) in
  let? axes := route_session route in
  let? axes := of_option axes (invalid_request "session route declaration is unavailable") in
  let? _ := require (String.eqb (sx_descriptor_schema axes) (op_descriptor_schema q))
    (invalid_request ("offering declares descriptor schema '" ++ sx_descriptor_schema axes
       ++ "'; the client requested '" ++ op_descriptor_schema q ++ "'")) in
  Ok axes.

(** [open_session]; [broker_available] is whether an account client is configured. *)
Definition open_session (q : OpenSession) (broker_available : bool) (settings : Settings)
  : M CreateSessionResponse :=
  request_id <- request_id_or_fresh (op_request_id q) ;;
  guard (negb (op_max_total_units q <? op_estimated_runway_units q))
    (invalid_request "max_total_units must be >= estimated_runway_units") ;;;
  cfg <- resolve_billing_config (op_user_id q) settings ;;
  selected <- select_bound_route (op_capability q) (op_offering q) (op_route_binding q) ;;
  route <- lift (of_option selected (match op_route_binding q with
    | Some b => OC (RouteBindingMismatch (route_binding_dump b))
    | None => OC (NoRouteAvailable (op_capability q) (op_offering q)) end)) ;;
  axes <- lift (session_route_axes q route) ;;
  worst_case <- lift (bill_value_wei (op_max_total_units q) (ro_price_per_work_unit_wei route)
                        (ro_units_per_price route)) ;;
  balance <- get_balance (op_user_id q) ;;
  guard (negb (cb_amount_wei balance <? worst_case))
    (OC (InsufficientCredit (cb_amount_wei balance) worst_case)) ;;;
  verify_prepared_session (op_preparation_token q) (op_gateway_session_id q) (op_user_id q)
    (op_api_key_id q) (op_capability q) (op_offering q) (op_descriptor_schema q) route settings ;;;
  guard broker_available
    (OC (DaemonUnavailable "wholesale-account" "broker account client is unavailable")) ;;;
  open_wholesale_session q route axes worst_case request_id settings cfg.

(** ** Refilling *)

(** What a cap revision moves to: the new wholesale and customer caps, the
    extra hold and the revision number. *)
Definition plan_cap_revision (row : PaymentSession) (route : SelectedRoute)
    (predecessor : SpendAuthorizationGrant) (max_total_units : Z) : res (Z * Z * Z * Z) :=
  let? wholesale_cap := bill_value_wei max_total_units (ro_price_per_work_unit_wei route)
                          (ro_units_per_price route) in
  let unavailable := invalid_request "wholesale customer pricing is unavailable" in
  let? stored := of_option (ps_customer_pricing row) unavailable in
  let? hold := of_option (ps_customer_max_debit_wei row) unavailable in
  let? pricing := pricing_validate stored in
  let? customer_cap := calculate_customer_charge pricing max_total_units wholesale_cap in
  let increment := dsub customer_cap hold in
  let? _ := require (0 <? increment)
    (invalid_request "cap revision did not increase customer exposure") in
  Ok (wholesale_cap, customer_cap, increment, sg_revision predecessor + 1).

Definition current_grant (row : PaymentSession) (settings : Settings)
  : M SpendAuthorizationGrant :=
  current <- lift (of_option (ps_authorization_id row)
    (invalid_request "wholesale session has no current authorization")) ;;
  d <- db_read ;;
  predecessor <- lift (of_option (find_grant (ps_id row) current d)
    (invalid_request "authorization predecessor is unavailable")) ;;
  guard (String.eqb (sg_wholesale_account_id predecessor) (cfg_wholesale_account_id settings))
    (invalid_request "authorization revision changed wholesale account") ;;;
  ret predecessor.

(** The columns a cap revision moves. *)
Definition revise_caps (max_total_units wholesale_cap customer_cap revision : Z)
    (r : PaymentSession) : PaymentSession :=
  set_ps_refill_seq revision
    (set_ps_customer_max_debit_wei (Some customer_cap)
      (set_ps_funded_value_wei wholesale_cap (set_ps_max_total_units max_total_units r))).

(** The new-revision branch of [_refill_wholesale_session], up to its commit. *)
Definition revise_wholesale_session (row : PaymentSession) (user_id : uuid)
    (route : SelectedRoute) (max_total_units : Z) (request_digest : bytes) (request_id : string)
    (settings : Settings) (cfg : ResolvedBillingConfig)
  : M (PaymentSession * SpendAuthorizationGrant) :=
  guard (ps_max_total_units row <? max_total_units)
    (invalid_request "wholesale cap revision must increase max_total_units") ;;;
  predecessor <- current_grant row settings ;;
  '(wholesale_cap, customer_cap, increment, revision) <-
    lift (plan_cap_revision row route predecessor max_total_units) ;;
  increase_customer_engagement_cap user_id (ps_id row) revision increment
    (rbc_spend_period_seconds cfg) (rbc_spend_period_cap_wei cfg) ;;;
  now <- clock_now ;;
  key <- lift (of_option (bytes_fromhex (sg_caller_public_key predecessor))
                 (ValueError "fromhex")) ;;
  '(auth_request, auth_response) <- issue_revision_authorization
    (issue_route_locked_authorization route ("loc-auth:" ++ request_id) request_id
       (str_uuid (ps_id row)) request_digest key wholesale_cap max_total_units now
       (dt_add_seconds now (cfg_session_authorization_ttl_seconds settings))
       (cfg_wholesale_chain_id settings) (cfg_wholesale_account_id settings) revision
       (sg_authorization_id predecessor)) ;;
  domain <- lift (settlement_domain_id (ro_settlement_domain_id route)) ;;
  grant <- record_spend_authorization_grant (ps_id row) user_id route domain auth_request
    auth_response ;;
  let revise := revise_caps max_total_units wholesale_cap customer_cap revision in
  db_modify (update_session (ps_id row) revise) ;;;
  db_commit ;;;
  ret (revise row, grant).

(** [_refill_wholesale_session]. *)
Definition refill_wholesale_session (row : PaymentSession) (user_id : uuid)
    (max_total_units : Z) (request_digest : bytes) (request_id : string)
    (broker_available : bool) (settings : Settings) (cfg : ResolvedBillingConfig)
  : M RefillSessionResponse :=
  guard broker_available
    (OC (DaemonUnavailable "wholesale-account" "broker account client is unavailable")) ;;;
  route <- lift (route_from_persisted_snapshot row) ;;
  axes <- lift (route_session route) ;;
  guard (match axes with Some a => String.eqb (sx_refill a) "extensible" | None => false end)
    (OC RefillNotSupported) ;;;
  d <- db_read ;;
  '(row', grant) <- (match find_grant (ps_id row) ("loc-auth:" ++ request_id) d with
    | None => revise_wholesale_session row user_id route max_total_units request_digest
                request_id settings cfg
    | Some g =>
        guard (String.eqb (sg_request_id g) request_id
               && (sg_max_total_units g =? max_total_units)
               && String.eqb (sg_request_digest g) (bytes_hex request_digest))
          (invalid_request "authorization revision replay changed scope") ;;;
        ret (row, g)
    end) ;;
  plan <- replenish_for_request grant route (sg_payer_eth_address grant)
    ("loc-account:" ++ request_id) (str_uuid (ps_id row)) settings ;;
  status <- compute_cap_status row' user_id 0 false cfg ;;
  ret (MkRefillSession (sg_authorization_id grant) request_id (sg_revision grant)
         (b64encode (sg_authorization_bytes grant)) (wp_shortfall_wei plan)
         (wp_shortfall_wei plan) status).

(** [refill_session]. *)
Definition refill_session (session_id user_id : uuid) (request_id : option string)
    (max_total_units : Z) (workload_request_digest : bytes) (broker_available : bool)
    (settings : Settings) : M RefillSessionResponse :=
  cfg <- resolve_billing_config user_id settings ;;
  d <- db_read ;;
  row <- lift (of_option (t_session d !! session_id) SessionNotFound) ;;
  guard (N.eqb (ps_user_id row) user_id) SessionNotFound ;;;
  guard (String.eqb (ps_state row) SESSION_STATE_OPEN) (OC (SessionNotOpen (ps_state row))) ;;;
  id <- request_id_or_fresh request_id ;;
  guard (String.eqb (ps_accounting_mode row) "wholesale_account")
    (invalid_request "legacy sessions cannot be refilled by the wholesale-only release") ;;;
  refill_wholesale_session row user_id max_total_units workload_request_digest id
    broker_available settings cfg.

End flows.
