(* ===== verification/Jobs.v ===== *)
(** * Jobs: opening and settling

    [domains/jobs/service.py], the requests of a caller: a paid job is an
    engagement of the sessions domain with the [paid-job/v1] protocol, opened
    with one authorization and settled once on the broker's signed record.
    Telemetry is outside the modelled tables. *)

From S2P Require Import Prelude PyData DecimalCtx Errors Effects Store Pricing Settings Billing.
From S2P Require Import SettlementVerification BrokerSettlement PaymentDaemon Registry.
From S2P Require Import Wholesale Payments SessionCore SessionSettle SessionPrepare SessionFlows.
From Stdlib Require Import Strings.Ascii.

Open Scope string_scope.
Open Scope Z_scope.
Open Scope loc_scope.

Definition PAID_JOB_PROTOCOL : string := "paid-job/v1".
Definition DEFAULT_RECONCILIATION_INTERVAL_SECONDS : Z := 60.

Definition job_unverified (reason : string) : exn := OC (JobSettlementVerificationFailed reason).

(** ** Messages *)

(** [SettlementEnvelope]: a signature is its value, its algorithm and
    canonicalization being literals. *)
Record SettlementEnvelope := MkSettlementEnvelope {
  en_payload : dict;
  en_signature : option string;
}.

Definition is_any_hex (a : ascii) : bool := is_some (hex_value a).

Definition signature_value_ok (s : string) : bool :=
  str_startswith "0x" s && Nat.eqb (String.length s) 132 && str_forallb is_any_hex (str_drop 2 s).

Definition exact_keys (keys : list string) (d : dict) : bool :=
  forallb (fun kv => str_elem (fst kv) keys) d.

(** [SettlementEnvelope.model_validate]. *)
Definition settlement_envelope_validate (d : dict) : res SettlementEnvelope :=
  let bad := ValueError "SettlementEnvelope" in
  let? _ := require (exact_keys ["payload"; "signature"] d) bad in
  let? payload := match dget "payload" d with Some (JObj p) => Ok p | _ => Err bad end in
  let? signature := match dget "signature" d with
    | None | Some JNull => Ok None
    | Some (JObj s) =>
        let? value := req_str "value" s in
        let? _ := require (exact_keys ["algorithm"; "canonicalization"; "value"] s
                           && json_eqb (or_else (dget "algorithm" s) JNull) (JStr "secp256k1")
                           && json_eqb (or_else (dget "canonicalization" s) JNull) (JStr "jcs")
                           && signature_value_ok value) bad in
        Ok (Some value)
    | _ => Err bad
    end in
  Ok (MkSettlementEnvelope payload signature).

(** [model_dump]. *)
Definition settlement_envelope_dump (e : SettlementEnvelope) : dict :=
  [("payload", JObj (en_payload e));
   ("signature", match en_signature e with
      | Some v => JObj [("algorithm", JStr "secp256k1"); ("canonicalization", JStr "jcs");
                        ("value", JStr v)]
      | None => JNull
      end)].

Record CreateJobResponse := MkCreateJob {
  cj_job_id : uuid;
  cj_request_id : string;
  cj_work_id : string;
  cj_broker_url : string;
  cj_protocol : string;
  cj_transport : string;
  cj_work_unit : string;
  cj_route_snapshot : dict;
  cj_spend_authorization : string;
  cj_expected_value_wei : Z;
  cj_funded_value_wei : Z;
  cj_settle_endpoint : string;
  cj_opened_at : datetime;
}.

Record SettleJobResponse := MkSettleJob {
  sj_job_id : uuid;
  sj_work_id : string;
  sj_actual_units : Z;
  sj_billed_value_wei : Z;
  sj_refund_wei : Z;
  sj_outcome : string;
  sj_closed_at : datetime;
  sj_cap_status : CapStatus;
}.

Definition settle_endpoint_for (id : uuid) : string := "/v1/jobs/" ++ str_uuid id ++ "/settle".

(** What a caller asks for when opening a job. *)
Record OpenJob := MkOpenJob {
  oj_user_id : uuid;
  oj_api_key_id : uuid;
  oj_capability : string;
  oj_offering : string;
  oj_estimated_units : Z;
  oj_max_total_units : option Z;
  oj_sdk_identity : option string;
  oj_transport : string;
  oj_route_binding : option RouteBinding;
  oj_request_id : option string;
  oj_workload_request_digest : bytes;
  oj_caller_public_key : bytes;
}.

(** What a caller reports when settling one. *)
Record SettleJob := MkSettleJobRequest {
  sq_actual_units : Z;
  sq_broker_job_id : string;
  sq_work_unit : string;
  sq_outcome : option string;
  sq_settlement : SettlementEnvelope;
}.

(** [Decimal(str(snapshot.get("price_per_work_unit_wei", "0")))]. *)
Definition job_price {R : Runtime} (snapshot : dict) : res Z :=
  match dget "price_per_work_unit_wei" snapshot with
  | None => Ok 0
  | Some (JInt z) => Ok z
  | Some (JStr s) => of_option (int_of_str s) DecimalInvalidOperation
  | Some _ => Err DecimalInvalidOperation
  end.

(** [str(snapshot.get("work_unit", ""))]. *)
Definition job_work_unit {R : Runtime} (snapshot : dict) : string :=
  match dget "work_unit" snapshot with
  | None => ""
  | Some (JStr s) => s
  | Some j => rt_repr j
  end.

(** The grant of the row's current authorization. *)
Definition current_job_grant (row : PaymentSession) (d : DB) : option SpendAuthorizationGrant :=
  match ps_authorization_id row with
  | Some a => find_grant (ps_id row) a d
  | None => None
  end.

Section jobs.
Context {W : Type} {R : Runtime}.
Local Abbreviation M := (M DB W).

(** ** Settlement *)

Section verification.
Context {L : SettlementLib}.

(** The expectation [settle_job] pins on the signed record. *)
Definition settle_expectation (row : PaymentSession) (grant : SpendAuthorizationGrant)
    (snapshot : dict) (price : Z) (request_id : string) (q : SettleJob)
  : res JobSettlementExpectation :=
  let? per_units := dict_int "units_per_price" snapshot in
  let? quote_id := dict_str "quote_id" snapshot in
  let? quote_version := dict_int "quote_version" snapshot in
  let? constraint := dict_str "constraint_fingerprint" snapshot in
  let? constraint_fingerprint := of_option (bytes_fromhex constraint) (ValueError "fromhex") in
  let? route := dict_str "route_fingerprint" snapshot in
  let? route_fingerprint := of_option (bytes_fromhex route) (ValueError "fromhex") in
  Ok (MkJobExpectation (sg_wholesale_account_id grant) (sg_settlement_domain_id grant) request_id
        (sq_broker_job_id q) (ps_work_id row) (job_work_unit snapshot) (sq_actual_units q)
        (ps_max_total_units row) (ps_funded_value_wei row) price per_units quote_id quote_version
        constraint_fingerprint route_fingerprint (Some (sg_authorization_id grant))
        (Some (sg_max_debit_wei grant))).

(** The [try] block of [settle_job]. *)
Definition verify_job_claim (row : PaymentSession) (grant : SpendAuthorizationGrant)
    (snapshot : dict) (price : Z) (q : SettleJob) : res VerifiedJobSettlement :=
  let? request_id := match ps_broker_request_id row with
    | Some r => if str_truthy r then Ok r else Err (SettlementVerificationErr "missing_request_id")
    | None => Err (SettlementVerificationErr "missing_request_id")
    end in
  let? _ := require (is_some (en_signature (sq_settlement q)))
              (SettlementVerificationErr "missing_signature") in
  let? keys := match dget "settlement_keys" snapshot with
    | None => Err KeyError
    | Some (JArr (k :: l)) => Ok (k :: l)
    | Some _ => Err (SettlementVerificationErr "missing_delegation")
    end in
  let? e := settle_expectation row grant snapshot price request_id q in
  let? keys := of_option (as_dicts keys) AttributeError in
  verify_job_settlement (settlement_envelope_dump (sq_settlement q)) keys e.

Definition job_failure (e : exn) : exn :=
  job_unverified (match e with SettlementVerificationErr code => code | _ => "invalid_snapshot" end).

(** The customer's charge and refund under the pinned pricing. *)
Definition job_bill (row : PaymentSession) (v : VerifiedJobSettlement) : res (Z * Z) :=
  let? stored := of_option (ps_customer_pricing row) (job_unverified "missing_customer_pricing") in
  let? hold := of_option (ps_customer_max_debit_wei row)
                 (job_unverified "missing_customer_pricing") in
  let? pricing := pricing_validate stored in
  let? billed := calculate_customer_charge pricing (vj_actual_units v) (vj_billed_value_wei v) in
  let? _ := require (negb (hold <? billed)) (job_unverified "customer_cap_exceeded") in
  Ok (billed, dsub hold billed).

(** Everything [settle_job] checks before the row moves. *)
Definition settle_checks (row : PaymentSession) (q : SettleJob) (d : DB)
  : res (VerifiedJobSettlement * Z * Z) :=
  let snapshot := or_else (ps_route_snapshot row) [] in
  let? grant := of_option (current_job_grant row d) (job_unverified "missing_authorization") in
  let? price := job_price snapshot in
  let expected := job_work_unit snapshot in
  let? _ := require (String.eqb (sq_work_unit q) expected)
              (OC (WorkUnitMismatch expected (sq_work_unit q))) in
  let? v := remap is_shape_error job_failure (verify_job_claim row grant snapshot price q) in
  let? _ := require (match sq_outcome q with
                     | Some o => String.eqb o (vj_outcome v) | None => true end)
              (job_unverified "outcome_mismatch") in
  let? (billed, refund) := job_bill row v in
  Ok (v, billed, refund).

(** The columns a settlement finalizes. *)
Definition settle_columns (q : SettleJob) (billed : Z) (outcome : string) (r : PaymentSession)
  : PaymentSession :=
  set_ps_outcome (Some outcome)
    (set_ps_billed_value_wei (Some billed) (set_ps_actual_units (Some (sq_actual_units q)) r)).

Definition settle_breakdown (q : SettleJob) (r : PaymentSession) : PaymentSession :=
  set_ps_breakdown (Some (dmerge (or_else (ps_breakdown r) [])
    [("broker_job_id", JStr (sq_broker_job_id q)); ("work_unit", JStr (sq_work_unit q))])) r.

Definition settle_record (q : SettleJob) : dict :=
  [("broker_job_id", JStr (sq_broker_job_id q)); ("work_unit", JStr (sq_work_unit q));
   ("settlement", JObj (settlement_envelope_dump (sq_settlement q)))].

(** The job closes, the unused hold is released, the grant is settled and the
    event is appended. *)
Definition settle_apply (job_id user_id : uuid) (row : PaymentSession) (q : SettleJob)
    (v : VerifiedJobSettlement) (billed refund : Z) : M PaymentSession :=
  moved <- transition_state job_id (ps_state row) SESSION_STATE_CLOSED ;;
  (if 0 <? refund then
     release_customer_engagement user_id (ps_id row) refund ;;; ret tt
   else ret tt) ;;;
  db_modify (update_session job_id (settle_columns q billed (vj_outcome v))) ;;;
  authorization_id <- lift (of_option (ps_authorization_id row) AssertionError) ;;
  mark_spend_authorization_settled (ps_id row) authorization_id ;;;
  db_modify (update_session job_id (settle_breakdown q)) ;;;
  db_flush ;;;
  record_settlement job_id "close" (Some (sq_actual_units q)) (Some billed)
    (Some (vj_outcome v)) (Some (settle_record q)) ;;;
  ret (settle_columns q billed (vj_outcome v) moved).

(** [settle_job]. *)
Definition settle_job (job_id user_id : uuid) (q : SettleJob) (settings : Settings)
  : M SettleJobResponse :=
  d <- db_read ;;
  row <- lift (of_option (t_session d !! job_id) (OC JobNotFound)) ;;
  guard (N.eqb (ps_user_id row) user_id) (OC JobNotFound) ;;;
  guard (negb (String.eqb (ps_state row) SESSION_STATE_CLOSED))
    (OC (JobAlreadySettled (ps_state row))) ;;;
  guard (String.eqb (ps_accounting_mode row) "wholesale_account")
    (job_unverified "legacy_accounting_disabled") ;;;
  '(v, billed, refund) <- lift (settle_checks row q d) ;;
  settled <- settle_apply job_id user_id row q v billed refund ;;
  cfg <- resolve_billing_config user_id settings ;;
  status <- compute_cap_status settled user_id 0 false cfg ;;
  closed_at <- lift (of_option (ps_closed_at settled) AssertionError) ;;
  ret (MkSettleJob (ps_id row) (ps_work_id row) (sq_actual_units q) billed (Z.max refund 0)
         (vj_outcome v) closed_at status).

End verification.

(** ** Opening *)

Context {B : BrokerAccountClient W} {D : PaymentDaemonClient W}.

(** The claim and authorization of [_open_wholesale_job], up to its commit. *)
Definition authorize_wholesale_job (q : OpenJob) (route : SelectedRoute)
    (max_total_units max_debit_wei : Z) (request_id : string) (settings : Settings)
    (cfg : ResolvedBillingConfig)
  : M (PaymentSession * CreateSpendAuthorizationResponse) :=
  job <- claim_wholesale_engagement (oj_user_id q) (oj_api_key_id q) route request_id
    (oj_estimated_units q) max_total_units max_debit_wei (oj_sdk_identity q)
    (rbc_spend_period_seconds cfg) (rbc_spend_period_cap_wei cfg) None ;;
  now <- clock_now ;;
  '(auth_request, auth_response) <- issue_initial_authorization_or_release job
    (issue_route_locked_authorization route ("loc-auth:" ++ request_id) request_id ""
       (oj_workload_request_digest q) (oj_caller_public_key q) max_debit_wei max_total_units now
       (dt_add_seconds now 300) (cfg_wholesale_chain_id settings)
       (cfg_wholesale_account_id settings) 0 "") ;;
  domain <- lift (settlement_domain_id (ro_settlement_domain_id route)) ;;
  record_spend_authorization_grant (ps_id job) (oj_user_id q) route domain auth_request
    auth_response ;;;
  db_commit ;;;
  ret (job, auth_response).

(** The funding of [_open_wholesale_job]. *)
Definition fund_job_admission (route : SelectedRoute) (payer request_id : string) (job_id : uuid)
    (max_debit_wei : Z) (settings : Settings) : M WholesaleFundingPlan :=
  observation <- remote (ba_get_wholesale_account (ro_worker_url route) payer
    (ro_eth_address route) (cfg_wholesale_chain_id settings) (ro_settlement_domain_id route)
    (cfg_wholesale_account_id settings)) ;;
  base <- lift (make_limits (operator_limits settings)) ;;
  limits <- lift (admission_funding_limits base (Fin max_debit_wei)) ;;
  domain <- lift (settlement_domain_id (ro_settlement_domain_id route)) ;;
  plan <- plan_observed_account_shortfall observation domain limits ;;
  funding <- claim_account_funding route observation domain plan limits
    ("loc-account:" ++ request_id) (Some (str_uuid job_id)) WHOLESALE_ACCOUNT_PROTOCOL_VERSION ;;
  now <- clock_now ;;
  complete_account_funding funding route observation domain plan payer
    (cfg_wholesale_chain_id settings) now ;;;
  verify_admission_funding_readiness route payer (cfg_wholesale_chain_id settings)
    (cfg_wholesale_account_id settings) max_debit_wei ;;;
  ret plan.

(** [_open_wholesale_job]. *)
Definition open_wholesale_job (q : OpenJob) (route : SelectedRoute)
    (max_total_units max_debit_wei : Z) (request_id : string) (settings : Settings)
    (cfg : ResolvedBillingConfig) : M CreateJobResponse :=
  '(job, auth_response) <-
    authorize_wholesale_job q route max_total_units max_debit_wei request_id settings cfg ;;
  plan <- try_except
    (fund_job_admission route ("0x" ++ bytes_hex (sp_payer auth_response)) request_id (ps_id job)
       max_debit_wei settings)
    (fun e => match e with
              | WholesaleFundingPolicyErr m => Some (raise (OC (WholesaleFundingUnverified m)))
              | _ => None
              end) ;;
  snapshot <- lift (route_snapshot route) ;;
  ret (MkCreateJob (ps_id job) request_id ("loc-auth:" ++ request_id) (ro_worker_url route)
         (ro_protocol route) (oj_transport q) (ro_work_unit route) snapshot
         (authorization_b64 auth_response) (wp_shortfall_wei plan) (wp_shortfall_wei plan)
         (settle_endpoint_for (ps_id job)) (ps_opened_at job)).

Context {C : RegistryClient W}.

(** The checks of [_select_job_route]. *)
Definition job_route_checks (q : OpenJob) (route : SelectedRoute) : res unit :=
  let? _ := require (String.eqb (ro_protocol route) PAID_JOB_PROTOCOL)
    (OC (ProtocolNotSupportedForJob (ro_protocol route))) in
  let? axes := route_job route in
  let? axes := of_option axes (RuntimeErr "paid-job/v1 route has no job axes") in
  let? _ := require (str_elem (oj_transport q) (ja_transports axes))
    (OC (TransportNotSupportedForJob (oj_transport q) (sorted_transports (ja_transports axes)))) in
  require (negb (bool_decide (ro_settlement_keys route = [])))
    (OC (NoSettlementDelegation (oj_capability q) (oj_offering q))).

(** [_select_job_route]. *)
Definition select_job_route (q : OpenJob) : M SelectedRoute :=
  selected <- select_bound_route (oj_capability q) (oj_offering q) (oj_route_binding q) ;;
  route <- lift (of_option selected (match oj_route_binding q with
    | Some b => OC (RouteBindingMismatch (route_binding_dump b))
    | None => OC (NoRouteAvailable (oj_capability q) (oj_offering q)) end)) ;;
  lift (job_route_checks q route) ;;;
  ret route.

(** [open_job]. *)
Definition open_job (q : OpenJob) (broker_available : bool) (settings : Settings)
  : M CreateJobResponse :=
  request_id <- request_id_or_fresh (oj_request_id q) ;;
  let effective_max := or_else (oj_max_total_units q) (oj_estimated_units q) in
  guard (negb (effective_max <? oj_estimated_units q))
    (invalid_request "max_total_units must be >= estimated_units") ;;;
  cfg <- resolve_billing_config (oj_user_id q) settings ;;
  route <- select_job_route q ;;
  guard broker_available
    (OC (DaemonUnavailable "wholesale-account" "broker account client is unavailable")) ;;;
  worst_case <- lift (bill_value_wei effective_max (ro_price_per_work_unit_wei route)
                        (ro_units_per_price route)) ;;
  balance <- get_balance (oj_user_id q) ;;
  guard (negb (cb_amount_wei balance <? worst_case))
    (OC (InsufficientCredit (cb_amount_wei balance) worst_case)) ;;;
  open_wholesale_job q route effective_max worst_case request_id settings cfg.

End jobs.
