(* ===== verification/JobReconcile.v ===== *)
(** * Jobs: reconciliation with the broker

    The rest of [domains/jobs/service.py]: the janitor that recovers the
    outcome of open jobs, proofs of non-admission, the record of a settlement
    that failed verification, the conservative full charge and the status read.
    The counters it increments are telemetry. *)

From S2P Require Import Prelude PyData DecimalCtx Errors Effects Store Pricing Settings Billing.
From S2P Require Import SettlementVerification BrokerSettlement PaymentDaemon Registry.
From S2P Require Import Payments SessionCore SessionSettle SessionPrepare SessionFlows Jobs.

Open Scope string_scope.
Open Scope Z_scope.
Open Scope loc_scope.

Definition query_err (msg : string) : exn := BrokerSettlementQueryErr msg.

(** ** Audit records *)

Definition opt_entry {A} (k : string) (f : A -> json) (o : option A) : dict :=
  match o with Some a => [(k, f a)] | None => [] end.

(** [_exchange_audit_record]. *)
Definition exchange_audit_record (x : BrokerExchangeResult) : dict :=
  let b := xb_body x in
  [("request_id", JStr (xr_request_id b)); ("outcome", JStr (bx_outcome_str (xb_outcome x)))]
  ++ opt_entry "job_id" JStr (xr_job_id b) ++ opt_entry "state" JStr (xr_state b)
  ++ opt_entry "status" JInt (xr_status b) ++ opt_entry "work_units" JInt (xr_work_units b)
  ++ opt_entry "unit" JStr (xr_unit b) ++ opt_entry "debit_attempts" JInt (xr_debit_attempts b)
  ++ opt_entry "deadline" JStr (xr_deadline b) ++ opt_entry "ended_at" JStr (xr_ended_at b)
  ++ opt_entry "detail" JStr (xr_detail b)
  ++ opt_entry "non_admission" JObj (xb_non_admission x)
  ++ opt_entry "settlement" JObj (xb_settlement x).

(** [exchange.model_copy(update={"detail": ...})]. *)
Definition with_detail (detail : string) (x : BrokerExchangeResult) : BrokerExchangeResult :=
  let b := xb_body x in
  MkExchangeResult
    (MkExchangeResponse (xr_request_id b) (xr_outcome b) (xr_job_id b) (xr_state b) (xr_status b)
       (xr_work_units b) (xr_unit b) (xr_debit_attempts b) (xr_deadline b) (xr_ended_at b)
       (Some detail) (xr_settlement b) (xr_non_admission b) (xr_observed_at b)
       (xr_coverage_started_at b) (xr_replayed b))
    (xb_settlement x) (xb_non_admission x).

(** [{**(row.breakdown or {}), ...}]. *)
Definition merge_breakdown (d : dict) (r : PaymentSession) : PaymentSession :=
  set_ps_breakdown (Some (dmerge (or_else (ps_breakdown r) []) d)) r.

Definition broker_exchange (audit : dict) : dict := [("broker_exchange", JObj audit)].

(** [_settlement_signature]. *)
Definition settlement_signature (settlement : dict) : json :=
  match dget "signature" settlement with
  | Some (JObj s) => match dget "value" s with Some (JStr v) => JStr v | _ => JNull end
  | _ => JNull
  end.

(** The [settlement_block] of a breakdown, when it is an object. *)
Definition existing_block (row : PaymentSession) : option dict :=
  match dget "settlement_block" (or_else (ps_breakdown row) []) with
  | Some (JObj b) => Some b
  | _ => None
  end.

Definition block_signature (b : dict) : json := or_else (dget "signature" b) JNull.

(** [_settlement_is_blocked]. *)
Definition settlement_is_blocked (row : PaymentSession) (settlement : dict) : bool :=
  match existing_block row with
  | Some b => json_eqb (block_signature b) (settlement_signature settlement)
  | None => false
  end.

(** What a settled exchange claims; a malformed claim is no claim. *)
Record RecoveredClaims := MkRecoveredClaims {
  rv_job_id : string;
  rv_work_unit : string;
  rv_actual_units : Z;
  rv_outcome : string;
}.

Definition nonempty_str (j : option json) : option string :=
  match j with Some (JStr s) => if str_truthy s then Some s else None | _ => None end.

(** [_recovered_settlement_claims]. *)
Definition recovered_settlement_claims (x : BrokerExchangeResult) : option RecoveredClaims :=
  match xb_settlement x with
  | None => None
  | Some settlement =>
      match dget "payload" settlement with
      | Some (JObj payload) =>
          match dict_int "actual_units" payload, nonempty_str (dget "job_id" payload),
                nonempty_str (dget "work_unit_name" payload),
                nonempty_str (dget "outcome" payload) with
          | Ok units, Some job_id, Some work_unit, Some outcome =>
              if units <? 0 then None
              else Some (MkRecoveredClaims job_id work_unit units outcome)
          | _, _, _, _ => None
          end
      | _ => None
      end
  end.

(** ** Non-admission scope *)

(** [_job_payer_scope]: payer, payee and account of the current grant. *)
Definition job_payer_scope (row : PaymentSession) (d : DB) : option (string * string * string) :=
  match current_job_grant row d, dget "eth_address" (or_else (ps_route_snapshot row) []) with
  | Some g, Some (JStr recipient) =>
      Some (str_lower (sg_payer_eth_address g), str_lower recipient, sg_wholesale_account_id g)
  | _, _ => None
  end.

(** The grant is the job's original, unrevised and unused authorization. *)
Definition unused_job_grant (row : PaymentSession) (g : SpendAuthorizationGrant) : bool :=
  String.eqb (ps_accounting_mode row) "wholesale_account"
  && String.eqb (sg_protocol g) PAID_JOB_PROTOCOL
  && bool_decide (ps_broker_request_id row = Some (sg_request_id g))
  && String.eqb (sg_authorization_id g) (ps_work_id row)
  && (sg_revision g =? 0)
  && bool_decide (sg_predecessor_authorization_id g = None)
  && opt_dict_eqb (Some (sg_route_snapshot g)) (ps_route_snapshot row)
  && json_eqb (or_else (dget "settlement_domain_id" (or_else (ps_route_snapshot row) [])) JNull)
       (JStr (sg_settlement_domain_id g))
  && str_elem (sg_state g) ["issued"; "outcome_unknown"; "expired_unused"].

(** [_non_admission_grant]. *)
Definition non_admission_grant (row : PaymentSession) (d : DB) : res SpendAuthorizationGrant :=
  let bad := query_err "job lacks a consistent unused authorization scope" in
  let? g := of_option (current_job_grant row d) bad in
  let? _ := require (unused_job_grant row g) bad in
  Ok g.

Section reconcile.
Context {W : Type} {R : Runtime} {L : SettlementLib} {S : BrokerSettlementClient W}.
Local Abbreviation M := (M DB W).

(** The query [_request_non_admission] sends. *)
Definition non_admission_query (row : PaymentSession) (scope : string * string * string)
  : res NonAdmissionQuery :=
  let '(sender, recipient, account) := scope in
  let snapshot := or_else (ps_route_snapshot row) [] in
  let? quote_id := dict_str "quote_id" snapshot in
  let? quote_version := dict_int "quote_version" snapshot in
  let? constraint := dict_str "constraint_fingerprint" snapshot in
  let? fingerprint := dict_str "route_fingerprint" snapshot in
  make_non_admission_query (MkNonAdmissionQuery PAID_JOB_PROTOCOL (ps_work_id row) sender
    recipient quote_id quote_version constraint fingerprint account
    (rt_isoformat (normalized_utc (ps_opened_at row)))).

(** [_request_non_admission]. *)
Definition request_non_admission (row : PaymentSession) (broker_url request_id : string)
  : M BrokerExchangeResult :=
  d <- db_read ;;
  scope <- lift (of_option (job_payer_scope row d)
    (query_err "job lacks persisted payer sender scope")) ;;
  grant <- lift (non_admission_grant row d) ;;
  now <- clock_now ;;
  guard (negb (dt_us now <? dt_us (normalized_utc (sg_expires_at grant))))
    (query_err "job authorization has not expired") ;;;
  query <- lift (remap is_shape_error
    (fun _ => query_err "job lacks valid non-admission scope") (non_admission_query row scope)) ;;
  remote (bs_request_non_admission broker_url request_id query).

(** The scope a proof of non-admission must be signed for. *)
Definition non_admission_expectation (row : PaymentSession) (grant : SpendAuthorizationGrant)
    (request_id : string) (scope : string * string * string) : res NonAdmissionExpectation :=
  let '(sender, recipient, account) := scope in
  let snapshot := or_else (ps_route_snapshot row) [] in
  let? sender := eth_address_to_bytes sender in
  let? recipient := eth_address_to_bytes recipient in
  let? quote_id := dict_str "quote_id" snapshot in
  let? quote_version := dict_int "quote_version" snapshot in
  let? constraint := dict_str "constraint_fingerprint" snapshot in
  let? constraint_fingerprint := of_option (bytes_fromhex constraint) (ValueError "fromhex") in
  let? route := dict_str "route_fingerprint" snapshot in
  let? route_fingerprint := of_option (bytes_fromhex route) (ValueError "fromhex") in
  let? broker := dict_str "eth_address" snapshot in
  Ok (MkNonAdmissionExpectation account (sg_settlement_domain_id grant) PAID_JOB_PROTOCOL
        request_id (ps_work_id row) sender recipient quote_id quote_version
        constraint_fingerprint route_fingerprint broker (normalized_utc (ps_opened_at row))).

(** The [try] block of [_retain_verified_non_admission]. *)
Definition check_non_admission (row : PaymentSession) (x : BrokerExchangeResult)
    (envelope : dict) (request_id : string) (d : DB)
  : res (SpendAuthorizationGrant * VerifiedNonAdmission) :=
  let? grant := non_admission_grant row d in
  let? _ := require (String.eqb (xr_request_id (xb_body x)) request_id)
              (SettlementVerificationErr "request_id_mismatch") in
  let? scope := of_option (job_payer_scope row d) (SettlementVerificationErr "missing_sender") in
  let? keys := match dget "settlement_keys" (or_else (ps_route_snapshot row) []) with
    | None => Err KeyError
    | Some (JArr (k :: l)) => Ok (k :: l)
    | Some _ => Err (SettlementVerificationErr "missing_delegation")
    end in
  let? e := non_admission_expectation row grant request_id scope in
  let? keys := of_option (as_dicts keys) AttributeError in
  let? v := verify_non_admission envelope keys e in
  Ok (grant, v).

Definition non_admission_rejection (e : exn) : option string :=
  match e with
  | SettlementVerificationErr code => Some code
  | _ => if is_shape_error e || is_query_error e then Some "invalid_snapshot" else None
  end.

Definition is_audit_of (session_id : uuid) (digest : string) (t : PaymentSettlement) : bool :=
  N.eqb (pt_session_id t) session_id && String.eqb (pt_event_type t) "non_admission_audit"
  && match pt_raw_record t with
     | Some raw => json_eqb (or_else (dget "evidence_digest" raw) JNull) (JStr digest)
     | None => false
     end.

(** Retaining verified evidence: the audit on the row and, once per record, an
    event. *)
Definition retain_audit (row : PaymentSession) (digest : string) (audit : dict) : M unit :=
  db_modify (update_session (ps_id row) (merge_breakdown (broker_exchange audit))) ;;;
  d <- db_read ;;
  (if existsb (is_audit_of (ps_id row) digest) (t_settlement d) then ret tt
   else
     record_settlement (ps_id row) "non_admission_audit" None None (Some "NOT_ADMITTED")
       (Some (("evidence_digest", JStr digest) :: audit)) ;;;
     ret tt) ;;;
  db_flush.

(** The columns of a job proved not admitted. *)
Definition not_admitted_columns (r : PaymentSession) : PaymentSession :=
  set_ps_outcome (Some "NOT_ADMITTED")
    (set_ps_billed_value_wei (Some 0) (set_ps_actual_units (Some 0) r)).

(** Releasing the whole hold of a job proved not admitted. *)
Definition release_not_admitted (row : PaymentSession) (grant : SpendAuthorizationGrant)
    (hold : Z) (digest : string) (audit : dict) : M unit :=
  transition_state (ps_id row) SESSION_STATE_OPEN SESSION_STATE_CLOSED ;;;
  release_customer_engagement (ps_user_id row) (ps_id row) hold ;;;
  db_modify (update_session (ps_id row) not_admitted_columns) ;;;
  now <- (match sg_retired_at grant with Some t => ret t | None => clock_now end) ;;
  db_modify (update_grant (sg_session_id grant) (sg_authorization_id grant)
    (retire "expired_unused" now)) ;;;
  record_settlement (ps_id row) "close" (Some 0) (Some 0) (Some "NOT_ADMITTED")
    (Some (("evidence_digest", JStr digest) :: audit)) ;;;
  db_flush.

Definition with_verification (verification audit : dict) : dict :=
  dset "verification" (JObj verification) audit.

Definition verified_audit (digest : string) (v : VerifiedNonAdmission) : dict :=
  [("status", JStr "verified"); ("evidence_digest", JStr digest);
   ("signing_public_key", JStr (vn_signing_public_key v));
   ("observed_at", JStr (rt_isoformat (vn_observed_at v)));
   ("coverage_started_at", JStr (rt_isoformat (vn_coverage_started_at v)))].

(** The verified branch of [_retain_verified_non_admission]: the hold is
    released only by evidence observed after the grant expired. *)
Definition accept_non_admission (row : PaymentSession) (grant : SpendAuthorizationGrant)
    (v : VerifiedNonAdmission) (envelope audit : dict) : M bool :=
  canonical <- lift (of_option (sl_canonicalize envelope) (ValueError "canonicalize")) ;;
  let digest := bytes_hex (rt_sha256 canonical) in
  let audit := with_verification (verified_audit digest v) audit in
  retain_audit row digest audit ;;;
  let expires_at := normalized_utc (sg_expires_at grant) in
  now <- clock_now ;;
  if (dt_us now <? dt_us expires_at) || (dt_us (vn_observed_at v) <? dt_us expires_at)
  then ret false
  else match ps_customer_max_debit_wei row with
       | None => ret false
       | Some hold => release_not_admitted row grant hold digest audit ;;; ret true
       end.

(** [_retain_verified_non_admission]. *)
Definition retain_verified_non_admission (job_id : uuid) (x : BrokerExchangeResult) : M bool :=
  d <- db_read ;;
  match t_session d !! job_id with
  | Some row =>
      if negb (String.eqb (ps_state row) SESSION_STATE_OPEN) then ret false
      else match xb_non_admission x, ps_broker_request_id row with
      | Some envelope, Some request_id =>
          let audit := exchange_audit_record x in
          match check_non_admission row x envelope request_id d with
          | Ok (grant, v) => accept_non_admission row grant v envelope audit
          | Err e =>
              match non_admission_rejection e with
              | Some reason =>
                  db_modify (update_session (ps_id row) (merge_breakdown (broker_exchange
                    (with_verification [("status", JStr "rejected"); ("reason", JStr reason)]
                       audit)))) ;;;
                  db_flush ;;;
                  ret false
              | None => raise e
              end
          end
      | _, _ => ret false
      end
  | None => ret false
  end.

(** ** Blocks *)

(** [int(existing.get("attempts", 0)) + 1]. *)
Definition next_attempt (block : option dict) : res Z :=
  match block with
  | None => Ok 1
  | Some b => match dget "attempts" b with
              | None => Ok 1
              | Some _ => let? n := dict_int "attempts" b in Ok (n + 1)
              end
  end.

(** [_record_settlement_block]. *)
Definition record_settlement_block (row : PaymentSession) (settlement : dict) (reason : string)
  : M unit :=
  let signature := settlement_signature settlement in
  attempts <- lift (next_attempt (existing_block row)) ;;
  first_seen <- (match existing_block row with
                 | Some b => if json_eqb (block_signature b) signature
                             then ret (or_else (dget "first_seen" b) JNull)
                             else now <- clock_now ;; ret (JStr (rt_isoformat now))
                 | None => now <- clock_now ;; ret (JStr (rt_isoformat now))
                 end) ;;
  last <- clock_now ;;
  db_modify (update_session (ps_id row) (merge_breakdown
    [("settlement_block", JObj
       [("reason", JStr reason); ("signature", signature); ("first_seen", first_seen);
        ("last_seen", JStr (rt_isoformat last)); ("attempts", JInt attempts)])])).

(** ** The conservative full charge *)

(** The payment and the validity telemetry the audit quotes. *)
Definition initial_payment (job_id : uuid) (d : DB) : option Payment :=
  List.find (fun p => bool_decide (py_session_id p = Some job_id)) (t_payment d).

Definition opt_int (o : option Z) : json := match o with Some z => JInt z | None => JNull end.
Definition opt_time (o : option datetime) : json :=
  match o with Some t => JStr (rt_isoformat t) | None => JNull end.

Definition conservative_audit (opened deadline finalized : datetime) (p : Payment)
    (validity : option PaymentDaemonDepositSnapshot) (evidence : dict) : dict :=
  [("terminal_kind", JStr "conservative_full_charge");
   ("reason", JStr "operational_deadline_without_valid_settlement");
   ("job_issued_at", JStr (rt_isoformat opened));
   ("operational_deadline", JStr (rt_isoformat deadline));
   ("finalized_at", JStr (rt_isoformat finalized));
   ("creation_round", opt_int (py_creation_round p));
   ("expires_after_round", opt_int (py_expires_after_round p));
   ("mint_ticket_validity_period", opt_int (py_ticket_validity_period p));
   ("mint_ticket_validity_period_observed_at",
     opt_time (py_ticket_validity_period_observed_at p));
   ("observed_current_round", opt_int (validity ≫= ds_current_round));
   ("current_ticket_validity_period", opt_int (validity ≫= ds_ticket_validity_period));
   ("current_ticket_validity_period_observed_at",
     opt_time (validity ≫= ds_ticket_validity_period_observed_at));
   ("evidence", JObj evidence)].

(** The columns of a job charged in full. *)
Definition conservative_columns (audit : dict) (r : PaymentSession) : PaymentSession :=
  merge_breakdown audit
    (set_ps_outcome (Some "conservative_full_charge")
      (set_ps_billed_value_wei (Some (ps_funded_value_wei r)) (set_ps_actual_units None r))).

(** [finalize_conservative_full_charge]. *)
Definition finalize_conservative_full_charge (job_id : uuid) (deadline_seconds : Z)
    (evidence : dict) : M bool :=
  if deadline_seconds <=? 0 then ret false
  else
    d <- db_read ;;
    match t_session d !! job_id with
    | Some row =>
        if negb (String.eqb (ps_protocol row) PAID_JOB_PROTOCOL
                 && String.eqb (ps_state row) SESSION_STATE_OPEN)
        then ret false
        else
          opened <- (if dt_aware (ps_opened_at row) then ret (ps_opened_at row)
                     else now <- clock_now ;;
                          ret (DT (dt_us (ps_opened_at row)) (dt_aware now))) ;;
          let deadline := dt_add_seconds opened deadline_seconds in
          now <- clock_now ;;
          late <- lift (dt_leb deadline now) ;;
          if negb late then ret false
          else
            d' <- db_read ;;
            match initial_payment job_id d' with
            | None => ret false
            | Some p =>
                finalized <- clock_now ;;
                let audit := conservative_audit opened deadline finalized p
                               (latest_snapshot (t_deposit d')) evidence in
                transition_state job_id SESSION_STATE_OPEN SESSION_STATE_CLOSED ;;;
                db_modify (update_session job_id (conservative_columns audit)) ;;;
                db_flush ;;;
                record_settlement job_id "conservative_full_charge" None
                  (Some (ps_funded_value_wei row)) (Some "conservative_full_charge")
                  (Some audit) ;;;
                ret true
            end
    | None => ret false
    end.

(** ** The janitor *)

(** What each attempt to settle a recovered record can end in. *)
Definition settle_refused (e : exn) : option string :=
  match e with
  | OC (JobSettlementVerificationFailed reason) => Some reason
  | OC (WorkUnitMismatch _ _) => Some "work_unit_mismatch"
  | _ => None
  end.

Definition settle_ignored (e : exn) : bool :=
  match e with OC (JobAlreadySettled _) => true | _ => is_value_error e end.

(** The settled branch of [reconcile_open_jobs]; whether the job was settled. *)
Definition settle_recovered (row : PaymentSession) (x : BrokerExchangeResult)
    (settings : Settings) : M bool :=
  match xb_outcome x, recovered_settlement_claims x, xb_settlement x with
  | BX_SETTLED, Some c, Some settlement =>
      if settlement_is_blocked row settlement then ret false
      else
        try_except (
          envelope <- lift (settlement_envelope_validate settlement) ;;
          settle_job (ps_id row) (ps_user_id row)
            (MkSettleJobRequest (rv_actual_units c) (rv_job_id c) (rv_work_unit c)
               (Some (rv_outcome c)) envelope) settings ;;;
          ret true)
          (fun e => match settle_refused e with
                    | Some reason => Some (
                        d <- db_peek ;;
                        match t_session d !! ps_id row with
                        | Some r => record_settlement_block r settlement reason ;;;
                                    db_flush ;;; ret false
                        | None => ret false
                        end)
                    | None => if settle_ignored e then Some (ret false) else None
                    end)
  | _, _, _ => ret false
  end.

(** These outcomes are still moving: no deadline applies. *)
Definition still_moving (o : BrokerExchangeOutcome) : bool :=
  match o with BX_ACCOUNTING_PENDING | BX_IN_FLIGHT | BX_ADMISSION_REJECTED => true | _ => false end.

Definition charge_overdue (job_id : uuid) (settings : Settings) (evidence : dict) : M bool :=
  if cfg_job_conservative_charge_after_seconds settings <=? 0 then ret false
  else finalize_conservative_full_charge job_id
         (cfg_job_conservative_charge_after_seconds settings) evidence.

(** The poll mark and the observation written on the row. *)
Definition note_observation (job_id : uuid) (audit : dict) : M unit :=
  now <- clock_now ;;
  db_modify (update_session job_id (fun r =>
    merge_breakdown (broker_exchange audit) (set_ps_last_polled_at (Some now) r))) ;;;
  db_flush.

(** Asking for proof of non-admission; a failed request leaves the exchange. *)
Definition seek_non_admission (row : PaymentSession) (broker_url request_id : string)
    (x : BrokerExchangeResult) : M BrokerExchangeResult :=
  match xb_outcome x with
  | BX_NO_RECORD | BX_ADMISSION_REJECTED =>
      try_except (request_non_admission row broker_url request_id)
        (fun e => match e with
                  | BrokerSettlementQueryErr m =>
                      Some (ret (with_detail ("non-admission query failed: " ++ m) x))
                  | _ => None
                  end)
  | _ => ret x
  end.

(** One exchange that answered; whether the job was finalized. *)
Definition process_exchange (row : PaymentSession) (broker_url request_id : string)
    (settings : Settings) (answer : BrokerExchangeResult) : M bool :=
  x <- seek_non_admission row broker_url request_id answer ;;
  note_observation (ps_id row) (exchange_audit_record x) ;;;
  match xb_outcome x with
  | BX_NOT_ADMITTED => retain_verified_non_admission (ps_id row) x
  | o =>
      d <- db_peek ;;
      settled <- settle_recovered (or_else (t_session d !! ps_id row) row) x settings ;;
      if settled : bool then ret true
      else if still_moving o then ret false
      else charge_overdue (ps_id row) settings (exchange_audit_record x)
  end.

Definition lookup_failed (request_id detail : string) : dict :=
  [("request_id", JStr request_id); ("outcome", JStr "LOOKUP_FAILED"); ("detail", JStr detail)].

(** One iteration of [reconcile_open_jobs]. *)
Definition reconcile_job (settings : Settings) (finalized : Z) (id : uuid) : M Z :=
  d <- db_peek ;;
  match t_session d !! id with
  | None => ret finalized
  | Some row =>
      match ps_broker_request_id row, snapshot_broker_url (or_else (ps_route_snapshot row) []) with
      | Some request_id, Some (JStr broker_url) =>
          if negb (str_truthy request_id && str_truthy broker_url) then ret finalized
          else
            answer <- try_except
              (x <- remote (bs_get_job_exchange broker_url request_id) ;; ret (inl x))
              (fun e => match e with
                        | BrokerSettlementQueryErr m => Some (ret (inr m))
                        | _ => None
                        end) ;;
            closed <- (match answer with
              | inl x => process_exchange row broker_url request_id settings x
              | inr detail =>
                  let evidence := lookup_failed request_id detail in
                  note_observation id evidence ;;;
                  charge_overdue id settings evidence
              end) ;;
            ret (if closed : bool then finalized + 1 else finalized)
      | _, _ => ret finalized
      end
  end.

Definition due_job (cutoff : datetime) (r : PaymentSession) : bool :=
  String.eqb (ps_protocol r) PAID_JOB_PROTOCOL
  && String.eqb (ps_accounting_mode r) "wholesale_account"
  && String.eqb (ps_state r) SESSION_STATE_OPEN
  && match ps_last_polled_at r with None => true | Some t => dt_us t <? dt_us cutoff end.

(** [reconcile_open_jobs]. *)
Definition reconcile_open_jobs (settings : Settings) (interval_seconds : Z) (batch_limit : nat)
  : M Z :=
  now <- clock_now ;;
  let cutoff := dt_add_seconds now (- interval_seconds) in
  d <- db_read ;;
  mfold (reconcile_job settings) 0
    (map ps_id (take batch_limit
       (sort_by polled_before (List.filter (due_job cutoff) (sessions d))))).

(** ** Status *)

(** How a job was, or was not, accounted for. *)
Definition accounting_outcome (row : PaymentSession) : string :=
  if bool_decide (ps_outcome row = Some "conservative_full_charge")
  then "conservative_full_charge"
  else if String.eqb (ps_state row) SESSION_STATE_CLOSED then "broker_settled"
  else match dget "broker_exchange" (or_else (ps_breakdown row) []) with
       | Some (JObj exchange) =>
           match dget "outcome" exchange, dget "verification" exchange with
           | Some (JStr o), Some (JObj verification) =>
               if String.eqb o "NOT_ADMITTED"
                  && json_eqb (or_else (dget "status" verification) JNull) (JStr "verified")
               then "non_admission_audit" else "unresolved"
           | _, _ => "unresolved"
           end
       | _ => "unresolved"
       end.

Definition broker_exchange_outcome (row : PaymentSession) : option string :=
  match dget "broker_exchange" (or_else (ps_breakdown row) []) with
  | Some (JObj exchange) => as_str (dget "outcome" exchange)
  | _ => None
  end.

(** [JobStatusResponse]: the row, and what is derived beside it. *)
Record JobStatusResponse := MkJobStatus {
  js_job : PaymentSession;
  js_request_id : string;
  js_accounting_outcome : string;
  js_broker_exchange_outcome : option string;
  js_initial_payment : option Payment;
  js_validity_snapshot : option PaymentDaemonDepositSnapshot;
}.

(** [get_job_status]. *)
Definition get_job_status (job_id user_id : uuid) : M JobStatusResponse :=
  d <- db_read ;;
  row <- lift (of_option (t_session d !! job_id) (OC JobNotFound)) ;;
  guard (N.eqb (ps_user_id row) user_id && String.eqb (ps_protocol row) PAID_JOB_PROTOCOL)
    (OC JobNotFound) ;;;
  request_id <- lift (of_option (ps_broker_request_id row) (OC JobNotFound)) ;;
  guard (str_truthy request_id) (OC JobNotFound) ;;;
  ret (MkJobStatus row request_id (accounting_outcome row) (broker_exchange_outcome row)
         (initial_payment job_id d) (latest_snapshot (t_deposit d))).

End reconcile.
