(* ===== verification/Endpoints.v ===== *)
(** * Request endpoints

    The endpoints of [domains/sessions/runtime.py] and [domains/jobs/runtime.py]
    that create something: each claims its [Idempotency-Key], replays the stored
    answer of a finished request, and otherwise runs its service once and stores
    how it ended.  Pydantic's conversion of a model to JSON and back is the
    parameter [Model]. *)

From S2P Require Import Prelude PyData Errors Effects Store Settings SettlementVerification.
From S2P Require Import PaymentDaemon Registry BrokerSettlement Payments SessionCore SessionSettle.
From S2P Require Import SessionPrepare SessionFlows Jobs.
From Stdlib Require Import Strings.Ascii.

Open Scope string_scope.
Open Scope Z_scope.
Open Scope loc_scope.

(** [model_dump(mode="json")] and [model_validate] of a pydantic model. *)
Class Model (A : Type) := {
  model_dump : A -> dict;
  model_validate : dict -> res A;
}.

(** ** Bodies *)

(** [Field(pattern=r"^[0-9a-f]{64}$")] and [^(02|03)[0-9a-f]{64}$]. *)
Definition digest_pattern (s : string) : bool :=
  (String.length s =? 64)%nat && str_forallb is_lower_hex s.
Definition public_key_pattern (s : string) : bool :=
  (String.length s =? 66)%nat && (str_startswith "02" s || str_startswith "03" s)
  && str_forallb is_lower_hex (str_drop 2 s).

(** [Field(pattern=r"^[a-z][a-z0-9-]*/v[0-9]+$")]. *)
Definition schema_pattern (s : string) : bool :=
  match str_partition "/"%char s with
  | (String a name, Some (String "v"%char version)) =>
      is_lower_alpha a
      && str_forallb (fun c => is_lower_alpha c || is_digit c || Ascii.eqb c "-"%char) name
      && str_truthy version && str_forallb is_digit version
  | _ => false
  end.

Record PrepareSessionRequest := MkPrepareRequest {
  pq_capability : string;
  pq_offering : string;
  pq_descriptor_schema : string;
  pq_route_binding : option RouteBinding;
}.

Record CreateSessionRequest := MkCreateSessionRequest {
  cq_capability : string;
  cq_offering : string;
  cq_descriptor_schema : string;
  cq_session_params : dict;
  cq_estimated_runway_units : Z;
  cq_max_total_units : Z;
  cq_gateway_session_id : uuid;
  cq_preparation_token : string;
  cq_route_binding : option RouteBinding;
  cq_workload_request_digest : string;
  cq_caller_public_key : string;
}.

Record RefillSessionRequest := MkRefillRequest {
  rq_observed_consumed_units : option Z;
  rq_max_total_units : Z;
  rq_workload_request_digest : string;
}.

Record CreateJobRequest := MkCreateJobRequest {
  jq_capability : string;
  jq_offering : string;
  jq_transport : string;
  jq_estimated_units : Z;
  jq_max_total_units : option Z;
  jq_route_binding : option RouteBinding;
  jq_workload_request_digest : string;
  jq_caller_public_key : string;
}.

(** The numeric and format constraints of the bodies; the rest of the
    validation is typing. *)
Definition valid_prepare_session (b : PrepareSessionRequest) : bool :=
  str_truthy (pq_capability b) && str_truthy (pq_offering b)
  && schema_pattern (pq_descriptor_schema b).

Definition valid_create_session (b : CreateSessionRequest) : bool :=
  str_truthy (cq_capability b) && str_truthy (cq_offering b)
  && schema_pattern (cq_descriptor_schema b) && str_truthy (cq_preparation_token b)
  && (0 <? cq_estimated_runway_units b) && (0 <? cq_max_total_units b)
  && digest_pattern (cq_workload_request_digest b) && public_key_pattern (cq_caller_public_key b).

Definition valid_refill (b : RefillSessionRequest) : bool :=
  match rq_observed_consumed_units b with Some n => 0 <=? n | None => true end
  && (0 <? rq_max_total_units b) && digest_pattern (rq_workload_request_digest b).

Definition valid_create_job (b : CreateJobRequest) : bool :=
  str_truthy (jq_capability b) && str_truthy (jq_offering b)
  && str_elem (jq_transport b) ["unary"; "stream"; "multipart"]
  && (0 <? jq_estimated_units b)
  && match jq_max_total_units b with Some n => 0 <? n | None => true end
  && digest_pattern (jq_workload_request_digest b) && public_key_pattern (jq_caller_public_key b).

Definition hex_field (s : string) : res bytes := of_option (bytes_fromhex s) (ValueError "fromhex").

(** ** Error payloads *)

Section messages.
Context {R : Runtime}.

Definition repr_str (s : string) : string := rt_repr (JStr s).

(** [exc.message]. *)
Definition oc_message (e : oc_error) : string :=
  match e with
  | InsufficientCredit available required =>
      "Available balance " ++ str_Z available ++ " wei is less than required " ++ str_Z required
      ++ " wei"
  | SpendCapExceeded cap spent =>
      "Window spend cap " ++ str_Z cap ++ " wei would be exceeded (" ++ str_Z spent
      ++ " wei after this charge)"
  | AccountNotApproved => "Account has not been approved by an operator yet"
  | NoRouteAvailable c o => "No route for capability=" ++ repr_str c ++ ", offering=" ++ repr_str o
  | NoSettlementDelegation c o =>
      "route for capability=" ++ repr_str c ++ ", offering=" ++ repr_str o
      ++ " publishes no settlement_keys; refusing to fund work that could never settle"
  | DaemonUnavailable daemon reason => daemon ++ " unavailable: " ++ reason
  | AuthorizationRefused reason => "payer refused the spend authorization: " ++ reason
  | WholesaleFundingUnverified reason =>
      "wholesale account funding could not be verified: " ++ reason
  | EngagementClosed =>
      "this request's engagement is already closed; retry with a new request"
  | DuplicateRequest => "A request with this Idempotency-Key is already in flight"
  | IdempotencyKeyReuse => "This Idempotency-Key was already used with different content"
  | IdempotencyInProgress =>
      "The request associated with this Idempotency-Key is still in flight"
  | IdempotencyOutcomeUnknown =>
      "The payer reserved this mint request but has no completed result to replay; "
      ++ "retry with a new Idempotency-Key"
  | ProtocolNotSupportedForSession p =>
      "protocol " ++ repr_str p
      ++ " is not accepted by POST /v1/sessions; paid jobs use POST /v1/jobs"
  | InvalidSessionRequest message => message
  | RouteBindingMismatch _ => "the selected route binding is unavailable or has changed"
  | SessionSettlementVerificationFailed _ =>
      "the signed session settlement could not be verified"
  | RefillNotSupported =>
      "this offering declares session.refill='bounded'; the session "
      ++ "will end when its funded runway is exhausted"
  | SessionNotOpen state => "session is in state " ++ repr_str state ++ "; refill requires 'open'"
  | SessionCapReached which _ _ => "refill refused: " ++ which ++ " cap reached"
  | SuccessorAuthorizationUnresolved _ _ =>
      "successor authorization retirement is not yet verified"
  | ProtocolNotSupportedForJob p =>
      "protocol " ++ repr_str p
      ++ " is not accepted by POST /v1/jobs; paid sessions use POST /v1/sessions"
  | TransportNotSupportedForJob t _ =>
      "transport " ++ repr_str t ++ " is not declared by the selected offering"
  | JobNotFound => "job not found"
  | JobAlreadySettled state => "job is in state " ++ repr_str state ++ "; settle requires 'open'"
  | WorkUnitMismatch expected received =>
      "broker reported work unit " ++ repr_str received ++ "; expected " ++ repr_str expected
  | JobSettlementVerificationFailed _ => "broker settlement verification failed"
  | JobNotResolvable reason _ => "job cannot be resolved: " ++ reason
  | StoredError _ _ message _ => message
  end.

(** [_error_payload]. *)
Definition error_payload (e : oc_error) : dict :=
  [("error", JObj [("code", JStr (oc_code e)); ("message", JStr (oc_message e));
                   ("details", JObj (oc_details e))])].

(** [str(error.get(k, default))]. *)
Definition text_or (k default : string) (d : dict) : string :=
  match dget k d with
  | None => default
  | Some (JStr s) => s
  | Some j => rt_repr j
  end.

(** [claim.replay_status or 500]. *)
Definition status_or_500 (status : option Z) : Z :=
  match status with Some z => if z =? 0 then 500 else z | None => 500 end.

(** The error a stored failure is answered with. *)
Definition stored_error (claim : CreateRequestClaim) : exn :=
  match dget "error" (or_else (rc_replay_payload claim) []) with
  | Some (JObj error) =>
      OC (StoredError (status_or_500 (rc_replay_status claim))
            (text_or "code" "IDEMPOTENCY_REPLAY_ERROR" error)
            (text_or "message" "Stored request failed" error)
            (match dget "details" error with Some (JObj details) => details | _ => [] end))
  | None =>
      OC (StoredError (status_or_500 (rc_replay_status claim)) "IDEMPOTENCY_REPLAY_ERROR"
            "Stored request failed" [])
  | Some _ => RuntimeErr "stored idempotency error payload is malformed"
  end.

(** [_replay_create_session], [_replay_refill_session], [_replay_create_job]. *)
Definition replay_create {A} `{Model A} (success : Z) (claim : CreateRequestClaim) : res A :=
  if bool_decide (rc_replay_status claim = Some success)
  then model_validate (or_else (rc_replay_payload claim) [])
  else Err (stored_error claim).

End messages.

(** [isinstance(exc, (DaemonUnavailable, WholesaleFundingUnverified))]. *)
Definition retryable (e : oc_error) : bool :=
  match e with DaemonUnavailable _ _ | WholesaleFundingUnverified _ => true | _ => false end.

Definition is_outcome_unknown (e : oc_error) : bool :=
  match e with IdempotencyOutcomeUnknown => true | _ => false end.

(** ** The endpoints *)

Section endpoints.
Context {W : Type} {R : Runtime}.
Local Abbreviation M := (M DB W).

(** How an endpoint stores the error its service raised. *)
Definition store_failure (k : idem_key) (settings : Settings) (e : oc_error) : M unit :=
  if retryable e then ret tt
  else fail_create_request k (oc_status e) (error_payload e)
         (cfg_idempotency_retention_seconds settings) (is_outcome_unknown e).

(** The body of [open_session_endpoint], [refill_session_endpoint] and
    [open_job_endpoint]: claim, replay or run, store. *)
Definition create_endpoint {A} `{Model A} (k : idem_key) (api_key_id : uuid)
    (request_fingerprint : string) (success : Z) (settings : Settings) (run : string -> M A)
  : M A :=
  claim <- claim_create_request k api_key_id request_fingerprint
    (cfg_idempotency_inflight_timeout_seconds settings) ;;
  if is_replay claim then lift (replay_create success claim)
  else
    response <- try_except (run (rc_broker_request_id claim))
      (fun e => match e with
                | OC x => Some (db_rollback ;;; store_failure k settings x ;;; raise (OC x))
                | _ => None
                end) ;;
    complete_create_request k success (model_dump response)
      (cfg_idempotency_retention_seconds settings) None ;;;
    ret response.

Context {B : BrokerAccountClient W} {D : PaymentDaemonClient W} {C : RegistryClient W}.

(** [open_session_endpoint]. *)
Definition open_session_endpoint `{Model CreateSessionRequest} `{Model CreateSessionResponse}
    (body : CreateSessionRequest) (user_id api_key_id : uuid) (idempotency_key : string)
    (sdk_identity : option string) (settings : Settings) : M CreateSessionResponse :=
  create_endpoint (user_id, "sessions.create", idempotency_key) api_key_id
    (create_request_fingerprint "sessions.create" (model_dump body)) 201 settings
    (fun request_id =>
       digest <- lift (hex_field (cq_workload_request_digest body)) ;;
       caller <- lift (hex_field (cq_caller_public_key body)) ;;
       open_session (MkOpenSession user_id api_key_id (cq_capability body) (cq_offering body)
         (cq_estimated_runway_units body) (cq_max_total_units body) sdk_identity
         (cq_descriptor_schema body) (cq_route_binding body) (Some request_id) digest caller
         (cq_gateway_session_id body) (cq_preparation_token body)) true settings).

(** [refill_session_endpoint]. *)
Definition refill_session_endpoint `{Model RefillSessionRequest} `{Model RefillSessionResponse}
    (session_id : uuid) (body : RefillSessionRequest) (user_id api_key_id : uuid)
    (idempotency_key : string) (settings : Settings) : M RefillSessionResponse :=
  create_endpoint (user_id, "sessions.refill", idempotency_key) api_key_id
    (create_request_fingerprint "sessions.refill"
       (dmerge [("session_id", JStr (str_uuid session_id))] (model_dump body))) 200 settings
    (fun request_id =>
       digest <- lift (hex_field (rq_workload_request_digest body)) ;;
       refill_session session_id user_id (Some request_id) (rq_max_total_units body) digest true
         settings).

(** [open_job_endpoint]. *)
Definition open_job_endpoint `{Model CreateJobRequest} `{Model CreateJobResponse}
    (body : CreateJobRequest) (user_id api_key_id : uuid) (idempotency_key : string)
    (sdk_identity : option string) (settings : Settings) : M CreateJobResponse :=
  create_endpoint (user_id, "jobs.create", idempotency_key) api_key_id
    (create_request_fingerprint "jobs.create" (model_dump body)) 201 settings
    (fun request_id =>
       digest <- lift (hex_field (jq_workload_request_digest body)) ;;
       caller <- lift (hex_field (jq_caller_public_key body)) ;;
       open_job (MkOpenJob user_id api_key_id (jq_capability body) (jq_offering body)
         (jq_estimated_units body) (jq_max_total_units body) sdk_identity (jq_transport body)
         (jq_route_binding body) (Some request_id) digest caller) true settings).

(** [prepare_session_endpoint]: a refused preparation frees its claim instead
    of storing the refusal. *)
Definition prepare_session_endpoint `{Model PrepareSessionRequest} `{Model PrepareSessionResponse}
    (body : PrepareSessionRequest) (user_id api_key_id : uuid) (idempotency_key : string)
    (settings : Settings) : M PrepareSessionResponse :=
  let k := (user_id, "sessions.prepare", idempotency_key) in
  claim <- claim_create_request k api_key_id
    (create_request_fingerprint "sessions.prepare" (model_dump body))
    (cfg_idempotency_inflight_timeout_seconds settings) ;;
  if is_replay claim then lift (model_validate (or_else (rc_replay_payload claim) []))
  else
    response <- try_except
      (prepare_session user_id api_key_id (pq_capability body) (pq_offering body)
         (pq_descriptor_schema body) (pq_route_binding body) settings)
      (fun e => match e with
                | OC x => Some (
                    db_rollback ;;;
                    release_failed_session_preparation user_id idempotency_key claim ;;;
                    raise (OC x))
                | _ => None
                end) ;;
    complete_create_request k 201 (model_dump response)
      (cfg_idempotency_retention_seconds settings) None ;;;
    ret response.

End endpoints.
