(* ===== verification/AdminResolve.v ===== *)
(** * Administration: operator recourse

    [resolve_stuck_work] of [domains/admin/service.py] with the broker report
    it may accept ([reported_units_for] of [domains/usage/service.py]): an
    operator closes an engagement that cannot settle, by refunding the hold,
    charging it in full or billing what the broker reported. *)

From S2P Require Import Prelude PyData DecimalCtx Errors Effects Store Pricing Settings Billing.
From S2P Require Import SettlementVerification PaymentDaemon Registry Payments SessionCore.
From S2P Require Import SessionSettle.

Open Scope string_scope.
Open Scope Z_scope.
Open Scope loc_scope.

(** ** What the broker reported *)

(** The first usable count of a settlement payload; [int] of anything else is
    skipped. *)
Definition payload_units (payload : dict) : option Z :=
  let units k := match dict_int k payload with
                 | Ok n => if 0 <=? n then Some n else None
                 | Err _ => None
                 end in
  match units "actual_units" with Some n => Some n | None => units "debited_units" end.

(** [reported_units_for]. *)
Definition reported_units_for (row : PaymentSession) : option Z :=
  match dget "broker_exchange" (or_else (ps_breakdown row) []) with
  | Some (JObj exchange) =>
      let signed := match dget "settlement" exchange with
                    | Some (JObj settlement) =>
                        match dget "payload" settlement with
                        | Some (JObj payload) => payload_units payload
                        | _ => None
                        end
                    | _ => None
                    end in
      match dget "work_units" exchange with
      | Some (JInt n) => if 0 <=? n then Some n else signed
      | _ => signed
      end
  | _ => None
  end.

(** ** What each action charges *)

(** [_ceil_bill]. *)
Definition ceil_bill (units amount_wei per_units : Z) : Z :=
  let per_units := Z.max 1 per_units in (units * amount_wei + per_units - 1) / per_units.

(** [int(snapshot.get("units_per_price", 1))]. *)
Definition snapshot_per_units (snapshot : dict) : res Z :=
  match dget "units_per_price" snapshot with
  | None => Ok 1
  | Some _ => dict_int "units_per_price" snapshot
  end.

(** [Decimal(str(snapshot["price_per_work_unit_wei"]))]. *)
Definition snapshot_price (snapshot : dict) : res Z :=
  match dget "price_per_work_unit_wei" snapshot with
  | None => Err KeyError
  | Some (JInt z) => Ok z
  | Some (JStr s) => of_option (int_of_str s) DecimalInvalidOperation
  | Some _ => Err DecimalInvalidOperation
  end.

(** The [try] block of [_wholesale_resolution_amounts]. *)
Definition reported_charge (stored snapshot : dict) (reported : Z) : res Z :=
  let? pricing := pricing_validate stored in
  let? work_unit := of_option (dget "work_unit" snapshot) KeyError in
  let? _ := require (json_eqb (JStr (cp_work_unit pricing)) work_unit)
              (ValueError "retail and route work units differ") in
  let? price := snapshot_price snapshot in
  let? per_units := snapshot_per_units snapshot in
  let? _ := require (negb ((price <? 0) || (per_units <=? 0)))
              (ValueError "invalid wholesale price") in
  calculate_customer_charge pricing reported (ceil_bill reported price per_units).

Definition not_resolvable (row : PaymentSession) (reason : string) : exn :=
  OC (JobNotResolvable reason (Some (ps_state row))).

(** [_wholesale_resolution_amounts]. *)
Definition wholesale_resolution_amounts (row : PaymentSession) (action : string)
  : res (Z * option Z) :=
  let missing := not_resolvable row "missing_customer_pricing" in
  let? maximum := of_option (ps_customer_max_debit_wei row) missing in
  let? stored := of_option (ps_customer_pricing row) missing in
  if String.eqb action "refund_hold" then Ok (0, None)
  else if String.eqb action "charge_full" then Ok (maximum, None)
  else
    let? _ := require (String.eqb action "accept_reported")
                (not_resolvable row "unknown_action") in
    let? reported := of_option (reported_units_for row) (not_resolvable row "no_broker_report") in
    let? _ := require (negb (ps_max_total_units row <? reported))
                (not_resolvable row "reported_units_exceed_authorization") in
    let? billed := remap is_shape_error (fun _ => not_resolvable row "invalid_pricing_snapshot")
      (reported_charge stored (or_else (ps_route_snapshot row) []) reported) in
    let? _ := require (negb (maximum <? billed)) (not_resolvable row "customer_cap_exceeded") in
    Ok (billed, Some reported).

(** ** Resolving *)

(** [ResolveJobResponse]. *)
Record ResolveJobResponse := MkResolveJob {
  rj_job_id : uuid;
  rj_protocol : string;
  rj_action : string;
  rj_state : string;
  rj_outcome : string;
  rj_actual_units : option Z;
  rj_funded_value_wei : Z;
  rj_billed_value_wei : Z;
  rj_refund_wei : Z;
  rj_resolved_at : datetime;
}.

(** The columns a resolution finalizes. *)
Definition resolved_columns (units : option Z) (billed : Z) (outcome : string)
    (r : PaymentSession) : PaymentSession :=
  set_ps_outcome (Some outcome) (set_ps_billed_value_wei (Some billed) (set_ps_actual_units units r)).

Definition opt_str (o : option string) : json := match o with Some s => JStr s | None => JNull end.

Section resolve.
Context {W : Type} {R : Runtime}.
Local Abbreviation M := (M DB W).

Definition operator_resolution (operator : Operator) (action : string) (note : option string)
    (billed refund : Z) (resolved_at : datetime) : dict :=
  [("action", JStr action); ("operator_id", JStr (str_uuid (opr_id operator)));
   ("operator_email", JStr (opr_email operator)); ("note", opt_str note);
   ("billed_value_wei", JStr (str_Z billed)); ("refund_wei", JStr (str_Z refund));
   ("resolved_at", JStr (rt_isoformat resolved_at))].

Definition resolved_breakdown (resolution : dict) (r : PaymentSession) : PaymentSession :=
  set_ps_breakdown (Some (dset "operator_resolution" (JObj resolution)
    (dpop "settlement_block" (or_else (ps_breakdown r) [])))) r.

Definition resolution_audit (row : PaymentSession) (job_id : uuid) (operator : Operator)
    (action : string) (note : option string) (billed refund : Z) : OperatorAudit :=
  MkOperatorAudit (opr_id operator) "resolve_job" (Some (ps_user_id row))
    (Some [("job_id", JStr (str_uuid job_id)); ("protocol", JStr (ps_protocol row));
           ("capability", JStr (ps_capability row)); ("offering", JStr (ps_offering row));
           ("action", JStr action); ("billed_value_wei", JStr (str_Z billed));
           ("refund_wei", JStr (str_Z refund)); ("note", opt_str note)]).

Definition add_audit (a : OperatorAudit) : M unit := db_modify (on_audit (fun l => l ++ [a])%list).

(** The checks before the row moves: the row and what it is charged. *)
Definition resolvable (job_id : uuid) (action : string) (d : DB)
  : res (PaymentSession * Z * option Z * Z * string) :=
  let? row := of_option (t_session d !! job_id) (OC (JobNotResolvable "not_found" None)) in
  let? _ := require (str_elem (ps_state row) [SESSION_STATE_OPEN; SESSION_STATE_DRAINING])
              (not_resolvable row "already_closed") in
  let? _ := require (String.eqb (ps_accounting_mode row) "wholesale_account")
              (not_resolvable row "legacy_accounting_disabled") in
  let? authorization := of_option (ps_authorization_id row ≫= opt_truthy)
              (not_resolvable row "missing_authorization") in
  let? (billed, units) := wholesale_resolution_amounts row action in
  let? funded := of_option (ps_customer_max_debit_wei row) AssertionError in
  Ok (row, billed, units, funded, authorization).

(** What follows the row's move: grants, audit trail and answer. *)
Definition resolve_finish (job_id : uuid) (row : PaymentSession) (operator : Operator)
    (action : string) (note : option string) (authorization_id : string) (units : option Z)
    (funded billed refund : Z) (resolved_at : datetime) : M ResolveJobResponse :=
  let outcome := "operator_" ++ action in
  let resolution := operator_resolution operator action note billed refund resolved_at in
  try_except (mark_spend_authorization_operator_resolved (ps_id row) authorization_id)
    (fun e => match verification_failure e with
              | Some reason => Some (raise (OC (JobNotResolvable reason (Some SESSION_STATE_CLOSED))))
              | None => None
              end) ;;;
  db_modify (update_session job_id (resolved_breakdown resolution)) ;;;
  db_flush ;;;
  record_settlement job_id "operator_resolve" units (Some billed) (Some outcome)
    (Some resolution) ;;;
  add_audit (resolution_audit row job_id operator action note billed refund) ;;;
  db_flush ;;;
  ret (MkResolveJob job_id (ps_protocol row) action SESSION_STATE_CLOSED outcome units funded billed
         refund resolved_at).

(** [resolve_stuck_work]. *)
Definition resolve_stuck_work (job_id : uuid) (operator : Operator) (action : string)
    (note : option string) : M ResolveJobResponse :=
  d <- db_read ;;
  '(row, billed, units, funded, authorization_id) <- lift (resolvable job_id action d) ;;
  let refund := dsub funded billed in
  try_except (transition_state job_id (ps_state row) SESSION_STATE_CLOSED)
    (fun e => match e with
              | InvalidSessionTransition => Some (raise (not_resolvable row "already_closed"))
              | _ => None
              end) ;;;
  (if 0 <? refund then
     release_customer_engagement (ps_user_id row) (ps_id row) refund ;;; ret tt
   else ret tt) ;;;
  resolved_at <- clock_now ;;
  db_modify (update_session job_id (resolved_columns units billed ("operator_" ++ action))) ;;;
  resolve_finish job_id row operator action note authorization_id units funded billed refund
    resolved_at.

End resolve.
