(* ===== verification/Mail.v ===== *)
(** * E-mail

    [providers/email]: the message every provider takes, the pure builders of
    [templates.py], word for word, and the two providers.  The call of the
    Resend SDK is a parameter; logging is not modelled. *)

From Stdlib Require Import Ascii.
From S2P Require Import Prelude PyData Errors Effects Settings.

Open Scope string_scope.
Open Scope Z_scope.
Open Scope loc_scope.

(** [_Message]. *)
Record EmailMessage := make_message {
  em_to : string;
  em_subject : string;
  em_html : string;
  em_text : string;
}.

Definition BRAND : string := "Livepeer Open Clearinghouse".

(** ["\n"] and the double quote. *)
Definition nl : string := String (Ascii.ascii_of_nat 10) EmptyString.
Definition dquote : string := String (Ascii.ascii_of_nat 34) EmptyString.

(** [s.lstrip("/")]. *)
Definition str_lstrip_slash (s : string) : string := str_lstrip_char "/"%char s.

(** [_portal_link]. *)
Definition portal_link (base_url path : string) : string :=
  str_rstrip_slash base_url ++ "/portal/" ++ str_lstrip_slash path.

(** [html.escape(text, quote=True)]: the ampersand is replaced first, so no
    character is escaped twice. *)
Definition html_escape_char (a : ascii) : string :=
  match nat_of_ascii a with
  | 38 => "&amp;"
  | 60 => "&lt;"
  | 62 => "&gt;"
  | 34 => "&quot;"
  | 39 => "&#x27;"
  | _ => String a EmptyString
  end%nat.

(** [_safe]. *)
Fixpoint safe (text : string) : string :=
  match text with
  | EmptyString => EmptyString
  | String a text' => html_escape_char a ++ safe text'
  end.

(** [<a href="...">]. *)
Definition anchor (href : string) : string := "<a href=" ++ dquote ++ href ++ dquote ++ ">".

Definition verification_email (to verify_link : string) : EmailMessage :=
  make_message to ("Verify your " ++ BRAND ++ " account")
    ("<p>Welcome to " ++ BRAND ++ ".</p>"
     ++ "<p>" ++ anchor (safe verify_link) ++ "Click here to verify your email</a>.</p>"
     ++ "<p>The link expires in 24 hours. After verification an operator "
     ++ "will review and approve your account.</p>")
    ("Welcome to " ++ BRAND ++ "." ++ nl ++ nl
     ++ "Click this link to verify your email:" ++ nl ++ verify_link ++ nl ++ nl
     ++ "The link expires in 24 hours. After verification an operator will "
     ++ "review and approve your account." ++ nl).

(** [ttl_minutes] defaults to 60; no caller passes it. *)
Definition password_reset_email (to reset_link : string) (ttl_minutes : Z) : EmailMessage :=
  make_message to ("Reset your " ++ BRAND ++ " password")
    ("<p>A password reset was requested for your " ++ BRAND ++ " account.</p>"
     ++ "<p>" ++ anchor (safe reset_link) ++ "Click here to set a new password</a> "
     ++ "(expires in " ++ str_Z ttl_minutes ++ " minutes).</p>"
     ++ "<p>If you didn't ask for this, you can ignore this email — your "
     ++ "password will not change.</p>")
    ("A password reset was requested for your " ++ BRAND ++ " account." ++ nl ++ nl
     ++ "Use this link to set a new password (expires in "
     ++ str_Z ttl_minutes ++ " minutes):" ++ nl ++ reset_link ++ nl ++ nl
     ++ "If you didn't ask for this, you can ignore the email — your "
     ++ "password will not change." ++ nl).

Definition approval_notification_email (to public_base_url : string) : EmailMessage :=
  let portal := portal_link public_base_url "" in
  make_message to ("Your " ++ BRAND ++ " account is approved")
    ("<p>Your " ++ BRAND ++ " account has been approved.</p>"
     ++ "<p>" ++ anchor (safe portal) ++ "Log in to the portal</a> to create your "
     ++ "API keys.</p>"
     ++ "<p>Each API key is shown to you only once at creation time — copy "
     ++ "it and store it securely.</p>")
    ("Your " ++ BRAND ++ " account has been approved." ++ nl ++ nl
     ++ "You can now log in and create API keys at:" ++ nl ++ portal ++ nl ++ nl
     ++ "Each API key is shown to you only once at creation time — copy it "
     ++ "and store it securely." ++ nl).

(** [str(v)] of a value of a JSON body. *)
Definition py_str {R : Runtime} (j : json) : string :=
  match j with JStr s => s | _ => rt_repr j end.

Fixpoint str_concat (sep : string) (l : list string) : string :=
  match l with
  | [] => ""
  | [x] => x
  | x :: l' => x ++ sep ++ str_concat sep l'
  end.

(** [notification_email]. *)
Definition notification_email {R : Runtime} (to subject : string) (body : dict) : EmailMessage :=
  let text_body :=
    match body with
    | [] => "(no details)"
    | _ => str_concat nl (map (fun kv => "  - " ++ fst kv ++ ": " ++ safe (py_str (snd kv))) body)
    end in
  let html_body :=
    match body with
    | [] => "<p>(no details)</p>"
    | _ => "<ul>" ++ str_concat "" (map (fun kv =>
             "<li><strong>" ++ safe (fst kv) ++ ":</strong> " ++ safe (py_str (snd kv)) ++ "</li>")
             body) ++ "</ul>"
    end in
  make_message to subject
    ("<p>" ++ safe subject ++ "</p>" ++ html_body
     ++ "<p>You can adjust your notification preferences in the " ++ BRAND ++ " portal.</p>")
    (subject ++ nl ++ nl ++ text_body ++ nl ++ nl
     ++ "You can adjust your notification preferences in the " ++ BRAND ++ " portal." ++ nl).

(** ** Providers *)

(** The provider a deployment uses: [NullEmailProvider], or
    [ResendEmailProvider] sending from an address. *)
Inductive EmailProvider :=
  | NullEmailProvider
  | ResendEmailProvider (from : string).

(** The [From] header, with the default [email_from_name]. *)
Definition email_from (settings : Settings) : string :=
  "Livepeer Open Clearinghouse <" ++ cfg_email_from_address settings ++ ">".

(** [ResendEmailProvider.__init__]. *)
Definition make_resend (settings : Settings) : res EmailProvider :=
  match cfg_resend_api_key settings with
  | Some key =>
      if str_truthy key then Ok (ResendEmailProvider (email_from settings))
      else Err (RuntimeErr "ResendEmailProvider requires RESEND_API_KEY")
  | None => Err (RuntimeErr "ResendEmailProvider requires RESEND_API_KEY")
  end.

(** [make_provider]. *)
Definition make_email_provider (settings : Settings) : res EmailProvider :=
  let choice := cfg_email_provider settings in
  if String.eqb choice "null" then Ok NullEmailProvider
  else if String.eqb choice "resend" then make_resend settings
  else match cfg_resend_api_key settings with
       | Some _ => make_resend settings
       | None => Ok NullEmailProvider
       end.

(** The payload of [resend.Emails.send]. *)
Definition resend_payload (from : string) (m : EmailMessage) : dict :=
  [("from", JStr from); ("to", JArr [JStr (em_to m)]); ("subject", JStr (em_subject m));
   ("html", JStr (em_html m)); ("text", JStr (em_text m))].

(** [bool(v)] of a JSON value. *)
Definition json_truthy (j : json) : bool :=
  match j with
  | JNull => false
  | JBool b => b
  | JInt z => negb (z =? 0)
  | JStr s => str_truthy s
  | JArr l => match l with [] => false | _ => true end
  | JObj d => match d with [] => false | _ => true end
  end.

(** [a or b] of looked-up values. *)
Definition or_get (k : string) (d : dict) (a : option json) : option json :=
  match a with
  | Some v => if json_truthy v then a else dget k d
  | None => dget k d
  end.

(** How [ResendEmailProvider.send] reads the SDK's result: the message's
    identifier, or a rejection in a body without one. *)
Definition resend_result {R : Runtime} (result : json) : res (option string) :=
  match result with
  | JObj d =>
      let provider_id := or_get "email_id" d (or_get "message_id" d (dget "id" d)) in
      let absent := match provider_id with None | Some JNull => true | _ => false end in
      let error := or_else (dget "error" d) JNull in
      if absent && json_truthy error
      then Err (EmailSendErr ("Resend rejected the send: " ++ rt_repr error))
      else Ok (match provider_id with Some (JStr id) => Some id | _ => None end)
  | _ => Ok None
  end.

(** [EmailProvider.send], given [resend.Emails.send]. *)
Definition provider_send {R : Runtime} {W} (sdk : dict -> W -> res json * W) (p : EmailProvider)
    (m : EmailMessage) (w : W) : res (option string) * W :=
  match p with
  | NullEmailProvider => (Ok None, w)
  | ResendEmailProvider from =>
      match sdk (resend_payload from m) w with
      | (Ok result, w') => (resend_result result, w')
      | (Err e, w') => (Err e, w')
      end
  end.
