(* ===== verification/Credentials.v ===== *)
(** * Credentials

    [providers/auth]: API keys, passwords and web-session tokens as pure
    functions of the secrets they are made of.  The random source, Argon2 and
    the signed cookies of itsdangerous are parameters. *)

From S2P Require Import Prelude PyData Errors Effects Store Settings Mail.

Open Scope string_scope.
Open Scope Z_scope.
Open Scope loc_scope.

(** How [PasswordHasher.verify] ends: it returns, or raises one of Argon2's
    exceptions. *)
Inductive argon2_outcome := Verified | VerifyMismatch | InvalidHash | VerificationFailed.

(** [secrets.token_urlsafe(32)], indexed by call; Argon2, which draws its salt,
    also indexed by call; [URLSafeTimedSerializer.dumps] and [loads], keyed by
    secret and salt, the latter reading the time; [EmailProvider.send]. *)
Class Credentials (W : Type) := {
  cr_token_urlsafe : nat -> string;
  cr_argon2_hash : nat -> string -> string;
  cr_argon2_verify : string -> string -> argon2_outcome;
  cr_cookie_dumps : string -> string -> nat -> string -> string;
  cr_cookie_loads : string -> string -> nat -> Z -> string -> option json;
  cr_send : EmailMessage -> W -> res (option string) * W;
}.

(** What Argon2 documents: a password verifies against its own hash. *)
Class PasswordLaws (W : Type) `{Credentials W} : Prop :=
  argon2_own_hash : forall n p, cr_argon2_verify (cr_argon2_hash n p) p = Verified.

(** [s[:n]]. *)
Fixpoint str_take (n : nat) (s : string) : string :=
  match n, s with
  | S n', String a s' => String a (str_take n' s')
  | _, _ => EmptyString
  end.

Section auth.
Context {R : Runtime}.

(** [hashlib.sha256(token.encode("utf-8")).hexdigest()]. *)
Definition hash_token (token : string) : string :=
  bytes_hex (rt_sha256 (String.list_byte_of_string token)).

(** ** [providers/auth/api_key.py] *)

Definition KEY_BRAND : string := "pymth_live_".
Definition KEY_RANDOM_LEN : nat := 32.
Definition KEY_PREFIX_LEN : nat := String.length KEY_BRAND + 8.

(** [generate], from the random suffix. *)
Definition api_key_of (random : string) : string := KEY_BRAND ++ str_take KEY_RANDOM_LEN random.

(** [prefix]. *)
Definition key_prefix (raw_key : string) : string := str_take KEY_PREFIX_LEN raw_key.

(** [hash]. *)
Definition key_hash (raw_key pepper : string) : string := hash_token (pepper ++ raw_key).

(** [verify]. *)
Definition key_verify (raw_key stored_hash pepper : string) : bool :=
  String.eqb (key_hash raw_key pepper) stored_hash.

(** [looks_well_formed]. *)
Definition looks_well_formed (raw_key : string) : bool :=
  str_startswith KEY_BRAND raw_key && (KEY_PREFIX_LEN <=? String.length raw_key)%nat.

End auth.

(** ** [providers/auth/password.py] and [session.py] *)

Section passwords.
Context {DB W : Type} {K : Credentials W}.
Local Abbreviation M := (M DB W).

(** [password.hash]. *)
Definition password_hash (password : string) : M string :=
  tick (fun n => cr_argon2_hash n password).

(** [password.verify]. *)
Definition password_verify (password stored_hash : string) : res bool :=
  match cr_argon2_verify stored_hash password with
  | Verified => Ok true
  | VerifyMismatch | InvalidHash => Ok false
  | VerificationFailed => Err Argon2VerificationErr
  end.

(** [generate_token]. *)
Definition generate_token : M string := tick cr_token_urlsafe.

(** [generate]. *)
Definition generate_api_key : M string := random <- generate_token ;; ret (api_key_of random).

Definition SESSION_SALT : string := "open-clearinghouse-session".

(** [seal]. *)
Definition seal (secret token : string) : M string :=
  tick (fun n => cr_cookie_dumps secret SESSION_SALT n token).

(** [unseal]. *)
Definition unseal (secret signed : string) (max_age_seconds : Z) : M (option string) :=
  loaded <- tick (fun n => cr_cookie_loads secret SESSION_SALT n max_age_seconds signed) ;;
  ret (match loaded with Some (JStr token) => Some token | _ => None end).

End passwords.

(** ** Lemmas *)

Lemma str_take_app (s t : string) : str_take (String.length s) (s ++ t) = s.
Proof. induction s as [|a s IH]; [by destruct t|]. exact (f_equal (String a) IH). Qed.

Lemma key_verify_own {R : Runtime} raw pepper : key_verify raw (key_hash raw pepper) pepper = true.
Proof. apply String.eqb_refl. Qed.
