(* ===== verification/Accounts.v ===== *)
(** * Accounts

    [domains/accounts/service.py] and [oauth.py] with the email records of
    [domains/notifications/service.py], [api_keys/service.py], and the identity
    dependencies of [dependencies.py] that decide who a request speaks for. *)

From S2P Require Import Prelude PyData Errors Effects Store Settings Mail Credentials.
From Stdlib Require Import Strings.Ascii.

Open Scope string_scope.
Open Scope Z_scope.
Open Scope loc_scope.

Definition EMAIL_VERIFICATION_TTL : Z := 24 * 3600.
Definition PASSWORD_RESET_TTL : Z := 3600.
Definition SESSION_TTL : Z := 14 * 24 * 3600.

Definition EmailAlreadyRegistered : exn := ServiceError "email_already_registered".
Definition InvalidCredentials : exn := ServiceError "invalid_credentials".
Definition InvalidToken : exn := ServiceError "invalid_token".
Definition EmailNotVerified : exn := ServiceError "email_not_verified".
Definition ApiKeyNotFound : exn := ApiKeyServiceError "api_key_not_found".
Definition UnverifiedProviderEmail : exn := OAuthServiceError "oauth_email_unverified".

(** ** Rows *)

Definition has_email (email : string) (u : User) : bool := String.eqb (us_email u) email.
Definition has_id (id : uuid) (u : User) : bool := (us_id u =? id)%N.

Definition user_by_email (email : string) (d : DB) : option User :=
  find (has_email email) (i_user (t_identity d)).
(** [session.get(User, id)]. *)
Definition user_by_id (id : uuid) (d : DB) : option User :=
  find (has_id id) (i_user (t_identity d)).

Definition verified_at (now : datetime) (u : User) : User :=
  MkUser (us_id u) (us_email u) (Some now) (us_password_hash u).
Definition with_password (hash : string) (u : User) : User :=
  MkUser (us_id u) (us_email u) (us_email_verified_at u) (Some hash).

(** [token_hash == h AND consumed_at IS NULL]. *)
Definition usable_token (h : string) (t : UserToken) : bool :=
  String.eqb (ut_token_hash t) h && match ut_consumed_at t with None => true | Some _ => false end.
Definition consumed (now : datetime) (t : UserToken) : UserToken :=
  MkUserToken (ut_user_id t) (ut_token_hash t) (ut_expires_at t) (Some now).

Definition session_of_token (h : string) (w : UserSession) : bool := String.eqb (uw_token_hash w) h.
Definition session_live (w : UserSession) : bool :=
  match uw_revoked_at w with None => true | Some _ => false end.
Definition revoked (now : datetime) (w : UserSession) : UserSession :=
  MkUserSession (uw_user_id w) (uw_token_hash w) (uw_expires_at w) (Some now).

Definition active_approval (user_id : uuid) (a : OperatorApproval) : bool :=
  (oa_user_id a =? user_id)%N && match oa_revoked_at a with None => true | Some _ => false end.

(** INSERT under a unique constraint: it fails on a row that clashes, or when a
    concurrent transaction inserted one first. *)
Definition insert_unique {W} (clash : DB -> bool) (g : DB -> DB) : M DB W unit :=
  d <- db_peek ;;
  guard (negb (clash d)) IntegrityErr ;;;
  db_race ;;;
  db_modify g ;;;
  db_flush.

Section accounts.
Context {W : Type} {R : Runtime} {K : Credentials W}.
Local Abbreviation M := (M DB W).

(** ** Mail *)

(** [record_email_send]: the row of a message that went out. *)
Definition record_email_send (to subject : string) (provider_message_id : option string)
    (user_id : option uuid) : M EmailSend :=
  now <- clock_now ;;
  id <- new_uuid ;;
  let row := MkEmailSend id user_id to subject provider_message_id "sent" now in
  db_modify (on_email_send (fun l => l ++ [row])%list) ;;;
  db_flush ;;;
  ret row.

(** [email_provider.send] followed by its record. *)
Definition send_and_record (m : EmailMessage) (user_id : uuid) : M unit :=
  provider_message_id <- remote (cr_send m) ;;
  record_email_send (em_to m) (em_subject m) provider_message_id (Some user_id) ;;;
  ret tt.

(** [send_verification_email]. *)
Definition send_verification_email (user : User) (public_base_url : string) : M unit :=
  raw_token <- generate_token ;;
  now <- clock_now ;;
  db_modify (on_verification (fun l => l ++
    [MkUserToken (us_id user) (hash_token raw_token)
       (dt_add_seconds now EMAIL_VERIFICATION_TTL) None])%list) ;;;
  db_flush ;;;
  send_and_record (verification_email (us_email user)
    (str_rstrip_slash public_base_url ++ "/portal/#/verify-email?token=" ++ raw_token))
    (us_id user).

(** ** Sign-up and verification *)

(** INSERT of a user; [email] is unique. *)
Definition insert_user (email : string) (email_verified_at : option datetime)
    (hash : option string) : M User :=
  id <- new_uuid ;;
  let user := MkUser id email email_verified_at hash in
  insert_unique (fun d => existsb (has_email email) (i_user (t_identity d)))
    (on_user (fun l => l ++ [user])%list) ;;;
  ret user.

(** [signup]. *)
Definition signup (email password public_base_url : string) : M User :=
  d <- db_read ;;
  guard (negb (is_some (user_by_email email d))) EmailAlreadyRegistered ;;;
  hash <- password_hash password ;;
  user <- insert_user email None (Some hash) ;;
  send_verification_email user public_base_url ;;;
  ret user.

(** Consuming a single-use token, the common part of [verify_email] and
    [reset_password]: the row, its user and the time. *)
Definition consume_token (table : Identity -> list UserToken)
    (on_table : (list UserToken -> list UserToken) -> DB -> DB) (token : string)
  : M (User * datetime) :=
  let h := hash_token token in
  d <- db_read ;;
  now <- clock_now ;;
  match find (usable_token h) (table (t_identity d)) with
  | None => raise InvalidToken
  | Some t =>
      guard (negb (dt_us (ut_expires_at t) <? dt_us now)) InvalidToken ;;;
      db_modify (on_table (update_first (usable_token h) (consumed now))) ;;;
      d <- db_read ;;
      match user_by_id (ut_user_id t) d with
      | None => raise InvalidToken
      | Some user => ret (user, now)
      end
  end.

(** [verify_email]. *)
Definition verify_email (token : string) : M User :=
  '(user, now) <- consume_token i_verification on_verification token ;;
  db_modify (on_user (update_first (has_id (us_id user)) (verified_at now))) ;;;
  ret (verified_at now user).

(** [request_resend_verification]. *)
Definition request_resend_verification (email public_base_url : string) : M unit :=
  d <- db_read ;;
  match user_by_email email d with
  | None => ret tt
  | Some user =>
      if is_some (us_email_verified_at user) || negb (is_some (us_password_hash user)) then ret tt
      else send_verification_email user public_base_url
  end.

(** ** Passwords *)

(** [request_password_reset]. *)
Definition request_password_reset (email public_base_url : string) : M unit :=
  d <- db_read ;;
  match user_by_email email d with
  | None => ret tt
  | Some user =>
      if negb (is_some (us_password_hash user)) then ret tt
      else
        raw_token <- generate_token ;;
        now <- clock_now ;;
        db_modify (on_reset (fun l => l ++
          [MkUserToken (us_id user) (hash_token raw_token)
             (dt_add_seconds now PASSWORD_RESET_TTL) None])%list) ;;;
        db_flush ;;;
        send_and_record (password_reset_email (us_email user)
          (str_rstrip_slash public_base_url ++ "/portal/#/reset-password?token=" ++ raw_token) 60)
          (us_id user)
  end.

(** [reset_password]. *)
Definition reset_password (token new_password : string) : M User :=
  '(user, now) <- consume_token i_reset on_reset token ;;
  hash <- password_hash new_password ;;
  db_modify (on_user (update_first (has_id (us_id user)) (with_password hash))) ;;;
  db_flush ;;;
  db_modify (on_web_session (map (fun w =>
    if (uw_user_id w =? us_id user)%N && session_live w then revoked now w else w))) ;;;
  ret (with_password hash user).

(** ** Web sessions *)

(** A new [UserSession] row; [token_hash] is unique. *)
Definition open_web_session (user_id : uuid) : M string :=
  raw_token <- generate_token ;;
  now <- clock_now ;;
  db_modify (on_web_session (fun l => l ++
    [MkUserSession user_id (hash_token raw_token) (dt_add_seconds now SESSION_TTL) None])%list) ;;;
  ret raw_token.

(** [login]. *)
Definition login (email password : string) : M (User * string) :=
  d <- db_read ;;
  user <- lift (of_option (user_by_email email d) InvalidCredentials) ;;
  stored <- lift (of_option (us_password_hash user) InvalidCredentials) ;;
  matches <- lift (password_verify password stored) ;;
  guard matches InvalidCredentials ;;;
  guard (is_some (us_email_verified_at user)) EmailNotVerified ;;;
  raw_token <- open_web_session (us_id user) ;;
  ret (user, raw_token).

(** [resolve_session]. *)
Definition resolve_session (raw_token : string) : M (option User) :=
  d <- db_read ;;
  match find (session_of_token (hash_token raw_token)) (i_web_session (t_identity d)) with
  | None => ret None
  | Some w =>
      if negb (session_live w) then ret None
      else
        now <- clock_now ;;
        if dt_us (uw_expires_at w) <? dt_us now then ret None
        else ret (user_by_id (uw_user_id w) d)
  end.

(** [revoke_session]. *)
Definition revoke_session (raw_token : string) : M unit :=
  let h := hash_token raw_token in
  d <- db_read ;;
  match find (session_of_token h) (i_web_session (t_identity d)) with
  | None => ret tt
  | Some w =>
      if negb (session_live w) then ret tt
      else
        now <- clock_now ;;
        db_modify (on_web_session (update_first (session_of_token h) (revoked now)))
  end.

(** [is_approved]. *)
Definition is_approved (user_id : uuid) : M bool :=
  d <- db_read ;; ret (existsb (active_approval user_id) (i_approval (t_identity d))).

End accounts.
