(* ===== verification/Access.v ===== *)
(** * Access

    [domains/accounts/oauth.py], [domains/api_keys/service.py] and the identity
    dependencies of [dependencies.py]: whom a request speaks for, by API key,
    portal cookie or operator token. *)

From S2P Require Import Prelude PyData Errors Effects Store Settings Credentials Accounts.
From Stdlib Require Import Strings.Ascii.

Open Scope string_scope.
Open Scope Z_scope.
Open Scope loc_scope.

(** ** Rows *)

Definition key_live (k : ApiKey) : bool := negb (is_some (ak_revoked_at k)).
Definition has_prefix (p : string) (k : ApiKey) : bool := String.eqb (ak_prefix k) p.
Definition live_prefix (p : string) (k : ApiKey) : bool := has_prefix p k && key_live k.
Definition own_key (user_id id : uuid) (k : ApiKey) : bool :=
  (ak_id k =? id)%N && (ak_user_id k =? user_id)%N.
Definition key_used (now : datetime) (k : ApiKey) : ApiKey :=
  MkApiKey (ak_id k) (ak_user_id k) (ak_prefix k) (ak_hash k) (ak_label k) (Some now)
    (ak_revoked_at k).
Definition key_revoked (now : datetime) (k : ApiKey) : ApiKey :=
  MkApiKey (ak_id k) (ak_user_id k) (ak_prefix k) (ak_hash k) (ak_label k) (ak_last_used_at k)
    (Some now).

Definition operator_live (o : Operator) : bool := negb (is_some (opr_revoked_at o)).
Definition operator_token (h : string) (o : Operator) : bool :=
  String.eqb (opr_token_hash o) h && operator_live o.

Definition identity_of (provider provider_user_id : string) (i : UserOAuthIdentity) : bool :=
  String.eqb (oi_provider i) provider && String.eqb (oi_provider_user_id i) provider_user_id.

(** [_unauthorized]. *)
Definition unauthorized (detail : string) : exn := HTTPException 401 detail.

(** The token of an [Authorization: Bearer] header. *)
Definition bearer_token (authorization : string) : option string :=
  match str_partition " "%char authorization with
  | (scheme, Some token) =>
      if String.eqb (str_lower scheme) "bearer" && str_truthy token then Some token else None
  | (_, None) => None
  end.

Section access.
Context {W : Type} {R : Runtime} {K : Credentials W}.
Local Abbreviation M := (M DB W).

(** ** OAuth *)

(** Attaching an identity; [(provider, provider_user_id)] is unique. *)
Definition link_identity (user_id : uuid) (provider provider_user_id email : string) : M unit :=
  insert_unique
    (fun d => existsb (identity_of provider provider_user_id) (i_oauth (t_identity d)))
    (on_oauth (fun l => l ++
       [MkUserOAuthIdentity user_id provider provider_user_id email])%list).

(** [find_or_link_user]. *)
Definition find_or_link_user (provider provider_user_id email : string) (email_verified : bool)
  : M User :=
  guard email_verified UnverifiedProviderEmail ;;;
  d <- db_read ;;
  let linked :=
    match find (identity_of provider provider_user_id) (i_oauth (t_identity d)) with
    | Some identity => user_by_id (oi_user_id identity) d
    | None => None
    end in
  match linked with
  | Some user => ret user
  | None =>
      now <- clock_now ;;
      match user_by_email email d with
      | Some existing =>
          let verify u := if is_some (us_email_verified_at u) then u else verified_at now u in
          db_modify (on_user (update_first (has_email email) verify)) ;;;
          link_identity (us_id existing) provider provider_user_id email ;;;
          ret (verify existing)
      | None =>
          user <- insert_user email (Some now) None ;;
          link_identity (us_id user) provider provider_user_id email ;;;
          ret user
      end
  end.

(** The rest of [oauth_callback_endpoint]: a portal session for that user. *)
Definition oauth_login (provider provider_user_id email : string) (email_verified : bool)
    (settings : Settings) : M (User * string) :=
  user <- try_except (find_or_link_user provider provider_user_id email email_verified)
    (fun e => match e with
              | OAuthServiceError code => Some (raise (HTTPException 400 code))
              | _ => None
              end) ;;
  raw_token <- open_web_session (us_id user) ;;
  db_flush ;;;
  sealed <- seal (cfg_session_secret settings) raw_token ;;
  ret (user, sealed).

(** ** API keys *)

(** [create]; [prefix] is unique. *)
Definition create_api_key (user_id : uuid) (label pepper : string) : M (ApiKey * string) :=
  raw_key <- generate_api_key ;;
  id <- new_uuid ;;
  let row := MkApiKey id user_id (key_prefix raw_key) (key_hash raw_key pepper) label None None in
  insert_unique (fun d => existsb (has_prefix (key_prefix raw_key)) (i_api_key (t_identity d)))
    (on_api_key (fun l => l ++ [row])%list) ;;;
  ret (row, raw_key).

(** [revoke]. *)
Definition revoke_api_key (user_id api_key_id : uuid) : M ApiKey :=
  d <- db_read ;;
  row <- lift (of_option (find (own_key user_id api_key_id) (i_api_key (t_identity d)))
                 ApiKeyNotFound) ;;
  if key_live row then
    now <- clock_now ;;
    db_modify (on_api_key (update_first (own_key user_id api_key_id) (key_revoked now))) ;;;
    ret (key_revoked now row)
  else ret row.

(** [validate_raw_key]. *)
Definition validate_raw_key (raw_key pepper : string) : M (option (ApiKey * User)) :=
  if negb (looks_well_formed raw_key) then ret None
  else
    let p := live_prefix (key_prefix raw_key) in
    d <- db_read ;;
    match find p (i_api_key (t_identity d)) with
    | None => ret None
    | Some row =>
        if negb (key_verify raw_key (ak_hash row) pepper) then ret None
        else
          match user_by_id (ak_user_id row) d with
          | None => ret None
          | Some user =>
              now <- clock_now ;;
              db_modify (on_api_key (update_first p (key_used now))) ;;;
              ret (Some (key_used now row, user))
          end
    end.

(** ** Identity dependencies *)

(** [get_current_api_key_and_user]. *)
Definition get_current_api_key_and_user (settings : Settings)
    (x_api_key authorization : option string) : M (ApiKey * User) :=
  let raw :=
    match x_api_key with
    | Some k => Some k
    | None => authorization ≫= bearer_token
    end in
  match raw ≫= (fun k => if str_truthy k then Some k else None) with
  | None => raise (unauthorized "missing api key")
  | Some raw_key =>
      result <- validate_raw_key raw_key (cfg_api_key_hash_pepper settings) ;;
      lift (of_option result (unauthorized "invalid api key"))
  end.

(** The user behind a cookie, for [get_session_user] and [get_authed_user]. *)
Definition cookie_user (settings : Settings) (cookie : string) : M User :=
  unsealed <- unseal (cfg_session_secret settings) cookie SESSION_TTL ;;
  raw_token <- lift (of_option unsealed (unauthorized "invalid session")) ;;
  user <- resolve_session raw_token ;;
  lift (of_option user (unauthorized "invalid session")).

(** [get_session_user]. *)
Definition get_session_user (settings : Settings) (cookie : option string) : M User :=
  cookie <- lift (of_option cookie (unauthorized "missing session")) ;;
  cookie_user settings cookie.

(** [get_authed_user]: the key wins over the cookie. *)
Definition get_authed_user (settings : Settings) (cookie api_key : option string) : M User :=
  match api_key ≫= (fun k => if str_truthy (str_strip k) then Some k else None) with
  | Some k =>
      pair <- validate_raw_key k (cfg_api_key_hash_pepper settings) ;;
      '(_, user) <- lift (of_option pair (unauthorized "invalid api key")) ;;
      ret user
  | None =>
      match cookie with
      | Some c => cookie_user settings c
      | None => raise (unauthorized "missing credentials")
      end
  end.

(** [authenticate_operator]. *)
Definition authenticate_operator (token : string) : M (option Operator) :=
  d <- db_read ;;
  ret (find (operator_token (hash_token token)) (i_operator (t_identity d))).

(** [get_current_operator]. *)
Definition get_current_operator (authorization : option string) : M Operator :=
  header <- lift (of_option authorization (unauthorized "missing operator token")) ;;
  token <- lift (of_option (bearer_token header) (unauthorized "invalid operator token")) ;;
  operator <- authenticate_operator token ;;
  lift (of_option operator (unauthorized "invalid operator token")).

(** [get_owner_operator]. *)
Definition get_owner_operator (authorization : option string) : M Operator :=
  operator <- get_current_operator authorization ;;
  guard (String.eqb (opr_role operator) "owner")
    (HTTPException 403 "operator_role_required:owner") ;;;
  ret operator.

End access.
