(* ===== verification/Usage.v ===== *)
(** * Usage

    [domains/usage]: reads over the engagements of a customer or of the whole
    fleet: a page of jobs, a summary of a window, the three figures of the
    dashboard, and what needs an operator's attention.  Every figure of the
    money columns is a sum in the decimal context, in the order the code adds. *)

From S2P Require Import Prelude PyData DecimalCtx Errors Effects Store Pricing Settings Billing.
From S2P Require Import Registry SessionCore SessionFlows AdminResolve Mail Credentials Accounts Access.
From Stdlib Require Import Floats.SpecFloat.

Open Scope string_scope.
Open Scope Z_scope.
Open Scope loc_scope.

(** ** Constants and filters *)

Definition OPEN_STATES : list string := [SESSION_STATE_OPEN; SESSION_STATE_DRAINING].
Definition DEFAULT_STALE_AFTER_SECONDS : Z := 900.
Definition DEFAULT_SESSION_ATTENTION_AFTER_SECONDS : Z := 2 * 60 * 60.
Definition ZERO_OUTPUT_MIN_DURATION_SECONDS : Z := 60.
Definition ZERO_OUTPUT_LOOKBACK_HOURS : Z := 24.
Definition SETTLEMENT_FAILURE_EVENT : string := "server.settlement_verification_failed".
Definition DEFAULT_SUMMARY_DAYS : Z := 30.
Definition MAX_PAGE_LIMIT : Z := 500.
Definition ATTENTION_LIMIT : nat := 100.

(** [JobFilters]. *)
Record JobFilters := MkJobFilters {
  jf_capability : option string;
  jf_offering : option string;
  jf_api_key_id : option uuid;
  jf_user_id : option uuid;
  jf_state : option string;
  jf_since : option datetime;
  jf_until : option datetime;
}.

Definition no_filters : JobFilters := MkJobFilters None None None None None None None.

(** ** Times *)

(** [_naive] and [_aware]. *)
Definition naive (d : datetime) : datetime := DT (dt_us d) false.
Definition aware (d : datetime) : datetime := DT (dt_us d) true.

Definition days_of (n : Z) : Z := 86400 * n.

(** [_default_window], [now] being the clock's reading. *)
Definition default_window (now : datetime) (since until : option datetime) : datetime * datetime :=
  let fin := match until with Some u => aware u | None => now end in
  let start := match since with
               | Some s => aware s
               | None => dt_add_seconds fin (- days_of DEFAULT_SUMMARY_DAYS)
               end in
  if dt_us fin <? dt_us start then (fin, start) else (start, fin).

(** [timedelta.total_seconds()] of a span in microseconds. *)
Definition total_seconds (us : Z) : spec_float := float_ratio us 1000000.

(** A span against a whole number of seconds: a microsecond off the bound is far
    more than the rounding of [total_seconds] there. *)
Definition longer_than (seconds us : Z) : bool := 1000000 * seconds <? us.
Definition at_least (seconds us : Z) : bool := 1000000 * seconds <=? us.

Definition age_us (now : datetime) (row : PaymentSession) : Z :=
  dt_us (naive now) - dt_us (naive (ps_opened_at row)).

(** ** Rows *)

Definition is_open (row : PaymentSession) : bool := str_elem (ps_state row) OPEN_STATES.
Definition is_done (row : PaymentSession) : bool := String.eqb (ps_state row) SESSION_STATE_CLOSED.

(** [blocked_reason_for]. *)
Definition blocked_reason_for (row : PaymentSession) : option string :=
  match dget "settlement_block" (or_else (ps_breakdown row) []) with
  | Some (JObj block) => as_str (dget "reason" block)
  | _ => None
  end.

(** [accounting_outcome_for]. *)
Definition accounting_outcome_for (row : PaymentSession) (now : datetime) (stale_after_seconds : Z)
  : string :=
  if is_done row then
    if bool_decide (ps_outcome row = Some "conservative_full_charge")
    then "conservative_full_charge" else "broker_settled"
  else if is_some (blocked_reason_for row) then "unresolved"
  else if longer_than stale_after_seconds (age_us now row) then "unresolved" else "open".

(** [_work_unit]. *)
Definition work_unit_of (row : PaymentSession) : string :=
  match dget "work_unit" (or_else (ps_route_snapshot row) []) with
  | Some (JStr u) => if str_truthy u then u else "units"
  | _ => "units"
  end.

(** [_held]. *)
Definition held_of (row : PaymentSession) : Z :=
  if is_open row then ps_funded_value_wei row else 0.

(** [_refunded]. *)
Definition refunded_of (row : PaymentSession) : option Z :=
  match ps_billed_value_wei row with
  | Some billed =>
      if is_done row
      then let refund := dsub (ps_funded_value_wei row) billed in
           Some (if 0 <? refund then refund else 0)
      else None
  | None => None
  end.

(** [UsageJobView]. *)
Record UsageJobView := MkJobView {
  uj_row : PaymentSession;
  uj_api_key_label : option string;
  uj_accounting_outcome : string;
  uj_work_unit : string;
  uj_refunded_wei : option Z;
  uj_held_wei : Z;
  uj_opened_at : datetime;
  uj_closed_at : option datetime;
  uj_duration_seconds : option spec_float;
  uj_blocked_reason : option string;
  uj_reported_units : option Z;
  uj_user_id : option uuid;
  uj_user_email : option string;
}.

(** [job_view]: the columns copied as they are, in [uj_row], and the rest. *)
Definition job_view (now : datetime) (stale_after_seconds : Z) (label email : option string)
    (include_user : bool) (row : PaymentSession) : UsageJobView :=
  let closed_at := aware <$> ps_closed_at row in
  let opened_at := aware (ps_opened_at row) in
  MkJobView row label (accounting_outcome_for row now stale_after_seconds) (work_unit_of row)
    (refunded_of row) (held_of row) opened_at closed_at
    ((fun c => total_seconds (dt_us c - dt_us opened_at)) <$> closed_at)
    (if is_open row then blocked_reason_for row else None)
    (if is_open row then reported_units_for row else None)
    (if include_user then Some (ps_user_id row) else None)
    (if include_user then email else None).

(** ** Selecting rows *)

Definition optional {A} (o : option A) (f : A -> bool) : bool :=
  match o with Some a => f a | None => true end.
Definition optional_text (o : option string) (s : string) : bool :=
  optional o (fun t => negb (str_truthy t) || String.eqb s t).

(** [_apply_filters]. *)
Definition selected (f : JobFilters) (row : PaymentSession) : bool :=
  optional (jf_user_id f) (N.eqb (ps_user_id row))
  && optional_text (jf_capability f) (ps_capability row)
  && optional_text (jf_offering f) (ps_offering row)
  && optional (jf_api_key_id f) (N.eqb (ps_api_key_id row))
  && (if bool_decide (jf_state f = Some "closed") then is_done row
      else if bool_decide (jf_state f = Some "open") then is_open row else true)
  && optional (jf_since f) (fun s => dt_us s <=? dt_us (ps_opened_at row))
  && optional (jf_until f) (fun u => dt_us (ps_opened_at row) <? dt_us u).

(** [_labels_for] and [_emails_for]. *)
Definition labels_for (d : DB) (keys : list uuid) : gmap uuid string :=
  fold_left (fun m k => <[ak_id k := ak_label k]> m)
    (List.filter (fun k => bool_decide (ak_id k ∈ keys)) (i_api_key (t_identity d))) ∅.
Definition emails_for (d : DB) (users : list uuid) : gmap uuid string :=
  fold_left (fun m u => <[us_id u := us_email u]> m)
    (List.filter (fun u => bool_decide (us_id u ∈ users)) (i_user (t_identity d))) ∅.

(** ORDER BY opened_at DESC, id DESC. *)
Definition newest_first (a b : PaymentSession) : Prop :=
  dt_us (ps_opened_at b) < dt_us (ps_opened_at a)
  \/ (dt_us (ps_opened_at b) = dt_us (ps_opened_at a) /\ (ps_id b <= ps_id a)%N).
#[export] Instance newest_first_dec : RelDecision newest_first.
Proof. intros a b. unfold newest_first. apply _. Defined.

(** ORDER BY opened_at, and by closed_at DESC. *)
Definition opened_earlier (a b : PaymentSession) : Prop :=
  dt_us (ps_opened_at a) <= dt_us (ps_opened_at b).
#[export] Instance opened_earlier_dec : RelDecision opened_earlier.
Proof. intros a b. unfold opened_earlier. apply _. Defined.
Definition closed_us (r : PaymentSession) : Z := match ps_closed_at r with Some t => dt_us t | None => 0 end.
Definition closed_later (a b : PaymentSession) : Prop := closed_us b <= closed_us a.
#[export] Instance closed_later_dec : RelDecision closed_later.
Proof. intros a b. unfold closed_later. apply _. Defined.

(** [UsageJobPage]. *)
Record UsageJobPage := MkJobPage {
  jp_items : list UsageJobView;
  jp_total : Z;
  jp_limit : Z;
  jp_offset : Z;
}.

(** ** Grouping *)

(** A dict with a running value per key, in insertion order. *)
Fixpoint tally {K A} `{EqDecision K} (k : K) (init : A) (step : A -> A) (l : list (K * A))
  : list (K * A) :=
  match l with
  | [] => [(k, step init)]
  | (k', a) :: l' =>
      if decide (k' = k) then (k', step a) :: l' else (k', a) :: tally k init step l'
  end.

(** What the dashboards add up for a group of rows. *)
Record Tally := MkTally {
  ty_jobs : Z;
  ty_units : Z;
  ty_billed_wei : Z;
  ty_held_wei : Z;
}.

Definition tally_zero : Tally := MkTally 0 0 0 0.

Definition add_billed (row : PaymentSession) (billed : Z) : Z :=
  match ps_billed_value_wei row with Some b => dadd billed b | None => billed end.

(** One row more in its group. *)
Definition add_row (row : PaymentSession) (t : Tally) : Tally :=
  MkTally (ty_jobs t + 1) (ty_units t + or_else (ps_actual_units row) 0)
    (add_billed row (ty_billed_wei t)) (dadd (ty_held_wei t) (held_of row)).

Definition group_by {K} `{EqDecision K} (key : PaymentSession -> K) (rows : list PaymentSession)
  : list (K * Tally) :=
  fold_left (fun acc row => tally (key row) tally_zero (add_row row) acc) rows [].

(** The first row of a group, which names its protocol and unit. *)
Definition first_of {K} `{EqDecision K} (key : PaymentSession -> K) (k : K)
    (rows : list PaymentSession) : option PaymentSession :=
  List.find (fun row => bool_decide (key row = k)) rows.

(** [UsageTotals], [OfferingUsage], [ApiKeyUsage], [DayUsage], [UserUsage]. *)
Record UsageTotals := MkTotals {
  tot_jobs : Z;
  tot_open_jobs : Z;
  tot_closed_jobs : Z;
  tot_billed_wei : Z;
  tot_refunded_wei : Z;
  tot_held_wei : Z;
}.
Record OfferingUsage := MkOfferingUsage {
  ou_capability : string;
  ou_offering : string;
  ou_protocol : string;
  ou_work_unit : string;
  ou_tally : Tally;
}.
Record ApiKeyUsage := MkKeyUsage {
  ku_api_key_id : uuid;
  ku_label : option string;
  ku_tally : Tally;
}.
Record DayUsage := MkDayUsage {
  du_day : string;
  du_tally : Tally;
}.
Record UserUsage := MkUserUsage {
  uu_user_id : uuid;
  uu_email : option string;
  uu_tally : Tally;
}.

(** [_day_key]: the first ten characters of the ISO form. *)
Definition day_key (d : datetime) : string := String.substring 0 10 (dt_strftime (aware d)).

Definition str_le (a b : string) : bool := negb (String.ltb b a).

(** The keys of [sorted]: days; billed value descending, then names. *)
Definition day_before (a b : DayUsage) : Prop := str_le (du_day a) (du_day b) = true.
#[export] Instance day_before_dec : RelDecision day_before.
Proof. intros a b. unfold day_before. apply _. Defined.

Definition billed_key (t : Tally) : Z := dneg (ty_billed_wei t).
Definition billed_before (s t : Tally) (named : bool) : bool :=
  (billed_key s <? billed_key t) || ((billed_key s =? billed_key t) && named).

Definition offering_before (a b : OfferingUsage) : Prop :=
  billed_before (ou_tally a) (ou_tally b)
    (String.ltb (ou_capability a) (ou_capability b)
     || (String.eqb (ou_capability a) (ou_capability b)
         && str_le (ou_offering a) (ou_offering b))) = true.
#[export] Instance offering_before_dec : RelDecision offering_before.
Proof. intros a b. unfold offering_before. apply _. Defined.
Definition key_before (a b : ApiKeyUsage) : Prop :=
  billed_before (ku_tally a) (ku_tally b)
    (str_le (str_uuid (ku_api_key_id a)) (str_uuid (ku_api_key_id b))) = true.
#[export] Instance key_before_dec : RelDecision key_before.
Proof. intros a b. unfold key_before. apply _. Defined.
Definition user_before (a b : UserUsage) : Prop :=
  billed_before (uu_tally a) (uu_tally b)
    (str_le (str_uuid (uu_user_id a)) (str_uuid (uu_user_id b))) = true.
#[export] Instance user_before_dec : RelDecision user_before.
Proof. intros a b. unfold user_before. apply _. Defined.

(** [_by_day]: by the day a row closed, or opened while it is open. *)
Definition day_of (row : PaymentSession) : string :=
  day_key (or_else (ps_closed_at row) (ps_opened_at row)).
Definition by_day (rows : list PaymentSession) : list DayUsage :=
  merge_sort day_before (map (fun '(day, t) => MkDayUsage day t) (group_by day_of rows)).

Definition offering_of (row : PaymentSession) : string * string :=
  (ps_capability row, ps_offering row).

(** The three breakdowns of [summarize]. *)
Definition by_offering (rows : list PaymentSession) : list OfferingUsage :=
  merge_sort offering_before
    (map (fun '(k, t) =>
       let first := first_of offering_of k rows in
       MkOfferingUsage (fst k) (snd k)
         (match first with Some r => ps_protocol r | None => "" end)
         (match first with Some r => work_unit_of r | None => "" end) t)
       (group_by offering_of rows)).
Definition keys_of (labels : gmap uuid string) (rows : list PaymentSession) : list ApiKeyUsage :=
  merge_sort key_before
    (map (fun '(k, t) => MkKeyUsage k (labels !! k) t) (group_by ps_api_key_id rows)).
Definition by_user (emails : gmap uuid string) (rows : list PaymentSession) : list UserUsage :=
  merge_sort user_before
    (map (fun '(u, t) => MkUserUsage u (emails !! u) t) (group_by ps_user_id rows)).

Definition billed_sum (rows : list PaymentSession) : Z := fold_left (fun acc r => add_billed r acc) rows 0.

(** The totals of [summarize]. *)
Definition totals_of (rows : list PaymentSession) : UsageTotals :=
  MkTotals (Z.of_nat (length rows)) (Z.of_nat (length (List.filter is_open rows)))
    (Z.of_nat (length (List.filter is_done rows))) (billed_sum rows)
    (dsum (map (fun r => or_else (refunded_of r) 0) rows)) (dsum (map held_of rows)).

(** [UsageSummary]. *)
Record UsageSummary := MkSummary {
  su_since : datetime;
  su_until : datetime;
  su_totals : UsageTotals;
  su_by_offering : list OfferingUsage;
  su_by_api_key : list ApiKeyUsage;
  su_by_day : list DayUsage;
  su_by_user : option (list UserUsage);
}.

(** [UsagePeriod] and [UsageOverview]. *)
Record UsagePeriod := MkPeriod {
  up_start : datetime;
  up_end : datetime;
  up_seconds : Z;
  up_cap_wei : option Z;
  up_pct_used : option spec_float;
}.
Record UsageOverview := MkOverview {
  uo_available_wei : Z;
  uo_held_wei : Z;
  uo_spent_period_wei : Z;
  uo_spent_30d_wei : Z;
  uo_open_jobs : Z;
  uo_period : UsagePeriod;
  uo_by_day : list DayUsage;
}.

(** ** What needs attention *)

Record UnresolvedJob := MkUnresolved {
  un_row : PaymentSession;
  un_user_email : option string;
  un_opened_at : datetime;
  un_age_seconds : spec_float;
  un_blocked_reason : option string;
  un_reported_units : option Z;
}.
Record SettlementFailure := MkFailure {
  sf_at : datetime;
  sf_user_id : option uuid;
  sf_user_email : option string;
  sf_protocol : option string;
  sf_session_id : option string;
  sf_code : string;
  sf_reason : option string;
}.
Record ZeroOutputSession := MkZeroOutput {
  zo_row : PaymentSession;
  zo_user_email : option string;
  zo_termination_reason : option string;
  zo_output_state : option string;
  zo_output_state_since : option datetime;
  zo_last_failure_code : option string;
  zo_duration_seconds : spec_float;
  zo_closed_at : datetime;
}.
Record UnterminatedSession := MkUnterminated {
  ux_row : PaymentSession;
  ux_user_email : option string;
  ux_opened_at : datetime;
  ux_last_funded_at : datetime;
  ux_attention_after : datetime;
  ux_overdue_seconds : spec_float;
}.

(** [UsageAttention] with its [AttentionCounts]. *)
Record UsageAttention := MkAttention {
  ua_unresolved_count : Z;
  ua_settlement_failures_24h : Z;
  ua_zero_output_count : Z;
  ua_unterminated_count : Z;
  ua_unresolved : list UnresolvedJob;
  ua_settlement_failures : list SettlementFailure;
  ua_zero_output_sessions : list ZeroOutputSession;
  ua_unterminated_sessions : list UnterminatedSession;
}.

(** An open job past its time. *)
Definition stale_job (cutoff : Z) (row : PaymentSession) : bool :=
  String.eqb (ps_protocol row) "paid-job/v1" && is_open row
  && (dt_us (ps_opened_at row) <? cutoff).

(** The broker's diagnostics of a closed session. *)
Definition diagnostics_of (row : PaymentSession) : dict :=
  or_else (as_obj (dget "broker_diagnostics" (or_else (ps_breakdown row) []))) [].

(** A session that closed since [since] without output though it ran, or
    because its output failed. *)
Definition zero_output_candidate (since : Z) (row : PaymentSession) : bool :=
  String.eqb (ps_protocol row) "paid-session/v1" && is_done row
  && bool_decide (ps_actual_units row = Some 0)
  && match ps_closed_at row with Some t => since <=? dt_us t | None => false end.
Definition zero_output (row : PaymentSession) : bool :=
  at_least ZERO_OUTPUT_MIN_DURATION_SECONDS (closed_us row - dt_us (ps_opened_at row))
  || match dget "termination_reason" (diagnostics_of row) with
     | Some (JStr s) => String.eqb s "output_failed"
     | _ => false
     end.

(** When a session was last funded: the latest refill granted, or the opening. *)
Definition last_refill (d : DB) (id : uuid) : option Z :=
  fold_left (fun m e =>
    if N.eqb (pt_session_id e) id && String.eqb (pt_event_type e) "refill_granted"
    then Some (match m with
               | Some t => Z.max t (dt_us (pt_recorded_at e))
               | None => dt_us (pt_recorded_at e)
               end)
    else m) (t_settlement d) None.
Definition last_funded (d : DB) (row : PaymentSession) : Z :=
  or_else (last_refill d (ps_id row)) (dt_us (ps_opened_at row)).

Definition unended_session (row : PaymentSession) : bool :=
  String.eqb (ps_protocol row) "paid-session/v1" && is_open row.

(** The open sessions whose funding stopped long ago, with that time and the
    time they became due. *)
Definition unterminated (d : DB) (now attention_after_seconds : Z)
  : list (PaymentSession * Z * Z) :=
  List.filter (fun '(_, _, due) => due <? now)
    (map (fun row => let last := last_funded d row in
                     (row, last, last + 1000000 * attention_after_seconds))
       (merge_sort opened_earlier (List.filter unended_session (sessions d)))).

Definition failure_since (since : Z) (e : TelemetryEvent) : bool :=
  String.eqb (te_event_type e) SETTLEMENT_FAILURE_EVENT && (since <=? dt_us (te_received_ts e)).
Definition received_last (a b : TelemetryEvent) : Prop :=
  dt_us (te_received_ts b) <= dt_us (te_received_ts a).
#[export] Instance received_last_dec : RelDecision received_last.
Proof. intros a b. unfold received_last. apply _. Defined.

(** A field of [ZeroOutputSession]: text or null, anything else is refused. *)
Definition text_or_null (j : option json) : res (option string) :=
  match j with
  | None | Some JNull => Ok None
  | Some (JStr s) => Ok (Some s)
  | Some _ => Err (ValueError "ZeroOutputSession")
  end.

Section usage.
Context {W : Type} {R : Runtime}.
Local Abbreviation M := (M DB W).

(** [str(payload.get(k)) if payload.get(k) else None]. *)
Definition text_of (k : string) (payload : dict) : option string :=
  match dget k payload with
  | Some j => if json_truthy j then Some (py_str j) else None
  | None => None
  end.

Definition unresolved_job (emails : gmap uuid string) (now : datetime) (row : PaymentSession)
  : UnresolvedJob :=
  MkUnresolved row (emails !! ps_user_id row) (aware (ps_opened_at row))
    (total_seconds (age_us now row)) (blocked_reason_for row) (reported_units_for row).

Definition settlement_failure (emails : gmap uuid string) (e : TelemetryEvent)
  : SettlementFailure :=
  MkFailure (aware (te_received_ts e)) (te_user_id e) (te_user_id e ≫= fun u => emails !! u)
    (text_of "protocol" (te_payload e)) (text_of "session_id" (te_payload e))
    (or_else (text_of "code" (te_payload e)) "settlement_verification_failed")
    (text_of "reason" (te_payload e)).

Definition zero_output_session (emails : gmap uuid string) (row : PaymentSession)
  : res ZeroOutputSession :=
  let safe := diagnostics_of row in
  let? since := match dget "output_state_since" safe with
                | Some (JStr s) =>
                    let? t := of_option (rt_fromisoformat s) (ValueError "Invalid isoformat string") in
                    Ok (Some t)
                | _ => Ok None
                end in
  let? reason := text_or_null (dget "termination_reason" safe) in
  let? state := text_or_null (dget "output_state" safe) in
  let? failure := text_or_null (dget "last_failure_code" safe) in
  Ok (MkZeroOutput row (emails !! ps_user_id row) reason state since failure
        (total_seconds (closed_us row - dt_us (ps_opened_at row)))
        (aware (or_else (ps_closed_at row) (ps_opened_at row)))).

Definition unterminated_session (emails : gmap uuid string) (now : datetime)
    (candidate : PaymentSession * Z * Z) : UnterminatedSession :=
  let '(row, last, due) := candidate in
  MkUnterminated row (emails !! ps_user_id row) (aware (ps_opened_at row)) (DT last true)
    (DT due true) (total_seconds (dt_us now - due)).

(** [[f(x) for x in xs]] when [f] may raise. *)
Fixpoint each {A B} (f : A -> res B) (l : list A) : res (list B) :=
  match l with
  | [] => Ok []
  | a :: l' => let? b := f a in let? bs := each f l' in Ok (b :: bs)
  end.

(** [list_jobs]. *)
Definition list_jobs (filters : JobFilters) (limit offset : Z) (include_user : bool)
    (stale_after_seconds : Z) : M UsageJobPage :=
  let limit := Z.max 1 (Z.min limit MAX_PAGE_LIMIT) in
  let offset := Z.max 0 offset in
  d <- db_read ;;
  let base := List.filter (selected filters) (sessions d) in
  let rows := firstn (Z.to_nat limit) (skipn (Z.to_nat offset) (merge_sort newest_first base)) in
  let labels := labels_for d (map ps_api_key_id rows) in
  let emails := if include_user then emails_for d (map ps_user_id rows) else ∅ in
  now <- clock_now ;;
  ret (MkJobPage
    (map (fun r => job_view now stale_after_seconds (labels !! ps_api_key_id r)
                     (emails !! ps_user_id r) include_user r) rows)
    (Z.of_nat (length base)) limit offset).

(** The rows of [summarize]. *)
Definition window_rows (d : DB) (user_id : option uuid) (start fin : datetime)
  : list PaymentSession :=
  merge_sort opened_earlier
    (List.filter (selected (MkJobFilters None None None user_id None (Some start) (Some fin)))
       (sessions d)).

(** [summarize]. *)
Definition summarize (user_id : option uuid) (since until : option datetime)
    (include_users : bool) : M UsageSummary :=
  now <- clock_now ;;
  let '(start, fin) := default_window now since until in
  d <- db_read ;;
  let rows := window_rows d user_id start fin in
  ret (MkSummary start fin (totals_of rows) (by_offering rows)
    (keys_of (labels_for d (map ps_api_key_id rows)) rows) (by_day rows)
    (if include_users then Some (by_user (emails_for d (map ps_user_id rows)) rows) else None)).

(** The customer's open rows, and the rows closed since [since]. *)
Definition open_rows (d : DB) (user_id : uuid) : list PaymentSession :=
  List.filter (fun r => N.eqb (ps_user_id r) user_id && is_open r) (sessions d).
Definition closed_rows (d : DB) (user_id : uuid) (since : Z) : list PaymentSession :=
  List.filter (fun r => N.eqb (ps_user_id r) user_id && is_done r
                        && match ps_closed_at r with Some t => since <=? dt_us t | None => false end)
    (sessions d).

(** [overview]. *)
Definition overview (user_id : uuid) (settings : Settings) : M UsageOverview :=
  now <- clock_now ;;
  balance <- get_balance user_id ;;
  config <- resolve_billing_config user_id settings ;;
  let period_seconds := Z.max 1 (rbc_spend_period_seconds config) in
  '(start, fin) <- lift (window_bounds_for now period_seconds) ;;
  let cap := if 0 <? rbc_spend_period_cap_wei config
             then Some (rbc_spend_period_cap_wei config) else None in
  d <- db_read ;;
  let closed := closed_rows d user_id (dt_us now - 1000000 * days_of DEFAULT_SUMMARY_DAYS) in
  let in_period r := match ps_closed_at r with
                     | Some t => (dt_us start <=? dt_us t) && (dt_us t <? dt_us fin)
                     | None => false
                     end in
  let spent_period := billed_sum (List.filter in_period closed) in
  pct <- (match cap with
          | Some c => p <- lift (dec_ratio spent_period c) ;; ret (Some p)
          | None => ret None
          end) ;;
  ret (MkOverview (cb_amount_wei balance)
    (sum_by ps_funded_value_wei (open_rows d user_id))
    spent_period (billed_sum closed) (Z.of_nat (length (open_rows d user_id)))
    (MkPeriod start fin period_seconds cap pct) (by_day closed)).

(** [attention]. *)
Definition attention (stale_after_seconds session_attention_after_seconds : Z) (limit : nat)
  : M UsageAttention :=
  now <- clock_now ;;
  d <- db_read ;;
  let stale := List.filter (stale_job (dt_us now - 1000000 * stale_after_seconds)) (sessions d) in
  let stale_rows := firstn limit (merge_sort opened_earlier stale) in
  let zero_rows := List.filter zero_output
    (merge_sort closed_later
       (List.filter (zero_output_candidate (dt_us now - 1000000 * (3600 * ZERO_OUTPUT_LOOKBACK_HOURS)))
          (sessions d))) in
  let silent := unterminated d (dt_us now) session_attention_after_seconds in
  let failures := List.filter (failure_since (dt_us now - 1000000 * (3600 * 24)))
    (n_telemetry (t_notices d)) in
  let failure_rows := firstn limit (merge_sort received_last failures) in
  let emails := emails_for d
    (map ps_user_id stale_rows ++ map ps_user_id zero_rows
     ++ map (fun c => ps_user_id (fst (fst c))) silent ++ omap te_user_id failure_rows) in
  zero <- lift (each (zero_output_session emails) (firstn limit zero_rows)) ;;
  ret (MkAttention (Z.of_nat (length stale)) (Z.of_nat (length failures))
    (Z.of_nat (length zero_rows)) (Z.of_nat (length silent))
    (map (unresolved_job emails now) stale_rows) (map (settlement_failure emails) failure_rows)
    zero (map (unterminated_session emails now) (firstn limit silent))).

(** ** Endpoints *)

Definition valid_limit (limit offset : Z) : bool :=
  (1 <=? limit) && (limit <=? MAX_PAGE_LIMIT) && (0 <=? offset).
Definition valid_job_state (f : JobFilters) : bool :=
  match jf_state f with Some s => str_elem s ["open"; "closed"] | None => true end.

Definition for_user (user_id : uuid) (f : JobFilters) : JobFilters :=
  MkJobFilters (jf_capability f) (jf_offering f) (jf_api_key_id f) (Some user_id) (jf_state f)
    (jf_since f) (jf_until f).
Definition any_key (f : JobFilters) : JobFilters :=
  MkJobFilters (jf_capability f) (jf_offering f) None (jf_user_id f) (jf_state f) (jf_since f)
    (jf_until f).

Context {K : Credentials W} (settings : Settings).

(** [my_usage_overview], [my_usage_jobs] and [my_usage_summary]. *)
Definition my_usage_overview (cookie api_key : option string) : M UsageOverview :=
  user <- get_authed_user settings cookie api_key ;;
  overview (us_id user) settings.
Definition my_usage_jobs (cookie api_key : option string) (filters : JobFilters)
    (limit offset : Z) : M UsageJobPage :=
  user <- get_authed_user settings cookie api_key ;;
  list_jobs (for_user (us_id user) filters) limit offset false DEFAULT_STALE_AFTER_SECONDS.
Definition my_usage_summary (cookie api_key : option string) (since until : option datetime)
  : M UsageSummary :=
  user <- get_authed_user settings cookie api_key ;;
  summarize (Some (us_id user)) since until false.

(** [admin_user_usage_overview], [admin_user_usage_jobs] and
    [admin_user_usage_summary]. *)
Definition admin_user_usage_overview (authorization : option string) (user_id : uuid)
  : M UsageOverview :=
  get_current_operator authorization ;;; overview user_id settings.
Definition admin_user_usage_jobs (authorization : option string) (user_id : uuid)
    (filters : JobFilters) (limit offset : Z) : M UsageJobPage :=
  get_current_operator authorization ;;;
  list_jobs (any_key (for_user user_id filters)) limit offset true DEFAULT_STALE_AFTER_SECONDS.
Definition admin_user_usage_summary (authorization : option string) (user_id : uuid)
    (since until : option datetime) : M UsageSummary :=
  get_current_operator authorization ;;; summarize (Some user_id) since until false.

(** [admin_fleet_usage_summary], [admin_fleet_usage_jobs] and
    [admin_usage_attention]. *)
Definition admin_fleet_usage_summary (authorization : option string)
    (since until : option datetime) : M UsageSummary :=
  get_current_operator authorization ;;; summarize None since until true.
Definition admin_fleet_usage_jobs (authorization : option string) (filters : JobFilters)
    (limit offset : Z) : M UsageJobPage :=
  get_current_operator authorization ;;;
  list_jobs (any_key filters) limit offset true DEFAULT_STALE_AFTER_SECONDS.
Definition admin_usage_attention (authorization : option string)
    (stale_after_seconds session_attention_after_seconds : Z) : M UsageAttention :=
  get_current_operator authorization ;;;
  attention stale_after_seconds session_attention_after_seconds ATTENTION_LIMIT.

End usage.
