(* ===== verification/Signing.v ===== *)
(** * Manifest signing

    [providers/signing/manifest.py]: the operator's Ed25519 key pair and the
    signature of the SDK manifest.  Ed25519 is third-party code and a parameter;
    what the RFC promises of it is a class of laws. *)

From S2P Require Import Prelude PyData Codecs Errors Effects Payments.
From Stdlib Require Import Strings.Ascii Structures.OrderedTypeEx.

Open Scope string_scope.
Open Scope Z_scope.
Open Scope loc_scope.

(** The library's keys by their raw bytes: the public key of a seed, signing and
    verifying. *)
Class Ed25519 := {
  ed_public : bytes -> bytes;
  ed_sign : bytes -> bytes -> bytes;
  ed_verify : bytes -> bytes -> bytes -> bool;
}.

(** RFC 8032: the sizes, and that a signature verifies. *)
Class Ed25519Laws (E : Ed25519) : Prop := {
  ed_public_length seed : length seed = 32%nat -> length (ed_public seed) = 32%nat;
  ed_sign_length seed m : length seed = 32%nat -> length (ed_sign seed m) = 64%nat;
  ed_sign_verifies seed m :
    length seed = 32%nat -> ed_verify (ed_public seed) (ed_sign seed m) m = true;
}.

Definition ED25519_SEED_LEN : nat := 32.
Definition ED25519_PUB_LEN : nat := 32.
Definition ED25519_SIG_LEN : nat := 64.

(** [SigningKeypair]; the private key is its seed. *)
Record SigningKeypair := MkKeypair {
  kp_private : bytes;
  kp_public_bytes : bytes;
  kp_fingerprint : string;
}.

Section signing.
Context {R : Runtime} {E : Ed25519}.

(** [load_keypair]; [None] is [SigningKeyError]. *)
Definition load_keypair (seed_b64 : string) : option SigningKeypair :=
  seed ← b64decode seed_b64;
  if Nat.eqb (length seed) ED25519_SEED_LEN
  then let public_bytes := ed_public seed in
       Some (MkKeypair seed public_bytes
               (String.substring 0 16 (bytes_hex (rt_sha256 public_bytes))))
  else None.

(** [json.dumps(payload, sort_keys=True, separators=(",", ":")).encode()]. *)
Definition canonical (payload : dict) : bytes :=
  String.list_byte_of_string (json_dumps json_escape_ascii (JObj payload)).

(** URL-safe base64 without padding, and back. *)
Definition b64_unpadded (b : bytes) : string := str_rstrip_char "="%char (urlsafe_b64encode b).
Definition b64_padded_decode (s : string) : option bytes := urlsafe_b64decode (s ++ b64_padding s).

(** [sign_payload], [verify_payload] and [public_key_b64]. *)
Definition sign_payload (keypair : SigningKeypair) (payload : dict) : string :=
  b64_unpadded (ed_sign (kp_private keypair) (canonical payload)).
Definition verify_payload (public_b64 : string) (payload : dict) (signature_b64 : string) : bool :=
  match b64_padded_decode public_b64, b64_padded_decode signature_b64 with
  | Some pub_raw, Some sig_raw =>
      Nat.eqb (length pub_raw) ED25519_PUB_LEN && Nat.eqb (length sig_raw) ED25519_SIG_LEN
      && ed_verify pub_raw sig_raw (canonical payload)
  | _, _ => false
  end.
Definition public_key_b64 (keypair : SigningKeypair) : string :=
  b64_unpadded (kp_public_bytes keypair).

(** ** Canonical text *)

(** Sorting keys forgets the order of a dict whose keys are distinct. *)
Definition rendered (d : dict) : list (string * string) :=
  map (fun kv => (fst kv, json_dumps json_escape_ascii (snd kv))) d.

Lemma dumps_object d :
  json_dumps json_escape_ascii (JObj d) =
  ("{" ++ str_join "," (map (fun kv => json_quote json_escape_ascii (fst kv) ++ ":" ++ snd kv)
                          (sort_keys (rendered d))) ++ "}").
Proof.
  cbn [json_dumps]. match goal with |- context [sort_keys (?f d)] =>
    assert (Hf : f d = rendered d) end.
  { induction d as [|[k x] d IH]; [done|]. cbn [rendered map fst snd]. by rewrite IH. }
  by rewrite Hf.
Qed.

End signing.

(** The order of code units on strings. *)
Lemma str_ltb_lt a b : String.ltb a b = true <-> String_as_OT.lt a b.
Proof.
  rewrite <- String_as_OT.cmp_lt. unfold String.ltb, String_as_OT.cmp.
  by destruct (String.compare a b).
Qed.

Lemma str_ltb_trans a b c : String.ltb a b = true -> String.ltb b c = true -> String.ltb a c = true.
Proof. rewrite !str_ltb_lt. apply String_as_OT.lt_trans. Qed.

Lemma str_ltb_total a b : a <> b -> String.ltb a b = negb (String.ltb b a).
Proof.
  intros Hne. unfold String.ltb. rewrite (String.compare_antisym a b).
  destruct (String.compare b a) eqn:E; cbn; try done.
  by apply String.compare_eq_iff in E.
Qed.

Lemma insert_key_perm kv l : insert_key kv l ≡ₚ kv :: l.
Proof.
  induction l as [|kv' l IH]; [done|]. cbn. destruct (String.ltb _ _); [done|].
  rewrite IH. apply perm_swap.
Qed.

Lemma sort_keys_perm l : sort_keys l ≡ₚ l.
Proof. induction l as [|kv l IH]; [done|]. cbn. by rewrite insert_key_perm, IH. Qed.

(** Two insertions commute when their keys differ. *)
Lemma insert_key_comm a b l :
  fst a <> fst b -> insert_key a (insert_key b l) = insert_key b (insert_key a l).
Proof.
  intros Hne. pose proof (str_ltb_total _ _ Hne) as Hab.
  induction l as [|c l IH]; cbn [insert_key].
  - destruct (String.ltb (fst b) (fst a)) eqn:E; rewrite Hab; reflexivity.
  - destruct (String.ltb (fst b) (fst c)) eqn:Hb, (String.ltb (fst a) (fst c)) eqn:Ha;
      cbn [insert_key]; rewrite ?Ha, ?Hb.
    + destruct (String.ltb (fst b) (fst a)) eqn:E; rewrite Hab; reflexivity.
    + destruct (String.ltb (fst a) (fst b)) eqn:E; [|reflexivity].
      by rewrite (str_ltb_trans _ _ _ E Hb) in Ha.
    + destruct (String.ltb (fst b) (fst a)) eqn:E; [|reflexivity].
      by rewrite (str_ltb_trans _ _ _ E Ha) in Hb.
    + by rewrite IH.
Qed.

(** The canonical text does not depend on the order of the keys. *)
Lemma sort_keys_canonical l k : l ≡ₚ k -> NoDup (map fst l) -> sort_keys l = sort_keys k.
Proof.
  induction 1 as [|x l k _ IH|x y l|l k m H1 IH1 H2 IH2]; intros Hn; [done| | |].
  - inversion Hn; subst. unfold sort_keys in *. cbn. by rewrite IH.
  - inversion Hn as [|? ? Hx Hn']; subst. cbn. apply insert_key_comm.
    intros E. apply Hx. rewrite E. by left.
  - rewrite IH1 by done. apply IH2. by rewrite <- H1.
Qed.

(** ** Signatures *)

Section signatures.
Context {R : Runtime} {E : Ed25519} `{!Ed25519Laws E}.

Lemma b64_unpadded_decode b : b64_padded_decode (b64_unpadded b) = Some b.
Proof. apply urlsafe_roundtrip. Qed.

Lemma canonical_perm d d' : d ≡ₚ d' -> NoDup (map fst d) -> canonical d = canonical d'.
Proof.
  intros Hp Hn. unfold canonical. rewrite !dumps_object.
  rewrite (sort_keys_canonical (rendered d) (rendered d')); [done| |].
  - unfold rendered. by rewrite Hp.
  - unfold rendered. by rewrite map_map.
Qed.

Lemma load_keypair_ok seed kp :
  load_keypair seed = Some kp ->
  length (kp_private kp) = 32%nat /\ kp_public_bytes kp = ed_public (kp_private kp).
Proof.
  unfold load_keypair. destruct (b64decode seed) as [b|]; cbn; [|done].
  destruct (Nat.eqb _ _) eqn:El; [|done]. intros [= <-]. by apply Nat.eqb_eq in El.
Qed.

(** A signed manifest verifies. What is signed with a key that loads verifies under its
    published public key, whatever the order of the keys in the verifier's copy of the payload;
    and under any payload whose canonical text is another, exactly when the signature is also one
    of that text. *)
Theorem signed_manifest_verifies seed kp payload copy :
  load_keypair seed = Some kp -> NoDup (map fst payload) ->
  (payload ≡ₚ copy ->
     verify_payload (public_key_b64 kp) copy (sign_payload kp payload) = true) /\
  verify_payload (public_key_b64 kp) copy (sign_payload kp payload)
  = ed_verify (ed_public (kp_private kp)) (ed_sign (kp_private kp) (canonical payload))
      (canonical copy).
Proof.
  intros [Hl Hp]%load_keypair_ok Hn.
  assert (H : verify_payload (public_key_b64 kp) copy (sign_payload kp payload)
              = ed_verify (ed_public (kp_private kp)) (ed_sign (kp_private kp) (canonical payload))
                  (canonical copy)).
  { unfold verify_payload, public_key_b64, sign_payload. rewrite !b64_unpadded_decode, Hp.
    by rewrite ed_public_length, ed_sign_length. }
  split; [|exact H]. intros Hc. rewrite H, <- (canonical_perm payload copy) by done.
  by apply ed_sign_verifies.
Qed.

End signatures.

(** A library to evaluate with: the signature repeats the public key and says
    whether the message was empty. *)
#[local] Instance demo_ed25519 : Ed25519 := {|
  ed_public seed := seed;
  ed_sign seed m := (seed ++ repeat (byte_of_Z (Z.of_nat (length m))) 32)%list;
  ed_verify pub sig m :=
    bool_decide (sig = (pub ++ repeat (byte_of_Z (Z.of_nat (length m))) 32)%list);
|}.

#[local] Instance demo_ed25519_laws : Ed25519Laws demo_ed25519.
Proof.
  split; cbn; intros.
  - done.
  - rewrite length_app, H. reflexivity.
  - by apply bool_decide_eq_true.
Defined.

Definition demo_seed : string := b64encode (repeat (byte_of_Z 7) 32).
Definition demo_manifest : dict := [("items", JArr []); ("generated_at", JStr "t")].

Lemma signed_manifest_verifies_witness :
  exists kp, load_keypair (R := demo_runtime) demo_seed = Some kp /\
    verify_payload (public_key_b64 kp) (rev demo_manifest) (sign_payload kp demo_manifest) = true.
Proof.
  assert (H : is_Some (load_keypair (R := demo_runtime) demo_seed)) by (vm_compute; eauto).
  destruct H as [kp H]. exists kp. split; [exact H|].
  apply (signed_manifest_verifies (R := demo_runtime) demo_seed kp demo_manifest); [exact H| |].
  - repeat constructor; vm_compute; set_solver.
  - apply Permutation_rev.
Defined.
