(* ===== verification/Catalog.v ===== *)
(** * The registry's catalog

    The gRPC half of [providers/registry_daemon/client.py]: selection and the
    daemon's catalog parsed at the boundary, the deadline and stale-fallback cache in
    front of it, and the mock's listing; and [domains/discovery], which serves
    it.  The cache's tasks are a state machine: requests share the refresh in
    flight, [invalidate] abandons it, an abandoned refresh may still finish. *)

From S2P Require Import Prelude PyData Errors Effects Store Settings Credentials Accounts Access Registry.
From Stdlib Require Import Strings.Byte Strings.Ascii.

Open Scope string_scope.
Open Scope Z_scope.
Open Scope loc_scope.

(** ** Decimals of any scale *)

(** [(-1)^neg * coefficient * 10^exponent]. *)
Record Decimal := MkDecimal { dec_neg : bool; dec_coefficient : Z; dec_exponent : Z }.

Definition decimal_of_Z (z : Z) : Decimal := MkDecimal (z <? 0) (Z.abs z) 0.

(** [d < 0]: minus zero is not. *)
Definition decimal_negative (d : Decimal) : bool := dec_neg d && negb (dec_coefficient d =? 0).

Fixpoint str_delete_char (c : ascii) (s : string) : string :=
  match s with
  | EmptyString => EmptyString
  | String a s' => if Ascii.eqb a c then str_delete_char c s' else String a (str_delete_char c s')
  end.

(** A sign, and the rest. *)
Definition signed (s : string) : bool * string :=
  match s with
  | String a t =>
      if Ascii.eqb a "-"%char then (true, t) else if Ascii.eqb a "+"%char then (false, t) else (false, s)
  | EmptyString => (false, s)
  end.

(** Digits, at least one. *)
Definition digits (s : string) : option Z := if all_digits s then int_of_str s else None.

(** [Decimal(s)] of a finite numeral; [None] is [InvalidOperation], or a special
    value. *)
Definition decimal_of_str (s : string) : option Decimal :=
  let '(neg, body) := signed (str_delete_char "_"%char (str_rstrip (str_lstrip s))) in
  let '(mantissa, exponent) := str_partition "e"%char (str_lower body) in
  let '(whole, fraction) := str_partition "."%char mantissa in
  let fraction := or_else fraction "" in
  coefficient ← digits (whole ++ fraction);
  scale ← match exponent with
          | None => Some 0
          | Some e => let '(down, e) := signed e in
                      n ← digits e; Some (if (down : bool) then - n else n)
          end;
  Some (MkDecimal neg coefficient (scale - Z.of_nat (String.length fraction))).

Example decimal_of_str_demo :
  decimal_of_str "1_000" = Some (MkDecimal false 1000 0) /\
  decimal_of_str " -1.50e2" = Some (MkDecimal true 150 0) /\
  decimal_of_str ".5" = Some (MkDecimal false 5 (-1)) /\
  decimal_of_str "" = None /\ decimal_of_str "NaN" = None /\ decimal_of_str "1.2.3" = None.
Proof. vm_compute. done. Qed.

(** ** Messages of the daemon *)

Record EstimatorProto := MkEstimatorProto {
  xe_id : string;
  xe_rounding : string;
  xe_exactness : string;
  xe_package : string;
  xe_fixtures : string;
}.

(** The fields of a [SelectedRoute] message the listing reads. *)
Record OfferingProto := MkOfferingProto {
  xo_worker_url : string;
  xo_eth_address : string;
  xo_capability : string;
  xo_offering : string;
  xo_price_per_work_unit_wei : string;
  xo_work_unit : string;
  xo_units_per_price : Z;
  xo_protocol : string;
  xo_extra_json : bytes;
  xo_constraints_json : bytes;
  xo_work_unit_estimator : EstimatorProto;
}.

Record CatalogEntryProto := MkCatalogEntryProto {
  xc_offering : OfferingProto;
  xc_worker_id : string;
  xc_selectable : bool;
  xc_exclusion_reason : string;
  xc_expired : bool;
  xc_verified_at : option datetime;
  xc_valid_until : option datetime;
  xc_health_valid_until : option datetime;
}.

(** [CatalogCoverage], message and model alike. *)
Record CatalogCoverage := MkCatalogCoverage {
  cov_known_addresses : Z;
  cov_verified_compatible_addresses : Z;
  cov_confirmed_incompatible_addresses : Z;
  cov_unknown_addresses : Z;
  cov_expired_addresses : Z;
  cov_deferred_addresses : Z;
  cov_unavailable_addresses : Z;
}.

Record ListOfferingsProto := MkListOfferingsProto {
  xl_entries : list CatalogEntryProto;
  xl_completeness : Z;
  xl_coverage : CatalogCoverage;
  xl_snapshot_at : option datetime;
  xl_evaluated_at : option datetime;
  xl_discovery_scope : string;
  xl_discovery_scope_authoritative : bool;
  xl_discovery_observed_at : option datetime;
  xl_discovery_valid_until : option datetime;
  xl_coverage_valid_until : option datetime;
}.

(** ** The parsed catalog *)

Record CatalogEstimator := MkCatalogEstimator {
  ce_id : string;
  ce_rounding : string;
  ce_exactness : string;
  ce_package : option string;
  ce_fixtures : option string;
}.

Record CatalogMetadata := MkCatalogMetadata {
  cm_completeness : string;
  cm_coverage : CatalogCoverage;
  cm_snapshot_at : option datetime;
  cm_evaluated_at : datetime;
  cm_discovery_scope : string;
  cm_discovery_scope_authoritative : bool;
  cm_discovery_observed_at : option datetime;
  cm_discovery_valid_until : option datetime;
  cm_coverage_valid_until : option datetime;
  cm_stale : bool;
}.

Record CatalogProvider := MkCatalogProvider {
  cp_eth_address : string;
  cp_worker_url : string;
  cp_worker_id : string;
  cp_selectable : bool;
  cp_exclusion_reason : string;
  cp_verified_at : option datetime;
  cp_valid_until : option datetime;
  cp_health_valid_until : option datetime;
  cp_expired : bool;
}.

(** [WorkUnitEstimator | CatalogEstimator]. *)
Inductive estimator := Executable (e : WorkUnitEstimator) | Informational (e : CatalogEstimator).

Record OfferingInfo := MkOfferingInfo {
  of_id : string;
  of_price_per_work_unit_wei : Decimal;
  of_work_unit : string;
  of_units_per_price : Z;
  of_protocol : string;
  of_work_unit_estimator : option estimator;
  of_job : option JobAxes;
  of_session : option SessionAxes;
  of_extra : dict;
  of_provider : option CatalogProvider;
  of_constraints : dict;
}.

Record CapabilityInfo := MkCapabilityInfo {
  ci_name : string;
  ci_work_unit : option string;
  ci_work_unit_estimator : option estimator;
  ci_offerings : list OfferingInfo;
}.

Record OrchestratorInfo := MkOrchestratorInfo {
  or_eth_address : string;
  or_worker_url : string;
  or_capabilities : list CapabilityInfo;
  or_signature_status : string;
  or_freshness_status : string;
}.

Record RegistryCatalog := MkRegistryCatalog {
  rg_capabilities : list CapabilityInfo;
  rg_orchestrators : list OrchestratorInfo;
  rg_metadata : CatalogMetadata;
}.

Definition add_offering (o : OfferingInfo) (c : CapabilityInfo) : CapabilityInfo :=
  MkCapabilityInfo (ci_name c) (ci_work_unit c) (ci_work_unit_estimator c) (ci_offerings c ++ [o])%list.
Definition set_capabilities (l : list CapabilityInfo) (o : OrchestratorInfo) : OrchestratorInfo :=
  MkOrchestratorInfo (or_eth_address o) (or_worker_url o) l (or_signature_status o)
    (or_freshness_status o).

(** ** Parsing *)

Section parse.
Context {R : Runtime}.

(** [resolver_pb2.CatalogCompleteness.Name(n)] without its prefix, if the
    model admits it. *)
Definition completeness_name (n : Z) : res string :=
  if n =? 1 then Ok "UNINITIALIZED" else if n =? 2 then Ok "PARTIAL"
  else if n =? 3 then Ok "COMPLETE" else Err (ValueError "completeness").

Definition parse_metadata (x : ListOfferingsProto) : res CatalogMetadata :=
  let? completeness := completeness_name (xl_completeness x) in
  let? evaluated_at := of_option (xl_evaluated_at x) (ValueError "evaluated_at") in
  Ok (MkCatalogMetadata completeness (xl_coverage x) (xl_snapshot_at x) evaluated_at
        (xl_discovery_scope x) (xl_discovery_scope_authoritative x) (xl_discovery_observed_at x)
        (xl_discovery_valid_until x) (xl_coverage_valid_until x) false).

(** [json.loads(raw or b"{}")], which must be an object. *)
Definition load_object (raw : bytes) (what : string) : res dict :=
  match raw with
  | [] => Ok []
  | _ =>
      let? j := of_option (rt_json_loads raw) (ValueError what) in
      match j with JObj d => Ok d | _ => Err (ValueError what) end
  end.

Definition non_empty (s : string) : option string := if str_truthy s then Some s else None.

(** [CatalogEstimator(...) if route.work_unit_estimator.id else None]. *)
Definition parse_estimator (x : EstimatorProto) : res (option estimator) :=
  if negb (str_truthy (xe_id x)) then Ok None
  else
    let? _ := require (str_truthy (xe_rounding x) && str_truthy (xe_exactness x))
                (ValueError "CatalogEstimator") in
    Ok (Some (Informational (MkCatalogEstimator (xe_id x) (xe_rounding x) (xe_exactness x)
                               (non_empty (xe_package x)) (non_empty (xe_fixtures x))))).

Definition listed_protocol (x : OfferingProto) : bool :=
  str_elem (xo_protocol x) ["paid-job/v1"; "paid-session/v1"].

(** The axes of the entry's protocol, and none of the other's. *)
Definition parse_axes (protocol : string) (extra : dict)
  : res (option JobAxes * option SessionAxes) :=
  if String.eqb protocol "paid-job/v1" then
    let? j := of_option (dget "job" extra) KeyError in
    let? job := job_axes_validate j in
    let? _ := require (negb (has_key "session" extra)) (ValueError "conflicting protocol axes") in
    Ok (Some job, None)
  else
    let? j := of_option (dget "session" extra) KeyError in
    let? session := session_axes_validate j in
    let? _ := require (negb (has_key "job" extra)) (ValueError "conflicting protocol axes") in
    Ok (None, Some session).

Definition parse_provider (entry : CatalogEntryProto) : res CatalogProvider :=
  let route := xc_offering entry in
  let? _ := require (str_truthy (xo_eth_address route) && str_truthy (xo_worker_url route))
              (ValueError "CatalogProvider") in
  Ok (MkCatalogProvider (xo_eth_address route) (xo_worker_url route) (xc_worker_id entry)
        (xc_selectable entry) (xc_exclusion_reason entry) (xc_verified_at entry)
        (xc_valid_until entry) (xc_health_valid_until entry) (xc_expired entry)).

(** The offering of a listed entry. *)
Definition parse_offering (entry : CatalogEntryProto) : res OfferingInfo :=
  let route := xc_offering entry in
  let? extra := load_object (xo_extra_json route) "catalog extra must be an object" in
  let? constraints :=
    load_object (xo_constraints_json route) "catalog constraints must be an object" in
  let? provider := parse_provider entry in
  let? axes := parse_axes (xo_protocol route) extra in
  let? price := of_option (decimal_of_str (xo_price_per_work_unit_wei route))
                  DecimalInvalidOperation in
  let? _ := require (negb (decimal_negative price) && (1 <=? xo_units_per_price route))
              (ValueError "invalid catalog pricing") in
  let? est := parse_estimator (xo_work_unit_estimator route) in
  Ok (MkOfferingInfo (xo_offering route) price (xo_work_unit route) (xo_units_per_price route)
        (xo_protocol route) est (fst axes) (snd axes) extra (Some provider) constraints).

(** ** Grouping, in the order of first appearance *)

(** [if p not in l: l.append(new)], then [f] on the one found. *)
Fixpoint upsert {A} (p : A -> bool) (f : A -> A) (new : A) (l : list A) : list A :=
  match l with
  | [] => [f new]
  | x :: l' => if p x then f x :: l' else x :: upsert p f new l'
  end.

Definition named (name : string) (c : CapabilityInfo) : bool := String.eqb (ci_name c) name.

(** The entry of an offering under its capability. *)
Definition file_under (capability : string) (o : OfferingInfo) (caps : list CapabilityInfo)
  : list CapabilityInfo :=
  upsert (named capability) (add_offering o)
    (MkCapabilityInfo capability (Some (of_work_unit o)) (of_work_unit_estimator o) []) caps.

(** An orchestrator's key: address, URL and worker. *)
Abbreviation orch_key := (string * string * string)%type.

Definition file_orchestrator (key : orch_key) (capability : string) (o : OfferingInfo)
    (orchs : list (orch_key * OrchestratorInfo)) : list (orch_key * OrchestratorInfo) :=
  let '(eth_address, worker_url, _) := key in
  upsert (fun ko => bool_decide (fst ko = key))
    (fun ko => (fst ko, set_capabilities (file_under capability o (or_capabilities (snd ko))) (snd ko)))
    (key, MkOrchestratorInfo eth_address worker_url [] "SigVerified" "fresh") orchs.

(** The loop of [_parse_catalog] over the entries. *)
Fixpoint parse_entries (entries : list CatalogEntryProto) (caps : list CapabilityInfo)
    (orchs : list (orch_key * OrchestratorInfo))
  : res (list CapabilityInfo * list (orch_key * OrchestratorInfo)) :=
  match entries with
  | [] => Ok (caps, orchs)
  | entry :: entries' =>
      let route := xc_offering entry in
      if negb (xc_selectable entry) || xc_expired entry || negb (listed_protocol route)
      then parse_entries entries' caps orchs
      else
        let? info := parse_offering entry in
        parse_entries entries' (file_under (xo_capability route) info caps)
          (file_orchestrator (xo_eth_address route, xo_worker_url route, xc_worker_id entry)
             (xo_capability route) info orchs)
  end.

Definition inconclusive : exn := OC (DaemonUnavailable "registry" "CATALOG_INCONCLUSIVE").

(** [_parse_catalog]. *)
Definition parse_catalog (x : ListOfferingsProto) : res RegistryCatalog :=
  let? metadata := parse_metadata x in
  let? grouped := parse_entries (xl_entries x) [] [] in
  let? _ := require (negb (bool_decide (length (fst grouped) = 0%nat))
                     || String.eqb (cm_completeness metadata) "COMPLETE") inconclusive in
  Ok (MkRegistryCatalog (fst grouped) (map snd (snd grouped)) metadata).

(** ** The gRPC client *)

(** [ListOfferings]: a response, or the name of the error's status. *)
Class ResolverStub (W : Type) := { rs_list_offerings : W -> (ListOfferingsProto + string) * W }.

Definition is_daemon_unavailable (e : exn) : bool :=
  match e with OC (DaemonUnavailable _ _) => true | _ => false end.

(** [GrpcRegistryClient.list_catalog]. *)
Definition grpc_list_catalog {W} {S : ResolverStub W} (w : W) : res RegistryCatalog * W :=
  let '(reply, w') := rs_list_offerings w in
  (match reply with
   | inr code => Err (OC (DaemonUnavailable "registry" code))
   | inl proto =>
       remap (fun e => negb (is_daemon_unavailable e))
         (fun _ => OC (DaemonUnavailable "registry" "CATALOG_MALFORMED")) (parse_catalog proto)
   end, w').

(** ** Selection over gRPC *)

Record SettlementKeyProto := MkSettlementKeyProto {
  xk_public_key : string;
  xk_not_before : string;
  xk_expires_at : string;
  xk_introduced_in_publication_seq : Z;
}.

(** A [SelectedRoute] message as selection reads it.  Its price is a decimal
    integer by the daemon's schema; [None] is the empty string. *)
Record RouteProto := MkRouteProto {
  xr_worker_url : string;
  xr_eth_address : string;
  xr_capability : string;
  xr_offering : string;
  xr_price_per_work_unit_wei : option Z;
  xr_work_unit : string;
  xr_units_per_price : Z;
  xr_quote_id : string;
  xr_quote_version : Z;
  xr_constraint_fingerprint : bytes;
  xr_route_fingerprint : bytes;
  xr_settlement_domain_id : string;
  xr_protocol : string;
  xr_settlement_keys : list SettlementKeyProto;
  xr_work_unit_estimator : EstimatorProto;
  xr_extra_json : bytes;
}.

(** [_decode_extra_json]: anything but an object counts as none. *)
Definition decode_extra_json (raw : bytes) : dict :=
  match raw with
  | [] => []
  | _ => match rt_json_loads raw with Some (JObj d) => d | _ => [] end
  end.

(** [_estimator_from_proto]. *)
Definition estimator_from_proto (x : EstimatorProto) : res (option WorkUnitEstimator) :=
  if negb (str_truthy (xe_id x)) then Ok None
  else
    let? _ := require (str_truthy (xe_rounding x) && str_truthy (xe_exactness x)
                       && str_truthy (xe_fixtures x)) (ValueError "WorkUnitEstimator") in
    Ok (Some (MkWorkUnitEstimator (xe_id x) (xe_rounding x) (xe_exactness x)
                (non_empty (xe_package x)) (xe_fixtures x))).

Definition settlement_key_from_proto (x : SettlementKeyProto) : res SettlementKey :=
  let? not_before := of_option (rt_parse_time (xk_not_before x)) (ValueError "not_before") in
  let? expires_at := of_option (rt_parse_time (xk_expires_at x)) (ValueError "expires_at") in
  let k := MkSettlementKey (xk_public_key x) not_before expires_at
             (xk_introduced_in_publication_seq x) in
  let? _ := require (settlement_key_ok k) (ValueError "SettlementKey") in Ok k.

(** [_selected_route_proto_to_dataclass]. *)
Definition selected_route_of_proto (x : RouteProto) : res SelectedRoute :=
  let? keys := res_map settlement_key_from_proto (xr_settlement_keys x) in
  let? est := estimator_from_proto (xr_work_unit_estimator x) in
  selected_route_validate
    (MkSelectedRoute (xr_worker_url x) (xr_eth_address x) (xr_capability x) (xr_offering x)
       (or_else (xr_price_per_work_unit_wei x) 0) (xr_work_unit x) (xr_units_per_price x)
       (xr_quote_id x) (xr_quote_version x) (xr_constraint_fingerprint x)
       (xr_route_fingerprint x) (xr_settlement_domain_id x) (xr_protocol x) keys est
       (decode_extra_json (xr_extra_json x))).

(** [Select] and [SelectMany]: an answer, with or without a route, or the name
    of the error's status. *)
Class SelectStub (W : Type) := {
  ss_select : string -> string -> W -> (option RouteProto + string) * W;
  ss_select_many : string -> string -> W -> (list RouteProto + string) * W;
  ss_health : W -> option (bool * bool) * W;
}.

(** The answer of a call; [NOT_FOUND] is the empty one. *)
Definition stub_reply {A B} (none : B) (parse : A -> res B) (reply : A + string) : res B :=
  match reply with
  | inl a => parse a
  | inr code => if String.eqb code "NOT_FOUND" then Ok none
                else Err (OC (DaemonUnavailable "registry" code))
  end.

Section select.
Context {W : Type} {S : SelectStub W}.

(** [GrpcRegistryClient.select] and [select_many]. *)
Definition grpc_select (capability offering : string) (w : W) : res (option SelectedRoute) * W :=
  let '(reply, w') := ss_select capability offering w in
  (stub_reply None (fun route => match route with
     | None => Ok None
     | Some x => let? r := selected_route_of_proto x in Ok (Some r)
     end) reply, w').
Definition grpc_select_many (capability offering : string) (w : W)
  : res (list SelectedRoute) * W :=
  let '(reply, w') := ss_select_many capability offering w in
  (stub_reply [] (res_map selected_route_of_proto) reply, w').

(** [GrpcRegistryClient.health]. *)
Definition grpc_health (w : W) : bool * W :=
  let '(reply, w') := ss_health w in
  (match reply with
   | Some (chain_ok, manifest_fetcher_ok) => chain_ok && manifest_fetcher_ok
   | None => false
   end, w').

#[export] Instance GrpcRegistryClient : RegistryClient W := {
  rc_select := grpc_select;
  rc_select_many := grpc_select_many;
}.

(** A route that selection returns has passed the checks of its model, so its
    axes can be read. *)
Lemma validated_route r r' : selected_route_validate r = Ok r' -> r' = r /\ selected_route_validate r = Ok r.
Proof. intros H. assert (r' = r) as -> by (unfold selected_route_validate in H; by res_inv). done. Qed.

Lemma selected_route_valid x r :
  selected_route_of_proto x = Ok r -> selected_route_validate r = Ok r.
Proof. unfold selected_route_of_proto. intros H. res_inv. by apply validated_route in H as [-> ?]. Qed.

Lemma validated_axes r :
  selected_route_validate r = Ok r ->
  (exists a, route_job r = Ok (Some a) /\ route_session r = Ok None) \/
  (exists a, route_session r = Ok (Some a) /\ route_job r = Ok None).
Proof.
  unfold selected_route_validate, route_job, route_session. intros H. res_inv. opt_inv.
  assert (str_elem (ro_protocol r) ["paid-job/v1"; "paid-session/v1"] = true) as Hp by (by bool_props).
  destruct (String.eqb_spec (ro_protocol r) "paid-job/v1") as [Ej|Ej].
  - res_inv. left. rewrite Ej. cbn. match goal with Hd : dget "job" _ = Some _ |- _ => rewrite Hd end.
    cbn. match goal with Ha : job_axes_validate _ = Ok _ |- _ => rewrite Ha end. by eexists.
  - assert (ro_protocol r = "paid-session/v1") as Es.
    { revert Hp. cbn. destruct (String.eqb_spec (ro_protocol r) "paid-job/v1"); [done|].
      destruct (String.eqb_spec (ro_protocol r) "paid-session/v1"); [done|discriminate]. }
    res_inv. right. rewrite Es. cbn.
    match goal with Hd : dget "session" _ = Some _ |- _ => rewrite Hd end.
    cbn. match goal with Ha : session_axes_validate _ = Ok _ |- _ => rewrite Ha end. by eexists.
Qed.

(** What selection over gRPC returns: routes that passed every check, with axes
    of their own protocol; an empty answer or [NOT_FOUND] is no route; any other
    status is [DaemonUnavailable]. *)
Theorem grpc_selection_is_valid (capability offering : string) (w : W) :
  (match fst (grpc_select capability offering w) with
   | Ok (Some r) => selected_route_validate r = Ok r
   | Ok None => fst (ss_select capability offering w) = inl None \/
                fst (ss_select capability offering w) = inr "NOT_FOUND"
   | Err e =>
       (exists code, fst (ss_select capability offering w) = inr code /\ code <> "NOT_FOUND" /\
          e = OC (DaemonUnavailable "registry" code)) \/
       (exists x, fst (ss_select capability offering w) = inl (Some x) /\
          selected_route_of_proto x = Err e)
   end) /\
  (forall l, fst (grpc_select_many capability offering w) = Ok l ->
   Forall (fun r => selected_route_validate r = Ok r) l).
Proof.
  split.
  - unfold grpc_select. destruct (ss_select capability offering w) as [[[x|]|code] w']; cbn.
    + destruct (selected_route_of_proto x) as [r|e] eqn:E; cbn; [by eapply selected_route_valid|].
      right. by exists x.
    + by left.
    + destruct (String.eqb_spec code "NOT_FOUND") as [->|Hc]; [by right|]. left. by exists code.
  - unfold grpc_select_many. destruct (ss_select_many capability offering w) as [[xs|code] w']; cbn.
    + intros l H%res_map_ok. induction H; constructor; [by eapply selected_route_valid|done].
    + destruct (String.eqb code "NOT_FOUND"); [by intros l [= <-]|done].
Qed.

End select.

End parse.

(** [_filter_orchestrators]. *)
Definition filter_orchestrators (items : list OrchestratorInfo) (capability : option string)
  : list OrchestratorInfo :=
  match capability with
  | None => items
  | Some name =>
      map (fun o => set_capabilities (List.filter (named name) (or_capabilities o)) o)
        (List.filter (fun o => existsb (named name) (or_capabilities o)) items)
  end.

(** [RegistryClient], the listing methods. *)
Class CatalogClient (W : Type) := { cc_list_catalog : W -> res RegistryCatalog * W }.

Section listing.
Context {DB W : Type} {C : CatalogClient W}.
Local Abbreviation M := (M DB W).

(** [list_capabilities] and [list_orchestrators], of every client. *)
Definition list_capabilities : M (list CapabilityInfo) :=
  catalog <- remote cc_list_catalog ;; ret (rg_capabilities catalog).
Definition list_orchestrators (capability : option string) : M (list OrchestratorInfo) :=
  catalog <- remote cc_list_catalog ;;
  ret (filter_orchestrators (rg_orchestrators catalog) capability).

End listing.

(** ** The mock's listing *)

(** [_offering_from_route]. *)
Definition offering_from_route (r : SelectedRoute) : res OfferingInfo :=
  let? job := route_job r in
  let? session := route_session r in
  Ok (MkOfferingInfo (ro_offering r) (decimal_of_Z (ro_price_per_work_unit_wei r))
        (ro_work_unit r) (ro_units_per_price r) (ro_protocol r)
        (Executable <$> ro_work_unit_estimator r) job session (ro_extra r) None []).

(** The estimator of the first of these routes that declares one. *)
Definition first_estimator (routes : list SelectedRoute) : option estimator :=
  Executable <$> head (omap ro_work_unit_estimator routes).

Definition of_capability (name : string) (r : SelectedRoute) : bool :=
  String.eqb (ro_capability r) name.
Definition of_address (address : string) (r : SelectedRoute) : bool :=
  String.eqb (ro_eth_address r) address.

(** The keys of a dict filled in this order. *)
Fixpoint first_seen (l : list string) : list string :=
  match l with
  | [] => []
  | s :: l' => s :: List.filter (fun t => negb (String.eqb t s)) (first_seen l')
  end.

Fixpoint res_all {A B} (f : A -> res B) (l : list A) : res (list B) :=
  match l with
  | [] => Ok []
  | x :: l' => let? y := f x in let? ys := res_all f l' in Ok (y :: ys)
  end.

(** Of routes with the same offering, the first: [setdefault]. *)
Fixpoint first_of_each (routes : list SelectedRoute) : list SelectedRoute :=
  match routes with
  | [] => []
  | r :: l => r :: List.filter (fun r' => negb (String.eqb (ro_offering r') (ro_offering r)))
                     (first_of_each l)
  end.

(** A capability as these routes offer it; its work unit is the last's. *)
Definition mock_capability (routes : list SelectedRoute) (once : bool) (name : string)
  : res CapabilityInfo :=
  let mine := List.filter (of_capability name) routes in
  let? offerings := res_all offering_from_route (if once then first_of_each mine else mine) in
  Ok (MkCapabilityInfo name (ro_work_unit <$> last mine) (first_estimator mine) offerings).

(** [MockRegistryClient.list_capabilities]. *)
Definition mock_list_capabilities (routes : list SelectedRoute) : res (list CapabilityInfo) :=
  res_all (mock_capability routes true) (first_seen (map ro_capability routes)).

(** [MockRegistryClient.list_orchestrators], of every capability: an address's
    URL is its last. *)
Definition mock_orchestrator (routes : list SelectedRoute) (address : string)
  : res OrchestratorInfo :=
  let mine := List.filter (of_address address) routes in
  let? capabilities := res_all (mock_capability mine false) (first_seen (map ro_capability mine)) in
  Ok (MkOrchestratorInfo address (or_else (ro_worker_url <$> last mine) "") capabilities
        "SigVerified" "fresh").
Definition mock_list_orchestrators (routes : list SelectedRoute) (capability : option string)
  : res (list OrchestratorInfo) :=
  let routes := match capability with
                | Some name => List.filter (of_capability name) routes
                | None => routes
                end in
  res_all (mock_orchestrator routes) (first_seen (map ro_eth_address routes)).

(** [MockRegistryClient.list_catalog], evaluated at [now]. *)
Definition mock_list_catalog (now : datetime) (routes : list SelectedRoute)
  : res RegistryCatalog * list SelectedRoute :=
  ((let? capabilities := mock_list_capabilities routes in
    let? orchestrators := mock_list_orchestrators routes None in
    Ok (MkRegistryCatalog capabilities orchestrators
          (MkCatalogMetadata "COMPLETE" (MkCatalogCoverage 0 0 0 0 0 0 0) None now "mock" true
             None None None false))), routes).

(** ** The deadline cache *)

(** [CachingRegistryClient]'s catalog state, times in microseconds: the
    registered refresh, the generation each running refresh began in, and the
    entry with its expiry. *)
Record CatalogState := MkCatalogState {
  cs_ttl : Z;
  cs_stale : Z;
  cs_now : Z;
  cs_generation : nat;
  cs_task : option nat;
  cs_running : gmap nat nat;
  cs_next_task : nat;
  cs_cache : option (Z * RegistryCatalog);
}.

Definition set_cs_now (v : Z) (s : CatalogState) : CatalogState :=
  MkCatalogState (cs_ttl s) (cs_stale s) v (cs_generation s) (cs_task s) (cs_running s)
    (cs_next_task s) (cs_cache s).
Definition set_cs_cache (v : option (Z * RegistryCatalog)) (s : CatalogState) : CatalogState :=
  MkCatalogState (cs_ttl s) (cs_stale s) (cs_now s) (cs_generation s) (cs_task s) (cs_running s)
    (cs_next_task s) v.
Definition set_cs_tasks (t : option nat) (running : gmap nat nat) (s : CatalogState)
  : CatalogState :=
  MkCatalogState (cs_ttl s) (cs_stale s) (cs_now s) (cs_generation s) t running (cs_next_task s)
    (cs_cache s).

(** What a caller of [_catalog] gets at once: the entry, or a task to await. *)
Inductive catalog_answer := Fresh (c : RegistryCatalog) | Await (task : nat).

(** [_catalog], up to awaiting. *)
Definition catalog_request (s : CatalogState) : catalog_answer * CatalogState :=
  let await :=
    match cs_task s with
    | Some task => (Await task, s)
    | None =>
        let task := cs_next_task s in
        (Await task,
         MkCatalogState (cs_ttl s) (cs_stale s) (cs_now s) (cs_generation s) (Some task)
           (<[task := cs_generation s]> (cs_running s)) (S task) (cs_cache s))
    end in
  match cs_cache s with
  | Some (expires_at, c) => if cs_now s <? expires_at then (Fresh c, s) else await
  | None => await
  end.

Definition validity_bounds (m : CatalogMetadata) : list Z :=
  map dt_us (omap id [cm_coverage_valid_until m; cm_discovery_valid_until m]).

(** How long a catalog may be kept: the TTL, or less when the daemon bounds its
    validity. *)
Definition catalog_ttl (ttl : Z) (wall : datetime) (c : RegistryCatalog) : Z :=
  match validity_bounds (rg_metadata c) with
  | [] => ttl
  | b :: bs => Z.min ttl (Z.max 0 (fold_left Z.min bs b - dt_us wall))
  end.

(** [metadata.model_copy(update={"stale": True, "completeness": "PARTIAL"})]. *)
Definition stale_copy (c : RegistryCatalog) : RegistryCatalog :=
  let m := rg_metadata c in
  MkRegistryCatalog (rg_capabilities c) (rg_orchestrators c)
    (MkCatalogMetadata "PARTIAL" (cm_coverage m) (cm_snapshot_at m) (cm_evaluated_at m)
       (cm_discovery_scope m) (cm_discovery_scope_authoritative m) (cm_discovery_observed_at m)
       (cm_discovery_valid_until m) (cm_coverage_valid_until m) true).

(** The end of [refresh], a deadline that passed being an error of the fetch:
    what the awaiting callers get. *)
Definition refresh_answer (generation : nat) (fetched : res RegistryCatalog) (wall : datetime)
    (s : CatalogState) : res RegistryCatalog * CatalogState :=
  match fetched with
  | Ok c =>
      (Ok c, if (0 <? cs_ttl s) && Nat.eqb generation (cs_generation s)
             then set_cs_cache (Some (cs_now s + catalog_ttl (cs_ttl s) wall c, c)) s else s)
  | Err e =>
      let failure := if is_daemon_unavailable e then e
                     else OC (DaemonUnavailable "registry" "CATALOG_UNAVAILABLE") in
      (match cs_cache s with
       | Some (expires_at, previous) =>
           if cs_now s <? expires_at + cs_stale s then Ok (stale_copy previous) else Err failure
       | None => Err failure
       end, s)
  end.

(** A refresh that finishes, and its callback [finished]. *)
Definition refresh_done (task : nat) (fetched : res RegistryCatalog) (wall : datetime)
    (s : CatalogState) : option (res RegistryCatalog) * CatalogState :=
  match cs_running s !! task with
  | None => (None, s)
  | Some generation =>
      let '(answer, s1) := refresh_answer generation fetched wall s in
      (Some answer,
       set_cs_tasks (if bool_decide (cs_task s1 = Some task) then None else cs_task s1)
         (delete task (cs_running s1)) s1)
  end.

(** [invalidate], the catalog half. *)
Definition catalog_invalidate (s : CatalogState) : CatalogState :=
  MkCatalogState (cs_ttl s) (cs_stale s) (cs_now s) (S (cs_generation s)) None (cs_running s)
    (cs_next_task s) None.

Definition catalog_start (ttl stale now : Z) : CatalogState :=
  MkCatalogState ttl stale now 0 None ∅ 0 None.

(** [CachingRegistryClient.list_catalog] when no other task runs meanwhile: the
    state, the inner client and the wall clock. *)
Record CachingCatalog (W : Type) := MkCachingCatalog {
  ck_state : CatalogState;
  ck_wall : datetime;
  ck_inner : W;
}.
Arguments MkCachingCatalog {W}.
Arguments ck_state {W}.
Arguments ck_wall {W}.
Arguments ck_inner {W}.

Definition caching_list_catalog {W} {C : CatalogClient W} (w : CachingCatalog W)
  : res RegistryCatalog * CachingCatalog W :=
  match catalog_request (ck_state w) with
  | (Fresh c, s) => (Ok c, MkCachingCatalog s (ck_wall w) (ck_inner w))
  | (Await task, s) =>
      let '(fetched, inner) := cc_list_catalog (ck_inner w) in
      let '(answer, s) := refresh_done task fetched (ck_wall w) s in
      (or_else answer (Err inconclusive), MkCachingCatalog s (ck_wall w) inner)
  end.
#[export] Instance CachingCatalogClient {W} {C : CatalogClient W} : CatalogClient (CachingCatalog W) :=
  {| cc_list_catalog := caching_list_catalog |}.

(** ** Discovery *)

(** [RouteView]: the route, and what its properties compute. *)
Record RouteView := MkRouteView {
  rv_route : SelectedRoute;
  rv_job : option JobAxes;
  rv_session : option SessionAxes;
  rv_route_binding : RouteBinding;
  rv_route_snapshot : dict;
}.

(** [_route]. *)
Definition route_view {R : Runtime} (r : SelectedRoute) : res RouteView :=
  let? job := route_job r in
  let? session := route_session r in
  let? binding := route_binding r in
  let? snapshot := route_snapshot r in
  Ok (MkRouteView r job session binding snapshot).

Section discovery.
Context {W : Type} {R : Runtime} {K : Credentials W} {C : CatalogClient W} {G : RegistryClient W}.
Local Abbreviation M := (M DB W).

Definition complete (m : CatalogMetadata) : bool := String.eqb (cm_completeness m) "COMPLETE".

(** [capability_catalog]: the items and the catalog's metadata. *)
Definition capability_catalog : M (list CapabilityInfo * CatalogMetadata) :=
  raw <- remote cc_list_catalog ;;
  guard (negb (bool_decide (length (rg_capabilities raw) = 0%nat)) || complete (rg_metadata raw))
    inconclusive ;;;
  ret (rg_capabilities raw, rg_metadata raw).

(** The filter of [orchestrator_catalog]. *)
Definition with_capability (capability : option string) (items : list OrchestratorInfo)
  : list OrchestratorInfo :=
  match capability with
  | None => items
  | Some name =>
      List.filter (fun o => negb (bool_decide (length (or_capabilities o) = 0%nat)))
        (map (fun o => set_capabilities (List.filter (named name) (or_capabilities o)) o) items)
  end.

(** [orchestrator_catalog]. *)
Definition orchestrator_catalog (capability : option string)
  : M (list OrchestratorInfo * CatalogMetadata) :=
  raw <- remote cc_list_catalog ;;
  let items := with_capability capability (rg_orchestrators raw) in
  guard (negb (bool_decide (length items = 0%nat)) || complete (rg_metadata raw)) inconclusive ;;;
  ret (items, rg_metadata raw).

(** [select_route]. *)
Definition select_route (capability offering : string) : M (option RouteView) :=
  raw <- remote (rc_select capability offering) ;;
  match raw with
  | None => ret None
  | Some r => v <- lift (route_view r) ;; ret (Some v)
  end.

(** The endpoints. *)
Definition list_capabilities_endpoint (settings : Settings) (cookie api_key : option string)
  : M (list CapabilityInfo * CatalogMetadata) :=
  get_authed_user settings cookie api_key ;;; capability_catalog.
Definition list_orchestrators_endpoint (settings : Settings) (cookie api_key : option string)
    (capability : option string) : M (list OrchestratorInfo * CatalogMetadata) :=
  get_authed_user settings cookie api_key ;;; orchestrator_catalog capability.
Definition select_route_endpoint (settings : Settings) (cookie api_key : option string)
    (capability offering : string) : M RouteView :=
  get_authed_user settings cookie api_key ;;;
  route <- select_route capability offering ;;
  lift (of_option route (HTTPException 404 "no_route_available")).

End discovery.
