(* ===== verification/CatalogProps.v ===== *)
(** * The catalog: what it lists, and how old it may be

    Parsing files every eligible entry once, under its capability and under its
    orchestrator; the cache serves nothing older than its bounds, and what was
    invalidated never comes back; discovery filters as the client does. *)

From S2P Require Import Prelude PyData Errors Effects Registry Catalog.

Open Scope string_scope.
Open Scope Z_scope.
Open Scope loc_scope.

(** ** Grouping *)

Section upsert.
Context {A B : Type} (p : A -> bool) (f : A -> A) (new : A) (g : A -> list B).

Lemma upsert_perm (b : B) l :
  (forall x, g (f x) ≡ₚ b :: g x) -> g new = [] ->
  concat (map g (upsert p f new l)) ≡ₚ b :: concat (map g l).
Proof.
  intros Hf Hn. induction l as [|x l IH]; cbn.
  - rewrite app_nil_r, Hf. by rewrite Hn.
  - destruct (p x); cbn; [by rewrite Hf|]. rewrite IH. by rewrite Permutation_middle.
Qed.
End upsert.

Lemma upsert_keys {A K} `{EqDecision K} (key : A -> K) (k : K) (p : A -> bool) f new l :
  (forall x, p x = bool_decide (key x = k)) -> (forall x, key (f x) = key x) -> key new = k ->
  NoDup (map key l) -> NoDup (map key (upsert p f new l)).
Proof.
  intros Hp Hf Hn.
  assert (Hk : forall m, map key (upsert p f new m) = map key m \/
                         (map key (upsert p f new m) = map key m ++ [k] /\ k ∉ map key m)%list).
  { induction m as [|x m IH]; cbn; [right; split; [by rewrite Hf, Hn|apply not_elem_of_nil]|].
    rewrite Hp. case_bool_decide as Hx; cbn; [left; by rewrite Hf|].
    destruct IH as [->|[-> Hm]]; [by left|right]. split; [done|].
    intros [Hc|Hc]%elem_of_cons; [congruence|done]. }
  intros Hd. destruct (Hk l) as [->|[-> Hl]]; [done|].
  apply NoDup_app. split; [done|]. split; [|apply NoDup_singleton].
  intros x Hx ->%list_elem_of_singleton. done.
Qed.

(** The offerings filed. *)
Definition filed (caps : list CapabilityInfo) : list OfferingInfo := concat (map ci_offerings caps).
Definition filed_under (orchs : list OrchestratorInfo) : list OfferingInfo :=
  concat (map (fun o => filed (or_capabilities o)) orchs).

Lemma file_under_perm c o caps : filed (file_under c o caps) ≡ₚ o :: filed caps.
Proof.
  apply upsert_perm; [|done]. intros x. cbn. symmetry. apply Permutation_cons_append.
Qed.

Lemma file_orchestrator_perm key c o orchs :
  filed_under (map snd (file_orchestrator key c o orchs)) ≡ₚ o :: filed_under (map snd orchs).
Proof.
  unfold filed_under, file_orchestrator. destruct key as [[a u] w]. rewrite !map_map.
  apply (upsert_perm _ _ _ (fun ko => filed (or_capabilities (snd ko)))); [|done].
  intros x. apply file_under_perm.
Qed.

Lemma file_under_names c o caps :
  NoDup (map ci_name caps) -> NoDup (map ci_name (file_under c o caps)).
Proof.
  apply (upsert_keys ci_name c); [|done|done].
  intros x. unfold named. destruct (String.eqb_spec (ci_name x) c); by case_bool_decide.
Qed.

Lemma file_orchestrator_keys key c o orchs :
  NoDup (map fst orchs) -> NoDup (map fst (file_orchestrator key c o orchs)).
Proof.
  destruct key as [[a u] w]. apply (upsert_keys fst (a, u, w)); done.
Qed.

(** The entries discovery may list. *)
Definition eligible (e : CatalogEntryProto) : bool :=
  xc_selectable e && negb (xc_expired e) && listed_protocol (xc_offering e).

Lemma parse_entries_ok {R : Runtime} entries caps orchs caps' orchs' :
  parse_entries entries caps orchs = Ok (caps', orchs') ->
  exists infos,
    Forall2 (fun e o => parse_offering e = Ok o) (List.filter eligible entries) infos /\
    filed caps' ≡ₚ infos ++ filed caps /\
    filed_under (map snd orchs') ≡ₚ infos ++ filed_under (map snd orchs) /\
    (NoDup (map ci_name caps) -> NoDup (map ci_name caps')) /\
    (NoDup (map fst orchs) -> NoDup (map fst orchs')).
Proof.
  revert caps orchs. induction entries as [|e entries IH]; intros caps orchs; cbn [parse_entries].
  - intros [= <- <-]. by exists [].
  - assert (He : eligible e = negb (negb (xc_selectable e) || xc_expired e
                                    || negb (listed_protocol (xc_offering e)))).
    { unfold eligible. by destruct (xc_selectable e), (xc_expired e), (listed_protocol _). }
    cbn [List.filter]. rewrite He. destruct (_ || _); cbn [negb]; [apply IH|].
    intros (o & Ho & Hr)%res_bind_ok. apply IH in Hr as (infos & Hf & Hc & Hu & Hn & Hk).
    exists (o :: infos). split_and!.
    + by constructor.
    + rewrite Hc, file_under_perm. cbn. by rewrite Permutation_middle.
    + rewrite Hu, file_orchestrator_perm. cbn. by rewrite Permutation_middle.
    + intros Hd. by apply Hn, file_under_names.
    + intros Hd. by apply Hk, file_orchestrator_keys.
Qed.


(** ** The cache *)

Inductive catalog_event :=
  | Elapse (us : Z)
  | Request
  | Done (task : nat) (fetched : res RegistryCatalog) (wall : datetime)
  | InvalidateAll.

Definition catalog_step (s : CatalogState) (e : catalog_event) : CatalogState :=
  match e with
  | Elapse us => set_cs_now (cs_now s + Z.max 0 us) s
  | Request => snd (catalog_request s)
  | Done task fetched wall => snd (refresh_done task fetched wall s)
  | InvalidateAll => catalog_invalidate s
  end.
Definition catalog_run (events : list catalog_event) (s : CatalogState) : CatalogState :=
  fold_left catalog_step events s.

(** No entry expires later than a TTL from now. *)
Definition entry_bounded (s : CatalogState) : Prop :=
  forall expires_at c, cs_cache s = Some (expires_at, c) -> expires_at <= cs_now s + cs_ttl s.

Lemma request_keeps s :
  cs_cache (snd (catalog_request s)) = cs_cache s /\ cs_now (snd (catalog_request s)) = cs_now s /\
  cs_ttl (snd (catalog_request s)) = cs_ttl s /\ cs_stale (snd (catalog_request s)) = cs_stale s.
Proof.
  unfold catalog_request. destruct (cs_cache s) as [[x c]|] eqn:E; [destruct (_ <? _)|];
    destruct (cs_task s); cbn; rewrite ?E; done.
Qed.

Lemma catalog_ttl_le ttl wall c : 0 <= ttl -> catalog_ttl ttl wall c <= ttl.
Proof. unfold catalog_ttl. destruct (validity_bounds _); lia. Qed.

Lemma refresh_keeps generation fetched wall s :
  let s' := snd (refresh_answer generation fetched wall s) in
  cs_now s' = cs_now s /\ cs_ttl s' = cs_ttl s /\ cs_stale s' = cs_stale s /\
  cs_generation s' = cs_generation s /\ cs_running s' = cs_running s /\ cs_task s' = cs_task s /\
  (generation <> cs_generation s -> cs_cache s' = cs_cache s).
Proof.
  destruct fetched as [c|e]; cbn; [|done].
  destruct (Nat.eqb_spec generation (cs_generation s)) as [->|Hg].
  - destruct (0 <? cs_ttl s); done.
  - by rewrite andb_false_r.
Qed.

Lemma refresh_bounded generation fetched wall s :
  entry_bounded s -> entry_bounded (snd (refresh_answer generation fetched wall s)).
Proof.
  intros Hs. destruct fetched as [c|e]; [|done]. cbn. destruct (_ && _) eqn:E; [|done].
  intros x c' [= <- <-]. cbn. apply andb_true_iff in E as [Ht%Z.ltb_lt _].
  pose proof (catalog_ttl_le (cs_ttl s) wall c). lia.
Qed.

Lemma step_bounded e s : entry_bounded s -> entry_bounded (catalog_step s e).
Proof.
  intros Hs. destruct e as [us| |task fetched wall|]; cbn [catalog_step].
  - intros x c Hx. cbn in *. specialize (Hs _ _ Hx). lia.
  - destruct (request_keeps s) as (Hc & Hn & Ht & _). intros x c. rewrite Hc, Hn, Ht. apply Hs.
  - unfold refresh_done. destruct (cs_running s !! task) as [g|]; [|done].
    pose proof (refresh_bounded g fetched wall s Hs) as Hb.
    destruct (refresh_answer _ _ _ _) as [a s1]. exact Hb.
  - intros x c. cbn. done.
Qed.

Lemma step_settings e s :
  cs_ttl (catalog_step s e) = cs_ttl s /\ cs_stale (catalog_step s e) = cs_stale s.
Proof.
  destruct e as [us| |task fetched wall|]; cbn [catalog_step]; try done.
  - by destruct (request_keeps s) as (_ & _ & ? & ?).
  - unfold refresh_done. destruct (cs_running s !! task) as [g|]; [|done].
    pose proof (refresh_keeps g fetched wall s) as Hk. cbn zeta in Hk.
    destruct (refresh_answer _ _ _ _) as [a s1]. cbn in *. naive_solver.
Qed.

Lemma run_bounded events s : entry_bounded s -> entry_bounded (catalog_run events s).
Proof. revert s. induction events as [|e l IH]; intros s Hs; [done|]. by apply IH, step_bounded. Qed.

Lemma run_settings events s :
  cs_ttl (catalog_run events s) = cs_ttl s /\ cs_stale (catalog_run events s) = cs_stale s.
Proof.
  revert s. induction events as [|e l IH]; intros s; [done|].
  change (catalog_run (e :: l) s) with (catalog_run l (catalog_step s e)).
  destruct (IH (catalog_step s e)) as [-> ->]. apply step_settings.
Qed.

(** The entry of a state, stored that long ago. *)
Definition stored_within (age : Z) (c : RegistryCatalog) (s : CatalogState) : Prop :=
  exists expires_at, cs_cache s = Some (expires_at, c) /\ cs_now s < expires_at - cs_ttl s + age.

(** The age of what the catalog cache gives out. After any sequence of requests, refreshes that
    finish in any order, clock advances and invalidations, a caller is answered at once only with
    an entry less than a TTL old, and a caller that awaited a refresh gets what was fetched, or, if
    that failed, an entry no older than the TTL and the grace period together, which it is told is
    stale and partial. *)
Theorem catalog_answers_bounded (events : list catalog_event) (ttl stale now : Z) :
  let s := catalog_run events (catalog_start ttl stale now) in
  match fst (catalog_request s) with
  | Fresh c => stored_within ttl c s
  | Await _ => True
  end /\
  forall task fetched wall,
  match fst (refresh_done task fetched wall s) with
  | Some (Ok c) =>
      fetched = Ok c \/
      exists previous, c = stale_copy previous /\ stored_within (ttl + stale) previous s
  | _ => True
  end.
Proof.
  intros s. destruct (run_settings events (catalog_start ttl stale now)) as [Ht Hst]. fold s in Ht, Hst.
  cbn in Ht, Hst.
  assert (Hb : entry_bounded s) by (apply run_bounded; intros x c; done). split.
  - unfold catalog_request. destruct (cs_cache s) as [[x c]|] eqn:E; [|by destruct (cs_task s)].
    destruct (Z.ltb_spec (cs_now s) x); cbn; [|by destruct (cs_task s)].
    exists x. split; [done|]. rewrite Ht. lia.
  - intros task fetched wall. unfold refresh_done. destruct (cs_running s !! task) as [g|]; [|done].
    destruct fetched as [c|e]; cbn; [by left|].
    destruct (cs_cache s) as [[x c]|] eqn:E; [|done]. destruct (Z.ltb_spec (cs_now s) (x + cs_stale s)); [|done].
    right. exists c. split; [done|]. exists x. split; [done|]. rewrite Ht, <- Hst. lia.
Qed.

(** Refreshes run that began in this generation or earlier. *)
Definition generations_ok (s : CatalogState) : Prop :=
  map_Forall (fun _ g => g <= cs_generation s)%nat (cs_running s).

(** Nothing is cached, and every running refresh began in an earlier one. *)
Definition abandoned (s : CatalogState) : Prop :=
  cs_cache s = None /\ map_Forall (fun _ g => g < cs_generation s)%nat (cs_running s).

Lemma done_shape task fetched wall s :
  let s' := snd (refresh_done task fetched wall s) in
  cs_generation s' = cs_generation s /\ (cs_running s' = cs_running s \/
                                         cs_running s' = delete task (cs_running s)) /\
  (forall g, cs_running s !! task = Some g -> g <> cs_generation s -> cs_cache s' = cs_cache s) /\
  (cs_running s !! task = None -> cs_cache s' = cs_cache s).
Proof.
  unfold refresh_done. destruct (cs_running s !! task) as [g|] eqn:E; [|naive_solver].
  pose proof (refresh_keeps g fetched wall s) as (_ & _ & _ & Hg & Hn & _ & Hk).
  destruct (refresh_answer _ _ _ _) as [a s1]. cbn in *. rewrite Hg, Hn. naive_solver.
Qed.

Lemma generations_step e s : generations_ok s -> generations_ok (catalog_step s e).
Proof.
  unfold generations_ok. intros Hr. destruct e as [us| |task fetched wall|]; cbn [catalog_step]; try done.
  - unfold catalog_request.
    assert (Hi : map_Forall (fun _ g => g <= cs_generation s)%nat
                   (<[cs_next_task s := cs_generation s]> (cs_running s))).
    { apply map_Forall_insert_2; [lia|done]. }
    destruct (cs_cache s) as [[x c]|]; [destruct (_ <? _); [done|]|]; by destruct (cs_task s).
  - destruct (done_shape task fetched wall s) as (-> & [->| ->] & _); [done|].
    by apply map_Forall_delete.
  - cbn. eapply map_Forall_impl; [exact Hr|]. cbn. lia.
Qed.

Lemma abandoned_step e s : e <> Request -> abandoned s -> abandoned (catalog_step s e).
Proof.
  intros He [Hc Hr]. destruct e as [us| |task fetched wall|]; cbn [catalog_step]; try done.
  - destruct (done_shape task fetched wall s) as (Hg & Hn & Hk & Hk').
    split.
    + destruct (cs_running s !! task) as [g|] eqn:E; [|by rewrite Hk'].
      specialize (Hr _ _ E). cbn in Hr. by rewrite (Hk g) by (done || lia).
    + rewrite Hg. destruct Hn as [->| ->]; [done|]. by apply map_Forall_delete.
  - split; [done|]. cbn. eapply map_Forall_impl; [exact Hr|]. cbn. lia.
Qed.

(** Invalidation. Whatever ran before, once the cache is invalidated it stays empty until the
    next request: the refreshes that were in flight may still finish, in any order and with any
    outcome, but what they fetched is not kept. *)
Theorem invalidation_sticks (before after : list catalog_event) (ttl stale now : Z) :
  Request ∉ after ->
  cs_cache (catalog_run (before ++ InvalidateAll :: after) (catalog_start ttl stale now)) = None.
Proof.
  intros Ha. unfold catalog_run. rewrite fold_left_app. cbn [fold_left].
  set (s := fold_left catalog_step before (catalog_start ttl stale now)).
  assert (Hg : generations_ok s).
  { unfold s. generalize before. intros l.
    assert (H0 : generations_ok (catalog_start ttl stale now)) by (unfold generations_ok; apply map_Forall_empty).
    revert H0. generalize (catalog_start ttl stale now). induction l as [|e l IH]; intros s0 H0; [done|].
    by apply IH, generations_step. }
  assert (Hs : abandoned (catalog_step s InvalidateAll)).
  { split; [done|]. cbn. eapply map_Forall_impl; [exact Hg|]. cbn. lia. }
  revert Hs. generalize (catalog_step s InvalidateAll). clear s Hg.
  induction after as [|e l IH]; intros s Hs; [apply Hs|]. cbn.
  rewrite not_elem_of_cons in Ha. destruct Ha as [He Hl]. apply IH; [done|].
  apply abandoned_step; [congruence|done].
Qed.

(** A catalog to evaluate examples with. *)
Definition demo_catalog : RegistryCatalog :=
  MkRegistryCatalog [] [] (MkCatalogMetadata "COMPLETE" (MkCatalogCoverage 0 0 0 0 0 0 0) None
                             (DT 0 true) "demo" true None None None false).

Lemma invalidation_sticks_witness :
  cs_cache (catalog_run ([Request] ++ InvalidateAll :: [Done 0 (Ok demo_catalog) (DT 0 true)])
              (catalog_start 60 300 0)) = None.
Proof.
  apply (invalidation_sticks [Request] [Done 0 (Ok demo_catalog) (DT 0 true)]).
  intros [H|H]%elem_of_cons; [discriminate H|by apply elem_of_nil in H].
Defined.

(** ** Discovery *)

(** Listing orchestrators by capability. The portal's discovery service filters the catalog with
    a loop of its own; it gives what the registry client's filter gives. *)
Theorem discovery_filter_agrees (capability : option string) (items : list OrchestratorInfo) :
  with_capability capability items = filter_orchestrators items capability.
Proof.
  destruct capability as [name|]; [|done]. cbn.
  induction items as [|o items IH]; cbn [map List.filter]; [done|]. cbn [or_capabilities set_capabilities].
  assert (Hl : bool_decide (length (List.filter (named name) (or_capabilities o)) = 0%nat)
               = negb (existsb (named name) (or_capabilities o))).
  { induction (or_capabilities o) as [|c l IHl]; [done|]. cbn. by destruct (named name c). }
  rewrite Hl, negb_involutive. destruct (existsb _ _); cbn [map]; by rewrite IH.
Qed.
