(* ===== verification/Operators.v ===== *)
(** * Operators

    The identity half of [domains/admin/service.py]: the bootstrap operator,
    approving users, managing operators and the SDK approval list. *)

From S2P Require Import Prelude PyData Errors Effects Store Settings Billing Mail Credentials Accounts.
From S2P Require Import Registry Access AdminResolve.
From Stdlib Require Import Strings.Ascii.

Open Scope string_scope.
Open Scope Z_scope.
Open Scope loc_scope.

Definition UserAlreadyApproved : exn := AdminServiceError "user_already_approved".
Definition UserNotFound : exn := AdminServiceError "user_not_found".
Definition EmailAlreadyVerified : exn := AdminServiceError "email_already_verified".
Definition InvalidOperatorRole : exn := AdminServiceError "invalid_operator_role".
Definition OperatorNotFound : exn := AdminServiceError "operator_not_found".
Definition OperatorEmailTaken : exn := AdminServiceError "operator_email_taken".
Definition CannotRevokeSelf : exn := AdminServiceError "cannot_revoke_self".
Definition CannotDemoteLastOwner : exn := AdminServiceError "cannot_demote_last_owner".
Definition InvalidSdkApprovalStatus : exn := AdminServiceError "invalid_sdk_approval_status".
Definition SdkApprovalNotFound : exn := AdminServiceError "sdk_approval_not_found".
Definition SdkApprovalAlreadyExists : exn := AdminServiceError "sdk_approval_already_exists".

Definition BOOTSTRAP_OPERATOR_EMAIL : string := "bootstrap@livepeer-open-clearinghouse.local".
Definition BOOTSTRAP_OPERATOR_NAME : string := "Bootstrap Operator".
Definition OPERATOR_ROLES : list string := ["owner"; "member"].
Definition OPERATOR_TOKEN_PREFIX : string := "loc_op_".
Definition SDK_APPROVAL_STATUSES : list string := ["approved"; "deprecated"; "blocked"].

(** ** Rows *)

Definition operator_id_is (id : uuid) (o : Operator) : bool := (opr_id o =? id)%N.
Definition operator_email_is (email : string) (o : Operator) : bool :=
  String.eqb (opr_email o) email.
Definition active_owner (o : Operator) : bool :=
  String.eqb (opr_role o) "owner" && operator_live o.

Definition set_opr_name (v : string) (o : Operator) : Operator :=
  MkOperator (opr_id o) (opr_email o) v (opr_token_hash o) (opr_role o) (opr_revoked_at o).
Definition set_opr_token_hash (v : string) (o : Operator) : Operator :=
  MkOperator (opr_id o) (opr_email o) (opr_name o) v (opr_role o) (opr_revoked_at o).
Definition set_opr_role (v : string) (o : Operator) : Operator :=
  MkOperator (opr_id o) (opr_email o) (opr_name o) (opr_token_hash o) v (opr_revoked_at o).
Definition set_opr_revoked_at (v : option datetime) (o : Operator) : Operator :=
  MkOperator (opr_id o) (opr_email o) (opr_name o) (opr_token_hash o) (opr_role o) v.

(** [_count_active_owners]. *)
Definition count_active_owners (d : DB) : Z :=
  sum_by (fun o => if active_owner o then 1 else 0) (i_operator (t_identity d)).

Definition operator_by_id (id : uuid) (d : DB) : option Operator :=
  find (operator_id_is id) (i_operator (t_identity d)).

Definition audit (operator : Operator) (action : string) (target : option uuid)
    (params : option dict) : OperatorAudit := MkOperatorAudit (opr_id operator) action target params.

Definition sdk_triple (lang version git_sha7 : string) (a : SdkApproval) : bool :=
  String.eqb (sdk_lang a) lang && String.eqb (sdk_version a) version
  && String.eqb (sdk_git_sha7 a) git_sha7.
Definition sdk_id_is (id : uuid) (a : SdkApproval) : bool := (sdk_id a =? id)%N.

(** ** SDK identities *)

(** [parse_sdk_identity]. *)
Definition parse_sdk_identity (header : option string) : option (string * string * string) :=
  match header with
  | None => None
  | Some h =>
      if negb (str_truthy h) then None
      else
        match str_split "/"%char (str_strip h) with
        | [lang; version; git_sha7] =>
            if str_truthy lang && str_truthy version && str_truthy git_sha7
            then Some (lang, version, git_sha7) else None
        | _ => None
        end
  end.

(** [update_operator]: the value a column is given, if it changes. *)
Definition new_value (requested : option string) (current : string) : option string :=
  match requested with
  | Some v => if String.eqb v current then None else Some v
  | None => None
  end.

Definition set_columns (name role : option string) (o : Operator) : Operator :=
  let o := match name with Some v => set_opr_name v o | None => o end in
  match role with Some v => set_opr_role v o | None => o end.

(** [changes]. *)
Definition column_changes (name role : option string) : dict :=
  (match name with Some v => [("name", JStr v)] | None => [] end
   ++ match role with Some v => [("role", JStr v)] | None => [] end)%list.

(** The columns [update_sdk_approval] changes. *)
Definition sdk_changes (status notes : option string) (a : SdkApproval) : SdkApproval :=
  MkSdkApproval (sdk_id a) (sdk_lang a) (sdk_version a) (sdk_git_sha7 a)
    (or_else status (sdk_status a))
    (match notes with Some n => Some n | None => sdk_notes a end) (sdk_added_by_operator_id a).

Section operators.
Context {W : Type} {R : Runtime} {K : Credentials W}.
Local Abbreviation M := (M DB W).

(** [evaluate_sdk_identity]. *)
Definition evaluate_sdk_identity (sdk_identity : option string) : M string :=
  match parse_sdk_identity sdk_identity with
  | None => ret "unknown"
  | Some (lang, version, git_sha7) =>
      d <- db_read ;;
      ret (match find (sdk_triple lang version git_sha7) (i_sdk_approval (t_identity d)) with
           | Some row => sdk_status row
           | None => "unknown"
           end)
  end.

(** ** The bootstrap operator *)

(** INSERT of an operator; [email] is unique. *)
Definition insert_operator (email name token_hash role : string) : M Operator :=
  id <- new_uuid ;;
  let row := MkOperator id email name token_hash role None in
  insert_unique (fun d => existsb (operator_email_is email) (i_operator (t_identity d)))
    (on_operator (fun l => l ++ [row])%list) ;;;
  ret row.

(** [ensure_bootstrap_operator]. *)
Definition ensure_bootstrap_operator (bootstrap_token : string) : M Operator :=
  let h := hash_token bootstrap_token in
  let p := operator_email_is BOOTSTRAP_OPERATOR_EMAIL in
  d <- db_read ;;
  match find p (i_operator (t_identity d)) with
  | Some existing =>
      (if String.eqb (opr_token_hash existing) h then ret tt
       else db_modify (on_operator (update_first p (set_opr_token_hash h)))) ;;;
      ret (set_opr_token_hash h existing)
  | None => insert_operator BOOTSTRAP_OPERATOR_EMAIL BOOTSTRAP_OPERATOR_NAME h "owner"
  end.

(** ** Users *)

(** [approve_user], given a mail provider and a base URL as its endpoint does;
    the notification is best-effort. *)
Definition approve_user (user_id : uuid) (operator : Operator) (initial_credit_wei : Z)
    (public_base_url : string) : M OperatorApproval :=
  d <- db_read ;;
  user <- lift (of_option (user_by_id user_id d) UserNotFound) ;;
  guard (negb (existsb (active_approval user_id) (i_approval (t_identity d))))
    UserAlreadyApproved ;;;
  now <- clock_now ;;
  let approval := MkOperatorApproval user_id (opr_id operator) now None in
  add_audit (audit operator "approve_user" (Some user_id) None) ;;;
  insert_unique (fun d => existsb (active_approval user_id) (i_approval (t_identity d)))
    (on_approval (fun l => l ++ [approval])%list) ;;;
  db_flush ;;;
  (if 0 <? initial_credit_wei then
     grant_initial_credit user_id initial_credit_wei (opr_id operator) ;;; ret tt
   else ret tt) ;;;
  try_except (send_and_record (approval_notification_email (us_email user) public_base_url) user_id)
    (fun _ => Some (ret tt)) ;;;
  ret approval.

(** [resend_verification]. *)
Definition resend_verification (user_id : uuid) (operator : Operator) (public_base_url : string)
  : M User :=
  d <- db_read ;;
  user <- lift (of_option (user_by_id user_id d) UserNotFound) ;;
  guard (negb (is_some (us_email_verified_at user))) EmailAlreadyVerified ;;;
  send_verification_email user public_base_url ;;;
  add_audit (audit operator "resend_verification" (Some user_id) None) ;;;
  ret user.

(** ** Operators *)

(** [_generate_operator_token]. *)
Definition generate_operator_token : M (string * string) :=
  random <- generate_token ;;
  let raw := OPERATOR_TOKEN_PREFIX ++ random in
  ret (raw, hash_token raw).

(** [create_operator]. *)
Definition create_operator (acting_operator : Operator) (email name role : string)
  : M (Operator * string) :=
  guard (str_elem role OPERATOR_ROLES) InvalidOperatorRole ;;;
  d <- db_read ;;
  guard (negb (existsb (operator_email_is email) (i_operator (t_identity d))))
    OperatorEmailTaken ;;;
  '(raw, h) <- generate_operator_token ;;
  op <- insert_operator email name h role ;;
  add_audit (audit acting_operator "create_operator" None
    (Some [("new_operator_id", JStr (str_uuid (opr_id op))); ("email", JStr email);
           ("role", JStr role)])) ;;;
  ret (op, raw).

(** The guard of the last active owner. *)
Definition require_other_owner : M unit :=
  d <- db_read ;; guard (negb (count_active_owners d <=? 1)) CannotDemoteLastOwner.

(** The UPDATE of [update_operator] and its audit entry, when something changes. *)
Definition store_columns (acting_operator : Operator) (operator_id : uuid)
    (name role : option string) : M unit :=
  if is_some name || is_some role then
    db_modify (on_operator (update_first (operator_id_is operator_id) (set_columns name role))) ;;;
    add_audit (audit acting_operator "update_operator" None
      (Some [("target_operator_id", JStr (str_uuid operator_id));
             ("changes", JObj (column_changes name role))]))
  else ret tt.

(** [update_operator].  Between the count of owners and the UPDATE another
    transaction may commit. *)
Definition update_operator (acting_operator : Operator) (operator_id : uuid)
    (name role : option string) : M Operator :=
  d <- db_read ;;
  target <- lift (of_option (operator_by_id operator_id d) OperatorNotFound) ;;
  guard (match role with Some r => str_elem r OPERATOR_ROLES | None => true end)
    InvalidOperatorRole ;;;
  (if match role with Some r => negb (String.eqb r "owner") | None => false end
      && active_owner target
   then require_other_owner else ret tt) ;;;
  db_interleave ;;;
  let name := new_value name (opr_name target) in
  let role := new_value role (opr_role target) in
  store_columns acting_operator operator_id name role ;;;
  db_flush ;;;
  ret (set_columns name role target).

(** [revoke_operator], with the same window. *)
Definition revoke_operator (acting_operator : Operator) (operator_id : uuid) : M Operator :=
  guard (negb (operator_id =? opr_id acting_operator)%N) CannotRevokeSelf ;;;
  d <- db_read ;;
  target <- lift (of_option (operator_by_id operator_id d) OperatorNotFound) ;;
  if negb (operator_live target) then ret target
  else
    (if String.eqb (opr_role target) "owner" then require_other_owner else ret tt) ;;;
    db_interleave ;;;
    now <- clock_now ;;
    db_modify (on_operator (update_first (operator_id_is operator_id)
      (set_opr_revoked_at (Some now)))) ;;;
    add_audit (audit acting_operator "revoke_operator" None
      (Some [("target_operator_id", JStr (str_uuid operator_id))])) ;;;
    db_flush ;;;
    ret (set_opr_revoked_at (Some now) target).

(** [rotate_operator_token]. *)
Definition rotate_operator_token (acting_operator : Operator) (operator_id : uuid)
  : M (Operator * string) :=
  d <- db_read ;;
  target <- lift (of_option (operator_by_id operator_id d) OperatorNotFound) ;;
  '(raw, h) <- generate_operator_token ;;
  db_modify (on_operator (update_first (operator_id_is operator_id) (set_opr_token_hash h))) ;;;
  add_audit (audit acting_operator "rotate_operator_token" None
    (Some [("target_operator_id", JStr (str_uuid operator_id))])) ;;;
  db_flush ;;;
  ret (set_opr_token_hash h target, raw).

(** ** The SDK approval list *)

(** [create_sdk_approval]; the triple is unique. *)
Definition create_sdk_approval (acting_operator : Operator) (lang version git_sha7 status : string)
    (notes : option string) : M SdkApproval :=
  guard (str_elem status SDK_APPROVAL_STATUSES) InvalidSdkApprovalStatus ;;;
  d <- db_read ;;
  guard (negb (existsb (sdk_triple lang version git_sha7) (i_sdk_approval (t_identity d))))
    SdkApprovalAlreadyExists ;;;
  id <- new_uuid ;;
  let row := MkSdkApproval id lang version git_sha7 status notes (Some (opr_id acting_operator)) in
  add_audit (audit acting_operator "create_sdk_approval" None
    (Some [("lang", JStr lang); ("version", JStr version); ("git_sha7", JStr git_sha7);
           ("status", JStr status)])) ;;;
  insert_unique (fun d => existsb (sdk_triple lang version git_sha7) (i_sdk_approval (t_identity d)))
    (on_sdk_approval (fun l => l ++ [row])%list) ;;;
  ret row.

(** [update_sdk_approval]. *)
Definition update_sdk_approval (acting_operator : Operator) (approval_id : uuid)
    (status notes : option string) : M SdkApproval :=
  d <- db_read ;;
  row <- lift (of_option (find (sdk_id_is approval_id) (i_sdk_approval (t_identity d)))
                 SdkApprovalNotFound) ;;
  guard (match status with Some s => str_elem s SDK_APPROVAL_STATUSES | None => true end)
    InvalidSdkApprovalStatus ;;;
  db_modify (on_sdk_approval (update_first (sdk_id_is approval_id) (sdk_changes status notes))) ;;;
  add_audit (audit acting_operator "update_sdk_approval" None
    (Some [("approval_id", JStr (str_uuid approval_id)); ("status", opt_str status);
           ("notes", opt_str notes)])) ;;;
  db_flush ;;;
  ret (sdk_changes status notes row).

(** [delete_sdk_approval]. *)
Definition delete_sdk_approval (acting_operator : Operator) (approval_id : uuid) : M unit :=
  d <- db_read ;;
  guard (existsb (sdk_id_is approval_id) (i_sdk_approval (t_identity d))) SdkApprovalNotFound ;;;
  db_modify (on_sdk_approval (List.filter (fun a => negb (sdk_id_is approval_id a)))) ;;;
  add_audit (audit acting_operator "delete_sdk_approval" None
    (Some [("approval_id", JStr (str_uuid approval_id))])) ;;;
  db_flush.

End operators.
