(* ===== verification/AdminReports.v ===== *)
(** * Administration: reports

    The reads of [domains/admin]: users, audit trail, operators, the SDK
    approvals with the public manifest, engagements by SDK, and the wholesale
    float.  Rows are returned as they are where a view only copies columns. *)

From S2P Require Import Prelude PyData Codecs DecimalCtx Errors Effects Store Settings Billing Wholesale.
From S2P Require Import Registry SessionCore SessionFlows AdminResolve Mail Credentials Accounts.
From S2P Require Import Access Usage Signing Catalog Operators.
From Stdlib Require Import Floats.SpecFloat.

Open Scope string_scope.
Open Scope Z_scope.
Open Scope loc_scope.

Definition WHOLESALE_STALE_AFTER_SECONDS : Z := 5 * 60.
Definition WHOLESALE_FUNDING_ATTENTION_AFTER_SECONDS : Z := 5 * 60.

(** The column of a funding that the database fills in. *)
Class RowTimes := { wf_created_at : WholesaleFunding -> datetime }.

(** ** Views *)

(** [WholesaleAccountView] and [WholesaleFundingView]. *)
Record WholesaleAccountView := MkAccountView {
  av_account : WholesaleAccount;
  av_age_seconds : spec_float;
  av_stale : bool;
  av_over_per_payee_limit : bool;
}.
Record WholesaleFundingView := MkFundingView {
  fv_funding : WholesaleFunding;
  fv_has_replayable_payment : bool;
  fv_age_seconds : spec_float;
  fv_needs_attention : bool;
}.

(** [WholesaleOverview]. *)
Record WholesaleOverview := MkWholesaleOverview {
  wo_generated_at : datetime;
  wo_limits : Wholesale.WholesaleFundingLimits;
  wo_projected_available_wei : Z;
  wo_observed_available_wei : Z;
  wo_aggregate_headroom_wei : Z;
  wo_aggregate_limit_exceeded : bool;
  wo_stale_accounts : Z;
  wo_pending_fundings : Z;
  wo_accounts : list WholesaleAccountView;
  wo_fundings : list WholesaleFundingView;
}.

(** [AdminUserView]. *)
Record AdminUserView := MkAdminUser {
  uv_user : User;
  uv_approved : bool;
  uv_balance_wei : Z;
}.

(** [AuditEntryView]. *)
Record AuditEntryView := MkAuditEntry {
  ae_audit : OperatorAudit;
  ae_operator_email : string;
  ae_target_user_email : option string;
}.

(** [SdkDistributionEntry]. *)
Record SdkDistributionEntry := MkDistribution {
  de_sdk_identity : string;
  de_count : Z;
  de_status : string;
}.

(** [SdkManifest]. *)
Record SdkManifest := MkManifest {
  mf_items : list SdkApproval;
  mf_generated_at : datetime;
  mf_signature : option string;
  mf_key_fingerprint : option string;
}.

(** ** Orders *)

Definition observed_later (a b : WholesaleAccount) : Prop :=
  dt_us (wa_observed_at b) <= dt_us (wa_observed_at a).
#[export] Instance observed_later_dec : RelDecision observed_later.
Proof. intros a b. unfold observed_later. apply _. Defined.

(** ORDER BY lang, version DESC, git_sha7. *)
Definition sdk_before (a b : SdkApproval) : Prop :=
  String.ltb (sdk_lang a) (sdk_lang b)
  || (String.eqb (sdk_lang a) (sdk_lang b)
      && (String.ltb (sdk_version b) (sdk_version a)
          || (String.eqb (sdk_version a) (sdk_version b)
              && str_le (sdk_git_sha7 a) (sdk_git_sha7 b)))) = true.
#[export] Instance sdk_before_dec : RelDecision sdk_before.
Proof. intros a b. unfold sdk_before. apply _. Defined.

Definition opened_later (a b : PaymentSession) : Prop :=
  dt_us (ps_opened_at b) <= dt_us (ps_opened_at a).
#[export] Instance opened_later_dec : RelDecision opened_later.
Proof. intros a b. unfold opened_later. apply _. Defined.

Definition more_sessions (a b : option string * Z) : Prop := snd b <= snd a.
#[export] Instance more_sessions_dec : RelDecision more_sessions.
Proof. intros a b. unfold more_sessions. apply _. Defined.

Definition taken_later (a b : PaymentDaemonDepositSnapshot) : Prop :=
  dt_us (ds_taken_at b) <= dt_us (ds_taken_at a).
#[export] Instance taken_later_dec : RelDecision taken_later.
Proof. intros a b. unfold taken_later. apply _. Defined.

(** ** Pure parts *)

(** [_age_seconds], in microseconds. *)
Definition age_of (now value : datetime) : Z := Z.max 0 (dt_us now - dt_us value).

Definition account_view (settings : Settings) (now : datetime) (a : WholesaleAccount)
  : WholesaleAccountView :=
  let age := age_of now (wa_observed_at a) in
  MkAccountView a (total_seconds age) (longer_than WHOLESALE_STALE_AFTER_SECONDS age)
    (cfg_wholesale_max_available_per_payee_wei settings <? wa_available_value_wei a).

Definition pending (f : WholesaleFunding) : bool := negb (String.eqb (wf_status f) "acknowledged").

Definition funding_view {T : RowTimes} (now : datetime) (f : WholesaleFunding)
  : WholesaleFundingView :=
  let age := age_of now (wf_created_at f) in
  MkFundingView f (is_some (wf_payment_bytes f)) (total_seconds age)
    (pending f && longer_than WHOLESALE_FUNDING_ATTENTION_AFTER_SECONDS age).

(** One row per live approval of a user, or one without. *)
Definition admin_rows (d : DB) (u : User) : list AdminUserView :=
  let balance := match t_balance d !! us_id u with Some b => cb_amount_wei b | None => 0 end in
  match List.filter (active_approval (us_id u)) (i_approval (t_identity d)) with
  | [] => [MkAdminUser u false balance]
  | approvals => map (fun _ => MkAdminUser u true balance) approvals
  end.

Definition user_email_of (d : DB) (id : uuid) : option string :=
  us_email <$> find (fun u => (us_id u =? id)%N) (i_user (t_identity d)).

(** [SDK_MANIFEST_SIGNING_KEY], if it loads: [_maybe_load_signing_keypair]. *)
Definition maybe_load_signing_keypair {R : Runtime} {E : Ed25519} (settings : Settings)
  : option SigningKeypair :=
  seed ← cfg_sdk_manifest_signing_key settings;
  if str_truthy seed then load_keypair seed else None.

(** The payload the manifest's signature is over. *)
Definition manifest_entry (a : SdkApproval) : json :=
  JObj [("lang", JStr (sdk_lang a)); ("version", JStr (sdk_version a));
        ("git_sha7", JStr (sdk_git_sha7 a)); ("status", JStr (sdk_status a))].
Definition manifest_payload (items : list SdkApproval) (generated_at : string) : dict :=
  [("items", JArr (map manifest_entry items)); ("generated_at", JStr generated_at)].

Definition published (a : SdkApproval) : bool := str_elem (sdk_status a) ["approved"; "deprecated"].

(** The status of each identity as the table has it. *)
Definition approval_statuses (rows : list SdkApproval) : gmap (string * string * string) string :=
  fold_left (fun m a => <[(sdk_lang a, sdk_version a, sdk_git_sha7 a) := sdk_status a]> m) rows ∅.

(** GROUP BY sdk_identity: NULL and the empty text are groups of their own. *)
Definition identity_counts (rows : list PaymentSession) : list (option string * Z) :=
  fold_left (fun acc r => tally (ps_sdk_identity r) 0 (Z.add 1) acc) rows [].

Section reports.
Context {W : Type} {R : Runtime}.
Local Abbreviation M := (M DB W).

(** [wholesale_overview]. *)
Definition wholesale_overview {T : RowTimes} (settings : Settings) (limit : nat)
  : M WholesaleOverview :=
  now <- clock_now ;;
  d <- db_read ;;
  let accounts := firstn limit (merge_sort observed_later (t_account d)) in
  let fundings := firstn limit (rev (t_funding d)) in
  let projected := or_else (t_budget d) 0 in
  let aggregate_limit := cfg_wholesale_max_aggregate_available_wei settings in
  let cutoff := dt_us now - 1000000 * WHOLESALE_STALE_AFTER_SECONDS in
  ret (MkWholesaleOverview now (operator_limits settings) projected
    (sum_by wa_available_value_wei (t_account d))
    (Z.max 0 (dsub aggregate_limit projected)) (aggregate_limit <? projected)
    (Z.of_nat (length (List.filter (fun a => dt_us (wa_observed_at a) <? cutoff) (t_account d))))
    (Z.of_nat (length (List.filter pending (t_funding d))))
    (map (account_view settings now) accounts) (map (funding_view now) fundings)).

(** [list_all_users]. *)
Definition list_all_users (limit offset : nat) : M (list AdminUserView * Z) :=
  d <- db_read ;;
  let users := i_user (t_identity d) in
  ret (firstn limit (skipn offset (flat_map (admin_rows d) (rev users))),
       Z.of_nat (length users)).

(** [list_audit_entries]. *)
Definition list_audit_entries (limit : nat) : M (list AuditEntryView) :=
  d <- db_read ;;
  ret (firstn limit (omap (fun a =>
    op ← operator_by_id (au_operator_id a) d;
    Some (MkAuditEntry a (opr_email op) (au_target_user_id a ≫= user_email_of d)))
    (rev (i_audit (t_identity d))))).

(** [list_pending_users]. *)
Definition list_pending_users : M (list User) :=
  d <- db_read ;;
  ret (List.filter (fun u => negb (existsb (active_approval (us_id u)) (i_approval (t_identity d))))
         (i_user (t_identity d))).

(** [list_operators]. *)
Definition list_operators : M (list Operator) :=
  d <- db_read ;; ret (rev (i_operator (t_identity d))).

(** [list_sdk_approvals] and [list_approved_sdk_manifest]. *)
Definition list_sdk_approvals : M (list SdkApproval) :=
  d <- db_read ;; ret (merge_sort sdk_before (i_sdk_approval (t_identity d))).
Definition list_approved_sdk_manifest : M (list SdkApproval) :=
  d <- db_read ;;
  ret (merge_sort sdk_before (List.filter published (i_sdk_approval (t_identity d)))).

(** [list_recent_sessions_with_sdk]. *)
Definition list_recent_sessions_with_sdk (limit : nat) : M (list (PaymentSession * string)) :=
  d <- db_read ;;
  let rows := firstn limit (merge_sort opened_later (sessions d)) in
  let approvals := approval_statuses (i_sdk_approval (t_identity d)) in
  ret (map (fun ps => (ps, match parse_sdk_identity (ps_sdk_identity ps) with
                           | Some t => or_else (approvals !! t) "unknown"
                           | None => "unknown"
                           end)) rows).

(** [sdk_distribution]. *)
Definition sdk_distribution (limit : nat) : M (list SdkDistributionEntry) :=
  d <- db_read ;;
  mfold (fun out '(identity, count) =>
    status <- evaluate_sdk_identity
      (identity ≫= fun i => if str_truthy i then Some i else None) ;;
    ret (out ++ [MkDistribution (or_else identity "") count status])%list)
    [] (firstn limit (merge_sort more_sessions (identity_counts (sessions d)))).

(** [list_deposit_snapshots] of [payments/service.py]. *)
Definition list_deposit_snapshots (limit : nat) : M (list PaymentDaemonDepositSnapshot) :=
  d <- db_read ;; ret (firstn limit (merge_sort taken_later (t_deposit d))).

(** ** Endpoints *)

Context {E : Ed25519} {T : RowTimes} {C : CatalogClient W}.

Definition wholesale_overview_endpoint (authorization : option string) (settings : Settings)
  : M WholesaleOverview :=
  get_current_operator authorization ;;; wholesale_overview settings 100.
Definition list_pending_users_endpoint (authorization : option string) : M (list User) :=
  get_current_operator authorization ;;; list_pending_users.
Definition list_all_users_endpoint (authorization : option string) (limit offset : nat)
  : M (list AdminUserView * Z) :=
  get_current_operator authorization ;;; list_all_users limit offset.
Definition list_audit_entries_endpoint (authorization : option string) (limit : nat)
  : M (list AuditEntryView) :=
  get_current_operator authorization ;;; list_audit_entries limit.
Definition list_operators_endpoint (authorization : option string) : M (list Operator) :=
  get_current_operator authorization ;;; list_operators.
Definition list_sdk_approvals_endpoint (authorization : option string) : M (list SdkApproval) :=
  get_current_operator authorization ;;; list_sdk_approvals.
Definition list_recent_sessions_endpoint (authorization : option string) (limit : nat)
  : M (list (PaymentSession * string)) :=
  get_current_operator authorization ;;; list_recent_sessions_with_sdk limit.
Definition sdk_distribution_endpoint (authorization : option string) (limit : nat)
  : M (list SdkDistributionEntry) :=
  get_current_operator authorization ;;; sdk_distribution limit.
Definition list_deposit_snapshots_endpoint (authorization : option string) (limit : nat)
  : M (list PaymentDaemonDepositSnapshot) :=
  get_current_operator authorization ;;; list_deposit_snapshots limit.

(** [get_billing_config_endpoint]: the row and the effective values. *)
Definition get_billing_config_endpoint (authorization : option string) (user_id : uuid)
    (settings : Settings) : M (option UserBillingConfig * ResolvedBillingConfig) :=
  get_current_operator authorization ;;;
  row <- get_billing_config user_id ;;
  resolved <- resolve_billing_config user_id settings ;;
  ret (row, resolved).

(** [admin_list_capabilities_endpoint] and [admin_list_orchestrators_endpoint]. *)
Definition admin_list_capabilities_endpoint (authorization : option string)
  : M (list CapabilityInfo * CatalogMetadata) :=
  get_current_operator authorization ;;; capability_catalog.
Definition admin_list_orchestrators_endpoint (authorization capability : option string)
  : M (list OrchestratorInfo * CatalogMetadata) :=
  get_current_operator authorization ;;; orchestrator_catalog capability.

(** [sdk_manifest_endpoint] and [sdk_manifest_pubkey_endpoint]; nobody has to
    be logged in. *)
Definition sdk_manifest_endpoint (settings : Settings) : M SdkManifest :=
  items <- list_approved_sdk_manifest ;;
  generated_at <- clock_now ;;
  ret (match maybe_load_signing_keypair settings with
       | None => MkManifest items generated_at None None
       | Some keypair =>
           MkManifest items generated_at
             (Some (sign_payload keypair (manifest_payload items (rt_isoformat generated_at))))
             (Some (kp_fingerprint keypair))
       end).
Definition sdk_manifest_pubkey_endpoint (settings : Settings) : M (string * string) :=
  keypair <- lift (of_option (maybe_load_signing_keypair settings)
                     (HTTPException 503 "sdk_manifest_signing_not_configured")) ;;
  ret (public_key_b64 keypair, kp_fingerprint keypair).

End reports.
