(* ===== verification/Portal.v ===== *)
(** * The portal and the operator console

    The endpoints of [domains/accounts/runtime.py], [api_keys/runtime.py],
    [admin/runtime.py] and [billing/runtime.py] over the services of
    [Accounts], [Access] and [Operators]: who may call them, what they tidy in
    the body, and the HTTP error each service error becomes. *)

From S2P Require Import Prelude PyData Errors Effects Store Settings Billing Credentials Accounts.
From S2P Require Import Access Registry Payments AdminResolve Operators Endpoints.

Open Scope string_scope.
Open Scope Z_scope.
Open Scope loc_scope.

(** [HTTPException(status_code=.., detail=exc.code)] for the codes an endpoint
    catches. *)
Definition http_codes (codes : list (string * Z)) (e : exn) : option exn :=
  match e with
  | ServiceError code | AdminServiceError code | ApiKeyServiceError code
  | NotificationServiceError code | TelemetryServiceError code =>
      match find (fun cs => String.eqb (fst cs) code) codes with
      | Some (_, status) => Some (HTTPException status code)
      | None => None
      end
  | _ => None
  end.

(** [TopupRequest] and [BillingConfigUpdate]. *)
Record TopupRequest := MkTopupRequest { tq_amount_wei : Z; tq_kind : string }.

Definition valid_topup (b : TopupRequest) : bool :=
  (0 <? tq_amount_wei b) && str_elem (tq_kind b) ["manual"; "initial"; "auto_replenish"].

Record BillingConfigUpdate := MkBillingConfigUpdate {
  bu_spend_period_seconds : option Z;
  bu_spend_period_cap_wei : option Z;
  bu_auto_replenish_increment_wei : option Z;
  bu_auto_replenish_threshold_wei : option Z;
}.

Section portal.
Context {W : Type} {R : Runtime} {K : Credentials W}.
Local Abbreviation M := (M DB W).

Definition with_http {A} (codes : list (string * Z)) (m : M A) : M A :=
  try_except m (fun e => raise <$> http_codes codes e).

(** ** [accounts/runtime.py] *)

(** [_user_response] after [is_approved]. *)
Definition user_response (user : User) : M (User * bool) :=
  approved <- is_approved (us_id user) ;; ret (user, approved).

(** [signup_endpoint]: [SignupRequest] strips its strings. *)
Definition signup_endpoint (email password : string) (settings : Settings) : M (User * bool) :=
  user <- with_http [("email_already_registered", 409)]
    (signup (str_strip email) (str_strip password) (cfg_public_base_url settings)) ;;
  ret (user, false).

(** [verify_email_endpoint]. *)
Definition verify_email_endpoint (token : string) : M (User * bool) :=
  user <- with_http [("invalid_token", 400)] (verify_email token) ;;
  user_response user.

(** [resend_verification_endpoint] and [request_password_reset_endpoint]. *)
Definition resend_verification_request (email : string) (settings : Settings) : M unit :=
  request_resend_verification email (cfg_public_base_url settings).
Definition request_password_reset_endpoint (email : string) (settings : Settings) : M unit :=
  request_password_reset email (cfg_public_base_url settings).

(** [confirm_password_reset_endpoint]. *)
Definition confirm_password_reset_endpoint (token new_password : string) : M (User * bool) :=
  user <- with_http [("invalid_token", 400)] (reset_password token new_password) ;;
  user_response user.

(** [login_endpoint]: the body is taken as it came; the answer carries the
    cookie. *)
Definition login_endpoint (email password : string) (settings : Settings)
  : M (string * (User * bool)) :=
  '(user, raw_token) <- with_http [("invalid_credentials", 401); ("email_not_verified", 403)]
    (login email password) ;;
  sealed <- seal (cfg_session_secret settings) raw_token ;;
  response <- user_response user ;;
  ret (sealed, response).

(** [logout_endpoint]. *)
Definition logout_endpoint (cookie : option string) (settings : Settings) : M unit :=
  match cookie ≫= (fun c => if str_truthy c then Some c else None) with
  | None => ret tt
  | Some c =>
      raw <- unseal (cfg_session_secret settings) c SESSION_TTL ;;
      match raw ≫= (fun t => if str_truthy t then Some t else None) with
      | None => ret tt
      | Some raw_token => revoke_session raw_token
      end
  end.

(** [me_endpoint]. *)
Definition me_endpoint (cookie : option string) (settings : Settings) : M (User * bool) :=
  user <- get_session_user settings cookie ;; user_response user.

(** ** [api_keys/runtime.py] *)

(** [create_api_key_endpoint]. *)
Definition create_api_key_endpoint (cookie : option string) (label : string) (settings : Settings)
  : M (ApiKey * string) :=
  user <- get_session_user settings cookie ;;
  create_api_key (us_id user) label (cfg_api_key_hash_pepper settings).

(** [revoke_api_key_endpoint]. *)
Definition revoke_api_key_endpoint (cookie : option string) (api_key_id : uuid)
    (settings : Settings) : M ApiKey :=
  user <- get_session_user settings cookie ;;
  with_http [("api_key_not_found", 404)] (revoke_api_key (us_id user) api_key_id).

(** ** [billing/runtime.py] *)

(** [get_my_balance]. *)
Definition get_my_balance (cookie : option string) (settings : Settings) : M CreditBalance :=
  user <- get_session_user settings cookie ;; get_balance (us_id user).

(** [admin_topup_user]. *)
Definition admin_topup_user (authorization : option string) (user_id : uuid) (body : TopupRequest)
  : M (CreditTopup * CreditBalance) :=
  operator <- get_current_operator authorization ;;
  topup user_id (tq_amount_wei body) (tq_kind body) (Some (opr_id operator)).

(** ** [admin/runtime.py] *)

(** [approve_user_endpoint]. *)
Definition approve_user_endpoint (authorization : option string) (user_id : uuid)
    (settings : Settings) : M OperatorApproval :=
  operator <- get_current_operator authorization ;;
  with_http [("user_not_found", 404); ("user_already_approved", 409)]
    (approve_user user_id operator (cfg_default_initial_credit_wei settings)
       (cfg_public_base_url settings)).

(** [put_billing_config_endpoint]. *)
Definition put_billing_config_endpoint `{Model BillingConfigUpdate} (authorization : option string)
    (user_id : uuid) (body : BillingConfigUpdate) (settings : Settings)
  : M (option UserBillingConfig * ResolvedBillingConfig) :=
  operator <- get_current_operator authorization ;;
  upsert_billing_config user_id (opr_id operator) (bu_spend_period_seconds body)
    (bu_spend_period_cap_wei body) (bu_auto_replenish_increment_wei body)
    (bu_auto_replenish_threshold_wei body) ;;;
  add_audit (audit operator "update_billing_config" (Some user_id) (Some (model_dump body))) ;;;
  row <- get_billing_config user_id ;;
  resolved <- resolve_billing_config user_id settings ;;
  ret (row, resolved).

(** [resend_verification_endpoint] of the console. *)
Definition admin_resend_verification_endpoint (authorization : option string) (user_id : uuid)
    (settings : Settings) : M unit :=
  operator <- get_current_operator authorization ;;
  with_http [("user_not_found", 404); ("email_already_verified", 409)]
    (resend_verification user_id operator (cfg_public_base_url settings)) ;;;
  ret tt.

(** [create_operator_endpoint], [update_operator_endpoint] and
    [revoke_operator_endpoint] are for owners. *)
Definition create_operator_endpoint (authorization : option string) (email name role : string)
  : M (Operator * string) :=
  owner <- get_owner_operator authorization ;;
  with_http [("invalid_operator_role", 400); ("operator_email_taken", 409)]
    (create_operator owner email name role).

Definition update_operator_endpoint (authorization : option string) (operator_id : uuid)
    (name role : option string) : M Operator :=
  owner <- get_owner_operator authorization ;;
  with_http [("operator_not_found", 404); ("invalid_operator_role", 400);
             ("cannot_demote_last_owner", 409)]
    (update_operator owner operator_id name role).

Definition revoke_operator_endpoint (authorization : option string) (operator_id : uuid)
  : M Operator :=
  owner <- get_owner_operator authorization ;;
  with_http [("operator_not_found", 404); ("cannot_revoke_self", 409);
             ("cannot_demote_last_owner", 409)]
    (revoke_operator owner operator_id).

(** [rotate_operator_token_endpoint]: owners, or the operator itself. *)
Definition rotate_operator_token_endpoint (authorization : option string) (operator_id : uuid)
  : M (Operator * string) :=
  operator <- get_current_operator authorization ;;
  guard (String.eqb (opr_role operator) "owner" || (opr_id operator =? operator_id)%N)
    (HTTPException 403 "operator_role_required:owner_or_self") ;;;
  with_http [("operator_not_found", 404)] (rotate_operator_token operator operator_id).

(** The SDK approval endpoints. *)
Definition create_sdk_approval_endpoint (authorization : option string)
    (lang version git_sha7 status : string) (notes : option string) : M SdkApproval :=
  operator <- get_current_operator authorization ;;
  with_http [("invalid_sdk_approval_status", 400); ("sdk_approval_already_exists", 409)]
    (create_sdk_approval operator lang version git_sha7 status notes).

Definition update_sdk_approval_endpoint (authorization : option string) (approval_id : uuid)
    (status notes : option string) : M SdkApproval :=
  operator <- get_current_operator authorization ;;
  with_http [("sdk_approval_not_found", 404); ("invalid_sdk_approval_status", 400)]
    (update_sdk_approval operator approval_id status notes).

Definition delete_sdk_approval_endpoint (authorization : option string) (approval_id : uuid)
  : M unit :=
  operator <- get_current_operator authorization ;;
  with_http [("sdk_approval_not_found", 404)] (delete_sdk_approval operator approval_id).

(** [resolve_job_endpoint]. *)
Definition resolve_job_endpoint (authorization : option string) (job_id : uuid) (action : string)
    (note : option string) : M ResolveJobResponse :=
  operator <- get_current_operator authorization ;;
  resolve_stuck_work job_id operator action note.

End portal.

(** Renaming errors changes no state. *)
Lemma keeps_with_http {W A} (I : St DB W -> Prop) codes (m : M DB W A) :
  Keeps I m -> Keeps I (with_http codes m).
Proof.
  intros Hm. apply keeps_try; [exact Hm|]. intros e k.
  destruct (http_codes codes e); intros [= <-]. keeps.
Qed.
