(* ===== verification/Notifications.v ===== *)
(** * Notifications

    [domains/notifications]: the e-mail provider's events, the preferences of
    users, the portal's banners, users' webhooks, and the fan-out of a trigger
    over the channels a user enabled.  Logging is not modelled. *)

From S2P Require Import Prelude PyData Codecs Errors Effects Store Settings Payments Mail.
From S2P Require Import Billing Registry AdminResolve Operators Credentials Accounts Access.
From S2P Require Import Endpoints Webhooks Portal.

Open Scope string_scope.
Open Scope Z_scope.
Open Scope loc_scope.

(** ** The provider's events *)

(** [ResendWebhookEvent], with what the code reads of it, and its JSON form. *)
Record ResendWebhookEvent := MkResendWebhookEvent {
  re_type : string;
  re_email_id : option string;
  re_to : list string;
  re_dump : dict;
}.

(** [ResendWebhookEvent.model_validate_json]. *)
Class EventModel := { parse_event : bytes -> option ResendWebhookEvent }.

(** [_status_for_event]. *)
Definition status_for_event (event_type : string) : option string :=
  snd <$> find (fun p => String.eqb (fst p) event_type)
    [("email.delivered", "delivered"); ("email.bounced", "bounced");
     ("email.complained", "complained"); ("email.failed", "failed")].

Definition event_is (provider_event_id : string) (e : EmailEvent) : bool :=
  String.eqb (ev_provider_event_id e) provider_event_id.
Definition sent_as (message_id : string) (e : EmailSend) : bool :=
  bool_decide (es_provider_message_id e = Some message_id).
Definition set_es_status (v : string) (e : EmailSend) : EmailSend :=
  MkEmailSend (es_id e) (es_user_id e) (es_to_address e) (es_subject e)
    (es_provider_message_id e) v (es_sent_at e).

Section events.
Context {W : Type} {R : Runtime}.
Local Abbreviation M := (M DB W).

(** The part of [ingest_event] that finds the message the event is about and
    moves its status. *)
Definition correlate (event : ResendWebhookEvent) : M (option uuid) :=
  match re_email_id event with
  | Some message_id =>
      if str_truthy message_id then
        d <- db_read ;;
        match find (sent_as message_id) (i_email_send (t_identity d)) with
        | None => ret None
        | Some send =>
            match status_for_event (re_type event) with
            | Some status =>
                db_modify (on_email_send (update_first (sent_as message_id) (set_es_status status)))
            | None => ret tt
            end ;;;
            ret (Some (es_id send))
        end
      else ret None
  | None => ret None
  end.

(** [ingest_event]: the event's row, and whether it is new. *)
Definition ingest_event (event : ResendWebhookEvent) (provider_event_id : string)
  : M (EmailEvent * bool) :=
  d <- db_read ;;
  match find (event_is provider_event_id) (i_email_event (t_identity d)) with
  | Some existing => ret (existing, false)
  | None =>
      send_id <- correlate event ;;
      now <- clock_now ;;
      id <- new_uuid ;;
      let row := MkEmailEvent id provider_event_id send_id (re_email_id event) (re_type event)
                   (head (re_to event)) (re_dump event) now in
      insert_unique
        (fun d => existsb (event_is provider_event_id) (i_email_event (t_identity d)))
        (on_email_event (fun l => l ++ [row])%list) ;;;
      ret (row, true)
  end.

(** ORDER BY received_at DESC. *)
Definition received_later (a b : EmailEvent) : Prop :=
  dt_us (ev_received_at b) <= dt_us (ev_received_at a).
#[local] Instance received_later_dec : RelDecision received_later.
Proof. intros a b. unfold received_later. apply _. Defined.

(** [list_recent_events]. *)
Definition list_recent_events (limit : nat) : M (list EmailEvent) :=
  d <- db_read ;;
  ret (firstn limit (merge_sort received_later (i_email_event (t_identity d)))).

(** [list_email_events], for operators. *)
Definition list_email_events (authorization : option string) (limit : nat) : M (list EmailEvent) :=
  get_current_operator authorization ;;; list_recent_events limit.

(** [resend_webhook]: the answer is whether the delivery was a duplicate. *)
Definition resend_webhook `{EventModel} (settings : Settings)
    (webhook_id webhook_timestamp webhook_signature : option string) (body : bytes) : M bool :=
  let unset := HTTPException 503 "resend_webhook_not_configured" in
  secret <- lift (of_option (cfg_resend_webhook_secret settings) unset) ;;
  guard (str_truthy secret) unset ;;;
  now <- clock_now ;;
  try_except
    (lift (verify_signature secret webhook_id webhook_timestamp webhook_signature body now))
    (fun e => match e with
              | WebhookSignatureErr msg => Some (raise (HTTPException 401 msg))
              | _ => None
              end) ;;;
  event <- lift (of_option (parse_event body) (HTTPException 400 "bad_payload")) ;;
  provider_event_id <- lift (of_option webhook_id AssertionError) ;;
  '(_, was_new) <- ingest_event event provider_event_id ;;
  ret (negb was_new).

End events.

(** ** Preferences *)

Definition TRIGGER_CAP_REACHED : string := "cap_reached".
Definition TRIGGER_PERIOD_ROLLOVER : string := "period_rollover".
Definition TRIGGER_WINDDOWN_WARNING : string := "winddown_warning".
Definition TRIGGER_SDK_OUTDATED : string := "sdk_outdated".
Definition TRIGGER_SESSION_FAILED_REPEATEDLY : string := "session_failed_repeatedly".

Definition ALL_TRIGGERS : list string :=
  [TRIGGER_CAP_REACHED; TRIGGER_PERIOD_ROLLOVER; TRIGGER_WINDDOWN_WARNING; TRIGGER_SDK_OUTDATED;
   TRIGGER_SESSION_FAILED_REPEATEDLY].

Definition CHANNEL_EMAIL : string := "email".
Definition CHANNEL_IN_PORTAL : string := "in_portal".
Definition CHANNEL_WEBHOOK : string := "webhook".

Definition ALL_CHANNELS : list string := [CHANNEL_EMAIL; CHANNEL_IN_PORTAL; CHANNEL_WEBHOOK].

Definition DEFAULTS : gmap (string * string) bool := list_to_map
  [((TRIGGER_CAP_REACHED, CHANNEL_EMAIL), true);
   ((TRIGGER_CAP_REACHED, CHANNEL_IN_PORTAL), true);
   ((TRIGGER_CAP_REACHED, CHANNEL_WEBHOOK), false);
   ((TRIGGER_PERIOD_ROLLOVER, CHANNEL_EMAIL), false);
   ((TRIGGER_PERIOD_ROLLOVER, CHANNEL_IN_PORTAL), true);
   ((TRIGGER_PERIOD_ROLLOVER, CHANNEL_WEBHOOK), false);
   ((TRIGGER_WINDDOWN_WARNING, CHANNEL_EMAIL), true);
   ((TRIGGER_WINDDOWN_WARNING, CHANNEL_IN_PORTAL), true);
   ((TRIGGER_WINDDOWN_WARNING, CHANNEL_WEBHOOK), false);
   ((TRIGGER_SDK_OUTDATED, CHANNEL_EMAIL), true);
   ((TRIGGER_SDK_OUTDATED, CHANNEL_IN_PORTAL), false);
   ((TRIGGER_SDK_OUTDATED, CHANNEL_WEBHOOK), false);
   ((TRIGGER_SESSION_FAILED_REPEATEDLY, CHANNEL_EMAIL), true);
   ((TRIGGER_SESSION_FAILED_REPEATEDLY, CHANNEL_IN_PORTAL), false);
   ((TRIGGER_SESSION_FAILED_REPEATEDLY, CHANNEL_WEBHOOK), false)].

Definition InvalidTrigger : exn := NotificationServiceError "invalid_trigger".
Definition InvalidChannel : exn := NotificationServiceError "invalid_channel".
Definition PortalNotificationNotFound : exn :=
  NotificationServiceError "portal_notification_not_found".

(** [NotificationConfig] without its user. *)
Record NotificationConfig := MkNotificationConfig {
  nc_trigger : string;
  nc_channel : string;
  nc_enabled : bool;
}.

(** The rows of one user, in the table's order. *)
Definition overrides_of (user_id : uuid) (n : Notices) : list NotificationConfig :=
  omap (fun kv => let '(u, trigger, channel) := fst kv in
          if (u =? user_id)%N then Some (MkNotificationConfig trigger channel (snd kv)) else None)
    (map_to_list (n_config n)).

(** [_pref]. *)
Definition pref (overrides : list NotificationConfig) (trigger channel : string) : bool :=
  match find (fun o => String.eqb (nc_trigger o) trigger && String.eqb (nc_channel o) channel)
          overrides with
  | Some override => nc_enabled override
  | None => or_else (DEFAULTS !! (trigger, channel)) false
  end.

(** ORDER BY fired_at DESC. *)
Definition newer (a b : PortalNotification) : Prop := dt_us (pn_fired_at b) <= dt_us (pn_fired_at a).
#[export] Instance newer_dec : RelDecision newer.
Proof. intros a b. unfold newer. apply _. Defined.

Section prefs.
Context {W : Type} {R : Runtime}.
Local Abbreviation M := (M DB W).

(** [list_overrides_for_user]. *)
Definition list_overrides_for_user (user_id : uuid) : M (list NotificationConfig) :=
  d <- db_read ;; ret (overrides_of user_id (t_notices d)).

(** [resolved_prefs_for_user]. *)
Definition resolved_prefs_for_user (user_id : uuid) : M (gmap (string * string) bool) :=
  overrides <- list_overrides_for_user user_id ;;
  ret (fold_left (fun out o => <[(nc_trigger o, nc_channel o) := nc_enabled o]> out)
         overrides DEFAULTS).

(** [set_preference]. *)
Definition set_preference (user_id : uuid) (trigger channel : string) (enabled : bool)
  : M NotificationConfig :=
  guard (existsb (String.eqb trigger) ALL_TRIGGERS) InvalidTrigger ;;;
  guard (existsb (String.eqb channel) ALL_CHANNELS) InvalidChannel ;;;
  d <- db_read ;;
  match n_config (t_notices d) !! (user_id, trigger, channel) with
  | Some _ => ret tt
  | None => db_race
  end ;;;
  db_modify (on_config <[(user_id, trigger, channel) := enabled]>) ;;;
  db_flush ;;;
  ret (MkNotificationConfig trigger channel enabled).

(** ** Banners *)


Definition active_banner (user_id : uuid) (n : PortalNotification) : bool :=
  (pn_user_id n =? user_id)%N && negb (is_some (pn_dismissed_at n)).

(** [list_active_portal_notifications]. *)
Definition list_active_portal_notifications (user_id : uuid) (limit : nat)
  : M (list PortalNotification) :=
  d <- db_read ;;
  ret (firstn limit
         (merge_sort newer (List.filter (active_banner user_id) (n_portal (t_notices d))))).

Definition banner_is (id : uuid) (n : PortalNotification) : bool := (pn_id n =? id)%N.
Definition dismissed (now : datetime) (n : PortalNotification) : PortalNotification :=
  MkPortalNotification (pn_id n) (pn_user_id n) (pn_trigger n) (pn_body n) (pn_fired_at n)
    (Some now).

(** [dismiss_portal_notification]. *)
Definition dismiss_portal_notification (user_id notification_id : uuid) : M PortalNotification :=
  d <- db_read ;;
  row <- lift (of_option (find (banner_is notification_id) (n_portal (t_notices d)))
                 PortalNotificationNotFound) ;;
  guard (pn_user_id row =? user_id)%N PortalNotificationNotFound ;;;
  if is_some (pn_dismissed_at row) then ret row
  else
    now <- clock_now ;;
    db_modify (on_portal (update_first (banner_is notification_id) (dismissed now))) ;;;
    db_flush ;;;
    ret (dismissed now row).

End prefs.

(** ** Firing a trigger *)

Section fanout.
Context {W : Type} {R : Runtime} {K : Credentials W} {T : WebhookTransport W}.
Local Abbreviation M := (M DB W).

(** [except Exception: return default]. *)
Definition or_false (m : M bool) : M bool := try_except m (fun _ => Some (ret false)).

Definition banner (id user_id : uuid) (trigger : string) (body : dict) (now : datetime)
  : PortalNotification := MkPortalNotification id user_id trigger body now None.

(** [_fire_in_portal]: in the caller's session. *)
Definition fire_in_portal (user_id : uuid) (trigger : string) (body : dict) : M bool :=
  or_false (
    now <- clock_now ;;
    id <- new_uuid ;;
    db_modify (on_portal (fun l => l ++ [banner id user_id trigger body now])%list) ;;;
    db_flush ;;;
    ret true).

(** [_fire_in_portal_independent]: in a session of its own. *)
Definition fire_in_portal_independent (user_id : uuid) (trigger : string) (body : dict) : M bool :=
  or_false (
    now <- clock_now ;;
    id <- new_uuid ;;
    db_independent (on_portal (fun l => l ++ [banner id user_id trigger body now])%list) ;;;
    ret true).

(** [_fire_email]: the message counts as sent even when its record fails. *)
Definition fire_email (provider : bool) (to subject : string) (body : dict)
    (user_id : option uuid) : M bool :=
  if negb provider then ret false
  else
    sent <- try_except
      (id <- remote (cr_send (notification_email to subject body)) ;; ret (Some id))
      (fun _ => Some (ret None)) ;;
    match sent with
    | None => ret false
    | Some provider_message_id =>
        try_except (
          now <- clock_now ;;
          id <- new_uuid ;;
          db_independent (on_email_send (fun l => l ++
            [MkEmailSend id user_id to subject provider_message_id "sent" now])%list))
          (fun _ => Some (ret tt)) ;;;
        ret true
    end.

(** [_fire_webhook]. *)
Definition fire_webhook (settings : Settings) (user_id : uuid) (trigger : string) (body : dict)
  : M bool :=
  or_false (
    d <- db_read ;;
    match n_webhook (t_notices d) !! user_id with
    | None => ret false
    | Some row =>
        match cfg_webhook_signing_seed settings with
        | None => ret false
        | Some seed =>
            send_webhook (wc_url row) (derive_secret seed user_id)
              [("trigger", JStr trigger); ("body", JObj body)]
              (cfg_webhook_send_max_retries settings)
        end
    end).

(** One channel of the fan-out. *)
Definition fire_if (enabled : bool) (channel : string) (m : M bool) (fired : list (string * bool))
  : M (list (string * bool)) :=
  if enabled then b <- m ;; ret (fired ++ [(channel, b)])%list else ret fired.

(** [notify]: both channels in the caller's session. *)
Definition notify (trigger : string) (user_id : uuid) (user_email subject : string) (body : dict)
    (provider : bool) : M (list (string * bool)) :=
  if negb (existsb (String.eqb trigger) ALL_TRIGGERS) then ret []
  else
    overrides <- list_overrides_for_user user_id ;;
    let enabled := pref overrides trigger in
    fired <- fire_if (enabled CHANNEL_IN_PORTAL) CHANNEL_IN_PORTAL
      (fire_in_portal user_id trigger body) [] ;;
    fire_if (enabled CHANNEL_EMAIL) CHANNEL_EMAIL
      (fire_email provider user_email subject body (Some user_id)) fired.

(** Whether [_default_email] returns a provider. *)
Definition email_available (settings : Settings) : bool :=
  match make_email_provider settings with Ok _ => true | Err _ => false end.

(** [_notify_trigger]. *)
Definition notify_trigger (settings : Settings) (trigger : string) (user_id : uuid)
    (subject : string) (body : dict) : M (list (string * bool)) :=
  d <- db_read ;;
  match user_by_id user_id d with
  | None => ret []
  | Some user =>
      overrides <- list_overrides_for_user user_id ;;
      let enabled := pref overrides trigger in
      fired <- fire_if (enabled CHANNEL_IN_PORTAL) CHANNEL_IN_PORTAL
        (fire_in_portal_independent user_id trigger body) [] ;;
      fired <- fire_if (enabled CHANNEL_EMAIL) CHANNEL_EMAIL
        (fire_email (email_available settings) (us_email user) subject body (Some user_id)) fired ;;
      fire_if (enabled CHANNEL_WEBHOOK) CHANNEL_WEBHOOK
        (fire_webhook settings user_id trigger body) fired
  end.

Context (settings : Settings).

Definition notify_cap_reached (user_id : uuid) (which_cap : string) (remaining_wei : Z)
  : M (list (string * bool)) :=
  notify_trigger settings TRIGGER_CAP_REACHED user_id
    (BRAND ++ " spend cap reached: " ++ which_cap)
    [("trigger", JStr TRIGGER_CAP_REACHED); ("which_cap", JStr which_cap);
     ("remaining_wei", JInt remaining_wei)].

Definition notify_winddown_warning (user_id session_id : uuid) (reason : string)
  : M (list (string * bool)) :=
  notify_trigger settings TRIGGER_WINDDOWN_WARNING user_id
    (BRAND ++ " session winding down: " ++ reason)
    [("trigger", JStr TRIGGER_WINDDOWN_WARNING); ("session_id", JStr (str_uuid session_id));
     ("reason", JStr reason)].

Definition notify_sdk_outdated (user_id : uuid) (lang semver observed_status : string)
  : M (list (string * bool)) :=
  notify_trigger settings TRIGGER_SDK_OUTDATED user_id
    (BRAND ++ " SDK out of date: " ++ lang ++ " " ++ semver)
    [("trigger", JStr TRIGGER_SDK_OUTDATED); ("lang", JStr lang); ("semver", JStr semver);
     ("observed_status", JStr observed_status)].

Definition notify_period_rollover (user_id : uuid) (period_start period_end : string)
    (previous_period_spend_wei : Z) : M (list (string * bool)) :=
  notify_trigger settings TRIGGER_PERIOD_ROLLOVER user_id
    (BRAND ++ " spend period rolled over")
    [("trigger", JStr TRIGGER_PERIOD_ROLLOVER); ("period_start", JStr period_start);
     ("period_end", JStr period_end);
     ("previous_period_spend_wei", JInt previous_period_spend_wei)].

Definition notify_session_failed_repeatedly (user_id api_key_id : uuid)
    (failure_count window_hours : Z) : M (list (string * bool)) :=
  notify_trigger settings TRIGGER_SESSION_FAILED_REPEATEDLY user_id
    (BRAND ++ " session failures detected")
    [("trigger", JStr TRIGGER_SESSION_FAILED_REPEATEDLY);
     ("api_key_id", JStr (str_uuid api_key_id)); ("failure_count", JInt failure_count);
     ("window_hours", JInt window_hours)].

End fanout.

(** ** Endpoints *)

Section endpoints.
Context {W : Type} {R : Runtime} {K : Credentials W} {T : WebhookTransport W}.
Local Abbreviation M := (M DB W).

(** [NotificationPrefView]. *)
Record NotificationPrefView := MkPrefView {
  pv_trigger : string;
  pv_channel : string;
  pv_enabled : bool;
  pv_is_default : bool;
}.

(** The order of the keys of [sorted(resolved.items())]. *)
Definition cell_before (a b : NotificationPrefView) : Prop :=
  String.ltb (pv_trigger a) (pv_trigger b)
  || (String.eqb (pv_trigger a) (pv_trigger b) && negb (String.ltb (pv_channel b) (pv_channel a)))
  = true.
#[export] Instance cell_before_dec : RelDecision cell_before.
Proof. intros a b. unfold cell_before. apply _. Defined.

(** [get_notification_prefs_endpoint]. *)
Definition get_notification_prefs_endpoint (settings : Settings) (cookie api_key : option string)
  : M (list NotificationPrefView) :=
  user <- get_authed_user settings cookie api_key ;;
  resolved <- resolved_prefs_for_user (us_id user) ;;
  overrides <- list_overrides_for_user (us_id user) ;;
  ret (merge_sort cell_before (map (fun kv => let '(trigger, channel) := fst kv in
         MkPrefView trigger channel (snd kv)
           (negb (existsb (fun o => String.eqb (nc_trigger o) trigger
                                    && String.eqb (nc_channel o) channel) overrides)))
         (map_to_list resolved))).

(** [UpdateNotificationPrefRequest]. *)
Record UpdateNotificationPrefRequest := MkUpdatePref {
  up_trigger : string;
  up_channel : string;
  up_enabled : bool;
}.
Definition valid_update_pref (b : UpdateNotificationPrefRequest) : bool :=
  (1 <=? String.length (up_trigger b))%nat && (String.length (up_trigger b) <=? 64)%nat
  && (1 <=? String.length (up_channel b))%nat && (String.length (up_channel b) <=? 16)%nat.

(** [put_notification_pref_endpoint]. *)
Definition put_notification_pref_endpoint (settings : Settings) (cookie api_key : option string)
    (body : UpdateNotificationPrefRequest) : M NotificationConfig :=
  user <- get_authed_user settings cookie api_key ;;
  with_http [("invalid_trigger", 400); ("invalid_channel", 400)]
    (set_preference (us_id user) (up_trigger body) (up_channel body) (up_enabled body)).

(** [list_portal_notifications_endpoint] and
    [dismiss_portal_notification_endpoint]. *)
Definition list_portal_notifications_endpoint (settings : Settings)
    (cookie api_key : option string) (limit : nat) : M (list PortalNotification) :=
  user <- get_authed_user settings cookie api_key ;;
  list_active_portal_notifications (us_id user) limit.

Definition dismiss_portal_notification_endpoint (settings : Settings)
    (cookie api_key : option string) (notification_id : uuid) : M PortalNotification :=
  user <- get_authed_user settings cookie api_key ;;
  with_http [("portal_notification_not_found", 404)]
    (dismiss_portal_notification (us_id user) notification_id).

(** [get_webhook_config_endpoint]. *)
Definition get_webhook_config_endpoint (settings : Settings) (cookie api_key : option string)
  : M (option NotificationWebhookConfig) :=
  user <- get_authed_user settings cookie api_key ;;
  d <- db_read ;;
  ret (n_webhook (t_notices d) !! us_id user).

Definition signing_seed (settings : Settings) : res string :=
  of_option (cfg_webhook_signing_seed settings) (HTTPException 503 "webhook_signing_not_configured").

(** [row.url = url], or a new row. *)
Definition with_url (url : string) (row : option NotificationWebhookConfig)
  : NotificationWebhookConfig :=
  MkWebhookConfig url (row ≫= wc_last_test_at).

(** [put_webhook_config_endpoint]: the URL and the secret to verify with. *)
Definition put_webhook_config_endpoint (settings : Settings) (cookie api_key : option string)
    (url : string) : M (string * string) :=
  user <- get_authed_user settings cookie api_key ;;
  seed <- lift (signing_seed settings) ;;
  guard (str_startswith "https://" url || str_startswith "http://" url)
    (HTTPException 400 "invalid_webhook_url") ;;;
  d <- db_read ;;
  let row := n_webhook (t_notices d) !! us_id user in
  (if is_some row then ret tt else db_race) ;;;
  db_modify (on_webhook <[us_id user := with_url url row]>) ;;;
  db_flush ;;;
  ret (url, derive_secret seed (us_id user)).

(** [delete_webhook_config_endpoint]. *)
Definition delete_webhook_config_endpoint (settings : Settings) (cookie api_key : option string)
  : M unit :=
  user <- get_authed_user settings cookie api_key ;;
  d <- db_read ;;
  match n_webhook (t_notices d) !! us_id user with
  | None => ret tt
  | Some _ => db_modify (on_webhook (delete (us_id user))) ;;; db_flush
  end.

(** [test_webhook_config_endpoint]. *)
Definition test_webhook_config_endpoint (settings : Settings) (cookie api_key : option string)
  : M bool :=
  user <- get_authed_user settings cookie api_key ;;
  d <- db_read ;;
  row <- lift (of_option (n_webhook (t_notices d) !! us_id user)
                 (HTTPException 404 "webhook_not_configured")) ;;
  seed <- lift (signing_seed settings) ;;
  ok <- send_webhook (wc_url row) (derive_secret seed (us_id user))
    [("trigger", JStr "test_ping"); ("body", JObj [("hello", JStr "world")])] 1 ;;
  now <- clock_now ;;
  db_modify (on_webhook <[us_id user := MkWebhookConfig (wc_url row) (Some now)]>) ;;;
  db_flush ;;;
  ret ok.

End endpoints.
