(* ===== verification/ServerEvents.v ===== *)
(** * Server events

    [domains/telemetry/server_events.py]: the events the service emits about its
    own refusals and recoveries, and the notifications they fire; and the
    triggers [telemetry/runtime.py] evaluates after an ingest.  The in-process
    dictionaries that throttle notifications are part of the world, their clock
    readings exact. *)

From S2P Require Import Prelude PyData Codecs Errors Effects Store Settings Payments Mail.
From S2P Require Import Credentials Operators Webhooks Telemetry Notifications.

Open Scope string_scope.
Open Scope Z_scope.
Open Scope loc_scope.

(** ** Process memory *)

(** [_sdk_outdated_seen] and [_session_failed_last_fired], in microseconds. *)
Record Throttles := MkThrottles {
  th_sdk_outdated : gmap (uuid * string * string) Z;
  th_session_failed : gmap uuid Z;
}.
Definition set_sdk_outdated (m : gmap (uuid * string * string) Z) (t : Throttles) : Throttles :=
  MkThrottles m (th_session_failed t).
Definition set_session_failed (m : gmap uuid Z) (t : Throttles) : Throttles :=
  MkThrottles (th_sdk_outdated t) m.

(** Where the world keeps them. *)
Class ProcessMemory (W : Type) := {
  pm_throttles : W -> Throttles;
  pm_set_throttles : Throttles -> W -> W;
}.

Definition SDK_OUTDATED_DEDUPE_HOURS : Z := 24.
Definition SESSION_FAILURE_WINDOW_HOURS : Z := 1.
Definition SESSION_FAILURE_THRESHOLD : Z := 3.

(** [last is not None and (now_ts - last) < hours * 3600]. *)
Definition suppressed (hours : Z) (last : option Z) (now : datetime) : bool :=
  match last with
  | Some fired => dt_us now - fired <? hours * 3600 * 1000000
  | None => false
  end.

(** [int(v)]. *)
Definition py_int (j : json) : res Z :=
  match j with
  | JInt z => Ok z
  | JBool b => Ok (if b then 1 else 0)
  | JStr s => of_option (int_of_str s) (ValueError "int")
  | _ => Err TypeError
  end.

Section server_events.
Context {W : Type} {R : Runtime} {K : Credentials W} {T : WebhookTransport W} {P : ProcessMemory W}.
Local Abbreviation M := (M DB W).
Context (settings : Settings) (hostname : option string).

(** [try: ...  except Exception: log]. *)
Definition swallow {A} (m : M A) : M unit := try_except (m ;;; ret tt) (fun _ => Some (ret tt)).

(** [_server_side_enrichment]. *)
Definition server_side_enrichment : Enrichment :=
  MkEnrichment None None None (Some (resolve_ingest_node_id hostname (cfg_ingest_node_id settings))).

(** [_safe_emit]. *)
Definition safe_emit (event_type : string) (payload : dict)
    (api_key_id user_id correlation_id : option uuid) : M unit :=
  swallow (record_server_event event_type CURRENT_SCHEMA_VERSION payload api_key_id user_id
             correlation_id (Some server_side_enrichment)).

(** [_safe_emit_independent]: in a session of its own, which commits. *)
Definition safe_emit_independent (event_type : string) (payload : dict)
    (api_key_id user_id correlation_id : option uuid) : M unit :=
  swallow (server_event (fun row => db_independent (on_telemetry (fun l => l ++ [row])%list))
             event_type CURRENT_SCHEMA_VERSION payload api_key_id user_id correlation_id
             (Some server_side_enrichment)).

(** ** Notifications *)

(** [_maybe_notify_cap_reached]. *)
Definition maybe_notify_cap_reached (user_id : uuid) (which_cap : string) (remaining_wei : Z)
  : M unit :=
  swallow (notify_cap_reached settings user_id which_cap remaining_wei).

(** [_maybe_notify_winddown]. *)
Definition maybe_notify_winddown (user_id session_id : uuid) (reason : string) : M unit :=
  swallow (notify_winddown_warning settings user_id session_id reason).

Definition throttles : M Throttles := remote (fun w => (Ok (pm_throttles w), w)).
Definition set_throttles (t : Throttles) : M unit :=
  remote (fun w => (Ok tt, pm_set_throttles t w)).

(** [_maybe_notify_sdk_outdated]. *)
Definition maybe_notify_sdk_outdated (user_id : uuid) (lang semver observed_status : string)
  : M unit :=
  if negb (str_truthy lang) then ret tt
  else
    let key := (user_id, lang, semver) in
    now <- clock_now ;;
    t <- throttles ;;
    if suppressed SDK_OUTDATED_DEDUPE_HOURS (th_sdk_outdated t !! key) now then ret tt
    else
      set_throttles (set_sdk_outdated (<[key := dt_us now]> (th_sdk_outdated t)) t) ;;;
      swallow (notify_sdk_outdated settings user_id lang semver observed_status).

(** ** Events *)

Definition str_or_null (s : option string) : json :=
  match s with Some v => JStr v | None => JNull end.

(** [emit_mint_served]. *)
Definition emit_mint_served (api_key_id user_id : uuid) (capability offering protocol : string)
    (estimated_units funded_value_wei mint_latency_ms : Z) (correlation_id : option uuid) : M unit :=
  safe_emit "server.mint_served"
    [("capability", JStr capability); ("offering", JStr offering); ("protocol", JStr protocol);
     ("estimated_units", JInt estimated_units); ("funded_value_wei", JInt funded_value_wei);
     ("mint_latency_ms", JInt mint_latency_ms)]
    (Some api_key_id) (Some user_id) correlation_id.

(** [emit_mint_refused]. *)
Definition emit_mint_refused (api_key_id user_id : uuid) (capability offering : option string)
    (which_cap : string) (remaining_wei : Z) : M unit :=
  safe_emit_independent "server.mint_refused"
    [("capability", str_or_null capability); ("offering", str_or_null offering);
     ("which_cap", JStr which_cap); ("remaining_wei", JInt remaining_wei)]
    (Some api_key_id) (Some user_id) None ;;;
  maybe_notify_cap_reached user_id which_cap remaining_wei ;;;
  maybe_notify_cap_reached user_id which_cap remaining_wei.

(** [emit_refill_served]. *)
Definition emit_refill_served (api_key_id user_id session_id : uuid)
    (refill_seq funded_value_wei : Z) (cap_status : dict) : M unit :=
  safe_emit "server.refill_served"
    [("session_id", JStr (str_uuid session_id)); ("refill_seq", JInt refill_seq);
     ("funded_value_wei", JInt funded_value_wei); ("cap_status", JObj cap_status)]
    (Some api_key_id) (Some user_id) (Some session_id) ;;;
  if json_truthy (or_else (dget "will_refuse_next_refill" cap_status) JNull) then
    let reason_obj := or_else (dget "winddown_reason" cap_status) JNull in
    let reason := if json_truthy reason_obj then py_str reason_obj else "cap_imminent" in
    maybe_notify_winddown user_id session_id reason
  else ret tt.

(** [emit_refill_denied]. *)
Definition emit_refill_denied (api_key_id user_id session_id : uuid) (refill_seq : Z)
    (which_cap : string) (remaining_wei : Z) : M unit :=
  safe_emit_independent "server.refill_denied"
    [("session_id", JStr (str_uuid session_id)); ("refill_seq", JInt refill_seq);
     ("which_cap", JStr which_cap); ("remaining_wei", JInt remaining_wei)]
    (Some api_key_id) (Some user_id) (Some session_id).

(** [emit_settlement_verification_failed]. *)
Definition emit_settlement_verification_failed (api_key_id : option uuid)
    (user_id session_id : uuid) (protocol reason : string) : M unit :=
  safe_emit_independent "server.settlement_verification_failed"
    [("session_id", JStr (str_uuid session_id)); ("protocol", JStr protocol);
     ("code", JStr "settlement_verification_failed"); ("reason", JStr reason)]
    api_key_id (Some user_id) (Some session_id).

(** [emit_session_janitor_finalized]. *)
Definition emit_session_janitor_finalized (api_key_id user_id session_id : uuid)
    (actual_units billed_value_wei refund_wei : Z) (outcome : string)
    (silence_duration_seconds : Z) : M unit :=
  safe_emit "server.session_janitor_finalized"
    [("session_id", JStr (str_uuid session_id)); ("actual_units", JInt actual_units);
     ("billed_value_wei", JInt billed_value_wei); ("refund_wei", JInt refund_wei);
     ("outcome", JStr outcome); ("silence_duration_seconds", JInt silence_duration_seconds)]
    (Some api_key_id) (Some user_id) (Some session_id).

(** [emit_sdk_sha_mismatch]. *)
Definition emit_sdk_sha_mismatch (api_key_id user_id : uuid)
    (lang semver reported_sha observed_status : string) : M unit :=
  safe_emit "server.sdk_sha_mismatch"
    [("lang", JStr lang); ("semver", JStr semver); ("reported_sha", JStr reported_sha);
     ("observed_status", JStr observed_status)]
    (Some api_key_id) (Some user_id) None ;;;
  maybe_notify_sdk_outdated user_id lang semver observed_status.

(** [emit_sha_mismatch_if_unapproved]. *)
Definition emit_sha_mismatch_if_unapproved (api_key_id user_id : uuid)
    (sdk_identity : option string) : M unit :=
  match parse_sdk_identity sdk_identity with
  | None => emit_sdk_sha_mismatch api_key_id user_id "" "" "" "unknown"
  | Some (lang, semver, sha) =>
      status <- evaluate_sdk_identity sdk_identity ;;
      if String.eqb status "approved" then ret tt
      else emit_sdk_sha_mismatch api_key_id user_id lang semver sha status
  end.

(** ** Triggers of an ingested batch *)

(** One [quota.period_rollover] event. *)
Definition notify_rollover (user_id : uuid) (payload : dict) : M unit :=
  previous <- lift (py_int (or_else (dget "previous_period_spend_wei" payload) (JInt 0))) ;;
  notify_period_rollover settings user_id
    (py_str (or_else (dget "period_start" payload) (JStr "")))
    (py_str (or_else (dget "period_end" payload) (JStr ""))) previous ;;;
  ret tt.

Definition recent_session_errors (api_key_id : uuid) (since : datetime) (d : DB) : Z :=
  Z.of_nat (length (List.filter (fun e => of_api_key api_key_id e
      && String.eqb (te_event_type e) "session.error"
      && (dt_us since <=? dt_us (te_received_ts e))) (n_telemetry (t_notices d)))).

(** The [session.error] half. *)
Definition notify_session_errors (api_key_id user_id : uuid) : M unit :=
  now <- clock_now ;;
  d <- db_read ;;
  let count := recent_session_errors api_key_id
                 (dt_add_seconds now (- (3600 * SESSION_FAILURE_WINDOW_HOURS))) d in
  if SESSION_FAILURE_THRESHOLD <=? count then
    t <- throttles ;;
    if suppressed SESSION_FAILURE_WINDOW_HOURS (th_session_failed t !! api_key_id) now then ret tt
    else
      set_throttles (set_session_failed (<[api_key_id := dt_us now]> (th_session_failed t)) t) ;;;
      notify_session_failed_repeatedly settings user_id api_key_id count
        SESSION_FAILURE_WINDOW_HOURS ;;;
      ret tt
  else ret tt.

(** [_evaluate_post_ingest_triggers]. *)
Definition evaluate_post_ingest_triggers (api_key_id user_id : uuid)
    (events : list IngestEventIn) : M unit :=
  mfold (fun _ ev =>
    if String.eqb (ie_event_type ev) "quota.period_rollover"
    then notify_rollover user_id (ie_payload ev) else ret tt) tt events ;;;
  if existsb (fun ev => String.eqb (ie_event_type ev) "session.error") events
  then notify_session_errors api_key_id user_id else ret tt.

End server_events.
