(* ===== verification/TelemetryEndpoints.v ===== *)
(** * Telemetry: endpoints

    [domains/telemetry/runtime.py], the broker lookup of [enrichment.py] and the
    retention task of [main.py].  A streamed response is the rows it writes. *)

From S2P Require Import Prelude PyData Codecs Errors Effects Store Settings Payments Mail Billing.
From S2P Require Import RateLimiter Telemetry Credentials Accounts Access Catalog Endpoints Operators.
From S2P Require Import Webhooks Portal Notifications ServerEvents.
From Stdlib Require Import Floats.SpecFloat.

Open Scope string_scope.
Open Scope Z_scope.
Open Scope loc_scope.

(** ** The broker lookup *)

(** [_BrokerOperatorCache]: orchestrator addresses by URL, and when they were
    loaded. *)
Record BrokerOperators := MkBrokerOperators {
  bo_map : gmap string string;
  bo_loaded_at : spec_float;
}.

(** Where the process keeps it. *)
Class BrokerCache (W : Type) := {
  bc_operators : W -> BrokerOperators;
  bc_set_operators : BrokerOperators -> W -> W;
}.

Definition BROKER_CACHE_TTL : Z := 60.

Definition operators_of (orchestrators : list OrchestratorInfo) : gmap string string :=
  fold_left (fun m o => <[or_worker_url o := or_eth_address o]> m) orchestrators ∅.

(** ** Requests and views *)

(** The constraints of [IngestRequest]. *)
Definition valid_ingest_event (e : IngestEventIn) : bool :=
  (1 <=? String.length (ie_event_type e))%nat && (String.length (ie_event_type e) <=? 64)%nat
  && (1 <=? ie_event_schema_version e).
Definition valid_ingest (events : list IngestEventIn) : bool :=
  (1 <=? length events)%nat && forallb valid_ingest_event events.

(** [IngestResponse]. *)
Record IngestResponse := MkIngestResponse {
  ir_accepted : Z;
  ir_rejected : Z;
  ir_rejections : list string;
}.

(** [EventView]: what a customer sees of a row. *)
Record EventView := MkEventView {
  vw_id : uuid;
  vw_event_type : string;
  vw_event_schema_version : Z;
  vw_correlation_id : option uuid;
  vw_client_ts : option datetime;
  vw_received_ts : datetime;
  vw_source : string;
  vw_payload : dict;
}.

(** [_event_view]. *)
Definition event_view (e : TelemetryEvent) : EventView :=
  MkEventView (te_id e) (te_event_type e) (te_event_schema_version e) (te_correlation_id e)
    (te_client_ts e) (te_received_ts e) (te_source e) (te_payload e).

(** An answer to a query: a page, or a stream of the page with its cursor. *)
Inductive QueryAnswer :=
  | EventList (items : list EventView) (next_cursor : option string)
  | EventStream (lines : list EventView) (cursor : option string).

(** [page_size or min(100, int(settings.telemetry_query_max_page_size))]. *)
Definition effective_page_size (settings : Settings) (page_size : option nat) : nat :=
  match page_size with
  | Some (S n) => S n
  | _ => Z.to_nat (Z.min 100 (cfg_telemetry_query_max_page_size settings))
  end.
Definition valid_page_size (page_size : option nat) : bool :=
  match page_size with Some n => (1 <=? n)%nat && (n <=? 5000)%nat | None => true end.

Section telemetry_endpoints.
Context {W : Type} {R : Runtime} {K : Credentials W} {T : WebhookTransport W} {P : ProcessMemory W}.
Context {L : LimiterState W} {B : BrokerCache W} {C : CatalogClient W}.
Local Abbreviation M := (M DB W).
Context (settings : Settings) (hostname : option string).

Definition broker_operators : M BrokerOperators := remote (fun w => (Ok (bc_operators w), w)).
Definition set_broker_operators (o : BrokerOperators) : M unit :=
  remote (fun w => (Ok tt, bc_set_operators o w)).

(** [lookup_broker_operator]. *)
Definition lookup_broker_operator (broker_url : string) : M (option string) :=
  if negb (str_truthy broker_url) then ret None
  else
    now <- tick ls_monotonic ;;
    o <- broker_operators ;;
    if bool_decide (bo_map o = ∅)
       || SFltb (double BROKER_CACHE_TTL) (double_sub now (bo_loaded_at o))
    then
      loaded <- try_except (l <- list_orchestrators None ;; ret (Some (operators_of l)))
        (fun _ => Some (ret None)) ;;
      match loaded with
      | Some m => set_broker_operators (MkBrokerOperators m now) ;;; ret (m !! broker_url)
      | None => ret None
      end
    else ret (bo_map o !! broker_url).

(** ** Ingest *)

(** A token per event, before any work. *)
Definition charge_events (api_key_id : uuid) (n : nat) : M unit :=
  let capacity := cfg_telemetry_ingest_rate_per_key settings in
  if 0 <? capacity then
    mfold (fun _ _ =>
      '(allowed, _) <- acquire "POST /v1/telemetry" (str_uuid api_key_id) capacity (capacity * 60) ;;
      guard allowed (HTTPException 429 "telemetry_rate_limited")) tt (seq 0 n)
  else ret tt.

Definition with_broker (operator : string) (e : Enrichment) : Enrichment :=
  MkEnrichment (en_geo_region e) (en_account_tier e) (Some operator) (en_ingest_node_id e).

(** The override of each event: its broker's operator. *)
Definition broker_enrichments (base : Enrichment) (events : list IngestEventIn)
  : M (list (option Enrichment)) :=
  mfold (fun acc ev =>
    match dget "broker_url" (ie_payload ev) with
    | Some (JStr url) =>
        op <- lookup_broker_operator url ;;
        ret (acc ++ [(fun a => with_broker a base) <$> op])%list
    | _ => ret (acc ++ [None])%list
    end) [] events.

(** [ingest_endpoint]. *)
Definition ingest_endpoint (x_api_key authorization : option string)
    (events : list IngestEventIn) : M IngestResponse :=
  '(key, user) <- get_current_api_key_and_user settings x_api_key authorization ;;
  charge_events (ak_id key) (length events) ;;;
  d <- db_read ;;
  let base := MkEnrichment None ((t_billing d !! us_id user) ≫= ub_tier) None
                (Some (resolve_ingest_node_id hostname (cfg_ingest_node_id settings))) in
  event_enrichments <- broker_enrichments base events ;;
  let needs_override := existsb is_some event_enrichments in
  '(accepted, reasons) <-
    with_http [("batch_too_large", 413)]
      (ingest_batch (Some (ak_id key)) (Some (us_id user)) events (Some base)
         (if needs_override then Some event_enrichments else None)) ;;
  swallow (evaluate_post_ingest_triggers settings (ak_id key) (us_id user) events) ;;;
  let rejections := List.filter str_truthy reasons in
  ret (MkIngestResponse accepted (Z.of_nat (length rejections)) rejections).

(** ** Queries *)

(** [_parse_window_or_400], which the SDK's endpoint repeats. *)
Definition parse_window (from_ts to_ts : string) : res (datetime * datetime) :=
  let bad := HTTPException 400 "invalid_timestamp" in
  let? from_dt := of_option (rt_fromisoformat from_ts) bad in
  let? to_dt := of_option (rt_fromisoformat to_ts) bad in
  Ok (dt_assume_utc from_dt, dt_assume_utc to_dt).

Definition query_codes : list (string * Z) :=
  [("telemetry_window_expired", 410); ("invalid_cursor", 400)].

(** [query_events_endpoint]. *)
Definition query_events_endpoint (x_api_key authorization : option string)
    (from_ts to_ts : string) (type_glob : option string) (ndjson : bool) (cursor : option string) (page_size : option nat)
  : M QueryAnswer :=
  '(key, _) <- get_current_api_key_and_user settings x_api_key authorization ;;
  let capacity := cfg_telemetry_query_rate_per_key_per_minute settings in
  (if 0 <? capacity then
     '(allowed, _) <-
       acquire "GET /v1/telemetry/events" (str_uuid (ak_id key)) capacity capacity ;;
     guard allowed (HTTPException 429 "telemetry_query_rate_limited")
   else ret tt) ;;;
  '(from_dt, to_dt) <- lift (parse_window from_ts to_ts) ;;
  '(rows, next_cursor) <- with_http query_codes
    (list_events_for_api_key (ak_id key) from_dt to_dt type_glob cursor
       (effective_page_size settings page_size) (cfg_telemetry_raw_retention_days settings)) ;;
  let views := map event_view rows in
  ret (if ndjson then EventStream views next_cursor else EventList views next_cursor).

(** [portal_query_events_endpoint]. *)
Definition portal_query_events_endpoint (cookie : option string) (from_ts to_ts : string)
    (type_glob cursor : option string) (page_size : option nat) : M QueryAnswer :=
  user <- get_session_user settings cookie ;;
  '(from_dt, to_dt) <- lift (parse_window from_ts to_ts) ;;
  '(rows, next_cursor) <- with_http query_codes
    (list_events_for_user (us_id user) from_dt to_dt type_glob cursor
       (effective_page_size settings page_size) (cfg_telemetry_raw_retention_days settings)) ;;
  ret (EventList (map event_view rows) next_cursor).

(** [portal_download_endpoint], to the end of its stream. *)
Definition portal_download_endpoint (cookie : option string) (fuel : nat)
  : M (option (list EventView)) :=
  user <- get_session_user settings cookie ;;
  rows <- download_events (us_id user) (cfg_telemetry_raw_retention_days settings)
    (Z.to_nat (cfg_telemetry_query_max_page_size settings)) fuel ;;
  ret (map event_view <$> rows).

(** ** Operators *)

Definition hours_before (hours : Z) (now : datetime) : datetime :=
  dt_add_seconds now (- (3600 * hours)).

(** [admin_event_counts_endpoint]. *)
Definition admin_event_counts_endpoint (authorization : option string) (hours : Z)
  : M (gmap string Z) :=
  get_current_operator authorization ;;;
  now <- clock_now ;;
  admin_event_counts (hours_before hours now).

(** [admin_purge_user_endpoint]: the rows deleted. *)
Definition admin_purge_user_endpoint (authorization : option string) (user_id : uuid) : M Z :=
  operator <- get_current_operator authorization ;;
  deleted <- purge_for_user user_id ;;
  db_modify (on_audit (fun l =>
    l ++ [audit operator "purge_user_telemetry" (Some user_id)
            (Some [("deleted", JInt deleted)])])%list) ;;;
  ret deleted.

(** [admin_rate_limit_offenders_endpoint]. *)
Definition admin_rate_limit_offenders_endpoint (authorization : option string) (hours : Z)
    (limit : nat) : M (list (option uuid * Z)) :=
  get_current_operator authorization ;;;
  now <- clock_now ;;
  admin_rate_limit_offenders (hours_before hours now) limit.

End telemetry_endpoints.
