(* ===== verification/Scheduler.v ===== *)
(** * Background tasks

    The interval jobs [main.py] registers: each opens one database session,
    runs its service passes in it, and swallows what they raise (only the
    idempotency janitor lets it propagate).  Logging is not modelled. *)

From S2P Require Import Prelude PyData Errors Effects Store Settings Billing.
From S2P Require Import SettlementVerification PaymentDaemon BrokerSettlement Wholesale Payments.
From S2P Require Import SessionCore SessionSettle SessionFlows Jobs JobReconcile Telemetry.

Open Scope string_scope.
Open Scope Z_scope.
Open Scope loc_scope.

Section scheduler.
Context {W : Type} {R : Runtime} {L : SettlementLib}.
Context {B : BrokerAccountClient W} {S : BrokerSettlementClient W} {D : PaymentDaemonClient W}.
Local Abbreviation M := (M DB W).

(** [except Exception: log]. *)
Definition logged {A} (m : M A) : M unit :=
  try_except (m ;;; ret tt) (fun _ => Some (ret tt)).

(** [_expire_stale_idempotency_keys]. *)
Definition expire_idempotency_task : M Z := session_scope expire_stale_idempotency_keys.

(** [_snapshot_deposit]. *)
Definition snapshot_deposit_task : M unit := logged (session_scope snapshot_deposit).

(** [_auto_replenish]. *)
Definition auto_replenish_task (settings : Settings) : M unit :=
  logged (session_scope (run_auto_replenish settings)).

(** [_replenish_wholesale_accounts]: one transaction per active account. *)
Definition replenish_accounts_task (settings : Settings) : M unit :=
  scanned <- try_except
    (l <- session_scope list_active_wholesale_account_routes ;; ret (Some l))
    (fun _ => Some (ret None)) ;;
  match scanned with
  | None => ret tt
  | Some candidates =>
      mfold (fun (_ : unit) candidate =>
        logged (session_scope (replenish_active_wholesale_account candidate settings)))
        tt candidates
  end.

(** The body of [_reconcile_open_sessions]: three passes in one session. *)
Definition session_passes (settings : Settings) : M (Z * Z * Z) :=
  updates <- reconcile_spend_authorization_states 100 ;;
  finalized <- reconcile_open_sessions (cfg_session_reconciliation_interval_seconds settings) 100 ;;
  released <- release_stale_unauthorized_engagements
    (Z.max (2 * cfg_idempotency_inflight_timeout_seconds settings) 600) 100 ;;
  ret (updates, finalized, released).

(** [_reconcile_open_sessions]. *)
Definition reconcile_sessions_task (settings : Settings) : M unit :=
  logged (session_scope (session_passes settings)).

(** [_reconcile_open_jobs]. *)
Definition reconcile_jobs_task (settings : Settings) : M unit :=
  logged (session_scope
    (reconcile_open_jobs settings (cfg_job_reconciliation_interval_seconds settings) 100)).

(** [_purge_expired_telemetry]. *)
Definition purge_telemetry_task (settings : Settings) : M unit :=
  logged (session_scope (purge_expired (cfg_telemetry_raw_retention_days settings))).

End scheduler.

(** ** Registration *)

Inductive task :=
  | ExpireStaleIdempotencyKeys | SnapshotDeposit | AutoReplenish | WholesaleReplenish
  | ReconcileOpenSessions | ReconcileOpenJobs | TelemetryRetention.

(** The tasks [lifespan] registers, with their intervals in seconds; an
    interval of zero turns a task off, and so does keeping telemetry forever. *)
Definition scheduled_jobs (cfg : Settings) : list (task * Z) :=
  let when_positive (n seconds : Z) (t : task) := if 0 <? n then [(t, seconds)] else [] in
  let every t seconds := when_positive seconds seconds t in
  ([(ExpireStaleIdempotencyKeys, 300%Z); (SnapshotDeposit, 300%Z)]
   ++ every AutoReplenish (cfg_auto_replenish_check_interval_seconds cfg)
   ++ every WholesaleReplenish (cfg_wholesale_replenish_check_interval_seconds cfg)
   ++ every ReconcileOpenSessions (cfg_session_reconciliation_interval_seconds cfg)
   ++ every ReconcileOpenJobs (cfg_job_reconciliation_interval_seconds cfg)
   ++ when_positive (cfg_telemetry_raw_retention_days cfg)
        (cfg_telemetry_retention_janitor_interval_seconds cfg) TelemetryRetention)%list.
