(* ===== verification/SessionFacts.v ===== *)
(** * Engagements: conservation of the customer's money

    Every engagement accounts for its hold in the ledger: while it is open or
    draining its entries sum to minus the hold, once closed to minus what was
    billed.  This file states the invariant, what each step of the sessions and
    jobs services does to the three tables it is about, and that every
    operation is a transaction ([Tx]) with respect to it. *)

From S2P Require Import Prelude PyData DecimalCtx Errors Effects Store Pricing Settings Billing.
From S2P Require Import BillingFacts BillingProps SettlementVerification BrokerSettlement.
From S2P Require Import PaymentDaemon Registry Wholesale Payments.
From S2P Require Import SessionCore SessionSettle SessionPrepare SessionFlows.

Open Scope string_scope.
Open Scope Z_scope.
Open Scope loc_scope.

(** ** The invariant *)

Definition entry_of (id : uuid) (e : CreditLedger) : bool :=
  bool_decide (cl_related_engagement_id e = Some id).

(** What one engagement moved on its customer's balance. *)
Definition engagement_net (id : uuid) (d : DB) : Z :=
  sum_by cl_delta_wei (List.filter (entry_of id) (t_ledger d)).

Definition pass_through (r : PaymentSession) : Prop :=
  exists stored p, ps_customer_pricing r = Some stored /\ pricing_validate stored = Ok p /\
    cp_kind p = WholesalePassThrough.

(** The states in which an engagement still holds credit. *)
Definition is_live (r : PaymentSession) : bool :=
  existsb (String.eqb (ps_state r)) [SESSION_STATE_OPEN; SESSION_STATE_DRAINING].

(** A live engagement: the whole hold is reserved and nothing of it billed or
    released, and the ledger, the row and the current grant agree on the
    revision. *)
Record held (d : DB) (r : PaymentSession) (hold : Z) : Prop := {
  held_net : in_prec hold -> engagement_net (ps_id r) d = - hold;
  held_unreleased : find_engagement_entry (ps_id r) "engagement_release" d = None;
  held_revisions : forall n, ps_refill_seq r < n ->
    find_engagement_entry (ps_id r) (cap_revision_reason n) d = None;
  held_current : forall a g, ps_authorization_id r = Some a ->
    find_grant (ps_id r) a d = Some g -> sg_revision g = ps_refill_seq r;
  held_unauthorized : ps_authorization_id r = None -> ps_refill_seq r = 0;
  held_initial : is_Some (ps_authorization_id r) -> is_Some (find_revision (ps_id r) 0 d);
  held_live : is_live r = true;
  held_unbilled : ps_billed_value_wei r = None;
}.

(** A closed one: the customer paid what was billed, never more than the hold. *)
Definition accounted (d : DB) (r : PaymentSession) (hold : Z) : Prop :=
  exists billed, ps_billed_value_wei r = Some billed /\ 0 <= billed <= hold /\
    (in_prec hold -> engagement_net (ps_id r) d = - billed).

Definition is_closed (r : PaymentSession) : bool :=
  String.eqb (ps_state r) SESSION_STATE_CLOSED.

Definition hold_ok (d : DB) (r : PaymentSession) : Prop :=
  exists hold, ps_customer_max_debit_wei r = Some hold /\ 0 <= hold /\
    ps_funded_value_wei r = hold /\ pass_through r /\
    if is_closed r then accounted d r hold else held d r hold.

Definition is_wholesale (r : PaymentSession) : bool :=
  String.eqb (ps_accounting_mode r) "wholesale_account".

Definition engagement_ok (d : DB) (id : uuid) (r : PaymentSession) : Prop :=
  ps_id r = id /\ (is_wholesale r = true -> hold_ok d r).

Definition engagements_ok (d : DB) : Prop :=
  (forall id r, t_session d !! id = Some r -> engagement_ok d id r) /\
  (forall e id, e ∈ t_ledger d -> cl_related_engagement_id e = Some id ->
     is_Some (t_session d !! id)).

(** ** Steps of one engagement *)

(** Only engagement [id] moved: its row became [r'], the ledger grew by the
    entries [es] of its own, and every other engagement's grants kept their
    revisions. *)
Record moves (id : uuid) (r' : PaymentSession) (es : list CreditLedger) (d d' : DB) : Prop := {
  mv_session : t_session d' = <[id := r']> (t_session d);
  mv_ledger : t_ledger d' = (t_ledger d ++ es)%list;
  mv_own : Forall (fun e => entry_of id e = true) es;
  mv_grants : forall i a, i <> id ->
    sg_revision <$> find_grant i a d' = sg_revision <$> find_grant i a d;
  mv_initial : forall i, i <> id -> is_Some (find_revision i 0 d) -> is_Some (find_revision i 0 d');
}.

Lemma ledger_match_other i id reason (es : list CreditLedger) :
  i <> id -> Forall (fun e => entry_of id e = true) es ->
  List.find (ledger_match i reason) es = None.
Proof.
  intros Hne He. apply find_none_Forall. eapply Forall_impl; [exact He|]. cbn.
  intros e Hd. unfold entry_of, ledger_match in *. apply bool_decide_eq_true in Hd.
  rewrite bool_decide_eq_false_2; [done|congruence].
Qed.

Lemma net_app id d (es : list CreditLedger) l :
  t_ledger d = (l ++ es)%list ->
  engagement_net id d =
  sum_by cl_delta_wei (List.filter (entry_of id) l) + sum_by cl_delta_wei (List.filter (entry_of id) es).
Proof. intros E. unfold engagement_net. by rewrite E, List.filter_app, sum_by_app. Qed.

Lemma filter_entry_other i id (es : list CreditLedger) :
  i <> id -> Forall (fun e => entry_of id e = true) es -> List.filter (entry_of i) es = [].
Proof.
  intros Hne. induction 1 as [|e es He Hes IH]; cbn; [done|].
  unfold entry_of at 1 in He. apply bool_decide_eq_true in He.
  unfold entry_of at 1. rewrite bool_decide_eq_false_2; [done|congruence].
Qed.

Lemma find_entry_app id reason d (es : list CreditLedger) l :
  t_ledger d = (l ++ es)%list ->
  find_engagement_entry id reason d =
  match List.find (ledger_match id reason) l with
  | Some x => Some x
  | None => List.find (ledger_match id reason) es
  end.
Proof. intros E. unfold find_engagement_entry. by rewrite E, find_app. Qed.

(** The other engagements are untouched. *)
Lemma engagement_ok_other id r' es d d' i r :
  moves id r' es d d' -> i <> id -> engagement_ok d i r -> engagement_ok d' i r.
Proof.
  intros [_ El Hes Hg Hi] Hne [<- Hh]. split; [done|]. intros Hw.
  destruct (Hh Hw) as (hold & Hm & Hn & Hf & Hp & Hs). exists hold.
  split; [done|]. split; [done|]. split; [done|]. split; [done|].
  assert (Hnet : engagement_net (ps_id r) d' = engagement_net (ps_id r) d).
  { rewrite (net_app _ _ _ _ El), (filter_entry_other (ps_id r) id es) by done.
    change (sum_by cl_delta_wei []) with 0. unfold engagement_net. apply Z.add_0_r. }
  assert (Hfe : forall reason, find_engagement_entry (ps_id r) reason d' =
                find_engagement_entry (ps_id r) reason d).
  { intros reason. rewrite (find_entry_app _ _ _ _ _ El), (ledger_match_other _ id _ es) by done.
    unfold find_engagement_entry. by destruct (List.find _ _). }
  destruct (is_closed r).
  - destruct Hs as (b & Hb & Hr & Hx). exists b. by rewrite Hnet.
  - destruct Hs as [H1 H2 H3 H4 H5 H6 H7 H8]. split; rewrite ?Hnet, ?Hfe; try done.
    + intros n Hlt. rewrite Hfe. auto.
    + intros a g Ha Hfg. specialize (Hg (ps_id r) a Hne). rewrite Hfg in Hg. cbn in Hg.
      destruct (find_grant (ps_id r) a d) as [g0|] eqn:E0; [|done]. cbn in Hg.
      injection Hg as ->. by eapply H4.
    + intros Ha. apply Hi; [done|]. auto.
Qed.

Lemma engagements_ok_moves id r' es d d' :
  engagements_ok d -> moves id r' es d d' -> engagement_ok d' id r' -> engagements_ok d'.
Proof.
  intros [Hs Hl] Hm Hr. split.
  - intros i r. rewrite (mv_session _ _ _ _ _ Hm), lookup_insert_Some.
    intros [[<- <-]|[Hne Hi]]; [done|].
    apply (engagement_ok_other id r' es d); auto.
  - destruct Hm as [-> El Hes _ _].
    intros e i He Hi. rewrite El in He. apply elem_of_app in He as [He|He].
    + apply lookup_insert_is_Some'. right. by eapply Hl.
    + rewrite Forall_forall in Hes. specialize (Hes e He). unfold entry_of in Hes.
      apply bool_decide_eq_true in Hes. apply lookup_insert_is_Some'. left. congruence.
Qed.

(** The invariant, up to the grants' states. *)
Lemma engagement_ok_grants d d' i r :
  t_ledger d' = t_ledger d ->
  (forall i a, sg_revision <$> find_grant i a d' = sg_revision <$> find_grant i a d) ->
  (forall i, is_Some (find_revision i 0 d) -> is_Some (find_revision i 0 d')) ->
  engagement_ok d i r -> engagement_ok d' i r.
Proof.
  intros H2 Hg Hi [Hid Hh]. split; [done|]. intros Hw.
  destruct (Hh Hw) as (h & Hm & Hn & Hf & Hp & Hx). exists h.
  split; [done|]. split; [done|]. split; [done|]. split; [done|].
  unfold accounted, engagement_net in *. rewrite H2. destruct (is_closed r); [done|].
  destruct Hx as [H1 H4 H5 H6 H7 H8 H9 H10].
  split; unfold engagement_net, find_engagement_entry in *; rewrite ?H2; try done; auto.
  intros a g Ha Hfg. specialize (Hg (ps_id r) a). rewrite Hfg in Hg. cbn in Hg.
  destruct (find_grant (ps_id r) a d) eqn:E0; [|done]. cbn in Hg. injection Hg as ->.
  by eapply H6.
Qed.

(** The tables the invariant reads. *)
Lemma engagements_ok_ext d d' :
  t_session d' = t_session d -> t_ledger d' = t_ledger d -> t_grant d' = t_grant d ->
  engagements_ok d -> engagements_ok d'.
Proof.
  intros H1 H2 H3 [Hs Hl]. split; rewrite ?H1, ?H2; [|done]. intros id r Hr.
  apply (engagement_ok_grants d); [done| | |by apply Hs];
    intros; unfold find_grant, find_revision in *; by rewrite H3.
Qed.

(** The columns the invariant reads. *)
Definition money_view (r : PaymentSession) :=
  (ps_id r, is_wholesale r, ps_customer_max_debit_wei r, ps_funded_value_wei r,
   ps_customer_pricing r, ps_state r, ps_billed_value_wei r, ps_refill_seq r,
   ps_authorization_id r).

Lemma engagement_ok_view d id r r' :
  money_view r' = money_view r -> engagement_ok d id r -> engagement_ok d id r'.
Proof.
  unfold money_view, engagement_ok, hold_ok, accounted, pass_through, is_closed.
  intros [= E1 E2 E3 E4 E5 E6 E7 E8 E9]. rewrite E1, E2, E3, E4, E5, E6, E7.
  intros [Hi Hh]. split; [done|]. intros Hw. destruct (Hh Hw) as (h & Hm & Hn & Hf & Hp & Hx).
  exists h. split; [done|]. split; [done|]. split; [done|]. split; [done|].
  destruct (String.eqb _ _); [done|]. destruct Hx as [? ? ? ? ? ? Hl Hb]. unfold is_live in Hl.
  split; unfold is_live; rewrite ?E1, ?E6, ?E7, ?E8, ?E9; done.
Qed.

Lemma update_session_lookup id f d r :
  t_session d !! id = Some r ->
  t_session (update_session id f d) = <[id := f r]> (t_session d).
Proof.
  intros Hr. unfold update_session. cbn. apply map_eq. intros i.
  destruct (decide (i = id)) as [->|Hne].
  - by rewrite lookup_alter_eq, lookup_insert_eq, Hr.
  - by rewrite lookup_alter_ne, lookup_insert_ne by done.
Qed.

Lemma update_session_none id f d :
  t_session d !! id = None -> t_session (update_session id f d) = t_session d.
Proof.
  intros Hr. unfold update_session. cbn. apply map_eq. intros i.
  destruct (decide (i = id)) as [->|Hne]; [by rewrite lookup_alter_eq, Hr|].
  by rewrite lookup_alter_ne.
Qed.

Lemma moves_update id f d r :
  t_session d !! id = Some r -> moves id (f r) [] d (update_session id f d).
Proof. intros Hr. split; cbn; rewrite ?app_nil_r; try done. by apply update_session_lookup. Qed.

(** Changing any other column is harmless. *)
Lemma engagements_ok_touch id f d :
  (forall r, money_view (f r) = money_view r) ->
  engagements_ok d -> engagements_ok (update_session id f d).
Proof.
  intros Hf Hd. destruct (t_session d !! id) as [r|] eqn:Er.
  - apply (engagements_ok_moves id (f r) [] d); [done|by apply moves_update|].
    apply (engagement_ok_view _ _ r); [done|].
    by apply (engagement_ok_grants d); [..|apply Hd].
  - apply (engagements_ok_ext d); [by apply update_session_none|done|done|done].
Qed.

(** ... and so is moving a grant's state. *)
Definition grant_key (g : SpendAuthorizationGrant) : uuid * string * Z :=
  (sg_session_id g, sg_authorization_id g, sg_revision g).

Section grants.
Context (id : uuid) (auth : string) (f : SpendAuthorizationGrant -> SpendAuthorizationGrant).
Hypothesis f_key : forall g, grant_key (f g) = grant_key g.

Lemma update_grant_lookup i a d :
  sg_revision <$> find_grant i a (update_grant id auth f d) = sg_revision <$> find_grant i a d.
Proof.
  apply find_update_first_key; intros g; specialize (f_key g); unfold grant_key in f_key;
    injection f_key as E1 E2 E3; [by unfold grant_by_id; rewrite E1, E2|done].
Qed.

Lemma update_grant_revision i n d :
  is_Some (find_revision i n (update_grant id auth f d)) <-> is_Some (find_revision i n d).
Proof.
  assert (H : sg_revision <$> find_revision i n (update_grant id auth f d)
            = sg_revision <$> find_revision i n d).
  { apply find_update_first_key; intros g; specialize (f_key g); unfold grant_key in f_key;
      injection f_key as E1 E2 E3; [by unfold grant_by_revision; rewrite E1, E3|done]. }
  destruct (find_revision i n (update_grant id auth f d)), (find_revision i n d); cbn in H;
    by simplify_eq.
Qed.

Lemma engagements_ok_update_grant d :
  engagements_ok d -> engagements_ok (update_grant id auth f d).
Proof.
  intros [Hs Hl]. split; [|done]. intros i r Hr.
  apply (engagement_ok_grants d); [done|intros; apply update_grant_lookup| |by apply Hs].
  intros j Hj. by apply update_grant_revision.
Qed.

End grants.

(** ** Composing steps *)

Lemma moves_refl id r d : t_session d !! id = Some r -> moves id r [] d d.
Proof. intros Hr. split; rewrite ?insert_id, ?app_nil_r by done; done. Qed.

Lemma moves_then_update id f r es d0 d :
  moves id r es d0 d -> moves id (f r) es d0 (update_session id f d).
Proof.
  intros [H1 H2 H3 H4 H5]. split; try done.
  rewrite (update_session_lookup _ _ _ r) by (rewrite H1; apply lookup_insert_eq).
  by rewrite H1, insert_insert_eq.
Qed.

Lemma moves_then_grant id r es d0 d i a f :
  (forall g, grant_key (f g) = grant_key g) ->
  moves id r es d0 d -> moves id r es d0 (update_grant i a f d).
Proof.
  intros Hf [H1 H2 H3 H4 H5]. split; try done.
  - intros j b Hne. rewrite update_grant_lookup by done. auto.
  - intros j Hne Hj. rewrite update_grant_revision by done. auto.
Qed.

Lemma moves_ext id r es d0 d d' :
  t_session d' = t_session d -> t_ledger d' = t_ledger d -> t_grant d' = t_grant d ->
  moves id r es d0 d -> moves id r es d0 d'.
Proof.
  intros E1 E2 E3 [H1 H2 H3 H4 H5].
  split; unfold find_grant, find_revision in *; rewrite ?E1, ?E2, ?E3; done.
Qed.

Lemma moves_lookup id r es d0 d : moves id r es d0 d -> t_session d !! id = Some r.
Proof. intros [-> _ _ _ _]. apply lookup_insert_eq. Qed.

(** The terms a settlement leaves alone. *)
Definition terms (r : PaymentSession) :=
  (ps_id r, is_wholesale r, ps_customer_max_debit_wei r, ps_funded_value_wei r,
   ps_customer_pricing r).

(** Closing: whatever was released leaves exactly the bill. *)
Lemma engagements_ok_close id r r' es d0 d hold billed :
  engagements_ok d0 -> t_session d0 !! id = Some r -> is_wholesale r = true ->
  is_closed r = false -> ps_customer_max_debit_wei r = Some hold ->
  moves id r' es d0 d -> terms r' = terms r -> is_closed r' = true ->
  ps_billed_value_wei r' = Some billed -> 0 <= billed <= hold ->
  (in_prec hold -> sum_by cl_delta_wei es = hold - billed) ->
  engagements_ok d.
Proof.
  intros Hd Hr Hw Hc Hh Hm [= E1 E2 E3 E4 E5] Hc' Hb Hbr Hes.
  apply (engagements_ok_moves id r' es d0); [done..|].
  destruct Hd as [Hs _]. destruct (Hs id r Hr) as [Hid Hok].
  split; [congruence|]. intros _. destruct (Hok Hw) as (h & Hm' & Hn & Hf & Hp & Hx).
  rewrite Hc in Hx. rewrite Hh in Hm'. injection Hm' as <-. exists hold.
  rewrite E3, E4. split; [done|]. split; [done|]. split; [done|].
  split; [unfold pass_through; by rewrite E5|]. rewrite Hc'. exists billed.
  split; [done|]. split; [done|]. intros Hp'. rewrite E1, Hid.
  rewrite (net_app _ _ _ _ (mv_ledger _ _ _ _ _ Hm)). fold (engagement_net id d0).
  rewrite <- Hid at 1. rewrite (held_net _ _ _ Hx Hp').
  assert (Hall : List.filter (entry_of id) es = es).
  { pose proof (mv_own _ _ _ _ _ Hm) as Ho. clear - Ho.
    induction Ho as [|e l He Hl IH]; cbn; [done|]. by rewrite He, IH. }
  rewrite Hall, Hes by done. lia.
Qed.

(** ** Billing steps, seen from the engagements *)

(** The ledger grew by [es]; sessions and grants did not move. *)
Record appended {W} (es : list CreditLedger) (s s1 : St DB W) : Prop := {
  ap_committed : st_committed s1 = st_committed s;
  ap_races : st_races s1 = st_races s;
  ap_session : t_session (st_working s1) = t_session (st_working s);
  ap_grant : t_grant (st_working s1) = t_grant (st_working s);
  ap_ledger : t_ledger (st_working s1) = (t_ledger (st_working s) ++ es)%list;
}.

Section billing_steps.
Context {W : Type} {R : Runtime}.
Implicit Types (s : St DB W) (u : uuid).

Lemma appended_trans es fs s s1 s2 :
  appended es s s1 -> appended fs s1 s2 -> appended (es ++ fs) s s2.
Proof.
  intros [A1 A2 A3 A4 A5] [B1 B2 B3 B4 B5]. split; try congruence.
  by rewrite B5, A5, app_assoc.
Qed.

Lemma with_row_tables d u :
  t_session (with_row d u) = t_session d /\ t_grant (with_row d u) = t_grant d /\
  t_ledger (with_row d u) = t_ledger d.
Proof. unfold with_row. by case_match. Qed.

Lemma ensure_row_appended u s :
  appended [] s (at_working s (with_row (st_working s) u) false).
Proof.
  destruct (with_row_tables (st_working s) u) as (H1 & H2 & H3).
  split; cbn; rewrite ?app_nil_r; auto.
Qed.

Lemma apply_delta_appended u delta reason g s b s1 :
  apply_delta u delta reason None (Some g) None None s = (Ok b, s1) ->
  appended [MkCreditLedger u delta reason None (Some g) None None] s s1.
Proof. intros (_ & _ & ->)%apply_delta_ok. by split. Qed.

Lemma enforce_appended u amount period cap s r s1 :
  enforce_and_record_spend u amount period cap s = (r, s1) -> appended [] s s1.
Proof.
  intros E. pose proof (enforce_spend_frame u amount period cap s) as ((w & Hw) & H1 & H2 & _).
  rewrite E in *. cbn in *. split; rewrite ?Hw; cbn; rewrite ?app_nil_r; auto.
Qed.

Lemma spend_delta_appended u amount delta reason g period cap s b s1 :
  (enforce_and_record_spend u amount period cap ;;;
   apply_delta u delta reason None (Some g) None None) s = (Ok b, s1) ->
  appended [MkCreditLedger u delta reason None (Some g) None None] s s1.
Proof.
  intros ([] & s2 & H1%enforce_appended & H2%apply_delta_appended)%bind_ok.
  by apply (appended_trans [] _ _ _ _ H1 H2).
Qed.

Lemma after_row u s (f : unit -> M DB W CreditBalance) b s1 es :
  (forall s0 b s1, f tt s0 = (Ok b, s1) -> appended es s0 s1) ->
  f tt (at_working s (with_row (st_working s) u) false) = (Ok b, s1) -> appended es s s1.
Proof.
  intros Hf H. apply Hf in H. apply (appended_trans [] es _ _ _ (ensure_row_appended u s) H).
Qed.

Lemma encumber_appended u g amount period cap s b s1 :
  find_engagement_entry g "engagement_encumbrance" (st_working s) = None ->
  encumber_customer_engagement u g amount period cap s = (Ok b, s1) ->
  appended [MkCreditLedger u (dneg amount) "engagement_encumbrance" None (Some g) None None] s s1.
Proof.
  intros Hn. unfold encumber_customer_engagement.
  rewrite (bind_step _ _ _ _ _ (ensure_balance_row_run u s)), bind_db_read. cbn.
  rewrite find_entry_with_row, Hn. intros Hk.
  eapply (after_row u s (fun _ => _)); [|exact Hk]. intros. by eapply spend_delta_appended.
Qed.

Lemma increase_appended u g n amount period cap s b s1 :
  find_engagement_entry g (cap_revision_reason n) (st_working s) = None ->
  increase_customer_engagement_cap u g n amount period cap s = (Ok b, s1) ->
  appended [MkCreditLedger u (dneg amount) (cap_revision_reason n) None (Some g) None None] s s1.
Proof.
  intros Hn. unfold increase_customer_engagement_cap. destruct (_ || _)%bool; [by intros [=]|].
  rewrite (bind_step _ _ _ _ _ (ensure_balance_row_run u s)), bind_db_read. cbn.
  rewrite find_entry_with_row, Hn. intros Hk.
  eapply (after_row u s (fun _ => _)); [|exact Hk]. intros. by eapply spend_delta_appended.
Qed.

Lemma release_appended u g amount s b s1 :
  find_engagement_entry g "engagement_release" (st_working s) = None ->
  release_customer_engagement u g amount s = (Ok b, s1) ->
  appended [MkCreditLedger u amount "engagement_release" None (Some g) None None] s s1.
Proof.
  intros Hn. unfold release_customer_engagement.
  rewrite (bind_step _ _ _ _ _ (ensure_balance_row_run u s)), bind_db_read. cbn.
  rewrite find_entry_with_row, Hn. intros Hk.
  eapply (after_row u s (fun _ => _)); [|exact Hk]. intros. by eapply apply_delta_appended.
Qed.

(** Whatever they do, nothing is committed. *)
Context (P : DB -> Prop).

Lemma encumber_uncommitted u g amount period cap :
  Keeps (committed_inv (W := W) P) (encumber_customer_engagement u g amount period cap).
Proof.
  unfold encumber_customer_engagement, ensure_balance_row, enforce_and_record_spend,
    get_or_create_spend_window, apply_delta, ensure_balance_row, clock_now. keeps.
Qed.

Lemma increase_uncommitted u g n amount period cap :
  Keeps (committed_inv (W := W) P) (increase_customer_engagement_cap u g n amount period cap).
Proof.
  unfold increase_customer_engagement_cap, ensure_balance_row, enforce_and_record_spend,
    get_or_create_spend_window, apply_delta, ensure_balance_row, clock_now. keeps.
Qed.

Lemma release_uncommitted u g amount :
  Keeps (committed_inv (W := W) P) (release_customer_engagement u g amount).
Proof.
  unfold release_customer_engagement, apply_delta, ensure_balance_row. keeps.
Qed.

End billing_steps.

#[export] Hint Resolve encumber_uncommitted increase_uncommitted release_uncommitted : loc.
