(* ===== verification/EngagementSpec.v ===== *)
(** * Engagements: the abstract specification

    What the sessions and jobs services promise about one engagement, seen from
    the customer's account: a claim holds credit once, cap revisions only raise
    the hold, and one settlement turns the hold into a bill that fits it.
    [follows] is the simulation of this automaton by the tables, [sound] joins
    it with the accounting invariant of [SessionFacts]. *)

From S2P Require Import Prelude PyData DecimalCtx Errors Effects Store Pricing Settings Billing.
From S2P Require Import BillingFacts SettlementVerification BrokerSettlement PaymentDaemon.
From S2P Require Import Registry Wholesale Payments.
From S2P Require Import SessionCore SessionSettle SessionPrepare SessionFlows SessionFacts.

Open Scope string_scope.
Open Scope Z_scope.
Open Scope loc_scope.

(** ** The automaton *)

(** A claimed engagement holds credit; a finished one has been billed. *)
Inductive account :=
  | Held (hold : Z)
  | Settled (billed : Z).

(** What the account did to the customer's balance. *)
Definition account_delta (a : account) : Z :=
  match a with Held hold => - hold | Settled billed => - billed end.

Inductive spec_step : option account -> option account -> Prop :=
  | spec_claim hold : 0 <= hold -> spec_step None (Some (Held hold))
  | spec_raise hold hold' : hold < hold' -> spec_step (Some (Held hold)) (Some (Held hold'))
  | spec_settle hold billed : 0 <= billed <= hold ->
      spec_step (Some (Held hold)) (Some (Settled billed)).

(** A settled account never moves again. *)
Lemma settled_is_final billed a :
  rtc spec_step (Some (Settled billed)) a -> a = Some (Settled billed).
Proof. intros H. inversion H as [|? b ? Hs]; subst; [done|inversion Hs]. Qed.

(** An account never disappears, and a bill never exceeds the hold reached. *)
Lemma spec_held_monotone hold a :
  rtc spec_step (Some (Held hold)) a ->
  (exists hold', a = Some (Held hold') /\ hold <= hold') \/ (exists billed, a = Some (Settled billed)).
Proof.
  remember (Some (Held hold)) as x eqn:Ex. intros H. revert hold Ex.
  induction H as [x|x y z Hs Hr IH]; intros hold ->.
  - left. by exists hold.
  - inversion Hs; subst.
    + destruct (IH _ eq_refl) as [(h & -> & Hh)|Hb]; [left; exists h; split; [done|lia]|by right].
    + right. apply settled_is_final in Hr. by eexists.
Qed.

(** ** The account of an engagement *)

(** Engagements of the legacy accounting mode have none. *)
Definition account_of (r : PaymentSession) : option account :=
  if is_wholesale r then
    if is_closed r then Settled <$> ps_billed_value_wei r
    else Held <$> ps_customer_max_debit_wei r
  else None.

Definition account_at (d : DB) (id : uuid) : option account := t_session d !! id ≫= account_of.

Definition follows (d0 d : DB) : Prop :=
  forall id, rtc spec_step (account_at d0 id) (account_at d id).

#[export] Instance follows_preorder : PreOrder follows.
Proof.
  split; [by intros d id|]. intros a b c Hab Hbc id. etrans; [apply Hab|apply Hbc].
Qed.

(** The books are right, and got there from [d0] by steps of the automaton. *)
Record sound (d0 d : DB) : Prop := {
  so_books : engagements_ok d;
  so_steps : follows d0 d;
}.

Lemma sound_refl d : engagements_ok d -> sound d d.
Proof. intros Hd. split; [done|reflexivity]. Qed.

(** The hold or the bill of an account is what its entries moved. *)
Lemma account_books d id r :
  engagements_ok d -> t_session d !! id = Some r -> is_wholesale r = true ->
  exists hold a, ps_customer_max_debit_wei r = Some hold /\ account_at d id = Some a /\
    (in_prec hold -> engagement_net id d = account_delta a).
Proof.
  intros [Hs _] Hr Hw. destruct (Hs id r Hr) as [<- Hok].
  destruct (Hok Hw) as (hold & Hm & _ & _ & _ & Hx). exists hold.
  unfold account_at. rewrite Hr. cbn. unfold account_of. rewrite Hw.
  destruct (is_closed r).
  - destruct Hx as (b & Hb & _ & Hn). exists (Settled b). by rewrite Hb.
  - exists (Held hold). rewrite Hm. split; [done|]. split; [done|]. apply Hx.
Qed.

(** ** Steps keep the simulation *)

Section steps.
Context (d0 : DB).

Lemma follows_same d d' : t_session d' = t_session d -> follows d0 d -> follows d0 d'.
Proof. intros E H id. unfold account_at. rewrite E. apply H. Qed.

Lemma follows_insert id r' d d' :
  t_session d' = <[id := r']> (t_session d) ->
  rtc spec_step (account_at d id) (account_of r') -> follows d0 d -> follows d0 d'.
Proof.
  intros E Hr H i. unfold account_at at 2. rewrite E.
  destruct (decide (i = id)) as [->|Hne].
  - rewrite lookup_insert_eq. cbn. etrans; [apply H|done].
  - rewrite lookup_insert_ne by done. apply H.
Qed.

Lemma sound_moves id r' es d d' :
  sound d0 d -> moves id r' es d d' -> engagement_ok d' id r' ->
  rtc spec_step (account_at d id) (account_of r') -> sound d0 d'.
Proof.
  intros [Hb Hs] Hm Hok Hr. split; [by eapply engagements_ok_moves|].
  eapply follows_insert; [apply Hm|done..].
Qed.

Lemma sound_ext d d' :
  t_session d' = t_session d -> t_ledger d' = t_ledger d -> t_grant d' = t_grant d ->
  sound d0 d -> sound d0 d'.
Proof.
  intros H1 H2 H3 [Hb Hs]. split; [by apply (engagements_ok_ext d)|by apply (follows_same d)].
Qed.

Lemma account_of_view r r' : money_view r' = money_view r -> account_of r' = account_of r.
Proof.
  unfold money_view, account_of, is_closed. intros [= _ -> -> _ _ -> -> _ _]. done.
Qed.

Lemma sound_touch id f d :
  (forall r, money_view (f r) = money_view r) -> sound d0 d -> sound d0 (update_session id f d).
Proof.
  intros Hf [Hb Hs]. split; [by apply engagements_ok_touch|].
  destruct (t_session d !! id) as [r|] eqn:Er.
  - eapply follows_insert; [by apply update_session_lookup|..|done].
    unfold account_at. rewrite Er. cbn. by rewrite (account_of_view r (f r)).
  - by apply (follows_same d); [apply update_session_none|].
Qed.

Lemma sound_update_grant id auth f d :
  (forall g, grant_key (f g) = grant_key g) -> sound d0 d -> sound d0 (update_grant id auth f d).
Proof.
  intros Hf [Hb Hs]. split; [by apply engagements_ok_update_grant|]. by apply (follows_same d).
Qed.

(** An entry of no engagement. *)
Lemma sound_entry e d d' :
  t_session d' = t_session d -> t_grant d' = t_grant d -> t_ledger d' = (t_ledger d ++ [e])%list ->
  cl_related_engagement_id e = None -> sound d0 d -> sound d0 d'.
Proof.
  intros H1 H3 H2 He [[Hk Hl] Hs]. split; [|by apply (follows_same d)]. split; rewrite ?H1, ?H2.
  - intros id r Hr. destruct (Hk id r Hr) as [Hid Hok]. split; [done|]. intros Hw.
    destruct (Hok Hw) as (h & Hm & Hn & Hf & Hp & Hx). exists h.
    split; [done|]. split; [done|]. split; [done|]. split; [done|].
    assert (Hnet : forall i, engagement_net i d' = engagement_net i d).
    { intros i. rewrite (net_app _ _ _ _ H2). cbn. unfold entry_of at 2.
      rewrite He, bool_decide_eq_false_2 by done. apply Z.add_0_r. }
    assert (Hfe : forall i reason, find_engagement_entry i reason d' = find_engagement_entry i reason d).
    { intros i reason. rewrite (find_entry_app _ _ _ _ _ H2). cbn. unfold ledger_match at 2.
      rewrite He, bool_decide_eq_false_2 by done. cbn. unfold find_engagement_entry.
      by destruct (List.find _ _). }
    unfold accounted. destruct (is_closed r).
    + by rewrite Hnet.
    + destruct Hx. split; unfold find_grant, find_revision in *; rewrite ?Hnet, ?Hfe, ?H3; try done.
      intros n. rewrite Hfe. auto.
  - intros x i Hx. apply elem_of_app in Hx as [Hx|Hx%list_elem_of_singleton]; [by apply Hl|].
    subst. congruence.
Qed.

Lemma sound_close id r r' es db d hold billed :
  sound d0 db -> t_session db !! id = Some r -> is_wholesale r = true ->
  is_closed r = false -> ps_customer_max_debit_wei r = Some hold ->
  moves id r' es db d -> terms r' = terms r -> is_closed r' = true ->
  ps_billed_value_wei r' = Some billed -> 0 <= billed <= hold ->
  (in_prec hold -> sum_by cl_delta_wei es = hold - billed) ->
  sound d0 d.
Proof.
  intros [Hb Hs] Hr Hw Hc Hh Hm Ht Hc' Hbl Hrange Hes.
  split; [by eapply (engagements_ok_close id r r' es db d hold billed)|].
  eapply follows_insert; [apply Hm| |done].
  unfold account_at. rewrite Hr. cbn. unfold account_of.
  assert (is_wholesale r' = true) as -> by (unfold terms in Ht; congruence).
  rewrite Hw, Hc, Hc', Hh, Hbl. cbn. eapply rtc_once. by constructor.
Qed.

End steps.
