(* ===== verification/EngagementKeeps.v ===== *)
(** * Engagements: what leaves every account alone

    Reads, observations and the other components' writes: they move no hold and
    no bill, so each keeps the specification of [EngagementSpec] outright. *)

From S2P Require Import Prelude PyData DecimalCtx Errors Effects Store Pricing Settings Billing.
From S2P Require Import SettlementVerification BrokerSettlement PaymentDaemon Registry.
From S2P Require Import Wholesale Payments SessionCore SessionSettle SessionPrepare.
From S2P Require Import SessionFlows Jobs JobReconcile SessionFacts EngagementSpec.

Open Scope string_scope.
Open Scope Z_scope.
Open Scope loc_scope.

(** ** Writes *)

Section writes.
Context {W : Type} (o : DB).
Local Abbreviation keeps_sound m := (Keeps (W := W) (db_inv (sound o)) m).

Lemma keeps_other_tables g :
  (forall d, t_session (g d) = t_session d) -> (forall d, t_ledger (g d) = t_ledger d) ->
  (forall d, t_grant (g d) = t_grant d) -> keeps_sound (db_modify g).
Proof. intros H1 H2 H3. apply keeps_modify. intros d. by apply sound_ext. Qed.

Lemma keeps_touch id f :
  (forall r, money_view (f r) = money_view r) -> keeps_sound (db_modify (update_session id f)).
Proof. intros Hf. apply keeps_modify. intros d. by apply sound_touch. Qed.

Lemma keeps_grant id auth f :
  (forall g, grant_key (f g) = grant_key g) -> keeps_sound (db_modify (update_grant id auth f)).
Proof. intros Hf. apply keeps_modify. intros d. by apply sound_update_grant. Qed.

Lemma keeps_plain_entry e f :
  cl_related_engagement_id e = None ->
  keeps_sound (db_modify (fun d => on_ledger (fun l => (l ++ [e])%list) (on_balance f d))).
Proof. intros He. apply keeps_modify. intros d. by apply (sound_entry o e). Qed.

End writes.

(** Every write of these shapes is found by [keeps]. *)
#[export] Hint Extern 1 (Keeps (db_inv (sound _)) (db_modify _)) =>
  first [ solve [apply keeps_other_tables; intros; reflexivity]
        | solve [apply keeps_touch; intros; reflexivity]
        | solve [apply keeps_grant; intros []; reflexivity]
        | solve [apply keeps_plain_entry; reflexivity] ] : loc.

(** The cases of an [except] clause. *)
Ltac handler :=
  repeat match goal with
  | H : match ?x with _ => _ end = Some _ |- Keeps _ _ => destruct x; try discriminate H
  | H : Some _ = Some _ |- Keeps _ _ => injection H as H; subst
  end; keeps.

(** ** Billing *)

Section billing.
Context {W : Type} {R : Runtime} (o : DB).
Local Abbreviation keeps_sound m := (Keeps (W := W) (db_inv (sound o)) m).

Lemma sound_ensure_row u : keeps_sound (ensure_balance_row u).
Proof. unfold ensure_balance_row. keeps. Qed.

Lemma sound_plain_delta u delta reason pay top opr :
  keeps_sound (apply_delta u delta reason pay None top opr).
Proof. unfold apply_delta, ensure_balance_row. keeps. Qed.

Lemma sound_get_balance u : keeps_sound (get_balance u).
Proof. unfold get_balance. keeps. Qed.

Lemma sound_resolve u settings : keeps_sound (resolve_billing_config u settings).
Proof. unfold resolve_billing_config, get_billing_config. keeps. Qed.

#[local] Hint Resolve sound_ensure_row sound_plain_delta sound_resolve : loc.

Lemma sound_topup u amount kind opr : keeps_sound (topup u amount kind opr).
Proof. unfold topup, new_uuid. keeps. Qed.

Lemma sound_initial_credit u amount opr : keeps_sound (grant_initial_credit u amount opr).
Proof. unfold grant_initial_credit, new_uuid. keeps. Qed.

Lemma sound_upsert u opr a b c d : keeps_sound (upsert_billing_config u opr a b c d).
Proof. unfold upsert_billing_config, get_billing_config. keeps. Qed.

#[local] Hint Resolve sound_topup : loc.

Lemma sound_auto_replenish settings : keeps_sound (run_auto_replenish settings).
Proof. unfold run_auto_replenish, auto_replenish_user. keeps. Qed.

Lemma sound_room u period cap : keeps_sound (remaining_window_room u period cap).
Proof. unfold remaining_window_room, clock_now. keeps. Qed.

End billing.

#[export] Hint Resolve sound_ensure_row sound_plain_delta sound_resolve sound_get_balance
  sound_topup sound_initial_credit sound_upsert sound_auto_replenish sound_room : loc.

(** ** Payments, wholesale funding and routes *)

Section providers.
Context {W : Type} {R : Runtime} (o : DB).
Context {B : BrokerAccountClient W} {D : PaymentDaemonClient W} {C : RegistryClient W}.
Local Abbreviation keeps_sound m := (Keeps (W := W) (db_inv (sound o)) m).

Lemma sound_expire : keeps_sound expire_stale_idempotency_keys.
Proof. unfold expire_stale_idempotency_keys, clock_now. keeps. Qed.

Lemma sound_snapshot : keeps_sound snapshot_deposit.
Proof. unfold snapshot_deposit, clock_now. keeps. Qed.

Lemma sound_issue route a b c d e m n t0 t1 i w v p :
  keeps_sound (issue_route_locked_authorization route a b c d e m n t0 t1 i w v p).
Proof. unfold issue_route_locked_authorization. keeps. Qed.

Lemma sound_plan observation domain limits :
  keeps_sound (plan_observed_account_shortfall observation domain limits).
Proof. unfold plan_observed_account_shortfall. keeps. Qed.

Lemma sound_claim_funding route observation domain plan limits m c v :
  keeps_sound (claim_account_funding route observation domain plan limits m c v).
Proof.
  unfold claim_account_funding, replay_funding_claim, synchronize_account, new_uuid. keeps.
Qed.

Lemma sound_complete_funding funding route observation domain plan payer chain at_ :
  keeps_sound (complete_account_funding funding route observation domain plan payer chain at_).
Proof.
  unfold complete_account_funding, mint_claimed_funding, record_minted_funding,
    acknowledge_account_funding. keeps.
Qed.

Lemma sound_readiness route payer chain account required :
  keeps_sound (verify_admission_funding_readiness route payer chain account required).
Proof. unfold verify_admission_funding_readiness. keeps. Qed.

#[local] Hint Resolve sound_plan sound_claim_funding sound_complete_funding sound_readiness : loc.

Lemma sound_replenish route payer mint settings required :
  keeps_sound (replenish_wholesale_account route payer mint settings required).
Proof. unfold replenish_wholesale_account, clock_now. keeps. Qed.

Lemma sound_requirement grant : keeps_sound (session_reservation_requirement grant).
Proof. unfold session_reservation_requirement. keeps. Qed.

#[local] Hint Resolve sound_replenish sound_requirement : loc.

Lemma sound_replenish_request grant route payer mint corr settings :
  keeps_sound (replenish_for_request grant route payer mint corr settings).
Proof. unfold replenish_for_request. keeps; handler. Qed.

Lemma sound_replenish_active candidate settings :
  keeps_sound (replenish_active_wholesale_account candidate settings).
Proof. unfold replenish_active_wholesale_account. keeps. Qed.

Lemma sound_list_active : keeps_sound list_active_wholesale_account_routes.
Proof. unfold list_active_wholesale_account_routes. keeps. Qed.

Lemma sound_fund_job route payer rid id debit settings :
  keeps_sound (fund_job_admission route payer rid id debit settings).
Proof. unfold fund_job_admission, clock_now. keeps. Qed.

Lemma sound_select capability offering binding :
  keeps_sound (select_bound_route capability offering binding).
Proof. unfold select_bound_route. keeps. Qed.

End providers.

#[export] Hint Resolve sound_expire sound_snapshot sound_issue sound_plan sound_claim_funding
  sound_complete_funding sound_readiness sound_replenish sound_requirement
  sound_replenish_request sound_replenish_active sound_list_active sound_fund_job
  sound_select : loc.

(** ** Sessions and jobs *)

Section engagements.
Context {W : Type} {R : Runtime} (o : DB).
Context {B : BrokerAccountClient W} {S : BrokerSettlementClient W} {C : RegistryClient W}.
Local Abbreviation keeps_sound m := (Keeps (W := W) (db_inv (sound o)) m).

Lemma sound_cap_status row u next exhausted cfg :
  keeps_sound (compute_cap_status row u next exhausted cfg).
Proof. unfold compute_cap_status, session_billed_so_far_wei, spend_period_pct. keeps. Qed.

#[local] Hint Resolve sound_cap_status : loc.

Lemma sound_session_status id u settings : keeps_sound (get_session_status id u settings).
Proof. unfold get_session_status, session_billed_so_far_wei, session_funded_units. keeps. Qed.

Lemma sound_job_status id u : keeps_sound (get_job_status id u).
Proof. unfold get_job_status. keeps. Qed.

Lemma sound_record id ty units billed outcome raw :
  keeps_sound (record_settlement id ty units billed outcome raw).
Proof. unfold record_settlement, clock_now. keeps. Qed.

Lemma sound_mark_polled id : keeps_sound (mark_polled id).
Proof. unfold mark_polled, clock_now. keeps. Qed.

Lemma sound_mark_settled id auth : keeps_sound (mark_spend_authorization_settled id auth).
Proof. unfold mark_spend_authorization_settled, clock_now. keeps. Qed.

Lemma sound_operator_resolved id auth :
  keeps_sound (mark_spend_authorization_operator_resolved id auth).
Proof.
  unfold mark_spend_authorization_operator_resolved, operator_resolve, clock_now. keeps.
Qed.

Lemma sound_reconcile_grants n : keeps_sound (reconcile_spend_authorization_states n).
Proof.
  unfold reconcile_spend_authorization_states, reconcile_grant, observe_grant, unused_confirmed,
    advance_grant, or_skip, clock_now. keeps; handler.
Qed.

Lemma sound_block row signature reason : keeps_sound (block_settlement row signature reason).
Proof. unfold block_settlement, clock_now. keeps. Qed.

Lemma sound_verify_prepared token g u k c f x route settings :
  keeps_sound (verify_prepared_session token g u k c f x route settings).
Proof. unfold verify_prepared_session, clock_now. keeps. Qed.

Lemma sound_prepare u k c f x binding settings :
  keeps_sound (prepare_session u k c f x binding settings).
Proof. unfold prepare_session, clock_now, new_uuid. keeps. Qed.

Lemma sound_note id audit : keeps_sound (note_observation id audit).
Proof. unfold note_observation, clock_now. keeps. Qed.

#[local] Hint Resolve sound_record : loc.

Lemma sound_retain_audit row digest audit : keeps_sound (retain_audit row digest audit).
Proof. unfold retain_audit. keeps. Qed.

Lemma sound_record_block row settlement reason :
  keeps_sound (record_settlement_block row settlement reason).
Proof. unfold record_settlement_block, clock_now. keeps. Qed.

Lemma sound_seek row url rid x : keeps_sound (seek_non_admission row url rid x).
Proof. unfold seek_non_admission, request_non_admission, clock_now. keeps; handler. Qed.

End engagements.

#[export] Hint Resolve sound_cap_status sound_session_status sound_job_status sound_record
  sound_mark_polled sound_mark_settled sound_operator_resolved sound_reconcile_grants sound_block
  sound_verify_prepared sound_prepare sound_note sound_retain_audit sound_record_block
  sound_seek : loc.
