(* ===== verification/SessionTx.v ===== *)
(** * Engagements: every operation is a transaction

    Each operation of the sessions service, returning or raising, respects the
    specification of [EngagementSpec]: the compound ones (claim, close, revise,
    release) violate it in between and restore it before they return or
    commit. *)

From S2P Require Import Prelude PyData DecimalCtx Errors Effects Store Pricing Settings Billing.
From S2P Require Import BillingFacts SettlementVerification BrokerSettlement PaymentDaemon.
From S2P Require Import Registry Wholesale Payments.
From S2P Require Import SessionCore SessionSettle SessionPrepare SessionFlows SessionFacts EngagementSpec.

Open Scope string_scope.
Open Scope Z_scope.
Open Scope loc_scope.

(** Errors raised in the middle of a compound step are never swallowed. *)
Class Strict (E : exn -> bool) : Prop := {
  strict_state : E InvalidSessionState = false;
  strict_transition : E InvalidSessionTransition = false;
  strict_missing : E SessionNotFound = false;
  strict_assert : E AssertionError = false;
  strict_credit : forall a r, E (OC (InsufficientCredit a r)) = false;
  strict_unverified : forall r, E (unverified r) = false;
  strict_integrity : E IntegrityErr = false;
}.

#[export] Instance strict_none : Strict no_exn.
Proof. by split. Qed.
#[export] Instance strict_close : Strict close_skips.
Proof. by split. Qed.
#[export] Hint Resolve strict_none strict_close : loc.

(** The working copy stays what it is: the code only reads. *)
Definition working_is {W} (d : DB) (s : St DB W) : Prop := st_working s = d.

Section working.
Context {W : Type} (d : DB).
#[export] Instance working_read : Keeps (W := W) (working_is d) db_read.
Proof. by intros s. Qed.
#[export] Instance working_flush : Keeps (W := W) (working_is d) db_flush.
Proof. by intros s. Qed.
#[export] Instance working_tick {A} (f : nat -> A) : Keeps (W := W) (working_is d) (tick f).
Proof. by intros s. Qed.
#[export] Instance working_remote {A} (call : W -> res A * W) :
  Keeps (working_is d) (remote (DB := DB) call).
Proof. intros s Hs. unfold remote. by destruct (call (st_world s)). Qed.
End working.

Section steps.
Context {W : Type} {R : Runtime} (o : DB) (E : exn -> bool) `{!Strict E}.
Implicit Types (s : St DB W) (id : uuid).
Local Abbreviation EP := (sound o).
Local Abbreviation post := (tx_post (W := W) EP E).

(** In the middle of a transaction: only the working copy moved. *)
Definition inside (d : DB) s : Prop := committed_inv EP s /\ st_working s = d.

Lemma inside_intro s : committed_inv EP s -> inside (st_working s) s.
Proof. by split. Qed.

Lemma post_err {A} (Q : A -> St DB W -> Prop) e s :
  committed_inv EP s -> E e = false -> post Q (Err e, s).
Proof. intros Hc He. split; [done|]. by rewrite He. Qed.

Lemma post_modify {A} (g : DB -> DB) (f : unit -> M DB W A) (Q : A -> St DB W -> Prop) s d :
  inside d s -> (forall s1, inside (g d) s1 -> post Q (f tt s1)) ->
  post Q (bind (db_modify g) f s).
Proof. intros [Hc Hd] Hf. rewrite bind_db_modify. apply Hf. split; [done|]. cbn. by rewrite Hd. Qed.

Lemma post_flush {A} (f : unit -> M DB W A) (Q : A -> St DB W -> Prop) s d :
  inside d s -> (forall s1, inside d s1 -> post Q (f tt s1)) -> post Q (bind db_flush f s).
Proof. intros [Hc Hd] Hf. rewrite bind_db_flush. by apply Hf. Qed.

Lemma post_read {A} (f : DB -> M DB W A) (Q : A -> St DB W -> Prop) s d :
  inside d s -> (forall s1, inside d s1 -> post Q (f d s1)) -> post Q (bind db_read f s).
Proof. intros [Hc Hd] Hf. rewrite bind_db_read. rewrite Hd. by apply Hf. Qed.

Lemma post_clock {A} (f : datetime -> M DB W A) (Q : A -> St DB W -> Prop) s d :
  inside d s -> (forall now s1, inside d s1 -> post Q (f now s1)) -> post Q (bind clock_now f s).
Proof. intros [Hc Hd] Hf. unfold clock_now. rewrite bind_tick. by apply Hf. Qed.

Lemma post_lift {A B} (r : res A) (f : A -> M DB W B) (Q : B -> St DB W -> Prop) s d :
  inside d s -> (forall e, r = Err e -> E e = false) ->
  (forall a, r = Ok a -> post Q (f a s)) -> post Q (bind (lift r) f s).
Proof.
  intros [Hc Hd] He Hf. rewrite bind_lift. destruct r as [a|e]; [by apply Hf|].
  apply post_err; auto.
Qed.

Lemma post_guard {B} (b : bool) e (f : unit -> M DB W B) (Q : B -> St DB W -> Prop) s d :
  inside d s -> E e = false -> (b = true -> post Q (f tt s)) -> post Q (bind (guard b e) f s).
Proof.
  intros [Hc Hd] He Hf. rewrite bind_guard. destruct b; [by apply Hf|by apply post_err].
Qed.

(** The move of one row's state. *)
Lemma post_transition {A} id from to (f : PaymentSession -> M DB W A)
    (Q : A -> St DB W -> Prop) s d :
  inside d s ->
  (forall r c s1, t_session d !! id = Some r -> ps_state r = from ->
     is_Some c \/ String.eqb to SESSION_STATE_CLOSED = false ->
     let moved x := set_ps_closed_at c (set_ps_state to x) in
     inside (update_session id moved d) s1 -> post Q (f (moved r) s1)) ->
  post Q (bind (transition_state id from to) f s).
Proof.
  intros Hi Hf. unfold transition_state.
  rewrite bind_assoc. eapply post_guard; [done|apply strict_state|]. intros _.
  rewrite bind_assoc. eapply post_guard; [done|apply strict_transition|]. intros _.
  rewrite bind_assoc. eapply post_read; [done|]. intros s1 Hi1. rewrite bind_assoc.
  eapply post_lift; [done| |].
  { destruct (t_session d !! id); cbn; intros ? [=<-]. apply strict_missing. }
  intros r Hr%of_option_ok. rewrite bind_assoc, bind_if.
  assert (Hrest : forall c s2, inside d s2 ->
     is_Some c \/ String.eqb to SESSION_STATE_CLOSED = false ->
     post Q (bind (guard (String.eqb (ps_state r) from) InvalidSessionTransition ;;;
       db_modify (update_session id (fun x => set_ps_closed_at c (set_ps_state to x))) ;;;
       db_flush ;;; ret (set_ps_closed_at c (set_ps_state to r))) f s2)).
  { intros c s2 Hi2 Hc. rewrite bind_assoc.
    eapply post_guard; [done|apply strict_transition|]. intros Hst%String.eqb_eq.
    rewrite bind_assoc. eapply post_modify; [done|]. intros s3 Hi3.
    rewrite bind_assoc. eapply post_flush; [done|]. intros s4 Hi4. rewrite bind_ret.
    by apply (Hf r c s4). }
  destruct (String.eqb to SESSION_STATE_CLOSED) eqn:Et.
  - rewrite bind_assoc. eapply post_clock; [done|]. intros now s2 Hi2. rewrite bind_ret.
    apply Hrest; [done|]. left. by eexists.
  - rewrite bind_ret. apply Hrest; [done|]. by right.
Qed.

(** Releasing hold of an engagement nothing was released for. *)
Lemma post_release {A} u id amount (f : CreditBalance -> M DB W A)
    (Q : A -> St DB W -> Prop) s :
  committed_inv EP s ->
  find_engagement_entry id "engagement_release" (st_working s) = None ->
  (forall b s1, committed_inv EP s1 ->
     appended [MkCreditLedger u amount "engagement_release" None (Some id) None None] s s1 ->
     post Q (f b s1)) ->
  post Q (bind (release_customer_engagement u id amount) f s).
Proof.
  intros Hc Hn Hf. pose proof (release_uncommitted EP u id amount s Hc) as Hk.
  pose proof (fun b s1 => release_appended u id amount s b s1 Hn) as Ha.
  assert (He : forall e s1, release_customer_engagement u id amount s = (Err e, s1) ->
            E e = false).
  { unfold release_customer_engagement.
    rewrite (bind_step _ _ _ _ _ (ensure_balance_row_run u s)), bind_db_read. cbn.
    rewrite find_entry_with_row, Hn, apply_delta_run. intros e s1.
    case_match; intros [= <- <-]. apply strict_credit. }
  unfold bind. destruct (release_customer_engagement u id amount s) as [[b|e] s1]; cbn in Hk.
  - apply Hf; [done|]. by apply (Ha b).
  - apply post_err; [done|]. by eapply He.
Qed.

Lemma retire_key state now g : grant_key (retire state now g) = grant_key g.
Proof. by destruct g. Qed.

Lemma post_mark_settled {A} id auth (f : SpendAuthorizationGrant -> M DB W A)
    (Q : A -> St DB W -> Prop) s d :
  inside d s ->
  (forall g now s1, inside (update_grant id auth (retire "settled" now) d) s1 ->
     post Q (f g s1)) ->
  post Q (bind (mark_spend_authorization_settled id auth) f s).
Proof.
  intros Hi Hf. unfold mark_spend_authorization_settled.
  rewrite bind_assoc. eapply post_read; [done|]. intros s1 Hi1.
  rewrite bind_assoc. eapply post_lift; [done| |].
  { destruct (find_grant id auth d); cbn; intros ? [=<-]. apply strict_unverified. }
  intros g Hg. rewrite bind_assoc. eapply post_guard; [done|apply strict_unverified|].
  intros _. rewrite bind_assoc.
  assert (Hrest : forall now s2, inside d s2 ->
     post Q (bind (db_modify (update_grant id auth (retire "settled" now)) ;;; db_flush ;;;
       ret (retire "settled" now g)) f s2)).
  { intros now s2 Hi2. rewrite bind_assoc. eapply post_modify; [done|]. intros s3 Hi3.
    rewrite bind_assoc. eapply post_flush; [done|]. intros s4 Hi4. rewrite bind_ret.
    by eapply Hf. }
  destruct (sg_retired_at g); [rewrite bind_ret; by apply Hrest|].
  eapply post_clock; [done|]. intros now s2 Hi2. by apply Hrest.
Qed.

Lemma post_record {A} id ty units billed outcome raw (f : PaymentSettlement -> M DB W A)
    (Q : A -> St DB W -> Prop) s d :
  inside d s ->
  (forall row l s1, inside (on_settlement l d) s1 -> post Q (f row s1)) ->
  post Q (bind (record_settlement id ty units billed outcome raw) f s).
Proof.
  intros Hi Hf. unfold record_settlement.
  rewrite bind_assoc. eapply post_clock; [done|]. intros now s1 Hi1. rewrite bind_assoc.
  eapply post_modify; [done|]. intros s2 Hi2. rewrite bind_assoc.
  eapply post_flush; [done|]. intros s3 Hi3. rewrite bind_ret. by eapply Hf.
Qed.

(** The invariant, or what closing leaves to be shown, at the end of a step. *)
Lemma inside_done d s : inside d s -> EP d -> db_inv EP s.
Proof. intros [Hc <-] Hd. by apply db_inv_intro. Qed.

Lemma post_commit {A} (f : unit -> M DB W A) (Q : A -> St DB W -> Prop) s :
  db_inv EP s -> (forall s1, db_inv EP s1 -> post Q (f tt s1)) -> post Q (bind db_commit f s).
Proof.
  intros Hs Hf. pose proof (keeps_commit EP s Hs) as Hk. unfold bind.
  assert (He : forall e s1, db_commit s = (Err e, s1) -> E e = false).
  { unfold db_commit, bind, db_race. destruct (st_races s) as [|[g|] r]; intros ? ? [=].
    subst. apply strict_integrity. }
  destruct (db_commit s) as [[[]|e] s1]; cbn in Hk; [by apply Hf|].
  apply post_err; [by apply db_inv_committed|by eapply He].
Qed.

Lemma moves_appended {s0 : St DB W} id r es es' d0 s1 :
  moves id r es d0 (st_working s0) -> appended es' s0 s1 ->
  Forall (fun e => entry_of id e = true) es' -> moves id r (es ++ es') d0 (st_working s1).
Proof.
  intros [M1 M2 M3 M4 M5] [_ _ A3 A4 A5] Ho.
  split; unfold find_grant, find_revision in *; rewrite ?A3, ?A4, ?A5, ?M2; try done.
  - by rewrite app_assoc.
  - by apply Forall_app.
Qed.

Lemma own_entry id u delta reason :
  entry_of id (MkCreditLedger u delta reason None (Some id) None None) = true.
Proof. unfold entry_of. by rewrite bool_decide_eq_true_2. Qed.

(** The unused part of the hold, released when there is any; then the code
    continues with the row still to be finalized. *)
Definition release_unused (u id : uuid) (refund : Z) : M DB W unit :=
  if 0 <? refund then release_customer_engagement u id refund ;;; ret tt else ret tt.

(** What settling one live engagement starts from. *)
Record live (d0 : DB) id (r : PaymentSession) (hold billed refund : Z) : Prop := {
  lv_ok : EP d0;
  lv_row : t_session d0 !! id = Some r;
  lv_wholesale : is_wholesale r = true;
  lv_open : is_closed r = false;
  lv_hold : ps_customer_max_debit_wei r = Some hold;
  lv_billed : 0 <= billed <= hold;
  lv_refund : in_prec hold -> refund = hold - billed;
}.

Lemma live_unreleased d0 id r hold billed refund :
  live d0 id r hold billed refund ->
  find_engagement_entry id "engagement_release" d0 = None.
Proof.
  intros [[[Hs _] _] Hr Hw Hc Hh _ _]. destruct (Hs id r Hr) as [Hid Hok].
  destruct (Hok Hw) as (h & _ & _ & _ & _ & Hx). rewrite Hc in Hx.
  rewrite <- Hid. apply (held_unreleased _ _ _ Hx).
Qed.

(** The refund entries bring the net to minus the bill. *)
Lemma refund_sum hold billed refund (e : CreditLedger) :
  billed <= hold -> refund = hold - billed -> cl_delta_wei e = refund ->
  sum_by cl_delta_wei (if 0 <? refund then [e] else []) = hold - billed.
Proof.
  intros Hb -> He. destruct (0 <? hold - billed) eqn:Ez; bool_props; unfold sum_by, Zsum; cbn;
    rewrite ?He; lia.
Qed.

Lemma post_release_unused {A} u id refund (f : unit -> M DB W A) (Q : A -> St DB W -> Prop)
    s d0 r1 r hold billed :
  live d0 id r hold billed refund -> moves id r1 [] d0 (st_working s) -> committed_inv EP s ->
  (forall es s1, committed_inv EP s1 -> moves id r1 es d0 (st_working s1) ->
     (in_prec hold -> sum_by cl_delta_wei es = hold - billed) -> post Q (f tt s1)) ->
  post Q (bind (release_unused u id refund) f s).
Proof.
  intros Hl Hm Hc Hf. unfold release_unused. rewrite bind_if.
  set (e := MkCreditLedger u refund "engagement_release" None (Some id) None None).
  assert (Hsum : in_prec hold ->
      sum_by cl_delta_wei (if 0 <? refund then [e] else []) = hold - billed).
  { intros Hp. apply refund_sum; [apply Hl|by apply Hl|done]. }
  destruct (0 <? refund).
  - rewrite bind_assoc. apply post_release; [done| |].
    { rewrite (find_entry_app _ _ _ _ _ (mv_ledger _ _ _ _ _ Hm)).
      pose proof (live_unreleased _ _ _ _ _ _ Hl) as Hn. unfold find_engagement_entry in Hn.
      by rewrite Hn. }
    intros b s1 Hc1 Ha. rewrite bind_ret. apply (Hf [e]); [done| |exact Hsum].
    apply (moves_appended id r1 [] [e] d0 s1 Hm Ha). repeat constructor. apply own_entry.
  - rewrite bind_ret. by apply (Hf []).
Qed.

(** The end of a settlement: the row is closed with its bill. *)
Lemma live_done d0 id r hold billed refund r' es d s :
  live d0 id r hold billed refund -> moves id r' es d0 d ->
  (in_prec hold -> sum_by cl_delta_wei es = hold - billed) ->
  terms r' = terms r -> is_closed r' = true -> ps_billed_value_wei r' = Some billed ->
  inside d s -> db_inv EP s.
Proof.
  intros [L1 L2 L3 L4 L5 L6 _] Hm Hs Ht Hc Hb Hi. eapply inside_done; [done|].
  by apply (sound_close o id r r' es d0 d hold billed).
Qed.

(** The bill of a pass-through engagement fits its hold. *)
Lemma bill_live d id row stored policy hold units debit billed :
  EP d -> t_session d !! id = Some row -> is_wholesale row = true -> is_closed row = false ->
  ps_customer_pricing row = Some stored -> ps_customer_max_debit_wei row = Some hold ->
  pricing_validate stored = Ok policy ->
  calculate_customer_charge policy units debit = Ok billed -> billed <= hold ->
  live d id row hold billed (dsub hold billed).
Proof.
  intros Hd Hr Hw Hc Ep Em Ev Hcc Hle. pose proof Hd as [[Hs _] _].
  destruct (Hs id row Hr) as [_ Hok]. destruct (Hok Hw) as (h & _ & _ & _ & Hp & _).
  destruct Hp as (stored' & p & Ep' & Ev' & Ek). rewrite Ep in Ep'.
  injection Ep' as <-. rewrite Ev in Ev'. injection Ev' as <-.
  pose proof (calculate_customer_charge_nonneg _ _ _ _ Hcc) as [Hu Hdb].
  rewrite (pass_through_charge policy) in Hcc by done. injection Hcc as <-. split; try done.
  intros Hp. apply dsub_exact. eapply in_prec_le; [|exact Hp]. lia.
Qed.

Section closing.
Context {L : SettlementLib}.

(** Closing a session. *)
Lemma post_close_apply id u row settlement v billed refund final hold s d :
  inside d s -> live d id row hold billed refund ->
  post (fun _ => db_inv EP) (close_apply id u row settlement v billed refund final s).
Proof.
  intros Hi Hl. unfold close_apply.
  assert (Hid : ps_id row = id).
  { destruct (lv_ok _ _ _ _ _ _ Hl) as [[Hs _] _]. apply (Hs id row (lv_row _ _ _ _ _ _ Hl)). }
  eapply post_transition; [done|]. intros r c s1 Hr Hst Hcl moved Hi1.
  assert (r = row) as -> by (pose proof (lv_row _ _ _ _ _ _ Hl); congruence).
  destruct Hi1 as [Hc1 Hw1]. rewrite Hid.
  eapply (post_release_unused u id refund _ _ s1 d (moved row) row hold billed); [done| |done|].
  { rewrite Hw1. apply moves_update. apply Hl. }
  intros es s2 Hc2 Hm2 Hsum. apply inside_intro in Hc2.
  eapply post_modify; [exact Hc2|]. intros s3 Hi3.
  eapply post_lift; [done| |].
  { destruct (settled_authorization settlement); cbn; intros ? [=<-]. apply strict_unverified. }
  intros auth Ha. eapply post_modify; [exact Hi3|]. intros s4 Hi4.
  eapply post_mark_settled; [exact Hi4|]. intros g now s5 Hi5.
  eapply post_flush; [exact Hi5|]. intros s6 Hi6.
  eapply post_record; [exact Hi6|]. intros ev l s7 Hi7.
  assert (Hm7 : moves id (bind_authorization auth (close_columns v billed final (moved row))) es d
                  (on_settlement l (update_grant id auth (retire "settled" now)
                    (update_session id (bind_authorization auth)
                      (update_session id (close_columns v billed final) (st_working s2)))))).
  { eapply moves_ext; cycle 3.
    { apply moves_then_grant; [intros; apply retire_key|].
      do 2 apply moves_then_update. exact Hm2. }
    all: done. }
  eapply post_lift; [exact Hi7| |].
  { cbn. destruct Hcl as [[t ->]|[=]]. by intros ? [=]. }
  intros t _. cbn. eapply live_done; [exact Hl|exact Hm7|exact Hsum|done|done|done|exact Hi7].
Qed.

Lemma customer_bill_live d id row v billed refund :
  EP d -> t_session d !! id = Some row -> is_wholesale row = true -> is_closed row = false ->
  customer_bill row v = Ok (billed, refund) ->
  exists hold, live d id row hold billed refund.
Proof.
  intros Hd Hr Hw Hc Hb. unfold customer_bill in Hb. res_inv. opt_inv. bool_props.
  eexists. by eapply bill_live.
Qed.

Lemma close_checks_ok row units outcome settlement s v billed refund final s1 :
  close_checks row units outcome settlement s = (Ok (v, billed, refund, final), s1) ->
  customer_bill row v = Ok (billed, refund).
Proof.
  unfold close_checks. intros H. m_inv.
  match type of H with (let '(_, _) := ?x in _) _ = _ => destruct x as [b rf] end.
  m_inv. by simplify_eq.
Qed.

Lemma close_checks_reads d row units outcome settlement :
  Keeps (W := W) (working_is d) (close_checks row units outcome settlement).
Proof.
  unfold close_checks, verify_close_settlement, require_retired_successors. keeps.
Qed.

Lemma close_checks_keeps row units outcome settlement :
  Keeps (W := W) (db_inv EP) (close_checks row units outcome settlement).
Proof.
  unfold close_checks, verify_close_settlement, require_retired_successors. keeps.
Qed.

Lemma tx_close_session id u units outcome settlement :
  Tx (W := W) EP E (close_session id u units outcome settlement).
Proof.
  intros s Hs. unfold close_session.
  rewrite bind_db_read. set (s0 := MkSt _ _ _ _ _ _).
  assert (Hs0 : db_inv EP s0) by exact Hs.
  rewrite bind_lift. destruct (t_session (st_working s) !! id) as [row|] eqn:Hr; cbn;
    [|split; [by apply db_inv_committed|done]].
  rewrite bind_guard. destruct (N.eqb (ps_user_id row) u);
    [|split; [by apply db_inv_committed|done]].
  destruct (String.eqb (ps_state row) SESSION_STATE_CLOSED) eqn:Hc.
  { apply tx_keeps; [|done]. unfold replay_closed_session. keeps. }
  rewrite bind_guard. destruct (String.eqb (ps_accounting_mode row) "wholesale_account") eqn:Hw;
    [|split; [by apply db_inv_committed|done]].
  pose proof (close_checks_keeps row units outcome settlement s0 Hs0) as Hk.
  pose proof (close_checks_reads (st_working s) row units outcome settlement s0 eq_refl) as Hrd.
  unfold bind at 1.
  destruct (close_checks row units outcome settlement s0) as [[[[[v b] rf] fin]|e] s1] eqn:Ec;
    cbn in Hk, Hrd; [|split; [by apply db_inv_committed|done]].
  apply close_checks_ok in Ec.
  destruct (customer_bill_live (st_working s) id row v b rf) as [hold Hl];
    [apply Hs|done..|].
  rewrite bind_lift. destruct settlement as [record|]; cbn;
    [|split; [by apply db_inv_committed|done]].
  eapply post_close_apply; [|exact Hl]. split; [by apply db_inv_committed|done].
Qed.

End closing.

End steps.
