(* ===== verification/SessionClaims.v ===== *)
(** * Engagements: claiming, authorizing and revising

    The compound writes of the sessions service that create or grow a hold:
    the claim of a new engagement, its release when no authorization followed,
    the grants and the cap revisions. *)

From S2P Require Import Prelude PyData DecimalCtx Errors Effects Store Pricing Settings Billing.
From S2P Require Import BillingFacts SettlementVerification BrokerSettlement PaymentDaemon.
From S2P Require Import Registry Wholesale Payments SessionCore SessionSettle.
From S2P Require Import SessionPrepare SessionFlows Jobs JobReconcile SessionFacts EngagementSpec.
From S2P Require Import EngagementKeeps SessionTx.

Open Scope string_scope.
Open Scope Z_scope.
Open Scope loc_scope.

(** ** Releasing an unauthorized engagement *)

Section release.
Context {W : Type} {R : Runtime} (o : DB) (E : exn -> bool) `{!Strict E}.
Implicit Types (s : St DB W) (id : uuid).
Local Abbreviation EP := (sound o).
Local Abbreviation post := (tx_post (W := W) EP E).

Lemma releasable_live d id r hold :
  EP d -> t_session d !! id = Some r -> releasable r = true ->
  ps_customer_max_debit_wei r = Some hold -> live o d id r hold 0 hold.
Proof.
  intros Hd Hr Hx Hh. unfold releasable in Hx. bool_props.
  assert (Hc : is_closed r = false).
  { unfold is_closed. destruct (ps_state r =? SESSION_STATE_CLOSED)%string eqn:E1; [|done].
    apply String.eqb_eq in E1. rewrite E1 in *. discriminate. }
  pose proof Hd as [[Hs _] _]. destruct (Hs id r Hr) as [_ Hok].
  destruct (Hok ltac:(done)) as (h & Hm & Hn & _). split; try done.
  - assert (h = hold) as -> by congruence. lia.
  - intros _. lia.
Qed.

Lemma tx_release_unauthorized id : Tx (W := W) EP E (release_unauthorized_engagement id).
Proof.
  intros s Hs. unfold release_unauthorized_engagement. rewrite bind_db_read.
  set (s0 := MkSt _ _ _ _ _ _). assert (Hs0 : db_inv EP s0) by exact Hs.
  assert (Hno : post (fun _ => db_inv EP) ((db_rollback ;;; ret false) s0)).
  { apply tx_keeps; [keeps|done]. }
  destruct (t_session (st_working s) !! id) as [r|] eqn:Hr; [|exact Hno].
  destruct (releasable r) eqn:Hx; [|exact Hno].
  destruct (ps_customer_max_debit_wei r) as [hold|] eqn:Hh; [|exact Hno]. clear Hno.
  assert (Hl : live o (st_working s0) id r hold 0 hold) by (apply releasable_live; [apply Hs|done..]).
  assert (Hid : ps_id r = id) by (destruct (lv_ok _ _ _ _ _ _ _ Hl) as [[Hk _] _]; by apply (Hk id r)).
  rewrite Hid. apply post_release; [done|by apply db_inv_committed| |].
  { by eapply live_unreleased. }
  intros b s1 Hc1 Ha. apply inside_intro in Hc1.
  eapply post_clock; [exact Hc1|]. intros now s2 Hi2.
  eapply post_modify; [exact Hi2|]. intros s3 Hi3. apply post_commit; [done| |done].
  pose proof (moves_appended id r [] _ _ _ (moves_refl id r (st_working s0) Hr) Ha
                ltac:(repeat constructor; apply own_entry)) as Hm.
  eapply live_done; [exact Hl|apply (moves_then_update _ (released now)); exact Hm| |done|done|done|exact Hi3].
  intros _. unfold sum_by, Zsum. cbn. lia.
Qed.

#[local] Hint Resolve tx_release_unauthorized : loc.

Lemma tx_release_stale older limit :
  Tx (W := W) EP E (release_stale_unauthorized_engagements older limit).
Proof. unfold release_stale_unauthorized_engagements, clock_now. tx. Qed.

End release.

#[export] Hint Resolve tx_release_unauthorized tx_release_stale : loc.

(** ** Claiming a new engagement *)

Section claim.
Context {W : Type} {R : Runtime} (o : DB).
Implicit Types (s : St DB W) (id u : uuid).
Local Abbreviation EP := (sound o).
Local Abbreviation post := (tx_post (W := W) EP no_exn).

(** A step that commits nothing, then the rest. *)
Lemma post_run {A B} (m : M DB W A) (f : A -> M DB W B) (Q : B -> St DB W -> Prop) s :
  Keeps (committed_inv EP) m -> committed_inv EP s ->
  (forall a s1, m s = (Ok a, s1) -> committed_inv EP s1 -> post Q (f a s1)) ->
  post Q (bind m f s).
Proof.
  intros Hm Hs Hf. specialize (Hm s Hs). unfold bind.
  destruct (m s) as [[a|e] s1]; cbn in *; [by apply Hf|by split].
Qed.

Lemma create_session_uncommitted u k w c f p snap rid eu mu fv sdk mode pr md gid :
  Keeps (W := W) (committed_inv EP)
    (create_session u k w c f p snap rid eu mu fv sdk mode pr md gid).
Proof. unfold create_session, clock_now, new_uuid. keeps. Qed.

Lemma create_session_ok u k w c f p snap rid eu mu fv sdk mode pr md gid s row s1 :
  create_session u k w c f p snap rid eu mu fv sdk mode pr md gid s = (Ok row, s1) ->
  (exists id now, row = new_session id u k w c f p snap rid eu mu fv now sdk mode pr md) /\
  session_conflicts row (st_working s) = false /\
  st_working s1 = on_session (<[ps_id row := row]>) (st_working s).
Proof.
  unfold create_session, clock_now, new_uuid. intros H.
  apply bind_ok in H as (now & s2 & H1 & H). apply bind_ok in H as (id & s3 & H2 & H).
  assert (Hw : st_working s3 = st_working s).
  { injection H1 as <- <-. destruct gid; injection H2 as <- <-; done. }
  rewrite bind_db_peek, bind_guard in H. cbn zeta in H.
  destruct (negb _) eqn:Ec; [|done]. apply negb_true_iff in Ec.
  rewrite bind_db_modify in H. apply bind_ok in H as ([] & s4 & H3 & H).
  rewrite bind_db_flush in H. injection H as <- <-.
  split; [by exists id, now|]. split; [by rewrite <- Hw|].
  unfold db_race in H3. cbn in H3. destruct (st_races s3) as [|[g|] r]; simplify_eq H3;
    intros; subst; cbn; by rewrite Hw.
Qed.

Lemma conflict_fresh row d :
  session_conflicts row d = false -> t_session d !! ps_id row = None.
Proof.
  unfold session_conflicts. intros H. bool_props. by apply eq_None_not_Some.
Qed.

Lemma fresh_entries d id (p : CreditLedger -> bool) :
  engagements_ok d -> t_session d !! id = None ->
  (forall e, p e = true -> cl_related_engagement_id e = Some id) ->
  List.filter p (t_ledger d) = [] /\ List.find p (t_ledger d) = None.
Proof.
  intros [_ Hl] Hr Hp.
  assert (Hall : Forall (fun e => p e = false) (t_ledger d)).
  { apply Forall_forall. intros e He. destruct (p e) eqn:Ep; [|done].
    destruct (Hl e id He (Hp e Ep)) as [r Hx]. congruence. }
  split; [|by apply find_none_Forall].
  clear Hl. induction Hall as [|e l He _ IH]; cbn; [done|]. by rewrite He.
Qed.

(** A new row and its hold. *)
Lemma sound_claimed d d' row u hold :
  EP d -> t_session d !! ps_id row = None -> 0 <= hold ->
  ps_customer_max_debit_wei row = Some hold -> ps_funded_value_wei row = hold ->
  is_wholesale row = true -> is_closed row = false -> pass_through row ->
  ps_authorization_id row = None -> ps_refill_seq row = 0 ->
  is_live row = true -> ps_billed_value_wei row = None ->
  t_session d' = <[ps_id row := row]> (t_session d) -> t_grant d' = t_grant d ->
  t_ledger d' = (t_ledger d ++ [MkCreditLedger u (dneg hold) "engagement_encumbrance" None
                                  (Some (ps_id row)) None None])%list ->
  EP d'.
Proof.
  intros Hd Hr Hh Hm Hf Hw Hc Hp Ha Hq Hl Hu E1 E2 E3. pose proof Hd as [Hb _].
  set (e := MkCreditLedger _ _ _ _ _ _ _) in E3.
  assert (Hnone : forall reason, find_engagement_entry (ps_id row) reason d = None).
  { intros reason. apply (fresh_entries d (ps_id row)); [done..|].
    intros x Hx. unfold ledger_match in Hx. by bool_props. }
  assert (Hfind : forall reason, String.eqb "engagement_encumbrance" reason = false ->
            find_engagement_entry (ps_id row) reason d' = None).
  { intros reason Hx. rewrite (find_entry_app _ _ _ _ _ E3).
    specialize (Hnone reason). unfold find_engagement_entry in Hnone. rewrite Hnone. cbn [List.find].
    unfold ledger_match. change (cl_reason e) with "engagement_encumbrance".
    by rewrite Hx, andb_false_r. }
  apply (sound_moves o (ps_id row) row [e] d); [done| | |].
  - split; unfold find_grant, find_revision; rewrite ?E1, ?E2, ?E3; try done.
    repeat constructor. apply own_entry.
  - split; [done|]. intros _. exists hold.
    split; [done|]. split; [done|]. split; [done|]. split; [done|]. rewrite Hc.
    split; rewrite ?Ha, ?Hq; try done.
    + intros Hprec. rewrite (net_app _ _ _ _ E3).
      destruct (fresh_entries d (ps_id row) (entry_of (ps_id row)) Hb Hr) as [-> _].
      { intros x Hx. unfold entry_of in Hx. by bool_props. }
      cbn [List.filter]. assert (entry_of (ps_id row) e = true) as -> by apply own_entry.
      unfold sum_by, Zsum. cbn. rewrite dneg_exact by done. lia.
    + by apply Hfind.
    + intros n Hn. by apply Hfind.
  - unfold account_at. rewrite Hr. cbn. unfold account_of. rewrite Hw, Hc, Hm. cbn.
    apply rtc_once. by constructor.
Qed.

Lemma pass_through_row row work_unit pricing :
  make_pricing (pass_through_pricing work_unit) = Ok pricing ->
  ps_customer_pricing row = Some (pricing_dump pricing) -> pass_through row.
Proof.
  intros Hp He. pose proof (make_pricing_ok _ _ Hp) as (-> & _).
  exists (pricing_dump (pass_through_pricing work_unit)), (pass_through_pricing work_unit).
  split; [done|]. by split; [apply pricing_validate_dump|].
Qed.

Section body.
Context (u k : uuid) (route : SelectedRoute) (rid : string) (eu mu hold : Z)
  (sdk : option string) (period cap : Z) (gid : option uuid).
Hypothesis hold_nonneg : snapshot_fields_ok route = true -> 0 <= hold.

Lemma tx_claim_body (again : M DB W PaymentSession) :
  Tx (W := W) EP no_exn again ->
  Tx (W := W) EP no_exn (claim_engagement_body again u k route rid eu mu hold sdk period cap gid).
Proof.
  intros Hagain s Hs. unfold claim_engagement_body. rewrite bind_db_read.
  set (s0 := MkSt _ _ _ _ _ _). assert (Hs0 : db_inv EP s0) by exact Hs.
  apply post_run; [keeps|by apply db_inv_committed|]. intros _ s1 [_ ->]%guard_ok _.
  apply post_run; [keeps|by apply db_inv_committed|]. intros pricing s1 [Hp ->]%lift_ok _.
  apply post_run; [keeps|by apply db_inv_committed|]. intros snap s1 [Hsn ->]%lift_ok _.
  destruct (find_engagement u rid (st_working s)) as [existing|] eqn:Hf.
  { apply tx_keeps; [keeps|done]. }
  apply post_run; [apply create_session_uncommitted|by apply db_inv_committed|].
  intros row s1 Hrow Hc1. apply create_session_ok in Hrow as ((id & now & Erow) & Hfresh & Hw1).
  apply conflict_fresh in Hfresh. change (st_working s0) with (st_working s) in *.
  assert (Hb : 0 <= hold).
  { apply hold_nonneg. unfold route_snapshot in Hsn. res_inv. done. }
  apply post_run; [auto with loc|done|]. intros b s2 He Hc2.
  assert (Hd2 : db_inv EP s2).
  { apply db_inv_intro; [done|]. apply encumber_appended in He as [_ _ A3 A4 A5].
    - rewrite Hw1 in *. cbn in *.
      eapply (sound_claimed (st_working s) _ row u hold); subst row; try done.
      + apply Hs.
      + by eapply pass_through_row.
    - rewrite Hw1. destruct Hs as [[_ [Hbk _]] _]. apply (fresh_entries (st_working s) (ps_id row));
        [done..|]. intros x Hx. unfold ledger_match in Hx. by bool_props. }
  apply (tx_try EP no_exn (fun _ => true)); [apply tx_keeps; keeps| |done|exact Hd2].
  intros e c Hh. split; [done|]. destruct e; try discriminate Hh. injection Hh as <-.
  tx.
Qed.

Lemma tx_claim :
  Tx (W := W) EP no_exn (claim_wholesale_engagement u k route rid eu mu hold sdk period cap gid).
Proof. unfold claim_wholesale_engagement. do 2 apply tx_claim_body. tx. Qed.

End body.

End claim.

(** ** Grants *)

Section grants.
Context {W : Type} {R : Runtime} (o : DB).
Implicit Types (s : St DB W) (id u : uuid).
Local Abbreviation EP := (sound o).
Local Abbreviation post := (tx_post (W := W) EP no_exn).

Definition authorized (a : string) (r : PaymentSession) : PaymentSession :=
  set_ps_work_id a (set_ps_authorization_id (Some a) r).

(** What recording a grant did: nothing for a replay, one row otherwise. *)
Definition grant_recorded (id : uuid) (q : CreateSpendAuthorizationRequest)
    (g : SpendAuthorizationGrant) (d d' : DB) : Prop :=
  (find_revision id (sq_revision q) d = Some g /\
     sg_authorization_id g = sq_authorization_id q /\ d' = d) \/
  (find_revision id (sq_revision q) d = None /\ grant_conflicts g d = false /\
     grant_key g = (id, sq_authorization_id q, sq_revision q) /\
     d' = update_session id (authorized (sq_authorization_id q))
            (on_grant (fun l => l ++ [g])%list d)).

Lemma record_grant_uncommitted id u route domain q r :
  Keeps (W := W) (committed_inv EP) (record_spend_authorization_grant id u route domain q r).
Proof. unfold record_spend_authorization_grant. keeps. Qed.

Lemma record_grant_ok id u route domain q r s g s1 :
  record_spend_authorization_grant id u route domain q r s = (Ok g, s1) ->
  (exists row, t_session (st_working s) !! id = Some row /\ ps_user_id row = u /\
     require_authorizable row (sq_revision q) = Ok tt) /\
  grant_recorded id q g (st_working s) (st_working s1).
Proof.
  unfold record_spend_authorization_grant. intros H. rewrite bind_db_read in H.
  set (s0 := MkSt _ _ _ _ _ _) in H. assert (Hw : st_working s = st_working s0) by done.
  clearbody s0. rewrite Hw in *. clear s Hw.
  apply bind_ok in H as (row & s2 & [Hr%of_option_ok ->]%lift_ok & H).
  apply bind_ok in H as (u1 & s3 & [Hu%N.eqb_eq ->]%guard_ok & H). clear u1.
  apply bind_ok in H as ([] & s4 & [Ha ->]%lift_ok & H).
  do 2 (apply bind_ok in H as (? & ? & [_ ->]%guard_ok & H)).
  apply bind_ok in H as (snap & ? & [_ ->]%lift_ok & H).
  do 4 (apply bind_ok in H as (? & ? & [_ ->]%guard_ok & H)).
  split; [by exists row|]. unfold grant_recorded.
  destruct (find_revision id (sq_revision q) (st_working s0)) as [e|] eqn:Hf.
  - left. apply bind_ok in H as (? & ? & [Hm ->]%guard_ok & [<- <-]%ret_ok).
    split; [done|]. split; [|done]. unfold grant_matches in Hm.
    repeat (apply andb_true_iff in Hm as [Hm _]). by apply String.eqb_eq.
  - right. apply bind_ok in H as ([] & s5 & Hp & H).
    assert (s5 = s0) as ->.
    { destruct (0 <? sq_revision q); [|by injection Hp].
      apply bind_ok in Hp as (p & ? & [_ ->]%lift_ok & [_ ->]%guard_ok). done. }
    apply bind_ok in H as (? & ? & [Hc%negb_true_iff ->]%guard_ok & H).
    rewrite bind_db_modify, bind_db_flush in H. injection H as <- <-. by split.
Qed.

(** A fresh authorization is found under its identity. *)
Lemma recorded_found id a n g d d' :
  grant_conflicts g d = false -> grant_key g = (id, a, n) ->
  t_grant d' = (t_grant d ++ [g])%list ->
  find_grant id a d' = Some g /\ is_Some (find_revision id n d') /\
  (forall i b, i <> id -> find_grant i b d' = find_grant i b d) /\
  (forall i m, is_Some (find_revision i m d) -> is_Some (find_revision i m d')).
Proof.
  unfold grant_conflicts, grant_key, find_grant, find_revision. intros Hc [= E1 E2 E3] ->.
  apply orb_false_iff in Hc as [Hc _].
  assert (Hg : forall x, x ∈ t_grant d -> String.eqb (sg_authorization_id x) a = false).
  { intros x Hx. destruct (String.eqb _ a) eqn:Ex; [|done]. rewrite <- not_true_iff_false in Hc.
    destruct Hc. apply existsb_exists. exists x. split; [by apply list_elem_of_In|].
    rewrite E2, Ex. done. }
  repeat split.
  - rewrite find_app. assert (List.find (grant_by_id id a) (t_grant d) = None) as ->.
    { apply find_none_Forall, Forall_forall. intros x Hx. unfold grant_by_id.
      by rewrite Hg, andb_false_r. }
    cbn. unfold grant_by_id. by rewrite E1, E2, N.eqb_refl, String.eqb_refl.
  - rewrite find_app. destruct (List.find _ _); [done|]. cbn. unfold grant_by_revision.
    by rewrite E1, E3, N.eqb_refl, Z.eqb_refl.
  - intros i b Hne. rewrite find_app. destruct (List.find _ _); [done|]. cbn.
    unfold grant_by_id. rewrite E1. destruct (N.eqb_spec id i); [congruence|done].
  - intros i m [x Hx]. rewrite find_app, Hx. done.
Qed.

(** Attaching a fresh grant to the row of an engagement. *)
Lemma moves_recorded id a n g es d0 d row :
  moves id row es d0 d -> grant_conflicts g d = false -> grant_key g = (id, a, n) ->
  moves id (authorized a row) es d0 (update_session id (authorized a)
                                      (on_grant (fun l => l ++ [g])%list d)).
Proof.
  intros Hm Hc Hk. set (d' := update_session _ _ _).
  destruct (recorded_found id a n g d d' Hc Hk eq_refl) as (_ & _ & Hg & Hi).
  pose proof (moves_then_update id (authorized a) row es d0 d Hm) as [M1 M2 M3 M4 M5].
  split; try done.
  - intros i b Hne. rewrite Hg by done. by apply M4.
  - intros i Hne Hv. by apply Hi, M5.
Qed.

(** The first grant of a live engagement: it had no authorization. *)
Lemma held_initial_grant d r hold a g d' :
  held d r hold -> find_revision (ps_id r) 0 d = None -> grant_conflicts g d = false ->
  grant_key g = (ps_id r, a, 0) -> t_ledger d' = t_ledger d ->
  t_grant d' = (t_grant d ++ [g])%list -> held d' (authorized a r) hold.
Proof.
  intros [H1 H2 H3 H4 H5 H6 H7 H8] Hn Hc Hk El Eg.
  destruct (recorded_found _ _ _ _ _ _ Hc Hk Eg) as (Hf & Hv & _ & _).
  assert (Hq : ps_refill_seq r = 0).
  { apply H5. destruct (ps_authorization_id r); [|done]. destruct H6 as [x Hx]; [done|]. congruence. }
  split; unfold engagement_net, find_engagement_entry in *; rewrite ?El; try done.
  intros b x [= <-] Hx. cbn in Hx |- *. rewrite Hf in Hx. injection Hx as <-.
  unfold grant_key in Hk. congruence.
Qed.

Lemma tx_record_initial id u route domain q r :
  sq_revision q = 0 ->
  Tx (W := W) EP no_exn (record_spend_authorization_grant id u route domain q r).
Proof.
  intros Hq s Hs. pose proof (record_grant_uncommitted id u route domain q r s) as Hk.
  destruct (record_spend_authorization_grant id u route domain q r s) as [[g|e] s1] eqn:Ec;
    cbn in *; [|split; [apply Hk; by apply db_inv_committed|done]].
  apply db_inv_intro; [apply Hk; by apply db_inv_committed|].
  apply record_grant_ok in Ec as [(row & Hr & _ & Ha) Hg]. unfold grant_recorded in Hg.
  rewrite Hq in *.
  destruct Hs as [[_ Hd] _].
  destruct Hg as [(_ & _ & ->)|(Hn & Hc & Hkey & Hw)]; [done|]. rewrite Hw.
  apply (sound_moves o id (authorized (sq_authorization_id q) row) [] (st_working s)); [done| | |].
  - eapply moves_recorded; [by apply moves_refl|exact Hc|exact Hkey].
  - pose proof Hd as [[Hrows _] _]. destruct (Hrows id row Hr) as [Hid Hok]. split; [done|]. intros Hwh.
    destruct (Hok Hwh) as (hold & Hm & Hp & Hf & Ht & Hx). exists hold.
    split; [done|]. split; [done|]. split; [done|]. split; [done|].
    unfold is_closed in *. cbn. destruct (String.eqb (ps_state row) SESSION_STATE_CLOSED) eqn:Ecl.
    + apply String.eqb_eq in Ecl. unfold require_authorizable in Ha. rewrite Ecl in Ha. by res_inv.
    + subst id. eapply held_initial_grant; [exact Hx|exact Hn|exact Hc|exact Hkey|done|done].
  - unfold account_at. rewrite Hr. cbn. apply rtc_refl.
Qed.

(** ** Cap revisions *)

Lemma cap_revision_reason_inj n m : cap_revision_reason n = cap_revision_reason m -> n = m.
Proof.
  unfold cap_revision_reason. cbn [String.append]. intros H.
  injection H as H. change (str_Z n = str_Z m) in H.
  apply (f_equal int_of_str) in H. rewrite !int_of_str_Z in H. congruence.
Qed.

(** Raising the hold by an entry and a grant of the next revision. *)
Lemma held_revised d r r' hold hold' u inc a g d' :
  held d r hold -> is_Some (ps_authorization_id r) -> ps_id r' = ps_id r ->
  ps_refill_seq r' = ps_refill_seq r + 1 -> ps_authorization_id r' = Some a ->
  ps_state r' = ps_state r -> ps_billed_value_wei r' = ps_billed_value_wei r ->
  0 <= hold < hold' -> (in_prec hold' -> inc = hold' - hold) ->
  t_ledger d' = (t_ledger d ++ [MkCreditLedger u (dneg inc)
     (cap_revision_reason (ps_refill_seq r + 1)) None (Some (ps_id r)) None None])%list ->
  grant_conflicts g d = false -> grant_key g = (ps_id r, a, ps_refill_seq r + 1) ->
  t_grant d' = (t_grant d ++ [g])%list -> held d' r' hold'.
Proof.
  intros [H1 H2 H3 H4 H5 H6 H7 H8] Hau Hid Hseq Ha Hst Hbi Hh Hinc El Hc Hk Eg.
  destruct (recorded_found _ _ _ _ _ _ Hc Hk Eg) as (Hf & _ & _ & Hv).
  set (e := MkCreditLedger _ _ _ _ _ _ _) in El.
  assert (Hfind : forall reason, String.eqb (cap_revision_reason (ps_refill_seq r + 1)) reason = false ->
            find_engagement_entry (ps_id r) reason d = None ->
            find_engagement_entry (ps_id r) reason d' = None).
  { intros reason Hne Hn. rewrite (find_entry_app _ _ _ _ _ El). unfold find_engagement_entry in Hn.
    rewrite Hn. cbn [List.find]. unfold ledger_match.
    change (cl_reason e) with (cap_revision_reason (ps_refill_seq r + 1)).
    by rewrite Hne, andb_false_r. }
  unfold is_live in H7. split; unfold is_live; rewrite ?Hid, ?Hseq, ?Ha, ?Hst, ?Hbi; try done.
  - intros Hp. rewrite (net_app _ _ _ _ El). fold (engagement_net (ps_id r) d).
    assert (Hp0 : in_prec hold) by (eapply in_prec_le; [|exact Hp]; lia).
    rewrite (H1 Hp0). cbn [List.filter].
    assert (entry_of (ps_id r) e = true) as -> by apply own_entry.
    unfold sum_by, Zsum. cbn. rewrite Hinc by done.
    rewrite dneg_exact by (eapply in_prec_le; [|exact Hp]; lia). lia.
  - by apply Hfind.
  - intros n Hn. apply Hfind; [|apply H3; lia]. apply String.eqb_neq.
    intros Heq%cap_revision_reason_inj. lia.
  - intros b x [= <-] Hx. rewrite Hf in Hx. injection Hx as <-. unfold grant_key in Hk. congruence.
  - intros _. by apply Hv, H6.
Qed.

Lemma dsub_pos x y : 0 < dsub x y -> y < x.
Proof.
  unfold dsub. intros H. assert (0 <= x - y) by (apply ctx_round_nonneg; lia).
  destruct (Z.eq_dec x y) as [->|]; [|lia]. rewrite Z.sub_diag in H. by vm_compute in H.
Qed.

End grants.

Section revision.
Context {W : Type} {R : Runtime} {D : PaymentDaemonClient W} (o : DB).
Implicit Types (s : St DB W) (id u : uuid).
Local Abbreviation EP := (sound o).
Local Abbreviation post := (tx_post (W := W) EP no_exn).

(** A step that only looks, then the rest. *)
Lemma post_look {A B} (m : M DB W A) (f : A -> M DB W B) (Q : B -> St DB W -> Prop) s d :
  Keeps (committed_inv EP) m -> Keeps (working_is d) m -> inside o d s ->
  (forall a s1 s2, m s2 = (Ok a, s1) -> st_working s2 = d -> inside o d s1 -> post Q (f a s1)) ->
  post Q (bind m f s).
Proof.
  intros Hm Hd [Hc Hw] Hf. apply (post_run o); [done..|]. intros a s1 E Hc1.
  apply (Hf a s1 s E Hw). split; [done|]. specialize (Hd s Hw). by rewrite E in Hd.
Qed.

Lemma issue_ok route a b c d e m n t0 t1 i w v p s q r s1 :
  issue_route_locked_authorization route a b c d e m n t0 t1 i w v p s = (Ok (q, r), s1) ->
  sq_authorization_id q = a /\ sq_revision q = v.
Proof.
  unfold issue_route_locked_authorization. intros H.
  apply bind_ok in H as (? & ? & _ & H). apply bind_ok in H as (payee & ? & _ & H).
  apply bind_ok in H as (resp & ? & _ & H). by injection H as <- <-.
Qed.

Lemma try_reraises_ok {A} (m : M DB W A) h s a s1 :
  (forall e k s2 b s3, h e = Some k -> k s2 <> (Ok b, s3)) ->
  try_except m h s = (Ok a, s1) -> m s = (Ok a, s1).
Proof.
  intros Hh. unfold try_except. destruct (m s) as [[b|e] s2]; [done|].
  destruct (h e) as [k|] eqn:Ek; [|done]. intros H. by destruct (Hh e k s2 a s1 Ek).
Qed.

Lemma issue_revision_ok {A} (issue : M DB W A) s a s1 :
  issue_revision_authorization issue s = (Ok a, s1) -> issue s = (Ok a, s1).
Proof.
  apply try_reraises_ok. intros e k s2 b s3. destruct e; intros [=]; by subst.
Qed.

Lemma issue_initial_ok {A} row (issue : M DB W A) s a s1 :
  issue_initial_authorization_or_release row issue s = (Ok a, s1) -> issue s = (Ok a, s1).
Proof.
  unfold issue_initial_authorization_or_release. rewrite bind_guard.
  destruct (String.eqb _ _); [|done]. apply try_reraises_ok.
  intros e k s2 b s3. destruct e; intros [=]; subst.
  intros (? & ? & _ & Hx)%bind_ok. done.
Qed.

Lemma current_grant_ok row settings s g s1 :
  current_grant row settings s = (Ok g, s1) ->
  exists a, ps_authorization_id row = Some a /\ find_grant (ps_id row) a (st_working s) = Some g.
Proof.
  unfold current_grant. intros H. apply bind_ok in H as (a & ? & [Ha%of_option_ok ->]%lift_ok & H).
  rewrite bind_db_read in H. apply bind_ok in H as (g' & ? & [Hg%of_option_ok ->]%lift_ok & H).
  apply bind_ok in H as (? & ? & [_ ->]%guard_ok & [-> _]%ret_ok). by exists a.
Qed.

(** A new cap is the new hold, above the old one. *)
Lemma plan_cap_revision_ok row route g mt w c i n hold :
  plan_cap_revision row route g mt = Ok (w, c, i, n) ->
  ps_customer_max_debit_wei row = Some hold -> pass_through row ->
  c = w /\ n = sg_revision g + 1 /\ i = dsub c hold /\ hold < c.
Proof.
  unfold plan_cap_revision. intros H Hh (stored & p & Ep & Ev & Ek). rewrite Ep, Hh in H.
  cbn in H. rewrite Ev in H. cbn in H. res_inv. bool_props.
  match goal with H : calculate_customer_charge _ _ _ = Ok _ |- _ => rename H into Hcc end.
  pose proof (calculate_customer_charge_nonneg _ _ _ _ Hcc) as [Hu Hdb].
  rewrite pass_through_charge in Hcc by done. injection Hcc as ->.
  repeat match goal with H : _ = _ |- _ => injection H as H end; subst.
  repeat (split; [done|]). by apply dsub_pos.
Qed.

Lemma find_revision_auth id n g d :
  find_revision id n d = Some g -> find_grant id (sg_authorization_id g) d <> None.
Proof.
  intros [Hin Hx]%List.find_some Hn. unfold grant_by_revision in Hx. bool_props.
  pose proof (List.find_none _ _ Hn g Hin) as Hf. unfold grant_by_id in Hf.
  rewrite String.eqb_refl, andb_true_r in Hf. congruence.
Qed.

(** The three writes of a cap revision, together. *)
Lemma sound_revised d d4 row hold w u a g i mt :
  EP d -> t_session d !! ps_id row = Some row -> is_wholesale row = true ->
  is_closed row = false -> ps_customer_max_debit_wei row = Some hold -> pass_through row ->
  held d row hold -> is_Some (ps_authorization_id row) -> 0 <= hold -> hold < w ->
  (in_prec w -> i = w - hold) ->
  t_session d4 = t_session d -> t_grant d4 = t_grant d ->
  t_ledger d4 = (t_ledger d ++ [MkCreditLedger u (dneg i)
    (cap_revision_reason (ps_refill_seq row + 1)) None (Some (ps_id row)) None None])%list ->
  grant_conflicts g d4 = false -> grant_key g = (ps_id row, a, ps_refill_seq row + 1) ->
  EP (update_session (ps_id row) (revise_caps mt w w (ps_refill_seq row + 1))
        (update_session (ps_id row) (authorized a) (on_grant (fun l => l ++ [g])%list d4))).
Proof.
  intros Hd Hr Hw Hc Hm Ht Hx Hau H0 Hlt Hi E1 E2 E3 Hcf Hk.
  set (revise := revise_caps _ _ _ _). set (d' := update_session _ _ _).
  assert (Hcf' : grant_conflicts g d = false).
  { unfold grant_conflicts, sessions in *. by rewrite E1, E2 in Hcf. }
  match type of E3 with _ = (_ ++ [?x])%list => set (e := x) in E3 end.
  assert (Hvc : is_closed (revise (authorized a row)) = is_closed row) by done.
  assert (Hvw : is_wholesale (revise (authorized a row)) = is_wholesale row) by done.
  assert (Hmv : moves (ps_id row) (revise (authorized a row)) [e] d d').
  { apply (moves_then_update _ revise). eapply moves_recorded; [|exact Hcf|exact Hk].
    split; unfold find_grant, find_revision; rewrite ?E2; try done.
    - by rewrite E1, insert_id.
    - repeat constructor. apply own_entry. }
  apply (sound_moves o (ps_id row) (revise (authorized a row)) [e] d); [done|exact Hmv| |].
  - split; [done|]. intros _. exists w. split; [done|]. split; [lia|]. split; [done|].
    split; [done|]. rewrite Hvc, Hc.
    apply (held_revised d row (revise (authorized a row)) hold w u i a g d');
      [exact Hx|exact Hau|done|done|done|done|done|done|exact Hi|exact (mv_ledger _ _ _ _ _ Hmv)|exact Hcf'
      |exact Hk|]. unfold d'. cbn [t_grant update_session on_session on_grant]. by rewrite E2.
  - unfold account_at. rewrite Hr. cbn. unfold account_of.
    rewrite Hvw, Hvc, Hw, Hc, Hm. cbn. apply rtc_once. by constructor.
Qed.

Section revise.
Context (row : PaymentSession) (u : uuid) (route : SelectedRoute) (mt : Z) (digest : bytes)
  (rid : string) (settings : Settings) (cfg : ResolvedBillingConfig).

Lemma post_revise s :
  db_inv EP s -> t_session (st_working s) !! ps_id row = Some row -> is_wholesale row = true ->
  is_closed row = false -> find_grant (ps_id row) ("loc-auth:" ++ rid) (st_working s) = None ->
  post (fun _ => db_inv EP) (revise_wholesale_session row u route mt digest rid settings cfg s).
Proof.
  intros Hs Hr Hw Hc Hnew. set (d := st_working s) in *.
  assert (Hd : EP d) by apply Hs. pose proof Hd as [[Hrows _] _].
  destruct (Hrows _ _ Hr) as [_ Hok]. destruct (Hok Hw) as (hold & Hm & H0 & Hf & Ht & Hx).
  rewrite Hc in Hx. unfold revise_wholesale_session.
  assert (Hi : inside o d s) by (split; [by apply db_inv_committed|done]).
  apply (post_look _ _ _ s d); [keeps|keeps|done|]. intros _ s1 _ _ _ Hi1.
  apply (post_look _ _ _ s1 d); [unfold current_grant; keeps..|done|].
  intros g s2 s1' Hg Hw1 Hi2. apply current_grant_ok in Hg as (a & Ha & Hg). rewrite Hw1 in Hg.
  apply (post_look _ _ _ s2 d); [keeps|keeps|done|]. intros [[[w c] i] n] s3 s2' Hp _ Hi3.
  apply lift_ok in Hp as [Hp _].
  destruct (plan_cap_revision_ok _ _ _ _ _ _ _ _ hold Hp Hm Ht) as (-> & -> & -> & Hlt).
  rewrite (held_current _ _ _ Hx a g Ha Hg) in *. destruct Hi3 as [Hc3 Hw3].
  apply (post_run o); [auto with loc|done|]. intros b s4 Hinc Hc4.
  apply increase_appended in Hinc; [|rewrite Hw3; apply (held_revisions _ _ _ Hx); lia].
  set (d4 := st_working s4). assert (Hi4 : inside o d4 s4) by done.
  apply (post_look _ _ _ s4 d4); [unfold clock_now; keeps..|done|]. intros now s5 _ _ _ Hi5.
  apply (post_look _ _ _ s5 d4); [keeps|keeps|done|]. intros key s6 _ _ _ Hi6.
  apply (post_look _ _ _ s6 d4);
    [unfold issue_revision_authorization, issue_route_locked_authorization; keeps; handler..|done|].
  intros [q r] s7 s6' Hq _ Hi7. apply issue_revision_ok, issue_ok in Hq as [Hqa Hqr].
  apply (post_look _ _ _ s7 d4); [keeps|keeps|done|]. intros domain s8 _ _ _ [Hc8 Hw8].
  apply (post_run o); [apply record_grant_uncommitted|done|]. intros g' s9 Hrec Hc9.
  apply record_grant_ok in Hrec as [_ Hrec]. unfold grant_recorded in Hrec. rewrite Hqa, Hqr, Hw8 in Hrec.
  assert (Hg4 : t_grant d4 = t_grant d).
  { unfold d4. rewrite (ap_grant _ _ _ Hinc). by rewrite Hw3. }
  destruct Hrec as [(Hfr & Hga & _)|(_ & Hcf & Hkey & Hw9)].
  { destruct (find_revision_auth _ _ _ _ Hfr). rewrite Hga. unfold find_grant. by rewrite Hg4. }
  rewrite bind_db_modify. apply post_commit; [apply _| |done].
  apply db_inv_intro; [done|]. cbn [st_working]. rewrite Hw9.
  apply (sound_revised d d4 row hold w u ("loc-auth:" ++ rid) g' (dsub w hold) mt); try done.
  - intros Hp'. apply dsub_exact. eapply in_prec_le; [|exact Hp']. lia.
  - unfold d4. by rewrite (ap_session _ _ _ Hinc), Hw3.
  - unfold d4. by rewrite (ap_ledger _ _ _ Hinc), Hw3.
Qed.

End revise.
(** The value a step returned, when the rest depends on it. *)
Lemma tx_bind_ok {A B} (m : M DB W A) (f : A -> M DB W B) s :
  Tx EP no_exn m -> db_inv EP s ->
  (forall a s1, m s = (Ok a, s1) -> db_inv EP s1 -> post (fun _ => db_inv EP) (f a s1)) ->
  post (fun _ => db_inv EP) (bind m f s).
Proof.
  intros Hm Hs Hf. specialize (Hm s Hs). unfold bind.
  destruct (m s) as [[a|e] s1]; cbn in *; [by apply Hf|done].
Qed.

Lemma tx_issue_initial {A} row (issue : M DB W A) :
  Keeps (db_inv EP) issue ->
  Tx EP no_exn (issue_initial_authorization_or_release row issue).
Proof.
  intros Hi. unfold issue_initial_authorization_or_release. tx.
  apply (tx_try EP no_exn (fun _ => true)); [by apply tx_keeps| |done].
  intros e k Hh. split; [done|]. destruct e; try discriminate Hh. injection Hh as <-. tx.
Qed.

Context {B : BrokerAccountClient W} {C : RegistryClient W}.

Lemma bill_value_nonneg units amount per v :
  0 <= units -> 0 <= amount -> bill_value_wei units amount per = Ok v -> 0 <= v.
Proof.
  unfold bill_value_wei. intros Hu Ha H. res_inv. bool_props. apply Z.div_pos; nia.
Qed.

Lemma fields_price route : snapshot_fields_ok route = true -> 0 <= ro_price_per_work_unit_wei route.
Proof. unfold snapshot_fields_ok. intros H. by bool_props. Qed.

Section opening.
Context (route : SelectedRoute) (hold : Z) (rid : string) (settings : Settings)
  (cfg : ResolvedBillingConfig).
Hypothesis hold_nonneg : snapshot_fields_ok route = true -> 0 <= hold.

Lemma tx_authorize_session q :
  Tx (W := W) EP no_exn (authorize_wholesale_session q route hold rid settings cfg).
Proof.
  intros s Hs. unfold authorize_wholesale_session.
  apply tx_bind_ok; [by apply tx_claim|done|]. intros row s1 _ H1.
  apply tx_bind_ok; [unfold clock_now; tx|done|]. intros now s2 _ H2.
  apply tx_bind_ok; [apply tx_issue_initial; auto with loc|done|]. intros [aq ar] s3 Hi H3.
  apply issue_initial_ok, issue_ok in Hi as [_ Hr].
  apply tx_bind_ok; [tx|done|]. intros domain s4 _ H4.
  apply tx_bind_ok; [by apply tx_record_initial|done|]. intros g s5 _ H5.
  apply post_commit; [apply _|done|done].
Qed.

Lemma tx_authorize_job q mu :
  Tx (W := W) EP no_exn (authorize_wholesale_job q route mu hold rid settings cfg).
Proof.
  intros s Hs. unfold authorize_wholesale_job.
  apply tx_bind_ok; [by apply tx_claim|done|]. intros row s1 _ H1.
  apply tx_bind_ok; [unfold clock_now; tx|done|]. intros now s2 _ H2.
  apply tx_bind_ok; [apply tx_issue_initial; auto with loc|done|]. intros [aq ar] s3 Hi H3.
  apply issue_initial_ok, issue_ok in Hi as [_ Hr].
  apply tx_bind_ok; [tx|done|]. intros domain s4 _ H4.
  apply tx_bind_ok; [by apply tx_record_initial|done|]. intros g s5 _ H5.
  apply post_commit; [apply _|done|done].
Qed.

Lemma tx_open_wholesale_session q axes :
  Tx (W := W) EP no_exn (open_wholesale_session q route axes hold rid settings cfg).
Proof. unfold open_wholesale_session. apply tx_bind; [apply tx_authorize_session|intros]. tx. Qed.

Lemma tx_open_wholesale_job q mu :
  Tx (W := W) EP no_exn (open_wholesale_job q route mu hold rid settings cfg).
Proof.
  unfold open_wholesale_job. apply tx_bind; [apply tx_authorize_job|intros [job resp]].
  apply tx_keeps. keeps; handler.
Qed.

End opening.

Lemma tx_bind_lift {A A'} E (r : res A) (f : A -> M DB W A') :
  (forall a, r = Ok a -> Tx EP E (f a)) -> Tx EP E (bind (lift r) f).
Proof.
  intros Hf s Hs. rewrite bind_lift. destruct r as [a|e]; [by apply Hf|].
  split; [by apply db_inv_committed|done].
Qed.

Lemma tx_open_session q available settings :
  0 <= op_max_total_units q -> Tx (W := W) EP no_exn (open_session q available settings).
Proof.
  intros Hu. unfold open_session, request_id_or_fresh, new_uuid.
  do 6 (apply tx_bind; [tx|intros ?]).
  apply tx_bind_lift. intros worst Hw. do 4 (apply tx_bind; [tx|intros ?]).
  apply tx_open_wholesale_session. intros Hp%fields_price. exact (bill_value_nonneg _ _ _ _ Hu Hp Hw).
Qed.

Lemma tx_open_job q available settings :
  0 <= or_else (oj_max_total_units q) (oj_estimated_units q) ->
  Tx (W := W) EP no_exn (open_job q available settings).
Proof.
  intros Hu. unfold open_job, request_id_or_fresh, new_uuid, select_job_route.
  do 5 (apply tx_bind; [tx|intros ?]).
  apply tx_bind_lift. intros worst Hw. do 2 (apply tx_bind; [tx|intros ?]).
  apply tx_open_wholesale_job. intros Hp%fields_price. exact (bill_value_nonneg _ _ _ _ Hu Hp Hw).
Qed.

(** ** Refilling *)

Lemma tx_refill_session id u rid mt digest available settings :
  Tx (W := W) EP no_exn (refill_session id u rid mt digest available settings).
Proof.
  unfold refill_session. apply tx_bind; [tx|intros cfg]. intros s Hs. rewrite bind_db_read.
  set (s0 := MkSt _ _ _ _ _ _). assert (Hs0 : db_inv EP s0) by exact Hs.
  assert (Hi0 : inside o (st_working s0) s0) by (split; [by apply db_inv_committed|done]).
  rewrite bind_lift. destruct (t_session (st_working s) !! id) as [row|] eqn:Hr; cbn;
    [|split; [by apply db_inv_committed|done]].
  assert (Hid : ps_id row = id) by (destruct Hs as [[_ [[Hk _] _]] _]; by apply (Hk id row)).
  apply (post_look _ _ _ s0 (st_working s0)); [keeps|keeps|done|]. intros _ s1 _ _ _ Hi1.
  apply (post_look _ _ _ s1 (st_working s0)); [keeps|keeps|done|].
  intros _ s2 s1' [Hop%String.eqb_eq _]%guard_ok _ Hi2.
  apply (post_look _ _ _ s2 (st_working s0)); [unfold request_id_or_fresh, new_uuid; keeps..|done|].
  intros r s3 _ _ _ Hi3.
  apply (post_look _ _ _ s3 (st_working s0)); [keeps|keeps|done|].
  intros _ s4 s3' [Hw _]%guard_ok _ Hi4. unfold refill_wholesale_session.
  do 4 (match goal with |- post _ (bind _ _ ?s) =>
    apply (post_look _ _ _ s (st_working s0)); [keeps|keeps|done|]; intros ? ? _ _ _ ? end).
  match goal with H : inside o _ ?s |- post _ (bind db_read _ ?s) => destruct H as [Hc5 Hw5] end.
  rewrite bind_db_read, Hw5. apply (tx_post_bind EP no_exn (fun _ => db_inv EP)); cycle 1.
  { intros [row' grant] sf Hsf. apply tx_keeps; [keeps|exact Hsf]. }
  destruct (find_grant (ps_id row) _ _) as [g|] eqn:Hg.
  - apply tx_keeps; [keeps|]. apply db_inv_intro; [done|]. apply Hs0.
  - apply post_revise; try done.
    + apply db_inv_intro; [done|]. apply Hs0.
    + by rewrite Hid.
    + unfold is_closed. by rewrite Hop.
Qed.

End revision.

#[export] Hint Resolve tx_open_session tx_open_job tx_refill_session : loc.
