(* ===== verification/JobTx.v ===== *)
(** * Engagements: settling and reconciling

    The writes that end an engagement beside a close: a job's settlement, its
    conservative charge and its proof of non-admission, then the reconciliation
    passes of both services as transactions. *)

From S2P Require Import Prelude PyData DecimalCtx Errors Effects Store Pricing Settings Billing.
From S2P Require Import BillingFacts SettlementVerification BrokerSettlement PaymentDaemon.
From S2P Require Import Registry Wholesale Payments SessionCore SessionSettle.
From S2P Require Import SessionPrepare SessionFlows Jobs JobReconcile SessionFacts EngagementSpec.
From S2P Require Import EngagementKeeps SessionTx SessionClaims.

Open Scope string_scope.
Open Scope Z_scope.
Open Scope loc_scope.

(** What the job janitor swallows. *)
Definition settle_skips (e : exn) : bool := is_some (settle_refused e) || settle_ignored e.

#[export] Instance strict_settle : Strict settle_skips.
Proof. by split. Qed.
#[export] Hint Resolve strict_settle : loc.

Section ending.
Context {W : Type} {R : Runtime} (o : DB) (E : exn -> bool) `{!Strict E}.
Implicit Types (s : St DB W) (id : uuid).
Local Abbreviation EP := (sound o).
Local Abbreviation post := (tx_post (W := W) EP E).

(** Nothing but a commit changes what is committed, so a read-only step leaves
    the transaction where it was. *)
Lemma post_after {A B} (m : M DB W A) (f : A -> M DB W B) (Q : B -> St DB W -> Prop) s d :
  Keeps (committed_inv EP) m -> Keeps (working_is d) m -> inside o d s -> EP d ->
  (forall a s1, inside o d s1 -> post Q (f a s1)) -> post Q (bind m f s).
Proof.
  intros Hm Hd [Hc Hw] HP Hf. specialize (Hm s Hc). specialize (Hd s Hw). unfold bind.
  destruct (m s) as [[a|e] s1]; cbn in *; [by apply Hf|]. split; [done|]. intros _.
  apply db_inv_intro; [done|]. unfold working_is in Hd. by rewrite Hd.
Qed.

Lemma post_done {A} (a : A) s : db_inv EP s -> post (fun _ => db_inv EP) (ret a s).
Proof. done. Qed.

(** The end of a live engagement whose hold is wholly or partly billed. *)
Lemma sound_row_id d id r : EP d -> t_session d !! id = Some r -> ps_id r = id.
Proof. intros [[Hs _] _] Hr. by apply (Hs id r). Qed.

(** ** Settling a job *)

Section settlement.
Context {L : SettlementLib}.

Lemma post_settle_apply id u row q v billed refund hold s d :
  inside o d s -> live o d id row hold billed refund ->
  post (fun _ => db_inv EP) (settle_apply id u row q v billed refund s).
Proof.
  intros Hi Hl. unfold settle_apply.
  assert (Hid : ps_id row = id).
  { eapply sound_row_id; [apply (lv_ok _ _ _ _ _ _ _ Hl)|apply (lv_row _ _ _ _ _ _ _ Hl)]. }
  eapply post_transition; [done|exact Hi|]. intros r c s1 Hr Hst Hcl moved Hi1.
  assert (r = row) as -> by (pose proof (lv_row _ _ _ _ _ _ _ Hl); congruence).
  destruct Hi1 as [Hc1 Hw1]. rewrite Hid.
  eapply (post_release_unused o E u id refund _ _ s1 d (moved row) row hold billed); [done| |done|].
  { rewrite Hw1. apply moves_update. apply Hl. }
  intros es s2 Hc2 Hm2 Hsum. apply inside_intro in Hc2.
  eapply post_modify; [exact Hc2|]. intros s3 Hi3.
  eapply post_lift; [exact Hi3| |].
  { destruct (ps_authorization_id row); cbn; intros ? [=<-]. apply strict_assert. }
  intros auth Ha. eapply post_mark_settled; [done|exact Hi3|]. intros g now s4 Hi4.
  eapply post_modify; [exact Hi4|]. intros s5 Hi5.
  eapply post_flush; [exact Hi5|]. intros s6 Hi6.
  eapply post_record; [exact Hi6|]. intros ev l s7 Hi7. apply post_done.
  set (r' := settle_breakdown q (settle_columns q billed (vj_outcome v) (moved row))).
  apply (live_done o d id row hold billed refund r' es _ s7 Hl) in Hi7; [done| |done|done|done|done].
  eapply moves_ext; cycle 3.
  { apply moves_then_update, moves_then_grant; [intros; apply retire_key|].
    apply moves_then_update. exact Hm2. }
  all: done.
Qed.

Lemma job_bill_live d id row v billed refund :
  EP d -> t_session d !! id = Some row -> is_wholesale row = true -> is_closed row = false ->
  job_bill row v = Ok (billed, refund) -> exists hold, live o d id row hold billed refund.
Proof.
  intros Hd Hr Hw Hc Hb. unfold job_bill in Hb. res_inv. opt_inv. bool_props.
  eexists. by eapply bill_live.
Qed.

Lemma settle_checks_ok row q d v billed refund :
  settle_checks row q d = Ok (v, billed, refund) -> job_bill row v = Ok (billed, refund).
Proof. unfold settle_checks. intros H. res_inv. by simplify_eq. Qed.

Lemma tx_settle_job id u q settings : Tx (W := W) EP E (settle_job id u q settings).
Proof.
  intros s Hs. unfold settle_job. rewrite bind_db_read. set (s0 := MkSt _ _ _ _ _ _).
  assert (Hs0 : db_inv EP s0) by exact Hs.
  assert (Hi : inside o (st_working s) s0) by (split; [by apply db_inv_committed|done]).
  assert (Hd : EP (st_working s)) by apply Hs.
  rewrite bind_lift. destruct (t_session (st_working s) !! id) as [row|] eqn:Hr; cbn [of_option];
    [|split; [by apply db_inv_committed|done]].
  apply (post_after _ _ _ s0 (st_working s)); [keeps|keeps|exact Hi|done|].
  intros _ s1 Hi1.
  rewrite bind_guard. destruct (negb _) eqn:Hc;
    [apply negb_true_iff in Hc|split; [apply Hi1|intros _; by apply (inside_done o _ s1 Hi1)]].
  rewrite bind_guard. destruct (String.eqb (ps_accounting_mode row) "wholesale_account") eqn:Hw;
    [|split; [apply Hi1|intros _; by apply (inside_done o _ s1 Hi1)]].
  rewrite bind_lift. destruct (settle_checks row q (st_working s)) as [[[v b] rf]|e] eqn:Ec;
    [|split; [apply Hi1|intros _; by apply (inside_done o _ s1 Hi1)]].
  apply settle_checks_ok in Ec.
  destruct (job_bill_live (st_working s) id row v b rf) as [hold Hl]; [done..|].
  eapply tx_post_bind; [by eapply post_settle_apply|]. intros settled s2 Hs2. cbn in Hs2.
  apply tx_keeps; [keeps|done].
Qed.

End settlement.

(** ** Charging a job in full *)

(** Rows of the legacy accounting mode have no account. *)
Lemma sound_legacy d d' id r r' :
  EP d -> t_session d !! id = Some r -> is_wholesale r = false -> moves id r' [] d d' ->
  terms r' = terms r -> EP d'.
Proof.
  intros Hd Hr Hw Hm Ht. assert (Hw' : is_wholesale r' = false) by (unfold terms in Ht; congruence).
  apply (sound_moves o id r' [] d); [done..| |].
  - split; [unfold terms in Ht; rewrite <- (sound_row_id d id r Hd Hr); congruence|congruence].
  - unfold account_at. rewrite Hr. cbn. unfold account_of. rewrite Hw, Hw'. apply rtc_refl.
Qed.

Lemma full_charge_live d id r :
  EP d -> t_session d !! id = Some r -> is_wholesale r = true -> is_closed r = false ->
  live o d id r (ps_funded_value_wei r) (ps_funded_value_wei r) 0.
Proof.
  intros Hd Hr Hw Hc. pose proof Hd as [[Hs _] _]. destruct (Hs id r Hr) as [_ Hok].
  destruct (Hok Hw) as (hold & Hm & H0 & Hf & _). subst hold. split; try done; lia.
Qed.

Lemma tx_conservative id deadline evidence :
  Tx (W := W) EP E (finalize_conservative_full_charge id deadline evidence).
Proof.
  intros s Hs. unfold finalize_conservative_full_charge.
  destruct (deadline <=? 0); [by apply post_done|]. rewrite bind_db_read.
  set (s0 := MkSt _ _ _ _ _ _). set (d := st_working s).
  assert (Hi : inside o d s0) by (split; [by apply db_inv_committed|done]).
  assert (Hd : EP d) by apply Hs.
  destruct (t_session d !! id) as [row|] eqn:Hr; [|apply post_done; by apply (inside_done o d)].
  destruct (negb _) eqn:Ho; [apply post_done; by apply (inside_done o d)|]. bool_props.
  apply (post_after _ _ _ s0 d); [unfold clock_now; keeps..|exact Hi|done|].
  intros opened s1 Hi1.
  eapply post_clock; [exact Hi1|]. intros now s2 Hi2.
  apply (post_after _ _ _ s2 d); [keeps|keeps|exact Hi2|done|]. intros late s3 Hi3.
  destruct (negb late); [apply post_done; by apply (inside_done o d)|].
  eapply post_read; [exact Hi3|]. intros s4 Hi4.
  destruct (initial_payment id d) as [p|]; [|apply post_done; by apply (inside_done o d)].
  eapply post_clock; [exact Hi4|]. intros fin s5 Hi5. cbv zeta.
  eapply post_transition; [done|exact Hi5|]. intros r c s6 Hr' _ Hcl moved Hi6.
  assert (r = row) as -> by congruence.
  eapply post_modify; [exact Hi6|]. intros s7 Hi7. eapply post_flush; [exact Hi7|]. intros s8 Hi8.
  eapply post_record; [exact Hi8|]. intros ev l s9 Hi9. apply post_done.
  match type of Hi7 with inside _ (update_session _ (conservative_columns ?a) _) _ =>
    set (audit := a) in * end.
  assert (Hm : moves id (conservative_columns audit (moved row)) [] d
                 (on_settlement l (update_session id (conservative_columns audit)
                    (update_session id moved d)))).
  { eapply moves_ext; cycle 3; [apply moves_then_update, moves_update; exact Hr|done..]. }
  destruct (is_wholesale row) eqn:Hw.
  - assert (Hc : is_closed row = false).
    { unfold is_closed. apply String.eqb_eq in H0. by rewrite H0. }
    pose proof (full_charge_live d id row Hd Hr Hw Hc) as Hl.
    eapply live_done; [exact Hl|exact Hm| |done|done|done|exact Hi9].
    intros _. unfold sum_by, Zsum. cbn. lia.
  - eapply inside_done; [exact Hi9|]. by eapply sound_legacy.
Qed.

(** ** Releasing a job proved not admitted *)

Lemma post_release_not_admitted row grant hold digest audit s d r :
  inside o d s -> live o d (ps_id row) r hold 0 hold ->
  post (fun _ => db_inv EP) (release_not_admitted row grant hold digest audit s).
Proof.
  intros Hi Hl. unfold release_not_admitted.
  eapply post_transition; [done|exact Hi|]. intros r0 c s1 Hr Hst Hcl moved [Hc1 Hw1].
  assert (r0 = r) as -> by (pose proof (lv_row _ _ _ _ _ _ _ Hl); congruence).
  apply post_release; [done|done| |].
  { rewrite Hw1. change (find_engagement_entry (ps_id row) "engagement_release" d = None).
    by eapply live_unreleased. }
  intros b s2 Hc2 Ha. apply inside_intro in Hc2.
  assert (Hm1 : moves (ps_id row) (moved r) [] d (st_working s1)).
  { rewrite Hw1. apply moves_update. apply Hl. }
  pose proof (moves_appended _ _ [] _ _ _ Hm1 Ha ltac:(repeat constructor; apply own_entry)) as Hm2.
  set (es := ([] ++ _)%list) in Hm2.
  eapply post_modify; [exact Hc2|]. intros s3 Hi3.
  set (d3 := update_session (ps_id row) not_admitted_columns (st_working s2)) in *.
  assert (Hrest : forall now s4, inside o d3 s4 -> post (fun _ => db_inv EP)
    ((db_modify (update_grant (sg_session_id grant) (sg_authorization_id grant)
        (retire "expired_unused" now)) ;;;
      record_settlement (ps_id row) "close" (Some 0) (Some 0) (Some "NOT_ADMITTED")
        (Some (("evidence_digest", JStr digest) :: audit)) ;;; db_flush) s4)).
  { intros now s4 Hi4. eapply post_modify; [exact Hi4|]. intros s5 Hi5.
    eapply post_record; [exact Hi5|]. intros ev l s6 Hi6. apply tx_keeps; [apply _|].
    assert (Hm : moves (ps_id row) (not_admitted_columns (moved r)) es d (st_working s6)).
    { apply (moves_ext (ps_id row) (not_admitted_columns (moved r)) es d
               (update_grant (sg_session_id grant) (sg_authorization_id grant)
                  (retire "expired_unused" now) d3)); cycle 3.
      { apply (moves_then_grant _ _ _ _ _ (sg_session_id grant) (sg_authorization_id grant)
                 (retire "expired_unused" now)); [intros; apply retire_key|].
        apply moves_then_update. exact Hm2. }
      all: by rewrite (proj2 Hi6). }
    apply (live_done o d (ps_id row) r hold 0 hold _ _ _ s6 Hl Hm); [|done..|].
    - intros _. unfold es, sum_by, Zsum. cbn. lia.
    - apply inside_intro. apply Hi6. }
  destruct (sg_retired_at grant); [rewrite bind_ret; by apply Hrest|].
  eapply post_clock; [exact Hi3|]. intros now s4 Hi4. by apply Hrest.
Qed.

Section proofs.
Context {L : SettlementLib}.

Lemma non_admission_wholesale row x envelope rid d g v :
  check_non_admission row x envelope rid d = Ok (g, v) -> is_wholesale row = true.
Proof.
  unfold check_non_admission, non_admission_grant, unused_job_grant. intros H. res_inv. by bool_props.
Qed.

Lemma tx_accept row grant v envelope audit s :
  db_inv EP s -> t_session (st_working s) !! ps_id row = Some row -> is_wholesale row = true ->
  is_closed row = false ->
  post (fun _ => db_inv EP) (accept_non_admission row grant v envelope audit s).
Proof.
  intros Hs Hr Hw Hc. set (d := st_working s) in *. assert (Hd : EP d) by apply Hs.
  assert (Hi : inside o d s) by (split; [by apply db_inv_committed|done]).
  unfold accept_non_admission.
  apply (post_after _ _ _ s d); [keeps|keeps|exact Hi|done|]. intros canonical s1 Hi1. cbv zeta.
  set (digest := bytes_hex _). set (audit' := with_verification _ _). unfold retain_audit.
  rewrite bind_assoc. eapply post_modify; [exact Hi1|]. intros s2 Hi2.
  set (d2 := update_session _ _ d) in *.
  assert (Hd2 : EP d2) by (apply sound_touch; done).
  rewrite bind_assoc. eapply post_read; [exact Hi2|]. intros s3 Hi3. rewrite bind_assoc.
  assert (Hrest : forall l s4, inside o (on_settlement l d2) s4 ->
    post (fun _ => db_inv EP) ((db_flush ;;;
      (now <- clock_now ;;
       if (dt_us now <? dt_us (normalized_utc (sg_expires_at grant)))
          || (dt_us (vn_observed_at v) <? dt_us (normalized_utc (sg_expires_at grant)))
       then ret false
       else match ps_customer_max_debit_wei row with
            | None => ret false
            | Some hold => release_not_admitted row grant hold digest audit' ;;; ret true
            end)) s4)).
  { intros l s4 Hi4. set (d4 := on_settlement l d2) in *.
    assert (Hd4 : EP d4) by (by apply (sound_ext o d2)).
    eapply post_flush; [exact Hi4|]. intros s5 Hi5. eapply post_clock; [exact Hi5|].
    intros now s6 Hi6. destruct (_ || _); [apply post_done; by apply (inside_done o d4)|].
    destruct (ps_customer_max_debit_wei row) as [hold|] eqn:Hh;
      [|apply post_done; by apply (inside_done o d4)].
    set (r := merge_breakdown (broker_exchange audit') row).
    assert (Hr4 : t_session d4 !! ps_id row = Some r).
    { unfold d4, d2. cbn. by rewrite lookup_alter_eq, Hr. }
    assert (Hl : live o d4 (ps_id row) r hold 0 hold).
    { pose proof Hd4 as [[Hk _] _]. destruct (Hk _ _ Hr4) as [_ Hok].
      destruct (Hok Hw) as (h & Hm & H0 & _). split; try done; [|intros _; lia].
      assert (h = hold) as -> by (cbn in Hm; congruence). lia. }
    eapply tx_post_bind; [by eapply post_release_not_admitted|]. intros [] s7 H7. exact H7. }
  destruct (existsb _ _); [rewrite bind_ret; by apply (Hrest (fun l => l))|].
  rewrite bind_assoc. eapply post_record; [exact Hi3|]. intros ev l s4 Hi4. rewrite bind_ret.
  by eapply Hrest.
Qed.

Lemma tx_retain_non_admission id x : Tx (W := W) EP E (retain_verified_non_admission id x).
Proof.
  intros s Hs. unfold retain_verified_non_admission. rewrite bind_db_read.
  set (s0 := MkSt _ _ _ _ _ _). assert (Hs0 : db_inv EP s0) by exact Hs.
  destruct (t_session (st_working s) !! id) as [row|] eqn:Hr; [|by apply post_done].
  destruct (negb _) eqn:Ho; [by apply post_done|]. bool_props. apply String.eqb_eq in Ho.
  destruct (xb_non_admission x) as [envelope|]; [|by apply post_done].
  destruct (ps_broker_request_id row) as [rid|]; [|by apply post_done]. cbv zeta.
  destruct (check_non_admission row x envelope rid (st_working s)) as [[g v]|e] eqn:Ec.
  - apply tx_accept; [done|..].
    + cbn. rewrite (sound_row_id (st_working s) id row); [done|apply Hs|done].
    + by eapply non_admission_wholesale.
    + unfold is_closed. by rewrite Ho.
  - apply tx_keeps; [keeps|done].
Qed.

End proofs.

End ending.

#[export] Hint Resolve tx_settle_job tx_conservative tx_retain_non_admission : loc.

(** ** The passes *)

Section passes.
Context {W : Type} {R : Runtime} {L : SettlementLib} (o : DB).
Context {B : BrokerAccountClient W} {S : BrokerSettlementClient W}.
Local Abbreviation EP := (sound o).

Lemma tx_settle_recovered row x settings :
  Tx (W := W) EP no_exn (settle_recovered row x settings).
Proof.
  unfold settle_recovered. tx. apply (tx_try EP no_exn settle_skips); [tx| |done].
  intros e k Hh. unfold settle_skips. destruct (settle_refused e) as [reason|]; cbn.
  - injection Hh as <-. split; [done|]. tx.
  - destruct (settle_ignored e); [|done]. injection Hh as <-. split; [done|]. tx.
Qed.

#[local] Hint Resolve tx_settle_recovered : loc.

Lemma tx_process row url rid settings answer :
  Tx (W := W) EP no_exn (process_exchange row url rid settings answer).
Proof. unfold process_exchange, charge_overdue. tx. Qed.

#[local] Hint Resolve tx_process : loc.

Lemma tx_reconcile_jobs settings interval limit :
  Tx (W := W) EP no_exn (reconcile_open_jobs settings interval limit).
Proof.
  unfold reconcile_open_jobs, reconcile_job, charge_overdue, clock_now. tx.
  apply tx_keeps. keeps; handler.
Qed.

Lemma tx_finalize_session row settlement :
  Tx (W := W) EP no_exn (finalize_session row settlement).
Proof.
  unfold finalize_session, or_skip. tx.
  - apply tx_keeps. unfold verify_close_settlement. keeps; handler.
  - apply (tx_try EP no_exn close_skips); [|intros e k|done].
    + apply tx_bind; [apply tx_close_session; apply _|intros ?; tx].
    + destruct (close_skips e); [|done]. intros [= <-]. split; [done|]. tx.
Qed.

#[local] Hint Resolve tx_finalize_session : loc.

Lemma tx_reconcile_sessions interval limit :
  Tx (W := W) EP no_exn (reconcile_open_sessions interval limit).
Proof.
  unfold reconcile_open_sessions, reconcile_session, clock_now, or_skip. tx.
  apply tx_keeps. keeps; handler.
Qed.

End passes.

#[export] Hint Resolve tx_reconcile_jobs tx_reconcile_sessions : loc.
