(* ===== verification/IdentitySpec.v ===== *)
(** * Identity: what never comes back, and who leaves it alone

    Billing, payments, wholesale funding, sessions, jobs and their scheduled
    tasks write no identity row: whatever is known of the identity tables
    survives them, whoever commits meanwhile keeps it too ([frame] follows a
    service into everything it calls).  Then how the identity tables may evolve:
    no row but an SDK approval is ever deleted, what identifies a row never
    changes, and what was verified, consumed or revoked stays so.  Unique columns
    stay unique. *)

From S2P Require Import Prelude PyData DecimalCtx Errors Effects Store Pricing Settings Billing.
From S2P Require Import SettlementVerification BrokerSettlement PaymentDaemon Registry.
From S2P Require Import Wholesale Payments SessionCore SessionSettle.
From S2P Require Import SessionPrepare SessionFlows Jobs JobReconcile Endpoints AdminResolve.
From S2P Require Import Credentials Accounts Access Operators Scheduler EngagementKeeps.

Open Scope string_scope.
Open Scope Z_scope.
Open Scope loc_scope.

(** ** Among transactions of a kind *)

(** Transactions of the kind [C] keep [P]. *)
Class Behaved {DB} (P : DB -> Prop) (C : (DB -> DB) -> Prop) : Prop :=
  behaved : forall f, C f -> forall d, P d -> P (f d).

(** [P] holds in the session and in the committed database, and whoever commits
    meanwhile is of the kind [C]. *)
Definition among {DB W} (P : DB -> Prop) (C : (DB -> DB) -> Prop) (s : St DB W) : Prop :=
  both P s /\ forall f, Some f ∈ st_races s -> C f.

Section among.
Context {DB W : Type} (P : DB -> Prop) (C : (DB -> DB) -> Prop) `{!Behaved P C}.
Local Abbreviation I := (among (W := W) P C).

#[export] Instance among_read : Keeps I db_read.
Proof. by intros s. Qed.
#[export] Instance among_flush : Keeps I db_flush.
Proof. by intros s. Qed.
#[export] Instance among_tick {A} (f : nat -> A) : Keeps I (tick f).
Proof. by intros s. Qed.
#[export] Instance among_rollback : Keeps I db_rollback.
Proof. intros s [[Hc Hw] Hr]. split; [by split|exact Hr]. Qed.

#[export] Instance among_race : Keeps I db_race.
Proof.
  intros s [[Hc Hw] Hr]. unfold db_race, among in *.
  destruct (st_races s) as [|[f|] r] eqn:E; cbn.
  - split; [by split|]. by rewrite E.
  - split; [split; [apply (behaved f); [apply Hr; set_solver|exact Hc]|exact Hw]|].
    intros g Hg. apply Hr. set_solver.
  - split; [by split|]. intros g Hg. apply Hr. set_solver.
Qed.

#[export] Instance among_interleave : Keeps I db_interleave.
Proof.
  intros s [[Hc Hw] Hr]. unfold db_interleave, among in *.
  destruct (st_races s) as [|[f|] r] eqn:E; cbn.
  - split; [by split|]. by rewrite E.
  - assert (Hf : C f) by (apply Hr; set_solver).
    split; [split; by apply (behaved f)|]. intros g Hg. apply Hr. set_solver.
  - split; [by split|]. intros g Hg. apply Hr. set_solver.
Qed.

#[export] Instance among_commit : Keeps I db_commit.
Proof.
  apply keeps_bind; [apply _|]. intros [] s [[Hc Hw] Hr]. split; [by split|exact Hr].
Qed.

#[export] Instance among_remote {A} (call : W -> res A * W) : Keeps I (remote (DB := DB) call).
Proof. intros s Hs. unfold remote. by destruct (call (st_world s)) as [r w]. Qed.

Lemma among_modify (g : DB -> DB) : (forall d, P d -> P (g d)) -> Keeps I (db_modify g).
Proof. intros Hg s [[Hc Hw] Hr]. split; [split; [exact Hc|by apply Hg]|exact Hr]. Qed.

Lemma among_independent (g : DB -> DB) : (forall d, P d -> P (g d)) -> Keeps I (db_independent g).
Proof.
  intros Hg. apply keeps_bind; [apply _|]. intros [] s [[Hc Hw] Hr].
  split; [split; by apply Hg|exact Hr].
Qed.

Lemma among_scope {A} (m : M DB W A) : Keeps I m -> Keeps I (session_scope m).
Proof.
  intros Hm. unfold session_scope. apply keeps_try; [|intros e k [= <-]; keeps].
  apply keeps_bind; [exact Hm|intros a]. keeps.
Qed.

End among.

(** A predicate of the identity tables. *)
Abbreviation identity_inv P C := (among (fun d => P (t_identity d)) C).

(** A write to another table. *)
Lemma among_elsewhere {W X} (table : DB -> X) (P : X -> Prop) C g :
  (forall d, table (g d) = table d) ->
  Keeps (W := W) (among (fun d => P (table d)) C) (db_modify g).
Proof. intros Hg. apply among_modify. intros d. by rewrite Hg. Qed.

(** ... through a session of its own. *)
Lemma among_elsewhere_independent {W X} (table : DB -> X) (P : X -> Prop) C g
    `{!Behaved (fun d => P (table d)) C} :
  (forall d, table (g d) = table d) ->
  Keeps (W := W) (among (fun d => P (table d)) C) (db_independent g).
Proof. intros Hg. apply among_independent; [apply _|]. intros d. by rewrite Hg. Qed.

Ltac head_of t := lazymatch t with ?f _ => head_of f | _ => t end.

Ltac frame_step :=
  lazymatch goal with
  | |- Keeps _ (db_modify _) => 
      first [ apply (among_elsewhere t_identity); intros; reflexivity
            | apply (among_elsewhere t_idem); intros; reflexivity ]
  | |- Keeps _ (db_independent _) =>
      first [ apply (among_elsewhere_independent t_identity); [apply _|]; intros; reflexivity
            | apply (among_elsewhere_independent t_idem); [apply _|]; intros; reflexivity ]
  | |- Keeps _ (session_scope _) => apply among_scope
  | H : match ?x with _ => _ end = Some _ |- Keeps _ _ => destruct x; try discriminate H
  | H : Some _ = Some _ |- Keeps _ _ => injection H as H; subst
  | |- Keeps _ (bind _ _) => keeps_step
  | |- Keeps _ (try_except _ _) => keeps_step
  | |- Keeps _ (mfold _ _ _) => keeps_step
  | |- Keeps _ (match _ with _ => _ end) => keeps_step
  | |- Keeps _ (let _ := _ in _) => keeps_step
  | |- Keeps _ ?m => let f := head_of m in unfold f
  end.
Ltac frame := repeat first [ solve [apply _] | solve [auto with frame nocore] | frame_step ].

Create HintDb frame.

Section frame.
Context {W : Type} {R : Runtime} {L : SettlementLib} (P : Identity -> Prop).
Context (C0 : (DB -> DB) -> Prop) `{!Behaved (fun d => P (t_identity d)) C0}.
Context {B : BrokerAccountClient W} {S : BrokerSettlementClient W} {D : PaymentDaemonClient W}.
Context {C : RegistryClient W}.
Local Abbreviation keeps_identity m := (Keeps (W := W) (identity_inv P C0) m).

Lemma frame_delta u n reason a b c d : keeps_identity (apply_delta u n reason a b c d).
Proof. frame. Qed.

#[local] Hint Resolve frame_delta : frame.

Lemma frame_topup u n kind operator : keeps_identity (topup u n kind operator).
Proof. frame. Qed.

Lemma frame_credit u n operator : keeps_identity (grant_initial_credit u n operator).
Proof. frame. Qed.

Lemma frame_balance u : keeps_identity (get_balance u).
Proof. frame. Qed.

Lemma frame_config u operator a b c d : keeps_identity (upsert_billing_config u operator a b c d).
Proof. frame. Qed.

Lemma frame_get_config u : keeps_identity (get_billing_config u).
Proof. frame. Qed.

Lemma frame_resolve_config u settings : keeps_identity (resolve_billing_config u settings).
Proof. frame. Qed.

Lemma frame_spend u n a b : keeps_identity (enforce_and_record_spend u n a b).
Proof. frame. Qed.

#[local] Hint Resolve frame_topup frame_resolve_config frame_spend : frame.

Lemma frame_auto_replenish settings : keeps_identity (run_auto_replenish settings).
Proof. frame. Qed.

Lemma frame_replenish route payer mint settings required :
  keeps_identity (replenish_wholesale_account route payer mint settings required).
Proof. frame. Qed.

Lemma frame_fund_job route payer rid id debit settings :
  keeps_identity (fund_job_admission route payer rid id debit settings).
Proof. frame. Qed.

#[local] Hint Resolve frame_replenish frame_fund_job : frame.

Lemma frame_close id u n o r : keeps_identity (close_session id u n o r).
Proof. frame. Qed.

Lemma frame_settle id u q settings : keeps_identity (settle_job id u q settings).
Proof. frame. Qed.

Lemma frame_claim u k route rid a b c sdk p cap g :
  keeps_identity (claim_wholesale_engagement u k route rid a b c sdk p cap g).
Proof. frame. Qed.

Lemma frame_operator_resolved id auth :
  keeps_identity (mark_spend_authorization_operator_resolved id auth).
Proof. frame. Qed.

#[local] Hint Resolve frame_close frame_settle frame_claim : frame.

Lemma frame_prepare u k c f x b settings : keeps_identity (prepare_session u k c f x b settings).
Proof. frame. Qed.

Lemma frame_open_session q mint settings : keeps_identity (open_session q mint settings).
Proof. frame. Qed.

Lemma frame_refill id u rid n digest mint settings :
  keeps_identity (refill_session id u rid n digest mint settings).
Proof. frame. Qed.

Lemma frame_status id u settings : keeps_identity (get_session_status id u settings).
Proof. frame. Qed.

Lemma frame_open_job q mint settings : keeps_identity (open_job q mint settings).
Proof. frame. Qed.

Lemma frame_job_status id u : keeps_identity (get_job_status id u).
Proof. frame. Qed.

Lemma frame_claim_request k api fp t : keeps_identity (claim_create_request k api fp t).
Proof. frame. Qed.

#[local] Hint Resolve frame_claim_request frame_auto_replenish : frame.

Lemma frame_create_endpoint {A} `{Model A} k api fp success settings (run : string -> M DB W A) :
  (forall rid, keeps_identity (run rid)) ->
  keeps_identity (create_endpoint k api fp success settings run).
Proof. intros Hr. frame. Qed.

(** ** The scheduled tasks *)

Lemma frame_expire_task : keeps_identity expire_idempotency_task.
Proof. frame. Qed.

Lemma frame_snapshot_task : keeps_identity snapshot_deposit_task.
Proof. frame. Qed.

Lemma frame_auto_task settings : keeps_identity (auto_replenish_task settings).
Proof. frame. Qed.

Lemma frame_accounts_task settings : keeps_identity (replenish_accounts_task settings).
Proof. frame. Qed.

Lemma frame_sessions_task settings : keeps_identity (reconcile_sessions_task settings).
Proof. frame. Qed.

Lemma frame_jobs_task settings : keeps_identity (reconcile_jobs_task settings).
Proof. frame. Qed.

End frame.

#[export] Hint Resolve frame_topup frame_credit frame_balance frame_config frame_get_config
  frame_resolve_config frame_close frame_settle frame_operator_resolved frame_prepare
  frame_open_session frame_refill frame_status frame_open_job frame_job_status frame_claim_request
  frame_create_endpoint frame_expire_task frame_snapshot_task frame_auto_task frame_accounts_task
  frame_sessions_task frame_jobs_task : frame.

(** ** Tables that grow *)

(** The rows stay in place, each evolving along [R]; new ones are appended. *)
Definition grows {A} (R : A -> A -> Prop) (l l' : list A) : Prop :=
  exists k m, l' = (k ++ m)%list /\ Forall2 R l k.

Section grows.
Context {A : Type} (R : A -> A -> Prop) `{!PreOrder R}.

Lemma pointwise_refl l : Forall2 R l l.
Proof. induction l; constructor; [reflexivity|done]. Qed.

#[export] Instance grows_preorder : PreOrder (grows R).
Proof.
  split.
  - intros l. exists l, []. split; [by rewrite app_nil_r|]. apply pointwise_refl.
  - intros l1 l2 l3 (k & m & -> & H1) (k' & m' & -> & H2).
    apply Forall2_app_inv_l in H2 as (k1 & k2 & Hk & Hm & ->).
    exists k1, (k2 ++ m')%list. split; [by rewrite <- app_assoc|]. by etrans.
Qed.

Lemma grows_app l m : grows R l (l ++ m).
Proof. exists l, m. split; [done|]. apply pointwise_refl. Qed.

Lemma grows_pointwise l l' : Forall2 R l l' -> grows R l l'.
Proof. intros H. exists l', []. by rewrite app_nil_r. Qed.

Lemma grows_update_first p f l :
  (forall x, p x = true -> R x (f x)) -> grows R l (update_first p f l).
Proof.
  intros Hf. apply grows_pointwise. induction l as [|x l IH]; cbn; [constructor|].
  destruct (p x) eqn:Ep; constructor; auto; [apply pointwise_refl|reflexivity].
Qed.

Lemma grows_map f l : (forall x, R x (f x)) -> grows R l (map f l).
Proof.
  intros Hf. apply grows_pointwise. induction l; cbn; constructor; auto.
Qed.

Lemma grows_in l l' x : grows R l l' -> x ∈ l -> exists x', x' ∈ l' /\ R x x'.
Proof.
  intros (k & m & -> & H) Hx. apply list_elem_of_lookup in Hx as [i Hi].
  destruct (Forall2_lookup_l _ _ _ _ _ H Hi) as (x' & Hx' & HR). exists x'. split; [|done].
  apply elem_of_app. left. by eapply list_elem_of_lookup_2.
Qed.

(** The first row with a property that evolution fixes stays first. *)
Lemma grows_find (p : A -> bool) l l' x :
  (forall y y', R y y' -> p y' = p y) -> grows R l l' -> find p l = Some x ->
  exists x', find p l' = Some x' /\ R x x'.
Proof.
  intros Hp (k & m & -> & H). induction H as [|y y' l k Hy H IH]; cbn; [done|].
  rewrite (Hp _ _ Hy). destruct (p y); [|done]. intros [= <-]. by exists y'.
Qed.

End grows.

(** ** Rows *)

(** Once there, it stays. *)
Definition stays {A} (a b : option A) : Prop := is_some a = true -> is_some b = true.

#[export] Instance stays_preorder {A} : PreOrder (@stays A).
Proof. split; [by intros ? ?|intros x y z H1 H2 H; by apply H2, H1]. Qed.

Definition user_le (u v : User) : Prop :=
  (us_id u, us_email u) = (us_id v, us_email v)
  /\ stays (us_email_verified_at u) (us_email_verified_at v).
Definition token_le (t u : UserToken) : Prop :=
  (ut_user_id t, ut_token_hash t, ut_expires_at t) = (ut_user_id u, ut_token_hash u, ut_expires_at u)
  /\ stays (ut_consumed_at t) (ut_consumed_at u).
Definition web_le (w x : UserSession) : Prop :=
  (uw_user_id w, uw_token_hash w, uw_expires_at w) = (uw_user_id x, uw_token_hash x, uw_expires_at x)
  /\ stays (uw_revoked_at w) (uw_revoked_at x).
Definition key_le (k l : ApiKey) : Prop :=
  (ak_id k, ak_user_id k, ak_prefix k, ak_hash k, ak_label k)
    = (ak_id l, ak_user_id l, ak_prefix l, ak_hash l, ak_label l)
  /\ stays (ak_revoked_at k) (ak_revoked_at l).
Definition operator_le (o p : Operator) : Prop :=
  (opr_id o, opr_email o) = (opr_id p, opr_email p)
  /\ stays (opr_revoked_at o) (opr_revoked_at p).
Definition send_le (e f : EmailSend) : Prop :=
  (es_id e, es_user_id e, es_to_address e, es_subject e, es_provider_message_id e, es_sent_at e)
    = (es_id f, es_user_id f, es_to_address f, es_subject f, es_provider_message_id f, es_sent_at f).

Ltac row_order :=
  split; [intros ?; split; reflexivity|intros ??? [H1 H2] [H3 H4]; split; [congruence|by etrans]].

#[export] Instance user_preorder : PreOrder user_le.
Proof. row_order. Qed.
#[export] Instance token_preorder : PreOrder token_le.
Proof. row_order. Qed.
#[export] Instance web_preorder : PreOrder web_le.
Proof. row_order. Qed.
#[export] Instance key_preorder : PreOrder key_le.
Proof. row_order. Qed.
#[export] Instance operator_preorder : PreOrder operator_le.
Proof. row_order. Qed.
#[export] Instance send_preorder : PreOrder send_le.
Proof. unfold send_le. split; [by intros ?|intros ??? H1 H2; by rewrite H1]. Qed.

(** ** The tables together *)

Record identity_le (i j : Identity) : Prop := {
  il_user : grows user_le (i_user i) (i_user j);
  il_verification : grows token_le (i_verification i) (i_verification j);
  il_reset : grows token_le (i_reset i) (i_reset j);
  il_web : grows web_le (i_web_session i) (i_web_session j);
  il_approval : grows eq (i_approval i) (i_approval j);
  il_key : grows key_le (i_api_key i) (i_api_key j);
  il_operator : grows operator_le (i_operator i) (i_operator j);
  il_audit : grows eq (i_audit i) (i_audit j);
  il_oauth : grows eq (i_oauth i) (i_oauth j);
  il_send : grows send_le (i_email_send i) (i_email_send j);
  il_event : grows eq (i_email_event i) (i_email_event j);
}.

#[export] Instance identity_preorder : PreOrder identity_le.
Proof. split; [intros i; split; reflexivity|intros ??? [] []; split; by etrans]. Qed.

(** Unique columns. *)
Record unique_columns (i : Identity) : Prop := {
  uc_prefix : NoDup (map ak_prefix (i_api_key i));
  uc_operator_email : NoDup (map opr_email (i_operator i));
}.

(** From the tables [o] on. *)
Definition evolved (o i : Identity) : Prop := identity_le o i /\ unique_columns i.

(** ** Unique columns under the writes *)

Lemma nodup_snoc {A B} (g : A -> B) (l : list A) x :
  NoDup (map g l) -> (forall y, y ∈ l -> g y <> g x) -> NoDup (map g (l ++ [x])).
Proof.
  intros Hl Hx. rewrite map_app. apply NoDup_app. split; [done|]. split; [|apply NoDup_singleton].
  intros b Hb Hb'. apply list_elem_of_singleton in Hb' as ->.
  apply list_elem_of_fmap in Hb as (y & Heq & Hy). by eapply Hx.
Qed.

Lemma existsb_none {A} (p : A -> bool) (l : list A) x : existsb p l = false -> x ∈ l -> p x = false.
Proof.
  intros Hp Hx. destruct (p x) eqn:E; [|done]. assert (existsb p l = true); [|congruence].
  apply existsb_exists. exists x. split; [by apply list_elem_of_In|done].
Qed.
