(* ===== verification/ServiceTx.v ===== *)
(** * Engagements: the entry points as transactions

    What every endpoint does to the books, by the specification of
    [EngagementSpec].  [resolve_stuck_work] ends an engagement as a settlement
    does.  Claiming, replaying and storing a response only touch the idempotency
    table, so an endpoint is as sound as its service; an error of the service is
    stored after a rollback.  The portal, the console, notifications, telemetry,
    discovery and the reports write no account, an operator's resolution (and the
    empty balance row the dashboard opens) apart. *)

From S2P Require Import Prelude PyData DecimalCtx Errors Effects Store Pricing Settings Billing.
From S2P Require Import BillingFacts SettlementVerification BrokerSettlement PaymentDaemon.
From S2P Require Import Registry Wholesale Payments Webhooks RateLimiter Telemetry.
From S2P Require Import SessionCore SessionSettle SessionPrepare SessionFlows Jobs JobReconcile.
From S2P Require Import Endpoints AdminResolve Mail Credentials Accounts Access Usage Signing.
From S2P Require Import Catalog Operators AdminReports Portal Notifications ServerEvents.
From S2P Require Import TelemetryEndpoints SessionFacts EngagementSpec EngagementKeeps.
From S2P Require Import SessionTx SessionClaims JobTx IdentitySpec.

Open Scope string_scope.
Open Scope Z_scope.
Open Scope loc_scope.

Section resolving.
Context {W : Type} {R : Runtime} (o : DB) (E : exn -> bool) `{!Strict E}.
Implicit Types (s : St DB W) (id : uuid).
Local Abbreviation EP := (sound o).
Local Abbreviation post := (tx_post (W := W) EP E).

(** Every action bills within the hold. *)
Lemma resolution_live d id row action billed units funded :
  EP d -> t_session d !! id = Some row -> is_wholesale row = true -> is_closed row = false ->
  wholesale_resolution_amounts row action = Ok (billed, units) ->
  ps_customer_max_debit_wei row = Some funded ->
  live o d id row funded billed (dsub funded billed).
Proof.
  intros Hd Hr Hw Hc Ha Hf. pose proof Hd as [[Hs _] _]. destruct (Hs id row Hr) as [_ Hok].
  destruct (Hok Hw) as (hold & Hm & H0 & _). rewrite Hf in Hm. injection Hm as <-.
  assert (Hany : 0 <= billed <= funded -> live o d id row funded billed (dsub funded billed)).
  { intros Hb. split; try done. intros Hp. apply dsub_exact. eapply in_prec_le; [|exact Hp]. lia. }
  unfold wholesale_resolution_amounts in Ha. rewrite Hf in Ha. cbn [of_option res_bind] in Ha.
  res_inv. destruct (String.eqb action "refund_hold"); [simplify_eq; apply Hany; lia|].
  destruct (String.eqb action "charge_full"); [simplify_eq; apply Hany; lia|].
  res_inv. opt_inv. simplify_eq. bool_props.
  match goal with H : reported_charge _ _ _ = _ |- _ => unfold reported_charge in H end.
  res_inv. opt_inv. by eapply bill_live.
Qed.

(** A handler that only renames errors is as good as none. *)
Lemma post_rename {A B} (m : M DB W A) h (f : A -> M DB W B) (Q : B -> St DB W -> Prop) s :
  (forall e k, h e = Some k -> exists e', k = raise e' /\ E e' = false) ->
  post Q (bind m f s) -> post Q (bind (try_except m h) f s).
Proof.
  intros Hh. unfold bind, try_except. destruct (m s) as [[a|e] s1]; [done|].
  destruct (h e) as [k|] eqn:Ek; [|done]. destruct (Hh e k Ek) as (e' & -> & He').
  intros [Hc _]. by apply post_err.
Qed.

Context (job_not_resolvable : forall r c, E (OC (JobNotResolvable r c)) = false).

Lemma tx_resolve_finish id row operator action note auth units funded billed refund now :
  Tx (W := W) EP E
    (resolve_finish id row operator action note auth units funded billed refund now).
Proof.
  intros s Hs. unfold resolve_finish. apply post_rename.
  { intros e k. destruct (verification_failure e); intros [= <-]. eexists. split; [done|].
    apply job_not_resolvable. }
  apply tx_bind; [tx|intros ?|exact Hs]. unfold add_audit. tx.
Qed.

Lemma tx_resolve_stuck_work id operator action note :
  Tx (W := W) EP E (resolve_stuck_work id operator action note).
Proof.
  intros s Hs. unfold resolve_stuck_work. rewrite bind_db_read. set (s0 := MkSt _ _ _ _ _ _).
  set (d := st_working s). assert (Hd : EP d) by apply Hs.
  assert (Hi : inside o d s0) by (split; [by apply db_inv_committed|done]).
  rewrite bind_lift. destruct (resolvable id action d) as [[[[[row billed] units] funded] auth]|e]
    eqn:Er; [|split; [apply Hi|intros _; by apply (inside_done o d)]].
  unfold resolvable in Er. res_inv. opt_inv. simplify_eq.
  assert (Hid : ps_id row = id) by (by eapply sound_row_id).
  assert (Hc : is_closed row = false).
  { unfold is_closed. match goal with Hst : str_elem (ps_state row) _ = true |- _ =>
      unfold str_elem in Hst; cbn in Hst end.
    destruct (String.eqb_spec (ps_state row) SESSION_STATE_CLOSED) as [Ex|]; [|done].
    rewrite Ex in *. discriminate. }
  assert (Hl : live o d id row funded billed (dsub funded billed)) by (by eapply resolution_live).
  cbv zeta. apply post_rename.
  { intros e k. destruct e; try discriminate. intros [= <-]. eexists. split; [done|].
    apply job_not_resolvable. }
  eapply post_transition; [done|exact Hi|]. intros r c s1 Hr _ Hcl moved Hi1.
  assert (r = row) as -> by congruence. destruct Hi1 as [Hc1 Hw1]. rewrite Hid.
  eapply (post_release_unused o E (ps_user_id row) id _ _ _ s1 d (moved row) row);
    [exact Hl| |done|].
  { rewrite Hw1. by apply moves_update. }
  intros es s2 Hc2 Hm2 Hsum. apply inside_intro in Hc2.
  eapply post_clock; [exact Hc2|]. intros now s3 Hi3. cbv beta.
  eapply post_modify; [exact Hi3|]. intros s4 Hi4. apply tx_resolve_finish.
  eapply (live_done o d id row funded billed _ _ es); [exact Hl| |exact Hsum| | | |exact Hi4].
  - apply moves_then_update. exact Hm2.
  - done.
  - done.
  - done.
Qed.
End resolving.

Section idempotency.
Context {W : Type} {R : Runtime} (o : DB).
Local Abbreviation EP := (sound o).
Local Abbreviation keeps_sound m := (Keeps (W := W) (db_inv EP) m).

Lemma sound_claim_request k api fp t : keeps_sound (claim_create_request k api fp t).
Proof.
  unfold claim_create_request, answer_from_winner, reclaim_update, clock_now, new_uuid. keeps; handler.
Qed.

Lemma sound_complete_request k status payload retention p :
  keeps_sound (complete_create_request k status payload retention p).
Proof. unfold complete_create_request, require_create_request, clock_now. keeps. Qed.

Lemma sound_store_failure k settings e : keeps_sound (store_failure k settings e).
Proof.
  unfold store_failure, fail_create_request, require_create_request, clock_now. keeps.
Qed.

Lemma sound_release_preparation u key claim :
  keeps_sound (release_failed_session_preparation u key claim).
Proof. unfold release_failed_session_preparation, release_session_preparation_claim. keeps. Qed.

(** An [except] clause that rolls back first needs nothing of the body. *)
Lemma tx_rescue {A} (m : M DB W A) h :
  Tx EP no_exn m ->
  (forall e k, h e = Some k -> exists k', k = (db_rollback ;;; k') /\ Tx EP no_exn k') ->
  Tx EP no_exn (try_except m h).
Proof.
  intros Hm Hh s Hs. specialize (Hm s Hs). unfold try_except.
  destruct (m s) as [[a|e] s1]; cbn in Hm; [done|].
  destruct (h e) as [k|] eqn:Ek; [|done]. destruct (Hh e k Ek) as (k' & -> & Hk).
  rewrite bind_db_rollback. apply Hk. destruct Hm as [[Hc Hr] _]. split; [by split|exact Hr].
Qed.

#[local] Hint Resolve sound_claim_request sound_complete_request sound_store_failure
  sound_release_preparation : loc.

Lemma tx_create_endpoint {A} `{Model A} k api fp success settings (run : string -> M DB W A) :
  (forall rid, Tx EP no_exn (run rid)) ->
  Tx EP no_exn (create_endpoint k api fp success settings run).
Proof.
  intros Hr. unfold create_endpoint. apply tx_bind; [tx|intros claim].
  destruct (is_replay claim); [tx|]. apply tx_bind; [|intros a; tx].
  apply tx_rescue; [apply Hr|]. intros e c. destruct e; try discriminate. intros [= <-].
  eexists. split; [reflexivity|]. tx.
Qed.

Context {B : BrokerAccountClient W} {D : PaymentDaemonClient W} {C : RegistryClient W}.

Lemma tx_open_session_endpoint `{Model CreateSessionRequest} `{Model CreateSessionResponse}
    body u api key sdk settings :
  valid_create_session body = true ->
  Tx EP no_exn (open_session_endpoint body u api key sdk settings).
Proof.
  intros Hv. unfold valid_create_session in Hv. bool_props. apply tx_create_endpoint. intros rid.
  do 2 (apply tx_bind; [tx|intros ?]). apply tx_open_session. cbn. lia.
Qed.

Lemma tx_refill_session_endpoint `{Model RefillSessionRequest} `{Model RefillSessionResponse}
    id body u api key settings :
  Tx EP no_exn (refill_session_endpoint id body u api key settings).
Proof. apply tx_create_endpoint. intros rid. apply tx_bind; [tx|intros ?]. tx. Qed.

Lemma tx_open_job_endpoint `{Model CreateJobRequest} `{Model CreateJobResponse}
    body u api key sdk settings :
  valid_create_job body = true ->
  Tx EP no_exn (open_job_endpoint body u api key sdk settings).
Proof.
  intros Hv. unfold valid_create_job in Hv. bool_props. apply tx_create_endpoint. intros rid.
  do 2 (apply tx_bind; [tx|intros ?]). apply tx_open_job. cbn.
  destruct (jq_max_total_units body); bool_props; cbn; lia.
Qed.

Lemma tx_prepare_session_endpoint `{Model PrepareSessionRequest} `{Model PrepareSessionResponse}
    body u api key settings :
  Tx EP no_exn (prepare_session_endpoint body u api key settings).
Proof.
  unfold prepare_session_endpoint. apply tx_bind; [tx|intros claim].
  destruct (is_replay claim); [tx|]. apply tx_bind; [|intros a; tx].
  apply tx_rescue; [tx|]. intros e c. destruct e; try discriminate. intros [= <-].
  eexists. split; [reflexivity|]. tx.
Qed.

End idempotency.

#[export] Hint Resolve tx_open_session_endpoint tx_refill_session_endpoint tx_open_job_endpoint
  tx_prepare_session_endpoint : loc.

Section identity.
Context {W : Type} {R : Runtime} {K : Credentials W} (o : DB).
Local Abbreviation EP := (sound o).
Local Abbreviation keeps_sound m := (Keeps (W := W) (db_inv EP) m).

(** ** Accounts *)

Lemma sound_mail m u : keeps_sound (send_and_record m u).
Proof. unfold send_and_record, record_email_send, clock_now, new_uuid. keeps. Qed.

#[local] Hint Resolve sound_mail : loc.

Lemma sound_verification_email u url : keeps_sound (send_verification_email u url).
Proof. unfold send_verification_email, generate_token, clock_now. keeps. Qed.

Lemma sound_insert_user email at_ h : keeps_sound (insert_user email at_ h).
Proof. unfold insert_user, insert_unique, new_uuid. keeps. Qed.

#[local] Hint Resolve sound_verification_email sound_insert_user : loc.

Lemma sound_signup email p url : keeps_sound (signup email p url).
Proof. unfold signup, password_hash. keeps. Qed.

Lemma sound_verify_email token : keeps_sound (verify_email token).
Proof. unfold verify_email, consume_token, clock_now. keeps. Qed.

Lemma sound_resend email url : keeps_sound (request_resend_verification email url).
Proof. unfold request_resend_verification. keeps. Qed.

Lemma sound_request_reset email url : keeps_sound (request_password_reset email url).
Proof. unfold request_password_reset, generate_token, clock_now. keeps. Qed.

Lemma sound_reset token p : keeps_sound (reset_password token p).
Proof. unfold reset_password, consume_token, password_hash, clock_now. keeps. Qed.

Lemma sound_open_web u : keeps_sound (open_web_session u).
Proof. unfold open_web_session, generate_token, clock_now. keeps. Qed.

#[local] Hint Resolve sound_open_web : loc.

Lemma sound_login email p : keeps_sound (login email p).
Proof. unfold login. keeps. Qed.

Lemma sound_resolve_session token : keeps_sound (resolve_session token).
Proof. unfold resolve_session, clock_now. keeps. Qed.

Lemma sound_revoke_session token : keeps_sound (revoke_session token).
Proof. unfold revoke_session, clock_now. keeps. Qed.

Lemma sound_user_response u : keeps_sound (user_response u).
Proof. unfold user_response, is_approved. keeps. Qed.

Lemma sound_oauth provider uid email v settings :
  keeps_sound (oauth_login provider uid email v settings).
Proof.
  unfold oauth_login, find_or_link_user, link_identity, insert_unique, seal, clock_now. keeps; handler.
Qed.

(** ** Credentials *)

Lemma sound_unseal secret c age : keeps_sound (unseal secret c age).
Proof. unfold unseal. keeps. Qed.

#[local] Hint Resolve sound_unseal sound_resolve_session : loc.

Lemma sound_cookie_user settings c : keeps_sound (cookie_user settings c).
Proof. unfold cookie_user. keeps. Qed.

#[local] Hint Resolve sound_cookie_user : loc.

Lemma sound_session_user settings c : keeps_sound (get_session_user settings c).
Proof. unfold get_session_user. keeps. Qed.

Lemma sound_validate k pepper : keeps_sound (validate_raw_key k pepper).
Proof. unfold validate_raw_key, clock_now. keeps. Qed.

#[local] Hint Resolve sound_validate : loc.

Lemma sound_api_key settings x a : keeps_sound (get_current_api_key_and_user settings x a).
Proof. unfold get_current_api_key_and_user. keeps. Qed.

Lemma sound_operator a : keeps_sound (get_current_operator a).
Proof. unfold get_current_operator, authenticate_operator. keeps. Qed.

#[local] Hint Resolve sound_operator : loc.

Lemma sound_owner a : keeps_sound (get_owner_operator a).
Proof. unfold get_owner_operator. keeps. Qed.

Lemma sound_create_key u label pepper : keeps_sound (create_api_key u label pepper).
Proof. unfold create_api_key, insert_unique, generate_api_key, generate_token, new_uuid. keeps. Qed.

Lemma sound_revoke_key u id : keeps_sound (revoke_api_key u id).
Proof. unfold revoke_api_key, clock_now. keeps. Qed.

(** ** Operators *)

Lemma sound_approve u op n url : keeps_sound (approve_user u op n url).
Proof. unfold approve_user, insert_unique, add_audit, clock_now. keeps; handler. Qed.

Lemma sound_resend_verification u op url : keeps_sound (resend_verification u op url).
Proof. unfold resend_verification, add_audit. keeps. Qed.

Lemma sound_operator_token : keeps_sound generate_operator_token.
Proof. unfold generate_operator_token, generate_token. keeps. Qed.

Lemma sound_insert_operator email name h role : keeps_sound (insert_operator email name h role).
Proof. unfold insert_operator, insert_unique, new_uuid. keeps. Qed.

#[local] Hint Resolve sound_operator_token sound_insert_operator : loc.

Lemma sound_bootstrap token : keeps_sound (ensure_bootstrap_operator token).
Proof. unfold ensure_bootstrap_operator. keeps. Qed.

Lemma sound_create_operator op email name role : keeps_sound (create_operator op email name role).
Proof. unfold create_operator, add_audit. keeps. Qed.

Lemma sound_update_operator op id name role : keeps_sound (update_operator op id name role).
Proof. unfold update_operator, store_columns, require_other_owner, add_audit. keeps. Qed.

Lemma sound_revoke_operator op id : keeps_sound (revoke_operator op id).
Proof. unfold revoke_operator, require_other_owner, add_audit, clock_now. keeps. Qed.

Lemma sound_rotate_operator op id : keeps_sound (rotate_operator_token op id).
Proof. unfold rotate_operator_token, add_audit. keeps. Qed.

Lemma sound_create_sdk op a b c s n : keeps_sound (create_sdk_approval op a b c s n).
Proof. unfold create_sdk_approval, insert_unique, add_audit, new_uuid. keeps. Qed.

Lemma sound_update_sdk op id s n : keeps_sound (update_sdk_approval op id s n).
Proof. unfold update_sdk_approval, add_audit. keeps. Qed.

Lemma sound_delete_sdk op id : keeps_sound (delete_sdk_approval op id).
Proof. unfold delete_sdk_approval, add_audit. keeps. Qed.

Lemma sound_put_billing `{Model BillingConfigUpdate} a u body settings :
  keeps_sound (put_billing_config_endpoint a u body settings).
Proof. unfold put_billing_config_endpoint, get_billing_config, add_audit. keeps. Qed.

End identity.

#[export] Hint Resolve keeps_with_http sound_signup sound_verify_email sound_resend
  sound_request_reset sound_reset sound_login sound_revoke_session sound_user_response sound_oauth
  sound_session_user sound_unseal sound_api_key sound_operator sound_owner sound_create_key
  sound_revoke_key sound_approve sound_resend_verification sound_bootstrap sound_create_operator
  sound_update_operator sound_revoke_operator sound_rotate_operator sound_create_sdk
  sound_update_sdk sound_delete_sdk sound_put_billing : loc.

Create HintDb portal.

#[export] Hint Unfold signup_endpoint verify_email_endpoint resend_verification_request
  request_password_reset_endpoint confirm_password_reset_endpoint login_endpoint logout_endpoint
  me_endpoint create_api_key_endpoint revoke_api_key_endpoint get_my_balance admin_topup_user
  approve_user_endpoint admin_resend_verification_endpoint create_operator_endpoint
  update_operator_endpoint revoke_operator_endpoint rotate_operator_token_endpoint
  create_sdk_approval_endpoint update_sdk_approval_endpoint delete_sdk_approval_endpoint seal
  : portal.

(** An endpoint is its guard and its service. *)
Ltac portal := autounfold with portal; tx.

(** ** Loops *)

Lemma keeps_deliver {W} (I : St DB W -> Prop) n (post : M DB W Z) :
  Keeps I post -> Keeps I (deliver n post).
Proof.
  intros Hp. induction n as [|n IH]; cbn [deliver]; [keeps|].
  apply keeps_bind; [apply keeps_try; [keeps|intros e k [= <-]; keeps]|].
  intros status. destruct (outcome_of status); [keeps|exact IH|keeps].
Qed.

Lemma keeps_fetch_all {W} (I : St DB W -> Prop) n fetch cursor :
  (forall c, Keeps I (fetch c)) -> Keeps I (fetch_all n fetch cursor).
Proof.
  intros Hf. revert cursor. induction n as [|n IH]; intros cursor; cbn [fetch_all]; [keeps|].
  apply keeps_bind; [apply Hf|]. intros [rows next]. destruct next; [|keeps].
  apply keeps_bind; [apply IH|]. intros rest. keeps.
Qed.

(** ** Writes of another session *)

Lemma keeps_other_independent {W} (o : DB) g :
  (forall d, t_session (g d) = t_session d) -> (forall d, t_ledger (g d) = t_ledger d) ->
  (forall d, t_grant (g d) = t_grant d) -> Keeps (W := W) (db_inv (sound o)) (db_independent g).
Proof. intros H1 H2 H3. apply keeps_independent. intros d. by apply sound_ext. Qed.

#[export] Hint Extern 1 (Keeps (db_inv (sound _)) (db_independent _)) =>
  solve [apply keeps_other_independent; intros; reflexivity] : loc.

(** Following a service into everything it calls. *)
Ltac spread_step :=
  lazymatch goal with
  | H : match ?x with _ => _ end = Some _ |- Keeps _ _ => destruct x; try discriminate H
  | H : Some _ = Some _ |- Keeps _ _ => injection H as H; subst
  | |- Keeps _ (bind _ _) => keeps_step
  | |- Keeps _ (try_except _ _) => keeps_step
  | |- Keeps _ (mfold _ _ _) => keeps_step
  | |- Keeps _ (match _ with _ => _ end) => keeps_step
  | |- Keeps _ (let _ := _ in _) => keeps_step
  | |- Keeps _ (with_http _ _) => apply keeps_with_http
  | |- Keeps _ (deliver _ _) => apply keeps_deliver
  | |- Keeps _ (fetch_all _ _ _) => apply keeps_fetch_all; intros ?
  | |- Keeps _ (db_modify _) => fail
  | |- Keeps _ (db_independent _) => fail
  | |- Keeps _ ?m => let f := head_of m in unfold f
  end.
Ltac spread := repeat first [ solve [apply _] | solve [auto with loc nocore] | spread_step ].

Section notices.
Context {W : Type} {R : Runtime} {K : Credentials W} {T : WebhookTransport W} {P : ProcessMemory W}.
Context {L : LimiterState W} {B : BrokerCache W} {C : CatalogClient W} {G : RegistryClient W}.
Context {E : EventModel} (o : DB) (settings : Settings) (hostname : option string).
Local Abbreviation keeps_sound m := (Keeps (W := W) (db_inv (sound o)) m).

Lemma sound_set_preference u t c e : keeps_sound (set_preference u t c e).
Proof. spread. Qed.

Lemma sound_dismiss u id : keeps_sound (dismiss_portal_notification u id).
Proof. spread. Qed.

Lemma sound_ingest_event e id : keeps_sound (ingest_event e id).
Proof. spread. Qed.

Lemma sound_notify_trigger t u subject body :
  keeps_sound (notify_trigger settings t u subject body).
Proof. spread. Qed.

#[local] Hint Resolve sound_notify_trigger : loc.

Lemma sound_triggers k u events :
  keeps_sound (evaluate_post_ingest_triggers settings k u events).
Proof. spread. Qed.

#[local] Hint Resolve sound_set_preference sound_dismiss sound_ingest_event sound_triggers : loc.

Lemma sound_get_authed c k : keeps_sound (get_authed_user settings c k).
Proof. spread. Qed.

#[local] Hint Resolve sound_get_authed : loc.

Lemma sound_get_prefs c k : keeps_sound (get_notification_prefs_endpoint settings c k).
Proof. spread. Qed.

Lemma sound_banners c k limit : keeps_sound (list_portal_notifications_endpoint settings c k limit).
Proof. spread. Qed.

Lemma sound_get_webhook c k : keeps_sound (get_webhook_config_endpoint settings c k).
Proof. spread. Qed.

Lemma sound_email_events a limit : keeps_sound (list_email_events a limit).
Proof. spread. Qed.

Lemma sound_resend_webhook a b c body : keeps_sound (resend_webhook settings a b c body).
Proof. spread. Qed.

Lemma sound_put_webhook c k url : keeps_sound (put_webhook_config_endpoint settings c k url).
Proof. spread. Qed.

Lemma sound_delete_webhook c k : keeps_sound (delete_webhook_config_endpoint settings c k).
Proof. spread. Qed.

Lemma sound_test_webhook c k : keeps_sound (test_webhook_config_endpoint settings c k).
Proof. spread. Qed.

Lemma sound_put_pref c k body : keeps_sound (put_notification_pref_endpoint settings c k body).
Proof. spread. Qed.

Lemma sound_dismiss_endpoint c k id :
  keeps_sound (dismiss_portal_notification_endpoint settings c k id).
Proof. spread. Qed.

Lemma sound_ingest_endpoint x a events :
  keeps_sound (ingest_endpoint settings hostname x a events).
Proof. spread. Qed.

Lemma sound_query x a from to glob nd cursor size :
  keeps_sound (query_events_endpoint settings x a from to glob nd cursor size).
Proof. spread. Qed.

Lemma sound_portal_query c from to glob cursor size :
  keeps_sound (portal_query_events_endpoint settings c from to glob cursor size).
Proof. spread. Qed.

Lemma sound_download c fuel : keeps_sound (portal_download_endpoint settings c fuel).
Proof. spread. Qed.

Lemma sound_event_counts a n : keeps_sound (admin_event_counts_endpoint a n).
Proof. spread. Qed.

Lemma sound_purge_user a u : keeps_sound (admin_purge_user_endpoint a u).
Proof. spread. Qed.

Lemma sound_offenders a n limit : keeps_sound (admin_rate_limit_offenders_endpoint a n limit).
Proof. spread. Qed.

Lemma sound_purge_expired n : keeps_sound (purge_expired n).
Proof. spread. Qed.

Lemma sound_select_route c k cap off : keeps_sound (select_route_endpoint settings c k cap off).
Proof. spread. Qed.

Lemma sound_orchestrators c k cap : keeps_sound (list_orchestrators_endpoint settings c k cap).
Proof. spread. Qed.

Lemma sound_capabilities c k : keeps_sound (list_capabilities_endpoint settings c k).
Proof. spread. Qed.

End notices.

#[export] Hint Resolve sound_get_prefs sound_banners sound_get_webhook sound_email_events
  sound_resend_webhook sound_put_webhook sound_delete_webhook
  sound_test_webhook sound_put_pref sound_dismiss_endpoint sound_ingest_endpoint sound_query
  sound_portal_query sound_download sound_event_counts sound_purge_user sound_offenders
  sound_purge_expired sound_select_route sound_orchestrators sound_capabilities : loc.

Section reports.
Context {W : Type} {R : Runtime} {K : Credentials W} {C : CatalogClient W}.
Context {E : Ed25519} {T : RowTimes} (o : DB) (settings : Settings).
Local Abbreviation keeps_sound m := (Keeps (W := W) (db_inv (sound o)) m).

Lemma sound_overview u : keeps_sound (overview u settings).
Proof. spread. Qed.

Lemma sound_list_jobs f limit offset all stale : keeps_sound (list_jobs f limit offset all stale).
Proof. spread. Qed.

Lemma sound_summarize u since until all : keeps_sound (summarize u since until all).
Proof. spread. Qed.

Lemma sound_attention stale silent limit : keeps_sound (attention stale silent limit).
Proof. spread. Qed.

#[local] Hint Resolve sound_overview sound_list_jobs sound_summarize sound_attention
  sound_get_authed : loc.

Lemma sound_my_overview c k : keeps_sound (my_usage_overview settings c k).
Proof. spread. Qed.

Lemma sound_my_jobs c k f limit offset : keeps_sound (my_usage_jobs settings c k f limit offset).
Proof. spread. Qed.

Lemma sound_my_summary c k since until : keeps_sound (my_usage_summary settings c k since until).
Proof. spread. Qed.

Lemma sound_user_overview a u : keeps_sound (admin_user_usage_overview settings a u).
Proof. spread. Qed.

Lemma sound_user_jobs a u f limit offset :
  keeps_sound (admin_user_usage_jobs a u f limit offset).
Proof. spread. Qed.

Lemma sound_user_summary a u since until :
  keeps_sound (admin_user_usage_summary a u since until).
Proof. spread. Qed.

Lemma sound_fleet_summary a since until : keeps_sound (admin_fleet_usage_summary a since until).
Proof. spread. Qed.

Lemma sound_fleet_jobs a f limit offset : keeps_sound (admin_fleet_usage_jobs a f limit offset).
Proof. spread. Qed.

Lemma sound_usage_attention a stale silent : keeps_sound (admin_usage_attention a stale silent).
Proof. spread. Qed.

Lemma sound_wholesale_overview a : keeps_sound (wholesale_overview_endpoint a settings).
Proof. spread. Qed.

Lemma sound_pending_users a : keeps_sound (list_pending_users_endpoint a).
Proof. spread. Qed.

Lemma sound_all_users a limit offset : keeps_sound (list_all_users_endpoint a limit offset).
Proof. spread. Qed.

Lemma sound_audit_entries a limit : keeps_sound (list_audit_entries_endpoint a limit).
Proof. spread. Qed.

Lemma sound_operators a : keeps_sound (list_operators_endpoint a).
Proof. spread. Qed.

Lemma sound_sdk_approvals a : keeps_sound (list_sdk_approvals_endpoint a).
Proof. spread. Qed.

Lemma sound_recent_sessions a limit : keeps_sound (list_recent_sessions_endpoint a limit).
Proof. spread. Qed.

Lemma sound_distribution a limit : keeps_sound (sdk_distribution_endpoint a limit).
Proof. spread. Qed.

Lemma sound_snapshots a limit : keeps_sound (list_deposit_snapshots_endpoint a limit).
Proof. spread. Qed.

Lemma sound_billing_config a u : keeps_sound (get_billing_config_endpoint a u settings).
Proof. spread. Qed.

Lemma sound_admin_capabilities a : keeps_sound (admin_list_capabilities_endpoint a).
Proof. spread. Qed.

Lemma sound_admin_orchestrators a cap : keeps_sound (admin_list_orchestrators_endpoint a cap).
Proof. spread. Qed.

Lemma sound_manifest : keeps_sound (sdk_manifest_endpoint settings).
Proof. spread. Qed.

Lemma sound_manifest_key : keeps_sound (sdk_manifest_pubkey_endpoint settings).
Proof. spread. Qed.

End reports.

#[export] Hint Resolve sound_my_overview sound_my_jobs sound_my_summary sound_user_overview
  sound_user_jobs sound_user_summary sound_fleet_summary sound_fleet_jobs sound_usage_attention
  sound_wholesale_overview sound_pending_users sound_all_users sound_audit_entries sound_operators
  sound_sdk_approvals sound_recent_sessions sound_distribution sound_snapshots sound_billing_config
  sound_admin_capabilities sound_admin_orchestrators sound_manifest sound_manifest_key : loc.
