(* ===== verification/Engagements.v ===== *)
(** * Engagements: the service as a whole

    Every entry point that can touch an engagement, each in the database
    session the application gives it: the requests of callers and operators and
    the scheduled tasks, in any order, interleaved with other transactions. *)

From S2P Require Import Prelude PyData DecimalCtx Errors Effects Store Pricing Settings Billing.
From S2P Require Import BillingFacts SettlementVerification BrokerSettlement PaymentDaemon.
From S2P Require Import Registry Wholesale Payments SessionCore SessionSettle.
From S2P Require Import SessionPrepare SessionFlows Jobs JobReconcile Scheduler SessionFacts.
From S2P Require Import EngagementSpec EngagementKeeps SessionTx SessionClaims JobTx ServiceTx.
From S2P Require Import Endpoints AdminResolve Credentials Accounts Access Operators.
From S2P Require Import Portal RateLimiter Webhooks Telemetry Catalog Notifications.
From S2P Require Import ServerEvents TelemetryEndpoints Usage Signing AdminReports.

Open Scope string_scope.
Open Scope Z_scope.
Open Scope loc_scope.

(** ** Entry points *)

(** What a request carries to say who is calling. *)
Record Headers := MkHeaders {
  h_api_key : option string;
  h_authorization : option string;
  h_cookie : option string;
}.

(** The requests of application developers, of portal users and of operators,
    the restart of the service and its scheduled tasks. *)
Inductive operation :=
  | DoPrepareSession (h : Headers) (body : PrepareSessionRequest) (idempotency_key : string)
  | DoOpenSession (h : Headers) (body : CreateSessionRequest) (idempotency_key : string)
      (sdk_identity : option string)
  | DoRefillSession (h : Headers) (id : uuid) (body : RefillSessionRequest)
      (idempotency_key : string)
  | DoCloseSession (h : Headers) (id : uuid) (units : Z) (outcome : option string)
      (settlement : option dict)
  | DoSessionStatus (h : Headers) (id : uuid)
  | DoOpenJob (h : Headers) (body : CreateJobRequest) (idempotency_key : string)
      (sdk_identity : option string)
  | DoSettleJob (h : Headers) (id : uuid) (q : SettleJob)
  | DoJobStatus (h : Headers) (id : uuid)
  | DoSignup (email password : string)
  | DoVerifyEmail (token : string)
  | DoResendVerification (email : string)
  | DoRequestPasswordReset (email : string)
  | DoResetPassword (token new_password : string)
  | DoLogin (email password : string)
  | DoOauthLogin (provider provider_user_id email : string) (email_verified : bool)
  | DoLogout (h : Headers)
  | DoMe (h : Headers)
  | DoCreateApiKey (h : Headers) (label : string)
  | DoRevokeApiKey (h : Headers) (id : uuid)
  | DoGetBalance (h : Headers)
  | DoTopup (h : Headers) (user : uuid) (body : TopupRequest)
  | DoApproveUser (h : Headers) (user : uuid)
  | DoConfigureBilling (h : Headers) (user : uuid) (body : BillingConfigUpdate)
  | DoAdminResendVerification (h : Headers) (user : uuid)
  | DoCreateOperator (h : Headers) (email name role : string)
  | DoUpdateOperator (h : Headers) (id : uuid) (name role : option string)
  | DoRevokeOperator (h : Headers) (id : uuid)
  | DoRotateOperatorToken (h : Headers) (id : uuid)
  | DoCreateSdkApproval (h : Headers) (lang version git_sha7 status : string)
      (notes : option string)
  | DoUpdateSdkApproval (h : Headers) (id : uuid) (status notes : option string)
  | DoDeleteSdkApproval (h : Headers) (id : uuid)
  | DoResolveWork (h : Headers) (id : uuid) (action : string) (note : option string)
  | DoGetPreferences (h : Headers)
  | DoSetPreference (h : Headers) (body : UpdateNotificationPrefRequest)
  | DoListBanners (h : Headers) (limit : nat)
  | DoDismissBanner (h : Headers) (id : uuid)
  | DoGetWebhook (h : Headers)
  | DoPutWebhook (h : Headers) (url : string)
  | DoDeleteWebhook (h : Headers)
  | DoTestWebhook (h : Headers)
  | DoMailEvent (webhook_id webhook_timestamp webhook_signature : option string) (body : bytes)
  | DoListEmailEvents (h : Headers) (limit : nat)
  | DoIngestTelemetry (h : Headers) (events : list IngestEventIn)
  | DoQueryTelemetry (h : Headers) (from_ts to_ts : string) (type_glob : option string)
      (ndjson : bool) (cursor : option string) (page_size : option nat)
  | DoPortalTelemetry (h : Headers) (from_ts to_ts : string) (type_glob cursor : option string)
      (page_size : option nat)
  | DoDownloadTelemetry (h : Headers) (fuel : nat)
  | DoEventCounts (h : Headers) (hours : Z)
  | DoPurgeUserTelemetry (h : Headers) (user : uuid)
  | DoRateOffenders (h : Headers) (hours : Z) (limit : nat)
  | DoListCapabilities (h : Headers)
  | DoListOrchestrators (h : Headers) (capability : option string)
  | DoSelectRoute (h : Headers) (capability offering : string)
  | DoUsageOverview (h : Headers)
  | DoUsageJobs (h : Headers) (filters : JobFilters) (limit offset : Z)
  | DoUsageSummary (h : Headers) (since until : option datetime)
  | DoUserUsageOverview (h : Headers) (user : uuid)
  | DoUserUsageJobs (h : Headers) (user : uuid) (filters : JobFilters) (limit offset : Z)
  | DoUserUsageSummary (h : Headers) (user : uuid) (since until : option datetime)
  | DoFleetUsageSummary (h : Headers) (since until : option datetime)
  | DoFleetUsageJobs (h : Headers) (filters : JobFilters) (limit offset : Z)
  | DoUsageAttention (h : Headers) (stale_after silent_after : Z)
  | DoWholesaleOverview (h : Headers)
  | DoListPendingUsers (h : Headers)
  | DoListUsers (h : Headers) (limit offset : nat)
  | DoListAudit (h : Headers) (limit : nat)
  | DoListOperators (h : Headers)
  | DoListSdkApprovals (h : Headers)
  | DoListRecentSessions (h : Headers) (limit : nat)
  | DoSdkDistribution (h : Headers) (limit : nat)
  | DoListDeposits (h : Headers) (limit : nat)
  | DoGetBillingConfig (h : Headers) (user : uuid)
  | DoAdminCapabilities (h : Headers)
  | DoAdminOrchestrators (h : Headers) (capability : option string)
  | DoSdkManifest
  | DoSdkManifestKey
  | DoBootstrap
  | DoExpireIdempotency
  | DoSnapshotDeposit
  | DoAutoReplenish
  | DoReplenishAccounts
  | DoReconcileSessions
  | DoReconcileJobs
  | DoPurgeTelemetry.

(** Bodies reach the handlers validated. *)
Definition admissible (op : operation) : Prop :=
  match op with
  | DoPrepareSession _ body _ => valid_prepare_session body = true
  | DoOpenSession _ body _ _ => valid_create_session body = true
  | DoRefillSession _ _ body _ => valid_refill body = true
  | DoOpenJob _ body _ _ => valid_create_job body = true
  | DoTopup _ _ body => valid_topup body = true
  | DoSetPreference _ body => valid_update_pref body = true
  | DoIngestTelemetry _ events => valid_ingest events = true
  | DoQueryTelemetry _ _ _ _ _ _ page_size => valid_page_size page_size = true
  | DoPortalTelemetry _ _ _ _ _ page_size => valid_page_size page_size = true
  | DoUsageJobs _ f limit offset | DoUserUsageJobs _ _ f limit offset
  | DoFleetUsageJobs _ f limit offset => valid_limit limit offset && valid_job_state f = true
  | DoUsageAttention _ stale silent => (60 <=? stale) && (60 <=? silent) = true
  | _ => True
  end.

(** The pydantic models the endpoints convert. *)
Class Models := {
  m_prepare_request :: Model PrepareSessionRequest;
  m_prepare_response :: Model PrepareSessionResponse;
  m_create_request :: Model CreateSessionRequest;
  m_create_response :: Model CreateSessionResponse;
  m_refill_request :: Model RefillSessionRequest;
  m_refill_response :: Model RefillSessionResponse;
  m_job_request :: Model CreateJobRequest;
  m_job_response :: Model CreateJobResponse;
  m_billing_config :: Model BillingConfigUpdate;
}.

(** What the process holds and reaches besides: the limiter's buckets, the
    throttles and lookups it keeps in memory, its host's name, the transport of
    webhooks, the registry's catalog, the model of mail events, the signature
    library and the columns the database fills in. *)
Class Edges (W : Type) := {
  e_limiter :: LimiterState W;
  e_memory :: ProcessMemory W;
  e_brokers :: BrokerCache W;
  e_transport :: WebhookTransport W;
  e_catalog :: CatalogClient W;
  e_events :: EventModel;
  e_ed25519 :: Ed25519;
  e_times :: RowTimes;
  e_hostname : option string;
}.

Section service.
Context {W : Type} {R : Runtime} {L : SettlementLib}.
Context {B : BrokerAccountClient W} {S : BrokerSettlementClient W} {D : PaymentDaemonClient W}.
Context {C : RegistryClient W} {K : Credentials W} {P : Models} {X : Edges W}.
Implicit Types (s : St DB W).

(** A request handler and its [session_dependency]. *)
Definition request {A} (m : M DB W A) : M DB W unit := session_scope (m ;;; ret tt).

(** A request of an application developer. *)
Definition by_api_key {A} (settings : Settings) (h : Headers) (m : uuid -> uuid -> M DB W A)
  : M DB W unit :=
  request ('(api_key, user) <- get_current_api_key_and_user settings (h_api_key h)
             (h_authorization h) ;;
           m (us_id user) (ak_id api_key)).

Definition perform (settings : Settings) (op : operation) : M DB W unit :=
  match op with
  | DoPrepareSession h body key =>
      by_api_key settings h (fun u k => prepare_session_endpoint body u k key settings)
  | DoOpenSession h body key sdk =>
      by_api_key settings h (fun u k => open_session_endpoint body u k key sdk settings)
  | DoRefillSession h id body key =>
      by_api_key settings h (fun u k => refill_session_endpoint id body u k key settings)
  | DoCloseSession h id n o r => by_api_key settings h (fun u _ => close_session id u n o r)
  | DoSessionStatus h id => by_api_key settings h (fun u _ => get_session_status id u settings)
  | DoOpenJob h body key sdk =>
      by_api_key settings h (fun u k => open_job_endpoint body u k key sdk settings)
  | DoSettleJob h id q => by_api_key settings h (fun u _ => settle_job id u q settings)
  | DoJobStatus h id => by_api_key settings h (fun u _ => get_job_status id u)
  | DoSignup email p => request (signup_endpoint email p settings)
  | DoVerifyEmail token => request (verify_email_endpoint token)
  | DoResendVerification email => request (resend_verification_request email settings)
  | DoRequestPasswordReset email => request (request_password_reset_endpoint email settings)
  | DoResetPassword token p => request (confirm_password_reset_endpoint token p)
  | DoLogin email p => request (login_endpoint email p settings)
  | DoOauthLogin provider id email v => request (oauth_login provider id email v settings)
  | DoLogout h => request (logout_endpoint (h_cookie h) settings)
  | DoMe h => request (me_endpoint (h_cookie h) settings)
  | DoCreateApiKey h label => request (create_api_key_endpoint (h_cookie h) label settings)
  | DoRevokeApiKey h id => request (revoke_api_key_endpoint (h_cookie h) id settings)
  | DoGetBalance h => request (get_my_balance (h_cookie h) settings)
  | DoTopup h u body => request (admin_topup_user (h_authorization h) u body)
  | DoApproveUser h u => request (approve_user_endpoint (h_authorization h) u settings)
  | DoConfigureBilling h u body =>
      request (put_billing_config_endpoint (h_authorization h) u body settings)
  | DoAdminResendVerification h u =>
      request (admin_resend_verification_endpoint (h_authorization h) u settings)
  | DoCreateOperator h email name role =>
      request (create_operator_endpoint (h_authorization h) email name role)
  | DoUpdateOperator h id name role =>
      request (update_operator_endpoint (h_authorization h) id name role)
  | DoRevokeOperator h id => request (revoke_operator_endpoint (h_authorization h) id)
  | DoRotateOperatorToken h id => request (rotate_operator_token_endpoint (h_authorization h) id)
  | DoCreateSdkApproval h a b c s n =>
      request (create_sdk_approval_endpoint (h_authorization h) a b c s n)
  | DoUpdateSdkApproval h id s n =>
      request (update_sdk_approval_endpoint (h_authorization h) id s n)
  | DoDeleteSdkApproval h id => request (delete_sdk_approval_endpoint (h_authorization h) id)
  | DoResolveWork h id action note =>
      request (resolve_job_endpoint (h_authorization h) id action note)
  | DoGetPreferences h =>
      request (get_notification_prefs_endpoint settings (h_cookie h) (h_api_key h))
  | DoSetPreference h body =>
      request (put_notification_pref_endpoint settings (h_cookie h) (h_api_key h) body)
  | DoListBanners h limit =>
      request (list_portal_notifications_endpoint settings (h_cookie h) (h_api_key h) limit)
  | DoDismissBanner h id =>
      request (dismiss_portal_notification_endpoint settings (h_cookie h) (h_api_key h) id)
  | DoGetWebhook h => request (get_webhook_config_endpoint settings (h_cookie h) (h_api_key h))
  | DoPutWebhook h url =>
      request (put_webhook_config_endpoint settings (h_cookie h) (h_api_key h) url)
  | DoDeleteWebhook h =>
      request (delete_webhook_config_endpoint settings (h_cookie h) (h_api_key h))
  | DoTestWebhook h => request (test_webhook_config_endpoint settings (h_cookie h) (h_api_key h))
  | DoMailEvent i t v body => request (resend_webhook settings i t v body)
  | DoListEmailEvents h limit => request (list_email_events (h_authorization h) limit)
  | DoIngestTelemetry h events =>
      request (ingest_endpoint settings e_hostname (h_api_key h) (h_authorization h) events)
  | DoQueryTelemetry h a b glob nd cursor size =>
      request (query_events_endpoint settings (h_api_key h) (h_authorization h) a b glob nd cursor
                 size)
  | DoPortalTelemetry h a b glob cursor size =>
      request (portal_query_events_endpoint settings (h_cookie h) a b glob cursor size)
  | DoDownloadTelemetry h fuel => request (portal_download_endpoint settings (h_cookie h) fuel)
  | DoEventCounts h hours => request (admin_event_counts_endpoint (h_authorization h) hours)
  | DoPurgeUserTelemetry h u => request (admin_purge_user_endpoint (h_authorization h) u)
  | DoRateOffenders h hours limit =>
      request (admin_rate_limit_offenders_endpoint (h_authorization h) hours limit)
  | DoListCapabilities h =>
      request (list_capabilities_endpoint settings (h_cookie h) (h_api_key h))
  | DoListOrchestrators h capability =>
      request (list_orchestrators_endpoint settings (h_cookie h) (h_api_key h) capability)
  | DoSelectRoute h capability offering =>
      request (select_route_endpoint settings (h_cookie h) (h_api_key h) capability offering)
  | DoUsageOverview h => request (my_usage_overview settings (h_cookie h) (h_api_key h))
  | DoUsageJobs h f limit offset =>
      request (my_usage_jobs settings (h_cookie h) (h_api_key h) f limit offset)
  | DoUsageSummary h a b => request (my_usage_summary settings (h_cookie h) (h_api_key h) a b)
  | DoUserUsageOverview h u => request (admin_user_usage_overview settings (h_authorization h) u)
  | DoUserUsageJobs h u f limit offset =>
      request (admin_user_usage_jobs (h_authorization h) u f limit offset)
  | DoUserUsageSummary h u a b => request (admin_user_usage_summary (h_authorization h) u a b)
  | DoFleetUsageSummary h a b => request (admin_fleet_usage_summary (h_authorization h) a b)
  | DoFleetUsageJobs h f limit offset =>
      request (admin_fleet_usage_jobs (h_authorization h) f limit offset)
  | DoUsageAttention h a b => request (admin_usage_attention (h_authorization h) a b)
  | DoWholesaleOverview h => request (wholesale_overview_endpoint (h_authorization h) settings)
  | DoListPendingUsers h => request (list_pending_users_endpoint (h_authorization h))
  | DoListUsers h limit offset => request (list_all_users_endpoint (h_authorization h) limit offset)
  | DoListAudit h limit => request (list_audit_entries_endpoint (h_authorization h) limit)
  | DoListOperators h => request (list_operators_endpoint (h_authorization h))
  | DoListSdkApprovals h => request (list_sdk_approvals_endpoint (h_authorization h))
  | DoListRecentSessions h limit =>
      request (list_recent_sessions_endpoint (h_authorization h) limit)
  | DoSdkDistribution h limit => request (sdk_distribution_endpoint (h_authorization h) limit)
  | DoListDeposits h limit => request (list_deposit_snapshots_endpoint (h_authorization h) limit)
  | DoGetBillingConfig h u =>
      request (get_billing_config_endpoint (h_authorization h) u settings)
  | DoAdminCapabilities h => request (admin_list_capabilities_endpoint (h_authorization h))
  | DoAdminOrchestrators h capability =>
      request (admin_list_orchestrators_endpoint (h_authorization h) capability)
  | DoSdkManifest => request (sdk_manifest_endpoint settings)
  | DoSdkManifestKey => request (sdk_manifest_pubkey_endpoint settings)
  | DoBootstrap =>
      match cfg_admin_bootstrap_token settings with
      | Some token => request (ensure_bootstrap_operator token)
      | None => ret tt
      end
  | DoExpireIdempotency => expire_idempotency_task ;;; ret tt
  | DoSnapshotDeposit => snapshot_deposit_task
  | DoAutoReplenish => auto_replenish_task settings
  | DoReplenishAccounts => replenish_accounts_task settings
  | DoReconcileSessions => reconcile_sessions_task settings
  | DoReconcileJobs => reconcile_jobs_task settings
  | DoPurgeTelemetry => purge_telemetry_task settings
  end.

(** The entry points served one after the other, errors included. *)
Definition run_service (settings : Settings) (ops : list operation) (s : St DB W) : St DB W :=
  fold_left (fun s op => snd (perform settings op s)) ops s.

(** ** Every entry point keeps the specification *)

Context (o : DB).
Local Abbreviation keeps_sound m := (Keeps (W := W) (db_inv (sound o)) m).

Lemma keeps_request {A} (m : M DB W A) : Tx (sound o) no_exn m -> keeps_sound (request m).
Proof. intros Hm. apply tx_keeps_scope. apply tx_bind; [exact Hm|intros ?]. tx. Qed.

Lemma keeps_logged {A} (m : M DB W A) : keeps_sound m -> keeps_sound (logged m).
Proof.
  intros Hm. unfold logged. apply keeps_try; [|intros e k [= <-]; keeps].
  apply keeps_bind; [exact Hm|keeps].
Qed.

Lemma keeps_replenish_task settings : keeps_sound (replenish_accounts_task settings).
Proof.
  unfold replenish_accounts_task. apply keeps_bind.
  - apply keeps_try; [|intros e k [= <-]; keeps]. apply keeps_bind; [|keeps].
    apply tx_keeps_scope. tx.
  - intros [candidates|]; [|keeps]. apply keeps_mfold. intros [] candidate.
    apply keeps_logged, tx_keeps_scope. tx.
Qed.

Lemma keeps_sessions_task settings : keeps_sound (reconcile_sessions_task settings).
Proof.
  apply keeps_logged, tx_keeps_scope. unfold session_passes. tx. 
Qed.

Lemma keeps_by_api_key {A} settings h (m : uuid -> uuid -> M DB W A) :
  (forall u k, Tx (sound o) no_exn (m u k)) -> keeps_sound (by_api_key settings h m).
Proof.
  intros Hm. apply keeps_request. apply tx_bind; [tx|]. intros [k u]. apply Hm.
Qed.

Lemma tx_resolve_job a id action note :
  Tx (W := W) (sound o) no_exn (resolve_job_endpoint a id action note).
Proof.
  unfold resolve_job_endpoint. apply tx_bind; [tx|intros operator].
  apply tx_resolve_stuck_work; [apply _|done].
Qed.

Lemma keeps_perform settings op : admissible op -> keeps_sound (perform settings op).
Proof.
  destruct op; cbn [perform admissible]; intros Ha;
    try (apply keeps_by_api_key; intros u k; first [solve [tx] | apply tx_close_session; apply _]).
  all: try (apply keeps_request; first [apply tx_resolve_job | solve [portal]]).
  - destruct (cfg_admin_bootstrap_token settings); [|keeps]. apply keeps_request. tx.
  - apply keeps_bind; [|keeps]. apply tx_keeps_scope. tx.
  - apply keeps_logged, tx_keeps_scope. tx.
  - apply keeps_logged, tx_keeps_scope. tx.
  - apply keeps_replenish_task.
  - apply keeps_sessions_task.
  - apply keeps_logged, tx_keeps_scope. tx.
  - apply keeps_logged, tx_keeps_scope. tx.
Qed.

End service.

Section runs.
Context {W : Type} {R : Runtime} {L : SettlementLib}.
Context {B : BrokerAccountClient W} {S : BrokerSettlementClient W} {D : PaymentDaemonClient W}.
Context {C : RegistryClient W} {K : Credentials W} {P : Models} {X : Edges W}.
Implicit Types (s : St DB W).

(** Another transaction of the service: it takes books that are right to books
    that are right, along steps of the automaton. *)
Definition well_behaved (f : DB -> DB) : Prop :=
  forall d, engagements_ok d -> sound d (f d).

(** A session that just began, among well-behaved ones. *)
Record fresh s : Prop := {
  fr_working : st_working s = st_committed s;
  fr_books : engagements_ok (st_committed s);
  fr_others : forall f, Some f ∈ st_races s -> well_behaved f;
}.

Lemma fresh_inv s : fresh s -> db_inv (sound (st_committed s)) s.
Proof.
  intros [Hw Hb Hr]. pose proof (sound_refl _ Hb) as Hs. split; [split; [done|by rewrite Hw]|].
  intros f Hf d [Hd1 Hd2]. destruct (Hr f Hf d Hd1) as [H1 H2]. split; [done|]. by etrans.
Qed.

Lemma run_service_sound settings ops s :
  Forall admissible ops -> fresh s ->
  sound (st_committed s) (st_committed (run_service settings ops s)).
Proof.
  intros Ha Hf. set (o := st_committed s). apply fresh_inv in Hf. fold o in Hf.
  assert (H : db_inv (sound o) (run_service settings ops s)); [|apply H].
  clearbody o. revert s Hf. induction Ha as [|op ops Hop _ IH]; intros s Hf; cbn; [done|].
  apply IH. by apply keeps_perform.
Qed.

End runs.
