(* ===== verification/Demo.v ===== *)
(** * Demonstration

    A service to evaluate the properties on: a registry with one job route, a
    daemon that signs what it is asked, a broker whose account is funded, and a
    customer's way from signing up to a settled job. *)

From S2P Require Import Prelude PyData DecimalCtx Errors Effects Store Pricing Settings Billing.
From S2P Require Import BillingFacts BillingProps SettlementVerification SettlementProps.
From S2P Require Import BrokerSettlement PaymentDaemon Registry Wholesale Payments.
From S2P Require Import SessionCore SessionSettle SessionPrepare SessionFlows Jobs JobReconcile.
From S2P Require Import Endpoints AdminResolve Scheduler SessionFacts EngagementSpec.
From S2P Require Import Credentials Accounts Access Operators Portal RateLimiter Webhooks Catalog.
From S2P Require Import Notifications ServerEvents TelemetryEndpoints Signing AdminReports Engagements.
From Stdlib Require Import Init.Byte.

Open Scope string_scope.
Open Scope Z_scope.
Open Scope loc_scope.

Definition demo_key : SettlementKey :=
  MkSettlementKey ("0x04" ++ bytes_hex (repeat x01 64)) (DT 0 true) (DT 9000000000000000 true) 1.

(** Jobs at 7 wei for 2 tokens. *)
Definition demo_job_route : SelectedRoute :=
  MkSelectedRoute "https://broker" "0x2222222222222222222222222222222222222222" "cap" "off" 7
    "tokens" 2 "q" 1 (repeat x01 32) (repeat x02 32)
    "0x0000000000000000000000000000000000000000000000000000000000000007" "paid-job/v1"
    [demo_key] None [("job", JObj [("transports", JArr [JStr "unary"])])].

(** The defaults, with a wholesale account and its limits, an operator and some
    initial credit. *)
Definition demo_settings : Settings :=
  match default_settings with
  | MkSettings a1 a2 a3 a4 a5 a6 _ a8 a9 a10 a11 a12 a13 a14 a15 a16 a17 a18 _ _ _ _ _ _ _
      b1 b2 b3 b4 b5 b6 _ b7 b8 b9 c1 c2 c3 c4 c5 d1 d2 d3 d4 d5 d6 =>
      MkSettings a1 a2 a3 a4 a5 a6 (Some "root") a8 a9 a10 a11 a12 a13 a14 a15 a16 a17 a18
        "acct" 1 100 50 200 200 100 b1 b2 b3 b4 b5 b6 100 b7 b8 b9 c1 c2 c3 c4 c5
        d1 d2 d3 d4 d5 d6
  end.

Definition demo_payer : bytes := repeat x33 20.

(** A registry with that route, a daemon that signs what it is asked, a broker
    whose account is well funded, and no exchange to report. *)
#[export] Instance demo_registry : RegistryClient unit := {|
  rc_select _ _ w := (Ok (Some demo_job_route), w);
  rc_select_many _ _ w := (Ok [demo_job_route], w);
|}.
#[export] Instance demo_daemon : PaymentDaemonClient unit := {|
  pd_create_payment _ w := (Err (ValueError "demo"), w);
  pd_create_spend_authorization q w :=
    (Ok (MkSpendAuthorizationResponse [x01] (sq_authorization_id q) demo_payer), w);
  pd_get_deposit_info w := (Err (ValueError "demo"), w);
|}.
#[export] Instance demo_broker : BrokerAccountClient unit := {|
  ba_get_wholesale_account _ payer payee chain domain account w :=
    (Ok (MkAccountObservation payer payee account 1 domain chain "wei" 100 0 0 100 1 (DT 0 true)), w);
  ba_fund_wholesale_account _ _ _ _ _ _ _ _ w := (Err (BrokerWholesaleAccountErr "demo"), w);
  ba_get_spend_authorization _ _ _ _ _ _ w := (Err (BrokerWholesaleAccountErr "demo"), w);
|}.
#[export] Instance demo_settlements : BrokerSettlementClient unit := {|
  bs_get_settlement _ _ w := (Ok None, w);
  bs_get_job_exchange _ _ w := (Err (BrokerSettlementQueryErr "demo"), w);
  bs_request_non_admission _ _ _ w := (Err (BrokerSettlementQueryErr "demo"), w);
|}.

(** The identifier its job is served under. *)
Definition demo_request : string := "00000000-0000-0000-0000-000000000015".

(** The signed record of the job: five tokens, 18 wei. *)
Definition demo_claim : SettlementRecord :=
  MkSettlementRecord "acct" (MkQuoteRef "q" 1 (repeat x01 32) (repeat x02 32)) "tokens" 5 5 [x23] [x12]
    1 [] "" ("loc-auth:" ++ demo_request) "" 0 5 5 0 [] [x07] 2 0 "closed" "job" 0 "" demo_request ("loc-auth:" ++ demo_request) [x23] [] []
    (ro_settlement_domain_id demo_job_route).

#[export] Instance demo_crypto : SettlementLib := {|
  sl_canonicalize _ := Some [];
  sl_keccak b := b;
  sl_recover _ _ := Some (repeat x01 64);
  sl_parse_record _ := Some demo_claim;
  sl_parse_non_admission _ := None;
|}.

Definition demo_envelope_of_job : SettlementEnvelope :=
  MkSettlementEnvelope [("issued_at", JStr "t")]
    (Some ("0x" ++ bytes_hex (repeat x01 64 ++ [x1b])%list)).

(** Bodies and answers that no one reads back. *)
#[export] Instance demo_model A : Model A :=
  {| model_dump _ := []; model_validate _ := Err (ValueError "demo") |}.
#[export] Instance demo_models : Models := {|
  m_prepare_request := demo_model _; m_prepare_response := demo_model _;
  m_create_request := demo_model _; m_create_response := demo_model _;
  m_refill_request := demo_model _; m_refill_response := demo_model _;
  m_job_request := demo_model _; m_job_response := demo_model _;
  m_billing_config := demo_model _;
|}.

(** Secrets that count, passwords stored as they are, cookies left unsigned and
    mail that always goes out. *)
Definition demo_token (n : nat) : string := bytes_hex (repeat (byte_of_Z (Z.of_nat n)) 16).

#[export] Instance demo_credentials : Credentials unit := {|
  cr_token_urlsafe := demo_token;
  cr_argon2_hash _ p := p;
  cr_argon2_verify stored p := if String.eqb stored p then Verified else VerifyMismatch;
  cr_cookie_dumps _ _ _ t := t;
  cr_cookie_loads _ _ _ _ c := Some (JStr c);
  cr_send _ w := (Ok None, w);
|}.

(** A process without memory, whose webhooks arrive and whose catalog is empty. *)
#[export] Instance demo_edges : Edges unit := {|
  e_limiter := {| ls_monotonic _ := double 0; ls_buckets _ := ∅; ls_set_buckets _ w := w |};
  e_memory := {| pm_throttles _ := MkThrottles ∅ ∅; pm_set_throttles _ w := w |};
  e_brokers := {| bc_operators _ := MkBrokerOperators ∅ (double 0); bc_set_operators _ w := w |};
  e_transport := {| wt_post _ _ _ w := (Ok 200, w) |};
  e_catalog := {| cc_list_catalog w := (Err inconclusive, w) |};
  e_events := {| parse_event _ := None |};
  e_ed25519 := {| ed_public b := b; ed_sign b _ := b; ed_verify _ _ _ := false |};
  e_times := {| wf_created_at _ := DT 0 true |};
  e_hostname := None;
|}.

Definition by_key (n : nat) : Headers := MkHeaders (Some (api_key_of (demo_token n))) None None.
Definition by_cookie (n : nat) : Headers := MkHeaders None None (Some (demo_token n)).
Definition by_operator : Headers := MkHeaders None (Some "Bearer root") None.

(** A customer's way through the service: the operator's account, signing up,
    verifying the address, logging in, an API key, the operator's approval with
    its credit, a job of at most ten tokens and its settlement. *)
Definition demo_operations : list operation :=
  [DoBootstrap;
   DoSignup "dev@example.org" "correct horse battery";
   DoVerifyEmail (demo_token 3);
   DoLogin "dev@example.org" "correct horse battery";
   DoCreateApiKey (by_cookie 8) "prod";
   DoApproveUser by_operator 2%N;
   DoOpenJob (by_key 13) (MkCreateJobRequest "cap" "off" "unary" 8 (Some 10) None
     (bytes_hex (repeat x0a 32)) ("02" ++ bytes_hex (repeat x0b 32))) "k1" None;
   DoReconcileSessions; DoReconcileJobs;
   DoSettleJob (by_key 13) 23%N (MkSettleJobRequest 5 "job" "tokens" None demo_envelope_of_job)].

Definition demo_db : DB := on_budget (fun _ => Some 0) db_empty.
Definition demo_start : St DB unit := MkSt demo_db demo_db false [] 0%nat tt.

(** The service after the first requests of that way. *)
Definition demo_at (n : nat) : St DB unit :=
  run_service (R := demo_clock) demo_settings (firstn n demo_operations) demo_start.
