(* ===== verification/OauthEndpoints.v ===== *)
(** * Signing in by OAuth

    [providers/oauth/registry.py] and the OAuth endpoints of
    [domains/accounts/runtime.py]: which providers are configured, what a
    callback asks of them, and whom it signs in.  The authlib clients and
    GitHub's API are parameters. *)

From S2P Require Import Prelude PyData Errors Effects Store Settings Mail Credentials Accounts.
From S2P Require Import SettlementProps Access Demo.

Open Scope string_scope.
Open Scope Z_scope.
Open Scope loc_scope.

(** ** The registry *)

Definition PROVIDERS : list string := ["google"; "github"].

(** [_has_secret]. *)
Definition has_secret (secret : option string) : bool :=
  match secret with Some s => str_truthy s | None => false end.

(** [_maybe_register_google], [_maybe_register_github]: the test before each. *)
Definition registers (client_id secret : option string) : bool :=
  has_secret client_id && has_secret secret.

(** [get_oauth]: the names registered, in order. *)
Definition registered (settings : Settings) : list string :=
  ((if registers (cfg_google_oauth_client_id settings) (cfg_google_oauth_client_secret settings)
    then ["google"] else [])
   ++ (if registers (cfg_github_oauth_client_id settings) (cfg_github_oauth_client_secret settings)
       then ["github"] else []))%list.

(** [is_enabled]. *)
Definition oauth_is_enabled (settings : Settings) (provider : string) : bool :=
  existsb (String.eqb provider) PROVIDERS
  && existsb (String.eqb provider) (registered settings).

(** [oauth_providers_endpoint]. *)
Definition oauth_providers_endpoint (settings : Settings) : list string :=
  List.filter (oauth_is_enabled settings) ["google"; "github"].

(** ** The providers *)

(** The claims of an OpenID token the callback reads. *)
Record UserInfo := MkUserInfo {
  ui_sub : option string;
  ui_email : option string;
  ui_email_verified : option json;
}.

(** What authlib returns of an exchange. *)
Record OAuthToken := MkOAuthToken {
  tk_userinfo : option UserInfo;
  tk_access_token : option string;
}.

Record ApiResponse := MkApiResponse { ar_status : Z; ar_json : option json }.

(** The authlib client of a registered provider: the redirect to it, and the
    exchange of the callback's code; and a GET of GitHub's API. *)
Class OAuthWorld (W : Type) := {
  ow_create_client : string -> bool;
  ow_authorize_redirect : string -> W -> res string * W;
  ow_authorize_access_token : string -> W -> res OAuthToken * W;
  ow_get : string -> list (string * string) -> W -> res ApiResponse * W;
}.

Section oauth.
Context {W : Type} {R : Runtime} {K : Credentials W} {O : OAuthWorld W}.
Local Abbreviation M := (M DB W).

Definition provider_disabled : exn := HTTPException 404 "oauth_provider_disabled".

(** The client of an enabled provider. *)
Definition enabled_client (settings : Settings) (provider : string) : M unit :=
  guard (oauth_is_enabled settings provider) provider_disabled ;;;
  guard (ow_create_client provider) provider_disabled.

(** [oauth_login_endpoint]: the address to redirect to. *)
Definition oauth_login_endpoint (settings : Settings) (provider : string) : M string :=
  enabled_client settings provider ;;; remote (ow_authorize_redirect provider).

(** A GET, [raise_for_status] and [.json()]. *)
Definition read_response (r : ApiResponse) : res json :=
  let? _ := require ((200 <=? ar_status r) && (ar_status r <? 300)) (LibraryErr "HTTPStatusError") in
  of_option (ar_json r) (ValueError "JSONDecodeError").
Definition github_get (access_token path : string) : M json :=
  r <- remote (ow_get ("https://api.github.com" ++ path)
         [("Authorization", "token " ++ access_token);
          ("Accept", "application/vnd.github+json")]) ;;
  lift (read_response r).

(** [e.get("primary") and e.get("verified")]. *)
Definition says (k : string) (e : dict) : bool :=
  match dget k e with Some v => json_truthy v | None => false end.
Definition primary_and_verified (e : dict) : bool := says "primary" e && says "verified" e.

(** [next((e for e in emails if ...), None)] over [emails_resp.json() or []]. *)
Fixpoint first_verified (l : list json) : res (option dict) :=
  match l with
  | [] => Ok None
  | JObj e :: l' => if primary_and_verified e then Ok (Some e) else first_verified l'
  | _ :: _ => Err AttributeError
  end.
Definition primary_verified (emails : json) : res (option dict) :=
  if negb (json_truthy emails) then Ok None else
  match emails with
  | JArr l => first_verified l
  | JStr _ | JObj _ => Err AttributeError
  | _ => Err TypeError
  end.

(** [profile["id"]] and the like. *)
Definition item (k : string) (j : json) : res json :=
  match j with JObj d => of_option (dget k d) KeyError | _ => Err TypeError end.

(** [_github_userinfo]; GitHub's addresses are strings. *)
Definition github_userinfo (token : OAuthToken) : M (string * string * bool) :=
  access_token <- lift (match tk_access_token token with
                        | Some t => if str_truthy t then Ok t
                                    else Err (HTTPException 400 "oauth_no_token")
                        | None => Err (HTTPException 400 "oauth_no_token")
                        end) ;;
  profile <- github_get access_token "/user" ;;
  emails <- github_get access_token "/user/emails" ;;
  found <- lift (primary_verified emails) ;;
  match found with
  | None => raise (HTTPException 400 "oauth_email_unverified")
  | Some e =>
      id <- lift (item "id" profile) ;;
      email <- lift (of_option (dget "email" e) KeyError) ;;
      address <- lift (of_option (as_str (Some email)) (LibraryErr "DBAPIError")) ;;
      ret (py_str id, address, true)
  end.

(** The claims of Google's token. *)
Definition google_userinfo (token : OAuthToken) : res (string * string * bool) :=
  let info := or_else (tk_userinfo token) (MkUserInfo None None None) in
  let verified := match ui_email_verified info with Some v => json_truthy v | None => false end in
  match ui_sub info, ui_email info with
  | Some sub, Some email =>
      if str_truthy sub && str_truthy email then Ok (sub, email, verified)
      else Err (HTTPException 400 "oauth_no_profile")
  | _, _ => Err (HTTPException 400 "oauth_no_profile")
  end.

(** [oauth_callback_endpoint]: the user signed in, and the cookie. *)
Definition oauth_callback_endpoint (settings : Settings) (provider : string) : M (User * string) :=
  enabled_client settings provider ;;;
  token <- try_except (remote (ow_authorize_access_token provider))
    (fun _ => Some (raise (HTTPException 400 "oauth_exchange_failed"))) ;;
  '(provider_user_id, email, email_verified) <-
    (if String.eqb provider "google" then lift (google_userinfo token)
     else if String.eqb provider "github" then github_userinfo token
     else raise provider_disabled) ;;
  oauth_login provider provider_user_id email email_verified settings.

End oauth.

(** ** Facts *)

(** What the provider vouches for: its user's id and a verified address. *)
Definition github_answers {W} {O : OAuthWorld W} (access_token path : string) (w : W) (j : json)
    (w' : W) : Prop :=
  exists r,
    ow_get ("https://api.github.com" ++ path)
      [("Authorization", "token " ++ access_token); ("Accept", "application/vnd.github+json")] w
    = (Ok r, w') /\ 200 <= ar_status r < 300 /\ ar_json r = Some j.

Definition vouched {W} {R : Runtime} {O : OAuthWorld W} (provider : string) (token : OAuthToken)
    (w : W) (id email : string) : Prop :=
  (provider = "google" /\ exists info v,
     tk_userinfo token = Some info /\ ui_sub info = Some id /\ ui_email info = Some email /\
     ui_email_verified info = Some v /\ json_truthy v = true) \/
  (provider = "github" /\ exists access profile emails e j w1 w2,
     tk_access_token token = Some access /\
     github_answers access "/user" w (JObj profile) w1 /\
     github_answers access "/user/emails" w1 (JArr emails) w2 /\
     dget "id" profile = Some j /\ id = py_str j /\
     JObj e ∈ emails /\ says "primary" e = true /\ says "verified" e = true /\
     dget "email" e = Some (JStr email)).

(** Whom a sign-in may be for: the user linked to the provider's id, or the one
    of the address, verified and linked from now on. *)
Definition linked_user (provider id : string) (d : DB) (u : User) : Prop :=
  exists i, i ∈ i_oauth (t_identity d) /\ identity_of provider id i = true /\
    user_by_id (oi_user_id i) d = Some u.
Definition newly_linked (provider id email : string) (d : DB) (u : User) : Prop :=
  us_email u = email /\ us_email_verified_at u <> None /\
  MkUserOAuthIdentity (us_id u) provider id email ∈ i_oauth (t_identity d).

Section facts.
Context {W : Type} {R : Runtime} {K : Credentials W} {O : OAuthWorld W}.
Implicit Types (s : St DB W).

Lemma insert_unique_working clash g s u s1 :
  insert_unique clash g s = (Ok u, s1) -> st_working s1 = g (st_working s).
Proof.
  unfold insert_unique. intros H. prim_inv.
  match goal with Hp : db_peek _ = _ |- _ => injection Hp as <- <- end.
  match goal with Hr : db_race _ = _ |- _ => revert Hr end.
  unfold db_race. destruct (st_races _) as [|[f|] l]; intros [=]; by subst.
Qed.

Lemma user_by_email_email email d u : user_by_email email d = Some u -> us_email u = email.
Proof.
  unfold user_by_email, has_email. intros [_ H]%find_some. by apply String.eqb_eq in H.
Qed.

Lemma link_identity_ok user_id provider id email s u s1 :
  link_identity user_id provider id email s = (Ok u, s1) ->
  MkUserOAuthIdentity user_id provider id email ∈ i_oauth (t_identity (st_working s1)).
Proof.
  intros ->%insert_unique_working. cbn. apply elem_of_app. right. by left.
Qed.

Lemma find_or_link_ok provider id email v s u s1 :
  find_or_link_user provider id email v s = (Ok u, s1) ->
  v = true /\ (linked_user provider id (st_working s) u \/
               newly_linked provider id email (st_working s1) u).
Proof.
  unfold find_or_link_user. intros H. prim_inv. split; [done|].
  destruct (match find _ _ with Some i => _ | None => None end) as [w|] eqn:El.
  { prim_inv. left. destruct (find _ _) as [i|] eqn:Ei; [|done].
    apply find_some in Ei as [Hi He]. exists i. by rewrite list_elem_of_In. }
  right. prim_inv. destruct (user_by_email email _) as [w|] eqn:Ew.
  - prim_inv. apply user_by_email_email in Ew.
    match goal with Hl : link_identity _ _ _ _ _ = _ |- _ => apply link_identity_ok in Hl end.
    split; [by destruct (is_some _)|]. split; [|by destruct (is_some _)].
    by destruct (us_email_verified_at w) eqn:Ev; cbn; rewrite ?Ev.
  - unfold insert_user in *. prim_inv.
    match goal with Hl : link_identity _ _ _ _ _ = _ |- _ => apply link_identity_ok in Hl end.
    by split.
Qed.

Lemma oauth_login_ok provider id email v settings s u sealed s1 :
  oauth_login provider id email v settings s = (Ok (u, sealed), s1) ->
  v = true /\
  (linked_user provider id (st_working s) u \/ newly_linked provider id email (st_working s1) u) /\
  exists raw expires,
    MkUserSession (us_id u) (hash_token raw) expires None ∈ i_web_session (t_identity (st_working s1)).
Proof.
  unfold oauth_login. rewrite bind_ok. intros (w & s2 & Hf & H).
  assert (find_or_link_user provider id email v s = (Ok w, s2)) as [-> Hw]%find_or_link_ok.
  { revert Hf. unfold try_except. destruct (find_or_link_user _ _ _ _ s) as [[x|e] s3]; [done|].
    by destruct e. }
  injection H as -> _ <-. split; [done|]. split; [exact Hw|]. do 2 eexists.
  cbn. apply elem_of_app. right. by left.
Qed.

Lemma github_get_ok access path s j s1 :
  github_get access path s = (Ok j, s1) ->
  st_working s1 = st_working s /\ github_answers access path (st_world s) j (st_world s1).
Proof.
  unfold github_get. intros H. prim_inv. unfold read_response in *. res_inv. opt_inv. bool_props.
  match goal with Hr : remote _ _ = _ |- _ => pose proof Hr as Hw; apply remote_ok in Hr end.
  split; [|eexists; split; [eassumption|done]].
  revert Hw. unfold remote. destruct (ow_get _ _ _). by intros [= _ <-].
Qed.

Lemma first_verified_ok l e :
  first_verified l = Ok (Some e) ->
  JObj e ∈ l /\ says "primary" e = true /\ says "verified" e = true.
Proof.
  induction l as [|j l IH]; [done|]. destruct j; cbn; try done.
  unfold primary_and_verified.
  destruct (says "primary" d) eqn:Ep, (says "verified" d) eqn:Ev; cbn;
    [intros [= <-]; split; [by left|done]| | |];
    (intros [? ?]%IH; split; [by right|done]).
Qed.

Lemma github_userinfo_ok token s id email v s1 :
  github_userinfo token s = (Ok (id, email, v), s1) ->
  st_working s1 = st_working s /\ vouched "github" token (st_world s) id email.
Proof.
  unfold github_userinfo. intros H. prim_inv.
  repeat match goal with Hg : github_get _ _ _ = _ |- _ => apply github_get_ok in Hg as [? ?] end.
  destruct (tk_access_token token) as [access|] eqn:Ea; [|done].
  destruct (str_truthy access); [|done]. simplify_eq.
  match goal with Hp : primary_verified ?j = Ok ?o |- _ =>
    destruct o as [e|]; [|by destruct (raise_ok _ _ _ _ H)]; rename Hp into He; destruct j end;
    unfold primary_verified in He; cbn in He; try done; try (by destruct (negb _)).
  assert (first_verified l = Ok (Some e)) as [Hin [Hp Hv]]%first_verified_ok by (by destruct l).
  prim_inv. destruct x1 as [| | | | |profile]; try done. cbn in *. opt_inv. split; [congruence|].
  assert (dget "email" e = Some (JStr email)) by (case_match; by simplify_eq).
  right. split; [done|]. simplify_eq.
  do 7 eexists. by split_and!; try eassumption.
Qed.

Lemma google_userinfo_ok token w id email :
  google_userinfo token = Ok (id, email, true) -> vouched "google" token w id email.
Proof.
  unfold google_userinfo. destruct (tk_userinfo token) as [info|] eqn:Ei; cbn; [|done].
  destruct (ui_sub info) as [sub|] eqn:Es, (ui_email info) as [mail|] eqn:Em; try done.
  destruct (_ && _); intros [= <- <- Hv]. left. split; [done|].
  destruct (ui_email_verified info) as [v|] eqn:Ev; [|done]. by exists info, v.
Qed.

Lemma enabled_client_ok settings provider s u s1 :
  enabled_client settings provider s = (Ok u, s1) ->
  oauth_is_enabled settings provider = true /\ s1 = s.
Proof. unfold enabled_client. intros H. by prim_inv. Qed.

(** The claims the callback goes on with, vouched for once they say verified. *)
Definition userinfo (provider : string) (token : OAuthToken) : M DB W (string * string * bool) :=
  if String.eqb provider "google" then lift (google_userinfo token)
  else if String.eqb provider "github" then github_userinfo token
  else raise provider_disabled.

Lemma userinfo_ok provider token s id email s1 :
  userinfo provider token s = (Ok (id, email, true), s1) ->
  st_working s1 = st_working s /\ vouched provider token (st_world s) id email.
Proof.
  unfold userinfo. destruct (String.eqb_spec provider "google") as [->|_].
  { intros H. prim_inv. split; [done|]. by apply google_userinfo_ok. }
  destruct (String.eqb_spec provider "github") as [->|_]; [apply github_userinfo_ok|].
  intros H. by prim_inv.
Qed.

End facts.

(** C12: An OAuth sign-in is vouched for. When a callback signs someone in, the provider is one with
    credentials configured, it exchanged the callback's code, and it vouched for the address as
    verified: Google by its token, GitHub by listing the address as primary and verified. The
    account is the one already linked to the provider's user, or that of this very address,
    verified and linked to it from now on; and the session that is opened is that account's. *)
Theorem oauth_sign_in_is_vouched {W} {R : Runtime} {K : Credentials W} {O : OAuthWorld W}
    (settings : Settings) (provider : string) (s : St DB W) :
  match oauth_callback_endpoint settings provider s with
  | (Ok (user, sealed), s') =>
      oauth_is_enabled settings provider = true /\
      exists token w id email,
        ow_authorize_access_token provider (st_world s) = (Ok token, w) /\
        vouched provider token w id email /\
        (linked_user provider id (st_working s) user \/
         newly_linked provider id email (st_working s') user) /\
        exists raw expires, MkUserSession (us_id user) (hash_token raw) expires None
                              ∈ i_web_session (t_identity (st_working s'))
  | (Err _, _) => True
  end.
Proof.
  destruct (oauth_callback_endpoint settings provider s) as [[[user sealed]|] s'] eqn:E; [|done].
  unfold oauth_callback_endpoint in E. apply bind_ok in E as ([] & s1 & [Hen ->]%enabled_client_ok & E).
  split; [done|]. apply bind_ok in E as (token & s2 & Ht%try_raise_ok & E).
  apply bind_ok in E as ([[id email] v] & s3 & Hu & E).
  apply oauth_login_ok in E as (-> & Hl & Hs).
  apply userinfo_ok in Hu as [Hw Hv].
  exists token, (st_world s2), id, email. split; [by apply remote_ok|]. split; [done|].
  split; [|done]. assert (st_working s2 = st_working s) as <-; [|by rewrite <-Hw].
  revert Ht. unfold remote. destruct (ow_authorize_access_token _ _). by intros [= _ <-].
Qed.

(** A customer of Google's whose address nobody has signed up with yet. *)
Definition google_settings : Settings :=
  match default_settings with
  | MkSettings a1 a2 a3 a4 a5 a6 a7 a8 a9 a10 a11 a12 a13 a14 a15 a16 a17 a18 a19 a20 a21 a22 a23
      a24 a25 a26 a27 a28 a29 a30 a31 a32 a33 a34 a35 a36 a37 a38 a39 a40 _ _ c d e f =>
      MkSettings a1 a2 a3 a4 a5 a6 a7 a8 a9 a10 a11 a12 a13 a14 a15 a16 a17 a18 a19 a20 a21 a22 a23
        a24 a25 a26 a27 a28 a29 a30 a31 a32 a33 a34 a35 a36 a37 a38 a39 a40 (Some "id")
        (Some "secret") c d e f
  end.

#[local] Instance google_world : OAuthWorld unit := {
  ow_create_client _ := true;
  ow_authorize_redirect p w := (Ok p, w);
  ow_authorize_access_token _ w :=
    (Ok (MkOAuthToken (Some (MkUserInfo (Some "42") (Some "a@b.c") (Some (JBool true)))) None), w);
  ow_get _ _ w := (Err (LibraryErr "offline"), w);
}.

Example google_signs_in :
  match oauth_callback_endpoint (R := demo_clock) google_settings "google" demo_start with
  | (Ok (user, sealed), s') =>
      us_email user = "a@b.c" /\ is_some (us_email_verified_at user) = true /\
      length (i_oauth (t_identity (st_working s'))) = 1%nat
  | _ => False
  end.
Proof. vm_compute. done. Qed.
