(* ===== verification/NoticeProps.v ===== *)
(** * Notices: what they promise

    An emission never raises and writes logs only; a trigger fires the channels
    its user enabled; preferences are what was set, or the defaults; a mail
    event counts once; a batch of telemetry is accounted for event by event. *)

From S2P Require Import Prelude PyData Errors Effects Store Settings Payments Mail Credentials.
From S2P Require Import Accounts Operators Webhooks Telemetry Notifications ServerEvents IdentitySpec.
From S2P Require Import ServiceTx SettlementProps Engagements Demo.

Open Scope string_scope.
Open Scope Z_scope.
Open Scope loc_scope.

(** ** Computations that return *)

Definition returns {W A} (m : M DB W A) : Prop := forall s, exists a s', m s = (Ok a, s').

Section returns.
Context {W : Type}.

Lemma returns_ret {A} (a : A) : returns (W := W) (ret a).
Proof. intros s. by exists a, s. Qed.

Lemma returns_bind {A B} (m : M DB W A) (f : A -> M DB W B) :
  returns m -> (forall a, returns (f a)) -> returns (bind m f).
Proof.
  intros Hm Hf s. destruct (Hm s) as (a & s1 & H). rewrite (bind_step _ _ _ _ _ H). apply Hf.
Qed.

Lemma returns_try {A} (m : M DB W A) h :
  (forall e, exists k, h e = Some k /\ returns k) -> returns (try_except m h).
Proof.
  intros Hh s. unfold try_except. destruct (m s) as [[a|e] s1]; [by exists a, s1|].
  destruct (Hh e) as (k & -> & Hk). apply Hk.
Qed.

Lemma returns_tick {A} (f : nat -> A) : returns (W := W) (tick f).
Proof. intros s. by eexists _, _. Qed.

Lemma returns_read : returns (W := W) db_read.
Proof. intros s. by eexists _, _. Qed.

Lemma returns_remote {A} (f : W -> A * W) :
  returns (remote (fun w => let '(a, w') := f w in (Ok a, w'))).
Proof. intros s. unfold remote. destruct (f (st_world s)) as [a w]. by eexists _, _. Qed.

Lemma returns_swallow {A} (m : M DB W A) : returns (swallow m).
Proof. apply returns_try. intros e. eexists. split; [done|apply returns_ret]. Qed.

Lemma returns_or_false (m : M DB W bool) : returns (or_false m).
Proof. apply returns_try. intros e. eexists. split; [done|apply returns_ret]. Qed.
End returns.

#[local] Hint Resolve returns_ret returns_tick returns_read returns_swallow returns_or_false : loc.
Ltac returns :=
  repeat first
    [ solve [auto with loc nocore]
    | lazymatch goal with
      | |- returns (bind _ _) => apply returns_bind; [|intros ?]
      | |- returns (match ?x with _ => _ end) => destruct x
      | |- returns (let _ := _ in _) => cbv zeta
      | |- returns (try_except _ _) =>
          apply returns_try; intros ?; eexists; split; [reflexivity|]
      end ].

(** ** Emissions *)

Section emissions.
Context {W : Type} {R : Runtime} {K : Credentials W} {T : WebhookTransport W} {P : ProcessMemory W}.
Context (settings : Settings) (hostname : option string).

(** The events the service can emit. *)
Inductive emission :=
  | MintServed (key user : uuid) (capability offering protocol : string) (units funded ms : Z)
      (correlation_id : option uuid)
  | MintRefused (key user : uuid) (capability offering : option string) (cap : string)
      (remaining : Z)
  | RefillServed (key user session : uuid) (seq funded : Z) (cap_status : dict)
  | RefillDenied (key user session : uuid) (seq : Z) (cap : string) (remaining : Z)
  | SettlementFailed (key : option uuid) (user session : uuid) (protocol reason : string)
  | JanitorFinalized (key user session : uuid) (units billed refund : Z) (outcome : string)
      (silence : Z)
  | ShaMismatch (key user : uuid) (lang semver sha status : string)
  | ShaChecked (key user : uuid) (sdk_identity : option string).

Definition emit (e : emission) : M DB W unit :=
  match e with
  | MintServed k u a b c n f ms i => emit_mint_served settings hostname k u a b c n f ms i
  | MintRefused k u a b c n => emit_mint_refused settings hostname k u a b c n
  | RefillServed k u s n f d => emit_refill_served settings hostname k u s n f d
  | RefillDenied k u s n c r => emit_refill_denied settings hostname k u s n c r
  | SettlementFailed k u s a b => emit_settlement_verification_failed settings hostname k u s a b
  | JanitorFinalized k u s a b c d e =>
      emit_session_janitor_finalized settings hostname k u s a b c d e
  | ShaMismatch k u a b c d => emit_sdk_sha_mismatch settings hostname k u a b c d
  | ShaChecked k u h => emit_sha_mismatch_if_unapproved settings hostname k u h
  end.

Lemma returns_sdk_outdated u l v st : returns (maybe_notify_sdk_outdated settings u l v st).
Proof.
  unfold maybe_notify_sdk_outdated, clock_now. returns.
  - unfold throttles. apply (returns_remote (fun w => (pm_throttles w, w))).
  - apply (returns_remote (fun w => (tt, pm_set_throttles _ w))).
Qed.
#[local] Hint Resolve returns_sdk_outdated : loc.

Lemma returns_sha_mismatch k u a b c d : returns (emit_sdk_sha_mismatch settings hostname k u a b c d).
Proof. unfold emit_sdk_sha_mismatch, safe_emit. returns. Qed.
#[local] Hint Resolve returns_sha_mismatch : loc.

Lemma returns_emit e : returns (emit e).
Proof.
  destruct e; cbn [emit]; unfold emit_mint_served, emit_mint_refused, emit_refill_served,
    emit_refill_denied, emit_settlement_verification_failed, emit_session_janitor_finalized,
    emit_sha_mismatch_if_unapproved, evaluate_sdk_identity, safe_emit, safe_emit_independent,
    maybe_notify_cap_reached, maybe_notify_winddown; returns.
Qed.

(** Predicates that do not look at the telemetry log, the banners and the
    record of mail. *)
Record log_blind (Q : DB -> Prop) : Prop := {
  blind_telemetry : forall f d, Q d -> Q (on_telemetry f d);
  blind_portal : forall f d, Q d -> Q (on_portal f d);
  blind_email : forall f d, Q d -> Q (on_email_send f d);
}.

Section blind.
Context (Q : DB -> Prop) (C : (DB -> DB) -> Prop) `{!Behaved Q C} (Hq : log_blind Q).
Local Abbreviation I := (among (W := W) Q C).

Lemma blind_modify_telemetry f : Keeps I (db_modify (on_telemetry f)).
Proof. apply among_modify. intros d. by apply blind_telemetry. Qed.
Lemma blind_independent_telemetry f : Keeps I (db_independent (on_telemetry f)).
Proof. apply among_independent; [done|]. intros d. by apply blind_telemetry. Qed.
Lemma blind_independent_portal f : Keeps I (db_independent (on_portal f)).
Proof. apply among_independent; [done|]. intros d. by apply blind_portal. Qed.
Lemma blind_independent_email f : Keeps I (db_independent (on_email_send f)).
Proof. apply among_independent; [done|]. intros d. by apply blind_email. Qed.

#[local] Hint Resolve blind_modify_telemetry blind_independent_telemetry
  blind_independent_portal blind_independent_email : loc.

Lemma blind_emit e : Keeps I (emit e).
Proof. destruct e; cbn [emit]; spread. Qed.
End blind.

End emissions.

(** Telemetry never breaks the data plane. Whatever fails on the way, the database, the mail
    provider, a user's webhook, emitting a server event returns to its caller; and no invariant of
    the tables other than the telemetry log, the portal's banners and the record of sent mail can
    be broken by it, whoever commits meanwhile. *)
Theorem emissions_spare_the_data_plane {W : Type} {R : Runtime} {K : Credentials W}
    {T : WebhookTransport W} {P : ProcessMemory W} (settings : Settings)
    (hostname : option string) (e : emission) (s : St DB W) :
  exists s', emit settings hostname e s = (Ok tt, s') /\
    forall (Q : DB -> Prop) (C : (DB -> DB) -> Prop),
      Behaved Q C -> log_blind Q -> among Q C s -> among Q C s'.
Proof.
  destruct (returns_emit settings hostname e s) as ([] & s' & H). exists s'. split; [done|].
  intros Q C Hb Hq Hs. pose proof (blind_emit settings hostname Q C Hq e s Hs) as Hk.
  by rewrite H in Hk.
Qed.

(** ** The fan-out *)

Section fan_out.
Context {W : Type} {R : Runtime} {K : Credentials W} {T : WebhookTransport W}.

Lemma returns_fire_email p to subject body u : returns (W := W) (fire_email p to subject body u).
Proof.
  unfold fire_email. destruct (negb p); [returns|].
  apply returns_bind; [returns|]. intros [id|]; returns.
Qed.

Lemma returns_fire_if b channel (m : M DB W bool) fired s :
  returns m -> exists s' fired', fire_if b channel m fired s = (Ok fired', s') /\
    map fst fired' = (map fst fired ++ (if b then [channel] else []))%list.
Proof.
  intros Hm. unfold fire_if. destruct b; [|exists s, fired; by rewrite app_nil_r].
  destruct (Hm s) as (a & s1 & H). rewrite (bind_step _ _ _ _ _ H).
  eexists s1, _. split; [reflexivity|]. by rewrite map_app.
Qed.
End fan_out.

(** The fan-out of a trigger. It never raises, and attempts exactly the channels the user has
    enabled for the trigger, banner, mail and webhook in this order, by their own preference or
    else the default; for a user who does not exist, none. *)
Theorem fan_out_follows_preferences {W : Type} {R : Runtime} {K : Credentials W}
    {T : WebhookTransport W} (settings : Settings) (trigger : string) (user_id : uuid)
    (subject : string) (body : dict) (s : St DB W) :
  exists fired s', notify_trigger settings trigger user_id subject body s = (Ok fired, s') /\
    map fst fired =
      match user_by_id user_id (st_working s) with
      | None => []
      | Some _ => List.filter (pref (overrides_of user_id (t_notices (st_working s))) trigger)
                    [CHANNEL_IN_PORTAL; CHANNEL_EMAIL; CHANNEL_WEBHOOK]
      end.
Proof.
  unfold notify_trigger. rewrite bind_db_read. destruct (user_by_id _ _) as [user|]; [|by eexists _, _].
  unfold list_overrides_for_user. rewrite bind_assoc, bind_db_read, bind_ret. cbn [st_working].
  set (enabled := pref _ trigger). set (s1 := MkSt _ _ _ _ _ _). clearbody s1.
  destruct (returns_fire_if (enabled CHANNEL_IN_PORTAL) CHANNEL_IN_PORTAL
    (fire_in_portal_independent user_id trigger body) [] s1) as (s2 & f2 & H2 & E2).
  { apply returns_or_false. }
  rewrite (bind_step _ _ _ _ _ H2).
  destruct (returns_fire_if (enabled CHANNEL_EMAIL) CHANNEL_EMAIL (fire_email (email_available settings)
    (us_email user) subject body (Some user_id)) f2 s2) as (s3 & f3 & H3 & E3).
  { apply returns_fire_email. }
  rewrite (bind_step _ _ _ _ _ H3).
  destruct (returns_fire_if (enabled CHANNEL_WEBHOOK) CHANNEL_WEBHOOK
    (fire_webhook settings user_id trigger body) f3 s3) as (s4 & f4 & H4 & E4).
  { apply returns_or_false. }
  exists f4, s4. split; [done|]. rewrite E4, E3, E2. cbn [map app List.filter].
  by destruct (enabled CHANNEL_IN_PORTAL), (enabled CHANNEL_EMAIL), (enabled CHANNEL_WEBHOOK).
Qed.

(** ** Preferences *)

Definition override_of (t c : string) (b : bool) : NotificationConfig := MkNotificationConfig t c b.
Definition cell (t c : string) (o : NotificationConfig) : bool :=
  String.eqb (nc_trigger o) t && String.eqb (nc_channel o) c.

Lemma cell_true t c o : cell t c o = true <-> nc_trigger o = t /\ nc_channel o = c.
Proof. unfold cell. by rewrite andb_true_iff, !String.eqb_eq. Qed.

Lemma elem_of_overrides u n o :
  o ∈ overrides_of u n <->
  n_config n !! (u, nc_trigger o, nc_channel o) = Some (nc_enabled o).
Proof.
  unfold overrides_of. rewrite list_elem_of_omap. split.
  - intros ([[[u' t] c] b] & Hin & Ho). cbn in Ho. destruct (N.eqb_spec u' u) as [->|]; [|done].
    injection Ho as <-. by apply elem_of_map_to_list.
  - intros Hl. exists ((u, nc_trigger o, nc_channel o), nc_enabled o).
    split; [by apply elem_of_map_to_list|]. cbn. rewrite N.eqb_refl. by destruct o.
Qed.

Lemma find_override u n t c :
  find (cell t c) (overrides_of u n) = override_of t c <$> n_config n !! (u, t, c).
Proof.
  destruct (n_config n !! (u, t, c)) as [b|] eqn:E; cbn.
  - destruct (find (cell t c) (overrides_of u n)) as [o|] eqn:F.
    + apply find_some in F as [Hin [<- <-]%cell_true]. apply list_elem_of_In, elem_of_overrides in Hin.
      rewrite Hin in E. injection E as <-. by destruct o.
    + exfalso. assert (Hin : override_of t c b ∈ overrides_of u n) by by apply elem_of_overrides.
      apply list_elem_of_In in Hin. pose proof (find_none _ _ F _ Hin) as Hc.
      by apply not_true_iff_false in Hc; apply Hc, cell_true.
  - destruct (find (cell t c) (overrides_of u n)) as [o|] eqn:F; [|done].
    apply find_some in F as [Hin [<- <-]%cell_true]. apply list_elem_of_In, elem_of_overrides in Hin.
    congruence.
Qed.

Lemma pref_lookup u n t c :
  pref (overrides_of u n) t c =
  match n_config n !! (u, t, c) with Some b => b | None => or_else (DEFAULTS !! (t, c)) false end.
Proof.
  unfold pref. change (find _ (overrides_of u n)) with (find (cell t c) (overrides_of u n)).
  rewrite find_override. by destruct (n_config n !! (u, t, c)).
Qed.

Definition override_in (m : gmap (string * string) bool) (o : NotificationConfig) :=
  <[(nc_trigger o, nc_channel o) := nc_enabled o]> m.

Lemma fold_overrides l m t c :
  (forall o o', o ∈ l -> o' ∈ l -> nc_trigger o = nc_trigger o' -> nc_channel o = nc_channel o' ->
     nc_enabled o = nc_enabled o') ->
  fold_left override_in l m !! (t, c) =
  match find (cell t c) l with Some o => Some (nc_enabled o) | None => m !! (t, c) end.
Proof.
  revert m. induction l as [|o l IH]; intros m Hl; [done|]. cbn [fold_left find].
  rewrite IH by (intros; apply Hl; (done || by right)).
  destruct (cell t c o) eqn:Ec.
  - apply cell_true in Ec as [Ht Hc].
    destruct (find (cell t c) l) as [o'|] eqn:F.
    + apply find_some in F as [Hin [Ht' Hc']%cell_true]. f_equal.
      apply Hl; [right; by apply list_elem_of_In|left|congruence|congruence].
    + unfold override_in. by rewrite Ht, Hc, lookup_insert_eq.
  - destruct (find (cell t c) l); [done|]. unfold override_in. rewrite lookup_insert_ne; [done|].
    intros [= Ht Hc]. apply not_true_iff_false in Ec. by apply Ec, cell_true.
Qed.

(** Preferences. Setting one changes that cell of that user and no other, of anyone; a refusal or
    a lost race changes nothing. What the portal shows a user, cell by cell, is what the fan-out
    goes by. *)
Theorem preferences_are_kept {W : Type} (user_id : uuid) (trigger channel : string) (enabled : bool)
    (s : St DB W) :
  match set_preference user_id trigger channel enabled s with
  | (Ok _, s1) => forall u t c,
      pref (overrides_of u (t_notices (st_working s1))) t c =
        (if decide ((u, t, c) = (user_id, trigger, channel)) then enabled
         else pref (overrides_of u (t_notices (st_working s))) t c)
  | (Err _, s1) => st_working s1 = st_working s
  end /\
  exists m, fst (resolved_prefs_for_user user_id s) = Ok m /\
    forall t c, or_else (m !! (t, c)) false =
                pref (overrides_of user_id (t_notices (st_working s))) t c.
Proof.
  split.
  - unfold set_preference. rewrite !bind_guard.
    destruct (existsb _ ALL_TRIGGERS); [|done]. destruct (existsb _ ALL_CHANNELS); [|done].
    rewrite bind_db_read.
    assert (Hw : forall s0 : St DB W, st_working s0 = st_working s -> forall u t c,
      pref (overrides_of u (t_notices (on_config <[(user_id, trigger, channel):=enabled]>
                                         (st_working s0)))) t c =
      if decide ((u, t, c) = (user_id, trigger, channel)) then enabled
      else pref (overrides_of u (t_notices (st_working s))) t c).
    { intros s0 -> u t c. rewrite !pref_lookup. cbn. case_decide as Hk.
      - by rewrite Hk, lookup_insert_eq.
      - by rewrite lookup_insert_ne by congruence. }
    destruct (n_config _ !! _).
    + rewrite bind_ret, bind_db_modify, bind_db_flush. exact (Hw s eq_refl).
    + unfold bind at 1. unfold db_race. cbn [st_races].
      destruct (st_races s) as [|[f|] r]; [|done|];
        rewrite bind_db_modify, bind_db_flush; exact (Hw s eq_refl).
  - unfold resolved_prefs_for_user, list_overrides_for_user. rewrite bind_assoc, bind_db_read, bind_ret.
    eexists. split; [reflexivity|]. intros t c.
    change (fun (out : gmap (string * string) bool) o => <[(nc_trigger o, nc_channel o) := nc_enabled o]> out) with override_in.
    rewrite fold_overrides.
    + rewrite find_override, pref_lookup. cbn. by destruct (n_config _ !! _).
    + intros o o' Ho Ho' Ht Hc. apply elem_of_overrides in Ho, Ho'. rewrite Ht, Hc in Ho.
      congruence.
Qed.

(** ** Mail events *)

Lemma find_snoc_last {A} (p : A -> bool) l x :
  find p l = None -> p x = true -> find p (l ++ [x]) = Some x.
Proof. intros Hl Hx. rewrite find_app, Hl. cbn. by rewrite Hx. Qed.

Lemma correlate_events {W} {R : Runtime} e (s : St DB W) r s1 :
  correlate e s = (r, s1) -> i_email_event (t_identity (st_working s1)) = i_email_event (t_identity (st_working s)).
Proof.
  unfold correlate. destruct (re_email_id e) as [m|]; [|by intros [= _ <-]].
  destruct (str_truthy m); [|by intros [= _ <-]]. rewrite bind_db_read.
  destruct (find _ _) as [send|]; [|by intros [= _ <-]].
  destruct (status_for_event _); cbn; by intros [= _ <-].
Qed.

(** A delivery of the mail provider counts once. When an event was taken, whether new or known
    already, every later delivery under the same identifier, whatever it carries, is answered with
    the same row as a duplicate and changes nothing. *)
Theorem mail_event_counts_once {W : Type} {R : Runtime} (event : ResendWebhookEvent)
    (provider_event_id : string) (s : St DB W) :
  match ingest_event event provider_event_id s with
  | (Ok (row, _), s1) => forall again : ResendWebhookEvent, exists s2,
      ingest_event again provider_event_id s1 = (Ok (row, false), s2) /\
      st_working s2 = st_working s1 /\ st_committed s2 = st_committed s1
  | (Err _, _) => True
  end.
Proof.
  assert (Hknown : forall (s1 : St DB W) row again,
    find (event_is provider_event_id) (i_email_event (t_identity (st_working s1))) = Some row ->
    exists s2, ingest_event again provider_event_id s1 = (Ok (row, false), s2) /\
      st_working s2 = st_working s1 /\ st_committed s2 = st_committed s1).
  { intros s1 row again Hf. unfold ingest_event. rewrite bind_db_read, Hf. by eexists. }
  destruct (ingest_event event provider_event_id s) as [[[row new]|e] s1] eqn:E; [|done].
  intros again. apply Hknown. unfold ingest_event in E. rewrite bind_db_read in E.
  destruct (find _ _) as [existing|] eqn:F; [by injection E as <- <- <-|].
  apply bind_ok in E as (send & s2 & Hc & E). apply correlate_events in Hc. cbn [st_working] in Hc.
  unfold clock_now, new_uuid in E. rewrite !bind_tick in E.
  apply bind_ok in E as ([] & s3 & Hi & [= <- <- <-]). unfold insert_unique in Hi.
  rewrite bind_db_peek, bind_guard in Hi. destruct (negb _); [|done].
  apply bind_ok in Hi as ([] & s4 & Hr & Hi). rewrite bind_db_modify in Hi. injection Hi as <-.
  unfold db_race in Hr. cbn [st_races] in Hr.
  assert (st_working s4 = st_working s2) as Hw
    by (destruct (st_races s2) as [|[f|] r]; by inversion Hr).
  cbn. rewrite Hw, Hc. apply find_snoc_last; [exact F|]. unfold event_is. cbn. apply String.eqb_refl.
Qed.

(** ** Batches *)

Definition valid_event (ev : IngestEventIn) : bool := negb (is_some (validate_event ev)).

(** What the row of an event says of it. *)
Definition row_of (api_key_id user_id : option uuid) (now : datetime) (ev : IngestEventIn)
    (e : TelemetryEvent) : Prop :=
  te_api_key_id e = api_key_id /\ te_user_id e = user_id /\
  te_event_type e = ie_event_type ev /\ te_payload e = ie_payload ev /\
  te_received_ts e = now /\ te_source e = SOURCE_SDK.

Lemma build_rows_ok {W} {R : Runtime} key user now base events rows0 (s : St DB W) :
  exists rows s', 
    mfold (fun rows '(ev, per_event) =>
      match validate_event ev with
      | Some _ => ret rows
      | None =>
          (id <- new_uuid ;;
           ret (rows ++ [sdk_row id key user now (or_else per_event base) ev])%list)%loc
      end) rows0 events s = (Ok (rows0 ++ rows)%list, s') /\
    st_working s' = st_working s /\ st_committed s' = st_committed s /\
    Forall2 (row_of key user now) (List.filter valid_event (map fst events)) rows.
Proof.
  revert rows0 s. induction events as [|[ev per] events IH]; intros rows0 s; cbn [mfold map fst].
  - exists [], s. rewrite app_nil_r. by repeat constructor.
  - cbn [List.filter]. unfold valid_event at 1. destruct (validate_event ev); cbn [is_some negb].
    + rewrite bind_ret. apply IH.
    + unfold new_uuid. rewrite bind_assoc, bind_tick, bind_ret.
      set (row := sdk_row _ key user now _ ev). set (s1 := MkSt _ _ _ _ _ _).
      destruct (IH (rows0 ++ [row])%list s1) as (rows & s' & H & Hw & Hc & Hf).
      exists (row :: rows), s'. rewrite <- app_assoc in H. split_and!; [exact H|done|done|].
      constructor; [by repeat split|exact Hf].
Qed.

Lemma reason_empty ev : String.eqb (or_else (validate_event ev) "") "" = valid_event ev.
Proof.
  unfold valid_event, validate_event. destruct (negb _); [done|]. destruct (_ <? _); [done|].
  by destruct (_ <? _)%nat.
Qed.

Lemma imap_fst {A B} (f : nat -> A -> A * B) (l : list A) :
  (forall i a, fst (f i a) = a) -> map fst (imap f l) = l.
Proof.
  revert f. induction l as [|a l IH]; intros f Hf; [done|]. cbn. rewrite Hf. f_equal.
  apply IH. intros i b. apply Hf.
Qed.



(** ** A refused mint *)

Section banners.
Context {W : Type} {R : Runtime} {K : Credentials W} {T : WebhookTransport W} {P : ProcessMemory W}.
Context (settings : Settings).

(** The banners, the accounts and the preferences, nobody else committing. *)
Definition posted (banners : list PortalNotification) (users : list User)
    (config : gmap (uuid * string * string) bool) (d : DB) : Prop :=
  n_portal (t_notices d) = banners /\ i_user (t_identity d) = users /\
  n_config (t_notices d) = config.
Local Abbreviation I b u c := (among (W := W) (posted b u c) (fun _ => False)).

#[local] Instance posted_behaved b u c : Behaved (posted b u c) (fun _ => False).
Proof. by intros f []. Qed.

Lemma posted_telemetry b u c f : Keeps (I b u c) (db_independent (on_telemetry f)).
Proof. by apply among_independent. Qed.
Lemma posted_email b u c f : Keeps (I b u c) (db_independent (on_email_send f)).
Proof. by apply among_independent. Qed.
#[local] Hint Resolve posted_telemetry posted_email : loc.

Lemma posted_fire_email b u c p to subject body id :
  Keeps (I b u c) (fire_email p to subject body id).
Proof. spread. Qed.
Lemma posted_fire_webhook b u c id t body : Keeps (I b u c) (fire_webhook settings id t body).
Proof. spread. Qed.

#[local] Hint Resolve posted_fire_email posted_fire_webhook : loc.

Lemma fire_banner b u c id t body s :
  I b u c s -> exists row s', fire_in_portal_independent id t body s = (Ok true, s') /\
    I (b ++ [row])%list u c s' /\ pn_user_id row = id /\ pn_trigger row = t /\ pn_body row = body.
Proof.
  intros [[(Hcb & Hcu & Hcc) (Hwb & Hwu & Hwc)] Hr].
  assert (Hn : st_races s = [] \/ exists r, st_races s = None :: r).
  { destruct (st_races s) as [|[f|] r] eqn:E; [by left| |right; by eexists].
    exfalso. apply (Hr f). left. }
  unfold fire_in_portal_independent, or_false, try_except, clock_now, new_uuid.
  rewrite !bind_tick. unfold db_independent. rewrite bind_assoc.
  set (row := banner _ id t body _). set (s1 := MkSt _ _ _ _ _ _).
  assert (Hrace : exists r, db_race s1 = (Ok tt, MkSt (st_committed s) (st_working s) (st_pending s) r
                    (S (S (st_ticks s))) (st_world s)) /\ forall f, Some f ∈ r -> False).
  { unfold db_race, s1. cbn [st_races]. destruct Hn as [E|[r E]]; rewrite E.
    - eexists. split; [reflexivity|]. by intros f ?%elem_of_nil.
    - eexists. split; [reflexivity|]. intros f Hf. apply (Hr f). rewrite E. by right. }
  destruct Hrace as (r & Hrace & Hrr). rewrite (bind_step _ _ _ _ _ Hrace).
  eexists row, _. split; [reflexivity|]. split; [|by repeat split].
  split; [|exact Hrr]. split; (split; [|by split]); cbn; congruence.
Qed.

Lemma notify_posts b u c t id subject body user s :
  I b u c s -> find (fun x => (us_id x =? id)%N) u = Some user ->
  pref (overrides_of id (MkNotices c b ∅ [])) t CHANNEL_IN_PORTAL = true ->
  exists row, I (b ++ [row])%list u c (snd (notify_trigger settings t id subject body s)) /\
    pn_user_id row = id /\ pn_trigger row = t /\ pn_body row = body.
Proof.
  intros Hs Hu Hp. unfold notify_trigger. rewrite bind_db_read.
  pose proof Hs as [[_ (Hwb & Hwu & Hwc)] _].
  assert (user_by_id id (st_working s) = Some user) as -> by (unfold user_by_id; by rewrite Hwu).
  unfold list_overrides_for_user. rewrite bind_assoc, bind_db_read, bind_ret. cbn [st_working].
  assert (pref (overrides_of id (t_notices (st_working s))) t CHANNEL_IN_PORTAL = true) as Hi.
  { rewrite pref_lookup in *. by rewrite Hwc. }
  unfold fire_if at 1. rewrite Hi.
  edestruct (fire_banner b u c id t body) as (row & s1 & H1 & HI & Hrow); [|].
  { apply (among_read (posted b u c) (fun _ => False) _ Hs). }
  rewrite bind_assoc. erewrite bind_step by exact H1. rewrite bind_ret.
  exists row. split; [|exact Hrow].
  assert (Hk : forall fired e w, Keeps (I (b ++ [row])%list u c)
    (fired <- fire_if e CHANNEL_EMAIL (fire_email (email_available settings) (us_email user) subject
                body (Some id)) fired ;;
     fire_if w CHANNEL_WEBHOOK (fire_webhook settings id t body) fired)%loc).
  { intros fired e w. unfold fire_if. destruct e, w; keeps. }
  by apply Hk.
Qed.

End banners.

(** A mint refused for a cap. The user is told twice: the code fires the notification of a
    reached cap two times in a row, and two banners that say the same are posted. *)
Theorem refused_mint_notifies_twice {W : Type} {R : Runtime} {K : Credentials W}
    {T : WebhookTransport W} {P : ProcessMemory W} (settings : Settings)
    (hostname : option string) (key user_id : uuid) (capability offering : option string)
    (cap : string) (remaining : Z) (user : User) (s : St DB W) :
  st_committed s = st_working s -> st_races s = [] ->
  user_by_id user_id (st_working s) = Some user ->
  pref (overrides_of user_id (t_notices (st_working s))) TRIGGER_CAP_REACHED CHANNEL_IN_PORTAL = true ->
  exists first second,
    n_portal (t_notices (st_committed (snd (emit_mint_refused settings hostname key user_id
      capability offering cap remaining s)))) =
      (n_portal (t_notices (st_committed s)) ++ [first; second])%list /\
    pn_trigger first = TRIGGER_CAP_REACHED /\ pn_trigger second = TRIGGER_CAP_REACHED /\
    pn_body first = pn_body second.
Proof.
  intros Hc Hr Hu Hp. set (b := n_portal (t_notices (st_committed s))).
  set (u := i_user (t_identity (st_working s))). set (c := n_config (t_notices (st_working s))).
  assert (Hs : among (posted b u c) (fun _ => False) s).
  { split; [unfold both, posted, b, u, c; rewrite Hc; by split_and!|].
    intros f Hf. rewrite Hr in Hf. by apply elem_of_nil in Hf. }
  rewrite pref_lookup in Hp. fold c in Hp.
  assert (Hn : forall b s, among (posted b u c) (fun _ => False) s ->
    exists row, among (posted (b ++ [row])%list u c) (fun _ => False)
      (snd (maybe_notify_cap_reached settings user_id cap remaining s)) /\
      pn_trigger row = TRIGGER_CAP_REACHED /\
      pn_body row = [("trigger", JStr TRIGGER_CAP_REACHED); ("which_cap", JStr cap);
                     ("remaining_wei", JInt remaining)]).
  { intros b0 s0 Hs0.
    destruct (notify_posts settings b0 u c TRIGGER_CAP_REACHED user_id
      (BRAND ++ " spend cap reached: " ++ cap) [("trigger", JStr TRIGGER_CAP_REACHED);
        ("which_cap", JStr cap); ("remaining_wei", JInt remaining)] user s0 Hs0 Hu) as (row & HI & _ & Ht & Hb).
    { rewrite pref_lookup. exact Hp. }
    exists row. split; [|done]. unfold maybe_notify_cap_reached, swallow, try_except, bind, notify_cap_reached.
    destruct (notify_trigger _ _ _ _ _ s0) as [[fired|e] s1]; exact HI. }
  unfold emit_mint_refused, safe_emit_independent.
  destruct (returns_swallow (server_event (fun row => db_independent (on_telemetry (fun l => l ++ [row])%list))
    "server.mint_refused" CURRENT_SCHEMA_VERSION
    [("capability", str_or_null capability); ("offering", str_or_null offering);
     ("which_cap", JStr cap); ("remaining_wei", JInt remaining)] (Some key) (Some user_id) None
    (Some (server_side_enrichment settings hostname))) s) as ([] & s1 & H1).
  rewrite (bind_step _ _ _ _ _ H1).
  assert (Hs1 : among (posted b u c) (fun _ => False) s1).
  { pose proof (posted_telemetry (W := W) b u c) as Ht.
    assert (Hk : Keeps (among (W := W) (posted b u c) (fun _ => False)) (swallow (server_event
      (fun row => db_independent (on_telemetry (fun l => l ++ [row])%list)) "server.mint_refused" CURRENT_SCHEMA_VERSION
      [("capability", str_or_null capability); ("offering", str_or_null offering);
       ("which_cap", JStr cap); ("remaining_wei", JInt remaining)] (Some key) (Some user_id) None
      (Some (server_side_enrichment settings hostname))))) by spread.
    specialize (Hk s Hs). by rewrite H1 in Hk. }
  destruct (Hn b s1 Hs1) as (r1 & HI1 & Ht1 & Hb1).
  destruct (returns_swallow (notify_cap_reached settings user_id cap remaining) s1) as ([] & s2 & H2).
  unfold maybe_notify_cap_reached in *. rewrite (bind_step _ _ _ _ _ H2). rewrite H2 in HI1.
  destruct (Hn _ s2 HI1) as (r2 & [[(Hf & _) _] _] & Ht2 & Hb2).
  exists r1, r2. rewrite Hf, <- app_assoc. by rewrite Hb1, Hb2.
Qed.

(** A database with one customer. *)
Definition customer : User := MkUser 2%N "dev@example.org" None None.
Definition customer_only : St DB unit :=
  let d := on_user (fun _ => [customer]) db_empty in MkSt d d false [] 50%nat tt.

Lemma refused_mint_notifies_twice_witness :
  exists first second,
    n_portal (t_notices (st_committed (snd (emit_mint_refused (R := demo_clock) demo_settings None 9%N 2%N
      None None "user_balance" 0 customer_only)))) =
      (n_portal (t_notices (st_committed customer_only)) ++ [first; second])%list /\
    pn_trigger first = TRIGGER_CAP_REACHED /\ pn_trigger second = TRIGGER_CAP_REACHED /\
    pn_body first = pn_body second.
Proof.
  apply (refused_mint_notifies_twice (R := demo_clock) demo_settings None 9%N 2%N None None
    "user_balance" 0 customer customer_only).
  - reflexivity.
  - reflexivity.
  - reflexivity.
  - vm_compute. reflexivity.
Defined.
