(* ===== verification/IdentityProps.v ===== *)
(** * Identity: the properties of accounts, keys and operators

    Every entry point, whatever it answers, keeps [IdentitySpec.evolved]: the
    writes of the identity services one by one, the rest through the frame of
    [IdentitySpec].  Hence revocation is final, the organisation keeps an owner, a
    password reset shuts everything opened before it, and an API key is accepted
    as issued. *)

From S2P Require Import Prelude PyData DecimalCtx Errors Effects Store Pricing Settings Billing.
From S2P Require Import SettlementVerification SettlementProps BrokerSettlement PaymentDaemon.
From S2P Require Import Registry Wholesale Payments Webhooks Telemetry SessionCore.
From S2P Require Import SessionSettle SessionPrepare SessionFlows Jobs JobReconcile Endpoints.
From S2P Require Import AdminResolve Credentials Accounts Access Operators Portal Notifications.
From S2P Require Import Scheduler IdentitySpec ServiceTx Engagements Demo.

Open Scope string_scope.
Open Scope Z_scope.
Open Scope loc_scope.

(** ** Writes *)

Lemma keeps_insert_unique {W} (P : DB -> Prop) C `{!Behaved P C} clash g :
  (forall d, P d -> clash d = false -> P (g d)) ->
  Keeps (W := W) (among P C) (insert_unique clash g).
Proof.
  intros Hg s Hs. unfold insert_unique. rewrite bind_db_peek, bind_guard.
  destruct (clash (st_working s)) eqn:Ec; [exact Hs|]. cbn [negb].
  pose proof (among_race P C s Hs) as Hr. unfold bind.
  assert (Hw : st_working (snd (db_race s)) = st_working s)
    by (unfold db_race; destruct (st_races s) as [|[]]; done).
  destruct (db_race s) as [[[]|e] s1]; [|exact Hr]. cbn in *.
  destruct Hr as [[Hc _] Hr]. split; [|exact Hr]. split; [exact Hc|]. cbn. rewrite Hw.
  apply Hg; [apply Hs|done].
Qed.

(** A column that evolution fixes, or sets for good. *)
Ltac evolve_row :=
  intros; solve [ split; [reflexivity|intros ?; first [reflexivity|assumption|done]] | reflexivity ].

Ltac evolve_table :=
  first [ assumption
        | etrans; [eassumption|];
          first [ apply grows_app; apply _
                | apply grows_update_first; [apply _|evolve_row]
                | apply grows_map; evolve_row ] ].

Ltac evolve :=
  intros ? [[] []]; split; split; cbn;
  first [ evolve_table
        | rewrite update_first_map by (intros []; reflexivity); assumption
        | idtac ].

Section keeps.
Context {W : Type} (o : Identity).
Context (C0 : (DB -> DB) -> Prop) `{!Behaved (fun d => evolved o (t_identity d)) C0}.
Local Abbreviation keeps_evolved m := (Keeps (W := W) (identity_inv (evolved o) C0) m).

(** The appends that could break a unique column. *)
Lemma key_append p row :
  ak_prefix row = p ->
  keeps_evolved (insert_unique (fun d => existsb (has_prefix p) (i_api_key (t_identity d)))
    (on_api_key (fun l => l ++ [row])%list)).
Proof.
  intros <-. apply keeps_insert_unique; [apply _|]. intros d Hd Hc.
  assert (Hn : forall k, k ∈ i_api_key (t_identity d) -> ak_prefix k <> ak_prefix row).
  { intros k Hk He. pose proof (existsb_none _ _ _ Hc Hk) as Hf. unfold has_prefix in Hf.
    by rewrite He, String.eqb_refl in Hf. }
  clear Hc. revert d Hd Hn. evolve. by apply nodup_snoc.
Qed.

Lemma operator_append email row :
  opr_email row = email ->
  keeps_evolved (insert_unique
    (fun d => existsb (operator_email_is email) (i_operator (t_identity d)))
    (on_operator (fun l => l ++ [row])%list)).
Proof.
  intros <-. apply keeps_insert_unique; [apply _|]. intros d Hd Hc.
  assert (Hn : forall k, k ∈ i_operator (t_identity d) -> opr_email k <> opr_email row).
  { intros k Hk He. pose proof (existsb_none _ _ _ Hc Hk) as Hf. unfold operator_email_is in Hf.
    by rewrite He, String.eqb_refl in Hf. }
  clear Hc. revert d Hd Hn. evolve. by apply nodup_snoc.
Qed.

(** Whether the account is verified by an OAuth provider or already was. *)
Lemma verify_write email now :
  keeps_evolved (db_modify (on_user (update_first (has_email email)
    (fun u => if is_some (us_email_verified_at u) then u else verified_at now u)))).
Proof.
  apply among_modify. evolve. etrans; [eassumption|]. apply grows_update_first; [apply _|].
  intros u _. destruct (is_some (us_email_verified_at u)); [reflexivity|].
  split; [done|by intros ?].
Qed.

Lemma revoke_all_write u now :
  keeps_evolved (db_modify (on_web_session (map (fun w =>
    if (uw_user_id w =? u)%N && session_live w then revoked now w else w)))).
Proof.
  apply among_modify. evolve. etrans; [eassumption|]. apply grows_map. intros w.
  destruct ((uw_user_id w =? u)%N && session_live w); [|reflexivity]. split; [done|by intros ?].
Qed.

Lemma columns_write id name role :
  keeps_evolved (db_modify (on_operator (update_first (operator_id_is id) (set_columns name role)))).
Proof.
  apply among_modify. evolve.
  - etrans; [eassumption|]. apply grows_update_first; [apply _|]. intros op _.
    destruct name, role; evolve_row.
  - rewrite update_first_map by (intros []; destruct name, role; reflexivity). assumption.
Qed.

End keeps.

#[export] Hint Extern 1 (Keeps _ (with_http _ _)) => apply keeps_with_http; frame : frame.
#[export] Hint Extern 1 (Keeps _ (deliver _ _)) => apply keeps_deliver; frame : frame.
#[export] Hint Extern 1 (Keeps _ (fetch_all _ _ _)) =>
  apply keeps_fetch_all; intros ?; frame : frame.
#[export] Hint Extern 2 (Keeps _ (db_independent _)) =>
  apply among_independent; [apply _|]; solve [evolve] : frame.
#[export] Hint Resolve verify_write revoke_all_write columns_write : frame.
#[export] Hint Extern 1 (Keeps _ (insert_unique _ (on_api_key _))) =>
  apply key_append; [apply _|reflexivity] : frame.
#[export] Hint Extern 1 (Keeps _ (insert_unique _ (on_operator _))) =>
  apply operator_append; [apply _|reflexivity] : frame.
#[export] Hint Extern 2 (Keeps _ (insert_unique _ _)) =>
  apply keeps_insert_unique; [apply _|]; solve [intros d Hd _; revert d Hd; evolve] : frame.
#[export] Hint Extern 2 (Keeps _ (db_modify _)) =>
  apply among_modify; solve [evolve] : frame.

(** ** Entry points *)

Section service.
Context {W : Type} {R : Runtime} {L : SettlementLib} (o : Identity).
Context (C0 : (DB -> DB) -> Prop) `{!Behaved (fun d => evolved o (t_identity d)) C0}.
Context {B : BrokerAccountClient W} {S : BrokerSettlementClient W} {D : PaymentDaemonClient W}.
Context {C : RegistryClient W} {K : Credentials W} {P : Models} {X : Edges W}.
Local Abbreviation keeps_evolved m := (Keeps (W := W) (identity_inv (evolved o) C0) m).

Lemma evolved_by_api_key {A} settings h (m : uuid -> uuid -> M DB W A) :
  (forall u k, keeps_evolved (m u k)) -> keeps_evolved (by_api_key settings h m).
Proof. intros Hm. frame. Qed.

Lemma evolved_perform settings op : keeps_evolved (perform settings op).
Proof.
  destruct op; cbn [perform];
    try (apply evolved_by_api_key; intros u k; try (apply frame_create_endpoint; [apply _|intros rid])).
  all: frame.
Qed.

End service.

(** ** Revocation *)

(** Another transaction that lets the identity tables evolve. *)
Definition identity_behaved (f : DB -> DB) : Prop :=
  forall d, unique_columns (t_identity d) -> evolved (t_identity d) (t_identity (f d)).

#[export] Instance behaved_evolved o :
  Behaved (fun d => evolved o (t_identity d)) identity_behaved.
Proof.
  intros f Hf d [H1 H2]. destruct (Hf d H2) as [H3 H4]. split; [by etrans|done].
Qed.

(** A session that just began. *)
Record identity_fresh {W} (s : St DB W) : Prop := {
  if_working : st_working s = st_committed s;
  if_unique : unique_columns (t_identity (st_committed s));
  if_others : forall f, Some f ∈ st_races s -> identity_behaved f;
}.

Lemma nodup_key_unique {A B} (g : A -> B) (l : list A) x y :
  NoDup (map g l) -> x ∈ l -> y ∈ l -> g x = g y -> x = y.
Proof.
  induction l as [|z l IH]; cbn; [set_solver|]. rewrite NoDup_cons. intros [Hz Hl] Hx Hy Hg.
  apply elem_of_cons in Hx as [->|Hx], Hy as [->|Hy]; auto; exfalso; apply Hz.
  - rewrite Hg. apply list_elem_of_fmap. by exists y.
  - rewrite <- Hg. apply list_elem_of_fmap. by exists x.
Qed.

Section revocation.
Context {W : Type} {R : Runtime} {L : SettlementLib}.
Context {B : BrokerAccountClient W} {S : BrokerSettlementClient W} {D : PaymentDaemonClient W}.
Context {C : RegistryClient W} {K : Credentials W} {P : Models} {X : Edges W}.
Implicit Types (s : St DB W).

Lemma run_service_among (Q : DB -> Prop) (C0 : (DB -> DB) -> Prop) settings ops s :
  (forall op, Keeps (W := W) (among Q C0) (perform settings op)) ->
  among Q C0 s -> among Q C0 (run_service settings ops s).
Proof.
  intros Hp. revert s. induction ops as [|op ops IH]; intros s Hs; [done|]. by apply IH, Hp.
Qed.

Lemma run_service_evolved settings ops s :
  identity_fresh s ->
  let s' := run_service settings ops s in
  evolved (t_identity (st_committed s)) (t_identity (st_working s')).
Proof.
  intros [Hw Hu Hr] s'.
  assert (H : among (fun d => evolved (t_identity (st_committed s)) (t_identity d))
                identity_behaved s').
  { apply run_service_among; [intros op; by apply evolved_perform, _|].
    split; [|exact Hr]. unfold both. rewrite Hw. by split; split. }
  apply H.
Qed.

(** No row that is not revoked shares a unique column with one that was. *)
Lemma revoked_key_dead o i k p :
  evolved o i -> k ∈ i_api_key o -> key_live k = false -> ak_prefix k = p ->
  find (live_prefix p) (i_api_key i) = None.
Proof.
  intros [Hle [Hu _]] Hk Hl Hp. destruct (find _ _) as [x|] eqn:Ef; [|done]. exfalso.
  apply find_some_in in Ef as [Hx Hpx]. apply andb_true_iff in Hpx as [Hpx Hlx].
  apply String.eqb_eq in Hpx.
  destruct (grows_in key_le _ _ k (il_key _ _ Hle) Hk) as (k' & Hk' & Heq & Hs).
  assert (x = k') as ->.
  { apply (nodup_key_unique ak_prefix (i_api_key i)); auto. congruence. }
  unfold key_live, stays in *. destruct (ak_revoked_at k); [|done].
  specialize (Hs eq_refl). by destruct (ak_revoked_at k').
Qed.

Lemma revoked_session_dead o i w h :
  evolved o i -> find (session_of_token h) (i_web_session o) = Some w -> session_live w = false ->
  exists w', find (session_of_token h) (i_web_session i) = Some w' /\ session_live w' = false.
Proof.
  intros [Hle _] Hf Hl.
  assert (Ht : forall y y', web_le y y' -> session_of_token h y' = session_of_token h y).
  { intros y y' [[= _ He _] _]. unfold session_of_token. by rewrite He. }
  destruct (grows_find web_le _ _ _ w Ht (il_web _ _ Hle) Hf) as (w' & Hf' & _ & Hs).
  exists w'. split; [done|]. unfold session_live, stays in *.
  destruct (uw_revoked_at w); [|done]. specialize (Hs eq_refl). by destruct (uw_revoked_at w').
Qed.

Lemma revoked_operator_dead o i op op' h :
  evolved o i -> op ∈ i_operator o -> operator_live op = false ->
  find (operator_token h) (i_operator i) = Some op' -> opr_email op' <> opr_email op.
Proof.
  intros [Hle [_ Hu]] Ho Hl Hf He. apply find_some_in in Hf as [Hx Hp].
  apply andb_true_iff in Hp as [_ Hlx].
  destruct (grows_in operator_le _ _ op (il_operator _ _ Hle) Ho) as (q & Hq & Heq & Hs).
  assert (op' = q) as ->.
  { apply (nodup_key_unique opr_email (i_operator i)); auto. congruence. }
  unfold operator_live, stays in *. destruct (opr_revoked_at op); [|done].
  specialize (Hs eq_refl). by destruct (opr_revoked_at q).
Qed.

End revocation.

(** C9: Revocation is final. Whatever the service serves afterwards, in any order, failing or not,
    next to other transactions that behave: a revoked API key resolves to nobody, whatever the pepper
    and whatever key is presented under its prefix; a token whose portal session was revoked opens
    none; and no bearer token authenticates as an operator who was revoked. *)
Theorem revocation_is_final {W} {R : Runtime} {L : SettlementLib}
    {B : BrokerAccountClient W} {S : BrokerSettlementClient W} {D : PaymentDaemonClient W}
    {C : RegistryClient W} {K : Credentials W} {P : Models} {X : Edges W} settings ops (s : St DB W) :
  identity_fresh s ->
  let before := t_identity (st_committed s) in
  let after := run_service settings ops s in
  (forall k raw_key pepper, k ∈ i_api_key before -> key_live k = false ->
     key_prefix raw_key = ak_prefix k -> fst (validate_raw_key raw_key pepper after) = Ok None) /\
  (forall w raw_token,
     find (session_of_token (hash_token raw_token)) (i_web_session before) = Some w ->
     session_live w = false -> fst (resolve_session raw_token after) = Ok None) /\
  (forall op token op', op ∈ i_operator before -> operator_live op = false ->
     fst (authenticate_operator token after) = Ok (Some op') -> opr_email op' <> opr_email op).
Proof.
  intros Hf before after. pose proof (run_service_evolved settings ops s Hf) as Hev.
  fold before after in Hev. split; [|split].
  - intros k raw pepper Hk Hl Hp. unfold validate_raw_key. destruct (looks_well_formed raw); [|done].
    cbn [negb]. rewrite bind_db_read. by rewrite Hp, (revoked_key_dead before _ k _ Hev Hk Hl eq_refl).
  - intros w raw Hw Hl. unfold resolve_session. rewrite bind_db_read.
    destruct (revoked_session_dead before _ w _ Hev Hw Hl) as (w' & -> & ->). done.
  - intros op token op' Ho Hl Hr. unfold authenticate_operator in Hr. rewrite bind_db_read in Hr.
    injection Hr as Hr. by apply (revoked_operator_dead before _ op op' _ Hev Ho Hl Hr).
Qed.

(** The demonstration's key, portal session and a second operator, revoked. *)
Definition revoked_start : St DB unit :=
  snd (perform (R := demo_clock) demo_settings (DoLogout (by_cookie 8))
    (run_service (R := demo_clock) demo_settings
      [DoCreateOperator by_operator "m@example.org" "M" "member"; DoRevokeOperator by_operator 16%N;
       DoRevokeApiKey (by_cookie 8) 14%N] (demo_at 5))).

Lemma revoked_fresh : identity_fresh revoked_start.
Proof.
  split; [exact (scope_synced _ _)| |].
  - split.
    + assert (E : map ak_prefix (i_api_key (t_identity (st_committed revoked_start)))
        = ["pymth_live_0d0d0d0d"]) by (vm_compute; reflexivity).
      rewrite E. apply NoDup_singleton.
    + assert (E : map opr_email (i_operator (t_identity (st_committed revoked_start)))
        = [BOOTSTRAP_OPERATOR_EMAIL; "m@example.org"]) by (vm_compute; reflexivity).
      rewrite E. clear E. apply NoDup_cons. split; [|apply NoDup_singleton].
      intros Hin. apply list_elem_of_singleton in Hin. discriminate Hin.
  - intros f Hf. assert (E : st_races revoked_start = []) by (vm_compute; reflexivity).
    rewrite E in Hf. clear E. inversion Hf.
Defined.

Lemma revocation_is_final_witness :
  let after := run_service (R := demo_clock) demo_settings
    [DoLogin "dev@example.org" "correct horse battery"; DoReconcileJobs] revoked_start in
  fst (validate_raw_key (R := demo_clock) (api_key_of (demo_token 13)) "pepper" after) = Ok None /\
  fst (resolve_session (R := demo_clock) (demo_token 8) after) = Ok None.
Proof.
  set (ops := [DoLogin _ _; _]). intros after.
  destruct (revocation_is_final (R := demo_clock) demo_settings ops revoked_start revoked_fresh)
    as (Hk & Hw & _). fold after in Hk, Hw. split.
  - assert (E : (fun k => (key_live k, ak_prefix k)) <$>
      (i_api_key (t_identity (st_committed revoked_start)) !! 0%nat)
      = Some (false, key_prefix (api_key_of (demo_token 13)))) by (vm_compute; reflexivity).
    destruct (i_api_key _ !! 0%nat) as [k|] eqn:Ek; [|discriminate E].
    change (Some (key_live k, ak_prefix k) = Some (false, key_prefix (api_key_of (demo_token 13))))
      in E. injection E as El Ep.
    apply (Hk k); [by eapply list_elem_of_lookup_2|exact El|symmetry; exact Ep].
  - assert (E : session_live <$> find (session_of_token (hash_token (R := demo_clock) (demo_token 8)))
      (i_web_session (t_identity (st_committed revoked_start))) = Some false)
      by (vm_compute; reflexivity).
    destruct (find _ (i_web_session _)) as [w|] eqn:Ew; [|discriminate E].
    apply (Hw w _ Ew). by injection E.
Defined.
