(* ===== verification/OwnerProps.v ===== *)
(** * Operators: the organisation keeps an owner

    No run of the service leaves it without an active owner, as long as nobody
    else changes operators between a request's count of owners and its UPDATE;
    when somebody does, it can. *)

From S2P Require Import Prelude PyData DecimalCtx Errors Effects Store Pricing Settings Billing.
From S2P Require Import SettlementVerification SettlementProps BrokerSettlement PaymentDaemon.
From S2P Require Import Registry Wholesale Payments SessionCore SessionSettle.
From S2P Require Import SessionPrepare SessionFlows Jobs JobReconcile Endpoints AdminResolve.
From S2P Require Import Scheduler Credentials Accounts Access Operators Portal IdentitySpec.
From S2P Require Import Engagements Demo IdentityProps.

Open Scope string_scope.
Open Scope Z_scope.
Open Scope loc_scope.

Definition owners (i : Identity) : Z :=
  sum_by (fun o => if active_owner o then 1 else 0) (i_operator i).

Definition owned (i : Identity) : Prop := 1 <= owners i.

(** Another transaction that leaves the operators alone. *)
Definition spares_operators (f : DB -> DB) : Prop :=
  forall d, i_operator (t_identity (f d)) = i_operator (t_identity d).

#[export] Instance spares_behaved : Behaved (fun d => owned (t_identity d)) spares_operators.
Proof. intros f Hf d. unfold owned, owners. by rewrite Hf. Qed.

Section owners.
Context {W : Type} {R : Runtime} {L : SettlementLib}.
Context {B : BrokerAccountClient W} {S : BrokerSettlementClient W} {D : PaymentDaemonClient W}.
Context {C : RegistryClient W} {K : Credentials W} {P : Models} {X : Edges W}.
Implicit Types (s : St DB W).
Local Abbreviation I := (among (W := W) (fun d => owned (t_identity d)) spares_operators).
Local Abbreviation keeps_owned m := (Keeps (W := W) I m).

Lemma owned_spared g :
  (forall d, owners (t_identity (g d)) = owners (t_identity d)) -> keeps_owned (db_modify g).
Proof. intros Hg. apply among_modify. intros d. unfold owned. by rewrite Hg. Qed.

Lemma owners_update_first p f (i : list Operator) :
  (forall o, active_owner (f o) = active_owner o) ->
  sum_by (fun o => if active_owner o then 1 else 0) (update_first p f i)
  = sum_by (fun o => if active_owner o then 1 else 0) i.
Proof.
  intros Hf. unfold sum_by. f_equal. apply update_first_map. intros o. by rewrite Hf.
Qed.

(** Storing a token or inserting an operator. *)
Lemma owned_token p h :
  keeps_owned (db_modify (on_operator (update_first p (set_opr_token_hash h)))).
Proof. apply owned_spared. intros d. by apply owners_update_first. Qed.

Lemma owned_insert clash row :
  keeps_owned (insert_unique clash (on_operator (fun l => l ++ [row])%list)).
Proof.
  apply keeps_insert_unique; [apply _|]. intros d Hd _.
  change (1 <= sum_by (fun o => if active_owner o then 1 else 0)
    (i_operator (t_identity d) ++ [row])%list). rewrite sum_by_snoc.
  unfold owned, owners in Hd. destruct (active_owner row); lia.
Qed.

(** Nobody else's commit changes what this session has seen of the operators. *)
Lemma interleave_spares s :
  I s -> exists s1, db_interleave s = (Ok tt, s1) /\ I s1 /\
    i_operator (t_identity (st_working s1)) = i_operator (t_identity (st_working s)).
Proof.
  intros Hs. pose proof (among_interleave _ _ s Hs) as Hk. destruct Hs as [_ Hr].
  unfold db_interleave in *. destruct (st_races s) as [|[f|] r] eqn:E; eexists; split; try done.
  split; [exact Hk|]. cbn. apply Hr. set_solver.
Qed.

Lemma write_owned {A} g (k : M DB W A) s :
  I s -> owned (t_identity (g (st_working s))) -> keeps_owned k ->
  I (snd ((db_modify g ;;; k) s)).
Proof. intros [[Hc _] Hr] Hw Hk. rewrite bind_db_modify. apply Hk. by split. Qed.

(** The two writes that can take an owner away. *)
Lemma owned_after_update id f (target : Operator) d :
  operator_by_id id d = Some target ->
  (owners (t_identity d) <=? 1 = false \/ active_owner target = false \/
   active_owner (f target) = true) ->
  owned (t_identity d) ->
  owned (t_identity (on_operator (update_first (operator_id_is id) f) d)).
Proof.
  intros Ht Hn Ho. unfold owned, owners in *.
  change (1 <= sum_by (fun o => if active_owner o then 1 else 0)
    (update_first (operator_id_is id) f (i_operator (t_identity d)))).
  rewrite (sum_by_update_first _ _ _ _ _ Ht).
  destruct (active_owner target), (active_owner (f target)); lia.
Qed.

(** What a session read of the operators, it finds again after the window. *)
Lemma in_window {A} id target (k : M DB W A) s :
  I s -> operator_by_id id (st_working s) = Some target ->
  (forall s1, I s1 -> operator_by_id id (st_working s1) = Some target ->
     owners (t_identity (st_working s1)) = owners (t_identity (st_working s)) -> I (snd (k s1))) ->
  I (snd ((db_interleave ;;; k) s)).
Proof.
  intros Hs Ht Hk. destruct (interleave_spares s Hs) as (s1 & Hr & H1 & Ho).
  rewrite (bind_step _ _ _ _ _ Hr). apply Hk; [exact H1| |].
  - unfold operator_by_id in *. by rewrite Ho.
  - unfold owners. by rewrite Ho.
Qed.

(** Changing a role away from owner needs another one. *)
Lemma set_columns_owner name role (target : Operator) :
  match role with Some r => negb (String.eqb r "owner") | None => false end
    && active_owner target = false ->
  active_owner target = false \/
  active_owner (set_columns (new_value name (opr_name target)) (new_value role (opr_role target))
    target) = true.
Proof.
  destruct (active_owner target) eqn:Ha; [|by left]. rewrite andb_true_r. intros Hr. right.
  unfold active_owner in *. apply andb_true_iff in Ha as [Hro Hl]. apply String.eqb_eq in Hro.
  assert (Hv : new_value role (opr_role target) = None).
  { unfold new_value. destruct role as [r|]; [|done]. apply negb_false_iff in Hr.
    apply String.eqb_eq in Hr as ->. by rewrite Hro, String.eqb_refl. }
  rewrite Hv. destruct (new_value name (opr_name target)); cbn; by rewrite Hro.
Qed.

Lemma owned_store {A} op id name role target (k : M DB W A) s :
  I s -> operator_by_id id (st_working s) = Some target ->
  (owners (t_identity (st_working s)) <=? 1 = false \/ active_owner target = false \/
    active_owner (set_columns name role target) = true) ->
  keeps_owned k -> I (snd ((store_columns op id name role ;;; k) s)).
Proof.
  intros Hs Ht Hn Hk. unfold store_columns. rewrite bind_if.
  destruct (_ || _); [|rewrite bind_ret; by apply Hk]. rewrite bind_assoc.
  apply write_owned; [exact Hs|eapply owned_after_update; [exact Ht|exact Hn|apply Hs]|].
  unfold add_audit. apply keeps_bind; [by apply owned_spared|intros ?; exact Hk].
Qed.

Lemma owned_update op id name role : keeps_owned (update_operator op id name role).
Proof.
  intros s Hs. unfold update_operator. rewrite bind_db_read, bind_lift.
  destruct (operator_by_id id (st_working s)) as [target|] eqn:Et; [cbn [of_option]|exact Hs].
  rewrite bind_guard. destruct (match role with Some _ => _ | None => _ end); [|exact Hs].
  rewrite bind_if. destruct (_ && _) eqn:Eg.
  - unfold require_other_owner. rewrite bind_assoc, bind_db_read, bind_guard.
    destruct (count_active_owners _ <=? 1) eqn:En; [exact Hs|].
    apply (in_window id target); [exact Hs|exact Et|]. intros s1 H1 Ht Ho.
    apply (owned_store _ _ _ _ target); [exact H1|exact Ht|left; by rewrite Ho|keeps].
  - rewrite bind_ret. apply (in_window id target); [exact Hs|exact Et|]. intros s1 H1 Ht Ho.
    apply (owned_store _ _ _ _ target); [exact H1|exact Ht| |keeps]. right. by apply set_columns_owner.
Qed.

Lemma owned_revoke op id : keeps_owned (revoke_operator op id).
Proof.
  intros s Hs. unfold revoke_operator. rewrite bind_guard. destruct (negb _); [|exact Hs].
  rewrite bind_db_read, bind_lift.
  destruct (operator_by_id id (st_working s)) as [target|] eqn:Et; [cbn [of_option]|exact Hs].
  destruct (negb (operator_live target)); [exact Hs|].
  assert (Htail : forall s1, I s1 -> operator_by_id id (st_working s1) = Some target ->
    owners (t_identity (st_working s1)) <=? 1 = false \/ active_owner target = false ->
    forall now, I (snd ((db_modify (on_operator (update_first (operator_id_is id)
        (set_opr_revoked_at (Some now)))) ;;;
      add_audit (audit op "revoke_operator" None
        (Some [("target_operator_id", JStr (str_uuid id))])) ;;;
      db_flush ;;; ret (set_opr_revoked_at (Some now) target)) s1))).
  { intros s1 H1 Ht Hn now. apply write_owned; [exact H1| |].
    - eapply owned_after_update; [exact Ht|tauto|apply H1].
    - unfold add_audit. apply keeps_bind; [by apply owned_spared|intros ?; keeps]. }
  rewrite bind_if. destruct (String.eqb (opr_role target) "owner") eqn:Er.
  - unfold require_other_owner. rewrite bind_assoc, bind_db_read, bind_guard.
    destruct (count_active_owners _ <=? 1) eqn:En; [exact Hs|].
    apply (in_window id target); [exact Hs|exact Et|]. intros s1 H1 Ht Ho.
    unfold clock_now. rewrite bind_tick. apply Htail; [exact H1|exact Ht|left; cbn [st_working]; by rewrite Ho].
  - rewrite bind_ret. apply (in_window id target); [exact Hs|exact Et|]. intros s1 H1 Ht Ho.
    unfold clock_now. rewrite bind_tick. apply Htail; [exact H1|exact Ht|right].
    unfold active_owner. by rewrite Er.
Qed.

End owners.

#[export] Hint Resolve owned_token owned_insert owned_update owned_revoke : frame.
#[export] Hint Extern 3 (Keeps _ (db_modify _)) =>
  apply owned_spared; solve [intros; reflexivity] : frame.
#[export] Hint Extern 3 (Keeps _ (db_independent _)) =>
  apply among_independent; [apply _|]; solve [intros ? H; exact H] : frame.
#[export] Hint Extern 3 (Keeps _ (insert_unique _ _)) =>
  apply keeps_insert_unique; [apply _|]; solve [intros ? H _; exact H] : frame.

Section service.
Context {W : Type} {R : Runtime} {L : SettlementLib}.
Context {B : BrokerAccountClient W} {S : BrokerSettlementClient W} {D : PaymentDaemonClient W}.
Context {C : RegistryClient W} {K : Credentials W} {P : Models} {X : Edges W}.

Lemma owned_perform settings op :
  Keeps (W := W) (among (fun d => owned (t_identity d)) spares_operators) (perform settings op).
Proof.
  destruct op; cbn [perform]; frame.
Qed.

End service.

(** C10: The organisation keeps an owner. Whatever the service serves, in any order, failing or not:
    once some operator is an owner who is not revoked, some operator always is, provided that no
    other transaction changes operators between a request's count of the owners and its UPDATE. *)
Theorem last_owner_is_kept {W} {R : Runtime} {L : SettlementLib}
    {B : BrokerAccountClient W} {S : BrokerSettlementClient W} {D : PaymentDaemonClient W}
    {C : RegistryClient W} {K : Credentials W} {P : Models} {X : Edges W} settings ops (s : St DB W) :
  st_working s = st_committed s ->
  (forall f, Some f ∈ st_races s -> spares_operators f) ->
  1 <= count_active_owners (st_committed s) ->
  1 <= count_active_owners (st_committed (run_service settings ops s)).
Proof.
  intros Hw Hr Ho.
  assert (H0 : among (fun d => owned (t_identity d)) spares_operators s).
  { split; [|exact Hr]. unfold both. rewrite Hw. by split. }
  destruct (run_service_among _ _ settings ops s (owned_perform settings) H0) as [[H1 _] _].
  exact H1.
Qed.

(** A second owner. *)
Definition two_owners : St DB unit :=
  snd (perform (R := demo_clock) demo_settings
    (DoCreateOperator by_operator "o@example.org" "O" "owner") (demo_at 1)).
Definition by_second : Headers := MkHeaders None (Some ("Bearer loc_op_" ++ demo_token 1)) None.

Lemma last_owner_is_kept_witness :
  let ops := [DoRevokeOperator by_second 0%N; DoRevokeOperator by_second 2%N;
              DoUpdateOperator by_second 2%N None (Some "member")] in
  count_active_owners (st_committed two_owners) = 2 /\
  map (fun op => fst (perform (R := demo_clock) demo_settings op
    (run_service (R := demo_clock) demo_settings (firstn 1 ops) two_owners))) (skipn 1 ops) =
    [Err (HTTPException 409 "cannot_revoke_self");
     Err (HTTPException 409 "cannot_demote_last_owner")] /\
  1 <= count_active_owners (st_committed (run_service (R := demo_clock) demo_settings ops two_owners)).
Proof.
  intros ops. split; [vm_compute; reflexivity|]. split; [vm_compute; reflexivity|].
  apply (last_owner_is_kept (R := demo_clock) demo_settings ops two_owners).
  - exact (scope_synced _ _).
  - intros f Hf. assert (E : st_races two_owners = []) by (vm_compute; reflexivity).
    rewrite E in Hf. clear E. inversion Hf.
  - apply Z.leb_le. vm_compute. reflexivity.
Defined.

(** The other owner, revoking the first one at the same time. *)
Definition revoked_meanwhile (d : DB) : DB :=
  st_committed (snd (perform (R := demo_clock) demo_settings (DoRevokeOperator by_second 0%N)
    (MkSt d d false [] 50%nat tt))).

(** Two owners who revoke each other at once leave nobody. *)
Lemma owners_race :
  let s := MkSt (st_committed two_owners) (st_committed two_owners) false
             [Some revoked_meanwhile] 10%nat tt in
  count_active_owners (st_committed s) = 2 /\
  fst (perform (R := demo_clock) demo_settings (DoRevokeOperator by_operator 2%N) s) = Ok tt /\
  count_active_owners (st_committed (run_service (R := demo_clock) demo_settings
    [DoRevokeOperator by_operator 2%N] s)) = 0.
Proof. split; [|split]; vm_compute; reflexivity. Qed.
