(* ===== verification/CredentialProps.v ===== *)
(** * Credentials: the properties of passwords, keys and sign-in

    What a password reset leaves behind, that an API key is accepted as it was
    issued, and three ways in which the portal does not do what it means to. *)

From S2P Require Import Prelude PyData DecimalCtx Errors Effects Store Pricing Settings Billing.
From S2P Require Import SettlementVerification SettlementProps BrokerSettlement PaymentDaemon.
From S2P Require Import Registry Wholesale Payments SessionCore SessionSettle.
From S2P Require Import SessionPrepare SessionFlows Jobs JobReconcile Endpoints AdminResolve.
From S2P Require Import Scheduler Credentials Accounts Access Operators Portal Engagements Demo.

Open Scope string_scope.
Open Scope Z_scope.
Open Scope loc_scope.

(** ** Lemmas *)

Lemma user_by_id_has u d v : user_by_id u d = Some v -> us_id v = u.
Proof. intros Hf. apply find_some_in in Hf as [_ Hp]. by apply N.eqb_eq in Hp. Qed.

Lemma find_updated {A} (p : A -> bool) f (l : list A) a :
  find p l = Some a -> (forall x, p (f x) = p x) -> find p (update_first p f l) = Some (f a).
Proof. intros Hf Hp. rewrite find_update_first by done. by rewrite Hf. Qed.

(** Consuming the token that was found leaves one usable token less. *)
Lemma usable_consumed h now (l : list UserToken) t :
  find (usable_token h) l = Some t ->
  S (length (List.filter (usable_token h) (update_first (usable_token h) (consumed now) l)))
  = length (List.filter (usable_token h) l).
Proof.
  induction l as [|x l IH]; cbn; [done|]. destruct (usable_token h x) eqn:Ex.
  - intros _. cbn. unfold usable_token at 1. cbn. by rewrite andb_false_r.
  - intros Hf. cbn. rewrite Ex. by apply IH.
Qed.

Section tokens.
Context {W : Type} {R : Runtime} {K : Credentials W}.
Implicit Types (s : St DB W).

(** Using a token: what was found, and that it is spent. *)
Lemma consume_token_ok table on_table token s user now s1 :
  (forall f d, table (t_identity (on_table f d)) = f (table (t_identity d))) ->
  (forall f d, i_user (t_identity (on_table f d)) = i_user (t_identity d)) ->
  consume_token table on_table token s = (Ok (user, now), s1) ->
  let h := hash_token token in
  exists t, find (usable_token h) (table (t_identity (st_working s))) = Some t /\
    now = rt_now (st_ticks s) /\ dt_us now <= dt_us (ut_expires_at t) /\
    user_by_id (ut_user_id t) (st_working s) = Some user /\
    st_working s1 = on_table (update_first (usable_token h) (consumed now)) (st_working s) /\
    st_committed s1 = st_committed s.
Proof.
  intros Ht Hu. unfold consume_token, clock_now. rewrite bind_db_read, bind_tick.
  destruct (find _ _) as [t|] eqn:Ef; [|done]. rewrite bind_guard.
  destruct (dt_us (ut_expires_at t) <? dt_us _) eqn:Ex; [done|]. cbn [negb].
  rewrite bind_db_modify, bind_db_read.
  destruct (user_by_id (ut_user_id t) _) as [u|] eqn:Eu; [|done]. intros [= <- <- <-].
  exists t. split; [done|]. split; [done|].
  split; [by apply Z.ltb_ge in Ex|].
  split; [|done]. unfold user_by_id in *. cbn [st_working] in Eu. by rewrite Hu in Eu.
Qed.

Lemma consume_token_err table on_table token s e s1 :
  consume_token table on_table token s = (Err e, s1) ->
  e = InvalidToken /\ st_committed s1 = st_committed s.
Proof.
  unfold consume_token, clock_now. rewrite bind_db_read, bind_tick.
  destruct (find _ _) as [t|]; [|by intros [= <- <-]]. rewrite bind_guard.
  destruct (negb _); [|by intros [= <- <-]]. rewrite bind_db_modify, bind_db_read.
  destruct (user_by_id _ _); [done|by intros [= <- <-]].
Qed.

End tokens.

(** C11: What a password reset does. It succeeds only with a token that was issued, not yet used and
    not expired, for the user it was issued to. Then the new password is the one that verifies, the
    token is spent, and no portal session opened before resolves to that user any more, whatever
    token is presented; nothing is committed yet. Otherwise it fails as an invalid token. *)
Theorem reset_password_effect {W} {R : Runtime} {K : Credentials W} `{!PasswordLaws W} token
    password (s : St DB W) :
  let h := hash_token token in
  let usable d := List.filter (usable_token h) (i_reset (t_identity d)) in
  match reset_password token password s with
  | (Ok user, s') =>
      (exists t, find (usable_token h) (i_reset (t_identity (st_working s))) = Some t /\
         us_id user = ut_user_id t /\ dt_us (rt_now (st_ticks s)) <= dt_us (ut_expires_at t)) /\
      user_by_id (us_id user) (st_working s') = Some user /\
      (exists hash, us_password_hash user = Some hash /\ password_verify password hash = Ok true) /\
      S (length (usable (st_working s'))) = length (usable (st_working s)) /\
      (forall raw_token v, fst (resolve_session raw_token s') = Ok (Some v) -> us_id v <> us_id user) /\
      st_committed s' = st_committed s
  | (Err e, s') => e = InvalidToken /\ st_committed s' = st_committed s
  end.
Proof.
  intros h usable. unfold reset_password.
  destruct (consume_token i_reset on_reset token s) as [[[user now]|e] s1] eqn:Et; cycle 1.
  { rewrite (bind_err _ _ _ _ _ Et). by eapply consume_token_err. }
  rewrite (bind_step _ _ _ _ _ Et).
  destruct (consume_token_ok i_reset on_reset _ _ _ _ _ (fun _ _ => eq_refl) (fun _ _ => eq_refl) Et)
    as (t & Hf & -> & Hx & Hu & Hw & Hc). fold h in Hf, Hw.
  unfold password_hash. rewrite bind_tick, bind_db_modify, bind_db_flush, bind_db_modify.
  cbn [ret st_committed st_working]. rewrite Hw. set (hash := cr_argon2_hash _ _).
  pose proof (user_by_id_has _ _ _ Hu) as Hi.
  split; [by exists t|]. split; [|split; [|split; [|split; [|exact Hc]]]].
  - change (find (has_id (us_id user)) (update_first (has_id (us_id user)) (with_password hash)
      (i_user (t_identity (st_working s)))) = Some (with_password hash user)).
    apply find_updated; [|done]. by rewrite Hi.
  - exists hash. split; [done|]. unfold password_verify, hash. by rewrite argon2_own_hash.
  - unfold usable. apply (usable_consumed _ _ _ _ Hf).
  - intros raw v. unfold resolve_session. rewrite bind_db_read. cbn [st_working].
    destruct (find (session_of_token _) _) as [w|] eqn:Ew; [|done].
    destruct (session_live w) eqn:El; [|done]. cbn [negb]. unfold clock_now. rewrite bind_tick.
    destruct (dt_us (uw_expires_at w) <? _); [done|]. intros [= Hv].
    rewrite (user_by_id_has _ _ _ Hv). apply find_some_in in Ew as [Hin _]. cbn in Hin.
    apply list_elem_of_fmap in Hin as (w0 & -> & _). intros He.
    destruct ((uw_user_id w0 =? us_id user)%N && session_live w0) eqn:E0; [done|].
    rewrite El, andb_true_r in E0. apply N.eqb_neq in E0. by apply E0.
Qed.

Lemma demo_passwords : PasswordLaws unit (H := demo_credentials).
Proof. intros n p. unfold cr_argon2_verify, cr_argon2_hash; cbn. by rewrite String.eqb_refl. Defined.

(** The demonstration's user, logged in, asks for a reset. *)
Definition reset_requested : St DB unit :=
  snd (perform (R := demo_clock) demo_settings (DoRequestPasswordReset "dev@example.org") (demo_at 4)).

Lemma reset_password_effect_witness :
  exists user s', reset_password (R := demo_clock) (demo_token 11) "a better password"
      reset_requested = (Ok user, s') /\
    (exists hash, us_password_hash user = Some hash /\
       password_verify "a better password" hash = Ok true) /\
    (forall raw_token v, fst (resolve_session (R := demo_clock) raw_token s')
       = Ok (Some v) -> us_id v <> us_id user).
Proof.
  assert (Hok : is_ok (fst (reset_password (R := demo_clock) (demo_token 11) "a better password"
    reset_requested)) = true) by (vm_compute; reflexivity).
  pose proof (reset_password_effect (R := demo_clock) (PasswordLaws0 := demo_passwords)
    (demo_token 11) "a better password" reset_requested) as H.
  destruct (reset_password _ _ reset_requested) as [[user|e] s']; [|discriminate Hok].
  destruct H as (_ & _ & Hh & _ & Hr & _). exists user, s'. split; [reflexivity|].
  split; [exact Hh|exact Hr].
Defined.

(** ** API keys *)

Lemma str_take_length n (a : string) :
  String.length (str_take n a) = Nat.min n (String.length a).
Proof.
  revert a. induction n as [|n IH]; intros [|c a]; try done. exact (f_equal S (IH a)).
Qed.

Lemma str_startswith_app (p t : string) : str_startswith p (p ++ t) = true.
Proof.
  unfold str_startswith. induction p as [|a p IH]; [by destruct t|].
  change ((if Ascii.ascii_dec a a then String.prefix p (p ++ t) else false) = true).
  by destruct (Ascii.ascii_dec a a).
Qed.

Lemma length_app_str (p t : string) : String.length (p ++ t) = (String.length p + String.length t)%nat.
Proof. induction p as [|a p IH]; [done|]. exact (f_equal S IH). Qed.

(** A key cut from enough randomness has the shape the service expects. *)
Lemma generated_well_formed random :
  (8 <= String.length random)%nat -> looks_well_formed (api_key_of random) = true.
Proof.
  intros Hl. unfold looks_well_formed, api_key_of. rewrite str_startswith_app, length_app_str,
    str_take_length. apply Nat.leb_le. unfold KEY_PREFIX_LEN, KEY_RANDOM_LEN. lia.
Qed.

Lemma find_snoc_new {A} (p q : A -> bool) (l : list A) x :
  existsb q l = false -> (forall y, p y = true -> q y = true) -> p x = true ->
  find p (l ++ [x])%list = Some x.
Proof.
  intros Hq Hpq Hx. rewrite find_app. destruct (find p l) as [y|] eqn:Ef; [|cbn; by rewrite Hx].
  apply find_some_in in Ef as [Hy Hpy]. exfalso.
  assert (existsb q l = true); [|congruence]. apply existsb_exists. exists y.
  split; [by apply list_elem_of_In|by apply Hpq].
Qed.

(** An API key is accepted as it was issued. Whenever a key is created, its raw form, presented
    with the same pepper, resolves to the row just stored and to its owner; and creating it stored
    nothing that was revoked or used (random suffixes of at least the eight characters the
    displayed prefix takes). *)
Theorem api_key_roundtrip {W} {R : Runtime} {K : Credentials W} user label pepper (s : St DB W) :
  (8 <= String.length (cr_token_urlsafe (st_ticks s)))%nat ->
  user_by_id (us_id user) (st_working s) = Some user ->
  match create_api_key (us_id user) label pepper s with
  | (Ok (row, raw_key), s') =>
      key_live row = true /\ ak_last_used_at row = None /\ ak_user_id row = us_id user /\
      exists now, fst (validate_raw_key raw_key pepper s') = Ok (Some (key_used now row, user))
  | (Err e, _) => e = IntegrityErr
  end.
Proof.
  intros Hl Hu. unfold create_api_key, generate_api_key, generate_token, new_uuid.
  rewrite bind_assoc, bind_tick, bind_ret, bind_tick. set (raw := api_key_of _). set (id := rt_uuid _).
  cbn zeta. set (row := MkApiKey id _ _ _ _ _ _). unfold insert_unique.
  rewrite bind_assoc, bind_db_peek, bind_assoc, bind_guard. cbn [st_working].
  destruct (existsb _ _) eqn:Ex; [done|]. cbn [negb]. rewrite bind_assoc.
  match goal with |- context [bind db_race ?k ?s0] =>
    destruct (db_race s0) as [[[]|e] s1] eqn:Er end; cycle 1.
  { rewrite (bind_err _ _ _ _ _ Er). unfold db_race in Er. cbn in Er.
    destruct (st_races s) as [|[]]; try discriminate Er. injection Er as Er _. by rewrite Er. }
  rewrite (bind_step _ _ _ _ _ Er). rewrite bind_assoc, bind_db_modify, bind_db_flush. cbn [ret].
  assert (Hw : st_working s1 = st_working s).
  { unfold db_race in Er. cbn in Er.
    destruct (st_races s) as [|[]]; try discriminate Er; injection Er as Er; by rewrite <- Er. }
  do 3 (split; [done|]).
  pose proof (generated_well_formed _ Hl) as Hwf. fold raw in Hwf.
  unfold validate_raw_key. rewrite Hwf. cbn [negb]. rewrite bind_db_read.
  cbn [st_working]. rewrite Hw.
  change (i_api_key (t_identity (on_api_key (fun l => l ++ [row])%list (st_working s))))
    with (i_api_key (t_identity (st_working s)) ++ [row])%list.
  rewrite (find_snoc_new _ (has_prefix (key_prefix raw))); [|exact Ex| |].
  - cbn [ak_hash row]. rewrite key_verify_own. cbn [negb].
    change (user_by_id (ak_user_id row) (on_api_key (fun l => l ++ [row])%list (st_working s)))
      with (user_by_id (us_id user) (st_working s)).
    rewrite Hu. unfold clock_now. rewrite bind_tick, bind_db_modify. by eexists.
  - intros y Hy. by apply andb_true_iff in Hy as [Hy _].
  - unfold live_prefix, has_prefix, key_live. cbn. by rewrite String.eqb_refl.
Qed.

Lemma api_key_roundtrip_witness :
  exists user row raw_key s', user_by_id 2%N (st_working (demo_at 4)) = Some user /\
    create_api_key (R := demo_clock) (us_id user) "prod" "pepper" (demo_at 4) = (Ok (row, raw_key), s') /\
    exists now, fst (validate_raw_key (R := demo_clock) raw_key "pepper" s')
      = Ok (Some (key_used now row, user)).
Proof.
  assert (Hu : is_some (user_by_id 2%N (st_working (demo_at 4))) = true) by (vm_compute; reflexivity).
  destruct (user_by_id 2%N (st_working (demo_at 4))) as [user|] eqn:Eu; [|discriminate Hu].
  assert (Hi : us_id user = 2%N) by (exact (user_by_id_has _ _ _ Eu)).
  assert (Hok : is_ok (fst (create_api_key (R := demo_clock) 2%N "prod" "pepper" (demo_at 4))) = true)
    by (vm_compute; reflexivity).
  assert (Hl : Nat.leb 8 (String.length (cr_token_urlsafe (st_ticks (demo_at 4)))) = true)
    by (vm_compute; reflexivity).
  apply Nat.leb_le in Hl.
  pose proof (api_key_roundtrip (R := demo_clock) user "prod" "pepper" (demo_at 4) Hl) as H.
  rewrite Hi in H. specialize (H Eu).
  destruct (create_api_key 2%N _ _ (demo_at 4)) as [[[row raw]|e] s'] eqn:Ec; [|discriminate Hok].
  destruct H as (_ & _ & _ & Hv). exists user, row, raw, s'. split; [reflexivity|].
  rewrite Hi. split; [exact Ec|exact Hv].
Defined.

(** ** Where the portal departs from what it means to do *)

Definition last_result (ops : list operation) (op : operation) : res unit :=
  fst (perform (R := demo_clock) demo_settings op
    (run_service (R := demo_clock) demo_settings ops demo_start)).

(** Whoever signed up first with somebody's address and never verified it logs
    in once the owner of the address has come by way of an OAuth provider. *)
Lemma unverified_password_survives_oauth :
  let stranger := [DoBootstrap; DoSignup "dev@example.org" "chosen by a stranger"] in
  let login := DoLogin "dev@example.org" "chosen by a stranger" in
  last_result stranger login = Err (HTTPException 403 "email_not_verified") /\
  last_result (stranger ++ [DoOauthLogin "google" "sub" "dev@example.org" true])%list login = Ok tt.
Proof. split; vm_compute; reflexivity. Qed.

(** Sign-up strips the password, logging in does not. *)
Lemma padded_password_cannot_log_in :
  last_result [DoBootstrap; DoSignup "dev@example.org" " correct horse "; DoVerifyEmail (demo_token 3)]
    (DoLogin "dev@example.org" " correct horse ") = Err (HTTPException 401 "invalid_credentials") /\
  last_result [DoBootstrap; DoSignup "dev@example.org" " correct horse "; DoVerifyEmail (demo_token 3)]
    (DoLogin "dev@example.org" "correct horse") = Ok tt.
Proof. split; vm_compute; reflexivity. Qed.

(** Nothing asks whether an operator approved the account. *)
Lemma unapproved_account_opens_jobs :
  let ops := (firstn 5 demo_operations ++ [DoTopup by_operator 2%N (MkTopupRequest 100 "manual")])%list in
  i_approval (t_identity (st_committed
    (run_service (R := demo_clock) demo_settings ops demo_start))) = [] /\
  last_result ops (nth 6 demo_operations DoReconcileJobs) = Ok tt.
Proof. split; vm_compute; reflexivity. Qed.
