(* ===== verification/EndpointProps.v ===== *)
(** * Endpoints: a create request is answered once

    A retry under the same [Idempotency-Key] gets the stored answer, success or
    refusal, without running the service again. *)

From S2P Require Import Prelude PyData DecimalCtx Errors Effects Store Pricing Settings Billing.
From S2P Require Import SettlementVerification SettlementProps BrokerSettlement PaymentDaemon.
From S2P Require Import Registry Wholesale Payments PaymentsProps SessionCore.
From S2P Require Import SessionSettle SessionPrepare SessionFlows Jobs JobReconcile Endpoints.
From S2P Require Import AdminResolve Scheduler Credentials Accounts Access Operators Portal.
From S2P Require Import IdentitySpec Engagements Demo.

Open Scope string_scope.
Open Scope Z_scope.
Open Scope loc_scope.

(** ** What the services do with claims: nothing *)

(** The claim [k] is held for the content [fp]. *)
Definition held (k : idem_key) (fp : string) (m : gmap idem_key PaymentIdempotencyKey) : Prop :=
  exists r, m !! k = Some r /\ ik_request_fingerprint r = fp.

(** Nobody else commits. *)
Definition alone (f : DB -> DB) : Prop := False.

#[export] Instance alone_behaved P : Behaved P alone.
Proof. by intros f []. Qed.

Section services.
Context {W : Type} {R : Runtime} (k : idem_key) (fp : string).
Context {B : BrokerAccountClient W} {D : PaymentDaemonClient W} {C : RegistryClient W}.
Local Abbreviation keeps_held m := (Keeps (W := W) (among (fun d => held k fp (t_idem d)) alone) m).

Lemma held_open_session q mint settings : keeps_held (open_session q mint settings).
Proof. frame. Qed.

Lemma held_refill id u rid n digest mint settings :
  keeps_held (refill_session id u rid n digest mint settings).
Proof. frame. Qed.

Lemma held_open_job q mint settings : keeps_held (open_job q mint settings).
Proof. frame. Qed.

End services.

(** ** Claiming, storing, replaying *)

Section storing.
Context {W : Type} {R : Runtime}.
Implicit Types (s : St DB W) (k : idem_key).
Local Abbreviation holding k fp := (among (W := W) (fun d => held k fp (t_idem d)) alone).

(** A key that is not in use is claimed. *)
Lemma claim_new k api fp t s :
  fresh_session s -> st_races s = [] -> t_idem (st_committed s) !! k = None ->
  exists c s0, claim_create_request k api fp t s = (Ok c, s0) /\ is_replay c = false /\
    holding k fp s0.
Proof.
  intros Hf Hr Hk. unfold claim_create_request, clock_now, new_uuid.
  rewrite bind_tick, bind_db_read. cbn [st_working st_ticks]. unfold get_create_request at 1.
  rewrite Hf, Hk, bind_tick, bind_db_modify. unfold try_except, bind at 1, db_commit, bind at 1, db_race.
  cbn [st_races]. rewrite Hr. cbn. eexists _, _. split; [reflexivity|]. split; [done|].
  assert (Hh : held k fp (<[k := MkPaymentIdempotencyKey api fp (str_uuid (rt_uuid (S (st_ticks s))))
      "in_flight" None None None (dt_add_seconds (rt_now (st_ticks s)) t)]> (t_idem (st_committed s)))).
  { eexists. split; [apply lookup_insert_eq|done]. }
  split; [by split|]. cbn. intros f Hin. by apply elem_of_nil in Hin.
Qed.

(** The row of a finished request. *)
Definition finished (k : idem_key) (fp status : string) (http_status : Z) (payload : dict) (d : DB)
  : Prop :=
  exists r, t_idem d !! k = Some r /\ ik_request_fingerprint r = fp /\ ik_status r = status /\
    ik_http_status r = Some http_status /\ ik_response_payload r = Some payload.

(** Without others, a commit succeeds. *)
Lemma commit_alone s : (forall f, Some f ∈ st_races s -> alone f) ->
  exists s1, db_commit s = (Ok tt, s1) /\ st_working s1 = st_working s /\
    st_committed s1 = st_working s /\ st_world s1 = st_world s.
Proof.
  intros Hr. unfold db_commit, bind, db_race. destruct (st_races s) as [|[f|] r] eqn:E.
  - by eexists.
  - destruct (Hr f). set_solver.
  - by eexists.
Qed.

Lemma complete_finishes k fp http_status payload retention s :
  holding k fp s ->
  exists s1, complete_create_request k http_status payload retention None s = (Ok tt, s1) /\
    finished k fp "completed" http_status payload (st_working s1) /\
    st_committed s1 = st_working s1.
Proof.
  intros [[_ (r & Hr & Hfp)] Hn]. unfold complete_create_request, require_create_request, clock_now.
  rewrite bind_assoc, bind_db_read, bind_lift. unfold get_create_request. rewrite Hr. cbn [of_option].
  rewrite bind_tick, bind_db_modify.
  match goal with |- context [db_commit ?s0] => destruct (commit_alone s0 Hn)
    as (s1 & Hc & Hw & Hcm & _) end.
  exists s1. split; [exact Hc|]. split; [|by rewrite Hcm, Hw]. rewrite Hw. cbn [st_working].
  eexists. split; [apply lookup_insert_eq|]. done.
Qed.

Lemma failure_finishes k fp settings e s :
  holding k fp s -> retryable e = false ->
  exists s1 status, store_failure k settings e s = (Ok tt, s1) /\
    str_elem status ["completed"; "failed"; "outcome_unknown"] = true /\
    finished k fp status (oc_status e) (error_payload e) (st_working s1) /\
    st_committed s1 = st_working s1.
Proof.
  intros [[_ (r & Hr & Hfp)] Hn] He. unfold store_failure. rewrite He.
  unfold fail_create_request, require_create_request, clock_now.
  rewrite bind_assoc, bind_db_read, bind_lift. unfold get_create_request. rewrite Hr. cbn [of_option].
  rewrite bind_tick, bind_db_modify.
  match goal with |- context [db_commit ?s0] => destruct (commit_alone s0 Hn)
    as (s1 & Hc & Hw & Hcm & _) end.
  exists s1, (if is_outcome_unknown e then "outcome_unknown" else "failed"). split; [exact Hc|].
  split; [by destruct (is_outcome_unknown e)|]. split; [|by rewrite Hcm, Hw]. rewrite Hw.
  cbn [st_working]. eexists. split; [apply lookup_insert_eq|]. done.
Qed.

(** A finished request is answered from its row; nothing else happens. *)
Lemma finished_replays {A} `{Model A} k api fp success settings (run : string -> M DB W A) status
    http_status payload s :
  str_elem status ["completed"; "failed"; "outcome_unknown"] = true ->
  finished k fp status http_status payload (st_working s) ->
  exists c s1, create_endpoint k api fp success settings run s = (replay_create success c, s1) /\
    rc_replay_status c = Some http_status /\ rc_replay_payload c = Some payload /\
    st_committed s1 = st_committed s /\ st_working s1 = st_working s /\ st_world s1 = st_world s.
Proof.
  intros Hs (r & Hk & Hfp & Hst & Hh & Hp). unfold create_endpoint, claim_create_request, clock_now.
  rewrite bind_assoc, bind_tick, bind_assoc, bind_db_read. unfold get_create_request at 1.
  cbn [st_working]. rewrite Hk, Hfp, String.eqb_refl. cbn [negb]. rewrite Hst.
  assert (Hn : str_elem status ["in_flight"; "expired"] = false).
  { unfold str_elem in *. cbn in *. destruct (String.eqb_spec status "in_flight") as [->|];
      [discriminate Hs|]. destruct (String.eqb_spec status "expired") as [->|]; [discriminate Hs|done]. }
  rewrite Hn, bind_lift. unfold claim_from_existing. rewrite Hfp, String.eqb_refl, Hst. cbn [negb].
  unfold str_elem in Hn. cbn in Hn. apply orb_false_iff in Hn as [H1 H2].
  apply orb_false_iff in H2 as [H2 _]. rewrite H1, H2, Hs. cbn [negb]. rewrite Hh, Hp.
  eexists _, _. split; [reflexivity|]. done.
Qed.

End storing.

(** ** Once *)

(** [again], tried right after [first]: the same answer, as pydantic reads it
    back, or the same refusal, and no effect; a refusal the service declares
    retryable is left to be tried again. *)
Definition answered_once {W A} {R : Runtime} `{Model A} (k : idem_key) (first again : M DB W A)
  : Prop :=
  forall s, fresh_session s -> st_races s = [] -> t_idem (st_committed s) !! k = None ->
  let '(answer, s1) := first s in
  let replays answer' := exists s2, again s1 = (answer', s2) /\
    st_committed s2 = st_committed s1 /\ st_working s2 = st_working s1 /\
    st_world s2 = st_world s1 in
  match answer with
  | Ok a => replays (model_validate (model_dump a))
  | Err (OC (StoredError _ _ _ _)) => True
  | Err (OC e) =>
      if retryable e then True
      else replays (Err (OC (StoredError (oc_status e) (oc_code e) (oc_message e) (oc_details e))))
  | Err _ => True
  end.

Section once.
Context {W : Type} {R : Runtime}.

Lemma stored_error_payload c e :
  rc_replay_status c = Some (oc_status e) -> rc_replay_payload c = Some (error_payload e) ->
  oc_status e <> 0 ->
  stored_error c = OC (StoredError (oc_status e) (oc_code e) (oc_message e) (oc_details e)).
Proof.
  intros Hs Hp Hz. unfold stored_error. rewrite Hp, Hs. cbn [or_else]. unfold status_or_500.
  rewrite (proj2 (Z.eqb_neq _ _) Hz). reflexivity.
Qed.

(** What an endpoint does with an error of its service. *)
Lemma create_endpoint_refuses {A} `{Model A} k api fp success settings (run : string -> M DB W A) c
    s s0 e s2 :
  claim_create_request k api fp (cfg_idempotency_inflight_timeout_seconds settings) s = (Ok c, s0) ->
  is_replay c = false -> run (rc_broker_request_id c) s0 = (Err (OC e), s2) ->
  create_endpoint k api fp success settings run s =
  (db_rollback ;;; store_failure k settings e ;;; raise (OC e)) s2.
Proof.
  intros Hc Hn Hr. unfold create_endpoint. rewrite (bind_step _ _ _ _ _ Hc), Hn.
  unfold bind at 1, try_except. rewrite Hr.
  by destruct ((db_rollback ;;; store_failure k settings e ;;; raise (OC e)) s2) as [[a|x] s3] eqn:E;
    [exfalso; m_inv|].
Qed.

Lemma create_answered_once {A} `{Model A} k api api' fp success settings settings'
    (run run' : string -> M DB W A) :
  0 < success < 400 ->
  (forall rid, Keeps (among (fun d => held k fp (t_idem d)) alone) (run rid)) ->
  answered_once k (create_endpoint k api fp success settings run)
    (create_endpoint k api' fp success settings' run').
Proof.
  intros Hsucc Hrun s Hf Hr Hk.
  destruct (create_endpoint k api fp success settings run s) as [answer s1] eqn:E. cbv zeta.
  destruct (claim_new k api fp (cfg_idempotency_inflight_timeout_seconds settings) s Hf Hr Hk)
    as (c & s0 & Hc & Hn & H0).
  specialize (Hrun (rc_broker_request_id c) s0 H0).
  destruct (run (rc_broker_request_id c) s0) as [[a|x] s2] eqn:Er; cbn in Hrun.
  - unfold create_endpoint in E. rewrite (bind_step _ _ _ _ _ Hc), Hn in E.
    rewrite (bind_step _ _ s0 a s2) in E by (unfold try_except; by rewrite Er).
    destruct (complete_finishes k fp success (model_dump a)
      (cfg_idempotency_retention_seconds settings) s2 Hrun) as (s3 & Hco & Hfi & _).
    rewrite (bind_step _ _ _ _ _ Hco) in E. injection E as <- <-.
    destruct (finished_replays k api' fp success settings' run' "completed" success (model_dump a) s3
      eq_refl Hfi) as (c' & s4 & Hre & Hs & Hp & H1 & H2 & H3).
    exists s4. split; [|done]. rewrite Hre. unfold replay_create. rewrite Hs, Hp.
    by rewrite bool_decide_true.
  - destruct (match x with OC e => Some e | _ => None end) as [e|] eqn:Ex; cycle 1.
    { unfold create_endpoint in E. rewrite (bind_step _ _ _ _ _ Hc), Hn in E.
      rewrite (bind_err _ _ s0 x s2) in E
        by (unfold try_except; rewrite Er; by destruct x).
      injection E as <- <-. by destruct x. }
    assert (x = OC e) as -> by (destruct x; try discriminate Ex; by injection Ex as ->). clear Ex.
    rewrite (create_endpoint_refuses _ _ _ _ _ _ _ _ _ _ _ Hc Hn Er), bind_db_rollback in E.
    set (s3 := MkSt _ _ _ _ _ _) in E.
    assert (H3 : among (fun d => held k fp (t_idem d)) alone s3)
      by (destruct Hrun as [[H1 _] H2]; split; [by split|exact H2]).
    destruct (retryable e) eqn:Ere.
    { unfold store_failure in E. rewrite Ere, bind_ret in E. injection E as <- <-.
      destruct e; done || by rewrite Ere. }
    destruct (failure_finishes k fp settings e s3 H3 Ere) as (s4 & status & Hst & Hse & Hfi & _).
    rewrite (bind_step _ _ _ _ _ Hst) in E. injection E as <- <-.
    destruct (finished_replays k api' fp success settings' run' status (oc_status e)
      (error_payload e) s4 Hse Hfi) as (c' & s5 & Hre & Hs & Hp & H5 & H6 & H7).
    pose proof (oc_status_range e) as Hran.
    assert (Hrep : match e with StoredError _ _ _ _ => True | _ =>
      replay_create (A := A) success c' =
        Err (OC (StoredError (oc_status e) (oc_code e) (oc_message e) (oc_details e))) end).
    { destruct e; try done; unfold replay_create; rewrite bool_decide_false
        by (rewrite Hs; intros [= Heq]; cbn in *; lia);
      f_equal; by apply stored_error_payload; [| |cbn]. }
    destruct e; try done; rewrite Ere; exists s5; (split; [by rewrite Hre, Hrep|done]).
Qed.

End once.


(** A job the customer cannot pay for, and its retry. *)
Definition unpaid_job (s : St DB unit) : res CreateJobResponse * St DB unit :=
  open_job_endpoint (R := demo_clock) (MkCreateJobRequest "cap" "off" "unary" 8 (Some 10) None
    (bytes_hex (repeat Byte.x0a 32)) ("02" ++ bytes_hex (repeat Byte.x0b 32))) 2%N 14%N "k1" None
    demo_settings s.

