(* ===== verification/SessionProps.v ===== *)
(** * Engagements: the properties of single operations

    The claim's recursion, the life of a grant as the receiver reports it, the
    effect of a close and of its replay, and what the session janitor's
    transaction keeps of its own work. *)

From S2P Require Import Prelude PyData DecimalCtx Errors Effects Store Pricing Settings Billing.
From S2P Require Import BillingFacts BillingProps SettlementVerification SettlementProps.
From S2P Require Import BrokerSettlement PaymentDaemon Registry Wholesale Payments.
From S2P Require Import SessionCore SessionSettle SessionPrepare SessionFlows Jobs JobReconcile.
From S2P Require Import Scheduler SessionFacts EngagementSpec EngagementKeeps.
From Stdlib Require Import Init.Byte.

Open Scope string_scope.
Open Scope Z_scope.
Open Scope loc_scope.

(** ** Computations that keep a predicate of the working copy *)

Definition working_inv {W} (P : DB -> Prop) (s : St DB W) : Prop := P (st_working s).

Section working.
Context {W : Type} (P : DB -> Prop).
Local Abbreviation keeps_working m := (Keeps (W := W) (working_inv P) m).

#[export] Instance working_inv_read : keeps_working db_read.
Proof. by intros s. Qed.
#[export] Instance working_inv_flush : keeps_working db_flush.
Proof. by intros s. Qed.
#[export] Instance working_inv_tick {A} (f : nat -> A) : keeps_working (tick f).
Proof. by intros s. Qed.
#[export] Instance working_inv_remote {A} (call : W -> res A * W) :
  keeps_working (remote (DB := DB) call).
Proof. intros s Hs. unfold remote. by destruct (call (st_world s)). Qed.

Lemma working_inv_modify g : (forall d, P d -> P (g d)) -> keeps_working (db_modify g).
Proof. intros Hg s Hs. by apply Hg. Qed.

(** Continuing after a computation that only reads. *)
Lemma keeps_from {A} (m : M DB W A) :
  (forall d, P d -> forall s, st_working s = d -> P (st_working (snd (m s)))) -> keeps_working m.
Proof. intros H s Hs. by apply (H (st_working s)). Qed.

Lemma reads_bind {A B} (d : DB) (m : M DB W A) (f : A -> M DB W B) s :
  Keeps (W := W) (working_inv (fun x => x = d)) m -> st_working s = d -> P d ->
  (forall a s1, m s = (Ok a, s1) -> st_working s1 = d -> P (st_working (snd (f a s1)))) ->
  P (st_working (snd (bind m f s))).
Proof.
  intros Hm Hs Hd Hf. specialize (Hm s Hs). unfold working_inv in Hm. unfold bind.
  destruct (m s) as [[a|e] s1] eqn:E; cbn in Hm; [by eapply Hf|]. cbn. by rewrite Hm.
Qed.
End working.

(** ** The recursion of a claim *)

Section claims.
Context {W : Type} {R : Runtime}.
Implicit Types (s : St DB W).

Lemma bind_ext {A B} (m : M DB W A) (f g : A -> M DB W B) s :
  (forall a s1, m s = (Ok a, s1) -> f a s1 = g a s1) -> bind m f s = bind m g s.
Proof. intros H. unfold bind. destruct (m s) as [[a|e] s1]; [by apply H|done]. Qed.

(** The body calls itself only where the engagement exists, *)
Lemma claim_body_ext again again' u k route rid eu mu hold sdk period cap gid s :
  (forall s1 r, find_engagement u rid (st_working s) = None ->
     find_engagement u rid (st_working s1) = Some r -> again s1 = again' s1) ->
  claim_engagement_body (W := W) again u k route rid eu mu hold sdk period cap gid s =
  claim_engagement_body again' u k route rid eu mu hold sdk period cap gid s.
Proof.
  intros Ha. unfold claim_engagement_body. rewrite !bind_db_read.
  do 3 (apply bind_ext; intros ? ? _). destruct (find_engagement u rid (st_working s)) eqn:En; [done|].
  do 2 (apply bind_ext; intros ? ? _). unfold try_except.
  destruct ((db_commit ;;; ret _) _) as [[x|e] s5]; [done|]. destruct e; try reflexivity.
  rewrite !bind_db_rollback, !bind_db_read.
  cbn [st_working].
  destruct (find_engagement u rid (st_committed s5)) eqn:Ef; [by eapply Ha|].
  reflexivity.
Qed.

(** ... and there answers without calling itself. *)
Lemma claim_body_found again again' u k route rid eu mu hold sdk period cap gid s r :
  find_engagement u rid (st_working s) = Some r ->
  claim_engagement_body (W := W) again u k route rid eu mu hold sdk period cap gid s =
  claim_engagement_body again' u k route rid eu mu hold sdk period cap gid s.
Proof. intros Hf. apply claim_body_ext. intros s1 x Hn. congruence. Qed.
End claims.


(** ** The life of a grant *)

Section grants.
Context {W : Type} {R : Runtime} {B : BrokerAccountClient W}.
Implicit Types (s : St DB W) (g : SpendAuthorizationGrant).

(** The receiver reported the grant unused: nothing was metered, billed or
    reserved, an expiry was observed after the grant expired, and the account
    that answers is the one the grant pins. *)
Definition zero_use g (n : SpendAuthorizationState) : Prop :=
  exists url payee o a w1 w2 w3 w4,
    ba_get_spend_authorization url (sg_payer_eth_address g) (sg_authorization_id g)
      (sg_wholesale_account_id g) payee (sg_settlement_domain_id g) w1 = (Ok o, w2) /\
    so_state o = n /\ so_actual_units o = 0 /\ so_billed_value_wei o = 0 /\
    so_reserved_value_wei o = 0 /\
    (n = SA_EXPIRED_UNUSED ->
       dt_us (normalized_utc (sg_expires_at g)) <= dt_us (so_observed_at o)) /\
    ba_get_wholesale_account url (sg_payer_eth_address g) payee (sg_chain_id g)
      (sg_settlement_domain_id g) (sg_wholesale_account_id g) w3 = (Ok a, w4) /\
    account_matches_grant g payee a = true.

(** The moves a receiver's report can make. *)
Inductive grant_step g : SpendAuthorizationGrant -> Prop :=
  | gs_in_use state :
      (sg_state g, state) ∈ [("issued", "admitted"); ("issued", "outcome_unknown");
                             ("admitted", "outcome_unknown")] ->
      grant_step g (set_sg_state state g)
  | gs_spent state now :
      sg_state g ∈ live_states -> state ∈ ["settled"; "superseded"] ->
      grant_step g (retire state now g)
  | gs_unused n now :
      sg_state g ∈ ["issued"; "outcome_unknown"] ->
      n ∈ [SA_EXPIRED_UNUSED; SA_CANCELED_UNUSED] -> zero_use g n ->
      grant_step g (retire (sa_state_str n) now g).

(** Whatever grant one looks up has moved along those steps. *)
Definition grants_advance (d d' : DB) : Prop :=
  forall i a, match find_grant i a d with
              | Some g => exists g', find_grant i a d' = Some g' /\ rtc grant_step g g'
              | None => find_grant i a d' = None
              end.

#[export] Instance grants_advance_preorder : PreOrder grants_advance.
Proof.
  split.
  - intros d i a. destruct (find_grant i a d); [|done]. by eexists.
  - intros x y z Hxy Hyz i a. specialize (Hxy i a). specialize (Hyz i a).
    destruct (find_grant i a x) as [g|].
    + destruct Hxy as (g' & E & Hg). rewrite E in Hyz. destruct Hyz as (g2 & E2 & Hg2).
      exists g2. split; [done|]. by etrans.
    + by rewrite Hxy in Hyz.
Qed.

Lemma find_grant_key i a d g : find_grant i a d = Some g -> sg_session_id g = i /\ sg_authorization_id g = a.
Proof.
  intros H. apply find_some in H as [_ H]. unfold grant_by_id in H. bool_props.
  split; [by apply N.eqb_eq|by apply String.eqb_eq].
Qed.

Lemma advance_update i a d g f :
  find_grant i a d = Some g -> (forall x, grant_key (f x) = grant_key x) ->
  rtc grant_step g (f g) -> grants_advance d (update_grant i a f d).
Proof.
  intros Hg Hf Hs j b. unfold find_grant, update_grant in *. cbn.
  assert (Hk : forall x, grant_by_id i a (f x) = grant_by_id i a x).
  { intros x. specialize (Hf x). unfold grant_key in Hf. injection Hf as E1 E2 _.
    unfold grant_by_id. by rewrite E1, E2. }
  destruct (decide ((j, b) = (i, a))) as [[= -> ->]|Hne].
  - rewrite find_update_first by done. rewrite Hg. cbn. by eexists.
  - rewrite find_update_first_ne.
    + destruct (List.find (grant_by_id j b) (t_grant d)); [|done]. by eexists.
    + intros x. specialize (Hf x). unfold grant_key in Hf. injection Hf as E1 E2 _.
      unfold grant_by_id. by rewrite E1, E2.
    + intros x Hx. unfold grant_by_id in *. bool_props.
      apply andb_false_iff. apply N.eqb_eq in H. apply String.eqb_eq in H0. subst.
      destruct (N.eqb (sg_session_id x) i) eqn:E1; [|by left]. right.
      apply String.eqb_neq. intros E2. apply N.eqb_eq in E1. congruence.
Qed.

Lemma str_elem_In x l : str_elem x l = true -> x ∈ l.
Proof.
  unfold str_elem. intros (y & Hy & ->%String.eqb_eq)%existsb_exists. by apply list_elem_of_In.
Qed.

Lemma or_skip_some {A} caught (m : M DB W A) s a s1 :
  or_skip caught m s = (Ok (Some a), s1) -> m s = (Ok a, s1).
Proof.
  unfold or_skip, try_except, bind. destruct (m s) as [[x|e] s2]; [by intros [= -> ->]|].
  by destruct (caught e).
Qed.

Lemma observe_grant_ok g url s o s1 :
  observe_grant g url s = (Ok (Some o), s1) ->
  exists payee w1 w2, dict_str "eth_address" (sg_route_snapshot g) = Ok payee /\
    ba_get_spend_authorization url (sg_payer_eth_address g) (sg_authorization_id g)
      (sg_wholesale_account_id g) payee (sg_settlement_domain_id g) w1 = (Ok o, w2).
Proof.
  unfold observe_grant. intros H. m_inv.
  match goal with Ho : or_skip _ _ _ = (Ok ?x, _) |- _ => destruct x as [x0|]; [|done] end.
  case_match; [|done]. simplify_eq. do 3 eexists. split; [done|].
  eapply remote_ok, or_skip_some. eassumption.
Qed.

Lemma unused_confirmed_ok g url o s s1 :
  unused_confirmed g url o s = (Ok true, s1) ->
  unused_evidence g o = true /\
  exists payee a w3 w4, dict_str "eth_address" (sg_route_snapshot g) = Ok payee /\
    ba_get_wholesale_account url (sg_payer_eth_address g) payee (sg_chain_id g)
      (sg_settlement_domain_id g) (sg_wholesale_account_id g) w3 = (Ok a, w4) /\
    account_matches_grant g payee a = true.
Proof.
  unfold unused_confirmed. destruct (unused_evidence g o) eqn:E; [|done]. intros H. split; [done|].
  cbn [negb] in H. m_inv.
  match goal with Ho : or_skip _ _ _ = (Ok ?x, _) |- _ =>
    destruct x as [[a payee]|]; [|done]; apply or_skip_some in Ho end. m_inv. simplify_eq.
  match goal with Hr : remote _ _ = _ |- _ => apply remote_ok in Hr end. by do 4 eexists.
Qed.

Lemma report_zero_use g url o s s1 s2 s3 :
  observe_grant g url s = (Ok (Some o), s1) -> unused_confirmed g url o s2 = (Ok true, s3) ->
  zero_use g (so_state o) /\ sg_state g <> "admitted".
Proof.
  intros (payee & w1 & w2 & Hp & Ho)%observe_grant_ok
    (He & payee' & a & w3 & w4 & Hp' & Ha & Hm)%unused_confirmed_ok.
  rewrite Hp in Hp'. injection Hp' as <-. unfold unused_evidence in He. bool_props. split.
  - exists url, payee, o, a, w1, w2, w3, w4. split_and!; try done. intros Hx.
    match goal with H : (bool_decide _ && _)%bool = false |- _ => rewrite Hx, bool_decide_eq_true_2 in H by done end.
    cbn in *. by bool_props.
  - by apply String.eqb_neq.
Qed.

Lemma report_steps g o url s s1 now :
  observe_grant g url s = (Ok (Some o), s1) -> str_elem (sg_state g) live_states = true ->
  may_advance (sg_state g) (so_state o) = true ->
  (so_state o = SA_CANCELED_UNUSED \/ so_state o = SA_EXPIRED_UNUSED ->
     exists s2 s3, unused_confirmed g url o s2 = (Ok true, s3)) ->
  grant_step g (if sa_terminal (so_state o) then retire (sa_state_str (so_state o)) now g
                else set_sg_state (sa_state_str (so_state o)) g).
Proof.
  intros Ho Hl Hm Hu.
  assert (Hz : so_state o = SA_CANCELED_UNUSED \/ so_state o = SA_EXPIRED_UNUSED ->
             zero_use g (so_state o) /\ sg_state g <> "admitted").
  { intros (s2 & s3 & Hc)%Hu. by eapply report_zero_use. }
  clear Hu Ho. apply str_elem_In in Hl. pose proof Hl as Hl'. unfold live_states in Hl'.
  rewrite !elem_of_cons in Hl'. destruct (so_state o) eqn:Es; cbn;
    try (apply gs_spent; [done|set_solver]);
    destruct Hl' as [E|[E|[E|[]%elem_of_nil]]]; rewrite E in Hm; try discriminate Hm;
    try (apply gs_in_use; rewrite E; set_solver);
    destruct Hz as [Hz Hn]; auto; try congruence;
    (first [apply (gs_unused g SA_EXPIRED_UNUSED now)|apply (gs_unused g SA_CANCELED_UNUSED now)];
      [rewrite E; set_solver|set_solver|exact Hz]).
Qed.

Lemma reconcile_grant_advances d0 changed stale :
  Keeps (working_inv (grants_advance d0)) (reconcile_grant changed stale).
Proof.
  apply keeps_from. intros d Hd s Hs. unfold reconcile_grant. rewrite bind_db_read, Hs.
  set (s0 := MkSt _ _ _ _ _ _). assert (Hs0 : st_working s0 = d) by done. clearbody s0.
  destruct (find_grant _ _ d) as [g|] eqn:Eg; [|by cbn; rewrite Hs0].
  destruct (str_elem (sg_state g) live_states) eqn:El; cbn; [|by rewrite Hs0].
  destruct (dget "broker_url" _) as [[]|]; try (cbn; by rewrite Hs0).
  destruct (str_truthy _); cbn; [|by rewrite Hs0].
  apply (reads_bind _ d); [|done..|].
  { unfold observe_grant, or_skip. keeps; handler. }
  intros [o|] t1 Eo Ht1; [|cbn; by rewrite Ht1].
  apply (reads_bind _ d); [|done..|].
  { unfold unused_confirmed, or_skip. keeps; handler. }
  intros [] t2 Ec Ht2; [|cbn; by rewrite Ht2].
  unfold advance_grant. destruct (may_advance _ _) eqn:Em; cbn; [|by rewrite Ht2].
  destruct (find_grant_key _ _ _ _ Eg) as [Hi Ha]. rewrite Hi, Ha.
  assert (Hstep : forall now, grant_step g
      (if sa_terminal (so_state o) then retire (sa_state_str (so_state o)) now g
       else set_sg_state (sa_state_str (so_state o)) g)).
  { intros now. eapply report_steps; [done..|]. intros [Hx|Hx]; rewrite Hx in Ec; eauto. }
  assert (Hw : forall f, (forall x, grant_key (f x) = grant_key x) -> grant_step g (f g) ->
    grants_advance d0 (update_grant (sg_session_id stale) (sg_authorization_id stale) f d)).
  { intros f Hf Hg. etrans; [exact Hd|]. apply (advance_update _ _ d g); [done..|].
    by apply rtc_once. }
  destruct (sa_terminal (so_state o)).
  - destruct (sg_retired_at g) as [t|]; unfold bind; cbn; rewrite Ht2; apply Hw; try apply Hstep;
      by intros [].
  - unfold bind. cbn. rewrite Ht2. apply Hw; [by intros []|apply Hstep; exact (DT 0 true)].
Qed.

Lemma reconcile_states_advance d0 limit :
  Keeps (working_inv (grants_advance d0)) (reconcile_spend_authorization_states limit).
Proof.
  unfold reconcile_spend_authorization_states. keeps. apply reconcile_grant_advances.
Qed.
End grants.


(** ** The session janitor *)

(** What settlements, reports and polls write: grants, settlement events, and
    the columns of a row they own. *)
Definition reconciled_view (r : PaymentSession) :=
  (ps_work_id r, ps_authorization_id r, ps_broker_session_id r, ps_last_settlement_seq r,
   ps_breakdown r, ps_last_polled_at r).

Definition unreconciled (d0 d : DB) : Prop :=
  t_grant d = t_grant d0 /\ t_settlement d = t_settlement d0 /\
  forall id, reconciled_view <$> t_session d !! id = reconciled_view <$> t_session d0 !! id.

Lemma unreconciled_ext d0 d d' :
  t_grant d' = t_grant d -> t_settlement d' = t_settlement d -> t_session d' = t_session d ->
  unreconciled d0 d -> unreconciled d0 d'.
Proof. intros E1 E2 E3 (H1 & H2 & H3). unfold unreconciled. by rewrite E1, E2, E3. Qed.

Lemma unreconciled_release d0 d id now :
  unreconciled d0 d -> unreconciled d0 (update_session id (released now) d).
Proof.
  intros (H1 & H2 & H3). split; [done|]. split; [done|]. intros i. rewrite <- H3.
  unfold update_session. cbn. destruct (decide (i = id)) as [->|Hne].
  - rewrite lookup_alter_eq. by destruct (t_session d !! id) as [[]|].
  - by rewrite lookup_alter_ne.
Qed.

Section janitor.
Context {W : Type} {R : Runtime} {L : SettlementLib}.
Context {B : BrokerAccountClient W} {S : BrokerSettlementClient W} (d0 : DB).
Local Abbreviation keeps_all m := (Keeps (W := W) (db_inv (unreconciled d0)) m).
Local Abbreviation keeps_committed m := (Keeps (W := W) (committed_inv (unreconciled d0)) m).

#[local] Hint Extern 1 (Keeps (db_inv (unreconciled d0)) (db_modify _)) =>
  apply keeps_modify; intros ?;
  first [ apply unreconciled_ext; reflexivity | apply unreconciled_release ] : loc.

Lemma release_unreconciled id : keeps_all (release_unauthorized_engagement id).
Proof.
  unfold release_unauthorized_engagement, release_customer_engagement, apply_delta,
    ensure_balance_row, clock_now. keeps.
Qed.

Lemma first_passes_uncommitted n interval m :
  keeps_committed (reconcile_spend_authorization_states n) /\
  keeps_committed (reconcile_open_sessions interval m).
Proof.
  split.
  - unfold reconcile_spend_authorization_states, reconcile_grant, observe_grant, unused_confirmed,
      advance_grant, or_skip, clock_now. keeps; handler.
  - unfold reconcile_open_sessions, reconcile_session, mark_polled, finalize_session, or_skip,
      block_settlement, close_session, replay_closed_session, close_checks, close_apply,
      verify_close_settlement, require_retired_successors, transition_state,
      mark_spend_authorization_settled, record_settlement, clock_now. keeps; handler.
Qed.

Local Abbreviation post := (tx_post (W := W) (unreconciled d0) no_exn).

Lemma committed_post {A} (m : M DB W A) s :
  keeps_committed m -> committed_inv (unreconciled d0) s ->
  post (fun _ => committed_inv (unreconciled d0)) (m s).
Proof.
  intros Hm Hs. specialize (Hm s Hs). destruct (m s) as [[a|e] s1]; cbn in *; [done|].
  split; [done|discriminate].
Qed.

(** After the rollback of the third pass, both copies are the committed one. *)
Lemma passes_unreconciled settings s :
  committed_inv (unreconciled d0) s ->
  post (fun _ => db_inv (unreconciled d0)) (session_passes settings s).
Proof.
  intros Hs. unfold session_passes.
  eapply tx_post_bind; [apply committed_post; [apply (first_passes_uncommitted _ 0%Z 0%nat)|done]|].
  intros n s1 Hs1.
  eapply tx_post_bind; [apply committed_post; [apply (first_passes_uncommitted 0%nat)|done]|].
  intros m s2 Hs2.
  eapply (tx_post_bind _ _ (fun _ => db_inv (unreconciled d0))).
  - unfold release_stale_unauthorized_engagements, clock_now.
    rewrite bind_tick, bind_db_read. cbn zeta. rewrite bind_db_rollback.
    apply (tx_keeps (unreconciled d0)); [|by destruct Hs2].
    pose proof release_unreconciled as Hrel. keeps. 
  - intros k s3 Hs3. exact Hs3.
Qed.

Lemma sessions_task_unreconciled settings s :
  committed_inv (unreconciled d0) s ->
  committed_inv (unreconciled d0) (snd (reconcile_sessions_task settings s)).
Proof.
  intros Hs. pose proof (passes_unreconciled settings s Hs) as Hp.
  unfold reconcile_sessions_task, logged, try_except, bind, session_scope.
  unfold try_except, bind. destruct (session_passes settings s) as [[x|e] s1]; cbn in Hp.
  - pose proof (keeps_commit (unreconciled d0) s1 Hp) as Hk. unfold bind in Hk.
    destruct (db_commit s1) as [[[]|e] s2]; cbn in *; by apply db_inv_committed in Hk.
  - cbn. by destruct Hp as [[Hc Hr] _].
Qed.
End janitor.

(** C24: The session janitor keeps none of its reconciliation. Its three passes share one database
    session, and the third one rolls back after listing its candidates: whatever the first two
    passes advanced, settled, recorded or polled is discarded. Unless other transactions do it, no
    run of the task changes a grant, records a settlement event, or moves a column that polls and
    settlements write. *)
Theorem session_janitor_discards_reconciliation {W} {R : Runtime} {L : SettlementLib}
    {B : BrokerAccountClient W} {S : BrokerSettlementClient W} settings (s : St DB W) :
  races_keep (unreconciled (st_committed s)) s ->
  unreconciled (st_committed s) (st_committed (snd (reconcile_sessions_task settings s))).
Proof. intros Hr. by apply sessions_task_unreconciled. Qed.

(** ** A grant in use *)

Definition used_row : PaymentSession :=
  new_session 1%N 7%N 1%N "a1" "cap" "off" PAID_SESSION_PROTOCOL
    (Some [("broker_url", JStr "https://b")]) (Some "r1") 5 10 35
    (DT 0 true) None "wholesale_account" None (Some 35).

Definition used_grant : SpendAuthorizationGrant :=
  MkSpendAuthorizationGrant 1%N "a1" 0 None "r1" "" "" [] PAID_SESSION_PROTOCOL
    [("broker_url", JStr "https://b"); ("eth_address", JStr "0x22")] "0x33" 1 "acct" "dom" "wei" 35
    10 (DT 0 true) (DT 9000000 true) "issued" None.

Definition used_db : DB :=
  on_grant (fun _ => [used_grant]) (on_session (fun _ => {[1%N := used_row]}) db_empty).
Definition used_start : St DB unit := MkSt used_db used_db false [] 0%nat tt.

(** The receiver has admitted it. *)
Definition used_broker : BrokerAccountClient unit := {|
  ba_get_wholesale_account _ _ _ _ _ _ w := (Err (BrokerWholesaleAccountErr ""), w);
  ba_fund_wholesale_account _ _ _ _ _ _ _ _ w := (Err (BrokerWholesaleAccountErr ""), w);
  ba_get_spend_authorization _ payer a account payee domain w :=
    (Ok (MkAuthorizationObservation payee domain payer account 1 a SA_ADMITTED 35 0 0 3 1
           (DT 0 true)), w);
|}.
Definition silent_broker : BrokerSettlementClient unit := {|
  bs_get_settlement _ _ w := (Ok None, w);
  bs_get_job_exchange _ _ w := (Err (BrokerSettlementQueryErr ""), w);
  bs_request_non_admission _ _ _ w := (Err (BrokerSettlementQueryErr ""), w);
|}.

Definition grant_states (d : DB) : list string := map sg_state (t_grant d).
Definition polled_times (d : DB) : list (option datetime) := map ps_last_polled_at (sessions d).

(** The passes alone see the use and poll the session; the task forgets both. *)
Lemma session_janitor_discards_reconciliation_witness :
  let L := demo_lib (demo_job_record 5 [x12]) demo_non_admission in
  let first := snd (reconcile_spend_authorization_states (R := demo_clock) (B := used_broker) 100
                      used_start) in
  let second := snd (reconcile_open_sessions (R := demo_clock) (L := L) (S := silent_broker) 60 100
                       first) in
  let final := st_committed (snd (reconcile_sessions_task (R := demo_clock) (L := L)
                 (B := used_broker) (S := silent_broker) default_settings used_start)) in
  grant_states (st_working second) = ["admitted"] /\
  polled_times (st_working second) = [Some (DT 1000000 true)] /\
  unreconciled used_db final /\ grant_states final = ["issued"] /\ polled_times final = [None].
Proof.
  split; [vm_compute; reflexivity|]. split; [vm_compute; reflexivity|].
  split; [|split; vm_compute; reflexivity].
  apply (session_janitor_discards_reconciliation (R := demo_clock)
    (L := demo_lib (demo_job_record 5 [x12]) demo_non_admission) (B := used_broker) (S := silent_broker)
    default_settings used_start).
  intros f Hf. apply elem_of_nil in Hf. destruct Hf.
Defined.

(** ** Closing *)

(** The code commits nothing. *)
Definition committed_is {W} (d : DB) (s : St DB W) : Prop := st_committed s = d.

Section committing.
Context {W : Type} (d : DB).
Local Abbreviation keeps_committed m := (Keeps (W := W) (committed_is d) m).
#[export] Instance committed_is_read : keeps_committed db_read.
Proof. by intros s. Qed.
#[export] Instance committed_is_flush : keeps_committed db_flush.
Proof. by intros s. Qed.
#[export] Instance committed_is_modify g : keeps_committed (db_modify g).
Proof. by intros s. Qed.
#[export] Instance committed_is_tick {A} (f : nat -> A) : keeps_committed (tick f).
Proof. by intros s. Qed.
End committing.

Section closing.
Context {W : Type} {R : Runtime} {L : SettlementLib}.
Implicit Types (s : St DB W) (d : DB).

Lemma close_commits_nothing id u units outcome settlement s :
  st_committed (snd (close_session id u units outcome settlement s)) = st_committed s.
Proof.
  assert (Hk : Keeps (W := W) (committed_is (st_committed s))
      (close_session id u units outcome settlement));
    [|by apply Hk].
  unfold close_session, replay_closed_session, close_checks, close_apply, verify_close_settlement,
    require_retired_successors, transition_state, mark_spend_authorization_settled,
    record_settlement, release_customer_engagement, apply_delta, ensure_balance_row, clock_now.
  keeps.
Qed.

Lemma transition_ok id from to s r s1 :
  transition_state id from to s = (Ok r, s1) ->
  exists row c, t_session (st_working s) !! id = Some row /\ ps_state row = from /\
    (to = SESSION_STATE_CLOSED -> is_Some c) /\
    let moved x := set_ps_closed_at c (set_ps_state to x) in
    r = moved row /\ st_working s1 = update_session id moved (st_working s).
Proof.
  unfold transition_state. intros H. prim_inv.
  match goal with Hr : t_session _ !! id = Some ?r, Ho : (if _ then _ else _) _ = (Ok ?c, _) |- _ =>
    exists r, c end.
  split; [done|]. split; [by apply String.eqb_eq|].
  destruct (String.eqb to SESSION_STATE_CLOSED) eqn:Et; prim_inv.
  - split; [intros _; by eexists|done].
  - apply String.eqb_neq in Et. by subst.
Qed.

Lemma release_ok u g amount s b s1 :
  release_customer_engagement u g amount s = (Ok b, s1) ->
  t_session (st_working s1) = t_session (st_working s) /\
  t_grant (st_working s1) = t_grant (st_working s) /\
  t_settlement (st_working s1) = t_settlement (st_working s) /\
  (find_engagement_entry g "engagement_release" (st_working s) = None ->
     t_ledger (st_working s1) =
     (t_ledger (st_working s) ++
        [MkCreditLedger u amount "engagement_release" None (Some g) None None])%list).
Proof.
  intros H. pose (P d := t_session d = t_session (st_working s) /\
    t_grant d = t_grant (st_working s) /\ t_settlement d = t_settlement (st_working s)).
  assert (Hk : Keeps (W := W) (working_inv P) (release_customer_engagement u g amount)).
  { assert (Hm : forall f, (forall d, P d -> P (f d)) -> Keeps (W := W) (working_inv P) (db_modify f))
      by (intros; by apply working_inv_modify).
    unfold release_customer_engagement, apply_delta, ensure_balance_row. keeps; by apply Hm. }
  specialize (Hk s). rewrite H in Hk. destruct Hk as (H1 & H2 & H3); [done|].
  split; [done|]. split; [done|]. split; [done|].
  intros Hn. by apply (ap_ledger _ _ _ (release_appended u g amount s b s1 Hn H)).
Qed.

Lemma mark_settled_ok id auth s g s1 :
  mark_spend_authorization_settled id auth s = (Ok g, s1) ->
  exists now, st_working s1 = update_grant id auth (retire "settled" now) (st_working s).
Proof.
  unfold mark_spend_authorization_settled. intros H. prim_inv.
  match goal with |- context [retire "settled" ?t] => exists t end.
  match goal with Ho : match ?r with _ => _ end _ = _ |- _ => destruct r end; by prim_inv.
Qed.

Lemma record_ok id ty units billed outcome raw s e s1 :
  record_settlement id ty units billed outcome raw s = (Ok e, s1) ->
  exists at_, st_working s1 = on_settlement
    (fun l => (l ++ [MkPaymentSettlement id at_ ty units billed outcome raw])%list) (st_working s).
Proof. unfold record_settlement. intros H. prim_inv. by eexists. Qed.

(** Every grant revised from the settled one is finished unused. *)
Definition successors_retired (row : PaymentSession) (authorization_id : string) d : Prop :=
  exists settled, find_grant (ps_id row) authorization_id d = Some settled /\
    forall g, g ∈ t_grant d -> sg_session_id g = ps_id row -> sg_revision settled < sg_revision g ->
      sg_state g ∈ ["canceled_unused"; "expired_unused"] /\ is_Some (sg_retired_at g).

Lemma find_filter {A} (p q : A -> bool) (l : list A) :
  List.find p (List.filter q l) = List.find (fun x => q x && p x) l.
Proof. induction l as [|x l IH]; cbn; [done|]. by destruct (q x); cbn; rewrite IH. Qed.

Lemma retired_successors_ok row auth s u s1 :
  require_retired_successors row auth s = (Ok u, s1) ->
  successors_retired row auth (st_working s) /\ st_working s1 = st_working s.
Proof.
  unfold require_retired_successors. intros H. prim_inv.
  match type of H with match ?x with _ => _ end _ = _ => destruct x eqn:Hn; [done|] end. m_inv.
  split; [|by subst]. rewrite find_filter in *.
  match goal with Hs : List.find _ _ = Some ?g |- _ => exists g; split; [exact Hs|] end.
  intros g Hg Hi Hlt. apply (find_none _ _) with (x := g) in Hn; [|by apply list_elem_of_In].
  apply N.eqb_eq in Hi. rewrite Hi in Hn. cbn in Hn.
  apply andb_false_iff in Hn as [Hn|Hn]; bool_props; [lia|].
  split; [by apply str_elem_In|]. by destruct (sg_retired_at g).
Qed.

(** What a close does to the tables; [refund] is the unused hold. *)
Record close_effect (d d' : DB) (id u : uuid) (row : PaymentSession) (settlement : dict)
    (v : VerifiedSessionSettlement) (refund : Z) (resp : CloseSessionResponse) : Prop := {
  ce_refund : cs_refund_wei resp = Z.max refund 0;
  ce_authorization : settled_authorization settlement = Some (cs_work_id resp);
  ce_units : cs_actual_units resp = vs_debited_units v;
  ce_row : t_session d' = <[id := bind_authorization (cs_work_id resp)
      (close_columns v (cs_billed_value_wei resp) (cs_outcome resp)
        (set_ps_closed_at (Some (cs_closed_at resp)) (set_ps_state SESSION_STATE_CLOSED row)))]>
      (t_session d);
  ce_grant : exists now, t_grant d' =
      update_first (grant_by_id (ps_id row) (cs_work_id resp)) (retire "settled" now) (t_grant d);
  ce_event : exists at_, t_settlement d' = (t_settlement d ++
      [MkPaymentSettlement id at_ "close" (Some (vs_debited_units v))
         (Some (cs_billed_value_wei resp)) (Some (cs_outcome resp)) (Some settlement)])%list;
  ce_ledger : find_engagement_entry (ps_id row) "engagement_release" d = None ->
      t_ledger d' = (t_ledger d ++ if 0 <? refund
        then [MkCreditLedger u refund "engagement_release" None (Some (ps_id row)) None None]
        else [])%list;
}.

Lemma refund_ok u g amount s x s1 :
  (if 0 <? amount then release_customer_engagement u g amount ;;; ret tt else ret tt) s
    = (Ok x, s1) ->
  t_session (st_working s1) = t_session (st_working s) /\
  t_grant (st_working s1) = t_grant (st_working s) /\
  t_settlement (st_working s1) = t_settlement (st_working s) /\
  (find_engagement_entry g "engagement_release" (st_working s) = None ->
     t_ledger (st_working s1) = (t_ledger (st_working s) ++ if 0 <? amount
       then [MkCreditLedger u amount "engagement_release" None (Some g) None None] else [])%list).
Proof.
  destruct (0 <? amount); intros H; m_inv.
  - subst. by eapply release_ok.
  - subst. by rewrite app_nil_r.
Qed.

Lemma close_apply_ok id u row settlement v billed refund final s resp s1 :
  t_session (st_working s) !! id = Some row ->
  close_apply id u row settlement v billed refund final s = (Ok resp, s1) ->
  cs_billed_value_wei resp = billed /\ cs_outcome resp = final /\ cs_session_id resp = ps_id row /\
  close_effect (st_working s) (st_working s1) id u row settlement v refund resp.
Proof.
  intros Hr. unfold close_apply. intros H. prim_inv.
  apply transition_ok in H0 as (row' & c & Hr' & _ & Hc & -> & Hw0).
  rewrite Hr in Hr'. injection Hr' as <-. destruct Hc as [t ->]; [done|].
  apply mark_settled_ok in H5 as [now Hw1]. cbn in Hw1.
  apply record_ok in H7 as [at_ Hw2]. cbn in Hw2. rewrite Hw1 in Hw2. cbn in H9. injection H9 as <-.
  apply refund_ok in H1 as (Es & Eg & Et & El). rewrite Hw0 in Es, Eg, Et, El. cbn in Eg, Et, El.
  split; [done|]. split; [done|]. split; [done|]. rewrite Hw2. split; cbn; try done.
  - rewrite Es, (update_session_lookup _ _ _ row Hr). apply map_eq. intros i.
    destruct (decide (i = id)) as [->|Hne].
    + by rewrite !lookup_alter_eq, !lookup_insert_eq.
    + by rewrite !lookup_alter_ne, !lookup_insert_ne by done.
  - exists now. by rewrite Eg.
  - exists at_. by rewrite Et.
Qed.

Lemma close_checks_effect row units outcome settlement s v billed refund final s1 :
  close_checks row units outcome settlement s = (Ok (v, billed, refund, final), s1) ->
  (exists s2, verify_close_settlement row settlement true s = (Ok v, s2)) /\
  vs_debited_units v = units /\ customer_bill row v = Ok (billed, refund) /\
  successors_retired row (vs_work_id v) (st_working s) /\
  (forall o, outcome = Some o -> o = final) /\ st_working s1 = st_working s.
Proof.
  unfold close_checks. intros H. m_inv.
  match type of H with (let '(_, _) := ?x in _) _ = _ => destruct x as [b rf] end.
  m_inv. simplify_eq. bool_props.
  match goal with Hr : require_retired_successors _ _ ?t = _,
    Hv : verify_close_settlement _ _ _ _ = (Ok ?w, ?t) |- _ =>
    apply retired_successors_ok in Hr as [Hs Hw];
    assert (Ht : st_working t = st_working s);
    [ assert (Hk : Keeps (W := W) (working_inv (fun d => d = st_working s))
        (verify_close_settlement row settlement true)) by (unfold verify_close_settlement; keeps);
      specialize (Hk s eq_refl); rewrite Hv in Hk; exact Hk | rewrite Ht in * ] end.
  split; [by eexists|]. split; [done|]. split; [done|]. split; [done|]. split; [|done].
  intros o ->. by apply String.eqb_eq.
Qed.

Lemma replay_reads d row settlement units outcome :
  Keeps (W := W) (working_inv (fun x => x = d)) (replay_closed_session row settlement units outcome).
Proof. unfold replay_closed_session. keeps. Qed.

(** Everything a successful close did. *)
Lemma close_session_ok id u units outcome settlement s resp s' :
  close_session id u units outcome settlement s = (Ok resp, s') ->
  exists row, t_session (st_working s) !! id = Some row /\ ps_user_id row = u /\
    if is_closed row then
      st_working s' = st_working s /\
      exists s0, st_working s0 = st_working s /\
        replay_closed_session row settlement units outcome s0 = (Ok resp, s')
    else exists record v refund s0 s1,
      settlement = Some record /\ is_wholesale row = true /\
      st_working s0 = st_working s /\
      verify_close_settlement row settlement true s0 = (Ok v, s1) /\
      vs_debited_units v = units /\ (forall o, outcome = Some o -> o = cs_outcome resp) /\
      customer_bill row v = Ok (cs_billed_value_wei resp, refund) /\
      successors_retired row (vs_work_id v) (st_working s) /\
      cs_session_id resp = ps_id row /\
      close_effect (st_working s) (st_working s') id u row record v refund resp.
Proof.
  unfold close_session. intros H. prim_inv.
  match goal with Hr : t_session _ !! id = Some ?r |- _ => exists r; split; [done|] end.
  split; [by apply N.eqb_eq|]. unfold is_closed.
  destruct (String.eqb (ps_state _) SESSION_STATE_CLOSED) eqn:Ec.
  - split; [|by eexists]. match type of H with replay_closed_session ?r _ _ _ ?s0 = _ =>
      pose proof (replay_reads (st_working s) r settlement units outcome s0 eq_refl) as Hk end.
    rewrite H in Hk. exact Hk.
  - m_inv. match type of H with (let '(_, _) := ?x in _) _ = _ => destruct x as [[[v b] rf] final] end.
    m_inv. opt_inv. subst.
    match goal with Hc : close_checks _ _ _ _ _ = _ |- _ =>
      apply close_checks_effect in Hc as ((s2 & Hv) & Hu & Hb & Hs & Ho & Hw) end.
    cbn in Hs, Hw. apply close_apply_ok in H as (<- & <- & Hi & He); [|by rewrite Hw].
    rewrite Hw in He. match type of Hv with _ ?s0 = _ => do 3 eexists; exists s0, s2 end. by split_and!.
Qed.

(** Replaying depends on the stored rows only. *)
Lemma replay_from row settlement units outcome s s' :
  st_working s = st_working s' ->
  fst (replay_closed_session (W := W) row settlement units outcome s) =
  fst (replay_closed_session row settlement units outcome s').
Proof.
  intros E. unfold replay_closed_session. rewrite !bind_db_read, E. cbn zeta.
  repeat (rewrite ?bind_lift, ?bind_guard; match goal with
    | |- fst (match ?x with _ => _ end) = _ => destruct x; [|done]
    | |- fst (if ?x then _ else _) = _ => destruct x; [|done] end).
  done.
Qed.

(** A closed session answers the close it recorded again. *)
Lemma replay_answer row record outcome s previous hold final closed_at units billed :
  List.find (is_close_event (ps_id row)) (t_settlement (st_working s)) = Some previous ->
  pt_raw_record previous = Some record -> dict_wf record ->
  ps_actual_units row = Some units -> ps_outcome row = Some final ->
  (forall o, outcome = Some o -> o = final) -> ps_billed_value_wei row = Some billed ->
  ps_customer_max_debit_wei row = Some hold -> ps_closed_at row = Some closed_at ->
  fst (replay_closed_session (W := W) row (Some record) units outcome s) =
  Ok (MkCloseSession (ps_id row) (ps_work_id row) units billed (Z.max (dsub hold billed) 0) final
        closed_at).
Proof.
  intros Hp Hr Hwf Hu Hf Ho Hb Hh Hc. unfold replay_closed_session.
  rewrite bind_db_read. cbn zeta. rewrite bind_lift, Hp. cbn [of_option].
  rewrite bind_guard, Hr, Hu, Hf. cbn [opt_dict_eqb]. rewrite dict_eqb_refl by done.
  rewrite !bool_decide_eq_true_2 by done. cbn [andb].
  replace (bool_decide (outcome = None) || bool_decide (outcome = Some final))%bool with true.
  - by rewrite !bind_lift, Hc, Hb, Hh.
  - destruct outcome as [o|]; [|done]. rewrite (Ho o eq_refl), (bool_decide_eq_true_2 (Some final = Some final)) by done.
      by rewrite orb_true_r.
Qed.

Lemma close_closed id u units outcome settlement s row :
  t_session (st_working s) !! id = Some row -> ps_user_id row = u -> is_closed row = true ->
  fst (close_session (W := W) id u units outcome settlement s) =
    fst (replay_closed_session row settlement units outcome s) /\
  st_working (snd (close_session (W := W) id u units outcome settlement s)) = st_working s.
Proof.
  intros Hr Hu Hc. unfold close_session. rewrite bind_db_read, bind_lift, Hr. cbn [of_option].
  rewrite bind_guard, Hu, N.eqb_refl. unfold is_closed in Hc. rewrite Hc. split.
  - by apply replay_from.
  - by apply replay_reads.
Qed.

(** The event of a fresh close is the one a replay finds. *)
Lemma close_answer d d' id u row record v refund resp outcome s :
  close_effect d d' id u row record v refund resp -> st_working s = d' -> dict_wf record ->
  ps_id row = id -> List.find (is_close_event id) (t_settlement d) = None ->
  (forall o, outcome = Some o -> o = cs_outcome resp) ->
  customer_bill row v = Ok (cs_billed_value_wei resp, refund) ->
  cs_session_id resp = ps_id row ->
  exists row', t_session d' !! id = Some row' /\ is_closed row' = true /\
    ps_user_id row' = ps_user_id row /\
    fst (replay_closed_session (W := W) row' (Some record) (vs_debited_units v) outcome s) = Ok resp.
Proof.
  intros [E1 E2 E3 E4 _ [at_ E6] _] Hs Hwf Hid Hn Ho Hb Hi. eexists. rewrite E4, lookup_insert_eq.
  split; [done|]. split; [done|]. split; [done|].
  unfold customer_bill in Hb. res_inv. opt_inv. simplify_eq.
  erewrite replay_answer; try done.
  - cbn. destruct resp; cbn in *. by subst.
  - cbn. rewrite E6, find_app, Hn. cbn. unfold is_close_event. cbn. by rewrite N.eqb_refl.
  - done.
Qed.
End closing.

(** C3: What closing a session does. A close commits nothing by itself. When it returns for a live
    session of the caller, the broker's signed terminal settlement verified against the stored
    route and grant, the units agree, every authorization revised from the settled one is finished
    unused, the customer's bill follows the pinned pricing within the hold; the row is closed with
    those values, the unused hold is released, the grant is settled and one event is recorded. A
    closed session is only answered again. *)
Theorem close_session_effect {W} {R : Runtime} {L : SettlementLib} id u units outcome settlement
    (s : St DB W) :
  st_committed (snd (close_session id u units outcome settlement s)) = st_committed s /\
  match close_session id u units outcome settlement s with
  | (Ok resp, s') =>
      exists row, t_session (st_working s) !! id = Some row /\ ps_user_id row = u /\
        if is_closed row then st_working s' = st_working s
        else exists record v refund (s0 s1 : St DB W),
          settlement = Some record /\ is_wholesale row = true /\
          st_working s0 = st_working s /\
          verify_close_settlement row settlement true s0 = (Ok v, s1) /\
          vs_debited_units v = units /\ (forall o, outcome = Some o -> o = cs_outcome resp) /\
          customer_bill row v = Ok (cs_billed_value_wei resp, refund) /\
          successors_retired row (vs_work_id v) (st_working s) /\
          cs_session_id resp = ps_id row /\
          close_effect (st_working s) (st_working s') id u row record v refund resp
  | (Err _, _) => True
  end.
Proof.
  split; [apply close_commits_nothing|].
  destruct (close_session id u units outcome settlement s) as [[resp|e] s'] eqn:E; [|done].
  apply close_session_ok in E as (row & Hr & Hu & H). exists row. split; [done|]. split; [done|].
  by destruct (is_closed row); [destruct H|].
Qed.

(** C22: Closing again answers the same. Repeating a close that succeeded, with the same settlement,
    units and outcome, returns the same response and changes nothing: no second refund, event or
    grant transition. (The session has no close event while it is live, and the settlement is a
    JSON object without repeated keys.) *)
Theorem close_replay_idempotent {W} {R : Runtime} {L : SettlementLib} id u units outcome record
    (s : St DB W) :
  (forall r, t_session (st_working s) !! id = Some r -> ps_id r = id /\
     (is_closed r = false -> List.find (is_close_event id) (t_settlement (st_working s)) = None)) ->
  dict_wf record ->
  match close_session id u units outcome (Some record) s with
  | (Ok resp, s1) =>
      fst (close_session id u units outcome (Some record) s1) = Ok resp /\
      st_working (snd (close_session id u units outcome (Some record) s1)) = st_working s1
  | (Err _, _) => True
  end.
Proof.
  intros Hs Hwf.
  destruct (close_session id u units outcome (Some record) s) as [[resp|e] s1] eqn:E; [|done].
  apply close_session_ok in E as (row & Hr & Hu & H). destruct (Hs row Hr) as [Hid Hn].
  destruct (is_closed row) eqn:Ec.
  - destruct H as (Hw & s0 & Hw0 & H). rewrite <- Hw in Hr.
    destruct (close_closed id u units outcome (Some record) s1 row Hr Hu Ec) as [-> ->].
    split; [|done]. rewrite (replay_from row (Some record) units outcome s1 s0) by congruence.
    by rewrite H.
  - destruct H as (rec & v & refund & s0 & s2 & [= <-] & _ & _ & _ & <- & Ho & Hb & _ & Hi & He).
    destruct (close_answer _ _ id u row record v refund resp outcome s1 He) as
      (row' & Hr' & Hc' & Hu' & Ha); auto.
    by destruct (close_closed id u (vs_debited_units v) outcome (Some record) s1 row' Hr')
      as [-> ->]; [congruence|done|].
Qed.

(** ** A session to close *)

Definition closing_row : PaymentSession :=
  new_session 1%N 7%N 1%N "a1" "cap" "off" PAID_SESSION_PROTOCOL
    (Some [("work_unit", JStr "tokens"); ("units_per_price", JInt 2); ("quote_id", JStr "q");
           ("quote_version", JInt 1); ("constraint_fingerprint", JStr "0a");
           ("route_fingerprint", JStr "0b"); ("price_per_work_unit_wei", JInt 7);
           ("settlement_keys", JArr (map JObj demo_keys))])
    (Some "r1") 5 10 35 (DT 0 true) None "wholesale_account"
    (Some (pricing_dump (pass_through_pricing "tokens"))) (Some 35).

Definition closing_db : DB :=
  on_grant (fun _ => [used_grant]) (on_session (fun _ => {[1%N := closing_row]})
    (on_balance (fun _ => {[7%N := MkCreditBalance 65 1]}) db_empty)).
Definition closing_start : St DB unit := MkSt closing_db closing_db false [] 0%nat tt.

Definition closing_record : SettlementRecord :=
  MkSettlementRecord "acct" demo_quote "tokens" 5 5 [x23] [x12] 1 [] "bs" "a1" "" 0
    5 5 0 [] [x07] 2 3 "closed" "" 0 (str_uuid 1%N) "" "a1" [x23] [] [] "dom".

Definition closing_envelope : dict :=
  [("payload", JObj [("issued_at", JStr "t"); ("authorization_id", JStr "a1")]);
   ("signature", JObj [("algorithm", JStr "secp256k1"); ("canonicalization", JStr "jcs");
                       ("value", JStr demo_signature)])].

(** Closing bills 18 of the 35 held, refunds 17, and answers the same again. *)
Lemma close_replay_idempotent_witness :
  let L := demo_lib closing_record demo_non_admission in
  let close := close_session (R := demo_clock) (L := L) 1%N 7%N 5 None (Some closing_envelope) in
  let s1 := snd (close closing_start) in
  fst (close closing_start) = Ok (MkCloseSession 1%N "a1" 5 18 17 "EXACT" (DT 0 true)) /\
  cb_amount_wei <$> t_balance (st_working s1) !! 7%N = Some 82 /\
  fst (close s1) = Ok (MkCloseSession 1%N "a1" 5 18 17 "EXACT" (DT 0 true)) /\
  st_working (snd (close s1)) = st_working s1.
Proof.
  cbn zeta. split; [vm_compute; reflexivity|]. split; [vm_compute; reflexivity|].
  pose proof (close_replay_idempotent (R := demo_clock) (L := demo_lib closing_record demo_non_admission)
    1%N 7%N 5 None closing_envelope closing_start) as H.
  assert (E : fst (close_session (R := demo_clock) (L := demo_lib closing_record demo_non_admission)
    1%N 7%N 5 None (Some closing_envelope) closing_start)
    = Ok (MkCloseSession 1%N "a1" 5 18 17 "EXACT" (DT 0 true))) by (vm_compute; reflexivity).
  destruct (close_session (R := demo_clock) (L := demo_lib closing_record demo_non_admission)
    1%N 7%N 5 None (Some closing_envelope) closing_start) as [r s1].
  cbn in E. subst r. apply H.
  - intros r Hr. cbn in Hr. injection Hr as <-. split; reflexivity.
  - vm_compute. repeat constructor; intros Hx; set_solver.
Defined.
