(* ===== verification/JobProps.v ===== *)
(** * Jobs: the evidence behind a release

    A paid job's hold is released without a settlement only on the broker's
    signed proof that the job was never admitted. *)

From S2P Require Import Prelude PyData DecimalCtx Errors Effects Store Pricing Settings Billing.
From S2P Require Import BillingFacts BillingProps SettlementVerification SettlementProps.
From S2P Require Import BrokerSettlement PaymentDaemon Registry Wholesale Payments.
From S2P Require Import SessionCore SessionSettle SessionPrepare SessionFlows Jobs JobReconcile.
From S2P Require Import SessionFacts SessionProps.

Open Scope string_scope.
Open Scope Z_scope.
Open Scope loc_scope.

(** ** What evidence alone leaves untouched *)

Definition outcome_view (r : PaymentSession) :=
  (ps_state r, ps_billed_value_wei r, ps_actual_units r, ps_outcome r).

Definition unsettled (d0 d : DB) : Prop :=
  t_ledger d = t_ledger d0 /\ t_balance d = t_balance d0 /\ t_grant d = t_grant d0 /\
  forall i, outcome_view <$> t_session d !! i = outcome_view <$> t_session d0 !! i.

Lemma unsettled_touch d0 d id f :
  (forall r, outcome_view (f r) = outcome_view r) ->
  unsettled d0 d -> unsettled d0 (update_session id f d).
Proof.
  intros Hf (H1 & H2 & H3 & H4). split_and!; try done. intros i. rewrite <- H4.
  unfold update_session. cbn. destruct (decide (i = id)) as [->|Hne].
  - rewrite lookup_alter_eq. destruct (t_session d !! id) as [r|]; cbn; [by rewrite Hf|done].
  - by rewrite lookup_alter_ne.
Qed.

Section evidence.
Context {W : Type} {R : Runtime} {L : SettlementLib}.
Implicit Types (s : St DB W) (d : DB).

#[local] Hint Extern 1 (Keeps (working_inv (unsettled _)) (db_modify _)) =>
  apply working_inv_modify; intros ?;
  first [ apply unsettled_touch; intros; reflexivity | done ] : loc.

Lemma retain_unsettled d0 row digest audit :
  Keeps (W := W) (working_inv (unsettled d0)) (retain_audit row digest audit).
Proof. unfold retain_audit, record_settlement, clock_now. keeps. Qed.

Lemma unsettled_refl d : unsettled d d.
Proof. done. Qed.

(** A release closes the row at zero, returns the whole hold and retires the
    grant. *)
Record release_effect (d d' : DB) (row : PaymentSession) (grant : SpendAuthorizationGrant)
    (hold : Z) : Prop := {
  re_row : exists row', t_session d' !! ps_id row = Some row' /\
      outcome_view row' = (SESSION_STATE_CLOSED, Some 0, Some 0, Some "NOT_ADMITTED");
  re_grant : exists now, t_grant d' = update_first
      (grant_by_id (sg_session_id grant) (sg_authorization_id grant)) (retire "expired_unused" now)
      (t_grant d);
  re_ledger : find_engagement_entry (ps_id row) "engagement_release" d = None ->
      t_ledger d' = (t_ledger d ++ [MkCreditLedger (ps_user_id row) hold "engagement_release" None
                                      (Some (ps_id row)) None None])%list;
}.

Lemma release_not_admitted_ok row grant hold digest audit s u s1 :
  release_not_admitted row grant hold digest audit s = (Ok u, s1) ->
  release_effect (st_working s) (st_working s1) row grant hold.
Proof.
  unfold release_not_admitted. intros H. prim_inv.
  match goal with Ht : transition_state _ _ _ _ = _ |- _ =>
    apply transition_ok in Ht as (r & c & Hr & _ & _ & _ & Hw0) end.
  match goal with Ht : release_customer_engagement _ _ _ _ = _ |- _ =>
    apply release_ok in Ht as (Es & Eg & _ & El) end.
  match goal with Ht : record_settlement _ _ _ _ _ _ _ = _ |- _ =>
    apply record_ok in Ht as [at_ Hw1] end.
  match goal with Ht : match ?x with _ => _ end ?s2 = (Ok ?t, ?s3) |- _ =>
    assert (Hw2 : st_working s3 = st_working s2) by (by destruct x; prim_inv);
    rename t into now end.
  cbn [st_working] in *. rewrite Hw1, Hw2. rewrite Hw0 in Es, Eg, El. cbn in Eg, El.
  rewrite (update_session_lookup _ _ _ r Hr) in Es. split; cbn.
  - rewrite Es, lookup_alter_eq, lookup_insert_eq. cbn. by eexists.
  - exists now. by rewrite Eg.
  - exact El.
Qed.

(** The only way evidence releases a hold. *)
Lemma accept_ok row grant v envelope audit s b s1 :
  accept_non_admission row grant v envelope audit s = (Ok b, s1) ->
  if b : bool then exists hold s0,
    ps_customer_max_debit_wei row = Some hold /\
    dt_us (normalized_utc (sg_expires_at grant)) <= dt_us (vn_observed_at v) /\
    unsettled (st_working s) (st_working s0) /\
    release_effect (st_working s0) (st_working s1) row grant hold
  else unsettled (st_working s) (st_working s1).
Proof.
  unfold accept_non_admission. intros H. prim_inv.
  match goal with Hr : retain_audit _ ?dg ?au ?t = (Ok _, ?t') |- _ =>
    pose proof (retain_unsettled (st_working s) row dg au t (unsettled_refl _)) as Hk;
    rewrite Hr in Hk; unfold working_inv in Hk; cbn [snd] in Hk end.
  destruct (_ || _)%bool eqn:Et; prim_inv; [exact Hk|]. bool_props.
  destruct (ps_customer_max_debit_wei row) as [hold|]; prim_inv; [|exact Hk].
  match goal with Hr : release_not_admitted _ _ _ _ _ _ = _ |- _ =>
    apply release_not_admitted_ok in Hr end.
  exists hold. eexists. split; [done|]. split; [by cbn|]. split; [|eassumption]. exact Hk.
Qed.

Lemma retain_commits_nothing id x s :
  st_committed (snd (retain_verified_non_admission id x s)) = st_committed s.
Proof.
  assert (Hk : Keeps (W := W) (committed_is (st_committed s)) (retain_verified_non_admission id x));
    [|by apply Hk].
  unfold retain_verified_non_admission, accept_non_admission, retain_audit, release_not_admitted,
    transition_state, record_settlement, release_customer_engagement, apply_delta,
    ensure_balance_row, clock_now. keeps.
Qed.

Lemma retain_ok id x s b s1 :
  retain_verified_non_admission id x s = (Ok b, s1) ->
  if b : bool then exists row envelope request_id grant v hold s0,
    t_session (st_working s) !! id = Some row /\ ps_state row = SESSION_STATE_OPEN /\
    xb_non_admission x = Some envelope /\ ps_broker_request_id row = Some request_id /\
    check_non_admission row x envelope request_id (st_working s) = Ok (grant, v) /\
    dt_us (normalized_utc (sg_expires_at grant)) <= dt_us (vn_observed_at v) /\
    ps_customer_max_debit_wei row = Some hold /\
    unsettled (st_working s) (st_working s0) /\
    release_effect (st_working s0) (st_working s1) row grant hold
  else unsettled (st_working s) (st_working s1).
Proof.
  unfold retain_verified_non_admission. intros H. rewrite bind_db_read in H. cbv beta in H.
  destruct (t_session (st_working s) !! id) as [row|] eqn:Hr; [|by prim_inv; subst].
  destruct (String.eqb (ps_state row) SESSION_STATE_OPEN) eqn:Hst; cbn [negb] in H;
    [|by prim_inv; subst].
  destruct (xb_non_admission x) as [envelope|]; [|by prim_inv; subst].
  destruct (ps_broker_request_id row) as [rid|] eqn:Eq; [|by prim_inv; subst].
  destruct (check_non_admission row x envelope rid (st_working s)) as [[grant v]|e] eqn:Hc.
  - apply accept_ok in H. cbn [st_working] in H. destruct b; [|exact H].
    destruct H as (hold & s0 & Hh & Ht & Hu & He).
    exists row, envelope, rid, grant, v, hold, s0. split_and!; try done. by apply String.eqb_eq.
  - destruct (non_admission_rejection e); [|by destruct (raise_ok _ _ _ _ H)]. prim_inv.
    apply unsettled_touch; [by intros []|apply unsettled_refl].
Qed.
End evidence.

