(* ===== verification/EngagementProps.v ===== *)
(** * Engagements: the properties of the service as a whole

    What every run of the service's entry points guarantees about the credit of
    its customers. *)

From S2P Require Import Prelude PyData DecimalCtx Errors Effects Store Pricing Settings Billing.
From S2P Require Import BillingFacts BillingProps SettlementVerification SettlementProps.
From S2P Require Import BrokerSettlement PaymentDaemon Registry Wholesale Payments.
From S2P Require Import SessionCore SessionSettle SessionPrepare SessionFlows Jobs JobReconcile.
From S2P Require Import Endpoints AdminResolve Scheduler SessionFacts EngagementSpec.
From S2P Require Import Credentials Accounts Access Operators Portal Engagements Demo.

Open Scope string_scope.
Open Scope Z_scope.
Open Scope loc_scope.

Lemma demo_fresh : fresh demo_start.
Proof.
  split; [reflexivity|split|]; intros *; cbn; try set_solver.
Defined.

Lemma demo_admissible : Forall admissible demo_operations.
Proof. repeat constructor. Defined.

Definition demo_end : St DB unit :=
  run_service (R := demo_clock) demo_settings demo_operations demo_start.

Definition demo_row : option PaymentSession := t_session (st_committed demo_end) !! 23%N.

Lemma demo_row_ok :
  exists r, demo_row = Some r /\ is_wholesale r = true /\ is_closed r = true.
Proof.
  assert (H : (r ← demo_row; Some (is_wholesale r && is_closed r)) = Some true)
    by (vm_compute; reflexivity).
  destruct demo_row as [r|]; cbn in H; [|discriminate]. exists r. split; [reflexivity|].
  apply andb_true_iff. by injection H.
Defined.

(** ** Properties *)

(** C1: Conservation of the customers' money. Whatever entry points the service serves, in any
    order, failing or not, next to other transactions that behave: every wholesale engagement of
    the committed database holds exactly what it reserved. While it is live its ledger entries sum
    to minus the hold; once it is closed, to minus the amount billed, which lies between zero and
    the hold (holds of at most 28 digits: above, the ledger's decimal context rounds). *)
Theorem engagement_money_conserved {W} {R : Runtime} {L : SettlementLib}
    {B : BrokerAccountClient W} {S : BrokerSettlementClient W} {D : PaymentDaemonClient W}
    {C : RegistryClient W} {K : Credentials W} {P : Models} {X : Edges W} settings ops (s : St DB W) id r :
  Forall admissible ops -> fresh s ->
  t_session (st_committed (run_service settings ops s)) !! id = Some r ->
  is_wholesale r = true ->
  exists hold moved, ps_customer_max_debit_wei r = Some hold /\ ps_funded_value_wei r = hold /\
    0 <= hold /\
    (in_prec hold ->
      engagement_net id (st_committed (run_service settings ops s)) = - moved) /\
    if is_closed r then ps_billed_value_wei r = Some moved /\ 0 <= moved <= hold
    else moved = hold.
Proof.
  intros Ha Hf Hr Hw. destruct (run_service_sound settings ops s Ha Hf) as [[Hs _] _].
  destruct (Hs id r Hr) as [<- Hok]. destruct (Hok Hw) as (hold & Hm & Hn & Hfu & _ & Hx).
  exists hold. destruct (is_closed r).
  - destruct Hx as (billed & Hb & Hle & Hnet). by exists billed.
  - exists hold. pose proof (held_net _ _ _ Hx). done.
Qed.

Lemma engagement_money_conserved_witness :
  exists r, demo_row = Some r /\ is_wholesale r = true /\ is_closed r = true /\
  exists hold moved, ps_customer_max_debit_wei r = Some hold /\ ps_funded_value_wei r = hold /\
    0 <= hold /\ (in_prec hold -> engagement_net 23%N (st_committed demo_end) = - moved) /\
    if is_closed r then ps_billed_value_wei r = Some moved /\ 0 <= moved <= hold
    else moved = hold.
Proof.
  destruct demo_row_ok as [r [Er [Hw Hc]]]. exists r. split; [exact Er|].
  split; [exact Hw|]. split; [exact Hc|].
  exact (engagement_money_conserved (R := demo_clock) demo_settings demo_operations demo_start
    23%N r demo_admissible demo_fresh Er Hw).
Defined.

(** C2: The entry points implement the account automaton. Seen through its row, an engagement is
    unclaimed, holds credit, or is settled with a bill; over any run of the service every engagement
    moves along steps of the specification only: one claim, raises of the hold, one settlement whose
    bill fits the hold and which is final. *)
Theorem engagements_refine_accounts {W} {R : Runtime} {L : SettlementLib}
    {B : BrokerAccountClient W} {S : BrokerSettlementClient W} {D : PaymentDaemonClient W}
    {C : RegistryClient W} {K : Credentials W} {P : Models} {X : Edges W} settings ops (s : St DB W) id :
  Forall admissible ops -> fresh s ->
  rtc spec_step (account_at (st_committed s) id)
    (account_at (st_committed (run_service settings ops s)) id).
Proof. intros Ha Hf. apply (run_service_sound settings ops s Ha Hf). Qed.

(** The job of the demonstration claims 35 wei, is billed 18, and may never move again. *)
Lemma engagements_refine_accounts_witness :
  map (fun n => account_at (st_committed (run_service (R := demo_clock) demo_settings
    (firstn n demo_operations) demo_start)) 23%N) [6; 7; 8; 9; 10]%nat =
  [None; Some (Held 35); Some (Held 35); Some (Held 35); Some (Settled 18)] /\
  rtc spec_step (account_at (st_committed demo_start) 23%N)
    (account_at (st_committed demo_end) 23%N).
Proof.
  split; [vm_compute; reflexivity|].
  exact (engagements_refine_accounts (R := demo_clock) demo_settings demo_operations demo_start 23%N
    demo_admissible demo_fresh).
Defined.

(** C17: The tables stay well formed. After any run: every engagement row is stored under its own
    identifier; every ledger entry of an engagement names an existing row; every wholesale row
    carries a hold, the same funded value, a valid pass-through price and, once closed, its bill;
    and while it is live it is open or draining and unbilled, its current grant is the one of its refill number, its initial grant is
    retained, and no release and no later cap revision was booked. *)
Theorem engagement_tables_well_formed {W} {R : Runtime} {L : SettlementLib}
    {B : BrokerAccountClient W} {S : BrokerSettlementClient W} {D : PaymentDaemonClient W}
    {C : RegistryClient W} {K : Credentials W} {P : Models} {X : Edges W} settings ops (s : St DB W) :
  Forall admissible ops -> fresh s ->
  let d := st_committed (run_service settings ops s) in
  (forall e id, e ∈ t_ledger d -> cl_related_engagement_id e = Some id ->
     is_Some (t_session d !! id)) /\
  forall id r, t_session d !! id = Some r -> ps_id r = id /\
    (is_wholesale r = true ->
      pass_through r /\ ps_customer_max_debit_wei r = Some (ps_funded_value_wei r) /\
      if is_closed r then is_Some (ps_billed_value_wei r)
      else is_live r = true /\ ps_billed_value_wei r = None /\
        find_engagement_entry id "engagement_release" d = None /\
        (forall n, ps_refill_seq r < n ->
           find_engagement_entry id (cap_revision_reason n) d = None) /\
        match ps_authorization_id r with
        | Some a => is_Some (find_revision id 0 d) /\
            forall g, find_grant id a d = Some g -> sg_revision g = ps_refill_seq r
        | None => ps_refill_seq r = 0
        end).
Proof.
  intros Ha Hf. destruct (run_service_sound settings ops s Ha Hf) as [[Hs Hl] _]. cbn zeta.
  split; [exact Hl|]. intros id r Hr. destruct (Hs id r Hr) as [<- Hok]. split; [done|].
  intros Hw. destruct (Hok Hw) as (hold & Hm & _ & Hfu & Hp & Hx). split; [done|].
  split; [by rewrite Hm, Hfu|]. destruct (is_closed r).
  - destruct Hx as (b & Hb & _). by eexists.
  - destruct Hx as [_ H2 H3 H4 H5 H6 H7 H8]. split; [done|]. split; [done|]. split; [done|].
    split; [done|].
    destruct (ps_authorization_id r) as [a|]; [|by apply H5].
    split; [by apply H6|]. intros g Hg. by apply (H4 a).
Qed.

Lemma engagement_tables_well_formed_witness :
  exists r, demo_row = Some r /\ ps_id r = 23%N /\
    ps_customer_max_debit_wei r = Some (ps_funded_value_wei r).
Proof.
  destruct demo_row_ok as [r [Er [Hw _]]]. exists r. split; [exact Er|].
  destruct (proj2 (engagement_tables_well_formed (R := demo_clock) demo_settings demo_operations
    demo_start demo_admissible demo_fresh) 23%N r Er) as [Hi H].
  split; [exact Hi|]. exact (proj1 (proj2 (H Hw))).
Defined.
