(* ===== verification/UsageProps.v ===== *)
(** * Usage: the figures add up

    Every breakdown of a summary adds up to its totals, the totals account for
    each wei the engagements funded and agree with the ledger, pages list each
    job once, and the dashboard forgets what a long spend period holds. *)

From S2P Require Import Prelude PyData DecimalCtx Errors Effects Store Pricing Settings Billing.
From S2P Require Import SettlementVerification BrokerSettlement PaymentDaemon Registry.
From S2P Require Import SessionCore SessionFlows AdminResolve Mail Credentials Accounts Access Usage.
From S2P Require Import SettlementProps SessionFacts EngagementSpec AdminReports Engagements Demo EngagementProps.

Open Scope string_scope.
Open Scope Z_scope.
Open Scope loc_scope.

(** ** Grouping *)

Section grouping.
Context {K : Type} `{EqDecision K} (key : PaymentSession -> K).
Implicit Types (acc : list (K * Tally)) (rows : list PaymentSession).

Lemma tally_keys k (step : Tally -> Tally) acc :
  NoDup (map fst acc) -> NoDup (map fst (tally k tally_zero step acc)).
Proof.
  assert (Hin : forall x l, x ∈ map fst (tally k tally_zero step l) -> x = k \/ x ∈ map fst l).
  { intros x. induction l as [|[k' a] l IH]; cbn.
    - intros Hx. left. by apply list_elem_of_singleton in Hx.
    - case_decide; cbn; rewrite !elem_of_cons; [by right|]. intros [->|Hx]; [by right; left|].
      destruct (IH Hx); [by left|by right; right]. }
  induction acc as [|[k' a] acc IH]; intros Hn; cbn.
  - repeat constructor. by intros ?%elem_of_nil.
  - inversion Hn as [|? ? Hk Hn']; subst. case_decide as Hd; cbn; constructor; auto.
    intros [->|Hx]%Hin; done.
Qed.

Lemma group_keys rows : NoDup (map fst (group_by key rows)).
Proof.
  unfold group_by. assert (H : NoDup (map fst ([] : list (K * Tally)))) by constructor.
  revert H. generalize ([] : list (K * Tally)).
  induction rows as [|r rows IH]; intros acc Ha; cbn; [done|]. by apply IH, tally_keys.
Qed.

(** A column of the tallies that adds [g] per row as long as it stays under
    [bound]. *)
Context (f : Tally -> Z) (g : PaymentSession -> Z) (bound : Z).
Hypothesis f_zero : f tally_zero = 0.
Local Abbreviation total acc := (sum_by (fun p => f (snd p)) acc).
Local Abbreviation nonneg acc := (Forall (fun p : K * Tally => 0 <= f (snd p)) acc).

Lemma tally_sum k r acc :
  (forall t, 0 <= f t -> f t + g r < bound -> f (add_row r t) = f t + g r) ->
  0 <= g r -> nonneg acc -> total acc + g r < bound ->
  total (tally k tally_zero (add_row r) acc) = total acc + g r /\
  nonneg (tally k tally_zero (add_row r) acc).
Proof.
  intros Hs Hg. induction acc as [|[k' a] acc IH]; intros Hn Hb.
  - assert (E : f (add_row r tally_zero) = g r).
    { rewrite Hs; rewrite f_zero; [lia|lia|]. unfold sum_by, Zsum in Hb. cbn in Hb. lia. }
    cbn [tally]. rewrite sum_by_cons. cbn [snd]. rewrite E. split; [lia|].
    constructor; [|constructor]. cbn [snd]. by rewrite E.
  - inversion Hn as [|? ? Ha Hn']; subst. cbn in Ha. rewrite sum_by_cons in Hb. cbn [snd] in Hb.
    assert (Hrest : 0 <= total acc) by (by apply sum_by_nonneg).
    cbn [tally]. case_decide; rewrite !sum_by_cons; cbn [snd].
    + rewrite Hs by lia. split; [lia|]. constructor; [|done]. cbn. rewrite Hs by lia. lia.
    + destruct (IH Hn' ltac:(lia)) as [E Hf]. split; [lia|by constructor].
Qed.

Lemma group_sum_from rows acc :
  (forall r t, r ∈ rows -> 0 <= f t -> f t + g r < bound -> f (add_row r t) = f t + g r) ->
  (forall r, r ∈ rows -> 0 <= g r) -> nonneg acc -> total acc + sum_by g rows < bound ->
  total (fold_left (fun acc r => tally (key r) tally_zero (add_row r) acc) rows acc)
  = total acc + sum_by g rows.
Proof.
  revert acc. induction rows as [|r rows IH]; intros acc Hs Hg Hn Hb;
    [change (sum_by g []) with 0; cbn [fold_left]; lia|].
  rewrite sum_by_cons in *. cbn [fold_left].
  assert (Hr : 0 <= sum_by g rows) by (apply sum_by_nonneg_in; intros; apply Hg; by right).
  destruct (tally_sum (key r) r acc) as [E Hf]; [|apply Hg; by left|done|lia|].
  { intros t. apply Hs. by left. }
  rewrite IH; [lia|intros; apply Hs; [by right|done..]|intros; apply Hg; by right|done|lia].
Qed.

Lemma group_sum rows :
  (forall r t, r ∈ rows -> 0 <= f t -> f t + g r < bound -> f (add_row r t) = f t + g r) ->
  (forall r, r ∈ rows -> 0 <= g r) -> sum_by g rows < bound ->
  sum_by f (map snd (group_by key rows)) = sum_by g rows.
Proof.
  intros Hs Hg Hb. rewrite sum_by_map. unfold group_by.
  rewrite (group_sum_from rows []); [done|done|done|constructor|done].
Qed.

End grouping.

(** ** Rows whose figures fit the decimal context *)

Definition billed_of (r : PaymentSession) : Z := or_else (ps_billed_value_wei r) 0.

Record presentable (rows : list PaymentSession) : Prop := {
  pr_signs : forall r, r ∈ rows -> 0 <= billed_of r /\ 0 <= ps_funded_value_wei r;
  pr_billed : in_prec (sum_by billed_of rows);
  pr_funded : in_prec (sum_by ps_funded_value_wei rows);
}.

Lemma held_range r : 0 <= ps_funded_value_wei r -> 0 <= held_of r <= ps_funded_value_wei r.
Proof. unfold held_of. destruct (is_open r); lia. Qed.

Lemma under_limit z : 0 <= z -> z < DLIMIT -> in_prec z.
Proof. intros. unfold in_prec. lia. Qed.

Lemma limit_over z : 0 <= z -> in_prec z -> z < DLIMIT.
Proof. intros H. unfold in_prec. lia. Qed.

Section columns.
Context (rows : list PaymentSession).

Lemma jobs_column {K} `{EqDecision K} (key : PaymentSession -> K) :
  sum_by ty_jobs (map snd (group_by key rows)) = Z.of_nat (length rows).
Proof.
  assert (E : sum_by (fun _ => 1) rows = Z.of_nat (length rows)).
  { induction rows as [|r l IH]; [done|]. rewrite sum_by_cons, IH. cbn [length]. lia. }
  rewrite (group_sum key ty_jobs (fun _ => 1) (Z.of_nat (length rows) + 1)); [done..|lia].
Qed.

Hypothesis Hp : presentable rows.

Lemma billed_total : 0 <= sum_by billed_of rows.
Proof. apply sum_by_nonneg_in. intros r Hr. by apply (pr_signs _ Hp). Qed.

Lemma billed_column {K} `{EqDecision K} (key : PaymentSession -> K) :
  sum_by ty_billed_wei (map snd (group_by key rows)) = sum_by billed_of rows.
Proof.
  apply (group_sum key ty_billed_wei billed_of DLIMIT); [done| | |].
  - intros r t Hr Ht Hb. cbn. unfold add_billed, billed_of in *.
    destruct (pr_signs _ Hp r Hr) as [H0 _]. unfold billed_of in H0.
    destruct (ps_billed_value_wei r) as [b|]; cbn in *; [|lia].
    rewrite dadd_exact; [lia|]. apply under_limit; lia.
  - intros r Hr. by apply (pr_signs _ Hp).
  - apply limit_over; [apply billed_total|apply (pr_billed _ Hp)].
Qed.

Lemma held_total : 0 <= sum_by held_of rows < DLIMIT.
Proof.
  assert (H : sum_by held_of rows <= sum_by ps_funded_value_wei rows).
  { apply sum_by_le. intros r Hr. apply held_range, (pr_signs _ Hp), Hr. }
  assert (0 <= sum_by held_of rows).
  { apply sum_by_nonneg_in. intros r Hr. apply held_range, (pr_signs _ Hp), Hr. }
  pose proof (pr_funded _ Hp) as Hf. unfold in_prec in Hf. lia.
Qed.

Lemma held_column {K} `{EqDecision K} (key : PaymentSession -> K) :
  sum_by ty_held_wei (map snd (group_by key rows)) = sum_by held_of rows.
Proof.
  apply (group_sum key ty_held_wei held_of DLIMIT); [done| | |apply held_total].
  - intros r t Hr Ht Hb. cbn. destruct (pr_signs _ Hp r Hr) as [_ H0].
    pose proof (held_range r H0). rewrite dadd_exact; [lia|]. apply under_limit; lia.
  - intros r Hr. apply held_range, (pr_signs _ Hp), Hr.
Qed.

Lemma billed_sum_exact : billed_sum rows = sum_by billed_of rows.
Proof.
  unfold billed_sum. assert (H : forall l a, (forall r, r ∈ l -> r ∈ rows) -> 0 <= a ->
    a + sum_by billed_of l < DLIMIT ->
    fold_left (fun acc r => add_billed r acc) l a = a + sum_by billed_of l).
  { induction l as [|r l IH]; intros a Hl Ha Hb; [change (sum_by billed_of []) with 0; cbn [fold_left]; lia|].
    rewrite sum_by_cons in *. cbn [fold_left].
    assert (Hr : 0 <= sum_by billed_of l).
    { apply sum_by_nonneg_in. intros x Hx. apply (pr_signs _ Hp), Hl. by right. }
    assert (H0 : 0 <= billed_of r) by (apply (pr_signs _ Hp), Hl; by left).
    assert (E : add_billed r a = a + billed_of r).
    { unfold add_billed, billed_of in *. destruct (ps_billed_value_wei r) as [b|]; cbn in *; [|lia].
      rewrite dadd_exact; [lia|]. apply under_limit; lia. }
    rewrite E, IH; [lia|intros; apply Hl; by right|lia|lia]. }
  rewrite H; [done|done|lia|]. cbn. apply limit_over; [apply billed_total|apply (pr_billed _ Hp)].
Qed.

Lemma dsum_held : dsum (map held_of rows) = sum_by held_of rows.
Proof.
  pose proof held_total as Hh. rewrite dsum_exact; [done| |apply Hh].
  apply Forall_map, Forall_forall. intros r Hr. apply held_range, (pr_signs _ Hp), Hr.
Qed.

End columns.

(** ** A summary *)

Definition breakdowns (u : UsageSummary) : list (list Tally) :=
  [map ou_tally (su_by_offering u); map ku_tally (su_by_api_key u); map du_tally (su_by_day u)]
  ++ match su_by_user u with Some l => [map uu_tally l] | None => [] end.

(** The tallies of a breakdown are those of a grouping, in another order. *)
Lemma breakdown_groups rows labels emails b :
  b ∈ [map ou_tally (by_offering rows); map ku_tally (keys_of labels rows);
       map du_tally (by_day rows); map uu_tally (by_user emails rows)] ->
  exists K (E : EqDecision K) (key : PaymentSession -> K), b ≡ₚ map snd (group_by key rows).
Proof.
  rewrite !elem_of_cons, elem_of_nil.
  intros [->|[->|[->|[->|[]]]]]; unfold by_offering, keys_of, by_day, by_user;
    (eexists _, _, _; rewrite merge_sort_Permutation, map_map; erewrite map_ext; [reflexivity|by intros [k t]]).
Qed.

(** Every row is in a summary's totals, and every breakdown adds up to them. *)
Lemma summary_columns rows labels emails b :
  b ∈ [map ou_tally (by_offering rows); map ku_tally (keys_of labels rows);
       map du_tally (by_day rows); map uu_tally (by_user emails rows)] ->
  sum_by ty_jobs b = Z.of_nat (length rows) /\
  (presentable rows ->
     sum_by ty_billed_wei b = sum_by billed_of rows /\ sum_by ty_held_wei b = sum_by held_of rows).
Proof.
  intros Hb. destruct (breakdown_groups _ _ _ _ Hb) as (K & E & key & Hk).
  rewrite !(sum_by_perm _ _ _ Hk). split; [apply jobs_column|].
  intros Hp. by rewrite billed_column, held_column.
Qed.

Lemma summarize_returns {W} {R : Runtime} user_id since until all (s : St DB W) :
  exists u s1, summarize user_id since until all s = (Ok u, s1) /\
    st_working s1 = st_working s /\
    (su_since u, su_until u) = default_window (rt_now (st_ticks s)) since until /\
    let rows := window_rows (st_working s) user_id (su_since u) (su_until u) in
    su_totals u = totals_of rows /\
    exists labels emails, su_by_offering u = by_offering rows /\
      su_by_api_key u = keys_of labels rows /\ su_by_day u = by_day rows /\
      su_by_user u = if all then Some (by_user emails rows) else None.
Proof.
  unfold summarize, clock_now. rewrite bind_tick. destruct (default_window _ _ _) as [a b].
  rewrite bind_db_read. eexists _, _. split; [reflexivity|]. split; [done|]. split; [done|]. cbn zeta.
  split; [done|]. eexists _, (emails_for _ _). by repeat split.
Qed.

(** A summary adds up. Every request for a summary is answered, for a customer or for the
    fleet, over the rows opened in its window. Each breakdown (by offering, key, day and user)
    counts every job of the window once; and as long as the figures fit the decimal context, each
    adds up to the billed and held totals, which are the sums over the rows. *)
Theorem summary_adds_up {W} {R : Runtime} user_id since until all (s : St DB W) :
  exists u s1, summarize user_id since until all s = (Ok u, s1) /\
    st_working s1 = st_working s /\
    (su_since u, su_until u) = default_window (rt_now (st_ticks s)) since until /\
    let rows := window_rows (st_working s) user_id (su_since u) (su_until u) in
    Forall (fun b => sum_by ty_jobs b = tot_jobs (su_totals u)) (breakdowns u) /\
    (presentable rows ->
       tot_billed_wei (su_totals u) = sum_by billed_of rows /\
       tot_held_wei (su_totals u) = sum_by held_of rows /\
       Forall (fun b => sum_by ty_billed_wei b = tot_billed_wei (su_totals u) /\
                        sum_by ty_held_wei b = tot_held_wei (su_totals u)) (breakdowns u)).
Proof.
  destruct (summarize_returns user_id since until all s)
    as (u & s1 & H & Hw & Hd & Ht & labels & emails & H1 & H2 & H3 & H4).
  exists u, s1. split; [done|]. split; [done|]. split; [done|]. cbn zeta. set (rows := window_rows _ _ _ _) in *.
  assert (Hc : forall b, b ∈ breakdowns u ->
            b ∈ [map ou_tally (by_offering rows); map ku_tally (keys_of labels rows);
                 map du_tally (by_day rows); map uu_tally (by_user emails rows)]).
  { unfold breakdowns. rewrite H1, H2, H3, H4. intros b. destruct all; cbn [app].
    - done.
    - rewrite !elem_of_cons. tauto. }
  rewrite Ht. split.
  - apply Forall_forall. intros b Hb. by apply (summary_columns rows labels emails), Hc.
  - intros Hp. cbn [totals_of tot_billed_wei tot_held_wei].
    rewrite (billed_sum_exact rows Hp), (dsum_held rows Hp). split; [done|]. split; [done|].
    apply Forall_forall. intros b Hb. by apply (summary_columns rows labels emails), Hp; apply Hc.
Qed.

Definition demo_usage_row (id : uuid) (state : string) (funded : Z) (billed : option Z)
    (closed_at : option datetime) : PaymentSession :=
  MkPaymentSession id 1%N 2%N "w" "text" "small" "paid-job/v1" "wholesale_account" None (Some funded)
    None None None state 10 10 funded billed None None None None (DT 5 false) closed_at 0 0 None
    None 0 None.

Definition demo_usage_rows : list PaymentSession :=
  [demo_usage_row 4%N "closed" 60 (Some 25) (Some (DT 9 false)); demo_usage_row 3%N "open" 40 None None].

Definition demo_usage : St DB unit :=
  let d := on_session (fun _ => list_to_map (map (fun r => (ps_id r, r)) demo_usage_rows)) db_empty in
  MkSt d d false [] 0 tt.

Lemma demo_presentable : presentable demo_usage_rows.
Proof.
  split; [|done|done]. intros r Hr. apply list_elem_of_In in Hr.
  destruct Hr as [<-|[<-|[]]]; cbn; lia.
Qed.

Lemma summary_adds_up_witness :
  exists u s1, summarize (R := demo_runtime) (Some 1%N) (Some (DT 0 true)) (Some (DT 10 true)) true
                 demo_usage = (Ok u, s1) /\
    tot_billed_wei (su_totals u) = 25 /\ tot_held_wei (su_totals u) = 40 /\
    Forall (fun b => sum_by ty_billed_wei b = 25 /\ sum_by ty_held_wei b = 40) (breakdowns u).
Proof.
  destruct (summary_adds_up (R := demo_runtime) (Some 1%N) (Some (DT 0 true)) (Some (DT 10 true))
              true demo_usage) as (u & s1 & H & _ & Hd & _ & Hp).
  exists u, s1. split; [exact H|]. change (default_window _ _ _) with (DT 0 true, DT 10 true) in Hd.
  injection Hd as Ea Eb. rewrite Ea, Eb in Hp.
  assert (Er : window_rows (st_working demo_usage) (Some 1%N) (DT 0 true) (DT 10 true)
               = demo_usage_rows) by (vm_compute; reflexivity).
  rewrite Er in Hp. destruct (Hp demo_presentable) as (E1 & E2 & E3).
  rewrite E1, E2 in E3. split; [exact E1|]. split; [exact E2|exact E3].
Defined.

(** ** The figures and the ledger *)

Lemma sessions_in d r : engagements_ok d -> r ∈ sessions d -> t_session d !! ps_id r = Some r.
Proof.
  intros [Hs _] Hr. unfold sessions in Hr. apply list_elem_of_fmap in Hr as ([k r'] & -> & Hk).
  apply elem_of_map_to_list in Hk. cbn. by rewrite (proj1 (Hs k r' Hk)).
Qed.

Lemma window_row d user a b r : r ∈ window_rows d user a b -> r ∈ sessions d.
Proof.
  unfold window_rows. rewrite merge_sort_Permutation. intros Hr. apply list_elem_of_In in Hr.
  apply filter_In in Hr as [Hr _]. by apply list_elem_of_In.
Qed.

(** What one wholesale row contributes. *)
Lemma row_figures d r :
  engagements_ok d -> r ∈ sessions d -> is_wholesale r = true -> in_prec (ps_funded_value_wei r) ->
  0 <= billed_of r /\ billed_of r <= ps_funded_value_wei r /\
  held_of r + billed_of r = - engagement_net (ps_id r) d /\
  held_of r + billed_of r + or_else (refunded_of r) 0 = ps_funded_value_wei r.
Proof.
  intros Hd Hr Hw Hp. pose proof (sessions_in _ _ Hd Hr) as Hl. destruct Hd as [Hs _].
  destruct (Hs _ _ Hl) as [_ Hok]. destruct (Hok Hw) as (hold & _ & Hh & Hf & _ & Hx).
  rewrite <- Hf in Hh, Hx. unfold billed_of, held_of, refunded_of, is_open, is_done, str_elem.
  unfold is_closed in Hx. destruct (String.eqb (ps_state r) SESSION_STATE_CLOSED) eqn:Ec.
  - destruct Hx as (b & Hb & Hle & Hnet). rewrite Hb. cbn [or_else].
    apply String.eqb_eq in Ec. rewrite Ec. cbn.
    rewrite (Hnet Hp), dsub_exact by (eapply in_prec_le; [|exact Hp]; lia).
    destruct (Z.ltb_spec 0 (ps_funded_value_wei r - b)); cbn; lia.
  - destruct Hx as [Hnet _ _ _ _ _ Hlive Hu]. unfold is_live in Hlive. rewrite Hu. cbn [or_else].
    change OPEN_STATES with [SESSION_STATE_OPEN; SESSION_STATE_DRAINING]. rewrite Hlive.
    rewrite (Hnet Hp). lia.
Qed.

Lemma rows_presentable d rows :
  engagements_ok d -> (forall r, r ∈ rows -> r ∈ sessions d /\ is_wholesale r = true) ->
  (forall r, r ∈ rows -> 0 <= ps_funded_value_wei r) ->
  sum_by ps_funded_value_wei rows < DLIMIT ->
  (forall r, r ∈ rows -> in_prec (ps_funded_value_wei r)) /\ presentable rows.
Proof.
  intros Hd Hr H0 Hs.
  assert (Hin : forall r, r ∈ rows -> in_prec (ps_funded_value_wei r)).
  { intros r Hi. pose proof (sum_by_member ps_funded_value_wei rows r Hi) as Hm.
    pose proof (H0 r Hi). apply under_limit; [done|].
    assert (ps_funded_value_wei r <= sum_by ps_funded_value_wei rows) by (apply Hm, Forall_forall, H0).
    lia. }
  split; [done|].
  assert (Hb : forall r, r ∈ rows -> 0 <= billed_of r <= ps_funded_value_wei r).
  { intros r Hi. destruct (Hr r Hi) as [Hi' Hw].
    destruct (row_figures d r Hd Hi' Hw (Hin r Hi)) as (? & ? & _). done. }
  assert (Hle : sum_by billed_of rows <= sum_by ps_funded_value_wei rows)
    by (apply sum_by_le; intros; by apply Hb).
  assert (Hb0 : 0 <= sum_by billed_of rows) by (apply sum_by_nonneg_in; intros; by apply Hb).
  split; [|apply under_limit; lia..]. intros r Hi. by split; [apply Hb|apply H0].
Qed.

Lemma wholesale_funded d r :
  engagements_ok d -> r ∈ sessions d -> is_wholesale r = true -> 0 <= ps_funded_value_wei r.
Proof.
  intros Hd Hr Hw. pose proof (sessions_in _ _ Hd Hr) as Hl. destruct Hd as [Hs _].
  destruct (Hs _ _ Hl) as [_ Hok]. destruct (Hok Hw) as (hold & _ & Hh & -> & _). done.
Qed.

(** Over any set of wholesale rows, what is held and billed is what the ledger
    took, and with what was refunded it is what was funded. *)
Lemma totals_agree d rows :
  engagements_ok d -> (forall r, r ∈ rows -> r ∈ sessions d /\ is_wholesale r = true) ->
  sum_by ps_funded_value_wei rows < DLIMIT ->
  let t := totals_of rows in
  tot_held_wei t + tot_billed_wei t = - sum_by (fun r => engagement_net (ps_id r) d) rows /\
  tot_held_wei t + tot_billed_wei t + tot_refunded_wei t = sum_by ps_funded_value_wei rows.
Proof.
  intros Hd Hr Hs.
  assert (H0 : forall r, r ∈ rows -> 0 <= ps_funded_value_wei r).
  { intros r Hi. destruct (Hr r Hi). by eapply wholesale_funded. }
  destruct (rows_presentable d rows Hd Hr H0 Hs) as [Hin Hp].
  assert (Hf : forall r, r ∈ rows ->
    0 <= billed_of r /\ billed_of r <= ps_funded_value_wei r /\
    held_of r + billed_of r = - engagement_net (ps_id r) d /\
    held_of r + billed_of r + or_else (refunded_of r) 0 = ps_funded_value_wei r).
  { intros r Hi. destruct (Hr r Hi) as [Hi' Hw]. by apply row_figures; auto. }
  assert (Hrefund : forall r, r ∈ rows -> 0 <= or_else (refunded_of r) 0 <= ps_funded_value_wei r).
  { intros r Hi. destruct (Hf r Hi) as (? & ? & _ & E). pose proof (held_range r (H0 r Hi)). 
    unfold refunded_of in *. destruct (ps_billed_value_wei r) as [b|]; cbn in *; [|specialize (H0 r Hi); lia].
    destruct (is_done r); cbn in *; [|specialize (H0 r Hi); lia].
    destruct (Z.ltb_spec 0 (dsub (ps_funded_value_wei r) b)); lia. }
  cbn zeta. cbn [totals_of tot_held_wei tot_billed_wei tot_refunded_wei].
  rewrite (billed_sum_exact rows Hp), (dsum_held rows Hp), dsum_exact.
  - assert (E : forall f g : PaymentSession -> Z, (forall r, r ∈ rows -> f r = g r) ->
                  sum_by f rows = sum_by g rows).
    { intros f g Hfg. apply Z.le_antisymm; apply sum_by_le; intros r Hi; by rewrite (Hfg r Hi). }
    rewrite <- sum_by_plus, <- sum_by_opp.
    change (Zsum (map (fun r => or_else (refunded_of r) 0) rows))
      with (sum_by (fun r => or_else (refunded_of r) 0) rows). rewrite <- sum_by_plus.
    split; apply E; intros r Hi; by apply Hf.
  - apply Forall_map, Forall_forall. intros r Hi. by apply Hrefund.
  - eapply Z.le_lt_trans; [|exact Hs]. change (Zsum (map ?f rows)) with (sum_by f rows).
    apply sum_by_le. intros r Hi. by apply Hrefund.
Qed.

(** C29: The usage figures agree with the ledger. After any run of the service, a summary over
    wholesale engagements (whose funding together fits the decimal context) reports as held plus
    billed exactly what the ledger took from the customers for these engagements; and held, billed
    and refunded together are what was funded. *)
Theorem usage_agrees_with_ledger {W} {R : Runtime} {L : SettlementLib}
    {B : BrokerAccountClient W} {S : BrokerSettlementClient W} {D : PaymentDaemonClient W}
    {C : RegistryClient W} {K : Credentials W} {P : Models} {X : Edges W} settings ops
    (s s1 : St DB W) user_id since until all :
  Forall admissible ops -> fresh s ->
  let d := st_committed (run_service settings ops s) in
  st_working s1 = d ->
  exists u s2, summarize user_id since until all s1 = (Ok u, s2) /\
    (su_since u, su_until u) = default_window (rt_now (st_ticks s1)) since until /\
    let rows := window_rows d user_id (su_since u) (su_until u) in
    (forall r, r ∈ rows -> is_wholesale r = true) ->
    sum_by ps_funded_value_wei rows < DLIMIT ->
    tot_held_wei (su_totals u) + tot_billed_wei (su_totals u)
    = - sum_by (fun r => engagement_net (ps_id r) d) rows /\
    tot_held_wei (su_totals u) + tot_billed_wei (su_totals u) + tot_refunded_wei (su_totals u)
    = sum_by ps_funded_value_wei rows.
Proof.
  intros Ha Hf d Hw. destruct (run_service_sound settings ops s Ha Hf) as [Hb _]. fold d in Hb.
  destruct (summarize_returns user_id since until all s1) as (u & s2 & H & _ & Hd & Ht & _).
  exists u, s2. split; [done|]. split; [done|]. rewrite Hw in Ht. cbn zeta in *. rewrite Ht.
  intros Hwh Hs. apply totals_agree; [done| |done].
  intros r Hr. split; [by eapply window_row|by apply Hwh].
Qed.

(** A session of the demonstration's database. *)
Definition demo_session : St DB unit :=
  MkSt (st_committed demo_end) (st_committed demo_end) false [] 0 tt.

Lemma demo_usage_ok :
  forallb is_wholesale (sessions (st_committed demo_end))
  && (sum_by ps_funded_value_wei
        (window_rows (st_committed demo_end) None (DT 0 true) (DT (10 ^ 17) true)) <? DLIMIT) = true.
Proof. vm_compute. reflexivity. Qed.

Lemma usage_agrees_with_ledger_witness :
  exists u s2, summarize (R := demo_clock) None (Some (DT 0 true)) (Some (DT (10 ^ 17) true)) true
                 demo_session = (Ok u, s2) /\
    tot_held_wei (su_totals u) + tot_billed_wei (su_totals u) + tot_refunded_wei (su_totals u)
    = sum_by ps_funded_value_wei
        (window_rows (st_committed demo_end) None (DT 0 true) (DT (10 ^ 17) true)).
Proof.
  destruct (usage_agrees_with_ledger (R := demo_clock) demo_settings demo_operations demo_start
              demo_session None (Some (DT 0 true)) (Some (DT (10 ^ 17) true)) true
              demo_admissible demo_fresh eq_refl) as (u & s2 & H & Hd & Ht).
  exists u, s2. split; [exact H|]. change (default_window _ _ _) with (DT 0 true, DT (10 ^ 17) true) in Hd.
  injection Hd as Ea Eb. rewrite Ea, Eb in Ht.
  pose proof demo_usage_ok as Hok. apply andb_true_iff in Hok as [Hw Hs].
  apply Ht.
  - intros r Hr. apply window_row, list_elem_of_In in Hr. rewrite forallb_forall in Hw. by apply Hw.
  - by apply Z.ltb_lt.
Defined.

(** ** Pages *)

#[local] Instance newest_first_total : Total newest_first.
Proof. intros a b. unfold newest_first. lia. Qed.
#[local] Instance newest_first_trans : Transitive newest_first.
Proof. intros a b c. unfold newest_first. lia. Qed.

(** Pages of jobs. Every request for a page is answered, with the total of the matching jobs;
    following the offsets in steps of a page size lists each matching job exactly once, the newest
    first, once the steps cover the total. *)
Theorem job_pages_complete {W} {R : Runtime} filters include_user stale (size pages : nat)
    (s : St DB W) :
  (0 < size <= 500)%nat ->
  let jobs := List.filter (selected filters) (sessions (st_working s)) in
  (length jobs <= pages * size)%nat ->
  exists page : nat -> UsageJobPage,
    (forall n, fst (list_jobs filters (Z.of_nat size) (Z.of_nat (n * size)) include_user stale s)
               = Ok (page n) /\ jp_total (page n) = Z.of_nat (length jobs)) /\
    let listed := flat_map (fun n => map uj_row (jp_items (page n))) (seq 0 pages) in
    listed ≡ₚ jobs /\ StronglySorted newest_first listed.
Proof.
  intros Hs jobs Hl.
  set (answer n := list_jobs filters (Z.of_nat size) (Z.of_nat (n * size)) include_user stale s).
  set (sorted := merge_sort newest_first jobs).
  assert (Ha : forall n, exists p, fst (answer n) = Ok p /\ jp_total p = Z.of_nat (length jobs) /\
            map uj_row (jp_items p) = firstn size (skipn (n * size) sorted)).
  { intros n. unfold answer, list_jobs. rewrite bind_db_read. unfold clock_now. rewrite bind_tick.
    eexists. split; [reflexivity|]. split; [reflexivity|]. cbn [jp_items].
    rewrite map_map, map_id. f_equal; [|f_equal]; unfold MAX_PAGE_LIMIT; lia. }
  exists (fun n => match fst (answer n) with Ok p => p | Err _ => MkJobPage [] 0 0 0 end).
  split.
  { intros n. destruct (Ha n) as (p & E & Ht & _). fold (answer n). by rewrite E. }
  assert (E : forall n, flat_map (fun n => map uj_row (jp_items
            match fst (answer n) with Ok p => p | Err _ => MkJobPage [] 0 0 0 end)) (seq 0 n)
          = firstn (n * size) sorted).
  { induction n as [|n IH]; [done|]. rewrite seq_S, flat_map_app, IH. cbn [flat_map].
    destruct (Ha n) as (p & Ep & _ & Er). cbn [plus]. rewrite Ep, Er, app_nil_r.
    replace (S n * size)%nat with (n * size + size)%nat by lia.
    by rewrite <- take_take_drop. }
  cbn zeta. rewrite E, firstn_all2.
  - split; [apply merge_sort_Permutation|].
    apply (StronglySorted_merge_sort newest_first).
  - unfold sorted. by rewrite (Permutation_length (merge_sort_Permutation _ _)).
Qed.

(** ** The dashboard *)

(** A customer whose spend period is sixty days closed a job on the first of
    them, fifty-five days ago: the dashboard reports nothing spent in the
    period, because it only looks thirty days back. *)
Definition demo_long_period : St DB unit :=
  let closed := DT 1695168001000000 false in
  let row := demo_usage_row 4%N "closed" 60 (Some 25) (Some closed) in
  let d := on_session (<[4%N := row]>)
    (on_billing (<[1%N := MkUserBillingConfig (Some (60 * 86400)) (Some 1000) None None None None]>) db_empty) in
  MkSt d d false [] 0 tt.

Lemma long_period_spend_forgotten :
  exists o s1, overview (R := demo_runtime) 1%N demo_settings demo_long_period = (Ok o, s1) /\
    uo_spent_period_wei o = 0 /\
    exists r t, r ∈ sessions (st_working demo_long_period) /\ ps_user_id r = 1%N /\
      ps_closed_at r = Some t /\ ps_billed_value_wei r = Some 25 /\
      dt_us (up_start (uo_period o)) <= dt_us t < dt_us (up_end (uo_period o)).
Proof.
  eexists _, _. split; [vm_compute; reflexivity|]. split; [reflexivity|].
  eexists _, _. split; [apply list_elem_of_In; vm_compute; left; reflexivity|].
  split; [reflexivity|]. split; [reflexivity|]. split; [reflexivity|]. cbn. lia.
Qed.

(** ** Engagements by SDK *)

(** Engagements without an SDK identity and with an empty one are two entries of
    the distribution, both with the empty identity and an unknown status. *)
Definition demo_identities : St DB unit :=
  let row id sdk := MkPaymentSession id 1%N 2%N "w" "text" "small" "paid-job/v1" "wholesale_account"
    None None None None None "open" 1 1 1 None None None None sdk (DT 5 false) None 0 0 None None 0
    None in
  let d := on_session (fun _ => <[3%N := row 3%N None]> (<[4%N := row 4%N (Some "")]> ∅)) db_empty in
  MkSt d d false [] 0 tt.

Lemma unknown_bucket_splits :
  fst (sdk_distribution 50 demo_identities)
  = Ok [MkDistribution "" 1 "unknown"; MkDistribution "" 1 "unknown"].
Proof. vm_compute. reflexivity. Qed.
