(* ===== verification/SdkBase.v ===== *)
(** * The Python SDK: values, errors and the outside world

    [sdks/python/src/livepeer_open_clearinghouse_sdk]: what its three modules
    share.  JSON values here have floats, which the responses of the service
    carry; [errors.py] is modelled in full; the world of a client answers its
    requests, and gives the background task its turns. *)

From S2P Require Import Prelude PyData Codecs Errors Effects Payments RateLimiter.
From Stdlib Require Import Strings.Byte Strings.Ascii Floats.SpecFloat.

Open Scope string_scope.
Open Scope Z_scope.
Open Scope loc_scope.

(** ** JSON values *)

Inductive value :=
  | VNull
  | VBool (b : bool)
  | VInt (z : Z)
  | VFloat (f : spec_float)
  | VStr (s : string)
  | VArr (l : list value)
  | VObj (d : list (string * value)).

Abbreviation vdict := (list (string * value)).

(** [d.get(k)] as an option, and with its default of [None]. *)
Fixpoint vfind (k : string) (d : vdict) : option value :=
  match d with
  | [] => None
  | (k', v) :: d' => if String.eqb k k' then Some v else vfind k d'
  end.
Definition vget (k : string) (d : vdict) : value := or_else (vfind k d) VNull.

(** [{**d, k: v}]. *)
Fixpoint vset (k : string) (v : value) (d : vdict) : vdict :=
  match d with
  | [] => [(k, v)]
  | (k', v') :: d' => if String.eqb k k' then (k, v) :: d' else (k', v') :: vset k v d'
  end.

Definition truthy (v : value) : bool :=
  match v with
  | VNull => false
  | VBool b => b
  | VInt z => negb (z =? 0)
  | VFloat f => match f with S754_zero _ => false | _ => true end
  | VStr s => str_truthy s
  | VArr l => match l with [] => false | _ => true end
  | VObj d => match d with [] => false | _ => true end
  end.

(** [a or b]. *)
Definition v_or (a b : value) : value := if truthy a then a else b.

Definition is_null (v : value) : bool := match v with VNull => true | _ => false end.
Definition v_str (v : value) : option string := match v with VStr s => Some s | _ => None end.
Definition v_obj (v : value) : option vdict := match v with VObj d => Some d | _ => None end.

(** [v == s] for a string [s]. *)
Definition v_is (v : value) (s : string) : bool :=
  match v with VStr x => String.eqb x s | _ => false end.

Definition v_opt_str (o : option string) : value :=
  match o with Some s => VStr s | None => VNull end.
Definition v_opt_int (o : option Z) : value := match o with Some z => VInt z | None => VNull end.

(** A document of the service as the SDK reads it. *)
Fixpoint of_json (j : json) : value :=
  match j with
  | JNull => VNull
  | JBool b => VBool b
  | JInt z => VInt z
  | JStr s => VStr s
  | JArr l => VArr (map of_json l)
  | JObj d => VObj (map (fun kv => (fst kv, of_json (snd kv))) d)
  end.

(** The standard library's codecs and the interpreter's texts, which no theorem
    depends on: [json.loads], the text of a float, [repr], [float(s)], UUIDv5
    in [NAMESPACE_URL], SHA-256, gzip, httpx's decoding of a body, and the
    process fields of [sdk.init]. *)
Class SdkText := {
  sx_json_loads : bytes -> option value;
  sx_float_repr : spec_float -> string;
  sx_repr : value -> string;
  sx_float_of_str : string -> option spec_float;
  sx_uuid5_url : string -> uuid;
  sx_sha256 : bytes -> bytes;
  sx_gzip : bytes -> bytes;
  sx_text : bytes -> string;
  sx_process : vdict;
}.

(** [json.dumps(v, separators=(item, key))]. *)
Fixpoint vdumps {T : SdkText} (item key : string) (escape : string -> string) (v : value)
  : string :=
  match v with
  | VNull => "null"
  | VBool true => "true"
  | VBool false => "false"
  | VInt z => str_Z z
  | VFloat f => sx_float_repr f
  | VStr s => json_quote escape s
  | VArr l => "[" ++ str_join item (map (vdumps item key escape) l) ++ "]"
  | VObj d =>
      "{" ++ str_join item (map (fun kv => json_quote escape (fst kv) ++ key
                                            ++ vdumps item key escape (snd kv)) d) ++ "}"
  end.

(** ** [errors.py] *)

(** The classes that [_CODE_MAP] and the SDK raise. *)
Inductive ErrorClass :=
  | ClsOpenClearinghouseError
  | ClsInsufficientCredit
  | ClsSpendCapExceeded
  | ClsAccountNotApproved
  | ClsEmailNotVerified
  | ClsNoRouteAvailable
  | ClsRateLimited
  | ClsDuplicateRequest
  | ClsDaemonUnavailable
  | ClsBrokerProtocolError.

#[export] Instance ErrorClass_eq_dec : EqDecision ErrorClass.
Proof. solve_decision. Defined.

Definition class_name (c : ErrorClass) : string :=
  match c with
  | ClsOpenClearinghouseError => "OpenClearinghouseError"
  | ClsInsufficientCredit => "InsufficientCredit"
  | ClsSpendCapExceeded => "SpendCapExceeded"
  | ClsAccountNotApproved => "AccountNotApproved"
  | ClsEmailNotVerified => "EmailNotVerified"
  | ClsNoRouteAvailable => "NoRouteAvailable"
  | ClsRateLimited => "RateLimited"
  | ClsDuplicateRequest => "DuplicateRequest"
  | ClsDaemonUnavailable => "DaemonUnavailable"
  | ClsBrokerProtocolError => "BrokerProtocolError"
  end.

(** [OpenClearinghouseError] and its subclasses. *)
Record SdkError := MkSdkError {
  er_class : ErrorClass;
  er_message : string;
  er_code : option string;
  er_status : option Z;
  er_details : vdict;
  er_retry_after_seconds : option Z;
}.

Definition CODE_MAP : list (string * ErrorClass) :=
  [("INSUFFICIENT_CREDIT", ClsInsufficientCredit);
   ("SPEND_CAP_EXCEEDED", ClsSpendCapExceeded);
   ("ACCOUNT_NOT_APPROVED", ClsAccountNotApproved);
   ("account_not_approved", ClsAccountNotApproved);
   ("email_not_verified", ClsEmailNotVerified);
   ("NO_ROUTE_AVAILABLE", ClsNoRouteAvailable);
   ("rate_limited", ClsRateLimited);
   ("DUPLICATE_REQUEST", ClsDuplicateRequest);
   ("DAEMON_UNAVAILABLE", ClsDaemonUnavailable)].

(** [_CODE_MAP.get(code, OpenClearinghouseError)]. *)
Fixpoint class_of_code (table : list (string * ErrorClass)) (code : string) : ErrorClass :=
  match table with
  | [] => ClsOpenClearinghouseError
  | (c, cls) :: rest => if String.eqb code c then cls else class_of_code rest code
  end.

Definition DETAIL_MESSAGE_MAX_CHARS : nat := 500.

Section errors.
Context {T : SdkText}.

(** [_compact_detail]; what came out of a JSON parser serializes. *)
Definition compact_detail (detail : value) : string :=
  let text := vdumps "," ":" json_escape_ascii detail in
  if (DETAIL_MESSAGE_MAX_CHARS <? String.length text)%nat
  then String.substring 0 (DETAIL_MESSAGE_MAX_CHARS - 3) text ++ "..."
  else text.

(** [x if isinstance(x, dict) else {}]. *)
Definition obj_or_empty (v : value) : vdict := match v with VObj d => d | _ => [] end.

Definition from_response (status : Z) (body : vdict) (retry_after : option Z) : SdkError :=
  let envelope := obj_or_empty (vget "error" body) in
  let detail := vget "detail" body in
  let detail_str := match detail with VStr _ => detail | _ => VNull end in
  let code := v_str (v_or (vget "code" envelope) detail_str) in
  let message :=
    match v_or (vget "message" envelope) detail_str with
    | VStr s => s
    | _ => if is_null detail then "HTTP " ++ str_Z status else compact_detail detail
    end in
  let details :=
    match v_or (vget "details" envelope) (VObj []) with
    | VObj d => d
    | other => [("details", other)]
    end in
  let details :=
    if negb (is_null detail) && is_null detail_str then vset "detail" detail details
    else details in
  let cls := class_of_code CODE_MAP (or_else code "") in
  MkSdkError cls message code (Some status) details
    (if decide (cls = ClsRateLimited) then retry_after else None).

(** A refusal of the broker's or the service's answer by the SDK itself. *)
Definition protocol_error (message : string) (code : option string) (status : option Z)
    (details : vdict) : SdkError :=
  MkSdkError ClsBrokerProtocolError message code status details None.

End errors.

(** ** Exceptions *)

Inductive sdk_exn :=
  | XError (e : SdkError)
  | XTransport (name : string)
  | XStatus (status : Z)
  | XValue | XJSONDecode | XKey | XType | XAttribute | XOverflow | XAssertion
  | XOther (name : string).

(** [exc.__class__.__name__]. *)
Definition exn_class_name (x : sdk_exn) : string :=
  match x with
  | XError e => class_name (er_class e)
  | XTransport n | XOther n => n
  | XStatus _ => "HTTPStatusError"
  | XValue => "ValueError"
  | XJSONDecode => "JSONDecodeError"
  | XKey => "KeyError"
  | XType => "TypeError"
  | XAttribute => "AttributeError"
  | XOverflow => "OverflowError"
  | XAssertion => "AssertionError"
  end.

(** [getattr(exc, "code", None)]. *)
Definition exn_code (x : sdk_exn) : value :=
  match x with XError e => v_opt_str (er_code e) | _ => VNull end.

(** [except (KeyError, TypeError, ValueError)]. *)
Definition is_malformed (x : sdk_exn) : bool :=
  match x with XKey | XType | XValue | XJSONDecode => true | _ => false end.

(** [is_open_clearinghouse_error]. *)
Definition is_open_clearinghouse_error (x : sdk_exn) : bool :=
  match x with XError _ => true | _ => false end.

(** ** Computations *)

Inductive outcome (A : Type) := Returned (a : A) | Raised (x : sdk_exn).
Arguments Returned {A}.
Arguments Raised {A}.

Definition Act (S A : Type) : Type := S -> outcome A * S.

Definition pret {S A} (a : A) : Act S A := fun s => (Returned a, s).
Definition throw {S A} (x : sdk_exn) : Act S A := fun s => (Raised x, s).
Definition pbind {S A B} (m : Act S A) (f : A -> Act S B) : Act S B := fun s =>
  match m s with
  | (Returned a, s') => f a s'
  | (Raised x, s') => (Raised x, s')
  end.
Definition pget {S} : Act S S := fun s => (Returned s, s).
Definition pmodify {S} (f : S -> S) : Act S unit := fun s => (Returned tt, f s).

(** [try: m except x: h(x)]. *)
Definition ptry {S A} (m : Act S A) (h : sdk_exn -> Act S A) : Act S A := fun s =>
  match m s with
  | (Returned a, s') => (Returned a, s')
  | (Raised x, s') => h x s'
  end.

(** [contextlib.suppress(Exception)]. *)
Definition suppress {S} (m : Act S unit) : Act S unit := ptry m (fun _ => pret tt).

Definition pure {S A} (r : outcome A) : Act S A := fun s => (r, s).
Definition some_or {S A} (o : option A) (x : sdk_exn) : Act S A :=
  match o with Some a => pret a | None => throw x end.
Definition check {S} (b : bool) (x : sdk_exn) : Act S unit := if b then pret tt else throw x.

(** A part of the state as the state of a computation. *)
Definition zoom {S S' A} (proj : S' -> S) (put : S -> S' -> S') (m : Act S A) : Act S' A := fun s =>
  let '(r, t) := m (proj s) in (r, put t s).

Declare Scope sdk_scope.
Delimit Scope sdk_scope with sdk.
Notation "x <- m ;; k" := (pbind m (fun x => k))
  (at level 100, m at next level, right associativity) : sdk_scope.
Notation "' pat <- m ;; k" := (pbind m (fun x => match x with pat => k end))
  (at level 100, pat pattern, m at next level, right associativity) : sdk_scope.
Notation "m ;;; k" := (pbind m (fun _ => k)) (at level 100, right associativity) : sdk_scope.
Open Scope sdk_scope.

(** ** Reading values *)

Section reading.
Context {S : Type} {T : SdkText}.

(** [v.get(k)] and [v[k]]. *)
Definition get_key (v : value) (k : string) : Act S value :=
  match v with VObj d => pret (vget k d) | _ => throw XAttribute end.
Definition get_item (v : value) (k : string) : Act S value :=
  match v with VObj d => some_or (vfind k d) XKey | _ => throw XType end.

(** [int(v)]. *)
Definition to_int (v : value) : Act S Z :=
  match v with
  | VInt z => pret z
  | VBool b => pret (if b then 1 else 0)
  | VStr s => some_or (int_of_str s) XValue
  | VFloat f => match f with
                | S754_nan => throw XValue
                | S754_infinity _ => throw XOverflow
                | _ => pret (double_trunc f)
                end
  | _ => throw XType
  end.

(** [float(z)] of an integer: too large a one overflows. *)
Definition float_of_int (z : Z) : Act S spec_float :=
  match double z with S754_infinity _ => throw XOverflow | f => pret f end.

(** [float(v)]. *)
Definition to_float (v : value) : Act S spec_float :=
  match v with
  | VFloat f => pret f
  | VInt z => float_of_int z
  | VBool b => float_of_int (if b then 1 else 0)
  | VStr s => some_or (sx_float_of_str s) XValue
  | _ => throw XType
  end.

(** [str(v)]. *)
Definition to_str (v : value) : string :=
  match v with
  | VStr s => s
  | VInt z => str_Z z
  | VBool b => if b then "True" else "False"
  | VNull => "None"
  | _ => sx_repr v
  end.

(** A string method of [v]: other values lack it. *)
Definition as_string (v : value) : Act S string := some_or (v_str v) XAttribute.

(** [uuid.UUID(v)]. *)
Definition to_uuid (v : value) : Act S uuid :=
  match v with
  | VStr s => some_or (uuid_of_str s) XValue
  | VNull => throw XType
  | _ => throw XAttribute
  end.

(** [json.loads(base64.b64decode(s, validate=True))]; the errors of both are
    [ValueError]s. *)
Definition b64_json (s : string) : option value :=
  raw ← b64decode s; sx_json_loads raw.

End reading.

(** ** The world *)

Inductive Body := NoBody | JsonBody (v : value) | Content (b : bytes).

(** Which client sends: the one of the service, with its base address and
    identifying headers, or one opened for a request to a broker. *)
Inductive Via := Gateway | Broker.

Record Request := MkRequest {
  rq_via : Via;
  rq_method : string;
  rq_url : string;
  rq_headers : list (string * string);
  rq_params : list (string * string);
  rq_body : Body;
}.

(** Header names are in lower case, as httpx compares them. *)
Record Response := MkResponse {
  rp_status : Z;
  rp_headers : list (string * string);
  rp_content : bytes;
}.

(** An answer, an [httpx.TransportError], or another exception of the library,
    by their class names. *)
Inductive Sent :=
  | Answered (r : Response)
  | NotSent (name : string)
  | SendRaised (name : string).

(** What the world gives the background task at a point where the data plane
    waits: so many turns of it, and whether its interval has passed at each. *)
Class SdkWorld (W : Type) := {
  sw_send : Request -> W -> Sent * W;
  sw_connect : string -> list (string * string) -> W -> option string * W;
  sw_uuid4 : W -> uuid * W;
  sw_now_iso : W -> string * W;
  sw_monotonic_ns : W -> Z * W;
  sw_turns : W -> list bool * W;
}.

Fixpoint header (k : string) (hs : list (string * string)) : option string :=
  match hs with
  | [] => None
  | (k', v) :: hs' => if String.eqb k k' then Some v else header k hs'
  end.
Definition response_header (r : Response) (k : string) : option string := header k (rp_headers r).

(** [not value], of a header that may be missing. *)
Definition present (o : option string) : bool :=
  match o with Some s => str_truthy s | None => false end.

Definition is_success (r : Response) : bool := (200 <=? rp_status r) && (rp_status r <=? 299).

Section responses.
Context {S : Type} {T : SdkText}.

(** [response.json()]. *)
Definition response_json (r : Response) : Act S value :=
  some_or (sx_json_loads (rp_content r)) XJSONDecode.

Definition raise_for_status (r : Response) : Act S unit :=
  check (is_success r) (XStatus (rp_status r)).

(** [_unwrap]: the document of a success, the typed error of anything else. *)
Definition unwrap_error (r : Response) : SdkError :=
  let body := or_else (sx_json_loads (rp_content r)) (VObj [("detail", VStr (sx_text (rp_content r)))]) in
  let retry_after := match response_header r "retry-after" with
    | Some s => if str_truthy s && str_forallb is_digit s then int_of_str s else None
    | None => None
    end in
  from_response (rp_status r)
    match body with VObj d => d | other => [("detail", VStr (to_str other))] end retry_after.

Definition unwrap (r : Response) : Act S value :=
  if is_success r then response_json r else throw (XError (unwrap_error r)).

End responses.
