(* ===== verification/SdkTelemetry.v ===== *)
(** * The Python SDK: telemetry

    [telemetry.py]: the buffer of events, the background task that flushes it,
    and what closing does.  The task runs in turns between the requests of the
    data plane; how many it gets, and which of its waits time out, is the
    world's choice. *)

From S2P Require Import Prelude PyData Codecs Errors Effects Payments SdkBase.
From Stdlib Require Import Strings.Byte Strings.Ascii.

Open Scope string_scope.
Open Scope Z_scope.
Open Scope loc_scope.
Open Scope sdk_scope.

Definition DEFAULT_BATCH_SIZE : nat := 100.
Definition DEFAULT_BUFFER_CAP : nat := 100 * 100.
Definition DEFAULT_RETRIES : nat := 3.
Definition DEFAULT_GZIP_THRESHOLD_BYTES : nat := 1024.

Definition CRITICAL_EVENT_TYPES : list string := ["session.refill_denied"; "session.closed"].

Definition is_critical (event_type : string) : bool :=
  existsb (String.eqb event_type) CRITICAL_EVENT_TYPES || str_endswith ".error" event_type.

(** One buffered event. *)
Record Event := MkEvent {
  ev_event_type : string;
  ev_event_schema_version : Z;
  ev_correlation_id : option string;
  ev_client_ts : string;
  ev_payload : vdict;
}.

Definition event_value (e : Event) : value :=
  VObj [("event_type", VStr (ev_event_type e));
        ("event_schema_version", VInt (ev_event_schema_version e));
        ("correlation_id", v_opt_str (ev_correlation_id e));
        ("client_ts", VStr (ev_client_ts e)); ("payload", VObj (ev_payload e))].

(** [_flush_task]: not created, created and not yet run, waiting for the event
    or its interval, sending a batch with so many attempts left, ended. *)
Inductive FlushTask :=
  | NotStarted
  | Starting
  | Waiting
  | Sending (batch : list Event) (attempts : nat)
  | Finished.

Record TelemetryEmitter := MkEmitter {
  em_endpoint : string;
  em_batch_size : nat;
  em_buffer_cap : nat;
  em_max_retries : nat;
  em_gzip_threshold : nat;
  em_buffer : list Event;
  em_dropped_count : Z;
  em_flush_event : bool;
  em_closed : bool;
  em_flush_task : FlushTask;
}.

Definition new_emitter : TelemetryEmitter :=
  MkEmitter "/v1/telemetry" DEFAULT_BATCH_SIZE DEFAULT_BUFFER_CAP DEFAULT_RETRIES
    DEFAULT_GZIP_THRESHOLD_BYTES [] 0 false false NotStarted.

Definition set_buffer (b : list Event) (dropped : Z) (e : TelemetryEmitter) : TelemetryEmitter :=
  MkEmitter (em_endpoint e) (em_batch_size e) (em_buffer_cap e) (em_max_retries e)
    (em_gzip_threshold e) b dropped (em_flush_event e) (em_closed e) (em_flush_task e).
Definition set_flush_event (b : bool) (e : TelemetryEmitter) : TelemetryEmitter :=
  MkEmitter (em_endpoint e) (em_batch_size e) (em_buffer_cap e) (em_max_retries e)
    (em_gzip_threshold e) (em_buffer e) (em_dropped_count e) b (em_closed e) (em_flush_task e).
Definition set_closed (e : TelemetryEmitter) : TelemetryEmitter :=
  MkEmitter (em_endpoint e) (em_batch_size e) (em_buffer_cap e) (em_max_retries e)
    (em_gzip_threshold e) (em_buffer e) (em_dropped_count e) (em_flush_event e) true
    (em_flush_task e).
Definition set_flush_task (t : FlushTask) (e : TelemetryEmitter) : TelemetryEmitter :=
  MkEmitter (em_endpoint e) (em_batch_size e) (em_buffer_cap e) (em_max_retries e)
    (em_gzip_threshold e) (em_buffer e) (em_dropped_count e) (em_flush_event e) (em_closed e) t.

(** ** The buffer *)

(** [deque(maxlen=cap).append]. *)
Definition deque_append (cap : nat) (b : list Event) (ev : Event) : list Event :=
  drop (length (b ++ [ev]) - cap) (b ++ [ev]).

(** [emit], once the event is built. *)
Definition append_event (ev : Event) (e : TelemetryEmitter) : TelemetryEmitter :=
  let full := (length (em_buffer e) =? em_buffer_cap e)%nat in
  let e := set_buffer (deque_append (em_buffer_cap e) (em_buffer e) ev)
             (if full then em_dropped_count e + 1 else em_dropped_count e) e in
  if is_critical (ev_event_type ev) || (em_batch_size e <=? length (em_buffer e))%nat
  then set_flush_event true e else e.

Definition drained (e : TelemetryEmitter) : TelemetryEmitter :=
  set_buffer [] (em_dropped_count e) e.

(** [start]. *)
Definition start_task (e : TelemetryEmitter) : TelemetryEmitter :=
  match em_flush_task e with
  | NotStarted => if em_closed e then e else set_flush_task Starting e
  | _ => e
  end.

(** The head of the loop: [while not self._closed]. *)
Definition loop_head (e : TelemetryEmitter) : TelemetryEmitter :=
  set_flush_task (if em_closed e then Finished else Waiting) e.

Definition dropped_count (e : TelemetryEmitter) : Z := em_dropped_count e.
Definition buffer_size (e : TelemetryEmitter) : nat := length (em_buffer e).

Section emitter.
Context {W : Type} {T : SdkText} {V : SdkWorld W}.

(** The state an [OpenClearinghouseClient] shares with its emitter. *)
Record ClientState := MkClientState {
  cl_world : W;
  cl_emitter : TelemetryEmitter;
  cl_telemetry_started : bool;
}.
Local Abbreviation Act := (Act ClientState).

Definition on_emitter (f : TelemetryEmitter -> TelemetryEmitter) : Act unit :=
  pmodify (fun s => MkClientState (cl_world s) (f (cl_emitter s)) (cl_telemetry_started s)).
Definition the_emitter : Act TelemetryEmitter := s <- pget ;; pret (cl_emitter s).

Definition at_world {A} (f : W -> A * W) : Act A := fun s =>
  let '(a, w) := f (cl_world s) in
  (Returned a, MkClientState w (cl_emitter s) (cl_telemetry_started s)).

Definition now_iso : Act string := at_world sw_now_iso.

(** [telemetry_correlation_id]. *)
Definition telemetry_correlation_id (v : uuid + string) : string :=
  match v with
  | inl u => str_uuid u
  | inr s => match uuid_of_str s with
             | Some u => str_uuid u
             | None => str_uuid (sx_uuid5_url s)
             end
  end.

(** [emit]; a closed emitter ignores it. *)
Definition emit_full (event_type : string) (event_schema_version : Z)
    (correlation_id : option (uuid + string)) (payload : vdict) (client_ts : option string)
  : Act unit :=
  e <- the_emitter ;;
  if em_closed e then pret tt else
  ts <- match client_ts with
        | Some ts => if str_truthy ts then pret ts else now_iso
        | None => now_iso
        end ;;
  on_emitter (append_event
    (MkEvent event_type event_schema_version (telemetry_correlation_id <$> correlation_id)
       ts payload)).

Definition emit_event (event_type : string) (correlation_id : option (uuid + string)) (payload : vdict)
  : Act unit := emit_full event_type 1 correlation_id payload None.

(** ** Flushing *)

(** The request of a batch, compressed when long. *)
Definition flush_request (e : TelemetryEmitter) (batch : list Event) : Request :=
  let body := String.list_byte_of_string
    (vdumps ", " ": " json_escape_ascii (VObj [("events", VArr (map event_value batch))])) in
  let json_header := [("content-type", "application/json")] in
  if (em_gzip_threshold e <? length body)%nat
  then MkRequest Gateway "POST" (em_endpoint e)
         (json_header ++ [("content-encoding", "gzip")])%list [] (Content (sx_gzip body))
  else MkRequest Gateway "POST" (em_endpoint e) json_header [] (Content body).

(** One attempt of [_send_with_retry]: whether it is the last. *)
Definition settled_answer (a : Sent) : bool :=
  match a with
  | Answered r => (rp_status r <? 500) && negb (rp_status r =? 429)
  | _ => false
  end.
Definition send_attempt (batch : list Event) : Act bool :=
  e <- the_emitter ;;
  a <- at_world (sw_send (flush_request e batch)) ;;
  pret (settled_answer a).

Fixpoint send_with_retry (batch : list Event) (attempts : nat) : Act unit :=
  match attempts with
  | O => pret tt
  | S more => ok <- send_attempt batch ;; if ok then pret tt else send_with_retry batch more
  end.

(** [_flush_once]. *)
Definition flush_once : Act unit :=
  e <- the_emitter ;;
  match em_buffer e with
  | [] => pret tt
  | batch => on_emitter drained ;;; send_with_retry batch (em_max_retries e)
  end.

(** One turn of [_flush_loop], up to its next wait. *)
Definition wake (e : TelemetryEmitter) : TelemetryEmitter :=
  let e := set_flush_event false e in
  match em_buffer e with
  | [] => loop_head e
  | batch => set_flush_task (Sending batch (em_max_retries e)) (drained e)
  end.

Definition flush_turn (deadline : bool) : Act unit :=
  e <- the_emitter ;;
  match em_flush_task e with
  | NotStarted | Finished => pret tt
  | Starting => on_emitter loop_head
  | Waiting => if em_flush_event e || deadline then on_emitter wake else pret tt
  | Sending _ O => on_emitter loop_head
  | Sending batch (S more) =>
      ok <- send_attempt batch ;;
      if ok then on_emitter loop_head else on_emitter (set_flush_task (Sending batch more))
  end.

Fixpoint turns (l : list bool) : Act unit :=
  match l with [] => pret tt | d :: l' => flush_turn d ;;; turns l' end.

(** A wait of the data plane, during which the task may run. *)
Definition pause : Act unit := l <- at_world sw_turns ;; turns l.

(** [aclose]: the turns of the wait are those the task gets within its ten
    seconds; a task still running is then cancelled. *)
Definition aclose_emitter : Act unit :=
  e <- the_emitter ;;
  if em_closed e then pret tt else
  on_emitter (fun e => set_flush_event true (set_closed e)) ;;;
  match em_flush_task e with
  | NotStarted => pret tt
  | _ => pause ;;; on_emitter (set_flush_task NotStarted)
  end ;;;
  flush_once.

End emitter.
Arguments ClientState W : clear implicits.
Arguments MkClientState {W}.
