(* ===== verification/SdkClient.v ===== *)
(** * The Python SDK: the client

    [client.py]: paid jobs and paid sessions as a caller of the service and of
    the broker sees them.  A method's [await]s are where the telemetry task may
    run ([pause]); its exceptions are those of the code. *)

From S2P Require Import Prelude PyData Codecs Errors Effects Payments SdkBase SdkTelemetry.
From Stdlib Require Import Strings.Byte Strings.Ascii Floats.SpecFloat.

Open Scope string_scope.
Open Scope Z_scope.
Open Scope loc_scope.
Open Scope sdk_scope.

Definition SDK_LANG : string := "python".
Definition SDK_VERSION : string := "2.0.0".
Definition SDK_GIT_SHA : string := "dev".
Definition SDK_IDENTITY : string := SDK_LANG ++ "/" ++ SDK_VERSION ++ "/" ++ SDK_GIT_SHA.

(** ** Results *)

(** [CapStatus]. *)
Record SdkCapStatus := MkSdkCapStatus {
  cs_session_pct_used : spec_float;
  cs_spend_period_pct_used : option spec_float;
  cs_user_balance_pct_used : option spec_float;
  cs_operator_pool_pct_used : option spec_float;
  cs_will_refuse_next_refill : bool;
  cs_winddown_reason : value;
}.

(** [JobResult]: a field the code does not convert is the value it found. *)
Record JobResult := MkJobResult {
  jr_body : value;
  jr_status : Z;
  jr_job_id : uuid;
  jr_work_id : value;
  jr_broker_job_id : string;
  jr_protocol : value;
  jr_transport : string;
  jr_work_unit : string;
  jr_actual_units : Z;
  jr_billed_value_wei : Z;
  jr_refund_wei : Z;
  jr_outcome : value;
  jr_cap_status : SdkCapStatus;
  jr_request_id : string;
  jr_raw_headers : list (string * string);
}.

(** [SessionAxes]; the attachment and metering have one value each. *)
Record SdkSessionAxes := MkSdkSessionAxes { xa_descriptor_schema : string; xa_refill : string }.

(** A caller-proof signer: what it returns, [None] for anything that is not a
    string, or the class of what it raises. *)
Definition CallerProofSigner (W : Type) : Type := bytes -> W -> (option string + string) * W.

Record SessionHandle (W : Type) := MkSessionHandle {
  sh_session_id : uuid;
  sh_request_id : value;
  sh_work_id : value;
  sh_broker_url : value;
  sh_protocol : string;
  sh_capability : string;
  sh_offering : string;
  sh_session : SdkSessionAxes;
  sh_session_params : vdict;
  sh_expected_value_wei : Z;
  sh_funded_value_wei : Z;
  sh_refill_endpoint : value;
  sh_close_endpoint : value;
  sh_spend_authorization : string;
  sh_caller_proof : string;
  sh_session_open_body : bytes;
  sh_max_total_units : Z;
  sh_sign_caller_proof : CallerProofSigner W;
}.
Arguments MkSessionHandle {W}.
Arguments sh_session_id {W}. Arguments sh_request_id {W}. Arguments sh_work_id {W}.
Arguments sh_broker_url {W}. Arguments sh_protocol {W}. Arguments sh_capability {W}.
Arguments sh_offering {W}. Arguments sh_session {W}. Arguments sh_session_params {W}.
Arguments sh_expected_value_wei {W}. Arguments sh_funded_value_wei {W}.
Arguments sh_refill_endpoint {W}. Arguments sh_close_endpoint {W}.
Arguments sh_spend_authorization {W}. Arguments sh_caller_proof {W}.
Arguments sh_session_open_body {W}. Arguments sh_max_total_units {W}.
Arguments sh_sign_caller_proof {W}.

(** [OpenClearinghouseClient.__init__]: the HTTP client it builds. *)
Record GatewayConfig := MkGatewayConfig {
  gc_base_url : string;
  gc_headers : list (string * string);
}.
Definition new_client (base_url api_key sdk_identity : string) : outcome GatewayConfig :=
  if str_startswith "pymth_" api_key
  then Returned (MkGatewayConfig (str_rstrip_slash base_url)
         [("X-API-Key", api_key); ("Livepeer-Open-Clearinghouse-SDK", sdk_identity)])
  else Raised XValue.

Section client.
Context {W : Type} {T : SdkText} {V : SdkWorld W}.
Local Abbreviation Act := (Act (ClientState W)).

(** [_encode_json]. *)
Definition encode_json (v : vdict) : bytes :=
  String.list_byte_of_string (vdumps "," ":" json_escape (VObj v)).

Definition sha256_hex (b : bytes) : string := bytes_hex (sx_sha256 b).

(** [CapStatus.from_dict]. *)
Definition optional_float (v : value) : Act (option spec_float) :=
  if is_null v then pret None else f <- to_float v ;; pret (Some f).
Definition cap_status_from_dict (d : value) : Act SdkCapStatus :=
  session <- get_item d "session_pct_used" ;;
  session_pct_used <- to_float session ;;
  spend <- get_key d "spend_period_pct_used" ;;
  spend_period_pct_used <- optional_float spend ;;
  balance <- get_key d "user_balance_pct_used" ;;
  user_balance_pct_used <- optional_float balance ;;
  pool <- get_key d "operator_pool_pct_used" ;;
  operator_pool_pct_used <- optional_float pool ;;
  will_refuse <- get_item d "will_refuse_next_refill" ;;
  winddown_reason <- get_key d "winddown_reason" ;;
  pret (MkSdkCapStatus session_pct_used spend_period_pct_used user_balance_pct_used
          operator_pool_pct_used (truthy will_refuse) winddown_reason).

Definition refuse_answer {A} (message : string) : Act A :=
  throw (XError (protocol_error message None None [])).
Definition refuse_code {A} (message code : string) (status : option Z) (details : vdict) : Act A :=
  throw (XError (protocol_error message (Some code) status details)).

(** [v in {...}] of strings: lists and dictionaries cannot be hashed. *)
Definition in_set (v : value) (l : list string) : Act bool :=
  match v with
  | VArr _ | VObj _ => throw XType
  | _ => pret (existsb (v_is v) l)
  end.

(** [SessionAxes.from_dict]. *)
Definition session_axes_from_dict (v : value) : Act SdkSessionAxes :=
  match v with
  | VObj d =>
      let attachment := or_else (vfind "attachment" d) (VStr "external") in
      let metering := vget "metering" d in
      let refill := or_else (vfind "refill" d) (VStr "extensible") in
      if negb (v_is attachment "external")
      then refuse_answer ("invalid session.attachment: " ++ sx_repr attachment)
      else if negb (v_is metering "runner-reported")
      then refuse_answer ("invalid session.metering: " ++ sx_repr metering)
      else
        known <- in_set refill ["extensible"; "bounded"] ;;
        match refill with
        | VStr refill =>
            if negb known then refuse_answer ("invalid session.refill: " ++ sx_repr (VStr refill))
            else
              match vget "descriptor_schema" d with
              | VStr schema =>
                  if str_truthy schema then pret (MkSdkSessionAxes schema refill)
                  else refuse_answer "session.descriptor_schema is required"
              | _ => refuse_answer "session.descriptor_schema is required"
              end
        | other => refuse_answer ("invalid session.refill: " ++ sx_repr other)
        end
  | _ => throw XAttribute
  end.

(** [_caller_proof]. *)
Definition caller_proof (authorization : value) (signer : option (CallerProofSigner W))
  : Act (option string) :=
  match authorization with
  | VNull => pret None
  | _ =>
      match signer with
      | None => refuse_code
                  "LOC returned a spend authorization but no caller-proof signer was supplied"
                  "caller_proof_signer_required" None []
      | Some sign =>
          text <- some_or (v_str authorization) XType ;;
          match b64decode text with
          | None => refuse_code "LOC returned a malformed spend authorization"
                      "broker_protocol_error" None []
          | Some authorization_bytes =>
              proof <- at_world (sign authorization_bytes) ;;
              match proof with
              | inr name => throw (XOther name)
              | inl proof =>
                  if present proof then pret proof
                  else refuse_code "caller-proof signer returned an empty proof"
                         "caller_proof_signer_failed" None []
              end
          end
      end
  end.

(** ** Sending *)

(** A request of the data plane, while which the telemetry task may run. *)
Definition send_raw (rq : Request) : Act Sent := pause ;;; at_world (sw_send rq).
Definition send (rq : Request) : Act Response :=
  a <- send_raw rq ;;
  match a with
  | Answered r => pret r
  | NotSent name => throw (XTransport name)
  | SendRaised name => throw (XOther name)
  end.

Definition gateway_get (url : string) (params : list (string * string)) : Act Response :=
  send (MkRequest Gateway "GET" url [] params NoBody).
Definition gateway_post (url : string) (headers : list (string * string)) (body : vdict)
  : Act Response := send (MkRequest Gateway "POST" url headers [] (JsonBody (VObj body))).

(** [_post_with_retry]. *)
Definition SETTLE_MAX_RETRIES : nat := 3.
Fixpoint post_with_retry (path : string) (body : vdict) (max_retries : nat) : Act Response :=
  match max_retries with
  | O => throw XAssertion
  | S more =>
      a <- send_raw (MkRequest Gateway "POST" path [] [] (JsonBody (VObj body))) ;;
      match a with
      | SendRaised name => throw (XOther name)
      | NotSent name =>
          match more with
          | O => throw (XTransport name)
          | _ => pause ;;; post_with_retry path body more
          end
      | Answered resp =>
          if (rp_status resp <? 500) && negb (rp_status resp =? 429) then pret resp
          else match more with
               | O => pret resp
               | _ => pause ;;; post_with_retry path body more
               end
      end
  end.

(** [_ensure_telemetry_started], inside a running event loop. *)
Definition ensure_telemetry_started : Act unit :=
  s <- pget ;;
  if cl_telemetry_started s then pret tt else
  on_emitter start_task ;;;
  pmodify (fun s => MkClientState (cl_world s) (cl_emitter s) true) ;;;
  emit_event "sdk.init" None
    ([("lang", VStr SDK_LANG); ("semver", VStr SDK_VERSION); ("git_sha7", VStr SDK_GIT_SHA)]
     ++ sx_process)%list.

(** [aclose]; closing the connections is httpx's. *)
Definition aclose : Act unit := aclose_emitter.

(** [request_id or str(uuid.uuid4())]. *)
Definition fresh_id : Act string := u <- at_world sw_uuid4 ;; pret (str_uuid u).
Definition id_or_fresh (request_id : option string) : Act string :=
  match request_id with
  | Some r => if str_truthy r then pret r else fresh_id
  | None => fresh_id
  end.

(** The payload of an error event. *)
Definition error_event_payload (phase : string) (x : sdk_exn) : vdict :=
  [("phase", VStr phase); ("error_class", VStr (exn_class_name x)); ("error_code", exn_code x)].

(** [except Exception as exc: emit(...); raise]. *)
Definition reporting {A} (event phase correlation : string) (m : Act A) : Act A :=
  ptry m (fun x => emit_event event (Some (inr correlation)) (error_event_payload phase x) ;;; throw x).

Definition monotonic_ns : Act Z := at_world sw_monotonic_ns.
Definition latency_ms (started ended : Z) : value := VInt ((ended - started) / 1000000).

(** ** Discovery and status *)

Definition sdk_list_capabilities : Act value :=
  r <- gateway_get "/v1/capabilities" [] ;; v <- unwrap r ;; get_item v "items".
Definition sdk_list_orchestrators (capability : option string) : Act value :=
  r <- gateway_get "/v1/orchestrators"
         (match capability with
          | Some c => if str_truthy c then [("capability", c)] else []
          | None => []
          end) ;;
  v <- unwrap r ;; get_item v "items".
Definition sdk_get_session_status (session_id : string) : Act value :=
  r <- gateway_get ("/v1/sessions/" ++ session_id) [] ;; unwrap r.
Definition sdk_get_job_status (job_id : string) : Act value :=
  r <- gateway_get ("/v1/jobs/" ++ job_id) [] ;; unwrap r.

(** ** Jobs *)

(** The arguments of [submit_job]; the body is a document or raw bytes. *)
Record JobArgs := MkJobArgs {
  ja_capability : string;
  ja_offering : string;
  ja_estimated_units : Z;
  ja_body : vdict + bytes;
  ja_max_total_units : option Z;
  ja_request_id : option string;
  ja_transport : string;
  ja_content_type : option string;
  ja_caller_public_key : option string;
  ja_sign_caller_proof : option (CallerProofSigner W);
}.

(** [authorization_body], and the [Content-Type] of a body by its kind. *)
Definition authorization_body (a : JobArgs) : bytes :=
  match ja_body a with inl d => encode_json d | inr raw => raw end.
Definition body_content_type (a : JobArgs) : string :=
  let default := match ja_body a with
    | inl _ => "application/json" | inr _ => "application/octet-stream" end in
  match ja_content_type a with
  | Some c => if str_truthy c then c else default
  | None => default
  end.

(** The argument checks: a multipart body is encoded and typed by the caller. *)
Definition multipart_ok (a : JobArgs) : bool :=
  negb (String.eqb (ja_transport a) "multipart")
  || (match ja_body a with inr _ => true | inl _ => false end
      && match ja_content_type a with
         | Some c => str_startswith "multipart/form-data" (str_lower c)
         | None => false
         end).

(** Step 1: [POST /v1/jobs]. *)
Definition job_open_body (a : JobArgs) (caller_public_key : string) : vdict :=
    [("capability", VStr (ja_capability a)); ("offering", VStr (ja_offering a));
     ("transport", VStr (ja_transport a)); ("estimated_units", VInt (ja_estimated_units a));
     ("max_total_units", v_opt_int (ja_max_total_units a));
     ("workload_request_digest", VStr (sha256_hex (authorization_body a)));
     ("caller_public_key", VStr caller_public_key)].
Definition authorize_request (a : JobArgs) (req_id caller_public_key : string) : Act Response :=
  gateway_post "/v1/jobs" [("Idempotency-Key", req_id)] (job_open_body a caller_public_key).

Definition mint_job (a : JobArgs) (req_id caller_public_key : string) : Act value :=
  emit_event "request.mint_started" (Some (inr req_id))
    [("capability", VStr (ja_capability a)); ("offering", VStr (ja_offering a));
     ("estimated_units", VInt (ja_estimated_units a))] ;;;
  started <- monotonic_ns ;;
  '(open_resp, job) <- reporting "request.error" "mint" req_id
    (open_resp <- authorize_request a req_id caller_public_key ;;
     job <- unwrap open_resp ;;
     pret (open_resp, job)) ;;
  completed <- monotonic_ns ;;
  funded_value_wei <- get_key job "funded_value_wei" ;;
  protocol <- get_key job "protocol" ;;
  emit_event "request.mint_completed" (Some (inr req_id))
    [("latency_ms", latency_ms started completed);
     ("loc_status_code", VInt (rp_status open_resp));
     ("funded_value_wei", funded_value_wei); ("protocol", protocol)] ;;;
  pret job.

(** What the steps after authorization read of the job. *)
Record OpenedJob := MkOpenedJob {
  oj_job_id : uuid;
  oj_job : value;
  oj_broker_url : value;
  oj_authorization : value;
  oj_accounting_mode : value;
  oj_work_unit : string;
  oj_request_id : string;
  oj_settle_endpoint : value;
}.

Definition read_opened_job (a : JobArgs) (job : value) : Act OpenedJob :=
  id <- get_item job "job_id" ;;
  job_id <- to_uuid id ;;
  broker_url <- get_item job "broker_url" ;;
  authorization <- get_key job "spend_authorization" ;;
  accounting_mode <- get_key job "accounting_mode" ;;
  protocol <- get_item job "protocol" ;;
  (if v_is protocol "paid-job/v1" then pret tt
   else refuse_code ("LOC returned unsupported job protocol " ++ sx_repr protocol)
          "protocol_unsupported" None [("protocol", protocol)]) ;;;
  transport <- get_item job "transport" ;;
  (if v_is transport (ja_transport a) then pret tt
   else refuse_code ("LOC returned transport " ++ sx_repr transport ++ "; requested "
                     ++ sx_repr (VStr (ja_transport a)))
          "protocol_transport_mismatch" None
          [("expected", VStr (ja_transport a)); ("received", transport)]) ;;;
  work_unit <- get_item job "work_unit" ;;
  request_id <- get_item job "request_id" ;;
  settle_endpoint <- get_item job "settle_endpoint" ;;
  pret (MkOpenedJob job_id job broker_url authorization accounting_mode (to_str work_unit)
          (to_str request_id) settle_endpoint).

(** Step 2: the headers of the broker's request, with the caller's proof. *)
Definition broker_job_headers (a : JobArgs) (j : OpenedJob) : Act (list (string * string)) :=
  (if v_is (oj_accounting_mode j) "wholesale_account" then pret tt
   else refuse_code ("LOC returned unsupported accounting mode " ++ sx_repr (oj_accounting_mode j))
          "protocol_unsupported" None []) ;;;
  proof <- caller_proof (oj_authorization j) (ja_sign_caller_proof a) ;;
  match v_str (oj_authorization j), proof with
  | Some authorization, Some proof =>
      pret ([("Livepeer-Capability", ja_capability a); ("Livepeer-Offering", ja_offering a);
             ("Livepeer-Protocol", "paid-job/v1"); ("Livepeer-Request-Id", oj_request_id j);
             ("Livepeer-Authorization", authorization); ("Livepeer-Caller-Proof", proof)]
            ++ (if String.eqb (ja_transport a) "stream" then [("Accept", "text/event-stream")]
                else [])
            ++ [("Content-Type", body_content_type a)])%list
  | _, _ => refuse_code "LOC returned an incomplete wholesale authorization"
              "broker_protocol_error" None []
  end.

(** The lookup of the exchange by its request id, in eight attempts. *)
Fixpoint poll_exchange (exchange_url request_id : string) (attempts : nat)
  : Act (Response * vdict) :=
  match attempts with
  | O => throw XAssertion
  | S more =>
      query <- send (MkRequest Broker "GET" exchange_url [] [] NoBody) ;;
      match sx_json_loads (rp_content query) with
      | None => refuse_code "broker exchange lookup returned malformed JSON"
                  "broker_protocol_error" (Some (rp_status query)) []
      | Some exchange =>
          id <- get_key exchange "request_id" ;;
          if negb (v_is id request_id)
          then refuse_code "broker exchange lookup returned a different request id"
                 "broker_request_id_mismatch" (Some (rp_status query)) [] else
          outcome <- get_key exchange "outcome" ;;
          pending <- (if rp_status query =? 202
                      then in_set outcome ["IN_FLIGHT"; "ACCOUNTING_PENDING"]
                      else pret false) ;;
          if pending then
            match more with
            | O => refuse_code ("broker exchange remained " ++ to_str outcome)
                     "broker_exchange_pending" (Some (rp_status query)) [("outcome", outcome)]
            | _ => pause ;;; poll_exchange exchange_url request_id more
            end
          else if negb (rp_status query =? 200) || negb (v_is outcome "SETTLED")
          then refuse_code ("broker exchange lookup returned " ++ sx_repr outcome)
                 "broker_exchange_unresolved" (Some (rp_status query)) [("outcome", outcome)]
          else pret (query, obj_or_empty exchange)
      end
  end.

(** The broker's answer, and the response and document of its terminal claim:
    itself when its headers have the claim. *)
Definition call_broker (a : JobArgs) (j : OpenedJob) (headers : list (string * string))
  : Act (Response * (Response * option vdict)) :=
  url <- as_string (oj_broker_url j) ;;
  let base := str_rstrip_slash url in
  resp <- send (MkRequest Broker "POST" (base ++ "/v1/job") headers []
                  (Content (authorization_body a))) ;;
  let initial_job_id := response_header resp "livepeer-job-id" in
  if String.eqb (ja_transport a) "stream" && negb (present initial_job_id)
  then refuse_code "stream response missing Livepeer-Job-Id" "broker_protocol_error"
         (Some (rp_status resp)) [("missing_headers", VArr [VStr "Livepeer-Job-Id"])]
  else if forallb present [response_header resp "livepeer-work-units";
                           response_header resp "livepeer-work-unit"; initial_job_id;
                           response_header resp "livepeer-settlement"]
  then pret (resp, (resp, None))
  else '(query, exchange) <- poll_exchange
         (base ++ "/v1/exchange/" ++ url_quote (oj_request_id j)) (oj_request_id j) 8 ;;
       pret (resp, (query, Some exchange)).

(** Step 3: the units, unit and job id of the claim, from its headers or else
    its document. *)
Definition claim_field (claim_resp : Response) (claim_body : option vdict)
    (header_name body_name : string) : option string :=
  match response_header claim_resp header_name with
  | Some s => Some s
  | None =>
      match vget body_name (or_else claim_body []) with
      | VNull => None
      | v => Some (to_str v)
      end
  end.

Definition read_claim (j : OpenedJob) (resp : Response) (claim_resp : Response)
    (claim_body : option vdict) : Act (Z * string * string) :=
  let units := claim_field claim_resp claim_body "livepeer-work-units" "work_units" in
  let unit := claim_field claim_resp claim_body "livepeer-work-unit" "unit" in
  let job := claim_field claim_resp claim_body "livepeer-job-id" "job_id" in
  let missing := ((if present units then [] else ["Livepeer-Work-Units"])
                  ++ (if present unit then [] else ["Livepeer-Work-Unit"])
                  ++ (if present job then [] else ["Livepeer-Job-Id"]))%list in
  match units, unit, job, missing with
  | Some units, Some unit, Some job, [] =>
      (match response_header resp "livepeer-job-id" with
       | Some initial =>
           if String.eqb job initial then pret tt
           else refuse_code ("settlement query returned job id " ++ sx_repr (VStr job)
                             ++ "; expected " ++ sx_repr (VStr initial))
                  "broker_job_id_mismatch" (Some (rp_status claim_resp))
                  [("expected", VStr initial); ("received", VStr job)]
       | None => pret tt
       end) ;;;
      (if String.eqb unit (oj_work_unit j) then pret tt
       else refuse_code ("broker reported work unit " ++ sx_repr (VStr unit) ++ "; expected "
                         ++ sx_repr (VStr (oj_work_unit j)))
              "work_unit_mismatch" (Some (rp_status resp))
              [("expected", VStr (oj_work_unit j)); ("received", VStr unit)]) ;;;
      actual_units <- some_or (int_of_str units) XValue ;;
      pret (actual_units, unit, job)
  | _, _, _, _ =>
      refuse_code ("terminal broker response missing required headers: " ++ str_join ", " missing)
        "broker_protocol_error" (Some (rp_status claim_resp))
        [("missing_headers", VArr (map VStr missing))]
  end.

(** The application's answer as the caller gets it. *)
Definition parse_body (resp : Response) : Act value :=
  if str_contains "json" (or_else (response_header resp "content-type") "")
  then response_json resp else pret (VStr (sx_text (rp_content resp))).

(** The signed settlement: the claim's header or document, which must agree, or
    the first answer's header. *)
Definition first_present (l : list (option string)) : option string :=
  foldr (fun o rest => if present o then o else rest) None l.
Definition read_settlement (resp : Response) (claim_resp : Response) (claim_body : option vdict)
  : Act value :=
  let settlement := response_header claim_resp "livepeer-settlement" in
  let body_settlement := vget "settlement" (or_else claim_body []) in
  let disagree := match settlement with
    | Some s => negb (is_null body_settlement || v_is body_settlement s)
    | None => false
    end in
  if disagree
  then refuse_code "broker exchange settlement header and body disagree" "broker_protocol_error"
         (Some (rp_status claim_resp)) [] else
  match first_present [settlement;
          (if is_null body_settlement then None else Some (to_str body_settlement));
          response_header resp "livepeer-settlement"] with
  | None => refuse_code "terminal broker response missing Livepeer-Settlement"
              "broker_protocol_error" (Some (rp_status claim_resp))
              [("missing_headers", VArr [VStr "Livepeer-Settlement"])]
  | Some encoded =>
      match b64_json encoded with
      | None => refuse_code "terminal broker response has malformed Livepeer-Settlement"
                  "broker_protocol_error" (Some (rp_status claim_resp)) []
      | Some settlement => pret settlement
      end
  end.

(** Step 4: the settlement of the claim with the service. *)
Definition settlement_payload (actual_units : Z) (work_unit broker_job_id : string)
    (settlement : value) : vdict :=
  [("actual_units", VInt actual_units); ("broker_job_id", VStr broker_job_id);
   ("work_unit", VStr work_unit); ("settlement", settlement)].

Definition settle_claim (req_id : string) (settle_endpoint : value) (payload : vdict)
  : Act value :=
  emit_event "request.settle_started" (Some (inr req_id)) [] ;;;
  started <- monotonic_ns ;;
  '(settle_resp, settled) <- reporting "request.error" "settle" req_id
    (path <- some_or (v_str settle_endpoint) XType ;;
     settle_resp <- post_with_retry path payload SETTLE_MAX_RETRIES ;;
     settled <- unwrap settle_resp ;;
     pret (settle_resp, settled)) ;;
  ended <- monotonic_ns ;;
  refund <- get_item settled "refund_wei" ;;
  refund_wei <- to_int refund ;;
  billed <- get_item settled "billed_value_wei" ;;
  billed_value_wei <- to_int billed ;;
  outcome <- get_item settled "outcome" ;;
  emit_event "request.settle_completed" (Some (inr req_id))
    [("latency_ms", latency_ms started ended); ("loc_status_code", VInt (rp_status settle_resp));
     ("refund_wei", VInt refund_wei); ("billed_value_wei", VInt billed_value_wei);
     ("outcome", outcome)] ;;;
  pret settled.

(** The result, from the service's settlement. *)
Definition job_result (a : JobArgs) (req_id : string) (j : OpenedJob) (resp : Response)
    (work_unit broker_job_id : string) (parsed settled : value) : Act JobResult :=
  actual <- get_item settled "actual_units" ;;
  actual_units <- to_int actual ;;
  billed <- get_item settled "billed_value_wei" ;;
  billed_value_wei <- to_int billed ;;
  refund <- get_item settled "refund_wei" ;;
  refund_wei <- to_int refund ;;
  outcome <- get_item settled "outcome" ;;
  emit_event "request.completed" (Some (inr req_id))
    [("capability", VStr (ja_capability a)); ("offering", VStr (ja_offering a));
     ("protocol", VStr "paid-job/v1"); ("transport", VStr (ja_transport a));
     ("work_unit", VStr work_unit); ("broker_job_id", VStr broker_job_id);
     ("estimated_units", VInt (ja_estimated_units a)); ("actual_units", VInt actual_units);
     ("billed_value_wei", VInt billed_value_wei); ("refund_wei", VInt refund_wei);
     ("outcome", outcome); ("broker_url", oj_broker_url j)] ;;;
  work_id <- get_item (oj_job j) "work_id" ;;
  cap <- get_item settled "cap_status" ;;
  cap_status <- cap_status_from_dict cap ;;
  pret (MkJobResult parsed (rp_status resp) (oj_job_id j) work_id broker_job_id
          (VStr "paid-job/v1") (ja_transport a) work_unit actual_units billed_value_wei refund_wei
          outcome cap_status (oj_request_id j) (rp_headers resp)).

Definition submit_job (a : JobArgs) : Act JobResult :=
  req_id <- id_or_fresh (ja_request_id a) ;;
  check (multipart_ok a) XValue ;;;
  match ja_caller_public_key a, ja_sign_caller_proof a with
  | Some caller_public_key, Some _ =>
      ensure_telemetry_started ;;;
      job <- mint_job a req_id caller_public_key ;;
      j <- read_opened_job a job ;;
      headers <- broker_job_headers a j ;;
      '(resp, (claim_resp, claim_body)) <- call_broker a j headers ;;
      '(actual_units, work_unit, broker_job_id) <- read_claim j resp claim_resp claim_body ;;
      parsed <- parse_body resp ;;
      settlement <- read_settlement resp claim_resp claim_body ;;
      settled <- settle_claim req_id (oj_settle_endpoint j)
        (settlement_payload actual_units work_unit broker_job_id settlement) ;;
      job_result a req_id j resp work_unit broker_job_id parsed settled
  | _, _ => throw XValue
  end.

(** ** Sessions *)

(** The arguments of [open_session]. *)
Record SessionArgs := MkSessionArgs {
  sa_capability : string;
  sa_offering : string;
  sa_descriptor_schema : string;
  sa_session_params : vdict;
  sa_estimated_runway_units : Z;
  sa_max_total_units : Z;
  sa_request_id : option string;
  sa_caller_public_key : option string;
  sa_sign_caller_proof : option (CallerProofSigner W);
}.

(** The preparation, and the body it commits the broker's open to. *)
Definition sdk_prepare (a : SessionArgs) (loc_request_id : string) : Act value :=
  r <- gateway_post "/v1/sessions/prepare" [("Idempotency-Key", loc_request_id ++ ":prepare")]
         [("capability", VStr (sa_capability a)); ("offering", VStr (sa_offering a));
          ("descriptor_schema", VStr (sa_descriptor_schema a))] ;;
  unwrap r.

Definition open_body (gateway_session_id : value) (params : vdict) : bytes :=
  encode_json [("gateway_session_id", gateway_session_id); ("session_params", VObj params)].

Definition session_open_request (a : SessionArgs) (loc_request_id caller_public_key : string)
    (gateway_session_id preparation_token route_binding : value) : Act Response :=
  gateway_post "/v1/sessions" [("Idempotency-Key", loc_request_id)]
    [("capability", VStr (sa_capability a)); ("offering", VStr (sa_offering a));
     ("descriptor_schema", VStr (sa_descriptor_schema a));
     ("session_params", VObj (sa_session_params a));
     ("estimated_runway_units", VInt (sa_estimated_runway_units a));
     ("max_total_units", VInt (sa_max_total_units a));
     ("gateway_session_id", gateway_session_id); ("preparation_token", preparation_token);
     ("route_binding", route_binding);
     ("workload_request_digest",
        VStr (sha256_hex (open_body gateway_session_id (sa_session_params a))));
     ("caller_public_key", VStr caller_public_key)].

(** The checks of the service's answer, and the handle. *)
Definition read_session (a : SessionArgs) (sign : CallerProofSigner W)
    (session_open_body : bytes) (data : value) : Act (SessionHandle W) :=
  protocol <- get_key data "protocol" ;;
  (if v_is protocol "paid-session/v1" then pret tt
   else refuse_answer ("LOC returned unsupported protocol " ++ sx_repr protocol)) ;;;
  axes <- session_axes_from_dict (or_else (vfind "session" (obj_or_empty data)) (VObj [])) ;;
  (if String.eqb (xa_descriptor_schema axes) (sa_descriptor_schema a) then pret tt
   else refuse_answer "LOC response descriptor_schema does not match the requested adapter") ;;;
  accounting_mode <- get_key data "accounting_mode" ;;
  (if v_is accounting_mode "wholesale_account" then pret tt
   else refuse_code ("LOC returned unsupported accounting mode " ++ sx_repr accounting_mode)
          "protocol_unsupported" None []) ;;;
  authorization <- get_key data "spend_authorization" ;;
  proof <- caller_proof authorization (Some sign) ;;
  match v_str authorization, proof with
  | Some authorization, Some proof =>
      id <- get_item data "session_id" ;;
      session_id <- to_uuid id ;;
      request_id <- get_item data "request_id" ;;
      work_id <- get_item data "work_id" ;;
      broker_url <- get_item data "broker_url" ;;
      expected <- get_item data "expected_value_wei" ;;
      expected_value_wei <- to_int expected ;;
      funded <- get_item data "funded_value_wei" ;;
      funded_value_wei <- to_int funded ;;
      refill_endpoint <- get_item data "refill_endpoint" ;;
      close_endpoint <- get_item data "close_endpoint" ;;
      pret (MkSessionHandle session_id request_id work_id broker_url "paid-session/v1"
              (sa_capability a) (sa_offering a) axes (sa_session_params a) expected_value_wei
              funded_value_wei refill_endpoint close_endpoint authorization proof
              session_open_body (sa_max_total_units a) sign)
  | _, _ => refuse_code "LOC returned an incomplete wholesale authorization"
              "broker_protocol_error" None []
  end.

Definition sdk_open_session (a : SessionArgs) : Act (SessionHandle W) :=
  match sa_caller_public_key a, sa_sign_caller_proof a with
  | Some caller_public_key, Some sign =>
      ensure_telemetry_started ;;;
      loc_request_id <- id_or_fresh (sa_request_id a) ;;
      prepared <- sdk_prepare a loc_request_id ;;
      gateway_session_id <- get_item prepared "gateway_session_id" ;;
      preparation_token <- get_item prepared "preparation_token" ;;
      route_binding <- get_item prepared "route_binding" ;;
      r <- session_open_request a loc_request_id caller_public_key gateway_session_id
             preparation_token route_binding ;;
      data <- unwrap r ;;
      handle <- read_session a sign (open_body gateway_session_id (sa_session_params a)) data ;;
      emit_event "session.opened" (Some (inl (sh_session_id handle)))
        [("capability", VStr (sa_capability a)); ("offering", VStr (sa_offering a));
         ("protocol", VStr (sh_protocol handle));
         ("descriptor_schema", VStr (xa_descriptor_schema (sh_session handle)));
         ("refill", VStr (xa_refill (sh_session handle)));
         ("max_total_units", VInt (sa_max_total_units a));
         ("initial_runway_units", VInt (sa_estimated_runway_units a))] ;;;
      pret handle
  | _, _ => throw XValue
  end.

(** [refill_session]. *)
Definition refill_body (observed_consumed_units : option Z) (max_total_units : Z)
    (workload_request_digest : string) : vdict :=
  [("observed_consumed_units", v_opt_int observed_consumed_units);
   ("max_total_units", VInt max_total_units);
   ("workload_request_digest", VStr workload_request_digest)].

Definition refill_failed (session_id : string) (x : sdk_exn) : Act unit :=
  match x with
  | XError e =>
      if bool_decide (er_status e = Some 402)
      then emit_event "session.refill_denied" (Some (inr session_id))
             [("which", vget "which" (er_details e));
              ("remaining_wei", vget "remaining_wei" (er_details e))]
      else emit_event "session.error" (Some (inr session_id)) (error_event_payload "refill" x)
  | _ => pret tt
  end.

Definition sdk_refill_session (session_id : string) (observed_consumed_units : option Z)
    (request_id : option string) (max_total_units : Z) (workload_request_digest : string)
  : Act value :=
  emit_event "session.refill_requested" (Some (inr session_id)) [] ;;;
  started <- monotonic_ns ;;
  loc_request_id <- id_or_fresh request_id ;;
  result <- ptry
    (r <- gateway_post ("/v1/sessions/" ++ session_id ++ "/refill")
            [("Idempotency-Key", loc_request_id)]
            (refill_body observed_consumed_units max_total_units workload_request_digest) ;;
     unwrap r)
    (fun x => refill_failed session_id x ;;; throw x) ;;
  ended <- monotonic_ns ;;
  refill_seq <- get_key result "refill_seq" ;;
  funded_value_wei <- get_key result "funded_value_wei" ;;
  cap_status <- get_key result "cap_status" ;;
  emit_event "session.refill_granted" (Some (inr session_id))
    [("latency_ms", latency_ms started ended); ("refill_seq", refill_seq);
     ("funded_value_wei", funded_value_wei); ("cap_status", cap_status)] ;;;
  pret result.

(** [int(result.get(k, 0))]. *)
Definition int_or_zero (result : value) (k : string) : Act Z :=
  match result with
  | VObj d => to_int (or_else (vfind k d) (VInt 0))
  | _ => throw XAttribute
  end.

Definition sdk_close_session (session_id : string) (actual_units : Z) (settlement : vdict)
    (outcome : option string) : Act value :=
  result <- reporting "session.error" "close" session_id
    (r <- gateway_post ("/v1/sessions/" ++ session_id ++ "/close") []
            ([("actual_units", VInt actual_units)]
             ++ match outcome with Some o => [("outcome", VStr o)] | None => [] end
             ++ [("settlement", VObj settlement)])%list ;;
     unwrap r) ;;
  actual <- int_or_zero result "actual_units" ;;
  billed_value_wei <- int_or_zero result "billed_value_wei" ;;
  refund_wei <- int_or_zero result "refund_wei" ;;
  final <- get_key result "outcome" ;;
  emit_event "session.closed" (Some (inr session_id))
    [("actual_units", VInt actual); ("billed_value_wei", VInt billed_value_wei);
     ("refund_wei", VInt refund_wei); ("outcome", final); ("closed_by", VStr "customer")] ;;;
  pret result.

(** ** A program that uses a client

    One call after another, each to its end, whatever it raises.  An event of the
    caller's own goes through the [telemetry] property; the task also runs while
    the program does something else. *)
Inductive SdkCall :=
  | CallEmit (event_type : string) (version : Z) (correlation : option (uuid + string))
      (payload : vdict) (client_ts : option string)
  | CallIdle
  | CallListCapabilities
  | CallListOrchestrators (capability : option string)
  | CallSubmitJob (a : JobArgs)
  | CallOpenSession (a : SessionArgs)
  | CallRefillSession (session_id : string) (observed : option Z) (request_id : option string)
      (max_total_units : Z) (digest : string)
  | CallCloseSession (session_id : string) (actual_units : Z) (settlement : vdict)
      (outcome : option string)
  | CallSessionStatus (session_id : string)
  | CallJobStatus (job_id : string)
  | CallAclose.

Definition ignore {A} (m : Act A) : Act unit := suppress (_ <- m ;; pret tt).

Definition run_call (c : SdkCall) : Act unit :=
  match c with
  | CallEmit t v c p ts => emit_full t v c p ts
  | CallIdle => pause
  | CallListCapabilities => ignore sdk_list_capabilities
  | CallListOrchestrators c => ignore (sdk_list_orchestrators c)
  | CallSubmitJob a => ignore (submit_job a)
  | CallOpenSession a => ignore (sdk_open_session a)
  | CallRefillSession s o r m d => ignore (sdk_refill_session s o r m d)
  | CallCloseSession s u v o => ignore (sdk_close_session s u v o)
  | CallSessionStatus s => ignore (sdk_get_session_status s)
  | CallJobStatus j => ignore (sdk_get_job_status j)
  | CallAclose => aclose
  end.

Fixpoint run_calls (l : list SdkCall) : Act unit :=
  match l with [] => pret tt | c :: l' => run_call c ;;; run_calls l' end.

(** A client as it is constructed. *)
Definition fresh_client (w : W) : ClientState W := MkClientState w new_emitter false.

End client.
Arguments JobArgs W : clear implicits.
Arguments SessionArgs W : clear implicits.
Arguments SdkCall W : clear implicits.
