(* ===== verification/SdkRunner.v ===== *)
(** * The Python SDK: the session runner

    [session_runner.py]: the driver of one paid session with its broker, and its
    automatic refills.  A method runs alone from its call to its return, and so
    does the listener between two messages of the events socket; callbacks do
    not call the runner back. *)

From S2P Require Import Prelude PyData Codecs Errors Effects Payments RateLimiter SdkBase SdkTelemetry SdkClient.
From Stdlib Require Import Strings.Byte Strings.Ascii Floats.SpecFloat.

Open Scope string_scope.
Open Scope Z_scope.
Open Scope loc_scope.
Open Scope sdk_scope.

(** ** Python's [==] on values *)

Definition int_eq_float (z : Z) (f : spec_float) : bool :=
  match f with
  | S754_zero _ => z =? 0
  | S754_finite s m e =>
      let m := if s then - Zpos m else Zpos m in
      if 0 <=? e then z =? m * 2 ^ e else z * 2 ^ (- e) =? m
  | _ => false
  end.

Fixpoint v_eqb (a b : value) {struct a} : bool :=
  match a, b with
  | VNull, VNull => true
  | VBool x, VBool y => Bool.eqb x y
  | VBool x, VInt z | VInt z, VBool x => (if x then 1 else 0) =? z
  | VBool x, VFloat f | VFloat f, VBool x => int_eq_float (if x then 1 else 0) f
  | VInt x, VInt y => x =? y
  | VInt z, VFloat f | VFloat f, VInt z => int_eq_float z f
  | VFloat f, VFloat g => SFeqb f g
  | VStr x, VStr y => String.eqb x y
  | VArr l, VArr k =>
      (fix arr (l k : list value) : bool :=
         match l, k with
         | [], [] => true
         | x :: l', y :: k' => v_eqb x y && arr l' k'
         | _, _ => false
         end) l k
  | VObj d, VObj e =>
      Nat.eqb (length d) (length e) &&
      (fix obj (d : vdict) : bool :=
         match d with
         | [] => true
         | (k, x) :: d' =>
             match vfind k e with Some y => v_eqb x y | None => false end && obj d'
         end) d
  | _, _ => false
  end.

(** ** Data *)

Record SessionBalance := MkSessionBalance {
  sb_status : string;
  sb_claimed_units : Z;
  sb_debited_units : Z;
  sb_unit : string;
  sb_runway_units : Z;
  sb_runway_seconds_estimate : option Z;
  sb_will_refuse_next_refill : bool;
}.

Record BrokerControl := MkBrokerControl {
  bc_status_url : string;
  bc_topup_url : string;
  bc_end_url : string;
  bc_events_ws : option string;
}.

(** [BrokerSession]; a grant is kept as it was received. *)
Record BrokerSession := MkBrokerSession {
  br_session_id : string;
  br_work_id : string;
  br_state : string;
  br_runtime_schema : string;
  br_runtime_public : vdict;
  br_grants : list value;
  br_credential : string;
  br_lease_expires_at : string;
  br_balance : SessionBalance;
  br_control : BrokerControl;
}.

Record RefillEvent := MkRefillEvent {
  re_refill_seq : value;
  re_expected_value_wei : value;
  re_funded_value_wei : value;
  re_cap_status : value;
  re_error : option SdkError;
}.

Record WinddownEvent := MkWinddownEvent { we_reason : string; we_projected_end_at : option string }.

(** Reading the broker's answers, in any state. *)
Section answers.
Context {S : Type} {T : SdkText}.

Definition broken {A} (message : string) : Act S A :=
  throw (XError (protocol_error message None None [])).

(** [_required_string] and [_optional_string]. *)
Definition required_string (v : value) (key : string) : Act S string :=
  result <- get_key v key ;;
  match result with
  | VStr s => if str_truthy s then pret s else broken ("broker response missing " ++ key)
  | _ => broken ("broker response missing " ++ key)
  end.
Definition optional_string (v : value) (key : string) : Act S (option string) :=
  result <- get_key v key ;;
  match result with
  | VNull => pret None
  | VStr s => if str_truthy s then pret (Some s)
              else broken ("broker response has invalid " ++ key)
  | _ => broken ("broker response has invalid " ++ key)
  end.

(** [except (KeyError, TypeError, ValueError) as exc: raise BrokerProtocolError]. *)
Definition reading {A} (message : string) (m : Act S A) : Act S A :=
  ptry m (fun x => if is_malformed x then broken message else throw x).

(** [SessionBalance.from_dict]. *)
Definition balance_from_dict (v : value) : Act S SessionBalance :=
  status <- get_key v "status" ;;
  match status with
  | VArr _ | VObj _ => throw XType
  | VStr s =>
      if existsb (String.eqb s) ["ok"; "low"; "exhausted"] then
        reading "broker returned a malformed balance object"
          (claimed <- get_item v "claimed_units" ;;
           claimed_units <- to_int claimed ;;
           debited <- get_item v "debited_units" ;;
           debited_units <- to_int debited ;;
           unit <- get_item v "unit" ;;
           runway <- get_item v "runway_units" ;;
           runway_units <- to_int runway ;;
           estimate <- get_key v "runway_seconds_estimate" ;;
           runway_seconds <- (if is_null estimate then pret None
                              else z <- to_int estimate ;; pret (Some z)) ;;
           will_refuse <- get_item v "will_refuse_next_refill" ;;
           pret (MkSessionBalance s claimed_units debited_units (to_str unit) runway_units
                   runway_seconds (truthy will_refuse)))
      else broken ("invalid session balance status " ++ sx_repr status)
  | _ => broken ("invalid session balance status " ++ sx_repr status)
  end.

(** Whether [dict(v)] succeeds: a dictionary, or a sequence of pairs with
    hashable keys. *)
Fixpoint str_chars (s : string) : nat :=
  match s with
  | EmptyString => 0
  | String a s' => (if (N.land (N_of_ascii a) 192 =? 128)%N then 0 else 1) + str_chars s'
  end.
Definition is_pair (v : value) : bool :=
  match v with
  | VArr [k; _] => match k with VArr _ | VObj _ => false | _ => true end
  | VStr s => (str_chars s =? 2)%nat
  | VObj [_; _] => true
  | _ => false
  end.
Definition dict_like (v : value) : bool :=
  match v with
  | VObj _ => true
  | VArr l => forallb is_pair l
  | VStr s => negb (str_truthy s)
  | _ => false
  end.

(** [SessionRunner._parse_open]. *)
Definition parse_control (control : value) : Act S BrokerControl :=
  status_url <- required_string control "status_url" ;;
  topup_url <- required_string control "topup_url" ;;
  end_url <- required_string control "end_url" ;;
  events_ws <- optional_string control "events_ws" ;;
  pret (MkBrokerControl status_url topup_url end_url events_ws).

Definition parse_open (descriptor_schema : string) (expected_work_id : value) (data : value)
  : Act S BrokerSession :=
  match data with
  | VObj _ =>
      reading "broker returned a malformed session-open response"
        (runtime <- get_item data "runtime" ;;
         control <- get_item data "control" ;;
         lease <- get_item data "lease" ;;
         schema <- get_item runtime "schema" ;;
         (if v_is schema descriptor_schema then pret tt
          else broken ("broker returned descriptor " ++ sx_repr schema ++ "; expected "
                       ++ sx_repr (VStr descriptor_schema))) ;;;
         id <- get_item data "work_id" ;;
         (if v_eqb id expected_work_id then pret tt
          else broken "broker session work_id does not match the payment") ;;;
         public <- get_item runtime "public" ;;
         match public, or_else (vfind "grants" (obj_or_empty runtime)) (VArr []) with
         | VObj public, VArr grants =>
             parsed_control <- parse_control control ;;
             session_id <- required_string data "session_id" ;;
             work_id <- required_string data "work_id" ;;
             state <- required_string data "state" ;;
             check (forallb dict_like grants) XType ;;;
             credential <- required_string data "credential" ;;
             lease_expires_at <- required_string lease "expires_at" ;;
             balance <- get_item data "balance" ;;
             parsed_balance <- balance_from_dict balance ;;
             pret (MkBrokerSession session_id work_id state descriptor_schema public grants
                     credential lease_expires_at parsed_balance parsed_control)
         | _, _ => throw XType
         end)
  | _ => broken "broker session-open response must be an object"
  end.

End answers.

(** ** The runner *)

(** [_listener_task]: not created, running, done. *)
Inductive Listener := NoListener | Listening | ListenerDone.

Section runner.
Context {W : Type} {T : SdkText} {V : SdkWorld W}.

(** A callback: the class of what it raises, if it does. *)
Definition Callback (E : Type) : Type := E -> W -> option string * W.

Record RunnerConfig := MkRunnerConfig {
  rc_on_refill_succeeded : option (Callback RefillEvent);
  rc_on_refill_refused : option (Callback RefillEvent);
  rc_on_winddown_warning : option (Callback WinddownEvent);
  rc_approve_cap_extension : option (SessionBalance -> W -> (option Z + string) * W);
  rc_auto_close_on_disconnect : bool;
}.

Record RunnerState := MkRunnerState {
  rn_client : ClientState W;
  rn_handle : SessionHandle W;
  rn_broker_session : option BrokerSession;
  rn_ws : bool;
  rn_listener_task : Listener;
  rn_closed_event : bool;
  rn_final_settle : option value;
  rn_pending_refill_key : option string;
  rn_pending_refill : option value;
  rn_pending_refill_proof : option string;
  rn_pending_refill_max_total_units : option Z;
  rn_closing : bool;
}.
Local Abbreviation Act := (Act RunnerState).

(** [SessionRunner.__init__]. *)
Definition new_runner (client : ClientState W) (handle : SessionHandle W) : RunnerState :=
  MkRunnerState client handle None false NoListener false None None None None None false.

Definition set_client (c : ClientState W) (s : RunnerState) : RunnerState :=
  MkRunnerState c (rn_handle s) (rn_broker_session s) (rn_ws s) (rn_listener_task s)
    (rn_closed_event s) (rn_final_settle s) (rn_pending_refill_key s) (rn_pending_refill s)
    (rn_pending_refill_proof s) (rn_pending_refill_max_total_units s) (rn_closing s).
Definition set_handle (h : SessionHandle W) (s : RunnerState) : RunnerState :=
  MkRunnerState (rn_client s) h (rn_broker_session s) (rn_ws s) (rn_listener_task s)
    (rn_closed_event s) (rn_final_settle s) (rn_pending_refill_key s) (rn_pending_refill s)
    (rn_pending_refill_proof s) (rn_pending_refill_max_total_units s) (rn_closing s).
Definition set_broker_session (b : BrokerSession) (s : RunnerState) : RunnerState :=
  MkRunnerState (rn_client s) (rn_handle s) (Some b) (rn_ws s) (rn_listener_task s)
    (rn_closed_event s) (rn_final_settle s) (rn_pending_refill_key s) (rn_pending_refill s)
    (rn_pending_refill_proof s) (rn_pending_refill_max_total_units s) (rn_closing s).
Definition set_listening (ws : bool) (l : Listener) (s : RunnerState) : RunnerState :=
  MkRunnerState (rn_client s) (rn_handle s) (rn_broker_session s) ws l
    (rn_closed_event s) (rn_final_settle s) (rn_pending_refill_key s) (rn_pending_refill s)
    (rn_pending_refill_proof s) (rn_pending_refill_max_total_units s) (rn_closing s).
Definition set_final_settle (v : value) (s : RunnerState) : RunnerState :=
  MkRunnerState (rn_client s) (rn_handle s) (rn_broker_session s) (rn_ws s) (rn_listener_task s)
    true (Some v) (rn_pending_refill_key s) (rn_pending_refill s)
    (rn_pending_refill_proof s) (rn_pending_refill_max_total_units s) (rn_closing s).
Definition set_pending (key : option string) (refill : option value) (proof : option string)
    (max : option Z) (s : RunnerState) : RunnerState :=
  MkRunnerState (rn_client s) (rn_handle s) (rn_broker_session s) (rn_ws s) (rn_listener_task s)
    (rn_closed_event s) (rn_final_settle s) key refill proof max (rn_closing s).
Definition set_closing (s : RunnerState) : RunnerState :=
  MkRunnerState (rn_client s) (rn_handle s) (rn_broker_session s) (rn_ws s) (rn_listener_task s)
    (rn_closed_event s) (rn_final_settle s) (rn_pending_refill_key s) (rn_pending_refill s)
    (rn_pending_refill_proof s) (rn_pending_refill_max_total_units s) true.

(** The methods of the client, and what the client's world does. *)
Definition with_client {A} (m : SdkBase.Act (ClientState W) A) : Act A :=
  zoom rn_client set_client m.
Definition of_world {A} (f : W -> A * W) : Act A := with_client (at_world f).

(** [outcome], [billed_value_wei] and [refund_wei]. *)
Definition settled_field (k : string) (s : RunnerState) : value :=
  match rn_final_settle s with Some (VObj d) => vget k d | _ => VNull end.

(** [_fire_*]: a missing callback is skipped, the exception of one surfaces. *)
Definition fire {E} (callback : option (Callback E)) (e : E) : Act unit :=
  match callback with
  | None => pret tt
  | Some f => r <- of_world (f e) ;; match r with None => pret tt | Some x => throw (XOther x) end
  end.

(** A header or an address of the handle; httpx takes strings only. *)
Definition header_text (v : value) : Act string := some_or (v_str v) XType.

Definition bearer (session : BrokerSession) : string * string :=
  ("Authorization", "Bearer " ++ br_credential session).

(** [start]. *)
Definition session_body (h : SessionHandle W) : bytes :=
  match sh_session_open_body h with
  | [] => encode_json [("gateway_session_id", VStr (str_uuid (sh_session_id h)));
                       ("session_params", VObj (sh_session_params h))]
  | body => body
  end.

Definition open_at_broker (h : SessionHandle W) : Act Response :=
  base <- some_or (v_str (sh_broker_url h)) XAttribute ;;
  request_id <- header_text (sh_request_id h) ;;
  with_client (send (MkRequest Broker "POST" (str_rstrip_slash base ++ "/v1/session")
    [("Livepeer-Protocol", sh_protocol h); ("Livepeer-Capability", sh_capability h);
     ("Livepeer-Offering", sh_offering h); ("Livepeer-Request-Id", request_id);
     ("Content-Type", "application/json");
     ("Livepeer-Authorization", sh_spend_authorization h);
     ("Livepeer-Caller-Proof", sh_caller_proof h)] [] (Content (session_body h)))).

Definition attach_events (session : BrokerSession) : Act unit :=
  match bc_events_ws (br_control session) with
  | None => pret tt
  | Some ws =>
      with_client pause ;;;
      failed <- of_world (sw_connect ws [bearer session]) ;;
      match failed with
      | Some name => throw (XOther name)
      | None => pmodify (set_listening true Listening)
      end
  end.

Definition start : Act BrokerSession :=
  s <- pget ;;
  match rn_broker_session s with
  | Some session => pret session
  | None =>
      response <- open_at_broker (rn_handle s) ;;
      raise_for_status response ;;;
      data <- response_json response ;;
      session <- parse_open (xa_descriptor_schema (sh_session (rn_handle s)))
                   (sh_work_id (rn_handle s)) data ;;
      pmodify (set_broker_session session) ;;;
      attach_events session ;;;
      pret session
  end.

(** [status]. *)
Definition status : Act value :=
  session <- start ;;
  response <- with_client (send (MkRequest Broker "GET" (bc_status_url (br_control session))
                                  [bearer session] [] NoBody)) ;;
  raise_for_status response ;;;
  data <- response_json response ;;
  match data with
  | VObj _ => pret data
  | _ => broken "broker session status must be an object"
  end.

(** ** Refills *)

(** [_post_topup]. *)
Definition post_topup (session : BrokerSession) (refill : value) : Act Response :=
  request_id <- get_item refill "request_id" ;;
  accounting_mode <- get_key refill "accounting_mode" ;;
  (if v_is accounting_mode "wholesale_account" then pret tt
   else broken "LOC returned a non-wholesale refill") ;;;
  authorization <- get_key refill "spend_authorization" ;;
  match authorization with
  | VStr text =>
      s <- pget ;;
      proof <- with_client (caller_proof authorization (Some (sh_sign_caller_proof (rn_handle s)))) ;;
      match proof with
      | None => broken "wholesale refill is missing caller proof"
      | Some proof =>
          pmodify (fun s => set_pending (rn_pending_refill_key s) (rn_pending_refill s)
                              (Some proof) (rn_pending_refill_max_total_units s) s) ;;;
          with_client (send (MkRequest Broker "POST" (bc_topup_url (br_control session))
            [bearer session; ("Livepeer-Request-Id", to_str request_id);
             ("Livepeer-Authorization", text); ("Livepeer-Caller-Proof", proof)] []
            (Content (String.list_byte_of_string "{}"))))
      end
  | _ => broken "wholesale refill is missing spend_authorization"
  end.

(** The key of the refill in progress, chosen once. *)
Definition pending_key : Act string :=
  s <- pget ;;
  match rn_pending_refill_key s with
  | Some key => pret key
  | None =>
      key <- with_client fresh_id ;;
      pmodify (fun s => set_pending (Some key) (rn_pending_refill s) (rn_pending_refill_proof s)
                          (rn_pending_refill_max_total_units s) s) ;;;
      pret key
  end.

(** The service's refill, requested unless one is pending; [None] when it was
    refused. *)
Definition grant_refill (c : RunnerConfig) (observed_units max_total_units : Z)
  : Act (option value) :=
  key <- pending_key ;;
  s <- pget ;;
  match rn_pending_refill s with
  | Some refill => pret (Some refill)
  | None =>
      ptry
        (refill <- with_client (sdk_refill_session (str_uuid (sh_session_id (rn_handle s)))
             (Some observed_units) (Some key) max_total_units
             (sha256_hex (String.list_byte_of_string "{}"))) ;;
         pmodify (fun s => set_pending (rn_pending_refill_key s) (Some refill)
                             (rn_pending_refill_proof s) (Some max_total_units) s) ;;;
         pret (Some refill))
        (fun x => match x with
                  | XError e =>
                      fire (rc_on_refill_refused c) (MkRefillEvent VNull VNull VNull VNull (Some e)) ;;;
                      pret None
                  | _ => throw x
                  end)
  end.

(** [replace(self._handle, ...)]. *)
Definition refilled_handle (authorization proof : string) (max_total_units : Z)
    (h : SessionHandle W) : SessionHandle W :=
  MkSessionHandle (sh_session_id h) (sh_request_id h) (sh_work_id h) (sh_broker_url h)
    (sh_protocol h) (sh_capability h) (sh_offering h) (sh_session h) (sh_session_params h)
    (sh_expected_value_wei h) (sh_funded_value_wei h) (sh_refill_endpoint h) (sh_close_endpoint h)
    authorization proof (sh_session_open_body h) max_total_units (sh_sign_caller_proof h).

Definition refill_done : Act unit := pmodify (set_pending None None None None).

Definition winddown (c : RunnerConfig) (reason : string) : Act unit :=
  fire (rc_on_winddown_warning c) (MkWinddownEvent reason None).

(** [_refill], once the grant is there: the top-up, and the handle it extends. *)
Definition finish_refill (c : RunnerConfig) (session : BrokerSession) (refill : value)
    (max_total_units : Z) : Act unit :=
  response <- post_topup session refill ;;
  raise_for_status response ;;;
  broker_result <- response_json response ;;
  authorization <- get_key refill "spend_authorization" ;;
  s <- pget ;;
  match authorization, rn_pending_refill_proof s with
  | VStr authorization, Some proof =>
      pmodify (fun s => set_handle
        (refilled_handle authorization proof max_total_units (rn_handle s)) s) ;;;
      (match vget "balance" (obj_or_empty broker_result) with
       | VObj balance =>
           broker_balance <- balance_from_dict (VObj balance) ;;
           if sb_will_refuse_next_refill broker_balance
           then winddown c "broker_will_refuse_next_refill" else pret tt
       | _ => pret tt
       end) ;;;
      refill_seq <- get_key refill "refill_seq" ;;
      expected_value_wei <- get_key refill "expected_value_wei" ;;
      funded_value_wei <- get_key refill "funded_value_wei" ;;
      cap_status <- get_key refill "cap_status" ;;
      fire (rc_on_refill_succeeded c)
        (MkRefillEvent refill_seq expected_value_wei funded_value_wei cap_status None) ;;;
      refill_done
  | _, _ => broken "wholesale refill is missing authorization credentials"
  end.

(** [_refill]. *)
Definition refill (c : RunnerConfig) (observed_units max_total_units : Z) : Act unit :=
  session <- start ;;
  granted <- grant_refill c observed_units max_total_units ;;
  match granted with
  | None => pret tt
  | Some refill => finish_refill c session refill max_total_units
  end.

(** [on_balance], of a parsed balance. *)
Definition on_session_balance (c : RunnerConfig) (parsed : SessionBalance) : Act unit :=
  s <- pget ;;
  let handle := rn_handle s in
  let authorization_remaining := Z.max (sh_max_total_units handle - sb_claimed_units parsed) 0 in
  if sb_will_refuse_next_refill parsed then winddown c "broker_will_refuse_next_refill"
  else if negb (String.eqb (sb_status parsed) "low") then pret tt
  else if String.eqb (xa_refill (sh_session handle)) "bounded"
  then winddown c "bounded_runway_exhausting"
  else if sb_runway_units parsed <? authorization_remaining then pret tt
  else
    match rn_pending_refill s with
    | Some _ =>
        match rn_pending_refill_max_total_units s with
        | None => broken "wholesale refill lost its cumulative cap"
        | Some max => refill c (sb_claimed_units parsed) max
        end
    | None =>
        match rc_approve_cap_extension c with
        | None => winddown c "wholesale_cap_extension_required"
        | Some approve =>
            answer <- of_world (approve parsed) ;;
            match answer with
            | inr name => throw (XOther name)
            | inl None => winddown c "wholesale_cap_extension_declined"
            | inl (Some new_max) =>
                if new_max <=? sh_max_total_units handle
                then broken "wholesale cap extension must increase max_total_units"
                else refill c (sb_claimed_units parsed) new_max
            end
        end
    end.

(** [on_balance], of a dictionary. *)
Definition on_session_balance_dict (c : RunnerConfig) (balance : vdict) : Act unit :=
  parsed <- balance_from_dict (VObj balance) ;; on_session_balance c parsed.

(** ** Closing *)

(** The settlement of the broker's answer to an end request. *)
Definition end_settlement (response : Response) : Act vdict :=
  match response_header response "livepeer-settlement" with
  | Some encoded =>
      if str_truthy encoded then
        match b64_json encoded with
        | Some (VObj settlement) => pret settlement
        | _ => throw (XError (protocol_error
                 "broker end response has malformed Livepeer-Settlement"
                 (Some "broker_protocol_error") (Some (rp_status response)) []))
        end
      else throw (XError (protocol_error "broker end response missing Livepeer-Settlement"
             (Some "broker_protocol_error") (Some (rp_status response))
             [("missing_headers", VArr [VStr "Livepeer-Settlement"])]))
  | None => throw (XError (protocol_error "broker end response missing Livepeer-Settlement"
             (Some "broker_protocol_error") (Some (rp_status response))
             [("missing_headers", VArr [VStr "Livepeer-Settlement"])]))
  end.

(** Closing the socket and cancelling the listener; their failures are
    suppressed. *)
Definition stop_listening : Act unit :=
  s <- pget ;;
  (if rn_ws s then with_client pause else pret tt) ;;;
  pmodify (fun s => set_listening (rn_ws s)
    (match rn_listener_task s with Listening => ListenerDone | l => l end) s).

Definition close (actual_units : Z) (outcome : option string) : Act value :=
  s <- pget ;;
  match rn_final_settle s with
  | Some settled => pret settled
  | None =>
      pmodify set_closing ;;;
      session <- start ;;
      response <- with_client (send (MkRequest Broker "POST" (bc_end_url (br_control session))
        [bearer session] [] (JsonBody (VObj [("reason", VStr "gateway_close")])))) ;;
      raise_for_status response ;;;
      settlement <- end_settlement response ;;
      stop_listening ;;;
      final <- with_client (sdk_close_session (str_uuid (sh_session_id (rn_handle s))) actual_units
                              settlement outcome) ;;
      pmodify (set_final_settle final) ;;;
      pret final
  end.

(** [__aexit__]. *)
Definition leave : Act unit :=
  s <- pget ;;
  if rn_closed_event s then pret tt else _ <- close 0 None ;; pret tt.

(** ** The events socket *)

(** A frame: text or bytes. *)
Definition handle_ws_message (c : RunnerConfig) (message : string + bytes) : Act unit :=
  match message with
  | inr _ => pret tt
  | inl text =>
      match sx_json_loads (String.list_byte_of_string text) with
      | Some (VObj payload) =>
          if v_is (vget "type" payload) "session.balance" then
            match vget "body" payload with
            | VObj balance => on_session_balance_dict c balance
            | _ => pret tt
            end
          else pret tt
      | _ => pret tt
      end
  end.

(** The end of [_listen_ws], whatever ends it. *)
Definition listener_ends (c : RunnerConfig) : Act unit :=
  s <- pget ;;
  (if rc_auto_close_on_disconnect c && negb (rn_closing s)
   then suppress (_ <- close 0 None ;; pret tt) else pret tt) ;;;
  pmodify (fun s => set_listening (rn_ws s) ListenerDone s).

(** What the socket brings: a message, or its end ([None]).  The listener dies
    of an exception, which its task keeps. *)
Definition socket_event (c : RunnerConfig) (message : option (string + bytes)) : Act unit :=
  s <- pget ;;
  match rn_listener_task s, message with
  | Listening, Some m => ptry (handle_ws_message c m) (fun _ => listener_ends c)
  | Listening, None => listener_ends c
  | _, _ => pret tt
  end.

(** ** A program that uses a runner *)
Inductive RunnerOp :=
  | OpStart
  | OpStatus
  | OpBalance (parsed : SessionBalance)
  | OpBalanceDict (balance : vdict)
  | OpSocket (message : option (string + bytes))
  | OpClose (actual_units : Z) (outcome : option string)
  | OpLeave.

Definition run_op (c : RunnerConfig) (op : RunnerOp) : Act unit :=
  match op with
  | OpStart => _ <- start ;; pret tt
  | OpStatus => _ <- status ;; pret tt
  | OpBalance b => on_session_balance c b
  | OpBalanceDict d => on_session_balance_dict c d
  | OpSocket m => socket_event c m
  | OpClose u o => _ <- close u o ;; pret tt
  | OpLeave => leave
  end.

(** One after the other, whatever each raises. *)
Fixpoint run_ops (c : RunnerConfig) (l : list RunnerOp) : Act unit :=
  match l with [] => pret tt | op :: l' => suppress (run_op c op) ;;; run_ops c l' end.

End runner.
Arguments RunnerState W : clear implicits.
Arguments RunnerConfig W : clear implicits.
