(* ===== verification/SdkFacts.v ===== *)
(** * The Python SDK: how its state may evolve

    The reasoning the theorems on the SDK share: what every outcome of a
    computation ensures ([Ensures]); the labelled steps of the telemetry emitter
    and their traces; a world that logs what is sent; for each method of the
    client, the requests it may send and that it leaves the emitter to its
    steps; and a scripted world with the documents of one job and one session to
    evaluate the SDK on. *)

From S2P Require Import Prelude PyData Codecs Errors Effects Payments SdkBase SdkTelemetry.
From S2P Require Import SdkClient SdkRunner.
From Stdlib Require Import Strings.Byte Strings.Ascii Floats.SpecFloat.

Open Scope string_scope.
Open Scope Z_scope.
Open Scope loc_scope.
Open Scope sdk_scope.

Create HintDb sdk.

(** ** What a computation ensures

    [Ensures R Q m]: running [m] leads, by value or exception, from any state to
    one related to it by [R], and a value it returns satisfies [Q]. *)

Definition Ensures {S A} (R : S -> S -> Prop) (Q : A -> Prop) (m : Act S A) : Prop :=
  forall s, R s (snd (m s)) /\ match fst (m s) with Returned a => Q a | Raised _ => True end.

(** Nothing is said of the value. *)
Definition any {A} (_ : A) : Prop := True.

Section ensures.
Context {S : Type} (R : S -> S -> Prop) {HR : PreOrder R}.

Lemma ensures_weaken {A} (Q Q' : A -> Prop) (m : Act S A) :
  Ensures R Q m -> (forall a, Q a -> Q' a) -> Ensures R Q' m.
Proof. intros Hm HQ s. destruct (Hm s) as [Hr Hq]. split; [done|]. destruct (fst (m s)); auto. Qed.

Lemma ensures_any {A} (Q : A -> Prop) (m : Act S A) : Ensures R Q m -> Ensures R any m.
Proof. intros Hm. by apply (ensures_weaken Q). Qed.

Lemma ensures_ret {A} (Q : A -> Prop) (a : A) : Q a -> Ensures R Q (pret a).
Proof. intros Hq s. by split; [reflexivity|]. Qed.

Lemma ensures_throw {A} (Q : A -> Prop) x : Ensures R Q (throw (A := A) x).
Proof. intros s. by split; [reflexivity|]. Qed.

Lemma ensures_get (Q : S -> Prop) : (forall s, Q s) -> Ensures R Q pget.
Proof. intros Hq s. split; [reflexivity|apply Hq]. Qed.

Lemma ensures_modify f : (forall s, R s (f s)) -> Ensures R any (pmodify f).
Proof. intros Hf s. by split; [apply Hf|]. Qed.

Lemma ensures_bind {A B} (Q : A -> Prop) (Q' : B -> Prop) (m : Act S A) (f : A -> Act S B) :
  Ensures R Q m -> (forall a, Q a -> Ensures R Q' (f a)) -> Ensures R Q' (pbind m f).
Proof.
  intros Hm Hf s. specialize (Hm s) as [Hr Hq]. unfold pbind.
  destruct (m s) as [[a|x] s1]; cbn in *; [|done]. destruct (Hf a Hq s1) as [Hr' Hq'].
  split; [by etrans|done].
Qed.

Lemma ensures_then {A B} (Q' : B -> Prop) (m : Act S A) (f : A -> Act S B) :
  Ensures R any m -> (forall a, Ensures R Q' (f a)) -> Ensures R Q' (pbind m f).
Proof. intros Hm Hf. by apply (ensures_bind any). Qed.

(** A last part that leads further than the first: [R'] absorbs [R]. *)
Lemma ensures_last {A B} (R' : S -> S -> Prop) (Q' : B -> Prop) (m : Act S A) (f : A -> Act S B) :
  (forall s s', R s s' -> R' s s') -> (forall s1 s2 s3, R s1 s2 -> R' s2 s3 -> R' s1 s3) ->
  Ensures R any m -> (forall a, Ensures R' Q' (f a)) -> Ensures R' Q' (pbind m f).
Proof using.
  intros H1 H2 Hm Hf s. specialize (Hm s) as [Hr _]. unfold pbind.
  destruct (m s) as [[a|x] s1]; cbn in *; [|by split; [apply H1|]].
  destruct (Hf a s1) as [Hr' Hq']. split; [by eapply H2|done].
Qed.

(** The state at the start is known where it is read. *)
Lemma ensures_read {B} (Q' : B -> Prop) (f : S -> Act S B) :
  (forall s, R s (snd (f s s)) /\ match fst (f s s) with Returned a => Q' a | Raised _ => True end) ->
  Ensures R Q' (pbind pget f).
Proof. intros Hf s. apply Hf. Qed.

Lemma ensures_try {A} (Q : A -> Prop) (m : Act S A) h :
  Ensures R Q m -> (forall x, Ensures R Q (h x)) -> Ensures R Q (ptry m h).
Proof.
  intros Hm Hh s. specialize (Hm s) as [Hr Hq]. unfold ptry.
  destruct (m s) as [[a|x] s1]; cbn in *; [done|]. destruct (Hh x s1) as [Hr' Hq'].
  split; [by etrans|done].
Qed.

Lemma ensures_some_or {A} (Q : A -> Prop) (o : option A) x :
  (forall a, o = Some a -> Q a) -> Ensures R Q (some_or o x).
Proof. intros Hq. destruct o; [by apply ensures_ret, Hq|apply ensures_throw]. Qed.

Lemma ensures_check b x : Ensures R (fun _ => b = true) (check b x).
Proof. destruct b; [by apply ensures_ret|apply ensures_throw]. Qed.

Lemma ensures_suppress (m : Act S unit) : Ensures R any m -> Ensures R any (suppress m).
Proof. intros Hm. apply ensures_try; [done|]. intros x. by apply ensures_ret. Qed.

End ensures.

Lemma ensures_rel {S A} (R R' : S -> S -> Prop) (Q : A -> Prop) (m : Act S A) :
  (forall s s', R s s' -> R' s s') -> Ensures R Q m -> Ensures R' Q m.
Proof. intros HR Hm s. destruct (Hm s). auto. Qed.

(** Follow the structure of a computation, leaving its effects. *)
Ltac ensures_step :=
  lazymatch goal with
  | |- any _ => exact I
  | |- Ensures _ _ (pbind _ _) => eapply ensures_then; [typeclasses eauto| | intros ?]
  | |- Ensures _ _ (ptry _ _) => apply ensures_try; [typeclasses eauto| | intros ?]
  | |- Ensures _ _ (pret _) => apply ensures_ret; [typeclasses eauto|]
  | |- Ensures _ _ (throw _) => apply ensures_throw; typeclasses eauto
  | |- Ensures _ _ (some_or _ _) => apply ensures_some_or; [typeclasses eauto|intros ? ?]
  | |- Ensures _ _ (check _ _) => eapply ensures_any; apply ensures_check; typeclasses eauto
  | |- Ensures _ _ (suppress _) => apply ensures_suppress; [typeclasses eauto|]
  | |- Ensures _ _ (if ?b then _ else _) => destruct b eqn:?
  | |- Ensures _ _ (match ?x with _ => _ end) => destruct x eqn:?
  | |- Ensures _ _ (let '(_, _) := ?x in _) => destruct x eqn:?
  end.

(** Readers touch no state. *)
#[export] Hint Extern 0 (PreOrder _) => typeclasses eauto : sdk.

Section readers.
Context {S : Type} {T : SdkText} (R : S -> S -> Prop) {HR : PreOrder R}.
Local Abbreviation reads m := (Ensures R any m).
Local Ltac reader := repeat ensures_step.

Lemma ensures_pget : reads (pget (S := S)).
Proof. by apply ensures_get. Qed.
Lemma ensures_unwrap r : reads (unwrap r).
Proof. unfold unwrap, response_json. reader. Qed.
Lemma ensures_response_json r : reads (response_json r).
Proof. unfold response_json. reader. Qed.
Lemma ensures_status r : reads (raise_for_status r).
Proof. unfold raise_for_status. reader. Qed.
Lemma ensures_get_key v k : reads (get_key v k).
Proof. unfold get_key. reader. Qed.
Lemma ensures_get_item v k : reads (get_item v k).
Proof. unfold get_item. reader. Qed.
Lemma ensures_to_int v : reads (to_int v).
Proof. unfold to_int. reader. Qed.
Lemma ensures_to_float v : reads (to_float v).
Proof. unfold to_float, float_of_int. reader. Qed.
Lemma ensures_to_uuid v : reads (to_uuid v).
Proof. unfold to_uuid. reader. Qed.

Lemma ensures_required v k : reads (required_string v k).
Proof. unfold required_string, get_key, broken. reader. Qed.
Lemma ensures_optional v k : reads (optional_string v k).
Proof. unfold optional_string, get_key, broken. reader. Qed.
Lemma ensures_balance v : reads (balance_from_dict v).
Proof. unfold balance_from_dict, reading, get_key, get_item, to_int, broken. reader. Qed.
Lemma ensures_control v : reads (parse_control v).
Proof. unfold parse_control, required_string, optional_string, get_key, broken. reader. Qed.
Lemma ensures_parse_open d w v : reads (parse_open d w v).
Proof.
  unfold parse_open, reading, get_key, get_item, broken.
  repeat first [ensures_step | apply ensures_required | apply ensures_control | apply ensures_balance].
Qed.

End readers.

#[export] Hint Resolve ensures_pget ensures_unwrap ensures_response_json ensures_status
  ensures_get_key ensures_get_item ensures_to_int ensures_to_float ensures_to_uuid ensures_required
  ensures_optional ensures_balance ensures_control ensures_parse_open : sdk.

(** ** Steps of the emitter *)

Inductive Effect := Appends (ev : Event) | Drains (batch : list Event) | Quiet.

Definition em_config (e : TelemetryEmitter) : string * nat * nat * nat * nat :=
  (em_endpoint e, em_batch_size e, em_buffer_cap e, em_max_retries e, em_gzip_threshold e).

(** The batch the task is sending, and the attempts it has left. *)
Definition flight (e : TelemetryEmitter) : list (list Event) :=
  match em_flush_task e with Sending b _ => [b] | _ => [] end.
Definition attempts_left (e : TelemetryEmitter) : nat :=
  match em_flush_task e with Sending _ n => n | _ => 0 end.

Inductive em_step : Effect -> TelemetryEmitter -> TelemetryEmitter -> Prop :=
  | step_append e ev : em_closed e = false -> em_step (Appends ev) e (append_event ev e)
  | step_drain e e' :
      em_buffer e <> [] -> em_config e' = em_config e -> em_buffer e' = [] ->
      em_dropped_count e' = em_dropped_count e -> em_closed e' = em_closed e ->
      (flight e' = flight e \/ flight e' = [em_buffer e]) ->
      em_step (Drains (em_buffer e)) e e'
  | step_quiet e e' :
      em_config e' = em_config e -> em_buffer e' = em_buffer e ->
      em_dropped_count e' = em_dropped_count e -> (em_closed e = true -> em_closed e' = true) ->
      (flight e' = flight e \/ flight e' = []) ->
      (em_buffer e = [] \/ (em_flush_event e = true -> em_flush_event e' = true)) ->
      em_step Quiet e e'.

Inductive em_trace : list Effect -> TelemetryEmitter -> TelemetryEmitter -> Prop :=
  | trace_nil e : em_trace [] e e
  | trace_cons l tr e e1 e' : em_step l e e1 -> em_trace tr e1 e' -> em_trace (l :: tr) e e'.

Lemma trace_app t1 t2 e e1 e' : em_trace t1 e e1 -> em_trace t2 e1 e' -> em_trace (t1 ++ t2) e e'.
Proof. induction 1; cbn; intros; [done|]. econstructor; eauto. Qed.

Lemma trace_one l e e' : em_step l e e' -> em_trace [l] e e'.
Proof. intros H. econstructor; [done|constructor]. Qed.

(** What a trace appended and drained, in order. *)
Definition appends (tr : list Effect) : list Event :=
  omap (fun l => match l with Appends ev => Some ev | _ => None end) tr.
Definition batches (tr : list Effect) : list (list Event) :=
  omap (fun l => match l with Drains b => Some b | _ => None end) tr.

Lemma appended_app t1 t2 : appends (t1 ++ t2) = (appends t1 ++ appends t2)%list.
Proof. apply omap_app. Qed.
Lemma batches_app t1 t2 : batches (t1 ++ t2) = (batches t1 ++ batches t2)%list.
Proof. apply omap_app. Qed.

Lemma appended_cons l tr :
  appends (l :: tr) = (match l with Appends ev => [ev] | _ => [] end ++ appends tr)%list.
Proof. by destruct l. Qed.
Lemma batches_cons l tr :
  batches (l :: tr) = (match l with Drains b => [b] | _ => [] end ++ batches tr)%list.
Proof. by destruct l. Qed.

Lemma append_config ev e : em_config (append_event ev e) = em_config e.
Proof. unfold append_event. by destruct (_ || _). Qed.

Lemma append_buffer ev e :
  em_buffer (append_event ev e) = deque_append (em_buffer_cap e) (em_buffer e) ev.
Proof. unfold append_event. by destruct (_ || _). Qed.

Lemma append_dropped ev e :
  em_dropped_count (append_event ev e) =
    if (length (em_buffer e) =? em_buffer_cap e)%nat then em_dropped_count e + 1
    else em_dropped_count e.
Proof. unfold append_event. by destruct (_ || _). Qed.

Lemma append_closed ev e : em_closed (append_event ev e) = em_closed e.
Proof. unfold append_event. by destruct (_ || _). Qed.

Lemma append_task ev e : em_flush_task (append_event ev e) = em_flush_task e.
Proof. unfold append_event. by destruct (_ || _). Qed.

Lemma step_config l e e' : em_step l e e' -> em_config e' = em_config e.
Proof. destruct 1; auto using append_config. Qed.

Lemma trace_config tr e e' : em_trace tr e e' -> em_config e' = em_config e.
Proof. induction 1 as [|l tr e e1 e' H _ IH]; [done|]. rewrite IH. eauto using step_config. Qed.

(** A batch in flight is one that was, or that the trace drained. *)
Lemma trace_flight tr e e' b :
  em_trace tr e e' -> b ∈ flight e' -> b ∈ flight e \/ b ∈ batches tr.
Proof.
  induction 1 as [|l tr e e1 e' H _ IH]; [by left|]. intros [Hb|Hb]%IH.
  - destruct H as [? ev _|? ? _ _ _ _ _ [E|E]|? ? _ _ _ _ [E|E] _];
      unfold flight in *; cbn; rewrite ?append_task in *; rewrite ?E in *; auto; set_solver.
  - right. destruct H; cbn; set_solver.
Qed.

(** ** A world that logs *)

Abbreviation Logged W := (W * list Request)%type.

#[export] Instance LoggedWorld {W} `{SdkWorld W} : SdkWorld (Logged W) := {
  sw_send rq w := let '(a, w') := sw_send rq (fst w) in (a, (w', snd w ++ [rq])%list);
  sw_connect u h w := let '(a, w') := sw_connect u h (fst w) in (a, (w', snd w));
  sw_uuid4 w := let '(a, w') := sw_uuid4 (fst w) in (a, (w', snd w));
  sw_now_iso w := let '(a, w') := sw_now_iso (fst w) in (a, (w', snd w));
  sw_monotonic_ns w := let '(a, w') := sw_monotonic_ns (fst w) in (a, (w', snd w));
  sw_turns w := let '(a, w') := sw_turns (fst w) in (a, (w', snd w));
}.

(** Only the emitter posts raw bytes to the service. *)
Definition is_flush (rq : Request) : bool :=
  match rq_via rq, rq_body rq with Gateway, Content _ => true | _, _ => false end.

Section client.
Context {W : Type} {T : SdkText} {V : SdkWorld W}.
Local Abbreviation Client := (ClientState (Logged W)).

Definition log (s : Client) : list Request := snd (cl_world s).

(** Code that sends nothing through the SDK. *)
Definition silent {A} (f : Logged W -> A * Logged W) : Prop := forall w, snd (snd (f w)) = snd w.

(** The requests of the data plane among those sent. *)
Definition data (l : list Request) : list Request := filter (fun rq => is_flush rq = false) l.

(** The emitter moves by its steps; the requests sent besides its own form a
    list in [L]; its own are of batches it drained, within the attempts it has
    for each. *)
Definition sends (L : list Request -> Prop) (s s' : Client) : Prop :=
  exists tr new,
    em_trace tr (cl_emitter s) (cl_emitter s') /\ log s' = (log s ++ new)%list /\ L (data new) /\
    (forall rq, rq ∈ new -> is_flush rq = true ->
       exists b, (b ∈ flight (cl_emitter s) \/ b ∈ batches tr) /\
                 rq = flush_request (cl_emitter s) b) /\
    (length (filter (fun rq => is_flush rq = true) new) + attempts_left (cl_emitter s')
     <= attempts_left (cl_emitter s) + em_max_retries (cl_emitter s) * length (batches tr))%nat.

(** Requests that [P] allows, in any number; at most [n] of them. *)
Definition evolves (P : Request -> Prop) : Client -> Client -> Prop := sends (Forall P).
Definition upto (n : nat) (P : Request -> Prop) (l : list Request) : Prop :=
  (length l <= n)%nat /\ Forall P l.

Lemma flush_request_config e e' b :
  em_config e' = em_config e -> flush_request e' b = flush_request e b.
Proof. unfold em_config, flush_request. by intros [= -> _ _ _ ->]. Qed.

Lemma config_retries e e' : em_config e' = em_config e -> em_max_retries e' = em_max_retries e.
Proof. unfold em_config. congruence. Qed.

Lemma sends_weaken (L L' : list Request -> Prop) s s' :
  (forall l, L l -> L' l) -> sends L s s' -> sends L' s s'.
Proof. intros HL (tr & new & Ht & Hl & Hp & Hrest). exists tr, new. eauto. Qed.

Lemma sends_refl (L : list Request -> Prop) s : L [] -> sends L s s.
Proof.
  intros HL. exists [], []. rewrite app_nil_r. cbn.
  repeat split; [constructor|done|set_solver|lia].
Qed.

Lemma sends_app (L1 L2 : list Request -> Prop) s1 s2 s3 :
  sends L1 s1 s2 -> sends L2 s2 s3 ->
  sends (fun l => exists l1 l2, l = (l1 ++ l2)%list /\ L1 l1 /\ L2 l2) s1 s3.
Proof.
  intros (t1 & n1 & Ht1 & Hl1 & Hp1 & Hf1 & Hc1) (t2 & n2 & Ht2 & Hl2 & Hp2 & Hf2 & Hc2).
  pose proof (trace_config _ _ _ Ht1) as Hcfg.
  exists (t1 ++ t2)%list, (n1 ++ n2)%list. split; [by eapply trace_app|].
  split; [by rewrite Hl2, Hl1, app_assoc|].
  split; [exists (data n1), (data n2); unfold data; by rewrite filter_app|]. split.
  - intros rq [Hin|Hin]%elem_of_app Hk; rewrite batches_app.
    + destruct (Hf1 rq Hin Hk) as (b & Hb & ->). exists b. set_solver.
    + destruct (Hf2 rq Hin Hk) as (b & Hb & ->). exists b.
      rewrite (flush_request_config _ _ _ Hcfg). split; [|done].
      destruct Hb as [Hb|Hb]; [|set_solver].
      destruct (trace_flight _ _ _ _ Ht1 Hb); set_solver.
  - rewrite batches_app, filter_app, !length_app. rewrite (config_retries _ _ Hcfg) in Hc2. lia.
Qed.

#[export] Instance evolves_preorder P : PreOrder (evolves P).
Proof.
  split; [intros s; by apply sends_refl|]. intros s1 s2 s3 H1 H2.
  eapply sends_weaken, (sends_app _ _ _ _ _ H1 H2).
  intros l (l1 & l2 & -> & Hl1 & Hl2). by apply Forall_app.
Qed.

Lemma ensures_sends_weaken (L L' : list Request -> Prop) {A} (Q : A -> Prop) (m : Act Client A) :
  (forall l, L l -> L' l) -> Ensures (sends L) Q m -> Ensures (sends L') Q m.
Proof. intros HL Hm s. destruct (Hm s) as [Hr Hq]. split; [by eapply sends_weaken|done]. Qed.

Lemma ensures_mono (P P' : Request -> Prop) {A} (Q : A -> Prop) (m : Act Client A) :
  (forall rq, P rq -> P' rq) -> Ensures (evolves P) Q m -> Ensures (evolves P') Q m.
Proof. intros HP. apply ensures_sends_weaken. intros l Hl. by eapply Forall_impl. Qed.

(** One computation after another, each with its language. *)
Lemma ensures_sends (L1 L2 L : list Request -> Prop) {A B} (Q : A -> Prop) (Q' : B -> Prop)
    (m : Act Client A) (f : A -> Act Client B) :
  (forall l1 l2, L1 l1 -> L2 l2 -> L (l1 ++ l2)%list) -> L2 [] ->
  Ensures (sends L1) Q m -> (forall a, Q a -> Ensures (sends L2) Q' (f a)) ->
  Ensures (sends L) Q' (pbind m f).
Proof.
  intros HL H0 Hm Hf s. specialize (Hm s) as [Hr Hq]. unfold pbind.
  destruct (m s) as [[a|x] s1]; cbn in *.
  - destruct (Hf a Hq s1) as [Hr' Hq']. split; [|done].
    eapply sends_weaken, (sends_app _ _ _ _ _ Hr Hr').
    intros l (l1 & l2 & -> & H1 & H2). by apply HL.
  - split; [|done]. eapply sends_weaken, Hr. intros l Hl. rewrite <- (app_nil_r l). by apply HL.
Qed.

(** Nothing sent but by the emitter. *)
Definition nothing (_ : Request) : Prop := False.
Lemma nothing_nil l : Forall nothing l -> l = [].
Proof. by destruct 1. Qed.

(** The primitive moves. *)
Lemma evolves_trace P s s' tr :
  em_trace tr (cl_emitter s) (cl_emitter s') -> log s' = log s ->
  (attempts_left (cl_emitter s')
   <= attempts_left (cl_emitter s) + em_max_retries (cl_emitter s) * length (batches tr))%nat ->
  evolves P s s'.
Proof.
  intros Ht Hl Hc. exists tr, []. rewrite app_nil_r. cbn.
  repeat split; [done..|set_solver|lia].
Qed.

Lemma ensures_at_world P {A} (f : Logged W -> A * Logged W) :
  silent f -> Ensures (evolves P) any (at_world f).
Proof.
  intros Hf s. specialize (Hf (cl_world s)). unfold at_world.
  destruct (f (cl_world s)) as [a w] eqn:E. cbn in *. split; [|done].
  apply (evolves_trace P _ _ []); [constructor|done|cbn; lia].
Qed.

Lemma ensures_on_emitter P f :
  (forall e, exists tr, em_trace tr e (f e) /\
     (attempts_left (f e) <= attempts_left e + em_max_retries e * length (batches tr))%nat) ->
  Ensures (evolves P) any (on_emitter (W := Logged W) f).
Proof.
  intros Hf s. destruct (Hf (cl_emitter s)) as (tr & Ht & Hc). split; [|done].
  by apply (evolves_trace P _ _ tr).
Qed.

Lemma silent_uuid4 : silent sw_uuid4.
Proof. intros [w l]. cbn. by destruct (sw_uuid4 w). Qed.
Lemma silent_now : silent sw_now_iso.
Proof. intros [w l]. cbn. by destruct (sw_now_iso w). Qed.
Lemma silent_ns : silent sw_monotonic_ns.
Proof. intros [w l]. cbn. by destruct (sw_monotonic_ns w). Qed.
Lemma silent_turns : silent sw_turns.
Proof. intros [w l]. cbn. by destruct (sw_turns w). Qed.
Lemma silent_connect u h : silent (sw_connect u h).
Proof. intros [w l]. cbn. by destruct (sw_connect u h w). Qed.

(** ** The emitter's operations *)

Lemma sent_sends rq w s a :
  sw_send rq (cl_world s) = (a, w) -> is_flush rq = false ->
  sends (eq [rq]) s (MkClientState w (cl_emitter s) (cl_telemetry_started s)).
Proof.
  cbn. destruct (sw_send rq (fst (cl_world s))) as [a' w'] eqn:E. intros [= <- <-] Hk.
  exists [], [rq]. split; [constructor|]. split; [done|].
  split; [unfold data; by rewrite filter_cons_True|].
  split; [intros ? ->%list_elem_of_singleton; congruence|].
  rewrite filter_cons_False by congruence. cbn. lia.
Qed.

Lemma flushed_evolves P b w s a e' tr :
  sw_send (flush_request (cl_emitter s) b) (cl_world s) = (a, w) ->
  b ∈ flight (cl_emitter s) -> em_trace tr (cl_emitter s) e' ->
  (1 + attempts_left e' <= attempts_left (cl_emitter s))%nat ->
  evolves P s (MkClientState w e' (cl_telemetry_started s)).
Proof.
  cbn. destruct (sw_send _ (fst (cl_world s))) as [a' w'] eqn:E. intros [= <- <-] Hb Ht Hc.
  assert (is_flush (flush_request (cl_emitter s) b) = true) as Hk
    by (unfold flush_request; by destruct (_ <? _)%nat).
  exists tr, [flush_request (cl_emitter s) b]. split; [done|]. split; [done|].
  split; [unfold data; rewrite filter_cons_False by congruence; constructor|].
  split; [intros rq ->%list_elem_of_singleton _; eauto|].
  rewrite filter_cons_True by done. cbn. lia.
Qed.

Lemma quiet_head e :
  exists tr, em_trace tr e (loop_head e) /\
    (attempts_left (loop_head e) <= attempts_left e + em_max_retries e * length (batches tr))%nat.
Proof.
  exists [Quiet]. split.
  - apply trace_one, step_quiet; unfold loop_head; cbn; try done; [|by right].
    right. by destruct (em_closed e).
  - unfold loop_head, attempts_left. cbn. destruct (em_closed e); cbn; lia.
Qed.

Lemma wake_trace e :
  em_flush_task e = Waiting ->
  exists tr, em_trace tr e (wake e) /\
    (attempts_left (wake e) <= attempts_left e + em_max_retries e * length (batches tr))%nat.
Proof.
  intros Ht. unfold wake. cbn. destruct (em_buffer e) as [|ev b] eqn:E.
  - exists [Quiet]. split.
    + apply trace_one, step_quiet; unfold loop_head; cbn; try done; [|by left].
      right. unfold flight. cbn. by destruct (em_closed e).
    + unfold loop_head, attempts_left. cbn. destruct (em_closed e); cbn; lia.
  - exists [Drains (em_buffer e)]. split.
    + apply trace_one, step_drain; cbn; try done; [by rewrite E|]. right. by rewrite E.
    + cbn. lia.
Qed.

Lemma ensures_emit_full P t v c p ts : Ensures (evolves P) any (emit_full t v c p ts).
Proof.
  intros s. unfold emit_full, the_emitter, pbind, pget, pret. cbn.
  destruct (em_closed (cl_emitter s)) eqn:Hc; [by split; [reflexivity|]|]. cbn.
  set (now := match ts with Some t => _ | None => _ end).
  assert (exists a s1, now s = (Returned a, s1) /\ evolves P s s1 /\ cl_emitter s1 = cl_emitter s)
    as (a & s1 & E & Hr & He).
  { assert (exists a s1, now_iso (W := Logged W) s = (Returned a, s1) /\ evolves P s s1 /\
                         cl_emitter s1 = cl_emitter s) as Hnow.
    { pose proof (ensures_at_world P _ silent_now s) as [Hr _]. unfold now_iso, at_world in *.
      destruct (sw_now_iso (cl_world s)) as [a w]. cbn in Hr.
      by exists a, (MkClientState w (cl_emitter s) (cl_telemetry_started s)). }
    subst now. destruct ts as [x|]; [|done]. destruct (str_truthy x); [|done].
    exists x, s. by split; [|split; [reflexivity|]]. }
  rewrite E. cbn. split; [|done]. etrans; [exact Hr|].
  eapply evolves_trace; [apply trace_one, step_append; by rewrite He|done|].
  unfold attempts_left. cbn. rewrite append_task. lia.
Qed.

Lemma ensures_emit P t c p : Ensures (evolves P) any (emit_event t c p).
Proof. apply ensures_emit_full. Qed.

Lemma ensures_turn P d : Ensures (evolves P) any (flush_turn (W := Logged W) d).
Proof.
  intros s. unfold flush_turn, the_emitter, pbind at 1 2, pget, pret at 1. cbn.
  destruct (em_flush_task (cl_emitter s)) as [| | |b [|n]|] eqn:Et.
  1, 6: by split; [reflexivity|].
  - apply ensures_on_emitter. intros e. apply quiet_head.
  - destruct (_ || d); [|by split; [reflexivity|]].
    destruct (wake_trace _ Et) as (tr & Ht & Hc). split; [|done]. by eapply evolves_trace.
  - apply ensures_on_emitter. intros e. apply quiet_head.
  - unfold send_attempt, the_emitter, pbind, pget, pret, at_world.
    destruct (sw_send _ (cl_world s)) as [a w] eqn:E.
    assert (b ∈ flight (cl_emitter s)) as Hb by (unfold flight; rewrite Et; set_solver).
    assert (attempts_left (cl_emitter s) = S n) as Hcr by (unfold attempts_left; by rewrite Et).
    destruct (settled_answer a); cbn -[loop_head sw_send]; split; try done.
    + destruct (quiet_head (cl_emitter s)) as (tr & Ht & _).
      eapply flushed_evolves; [exact E|done|exact Ht|].
      unfold loop_head, attempts_left at 1. cbn. destruct (em_closed _); cbn; lia.
    + eapply flushed_evolves; [exact E|done| |].
      * apply trace_one, step_quiet; cbn; try done; [|by right].
        left. unfold flight. cbn. by rewrite Et.
      * cbn. lia.
Qed.

(** The background task never raises into the data plane. *)
Lemma turn_returns d s : exists s', flush_turn (W := Logged W) d s = (Returned tt, s').
Proof.
  unfold flush_turn, the_emitter, send_attempt, on_emitter, pmodify, pbind, pget, pret, at_world.
  cbn. repeat case_match; eauto; simplify_eq; eauto.
Qed.

Lemma turns_return l s : exists s', turns (W := Logged W) l s = (Returned tt, s').
Proof.
  revert s. induction l as [|d l IH]; intros s; cbn; [eauto|].
  unfold pbind. destruct (turn_returns d s) as [s' ->]. apply IH.
Qed.

Lemma ensures_turns P l : Ensures (evolves P) any (turns (W := Logged W) l).
Proof.
  induction l as [|d l IH]; cbn [turns]; [by ensures_step|].
  ensures_step; [apply ensures_turn|exact IH].
Qed.

Lemma ensures_pause P : Ensures (evolves P) any (pause (W := Logged W)).
Proof.
  unfold pause. ensures_step; [apply ensures_at_world, silent_turns|]. apply ensures_turns.
Qed.

(** The final flush posts its batch, and only it. *)
Lemma retry_posts b n s :
  exists s' k, send_with_retry (W := Logged W) b n s = (Returned tt, s') /\ (k <= n)%nat /\
    (n <> 0%nat -> k <> 0%nat) /\ cl_emitter s' = cl_emitter s /\
    cl_telemetry_started s' = cl_telemetry_started s /\
    log s' = (log s ++ repeat (flush_request (cl_emitter s) b) k)%list.
Proof.
  revert s. induction n as [|n IH]; intros s; cbn [send_with_retry].
  { exists s, 0%nat. cbn. rewrite app_nil_r. repeat split; [lia|done]. }
  unfold send_attempt, the_emitter, pbind, pget, pret, at_world. cbn.
  destruct (sw_send _ (fst (cl_world s))) as [a w] eqn:E.
  set (s1 := MkClientState (w, _) _ _). destruct (settled_answer a).
  { exists s1, 1%nat. repeat split; [lia|done]. }
  destruct (IH s1) as (s' & k & -> & Hk & _ & He & Hts & Hl). exists s', (S k).
  split; [done|]. split; [lia|]. split; [done|]. split; [by rewrite He|]. split; [by rewrite Hts|].
  rewrite Hl. unfold s1, log. cbn. by rewrite <- app_assoc.
Qed.

Lemma flush_once_posts s :
  exists s' k, flush_once (W := Logged W) s = (Returned tt, s') /\
    (k <= em_max_retries (cl_emitter s))%nat /\
    (em_buffer (cl_emitter s) <> [] -> em_max_retries (cl_emitter s) <> 0%nat -> k <> 0%nat) /\
    (em_buffer (cl_emitter s) = [] -> k = 0%nat) /\
    cl_emitter s' = drained (cl_emitter s) /\
    cl_telemetry_started s' = cl_telemetry_started s /\
    log s' = (log s ++ repeat (flush_request (cl_emitter s) (em_buffer (cl_emitter s))) k)%list.
Proof.
  unfold flush_once, the_emitter, pbind, pget, pret. cbn.
  destruct (em_buffer (cl_emitter s)) as [|ev b] eqn:Eb.
  { exists s, 0%nat. cbn. rewrite app_nil_r. repeat split; try done; [lia|].
    destruct s as [w e st]. cbn in *. unfold drained, set_buffer. rewrite <- Eb. by destruct e. }
  set (s1 := MkClientState _ _ _).
  destruct (retry_posts (ev :: b) (em_max_retries (cl_emitter s)) s1)
    as (s' & k & E & Hk & Hk0 & He & Hts & Hl).
  exists s', k. split; [exact E|]. do 2 (split; [auto|]). split; [done|].
  split; [by rewrite He|]. split; [done|].
  rewrite Hl. unfold s1, log. cbn. by rewrite (flush_request_config (cl_emitter s)).
Qed.

Lemma ensures_flush_once P : Ensures (evolves P) any (flush_once (W := Logged W)).
Proof.
  intros s. destruct (flush_once_posts s) as (s' & k & -> & Hk & _ & H0 & He & _ & Hl).
  cbn. split; [|done]. destruct (em_buffer (cl_emitter s)) as [|ev b] eqn:Eb.
  - rewrite (H0 eq_refl) in Hl. rewrite app_nil_r in Hl.
    apply (evolves_trace P _ _ [Quiet]); [|done|].
    + apply trace_one. rewrite He. apply step_quiet; cbn; try done; [by left|by left].
    + rewrite He. cbn. unfold attempts_left. cbn. lia.
  - set (rq := flush_request _ _) in Hl.
    exists [Drains (em_buffer (cl_emitter s))], (repeat rq k).
    assert (is_flush rq = true) as Hr by (unfold rq, flush_request; by destruct (_ <? _)%nat).
    assert (forall x, x ∈ repeat rq k -> x = rq) as Hin.
    { intros x Hx%list_elem_of_In%repeat_spec. done. }
    split; [|split; [done|split; [|split]]].
    + apply trace_one, step_drain; rewrite ?He; cbn; try done; [by rewrite Eb|by left].
    + unfold data. apply Forall_forall. intros x [Hx Hx'%Hin]%list_elem_of_filter. congruence.
    + intros x ->%Hin _. exists (ev :: b). rewrite Eb. split; [right; cbn; set_solver|done].
    + rewrite He. cbn [batches omap list_omap]. unfold attempts_left. cbn.
      pose proof (length_filter (fun rq => is_flush rq = true) (repeat rq k)) as Hle.
      rewrite repeat_length in Hle. lia.
Qed.

(** Setting [_closed] and the event, and dropping the task, are quiet. *)
Lemma quiet_closing e :
  exists tr, em_trace tr e (set_flush_event true (set_closed e)) /\
    (attempts_left (set_flush_event true (set_closed e))
     <= attempts_left e + em_max_retries e * length (batches tr))%nat.
Proof.
  exists [Quiet]. split; [|unfold attempts_left; cbn; lia].
  apply trace_one, step_quiet; cbn; try done; [by left|by right].
Qed.

Lemma quiet_no_task e :
  exists tr, em_trace tr e (set_flush_task NotStarted e) /\
    (attempts_left (set_flush_task NotStarted e) <= attempts_left e + em_max_retries e * length (batches tr))%nat.
Proof.
  exists [Quiet]. split; [|unfold attempts_left; cbn; lia].
  apply trace_one, step_quiet; cbn; try done; [by right|by right].
Qed.

Lemma quiet_start e :
  exists tr, em_trace tr e (start_task e) /\
    (attempts_left (start_task e) <= attempts_left e + em_max_retries e * length (batches tr))%nat.
Proof.
  exists [Quiet]. unfold start_task.
  destruct (em_flush_task e) eqn:Et; [destruct (em_closed e) eqn:Ec|..];
    (split; [apply trace_one, step_quiet; unfold flight; cbn; rewrite ?Et; auto
            |unfold attempts_left; cbn; rewrite ?Et; lia]).
Qed.

Lemma ensures_state P : Ensures (evolves P) any (pget (S := Client)).
Proof. by apply ensures_get; [typeclasses eauto|]. Qed.
Lemma ensures_the_emitter P : Ensures (evolves P) any (the_emitter (W := Logged W)).
Proof. unfold the_emitter. ensures_step; [apply ensures_state|by ensures_step]. Qed.

Lemma ensures_started P :
  Ensures (evolves P) any
    (pmodify (fun s : Client => MkClientState (cl_world s) (cl_emitter s) true)).
Proof.
  intros s. split; [|done]. apply (evolves_trace P _ _ []); [constructor|done|cbn; lia].
Qed.

End client.

#[export] Hint Resolve silent_uuid4 silent_now silent_ns silent_turns silent_connect : sdk.
#[export] Hint Resolve ensures_state ensures_the_emitter ensures_emit ensures_pause
  ensures_flush_once ensures_on_emitter quiet_closing quiet_no_task quiet_start quiet_head
  ensures_at_world ensures_started : sdk.

(** The structure of a computation, down to effects the database knows. *)
Ltac ensures := repeat first [ensures_step | solve [eauto 3 with sdk]].

(** ** The client's methods *)

Section methods.
Context {W : Type} {T : SdkText} {V : SdkWorld W} (P : Request -> Prop).
Local Abbreviation Client := (ClientState (Logged W)).
Local Abbreviation follows m := (Ensures (evolves P) any m).

Lemma ensures_aclose : follows (aclose (W := Logged W)).
Proof. unfold aclose, aclose_emitter. ensures. Qed.

Lemma ensures_fresh_id : follows (fresh_id (W := Logged W)).
Proof. unfold fresh_id. ensures. Qed.

Lemma ensures_id_or_fresh o : follows (id_or_fresh (W := Logged W) o).
Proof. unfold id_or_fresh. pose proof ensures_fresh_id. ensures. Qed.

Lemma ensures_telemetry_started : follows (ensure_telemetry_started (W := Logged W)).
Proof. unfold ensure_telemetry_started. ensures. Qed.

Lemma ensures_ns : follows (monotonic_ns (W := Logged W)).
Proof. unfold monotonic_ns. ensures. Qed.

Lemma ensures_send_one rq :
  is_flush rq = false -> Ensures (sends (eq [rq])) any (at_world (sw_send (W := Logged W) rq)).
Proof.
  intros Hk s. unfold at_world. destruct (sw_send rq (cl_world s)) as [x w] eqn:E.
  split; [|done]. by eapply sent_sends.
Qed.

Lemma ensures_send_raw rq :
  is_flush rq = false -> P rq -> follows (send_raw (W := Logged W) rq).
Proof.
  intros Hk Hp. unfold send_raw. ensures_step; [apply ensures_pause|].
  eapply ensures_sends_weaken, ensures_send_one; [|done]. intros l <-. auto.
Qed.

Lemma ensures_send rq : is_flush rq = false -> P rq -> follows (send (W := Logged W) rq).
Proof. intros Hk Hp. unfold send. pose proof (ensures_send_raw _ Hk Hp). ensures. Qed.

Lemma ensures_gateway_post url hs body :
  P (MkRequest Gateway "POST" url hs [] (JsonBody (VObj body))) ->
  follows (gateway_post (W := Logged W) url hs body).
Proof. intros Hp. by apply ensures_send. Qed.

Lemma ensures_gateway_get url params :
  P (MkRequest Gateway "GET" url [] params NoBody) -> follows (gateway_get (W := Logged W) url params).
Proof. intros Hp. by apply ensures_send. Qed.

Lemma ensures_reporting {A} (Q : A -> Prop) event phase c (m : Act Client A) :
  Ensures (evolves P) Q m -> Ensures (evolves P) Q (reporting event phase c m).
Proof. intros Hm. unfold reporting. ensures_step; [done|]. ensures. Qed.

Lemma ensures_in_set v l : Ensures (S := Client) (evolves P) any (in_set v l).
Proof. unfold in_set. ensures. Qed.

End methods.

#[export] Hint Resolve ensures_aclose ensures_id_or_fresh ensures_fresh_id ensures_telemetry_started
  ensures_ns ensures_in_set : sdk.

(** ** Whole methods, whatever they send *)

Definition whatever (_ : Request) : Prop := True.

(** A signer that sends nothing through the SDK. *)
Definition silent_signer {W} (o : option (CallerProofSigner (Logged W))) : Prop :=
  match o with Some sign => forall b, silent (sign b) | None => True end.

Section calls.
Context {W : Type} {T : SdkText} {V : SdkWorld W}.
Local Abbreviation Client := (ClientState (Logged W)).
Local Abbreviation follows m := (Ensures (evolves whatever) any m).

Lemma ensures_caller_proof P v o :
  silent_signer o -> Ensures (S := Client) (evolves P) any (caller_proof v o).
Proof.
  intros Ho. unfold caller_proof, refuse_code. destruct o as [sign|]; cbn in Ho; ensures.
Qed.

Lemma whatever_send rq : is_flush rq = false -> follows (send (W := Logged W) rq).
Proof. intros Hk. by apply ensures_send. Qed.
Lemma whatever_post url hs body : follows (gateway_post (W := Logged W) url hs body).
Proof. by apply ensures_gateway_post. Qed.
Lemma whatever_get url params : follows (gateway_get (W := Logged W) url params).
Proof. by apply ensures_gateway_get. Qed.
Lemma whatever_raw rq : is_flush rq = false -> follows (send_raw (W := Logged W) rq).
Proof. intros Hk. by apply ensures_send_raw. Qed.

#[local] Hint Resolve ensures_caller_proof whatever_send whatever_post whatever_get whatever_raw
  ensures_reporting : sdk.
#[local] Hint Extern 2 (is_flush _ = false) => reflexivity : sdk.

Lemma follows_retry path body n : follows (post_with_retry (W := Logged W) path body n).
Proof. induction n as [|n IH]; cbn [post_with_retry]; ensures. Qed.
Lemma follows_poll url id n : follows (poll_exchange (W := Logged W) url id n).
Proof. induction n as [|n IH]; cbn [poll_exchange]; unfold refuse_code; ensures. Qed.
#[local] Hint Resolve follows_retry follows_poll : sdk.

Lemma follows_submit a : silent_signer (ja_sign_caller_proof a) -> follows (submit_job (W := Logged W) a).
Proof.
  intros Ha. unfold submit_job, mint_job, authorize_request, read_opened_job,
    broker_job_headers, call_broker, read_claim, parse_body, read_settlement, settle_claim, job_result,
    cap_status_from_dict, optional_float, response_json, as_string, reporting, refuse_code.
  ensures.
Qed.

Lemma follows_axes v : follows (session_axes_from_dict (W := Logged W) v).
Proof. unfold session_axes_from_dict, refuse_answer. ensures. Qed.
#[local] Hint Resolve follows_axes : sdk.

Lemma follows_open a :
  silent_signer (sa_sign_caller_proof a) -> follows (sdk_open_session (W := Logged W) a).
Proof.
  intros Ha. unfold sdk_open_session, sdk_prepare, session_open_request, read_session, refuse_code,
    refuse_answer. destruct (sa_sign_caller_proof a); cbn in Ha; ensures.
Qed.

Lemma follows_refill s o r m d : follows (sdk_refill_session (W := Logged W) s o r m d).
Proof. unfold sdk_refill_session, refill_failed. ensures. Qed.

Lemma follows_close s u v o : follows (sdk_close_session (W := Logged W) s u v o).
Proof. unfold sdk_close_session, int_or_zero, reporting. ensures. Qed.

(** The signers of a call. *)
Definition silent_call (c : SdkCall (Logged W)) : Prop :=
  match c with
  | CallSubmitJob a => silent_signer (ja_sign_caller_proof a)
  | CallOpenSession a => silent_signer (sa_sign_caller_proof a)
  | _ => True
  end.

Lemma follows_call c : silent_call c -> follows (run_call c).
Proof.
  intros Hc. destruct c; cbn [run_call]; unfold ignore;
    try (apply ensures_emit_full || apply ensures_pause || apply ensures_aclose);
    (apply ensures_suppress; [typeclasses eauto|]; ensures_step; [|by ensures_step]).
  - unfold sdk_list_capabilities. ensures.
  - unfold sdk_list_orchestrators. ensures.
  - by apply follows_submit.
  - by apply follows_open.
  - apply follows_refill.
  - apply follows_close.
  - unfold sdk_get_session_status. ensures.
  - unfold sdk_get_job_status. ensures.
Qed.

Lemma follows_calls l : Forall silent_call l -> follows (run_calls l).
Proof.
  induction 1 as [|c l Hc _ IH]; cbn [run_calls]; [by ensures_step|].
  ensures_step; [by apply follows_call|exact IH].
Qed.

End calls.

(** ** Runs and the lists of requests they send

    [Does L m]: the requests of the data plane that a run of [m] sends are a
    list that [L] allows for its outcome. *)

Section does.
Context {W : Type} {T : SdkText} {V : SdkWorld W}.
Local Abbreviation Client := (ClientState (Logged W)).

Definition Does {A} (L : outcome A -> list Request -> Prop) (m : Act Client A) : Prop :=
  forall s, sends (L (fst (m s))) s (snd (m s)).

Lemma does_weaken {A} (L L' : outcome A -> list Request -> Prop) m :
  (forall o l, L o l -> L' o l) -> Does L m -> Does L' m.
Proof. intros HL Hm s. eapply sends_weaken, Hm. intros l. apply HL. Qed.

Lemma does_bind {A B} (L1 : outcome A -> list Request -> Prop)
    (L : outcome B -> list Request -> Prop) m f :
  Does L1 m -> (forall x l, L1 (Raised x) l -> L (Raised x) l) ->
  (forall a l1, L1 (Returned a) l1 -> Does (fun o l2 => L o (l1 ++ l2)%list) (f a)) ->
  Does L (pbind m f).
Proof.
  intros Hm Hx Hf s. specialize (Hm s). unfold pbind.
  destruct (m s) as [[a|x] s1]; cbn in *; [|eapply sends_weaken, Hm; intros l; apply Hx].
  destruct Hm as (tr & new & Ht & Hl & Hp & Hrest). pose proof (Hf a _ Hp s1) as H2.
  destruct (sends_app (eq (data new)) _ s s1 _ ltac:(by exists tr, new) H2)
    as (tr' & new' & Ht' & Hl' & (l1 & l2 & E & <- & HL) & Hrest').
  exists tr', new'. rewrite E. eauto.
Qed.

(** A first part that sends nothing. *)
Lemma does_after {A B} (Q : A -> Prop) (L : outcome B -> list Request -> Prop) m f :
  Ensures (evolves nothing) Q m -> (forall x, L (Raised x) []) ->
  (forall a, Q a -> Does L (f a)) -> Does L (pbind m f).
Proof.
  intros Hm Hx Hf s. destruct (Hm s) as [Hr Hq]. unfold pbind.
  destruct (m s) as [[a|x] s1]; cbn in *.
  - eapply sends_weaken, (sends_app _ _ _ _ _ Hr (Hf a Hq s1)).
    by intros l (l1 & l2 & -> & ->%nothing_nil & HL).
  - eapply sends_weaken, Hr. intros l ->%nothing_nil. apply Hx.
Qed.

(** A handler that only reports. *)
Lemma does_reporting {A} (L : outcome A -> list Request -> Prop) event phase c m :
  (forall x y l, L (Raised x) l -> L (Raised y) l) ->
  Does L m -> Does L (reporting event phase c m).
Proof.
  intros HL Hm s. specialize (Hm s). unfold reporting, ptry.
  destruct (m s) as [[a|x] s1]; cbn in *; [done|].
  destruct (ensures_emit nothing event (Some (inr c)) (error_event_payload phase x) s1) as [He _].
  unfold pbind. destruct (emit_event _ _ _ s1) as [[u|y] s2]; cbn in *;
    (eapply sends_weaken, (sends_app _ _ _ _ _ Hm He);
     intros l (l1 & l2 & -> & H1 & ->%nothing_nil); rewrite app_nil_r; by eapply HL).
Qed.

(** A last part that sends nothing. *)
Lemma does_ensures {A} (Q : A -> Prop) (L : outcome A -> list Request -> Prop) m :
  Ensures (evolves nothing) Q m -> (forall x, L (Raised x) []) ->
  (forall a, Q a -> L (Returned a) []) -> Does L m.
Proof.
  intros Hm Hx Hr s. destruct (Hm s) as [Hs Hq].
  eapply sends_weaken, Hs. intros l ->%nothing_nil. destruct (fst (m s)); auto.
Qed.

Lemma pause_returns s : exists s', pause (W := Logged W) s = (Returned tt, s').
Proof.
  unfold pause, pbind, at_world. destruct (sw_turns (cl_world s)). apply turns_return.
Qed.

Lemma does_quiet {A} (L : outcome A -> list Request -> Prop) m :
  Ensures (evolves nothing) any m -> (forall o, L o []) -> Does L m.
Proof. intros Hm HL. by apply (does_ensures any). Qed.

Lemma does_send_raw rq :
  is_flush rq = false -> Does (fun _ l => l = [rq]) (send_raw (W := Logged W) rq).
Proof.
  intros Hk s. unfold send_raw, pbind. destruct (ensures_pause nothing s) as [Hp _].
  destruct (pause_returns s) as [s1 E]. rewrite E in *. cbn in Hp.
  destruct (ensures_send_one rq Hk s1) as [H1 _].
  eapply sends_weaken, (sends_app _ _ _ _ _ Hp H1).
  by intros l (l1 & l2 & -> & ->%nothing_nil & <-).
Qed.

Lemma does_send rq :
  is_flush rq = false -> Does (fun _ l => l = [rq]) (send (W := Logged W) rq).
Proof.
  intros Hk. unfold send. apply (does_bind (fun _ l => l = [rq])); [by apply does_send_raw|done|].
  intros a l ->. apply (does_ensures any); [destruct a; ensures|done|done].
Qed.

End does.

(** ** A world to evaluate the SDK on *)

(** Answers in order, then none; a turn of the task at every other wait. *)
Record Script := MkScript { sc_answers : list Sent; sc_turns : list (list bool) }.

#[export] Instance ScriptWorld : SdkWorld Script := {
  sw_send _ w := match sc_answers w with
                 | [] => (NotSent "ConnectError", w)
                 | a :: l => (a, MkScript l (sc_turns w))
                 end;
  sw_connect _ _ w := (None, w);
  sw_uuid4 w := (7%N, w);
  sw_now_iso w := ("2026-01-01T00:00:00+00:00", w);
  sw_monotonic_ns w := (0, w);
  sw_turns w := match sc_turns w with
                | [] => ([], w)
                | t :: l => (t, MkScript (sc_answers w) l)
                end;
}.

Definition demo_uuid : string := "00000000-0000-0000-0000-000000000015".

Definition demo_documents : list (string * value) :=
  [("{}", VObj []);
   ("job", VObj [("job_id", VStr demo_uuid); ("work_id", VStr "w1");
                 ("broker_url", VStr "https://broker/"); ("protocol", VStr "paid-job/v1");
                 ("transport", VStr "unary"); ("work_unit", VStr "tokens");
                 ("request_id", VStr "r1"); ("settle_endpoint", VStr "/v1/jobs/x/settle");
                 ("accounting_mode", VStr "wholesale_account");
                 ("spend_authorization", VStr "YXV0aA==")]);
   ("settled", VObj [("actual_units", VInt 5); ("billed_value_wei", VStr "500");
                     ("refund_wei", VStr "500"); ("outcome", VStr "OK");
                     ("cap_status", VObj [("session_pct_used", VInt 1);
                                          ("will_refuse_next_refill", VBool false)])]);
   ("prepared", VObj [("gateway_session_id", VStr demo_uuid); ("preparation_token", VStr "t");
                      ("route_binding", VObj [])]);
   ("session", VObj [("protocol", VStr "paid-session/v1");
                     ("session", VObj [("descriptor_schema", VStr "live/v1");
                                       ("metering", VStr "runner-reported")]);
                     ("accounting_mode", VStr "wholesale_account");
                     ("spend_authorization", VStr "YXV0aA=="); ("session_id", VStr demo_uuid);
                     ("request_id", VStr "r1"); ("work_id", VStr "w1");
                     ("broker_url", VStr "https://broker"); ("expected_value_wei", VStr "100");
                     ("funded_value_wei", VStr "100"); ("refill_endpoint", VStr "/r");
                     ("close_endpoint", VStr "/c")]);
   ("refill", VObj [("request_id", VStr "r2"); ("accounting_mode", VStr "wholesale_account");
                    ("spend_authorization", VStr "YXV0aDI="); ("refill_seq", VInt 1)])].

Fixpoint lookup_document (l : list (string * value)) (s : string) : option value :=
  match l with
  | [] => None
  | (k, v) :: l' => if String.eqb s k then Some v else lookup_document l' s
  end.

#[export] Instance demo_text : SdkText := {
  sx_json_loads b := lookup_document demo_documents (String.string_of_list_byte b);
  sx_float_repr _ := "0.0";
  sx_repr _ := "<value>";
  sx_float_of_str _ := None;
  sx_uuid5_url _ := 5%N;
  sx_sha256 b := b;
  sx_gzip b := b;
  sx_text b := String.string_of_list_byte b;
  sx_process := [];
}.

Definition answer (status : Z) (headers : list (string * string)) (body : string) : Sent :=
  Answered (MkResponse status headers (String.list_byte_of_string body)).

Definition demo_client (answers : list Sent) : ClientState (Logged Script) :=
  fresh_client (MkScript answers [], []).

Definition demo_proof : CallerProofSigner (Logged Script) := fun _ w => (inl (Some "proof"), w).

(** A job that the broker answers with its claim. *)
Definition demo_job : JobArgs (Logged Script) :=
  MkJobArgs "cap" "off" 8 (inl [("x", VInt 1)]) (Some 10) (Some "k1") "unary" None (Some "02ab")
    (Some demo_proof).
Definition demo_answer : Sent :=
  answer 200 [("livepeer-work-units", "5"); ("livepeer-work-unit", "tokens");
              ("livepeer-job-id", "J1"); ("livepeer-settlement", "e30=")] "hello".
Definition demo_job_client : ClientState (Logged Script) :=
  demo_client [answer 200 [] "job"; demo_answer; answer 503 [] ""; answer 200 [] "settled"].

Example demo_job_settles :
  match submit_job demo_job demo_job_client with
  | (Returned r, s) => jr_billed_value_wei r = 500 /\ length (data (log s)) = 4%nat
  | _ => False
  end.
Proof. vm_compute. done. Qed.

(** A session, and a runner for it that may raise its cap to 200. *)
Definition demo_session_args : SessionArgs (Logged Script) :=
  MkSessionArgs "cap" "off" "live/v1" [] 10 100 (Some "k2") (Some "02ab") (Some demo_proof).
Definition demo_session_client : ClientState (Logged Script) :=
  demo_client [answer 200 [] "prepared"; answer 200 [] "session"].

Definition demo_handle : SessionHandle (Logged Script) :=
  MkSessionHandle 21%N (VStr "r1") (VStr "w1") (VStr "https://broker") "paid-session/v1" "cap" "off"
    (MkSdkSessionAxes "live/v1" "extensible") [] 100 100 (VStr "/r") (VStr "/c") "YXV0aA==" "proof"
    (open_body (VStr demo_uuid) []) 100 demo_proof.

Example demo_session_opens :
  fst (sdk_open_session demo_session_args demo_session_client) = Returned demo_handle.
Proof. vm_compute. done. Qed.

Definition low_balance : SessionBalance := MkSessionBalance "low" 95 95 "tokens" 5 None false.
Definition demo_broker_session : BrokerSession :=
  MkBrokerSession "s1" "w1" "open" "live/v1" [] [] "cred" "2026-01-01T00:00:00Z" low_balance
    (MkBrokerControl "https://broker/status" "https://broker/topup" "https://broker/end" None).
Definition demo_runner_config : RunnerConfig (Logged Script) :=
  MkRunnerConfig None None None (Some (fun _ w => (inl (Some 200), w))) false.
Definition demo_runner (answers : list Sent) : RunnerState (Logged Script) :=
  set_broker_session demo_broker_session (new_runner (demo_client answers) demo_handle).
Definition demo_grant : value := or_else (lookup_document demo_documents "refill") VNull.
Definition demo_pending (answers : list Sent) : RunnerState (Logged Script) :=
  set_pending (Some "k3") (Some demo_grant) None (Some 200) (demo_runner answers).

Example demo_refills :
  rn_pending_refill (snd (on_session_balance demo_runner_config low_balance
    (demo_runner [answer 200 [] "refill"; answer 200 [] "{}"]))) = None /\
  sh_max_total_units (rn_handle (snd (on_session_balance demo_runner_config low_balance
    (demo_runner [answer 200 [] "refill"; answer 200 [] "{}"])))) = 200.
Proof. vm_compute. done. Qed.
