(* ===== verification/SdkProps.v ===== *)
(** * The Python SDK: theorems

    Telemetry accounts for every event whatever the data plane does; a job sends
    what it committed to, once, and settles what its broker claimed. *)

From S2P Require Import Prelude PyData Codecs Errors Effects Payments Endpoints SdkBase SdkTelemetry SdkClient SdkRunner SdkFacts.
From Stdlib Require Import Strings.Byte Strings.Ascii Floats.SpecFloat.

Open Scope string_scope.
Open Scope Z_scope.
Open Scope loc_scope.
Open Scope sdk_scope.
Open Scope list_scope.

(** ** Telemetry *)

Lemma deque_append_sublist cap b ev : sublist (deque_append cap b ev) (b ++ [ev]).
Proof. unfold deque_append. apply sublist_drop. Qed.

Lemma deque_append_length cap b ev :
  (length b <= cap)%nat ->
  length (deque_append cap b ev) = (if length b =? cap then cap else S (length b))%nat.
Proof.
  intros H. unfold deque_append. rewrite length_drop, length_app. cbn.
  destruct (Nat.eqb_spec (length b) cap); lia.
Qed.

Lemma step_cap l e e' : em_step l e e' -> em_buffer_cap e' = em_buffer_cap e.
Proof. intros H%step_config. unfold em_config in H. congruence. Qed.

Lemma step_buffer_bound l e e' :
  em_step l e e' -> (length (em_buffer e) <= em_buffer_cap e)%nat ->
  (length (em_buffer e') <= em_buffer_cap e')%nat.
Proof.
  intros H Hb. rewrite (step_cap _ _ _ H). destruct H as [e ev Hc|e e' Hn _ -> _ _ _|e e' _ -> _ _ _ _].
  - rewrite append_buffer, deque_append_length by done.
    destruct (Nat.eqb_spec (length (em_buffer e)) (em_buffer_cap e)); lia.
  - cbn. lia.
  - done.
Qed.

(** What the emitter holds: the events buffered, and how many it ever gave up. *)
Definition accounts_for (e : TelemetryEmitter) (kept : list Event) (e' : TelemetryEmitter)
    (sent : list Event) : Prop :=
  sublist (sent ++ em_buffer e') (em_buffer e ++ kept) /\
  dropped_count e' - dropped_count e
    = Z.of_nat (length (em_buffer e) + length kept)
      - Z.of_nat (length sent + buffer_size e').

Lemma trace_accounted tr e e' :
  em_trace tr e e' -> (length (em_buffer e) <= em_buffer_cap e)%nat ->
  accounts_for e (appends tr) e' (concat (batches tr)) /\
  (length (em_buffer e') <= em_buffer_cap e')%nat.
Proof.
  unfold accounts_for, dropped_count, buffer_size.
  induction 1 as [e|l tr e e1 e' H _ IH]; intros Hb.
  { cbn. rewrite app_nil_r. split; [split; [done|lia]|done]. }
  destruct (IH (step_buffer_bound _ _ _ H Hb)) as [[Hs Hd] Hc]. split; [|done].
  rewrite appended_cons, batches_cons, concat_app.
  destruct H as [e ev Hc'|e e1 Hn Hcfg Hb1 Hd1 _ _|e e1 Hcfg Hb1 Hd1 _ _ _];
    rewrite ?length_app; cbn [app concat length].
  - rewrite append_buffer in Hs, Hd. rewrite append_dropped, deque_append_length in Hd by done.
    split.
    + etrans; [exact Hs|]. rewrite (cons_middle ev), app_assoc.
      apply sublist_app; [apply deque_append_sublist|done].
    + destruct (Nat.eqb_spec (length (em_buffer e)) (em_buffer_cap e)); lia.
  - rewrite Hb1 in Hs, Hd. cbn in Hs, Hd. rewrite app_nil_r, <- app_assoc. split; [|lia].
    by apply sublist_app.
  - rewrite Hb1 in Hs, Hd. rewrite Hd1 in Hd. split; [done|lia].
Qed.

(** An event that must not wait is buffered only with the task woken. *)
Definition urgent (e : TelemetryEmitter) : Prop :=
  Exists (fun ev => is_critical (ev_event_type ev) = true) (em_buffer e)
  \/ (0 < em_batch_size e <= length (em_buffer e))%nat.
Definition prompt (e : TelemetryEmitter) : Prop := urgent e -> em_flush_event e = true.

Lemma step_prompt l e e' : em_step l e e' -> prompt e -> prompt e'.
Proof.
  intros H Hp Hu. pose proof (step_config _ _ _ H) as Hcfg.
  destruct H as [e ev Hc|e e' Hn _ Hb _ _ _|e e' _ Hb _ _ _ [H0|Hf]].
  - unfold append_event in *. cbv zeta in *. set (e1 := set_buffer _ _ e) in *.
    destruct (is_critical (ev_event_type ev) || (em_batch_size e1 <=? length (em_buffer e1))%nat)
      eqn:E; [done|].
    apply orb_false_iff in E as [Ec El%Nat.leb_gt]. cbn in *. apply Hp.
    destruct Hu as [Hu|[H0 Hu]]; cbn in *; [|lia]. left.
    apply Exists_exists in Hu as (x & Hx & Hk). apply Exists_exists. exists x. split; [|done].
    eapply elem_of_sublist in Hx; [|apply deque_append_sublist].
    apply elem_of_app in Hx as [Hx|Hx%list_elem_of_singleton]; [done|]. subst. congruence.
  - exfalso. destruct Hu as [Hu|Hu]; rewrite Hb in Hu; [by inversion Hu|cbn in Hu; lia].
  - exfalso. destruct Hu as [Hu|Hu]; rewrite Hb, H0 in Hu; [by inversion Hu|cbn in Hu; lia].
  - apply Hf, Hp. unfold urgent in *. rewrite Hb in Hu.
    unfold em_config in Hcfg. assert (em_batch_size e' = em_batch_size e) as Hs by congruence.
    by rewrite Hs in Hu.
Qed.

Lemma trace_prompt tr e e' : em_trace tr e e' -> prompt e -> prompt e'.
Proof. induction 1; eauto using step_prompt. Qed.

Section telemetry.
Context {W : Type} {T : SdkText} {V : SdkWorld W}.

Lemma trace_closed tr e e' : em_trace tr e e' -> em_closed e = true -> em_closed e' = true.
Proof.
  induction 1 as [|l tr e e1 e' H _ IH]; [done|]. intros Hc. apply IH.
  destruct H as [? ? Hn|? ? ? _ _ _ E _|? ? _ _ _ E _ _]; [congruence|congruence|auto].
Qed.

(** What a closed emitter does with a call. *)
Lemma closed_emit t v c p ts (s : ClientState (Logged W)) :
  em_closed (cl_emitter s) = true -> emit_full t v c p ts s = (Returned tt, s).
Proof. intros H. unfold emit_full, the_emitter, pbind, pget, pret. cbn. by rewrite H. Qed.

Lemma closed_aclose (s : ClientState (Logged W)) :
  em_closed (cl_emitter s) = true -> aclose s = (Returned tt, s).
Proof. intros H. unfold aclose, aclose_emitter, the_emitter, pbind, pget, pret. cbn. by rewrite H. Qed.

(** The state of an emitter being closed, when its wait for the task ends. *)
Definition closing (s : ClientState (Logged W)) : ClientState (Logged W) :=
  MkClientState (cl_world s) (set_flush_event true (set_closed (cl_emitter s)))
    (cl_telemetry_started s).
Definition waited (s : ClientState (Logged W)) : ClientState (Logged W) :=
  match em_flush_task (cl_emitter s) with
  | NotStarted => closing s
  | _ => let s1 := snd (pause (closing s)) in
         MkClientState (cl_world s1) (set_flush_task NotStarted (cl_emitter s1))
           (cl_telemetry_started s1)
  end.

Lemma aclose_waits s :
  em_closed (cl_emitter s) = false -> aclose (W := Logged W) s = flush_once (waited s).
Proof.
  intros H. unfold aclose, aclose_emitter, waited. unfold the_emitter, pbind at 1 2, pget, pret at 1.
  cbn. rewrite H. unfold pbind, on_emitter, pmodify. fold (closing s).
  destruct (em_flush_task (cl_emitter s)); [done|..];
    destruct (pause_returns (closing s)) as [s1 ->]; done.
Qed.

Lemma waited_closed s :
  em_closed (cl_emitter (waited s)) = true /\ em_flush_task (cl_emitter (waited s)) = NotStarted
  /\ em_max_retries (cl_emitter (waited s)) = em_max_retries (cl_emitter s).
Proof.
  unfold waited. destruct (em_flush_task (cl_emitter s)) eqn:E; cbn; [done|..];
    destruct (ensures_pause nothing (closing s)) as [(tr & _ & Ht & _) _];
    (split; [by apply (trace_closed _ _ _ Ht)|split; [done|by apply config_retries, (trace_config _ _ _ Ht)]]).
Qed.

End telemetry.



(** Urgent events wake the task. However the emitter got where it is from its construction, an
    error, a refused refill, a closed session or a full batch is buffered only with the flush event
    set; and then the next turn of a task that waits takes the whole buffer, whether or not its
    interval has passed. *)
Theorem urgent_events_wake_the_task {W} {T : SdkText} {V : SdkWorld W} tr
    (s : ClientState (Logged W)) (deadline : bool) :
  em_trace tr new_emitter (cl_emitter s) -> urgent (cl_emitter s) ->
  em_flush_event (cl_emitter s) = true /\
  (em_flush_task (cl_emitter s) = Waiting ->
   exists s', flush_turn deadline s = (Returned tt, s') /\
     em_buffer (cl_emitter s') = [] /\
     flight (cl_emitter s') = [em_buffer (cl_emitter s)] /\ log s' = log s).
Proof.
  intros Ht Hu. assert (em_flush_event (cl_emitter s) = true) as Hf.
  { apply (trace_prompt _ _ _ Ht); [|done]. intros [Hn|Hn]; [by inversion Hn|cbn in Hn; lia]. }
  split; [done|]. intros Hw. unfold flush_turn, the_emitter, pbind, pget, pret. cbn.
  rewrite Hw, Hf. cbn. eexists. split; [done|]. cbn. unfold wake. cbn.
  destruct (em_buffer (cl_emitter s)) eqn:Eb; [|done].
  exfalso. destruct Hu as [Hu|Hu]; rewrite Eb in Hu; [by inversion Hu|cbn in Hu; lia].
Qed.

Definition closed_event : Event := MkEvent "session.closed" 1 None "" [].
Definition urgent_emitter : TelemetryEmitter :=
  append_event closed_event (loop_head (start_task new_emitter)).
Lemma urgent_events_wake_the_task_witness :
  let s := MkClientState ((MkScript [] [], []) : Logged Script) urgent_emitter true in
  exists s', flush_turn false s = (Returned tt, s') /\ em_buffer (cl_emitter s') = [] /\
    flight (cl_emitter s') = [[closed_event]] /\ log s' = log s.
Proof.
  refine (proj2 (urgent_events_wake_the_task [Quiet; Quiet; Appends closed_event]
    (MkClientState ((MkScript [] [], []) : Logged Script) urgent_emitter true) false _ _) eq_refl).
  - eapply trace_cons; [apply (step_quiet new_emitter (start_task new_emitter)); auto|].
    eapply trace_cons; [apply (step_quiet _ (loop_head (start_task new_emitter))); auto|].
    eapply trace_cons; [by apply step_append|constructor].
  - left. apply Exists_cons_hd. reflexivity.
Defined.

(** C39: Closing a client flushes it. Closing ends, without an exception, whatever the task was doing
    and however its requests fare: the emitter is closed, the task gone and the buffer empty, and
    what the buffer held when the wait for the task ended was posted, three times at most.
    Afterwards emitting and closing again change nothing. *)
Theorem closing_flushes {W} {T : SdkText} {V : SdkWorld W} (s : ClientState (Logged W)) :
  em_closed (cl_emitter s) = false -> em_max_retries (cl_emitter s) = DEFAULT_RETRIES ->
  exists s' k,
    aclose s = (Returned tt, s') /\
    em_closed (cl_emitter s') = true /\ em_flush_task (cl_emitter s') = NotStarted /\
    em_buffer (cl_emitter s') = [] /\
    log s' = (log (waited s) ++
              repeat (flush_request (cl_emitter (waited s)) (em_buffer (cl_emitter (waited s)))) k) /\
    (k <= DEFAULT_RETRIES)%nat /\ (em_buffer (cl_emitter (waited s)) <> [] -> k <> 0%nat) /\
    (forall t v c p ts, emit_full t v c p ts s' = (Returned tt, s')) /\
    aclose s' = (Returned tt, s').
Proof.
  intros Hc Hm. rewrite (aclose_waits _ Hc). destruct (waited_closed s) as (Hwc & Hwt & Hwm).
  destruct (flush_once_posts (waited s)) as (s' & k & E & Hk & Hk0 & _ & He & _ & Hl).
  rewrite Hwm, Hm in Hk, Hk0. exists s', k. split; [exact E|]. rewrite He. cbn.
  do 3 (split; [done|]). split; [exact Hl|]. split; [exact Hk|].
  split; [intros Hb; by apply Hk0|].
  split; [intros; apply closed_emit; by rewrite He|apply closed_aclose; by rewrite He].
Qed.

Lemma closing_flushes_witness :
  let s := MkClientState ((MkScript [] [], []) : Logged Script) urgent_emitter true in
  exists s' k,
    aclose s = (Returned tt, s') /\
    em_closed (cl_emitter s') = true /\ em_flush_task (cl_emitter s') = NotStarted /\
    em_buffer (cl_emitter s') = [] /\
    log s' = (log (waited s) ++
              repeat (flush_request (cl_emitter (waited s)) (em_buffer (cl_emitter (waited s)))) k) /\
    (k <= DEFAULT_RETRIES)%nat /\ (em_buffer (cl_emitter (waited s)) <> [] -> k <> 0%nat) /\
    (forall t v c p ts, emit_full t v c p ts s' = (Returned tt, s')) /\
    aclose s' = (Returned tt, s').
Proof.
  exact (closing_flushes (MkClientState ((MkScript [] [], []) : Logged Script) urgent_emitter true)
    eq_refl eq_refl).
Defined.

(** ** Jobs *)

Section jobs.
Context {W : Type} {T : SdkText} {V : SdkWorld W} (a : JobArgs (Logged W)).
Local Abbreviation Client := (ClientState (Logged W)).

(** The four kinds of request of a job. *)
Definition authorizes (rq : Request) : Prop :=
  exists key public_key,
    rq = MkRequest Gateway "POST" "/v1/jobs" [("Idempotency-Key", key)] []
           (JsonBody (VObj (job_open_body a public_key))).

Definition carries (j : OpenedJob) (rq : Request) : Prop :=
  exists base authorization proof hs,
    oj_broker_url j = VStr base /\ oj_authorization j = VStr authorization /\
    header "Livepeer-Authorization" hs = Some authorization /\
    header "Livepeer-Caller-Proof" hs = Some proof /\
    header "Livepeer-Request-Id" hs = Some (oj_request_id j) /\
    rq = MkRequest Broker "POST" (str_rstrip_slash base ++ "/v1/job")%string hs []
           (Content (authorization_body a)).

Definition looks_up (j : OpenedJob) (rq : Request) : Prop :=
  exists base, oj_broker_url j = VStr base /\
    rq = MkRequest Broker "GET"
           (str_rstrip_slash base ++ "/v1/exchange/" ++ url_quote (oj_request_id j))%string [] []
           NoBody.

Definition settles (j : OpenedJob) (rq : Request) : Prop :=
  exists path units broker_job settlement,
    oj_settle_endpoint j = VStr path /\
    rq = MkRequest Gateway "POST" path [] []
           (JsonBody (VObj (settlement_payload units (oj_work_unit j) broker_job settlement))).

(** How far a run gets, by the requests it sends. *)
Inductive job_run : outcome JobResult -> list Request -> Prop :=
  | run_refused x : job_run (Raised x) []
  | run_unauthorized x auth : authorizes auth -> job_run (Raised x) [auth]
  | run_unclaimed x j auth work lookups :
      authorizes auth -> carries j work -> Forall (looks_up j) lookups ->
      (length lookups <= 8)%nat -> job_run (Raised x) (auth :: work :: lookups)
  | run_settled o j auth work lookups claim k :
      authorizes auth -> carries j work -> Forall (looks_up j) lookups ->
      (length lookups <= 8)%nat -> settles j claim -> (1 <= k <= SETTLE_MAX_RETRIES)%nat ->
      (forall r, o = Returned r -> jr_work_unit r = oj_work_unit j /\
                                   jr_request_id r = oj_request_id j) ->
      job_run o (auth :: work :: lookups ++ repeat claim k).

Local Abbreviation nothing_sent Q m := (Ensures (S := Client) (evolves nothing) Q m).

Lemma does_post_with_retry path body n :
  (0 < n)%nat ->
  Does (fun _ l => exists k, (1 <= k <= n)%nat /\
          l = repeat (MkRequest Gateway "POST" path [] [] (JsonBody (VObj body))) k)
    (post_with_retry (W := Logged W) path body n).
Proof.
  set (rq := MkRequest _ _ _ _ _ _). induction n as [|n IH]; intros Hn; [lia|].
  cbn [post_with_retry]. apply (does_bind (fun _ l => l = [rq])).
  - by apply does_send_raw.
  - intros x l ->. exists 1%nat. split; [lia|done].
  - intros x l ->. set (L := fun (_ : outcome Response) l2 => _).
    assert (forall o, L o []) as H1 by (intros o; exists 1%nat; by split; [lia|]).
    assert (0 < n -> Does L (pause ;;; post_with_retry path body n))%nat as Hrest.
    { intros H0. apply (does_after any); [apply ensures_pause|by intros|].
      intros ? _. eapply does_weaken, IH, H0. intros ? l (k & Hk & ->). exists (S k).
      by split; [lia|]. }
    destruct x as [resp|name|name]; [destruct (_ && _)| |]; try (apply does_quiet; [by ensures|done]);
      (destruct n; [apply does_quiet; [by ensures|done]|apply Hrest; lia]).
Qed.

(** Outcomes of a step: its requests, or part of them before an exception. *)
Definition one (K : Request -> Prop) {A} (o : outcome A) (l : list Request) : Prop :=
  match o with
  | Returned _ => exists rq, K rq /\ l = [rq]
  | Raised _ => l = [] \/ exists rq, K rq /\ l = [rq]
  end.

Lemma does_mint req_id public_key : Does (one authorizes) (mint_job a req_id public_key).
Proof.
  unfold mint_job. apply (does_after any); [ensures|by left|intros ? _].
  apply (does_after any); [ensures|by left|intros ? _].
  assert (authorizes (MkRequest Gateway "POST" "/v1/jobs" [("Idempotency-Key", req_id)] []
                        (JsonBody (VObj (job_open_body a public_key))))) as Ha by (by do 2 eexists).
  set (rq := MkRequest _ _ _ _ _ _) in Ha. apply (does_bind (fun _ l => l = [rq])).
  - apply does_reporting; [done|]. unfold authorize_request, gateway_post.
    apply (does_bind (fun _ l => l = [rq])); [by apply does_send|done|]. intros r l ->.
    apply does_quiet; [ensures|done].
  - intros x l ->. right. eauto.
  - intros [r job] l ->. apply does_quiet; [ensures|]. intros []; cbn; eauto.
Qed.

Lemma ensures_read_opened job : nothing_sent any (read_opened_job a job).
Proof. unfold read_opened_job, refuse_code. ensures. Qed.

Lemma ensures_headers j :
  silent_signer (ja_sign_caller_proof a) ->
  nothing_sent (fun hs => exists authorization proof,
      oj_authorization j = VStr authorization /\
      header "Livepeer-Authorization" hs = Some authorization /\
      header "Livepeer-Caller-Proof" hs = Some proof /\
      header "Livepeer-Request-Id" hs = Some (oj_request_id j))
    (broker_job_headers a j).
Proof.
  intros Hs. unfold broker_job_headers, refuse_code. ensures_step; [ensures|].
  ensures_step; [by apply ensures_caller_proof|]. ensures_step; [|ensures].
  ensures_step; [|ensures]. ensures_step. destruct (oj_authorization j) eqn:E; simplify_eq/=.
  by do 2 eexists.
Qed.

Lemma does_poll url id n :
  (0 < n)%nat ->
  Does (fun _ l => exists k, (1 <= k <= n)%nat /\ l = repeat (MkRequest Broker "GET" url [] [] NoBody) k)
    (poll_exchange (W := Logged W) url id n).
Proof.
  set (rq := MkRequest _ _ _ _ _ _). induction n as [|n IH]; intros Hn; [lia|].
  cbn [poll_exchange]. apply (does_bind (fun _ l => l = [rq])); [by apply does_send| |].
  { intros x l ->. exists 1%nat. split; [lia|done]. }
  intros query l ->. set (L := fun (_ : outcome (Response * vdict)) l2 => _).
  assert (forall o, L o []) as H1 by (intros o; exists 1%nat; by split; [lia|]).
  unfold refuse_code. destruct (sx_json_loads (rp_content query)) as [exchange|];
    [|apply does_quiet; [ensures|done]].
  apply (does_after any); [ensures|done|]. intros got _.
  destruct (negb (v_is got id)); [apply does_quiet; [ensures|done]|].
  apply (does_after any); [ensures|done|]. intros outcome _.
  apply (does_after any); [ensures|done|]. intros pending _.
  destruct pending; [|apply does_quiet; [ensures|done]].
  destruct n as [|n]; [apply does_quiet; [ensures|done]|].
  apply (does_after any); [apply ensures_pause|done|]. intros ? _.
  eapply does_weaken, IH; [|lia]. intros ? l (k & Hk & ->). exists (S k). by split; [lia|].
Qed.

(** The work, and up to eight lookups. *)
Definition worked (j : OpenedJob) (l : list Request) : Prop :=
  exists work lookups, carries j work /\ Forall (looks_up j) lookups /\
    (length lookups <= 8)%nat /\ l = work :: lookups.

Lemma does_call_broker j hs authorization proof :
  oj_authorization j = VStr authorization ->
  header "Livepeer-Authorization" hs = Some authorization ->
  header "Livepeer-Caller-Proof" hs = Some proof ->
  header "Livepeer-Request-Id" hs = Some (oj_request_id j) ->
  Does (fun o l => match o with Returned _ => worked j l | Raised _ => l = [] \/ worked j l end)
    (call_broker a j hs).
Proof.
  intros Ha H1 H2 H3. unfold call_broker.
  apply (does_after (fun base => oj_broker_url j = VStr base)); [|by left|].
  { unfold as_string. ensures_step. by destruct (oj_broker_url j); simplify_eq/=. }
  intros base Hb. set (work := MkRequest _ _ _ _ _ _).
  assert (carries j work) as Hw by (by exists base, authorization, proof, hs).
  assert (forall lookups, Forall (looks_up j) lookups -> (length lookups <= 8)%nat ->
            worked j ([work] ++ lookups)) as Hall by (intros lookups ? ?; by exists work, lookups).
  pose proof (Hall [] ltac:(done) ltac:(cbn; lia)) as Hone.
  apply (does_bind (fun _ l => l = [work])); [by apply does_send|intros x l ->; by right|].
  intros resp l ->. unfold refuse_code.
  destruct (_ && _); [apply does_quiet; [ensures|intros []; cbn; auto]|].
  destruct (forallb _ _); [apply does_quiet; [ensures|intros []; cbn; auto]|].
  eapply does_bind; [by apply does_poll; lia| |].
  - intros x l (k & Hk & ->). right. apply Hall; [|rewrite repeat_length; lia].
    apply Forall_forall. intros rq ->%list_elem_of_In%repeat_spec. by exists base.
  - intros [query exchange] l (k & Hk & ->). apply does_quiet; [ensures|].
    assert (worked j ([work] ++ repeat (MkRequest Broker "GET"
      (str_rstrip_slash base ++ "/v1/exchange/" ++ url_quote (oj_request_id j))%string [] [] NoBody) k))
      as Hk8.
    { apply Hall; [|rewrite repeat_length; lia].
      apply Forall_forall. intros rq ->%list_elem_of_In%repeat_spec. by exists base. }
    intros []; rewrite app_nil_r; auto.
Qed.

Lemma ensures_read_claim j resp claim_resp claim_body :
  nothing_sent (fun c => snd (fst c) = oj_work_unit j) (read_claim j resp claim_resp claim_body).
Proof.
  unfold read_claim, refuse_code.
  destruct (claim_field claim_resp claim_body "livepeer-work-units" _) as [units|]; [|ensures].
  destruct (claim_field claim_resp claim_body "livepeer-work-unit" _) as [unit|]; [|ensures].
  destruct (claim_field claim_resp claim_body "livepeer-job-id" _) as [job|]; [|ensures].
  ensures_step; [|ensures]. ensures_step; [ensures|].
  destruct (String.eqb_spec unit (oj_work_unit j)) as [->|].
  - ensures_step; [ensures|]. ensures_step; [ensures|]. by ensures_step.
  - intros s. by split; [reflexivity|].
Qed.

Lemma does_settle req_id endpoint units broker_job settlement j :
  oj_settle_endpoint j = endpoint ->
  Does (fun o l => (exists x, o = Raised x /\ l = []) \/
          exists claim k, settles j claim /\ (1 <= k <= SETTLE_MAX_RETRIES)%nat /\ l = repeat claim k)
    (settle_claim (W := Logged W) req_id endpoint
       (settlement_payload units (oj_work_unit j) broker_job settlement)).
Proof.
  intros He. unfold settle_claim.
  apply (does_after any); [ensures|by left; eauto|intros ? _].
  apply (does_after any); [ensures|by left; eauto|intros ? _].
  set (L := fun (o : outcome (Response * value)) l => (exists x, o = Raised x /\ l = []) \/
    exists claim k, settles j claim /\ (1 <= k <= SETTLE_MAX_RETRIES)%nat /\ l = repeat claim k).
  apply (does_bind L).
  - apply does_reporting; [intros x y l [(z & _ & ->)|Hr]; [left; eauto|by right]|].
    apply (does_after (fun path => endpoint = VStr path)); [|by left; eauto|].
    { ensures_step. by destruct endpoint; simplify_eq/=. }
    intros path ->. eapply does_bind; [by apply does_post_with_retry; unfold SETTLE_MAX_RETRIES; lia| |].
    + intros x l (k & Hk & ->). right. eexists _, k. split; [|done].
      by exists path, units, broker_job, settlement.
    + intros r l (k & Hk & ->). apply does_quiet; [ensures|]. intros o. right. eexists _, k.
      rewrite app_nil_r. split; [|done]. by exists path, units, broker_job, settlement.
  - intros x l [(z & _ & ->)|Hr]; [left; eauto|by right].
  - intros [r settled] l [(z & ? & ->)|(claim & k & Hc & Hk & ->)]; [done|].
    apply does_quiet; [ensures|]. intros o. right. exists claim, k. by rewrite app_nil_r.
Qed.

Lemma ensures_job_result req_id j resp broker_job parsed settled :
  nothing_sent (fun r => jr_work_unit r = oj_work_unit j /\ jr_request_id r = oj_request_id j)
    (job_result a req_id j resp (oj_work_unit j) broker_job parsed settled).
Proof.
  unfold job_result, cap_status_from_dict, optional_float. ensures.
Qed.

(** Once the broker has the work. *)
Lemma does_settled req_id j auth work lookups resp claim_resp claim_body :
  authorizes auth -> carries j work -> Forall (looks_up j) lookups -> (length lookups <= 8)%nat ->
  Does (fun o l => job_run o (auth :: work :: lookups ++ l))
    ('(actual_units, work_unit, broker_job_id) <- read_claim j resp claim_resp claim_body ;;
     parsed <- parse_body resp ;;
     settlement <- read_settlement resp claim_resp claim_body ;;
     settled <- settle_claim req_id (oj_settle_endpoint j)
       (settlement_payload actual_units work_unit broker_job_id settlement) ;;
     job_result a req_id j resp work_unit broker_job_id parsed settled).
Proof.
  intros Ha Hw Hl Hn.
  assert (forall x, job_run (Raised x) (auth :: work :: lookups ++ [])) as Hx
    by (intros x; rewrite app_nil_r; by eapply run_unclaimed).
  apply (does_after _ _ _ _ (ensures_read_claim j resp claim_resp claim_body)); [done|].
  intros [[units unit] job] Hu. cbn in Hu. subst unit.
  apply (does_after any); [unfold parse_body; ensures|done|intros parsed _].
  apply (does_after any); [unfold read_settlement, refuse_code; ensures|done|intros settlement _].
  eapply does_bind; [by apply does_settle| |].
  - intros x l [(y & _ & ->)|(claim & k & Hc & Hk & ->)]; [done|]. by eapply run_settled.
  - intros settled l [(y & ? & _)|(claim & k & Hc & Hk & ->)]; [done|].
    eapply does_ensures; [apply ensures_job_result|intros x|intros r Hr];
      rewrite app_nil_r; eapply run_settled; eauto; [done|by intros ? [= <-]].
Qed.

Lemma does_submit : silent_signer (ja_sign_caller_proof a) -> Does job_run (submit_job a).
Proof.
  intros Hs. unfold submit_job.
  apply (does_after any); [ensures|constructor|intros req_id _].
  apply (does_after any); [ensures|constructor|intros ? _].
  assert (Does (W := W) job_run (throw XValue)) as Ht
    by (apply (does_ensures (fun _ => False)); [ensures|constructor|done]).
  destruct (ja_caller_public_key a) as [key|], (ja_sign_caller_proof a) as [sign|] eqn:Es;
    [|exact Ht..]. rewrite <- Es in Hs.
  apply (does_after any); [ensures|constructor|intros ? _].
  eapply does_bind; [apply does_mint| |].
  { intros x l [->|(auth & Ha & ->)]; by constructor. }
  intros job l (auth & Ha & ->).
  apply (does_after _ _ _ _ (ensures_read_opened job)); [by constructor|intros j _].
  eapply does_after; [by apply ensures_headers|by constructor|].
  intros hs (authorization & proof & H1 & H2 & H3 & H4).
  eapply does_bind; [by eapply does_call_broker| |].
  { intros x l [->|(work & lookups & Hw & Hl & Hn & ->)]; [by constructor|by eapply run_unclaimed]. }
  intros [resp [claim_resp claim_body]] l (work & lookups & Hw & Hl & Hn & ->).
  by apply does_settled.
Qed.

End jobs.


