(* ===== verification/SdkRunnerProps.v ===== *)
(** * The Python SDK: theorems on the session runner

    Whatever the broker, the service, the socket and the callbacks do: the
    runner's session and settlement stay what they are, its cap grows only by
    approval, and a granted refill is carried through before another is asked
    for. *)

From S2P Require Import Prelude PyData Codecs Errors Effects Payments SdkBase SdkTelemetry SdkClient SdkRunner SdkFacts.
From Stdlib Require Import Strings.Byte Strings.Ascii Floats.SpecFloat.

Open Scope string_scope.
Open Scope Z_scope.
Open Scope loc_scope.
Open Scope sdk_scope.
Open Scope list_scope.

(** ** Relations between states of a runner

    [R] allows whatever a client does that [RC] allows. *)

Class RunnerRel {W} (R : RunnerState W -> RunnerState W -> Prop)
    (RC : ClientState W -> ClientState W -> Prop) : Prop := {
  rr_preorder :: PreOrder R;
  rr_client c s : RC (rn_client s) c -> R s (set_client c s);
  rr_listening b l s : R s (set_listening b l s);
}.

Section relation.
Context {W : Type} {T : SdkText} {V : SdkWorld W} R RC `{!RunnerRel (W := W) R RC} `{!PreOrder RC}.
Local Abbreviation Runner := (RunnerState W).
Local Abbreviation follows m := (Ensures (S := Runner) R any m).

(** What the client's part of a runner's step may do: callbacks, pauses and the
    requests of a session. *)
Definition client_may {A} (m : SdkBase.Act (ClientState W) A) : Prop := Ensures RC any m.

Lemma follows_client {A} (m : SdkBase.Act (ClientState W) A) : client_may m -> follows (with_client m).
Proof.
  intros Hm s. unfold with_client, zoom. destruct (Hm (rn_client s)) as [Hc _].
  destruct (m (rn_client s)) as [r c]. cbn in *. split; [by apply rr_client|by destruct r].
Qed.

Lemma follows_fire {E} (cb : option (Callback E)) e :
  (forall f, cb = Some f -> client_may (at_world (f e))) -> follows (fire cb e).
Proof.
  intros Hf. unfold fire, of_world. destruct cb as [f|]; [|by ensures].
  ensures_step; [by apply follows_client, Hf|]. ensures.
Qed.

Lemma follows_attach b :
  client_may pause -> (forall u h, client_may (at_world (sw_connect u h))) ->
  follows (attach_events b).
Proof.
  intros Hp Hc. unfold attach_events, of_world. ensures_step; [|by ensures].
  ensures_step; [by apply follows_client|]. ensures_step; [by apply follows_client|].
  ensures_step; [ensures|]. apply ensures_modify. apply rr_listening.
Qed.

End relation.

(** ** What every step keeps *)

Section frame.
Context {W : Type} {T : SdkText} {V : SdkWorld W}.
Local Abbreviation Runner := (RunnerState W).

(** Everything but the client, the listener, and the key and proof of a refill
    in progress. *)
Definition frame0 (s s' : Runner) : Prop :=
  rn_handle s' = rn_handle s /\ rn_pending_refill s' = rn_pending_refill s /\
  rn_pending_refill_max_total_units s' = rn_pending_refill_max_total_units s /\
  rn_final_settle s' = rn_final_settle s /\ rn_closed_event s' = rn_closed_event s.

#[export] Instance frame0_rel : RunnerRel frame0 (fun _ _ => True).
Proof.
  split; [|by repeat split|by repeat split]. split; [by intros s|].
  intros s1 s2 s3 (A1 & A2 & A3 & A4 & A5) (B1 & B2 & B3 & B4 & B5). repeat split; congruence.
Qed.

Lemma true_preorder {S} : PreOrder (fun _ _ : S => True).
Proof. done. Qed.

Lemma any_client {A} (m : SdkBase.Act (ClientState W) A) : client_may (fun _ _ => True) m.
Proof. intros s. split; [done|]. by destruct (fst (m s)). Qed.

Lemma frame_client {A} (m : SdkBase.Act (ClientState W) A) : Ensures frame0 any (with_client m).
Proof. eapply follows_client; [typeclasses eauto|apply any_client]. Qed.
#[local] Hint Resolve frame_client any_client : sdk.

Lemma frame_fire {E} (cb : option (Callback E)) e : Ensures frame0 any (fire cb e).
Proof. eapply follows_fire; [typeclasses eauto|intros; apply any_client]. Qed.

Lemma frame_start : Ensures frame0 any start.
Proof.
  unfold start. ensures_step; [ensures|]. ensures_step; [by ensures|].
  ensures_step; [unfold open_at_broker, header_text; ensures|]. do 3 (ensures_step; [ensures|]).
  ensures_step; [by apply ensures_modify|]. ensures_step; [|by ensures].
  eapply follows_attach; [typeclasses eauto|intros; apply any_client..].
Qed.

Lemma frame_modify (f : Runner -> Runner) :
  (forall s, frame0 s (f s)) -> Ensures frame0 any (pmodify f).
Proof. apply ensures_modify. Qed.
#[local] Hint Resolve frame_fire frame_start : sdk.

Lemma frame_post_topup b r : Ensures frame0 any (post_topup b r).
Proof.
  unfold post_topup, broken. ensures. apply frame_modify. by repeat split.
Qed.

Lemma frame_key : Ensures frame0 any pending_key.
Proof. unfold pending_key. ensures. apply frame_modify. by repeat split. Qed.

Lemma frame_winddown c r : Ensures frame0 any (winddown c r).
Proof. apply frame_fire. Qed.
#[local] Hint Resolve frame_post_topup frame_key frame_winddown : sdk.

Lemma frame_runner_status : Ensures frame0 any status.
Proof. unfold status, broken. ensures. Qed.

(** ** Refills *)

(** The session a handle is of: all but its authorization, proof and cap. *)
Definition same_session (h h' : SessionHandle W) : Prop :=
  exists authorization proof max, h' = refilled_handle authorization proof max h.

#[export] Instance same_session_preorder : PreOrder same_session.
Proof.
  split.
  - intros h. exists (sh_spend_authorization h), (sh_caller_proof h), (sh_max_total_units h).
    by destruct h.
  - intros h1 h2 h3 (a & p & m & ->) (a' & p' & m' & ->). by exists a', p', m'.
Qed.

Definition cap (s : Runner) : Z := sh_max_total_units (rn_handle s).

(** A pending refill is toward [max], and so may the cap be raised. *)
Definition awaits (max : Z) (s : Runner) : Prop :=
  cap s <= max /\
  (rn_pending_refill s = None \/ rn_pending_refill_max_total_units s = Some max).

Definition toward (max : Z) (s s' : Runner) : Prop :=
  same_session (rn_handle s) (rn_handle s') /\ rn_final_settle s' = rn_final_settle s /\
  rn_closed_event s' = rn_closed_event s /\ (cap s' = cap s \/ cap s' = max) /\
  (awaits max s -> awaits max s' /\ cap s <= cap s').

Lemma toward_same max s s' :
  same_session (rn_handle s) (rn_handle s') -> rn_final_settle s' = rn_final_settle s ->
  rn_closed_event s' = rn_closed_event s -> cap s' = cap s ->
  (awaits max s -> awaits max s') -> toward max s s'.
Proof.
  intros. unfold toward. do 3 (split; [done|]). split; [by left|]. intros. split; [auto|lia].
Qed.

#[export] Instance toward_rel max : RunnerRel (toward max) (fun _ _ => True).
Proof.
  split; [split|..].
  - intros s. by apply toward_same; [reflexivity|..].
  - intros s1 s2 s3 (A1 & A2 & A3 & A4 & A5) (B1 & B2 & B3 & B4 & B5). split; [by etrans|].
    do 2 (split; [congruence|]). split; [lia|].
    intros [H1 H2]%A5. apply B5 in H1 as [H3 H4]. split; [done|lia].
  - intros c s _. by apply toward_same; [reflexivity|..].
  - intros b l s. by apply toward_same; [reflexivity|..].
Qed.

Lemma frame_toward max s s' : frame0 s s' -> toward max s s'.
Proof.
  intros (A1 & A2 & A3 & A4 & A5). apply toward_same; unfold awaits, cap; rewrite ?A1, ?A2, ?A3; done.
Qed.

Lemma framed_toward {A} max (m : Act Runner A) : Ensures frame0 any m -> Ensures (toward max) any m.
Proof. apply ensures_rel. apply frame_toward. Qed.
#[local] Hint Resolve framed_toward : sdk.

Lemma toward_grant c obs max : Ensures (toward max) any (grant_refill c obs max).
Proof.
  unfold grant_refill. do 2 (ensures_step; [ensures|]). ensures_step; [by ensures|].
  ensures_step; [|ensures]. ensures_step; [ensures|]. ensures_step; [|by ensures].
  apply ensures_modify. intros st. apply toward_same; try done. intros [H1 _]. split; [done|by right].
Qed.
#[local] Hint Resolve toward_grant : sdk.

Lemma toward_refill c obs max : Ensures (toward max) any (refill c obs max).
Proof.
  unfold refill, finish_refill, refill_done, broken. ensures; apply ensures_modify; intros st.
  - split; [by do 3 eexists|]. do 2 (split; [done|]). split; [by right|]. intros [H1 H2].
    split; [split; [apply Z.le_refl|exact H2]|exact H1].
  - apply toward_same; try done. intros [H1 _]. split; [done|by left].
Qed.

(** ** Any method *)

(** A pending refill has its cap, no lower than the handle's; the closed event
    is set with the settlement. *)
Definition runner_ok (s : Runner) : Prop :=
  (rn_pending_refill s <> None ->
   exists max, rn_pending_refill_max_total_units s = Some max /\ cap s <= max) /\
  (rn_closed_event s = true <-> rn_final_settle s <> None).

(** The same session, a cap no lower, a settlement that stays. *)
Definition keeps (s s' : Runner) : Prop :=
  same_session (rn_handle s) (rn_handle s') /\
  (forall v, rn_final_settle s = Some v -> rn_final_settle s' = Some v) /\
  (runner_ok s -> runner_ok s' /\ cap s <= cap s').

#[export] Instance keeps_preorder : PreOrder keeps.
Proof.
  split.
  - intros s. split; [reflexivity|]. split; [done|]. intros H. split; [exact H|apply Z.le_refl].
  - intros s1 s2 s3 (A1 & A2 & A3) (B1 & B2 & B3). split; [by etrans|]. split; [auto|].
    intros [H1 H2]%A3. apply B3 in H1 as [H3 H4]. split; [done|lia].
Qed.

Lemma frame_keeps s s' : frame0 s s' -> keeps s s'.
Proof.
  intros (A1 & A2 & A3 & A4 & A5). unfold keeps, runner_ok, cap. rewrite A1, A2, A3, A4, A5.
  split; [reflexivity|]. split; [done|]. intros H. split; [exact H|apply Z.le_refl].
Qed.

Lemma framed_keeps {A} (m : Act Runner A) : Ensures frame0 any m -> Ensures keeps any m.
Proof. apply ensures_rel. apply frame_keeps. Qed.

(** Toward a cap that a well-formed runner awaits. *)
Lemma toward_keeps max s s' : (runner_ok s -> awaits max s) -> toward max s s' -> keeps s s'.
Proof.
  intros Ha (A1 & A2 & A3 & _ & A4). split; [done|]. split; [by rewrite A2|]. intros Hs.
  destruct (A4 (Ha Hs)) as [[H1 H2] H3]. split; [|done]. destruct Hs as [_ Hc].
  split; [|by rewrite A2, A3]. intros Hp. destruct H2 as [|H2]; [done|]. eauto.
Qed.

Lemma refill_keeps c obs max s :
  (runner_ok s -> awaits max s) -> keeps s (snd (refill c obs max s)).
Proof. intros Ha. destruct (toward_refill c obs max s) as [Ht _]. by eapply toward_keeps. Qed.

Lemma bind_of_world {A B} (f : W -> A * W) (k : A -> Act Runner B) s :
  pbind (of_world f) k s =
    k (fst (f (cl_world (rn_client s))))
      (set_client (MkClientState (snd (f (cl_world (rn_client s)))) (cl_emitter (rn_client s))
                     (cl_telemetry_started (rn_client s))) s).
Proof.
  unfold pbind, of_world, with_client, zoom, at_world. by destruct (f (cl_world (rn_client s))).
Qed.

Lemma keeps_on_balance c b : Ensures keeps any (on_session_balance c b).
Proof.
  unfold on_session_balance. apply ensures_read. intros s.
  assert (forall m : Act Runner unit, Ensures frame0 any m ->
    keeps s (snd (m s)) /\ match fst (m s) with Returned a => any a | Raised _ => True end) as Hf
    by (intros m Hm; apply (framed_keeps m Hm)).
  assert (forall m : Act Runner unit, keeps s (snd (m s)) ->
    keeps s (snd (m s)) /\ match fst (m s) with Returned a => any a | Raised _ => True end) as Hk
    by (intros m Hm; split; [done|by destruct (fst (m s))]).
  repeat (case_match; [by apply Hf; auto with sdk; ensures|]).
  destruct (rn_pending_refill s) as [r|] eqn:Ep.
  - destruct (rn_pending_refill_max_total_units s) as [max|] eqn:Em; [|apply Hf; unfold broken; ensures].
    apply Hk, refill_keeps. intros [Hs _]. rewrite Ep in Hs.
    destruct (Hs ltac:(done)) as (m & E & Hm). simplify_eq. split; [done|by right].
  - destruct (rc_approve_cap_extension c) as [approve|]; [|apply Hf, frame_winddown].
    apply Hk. rewrite bind_of_world.
    destruct (approve b (cl_world (rn_client s))) as [answer w]. cbn [fst snd].
    set (s1 := set_client _ s). assert (frame0 s s1) as Hs1 by (by repeat split).
    etrans; [apply frame_keeps, Hs1|]. destruct answer as [[new_max|]|name].
    + destruct (Z.leb_spec new_max (sh_max_total_units (rn_handle s))).
      { unfold broken. cbn. reflexivity. }
      apply refill_keeps. intros _. split; [unfold cap; cbn; lia|by left].
    + apply (framed_keeps _ (frame_winddown _ _)).
    + cbn. reflexivity.
Qed.

Lemma frame_end_settlement r : Ensures frame0 any (end_settlement r).
Proof. unfold end_settlement. ensures. Qed.

Lemma frame_stop : Ensures frame0 any stop_listening.
Proof. unfold stop_listening. ensures. apply frame_modify. by repeat split. Qed.
#[local] Hint Resolve frame_end_settlement frame_stop : sdk.

(** A step of [close]: at most the settlement is stored. *)
Definition closes (s s' : Runner) : Prop :=
  rn_handle s' = rn_handle s /\ rn_pending_refill s' = rn_pending_refill s /\
  rn_pending_refill_max_total_units s' = rn_pending_refill_max_total_units s /\
  ((rn_final_settle s' = rn_final_settle s /\ rn_closed_event s' = rn_closed_event s)
   \/ (rn_final_settle s' <> None /\ rn_closed_event s' = true)).

#[export] Instance closes_preorder : PreOrder closes.
Proof.
  split; [intros s; repeat split; by left|].
  intros s1 s2 s3 (A1 & A2 & A3 & A4) (B1 & B2 & B3 & B4). repeat (split; [congruence|]).
  destruct B4 as [[-> ->]|B4]; [|by right]. exact A4.
Qed.

Lemma framed_closes {A} (m : Act Runner A) : Ensures frame0 any m -> Ensures closes any m.
Proof. apply ensures_rel. intros s s' (A1 & A2 & A3 & A4 & A5). repeat (split; [done|]). by left. Qed.

Lemma keeps_close u o : Ensures keeps any (close u o).
Proof.
  assert (forall s, rn_final_settle s = None -> forall s', closes s s' -> keeps s s') as Hk.
  { intros s Hn s' (A1 & A2 & A3 & A4). unfold keeps, runner_ok, cap. rewrite A1, A2, A3, Hn.
    split; [reflexivity|]. split; [done|]. intros [Hp Hc]. split; [|apply Z.le_refl].
    split; [exact Hp|]. destruct A4 as [[-> ->]|[H1 ->]]; [by rewrite Hn|done]. }
  unfold close. apply ensures_read. intros s.
  destruct (rn_final_settle s) as [v|] eqn:Ef; [by split; [reflexivity|]|].
  match goal with |- context [pbind (pmodify set_closing) ?k] =>
    assert (Ensures closes any (pbind (pmodify set_closing) k)) as Hc end.
  - ensures_step; [by apply framed_closes, frame_modify|].
    do 5 (ensures_step; [apply framed_closes; ensures|]).
    ensures_step; [apply framed_closes; ensures|]. ensures_step; [|by ensures].
    apply ensures_modify. intros st. repeat (split; [done|]). by right.
  - destruct (Hc s) as [H _]. split; [by apply Hk|]. by destruct (fst _).
Qed.

Lemma keeps_socket c m : Ensures keeps any (socket_event c m).
Proof.
  assert (Ensures keeps any (listener_ends c)) as Hl.
  { unfold listener_ends. ensures_step; [ensures|]. ensures_step.
    - destruct (_ && _); [|by ensures_step]. ensures_step.
      ensures_step; [apply keeps_close|by ensures_step].
    - apply framed_keeps, frame_modify. by repeat split. }
  unfold socket_event, handle_ws_message, on_session_balance_dict. pose proof (keeps_on_balance c).
  ensures_step; [ensures|].
  repeat first [ensures_step | exact Hl | by ensures].
Qed.

Lemma keeps_op c op : Ensures keeps any (run_op c op).
Proof.
  destruct op; cbn [run_op].
  - apply framed_keeps. ensures.
  - apply framed_keeps. ensures_step; [apply frame_runner_status|by ensures_step].
  - apply keeps_on_balance.
  - unfold on_session_balance_dict. ensures_step; [ensures|apply keeps_on_balance].
  - apply keeps_socket.
  - ensures_step; [apply keeps_close|by ensures_step].
  - unfold leave. ensures_step; [ensures|]. ensures_step; [by ensures_step|].
    ensures_step; [apply keeps_close|by ensures_step].
Qed.

Lemma keeps_ops c l : Ensures keeps any (run_ops c l).
Proof.
  induction l as [|op l IH]; cbn [run_ops]; [by ensures_step|].
  ensures_step; [ensures_step; apply keeps_op|exact IH].
Qed.

End frame.

(** ** A refill in progress *)

Section pending.
Context {W : Type} {T : SdkText} {V : SdkWorld W} (c : RunnerConfig (Logged W)).
Local Abbreviation Runner := (RunnerState (Logged W)).

(** Callbacks that send nothing through the SDK. *)
Definition silent_callback {E} (o : option (Callback (W := Logged W) E)) : Prop :=
  match o with Some f => forall e, silent (f e) | None => True end.
Definition silent_config : Prop :=
  silent_callback (rc_on_refill_succeeded c) /\ silent_callback (rc_on_refill_refused c) /\
  silent_callback (rc_on_winddown_warning c).

(** The top-up of the broker's session [b] with the service's refill [r]. *)
Definition tops_up (b : BrokerSession) (r : value) (rq : Request) : Prop :=
  exists d id authorization proof,
    r = VObj d /\ vfind "request_id" d = Some id /\
    vget "spend_authorization" d = VStr authorization /\
    rq = MkRequest Broker "POST" (bc_topup_url (br_control b))
           [bearer b; ("Livepeer-Request-Id", to_str id); ("Livepeer-Authorization", authorization);
            ("Livepeer-Caller-Proof", proof)] []
           (Content (String.list_byte_of_string "{}")).

Context (b : BrokerSession) (r : value) (Hsilent : silent_config).

(** A runner whose session is [b] and which holds the grant [r]. *)
Definition holding (s : Runner) : Prop :=
  rn_broker_session s = Some b /\ rn_pending_refill s = Some r /\
  silent_signer (Some (sh_sign_caller_proof (rn_handle s))).

(** It still does, and sent nothing but that top-up; or the refill is done. *)
Definition resumes (s s' : Runner) : Prop :=
  holding s -> holding s' /\ evolves (tops_up b r) (rn_client s) (rn_client s').
Definition carried (s s' : Runner) : Prop :=
  holding s -> evolves (tops_up b r) (rn_client s) (rn_client s') /\
    (rn_pending_refill s' = Some r \/
     (rn_pending_refill_key s' = None /\ rn_pending_refill s' = None /\
      rn_pending_refill_proof s' = None /\ rn_pending_refill_max_total_units s' = None)).

#[export] Instance resumes_rel : RunnerRel resumes (evolves (tops_up b r)).
Proof.
  split; [split|..].
  - intros s Hs. by split; [|reflexivity].
  - intros s1 s2 s3 H1 H2 [Hs Hc1]%H1. apply H2 in Hs as [Hs Hc2]. split; [done|by etrans].
  - intros cl s Hc Hs. by split.
  - intros ? l s Hs. by split; [|reflexivity].
Qed.

Lemma resumes_carried s s' : resumes s s' -> carried s s'.
Proof. intros H [Hs Hc]%H. split; [done|left; apply Hs]. Qed.

Lemma resumes_then_carried s1 s2 s3 : resumes s1 s2 -> carried s2 s3 -> carried s1 s3.
Proof. intros H1 H2 [Hs Hc1]%H1. apply H2 in Hs as [Hc2 Hp]. split; [by etrans|done]. Qed.

Lemma resumes_modify (f : Runner -> Runner) :
  (forall s, rn_client (f s) = rn_client s /\ rn_broker_session (f s) = rn_broker_session s /\
     rn_pending_refill (f s) = rn_pending_refill s /\
     sh_sign_caller_proof (rn_handle (f s)) = sh_sign_caller_proof (rn_handle s)) ->
  Ensures resumes any (pmodify f).
Proof.
  intros Hf. apply ensures_modify. intros s. destruct (Hf s) as (H1 & H2 & H3 & H4).
  unfold resumes, holding. rewrite H1, H2, H3, H4. intros Hs. by split; [|reflexivity].
Qed.

Lemma resumes_client {A} (m : SdkBase.Act (ClientState (Logged W)) A) :
  Ensures (evolves (tops_up b r)) any m -> Ensures resumes any (with_client m).
Proof. intros Hm. eapply follows_client; [typeclasses eauto|done]. Qed.

Lemma resumes_fire {E} (cb : option (Callback E)) e :
  silent_callback cb -> Ensures resumes any (fire cb e).
Proof.
  intros Hs. eapply follows_fire; [typeclasses eauto|]. intros f ->. apply ensures_at_world, Hs.
Qed.

Lemma resumes_key : Ensures resumes any pending_key.
Proof.
  unfold pending_key. ensures_step; [ensures|]. ensures_step; [by ensures_step|].
  ensures_step; [apply resumes_client, ensures_fresh_id|]. ensures_step; [|by ensures_step].
  apply resumes_modify. by intros.
Qed.

(** With a grant in hand none is asked for. *)
Lemma holding_grant obs max s o s' :
  holding s -> grant_refill c obs max s = (o, s') ->
  resumes s s' /\ (o = Returned (Some r) \/ exists x, o = Raised x).
Proof.
  intros Hs. unfold grant_refill. unfold pbind at 1. destruct (resumes_key s) as [Hk _].
  destruct (pending_key s) as [[key|x] s1]; cbn in Hk; [|intros [= <- <-]; by eauto].
  destruct (Hk Hs) as [(H1 & H2 & H3) _]. unfold pbind, pget. rewrite H2. intros [= <- <-]. eauto.
Qed.

Lemma resumes_get {A} (f : Runner -> Act Runner A) :
  (forall s, holding s -> Ensures resumes any (f s)) -> Ensures resumes any (pbind pget f).
Proof.
  intros Hf. apply ensures_read. intros s. unfold pget. cbn. split.
  - intros Hs. by apply (Hf s Hs s).
  - by destruct (fst (f s s)).
Qed.

Lemma resumes_topup : Ensures resumes any (post_topup b r).
Proof.
  unfold post_topup, broken.
  apply (ensures_bind _ (fun id => exists d, r = VObj d /\ vfind "request_id" d = Some id)).
  { unfold get_item. destruct r as [| | | | | |d]; try (apply ensures_throw; typeclasses eauto).
    ensures_step. by exists d. }
  intros id (d & Hd & Hid). ensures_step; [ensures|]. ensures_step; [ensures|].
  apply (ensures_bind _ (fun v => v = vget "spend_authorization" d)).
  { rewrite Hd. cbn. by ensures_step. }
  intros v Hv. destruct v as [| | | |text| |]; try (apply ensures_throw; typeclasses eauto).
  apply resumes_get. intros s (_ & _ & Hsign).
  ensures_step; [by apply resumes_client, ensures_caller_proof|].
  ensures_step; [|ensures]. ensures_step; [by apply resumes_modify|].
  apply resumes_client, ensures_send; [done|]. by exists d, id, text, s0.
Qed.

Lemma resumes_winddown x : Ensures resumes any (winddown c x).
Proof. apply resumes_fire, Hsilent. Qed.

Lemma carried_done : Ensures carried any refill_done.
Proof. apply ensures_modify. intros s Hs. split; [reflexivity|]. by right. Qed.

Ltac carried_step tac :=
  eapply ensures_last; [exact resumes_carried|exact resumes_then_carried|tac|intros ?].

Lemma carried_finish max : Ensures carried any (finish_refill c b r max).
Proof.
  unfold finish_refill.
  carried_step ltac:(apply resumes_topup). do 4 (carried_step ltac:(ensures)).
  assert (Ensures carried any (broken (S := Runner) (A := unit)
    "wholesale refill is missing authorization credentials")) as Hx
    by (intros st; split; [apply resumes_carried; reflexivity|done]).
  destruct a2; try exact Hx. destruct (rn_pending_refill_proof _); [|exact Hx].
  carried_step ltac:(by apply resumes_modify).
  carried_step ltac:(repeat first [apply resumes_winddown | ensures_step | by ensures]).
  do 4 (carried_step ltac:(ensures)). carried_step ltac:(apply resumes_fire, Hsilent).
  apply carried_done.
Qed.

Lemma carried_refill obs max s : carried s (snd (refill c obs max s)).
Proof.
  intros Hs. pose proof Hs as (Hb & _).
  assert (refill c obs max s = pbind (grant_refill c obs max) (fun granted =>
    match granted with None => pret tt | Some r => finish_refill c b r max end) s) as ->
    by (unfold refill, start, pbind at 1 2, pget at 1; by rewrite Hb).
  unfold pbind. destruct (grant_refill c obs max s) as [o s1] eqn:E.
  destruct (holding_grant _ _ _ _ _ Hs E) as [H1 [->|[x ->]]];
    [|exact (resumes_carried _ _ H1 Hs)].
  exact (resumes_then_carried _ _ _ H1 (proj1 (carried_finish max s1)) Hs).
Qed.

End pending.

(** ** The properties *)

Lemma new_runner_ok {W} (client : ClientState W) (h : SessionHandle W) :
  runner_ok (new_runner client h).
Proof. by split. Qed.

(** C20: A runner stays with its session. Whatever a program does with a runner, the socket brings,
    the broker and the service answer and the callbacks do, and whatever is raised on the way: its
    handle is of the session it was given, with a cap that never falls; a refill in progress knows
    the cap it was granted, so that it is never lost; and the final settlement, once there, stays,
    and is there exactly when the closed event is set. *)
Theorem runner_stays_with_its_session {W} {T : SdkText} {V : SdkWorld W} (c : RunnerConfig W)
    (ops : list RunnerOp) (s : RunnerState W) :
  runner_ok s ->
  let s' := snd (run_ops c ops s) in
  same_session (rn_handle s) (rn_handle s') /\
  sh_max_total_units (rn_handle s) <= sh_max_total_units (rn_handle s') /\
  runner_ok s' /\
  (forall v, rn_final_settle s = Some v ->
     rn_final_settle s' = Some v /\ close 0 None s' = (Returned v, s')).
Proof.
  intros Hs. destruct (keeps_ops c ops s) as [(H1 & H2 & H3) _]. destruct (H3 Hs) as [H4 H5].
  cbn zeta. split; [done|]. split; [done|]. split; [done|]. intros v Hv%H2. split; [done|].
  unfold close, pbind, pget. by rewrite Hv.
Qed.

Lemma runner_stays_with_its_session_witness :
  let s := demo_runner [answer 200 [] "refill"; answer 200 [] "{}"] in
  let s' := snd (run_ops demo_runner_config [OpBalance low_balance; OpLeave] s) in
  sh_max_total_units (rn_handle s') = 200 /\
  same_session (rn_handle s) (rn_handle s') /\
  sh_max_total_units (rn_handle s) <= sh_max_total_units (rn_handle s') /\
  runner_ok s' /\
  (forall v, rn_final_settle s = Some v ->
     rn_final_settle s' = Some v /\ close 0 None s' = (Returned v, s')).
Proof.
  split; [vm_compute; reflexivity|].
  apply (runner_stays_with_its_session demo_runner_config [OpBalance low_balance; OpLeave]
    (demo_runner [answer 200 [] "refill"; answer 200 [] "{}"])). split; [intros []|]; done.
Defined.

(** C31: The cap grows only by approval. A balance moves the cap of the handle only to the cap of a
    refill already granted, or to one that the approval callback answered with. *)
Theorem cap_grows_by_approval {W} {T : SdkText} {V : SdkWorld W} (c : RunnerConfig W)
    (b : SessionBalance) (s : RunnerState W) :
  let s' := snd (on_session_balance c b s) in
  sh_max_total_units (rn_handle s') <> sh_max_total_units (rn_handle s) ->
  (rn_pending_refill s <> None /\
   rn_pending_refill_max_total_units s = Some (sh_max_total_units (rn_handle s'))) \/
  (exists approve w,
     rn_pending_refill s = None /\ rc_approve_cap_extension c = Some approve /\
     fst (approve b w) = inl (Some (sh_max_total_units (rn_handle s'))) /\
     sh_max_total_units (rn_handle s) < sh_max_total_units (rn_handle s')).
Proof.
  cbn zeta. unfold on_session_balance. unfold pbind at 1, pget at 1. cbn.
  assert (forall m : Act (RunnerState W) unit, Ensures frame0 any m ->
    sh_max_total_units (rn_handle (snd (m s))) = sh_max_total_units (rn_handle s)) as Hf
    by (intros m Hm; destruct (Hm s) as [(-> & _) _]; done).
  do 4 (case_match; [intros []; apply Hf; try apply frame_winddown; ensures|]).
  destruct (rn_pending_refill s) as [r|] eqn:Ep.
  - destruct (rn_pending_refill_max_total_units s) as [max|]; [|intros []; apply Hf; unfold broken; ensures].
    intros Hn. left. split; [done|]. destruct (toward_refill c (sb_claimed_units b) max s)
      as [(_ & _ & _ & [E|E] & _) _]; unfold cap in E; [done|by rewrite E].
  - destruct (rc_approve_cap_extension c) as [approve|]; [|intros []; apply Hf, frame_winddown].
    rewrite bind_of_world.
    destruct (approve b (cl_world (rn_client s))) as [answer w] eqn:Ea. cbn [fst snd]. set (s1 := set_client _ s).
    destruct answer as [[max|]|name].
    + destruct (Z.leb_spec max (sh_max_total_units (rn_handle s))) as [|Hm]; [by intros []|].
      intros Hn. right. exists approve, (cl_world (rn_client s)). rewrite Ea.
      destruct (toward_refill c (sb_claimed_units b) max s1) as [(_ & _ & _ & [E|E] & _) _];
        unfold cap in E; [done|by rewrite E].
    + intros []. destruct (frame_winddown c "wholesale_cap_extension_declined" s1) as [(-> & _) _]. done.
    + by intros [].
Qed.

Lemma cap_grows_by_approval_witness :
  let s := demo_runner [answer 200 [] "refill"; answer 200 [] "{}"] in
  let s' := snd (on_session_balance demo_runner_config low_balance s) in
  (rn_pending_refill s <> None /\
   rn_pending_refill_max_total_units s = Some (sh_max_total_units (rn_handle s'))) \/
  (exists approve w,
     rn_pending_refill s = None /\ rc_approve_cap_extension demo_runner_config = Some approve /\
     fst (approve low_balance w) = inl (Some (sh_max_total_units (rn_handle s'))) /\
     sh_max_total_units (rn_handle s) < sh_max_total_units (rn_handle s')).
Proof.
  apply (cap_grows_by_approval demo_runner_config low_balance
    (demo_runner [answer 200 [] "refill"; answer 200 [] "{}"])). vm_compute. discriminate.
Defined.



(** ** Opening and leaving *)

Section opening.
Context {W : Type} {T : SdkText} {V : SdkWorld W}.
Local Abbreviation Client := (ClientState (Logged W)).
Local Abbreviation Runner := (RunnerState (Logged W)).

(** The request of the client's open, which commits to the bytes of a body. *)
Definition commits (body : bytes) (rq : Request) : Prop :=
  exists d, rq_via rq = Gateway /\ rq_method rq = "POST" /\ rq_url rq = "/v1/sessions" /\
    rq_body rq = JsonBody (VObj d) /\ vget "workload_request_digest" d = VStr (sha256_hex body).

Definition opened (o : outcome (SessionHandle (Logged W))) (l : list Request) : Prop :=
  match o with
  | Returned h => sh_session_open_body h <> [] /\
                  exists prepare opening, l = [prepare; opening] /\ commits (sh_session_open_body h) opening
  | Raised _ => True
  end.

Lemma open_body_nonempty v d : open_body v d <> [].
Proof. done. Qed.

Lemma ensures_axes v : Ensures (S := Client) (evolves nothing) any (session_axes_from_dict v).
Proof. unfold session_axes_from_dict, refuse_answer. ensures. Qed.

Lemma ensures_read_session a sign body data :
  (forall b, silent (sign b)) ->
  Ensures (S := Client) (evolves nothing) (fun h => sh_session_open_body h = body)
    (read_session a sign body data).
Proof.
  intros Hs. unfold read_session, refuse_answer, refuse_code. pose proof ensures_axes.
  do 7 (ensures_step; [ensures|]).
  ensures_step; [by apply (ensures_caller_proof nothing _ (Some sign))|].
  ensures_step; [|ensures]. ensures_step; [|ensures].
  do 11 (ensures_step; [ensures|]). by ensures_step.
Qed.

Lemma does_open a :
  silent_signer (sa_sign_caller_proof a) -> Does opened (sdk_open_session a).
Proof.
  intros Hs. unfold sdk_open_session.
  assert (Does (W := W) opened (throw XValue)) as Ht
    by (apply (does_ensures (fun _ => False)); [ensures|done|done]).
  destruct (sa_caller_public_key a) as [key|], (sa_sign_caller_proof a) as [sign|];
    [|exact Ht..]. cbn in Hs.
  apply (does_after any); [ensures|done|intros ? _].
  apply (does_after any); [ensures|done|intros request_id _].
  set (prepare := MkRequest Gateway "POST" "/v1/sessions/prepare"
    [("Idempotency-Key", request_id ++ ":prepare")%string] []
    (JsonBody (VObj [("capability", VStr (sa_capability a)); ("offering", VStr (sa_offering a));
                     ("descriptor_schema", VStr (sa_descriptor_schema a))]))).
  apply (does_bind (fun _ l => l = [prepare])); [|done|].
  { unfold sdk_prepare, gateway_post. apply (does_bind (fun _ l => l = [prepare]));
      [by apply does_send|done|]. intros r l ->. apply does_quiet; [ensures|done]. }
  intros prepared l ->. do 3 (apply (does_after any); [ensures|done|intros ? _]).
  unfold session_open_request, gateway_post. eapply does_bind; [by apply does_send|done|].
  intros r l ->. apply (does_after any); [ensures|done|intros data _].
  eapply does_after; [by apply ensures_read_session|done|]. intros h Hh.
  apply (does_ensures (fun h' => h' = h)); [ensures_step; [ensures|by ensures_step]|done|].
  intros h' ->. cbn. rewrite Hh. split; [apply open_body_nonempty|]. do 2 eexists. split; [done|].
  eexists. repeat split.
Qed.

(** The broker's open carries the body of the handle, under its authorization. *)
Definition opens (h : SessionHandle (Logged W)) (rq : Request) : Prop :=
  rq_via rq = Broker /\ rq_method rq = "POST" /\ rq_body rq = Content (session_body h) /\
  header "Livepeer-Authorization" (rq_headers rq) = Some (sh_spend_authorization h).

(** What the client of a runner may send. *)
Definition sending (P : Request -> Prop) (s s' : Runner) : Prop :=
  evolves P (rn_client s) (rn_client s').
#[export] Instance sending_rel P : RunnerRel (sending P) (evolves P).
Proof.
  split; [split|..].
  - intros s. unfold sending. reflexivity.
  - intros s1 s2 s3 H1 H2. unfold sending. by etrans.
  - by intros c s H.
  - intros b l s. unfold sending. cbn. reflexivity.
Qed.

Lemma sending_client P {A} (m : SdkBase.Act (ClientState (Logged W)) A) :
  Ensures (evolves P) any m -> Ensures (sending P) any (with_client m).
Proof. intros Hm. eapply follows_client; [typeclasses eauto|done]. Qed.

Lemma sending_modify P (f : Runner -> Runner) :
  (forall s, rn_client (f s) = rn_client s) -> Ensures (sending P) any (pmodify f).
Proof. intros Hf. apply ensures_modify. intros s. unfold sending. rewrite Hf. reflexivity. Qed.

Lemma sending_start P s :
  (forall rq, opens (rn_handle s) rq -> P rq) -> sending P s (snd (start s)).
Proof.
  intros HP. unfold start, pbind at 1, pget at 1.
  destruct (rn_broker_session s) as [b|]; [unfold sending; cbn; reflexivity|].
  match goal with |- sending _ _ (snd (?m s)) =>
    enough (Ensures (sending P) any m) as Hm by apply Hm end.
  unfold open_at_broker, header_text. ensures_step.
  { ensures_step; [ensures|]. ensures_step; [ensures|].
    apply sending_client, ensures_send; [done|]. by apply HP. }
  do 3 (ensures_step; [ensures|]). ensures_step; [by apply sending_modify|].
  ensures_step; [|by ensures_step].
  eapply follows_attach; [typeclasses eauto|apply ensures_pause|intros; apply ensures_at_world].
  apply silent_connect.
Qed.

(** What leaving sends: to the broker, and to the service a close of no units. *)
Definition leaves (rq : Request) : Prop :=
  rq_via rq = Broker \/
  exists url settlement, rq = MkRequest Gateway "POST" url [] []
    (JsonBody (VObj [("actual_units", VInt 0); ("settlement", VObj settlement)])).

Lemma sending_leave s : sending leaves s (snd (leave s)).
Proof.
  unfold leave, pbind at 1, pget at 1.
  destruct (rn_closed_event s); [unfold sending; cbn; reflexivity|].
  match goal with |- sending _ _ (snd (?m s)) =>
    enough (Ensures (sending leaves) any m) as Hm by apply Hm end.
  assert (forall m : Act Runner BrokerSession, m = start -> Ensures (sending leaves) any m) as Hstart.
  { intros m -> st. split; [|by destruct (fst (start st))].
    apply sending_start. intros rq (H & _). by left. }
  unfold close. ensures_step; [|by ensures_step]. ensures_step; [ensures|].
  ensures_step; [by ensures_step|]. ensures_step; [by apply sending_modify|].
  ensures_step; [by apply Hstart|].
  ensures_step; [apply sending_client, ensures_send; [done|by left]|].
  ensures_step; [ensures|]. ensures_step; [unfold end_settlement; ensures|].
  ensures_step; [unfold stop_listening; ensures_step; [ensures|]|].
  { ensures_step; [ensures_step; [apply sending_client, ensures_pause|by ensures_step]|].
    by apply sending_modify. }
  ensures_step; [|ensures_step; [by apply sending_modify|by ensures_step]].
  apply sending_client. unfold sdk_close_session, int_or_zero. ensures_step.
  { apply ensures_reporting. ensures_step; [|ensures].
    apply ensures_gateway_post. right. by do 2 eexists. }
  ensures.
Qed.

End opening.

(** C21: A session is opened as it was committed. When [open_session] returns a handle, the last
    request the data plane sent the service committed to the SHA-256 of the handle's body, and a
    runner started with the handle sends to the broker, besides telemetry, only that very body under
    the handle's authorization. *)
Theorem session_is_opened_as_committed {W} {T : SdkText} {V : SdkWorld W}
    (a : SessionArgs (Logged W)) (s s1 : ClientState (Logged W)) (h : SessionHandle (Logged W)) :
  silent_signer (sa_sign_caller_proof a) -> sdk_open_session a s = (Returned h, s1) ->
  let s2 := snd (start (new_runner s1 h)) in
  exists first second prepare opening,
    log s1 = log s ++ first /\ data first = [prepare; opening] /\
    commits (sh_session_open_body h) opening /\
    log (rn_client s2) = log s1 ++ second /\
    Forall (fun rq => rq_via rq = Broker /\ rq_body rq = Content (sh_session_open_body h) /\
              header "Livepeer-Authorization" (rq_headers rq) = Some (sh_spend_authorization h))
      (data second).
Proof.
  intros Hs E. pose proof (does_open a Hs s) as (tr & first & _ & Hl & Ho & _). rewrite E in Hl, Ho.
  destruct Ho as (Hb & prepare & opening & Hd & Hc).
  destruct (sending_start (opens h) (new_runner s1 h)) as (tr' & second & _ & Hl2 & Hd2 & _); [done|].
  exists first, second, prepare, opening. do 4 (split; [done|]).
  eapply Forall_impl; [exact Hd2|]. intros rq (H1 & _ & H2 & H3). split; [done|]. split; [|done].
  rewrite H2. unfold session_body. by destruct (sh_session_open_body h).
Qed.

Lemma session_is_opened_as_committed_witness :
  match sdk_open_session demo_session_args demo_session_client with
  | (Returned h, s1) =>
      let s2 := snd (start (new_runner s1 h)) in
      exists first second prepare opening,
        log s1 = log demo_session_client ++ first /\ data first = [prepare; opening] /\
        commits (sh_session_open_body h) opening /\
        log (rn_client s2) = log s1 ++ second /\
        Forall (fun rq => rq_via rq = Broker /\ rq_body rq = Content (sh_session_open_body h) /\
                  header "Livepeer-Authorization" (rq_headers rq) = Some (sh_spend_authorization h))
          (data second)
  | _ => False
  end.
Proof.
  pose proof demo_session_opens as Ho.
  destruct (sdk_open_session demo_session_args demo_session_client) as [[h|x] s1] eqn:E; [|discriminate].
  exact (session_is_opened_as_committed demo_session_args demo_session_client s1 h
    (fun _ _ => eq_refl) E).
Defined.
