(* ===== verification/SdkAgreement.v ===== *)
(** * The Python SDK and the service

    What the two sides of the wire make of each other: the service's errors as
    the SDK's exceptions, its refusal of what leaving a used session claims, and
    telemetry batches larger than it accepts. *)

From S2P Require Import Prelude PyData Errors Effects Store Payments Endpoints SettlementVerification SessionCore SessionSettle SessionFacts SessionProps.
From S2P Require Import Telemetry SdkBase SdkTelemetry SdkClient SdkRunner SdkFacts SdkProps SdkRunnerProps.
From Stdlib Require Import Strings.Byte Strings.Ascii.

Open Scope string_scope.
Open Scope Z_scope.
Open Scope list_scope.

(** ** Errors *)

(** The SDK's class of an error of the service. *)
Definition sdk_class (e : oc_error) : ErrorClass :=
  match e with
  | InsufficientCredit _ _ => ClsInsufficientCredit
  | SpendCapExceeded _ _ => ClsSpendCapExceeded
  | AccountNotApproved => ClsAccountNotApproved
  | NoRouteAvailable _ _ => ClsNoRouteAvailable
  | DaemonUnavailable _ _ => ClsDaemonUnavailable
  | DuplicateRequest => ClsDuplicateRequest
  | StoredError _ code _ _ => class_of_code CODE_MAP code
  | _ => ClsOpenClearinghouseError
  end.

(** The body of an error response, as the SDK parses it. *)
Definition error_body {R : Runtime} (e : oc_error) : vdict :=
  obj_or_empty (of_json (JObj (error_payload e))).

Lemma class_of_oc_code e : class_of_code CODE_MAP (oc_code e) = sdk_class e.
Proof. by destruct e. Qed.

Lemma v_or_str s v : str_truthy s = true -> v_or (VStr s) v = VStr s.
Proof. intros H. unfold v_or. cbn. by rewrite H. Qed.

(** C32: The service's errors are recognised. The envelope of any error of the service, with the
    status it is sent under, becomes the exception of its class, with its code, message and details
    as they were: credit, spend cap, approval, route, daemon and duplicate errors have classes of
    their own, every other one is of the base class. *)
Theorem service_errors_are_recognised {T : SdkText} {R : Runtime} (e : oc_error) (retry : option Z) :
  str_truthy (oc_code e) = true -> str_truthy (oc_message e) = true ->
  from_response (oc_status e) (error_body e) retry =
    MkSdkError (sdk_class e) (oc_message e) (Some (oc_code e)) (Some (oc_status e))
      (obj_or_empty (of_json (JObj (oc_details e))))
      (if decide (sdk_class e = ClsRateLimited) then retry else None).
Proof.
  intros Hc Hm. unfold from_response, error_body, error_payload. cbn -[v_or CODE_MAP class_of_code].
  rewrite !v_or_str by done. cbn -[v_or CODE_MAP class_of_code]. rewrite class_of_oc_code.
  f_equal. unfold v_or. by destruct (oc_details e).
Qed.

Lemma service_errors_are_recognised_witness :
  from_response 409 (error_body (R := demo_runtime) IdempotencyKeyReuse) None =
    MkSdkError ClsOpenClearinghouseError "This Idempotency-Key was already used with different content"
      (Some "IDEMPOTENCY_KEY_REUSE") (Some 409) [] None.
Proof. exact (service_errors_are_recognised (R := demo_runtime) IdempotencyKeyReuse None eq_refl eq_refl). Defined.

(** What a rate limit of the service answers. *)
Theorem rate_limits_are_recognised {T : SdkText} (retry : option Z) :
  from_response 429 [("detail", VStr "rate_limited")] retry =
    MkSdkError ClsRateLimited "rate_limited" (Some "rate_limited") (Some 429) [] retry.
Proof. done. Qed.

(** ** Leaving *)


(** ** Batches the service refuses *)

Definition small_event : Event := MkEvent "request.completed" 1 None "" [].

Lemma append_many n e :
  em_closed e = false -> (length (em_buffer e) + n <= em_buffer_cap e)%nat ->
  exists tr e', em_trace tr e e' /\ em_buffer e' = em_buffer e ++ repeat small_event n /\
    em_buffer_cap e' = em_buffer_cap e /\ em_closed e' = false.
Proof.
  revert e. induction n as [|n IH]; intros e Hc Hn.
  { exists [], e. rewrite app_nil_r. by split; [constructor|]. }
  set (e1 := append_event small_event e).
  assert (em_step (Appends small_event) e e1) as Hs by by constructor.
  assert (em_buffer e1 = em_buffer e ++ [small_event]) as Hb.
  { unfold e1. rewrite append_buffer. unfold deque_append. rewrite length_app. cbn.
    by replace (length (em_buffer e) + 1 - em_buffer_cap e)%nat with 0%nat by lia. }
  destruct (IH e1) as (tr & e' & Ht & Hb' & Hcap & Hc').
  - unfold e1. by rewrite append_closed.
  - rewrite Hb, (step_cap _ _ _ Hs), length_app. cbn. lia.
  - exists (Appends small_event :: tr), e'. split; [by econstructor|]. split; [|split; [|done]].
    + rewrite Hb', Hb, <- app_assoc. done.
    + by rewrite Hcap, (step_cap _ _ _ Hs).
Qed.

(** A slow service lets the buffer grow past the largest batch it takes; the
    batch is sent whole, refused, and not sent again. *)
Theorem oversized_batches_are_lost {W} {R : Runtime} api_key user (events : list IngestEventIn)
    enrichment per_event (s : St DB W) :
  (exists tr e b, em_trace tr new_emitter e /\ b ∈ batches tr /\ (MAX_BATCH_SIZE < length b)%nat) /\
  ((MAX_BATCH_SIZE < length events)%nat ->
   fst (ingest_batch api_key user events enrichment per_event s) = Err BatchTooLarge) /\
  (forall h c, settled_answer (Answered (MkResponse 413 h c)) = true).
Proof.
  split; [|split; [|done]].
  - destruct (append_many 1001 new_emitter) as (tr & e & Ht & Hb & _ & _); [done|cbn; lia|].
    exists (tr ++ [Drains (em_buffer e)]), (drained e), (em_buffer e).
    split; [|split].
    + eapply trace_app; [exact Ht|]. apply trace_one, step_drain; cbn; try done; [by rewrite Hb|by left].
    + rewrite batches_app. cbn. set_solver.
    + rewrite Hb. cbn [em_buffer new_emitter app]. rewrite repeat_length. unfold MAX_BATCH_SIZE. lia.
  - intros Hn. unfold ingest_batch. rewrite bind_guard.
    by rewrite (proj2 (Nat.leb_gt _ _) Hn).
Qed.

(** ** The key of a refused refill *)

(** The idempotency keys and bodies of the refills a runner asked the service
    for. *)
Definition refills_asked (l : list Request) : list (option string * Body) :=
  map (fun rq => (header "Idempotency-Key" (rq_headers rq), rq_body rq))
    (List.filter (fun rq => match rq_via rq with Gateway => negb (is_flush rq) | Broker => false end) l).

(** After the service refused a refill, the next one goes out under the same
    idempotency key with another body, which the service answers with
    [IdempotencyKeyReuse]. *)
Example refused_refill_reuses_its_key :
  let s1 := snd (on_session_balance demo_runner_config low_balance
                   (demo_runner [answer 402 [] ""; answer 200 [] "refill"; answer 200 [] "{}"])) in
  let s2 := snd (on_session_balance demo_runner_config
                   (MkSessionBalance "low" 98 98 "tokens" 2 None false) s1) in
  match refills_asked (log (rn_client s2)) with
  | [(Some k1, b1); (Some k2, b2)] => k1 = k2 /\ b1 <> b2
  | _ => False
  end.
Proof. vm_compute. split; [reflexivity|discriminate]. Qed.
