(* ===== verification/Ingress.v ===== *)
(** * What stands before the handlers

    [providers/http/gzip_request.py], the middleware that decompresses request
    bodies, as the SDK's telemetry meets it; and the meta endpoints of
    [main.py]: readiness ([providers/readiness.py], [providers/db/schema.py])
    and the guard of the metrics. *)

From S2P Require Import Prelude PyData Codecs Errors Effects Store Settings Payments Credentials Accounts Operators.
From S2P Require Import SdkBase SdkTelemetry SdkFacts.
From Stdlib Require Import Strings.Byte Strings.Ascii.

Open Scope string_scope.
Open Scope Z_scope.
Open Scope loc_scope.

(** ** Requests as the server hands them over *)

(** A message of [receive]; a key that is missing is [None]. *)
Record Message := MkMessage {
  ms_type : string;
  ms_body : option bytes;
  ms_more_body : option bool;
}.

(** The scope of a request; header text is Latin-1, one character per byte. *)
Record Scope := MkScope {
  sp_type : string;
  sp_path : string;
  sp_headers : option (list (string * string));
}.

(** [gzip.decompress]: the data, an [OSError], or another exception. *)
Inductive Decompressed := Plain (b : bytes) | GzipOSError | GzipRaises (name : string).
Class GzipLib := { gz_decompress : bytes -> Decompressed }.

(** What decompressing does to what was compressed. *)
Class GzipLaws (T : SdkText) (G : GzipLib) := {
  gzip_law : forall b, gz_decompress (sx_gzip b) = Plain b;
}.

(** [str.strip()] on Latin-1 text. *)
Definition is_latin1_space (a : ascii) : bool :=
  is_str_space a || (N_of_ascii a =? 133)%N || (N_of_ascii a =? 160)%N.
Fixpoint lstrip_latin1 (s : string) : string :=
  match s with
  | String a s' => if is_latin1_space a then lstrip_latin1 s' else s
  | EmptyString => EmptyString
  end.
Definition strip_latin1 (s : string) : string :=
  str_rev (lstrip_latin1 (str_rev (lstrip_latin1 s))).

Definition is_gzip_header (kv : string * string) : bool :=
  String.eqb (str_lower (fst kv)) "content-encoding"
  && String.eqb (str_lower (strip_latin1 (snd kv))) "gzip".

Definition is_gzipped (sc : Scope) : bool :=
  existsb is_gzip_header (or_else (sp_headers sc) []).

(** The loop that buffers a body; [None] waits for a message that never comes. *)
Fixpoint buffered (acc : bytes) (messages : list Message) : option bytes :=
  match messages with
  | [] => None
  | m :: rest =>
      let body := (acc ++ or_else (ms_body m) [])%list in
      if or_else (ms_more_body m) false then buffered body rest else Some body
  end.

Definition length_headers : list string := ["content-encoding"; "content-length"].
Definition kept_header (kv : string * string) : bool :=
  negb (existsb (String.eqb (str_lower (fst kv))) length_headers).

(** The scope of the decompressed request. *)
Definition decoded_scope (decompressed : bytes) (sc : Scope) : Scope :=
  MkScope (sp_type sc) (sp_path sc)
    (Some (List.filter kept_header (or_else (sp_headers sc) [])
           ++ [("content-length", str_Z (Z.of_nat (length decompressed)))])%list).

(** [_receive]: the body, once, then the end of the connection. *)
Definition replay_receive (decompressed : bytes) (sent : bool) : Message * bool :=
  if sent then (MkMessage "http.disconnect" None None, true)
  else (MkMessage "http.request" (Some decompressed) (Some false), true).

(** What becomes of a request: it is passed on as it came, or decoded; an
    exception escapes; or the middleware waits. *)
Inductive Handed :=
  | Passed (sc : Scope) (messages : list Message)
  | Decoded (sc : Scope) (body : bytes)
  | Escaped (name : string)
  | Waits.

Section gzip.
Context {G : GzipLib}.

(** [GzipRequestMiddleware.__call__]. *)
Definition gzip_request_middleware (sc : Scope) (messages : list Message) : Handed :=
  if negb (String.eqb (sp_type sc) "http") || negb (is_gzipped sc) then Passed sc messages else
  match buffered [] messages with
  | None => Waits
  | Some body =>
      match gz_decompress body with
      | Plain decompressed => Decoded (decoded_scope decompressed sc) decompressed
      | GzipOSError => Decoded (decoded_scope body sc) body
      | GzipRaises name => Escaped name
      end
  end.

End gzip.

(** The scope an application gets, and the body it reads from [receive]. *)
Definition app_scope (h : Handed) : option Scope :=
  match h with Passed sc _ | Decoded sc _ => Some sc | _ => None end.
Definition app_body (h : Handed) : option bytes :=
  match h with
  | Passed _ messages => buffered [] messages
  | Decoded _ body => buffered [] [fst (replay_receive body false)]
  | _ => None
  end.

(** ** Facts *)

(** The chunks a server may cut a body into. *)
Inductive cut_into : bytes -> list Message -> Prop :=
  | cut_last b :
      cut_into b [MkMessage "http.request" (Some b) (Some false)]
  | cut_more b b' messages :
      cut_into b' messages ->
      cut_into (b ++ b') (MkMessage "http.request" (Some b) (Some true) :: messages).

Lemma cut_into_buffered b messages rest acc :
  cut_into b messages -> buffered acc (messages ++ rest) = Some (acc ++ b)%list.
Proof.
  intros H. revert acc. induction H as [b|b b' messages _ IH]; intros acc; cbn; [done|].
  by rewrite IH, <-app_assoc.
Qed.

(** Headers none of which is one that the middleware looks at. *)
Definition plain_header (kv : string * string) : Prop :=
  str_lower (fst kv) <> "content-encoding".

Lemma plain_not_gzip l : Forall plain_header l -> existsb is_gzip_header l = false.
Proof.
  induction 1 as [|[k v] l H _ IH]; [done|]. cbn. rewrite IH.
  unfold is_gzip_header, plain_header in *. cbn in *.
  by rewrite (proj2 (String.eqb_neq _ _) H).
Qed.

(** A decoded request says how long it is, and no longer that it is encoded. *)
Definition header_says (k v : string) (sc : Scope) : Prop :=
  forall kv, kv ∈ or_else (sp_headers sc) [] -> str_lower (fst kv) = k -> snd kv = v.

Lemma decoded_scope_headers body sc kv :
  kv ∈ or_else (sp_headers (decoded_scope body sc)) [] ->
  (kv ∈ or_else (sp_headers sc) [] /\ kept_header kv = true) \/
  kv = ("content-length", str_Z (Z.of_nat (length body))).
Proof.
  cbn. rewrite elem_of_app, list_elem_of_singleton, !list_elem_of_In, filter_In. tauto.
Qed.

Lemma decoded_length body sc :
  header_says "content-length" (str_Z (Z.of_nat (length body))) (decoded_scope body sc).
Proof.
  intros kv [[_ H]| ->]%decoded_scope_headers Hk; [|done]. unfold kept_header in H.
  by rewrite Hk in H.
Qed.

Lemma decoded_plain body sc : Forall plain_header (or_else (sp_headers (decoded_scope body sc)) []).
Proof.
  apply Forall_forall. intros kv [[_ H]| ->]%decoded_scope_headers; [|done].
  intros Hk. unfold kept_header in H. by rewrite Hk in H.
Qed.

(** What the middleware makes of a complete body. *)
Lemma middleware_plain {G : GzipLib} sc messages :
  existsb is_gzip_header (or_else (sp_headers sc) []) = false ->
  gzip_request_middleware sc messages = Passed sc messages.
Proof. intros H. unfold gzip_request_middleware, is_gzipped. rewrite H. by rewrite orb_true_r. Qed.

Lemma middleware_gzipped {G : GzipLib} sc messages body plain :
  sp_type sc = "http" -> is_gzipped sc = true -> buffered [] messages = Some body ->
  gz_decompress body = Plain plain ->
  gzip_request_middleware sc messages = Decoded (decoded_scope plain sc) plain.
Proof. intros Ht Hg Hb Hp. unfold gzip_request_middleware. by rewrite Ht, Hg, Hb, Hp. Qed.

(** The text of a batch. *)
Definition batch_bytes {T : SdkText} (batch : list Event) : bytes :=
  String.list_byte_of_string
    (vdumps ", " ": " json_escape_ascii (VObj [("events", VArr (map event_value batch))])).
Arguments batch_bytes : simpl never.

(** ** The service behind the middleware *)

(** A request as the server hands it over: its own headers among others. *)
Definition scope_of (rq : Request) (others : list (string * string)) : Scope :=
  MkScope "http" (rq_url rq) (Some (rq_headers rq ++ others)%list).
Definition content_of (rq : Request) : bytes :=
  match rq_body rq with Content b => b | _ => [] end.

(** C40: A flushed batch arrives. Whatever the SDK flushes, compressed or not, and however the server
    cuts it into messages and whatever follows them: behind the middleware the application reads
    the JSON text of that very batch, of a request that does not claim an encoding and, if it was
    decoded, gives the length of the text. *)
Theorem flushed_batches_arrive {T : SdkText} {G : GzipLib} {L : GzipLaws T G}
    (e : TelemetryEmitter) (batch : list Event) (others : list (string * string))
    (messages rest : list Message) :
  Forall plain_header others ->
  cut_into (content_of (flush_request e batch)) messages ->
  let h := gzip_request_middleware (scope_of (flush_request e batch) others) (messages ++ rest) in
  app_body h = Some (batch_bytes batch) /\
  exists sc, app_scope h = Some sc /\ sp_path sc = em_endpoint e /\
    Forall plain_header (or_else (sp_headers sc) []) /\
    ((em_gzip_threshold e < length (batch_bytes batch))%nat ->
     header_says "content-length" (str_Z (Z.of_nat (length (batch_bytes batch)))) sc).
Proof.
  intros Ho Hc. unfold flush_request in *. fold (batch_bytes batch) in *. cbv zeta in *.
  destruct (Nat.ltb_spec (em_gzip_threshold e) (length (batch_bytes batch))) as [Hl|Hl].
  - erewrite middleware_gzipped; [|done|done|apply (cut_into_buffered _ _ rest [] Hc)|apply gzip_law].
    split; [done|]. eexists. split; [done|]. split; [done|].
    split; [apply decoded_plain|intros _; apply decoded_length].
  - rewrite middleware_plain by (apply plain_not_gzip; by constructor).
    split; [exact (cut_into_buffered _ _ rest [] Hc)|].
    eexists. split; [done|]. split; [done|]. split; [by constructor|lia].
Qed.

(** Bytes that stand for themselves, and an event, to evaluate on. *)
#[local] Instance stored : GzipLib := { gz_decompress b := Plain b }.
#[local] Instance stored_laws : GzipLaws demo_text stored.
Proof. split. reflexivity. Defined.

Definition demo_event : Event := MkEvent "request.error" 1 None "2026-01-01T00:00:00+00:00" [].
Definition eager_emitter : TelemetryEmitter :=
  MkEmitter "/v1/telemetry" 100 1000 3 10 [] 0 false false NotStarted.
Definition two_chunks (b : bytes) : list Message :=
  [MkMessage "http.request" (Some (take 5 b)) (Some true);
   MkMessage "http.request" (Some (drop 5 b)) (Some false)].

Lemma two_chunks_cut b : cut_into b (two_chunks b).
Proof. rewrite <-(take_drop 5 b) at 1. do 2 constructor. Qed.

Lemma flushed_batches_arrive_witness :
  let h := gzip_request_middleware
    (scope_of (flush_request eager_emitter [demo_event]) [("host", "loc")])
    (two_chunks (content_of (flush_request eager_emitter [demo_event])) ++ []) in
  app_body h = Some (batch_bytes [demo_event]) /\
  exists sc, app_scope h = Some sc /\ sp_path sc = "/v1/telemetry" /\
    Forall plain_header (or_else (sp_headers sc) []) /\
    ((10 < length (batch_bytes [demo_event]))%nat ->
     header_says "content-length" (str_Z (Z.of_nat (length (batch_bytes [demo_event])))) sc).
Proof.
  apply (flushed_batches_arrive eager_emitter [demo_event] [("host", "loc")]).
  - constructor; [discriminate|constructor].
  - apply two_chunks_cut.
Defined.

(** A compressed body the decompressor refuses with anything but an [OSError]
    takes the request down, whatever the handler would have made of it; with an
    [OSError] the handler gets the bytes as they came. *)
Lemma malformed_gzip {G : GzipLib} sc messages body :
  sp_type sc = "http" -> is_gzipped sc = true -> buffered [] messages = Some body ->
  match gz_decompress body with
  | GzipRaises name => gzip_request_middleware sc messages = Escaped name
  | GzipOSError => app_body (gzip_request_middleware sc messages) = Some body
  | Plain _ => True
  end.
Proof.
  intros Ht Hg Hb. unfold gzip_request_middleware. rewrite Ht, Hg, Hb. cbn.
  by destruct (gz_decompress body).
Qed.

(** ** Readiness and metrics *)

Definition EXPECTED_ALEMBIC_REVISION : string := "0029".

(** The schema table and the health calls, with their two-second limits. *)
Class ProbeWorld (W : Type) := {
  pw_version_num : W -> res (option string) * W;
  pw_payment_health : W -> res bool * W;
  pw_registry_health : W -> res bool * W;
}.

Record ReadinessResult := MkReadinessResult {
  rr_revision : option string;
  rr_database : bool;
  rr_schema : bool;
  rr_payment_daemon : bool;
  rr_registry_daemon : bool;
}.

(** [ReadinessResult.ready]. *)
Definition ready (r : ReadinessResult) : bool :=
  rr_database r && rr_schema r && rr_payment_daemon r && rr_registry_daemon r.

Section probes.
Context {W : Type} {R : Runtime} {P : ProbeWorld W}.
Local Abbreviation M := (M DB W).

(** [current_alembic_revision]. *)
Definition current_alembic_revision : M (option string) := remote pw_version_num.

(** A check that failed counts as negative. *)
Definition probe (call : W -> res bool * W) : M bool :=
  try_except (remote call) (fun _ => Some (ret false)).

(** [check_readiness]. *)
Definition check_readiness : M ReadinessResult :=
  '(revision, database) <- try_except
    (revision <- current_alembic_revision ;; ret (revision, true))
    (fun _ => Some (ret (None, false))) ;;
  payment_daemon <- probe pw_payment_health ;;
  registry_daemon <- probe pw_registry_health ;;
  ret (MkReadinessResult revision database
         (database && bool_decide (revision = Some EXPECTED_ALEMBIC_REVISION))
         payment_daemon registry_daemon).

(** [GET /ready]: its status and its checks. *)
Definition ready_endpoint : M (Z * ReadinessResult) :=
  result <- check_readiness ;; ret (if ready result then 200 else 503, result).

(** [require_compatible_schema]. *)
Definition require_compatible_schema : M unit :=
  revision <- current_alembic_revision ;;
  guard (bool_decide (revision = Some EXPECTED_ALEMBIC_REVISION))
    (RuntimeErr ("incompatible database schema: expected " ++ EXPECTED_ALEMBIC_REVISION
                 ++ ", found " ++ or_else revision "None")).

(** [lifespan], up to the background tasks. *)
Definition startup (settings : Settings) : M unit :=
  (if negb (String.eqb (cfg_app_env settings) "dev")
   then session_scope require_compatible_schema else ret tt) ;;;
  match cfg_admin_bootstrap_token settings with
  | Some token => _ <- session_scope (ensure_bootstrap_operator token) ;; ret tt
  | None => ret tt
  end.

(** [hmac.compare_digest] of two strings, which must be ASCII. *)
Definition compare_digest (a b : string) : res bool :=
  if str_forallb is_ascii a && str_forallb is_ascii b then Ok (String.eqb a b) else Err TypeError.

(** The guard of [GET /metrics]. *)
Definition metrics_guard (settings : Settings) (authorization : option string) : res unit :=
  match authorization with
  | None => Err (HTTPException 401 "Unauthorized")
  | Some given =>
      let? same := compare_digest given ("Bearer " ++ cfg_metrics_token settings) in
      require same (HTTPException 401 "Unauthorized")
  end.

End probes.

(** Readiness never fails: it answers 200 exactly when the schema is the one
    this build expects and both daemons say they are well, otherwise 503, and
    the checks it reports are those. *)
Lemma ready_endpoint_total {W} {R : Runtime} {P : ProbeWorld W} (s : St DB W) :
  exists code result s', ready_endpoint s = (Ok (code, result), s') /\
    (code = 200 <-> rr_revision result = Some EXPECTED_ALEMBIC_REVISION /\
                    rr_payment_daemon result = true /\ rr_registry_daemon result = true) /\
    (code = 200 \/ code = 503).
Proof.
  unfold ready_endpoint, check_readiness, current_alembic_revision, probe, try_except, remote, bind, ret.
  destruct (pw_version_num _) as [[revision|x] w]; cbn;
    (destruct (pw_payment_health _) as [[[]|] w']; cbn;
     (destruct (pw_registry_health _) as [[[]|] w'']; cbn;
      do 3 eexists; (split; [done|]); unfold ready; cbn; try case_bool_decide; naive_solver)).
Qed.

(** The guard of the metrics: only the exact token passes; a credential that is
    not ASCII is an error of its own. *)
Lemma metrics_guard_spec (settings : Settings) (authorization : option string) :
  str_forallb is_ascii ("Bearer " ++ cfg_metrics_token settings) = true ->
  metrics_guard settings authorization =
    match authorization with
    | Some given => if decide (given = "Bearer " ++ cfg_metrics_token settings)%string then Ok tt
                    else if str_forallb is_ascii given then Err (HTTPException 401 "Unauthorized")
                    else Err TypeError
    | None => Err (HTTPException 401 "Unauthorized")
    end.
Proof.
  intros Ht. unfold metrics_guard, compare_digest. destruct authorization as [given|]; [|done].
  rewrite Ht, andb_true_r. case_decide as Hd; [subst; by rewrite Ht; cbn; rewrite String.eqb_refl|].
  destruct (str_forallb is_ascii given); [|done]. cbn. by rewrite (proj2 (String.eqb_neq _ _) Hd).
Qed.
